(* ===== verification/_CoqProject ===== *)
-Q . S2P
Prelude.v
Itoa.v
Util.v
Base64.v
CacheObj.v
Bipbuf.v
Hashes.v
StatsPrefix.v
State.v
Keeps.v
Links.v
Queues.v
Assoc.v
AssocSpec.v
AssocThm.v
Slabs.v
SlabsSpec.v
SlabsThm.v
Items.v
ItemsSpec.v
ItemsAccess.v
ItemsThm.v
ItemsPull.v
ItemsAlloc.v
Rebalance.v
RebalanceThm.v
RebalanceFin.v
Store.v
StoreThm.v
SlabAutomove.v
SlabAutomoveThm.v
Locks.v
Tokens.v
TokensThm.v
Conn.v
ProtoText.v
ProtoCmd.v
ProtoBin.v
Machine.v
Drive.v
Wire.v
Desk.v
Crawler.v
CrawlerThm.v
DumpThm.v
CrawlRun.v
CrawlStart.v
Metadump.v
DriveThm.v
StreamThm.v
MachineThm.v
CommandThm.v
GetThm.v
ProtoBinThm.v
StoreCmdThm.v
SetThm.v
ValueThm.v
BinStoreThm.v
