(* ===== verification/Prelude.v ===== *)
(** * A verification development of the memcached server core

    The program is a memcached server whose network layer runs on mTCP. Its core
    is a cache: a hash table of items ([assoc.c]), the memory they live in
    ([slabs.c]), the LRU queues that decide what to evict ([items.c]), and on top
    of them the storage commands ([memcached.c], [thread.c]). Around the core are
    self-contained components: key hashes, a ring buffer, object caches, number
    and string conversion, encodings, statistics; in front of it the text and the
    binary protocol ([proto_text.c], [proto_bin.c]) and the connections
    ([memcached.c]), and beside it a thread that walks the queues ([crawler.c]).

    ** The model

    The build is the one of [config.h]: external storage on, proxy, TLS and SASL
    off, 64-bit little endian. A machine integer is a [Z] reduced with [u8] ...
    [u64], [s32] at the operations that can wrap. Slab memory is a finite map
    from addresses to item headers with their data ([w_heap]); the global
    variables of the server are the fields of [world] (State.v). Code that
    changes them is in the monad [M world]: a result and a new state, or [None]
    for an undefined access or a failed [assert]. Every theorem about such code
    says that it returns: [None] is excluded, never assumed away. Code outside
    the repository enters as an argument: what [malloc] returns, the clock, the
    key hash ([HashFn]), the external store, what the socket and [poll] will do. Locks are modelled where their order
    matters (the item locks taken by the hash table's maintenance thread and
    iterator); elsewhere a function is one atomic step, as its lock makes it.
    Loops carry fuel when they are not structural; the fuel is an explicit bound
    of the structure (the number of items, buckets or classes) and the theorems
    prove it sufficient.

    ** Files

    - Prelude.v (this file): machine integers, the state monad, record update
      notation, shared lemmas and tactics.
    - Itoa.v, Util.v, Base64.v: [itoa_ljust.c], [util.c], [base64.c]. The printer
      writes the decimal digits; the parser accepts exactly its grammar; print and
      parse, escape and unescape, encode and decode are inverse.
    - CacheObj.v: [cache.c]; objects in use are never handed out again.
    - Bipbuf.v: [bipbuffer.c] as a FIFO queue of bytes.
    - Hashes.v: [jenkins_hash.c], [murmur3_hash.c]; the three alignment paths of
      the first agree, the finaliser of the second is a bijection.
    - StatsPrefix.v: [stats_prefix.c]; the dump fits its buffer.
    - State.v, Links.v, Queues.v: items and global state; the pointer structures
      threaded through items (hash chains, doubly linked queues) as segment
      predicates with the effect of the C assignments on them.
    - Assoc.v, AssocSpec.v, AssocThm.v: [assoc.c]. [assoc_rep s m]: the table
      represents the finite map [m], also in the middle of an expansion. Runs of
      operations and maintenance steps in any order refine the map.
    - Slabs.v, SlabsSpec.v, SlabsThm.v: [slabs.c]. [slabs_ok s D]: the free lists
      are disjoint, counted and hold free chunks only.
    - Items.v, ItemsSpec.v, ItemsAccess.v, ItemsThm.v: [items.c]. [cache_ok s m R D]
      ties the table, the queues, the allocator and the reference counts
      together: [m] maps keys to linked items, [D] are the queues and free lists,
      [R] counts the references callers hold.
    - ItemsPull.v, ItemsAlloc.v: taking items off the tail of a queue, for
      eviction or for the maintainer, and allocation on top of it.
    - Rebalance.v, RebalanceThm.v, RebalanceFin.v: the page mover of [slabs.c], a
      thread that empties a page chunk by chunk while the cache is in use and
      gives it to another class. [moving s R D] is its invariant; a step moves or
      drops at most the item it visits, and an undisturbed move comes to its end.
    - Store.v, StoreThm.v: [do_store_item], [do_add_delta], [realtime] of
      [memcached.c] and the locked wrappers of [thread.c].
    - SlabAutomove.v, SlabAutomoveThm.v: the two policies that move pages between
      classes.
    - Keeps.v, Locks.v: relations an operation keeps, and the item locks around
      the store's operations.
    - Tokens.v, TokensThm.v: [tokenize_command] and [_meta_flag_preparse] of
      [proto_text.c]: what the words and the flags of a command line are.
    - Conn.v: connections and responses ([memcached.c], [memcached.h]).
    - ProtoText.v, ProtoCmd.v: the classic and the meta commands, the end of an
      upload, the administrative commands and the dispatch ([proto_text.c]).
    - ProtoBin.v: [proto_bin.c]: headers, the dispatch on the opcode, the commands
      and their responses. A [bsession] is a session with the request header.
    - Machine.v, Drive.v: reading, uploading, dropping, sending and the loop over
      the states of a TCP connection ([drive_machine] and what it calls in
      [memcached.c]). A [machine] is the session and what the socket will do.
    - Wire.v: no command touches the connection's read buffer.
    - DriveThm.v, StreamThm.v, MachineThm.v: an activation ends; the reads lose
      nothing, whatever the cuts; the bytes sent with those that wait are one
      sequence.
    - Desk.v: a small server for the examples.
    - CommandThm.v, GetThm.v, SetThm.v, StoreCmdThm.v, ValueThm.v: commands from
      the line received to the abstract cache and the answer: delete, get, the
      storage commands up to their value, and the value up to the cache.
    - ProtoBinThm.v, BinStoreThm.v: the same for the binary protocol, from the
      packet to the answer: get, delete, the end of the storage commands, and what
      is lost after an unknown opcode.
    - Crawler.v: [crawler.c]: the modules, the client's buffer, the walk over the
      queues, the thread's work between two waits, the start and the command.
    - CrawlerThm.v, DumpThm.v, CrawlRun.v, CrawlStart.v, Metadump.v: the marker
      in its queue, the order of a dump, the invariant of crawlers side by side,
      their start, and the whole of [lru_crawler metadump].

    ** What the theorems show

    The hash table refines a finite map under any interleaving with its expansion;
    the allocator never hands out a chunk twice; linking, unlinking, replacing and
    looking up items change the cache exactly as their names say and keep every
    reference counted; allocation always ends, evicts at most a bounded number of
    entries and hands out memory nobody uses; the storage commands answer as the
    protocol promises. On top of that: a command line is cut into exactly its
    words; get, delete and the storage commands do to the map of the cache what
    the protocol says and answer accordingly, in either protocol; the value of an item is exactly the
    bytes that follow its command, however the network delivers them; an
    activation of the connection ends; every response is sent once and in order; a
    dump of keys tells the client of every item once and leaves the queues as they
    were. The conversions are exact and inverse to each other. The witnesses run
    the theorems on concrete states.

    ** Fuel

    Loops that are not structural carry fuel computed from the state: the number
    of items, buckets or classes for the walks of the cache; six rounds
    for the reads of a connection, which stop after four reallocations of the
    buffer; for [drive_machine] a measure of the bytes received, the
    responses waiting and the results the socket still has to give. The loop of
    the crawler's thread takes its rounds as an argument, and the theorem asks for
    one more than the longest queue.

    ** Not modelled

    Of the binary protocol the statistics command, SASL and its place in the
    connection machine, which is the one of the text protocol; accepting
    connections, UDP and the threads' start-up (system calls and the event loop);
    the commands that only report (stats, watch) or that configure the crawler and
    the external store, which are one parameter of the dispatch, and
    authentication; reading a value back from the external store, a parameter too;
    the store's own threads and files, its checksums, the warm restart from a
    memory-mapped file, the logger; the statistics printers; the proxy, TLS, SASL
    and privilege dropping (not part of this build); the vendored libraries. *)

From stdpp Require Export base tactics list list_numbers numbers option gmap sets.
From Stdlib Require Export ZArith Lia.

#[global] Open Scope Z_scope.

#[global] Arguments Z.eqb : simpl never.
#[global] Arguments Z.ltb : simpl never.
#[global] Arguments Z.leb : simpl never.
#[global] Arguments Z.add : simpl never.
#[global] Arguments Z.sub : simpl never.
#[global] Arguments Z.mul : simpl never.
#[global] Arguments Z.pow : simpl never.
#[global] Arguments Z.land : simpl never.
#[global] Arguments Z.lor : simpl never.
#[global] Arguments Z.lxor : simpl never.
#[global] Arguments Z.ldiff : simpl never.
#[global] Arguments Z.shiftl : simpl never.
#[global] Arguments Z.shiftr : simpl never.
#[global] Arguments Z.modulo : simpl never.
#[global] Arguments Z.div : simpl never.
#[global] Arguments Z.of_nat : simpl never.
#[global] Arguments Z.to_nat : simpl never.

Declare Scope mc_scope.
Delimit Scope mc_scope with mc.

(** ** Fixed-width integers

    A C integer of a fixed width is a [Z] kept in range by the wrap-around
    written at each operation that can overflow. *)

Definition u8 (x : Z) : Z := x mod 2 ^ 8.
Definition u16 (x : Z) : Z := x mod 2 ^ 16.
Definition u32 (x : Z) : Z := x mod 2 ^ 32.
Definition u64 (x : Z) : Z := x mod 2 ^ 64.
Definition s32 (x : Z) : Z := (x + 2 ^ 31) mod 2 ^ 32 - 2 ^ 31.
Definition s64 (x : Z) : Z := (x + 2 ^ 63) mod 2 ^ 64 - 2 ^ 63.

(** The C truth value of a condition. *)
Definition c_bool (b : bool) : Z := if b then 1 else 0.

(** [flag f m]: the C test [(f & m) != 0]. *)
Definition flag (f m : Z) : bool := negb (Z.land f m =? 0).

(** [clear f m]: the C expression [f & ~m] on 16-bit flags. *)
Definition clear (f m : Z) : Z := Z.ldiff f m.

(** Array update at an index, for arrays whose index type makes every access
    in range (a [uint8_t] index into 256 entries). *)
Definition upd {A} (f : Z → A) (k : Z) (v : A) : Z → A :=
  λ x, if x =? k then v else f x.

Lemma upd_eq {A} (f : Z → A) k v : upd f k v k = v.
Proof. unfold upd. by rewrite Z.eqb_refl. Qed.

Lemma upd_ne {A} (f : Z → A) k v x : x ≠ k → upd f k v x = f x.
Proof. unfold upd. intros H. by rewrite (proj2 (Z.eqb_neq _ _) H). Qed.

Lemma u8_range x : 0 ≤ u8 x < 2 ^ 8.
Proof. apply Z.mod_pos_bound. lia. Qed.
Lemma u16_range x : 0 ≤ u16 x < 2 ^ 16.
Proof. apply Z.mod_pos_bound. lia. Qed.
Lemma u32_range x : 0 ≤ u32 x < 2 ^ 32.
Proof. apply Z.mod_pos_bound. lia. Qed.
Lemma u64_range x : 0 ≤ u64 x < 2 ^ 64.
Proof. apply Z.mod_pos_bound. lia. Qed.

Lemma u16_small x : 0 ≤ x < 2 ^ 16 → u16 x = x.
Proof. apply Z.mod_small. Qed.
Lemma u32_small x : 0 ≤ x < 2 ^ 32 → u32 x = x.
Proof. apply Z.mod_small. Qed.
Lemma u64_small x : 0 ≤ x < 2 ^ 64 → u64 x = x.
Proof. apply Z.mod_small. Qed.
Lemma u8_small x : 0 ≤ x < 2 ^ 8 → u8 x = x.
Proof. apply Z.mod_small. Qed.

Create HintDb mc.
Create Rewrite HintDb mc.
#[export] Hint Resolve u8_range u16_range u32_range u64_range : mc.
#[export] Hint Rewrite @upd_eq : mc.

(** Masking with [2^n - 1] is reduction modulo [2^n]. *)
Lemma land_mask x n : 0 ≤ n → Z.land x (2 ^ n - 1) = x mod 2 ^ n.
Proof.
  intros Hn. rewrite <- Z.land_ones by done. f_equal. rewrite Z.ones_equiv. lia.
Qed.

Lemma pow2_pos n : 0 ≤ n → 0 < 2 ^ n.
Proof. intros. apply Z.pow_pos_nonneg; lia. Qed.
#[export] Hint Resolve pow2_pos : mc.

Lemma mod_pow2_mod x n m :
  0 ≤ n ≤ m → (x mod 2 ^ m) mod 2 ^ n = x mod 2 ^ n.
Proof.
  intros Hnm. replace m with (n + (m - n)) by lia.
  rewrite Z.pow_add_r by lia.
  assert (0 < 2 ^ n) by auto with mc lia.
  assert (0 < 2 ^ (m - n)) by (apply pow2_pos; lia).
  rewrite Z.rem_mul_r by lia.
  rewrite Z.mul_comm, Z.mod_add by lia. apply Z.mod_mod. lia.
Qed.

(** Disjoint bit fields add up. *)
Lemma lor_shiftl_add x y n : 0 ≤ n → 0 ≤ y < 2 ^ n → Z.lor (Z.shiftl x n) y = x * 2 ^ n + y.
Proof.
  intros Hn Hy. rewrite Z.shiftl_mul_pow2 by done.
  assert (Hd : Z.land (x * 2 ^ n) y = 0).
  { apply Z.bits_inj'. intros i Hi. rewrite Z.land_spec, Z.bits_0, Z.mul_pow2_bits by done.
    destruct (Z.lt_ge_cases i n); [by rewrite Z.testbit_neg_r by lia|].
    rewrite <- (Z.mod_small y (2 ^ n)) by done. rewrite Z.mod_pow2_bits_high by lia. apply andb_false_r. }
  by rewrite <- Z.lxor_lor, <- Z.add_nocarry_lxor.
Qed.

(** ** The state and failure monad

    A C function that reads and writes global state is a function from the
    state to the result and the new state. [None] stands for behaviour the C
    program must not exhibit: a read through [NULL] or through a pointer to
    unmapped memory, or a failed [assert]. *)

Definition M (S A : Type) : Type := S → option (A * S).

#[global] Instance M_ret {S} : MRet (M S) := λ A a s, Some (a, s).
#[global] Instance M_bind {S} : MBind (M S) := λ A B k m s,
  match m s with
  | Some (a, s') => k a s'
  | None => None
  end.

Definition get_state {S} : M S S := λ s, Some (s, s).
Definition gets {S A} (f : S → A) : M S A := λ s, Some (f s, s).
Definition modify {S} (f : S → S) : M S unit := λ s, Some (tt, f s).
Definition c_assert {S} (b : bool) : M S unit := λ s, if b then Some (tt, s) else None.
Definition undefined {S A} : M S A := λ _, None.

(** [when b m]: an [if] without an [else]. *)
Definition when {S} (b : bool) (m : M S unit) : M S unit :=
  if b then m else mret tt.

Lemma bind_run {S A B} (m : M S A) (k : A → M S B) s a s' :
  m s = Some (a, s') → (m ≫= k) s = k a s'.
Proof. intros H. unfold mbind, M_bind. by rewrite H. Qed.

Lemma bind_inv {S A B} (m : M S A) (k : A → M S B) s r :
  (m ≫= k) s = Some r → ∃ a s', m s = Some (a, s') ∧ k a s' = Some r.
Proof.
  unfold mbind, M_bind. destruct (m s) as [[a s']|] eqn:E; [eauto|done].
Qed.

Lemma bind_assoc {S A B C} (m : M S A) (f : A → M S B) (g : B → M S C) s :
  ((m ≫= f) ≫= g) s = (m ≫= (λ a, f a ≫= g)) s.
Proof. unfold mbind, M_bind. by destruct (m s) as [[a s']|]. Qed.

(** [munfold] exposes the state passing of a monadic definition. *)
Ltac munfold :=
  cbv beta iota delta
    [mbind M_bind mret M_ret get_state gets modify c_assert undefined when].

(** [pow2_consts] replaces the powers of two of the word sizes by their values. *)
Ltac pow2_consts :=
  change (2 ^ 8) with 256 in *; change (2 ^ 16) with 65536 in *;
  change (2 ^ 24) with 16777216 in *; change (2 ^ 31) with 2147483648 in *;
  change (2 ^ 32) with 4294967296 in *; change (2 ^ 63) with 9223372036854775808 in *;
  change (2 ^ 64) with 18446744073709551616 in *.

(** [destruct_if] splits the first conditional of the goal and turns the
    boolean test into the proposition it decides. *)
Ltac bool_props :=
  repeat match goal with
  | H : (_ && _) = true |- _ => apply andb_true_iff in H as [? ?]
  | H : (_ || _) = false |- _ => apply orb_false_iff in H as [? ?]
  | H : negb _ = true |- _ => apply negb_true_iff in H
  | H : negb _ = false |- _ => apply negb_false_iff in H
  | H : (_ =? _) = true |- _ => apply Z.eqb_eq in H
  | H : (_ =? _) = false |- _ => apply Z.eqb_neq in H
  | H : (_ <? _) = true |- _ => apply Z.ltb_lt in H
  | H : (_ <? _) = false |- _ => apply Z.ltb_ge in H
  | H : (_ <=? _) = true |- _ => apply Z.leb_le in H
  | H : (_ <=? _) = false |- _ => apply Z.leb_gt in H
  | H : bool_decide _ = true |- _ => apply bool_decide_eq_true in H
  | H : bool_decide _ = false |- _ => apply bool_decide_eq_false in H
  end.

Ltac destruct_if :=
  match goal with
  | |- context [if ?b then _ else _] => destruct b eqn:?; bool_props
  end.

(** ** Record update

    [r <| proj := v |>] is the record [r] with one field replaced, the
    counterpart of an assignment to a struct field. [Eta] names the fields of
    a record type; the setter of a field is computed from it. *)

Class Eta (R : Type) := eta : R → R.
Class FieldUpdate {R E : Type} (proj : R → E) := field_update : E → R → R.

Ltac solve_field_update :=
  lazymatch goal with
  | |- @FieldUpdate ?R ?E ?proj =>
      let e := lazymatch constr:(@eta R _) with @eta _ ?e => e end in
      let body := eval cbv delta [e] in e in
      exact (fun (v : E) (r : R) => ltac:(
        let b := eval cbv beta in (body r) in
        lazymatch eval pattern (proj r) in b with
        | ?f _ => let t := eval cbv beta in (f v) in exact t
        end))
  end.

#[global] Hint Extern 1 (@FieldUpdate _ _ _) => solve_field_update : typeclass_instances.

Notation "r <| proj := v |>" := (@field_update _ _ proj _ v r)
  (at level 1, left associativity, proj at level 9,
   format "r <| proj  :=  v |>").
Notation "r <| proj ::= f |>" := (@field_update _ _ proj%function _ (f (proj%function r)) r)
  (at level 1, left associativity, proj at level 9, only parsing).

(** ** Byte buffers

    A buffer is the list of its bytes. [slice] reads a range, [blit] is the
    effect of [memcpy] into a range that lies inside the buffer. *)

Definition slice (o n : Z) (l : list Z) : list Z := take (Z.to_nat n) (drop (Z.to_nat o) l).

Definition blit (o : Z) (d l : list Z) : list Z :=
  take (Z.to_nat o) l ++ d ++ drop (Z.to_nat o + length d) l.

(** [memcpy(dst + o, src, n)]: defined only inside both buffers. *)
Definition memcpy (dst : list Z) (o : Z) (src : list Z) (n : Z) : option (list Z) :=
  if (0 <=? n) && (n <=? Z.of_nat (length src)) &&
     (0 <=? o) && (o + n <=? Z.of_nat (length dst))
  then Some (blit o (take (Z.to_nat n) src) dst)
  else None.

Lemma memcpy_ok dst o src n :
  0 ≤ n ≤ Z.of_nat (length src) → 0 ≤ o → o + n ≤ Z.of_nat (length dst) →
  memcpy dst o src n = Some (blit o (take (Z.to_nat n) src) dst).
Proof.
  intros. unfold memcpy.
  rewrite !(proj2 (Z.leb_le _ _)) by lia. done.
Qed.

Lemma length_blit o d l :
  0 ≤ o → o + Z.of_nat (length d) ≤ Z.of_nat (length l) →
  length (blit o d l) = length l.
Proof.
  intros. unfold blit. rewrite !length_app, length_take, length_drop. lia.
Qed.

Lemma slice_nil o l : slice o 0 l = [].
Proof. done. Qed.

Lemma length_slice o n l :
  0 ≤ o → 0 ≤ n → o + n ≤ Z.of_nat (length l) → length (slice o n l) = Z.to_nat n.
Proof. intros. unfold slice. rewrite length_take, length_drop. lia. Qed.

Lemma slice_split o n m l :
  0 ≤ o → 0 ≤ n → 0 ≤ m → slice o (n + m) l = slice o n l ++ slice (o + n) m l.
Proof.
  intros. unfold slice.
  rewrite !Z2Nat.inj_add by lia. rewrite <- drop_drop, take_take_drop. done.
Qed.

Lemma take_slice o n m l : 0 ≤ m ≤ n → take (Z.to_nat m) (slice o n l) = slice o m l.
Proof. intros. unfold slice. rewrite take_take. f_equal. lia. Qed.

Lemma drop_slice o n m l :
  0 ≤ o → 0 ≤ m ≤ n → drop (Z.to_nat m) (slice o n l) = slice (o + m) (n - m) l.
Proof.
  intros. unfold slice. rewrite skipn_firstn_comm.
  rewrite drop_drop. f_equal; [lia|f_equal; lia].
Qed.

Lemma slice_blit_eq o d l :
  0 ≤ o → o + Z.of_nat (length d) ≤ Z.of_nat (length l) →
  slice o (Z.of_nat (length d)) (blit o d l) = d.
Proof.
  intros. unfold slice, blit.
  rewrite drop_app_length' by (rewrite length_take; lia).
  by rewrite take_app_length' by lia.
Qed.

Lemma slice_blit_before o d l p n :
  0 ≤ p → 0 ≤ n → p + n ≤ o → o ≤ Z.of_nat (length l) →
  slice p n (blit o d l) = slice p n l.
Proof.
  intros. unfold slice, blit.
  rewrite drop_app_le by (rewrite length_take; lia).
  rewrite take_app_le by (rewrite length_drop, length_take; lia).
  rewrite <- (take_drop (Z.to_nat o) l) at 2.
  rewrite (drop_app_le (take _ l)) by (rewrite length_take; lia).
  rewrite take_app_le by (rewrite length_drop, length_take; lia). done.
Qed.

Lemma slice_blit_after o d l p n :
  0 ≤ o → o + Z.of_nat (length d) ≤ p → p ≤ Z.of_nat (length l) →
  slice p n (blit o d l) = slice p n l.
Proof.
  intros. unfold slice, blit. f_equal.
  rewrite drop_app_ge by (rewrite length_take; lia).
  rewrite drop_app_ge by (rewrite length_take; lia).
  rewrite drop_drop. f_equal. rewrite length_take. lia.
Qed.

(** ** Bit operations stay in range *)

Lemma bits_bound x n :
  0 ≤ n → 0 ≤ x → (∀ i, n ≤ i → Z.testbit x i = false) → x < 2 ^ n.
Proof.
  intros Hn Hx Hb. destruct (Z.eq_dec x 0) as [->|Hne]; [by apply pow2_pos|].
  apply Z.log2_lt_pow2; [lia|]. destruct (Z.lt_ge_cases (Z.log2 x) n) as [|Hge]; [done|].
  pose proof (Z.bit_log2 x ltac:(lia)) as Ht. by rewrite Hb in Ht.
Qed.

Lemma testbit_high x n i : 0 ≤ x < 2 ^ n → n ≤ i → Z.testbit x i = false.
Proof.
  intros [Hx Hlt] Hi. destruct (Z.eq_dec x 0) as [->|]; [apply Z.bits_0|].
  apply Z.bits_above_log2; [done|].
  apply Z.lt_le_trans with n; [|done]. apply Z.log2_lt_pow2; lia.
Qed.

Lemma lxor_range x y n : 0 ≤ n → 0 ≤ x < 2 ^ n → 0 ≤ y < 2 ^ n → 0 ≤ Z.lxor x y < 2 ^ n.
Proof.
  intros Hn Hx Hy. assert (0 ≤ Z.lxor x y) by (apply Z.lxor_nonneg; lia).
  split; [done|]. apply bits_bound; [done..|]. intros i Hi.
  by rewrite Z.lxor_spec, !(testbit_high _ n) by done.
Qed.

Lemma lor_range x y n : 0 ≤ n → 0 ≤ x < 2 ^ n → 0 ≤ y < 2 ^ n → 0 ≤ Z.lor x y < 2 ^ n.
Proof.
  intros Hn Hx Hy. assert (0 ≤ Z.lor x y) by (apply Z.lor_nonneg; lia).
  split; [done|]. apply bits_bound; [done..|]. intros i Hi.
  by rewrite Z.lor_spec, !(testbit_high _ n) by done.
Qed.

Lemma shiftr_range x k n : 0 ≤ k → 0 ≤ n → 0 ≤ x < 2 ^ n → 0 ≤ Z.shiftr x k < 2 ^ n.
Proof.
  intros Hk Hn Hx. rewrite Z.shiftr_div_pow2 by done.
  pose proof (pow2_pos k Hk). split; [apply Z.div_pos; lia|].
  apply Z.le_lt_trans with x; [|lia]. apply Z.div_le_upper_bound; nia.
Qed.

(** ** Lists without repetition *)

Lemma NoDup_remove_mid {A} (l1 l2 : list A) x : NoDup (l1 ++ x :: l2) → NoDup (l1 ++ l2).
Proof.
  intros (H1 & Hx & [_ H2]%NoDup_cons)%NoDup_app. apply NoDup_app.
  split_and!; [done| |done]. set_solver.
Qed.

Lemma NoDup_mid_notin {A} (l1 l2 : list A) x : NoDup (l1 ++ x :: l2) → x ∉ l1 ∧ x ∉ l2.
Proof.
  intros (H1 & Hx & [? H2]%NoDup_cons)%NoDup_app. split; [|done].
  intros ?. apply (Hx x); set_solver.
Qed.
