(* ===== verification/Itoa.v ===== *)
(** * Integers to decimal text ([itoa_ljust.c])

    The two-digits-at-a-time printer used for values, counters and responses,
    and its equivalence with the digits of the number. A [char *p] that walks
    through the output buffer is the list of the bytes written before it; the
    NUL that [itoa] puts at the end is overwritten by the next byte, if any. *)

From S2P Require Import Prelude.

(** ** The code *)

(** The 200 characters of [lut]: "00", "01", ..., "99". *)
Definition lut : list Z :=
  flat_map (λ i, [48 + Z.of_nat i / 10; 48 + Z.of_nat i mod 10]) (seq 0 100).

Definition out2 (d : Z) (p : list Z) : list Z :=
  p ++ [nth (Z.to_nat (2 * d)) lut 0; nth (Z.to_nat (2 * d + 1)) lut 0].

Definition out1 (c : Z) (p : list Z) : list Z := p ++ [c].

(** [digits(u, k, &d, &p, n)]: the new [d], [p] and the result. *)
Definition digits (u k d : Z) (p : list Z) (n : Z) : Z * list Z * Z :=
  if u <? k * 10 then let d := u / k in (d, out1 (48 + d) p, n - 1) else (d, p, n).

(** The cases of the [switch] fall through: the one labelled [k] runs when
    [k <= n], for the [n] of 1 to 10 of the callers. *)
Definition itoa (u : Z) (p : list Z) (d n : Z) : list Z :=
  let even k c '(u, p, d) := if k <=? n then let d := u / c in (u, out2 d p, d) else (u, p, d) in
  let odd k c '(u, p, d) := if k <=? n then (u32 (u - d * c), p, d) else (u, p, d) in
  let st := even 10 100000000 (u, p, d) in
  let st := odd 9 100000000 st in
  let st := even 8 1000000 st in
  let st := odd 7 1000000 st in
  let st := even 6 10000 st in
  let st := odd 5 10000 st in
  let st := even 4 100 st in
  let st := odd 3 100 st in
  let '(_, p, _) := even 2 1 st in p.

Definition itoa_u32 (u : Z) (p : list Z) : list Z :=
  let '(d, p, n) :=
    if 100000000 <=? u then digits u 100000000 0 p 10
    else if u <? 100 then digits u 1 0 p 2
    else if u <? 10000 then digits u 100 0 p 4
    else if u <? 1000000 then digits u 10000 0 p 6
    else digits u 1000000 0 p 8 in
  itoa u p d n.

Definition itoa_32 (i : Z) (p : list Z) : list Z :=
  let u := u32 i in
  if i <? 0 then itoa_u32 (u32 (- u)) (out1 45 p) else itoa_u32 u p.

(** Three levels: [2^64 / 10^9] is above [2^32], [2^64 / 10^18] below. *)
Fixpoint itoa_u64_rec (fuel : nat) (u : Z) (p : list Z) : option (list Z) :=
  match fuel with
  | O => None
  | S fuel =>
      let lower := u32 u in
      if lower =? u then Some (itoa_u32 lower p)
      else
        let upper := u / 1000000000 in
        p ← itoa_u64_rec fuel upper p;
        let lower := u32 (u - upper * 1000000000) in
        let d := lower / 100000000 in
        Some (itoa lower (out1 (48 + d) p) d 9)
  end.

Definition itoa_u64 (u : Z) (p : list Z) : option (list Z) := itoa_u64_rec 3 u p.

Definition itoa_64 (i : Z) (p : list Z) : option (list Z) :=
  let u := u64 i in
  if i <? 0 then itoa_u64 (u64 (- u)) (out1 45 p) else itoa_u64 u p.

(** ** Decimal notation *)

(** The last [w] digits of [n]. *)
Fixpoint last_digits (w : nat) (n : Z) : list Z :=
  match w with
  | O => []
  | S w => last_digits w (n / 10) ++ [48 + n mod 10]
  end.

(** [n] in decimal, without leading zeros. *)
Fixpoint decimal_aux (fuel : nat) (n : Z) : list Z :=
  match fuel with
  | O => []
  | S fuel => if n <? 10 then [48 + n] else decimal_aux fuel (n / 10) ++ [48 + n mod 10]
  end.
Definition decimal (n : Z) : list Z := decimal_aux 20 n.

(** The value of a string of digits. *)
Definition digits_value (l : list Z) : Z := foldl (λ acc c, acc * 10 + (c - 48)) 0 l.

Lemma last_digits_app w v n : 0 ≤ n →
  last_digits (w + v) n = last_digits w (n / 10 ^ Z.of_nat v) ++ last_digits v n.
Proof.
  intros Hn. revert n Hn. induction v as [|v IH]; intros n Hn.
  - rewrite Nat.add_0_r, Z.pow_0_r, Z.div_1_r. by rewrite app_nil_r.
  - rewrite <- plus_n_Sm. simpl. rewrite IH by (apply Z.div_pos; lia).
    rewrite Z.div_div by (try apply Z.pow_nonneg; lia).
    replace (10 * 10 ^ Z.of_nat v) with (10 ^ Z.of_nat (S v)).
    + by rewrite <- app_assoc.
    + rewrite Nat2Z.inj_succ, Z.pow_succ_r by lia. done.
Qed.

(** Only the value modulo [10^v] shows in [v] digits. *)
Lemma last_digits_mod v n k : 0 ≤ n → 0 ≤ k → last_digits v (n + k * 10 ^ Z.of_nat v) = last_digits v n.
Proof.
  revert n k. induction v as [|v IH]; intros n k Hn Hk; [done|]. simpl.
  rewrite Nat2Z.inj_succ, Z.pow_succ_r by lia.
  replace (n + k * (10 * 10 ^ Z.of_nat v)) with (n + (k * 10 ^ Z.of_nat v) * 10) by lia.
  rewrite Z.div_add, Z.mod_add by lia. by rewrite IH by (try apply Z.div_pos; lia).
Qed.

(** ** The two-digit steps *)

Lemma out2_digits d p : 0 ≤ d < 100 → out2 d p = p ++ last_digits 2 d.
Proof.
  intros Hd. unfold out2. f_equal.
  assert (H : forallb (λ i, bool_decide
    ([nth (2 * i) lut 0; nth (2 * i + 1) lut 0] = last_digits 2 (Z.of_nat i))) (seq 0 100) = true).
  { vm_compute. reflexivity. }
  rewrite forallb_forall in H. specialize (H (Z.to_nat d)).
  assert (Hin : In (Z.to_nat d) (seq 0 100)) by (apply in_seq; lia).
  apply H, bool_decide_eq_true_1 in Hin. rewrite Z2Nat.id in Hin by lia. rewrite <- Hin.
  by replace (Z.to_nat (2 * d)) with (2 * Z.to_nat d)%nat by lia;
    replace (Z.to_nat (2 * d + 1)) with (2 * Z.to_nat d + 1)%nat by lia.
Qed.

(** What is left to print after the cases above [2 * k]. *)
Fixpoint pairs (k : nat) (u : Z) (p : list Z) : list Z :=
  match k with
  | O => p
  | S k => let c := 10 ^ (2 * Z.of_nat k) in
           pairs k (match k with O => u | _ => u32 (u - u / c * c) end) (out2 (u / c) p)
  end.

Lemma itoa_pairs (k : nat) u p d : (1 ≤ k ≤ 5)%nat → itoa u p d (2 * Z.of_nat k) = pairs k u p.
Proof. intros Hk. do 6 (destruct k as [|k]; [by try lia|]). lia. Qed.

Lemma itoa_odd (k : nat) u p d : (1 ≤ k ≤ 4)%nat →
  itoa u p d (2 * Z.of_nat k + 1) = pairs k (u32 (u - d * 10 ^ (2 * Z.of_nat k))) p.
Proof. intros Hk. do 5 (destruct k as [|k]; [by try lia|]). lia. Qed.

Lemma itoa_one u p d : itoa u p d 1 = p.
Proof. reflexivity. Qed.

Lemma pairs_digits (k : nat) u p :
  (k ≤ 5)%nat → 0 ≤ u < 10 ^ (2 * Z.of_nat k) → u < 2 ^ 32 →
  pairs k u p = p ++ last_digits (2 * k) u.
Proof.
  revert u p. induction k as [|k IH]; intros u p Hk Hu Hm; [by rewrite app_nil_r|].
  set (c := 10 ^ (2 * Z.of_nat k)). assert (Hc : 0 < c) by (apply Z.pow_pos_nonneg; lia).
  assert (Hdiv : 0 ≤ u / c < 100).
  { split; [apply Z.div_pos; lia|]. apply Z.div_lt_upper_bound; [lia|].
    replace (2 * Z.of_nat (S k)) with (2 * Z.of_nat k + 2) in Hu by lia.
    rewrite Z.pow_add_r in Hu by lia. fold c in Hu. lia. }
  assert (Hmod : u - u / c * c = u mod c) by (rewrite Z.mod_eq; lia).
  pose proof (Z.mod_pos_bound u c Hc) as Hb. pose proof (Z.mod_le u c) as Hle.
  assert (Hld : last_digits (2 * S k) u = last_digits 2 (u / c) ++ last_digits (2 * k) (u mod c)).
  { replace (2 * S k)%nat with (2 + 2 * k)%nat by lia. rewrite last_digits_app by lia.
    replace (Z.of_nat (2 * k)) with (2 * Z.of_nat k) by lia. fold c. f_equal.
    rewrite (Z.div_mod u c) at 1 by lia.
    replace (c * (u / c) + u mod c) with (u mod c + u / c * 10 ^ Z.of_nat (2 * k)); [apply last_digits_mod; lia|].
    replace (Z.of_nat (2 * k)) with (2 * Z.of_nat k) by lia. fold c. lia. }
  rewrite Hld, app_assoc, <- out2_digits by done. simpl pairs. fold c. destruct k as [|k].
  - by rewrite app_nil_r.
  - rewrite Hmod, u32_small by lia. apply IH; [lia| |lia]. fold c. lia.
Qed.

(** ** The whole number *)

Lemma decimal_aux_fuel f g n :
  (0 < f)%nat → (0 < g)%nat → 0 ≤ n < 10 ^ Z.of_nat f → n < 10 ^ Z.of_nat g → decimal_aux f n = decimal_aux g n.
Proof.
  revert g n. induction f as [|f IH]; intros g n Hf Hg Hn Hm; [lia|].
  destruct g as [|g]; [lia|]. simpl. destruct (Z.ltb_spec n 10) as [|H10]; [done|]. f_equal.
  rewrite Nat2Z.inj_succ, Z.pow_succ_r in Hn, Hm by lia.
  destruct f as [|f]; [rewrite Z.pow_0_r in Hn; lia|]. destruct g as [|g]; [rewrite Z.pow_0_r in Hm; lia|].
  apply IH; [lia|lia| |]; [split; [apply Z.div_pos; lia|]|]; apply Z.div_lt_upper_bound; lia.
Qed.

(** A number of exactly [w] digits. *)
Lemma decimal_aux_exact w n :
  (0 < w)%nat → 0 ≤ n < 10 ^ Z.of_nat w → (w = 1%nat ∨ 10 ^ (Z.of_nat w - 1) ≤ n) →
  decimal_aux w n = last_digits w n.
Proof.
  revert n. induction w as [|w IH]; intros n Hw Hn Hl; [lia|]. simpl.
  destruct (Z.ltb_spec n 10) as [H10|H10].
  - destruct w as [|w].
    + simpl. by rewrite Z.mod_small by lia.
    + exfalso. destruct Hl as [|Hl]; [lia|]. replace (Z.of_nat (S (S w)) - 1) with (Z.of_nat w + 1) in Hl by lia.
      rewrite Z.pow_add_r in Hl by lia. pose proof (Z.pow_pos_nonneg 10 (Z.of_nat w)). lia.
  - destruct w as [|w]; [change (10 ^ Z.of_nat 1) with 10 in Hn; lia|]. f_equal. apply IH; [lia| |].
    + rewrite Nat2Z.inj_succ, Z.pow_succ_r in Hn by lia.
      split; [apply Z.div_pos; lia|apply Z.div_lt_upper_bound; lia].
    + destruct w as [|w]; [by left|right]. destruct Hl as [|Hl]; [lia|].
      replace (Z.of_nat (S (S (S w))) - 1) with (1 + (Z.of_nat (S (S w)) - 1)) in Hl by lia.
      rewrite Z.pow_add_r in Hl by lia. apply Z.div_le_lower_bound; lia.
Qed.

Lemma decimal_exact (w : nat) n :
  (0 < w ≤ 20)%nat → 0 ≤ n < 10 ^ Z.of_nat w → (w = 1%nat ∨ 10 ^ (Z.of_nat w - 1) ≤ n) →
  decimal n = last_digits w n.
Proof.
  intros Hw Hn Hl. rewrite <- decimal_aux_exact by (try lia; done). unfold decimal.
  apply decimal_aux_fuel; try lia. split; [lia|]. eapply Z.lt_le_trans; [apply Hn|].
  apply Z.pow_le_mono_r; lia.
Qed.

Lemma decimal_step n : 10 ≤ n < 10 ^ 20 → decimal n = decimal (n / 10) ++ [48 + n mod 10].
Proof.
  intros Hn. unfold decimal. change (decimal_aux 20 n) with
    (if n <? 10 then [48 + n] else decimal_aux 19 (n / 10) ++ [48 + n mod 10]).
  rewrite (proj2 (Z.ltb_ge n 10)) by lia. apply (f_equal (λ l, l ++ [48 + n mod 10])).
  apply decimal_aux_fuel; [lia|lia| |].
  - split; [apply Z.div_pos; lia|]. change (10 ^ Z.of_nat 19) with (10 ^ 19).
    apply Z.div_lt_upper_bound; [lia|]. change (10 * 10 ^ 19) with (10 ^ 20). lia.
  - change (10 ^ Z.of_nat 20) with (10 ^ 20). apply Z.div_lt_upper_bound; lia.
Qed.

Lemma decimal_app (v : nat) n : 10 ^ Z.of_nat v ≤ n < 10 ^ 20 →
  decimal n = decimal (n / 10 ^ Z.of_nat v) ++ last_digits v n.
Proof.
  revert n. induction v as [|v IH]; intros n Hn.
  - rewrite Z.pow_0_r, Z.div_1_r. by rewrite app_nil_r.
  - rewrite Nat2Z.inj_succ, Z.pow_succ_r in Hn |- * by lia.
    pose proof (Z.pow_pos_nonneg 10 (Z.of_nat v)). rewrite decimal_step, IH.
    + rewrite Z.div_div by lia. simpl. by rewrite <- app_assoc.
    + split; [apply Z.div_le_lower_bound; lia|apply Z.div_lt_upper_bound; lia].
    + lia.
Qed.

Lemma digits_itoa (k : nat) u p :
  (1 ≤ k ≤ 5)%nat → 0 ≤ u < 10 ^ (2 * Z.of_nat k) → u < 2 ^ 32 →
  (k = 1%nat ∨ 10 ^ (2 * Z.of_nat k - 2) ≤ u) →
  (let '(d, p', n) := digits u (10 ^ (2 * Z.of_nat k - 2)) 0 p (2 * Z.of_nat k) in itoa u p' d n) =
  p ++ decimal u.
Proof.
  intros Hk Hu Hm Hl. set (c := 10 ^ (2 * Z.of_nat k - 2)).
  assert (Hc : 0 < c) by (apply Z.pow_pos_nonneg; lia).
  assert (Hc10 : c * 10 = 10 ^ (2 * Z.of_nat k - 1)).
  { unfold c. rewrite Z.mul_comm, <- Z.pow_succ_r by lia. f_equal. lia. }
  unfold digits. destruct (Z.ltb_spec u (c * 10)) as [Hs|Hs].
  - set (w := (2 * (k - 1))%nat). assert (Hw : Z.of_nat w = 2 * Z.of_nat k - 2) by lia.
    assert (Hd : 0 ≤ u / c < 10) by (split; [apply Z.div_pos; lia|apply Z.div_lt_upper_bound; lia]).
    assert (E : decimal u = last_digits 1 (u / c) ++ last_digits w (u mod c)).
    { rewrite (decimal_exact (1 + w)).
      - rewrite last_digits_app by lia. rewrite Hw. fold c. f_equal.
        rewrite (Z.div_mod u c) at 1 by lia.
        replace (c * (u / c) + u mod c) with (u mod c + u / c * 10 ^ Z.of_nat w) by (rewrite Hw; fold c; lia).
        apply last_digits_mod; [apply Z.mod_pos_bound; lia|lia].
      - lia.
      - rewrite Nat2Z.inj_add, Hw. replace (Z.of_nat 1 + (2 * Z.of_nat k - 2)) with (2 * Z.of_nat k - 1) by lia. lia.
      - destruct Hl as [->|Hl]; [left; lia|right].
        rewrite Nat2Z.inj_add, Hw. by replace (Z.of_nat 1 + _ - 1) with (2 * Z.of_nat k - 2) by lia. }
    rewrite E, app_assoc. simpl last_digits at 1. rewrite (Z.mod_small (u / c)) by lia.
    change (out1 (48 + u / c) p) with (p ++ [48 + u / c]).
    destruct (decide (k = 1%nat)) as [->|Hk1].
    + change (2 * Z.of_nat 1 - 1) with 1. rewrite itoa_one. unfold w. simpl. by rewrite !app_nil_r.
    + replace (2 * Z.of_nat k - 1) with (2 * Z.of_nat (k - 1) + 1) by lia.
      rewrite itoa_odd by lia. replace (2 * Z.of_nat (k - 1)) with (2 * Z.of_nat k - 2) by lia. fold c.
      replace (u - u / c * c) with (u mod c) by (rewrite Z.mod_eq; lia).
      pose proof (Z.mod_pos_bound u c Hc). pose proof (Z.mod_le u c).
      rewrite u32_small by lia. rewrite pairs_digits; [done|lia| |lia].
      replace (2 * Z.of_nat (k - 1)) with (2 * Z.of_nat k - 2) by lia. fold c. lia.
  - rewrite itoa_pairs, pairs_digits by (lia || done). rewrite (decimal_exact (2 * k)); [done|lia| |].
    + replace (Z.of_nat (2 * k)) with (2 * Z.of_nat k) by lia. lia.
    + right. rewrite Hc10 in Hs. by replace (Z.of_nat (2 * k) - 1) with (2 * Z.of_nat k - 1) by lia.
Qed.

Lemma itoa_u32_decimal u p : 0 ≤ u < 2 ^ 32 → itoa_u32 u p = p ++ decimal u.
Proof.
  intros Hu. unfold itoa_u32.
  destruct (Z.leb_spec 100000000 u); [by apply (digits_itoa 5); [lia|lia|lia|right]|].
  destruct (Z.ltb_spec u 100); [by apply (digits_itoa 1); [lia|lia|lia|left]|].
  destruct (Z.ltb_spec u 10000); [by apply (digits_itoa 2); [lia|lia|lia|right]|].
  destruct (Z.ltb_spec u 1000000); [by apply (digits_itoa 3); [lia|lia|lia|right]|].
  by apply (digits_itoa 4); [lia|lia|lia|right].
Qed.

Lemma itoa_u64_rec_S fuel u p :
  itoa_u64_rec (S fuel) u p =
    if u32 u =? u then Some (itoa_u32 (u32 u) p)
    else p ← itoa_u64_rec fuel (u / 1000000000) p;
         let lower := u32 (u - u / 1000000000 * 1000000000) in
         Some (itoa lower (out1 (48 + lower / 100000000) p) (lower / 100000000) 9).
Proof. done. Qed.

Lemma itoa_u64_rec_decimal fuel u p :
  0 ≤ u < 2 ^ 32 * 1000000000 ^ Z.of_nat fuel → u < 2 ^ 64 →
  itoa_u64_rec (S fuel) u p = Some (p ++ decimal u).
Proof.
  revert u p. induction fuel as [|fuel IH]; intros u p Hu Hm.
  - change (1000000000 ^ Z.of_nat 0) with 1 in Hu. simpl.
    rewrite u32_small, Z.eqb_refl, itoa_u32_decimal by lia. done.
  - rewrite itoa_u64_rec_S. destruct (Z.eqb_spec (u32 u) u) as [E|E].
    + rewrite E, itoa_u32_decimal; [done|]. rewrite <- E. apply u32_range.
    + assert (Hbig : 2 ^ 32 ≤ u) by (destruct (Z.lt_ge_cases u (2 ^ 32)); [|done]; rewrite u32_small in E; lia).
      set (c := 1000000000) in *. assert (Hc : c = 1000000000) by done. rewrite IH.
      2:{ rewrite Nat2Z.inj_succ, Z.pow_succ_r in Hu by lia.
          split; [apply Z.div_pos; lia|apply Z.div_lt_upper_bound; lia]. }
      2:{ apply Z.div_lt_upper_bound; lia. }
      replace (u - u / c * c) with (u mod c) by (rewrite Z.mod_eq; lia).
      pose proof (Z.mod_pos_bound u c). set (l := u mod c) in *. rewrite (u32_small l) by lia.
      cbn [mbind option_bind]. cbv zeta.
      rewrite (itoa_odd 4) by lia. change (10 ^ (2 * Z.of_nat 4)) with 100000000.
      replace (l - l / 100000000 * 100000000) with (l mod 100000000) by (rewrite Z.mod_eq; lia).
      pose proof (Z.mod_pos_bound l 100000000). rewrite u32_small by lia.
      rewrite pairs_digits by (change (10 ^ (2 * Z.of_nat 4)) with 100000000; lia).
      f_equal. unfold out1. rewrite <- !app_assoc. f_equal.
      rewrite (decimal_app 9 u) by (change (10 ^ Z.of_nat 9) with c; lia). change (10 ^ Z.of_nat 9) with c. f_equal.
      rewrite (Z.div_mod u c) at 1 by lia. fold l.
      replace (c * (u / c) + l) with (l + u / c * 10 ^ Z.of_nat 9) by (change (10 ^ Z.of_nat 9) with c; lia).
      rewrite last_digits_mod by (try apply Z.div_pos; lia). change 9%nat with (1 + 8)%nat at 1.
      rewrite last_digits_app by lia. change (10 ^ Z.of_nat 8) with 100000000. f_equal.
      * simpl. rewrite Z.mod_small; [done|]. split; [apply Z.div_pos; lia|apply Z.div_lt_upper_bound; lia].
      * change (2 * 4)%nat with 8%nat. rewrite (Z.div_mod l 100000000) at 2 by lia.
        replace (100000000 * (l / 100000000) + l mod 100000000) with
          (l mod 100000000 + l / 100000000 * 10 ^ Z.of_nat 8) by (change (10 ^ Z.of_nat 8) with 100000000; lia).
        symmetry. apply last_digits_mod; [lia|apply Z.div_pos; lia].
Qed.

Lemma itoa_u64_decimal u p : 0 ≤ u < 2 ^ 64 → itoa_u64 u p = Some (p ++ decimal u).
Proof. intros Hu. apply itoa_u64_rec_decimal; [|lia]. change (Z.of_nat 2) with 2. lia. Qed.

(** ** Reading the digits back *)

Definition is_digit (c : Z) : Prop := 48 ≤ c ≤ 57.

Lemma digits_value_snoc l c : digits_value (l ++ [c]) = digits_value l * 10 + (c - 48).
Proof. unfold digits_value. by rewrite foldl_app. Qed.

Lemma decimal_facts (f : nat) n : 0 ≤ n < 10 ^ Z.of_nat f → (0 < f)%nat →
  digits_value (decimal_aux f n) = n ∧ Forall is_digit (decimal_aux f n) ∧
  (length (decimal_aux f n) ≤ f)%nat ∧ decimal_aux f n ≠ [] ∧
  (n ≠ 0 → ∀ t, decimal_aux f n ≠ 48 :: t).
Proof.
  revert n. induction f as [|f IH]; intros n Hn Hf; [lia|]. simpl.
  destruct (Z.ltb_spec n 10) as [H10|H10].
  - split_and!; [unfold digits_value; simpl; lia|repeat constructor; lia|simpl; lia|done|].
    intros H0 t [= E]. lia.
  - destruct f as [|f]; [change (10 ^ Z.of_nat 1) with 10 in Hn; lia|].
    rewrite Nat2Z.inj_succ, Z.pow_succ_r in Hn by lia. pose proof (Z.mod_pos_bound n 10).
    destruct (IH (n / 10)) as (Hv & Hd & Hl & Hne & Hz);
      [split; [apply Z.div_pos; lia|apply Z.div_lt_upper_bound; lia]|lia|].
    set (l := decimal_aux (S f) (n / 10)) in *. split_and!.
    + rewrite digits_value_snoc, Hv. pose proof (Z.div_mod n 10). lia.
    + apply Forall_app. split; [done|]. repeat constructor; lia.
    + rewrite length_app. simpl. lia.
    + by destruct l.
    + intros _ t. destruct l as [|c l]; [done|]. intros [= -> _]. apply (Hz ltac:(
        pose proof (Z.div_le_lower_bound n 10 1); lia) l). done.
Qed.

Lemma decimal_spec n : 0 ≤ n < 2 ^ 64 →
  digits_value (decimal n) = n ∧ Forall is_digit (decimal n) ∧ (length (decimal n) ≤ 20)%nat ∧
  decimal n ≠ [] ∧ (n ≠ 0 → ∀ t, decimal n ≠ 48 :: t).
Proof. intros Hn. apply decimal_facts; [change (10 ^ Z.of_nat 20) with (10 ^ 20); lia|lia]. Qed.

(** C39 (equivalence). The printer of 64-bit integers writes, after what is
    already in the buffer, a minus sign for a negative number and then its
    digits: the value is right for every [int64_t], [INT64_MIN] included, there
    are at most 20 digits and no leading zero. *)
Theorem itoa_64_correct i p :
  - 2 ^ 63 ≤ i < 2 ^ 63 →
  ∃ ds, itoa_64 i p = Some (p ++ (if i <? 0 then [45] else []) ++ ds) ∧
    digits_value ds = Z.abs i ∧ Forall is_digit ds ∧ (0 < length ds ≤ 20)%nat ∧
    (i ≠ 0 → ∀ t, ds ≠ 48 :: t).
Proof.
  intros Hi. exists (decimal (Z.abs i)).
  destruct (decimal_spec (Z.abs i)) as (Hv & Hd & Hl & Hne & Hz); [lia|].
  split_and!; try done; [|destruct (decimal (Z.abs i)); [done|simpl in *; lia]|intros H0; apply Hz; lia].
  unfold itoa_64. destruct (Z.ltb_spec i 0) as [Hn|Hn].
  - assert (E : u64 (- u64 i) = Z.abs i).
    { unfold u64. rewrite <- Z.sub_0_l, Zminus_mod_idemp_r, Z.sub_0_l. rewrite Z.mod_small; lia. }
    rewrite E, itoa_u64_decimal by lia. unfold out1. by rewrite <- app_assoc.
  - rewrite u64_small, itoa_u64_decimal by lia. by rewrite Z.abs_eq by lia.
Qed.

Lemma itoa_64_correct_witness :
  ∃ ds, itoa_64 (- 2 ^ 63) [] = Some ([] ++ [45] ++ ds) ∧
    digits_value ds = 2 ^ 63 ∧ Forall is_digit ds ∧ (0 < length ds ≤ 20)%nat ∧
    (- 2 ^ 63 ≠ 0 → ∀ t, ds ≠ 48 :: t).
Proof. apply (itoa_64_correct (- 2 ^ 63) []). lia. Defined.

(** For values from 2200000000 the product [d * 100000000] of two [int]s in the
    first step of [itoa] leaves the range of [int]. *)
Lemma itoa_product_overflow u : 2200000000 ≤ u < 2 ^ 32 → 2 ^ 31 ≤ u / 100000000 * 100000000.
Proof. intros Hu. assert (22 ≤ u / 100000000) by (apply Z.div_le_lower_bound; lia). lia. Qed.
