(* ===== verification/Util.v ===== *)
(** * Strings and numbers ([util.c])

    Number parsing, URI escaping, bounded copies and comparisons. A [char *] is
    the list of the bytes from the pointer on; a C string ends at its first 0,
    and the byte after the end of the list is 0. *)

From S2P Require Import Prelude Itoa.

(** ** The C library *)

Definition at_ (l : list Z) (i : nat) : Z := nth i l 0.

(** The bytes of the string at the pointer. *)
Fixpoint c_str (l : list Z) : list Z :=
  match l with
  | [] => []
  | c :: l => if c =? 0 then [] else c :: c_str l
  end.

(** [isspace] of the C locale, [xisspace] in the code. *)
Definition isspace (c : Z) : bool := (c =? 32) || ((9 <=? c) && (c <=? 13)).
Definition isdigit (c : Z) : bool := (48 <=? c) && (c <=? 57).
Definition isalnum (c : Z) : bool :=
  isdigit c || ((65 <=? c) && (c <=? 90)) || ((97 <=? c) && (c <=? 122)).

(** The value of [c] as a digit of [base], 10 or 16. *)
Definition digit_of (base c : Z) : option Z :=
  let v := if isdigit c then Some (c - 48)
           else if (97 <=? c) && (c <=? 102) then Some (c - 87)
           else if (65 <=? c) && (c <=? 70) then Some (c - 55) else None in
  match v with Some d => if d <? base then Some d else None | None => None end.

Fixpoint skip_spaces (l : list Z) : list Z :=
  match l with c :: t => if isspace c then skip_spaces t else l | [] => [] end.

(** The digits at the start: whether there are any, their value and the rest. *)
Fixpoint scan_digits (base : Z) (l : list Z) (acc : Z) : Z * list Z :=
  match l with
  | [] => (acc, [])
  | c :: t => match digit_of base c with Some d => scan_digits base t (acc * base + d) | None => (acc, l) end
  end.

Definition has_digit (base : Z) (l : list Z) : bool :=
  match l with c :: _ => match digit_of base c with Some _ => true | None => false end | [] => false end.

(** [strtol] and its relatives: [None] if there is no number ([endptr == str]),
    otherwise the sign, the magnitude and the text at [endptr]. *)
Definition scan_number (base : Z) (str : list Z) : option (bool * Z * list Z) :=
  let l := skip_spaces str in
  let '(neg, l) := match l with
                   | c :: t => if c =? 45 then (true, t) else if c =? 43 then (false, t) else (false, l)
                   | [] => (false, l) end in
  let l := match l with
           | z :: x :: t => if (base =? 16) && (z =? 48) && ((x =? 120) || (x =? 88)) && has_digit 16 t then t else l
           | _ => l end in
  if has_digit base l then let '(v, rest) := scan_digits base l 0 in Some (neg, v, rest) else None.

(** The value and [errno == ERANGE]. *)
Definition strtoull (neg : bool) (v : Z) : Z * bool :=
  if 2 ^ 64 <=? v then (2 ^ 64 - 1, true) else (u64 (if neg then - v else v), false).
Definition strtoll (neg : bool) (v : Z) : Z * bool :=
  let x := if neg then - v else v in
  if x <? - 2 ^ 63 then (- 2 ^ 63, true) else if 2 ^ 63 <=? x then (2 ^ 63 - 1, true) else (x, false).

Definition strchr (c : Z) (l : list Z) : bool := existsb (Z.eqb c) (c_str l).

(** ** Number parsing *)

(** The test of the character at [endptr]: a space or the end. *)
Definition at_end (rest : list Z) : bool := isspace (at_ rest 0) || (at_ rest 0 =? 0).

Definition safe_strtoull_base (base : Z) (str : list Z) : option Z :=
  match scan_number base str with
  | None => None
  | Some (neg, v, rest) =>
      let '(ull, erange) := strtoull neg v in
      if (erange : bool) then None
      else if at_end rest then
        if (s64 ull <? 0) && strchr 45 str then None else Some ull
      else None
  end.

(** The result is the value stored through [out], [None] for [false]. *)
Definition safe_strtoull : list Z → option Z := safe_strtoull_base 10.
Definition safe_strtoull_hex : list Z → option Z := safe_strtoull_base 16.

Definition safe_strtoll (str : list Z) : option Z :=
  match scan_number 10 str with
  | None => None
  | Some (neg, v, rest) =>
      let '(ll, erange) := strtoll neg v in
      if (erange : bool) then None else if at_end rest then Some ll else None
  end.

(** [unsigned long] has 64 bits; [*out] takes the low 32. *)
Definition safe_strtoul (str : list Z) : option Z :=
  match safe_strtoull_base 10 str with Some l => Some (u32 l) | None => None end.

Definition safe_strtol (str : list Z) : option Z :=
  match safe_strtoll str with Some l => Some (s32 l) | None => None end.

(** ** URI escaping *)

Definition hex_upper (d : Z) : Z := if d <? 10 then 48 + d else 55 + d.

(** The entry of [uriencode_map]: the three bytes of "%XX", or [NULL]. *)
Definition uriencode_map (x : Z) : option (list Z) :=
  if isalnum x || (x =? 45) || (x =? 46) || (x =? 95) || (x =? 126) then None
  else Some [37; hex_upper (x / 16); hex_upper (x mod 16)].

(** The bytes written so far and the final NUL; [None] for [false]. *)
Fixpoint uriencode_loop (src : list Z) (dst : list Z) (dstlen : Z) : option (list Z) :=
  match src with
  | [] => Some (dst ++ [0])
  | c :: src =>
      let d := Z.of_nat (length dst) in
      if dstlen <? d + 4 then None
      else match uriencode_map c with
           | Some e => uriencode_loop src (dst ++ e) dstlen
           | None => uriencode_loop src (dst ++ [c]) dstlen
           end
  end.

Definition uriencode (src : list Z) (dstlen : Z) : option (list Z) := uriencode_loop src [] dstlen.

(** ** Bounded copy and comparison *)

(** The bytes stored in [dst], NUL included, and the result; [n] counts the
    bytes left before the terminator. *)
Fixpoint safe_strcpy_loop (n : nat) (src : list Z) : list Z * bool :=
  match n with
  | O => ([0], at_ src 0 =? 0)
  | S n =>
      if at_ src 0 =? 0 then ([0], true)
      else let '(d, r) := safe_strcpy_loop n (drop 1 src) in (at_ src 0 :: d, r)
  end.

(** [dstmax - 1] wraps around for an empty destination. *)
Definition safe_strcpy (src : list Z) (dstmax : Z) : list Z * bool :=
  safe_strcpy_loop (Z.to_nat (u64 (dstmax - 1))) src.

Fixpoint safe_memcmp_loop (len : nat) (a b : list Z) (delta : Z) : Z :=
  match len with
  | O => delta
  | S len => safe_memcmp_loop len (drop 1 a) (drop 1 b) (Z.lor delta (Z.lxor (at_ a 0) (at_ b 0)))
  end.

Definition safe_memcmp (a b : list Z) (len : nat) : bool := safe_memcmp_loop len a b 0 =? 0.

(** ** Network byte order *)

Fixpoint mc_swap64_loop (n : nat) (rv inn : Z) : Z :=
  match n with
  | O => u64 rv
  | S n => mc_swap64_loop n (s64 (Z.lor (Z.shiftl rv 8) (Z.land inn 255))) (Z.shiftr inn 8)
  end.

Definition mc_swap64 (inn : Z) : Z := mc_swap64_loop 8 0 inn.
Definition ntohll : Z → Z := mc_swap64.
Definition htonll : Z → Z := mc_swap64.

(** ** Parsing *)

Definition spaces (l : list Z) : Prop := Forall (λ c, isspace c = true) l.

Lemma skip_spaces_split l : ∃ sp, l = sp ++ skip_spaces l ∧ spaces sp ∧
  isspace (at_ (skip_spaces l) 0) = false.
Proof.
  induction l as [|c l (sp & E & Hs & Hh)]; [by exists []; split_and!; [|constructor|]|]. simpl.
  destruct (isspace c) eqn:Ec; [|by exists []; split_and!; [|constructor|]].
  exists (c :: sp). split_and!; [by rewrite E at 1|by constructor|done].
Qed.

Lemma skip_spaces_app sp l : spaces sp → isspace (at_ l 0) = false → skip_spaces (sp ++ l) = l.
Proof.
  intros Hs Hl. induction Hs as [|c sp Hc _ IH]; simpl; [|by rewrite Hc].
  destruct l as [|c l]; [done|]. simpl. unfold at_ in Hl. simpl in Hl. by rewrite Hl.
Qed.

Lemma digit_of_10 c : digit_of 10 c = if isdigit c then Some (c - 48) else None.
Proof.
  unfold digit_of, isdigit. destruct (Z.leb_spec 48 c), (Z.leb_spec c 57); simpl.
  1: by rewrite (proj2 (Z.ltb_lt _ _)) by lia.
  all: destruct (Z.leb_spec 97 c), (Z.leb_spec c 102), (Z.leb_spec 65 c), (Z.leb_spec c 70); simpl; try done;
    by rewrite (proj2 (Z.ltb_ge _ _)) by lia.
Qed.

Lemma isdigit_spec c : isdigit c = true ↔ is_digit c.
Proof. unfold isdigit, is_digit. rewrite andb_true_iff, !Z.leb_le. done. Qed.

Lemma scan_digits_split l acc : ∃ ds,
  l = ds ++ (scan_digits 10 l acc).2 ∧ Forall is_digit ds ∧
  (scan_digits 10 l acc).1 = foldl (λ acc c, acc * 10 + (c - 48)) acc ds ∧
  isdigit (at_ (scan_digits 10 l acc).2 0) = false.
Proof.
  revert acc. induction l as [|c l IH]; intros acc; [by exists []|]. simpl. rewrite digit_of_10.
  destruct (isdigit c) eqn:Ec; [|by exists []; split_and!].
  destruct (IH (acc * 10 + (c - 48))) as (ds & E & Hd & Hv & Hr). exists (c :: ds).
  split_and!; [by rewrite E at 1|constructor; [by apply isdigit_spec|done]|done|done].
Qed.

Lemma scan_digits_app ds rest acc :
  Forall is_digit ds → isdigit (at_ rest 0) = false →
  scan_digits 10 (ds ++ rest) acc = (foldl (λ acc c, acc * 10 + (c - 48)) acc ds, rest).
Proof.
  intros Hd Hr. revert acc. induction Hd as [|c ds Hc _ IH]; intros acc.
  - destruct rest as [|c rest]; [done|]. simpl. rewrite digit_of_10. unfold at_ in Hr. simpl in Hr. by rewrite Hr.
  - simpl. rewrite digit_of_10, (proj2 (isdigit_spec c) Hc). apply IH.
Qed.

(** The text of a number: spaces, a sign, digits, and what follows. *)
Record number_text (str : list Z) (neg : bool) (ds rest : list Z) : Prop := {
  nt_shape : ∃ sp sg, str = sp ++ sg ++ ds ++ rest ∧ spaces sp ∧
    (if neg then sg = [45] else sg = [] ∨ sg = [43]);
  nt_digits : Forall is_digit ds;
  nt_some : ds ≠ [];
  nt_rest : isdigit (at_ rest 0) = false
}.

Lemma isdigit_not_space c : isdigit c = true → isspace c = false ∧ c =? 45 = false ∧ c =? 43 = false ∧ c ≠ 0.
Proof.
  intros [? ?]%isdigit_spec. unfold isspace. split_and!; [|by apply Z.eqb_neq; lia|by apply Z.eqb_neq; lia|lia].
  rewrite (proj2 (Z.eqb_neq c 32)), (proj2 (Z.leb_gt c 13)), andb_false_r by lia. done.
Qed.

Lemma scan_number_spec str neg v rest :
  scan_number 10 str = Some (neg, v, rest) ↔ ∃ ds, number_text str neg ds rest ∧ v = digits_value ds.
Proof.
  split.
  - unfold scan_number. destruct (skip_spaces_split str) as (sp & E & Hs & Hh).
    set (l := skip_spaces str) in *.
    set (sl := match l with c :: t => _ | [] => (false, l) end).
    assert (Hsl : ∃ sg, l = sg ++ sl.2 ∧ if sl.1 then sg = [45] else sg = [] ∨ sg = [43]).
    { unfold sl. destruct l as [|c t]; [exists []; split; [done|by left]|].
      destruct (Z.eqb_spec c 45) as [->|]; [by exists [45]|].
      destruct (Z.eqb_spec c 43) as [->|]; [exists [43]; split; [done|by right]|exists []; split; [done|by left]]. }
    destruct sl as [ng l2]. simpl in Hsl. destruct Hsl as (sg & El & Hsg).
    assert (E16 : match l2 with z :: x :: t => if (10 =? 16) && (z =? 48) && ((x =? 120) || (x =? 88)) && has_digit 16 t
                    then t else l2 | _ => l2 end = l2) by by destruct l2 as [|? [|? ?]].
    rewrite E16. destruct (has_digit 10 l2) eqn:Hd; [|done].
    destruct (scan_digits_split l2 0) as (ds & E2 & Hds & Hv & Hr).
    destruct (scan_digits 10 l2 0) as [v' rest']. simpl in *. intros [= <- <- <-].
    exists ds. split; [|done]. constructor; [|done| |done].
    + exists sp, sg. rewrite E at 1. rewrite El, E2. done.
    + intros ->. simpl in E2. subst l2. unfold has_digit in Hd. destruct rest' as [|c r]; [done|].
      rewrite digit_of_10 in Hd. unfold at_ in Hr. simpl in Hr. by rewrite Hr in Hd.
  - intros (ds & [(sp & sg & -> & Hs & Hsg) Hd Hne Hr] & ->). unfold scan_number.
    destruct ds as [|c ds]; [done|]. pose proof (Forall_inv Hd) as Hc.
    destruct (isdigit_not_space c (proj2 (isdigit_spec c) Hc)) as (Hcs & Hc1 & Hc2 & _).
    rewrite skip_spaces_app; [|done|].
    2:{ destruct neg; [by subst|]. destruct Hsg as [->| ->]; done. }
    set (l2 := (c :: ds) ++ rest).
    assert (El : match sg ++ l2 with c :: t => if c =? 45 then (true, t) else if c =? 43 then (false, t)
      else (false, sg ++ l2) | [] => (false, sg ++ l2) end = (neg, l2)).
    { destruct neg; [by subst|]. destruct Hsg as [->| ->]; [|done]. simpl. by rewrite Hc1, Hc2. }
    rewrite El. assert (E16 : match l2 with z :: x :: t => if (10 =? 16) && (z =? 48) && ((x =? 120) || (x =? 88))
      && has_digit 16 t then t else l2 | _ => l2 end = l2) by (unfold l2; simpl; by destruct (ds ++ rest)).
    rewrite E16. unfold l2 at 1. simpl has_digit. rewrite digit_of_10, (proj2 (isdigit_spec c) Hc).
    unfold l2. by rewrite scan_digits_app.
Qed.

Lemma strtoull_none v neg ull : strtoull neg v = (ull, false) ↔ v < 2 ^ 64 ∧ ull = u64 (if neg then - v else v).
Proof.
  unfold strtoull. destruct (Z.leb_spec (2 ^ 64) v); split; try intros [= <-]; try intros [? ->]; try lia; done.
Qed.

Lemma s64_neg x : 0 ≤ x < 2 ^ 64 → (s64 x <? 0) = (2 ^ 63 <=? x).
Proof.
  intros Hx. unfold s64. destruct (Z.leb_spec (2 ^ 63) x).
  - apply Z.ltb_lt. replace (x + 2 ^ 63) with ((x - 2 ^ 63) + 1 * 2 ^ 64) by lia.
    rewrite Z.mod_add, Z.mod_small by lia. lia.
  - apply Z.ltb_ge. rewrite Z.mod_small by lia. lia.
Qed.

(** C38 (functional). Exactly what [safe_strtoull] accepts: optional spaces, an
    optional sign, at least one digit, then a space or the end of the string;
    the magnitude must be below [2^64], the result is the number modulo [2^64],
    and a result of [2^63] or more is refused when a minus sign occurs anywhere in
    the string. *)
Theorem safe_strtoull_exact str v :
  safe_strtoull str = Some v ↔
  ∃ neg ds rest, number_text str neg ds rest ∧ at_end rest = true ∧ digits_value ds < 2 ^ 64 ∧
    v = u64 (if neg then - digits_value ds else digits_value ds) ∧
    ¬ (2 ^ 63 ≤ v ∧ strchr 45 str = true).
Proof.
  unfold safe_strtoull, safe_strtoull_base. split.
  - destruct (scan_number 10 str) as [[[neg v0] rest]|] eqn:Es; [|done].
    apply scan_number_spec in Es as (ds & Hnt & ->).
    destruct (strtoull neg (digits_value ds)) as [ull erange] eqn:E. destruct erange; [done|].
    apply strtoull_none in E as [Hlt ->]. destruct (at_end rest) eqn:He; [|done].
    set (u := u64 _). rewrite s64_neg by apply u64_range.
    destruct ((2 ^ 63 <=? u) && strchr 45 str) eqn:Eb; [done|]. intros [= <-].
    exists neg, ds, rest. split_and!; try done. intros [H1 H2].
    apply Z.leb_le in H1. by rewrite H1, H2 in Eb.
  - intros (neg & ds & rest & Hnt & He & Hlt & -> & Hn).
    assert (Es : scan_number 10 str = Some (neg, digits_value ds, rest)) by (apply scan_number_spec; eauto).
    rewrite Es. rewrite (proj2 (strtoull_none _ _ _) (conj Hlt eq_refl)), He.
    set (u := u64 _) in *. rewrite s64_neg by apply u64_range.
    destruct ((2 ^ 63 <=? u) && strchr 45 str) eqn:Eb; [|done].
    apply andb_true_iff in Eb as [H1 H2]. apply Z.leb_le in H1. by destruct Hn.
Qed.

(** What the printer writes, the parser reads: the decimal text
    of any 64-bit number below [2^63], followed by a space, a line end or the end
    of the string, parses to that number; from [2^63] on this also needs that no
    minus sign follows before the next NUL. *)
Theorem itoa_strtoull_roundtrip n rest l :
  0 ≤ n < 2 ^ 64 → at_end rest = true → n < 2 ^ 63 ∨ strchr 45 rest = false →
  itoa_u64 n [] = Some l → safe_strtoull (l ++ rest) = Some n.
Proof.
  intros Hn He Hm. rewrite itoa_u64_decimal by done. intros [= <-].
  destruct (decimal_spec n Hn) as (Hv & Hd & _ & Hne & _).
  assert (Hr : isdigit (at_ rest 0) = false).
  { unfold at_end in He. destruct (isdigit (at_ rest 0)) eqn:E; [|done].
    destruct (isdigit_not_space _ E) as (Hs & _ & _ & H0). rewrite Hs in He. simpl in He.
    apply Z.eqb_eq in He. lia. }
  assert (Hnt : number_text (decimal n ++ rest) false (decimal n) rest).
  { constructor; try done. exists [], []. split_and!; [done|constructor|by left]. }
  unfold safe_strtoull, safe_strtoull_base.
  rewrite (proj2 (scan_number_spec _ false n rest)) by (exists (decimal n); auto).
  rewrite (proj2 (strtoull_none n false (u64 n))) by (split; [lia|done]). rewrite u64_small, He by done.
  rewrite s64_neg by done. destruct Hm as [Hm|Hm].
  - by rewrite (proj2 (Z.leb_gt _ _)) by done.
  - assert (E : strchr 45 (decimal n ++ rest) = false); [|by rewrite E, andb_false_r].
    unfold strchr in *. clear -Hd Hm. induction Hd as [|c l Hc _ IH]; [done|]. simpl.
    rewrite (proj2 (Z.eqb_neq c 0)) by (unfold is_digit in Hc; lia). simpl.
    rewrite (proj2 (Z.eqb_neq 45 c)) by (unfold is_digit in Hc; lia). exact IH.
Qed.

Lemma itoa_strtoull_roundtrip_witness :
  0 ≤ 18446744073709551615 < 2 ^ 64 ∧ safe_strtoull (decimal 18446744073709551615 ++ [13; 10]) = Some 18446744073709551615.
Proof.
  split; [lia|]. apply (itoa_strtoull_roundtrip 18446744073709551615 [13; 10] (decimal 18446744073709551615)).
  - lia.
  - reflexivity.
  - right. reflexivity.
  - vm_compute. reflexivity.
Defined.

(** A negative number of large magnitude is accepted: "-18446744073709551615"
    is read as 1, while "-1" is refused. *)
Lemma safe_strtoull_wraps :
  safe_strtoull (45 :: decimal 18446744073709551615) = Some 1 ∧ safe_strtoull [45; 49] = None.
Proof. split; vm_compute; reflexivity. Qed.

(** The answer for a number from [2^63] on depends on bytes past the number and
    its line end, up to the next NUL. *)
Lemma safe_strtoull_reads_past_value :
  safe_strtoull (decimal (2 ^ 63) ++ [13; 10; 0]) = Some (2 ^ 63) ∧
  safe_strtoull (decimal (2 ^ 63) ++ [13; 10; 45; 0]) = None.
Proof. split; vm_compute; reflexivity. Qed.

(** ** Escaping *)

(** Percent decoding, for the statement. *)
Definition hex_digit (c : Z) : Z := if c <? 65 then c - 48 else c - 55.

Fixpoint uridecode (l : list Z) : list Z :=
  match l with
  | [] => []
  | c :: t =>
      if c =? 37 then match t with a :: b :: t => (hex_digit a * 16 + hex_digit b) :: uridecode t | _ => [] end
      else c :: uridecode t
  end.

Definition is_byte (c : Z) : Prop := 0 ≤ c < 256.

Lemma hex_digit_upper d : 0 ≤ d < 16 → hex_digit (hex_upper d) = d.
Proof.
  intros Hd. unfold hex_upper, hex_digit. destruct (Z.ltb_spec d 10).
  - rewrite (proj2 (Z.ltb_lt _ _)) by lia. lia.
  - rewrite (proj2 (Z.ltb_ge _ _)) by lia. lia.
Qed.

(** The escape of one byte decodes to it. *)
Definition escape (c : Z) : list Z := default [c] (uriencode_map c).

Lemma uridecode_escape c l : is_byte c → uridecode (escape c ++ l) = c :: uridecode l.
Proof.
  intros Hc. unfold escape, uriencode_map. destruct (_ || _) eqn:E.
  - simpl. destruct (Z.eqb_spec c 37) as [->|]; [by vm_compute in E|done].
  - simpl. change (37 =? 37) with true. cbv iota.
    pose proof (Z.mod_pos_bound c 16). unfold is_byte in Hc.
    rewrite !hex_digit_upper by (try split; try apply Z.div_pos; try apply Z.div_lt_upper_bound; lia).
    f_equal. pose proof (Z.div_mod c 16). lia.
Qed.

Lemma escape_length c : (1 ≤ length (escape c) ≤ 3)%nat.
Proof. unfold escape, uriencode_map. destruct (_ || _); simpl; lia. Qed.

Lemma uriencode_loop_run src dst dstlen :
  uriencode_loop src dst dstlen =
  match src with
  | [] => Some (dst ++ [0])
  | c :: src => if dstlen <? Z.of_nat (length dst) + 4 then None
                else uriencode_loop src (dst ++ escape c) dstlen
  end.
Proof. destruct src as [|c src]; [done|]. unfold escape. simpl. by destruct (uriencode_map c). Qed.

Lemma uriencode_loop_ok src dst dstlen out :
  uriencode_loop src dst dstlen = Some out → Z.of_nat (length dst) < dstlen →
  out = dst ++ concat (escape <$> src) ++ [0] ∧ Z.of_nat (length out) ≤ dstlen.
Proof.
  revert dst. induction src as [|c src IH]; intros dst H Hd; rewrite uriencode_loop_run in H.
  - injection H as <-. split; [done|]. rewrite length_app. simpl. lia.
  - destruct (Z.ltb_spec dstlen (Z.of_nat (length dst) + 4)); [done|].
    pose proof (escape_length c). apply IH in H as [-> Hl]; [|rewrite length_app; lia].
    split; [|done]. simpl. by rewrite <- !app_assoc.
Qed.

Lemma uriencode_loop_enough src dst dstlen :
  Z.of_nat (length dst) + 3 * Z.of_nat (length src) + 1 ≤ dstlen → ∃ out, uriencode_loop src dst dstlen = Some out.
Proof.
  revert dst. induction src as [|c src IH]; intros dst Hd; rewrite uriencode_loop_run; [eauto|].
  simpl in Hd. rewrite (proj2 (Z.ltb_ge _ _)) by lia. apply IH. pose proof (escape_length c).
  rewrite length_app. lia.
Qed.

Lemma uridecode_concat src l : Forall is_byte src → uridecode (concat (escape <$> src) ++ l) = src ++ uridecode l.
Proof.
  induction 1 as [|c src Hc _ IH]; [done|].
  change (concat (escape <$> c :: src)) with (escape c ++ concat (escape <$> src)).
  rewrite <- app_assoc, uridecode_escape by done. by rewrite IH.
Qed.

(** [uriencode] never writes past its destination, succeeds
    whenever there are three bytes per input byte and one for the terminator, and
    what it writes decodes to the input followed by the terminator. *)
Theorem uriencode_roundtrip src dstlen :
  Forall is_byte src → 0 < dstlen →
  (3 * Z.of_nat (length src) + 1 ≤ dstlen → uriencode src dstlen ≠ None) ∧
  (∀ out, uriencode src dstlen = Some out →
     Z.of_nat (length out) ≤ dstlen ∧ uridecode out = src ++ [0]).
Proof.
  intros Hb Hd. split.
  - intros Hl. destruct (uriencode_loop_enough src [] dstlen) as [out E]; [simpl; lia|]. unfold uriencode. by rewrite E.
  - intros out H. apply uriencode_loop_ok in H as [-> Hl]; [|done]. split; [done|].
    by apply (uridecode_concat src [0]).
Qed.

Lemma uriencode_roundtrip_witness :
  (3 * 3 + 1 ≤ 10 → uriencode [97; 32; 37] 10 ≠ None) ∧
  (∀ out, uriencode [97; 32; 37] 10 = Some out →
     Z.of_nat (length out) ≤ 10 ∧ uridecode out = [97; 32; 37] ++ [0]).
Proof. apply (uriencode_roundtrip [97; 32; 37] 10); [repeat constructor; lia|lia]. Defined.

(** ** Copy and comparison *)

Lemma safe_strcpy_loop_spec n src :
  safe_strcpy_loop n src = (take n (c_str src) ++ [0], bool_decide (length (c_str src) ≤ n)%nat).
Proof.
  revert src. induction n as [|n IH]; intros src; destruct src as [|c src]; simpl; try done.
  - unfold at_. simpl. destruct (Z.eqb_spec c 0) as [->|]; [done|]. rewrite bool_decide_eq_false_2; [done|simpl; lia].
  - unfold at_. simpl. destruct (Z.eqb_spec c 0) as [->|]; [done|]. rewrite drop_0, IH. simpl. f_equal.
    apply bool_decide_ext. lia.
Qed.

(** [safe_strcpy] into a non-empty destination stores the longest
    prefix of the string that fits with its terminator, always terminated and never
    more than [dstmax] bytes, and reports whether the whole string was copied. *)
Theorem safe_strcpy_bounded src dstmax :
  0 < dstmax < 2 ^ 64 →
  let '(dst, whole) := safe_strcpy src dstmax in
  dst = take (Z.to_nat (dstmax - 1)) (c_str src) ++ [0] ∧ Z.of_nat (length dst) ≤ dstmax ∧
  (whole = true ↔ dst = c_str src ++ [0]).
Proof.
  intros Hd. unfold safe_strcpy. rewrite u64_small, safe_strcpy_loop_spec by lia.
  set (n := Z.to_nat (dstmax - 1)). split_and!; [done|rewrite length_app, length_take; simpl; lia|].
  rewrite bool_decide_eq_true. split; [intros; by rewrite take_ge|].
  intros E%app_inv_tail. apply (f_equal length) in E. rewrite length_take in E. lia.
Qed.

Lemma safe_strcpy_bounded_witness :
  0 < 4 < 2 ^ 64 ∧ safe_strcpy [97; 98; 99; 100; 0] 4 = ([97; 98; 99; 0], false) ∧
  Z.of_nat (length [97; 98; 99; 0]) ≤ 4.
Proof.
  pose proof (safe_strcpy_bounded [97; 98; 99; 100; 0] 4) as H. split; [lia|]. split; [reflexivity|].
  apply H. lia.
Defined.

Lemma safe_memcmp_loop_spec len a b delta :
  safe_memcmp_loop len a b delta = 0 ↔ delta = 0 ∧ ∀ i, (i < len)%nat → at_ a i = at_ b i.
Proof.
  revert a b delta. induction len as [|len IH]; intros a b delta; simpl.
  { split; [intros ->; split; [done|lia]|tauto]. }
  rewrite IH, Z.lor_eq_0_iff, Z.lxor_eq_0_iff. unfold at_. split.
  - intros [[-> H0] Ht]. split; [done|]. intros [|i] Hi; [done|]. specialize (Ht i).
    rewrite !List.nth_skipn in Ht. apply Ht. lia.
  - intros [-> H]. split_and!; [done|apply H; lia|]. intros i Hi. rewrite !List.nth_skipn. apply (H (1 + i)%nat). lia.
Qed.

Lemma nth_prefix (n i : nat) (l : list Z) : (i < n)%nat → nth i (take n l) 0 = nth i l 0.
Proof. intros Hi. rewrite List.nth_firstn. by rewrite (proj2 (Nat.ltb_lt i n)). Qed.

(** The constant-time comparison used for authentication
    secrets answers true exactly when the first [len] bytes agree. *)
Theorem safe_memcmp_equal a b len :
  (len ≤ length a)%nat → (len ≤ length b)%nat →
  safe_memcmp a b len = true ↔ take len a = take len b.
Proof.
  intros Ha Hb. unfold safe_memcmp. rewrite Z.eqb_eq, safe_memcmp_loop_spec.
  split; [intros [_ H]|intros H; split; [done|]].
  - apply (nth_ext _ _ 0 0); [rewrite !length_take; lia|]. intros i Hi. rewrite length_take in Hi.
    rewrite !nth_prefix by lia. apply H. lia.
  - intros i Hi. unfold at_. rewrite <- (nth_prefix len i a), <- (nth_prefix len i b) by lia. by rewrite H.
Qed.

Lemma safe_memcmp_equal_witness : safe_memcmp [1; 2; 3] [1; 2; 4] 2 = true ↔ take 2 [1; 2; 3] = take 2 [1; 2; 4].
Proof. apply (safe_memcmp_equal [1; 2; 3] [1; 2; 4] 2); simpl; lia. Defined.

(** ** Byte order *)

Fixpoint le_bytes (n : nat) (x : Z) : list Z :=
  match n with O => [] | S n => x mod 256 :: le_bytes n (x / 256) end.

Fixpoint from_le (l : list Z) : Z :=
  match l with [] => 0 | b :: l => b + 256 * from_le l end.

Lemma length_le_bytes n x : length (le_bytes n x) = n.
Proof. revert x. induction n as [|n IH]; intros x; simpl; [done|by rewrite IH]. Qed.

Lemma le_bytes_bytes n x : Forall is_byte (le_bytes n x).
Proof. revert x. induction n; intros x; constructor; [apply Z.mod_pos_bound; lia|done]. Qed.

Lemma from_le_range l : Forall is_byte l → 0 ≤ from_le l < 256 ^ Z.of_nat (length l).
Proof.
  induction 1 as [|b l Hb _ IH]; simpl; [done|]. rewrite Nat2Z.inj_succ, Z.pow_succ_r by lia.
  unfold is_byte in Hb. lia.
Qed.

Lemma from_le_bytes n x : 0 ≤ x < 256 ^ Z.of_nat n → from_le (le_bytes n x) = x.
Proof.
  revert x. induction n as [|n IH]; intros x Hx; simpl.
  - change (256 ^ Z.of_nat 0) with 1 in Hx. lia.
  - rewrite Nat2Z.inj_succ, Z.pow_succ_r in Hx by lia. rewrite IH; [pose proof (Z.div_mod x 256); lia|].
    split; [apply Z.div_pos; lia|apply Z.div_lt_upper_bound; lia].
Qed.

Lemma le_bytes_from l : Forall is_byte l → le_bytes (length l) (from_le l) = l.
Proof.
  induction 1 as [|b l Hb _ IH]; simpl; [done|]. unfold is_byte in Hb. rewrite (Z.mul_comm 256).
  rewrite Z.mod_add, Z.mod_small by lia. rewrite Z.div_add, Z.div_small, Z.add_0_l by lia. by rewrite IH.
Qed.

Lemma from_le_snoc l b : from_le (l ++ [b]) = from_le l + b * 256 ^ Z.of_nat (length l).
Proof.
  induction l as [|a l IH]; simpl; [change (256 ^ Z.of_nat 0) with 1; lia|].
  rewrite IH, Nat2Z.inj_succ, Z.pow_succ_r by lia. lia.
Qed.

Lemma mc_swap64_step rv inn : 0 ≤ inn →
  u64 (s64 (Z.lor (Z.shiftl rv 8) (Z.land inn 255))) = u64 (rv * 256 + inn mod 256).
Proof.
  intros Hi. assert (E : Z.lor (Z.shiftl rv 8) (Z.land inn 255) = rv * 256 + inn mod 256).
  { change 255 with (2 ^ 8 - 1). rewrite land_mask, lor_shiftl_add; [done|lia|apply Z.mod_pos_bound; lia|lia]. }
  rewrite E. unfold s64, u64. rewrite Zminus_mod_idemp_l. f_equal. lia.
Qed.

Lemma mc_swap64_loop_spec n rv inn : 0 ≤ inn →
  mc_swap64_loop n rv inn = u64 (rv * 256 ^ Z.of_nat n + from_le (reverse (le_bytes n inn))).
Proof.
  revert rv inn. induction n as [|n IH]; intros rv inn Hi; simpl.
  - change (256 ^ Z.of_nat 0) with 1. f_equal. change (from_le (reverse [])) with 0. lia.
  - rewrite Z.shiftr_div_pow2 by lia. change (2 ^ 8) with 256. rewrite IH by (apply Z.div_pos; lia).
    rewrite reverse_cons, from_le_snoc, length_reverse, length_le_bytes.
    unfold u64 at 1. rewrite Zplus_mod, Zmult_mod. fold (u64 (s64 (Z.lor (Z.shiftl rv 8) (Z.land inn 255)))).
    rewrite mc_swap64_step by done. unfold u64. rewrite <- Zmult_mod, <- Zplus_mod. f_equal.
    rewrite Nat2Z.inj_succ, Z.pow_succ_r by lia. lia.
Qed.

(** [htonll] reverses the eight bytes of a [uint64_t], so
    [ntohll] undoes it. *)
Theorem ntohll_htonll x :
  0 ≤ x < 2 ^ 64 → le_bytes 8 (htonll x) = reverse (le_bytes 8 x) ∧ ntohll (htonll x) = x.
Proof.
  intros Hx. assert (Hsw : ∀ y, 0 ≤ y → mc_swap64 y = from_le (reverse (le_bytes 8 y))).
  { intros y Hy. unfold mc_swap64. rewrite mc_swap64_loop_spec by done.
    assert (Hb : Forall is_byte (reverse (le_bytes 8 y))) by (apply Forall_reverse, le_bytes_bytes).
    apply from_le_range in Hb. rewrite length_reverse, length_le_bytes in Hb.
    change (256 ^ Z.of_nat 8) with (2 ^ 64) in *. rewrite Z.mul_0_l, Z.add_0_l. by apply u64_small. }
  assert (E : le_bytes 8 (htonll x) = reverse (le_bytes 8 x)).
  { unfold htonll. rewrite Hsw by lia. etrans; [|apply le_bytes_from, Forall_reverse, le_bytes_bytes].
    by rewrite length_reverse, length_le_bytes. }
  split; [done|]. unfold ntohll. rewrite Hsw.
  - rewrite E, reverse_involutive. by apply from_le_bytes.
  - unfold htonll. rewrite Hsw by lia. apply from_le_range, Forall_reverse, le_bytes_bytes.
Qed.

Lemma ntohll_htonll_witness :
  le_bytes 8 (htonll 258) = reverse (le_bytes 8 258) ∧ ntohll (htonll 258) = 258.
Proof. apply (ntohll_htonll 258). lia. Defined.
