(* ===== verification/Base64.v ===== *)
(** * Base64 ([base64.c])

    The encoder and decoder used for binary keys in the meta protocol. Source
    and output buffers are lists of bytes; the decoder's output pointer [pos] is
    the list of the bytes before it. *)

From S2P Require Import Prelude Util.

(** ** The code *)

(** "ABC...Zabc...z0123456789+/" *)
Definition base64_table : list Z := seqZ 65 26 ++ seqZ 97 26 ++ seqZ 48 10 ++ [43; 47].

Definition dtable_list : list Z :=
  replicate 43 128 ++ [62; 128; 128; 128; 63] ++ seqZ 52 10 ++ [128; 128; 128; 0; 128; 128; 128] ++
  seqZ 0 26 ++ replicate 6 128 ++ seqZ 26 26 ++ replicate 133 128.

Definition dtable (c : Z) : Z := nth (Z.to_nat c) dtable_list 0.
Definition enc (i : Z) : Z := nth (Z.to_nat i) base64_table 0.

(** The loop over whole groups of three bytes and the padded tail. *)
Fixpoint encode_loop (inn : list Z) : list Z :=
  match inn with
  | a :: b :: c :: inn =>
      enc (Z.shiftr a 2) ::
      enc (Z.lor (Z.shiftl (Z.land a 3) 4) (Z.shiftr b 4)) ::
      enc (Z.lor (Z.shiftl (Z.land b 15) 2) (Z.shiftr c 6)) ::
      enc (Z.land c 63) :: encode_loop inn
  | [a; b] =>
      [enc (Z.shiftr a 2); enc (Z.lor (Z.shiftl (Z.land a 3) 4) (Z.shiftr b 4));
       enc (Z.shiftl (Z.land b 15) 2); 61]
  | [a] => [enc (Z.shiftr a 2); enc (Z.shiftl (Z.land a 3) 4); 61; 61]
  | [] => []
  end.

(** The size the encoder asks for. *)
Definition encode_olen (len : Z) : Z :=
  let olen := u64 (u64 (len * 4) / 3 + 4) in
  let olen := u64 (olen + olen / 72) in
  u64 (olen + 1).

(** The result and the bytes stored in [out], NUL included. *)
Definition base64_encode (src : list Z) (out_len : Z) : Z * list Z :=
  let len := Z.of_nat (length src) in
  let olen := encode_olen len in
  if olen <? len then (0, [])
  else if out_len <? olen then (0, [])
  else let pos := encode_loop src in (Z.of_nat (length pos), pos ++ [0]).

Definition count_valid (src : list Z) : Z :=
  Z.of_nat (length (filter (λ c, dtable c ≠ 128) src)).

(** The three bytes of a block. *)
Definition block_bytes (block : list Z) : list Z :=
  [u8 (Z.lor (Z.shiftl (at_ block 0) 2) (Z.shiftr (at_ block 1) 4));
   u8 (Z.lor (Z.shiftl (at_ block 1) 4) (Z.shiftr (at_ block 2) 2));
   u8 (Z.lor (Z.shiftl (at_ block 2) 6) (at_ block 3))].

(** The bytes before [pos] at the end; [None] for the invalid padding. *)
Fixpoint decode_loop (src block : list Z) (pad : Z) (pos : list Z) : option (list Z) :=
  match src with
  | [] => Some pos
  | c :: src =>
      let tmp := dtable c in
      if tmp =? 128 then decode_loop src block pad pos
      else
        let pad := if c =? 61 then pad + 1 else pad in
        let block := block ++ [tmp] in
        if (length block =? 4)%nat then
          let pos := pos ++ block_bytes block in
          if negb (pad =? 0) then
            if pad =? 1 then Some (take (length pos - 1) pos)
            else if pad =? 2 then Some (take (length pos - 2) pos)
            else None
          else decode_loop src [] pad pos
        else decode_loop src block pad pos
  end.

Definition base64_decode (src : list Z) (out_len : Z) : Z * list Z :=
  let count := count_valid src in
  if (count =? 0) || negb (count mod 4 =? 0) then (0, [])
  else
    let olen := count / 4 * 3 in
    if out_len <? olen then (0, [])
    else match decode_loop src [] 0 [] with
         | Some pos => (Z.of_nat (length pos), pos)
         | None => (0, [])
         end.

(** ** One group *)

Lemma enc_dtable i : 0 ≤ i < 64 → dtable (enc i) = i ∧ enc i ≠ 61 ∧ is_byte (enc i).
Proof.
  intros Hi. assert (H : forallb (λ n, (dtable (enc (Z.of_nat n)) =? Z.of_nat n) && negb (enc (Z.of_nat n) =? 61)
    && (0 <=? enc (Z.of_nat n)) && (enc (Z.of_nat n) <? 256)) (seq 0 64) = true) by (vm_compute; reflexivity).
  rewrite forallb_forall in H. specialize (H (Z.to_nat i)). rewrite Z2Nat.id in H by lia.
  rewrite !andb_true_iff, negb_true_iff in H. destruct H as (((H1 & H2) & H3) & H4); [apply in_seq; lia|].
  unfold is_byte. bool_props. lia.
Qed.

Lemma dtable_pad : dtable 61 = 0.
Proof. reflexivity. Qed.

(** The indexes of the encoder in arithmetic form. *)
Definition idx0 (a : Z) : Z := a / 4.
Definition idx1 (a b : Z) : Z := a mod 4 * 16 + b / 16.
Definition idx2 (b c : Z) : Z := b mod 16 * 4 + c / 64.
Definition idx3 (c : Z) : Z := c mod 64.

Lemma enc_bits a b c : is_byte a → is_byte b → is_byte c →
  Z.shiftr a 2 = idx0 a ∧ Z.lor (Z.shiftl (Z.land a 3) 4) (Z.shiftr b 4) = idx1 a b ∧
  Z.lor (Z.shiftl (Z.land b 15) 2) (Z.shiftr c 6) = idx2 b c ∧ Z.land c 63 = idx3 c ∧
  Z.shiftl (Z.land a 3) 4 = idx1 a 0 ∧ Z.shiftl (Z.land b 15) 2 = idx2 b 0.
Proof.
  unfold is_byte, idx0, idx1, idx2, idx3. intros Ha Hb Hc.
  change 3 with (2 ^ 2 - 1). change 15 with (2 ^ 4 - 1). change 63 with (2 ^ 6 - 1).
  rewrite !land_mask, !Z.shiftr_div_pow2 by lia.
  assert (b / 2 ^ 4 < 16 ∧ 0 ≤ b / 2 ^ 4) by (split; [apply Z.div_lt_upper_bound|apply Z.div_pos]; lia).
  assert (c / 2 ^ 6 < 4 ∧ 0 ≤ c / 2 ^ 6) by (split; [apply Z.div_lt_upper_bound|apply Z.div_pos]; lia).
  rewrite !lor_shiftl_add by lia. rewrite !Z.shiftl_mul_pow2 by lia. change (2 ^ 2) with 4.
  change (2 ^ 4) with 16. change (2 ^ 6) with 64. rewrite !Z.div_0_l by lia. lia.
Qed.

Ltac div_bounds := unfold is_byte, idx0, idx1, idx2, idx3 in *; Z.to_euclidean_division_equations; lia.

Lemma idx_range a b : is_byte a → is_byte b →
  0 ≤ idx0 a < 64 ∧ 0 ≤ idx1 a b < 64 ∧ 0 ≤ idx2 a b < 64 ∧ 0 ≤ idx3 a < 64.
Proof. intros. div_bounds. Qed.

Lemma block_bytes_idx a b c : is_byte a → is_byte b → is_byte c →
  block_bytes [idx0 a; idx1 a b; idx2 b c; idx3 c] = [a; b; c].
Proof.
  intros Ha Hb Hc. unfold block_bytes, at_. cbn [nth].
  rewrite !Z.shiftr_div_pow2 by lia. change (2 ^ 4) with 16. change (2 ^ 2) with 4.
  rewrite !lor_shiftl_add by (try lia; change (2 ^ 2) with 4; change (2 ^ 4) with 16; change (2 ^ 6) with 64; div_bounds).
  unfold u8. change (2 ^ 8) with 256. change (2 ^ 2) with 4. change (2 ^ 4) with 16. change (2 ^ 6) with 64.
  repeat f_equal; div_bounds.
Qed.

(** Four encoded characters fill a block. *)
Lemma decode_valid c src block pad pos i : c ≠ 61 → dtable c = i → 0 ≤ i < 64 →
  (length block < 3)%nat →
  decode_loop (c :: src) block pad pos = decode_loop src (block ++ [i]) pad pos.
Proof.
  intros Hc Hd Hi Hl. simpl. rewrite Hd, (proj2 (Z.eqb_neq i 128)), (proj2 (Z.eqb_neq c 61)) by (lia || done).
  rewrite length_app. simpl. by rewrite (proj2 (Nat.eqb_neq _ _)) by lia.
Qed.

Lemma decode_group i0 i1 i2 i3 src pos :
  0 ≤ i0 < 64 → 0 ≤ i1 < 64 → 0 ≤ i2 < 64 → 0 ≤ i3 < 64 →
  decode_loop (enc i0 :: enc i1 :: enc i2 :: enc i3 :: src) [] 0 pos =
  decode_loop src [] 0 (pos ++ block_bytes [i0; i1; i2; i3]).
Proof.
  intros H0 H1 H2 H3. destruct (enc_dtable i0 H0) as (E0 & N0 & _), (enc_dtable i1 H1) as (E1 & N1 & _),
    (enc_dtable i2 H2) as (E2 & N2 & _), (enc_dtable i3 H3) as (E3 & N3 & _).
  rewrite (decode_valid _ _ _ _ _ i0), (decode_valid _ _ _ _ _ i1), (decode_valid _ _ _ _ _ i2) by (done || simpl; lia).
  simpl. by rewrite E3, (proj2 (Z.eqb_neq i3 128)), (proj2 (Z.eqb_neq _ 61)) by (lia || done).
Qed.

Lemma decode_pad1 i0 i1 i2 pos :
  0 ≤ i0 < 64 → 0 ≤ i1 < 64 → 0 ≤ i2 < 64 →
  decode_loop [enc i0; enc i1; enc i2; 61] [] 0 pos = Some (pos ++ take 2 (block_bytes [i0; i1; i2; 0])).
Proof.
  intros H0 H1 H2. destruct (enc_dtable i0 H0) as (E0 & N0 & _), (enc_dtable i1 H1) as (E1 & N1 & _),
    (enc_dtable i2 H2) as (E2 & N2 & _).
  rewrite (decode_valid _ _ _ _ _ i0), (decode_valid _ _ _ _ _ i1), (decode_valid _ _ _ _ _ i2) by (done || simpl; lia).
  cbn -[block_bytes]. f_equal. rewrite length_app.
  change (length (block_bytes _)) with 3%nat.
  replace (length pos + 3 - 1)%nat with (length pos + 2)%nat by lia.
  apply take_app_add.
Qed.

Lemma decode_pad2 i0 i1 pos :
  0 ≤ i0 < 64 → 0 ≤ i1 < 64 →
  decode_loop [enc i0; enc i1; 61; 61] [] 0 pos = Some (pos ++ take 1 (block_bytes [i0; i1; 0; 0])).
Proof.
  intros H0 H1. destruct (enc_dtable i0 H0) as (E0 & N0 & _), (enc_dtable i1 H1) as (E1 & N1 & _).
  rewrite (decode_valid _ _ _ _ _ i0), (decode_valid _ _ _ _ _ i1) by (done || simpl; lia).
  cbn -[block_bytes]. f_equal. rewrite length_app.
  change (length (block_bytes _)) with 3%nat.
  replace (length pos + 3 - 2)%nat with (length pos + 1)%nat by lia.
  apply take_app_add.
Qed.

(** ** Round trip *)

Lemma group_ind (P : list Z → Prop) :
  P [] → (∀ a, P [a]) → (∀ a b, P [a; b]) → (∀ a b c l, P l → P (a :: b :: c :: l)) → ∀ l, P l.
Proof.
  intros H0 H1 H2 H3. fix IH 1. intros [|a [|b [|c l]]]; [done|done|done|]. apply H3, IH.
Qed.

Lemma decode_encode src pos : Forall is_byte src →
  decode_loop (encode_loop src) [] 0 pos = Some (pos ++ src).
Proof.
  intros Hs. revert pos Hs. induction src as [|a|a b|a b c src IH] using group_ind; intros pos Hs.
  - simpl. by rewrite app_nil_r.
  - apply Forall_cons in Hs as [Ha _]. assert (H0 : is_byte 0) by (unfold is_byte; lia).
    destruct (enc_bits a a a Ha Ha Ha) as (E0 & _ & _ & _ & E4 & _). cbn [encode_loop]. rewrite E0, E4.
    destruct (idx_range a 0 Ha H0) as (? & ? & _). rewrite decode_pad2 by done.
    pose proof (block_bytes_idx a 0 0 Ha H0 H0) as Hb. change (idx2 0 0) with 0 in Hb. change (idx3 0) with 0 in Hb.
    by rewrite Hb.
  - apply Forall_cons in Hs as [Ha Hs]. apply Forall_cons in Hs as [Hb _].
    assert (H0 : is_byte 0) by (unfold is_byte; lia).
    destruct (enc_bits a b a Ha Hb Ha) as (E0 & E1 & _ & _ & _ & E5). cbn [encode_loop]. rewrite E0, E1, E5.
    destruct (idx_range a b Ha Hb) as (? & ? & _), (idx_range b 0 Hb H0) as (_ & _ & ? & _).
    rewrite decode_pad1 by done.
    pose proof (block_bytes_idx a b 0 Ha Hb H0) as Hbb. change (idx3 0) with 0 in Hbb. by rewrite Hbb.
  - apply Forall_cons in Hs as [Ha Hs]. apply Forall_cons in Hs as [Hb Hs]. apply Forall_cons in Hs as [Hc Hs].
    destruct (enc_bits a b c Ha Hb Hc) as (E0 & E1 & E2 & E3 & _). cbn [encode_loop]. rewrite E0, E1, E2, E3.
    destruct (idx_range a b Ha Hb) as (? & ? & _), (idx_range b c Hb Hc) as (_ & _ & ? & _),
      (idx_range c a Hc Ha) as (_ & _ & _ & ?).
    rewrite decode_group, block_bytes_idx, IH by done. by rewrite <- app_assoc.
Qed.

Lemma encode_valid src : Forall is_byte src → Forall (λ c, dtable c ≠ 128) (encode_loop src).
Proof.
  assert (Henc : ∀ i, 0 ≤ i < 64 → dtable (enc i) ≠ 128) by (intros i Hi; destruct (enc_dtable i Hi) as (-> & _); lia).
  assert (Hpad : dtable 61 ≠ 128) by (rewrite dtable_pad; lia).
  assert (H0 : is_byte 0) by (unfold is_byte; lia).
  intros Hs. induction src as [|a|a b|a b c src IH] using group_ind; cbn [encode_loop]; [constructor| | |].
  - apply Forall_cons in Hs as [Ha _]. destruct (enc_bits a a a Ha Ha Ha) as (E0 & _ & _ & _ & E4 & _).
    rewrite E0, E4. destruct (idx_range a 0 Ha H0) as (? & ? & _). repeat constructor; auto.
  - apply Forall_cons in Hs as [Ha Hs]. apply Forall_cons in Hs as [Hb _].
    destruct (enc_bits a b a Ha Hb Ha) as (E0 & E1 & _ & _ & _ & E5). rewrite E0, E1, E5.
    destruct (idx_range a b Ha Hb) as (? & ? & _), (idx_range b 0 Hb H0) as (_ & _ & ? & _). repeat constructor; auto.
  - apply Forall_cons in Hs as [Ha Hs]. apply Forall_cons in Hs as [Hb Hs]. apply Forall_cons in Hs as [Hc Hs].
    destruct (enc_bits a b c Ha Hb Hc) as (E0 & E1 & E2 & E3 & _). rewrite E0, E1, E2, E3.
    destruct (idx_range a b Ha Hb) as (? & ? & _), (idx_range b c Hb Hc) as (_ & _ & ? & _),
      (idx_range c a Hc Ha) as (_ & _ & _ & ?). repeat constructor; auto.
Qed.

Lemma count_all l : Forall (λ c, dtable c ≠ 128) l → count_valid l = Z.of_nat (length l).
Proof.
  unfold count_valid. intros H. f_equal. induction H as [|c l Hc _ IH]; [done|].
  rewrite filter_cons_True by done. simpl. by rewrite IH.
Qed.

Definition groups (n : Z) : Z := (n + 2) / 3.

Lemma encode_length src : Z.of_nat (length (encode_loop src)) = 4 * groups (Z.of_nat (length src)).
Proof.
  induction src as [|a|a b|a b c src IH] using group_ind; [done..|]. cbn [encode_loop length].
  rewrite !Nat2Z.inj_succ. unfold groups in *. rewrite IH.
  replace (Z.succ (Z.succ (Z.succ (Z.of_nat (length src)))) + 2) with (Z.of_nat (length src) + 2 + 1 * 3) by lia.
  rewrite Z.div_add by lia. lia.
Qed.

Lemma encode_olen_bound n : 0 ≤ n < 2 ^ 61 → 4 * groups n + 1 ≤ encode_olen n ∧ n ≤ encode_olen n.
Proof.
  intros Hn. unfold encode_olen, groups. rewrite (u64_small (n * 4)) by lia.
  assert (H1 : 0 ≤ n * 4 / 3 + 4 < 2 ^ 63) by (Z.to_euclidean_division_equations; lia).
  rewrite (u64_small (n * 4 / 3 + 4)) by lia. set (o := n * 4 / 3 + 4) in *.
  assert (H2 : 0 ≤ o / 72 ≤ o) by (Z.to_euclidean_division_equations; lia).
  assert (H3 : 0 ≤ o + o / 72 < 2 ^ 64 - 1) by (Z.to_euclidean_division_equations; lia).
  rewrite (u64_small (o + o / 72)), u64_small by lia.
  unfold o in *. Z.to_euclidean_division_equations; lia.
Qed.

(** C40 (roundtrip). With room for its own size estimate the encoder writes four
    characters per started group of three bytes and a NUL, inside the buffer, and
    decoding that text gives the source back. *)
Theorem base64_roundtrip src out_len :
  Forall is_byte src → src ≠ [] → Z.of_nat (length src) < 2 ^ 61 →
  encode_olen (Z.of_nat (length src)) ≤ out_len →
  let '(n, text) := base64_encode src out_len in
  n = 4 * groups (Z.of_nat (length src)) ∧ Z.of_nat (length text) = n + 1 ∧ n + 1 ≤ out_len ∧
  ∀ dlen, 3 * groups (Z.of_nat (length src)) ≤ dlen →
    base64_decode (take (Z.to_nat n) text) dlen = (Z.of_nat (length src), src).
Proof.
  intros Hs Hne Hl Ho. set (len := Z.of_nat (length src)) in *.
  destruct (encode_olen_bound len) as [H1 H2]; [lia|]. unfold base64_encode. fold len.
  rewrite !(proj2 (Z.ltb_ge _ _)) by lia. rewrite encode_length. fold len.
  split_and!; [done|rewrite length_app, Nat2Z.inj_add, encode_length; done|lia|].
  intros dlen Hd. replace (Z.to_nat (4 * groups len)) with (length (encode_loop src) + 0)%nat
    by (pose proof (encode_length src); unfold len; lia).
  rewrite take_app_add, take_0, app_nil_r. unfold base64_decode.
  rewrite count_all by by apply encode_valid. rewrite encode_length. fold len.
  assert (0 < groups len).
  { unfold groups. apply Z.div_str_pos. destruct src; [done|]. unfold len. simpl. lia. }
  rewrite (proj2 (Z.eqb_neq _ 0)) by lia. rewrite (Z.mul_comm 4), Z.mod_mul, Z.div_mul by lia.
  rewrite (proj2 (Z.ltb_ge _ _)) by lia. by rewrite decode_encode.
Qed.

Lemma base64_roundtrip_witness :
  let '(n, text) := base64_encode [109; 99; 0; 255] 64 in
  n = 4 * groups 4 ∧ Z.of_nat (length text) = n + 1 ∧ n + 1 ≤ 64 ∧
  ∀ dlen, 3 * groups 4 ≤ dlen → base64_decode (take (Z.to_nat n) text) dlen = (4, [109; 99; 0; 255]).
Proof.
  apply (base64_roundtrip [109; 99; 0; 255] 64).
  - repeat constructor; lia.
  - discriminate.
  - reflexivity.
  - vm_compute. discriminate.
Defined.
