(* ===== verification/CacheObj.v ===== *)
(** * Object caches ([cache.c])

    The freelists of fixed-size objects behind the read buffers, the response
    objects and the connection queue items, in the release build (the debug
    build adds guard words around each object). *)

From S2P Require Import Prelude.

Record cache_t : Type := mkCache {
  ca_head : list Z;      (* the STAILQ of free objects *)
  ca_bufsize : Z;
  ca_total : Z;
  ca_freecurr : Z;
  ca_limit : Z
}.
#[global] Instance cache_eta : Eta cache_t := λ r,
  mkCache (ca_head r) (ca_bufsize r) (ca_total r) (ca_freecurr r) (ca_limit r).

(** [mem1], [mem2], [mutex]: whether the two allocations and the mutex succeed;
    [None] is [NULL]. [calloc] zeroes the counters: no limit. *)
Definition cache_create (bufsize : Z) (mem1 mem2 mutex : bool) : option cache_t :=
  if negb mem1 || negb mem2 || negb mutex then None else Some (mkCache [] bufsize 0 0 0).

Definition cache_set_limit (limit : Z) (c : cache_t) : cache_t := c <| ca_limit := limit |>.

(** [mem] is what [malloc] would return, 0 for a failure. The result is the
    object and the new cache. *)
Definition do_cache_alloc (mem : Z) (c : cache_t) : option (Z * cache_t) :=
  if 0 <? ca_freecurr c then
    match ca_head c with
    | [] => None
    | o :: t => Some (o, c <| ca_head := t |> <| ca_freecurr := ca_freecurr c - 1 |>)
    end
  else if (ca_limit c =? 0) || (ca_total c <? ca_limit c) then
    if negb (mem =? 0) then Some (mem, c <| ca_total := ca_total c + 1 |>) else Some (0, c)
  else Some (0, c).

Definition cache_alloc : Z → cache_t → option (Z * cache_t) := do_cache_alloc.

(** [true] when the object went back to the system. *)
Definition do_cache_free (ptr : Z) (c : cache_t) : bool * cache_t :=
  if negb (ca_limit c =? 0) && (ca_limit c <? ca_total c)
  then (true, c <| ca_total := ca_total c - 1 |>)
  else (false, c <| ca_head := ptr :: ca_head c |> <| ca_freecurr := ca_freecurr c + 1 |>).

Definition cache_free : Z → cache_t → bool * cache_t := do_cache_free.

(** The objects freed, in order. *)
Fixpoint cache_destroy_loop (head freed : list Z) : list Z :=
  match head with [] => freed | o :: t => cache_destroy_loop t (freed ++ [o]) end.
Definition cache_destroy (c : cache_t) : list Z := cache_destroy_loop (ca_head c) [].

(** ** Who has the objects *)

(** [live] are the objects handed out: none is on the freelist, none is handed
    out twice, and [total] counts both. *)
Record objs_ok (c : cache_t) (live : list Z) : Prop := {
  ck_count : ca_freecurr c = Z.of_nat (length (ca_head c));
  ck_total : ca_total c = Z.of_nat (length (ca_head c) + length live);
  ck_nodup : NoDup (ca_head c ++ live);
  ck_valid : Forall (λ o, o ≠ 0) (ca_head c ++ live)
}.

Lemma cache_create_ok bufsize mem1 mem2 mutex c : cache_create bufsize mem1 mem2 mutex = Some c → objs_ok c [].
Proof. unfold cache_create. destruct (_ || _); intros [= <-]. constructor; try done; constructor. Qed.

(** A fresh address is one [malloc] may return: not in use by this cache. *)
Definition fresh (mem : Z) (c : cache_t) (live : list Z) : Prop := mem ∉ ca_head c ++ live.

Lemma valid_not_null l : Forall (λ o, o ≠ 0) l → 0 ∉ l.
Proof. intros H H0. by apply (proj1 (Forall_forall _ _) H) in H0. Qed.

(** A new object from the system. *)
Lemma cache_grow_ok c live mem :
  objs_ok c live → ca_head c = [] → fresh mem c live → mem ≠ 0 →
  objs_ok (c <| ca_total := ca_total c + 1 |>) (mem :: live).
Proof.
  intros [Hc Ht Hn Hv] Eh Hf Hm. unfold fresh in Hf. rewrite Eh in *.
  constructor; simpl; rewrite Eh; simpl in *; [done|lia|by constructor|by constructor].
Qed.

(** The object cache never hands out an object that is still in
    use: an allocation gives an object that is neither live nor left on the
    freelist, and NULL only when the freelist is empty and either the limit is
    reached or [malloc] failed. *)
Theorem cache_alloc_fresh c live mem :
  objs_ok c live → fresh mem c live →
  ∃ o c', cache_alloc mem c = Some (o, c') ∧ ca_limit c' = ca_limit c ∧
    objs_ok c' (if o =? 0 then live else o :: live) ∧ o ∉ live ∧
    (o = 0 ↔ ca_head c = [] ∧ (mem = 0 ∨ (ca_limit c ≠ 0 ∧ ca_limit c ≤ ca_total c))).
Proof.
  intros Hok Hf. pose proof Hok as [Hc Ht Hn Hv]. unfold cache_alloc, do_cache_alloc.
  destruct (Z.ltb_spec 0 (ca_freecurr c)) as [Hp|Hp].
  - destruct (ca_head c) as [|o t] eqn:Eh; [simpl in Hc; lia|]. simpl in Hn, Hv.
    apply NoDup_cons in Hn as [Hno Hn]. apply Forall_cons in Hv as [Ho Hv].
    eexists o, _. split; [reflexivity|]. split; [done|]. rewrite (proj2 (Z.eqb_neq o 0)) by done. split_and!.
    + constructor; simpl; rewrite ?Hc, ?Ht; simpl; [lia|lia| |].
      all: rewrite Permutation_app_comm, <- app_comm_cons; constructor; [|by rewrite Permutation_app_comm].
      * set_solver.
      * done.
    + set_solver.
    + split; [done|]. by intros [? _].
  - assert (Eh : ca_head c = []) by (destruct (ca_head c); [done|simpl in Hc; lia]). rewrite Eh in Hv. simpl in Hv.
    assert (Hfm : mem ∉ live) by (unfold fresh in Hf; by rewrite Eh in Hf).
    destruct ((ca_limit c =? 0) || (ca_total c <? ca_limit c)) eqn:El; [destruct (Z.eqb_spec mem 0) as [->|Hm]|].
    + eexists 0, c. split_and!; [done..|by apply valid_not_null|]. split; [by auto|done].
    + eexists mem, _. split; [reflexivity|]. split; [done|]. rewrite (proj2 (Z.eqb_neq mem 0)) by done.
      split_and!; [by apply cache_grow_ok|done|]. split; [done|]. intros (_ & [?|[? ?]]); [done|]. bool_props. lia.
    + eexists 0, c. split_and!; [done..|by apply valid_not_null|]. bool_props. split; [|done]. intros _.
      split; [done|]. right. lia.
Qed.

(** Giving an object back keeps the accounting: it goes to the
    front of the freelist, or back to the system when the cache holds more objects
    than its limit, so the total shrinks towards the limit. *)
Theorem cache_free_ok c live ptr :
  objs_ok c (ptr :: live) →
  let '(released, c') := cache_free ptr c in
  objs_ok c' live ∧ ca_limit c' = ca_limit c ∧
  (released = true ↔ ca_limit c ≠ 0 ∧ ca_limit c < ca_total c) ∧
  ca_head c' = (if released then ca_head c else ptr :: ca_head c) ∧
  ca_total c' = (if released then ca_total c - 1 else ca_total c).
Proof.
  intros [Hc Ht Hn Hv]. unfold cache_free, do_cache_free. simpl in Ht.
  rewrite Permutation_app_comm, <- app_comm_cons in Hn, Hv. apply NoDup_cons in Hn as [Hno Hn].
  apply Forall_cons in Hv as [Ho Hv]. rewrite Permutation_app_comm in Hn, Hv. rewrite elem_of_app in Hno.
  destruct (negb (ca_limit c =? 0) && (ca_limit c <? ca_total c)) eqn:E.
  - split_and!; try done; [constructor; simpl; try done; lia|]. bool_props. split; [lia|done].
  - split_and!; try done.
    + constructor; simpl; [lia|lia|constructor; [|done]; rewrite elem_of_app; tauto|by constructor].
    + bool_props. split; [done|]. lia.
Qed.

Definition pool : cache_t := mkCache [4096] 64 2 1 2.

Lemma pool_ok : objs_ok pool [8192].
Proof. constructor; [done|done| |]; repeat constructor; set_solver. Qed.

Lemma cache_alloc_fresh_witness :
  ∃ o c', cache_alloc 12288 pool = Some (o, c') ∧ ca_limit c' = 2 ∧
    objs_ok c' (if o =? 0 then [8192] else o :: [8192]) ∧ o ∉ [8192] ∧
    (o = 0 ↔ [4096] = [] ∧ (12288 = 0 ∨ (2 ≠ 0 ∧ 2 ≤ 2))).
Proof. apply (cache_alloc_fresh pool [8192] 12288); [exact pool_ok|]. unfold fresh, pool. simpl. set_solver. Defined.

Lemma cache_free_ok_witness :
  let '(released, c') := cache_free 8192 pool in
  objs_ok c' [] ∧ ca_limit c' = 2 ∧ (released = true ↔ 2 ≠ 0 ∧ 2 < 2) ∧
  ca_head c' = (if released then [4096] else [8192; 4096]) ∧ ca_total c' = (if released then 1 else 2).
Proof. exact (cache_free_ok pool [] 8192 pool_ok). Defined.
