(* ===== verification/Bipbuf.v ===== *)
(** * The bipartite ring buffer ([bipbuffer.c])

    The buffer that carries asynchronous LRU bumps and log entries between
    threads. [bipbuf_t] has the fields of the C struct, the data region as the
    list of its bytes; a returned pointer into the data region is its offset.
    The theorems show that the buffer is a FIFO byte queue: region A followed
    by region B. *)

From S2P Require Import Prelude.

Record bipbuf_t : Type := mkBipbuf {
  bb_size : Z;      (* unsigned long *)
  bb_a_start : Z;   (* unsigned int *)
  bb_a_end : Z;     (* unsigned int *)
  bb_b_end : Z;     (* unsigned int *)
  bb_b_inuse : Z;   (* int *)
  bb_data : list Z  (* unsigned char data[] *)
}.

#[global] Instance bipbuf_eta : Eta bipbuf_t := λ r,
  mkBipbuf (bb_size r) (bb_a_start r) (bb_a_end r) (bb_b_end r) (bb_b_inuse r) (bb_data r).

Definition bipbuf_unused (me : bipbuf_t) : Z :=
  if 1 =? bb_b_inuse me
  then s32 (u32 (bb_a_start me - bb_b_end me))
  else s32 (u64 (bb_size me - bb_a_end me)).

Definition bipbuf_size (me : bipbuf_t) : Z := s32 (bb_size me).

Definition bipbuf_used (me : bipbuf_t) : Z :=
  s32 (u32 (u32 (bb_a_end me - bb_a_start me) + bb_b_end me)).

Definition bipbuf_init (size : Z) (me : bipbuf_t) : bipbuf_t :=
  me <| bb_a_start := 0 |> <| bb_a_end := 0 |> <| bb_b_end := 0 |>
     <| bb_size := size |> <| bb_b_inuse := 0 |>.

(** [malloced] is the memory malloc returned, of [size] bytes for the data, or
    [None]. *)
Definition bipbuf_new (size : Z) (malloced : option (list Z)) : option bipbuf_t :=
  match malloced with
  | None => None
  | Some bytes => Some (bipbuf_init size (mkBipbuf 0 0 0 0 0 bytes))
  end.

Definition bipbuf_is_empty (me : bipbuf_t) : bool := bb_a_start me =? bb_a_end me.

Definition check_for_switch_to_b (me : bipbuf_t) : bipbuf_t :=
  if u64 (bb_size me - bb_a_end me) <? u32 (bb_a_start me - bb_b_end me)
  then me <| bb_b_inuse := 1 |>
  else me.

(** [None] is the null pointer. *)
Definition bipbuf_request (me : bipbuf_t) (size : Z) : option Z :=
  if bipbuf_unused me <? size then None
  else if 1 =? bb_b_inuse me then Some (bb_b_end me)
  else Some (bb_a_end me).

Definition bipbuf_push (me : bipbuf_t) (size : Z) : Z * bipbuf_t :=
  if bipbuf_unused me <? size then (0, me)
  else
    let me :=
      if 1 =? bb_b_inuse me
      then me <| bb_b_end := u32 (bb_b_end me + size) |>
      else me <| bb_a_end := u32 (bb_a_end me + size) |> in
    (size, check_for_switch_to_b me).

(** [None]: the [memcpy] would leave the source or the buffer. *)
Definition bipbuf_offer (me : bipbuf_t) (data : list Z) (size : Z)
    : option (Z * bipbuf_t) :=
  if bipbuf_unused me <? size then Some (0, me)
  else
    me ←
      (if 1 =? bb_b_inuse me
       then d ← memcpy (bb_data me) (bb_b_end me) data size;
            Some (me <| bb_data := d |> <| bb_b_end := u32 (bb_b_end me + size) |>)
       else d ← memcpy (bb_data me) (bb_a_end me) data size;
            Some (me <| bb_data := d |> <| bb_a_end := u32 (bb_a_end me + size) |>));
    Some (size, check_for_switch_to_b me).

Definition bipbuf_peek (me : bipbuf_t) (size : Z) : option Z :=
  if bb_size me <? u32 (bb_a_start me + size) then None
  else if bipbuf_is_empty me then None
  else Some (bb_a_start me).

Definition bipbuf_peek_all (me : bipbuf_t) : option (Z * Z) :=
  if bipbuf_is_empty me then None
  else Some (bb_a_start me, u32 (bb_a_end me - bb_a_start me)).

Definition bipbuf_poll (me : bipbuf_t) (size : Z) : option Z * bipbuf_t :=
  if bipbuf_is_empty me then (None, me)
  else if bb_size me <? u32 (bb_a_start me + size) then (None, me)
  else
    let end_ := bb_a_start me in
    let me := me <| bb_a_start := u32 (bb_a_start me + size) |> in
    let me :=
      if bb_a_start me =? bb_a_end me then
        if 1 =? bb_b_inuse me
        then me <| bb_a_start := 0 |> <| bb_a_end := bb_b_end me |>
                <| bb_b_end := 0 |> <| bb_b_inuse := 0 |>
        else me <| bb_a_start := 0 |> <| bb_a_end := 0 |>
      else me in
    (Some end_, check_for_switch_to_b me).

(** ** The invariant and the abstract queue *)

Record bipbuf_ok (me : bipbuf_t) : Prop := {
  bo_size : 0 ≤ bb_size me < 2 ^ 31;
  bo_data : Z.of_nat (length (bb_data me)) = bb_size me;
  bo_a : 0 ≤ bb_a_start me ≤ bb_a_end me ∧ bb_a_end me ≤ bb_size me;
  bo_b : (bb_b_inuse me = 0 ∧ bb_b_end me = 0) ∨
         (bb_b_inuse me = 1 ∧ 0 ≤ bb_b_end me ≤ bb_a_start me)
}.

(** The bytes queued: region A, then region B. *)
Definition bipbuf_contents (me : bipbuf_t) : list Z :=
  slice (bb_a_start me) (bb_a_end me - bb_a_start me) (bb_data me) ++
  slice 0 (bb_b_end me) (bb_data me).

Lemma bipbuf_unused_ok me :
  bipbuf_ok me →
  bipbuf_unused me =
    if 1 =? bb_b_inuse me then bb_a_start me - bb_b_end me else bb_size me - bb_a_end me.
Proof.
  intros [Hs _ Ha Hb]. unfold bipbuf_unused, s32, u32, u64.
  destruct_if; destruct Hb as [[? ?]|[? ?]]; try lia;
    rewrite (Z.mod_small (_ - _)) by lia; rewrite Z.mod_small; lia.
Qed.

Lemma check_for_switch_ok me : bipbuf_ok me → bipbuf_ok (check_for_switch_to_b me).
Proof.
  intros [Hs Hd Ha Hb]. unfold check_for_switch_to_b. destruct_if; [|done].
  constructor; simpl; try done. right. lia.
Qed.

Lemma check_for_switch_contents me :
  bipbuf_contents (check_for_switch_to_b me) = bipbuf_contents me.
Proof. unfold check_for_switch_to_b. by destruct_if. Qed.

#[export] Hint Resolve check_for_switch_ok : mc.

(** Offering [data] to a buffer with room appends it to the queue. *)
Lemma bipbuf_offer_room me data :
  bipbuf_ok me → Z.of_nat (length data) ≤ bipbuf_unused me →
  ∃ me', bipbuf_offer me data (Z.of_nat (length data)) = Some (Z.of_nat (length data), me')
    ∧ bipbuf_ok me' ∧ bipbuf_contents me' = bipbuf_contents me ++ data.
Proof.
  intros Hok Hroom. pose proof Hok as [Hs Hd Ha Hb].
  pose proof (bipbuf_unused_ok _ Hok) as Hu. rewrite Hu in Hroom.
  unfold bipbuf_offer. rewrite Hu.
  destruct (1 =? bb_b_inuse me) eqn:Hin; bool_props.
  - rewrite (proj2 (Z.ltb_ge _ _)) by lia.
    rewrite memcpy_ok by lia. rewrite Nat2Z.id, firstn_all. simpl.
    assert (Hw : u32 (bb_b_end me + Z.of_nat (length data)) = bb_b_end me + Z.of_nat (length data))
      by (apply u32_small; lia).
    eexists. split; [done|]. split.
    + apply check_for_switch_ok. constructor; simpl; rewrite ?Hw; try lia.
      rewrite length_blit by lia. done.
    + rewrite check_for_switch_contents. unfold bipbuf_contents. simpl. rewrite Hw.
      rewrite slice_blit_after by lia. rewrite <- app_assoc. f_equal.
      rewrite slice_split by lia. rewrite slice_blit_before by lia.
      f_equal. simpl. apply slice_blit_eq; lia.
  - rewrite (proj2 (Z.ltb_ge _ _)) by lia.
    rewrite memcpy_ok by lia. rewrite Nat2Z.id, firstn_all. simpl.
    assert (Hw : u32 (bb_a_end me + Z.of_nat (length data)) = bb_a_end me + Z.of_nat (length data))
      by (apply u32_small; lia).
    assert (Hb0 : bb_b_end me = 0) by lia.
    eexists. split; [done|]. split.
    + apply check_for_switch_ok. constructor; simpl; rewrite ?Hw; try lia.
      rewrite length_blit by lia. done.
    + rewrite check_for_switch_contents. unfold bipbuf_contents. simpl.
      rewrite Hw, Hb0, !slice_nil, !app_nil_r.
      replace (bb_a_end me + Z.of_nat (length data) - bb_a_start me)
        with ((bb_a_end me - bb_a_start me) + Z.of_nat (length data)) by lia.
      rewrite slice_split by lia. rewrite slice_blit_before by lia. f_equal.
      replace (bb_a_start me + (bb_a_end me - bb_a_start me)) with (bb_a_end me) by lia.
      apply slice_blit_eq; lia.
Qed.

(** Polling [size] bytes of region A returns the pointer to the first [size]
    queued bytes and removes them. *)
Lemma bipbuf_poll_some me size :
  bipbuf_ok me → bipbuf_is_empty me = false →
  0 ≤ size ≤ bb_a_end me - bb_a_start me →
  ∃ me', bipbuf_poll me size = (Some (bb_a_start me), me')
    ∧ bipbuf_ok me'
    ∧ slice (bb_a_start me) size (bb_data me) = take (Z.to_nat size) (bipbuf_contents me)
    ∧ bipbuf_contents me' = drop (Z.to_nat size) (bipbuf_contents me).
Proof.
  intros Hok He Hsz. pose proof Hok as [Hs Hd Ha Hb].
  unfold bipbuf_poll. rewrite He.
  assert (Hw : u32 (bb_a_start me + size) = bb_a_start me + size) by (apply u32_small; lia).
  rewrite Hw, (proj2 (Z.ltb_ge _ _)) by lia.
  assert (Hl : length (slice (bb_a_start me) (bb_a_end me - bb_a_start me) (bb_data me))
                 = Z.to_nat (bb_a_end me - bb_a_start me)) by (apply length_slice; lia).
  eexists. split; [done|]. rewrite check_for_switch_contents.
  unfold bipbuf_contents at 1 3.
  rewrite take_app_le, drop_app_le by lia. rewrite take_slice, drop_slice by lia.
  split; [|split; [done|]]; simpl.
  - apply check_for_switch_ok. unfold bipbuf_is_empty in He. bool_props.
    repeat destruct_if; constructor; simpl; try lia.
  - unfold bipbuf_contents.
    repeat destruct_if; simpl.
    + replace (bb_a_end me - bb_a_start me - size) with 0 by lia.
      rewrite slice_nil, Z.sub_0_r. by rewrite app_nil_r.
    + assert (bb_b_end me = 0) as -> by lia.
      replace (bb_a_end me - bb_a_start me - size) with 0 by lia. done.
    + do 2 f_equal. lia.
Qed.

(** ** Producers and consumers

    The clients' use of the buffer: a producer offers blocks, the consumer
    peeks at all of region A, reads it and polls exactly that many bytes. *)

Inductive bip_op : Type :=
  | Offer (d : list Z)
  | Drain.

(** The consumer's cycle: the bytes it reads and the buffer it leaves. *)
Definition bipbuf_drain (me : bipbuf_t) : list Z * bipbuf_t :=
  match bipbuf_peek_all me with
  | None => ([], me)
  | Some (off, size) => (slice off size (bb_data me), (bipbuf_poll me size).2)
  end.

(** A run: the buffer, the bytes accepted and the bytes consumed so far. *)
Fixpoint bip_run (ops : list bip_op) (me : bipbuf_t) : option (bipbuf_t * list Z * list Z) :=
  match ops with
  | [] => Some (me, [], [])
  | Offer d :: ops =>
      '(n, me) ← bipbuf_offer me d (Z.of_nat (length d));
      '(me, acc, out) ← bip_run ops me;
      Some (me, take (Z.to_nat n) d ++ acc, out)
  | Drain :: ops =>
      let '(bytes, me) := bipbuf_drain me in
      '(me, acc, out) ← bip_run ops me;
      Some (me, acc, bytes ++ out)
  end.

Lemma bipbuf_offer_spec me d :
  bipbuf_ok me →
  ∃ n me', bipbuf_offer me d (Z.of_nat (length d)) = Some (n, me') ∧ bipbuf_ok me' ∧
    bipbuf_contents me' = bipbuf_contents me ++ take (Z.to_nat n) d.
Proof.
  intros Hok. destruct (Z.le_gt_cases (Z.of_nat (length d)) (bipbuf_unused me)) as [Hr|Hr].
  - destruct (bipbuf_offer_room me d Hok Hr) as (me' & ? & ? & ?).
    exists (Z.of_nat (length d)), me'. by rewrite Nat2Z.id, firstn_all.
  - exists 0, me. unfold bipbuf_offer.
    rewrite (proj2 (Z.ltb_lt _ _)) by lia. by rewrite app_nil_r.
Qed.

Lemma bipbuf_drain_spec me :
  bipbuf_ok me →
  bipbuf_ok (bipbuf_drain me).2 ∧
  bipbuf_contents me = (bipbuf_drain me).1 ++ bipbuf_contents (bipbuf_drain me).2.
Proof.
  intros Hok. unfold bipbuf_drain, bipbuf_peek_all.
  destruct (bipbuf_is_empty me) eqn:He; [done|].
  pose proof Hok as [Hs Hd Ha Hb].
  rewrite u32_small by lia.
  destruct (bipbuf_poll_some me (bb_a_end me - bb_a_start me) Hok He)
    as (me' & -> & Hok' & Ht & Hd'); [lia|].
  simpl. split; [done|]. rewrite Hd', Ht. by rewrite take_drop.
Qed.

(** C37 (refinement). FIFO queue. From any well-formed buffer, every sequence of
    offers and drains is defined (no copy leaves the buffer), keeps the
    buffer well formed, and what was consumed followed by what is still queued
    is exactly what was queued at the start followed by the accepted blocks,
    in order. *)
Theorem bipbuf_fifo ops me :
  bipbuf_ok me →
  ∃ me' acc out, bip_run ops me = Some (me', acc, out) ∧ bipbuf_ok me' ∧
    out ++ bipbuf_contents me' = bipbuf_contents me ++ acc.
Proof.
  revert me. induction ops as [|[d|] ops IH]; intros me Hok; simpl.
  - exists me, [], []. by rewrite app_nil_r.
  - destruct (bipbuf_offer_spec me d Hok) as (n & me1 & -> & Hok1 & Hc). simpl.
    destruct (IH me1 Hok1) as (me' & acc & out & -> & ? & Ho). simpl.
    eexists _, _, _. split; [done|]. split; [done|]. by rewrite Ho, Hc, app_assoc.
  - destruct (bipbuf_drain_spec me Hok) as [Hok1 Hc].
    destruct (bipbuf_drain me) as [bytes me1]. simpl in *.
    destruct (IH me1 Hok1) as (me' & acc & out & -> & ? & Ho). simpl.
    eexists _, _, _. split; [done|]. split; [done|]. by rewrite <- app_assoc, Ho, Hc, app_assoc.
Qed.

Lemma bipbuf_new_ok size bytes me :
  0 ≤ size < 2 ^ 31 → Z.of_nat (length bytes) = size →
  bipbuf_new size (Some bytes) = Some me → bipbuf_ok me ∧ bipbuf_contents me = [].
Proof.
  intros Hs Hl [= <-]. split; [|done]. constructor; simpl; lia.
Qed.

Lemma bipbuf_fifo_witness :
  ∃ me acc out,
    bip_run [Offer [1; 2; 3]; Drain; Offer [4; 5]; Offer [6; 7; 8]; Drain; Drain; Offer [9]]
      (mkBipbuf 5 0 0 0 0 [0; 0; 0; 0; 0]) = Some (me, acc, out) ∧ bipbuf_ok me ∧
    out ++ bipbuf_contents me = acc.
Proof.
  destruct (bipbuf_fifo
    [Offer [1; 2; 3]; Drain; Offer [4; 5]; Offer [6; 7; 8]; Drain; Drain; Offer [9]]
    (mkBipbuf 5 0 0 0 0 [0; 0; 0; 0; 0])) as (me & acc & out & H & Hok & Ho).
  - constructor; simpl; lia.
  - exists me, acc, out. split; [exact H|]. split; [exact Hok|]. exact Ho.
Defined.
