(* ===== verification/Hashes.v ===== *)
(** * Hash functions ([jenkins_hash.c], [murmur3_hash.c])

    The two key hashes whose code is in the tree, over a memory that gives the
    byte at each offset from the key pointer. [jenkins_hash] has three code
    paths, chosen by the alignment of the key pointer; the same key is hashed
    from a network buffer and from inside an item, at different alignments, so
    the hash table is correct only if the paths agree. [HashFn] is what the
    hash table relies on; both functions are instances. *)

From stdpp Require Import strings.
From S2P Require Import Prelude.

(** ** Words in memory, little endian *)

Definition bytes_ok (mem : Z → Z) : Prop := ∀ i, 0 ≤ mem i < 256.

Definition read16 (mem : Z → Z) (o : Z) : Z := mem o + Z.shiftl (mem (o + 1)) 8.
Definition read32 (mem : Z → Z) (o : Z) : Z :=
  mem o + Z.shiftl (mem (o + 1)) 8 + Z.shiftl (mem (o + 2)) 16 + Z.shiftl (mem (o + 3)) 24.

Definition rot (x k : Z) : Z := Z.lor (u32 (Z.shiftl x k)) (Z.shiftr x (32 - k)).

(** ** Jenkins lookup3 *)

Definition mix (s : Z * Z * Z) : Z * Z * Z :=
  let '(a, b, c) := s in
  let a := u32 (a - c) in let a := Z.lxor a (rot c 4) in let c := u32 (c + b) in
  let b := u32 (b - a) in let b := Z.lxor b (rot a 6) in let a := u32 (a + c) in
  let c := u32 (c - b) in let c := Z.lxor c (rot b 8) in let b := u32 (b + a) in
  let a := u32 (a - c) in let a := Z.lxor a (rot c 16) in let c := u32 (c + b) in
  let b := u32 (b - a) in let b := Z.lxor b (rot a 19) in let a := u32 (a + c) in
  let c := u32 (c - b) in let c := Z.lxor c (rot b 4) in let b := u32 (b + a) in
  (a, b, c).

Definition final (s : Z * Z * Z) : Z * Z * Z :=
  let '(a, b, c) := s in
  let c := Z.lxor c b in let c := u32 (c - rot b 14) in
  let a := Z.lxor a c in let a := u32 (a - rot c 11) in
  let b := Z.lxor b a in let b := u32 (b - rot a 25) in
  let c := Z.lxor c b in let c := u32 (c - rot b 16) in
  let a := Z.lxor a c in let a := u32 (a - rot c 4) in
  let b := Z.lxor b a in let b := u32 (b - rot a 14) in
  let c := Z.lxor c b in let c := u32 (c - rot b 24) in
  (a, b, c).

(** The [while (length > 12)] loop of the three paths. [add3 o s] is the
    path's addition of twelve bytes at offset [o]. The loop consumes twelve
    bytes a turn, so [length] turns of fuel are enough
    ([jenkins_loop_result]). *)
Fixpoint jenkins_loop (fuel : nat) (add3 : Z → Z * Z * Z → Z * Z * Z)
    (o length : Z) (s : Z * Z * Z) : Z * Z * (Z * Z * Z) :=
  match fuel with
  | O => (o, length, s)
  | S fuel =>
      if 12 <? length
      then jenkins_loop fuel add3 (o + 12) (length - 12) (mix (add3 o s))
      else (o, length, s)
  end.

(** The 32-bit path: [k] is a [uint32_t *]. *)
Definition add3_32 (mem : Z → Z) (o : Z) (s : Z * Z * Z) : Z * Z * Z :=
  let '(a, b, c) := s in
  (u32 (a + read32 mem o), u32 (b + read32 mem (o + 4)), u32 (c + read32 mem (o + 8))).

Definition last_32 (mem : Z → Z) (o length : Z) (s : Z * Z * Z) : option (Z * Z * Z) :=
  let '(a, b, c) := s in
  let k i := read32 mem (o + 4 * i) in
  match length with
  | 12 => Some (u32 (a + k 0), u32 (b + k 1), u32 (c + k 2))
  | 11 => Some (u32 (a + k 0), u32 (b + k 1), u32 (c + Z.land (k 2) 0xffffff))
  | 10 => Some (u32 (a + k 0), u32 (b + k 1), u32 (c + Z.land (k 2) 0xffff))
  | 9 => Some (u32 (a + k 0), u32 (b + k 1), u32 (c + Z.land (k 2) 0xff))
  | 8 => Some (u32 (a + k 0), u32 (b + k 1), c)
  | 7 => Some (u32 (a + k 0), u32 (b + Z.land (k 1) 0xffffff), c)
  | 6 => Some (u32 (a + k 0), u32 (b + Z.land (k 1) 0xffff), c)
  | 5 => Some (u32 (a + k 0), u32 (b + Z.land (k 1) 0xff), c)
  | 4 => Some (u32 (a + k 0), b, c)
  | 3 => Some (u32 (a + Z.land (k 0) 0xffffff), b, c)
  | 2 => Some (u32 (a + Z.land (k 0) 0xffff), b, c)
  | 1 => Some (u32 (a + Z.land (k 0) 0xff), b, c)
  | _ => None
  end.

(** The 16-bit path. *)
Definition w16 (mem : Z → Z) (o i : Z) : Z :=
  read16 mem (o + 2 * i) + Z.shiftl (read16 mem (o + 2 * (i + 1))) 16.

Definition add3_16 (mem : Z → Z) (o : Z) (s : Z * Z * Z) : Z * Z * Z :=
  let '(a, b, c) := s in
  (u32 (a + w16 mem o 0), u32 (b + w16 mem o 2), u32 (c + w16 mem o 4)).

Definition last_16 (mem : Z → Z) (o length : Z) (s : Z * Z * Z) : option (Z * Z * Z) :=
  let '(a, b, c) := s in
  let k i := read16 mem (o + 2 * i) in
  let k8 i := mem (o + i) in
  let w := w16 mem o in
  match length with
  | 12 => Some (u32 (a + w 0), u32 (b + w 2), u32 (c + w 4))
  | 11 => Some (u32 (a + w 0), u32 (b + w 2), u32 (u32 (c + Z.shiftl (k8 10) 16) + k 4))
  | 10 => Some (u32 (a + w 0), u32 (b + w 2), u32 (c + k 4))
  | 9 => Some (u32 (a + w 0), u32 (b + w 2), u32 (c + k8 8))
  | 8 => Some (u32 (a + w 0), u32 (b + w 2), c)
  | 7 => Some (u32 (a + w 0), u32 (u32 (b + Z.shiftl (k8 6) 16) + k 2), c)
  | 6 => Some (u32 (a + w 0), u32 (b + k 2), c)
  | 5 => Some (u32 (a + w 0), u32 (b + k8 4), c)
  | 4 => Some (u32 (a + w 0), b, c)
  | 3 => Some (u32 (u32 (a + Z.shiftl (k8 2) 16) + k 0), b, c)
  | 2 => Some (u32 (a + k 0), b, c)
  | 1 => Some (u32 (a + k8 0), b, c)
  | _ => None
  end.

(** The byte path. *)
Definition add_bytes (mem : Z → Z) (o x : Z) : Z :=
  let x := u32 (x + mem o) in
  let x := u32 (x + Z.shiftl (mem (o + 1)) 8) in
  let x := u32 (x + Z.shiftl (mem (o + 2)) 16) in
  u32 (x + Z.shiftl (mem (o + 3)) 24).

Definition add3_8 (mem : Z → Z) (o : Z) (s : Z * Z * Z) : Z * Z * Z :=
  let '(a, b, c) := s in
  (add_bytes mem o a, add_bytes mem (o + 4) b, add_bytes mem (o + 8) c).

(** The fall-through [switch]: the case label [n] adds byte [n - 1]. *)
Definition last_8 (mem : Z → Z) (o length : Z) (s : Z * Z * Z) : option (Z * Z * Z) :=
  let '(a, b, c) := s in
  let k i := mem (o + i) in
  let step n x sh := if n <=? length then u32 (x + Z.shiftl (k (n - 1)) sh) else x in
  if length =? 0 then None else
  let c := step 12 c 24 in
  let c := step 11 c 16 in
  let c := step 10 c 8 in
  let c := step 9 c 0 in
  let b := step 8 b 24 in
  let b := step 7 b 16 in
  let b := step 6 b 8 in
  let b := step 5 b 0 in
  let a := step 4 a 24 in
  let a := step 3 a 16 in
  let a := step 2 a 8 in
  let a := step 1 a 0 in
  Some (a, b, c).

(** [addr] is the key pointer, of which only the low bits matter. *)
Definition jenkins_hash (addr : Z) (mem : Z → Z) (length : Z) : Z :=
  let i := u32 (0xdeadbeef + u32 length + 0) in
  let s := (i, i, i) in
  let fuel := Z.to_nat length in
  let r :=
    if Z.land addr 3 =? 0 then
      let '(o, len, s) := jenkins_loop fuel (add3_32 mem) 0 length s in
      (last_32 mem o len s, s)
    else if Z.land addr 1 =? 0 then
      let '(o, len, s) := jenkins_loop fuel (add3_16 mem) 0 length s in
      (last_16 mem o len s, s)
    else
      let '(o, len, s) := jenkins_loop fuel (add3_8 mem) 0 length s in
      (last_8 mem o len s, s) in
  match r with
  | (Some s, _) => (final s).2
  | (None, s) => s.2
  end.

(** ** MurmurHash3 *)

Definition rotl32 (x r : Z) : Z := Z.lor (u32 (Z.shiftl x r)) (Z.shiftr x (32 - r)).

Definition fmix32 (h : Z) : Z :=
  let h := Z.lxor h (Z.shiftr h 16) in
  let h := u32 (h * 0x85ebca6b) in
  let h := Z.lxor h (Z.shiftr h 13) in
  let h := u32 (h * 0xc2b2ae35) in
  Z.lxor h (Z.shiftr h 16).

Definition murmur_c1 : Z := 0xcc9e2d51.
Definition murmur_c2 : Z := 0x1b873593.

Definition murmur_k1 (k1 : Z) : Z :=
  let k1 := u32 (k1 * murmur_c1) in
  let k1 := rotl32 k1 15 in
  u32 (k1 * murmur_c2).

(** The body loop over the blocks, [n] of them left, at offset [o]. *)
Fixpoint murmur_body (n : nat) (mem : Z → Z) (o h1 : Z) : Z :=
  match n with
  | O => h1
  | S n =>
      let k1 := murmur_k1 (read32 mem o) in
      let h1 := Z.lxor h1 k1 in
      let h1 := rotl32 h1 13 in
      let h1 := u32 (h1 * 5 + 0xe6546b64) in
      murmur_body n mem (o + 4) h1
  end.

Definition MurmurHash3_x86_32 (mem : Z → Z) (length : Z) : Z :=
  let nblocks := length / 4 in
  let h1 := murmur_body (Z.to_nat nblocks) mem 0 0 in
  let tail i := mem (nblocks * 4 + i) in
  let k1 := 0 in
  let n := Z.land length 3 in
  let k1 := if n =? 3 then Z.lxor k1 (Z.shiftl (tail 2) 16) else k1 in
  let k1 := if 2 <=? n then Z.lxor k1 (Z.shiftl (tail 1) 8) else k1 in
  let h1 :=
    if 1 <=? n
    then Z.lxor h1 (murmur_k1 (Z.lxor k1 (tail 0)))
    else h1 in
  let h1 := u32 (Z.lxor h1 length) in
  fmix32 h1.

(** ** The three paths of [jenkins_hash] agree *)

Lemma u32_add_l x y : u32 (u32 x + y) = u32 (x + y).
Proof. unfold u32. apply Zplus_mod_idemp_l. Qed.

Lemma w16_read32 mem o i : w16 mem o i = read32 mem (o + 2 * i).
Proof.
  unfold w16, read16, read32.
  replace (o + 2 * (i + 1)) with (o + 2 * i + 2) by lia.
  replace (o + 2 * i + 2 + 1) with (o + 2 * i + 3) by lia.
  rewrite !Z.shiftl_mul_pow2 by lia. pow2_consts. lia.
Qed.

Lemma add_bytes_read32 mem o x : add_bytes mem o x = u32 (x + read32 mem o).
Proof. unfold add_bytes, read32. by repeat (rewrite u32_add_l, <- ?Z.add_assoc). Qed.

Lemma add3_16_32 mem o s : add3_16 mem o s = add3_32 mem o s.
Proof.
  destruct s as [[a b] c]. unfold add3_16, add3_32. rewrite !w16_read32.
  repeat f_equal; lia.
Qed.

Lemma add3_8_32 mem o s : add3_8 mem o s = add3_32 mem o s.
Proof. destruct s as [[a b] c]. unfold add3_8, add3_32. by rewrite !add_bytes_read32. Qed.

(** Masking a word keeps its low bytes. *)
Lemma read32_mask8 mem o : bytes_ok mem → Z.land (read32 mem o) 0xff = mem o.
Proof.
  intros Hm. change 0xff with (2 ^ 8 - 1). rewrite land_mask by lia. unfold read32.
  pose proof (Hm o). rewrite !Z.shiftl_mul_pow2 by lia. symmetry.
  apply Z.mod_unique with (mem (o + 1) + mem (o + 2) * 2 ^ 8 + mem (o + 3) * 2 ^ 16);
    pow2_consts; lia.
Qed.

Lemma read32_mask16 mem o :
  bytes_ok mem → Z.land (read32 mem o) 0xffff = mem o + Z.shiftl (mem (o + 1)) 8.
Proof.
  intros Hm. change 0xffff with (2 ^ 16 - 1). rewrite land_mask by lia. unfold read32.
  pose proof (Hm o). pose proof (Hm (o + 1)). rewrite !Z.shiftl_mul_pow2 by lia. symmetry.
  apply Z.mod_unique with (mem (o + 2) + mem (o + 3) * 2 ^ 8); pow2_consts; lia.
Qed.

Lemma read32_mask24 mem o :
  bytes_ok mem →
  Z.land (read32 mem o) 0xffffff =
    mem o + Z.shiftl (mem (o + 1)) 8 + Z.shiftl (mem (o + 2)) 16.
Proof.
  intros Hm. change 0xffffff with (2 ^ 24 - 1). rewrite land_mask by lia. unfold read32.
  pose proof (Hm o). pose proof (Hm (o + 1)). pose proof (Hm (o + 2)).
  rewrite !Z.shiftl_mul_pow2 by lia. symmetry.
  apply Z.mod_unique with (mem (o + 3)); pow2_consts; lia.
Qed.

(** [add3] functions that agree give the same loop. *)
Lemma jenkins_loop_ext fuel f g o length s :
  (∀ o s, f o s = g o s) → jenkins_loop fuel f o length s = jenkins_loop fuel g o length s.
Proof.
  intros H. revert o length s. induction fuel; intros; simpl; [done|].
  destruct_if; [|done]. by rewrite H, IHfuel.
Qed.

(** With fuel for the length the loop stops with at most twelve bytes left,
    all of the key. *)
Lemma jenkins_loop_result fuel f o length s o' len' s' :
  0 ≤ length ≤ Z.of_nat fuel → jenkins_loop fuel f o length s = (o', len', s') →
  0 ≤ len' ≤ 12 ∧ o' + len' = o + length ∧ o ≤ o'.
Proof.
  revert o length s. induction fuel as [|fuel IH]; intros o length s Hl; simpl.
  - intros [= <- <- <-]. lia.
  - destruct_if.
    + intros [? [? ?]]%IH; lia.
    + intros [= <- <- <-]. lia.
Qed.

Definition last_cases (n : Z) : Prop :=
  n = 0 ∨ n = 1 ∨ n = 2 ∨ n = 3 ∨ n = 4 ∨ n = 5 ∨ n = 6 ∨ n = 7 ∨ n = 8 ∨ n = 9 ∨ n = 10
  ∨ n = 11 ∨ n = 12.

Lemma last_cases_intro n : 0 ≤ n ≤ 12 → last_cases n.
Proof. unfold last_cases. lia. Qed.

(** [last_block] closes an equation between two readings of the last block of
    [len] bytes, one goal for each [len]. *)
Ltac norm_offsets o :=
  rewrite <- ?Z.add_assoc;
  repeat match goal with
  | |- context [o + ?e] =>
      let v := eval vm_compute in e in progress change (o + e) with (o + v)
  end.

Ltac last_block o :=
  repeat match goal with
  | |- Some _ = Some _ => f_equal
  | |- (_, _) = (_, _) => f_equal
  | |- u32 _ = u32 _ => f_equal
  end;
  rewrite ?Z.shiftl_mul_pow2 by lia; pow2_consts; lia.

(** The last block read as words, half words or bytes. *)
Lemma last_16_32 mem o len s :
  bytes_ok mem → 0 ≤ len ≤ 12 → last_16 mem o len s = last_32 mem o len s.
Proof.
  intros Hm Hl%last_cases_intro. destruct s as [[a b] c].
  unfold last_16, last_32. rewrite !w16_read32.
  rewrite !read32_mask8, !read32_mask16, !read32_mask24 by done.
  unfold read16. repeat rewrite !u32_add_l. unfold read32. norm_offsets o.
  repeat (destruct Hl as [-> | Hl]); try rewrite Hl; try done; last_block o.
Qed.

Lemma last_8_32 mem o len s :
  bytes_ok mem → 0 ≤ len ≤ 12 → last_8 mem o len s = last_32 mem o len s.
Proof.
  intros Hm Hl%last_cases_intro. destruct s as [[a b] c].
  unfold last_8, last_32.
  rewrite !read32_mask8, !read32_mask16, !read32_mask24 by done.
  unfold read32. norm_offsets o.
  repeat (destruct Hl as [-> | Hl]); try rewrite Hl; try done;
    cbv [Z.leb Z.eqb Z.compare Pos.compare Pos.compare_cont Pos.eqb];
    repeat (rewrite u32_add_l, <- ?Z.add_assoc); last_block o.
Qed.

(** The word path reads no byte of the key's last word beyond its end into the
    result. *)
Lemma last_32_ext mem mem' o len s :
  bytes_ok mem → bytes_ok mem' → 0 ≤ len ≤ 12 →
  (∀ i, o ≤ i < o + len → mem i = mem' i) →
  last_32 mem o len s = last_32 mem' o len s.
Proof.
  intros Hm Hm' Hl Heq. rewrite <- !last_8_32 by done. destruct s as [[a b] c].
  unfold last_8.
  assert (∀ n x sh, 1 ≤ n ≤ 12 →
    (if n <=? len then u32 (x + Z.shiftl (mem (o + (n - 1))) sh) else x) =
    (if n <=? len then u32 (x + Z.shiftl (mem' (o + (n - 1))) sh) else x)) as H.
  { intros n x sh ?. destruct_if; [|done]. by rewrite Heq by lia. }
  by rewrite !H by lia.
Qed.

Lemma add3_32_ext mem mem' o s :
  (∀ i, o ≤ i < o + 12 → mem i = mem' i) → add3_32 mem o s = add3_32 mem' o s.
Proof.
  intros Heq. destruct s as [[a b] c]. unfold add3_32, read32.
  by rewrite !Heq by lia.
Qed.

Lemma jenkins_loop_mem fuel mem mem' o length s :
  (∀ i, o ≤ i < o + length → mem i = mem' i) →
  jenkins_loop fuel (add3_32 mem) o length s = jenkins_loop fuel (add3_32 mem') o length s.
Proof.
  revert o length s. induction fuel as [|fuel IH]; intros o length s Heq; simpl; [done|].
  destruct_if; [|done].
  rewrite (add3_32_ext mem mem') by (intros; apply Heq; lia).
  apply IH. intros. apply Heq. lia.
Qed.

Lemma fuel_ok length : 0 ≤ length → 0 ≤ length ≤ Z.of_nat (Z.to_nat length).
Proof. lia. Qed.

(** The hash on the word path, to which the other two reduce. *)
Lemma jenkins_hash_aligned addr mem length :
  bytes_ok mem → 0 ≤ length → jenkins_hash addr mem length = jenkins_hash 0 mem length.
Proof.
  intros Hm Hl. unfold jenkins_hash at 1.
  destruct (Z.land addr 3 =? 0); [done|].
  destruct (Z.land addr 1 =? 0).
  - rewrite (jenkins_loop_ext _ (add3_16 mem) (add3_32 mem)) by apply add3_16_32.
    destruct (jenkins_loop _ _ _ _ _) as [[o len] s] eqn:E.
    pose proof (jenkins_loop_result _ _ _ length _ _ _ _ (fuel_ok _ Hl) E) as [? _].
    rewrite last_16_32 by done. unfold jenkins_hash. simpl. by rewrite E.
  - rewrite (jenkins_loop_ext _ (add3_8 mem) (add3_32 mem)) by apply add3_8_32.
    destruct (jenkins_loop _ _ _ _ _) as [[o len] s] eqn:E.
    pose proof (jenkins_loop_result _ _ _ length _ _ _ _ (fuel_ok _ Hl) E) as [? _].
    rewrite last_8_32 by done. unfold jenkins_hash. simpl. by rewrite E.
Qed.

(** The Jenkins hash of a key depends on the bytes of the key only: not
    on the alignment of the pointer it is read through (which selects one of
    three code paths) and not on the bytes after the key, which the aligned
    path reads past the end of the string and masks off. *)
Theorem jenkins_hash_key addr addr' mem mem' length :
  bytes_ok mem → bytes_ok mem' → 0 ≤ length →
  (∀ i, 0 ≤ i < length → mem i = mem' i) →
  jenkins_hash addr mem length = jenkins_hash addr' mem' length.
Proof.
  intros Hm Hm' Hl Heq. rewrite (jenkins_hash_aligned addr), (jenkins_hash_aligned addr') by done.
  unfold jenkins_hash. simpl.
  rewrite (jenkins_loop_mem _ mem mem') by (intros; apply Heq; lia).
  destruct (jenkins_loop _ _ _ _ _) as [[o len] s] eqn:E.
  pose proof (jenkins_loop_result _ _ _ length _ _ _ _ (fuel_ok _ Hl) E) as (? & ? & ?).
  by rewrite (last_32_ext mem mem') by (try done; intros; apply Heq; lia).
Qed.

Lemma jenkins_hash_key_witness :
  (* the 13-byte key "memcached-key" at an aligned and at an odd address, with
     different bytes after it *)
  let key := [109; 101; 109; 99; 97; 99; 104; 101; 100; 45; 107; 101; 121] in
  let mem t i := default t (key !! Z.to_nat i) in
  jenkins_hash 4096 (mem 0) 13 = jenkins_hash 7 (mem 255) 13.
Proof.
  cbv zeta. apply jenkins_hash_key; [| |lia|].
  - intros i. unfold default. destruct (_ !! _) as [x|] eqn:E; simpl; [|lia].
    apply list_elem_of_lookup_2 in E. set_unfold. lia.
  - intros i. unfold default. destruct (_ !! _) as [x|] eqn:E; simpl; [|lia].
    apply list_elem_of_lookup_2 in E. set_unfold. lia.
  - intros i Hi.
    assert (is_Some ([109; 101; 109; 99; 97; 99; 104; 101; 100; 45; 107; 101; 121] !! Z.to_nat i))
      as [x ->] by (apply lookup_lt_is_Some; simpl; lia).
    reflexivity.
Defined.

(** ** Results are 32-bit *)

Lemma rot_range x k : 0 ≤ x < 2 ^ 32 → 0 ≤ k ≤ 32 → 0 ≤ rot x k < 2 ^ 32.
Proof.
  intros Hx Hk. apply lor_range; [lia|apply u32_range|apply shiftr_range; lia].
Qed.

Lemma mix_range s : 0 ≤ s.2 < 2 ^ 32 → 0 ≤ (mix s).2 < 2 ^ 32.
Proof.
  destruct s as [[a b] c]. simpl. intros Hc.
  repeat first [apply u32_range | apply lxor_range | apply rot_range | lia].
Qed.

Lemma final_range s : 0 ≤ (final s).2 < 2 ^ 32.
Proof. destruct s as [[a b] c]. simpl. apply u32_range. Qed.

Lemma jenkins_loop_range fuel f o length s :
  (∀ o s, 0 ≤ (f o s).2 < 2 ^ 32) → 0 ≤ s.2 < 2 ^ 32 →
  0 ≤ (jenkins_loop fuel f o length s).2.2 < 2 ^ 32.
Proof.
  intros Hf. revert o length s. induction fuel as [|fuel IH]; intros o length s Hs; simpl; [done|].
  destruct_if; [|done]. apply IH, mix_range, Hf.
Qed.

Lemma jenkins_hash_range addr mem length : 0 ≤ jenkins_hash addr mem length < 2 ^ 32.
Proof.
  unfold jenkins_hash. set (i := u32 _).
  assert (Hi : 0 ≤ i < 2 ^ 32) by apply u32_range.
  assert (Hloop : ∀ f, (∀ o s, 0 ≤ (f o s).2 < 2 ^ 32) →
    0 ≤ (jenkins_loop (Z.to_nat length) f 0 length (i, i, i)).2.2 < 2 ^ 32)
    by (intros; by apply jenkins_loop_range).
  repeat destruct_if;
    match goal with |- context [jenkins_loop _ ?f _ _ _] => assert (H := Hloop f) end;
    destruct (jenkins_loop _ _ _ _ _) as [[o len] s]; simpl in *;
    case_match; try apply final_range;
    apply H; intros ? [[? ?] ?]; simpl; apply u32_range.
Qed.

(** ** The finaliser of MurmurHash3 is a bijection on 32-bit words *)

(** Multiplication by the inverses of the two odd constants undoes the
    multiplications; a right xor-shift is undone by xor-shifts. *)
Definition unfmix32 (h : Z) : Z :=
  let h := Z.lxor h (Z.shiftr h 16) in
  let h := u32 (h * 0x7ed1b41d) in
  let h := Z.lxor (Z.lxor h (Z.shiftr h 13)) (Z.shiftr h 26) in
  let h := u32 (h * 0xa5cb9243) in
  Z.lxor h (Z.shiftr h 16).

Lemma xorshift16_inv x :
  0 ≤ x < 2 ^ 32 →
  let y := Z.lxor x (Z.shiftr x 16) in Z.lxor y (Z.shiftr y 16) = x.
Proof.
  intros Hx y. subst y. apply Z.bits_inj'. intros i Hi.
  rewrite Z.shiftr_lxor, !Z.lxor_spec, !Z.shiftr_spec by lia.
  rewrite (testbit_high x 32 (i + 16 + 16)) by lia.
  by destruct (Z.testbit x i), (Z.testbit x (i + 16)).
Qed.

Lemma xorshift13_inv x :
  0 ≤ x < 2 ^ 32 →
  let y := Z.lxor x (Z.shiftr x 13) in
  Z.lxor (Z.lxor y (Z.shiftr y 13)) (Z.shiftr y 26) = x.
Proof.
  intros Hx y. subst y. apply Z.bits_inj'. intros i Hi.
  rewrite !Z.shiftr_lxor, !Z.lxor_spec, !Z.shiftr_spec by lia.
  replace (i + 26 + 13) with (i + 39) by lia. replace (i + 13 + 13) with (i + 26) by lia.
  rewrite (testbit_high x 32 (i + 39)) by lia.
  by destruct (Z.testbit x i), (Z.testbit x (i + 13)), (Z.testbit x (i + 26)).
Qed.

Lemma xorshift13_inv' x :
  0 ≤ x < 2 ^ 32 →
  let y := Z.lxor (Z.lxor x (Z.shiftr x 13)) (Z.shiftr x 26) in
  Z.lxor y (Z.shiftr y 13) = x.
Proof.
  intros Hx y. subst y. apply Z.bits_inj'. intros i Hi.
  rewrite !Z.shiftr_lxor, !Z.lxor_spec, !Z.shiftr_spec by lia.
  replace (i + 13 + 26) with (i + 39) by lia. replace (i + 13 + 13) with (i + 26) by lia.
  rewrite (testbit_high x 32 (i + 39)) by lia.
  by destruct (Z.testbit x i), (Z.testbit x (i + 13)), (Z.testbit x (i + 26)).
Qed.

Lemma mul_inv_u32 x c d :
  0 ≤ x < 2 ^ 32 → (c * d) mod 2 ^ 32 = 1 → u32 (u32 (x * c) * d) = x.
Proof.
  intros Hx Hc. unfold u32. rewrite Zmult_mod_idemp_l, <- Z.mul_assoc, <- Zmult_mod_idemp_r.
  by rewrite Hc, Z.mul_1_r, Z.mod_small.
Qed.

Lemma xorshift_range x k : 0 ≤ k → 0 ≤ x < 2 ^ 32 → 0 ≤ Z.lxor x (Z.shiftr x k) < 2 ^ 32.
Proof. intros. apply lxor_range; [lia|done|]. apply shiftr_range; lia. Qed.

(** [fmix32], the finaliser of the murmur3 key hash, is a bijection on
    32-bit words: no two internal states are merged by it. [unfmix32] is its
    inverse. *)
Theorem fmix32_bijective h :
  0 ≤ h < 2 ^ 32 →
  0 ≤ fmix32 h < 2 ^ 32 ∧ unfmix32 (fmix32 h) = h ∧ fmix32 (unfmix32 h) = h.
Proof.
  intros Hh. unfold fmix32, unfmix32. cbv zeta. split_and!.
  - apply (xorshift_range _ 16); [lia|apply u32_range].
  - apply (xorshift_range _ 16); [lia|apply u32_range].
  - rewrite xorshift16_inv by apply u32_range.
    rewrite mul_inv_u32; [|apply xorshift_range; [lia|apply u32_range]|done].
    rewrite xorshift13_inv by apply u32_range.
    rewrite mul_inv_u32; [|by apply xorshift_range|done]. by apply xorshift16_inv.
  - rewrite xorshift16_inv by apply u32_range.
    assert (Hy : ∀ y, 0 ≤ y < 2 ^ 32 →
      0 ≤ Z.lxor (Z.lxor y (Z.shiftr y 13)) (Z.shiftr y 26) < 2 ^ 32).
    { intros. apply lxor_range; [lia|by apply xorshift_range|apply shiftr_range; lia]. }
    rewrite mul_inv_u32; [|apply Hy, u32_range|done].
    rewrite xorshift13_inv'; [|apply u32_range].
    rewrite mul_inv_u32; [|by apply xorshift_range|done]. by apply xorshift16_inv.
Qed.

Lemma fmix32_bijective_witness :
  0 ≤ fmix32 12345 < 2 ^ 32 ∧ unfmix32 (fmix32 12345) = 12345 ∧ fmix32 (unfmix32 12345) = 12345.
Proof. apply fmix32_bijective. lia. Defined.

(** ** The interface of the key hash

    What the hash table and the LRU code rely on: a function of the key bytes
    whose value is a [uint32_t]. *)

Class HashFn := {
  hash : list Z → Z;
  hash_range : ∀ k, 0 ≤ hash k < 2 ^ 32
}.

(** The memory that holds exactly the key bytes. *)
Definition mem_of (k : list Z) (i : Z) : Z := default 0 (k !! Z.to_nat i).

Lemma fmix32_range h : 0 ≤ h < 2 ^ 32 → 0 ≤ fmix32 h < 2 ^ 32.
Proof. intros. apply (xorshift_range _ 16); [lia|apply u32_range]. Qed.

Definition jenkins_fn : HashFn :=
  {| hash k := jenkins_hash 0 (mem_of k) (Z.of_nat (length k));
     hash_range k := jenkins_hash_range _ _ _ |}.

Definition murmur3_fn : HashFn :=
  {| hash k := MurmurHash3_x86_32 (mem_of k) (Z.of_nat (length k));
     hash_range k := fmix32_range _ (u32_range _) |}.

(** [hash_init] of [hash.c]: the choice of the hash function and of the name
    shown in the settings; [XXH3_64bits] is the vendored XXH3, truncated to 32
    bits. [None] is the return value [-1]. *)
Definition hash_init (XXH3_64bits : list Z → Z) (type : Z) : option (HashFn * string) :=
  match type with
  | 0 (* JENKINS_HASH *) => Some (jenkins_fn, "jenkins")
  | 1 (* MURMUR3_HASH *) => Some (murmur3_fn, "murmur3")
  | 2 (* XXH3_HASH *) =>
      Some ({| hash k := u32 (XXH3_64bits k); hash_range k := u32_range _ |}, "xxh3")
  | _ => None
  end.
