(* ===== verification/StatsPrefix.v ===== *)
(** * Statistics per key prefix ([stats_prefix.c])

    Counters for the part of a key before the delimiter, in a chained hash
    table of 256 buckets. A pointer to an entry is its bucket and its place in
    the chain. *)

From S2P Require Import Prelude Itoa Util Bipbuf Hashes.

Definition PREFIX_HASH_SIZE : Z := 256.

Record PREFIX_STATS : Type := mkPrefix {
  pf_prefix : list Z;
  pf_num_gets : Z;
  pf_num_sets : Z;
  pf_num_deletes : Z;
  pf_num_hits : Z
}.
#[global] Instance prefix_eta : Eta PREFIX_STATS := λ r,
  mkPrefix (pf_prefix r) (pf_num_gets r) (pf_num_sets r) (pf_num_deletes r) (pf_num_hits r).

Record prefixes : Type := mkPrefixes {
  sp_table : Z → list PREFIX_STATS;
  sp_delimiter : Z;
  sp_num_prefixes : Z;
  sp_total_prefix_size : Z
}.
#[global] Instance prefixes_eta : Eta prefixes := λ r,
  mkPrefixes (sp_table r) (sp_delimiter r) (sp_num_prefixes r) (sp_total_prefix_size r).

Section Prefix.
Context {HF : HashFn}.

Definition stats_prefix_init (delimiter : Z) (s : prefixes) : prefixes :=
  s <| sp_delimiter := delimiter |> <| sp_table := λ _, [] |>.

Definition stats_prefix_clear (s : prefixes) : prefixes :=
  s <| sp_table := λ _, [] |> <| sp_num_prefixes := 0 |> <| sp_total_prefix_size := 0 |>.

(** [for (length = 0; length < nkey && key[length] != 0; length++)]: the length
    of the prefix, [None] without a delimiter. *)
Fixpoint prefix_length (delim : Z) (key : list Z) (length : nat) : option nat :=
  match key with
  | [] => None
  | c :: key =>
      if c =? 0 then None else if c =? delim then Some length else prefix_length delim key (S length)
  end.

(** [strncmp(a, b, n) == 0] on strings that end with their lists. *)
Fixpoint strncmp0 (n : nat) (a b : list Z) : bool :=
  match n with
  | O => true
  | S n => (at_ a 0 =? at_ b 0) && ((at_ a 0 =? 0) || strncmp0 n (drop 1 a) (drop 1 b))
  end.

Fixpoint find_entry (key : list Z) (length : nat) (chain : list PREFIX_STATS) (i : nat) : option nat :=
  match chain with
  | [] => None
  | p :: chain => if strncmp0 length (pf_prefix p) key then Some i else find_entry key length chain (S i)
  end.

(** [mem1] and [mem2]: whether the two allocations succeed. [key] has [nkey]
    bytes. *)
Definition stats_prefix_find (key : list Z) (mem1 mem2 : bool) (s : prefixes) : option (Z * nat) * prefixes :=
  match prefix_length (sp_delimiter s) key 0 with
  | None => (None, s)
  | Some length =>
      let hashval := hash (take length key) mod PREFIX_HASH_SIZE in
      match find_entry key length (sp_table s hashval) 0 with
      | Some i => (Some (hashval, i), s)
      | None =>
          if negb mem1 || negb mem2 then (None, s)
          else
            let pfs := mkPrefix (take length key) 0 0 0 0 in
            (Some (hashval, 0%nat),
             s <| sp_table := upd (sp_table s) hashval (pfs :: sp_table s hashval) |>
               <| sp_num_prefixes := sp_num_prefixes s + 1 |>
               <| sp_total_prefix_size := sp_total_prefix_size s + Z.of_nat length |>)
      end
  end.

Definition on_entry (at_ : Z * nat) (f : PREFIX_STATS → PREFIX_STATS) (s : prefixes) : prefixes :=
  s <| sp_table := upd (sp_table s) at_.1 (alter f at_.2 (sp_table s at_.1)) |>.

Definition record (key : list Z) (mem1 mem2 : bool) (f : PREFIX_STATS → PREFIX_STATS) (s : prefixes) : prefixes :=
  match stats_prefix_find key mem1 mem2 s with
  | (None, s) => s
  | (Some p, s) => on_entry p f s
  end.

Definition stats_prefix_record_get (key : list Z) (is_hit mem1 mem2 : bool) : prefixes → prefixes :=
  record key mem1 mem2 (λ p,
    let p := p <| pf_num_gets := u64 (pf_num_gets p + 1) |> in
    if is_hit then p <| pf_num_hits := u64 (pf_num_hits p + 1) |> else p).

Definition stats_prefix_record_delete (key : list Z) (mem1 mem2 : bool) : prefixes → prefixes :=
  record key mem1 mem2 (λ p, p <| pf_num_deletes := u64 (pf_num_deletes p + 1) |>).

Definition stats_prefix_record_set (key : list Z) (mem1 mem2 : bool) : prefixes → prefixes :=
  record key mem1 mem2 (λ p, p <| pf_num_sets := u64 (pf_num_sets p + 1) |>).

(** ** The dump *)

(** The pieces of the format "PREFIX %s get %llu hit %llu set %llu del %llu\r\n". *)
Definition fmt_prefix : list Z := [80; 82; 69; 70; 73; 88; 32].
Definition fmt_get : list Z := [32; 103; 101; 116; 32].
Definition fmt_hit : list Z := [32; 104; 105; 116; 32].
Definition fmt_set : list Z := [32; 115; 101; 116; 32].
Definition fmt_del : list Z := [32; 100; 101; 108; 32].
Definition fmt_eol : list Z := [13; 10].

(** [strlen(format)]: the pieces, one "%s" and four "%llu". *)
Definition strlen_format : Z :=
  Z.of_nat (length (fmt_prefix ++ fmt_get ++ fmt_hit ++ fmt_set ++ fmt_del ++ fmt_eol)) + 2 + 4 * 4.

Definition dump_line (p : PREFIX_STATS) : list Z :=
  fmt_prefix ++ pf_prefix p ++ fmt_get ++ decimal (pf_num_gets p) ++ fmt_hit ++ decimal (pf_num_hits p) ++
  fmt_set ++ decimal (pf_num_sets p) ++ fmt_del ++ decimal (pf_num_deletes p) ++ fmt_eol.

Definition dump_size (s : prefixes) : Z :=
  strlen_format + sp_total_prefix_size s + sp_num_prefixes s * (strlen_format - 2 + 4 * (20 - 4)) + 6.

(** All entries in the order of the loops. *)
Definition all_entries (s : prefixes) : list PREFIX_STATS :=
  concat ((λ i, sp_table s (Z.of_nat i)) <$> seq 0 (Z.to_nat PREFIX_HASH_SIZE)).

(** One [snprintf] after the other; [None] when the text so far has reached the
    size of the buffer, the assertion of the debug build. *)
Fixpoint dump_loop (entries : list PREFIX_STATS) (size : Z) (buf : list Z) : option (list Z) :=
  match entries with
  | [] => Some buf
  | p :: entries =>
      let buf := buf ++ dump_line p in
      if Z.of_nat (length buf) <? size then dump_loop entries size buf else None
  end.

(** The text with its final NUL and [*length]; the last [memcpy] must fit. *)
Definition stats_prefix_dump (s : prefixes) : option (list Z * Z) :=
  let size := dump_size s in
  buf ← dump_loop (all_entries s) size [];
  let pos := Z.of_nat (length buf) in
  if pos + 6 <=? size then Some (buf ++ [69; 78; 68; 13; 10; 0], pos + 5) else None.

(** ** The table stays consistent *)

Definition counters_ok (p : PREFIX_STATS) : Prop :=
  0 ≤ pf_num_gets p < 2 ^ 64 ∧ 0 ≤ pf_num_sets p < 2 ^ 64 ∧
  0 ≤ pf_num_deletes p < 2 ^ 64 ∧ 0 ≤ pf_num_hits p < 2 ^ 64.

Definition total_length (l : list (list Z)) : Z := foldr (λ p acc, Z.of_nat (length p) + acc) 0 l.

Record prefixes_ok (s : prefixes) : Prop := {
  px_num : sp_num_prefixes s = Z.of_nat (length (all_entries s));
  px_total : sp_total_prefix_size s = total_length (pf_prefix <$> all_entries s);
  px_counters : ∀ i, Forall counters_ok (sp_table s i);
  px_bucket : ∀ i, Forall (λ p, hash (pf_prefix p) mod PREFIX_HASH_SIZE = i) (sp_table s i)
}.

Lemma total_length_perm l l' : l ≡ₚ l' → total_length l = total_length l'.
Proof. induction 1; simpl in *; lia. Qed.

(** A new entry in one bucket. *)
Lemma concat_upd_cons (t : Z → list PREFIX_STATS) h x (l : list nat) :
  NoDup l → h ∈ (Z.of_nat <$> l) →
  concat ((λ i, upd t h (x :: t h) (Z.of_nat i)) <$> l) ≡ₚ x :: concat ((λ i, t (Z.of_nat i)) <$> l).
Proof.
  assert (Hout : ∀ l : list nat, h ∉ (Z.of_nat <$> l) →
    (λ i, upd t h (x :: t h) (Z.of_nat i)) <$> l = (λ i, t (Z.of_nat i)) <$> l).
  { intros l' Hh. apply list_fmap_ext. intros i j Hj. apply upd_ne. intros E. apply Hh.
    apply list_elem_of_fmap. exists j. split; [done|]. by apply list_elem_of_lookup_2 in Hj. }
  induction l as [|i l IH]; intros Hn Hh; [by apply elem_of_nil in Hh|].
  apply NoDup_cons in Hn as [Hi Hn]. rewrite !fmap_cons. simpl. destruct (decide (Z.of_nat i = h)) as [E|E].
  - rewrite Hout.
    + rewrite E. by rewrite upd_eq.
    + rewrite list_elem_of_fmap. intros (j & Ej & Hj). apply Hi. by replace i with j by lia.
  - rewrite upd_ne by done. rewrite IH; [|done|].
    + by rewrite Permutation_middle.
    + apply elem_of_cons in Hh as [Hh|Hh]; [congruence|done].
Qed.

Lemma bucket_in h : 0 ≤ h < PREFIX_HASH_SIZE → h ∈ (Z.of_nat <$> seq 0 (Z.to_nat PREFIX_HASH_SIZE)).
Proof.
  intros Hh. apply list_elem_of_fmap. exists (Z.to_nat h). split; [lia|]. apply elem_of_seq. lia.
Qed.

(** An update that keeps the prefixes. *)
Lemma concat_alter_prefix (t : Z → list PREFIX_STATS) h i f (l : list nat) :
  (∀ p, pf_prefix (f p) = pf_prefix p) →
  pf_prefix <$> concat ((λ j, upd t h (alter f i (t h)) (Z.of_nat j)) <$> l) =
  pf_prefix <$> concat ((λ j, t (Z.of_nat j)) <$> l).
Proof.
  intros Hf. induction l as [|j l IH]; [done|]. rewrite !fmap_cons. simpl. rewrite !fmap_app, IH. f_equal.
  unfold upd. destruct (Z.eqb_spec (Z.of_nat j) h) as [->|]; [|done].
  apply list_eq. intros k. rewrite !list_lookup_fmap. destruct (decide (k = i)) as [->|].
  - rewrite list_lookup_alter_eq. destruct (t h !! i); simpl; [by rewrite Hf|done].
  - by rewrite list_lookup_alter_ne by done.
Qed.

Lemma on_entry_ok s at_ f :
  prefixes_ok s → (∀ p, pf_prefix (f p) = pf_prefix p) → (∀ p, counters_ok p → counters_ok (f p)) →
  prefixes_ok (on_entry at_ f s).
Proof.
  intros [Hn Ht Hc Hb] Hf Hk.
  assert (E : pf_prefix <$> all_entries (on_entry at_ f s) = pf_prefix <$> all_entries s)
    by exact (concat_alter_prefix (sp_table s) at_.1 at_.2 f (seq 0 (Z.to_nat PREFIX_HASH_SIZE)) Hf).
  constructor.
  - apply (f_equal length) in E. rewrite !length_fmap in E. by rewrite E.
  - by rewrite E.
  - intros i. simpl. unfold upd. destruct (_ =? _); [|apply Hc]. apply Forall_alter; [apply Hc|]. auto.
  - intros i. simpl. unfold upd. destruct (Z.eqb_spec i at_.1) as [->|]; [|apply Hb]. apply Forall_alter; [apply Hb|].
    intros p _. by rewrite Hf.
Qed.

(** ** The lookup *)

Lemma prefix_length_spec delim key n len :
  prefix_length delim key n = Some len →
  (n ≤ len)%nat ∧ (len - n < length key)%nat ∧ Forall (λ c, c ≠ 0 ∧ c ≠ delim) (take (len - n) key) ∧
  nth (len - n) key 0 = delim.
Proof.
  revert n. induction key as [|c key IH]; intros n; simpl; [done|].
  destruct (Z.eqb_spec c 0); [done|]. destruct (Z.eqb_spec c delim) as [->|].
  - intros [= <-]. rewrite Nat.sub_diag. split_and!; [lia|lia|constructor|done].
  - intros H. apply IH in H as (H1 & H2 & H3 & H4).
    replace (len - n)%nat with (S (len - S n)) by lia. split_and!; [lia|lia|by constructor|done].
Qed.

Lemma strncmp0_spec n a b :
  Forall (λ c, c ≠ 0) (take n b) → (n ≤ length b)%nat → strncmp0 n a b = true ↔ take n a = take n b.
Proof.
  revert a b. induction n as [|n IH]; intros a b Hb Hl; [done|].
  destruct b as [|y b]; [simpl in Hl; lia|]. simpl in Hb. apply Forall_cons in Hb as [Hy Hb].
  simpl. unfold at_. destruct a as [|x a]; simpl.
  - rewrite (proj2 (Z.eqb_neq 0 y)) by done. simpl. split; done.
  - rewrite !drop_0. destruct (Z.eqb_spec x y) as [->|Hne]; simpl.
    + rewrite (proj2 (Z.eqb_neq y 0)) by done. simpl. simpl in Hl. rewrite IH by (done || lia).
      split; [by intros ->|by intros [= ->]].
    + split; [done|]. by intros [= -> _].
Qed.

Lemma find_entry_spec key len chain i :
  match find_entry key len chain i with
  | Some j => ∃ p, (i ≤ j)%nat ∧ chain !! (j - i)%nat = Some p ∧ strncmp0 len (pf_prefix p) key = true
  | None => Forall (λ p, strncmp0 len (pf_prefix p) key = false) chain
  end.
Proof.
  revert i. induction chain as [|p chain IH]; intros i; simpl; [constructor|].
  destruct (strncmp0 len (pf_prefix p) key) eqn:E.
  - exists p. rewrite Nat.sub_diag. auto.
  - specialize (IH (S i)). destruct (find_entry key len chain (S i)) as [j|].
    + destruct IH as (q & H1 & H2 & H3). exists q. replace (j - i)%nat with (S (j - S i)) by lia. split_and!; [lia|done|done].
    + by constructor.
Qed.

(** Finding the counters of a key with a delimiter always
    succeeds when memory does, keeps the table consistent, and gives an entry whose
    prefix starts with the key's prefix; it is the entry of exactly that prefix
    unless the bucket holds a longer prefix that starts with it. *)
Theorem stats_prefix_find_entry key len s :
  prefixes_ok s → prefix_length (sp_delimiter s) key 0 = Some len →
  ∃ h i e s', stats_prefix_find key true true s = (Some (h, i), s') ∧ prefixes_ok s' ∧
    sp_table s' h !! i = Some e ∧ take len (pf_prefix e) = take len key ∧
    (Forall (λ p, take len (pf_prefix p) = take len key → length (pf_prefix p) = len) (sp_table s h) →
     pf_prefix e = take len key).
Proof.
  intros Hok Hl. pose proof (prefix_length_spec _ _ _ _ Hl) as (_ & Hk & Hz & _). rewrite Nat.sub_0_r in Hk, Hz.
  assert (Hnz : Forall (λ c, c ≠ 0) (take len key)) by (eapply Forall_impl; [exact Hz|]; simpl; tauto).
  assert (Hcmp : ∀ a, strncmp0 len a key = true ↔ take len a = take len key) by (intros; apply strncmp0_spec; [done|lia]).
  unfold stats_prefix_find. rewrite Hl. set (h := hash (take len key) mod PREFIX_HASH_SIZE).
  assert (Hh : 0 ≤ h < PREFIX_HASH_SIZE) by (apply Z.mod_pos_bound; done).
  pose proof (find_entry_spec key len (sp_table s h) 0) as Hf.
  destruct (find_entry key len (sp_table s h) 0) as [i|].
  - destruct Hf as (e & _ & He & Hc). rewrite Nat.sub_0_r in He. apply Hcmp in Hc.
    exists h, i, e, s. split_and!; try done. intros Hall. rewrite Forall_forall in Hall.
    rewrite <- Hc. rewrite take_ge; [done|]. rewrite (Hall e); [done|by apply list_elem_of_lookup_2 in He|done].
  - simpl. set (pfs := mkPrefix (take len key) 0 0 0 0).
    set (s' := s <| sp_table := _ |> <| sp_num_prefixes := _ |> <| sp_total_prefix_size := _ |>).
    exists h, 0%nat, pfs, s'. split; [reflexivity|].
    assert (Hp : all_entries s' ≡ₚ pfs :: all_entries s) by exact (concat_upd_cons (sp_table s) h pfs
      (seq 0 (Z.to_nat PREFIX_HASH_SIZE)) (NoDup_seq _ _) (bucket_in h Hh)).
    destruct Hok as [Hn Ht Hct Hb]. split_and!.
    + constructor.
      * rewrite Hp. simpl. rewrite Hn. lia.
      * rewrite (total_length_perm _ _ (fmap_Permutation pf_prefix _ _ Hp)).
        change (sp_total_prefix_size s + Z.of_nat len =
          Z.of_nat (length (take len key)) + total_length (pf_prefix <$> all_entries s)).
        rewrite length_take, Ht. lia.
      * intros i. simpl. unfold upd. destruct (_ =? _); [|apply Hct]. constructor; [|apply Hct]. unfold counters_ok; simpl; lia.
      * intros i. simpl. unfold upd. destruct (Z.eqb_spec i h) as [->|]; [|apply Hb]. by constructor; [|apply Hb].
    + simpl. by rewrite upd_eq.
    + simpl. by rewrite take_take, Nat.min_id.
    + done.
Qed.

(** ** The dump fits its buffer *)

Lemma dump_line_length p : counters_ok p →
  Z.of_nat (length (dump_line p)) ≤ strlen_format - 2 + 4 * (20 - 4) + Z.of_nat (length (pf_prefix p)).
Proof.
  intros (H1 & H2 & H3 & H4). unfold dump_line. rewrite !length_app.
  pose proof (decimal_spec _ H1) as (_ & _ & L1 & _). pose proof (decimal_spec _ H2) as (_ & _ & L2 & _).
  pose proof (decimal_spec _ H3) as (_ & _ & L3 & _). pose proof (decimal_spec _ H4) as (_ & _ & L4 & _).
  unfold strlen_format. simpl length. lia.
Qed.

Lemma strlen_format_eq : strlen_format = 47.
Proof. reflexivity. Qed.

Lemma total_length_nonneg l : 0 ≤ total_length l.
Proof. induction l; simpl; lia. Qed.

Lemma dump_loop_fits entries size buf :
  Forall counters_ok entries →
  Z.of_nat (length buf) + Z.of_nat (length entries) * 109 + total_length (pf_prefix <$> entries) < size →
  ∃ out, dump_loop entries size buf = Some out ∧ out = buf ++ concat (dump_line <$> entries) ∧
    Z.of_nat (length out) ≤
      Z.of_nat (length buf) + Z.of_nat (length entries) * 109 + total_length (pf_prefix <$> entries).
Proof.
  intros Hc. revert buf. induction Hc as [|p l Hp _ IH]; intros buf Hs.
  - exists buf. simpl in *. rewrite app_nil_r. split_and!; [done|done|lia].
  - pose proof (dump_line_length p Hp) as Hl. rewrite strlen_format_eq in Hl.
    assert (E : total_length (pf_prefix <$> p :: l) = Z.of_nat (length (pf_prefix p)) + total_length (pf_prefix <$> l)) by done.
    rewrite E in *. cbn [dump_loop length] in *. pose proof (total_length_nonneg (pf_prefix <$> l)).
    rewrite (proj2 (Z.ltb_lt _ _)) by (rewrite length_app; lia).
    destruct (IH (buf ++ dump_line p)) as (out & Hrun & -> & Hlen); [rewrite length_app; lia|].
    eexists. split_and!; [exact Hrun|by rewrite <- app_assoc|]. rewrite !length_app in *. lia.
Qed.

(** The buffer [stats_prefix_dump] allocates is large enough: its
    assertion holds, the closing text fits, and the result is one line per entry
    followed by END, whatever the counters. *)
Theorem stats_prefix_dump_fits s :
  prefixes_ok s →
  ∃ text, stats_prefix_dump s = Some (text ++ [69; 78; 68; 13; 10; 0], Z.of_nat (length text) + 5) ∧
    text = concat (dump_line <$> all_entries s) ∧
    Z.of_nat (length (text ++ [69; 78; 68; 13; 10; 0])) ≤ dump_size s.
Proof.
  intros [Hn Ht Hc Hb].
  assert (Hall : Forall counters_ok (all_entries s)).
  { apply Forall_concat, Forall_fmap, Forall_forall. intros i _. apply Hc. }
  destruct (dump_loop_fits (all_entries s) (dump_size s) [] Hall) as (text & Hrun & -> & Hlen).
  { unfold dump_size. rewrite Hn, Ht, strlen_format_eq. simpl length. lia. }
  assert (Hsz : Z.of_nat (length (concat (dump_line <$> all_entries s))) + 6 ≤ dump_size s).
  { unfold dump_size. rewrite Hn, Ht, strlen_format_eq. simpl length in Hlen. simpl app in Hlen. lia. }
  exists (concat (dump_line <$> all_entries s)). unfold stats_prefix_dump. rewrite Hrun. simpl.
  rewrite (proj2 (Z.leb_le _ _)) by exact Hsz. split_and!; [done|done|]. rewrite length_app. simpl. lia.
Qed.
End Prefix.

(** ** Runs *)

#[local] Existing Instance jenkins_fn.

Definition no_prefixes : prefixes := mkPrefixes (λ _, []) 58 0 0.

Lemma no_prefixes_ok : prefixes_ok no_prefixes.
Proof. constructor; [vm_compute; reflexivity|vm_compute; reflexivity|constructor|constructor]. Qed.

Lemma stats_prefix_find_entry_witness :
  ∃ h i e s', stats_prefix_find [117; 58; 49] true true no_prefixes = (Some (h, i), s') ∧ prefixes_ok s' ∧
    sp_table s' h !! i = Some e ∧ take 1 (pf_prefix e) = take 1 [117; 58; 49] ∧
    (Forall (λ p, take 1 (pf_prefix p) = take 1 [117; 58; 49] → length (pf_prefix p) = 1%nat) (sp_table no_prefixes h) →
     pf_prefix e = take 1 [117; 58; 49]).
Proof.
  apply (stats_prefix_find_entry [117; 58; 49] 1 no_prefixes).
  - exact no_prefixes_ok.
  - reflexivity.
Defined.

Lemma stats_prefix_dump_fits_witness :
  ∃ text, stats_prefix_dump no_prefixes = Some (text ++ [69; 78; 68; 13; 10; 0], Z.of_nat (length text) + 5) ∧
    text = concat (dump_line <$> all_entries no_prefixes) ∧
    Z.of_nat (length (text ++ [69; 78; 68; 13; 10; 0])) ≤ dump_size no_prefixes.
Proof. exact (stats_prefix_dump_fits no_prefixes no_prefixes_ok). Defined.

(** The comparison of only the first [length] bytes confuses prefixes of one
    bucket: after a set of "pc:1", a get of "p:1" counts for the prefix "pc" and no
    entry for "p" appears. *)
Lemma stats_prefix_confused :
  let s := stats_prefix_record_set [112; 99; 58; 49] true true no_prefixes in
  let s := stats_prefix_record_get [112; 58; 49] true true true s in
  all_entries s = [mkPrefix [112; 99] 1 1 0 1].
Proof. vm_compute. reflexivity. Qed.
