(* ===== verification/State.v ===== *)
(** * The data model: items and the server's global state

    [item] is [struct _stritem] of [memcached.h]; the memory the slab
    allocator hands out is a map from addresses to items. The global variables
    of [assoc.c], [slabs.c], [items.c] and the statistics and settings those
    files use are the fields of [world]. *)

From S2P Require Import Prelude Bipbuf.
From Stdlib Require Export Floats.SpecFloat.

(** ** Constants of [memcached.h] and [items.h] *)

Definition ITEM_LINKED : Z := 1.
Definition ITEM_CAS : Z := 2.
Definition ITEM_SLABBED : Z := 4.
Definition ITEM_FETCHED : Z := 8.
Definition ITEM_ACTIVE : Z := 16.
Definition ITEM_CHUNKED : Z := 32.
Definition ITEM_CHUNK : Z := 64.
Definition ITEM_HDR : Z := 128.
Definition ITEM_CFLAGS : Z := 256.
Definition ITEM_TOKEN_SENT : Z := 512.
Definition ITEM_STALE : Z := 2048.
Definition ITEM_KEY_BINARY : Z := 4096.

Definition HOT_LRU : Z := 0.
Definition WARM_LRU : Z := 64.
Definition COLD_LRU : Z := 128.
Definition TEMP_LRU : Z := 192.

Definition LRU_PULL_EVICT : Z := 1.
Definition LRU_PULL_CRAWL_BLOCKS : Z := 2.
Definition LRU_PULL_RETURN_ITEM : Z := 4.

Definition POWER_SMALLEST : Z := 1.
Definition SLAB_GLOBAL_PAGE_POOL : Z := 0.
Definition CHUNK_ALIGN_BYTES : Z := 8.
Definition MAX_NUMBER_OF_SLAB_CLASSES : Z := 64.
Definition SLABS_ALLOC_NO_NEWPAGE : Z := 1.
Definition HASHPOWER_DEFAULT : Z := 16.
Definition HASHPOWER_MAX : Z := 32.
Definition ITEM_UPDATE_INTERVAL : Z := 60.
Definition KEY_MAX_LENGTH : Z := 250.

(** Sizes of the structs on the 64-bit target. *)
Definition sizeof_item : Z := 48.
Definition sizeof_item_chunk : Z := 48.
Definition sizeof_item_hdr : Z := 12.
Definition sizeof_ptr : Z := 8.
Definition sizeof_uint64 : Z := 8.
Definition sizeof_uint32 : Z := 4.

Definition NULL : Z := 0.

(** ** Items

    The variable part [data[]] of the struct is its four pieces: the CAS
    value, the key, the client flags and the value with its CRLF. *)

Record item : Type := mkItem {
  i_next : Z;
  i_prev : Z;
  i_h_next : Z;
  i_time : Z;        (* rel_time_t: unsigned int *)
  i_exptime : Z;     (* rel_time_t *)
  i_nbytes : Z;      (* int *)
  i_refcount : Z;    (* unsigned short *)
  i_it_flags : Z;    (* uint16_t *)
  i_slabs_clsid : Z; (* uint8_t *)
  i_nkey : Z;        (* uint8_t *)
  i_cas : Z;
  i_key : list Z;
  i_cflags : Z;
  i_data : list Z
}.

#[global] Instance item_eta : Eta item := λ r,
  mkItem (i_next r) (i_prev r) (i_h_next r) (i_time r) (i_exptime r) (i_nbytes r)
    (i_refcount r) (i_it_flags r) (i_slabs_clsid r) (i_nkey r) (i_cas r) (i_key r)
    (i_cflags r) (i_data r).

(** A header in memory the allocator has just wiped. *)
Definition zero_item : item := mkItem 0 0 0 0 0 0 0 0 0 0 0 [] 0 [].

Definition ITEM_get_cas (it : item) : Z :=
  if flag (i_it_flags it) ITEM_CAS then i_cas it else 0.

Definition ITEM_set_cas (v : Z) (it : item) : item :=
  if flag (i_it_flags it) ITEM_CAS then it <| i_cas := v |> else it.

Definition ITEM_key (it : item) : list Z := take (Z.to_nat (i_nkey it)) (i_key it).

Definition ITEM_ntotal (it : item) : Z :=
  sizeof_item + i_nkey it + 1 + i_nbytes it
  + (if flag (i_it_flags it) ITEM_CFLAGS then sizeof_uint32 else 0)
  + (if flag (i_it_flags it) ITEM_CAS then sizeof_uint64 else 0).

Definition ITEM_clsid (it : item) : Z := Z.ldiff (i_slabs_clsid it) (Z.shiftl 3 6).
Definition ITEM_lruid (it : item) : Z := Z.land (i_slabs_clsid it) (Z.shiftl 3 6).

Definition FLAGS_CONV (it : item) : Z :=
  if flag (i_it_flags it) ITEM_CFLAGS then i_cflags it else 0.

(** ** Module state *)

(** [assoc.c] *)
Record assoc_t : Type := mkAssoc {
  a_hashpower : Z;
  a_primary_hashtable : list Z;
  a_old_hashtable : list Z;
  a_expanding : bool;
  a_expand_bucket : Z
}.
#[global] Instance assoc_eta : Eta assoc_t := λ r,
  mkAssoc (a_hashpower r) (a_primary_hashtable r) (a_old_hashtable r) (a_expanding r)
    (a_expand_bucket r).

(** [itemstats_t] of [items.c]. *)
Record itemstats_t : Type := mkItemstats {
  s_evicted : Z;
  s_evicted_nonzero : Z;
  s_reclaimed : Z;
  s_outofmemory : Z;
  s_tailrepairs : Z;
  s_expired_unfetched : Z;
  s_evicted_unfetched : Z;
  s_evicted_active : Z;
  s_crawler_reclaimed : Z;
  s_crawler_items_checked : Z;
  s_lrutail_reflocked : Z;
  s_moves_to_cold : Z;
  s_moves_to_warm : Z;
  s_moves_within_lru : Z;
  s_direct_reclaims : Z;
  s_evicted_time : Z
}.
#[global] Instance itemstats_eta : Eta itemstats_t := λ r,
  mkItemstats (s_evicted r) (s_evicted_nonzero r) (s_reclaimed r) (s_outofmemory r)
    (s_tailrepairs r) (s_expired_unfetched r) (s_evicted_unfetched r) (s_evicted_active r)
    (s_crawler_reclaimed r) (s_crawler_items_checked r) (s_lrutail_reflocked r)
    (s_moves_to_cold r) (s_moves_to_warm r) (s_moves_within_lru r) (s_direct_reclaims r)
    (s_evicted_time r).
Definition zero_itemstats : itemstats_t := mkItemstats 0 0 0 0 0 0 0 0 0 0 0 0 0 0 0 0.

(** The LRU arrays and counters of [items.c], indexed by the [uint8_t]
    [slabs_clsid]. *)
Record lru_t : Type := mkLru {
  l_heads : Z → Z;
  l_tails : Z → Z;
  l_itemstats : Z → itemstats_t;
  l_sizes : Z → Z;
  l_sizes_bytes : Z → Z;
  l_stats_sizes_hist : option (list Z);
  l_stats_sizes_cas_min : Z;
  l_stats_sizes_buckets : Z;
  l_cas_id : Z
}.
#[global] Instance lru_eta : Eta lru_t := λ r,
  mkLru (l_heads r) (l_tails r) (l_itemstats r) (l_sizes r) (l_sizes_bytes r)
    (l_stats_sizes_hist r) (l_stats_sizes_cas_min r) (l_stats_sizes_buckets r) (l_cas_id r).

(** [slabclass_t] of [slabs.c]. *)
Record slabclass_t : Type := mkSlabclass {
  p_size : Z;
  p_perslab : Z;
  p_slots : Z;
  p_sl_curr : Z;
  p_slabs : Z;
  p_slab_list : list Z;
  p_list_size : Z
}.
#[global] Instance slabclass_eta : Eta slabclass_t := λ r,
  mkSlabclass (p_size r) (p_perslab r) (p_slots r) (p_sl_curr r) (p_slabs r) (p_slab_list r)
    (p_list_size r).

Record slabs_t : Type := mkSlabs {
  m_slabclass : Z → slabclass_t;
  m_mem_limit : Z;
  m_mem_malloced : Z;
  m_mem_limit_reached : bool;
  m_power_largest : Z;
  m_mem_base : Z;
  m_mem_current : Z;
  m_mem_avail : Z
}.
#[global] Instance slabs_eta : Eta slabs_t := λ r,
  mkSlabs (m_slabclass r) (m_mem_limit r) (m_mem_malloced r) (m_mem_limit_reached r)
    (m_power_largest r) (m_mem_base r) (m_mem_current r) (m_mem_avail r).

(** [struct slab_rebalance], [slab_rebalance_signal], the static [cur] of
    [slabs_reassign_pick_any] and whether [slabs_rebalance_lock] is held. *)
Record rebal_t : Type := mkRebal {
  r_slab_start : Z;
  r_slab_end : Z;
  r_slab_pos : Z;
  r_s_clsid : Z;
  r_d_clsid : Z;
  r_busy_items : Z;
  r_rescues : Z;
  r_evictions_nomem : Z;
  r_inline_reclaim : Z;
  r_chunk_rescues : Z;
  r_busy_deletes : Z;
  r_busy_loops : Z;
  r_done : Z;
  r_completed : list Z;
  r_signal : Z;
  r_pick_cur : Z;
  r_lock_held : bool
}.
#[global] Instance rebal_eta : Eta rebal_t := λ r,
  mkRebal (r_slab_start r) (r_slab_end r) (r_slab_pos r) (r_s_clsid r) (r_d_clsid r)
    (r_busy_items r) (r_rescues r) (r_evictions_nomem r) (r_inline_reclaim r)
    (r_chunk_rescues r) (r_busy_deletes r) (r_busy_loops r) (r_done r) (r_completed r)
    (r_signal r) (r_pick_cur r) (r_lock_held r).
Definition zero_rebal : rebal_t := mkRebal NULL NULL NULL 0 0 0 0 0 0 0 0 0 0 [] 0 0 false.

(** The global counters ([stats] and [stats_state]) these modules update. *)
Record stats_t : Type := mkStats {
  st_total_items : Z;
  st_curr_items : Z;
  st_curr_bytes : Z;
  st_hash_power_level : Z;
  st_hash_bytes : Z;
  st_hash_is_expanding : bool;
  st_slabs_moved : Z;
  st_slab_reassign_rescues : Z;
  st_slab_reassign_evictions_nomem : Z;
  st_slab_reassign_inline_reclaim : Z;
  st_slab_reassign_chunk_rescues : Z;
  st_slab_reassign_busy_deletes : Z;
  st_slab_reassign_busy_items : Z;
  st_slab_reassign_running : bool
}.
#[global] Instance stats_eta : Eta stats_t := λ r,
  mkStats (st_total_items r) (st_curr_items r) (st_curr_bytes r) (st_hash_power_level r)
    (st_hash_bytes r) (st_hash_is_expanding r) (st_slabs_moved r) (st_slab_reassign_rescues r)
    (st_slab_reassign_evictions_nomem r) (st_slab_reassign_inline_reclaim r)
    (st_slab_reassign_chunk_rescues r) (st_slab_reassign_busy_deletes r)
    (st_slab_reassign_busy_items r) (st_slab_reassign_running r).

(** The counters of the calling worker thread. *)
Record thread_stats_t : Type := mkTstats {
  t_get_flushed : Z;
  t_get_expired : Z;
  t_cas_misses : Z;
  t_cas_hits : Z → Z;
  t_cas_badval : Z → Z;
  t_incr_hits : Z → Z;
  t_decr_hits : Z → Z
}.
#[global] Instance tstats_eta : Eta thread_stats_t := λ r,
  mkTstats (t_get_flushed r) (t_get_expired r) (t_cas_misses r) (t_cas_hits r)
    (t_cas_badval r) (t_incr_hits r) (t_decr_hits r).

(** The settings the modelled code reads. *)
Record settings_t : Type := mkSettings {
  o_use_cas : bool;
  o_item_size_max : Z;
  o_slab_chunk_size_max : Z;
  o_slab_page_size : Z;
  o_slab_reassign : bool;
  o_slab_automove : Z;
  o_evict_to_free : Z;
  o_lru_segmented : bool;
  o_temp_lru : bool;
  o_temporary_ttl : Z;
  o_hot_lru_pct : Z;
  o_warm_lru_pct : Z;
  o_tail_repair_time : Z;
  o_oldest_live : Z;
  o_oldest_cas : Z;
  o_maxbytes : Z;
  o_chunk_size : Z;
  o_hot_max_factor : spec_float;
  o_warm_max_factor : spec_float
}.
#[global] Instance settings_eta : Eta settings_t := λ r,
  mkSettings (o_use_cas r) (o_item_size_max r) (o_slab_chunk_size_max r)
    (o_slab_page_size r) (o_slab_reassign r) (o_slab_automove r) (o_evict_to_free r)
    (o_lru_segmented r) (o_temp_lru r) (o_temporary_ttl r) (o_hot_lru_pct r)
    (o_warm_lru_pct r) (o_tail_repair_time r) (o_oldest_live r) (o_oldest_cas r)
    (o_maxbytes r) (o_chunk_size r) (o_hot_max_factor r) (o_warm_max_factor r).

(** The fields of the calling connection that the store path uses. *)
Record conn_t : Type := mkConn {
  c_set_stale : bool;
  c_cas : Z
}.
#[global] Instance conn_eta : Eta conn_t := λ r, mkConn (c_set_stale r) (c_cas r).

(** [lru_bump_buf] of [items.c]: the bip buffer and the entries written into
    its data region, by offset. *)
Record lru_bump_buf : Type := mkBump {
  b_buf : bipbuf_t;
  b_mem : gmap Z (Z * Z);
  b_dropped : Z
}.
#[global] Instance bump_eta : Eta lru_bump_buf := λ r, mkBump (b_buf r) (b_mem r) (b_dropped r).

(** The whole state. [w_regions] are the memory blocks obtained from [malloc]
    (start, length); [w_malloc] the addresses the coming calls of [malloc]
    return, [0] for a failure; [w_locks] the item locks held; [w_ext] the calls
    of [extstore_delete] (page id, page version, bytes), which leave these
    modules. *)
Record world : Type := mkWorld {
  w_heap : gmap Z item;
  w_regions : list (Z * Z);
  w_assoc : assoc_t;
  w_lru : lru_t;
  w_slabs : slabs_t;
  w_stats : stats_t;
  w_tstats : thread_stats_t;
  w_settings : settings_t;
  w_conn : conn_t;
  w_current_time : Z;
  w_locks : gset Z;
  w_malloc : list Z;
  w_ext : list (Z * Z * Z);
  w_bump : lru_bump_buf;
  w_rebal : rebal_t;
  w_item_lock_hashpower : Z
}.
#[global] Instance world_eta : Eta world := λ r,
  mkWorld (w_heap r) (w_regions r) (w_assoc r) (w_lru r) (w_slabs r) (w_stats r)
    (w_tstats r) (w_settings r) (w_conn r) (w_current_time r) (w_locks r) (w_malloc r)
    (w_ext r) (w_bump r) (w_rebal r) (w_item_lock_hashpower r).

(** ** Memory access *)

Definition mapped (s : world) (p : Z) : bool :=
  existsb (λ '(b, n), (b <=? p) && (p <? b + n)) (w_regions s).

(** The item header at [p]: what was last written there, or the zeroed bytes
    of a mapped block; undefined through [NULL] or an unmapped address. *)
Definition load (p : Z) : M world item := λ s,
  match w_heap s !! p with
  | Some it => Some (it, s)
  | None => if mapped s p then Some (zero_item, s) else None
  end.

Definition store (p : Z) (it : item) : M world unit :=
  modify (λ s, s <| w_heap := <[p := it]> (w_heap s) |>).

(** [fld p f] is the C expression [p->f]; [wr p f] applies an assignment to
    fields of [*p]. *)
Definition fld {A} (p : Z) (f : item → A) : M world A := it ← load p; mret (f it).
Definition wr (p : Z) (f : item → item) : M world unit := it ← load p; store p (f it).

Lemma load_ok s p it : w_heap s !! p = Some it → load p s = Some (it, s).
Proof. unfold load. by intros ->. Qed.

Lemma fld_ok {A} s p (f : item → A) it :
  w_heap s !! p = Some it → fld p f s = Some (f it, s).
Proof. intros H. unfold fld. by rewrite (bind_run _ _ _ _ _ (load_ok _ _ _ H)). Qed.

Lemma wr_ok s p f it :
  w_heap s !! p = Some it →
  wr p f s = Some (tt, s <| w_heap := <[p := f it]> (w_heap s) |>).
Proof. intros H. unfold wr. by rewrite (bind_run _ _ _ _ _ (load_ok _ _ _ H)). Qed.

Lemma wr_load s p f it :
  load p s = Some (it, s) → wr p f s = Some (tt, s <| w_heap := <[p := f it]> (w_heap s) |>).
Proof. intros H. unfold wr. by rewrite (bind_run _ _ _ _ _ H). Qed.

(** The same on a state whose heap has already been written. *)
Lemma wr_heap s h p f it :
  h !! p = Some it →
  wr p f (s <| w_heap := h |>) = Some (tt, s <| w_heap := <[p := f it]> h |>).
Proof. intros H. erewrite wr_ok; [|exact H]. by destruct s. Qed.

(** [t[i]] on a bounded array. *)
Definition arr_get {S A} (t : list A) (i : Z) : M S A := λ s,
  if 0 <=? i then match t !! Z.to_nat i with Some v => Some (v, s) | None => None end
  else None.

(** [t[i] = v]. *)
Definition arr_set {S A} (t : list A) (i : Z) (v : A) : M S (list A) := λ s,
  if (0 <=? i) && (i <? Z.of_nat (length t))
  then Some (<[Z.to_nat i := v]> t, s) else None.

Lemma arr_get_ok {S A} (t : list A) i v (s : S) :
  0 ≤ i → t !! Z.to_nat i = Some v → arr_get t i s = Some (v, s).
Proof. intros. unfold arr_get. rewrite (proj2 (Z.leb_le _ _)) by done. by simplify_option_eq. Qed.

Lemma arr_set_ok {S A} (t : list A) i v (s : S) :
  0 ≤ i < Z.of_nat (length t) → arr_set t i v s = Some (<[Z.to_nat i := v]> t, s).
Proof.
  intros. unfold arr_set.
  by rewrite (proj2 (Z.leb_le _ _)), (proj2 (Z.ltb_lt _ _)) by lia.
Qed.

(** The next answer of [malloc] or [calloc]. *)
Definition malloc_next : M world Z := λ s,
  match w_malloc s with
  | [] => Some (NULL, s)
  | p :: rest => Some (p, s <| w_malloc := rest |>)
  end.

(** ** Locks ([thread.c]) *)

(** The item locks are an array of [hashsize(item_lock_hashpower)] mutexes; a
    lock is named by its index. Blocking on a lock that is held is not a step
    of this model, so [item_lock] is undefined there. *)
Definition item_lock_index (s : world) (hv : Z) : Z :=
  Z.land hv (2 ^ w_item_lock_hashpower s - 1).

Definition item_lock (hv : Z) : M world unit := λ s,
  let l := item_lock_index s hv in
  if decide (l ∈ w_locks s) then None
  else Some (tt, s <| w_locks := {[l]} ∪ w_locks s |>).

Definition item_trylock (hv : Z) : M world (option Z) := λ s,
  let l := item_lock_index s hv in
  if decide (l ∈ w_locks s) then Some (None, s)
  else Some (Some l, s <| w_locks := {[l]} ∪ w_locks s |>).

Definition item_unlock (hv : Z) : M world unit := λ s,
  Some (tt, s <| w_locks := w_locks s ∖ {[item_lock_index s hv]} |>).

Definition item_trylock_unlock (l : Z) : M world unit :=
  modify (λ s, s <| w_locks := w_locks s ∖ {[l]} |>).

(** Accessors of the sub-records, as the C code names its globals. *)
Definition on_assoc (f : assoc_t → assoc_t) : M world unit :=
  modify (λ s, s <| w_assoc := f (w_assoc s) |>).
Definition on_lru (f : lru_t → lru_t) : M world unit :=
  modify (λ s, s <| w_lru := f (w_lru s) |>).
Definition on_slabs (f : slabs_t → slabs_t) : M world unit :=
  modify (λ s, s <| w_slabs := f (w_slabs s) |>).
Definition on_stats (f : stats_t → stats_t) : M world unit :=
  modify (λ s, s <| w_stats := f (w_stats s) |>).
Definition on_tstats (f : thread_stats_t → thread_stats_t) : M world unit :=
  modify (λ s, s <| w_tstats := f (w_tstats s) |>).
Definition on_rebal (f : rebal_t → rebal_t) : M world unit :=
  modify (λ s, s <| w_rebal := f (w_rebal s) |>).
Definition on_slabclass (id : Z) (f : slabclass_t → slabclass_t) : M world unit :=
  on_slabs (λ m, m <| m_slabclass := upd (m_slabclass m) id (f (m_slabclass m id)) |>).
Definition on_itemstats (id : Z) (f : itemstats_t → itemstats_t) : M world unit :=
  on_lru (λ l, l <| l_itemstats := upd (l_itemstats l) id (f (l_itemstats l id)) |>).

(** [refcount_incr] and [refcount_decr]: the new count of an [unsigned short]. *)
Definition refcount_incr (p : Z) : M world Z :=
  it ← load p;
  let r := u16 (i_refcount it + 1) in
  store p (it <| i_refcount := r |>) ;; mret r.

Definition refcount_decr (p : Z) : M world Z :=
  it ← load p;
  let r := u16 (i_refcount it - 1) in
  store p (it <| i_refcount := r |>) ;; mret r.
