(* ===== verification/Keeps.v ===== *)
(** * Relations an operation keeps

    [keeps P m] relates the states before and after the runs of [m], with one rule
    for each construct of the monad; [keeps_tac] applies them, and the hints of the
    database [keeps] for the operations themselves. *)

From S2P Require Import Prelude State.

Definition keeps {S A} (P : S → S → Prop) (m : M S A) : Prop :=
  ∀ z a z', m z = Some (a, z') → P z z'.

Section Rules.
Context {S : Type} (P : S → S → Prop) `{!PreOrder P}.

Lemma keeps_ret {A} (a : A) : keeps P (mret a).
Proof. intros z b z' [= <- <-]. done. Qed.
Lemma keeps_undefined {A} : keeps P (undefined (A := A)).
Proof. by intros z b z' ?. Qed.
Lemma keeps_gets {A} (f : S → A) : keeps P (gets f).
Proof. intros z b z' [= <- <-]. done. Qed.
Lemma keeps_get_state : keeps P get_state.
Proof. intros z b z' [= <- <-]. done. Qed.
Lemma keeps_assert b : keeps P (c_assert b).
Proof. intros z a z' H. unfold c_assert in H. by destruct b; simplify_eq. Qed.
Lemma keeps_modify f : (∀ z, P z (f z)) → keeps P (modify f).
Proof. intros Hf z a z' [= <- <-]. apply Hf. Qed.
Lemma keeps_bind {A B} (m : M S A) (k : A → M S B) :
  keeps P m → (∀ a, keeps P (k a)) → keeps P (m ≫= k).
Proof.
  intros Hm Hk z b z' Hrun. apply bind_inv in Hrun as (a & z1 & H1 & H2).
  transitivity z1; [by apply (Hm z a)|by apply (Hk a z1 b)].
Qed.
Lemma keeps_if {A} (b : bool) (m1 m2 : M S A) : keeps P m1 → keeps P m2 → keeps P (if b then m1 else m2).
Proof. by destruct b. Qed.
Lemma keeps_when b m : keeps P m → keeps P (when b m).
Proof. destruct b; [done|]. intros _. apply keeps_ret. Qed.
End Rules.

Create HintDb keeps.

(** [keeps_tac] walks through an operation; a basic step is an instance of a hint. *)
Ltac keeps_step :=
  first
    [ match goal with
      | |- keeps ?P (_ ≫= _) => apply (keeps_bind P); [|intros ?]
      | |- keeps ?P (when _ _) => apply (keeps_when P)
      | |- keeps ?P (mret _) => apply (keeps_ret P)
      | |- keeps ?P undefined => apply (keeps_undefined P)
      | |- keeps ?P (gets _) => apply (keeps_gets P)
      | |- keeps ?P get_state => apply (keeps_get_state P)
      | |- keeps ?P (c_assert _) => apply (keeps_assert P)
      | |- keeps _ (match ?x with _ => _ end) => destruct x eqn:?
      | |- keeps _ (if ?x then _ else _) => destruct x eqn:?
      | |- keeps _ (let '(_, _) := ?x in _) => destruct x eqn:?
      end
    | solve [eauto with keeps] ].
Ltac keeps_tac := repeat keeps_step.

(** ** No lock is taken or given up *)

Definition same_locks (s s' : world) : Prop :=
  w_locks s' = w_locks s ∧ w_item_lock_hashpower s' = w_item_lock_hashpower s.

#[global] Instance same_locks_preorder : PreOrder same_locks.
Proof. split; [done|]. unfold same_locks. intros s1 s2 s3 [] []. split; congruence. Qed.

Lemma locks_modify f : (∀ s, same_locks s (f s)) → keeps same_locks (modify f).
Proof. apply keeps_modify. Qed.
Lemma locks_load p : keeps same_locks (load p).
Proof. intros s a s' H. unfold load in H. by repeat case_match; simplify_eq. Qed.
Lemma locks_store p x : keeps same_locks (store p x).
Proof. by apply locks_modify. Qed.
Lemma locks_arr_get {A} (t : list A) i : keeps same_locks (arr_get t i).
Proof. intros s a s' H. unfold arr_get in H. by repeat case_match; simplify_eq. Qed.
Lemma locks_arr_set {A} (t : list A) i v : keeps same_locks (arr_set t i v).
Proof. intros s a s' H. unfold arr_set in H. by repeat case_match; simplify_eq. Qed.
#[export] Hint Resolve locks_load locks_store locks_arr_get locks_arr_set : keeps.
#[export] Hint Extern 1 (keeps same_locks (modify _)) => (by apply locks_modify) : keeps.

Lemma locks_wr p f : keeps same_locks (wr p f).
Proof. unfold wr. keeps_tac. Qed.
Lemma locks_fld {A} p (f : item → A) : keeps same_locks (fld p f).
Proof. unfold fld. keeps_tac. Qed.
Lemma locks_refcount_incr p : keeps same_locks (refcount_incr p).
Proof. unfold refcount_incr. keeps_tac. Qed.
Lemma locks_refcount_decr p : keeps same_locks (refcount_decr p).
Proof. unfold refcount_decr. keeps_tac. Qed.
Lemma locks_on_assoc f : keeps same_locks (on_assoc f).
Proof. by apply locks_modify. Qed.
Lemma locks_on_lru f : keeps same_locks (on_lru f).
Proof. by apply locks_modify. Qed.
Lemma locks_on_slabs f : keeps same_locks (on_slabs f).
Proof. by apply locks_modify. Qed.
Lemma locks_on_stats f : keeps same_locks (on_stats f).
Proof. by apply locks_modify. Qed.
Lemma locks_on_tstats f : keeps same_locks (on_tstats f).
Proof. by apply locks_modify. Qed.
#[export] Hint Resolve locks_wr locks_fld locks_refcount_incr locks_refcount_decr locks_on_assoc locks_on_lru locks_on_slabs
  locks_on_stats locks_on_tstats : keeps.
