(* ===== verification/Links.v ===== *)
(** * Linked structures in the item heap

    The shapes the server threads through item headers: the hash chain
    ([h_next]), and the doubly linked lists of the LRU queues and of the slab
    free lists ([next]/[prev]). A segment predicate relates the pointers in
    the heap to the list of addresses they spell; the lemmas say how a segment
    changes under the pointer assignments of the C code. *)

From S2P Require Import Prelude State.

Implicit Types (h : gmap Z item) (l : list Z) (p q : Z).

(** The first and last element of a list of addresses, with a default. *)
Definition hdz (d : Z) l : Z := match l with [] => d | p :: _ => p end.
Fixpoint lastz (d : Z) l : Z := match l with [] => d | p :: l => lastz p l end.

Lemma hdz_app d l1 l2 : hdz d (l1 ++ l2) = hdz (hdz d l2) l1.
Proof. by destruct l1. Qed.

Lemma lastz_app d l1 l2 : lastz d (l1 ++ l2) = lastz (lastz d l1) l2.
Proof. revert d. induction l1; intros; simpl; auto. Qed.

Lemma lastz_in d l : lastz d l = d ∨ lastz d l ∈ l.
Proof.
  revert d. induction l as [|p l IH]; intros d; simpl; [by left|].
  destruct (IH p) as [->|]; right; set_solver.
Qed.

Lemma hdz_in d l : hdz d l = d ∨ hdz d l ∈ l.
Proof. destruct l; simpl; set_solver. Qed.

Lemma lastz_snoc l : l = [] ∨ ∃ l' q, l = l' ++ [q].
Proof. destruct l using rev_ind; eauto. Qed.

(** ** Doubly linked segments *)

Definition links h p : option (Z * Z) := (λ it, (i_next it, i_prev it)) <$> h !! p.

(** [dlseg h prv l nxt]: the addresses [l] are linked in order by [next], back
    by [prev], the first one's [prev] is [prv] and the last one's [next] is
    [nxt]. *)
Fixpoint dlseg h (prv : Z) l (nxt : Z) : Prop :=
  match l with
  | [] => True
  | p :: l' => p ≠ 0 ∧ links h p = Some (hdz nxt l', prv) ∧ dlseg h p l' nxt
  end.

Lemma dlseg_app h prv l1 l2 nxt :
  dlseg h prv (l1 ++ l2) nxt ↔
  dlseg h prv l1 (hdz nxt l2) ∧ dlseg h (lastz prv l1) l2 nxt.
Proof.
  revert prv. induction l1 as [|p l1 IH]; intros prv; simpl; [tauto|].
  rewrite IH, hdz_app. tauto.
Qed.

(** A change of the heap that keeps the links of the segment keeps it. *)
Lemma dlseg_ext h h' prv l nxt :
  (∀ p, p ∈ l → links h' p = links h p) → dlseg h prv l nxt → dlseg h' prv l nxt.
Proof.
  revert prv. induction l as [|p l IH]; intros prv Hext; simpl; [done|].
  intros (? & Hp & Hl). split_and!; [done| |].
  - rewrite <- Hp. apply Hext. set_solver.
  - apply IH; [|done]. intros. apply Hext. set_solver.
Qed.

Lemma links_insert_ne h p q it : p ≠ q → links (<[q := it]> h) p = links h p.
Proof. intros. unfold links. by rewrite lookup_insert_ne. Qed.

Lemma links_insert_eq h p it : links (<[p := it]> h) p = Some (i_next it, i_prev it).
Proof. unfold links. by rewrite lookup_insert_eq. Qed.

(** Writing a header that keeps its links. *)
Lemma links_insert_same h p q it it' :
  h !! q = Some it → i_next it' = i_next it → i_prev it' = i_prev it →
  links (<[q := it']> h) p = links h p.
Proof.
  intros Hq Hn Hp. destruct (decide (p = q)) as [->|]; [|by apply links_insert_ne].
  rewrite links_insert_eq. unfold links. rewrite Hq. simpl. by rewrite Hn, Hp.
Qed.

Lemma dlseg_insert_notin h q it prv l nxt :
  q ∉ l → dlseg h prv l nxt → dlseg (<[q := it]> h) prv l nxt.
Proof.
  intros Hq. apply dlseg_ext. intros p Hp. apply links_insert_ne. set_solver.
Qed.

Lemma dlseg_lookup h prv l nxt p :
  dlseg h prv l nxt → p ∈ l → ∃ it, h !! p = Some it ∧ p ≠ 0.
Proof.
  revert prv. induction l as [|q l IH]; intros prv; simpl; [set_solver|].
  intros (Hz & Hq & Hl) [->|Hin]%elem_of_cons; [|eauto].
  unfold links in Hq. destruct (h !! q) eqn:E; [eauto|done].
Qed.

(** The links of an element in the middle of a segment. *)
Lemma dlseg_mid h prv l1 p l2 nxt :
  dlseg h prv (l1 ++ p :: l2) nxt →
  p ≠ 0 ∧ links h p = Some (hdz nxt l2, lastz prv l1).
Proof. rewrite dlseg_app. simpl. tauto. Qed.

Lemma links_Some h p n v :
  links h p = Some (n, v) → ∃ it, h !! p = Some it ∧ i_next it = n ∧ i_prev it = v.
Proof.
  unfold links. destruct (h !! p) as [it|]; [|done]. intros [= <- <-]. eauto.
Qed.

(** [q->prev = v] on the first element. *)
Lemma dlseg_set_first_prev h prv q l nxt it v :
  dlseg h prv (q :: l) nxt → q ∉ l → h !! q = Some it →
  dlseg (<[q := it <| i_prev := v |>]> h) v (q :: l) nxt.
Proof.
  simpl. intros (? & Hq & Hl) Hn Hit. split_and!; [done| |].
  - rewrite links_insert_eq. unfold links in Hq. rewrite Hit in Hq. simpl in *. congruence.
  - by apply dlseg_insert_notin.
Qed.

(** [q->next = v] on the last element. *)
Lemma dlseg_set_last_next h prv l q nxt it v :
  dlseg h prv (l ++ [q]) nxt → q ∉ l → h !! q = Some it →
  dlseg (<[q := it <| i_next := v |>]> h) prv (l ++ [q]) v.
Proof.
  rewrite !dlseg_app. simpl. intros (Hl & Hz & Hq & _) Hn Hit. split_and!; try done.
  - by apply dlseg_insert_notin.
  - rewrite links_insert_eq. unfold links in Hq. rewrite Hit in Hq. simpl in *. congruence.
Qed.

(** ** Hash chains *)

Definition hlink h p : option Z := i_h_next <$> h !! p.

(** [hseg h l nxt]: the addresses [l] are chained in order by [h_next], the last
    one pointing at [nxt]. *)
Fixpoint hseg h l (nxt : Z) : Prop :=
  match l with
  | [] => True
  | p :: l' => p ≠ 0 ∧ hlink h p = Some (hdz nxt l') ∧ hseg h l' nxt
  end.

Lemma hseg_app h l1 l2 nxt :
  hseg h (l1 ++ l2) nxt ↔ hseg h l1 (hdz nxt l2) ∧ hseg h l2 nxt.
Proof.
  induction l1 as [|p l1 IH]; simpl; [tauto|]. rewrite IH, hdz_app. tauto.
Qed.

Lemma hseg_ext h h' l nxt :
  (∀ p, p ∈ l → hlink h' p = hlink h p) → hseg h l nxt → hseg h' l nxt.
Proof.
  induction l as [|p l IH]; intros Hext; simpl; [done|].
  intros (? & Hp & Hl). split_and!; [done| |].
  - rewrite <- Hp. apply Hext. set_solver.
  - apply IH; [|done]. intros. apply Hext. set_solver.
Qed.

Lemma hlink_insert_ne h p q it : p ≠ q → hlink (<[q := it]> h) p = hlink h p.
Proof. intros. unfold hlink. by rewrite lookup_insert_ne. Qed.

Lemma hlink_insert_eq h p it : hlink (<[p := it]> h) p = Some (i_h_next it).
Proof. unfold hlink. by rewrite lookup_insert_eq. Qed.

Lemma hlink_insert_same h p q it it' :
  h !! q = Some it → i_h_next it' = i_h_next it → hlink (<[q := it']> h) p = hlink h p.
Proof.
  intros Hq Hn. destruct (decide (p = q)) as [->|]; [|by apply hlink_insert_ne].
  rewrite hlink_insert_eq. unfold hlink. rewrite Hq. simpl. by rewrite Hn.
Qed.

Lemma hseg_insert_notin h q it l nxt :
  q ∉ l → hseg h l nxt → hseg (<[q := it]> h) l nxt.
Proof.
  intros Hq. apply hseg_ext. intros p Hp. apply hlink_insert_ne. set_solver.
Qed.

Lemma hlink_Some h p n :
  hlink h p = Some n → ∃ it, h !! p = Some it ∧ i_h_next it = n.
Proof. unfold hlink. destruct (h !! p) as [it|]; [|done]. intros [= <-]. eauto. Qed.

Lemma hseg_lookup h l nxt p :
  hseg h l nxt → p ∈ l → ∃ it, h !! p = Some it ∧ p ≠ 0.
Proof.
  induction l as [|q l IH]; simpl; [set_solver|].
  intros (Hz & Hq & Hl) [->|Hin]%elem_of_cons; [|eauto].
  destruct (hlink_Some _ _ _ Hq) as (it & ? & _). eauto.
Qed.

Lemma hseg_hd h l nxt : hseg h l nxt → l ≠ [] → hdz nxt l ≠ 0.
Proof. destruct l; simpl; naive_solver. Qed.

(** [q->h_next = v] on the last element of a segment. *)
Lemma hseg_set_last h l q nxt it v :
  hseg h (l ++ [q]) nxt → q ∉ l → h !! q = Some it →
  hseg (<[q := it <| i_h_next := v |>]> h) (l ++ [q]) v.
Proof.
  rewrite !hseg_app. simpl. intros (Hl & Hz & Hq & _) Hn Hit. split_and!; try done.
  - by apply hseg_insert_notin.
  - by rewrite hlink_insert_eq.
Qed.

(** ** Heaps that differ in [h_next] only

    What the hash table operations do to the rest of the server. *)

Definition erase_h (it : item) : item := it <| i_h_next := 0 |>.

Definition hsame h h' : Prop := ∀ p, erase_h <$> h !! p = erase_h <$> h' !! p.

#[global] Instance hsame_equiv : Equivalence hsame.
Proof.
  split; unfold hsame.
  - by intros h p.
  - by intros h h' H p.
  - intros h1 h2 h3 H12 H23 p. by rewrite H12.
Qed.

Lemma erase_h_inj it it' : erase_h it = erase_h it' → it' = it <| i_h_next := i_h_next it' |>.
Proof. destruct it, it'. unfold erase_h. simpl. intros [= -> -> -> -> -> -> -> -> -> -> -> -> ->]. done. Qed.

Lemma hsame_lookup h h' p it :
  hsame h h' → h !! p = Some it → ∃ n, h' !! p = Some (it <| i_h_next := n |>).
Proof.
  intros Hs Hp. specialize (Hs p). rewrite Hp in Hs. simpl in Hs.
  destruct (h' !! p) as [it'|]; [|done]. simpl in Hs. apply (inj Some) in Hs.
  apply erase_h_inj in Hs. rewrite Hs. eauto.
Qed.

Lemma hsame_lookup_none h h' p : hsame h h' → h !! p = None → h' !! p = None.
Proof. intros Hs Hp. specialize (Hs p). rewrite Hp in Hs. by destruct (h' !! p). Qed.

(** Any function of a header that ignores [h_next] sees the same heap. *)
Lemma hsame_fmap {A} (f : item → A) h h' p :
  (∀ it n, f (it <| i_h_next := n |>) = f it) → hsame h h' → f <$> h !! p = f <$> h' !! p.
Proof.
  intros Hf Hs. destruct (h !! p) as [it|] eqn:Hp.
  - destruct (hsame_lookup _ _ _ _ Hs Hp) as [n ->]. cbv [fmap option_fmap option_map]. by rewrite Hf.
  - by rewrite (hsame_lookup_none _ _ _ Hs Hp).
Qed.

Lemma hsame_links h h' p : hsame h h' → links h p = links h' p.
Proof. apply hsame_fmap. done. Qed.

Lemma hsame_insert h p it v :
  h !! p = Some it → hsame h (<[p := it <| i_h_next := v |>]> h).
Proof.
  intros Hp q. destruct (decide (q = p)) as [->|].
  - rewrite lookup_insert_eq, Hp. done.
  - by rewrite lookup_insert_ne.
Qed.

Lemma hsame_dom h h' : hsame h h' → dom h = dom h'.
Proof.
  intros Hs. apply set_eq. intros p. rewrite !elem_of_dom.
  specialize (Hs p). destruct (h !! p), (h' !! p); simpl in *; split; intros [? ?]; eauto; done.
Qed.
