(* ===== verification/Queues.v ===== *)
(** * Families of doubly linked lists

    The LRU queues of [items.c] and the free lists of [slabs.c] are doubly
    linked lists threaded through the same [next] and [prev] fields. Both
    modules insert at the head and take an element out of the middle with the
    same few assignments. [queues_ok h D]: every list [D q] of the family is
    laid out in [h], and no address is in two lists or twice in one. *)

From S2P Require Import Prelude Bipbuf State Links.

Implicit Types (h : gmap Z item) (p : Z) (l : list Z).

Inductive qkey : Type := LruQ (id : Z) | FreeQ (id : Z).

#[global] Instance qkey_eq_dec : EqDecision qkey.
Proof. solve_decision. Defined.

Definition queues : Type := qkey → list Z.

Record queues_ok h (D : queues) : Prop := {
  qo_seg : ∀ q, dlseg h 0 (D q) 0;
  qo_nodup : ∀ q, NoDup (D q);
  qo_disj : ∀ q q' p, p ∈ D q → p ∈ D q' → q = q'
}.

Definition qset (D : queues) (q : qkey) (l : list Z) : queues :=
  λ x, if decide (x = q) then l else D x.

Lemma qset_eq D q l : qset D q l q = l.
Proof. unfold qset. by rewrite decide_True. Qed.

Lemma qset_ne D q l x : x ≠ q → qset D q l x = D x.
Proof. unfold qset. intros. by rewrite decide_False. Qed.

(** Families are compared list by list. *)
Definition queues_eq (D D' : queues) : Prop := ∀ q, D q = D' q.

#[global] Instance queues_eq_equiv : Equivalence queues_eq.
Proof.
  split; unfold queues_eq.
  - done.
  - intros D D' H q. by rewrite H.
  - intros D1 D2 D3 H1 H2 q. by rewrite H1.
Qed.

#[global] Instance queues_ok_proper h : Proper (queues_eq ==> iff) (queues_ok h).
Proof.
  assert (∀ D D', queues_eq D D' → queues_ok h D → queues_ok h D') as H.
  { intros D D' He [Hs Hn Hd]. constructor.
    - intros q. rewrite <- He. apply Hs.
    - intros q. rewrite <- He. apply Hn.
    - intros q q' p. rewrite <- !He. apply Hd. }
  intros D D' He. split; apply H; [done|by symmetry].
Qed.

Lemma qset_id D q l : D q = l → queues_eq (qset D q l) D.
Proof. intros <- x. unfold qset. case_decide; by subst. Qed.

Lemma qset_qset D q l l' : queues_eq (qset (qset D q l) q l') (qset D q l').
Proof. intros x. unfold qset. by case_decide. Qed.

#[global] Instance qset_proper : Proper (queues_eq ==> eq ==> eq ==> queues_eq) qset.
Proof. intros D D' He q ? <- l ? <- x. unfold qset. case_decide; [done|apply He]. Qed.

Lemma qset_comm D q l q' l' :
  q ≠ q' → queues_eq (qset (qset D q l) q' l') (qset (qset D q' l') q l).
Proof. intros Hn x. unfold qset. repeat case_decide; congruence. Qed.

(** ** Heaps that differ in [next] and [prev] only *)

Definition erase_l (it : item) : item := it <| i_next := 0 |> <| i_prev := 0 |>.

Definition lsame h h' : Prop := ∀ p, erase_l <$> h !! p = erase_l <$> h' !! p.

#[global] Instance lsame_equiv : Equivalence lsame.
Proof.
  split; unfold lsame.
  - done.
  - intros h h' H p. by rewrite H.
  - intros h1 h2 h3 H1 H2 p. by rewrite H1.
Qed.

Lemma lsame_insert h p it n v :
  h !! p = Some it → lsame h (<[p := it <| i_next := n |> <| i_prev := v |>]> h).
Proof.
  intros Hp q. destruct (decide (q = p)) as [->|].
  - rewrite lookup_insert_eq, Hp. done.
  - by rewrite lookup_insert_ne.
Qed.

Lemma erase_l_inj it it' :
  erase_l it = erase_l it' → it' = it <| i_next := i_next it' |> <| i_prev := i_prev it' |>.
Proof. destruct it, it'. unfold erase_l. simpl. intros [= -> -> -> -> -> -> -> -> -> -> -> ->]. done. Qed.

Lemma lsame_lookup h h' p it :
  lsame h h' → h !! p = Some it →
  ∃ n v, h' !! p = Some (it <| i_next := n |> <| i_prev := v |>).
Proof.
  intros Hs Hp. specialize (Hs p). rewrite Hp in Hs. simpl in Hs.
  destruct (h' !! p) as [it'|]; [|done]. simpl in Hs. apply (inj Some) in Hs.
  exists (i_next it'), (i_prev it'). f_equal. by apply erase_l_inj.
Qed.

(** A function of a header that ignores the links sees the same heap. *)
Lemma lsame_fmap {A} (f : item → A) h h' p :
  (∀ it n v, f (it <| i_next := n |> <| i_prev := v |>) = f it) →
  lsame h h' → f <$> h' !! p = f <$> h !! p.
Proof.
  intros Hf Hs. destruct (h !! p) as [it|] eqn:Hp.
  - destruct (lsame_lookup _ _ _ _ Hs Hp) as (n & v & ->). cbv [fmap option_fmap option_map]. by rewrite Hf.
  - specialize (Hs p). rewrite Hp in Hs. by destruct (h' !! p).
Qed.

Lemma lsame_dom h h' : lsame h h' → dom h = dom h'.
Proof.
  intros Hs. apply set_eq. intros p. rewrite !elem_of_dom.
  specialize (Hs p). destruct (h !! p), (h' !! p); simpl in *; split; intros [? ?]; eauto; done.
Qed.

(** ** Frame *)

Lemma queues_ok_ext h h' D :
  (∀ q p, p ∈ D q → links h' p = links h p) → queues_ok h D → queues_ok h' D.
Proof.
  intros He [Hs Hn Hd]. constructor; try done.
  intros q. apply (dlseg_ext h); [|done]. intros p Hp. by apply (He q).
Qed.

Lemma queues_ok_insert_notin h D p it :
  (∀ q, p ∉ D q) → queues_ok h D → queues_ok (<[p := it]> h) D.
Proof. intros Hn. apply queues_ok_ext. intros q x Hx. apply links_insert_ne. intros ->. by apply (Hn q). Qed.

Lemma queues_ok_insert_same h D p it it' :
  h !! p = Some it → i_next it' = i_next it → i_prev it' = i_prev it →
  queues_ok h D → queues_ok (<[p := it']> h) D.
Proof. intros Hp Hn Hv. apply queues_ok_ext. intros q x _. by apply (links_insert_same h x p it). Qed.

Lemma queue_mem h D q p : queues_ok h D → p ∈ D q → ∃ it, h !! p = Some it ∧ p ≠ 0.
Proof. intros Hq Hp. eapply dlseg_lookup; [apply (qo_seg _ _ Hq)|done]. Qed.

Lemma queue_hd_in h D q : queues_ok h D → hdz 0 (D q) ≠ 0 → hdz 0 (D q) ∈ D q.
Proof. intros Hq H. destruct (hdz_in 0 (D q)); done. Qed.

(** ** Insertion at the head *)

(** [it->prev = 0; it->next = hd; if (it->next) it->next->prev = it;] *)
Definition q_push p hd : M world unit :=
  wr p (λ x, x <| i_prev := NULL |> <| i_next := hd |>) ;;
  when (negb (hd =? NULL)) (wr hd (λ x, x <| i_prev := p |>)).

Lemma qset_push_ok h h' D q p :
  queues_ok h D → (∀ x, p ∉ D x) →
  (∀ x, x ≠ q → dlseg h' 0 (D x) 0) → dlseg h' 0 (p :: D q) 0 →
  queues_ok h' (qset D q (p :: D q)).
Proof.
  intros [Hs Hn Hd] Hp Hoth Hnew. constructor.
  - intros x. unfold qset. case_decide as E; [by subst|by apply Hoth].
  - intros x. unfold qset. case_decide as E; [|done]. subst. apply NoDup_cons. split; [apply Hp|apply Hn].
  - intros x y z. unfold qset. intros Hx Hy.
    destruct (decide (x = q)) as [->|Hxq], (decide (y = q)) as [->|Hyq]; try done.
    + apply elem_of_cons in Hx as [->|Hx]; [by destruct (Hp y)|by eapply Hd].
    + apply elem_of_cons in Hy as [->|Hy]; [by destruct (Hp x)|by eapply Hd].
    + by eapply Hd.
Qed.

Lemma q_push_ok s D q p it :
  queues_ok (w_heap s) D → (∀ x, p ∉ D x) → p ≠ 0 → w_heap s !! p = Some it →
  ∃ h', q_push p (hdz 0 (D q)) s = Some (tt, s <| w_heap := h' |>) ∧
    queues_ok h' (qset D q (p :: D q)) ∧ lsame (w_heap s) h' ∧
    (∀ x, x ≠ p → x ∉ D q → h' !! x = w_heap s !! x).
Proof.
  intros Hok Hnin Hp0 Hp. pose proof (qo_seg _ _ Hok q) as Hseg. pose proof (qo_nodup _ _ Hok q) as Hnd.
  set (h1 := <[p := it <| i_prev := NULL |> <| i_next := hdz 0 (D q) |>]> (w_heap s)).
  assert (Hs1 : lsame (w_heap s) h1) by by apply lsame_insert.
  unfold q_push. rewrite (bind_run _ _ _ _ _ (wr_ok _ _ _ _ Hp)). fold h1.
  destruct (D q) as [|r l] eqn:HD.
  - exists h1. split_and!; [done| |done|intros; by apply lookup_insert_ne]. rewrite <- HD. apply (qset_push_ok (w_heap s)); try done.
    + intros x _. apply dlseg_insert_notin; [done|apply (qo_seg _ _ Hok)].
    + rewrite HD. simpl. split_and!; [done|by apply links_insert_eq|done].
  - assert (Hr : r ∈ D q) by (rewrite HD; set_solver).
    assert (Hrp : r ≠ p) by (intros ->; by apply (Hnin q)).
    destruct (queue_mem _ _ _ _ Hok Hr) as (itr & Hitr & Hr0).
    assert (Hitr1 : h1 !! r = Some itr) by (unfold h1; by rewrite lookup_insert_ne).
    simpl. rewrite (proj2 (Z.eqb_neq r _)) by done. simpl.
    rewrite (wr_heap _ _ _ _ _ Hitr1).
    exists (<[r := itr <| i_prev := p |>]> h1).
    assert (Hpl : p ∉ r :: l) by (rewrite <- HD; apply Hnin).
    apply NoDup_cons in Hnd as [Hrl Hnd].
    split_and!; [done| | |].
    + rewrite <- HD. apply (qset_push_ok (w_heap s)); try done.
      * intros x Hx. assert (r ∉ D x) by (intros Hin; apply Hx; by eapply (qo_disj _ _ Hok)).
        apply dlseg_insert_notin; [done|]. apply dlseg_insert_notin; [done|apply (qo_seg _ _ Hok)].
      * rewrite HD. simpl. split_and!; [done| |done| |].
        -- rewrite links_insert_ne by done. apply links_insert_eq.
        -- rewrite links_insert_eq. f_equal. simpl in Hseg. destruct Hseg as (_ & Hl & _).
           apply links_Some in Hl as (x & Hx & <- & _). simplify_eq. done.
        -- apply dlseg_insert_notin; [done|]. apply dlseg_insert_notin; [set_solver|].
           simpl in Hseg. tauto.
    + etrans; [done|]. replace (itr <| i_prev := p |>) with (itr <| i_next := i_next itr |> <| i_prev := p |>)
        by by destruct itr. by apply lsame_insert.
    + intros x Hxp Hx. rewrite lookup_insert_ne by set_solver. by apply lookup_insert_ne.
Qed.

(** ** Removal *)

(** [if (it->next) it->next->prev = it->prev; if (it->prev) it->prev->next = it->next;] *)
Definition q_unlink p : M world unit :=
  it ← load p;
  when (negb (i_next it =? NULL)) (wr (i_next it) (λ x, x <| i_prev := i_prev it |>)) ;;
  when (negb (i_prev it =? NULL)) (wr (i_prev it) (λ x, x <| i_next := i_next it |>)).

Lemma lsame_set_prev h p it v : h !! p = Some it → lsame h (<[p := it <| i_prev := v |>]> h).
Proof.
  intros Hp. replace (it <| i_prev := v |>) with (it <| i_next := i_next it |> <| i_prev := v |>)
    by by destruct it. by apply lsame_insert.
Qed.

Lemma lsame_set_next h p it v : h !! p = Some it → lsame h (<[p := it <| i_next := v |>]> h).
Proof.
  intros Hp. replace (it <| i_next := v |>) with (it <| i_next := v |> <| i_prev := i_prev it |>)
    by by destruct it. by apply lsame_insert.
Qed.

Lemma when_first_prev s h prv l nxt v :
  dlseg h prv l nxt → NoDup l →
  ∃ h', when (negb (hdz 0 l =? NULL)) (wr (hdz 0 l) (λ x, x <| i_prev := v |>)) (s <| w_heap := h |>) =
          Some (tt, s <| w_heap := h' |>) ∧
    dlseg h' v l nxt ∧ lsame h h' ∧ (∀ x, x ∉ l → h' !! x = h !! x).
Proof.
  intros Hl Hn. destruct l as [|q l]; [by exists h|].
  destruct (dlseg_lookup _ _ _ _ q Hl) as (it & Hq & Hq0); [set_solver|].
  apply NoDup_cons in Hn as [Hql Hn]. exists (<[q := it <| i_prev := v |>]> h). split_and!.
  - simpl. rewrite (proj2 (Z.eqb_neq q _)) by done. simpl. by apply wr_heap.
  - by apply (dlseg_set_first_prev h prv).
  - by apply lsame_set_prev.
  - intros x Hx. apply lookup_insert_ne. set_solver.
Qed.

Lemma when_last_next s h prv l nxt v :
  dlseg h prv l nxt → NoDup l →
  ∃ h', when (negb (lastz 0 l =? NULL)) (wr (lastz 0 l) (λ x, x <| i_next := v |>)) (s <| w_heap := h |>) =
          Some (tt, s <| w_heap := h' |>) ∧
    dlseg h' prv l v ∧ lsame h h' ∧ (∀ x, x ∉ l → h' !! x = h !! x).
Proof.
  intros Hl Hn. destruct (lastz_snoc l) as [->|(l' & q & ->)]; [by exists h|].
  destruct (dlseg_lookup _ _ _ _ q Hl) as (it & Hq & Hq0); [set_solver|].
  apply NoDup_app in Hn as (_ & Hx & _).
  exists (<[q := it <| i_next := v |>]> h). split_and!.
  - rewrite lastz_app. simpl. rewrite (proj2 (Z.eqb_neq q _)) by done. simpl. by apply wr_heap.
  - apply (dlseg_set_last_next h prv l' q nxt); [done| |done]. intros Hin. apply (Hx q Hin). set_solver.
  - by apply lsame_set_next.
  - intros x Hx'. apply lookup_insert_ne. set_solver.
Qed.

Lemma qset_remove_ok h h' D q p l1 l2 :
  queues_ok h D → D q = l1 ++ p :: l2 →
  (∀ x, x ≠ q → dlseg h' 0 (D x) 0) → dlseg h' 0 (l1 ++ l2) 0 →
  queues_ok h' (qset D q (l1 ++ l2)) ∧ (∀ x, p ∉ qset D q (l1 ++ l2) x).
Proof.
  intros [Hs Hn Hd] HD Hoth Hnew. pose proof (Hn q) as Hnd. rewrite HD in Hnd.
  assert (Hsub : ∀ x z, z ∈ qset D q (l1 ++ l2) x → z ∈ D x).
  { intros x z. unfold qset. case_decide as E; [|done]. subst. rewrite HD. set_solver. }
  split.
  - constructor.
    + intros x. unfold qset. case_decide as E; [by subst|by apply Hoth].
    + intros x. unfold qset. case_decide as E; [|done]. by eapply NoDup_remove_mid.
    + intros x y z Hx%Hsub Hy%Hsub. by eapply Hd.
  - intros x Hx. pose proof (Hsub _ _ Hx) as Hx'.
    assert (x = q) as -> by (eapply Hd; [done|]; rewrite HD; set_solver).
    rewrite qset_eq in Hx. apply NoDup_mid_notin in Hnd. set_solver.
Qed.

Lemma q_unlink_ok s D q p l1 l2 :
  queues_ok (w_heap s) D → D q = l1 ++ p :: l2 →
  ∃ h', q_unlink p s = Some (tt, s <| w_heap := h' |>) ∧
    queues_ok h' (qset D q (l1 ++ l2)) ∧ (∀ x, p ∉ qset D q (l1 ++ l2) x) ∧
    lsame (w_heap s) h' ∧ h' !! p = w_heap s !! p.
Proof.
  intros Hok HD. pose proof (qo_seg _ _ Hok q) as Hseg. pose proof (qo_nodup _ _ Hok q) as Hnd.
  rewrite HD in Hseg, Hnd. destruct (dlseg_mid _ _ _ _ _ _ Hseg) as [Hp0 Hlk].
  apply links_Some in Hlk as (it & Hp & Hnx & Hpv).
  apply dlseg_app in Hseg as [Hl1 Hl2]. simpl in Hl1, Hl2. destruct Hl2 as (_ & _ & Hl2).
  destruct (NoDup_mid_notin _ _ _ Hnd) as [Hp1 Hp2].
  pose proof (NoDup_remove_mid _ _ _ Hnd) as Hnd'.
  apply NoDup_app in Hnd' as (Hn1 & Hdis & Hn2).
  destruct (when_first_prev s (w_heap s) p l2 0 (lastz 0 l1) Hl2 Hn2) as (h1 & Hr1 & Hd1 & Hs1 & Hf1).
  assert (Hl1' : dlseg h1 0 l1 p).
  { apply (dlseg_ext (w_heap s)); [|done]. intros x Hx. unfold links. rewrite Hf1; [done|set_solver]. }
  destruct (when_last_next s h1 0 l1 p (hdz 0 l2) Hl1' Hn1) as (h2 & Hr2 & Hd2 & Hs2 & Hf2).
  exists h2.
  assert (Hkeep : ∀ x, x ∉ l1 → x ∉ l2 → h2 !! x = w_heap s !! x) by (intros; rewrite Hf2, Hf1; done).
  destruct (qset_remove_ok (w_heap s) h2 D q p l1 l2 Hok HD) as [Hok' Hnin].
  { intros x Hx. apply (dlseg_ext (w_heap s)); [|apply (qo_seg _ _ Hok)]. intros z Hz. unfold links.
    rewrite Hkeep; [done|..]; intros Hin; apply Hx; apply (qo_disj _ _ Hok x q z); try done;
      rewrite HD; set_solver. }
  { apply dlseg_app. split; [done|]. apply (dlseg_ext h1); [|done].
    intros x Hx. unfold links. rewrite Hf2; [done|set_solver]. }
  split_and!; [|done..|by etrans|by apply Hkeep].
  unfold q_unlink. rewrite (bind_run _ _ _ _ _ (load_ok _ _ _ Hp)), Hnx, Hpv.
  assert (s <| w_heap := w_heap s |> = s) as E by by destruct s. rewrite E in Hr1.
  by rewrite (bind_run _ _ _ _ _ Hr1).
Qed.

(** The item before [p] in its queue, if any, is in memory. *)
Lemma queue_prev h D q p it :
  queues_ok h D → p ∈ D q → h !! p = Some it → i_prev it ≠ 0 → i_prev it ∈ D q.
Proof.
  intros Hq Hin Hp Hn. destruct (list_elem_of_split _ _ Hin) as (l1 & l2 & HD).
  pose proof (qo_seg _ _ Hq q) as Hs. rewrite HD in Hs. apply dlseg_mid in Hs as [_ Hl].
  apply links_Some in Hl as (it' & Hp' & _ & Hv). rewrite Hp in Hp'. apply (inj Some) in Hp'. subst it'.
  rewrite HD. destruct (lastz_in 0 l1) as [E|E]; [congruence|]. rewrite Hv. set_solver.
Qed.

Lemma queue_prev_ne h D q p it :
  queues_ok h D → p ∈ D q → h !! p = Some it → i_prev it ≠ p.
Proof.
  intros Hq Hin Hp. destruct (list_elem_of_split _ _ Hin) as (l1 & l2 & HD).
  pose proof (qo_seg _ _ Hq q) as Hs. pose proof (qo_nodup _ _ Hq q) as Hnd. rewrite HD in Hs, Hnd.
  apply dlseg_mid in Hs as [Hp0 Hl]. apply NoDup_mid_notin in Hnd as [Hn1 _].
  apply links_Some in Hl as (it' & Hp' & _ & Hv). rewrite Hp in Hp'. apply (inj Some) in Hp'. subst it'.
  rewrite Hv. destruct (lastz_in 0 l1) as [->|E]; [done|]. congruence.
Qed.
