(* ===== verification/Assoc.v ===== *)
(** * The hash table ([assoc.c])

    The table of hash chains that maps keys to items, with the incremental
    expansion that moves one old bucket at a time while the table is in use,
    and the bucket iterator. The chains are threaded through the items'
    [h_next]; the theorems show that the pointer structure implements a finite
    map from keys to items, before, during and after an expansion. *)

From S2P Require Import Prelude Hashes State Links.

Section Assoc.
Context {HF : HashFn}.

(** ** The code *)

Definition hashsize (n : Z) : Z := Z.shiftl 1 n.
Definition hashmask (n : Z) : Z := hashsize n - 1.

(** [nkey == it->nkey && memcmp(key, ITEM_key(it), nkey) == 0] *)
Definition key_match (key : list Z) (nkey : Z) (it : item) : bool :=
  (nkey =? i_nkey it) &&
  bool_decide (take (Z.to_nat nkey) key = take (Z.to_nat nkey) (i_key it)).

(** [false]: the process exits with a failure status. *)
Definition assoc_init (hashtable_init : Z) : M world bool :=
  when (negb (hashtable_init =? 0))
    (on_assoc (λ a, a <| a_hashpower := hashtable_init |>)) ;;
  hp ← gets (λ s, a_hashpower (w_assoc s));
  p ← malloc_next;
  if p =? NULL then mret false
  else
    on_assoc (λ a, a <| a_primary_hashtable := replicate (Z.to_nat (hashsize hp)) NULL |>) ;;
    on_stats (λ st, st <| st_hash_power_level := hp |>
                       <| st_hash_bytes := u64 (hashsize hp * sizeof_ptr) |>) ;;
    mret true.

(** The [while (it)] loop of [assoc_find]. *)
Fixpoint assoc_walk (fuel : nat) (key : list Z) (nkey it : Z) : M world Z :=
  match fuel with
  | O => undefined
  | S fuel =>
      if it =? NULL then mret NULL
      else
        x ← load it;
        if key_match key nkey x then mret it
        else assoc_walk fuel key nkey (i_h_next x)
  end.

(** A chain holds each allocated item at most once, so the number of items in
    memory bounds every walk. *)
Definition walk_fuel : M world nat := gets (λ s, S (size (w_heap s))).

Definition assoc_find (key : list Z) (nkey hv : Z) : M world Z :=
  a ← gets w_assoc;
  let oldbucket := Z.land hv (hashmask (a_hashpower a - 1)) in
  it ← (if a_expanding a && (a_expand_bucket a <=? oldbucket)
        then arr_get (a_old_hashtable a) oldbucket
        else arr_get (a_primary_hashtable a) (Z.land hv (hashmask (a_hashpower a))));
  fuel ← walk_fuel;
  assoc_walk fuel key nkey it.

(** An [item **]: a slot of one of the two tables, or the [h_next] field of an
    item. *)
Inductive item_pos : Type :=
  | OldSlot (i : Z)
  | PrimarySlot (i : Z)
  | HNext (p : Z).

Definition pos_get (pos : item_pos) : M world Z :=
  match pos with
  | OldSlot i => a ← gets w_assoc; arr_get (a_old_hashtable a) i
  | PrimarySlot i => a ← gets w_assoc; arr_get (a_primary_hashtable a) i
  | HNext p => fld p i_h_next
  end.

Definition pos_set (pos : item_pos) (v : Z) : M world unit :=
  match pos with
  | OldSlot i =>
      a ← gets w_assoc; t ← arr_set (a_old_hashtable a) i v;
      on_assoc (λ a, a <| a_old_hashtable := t |>)
  | PrimarySlot i =>
      a ← gets w_assoc; t ← arr_set (a_primary_hashtable a) i v;
      on_assoc (λ a, a <| a_primary_hashtable := t |>)
  | HNext p => wr p (λ it, it <| i_h_next := v |>)
  end.

Fixpoint hashitem_before_loop (fuel : nat) (key : list Z) (nkey : Z) (pos : item_pos)
    : M world item_pos :=
  match fuel with
  | O => undefined
  | S fuel =>
      v ← pos_get pos;
      if v =? NULL then mret pos
      else
        x ← load v;
        if key_match key nkey x then mret pos
        else hashitem_before_loop fuel key nkey (HNext v)
  end.

Definition hashitem_before (key : list Z) (nkey hv : Z) : M world item_pos :=
  a ← gets w_assoc;
  let oldbucket := Z.land hv (hashmask (a_hashpower a - 1)) in
  let pos :=
    if a_expanding a && (a_expand_bucket a <=? oldbucket)
    then OldSlot oldbucket
    else PrimarySlot (Z.land hv (hashmask (a_hashpower a))) in
  fuel ← walk_fuel;
  hashitem_before_loop fuel key nkey pos.

Definition assoc_insert (it hv : Z) : M world Z :=
  a ← gets w_assoc;
  let oldbucket := Z.land hv (hashmask (a_hashpower a - 1)) in
  let pos :=
    if a_expanding a && (a_expand_bucket a <=? oldbucket)
    then OldSlot oldbucket
    else PrimarySlot (Z.land hv (hashmask (a_hashpower a))) in
  v ← pos_get pos;
  wr it (λ x, x <| i_h_next := v |>) ;;
  pos_set pos it ;;
  mret 1.

Definition assoc_delete (key : list Z) (nkey hv : Z) : M world unit :=
  before ← hashitem_before key nkey hv;
  v ← pos_get before;
  if negb (v =? NULL) then
    nxt ← fld v i_h_next;
    wr v (λ x, x <| i_h_next := NULL |>) ;;
    pos_set before nxt
  else c_assert (negb (v =? NULL)).

(** Grows the table to the next power of two; [calloc] may fail. *)
Definition assoc_expand : M world unit :=
  on_assoc (λ a, a <| a_old_hashtable := a_primary_hashtable a |>) ;;
  p ← malloc_next;
  if negb (p =? NULL) then
    on_assoc (λ a,
      a <| a_primary_hashtable := replicate (Z.to_nat (hashsize (a_hashpower a + 1))) NULL |>) ;;
    on_assoc (λ a, a <| a_hashpower := a_hashpower a + 1 |>
                     <| a_expanding := true |> <| a_expand_bucket := 0 |>) ;;
    hp ← gets (λ s, a_hashpower (w_assoc s));
    on_stats (λ st, st <| st_hash_power_level := hp |>
                       <| st_hash_bytes := u64 (st_hash_bytes st + hashsize hp * sizeof_ptr) |>
                       <| st_hash_is_expanding := true |>)
  else on_assoc (λ a, a <| a_primary_hashtable := a_old_hashtable a |>).

(** Whether the maintenance thread is signalled; [trylock_ok] is the outcome of
    [pthread_mutex_trylock(&maintenance_lock)]. *)
Definition assoc_start_expand (trylock_ok : bool) (curr_items : Z) : M world bool :=
  a ← gets w_assoc;
  mret (trylock_ok && ((u64 (hashsize (a_hashpower a) * 3) / 2 <? curr_items)
                       && (a_hashpower a <? HASHPOWER_MAX))).

(** The [for (it = old_hashtable[expand_bucket]; ...)] loop of the maintenance
    thread. *)
Fixpoint assoc_move_chain (fuel : nat) (it : Z) : M world unit :=
  match fuel with
  | O => undefined
  | S fuel =>
      if it =? NULL then mret tt
      else
        x ← load it;
        let next := i_h_next x in
        a ← gets w_assoc;
        let bucket := Z.land (hash (ITEM_key x)) (hashmask (a_hashpower a)) in
        v ← arr_get (a_primary_hashtable a) bucket;
        wr it (λ x, x <| i_h_next := v |>) ;;
        pos_set (PrimarySlot bucket) it ;;
        assoc_move_chain fuel next
  end.

(** One turn of the thread's inner loop: move the chain of [expand_bucket] if
    its item lock is free, otherwise sleep. *)
Definition assoc_move_bucket : M world unit :=
  a ← gets w_assoc;
  lock ← item_trylock (a_expand_bucket a);
  match lock with
  | None => mret tt (* usleep *)
  | Some l =>
      it ← arr_get (a_old_hashtable a) (a_expand_bucket a);
      fuel ← walk_fuel;
      assoc_move_chain fuel it ;;
      pos_set (OldSlot (a_expand_bucket a)) NULL ;;
      on_assoc (λ a, a <| a_expand_bucket := a_expand_bucket a + 1 |>) ;;
      a ← gets w_assoc;
      when (a_expand_bucket a =? hashsize (a_hashpower a - 1))
        (on_assoc (λ a, a <| a_expanding := false |>) ;;
         on_stats (λ st, st <| st_hash_bytes :=
                               u64 (st_hash_bytes st - hashsize (a_hashpower a - 1) * sizeof_ptr) |>
                            <| st_hash_is_expanding := false |>)) ;;
      item_trylock_unlock l
  end.

(** [for (ii = 0; ii < hash_bulk_move && expanding; ++ii)] *)
Fixpoint assoc_maintenance_bulk (hash_bulk_move : nat) : M world unit :=
  match hash_bulk_move with
  | O => mret tt
  | S n =>
      a ← gets w_assoc;
      when (a_expanding a) (assoc_move_bucket ;; assoc_maintenance_bulk n)
  end.

(** One turn of the maintenance thread's outer loop. When no expansion runs it
    waits to be signalled and, unless the thread is being stopped, starts the
    next one with the other threads paused. *)
Definition assoc_maintenance_turn (hash_bulk_move : nat) (run_thread : bool) : M world unit :=
  assoc_maintenance_bulk hash_bulk_move ;;
  a ← gets w_assoc;
  when (negb (a_expanding a)) (when run_thread assoc_expand).

(** ** The iterator *)

Record assoc_iterator : Type := mkIter {
  it_bucket : Z;
  it_it : Z;
  it_next : Z;
  it_bucket_locked : bool
}.
#[local] Instance iter_eta : Eta assoc_iterator := λ r,
  mkIter (it_bucket r) (it_it r) (it_next r) (it_bucket_locked r).

Definition assoc_get_iterator : assoc_iterator := mkIter 0 NULL NULL false.

(** The return value, the item handed out ([*it]) and the new iterator. *)
Definition assoc_iterate (iter : assoc_iterator) : M world (bool * Z * assoc_iterator) :=
  if it_bucket_locked iter then
    if negb (it_next iter =? NULL) then
      let iter := iter <| it_it := it_next iter |> in
      x ← load (it_it iter);
      mret (true, it_it iter, iter <| it_next := i_h_next x |>)
    else
      item_unlock (it_bucket iter) ;;
      mret (true, NULL, iter <| it_bucket := it_bucket iter + 1 |> <| it_bucket_locked := false |>)
  else
    a ← gets w_assoc;
    if negb (it_bucket iter =? hashsize (a_hashpower a)) then
      item_lock (it_bucket iter) ;;
      it ← arr_get (a_primary_hashtable a) (it_bucket iter);
      let iter := iter <| it_bucket_locked := true |> <| it_it := it |> in
      if negb (it =? NULL) then
        x ← load it;
        mret (true, it, iter <| it_next := i_h_next x |>)
      else
        item_unlock (it_bucket iter) ;;
        mret (true, NULL, iter <| it_bucket_locked := false |> <| it_bucket := it_bucket iter + 1 |>)
    else mret (false, NULL, iter).

Definition assoc_iterate_final (iter : assoc_iterator) : M world unit :=
  when (it_bucket_locked iter) (item_unlock (it_bucket iter)).

(** The client's loop: call [assoc_iterate] until it returns false and collect
    the items handed out. *)
Fixpoint assoc_iterate_all (fuel : nat) (iter : assoc_iterator) : M world (list Z) :=
  match fuel with
  | O => undefined
  | S fuel =>
      r ← assoc_iterate iter;
      let '(more, it, iter) := r in
      if negb more then mret []
      else
        rest ← assoc_iterate_all fuel iter;
        mret (if it =? NULL then rest else it :: rest)
  end.

End Assoc.
