(* ===== verification/AssocSpec.v ===== *)
(** * The hash table implements a finite map

    [assoc_rep s m]: the chains reachable from the two tables of [s] hold
    exactly the items of the map [m] from keys to item addresses, each in the
    bucket where [assoc_find] looks for its key. The operations of [assoc.c]
    are proved against this abstraction. *)

From S2P Require Import Prelude Hashes State Links Assoc.

Section Rep.
Context {HF : HashFn}.
Implicit Types (s : world) (a : assoc_t) (h : gmap Z item) (m : gmap (list Z) Z).

(** A chain's place: a bucket of the old ([true]) or the primary table. *)
Definition loc : Type := bool * Z.

Definition cur_loc a (hv : Z) : loc :=
  let oldbucket := Z.land hv (hashmask (a_hashpower a - 1)) in
  if a_expanding a && (a_expand_bucket a <=? oldbucket)
  then (true, oldbucket)
  else (false, Z.land hv (hashmask (a_hashpower a))).

Definition valid_loc a (lc : loc) : Prop :=
  if lc.1 then a_expanding a = true ∧ 0 ≤ lc.2 < 2 ^ (a_hashpower a - 1)
  else 0 ≤ lc.2 < 2 ^ a_hashpower a.

Definition table a (old : bool) : list Z :=
  if old then a_old_hashtable a else a_primary_hashtable a.

Definition loc_pos (lc : loc) : item_pos :=
  if lc.1 then OldSlot lc.2 else PrimarySlot lc.2.

(** An item whose key bytes are all there. *)
Definition key_ok (it : item) : Prop := 0 ≤ i_nkey it ≤ Z.of_nat (length (i_key it)).

Definition key_of h (p : Z) : option (list Z) := ITEM_key <$> h !! p.

Record assoc_ok s (L : loc → list Z) : Prop := {
  ao_hp : 1 ≤ a_hashpower (w_assoc s);
  ao_primary : Z.of_nat (length (a_primary_hashtable (w_assoc s))) = 2 ^ a_hashpower (w_assoc s);
  ao_old : a_expanding (w_assoc s) = true →
    Z.of_nat (length (a_old_hashtable (w_assoc s))) = 2 ^ (a_hashpower (w_assoc s) - 1)
    ∧ 0 ≤ a_expand_bucket (w_assoc s) ≤ 2 ^ (a_hashpower (w_assoc s) - 1);
  ao_table : ∀ lc, valid_loc (w_assoc s) lc →
    table (w_assoc s) lc.1 !! Z.to_nat lc.2 = Some (hdz 0 (L lc));
  ao_chain : ∀ lc, hseg (w_heap s) (L lc) 0;
  ao_nodup : ∀ lc, NoDup (L lc);
  ao_place : ∀ lc p, p ∈ L lc → ∃ it, w_heap s !! p = Some it ∧ key_ok it ∧
    cur_loc (w_assoc s) (hash (ITEM_key it)) = lc;
  ao_uniq : ∀ lc p q, p ∈ L lc → q ∈ L lc →
    key_of (w_heap s) p = key_of (w_heap s) q → p = q
}.

Definition assoc_abs s (L : loc → list Z) m : Prop :=
  ∀ k p, m !! k = Some p ↔ (∃ lc, p ∈ L lc) ∧ key_of (w_heap s) p = Some k.

(** An expansion that runs has buckets left to move. *)
Definition assoc_live a : Prop :=
  a_expanding a = true → a_expand_bucket a < 2 ^ (a_hashpower a - 1).

Definition assoc_rep s m : Prop :=
  ∃ L, assoc_ok s L ∧ assoc_abs s L m ∧ assoc_live (w_assoc s).

#[local] Arguments cur_loc : simpl never.
#[local] Arguments valid_loc : simpl never.

(** ** Buckets *)

Lemma hashmask_mod x n : 0 ≤ n → Z.land x (hashmask n) = x mod 2 ^ n.
Proof.
  intros. unfold hashmask, hashsize. rewrite Z.shiftl_1_l. by apply land_mask.
Qed.

Lemma cur_loc_valid a hv : 1 ≤ a_hashpower a → valid_loc a (cur_loc a hv).
Proof.
  intros Hhp. unfold cur_loc, valid_loc. rewrite !hashmask_mod by lia.
  destruct (a_expanding a && _) eqn:He; bool_props; simpl.
  - split; [done|]. apply Z.mod_pos_bound, pow2_pos. lia.
  - apply Z.mod_pos_bound, pow2_pos. lia.
Qed.

Lemma loc_pos_get s L lc :
  assoc_ok s L → valid_loc (w_assoc s) lc →
  pos_get (loc_pos lc) s = Some (hdz 0 (L lc), s).
Proof.
  intros Hok Hv. pose proof (ao_table _ _ Hok lc Hv) as Ht.
  destruct lc as [[] i]; simpl in *; munfold; apply arr_get_ok; try done;
    unfold valid_loc in Hv; simpl in Hv; lia.
Qed.

(** The table after [pos_set] on a bucket. *)
Definition set_table a (lc : loc) (v : Z) : assoc_t :=
  if lc.1 then a <| a_old_hashtable := <[Z.to_nat lc.2 := v]> (a_old_hashtable a) |>
  else a <| a_primary_hashtable := <[Z.to_nat lc.2 := v]> (a_primary_hashtable a) |>.

Lemma valid_loc_bound s L lc :
  assoc_ok s L → valid_loc (w_assoc s) lc →
  0 ≤ lc.2 < Z.of_nat (length (table (w_assoc s) lc.1)).
Proof.
  intros Hok Hv. destruct lc as [[] i]; unfold valid_loc in Hv; simpl in *.
  - destruct Hv as [He ?]. destruct (ao_old _ _ Hok He) as [-> _]. lia.
  - rewrite (ao_primary _ _ Hok). lia.
Qed.

(** The pointer part of a state that differs from [s] in its heap and tables
    only. *)
Definition with_heap_assoc s h a : world := s <| w_heap := h |> <| w_assoc := a |>.

Lemma loc_pos_set s L lc v :
  assoc_ok s L → valid_loc (w_assoc s) lc →
  pos_set (loc_pos lc) v s = Some (tt, s <| w_assoc := set_table (w_assoc s) lc v |>).
Proof.
  intros Hok Hv. pose proof (valid_loc_bound _ _ _ Hok Hv) as Hb.
  destruct lc as [[] i]; simpl in *; munfold; rewrite arr_set_ok by done; done.
Qed.

(** ** Walking a chain *)

Lemma key_match_spec k it :
  key_ok it → key_match k (Z.of_nat (length k)) it = bool_decide (ITEM_key it = k).
Proof.
  intros [H0 Hle]. unfold key_match, ITEM_key. rewrite Nat2Z.id, firstn_all.
  destruct (Z.eqb_spec (Z.of_nat (length k)) (i_nkey it)) as [He|Hne]; simpl.
  - rewrite <- He, Nat2Z.id. apply bool_decide_ext. split; congruence.
  - symmetry. apply bool_decide_eq_false. intros <-. apply Hne.
    rewrite length_take. lia.
Qed.

(** All items of a chain have their keys. *)
Definition keys_ok h (l : list Z) : Prop := ∀ p, p ∈ l → ∃ it, h !! p = Some it ∧ key_ok it.

Lemma keys_ok_cons h p l : keys_ok h (p :: l) → keys_ok h l.
Proof. intros H q Hq. apply H. set_solver. Qed.

(** The item a walk stops at. *)
Fixpoint first_match h (k : list Z) (l : list Z) : Z :=
  match l with
  | [] => 0
  | p :: l => if decide (key_of h p = Some k) then p else first_match h k l
  end.

Lemma key_of_lookup h p it : h !! p = Some it → key_of h p = Some (ITEM_key it).
Proof. unfold key_of. by intros ->. Qed.

Lemma assoc_walk_spec fuel s k l :
  hseg (w_heap s) l 0 → keys_ok (w_heap s) l → (length l < fuel)%nat →
  assoc_walk fuel k (Z.of_nat (length k)) (hdz 0 l) s = Some (first_match (w_heap s) k l, s).
Proof.
  revert fuel. induction l as [|p l IH]; intros [|fuel] Hseg Hk Hf; simpl in *; try lia; [done|].
  destruct Hseg as (Hp & Hl & Hseg).
  destruct (Hk p) as (it & Hit & Hok); [set_solver|].
  rewrite (proj2 (Z.eqb_neq _ _)) by done.
  rewrite (bind_run _ _ _ _ _ (load_ok _ _ _ Hit)), key_match_spec by done.
  rewrite (key_of_lookup _ _ _ Hit).
  destruct (decide (Some (ITEM_key it) = Some k)) as [[= He]|Hne].
  - by rewrite bool_decide_eq_true_2.
  - rewrite bool_decide_eq_false_2 by congruence.
    destruct (hlink_Some _ _ _ Hl) as (it' & Hit' & Hn).
    rewrite Hit in Hit'. injection Hit' as <-. rewrite Hn.
    apply IH; [done|by eapply keys_ok_cons|lia].
Qed.

Lemma first_match_in h k l p :
  p ≠ 0 → first_match h k l = p → p ∈ l ∧ key_of h p = Some k.
Proof.
  induction l as [|q l IH]; simpl; [congruence|]. intros Hp.
  case_decide as Hq; [intros ->; set_solver|]. intros [? ?]%IH; set_solver.
Qed.

Lemma first_match_none h k l :
  (∀ p, p ∈ l → key_of h p ≠ Some k) → first_match h k l = 0.
Proof.
  induction l as [|q l IH]; simpl; [done|]. intros H.
  rewrite decide_False by (apply H; set_solver). apply IH. set_solver.
Qed.

Lemma first_match_uniq h k l p :
  (∀ q, q ∈ l → key_of h q = Some k → q = p) → p ∈ l → key_of h p = Some k →
  first_match h k l = p.
Proof.
  induction l as [|q l IH]; simpl; intros Hu Hp Hk; [set_solver|].
  case_decide as Hq; [apply Hu; set_solver|].
  apply IH; [set_solver| |done]. apply elem_of_cons in Hp as [->|]; [congruence|done].
Qed.

Lemma chain_length s L lc : assoc_ok s L → (length (L lc) < S (size (w_heap s)))%nat.
Proof.
  intros Hok. apply Nat.lt_succ_r.
  rewrite <- (size_list_to_set (C := gset Z)) by apply (ao_nodup _ _ Hok).
  rewrite <- (size_dom (D := gset Z)). apply subseteq_size.
  intros p Hp%elem_of_list_to_set. apply elem_of_dom.
  destruct (ao_place _ _ Hok _ _ Hp) as (it & -> & _). eauto.
Qed.

Lemma place_keys_ok s L lc : assoc_ok s L → keys_ok (w_heap s) (L lc).
Proof. intros Hok p Hp. destruct (ao_place _ _ Hok _ _ Hp) as (it & ? & ? & _). eauto. Qed.

(** Where an item with key [k] can be. *)
Lemma key_place s L lc p k :
  assoc_ok s L → p ∈ L lc → key_of (w_heap s) p = Some k → lc = cur_loc (w_assoc s) (hash k).
Proof.
  intros Hok Hp Hk. destruct (ao_place _ _ Hok _ _ Hp) as (it & Hit & _ & <-).
  unfold key_of in Hk. rewrite Hit in Hk. simpl in Hk. congruence.
Qed.

(** The map's entry for [k] is what a walk of [k]'s bucket finds. *)
Lemma first_match_abs s L m k :
  assoc_ok s L → assoc_abs s L m →
  first_match (w_heap s) k (L (cur_loc (w_assoc s) (hash k))) = default 0 (m !! k).
Proof.
  intros Hok Habs. destruct (m !! k) as [p|] eqn:Hm; simpl.
  - apply Habs in Hm as [[lc Hp] Hk].
    pose proof (key_place _ _ _ _ _ Hok Hp Hk) as <-.
    apply first_match_uniq; [|done..]. intros q Hq Hqk.
    apply (ao_uniq _ _ Hok lc); [done..|congruence].
  - apply first_match_none. intros p Hp Hk.
    assert (m !! k = Some p) by (apply Habs; eauto). congruence.
Qed.

Lemma table_get s L lc :
  assoc_ok s L → valid_loc (w_assoc s) lc →
  arr_get (table (w_assoc s) lc.1) lc.2 s = Some (hdz 0 (L lc), s).
Proof.
  intros Hok Hv. apply arr_get_ok; [|by apply ao_table].
  by apply (valid_loc_bound _ _ _ Hok Hv).
Qed.

Lemma assoc_find_abs s L m k :
  assoc_ok s L → assoc_abs s L m →
  assoc_find k (Z.of_nat (length k)) (hash k) s = Some (default 0 (m !! k), s).
Proof.
  intros Hok Habs. pose proof (ao_hp _ _ Hok) as Hhp.
  pose proof (cur_loc_valid _ (hash k) Hhp) as Hv.
  pose proof (table_get _ _ _ Hok Hv) as Hget.
  rewrite <- (first_match_abs _ _ _ k Hok Habs).
  unfold assoc_find. rewrite (bind_run _ _ _ _ _ eq_refl).
  rewrite (bind_run _ _ _ (hdz 0 (L (cur_loc (w_assoc s) (hash k)))) s).
  2:{ unfold cur_loc in Hget |- *. destruct (_ && _); exact Hget. }
  rewrite (bind_run _ _ _ _ _ eq_refl).
  apply assoc_walk_spec; [apply ao_chain|by eapply place_keys_ok|by apply chain_length]; done.
Qed.

(** ** Replacing one chain *)

Definition fset (L : loc → list Z) (lc : loc) (l : list Z) : loc → list Z :=
  λ x, if decide (x = lc) then l else L x.

Lemma fset_eq L lc l : fset L lc l lc = l.
Proof. unfold fset. by rewrite decide_True. Qed.

Lemma fset_ne L lc l x : x ≠ lc → fset L lc l x = L x.
Proof. unfold fset. intros. by rewrite decide_False. Qed.

Lemma set_table_hashpower a lc v : a_hashpower (set_table a lc v) = a_hashpower a.
Proof. by destruct lc as [[] i]. Qed.
Lemma set_table_expanding a lc v : a_expanding (set_table a lc v) = a_expanding a.
Proof. by destruct lc as [[] i]. Qed.
Lemma set_table_bucket a lc v : a_expand_bucket (set_table a lc v) = a_expand_bucket a.
Proof. by destruct lc as [[] i]. Qed.
Lemma set_table_live a lc v : assoc_live a → assoc_live (set_table a lc v).
Proof. unfold assoc_live. by rewrite set_table_expanding, set_table_bucket, set_table_hashpower. Qed.

Lemma set_table_length a lc v b : length (table (set_table a lc v) b) = length (table a b).
Proof. destruct lc as [[] i], b; simpl; by rewrite ?length_insert. Qed.
Lemma set_table_cur_loc a lc v hv : cur_loc (set_table a lc v) hv = cur_loc a hv.
Proof. by destruct lc as [[] i]. Qed.
Lemma set_table_valid a lc v lc' : valid_loc (set_table a lc v) lc' ↔ valid_loc a lc'.
Proof. by destruct lc as [[] i]. Qed.

Lemma set_table_lookup a lc v lc' :
  valid_loc a lc → valid_loc a lc' → 0 ≤ lc.2 < Z.of_nat (length (table a lc.1)) →
  table (set_table a lc v) lc'.1 !! Z.to_nat lc'.2 =
    if decide (lc' = lc) then Some v else table a lc'.1 !! Z.to_nat lc'.2.
Proof.
  intros Hv Hv' Hb. case_decide as Heq.
  - subst. destruct lc as [[] i]; simpl in *; apply list_lookup_insert_eq; lia.
  - assert (0 ≤ lc'.2) by (destruct lc' as [[] i]; unfold valid_loc in Hv'; simpl in *; lia).
    destruct lc as [[] i], lc' as [[] j]; simpl in *; try done;
      apply list_lookup_insert_ne; intros ?; apply Heq; f_equal; lia.
Qed.

Lemma hsame_key_of h h' p : hsame h h' → key_of h p = key_of h' p.
Proof. apply hsame_fmap. done. Qed.

Lemma assoc_ok_bucket s L lc l' h' :
  assoc_ok s L → valid_loc (w_assoc s) lc → hsame (w_heap s) h' →
  (∀ lc', lc' ≠ lc → hseg h' (L lc') 0) → hseg h' l' 0 → NoDup l' →
  (∀ p, p ∈ l' → ∃ it, w_heap s !! p = Some it ∧ key_ok it ∧
     cur_loc (w_assoc s) (hash (ITEM_key it)) = lc) →
  (∀ p q, p ∈ l' → q ∈ l' → key_of (w_heap s) p = key_of (w_heap s) q → p = q) →
  assoc_ok (with_heap_assoc s h' (set_table (w_assoc s) lc (hdz 0 l'))) (fset L lc l').
Proof.
  intros Hok Hv Hs Hoth Hl Hnd Hpl Hun.
  pose proof (valid_loc_bound _ _ _ Hok Hv) as Hb.
  constructor; simpl.
  - rewrite set_table_hashpower. apply Hok.
  - rewrite set_table_hashpower, <- (ao_primary _ _ Hok). f_equal.
    apply (set_table_length _ _ _ false).
  - rewrite set_table_hashpower, set_table_expanding, set_table_bucket. intros He.
    destruct (ao_old _ _ Hok He) as [<- ?]. split; [|done]. f_equal.
    apply (set_table_length _ _ _ true).
  - intros lc' Hv'%set_table_valid. rewrite set_table_lookup by done.
    unfold fset. case_decide; [done|]. by apply (ao_table _ _ Hok).
  - intros lc'. unfold fset. case_decide; [done|]. by apply Hoth.
  - intros lc'. unfold fset. case_decide; [done|]. apply (ao_nodup _ _ Hok).
  - intros lc' p Hp.
    assert (∃ it, w_heap s !! p = Some it ∧ key_ok it ∧
              cur_loc (w_assoc s) (hash (ITEM_key it)) = lc') as (it & Hit & Hko & Hc).
    { unfold fset in Hp. case_decide; subst; [by apply Hpl|by apply (ao_place _ _ Hok)]. }
    destruct (hsame_lookup _ _ _ _ Hs Hit) as [n Hn].
    eexists. split; [done|]. by rewrite set_table_cur_loc.
  - intros lc' p q Hp Hq. rewrite <- !(hsame_key_of _ _ _ Hs).
    unfold fset in Hp, Hq. case_decide; [by apply Hun|by apply (ao_uniq _ _ Hok lc')].
Qed.

(** ** Insertion *)

Lemma not_in_chains s L m p it lc :
  assoc_ok s L → assoc_abs s L m → w_heap s !! p = Some it →
  m !! ITEM_key it = None → p ∉ L lc.
Proof.
  intros Hok Habs Hp Hm Hin.
  assert (m !! ITEM_key it = Some p); [|congruence].
  apply Habs. split; [eauto|]. by apply key_of_lookup.
Qed.

(** The address of the slot that [cur_loc] names. *)
Lemma pos_cur a hv :
  (if a_expanding a && (a_expand_bucket a <=? Z.land hv (hashmask (a_hashpower a - 1)))
   then OldSlot (Z.land hv (hashmask (a_hashpower a - 1)))
   else PrimarySlot (Z.land hv (hashmask (a_hashpower a)))) = loc_pos (cur_loc a hv).
Proof. unfold cur_loc. by destruct (_ && _). Qed.

Lemma assoc_abs_insert s s' L m p it lc :
  assoc_abs s L m → hsame (w_heap s) (w_heap s') → w_heap s !! p = Some it →
  m !! ITEM_key it = None →
  assoc_abs s' (fset L lc (p :: L lc)) (<[ITEM_key it := p]> m).
Proof.
  intros Habs Hs Hp Hm k q. rewrite <- (hsame_key_of _ _ _ Hs).
  assert (Hin : (∃ x, q ∈ fset L lc (p :: L lc) x) ↔ q = p ∨ ∃ x, q ∈ L x).
  { split.
    - intros [x Hq]. unfold fset in Hq. case_decide; subst; [|eauto].
      apply elem_of_cons in Hq as [?|?]; eauto.
    - intros [->|[x Hq]]; [exists lc; rewrite fset_eq; set_solver|].
      exists x. unfold fset. case_decide; subst; set_solver. }
  rewrite Hin. pose proof (key_of_lookup _ _ _ Hp) as Hkp.
  destruct (decide (k = ITEM_key it)) as [->|Hk].
  - rewrite lookup_insert_eq. split; [intros [= <-]; eauto|].
    intros [[->|Hx] Hkq]; [done|].
    assert (m !! ITEM_key it = Some q) by (apply Habs; split; eauto). congruence.
  - rewrite lookup_insert_ne by done. split; [intros [? ?]%Habs; eauto|].
    intros [[->|?] Hkq]; [congruence|by apply Habs].
Qed.

Lemma assoc_insert_run s L p it :
  assoc_ok s L → w_heap s !! p = Some it →
  let lc := cur_loc (w_assoc s) (hash (ITEM_key it)) in
  assoc_insert p (hash (ITEM_key it)) s =
    Some (1, with_heap_assoc s (<[p := it <| i_h_next := hdz 0 (L lc) |>]> (w_heap s))
               (set_table (w_assoc s) lc p)).
Proof.
  intros Hok Hp lc. pose proof (ao_hp _ _ Hok) as Hhp.
  assert (Hv : valid_loc (w_assoc s) lc) by by apply cur_loc_valid.
  unfold assoc_insert. rewrite (bind_run _ _ _ _ _ eq_refl). cbv zeta.
  rewrite pos_cur. fold lc.
  rewrite (bind_run _ _ _ _ _ (loc_pos_get _ _ _ Hok Hv)).
  rewrite (bind_run _ _ _ _ _ (wr_ok _ _ _ _ Hp)).
  erewrite bind_run; [done|].
  pose proof (valid_loc_bound _ _ _ Hok Hv) as Hb.
  destruct lc as [[] i]; simpl in *; munfold; by rewrite arr_set_ok.
Qed.

Lemma assoc_insert_abs s L m p it :
  assoc_ok s L → assoc_abs s L m → p ≠ 0 → w_heap s !! p = Some it → key_ok it →
  m !! ITEM_key it = None →
  let lc := cur_loc (w_assoc s) (hash (ITEM_key it)) in
  let s' := with_heap_assoc s (<[p := it <| i_h_next := hdz 0 (L lc) |>]> (w_heap s))
              (set_table (w_assoc s) lc p) in
  assoc_ok s' (fset L lc (p :: L lc)) ∧
  assoc_abs s' (fset L lc (p :: L lc)) (<[ITEM_key it := p]> m).
Proof.
  intros Hok Habs Hp0 Hp Hko Hm lc s'.
  assert (Hv : valid_loc (w_assoc s) lc) by (apply cur_loc_valid, Hok).
  assert (Hnin : ∀ x, p ∉ L x) by (intros; by eapply not_in_chains).
  assert (Hs : hsame (w_heap s) (w_heap s')) by by apply hsame_insert.
  split; [|by eapply assoc_abs_insert].
  apply (assoc_ok_bucket s L lc (p :: L lc)); try done.
  - intros x _. apply hseg_insert_notin; [done|apply (ao_chain _ _ Hok)].
  - simpl. split_and!; [done|by apply hlink_insert_eq|].
    apply hseg_insert_notin; [done|apply (ao_chain _ _ Hok)].
  - apply NoDup_cons. split; [done|apply (ao_nodup _ _ Hok)].
  - intros q [->|Hq]%elem_of_cons; [eauto|by apply (ao_place _ _ Hok)].
  - assert (Hfresh : ∀ q, q ∈ L lc → key_of (w_heap s) q ≠ Some (ITEM_key it)).
    { intros q Hq Hkq. assert (m !! ITEM_key it = Some q) by (apply Habs; eauto). congruence. }
    intros q r [->|Hq]%elem_of_cons [->|Hr]%elem_of_cons Hkk; try done;
      rewrite ?(key_of_lookup _ _ _ Hp) in Hkk.
    + by destruct (Hfresh r Hr).
    + by destruct (Hfresh q Hq).
    + by apply (ao_uniq _ _ Hok lc).
Qed.

(** ** Deletion *)

(** [hashitem_before] stops at the slot or [h_next] field that points at the
    first item with the key. *)
Lemma before_loop_spec fuel s k pos l :
  hseg (w_heap s) l 0 → keys_ok (w_heap s) l → (length l < fuel)%nat →
  pos_get pos s = Some (hdz 0 l, s) →
  ∃ l1 l2, l = l1 ++ l2 ∧ (∀ p, p ∈ l1 → key_of (w_heap s) p ≠ Some k) ∧
    (l2 = [] ∨ ∃ p l2', l2 = p :: l2' ∧ key_of (w_heap s) p = Some k) ∧
    hashitem_before_loop fuel k (Z.of_nat (length k)) pos s =
      Some (match l1 with [] => pos | _ => HNext (lastz 0 l1) end, s).
Proof.
  revert fuel pos. induction l as [|p l IH]; intros [|fuel] pos Hseg Hk Hf Hpos;
    simpl in Hf; try lia.
  - exists [], []. split_and!; [done|set_solver|by left|]. simpl.
    by rewrite (bind_run _ _ _ _ _ Hpos).
  - destruct Hseg as (Hp & Hl & Hseg). fold (hseg (w_heap s)) in Hseg.
    destruct (Hk p) as (it & Hit & Hok); [set_solver|].
    assert (Hrun : hashitem_before_loop (S fuel) k (Z.of_nat (length k)) pos s =
      if bool_decide (ITEM_key it = k) then Some (pos, s)
      else hashitem_before_loop fuel k (Z.of_nat (length k)) (HNext p) s).
    { simpl. rewrite (bind_run _ _ _ _ _ Hpos). simpl.
      rewrite (proj2 (Z.eqb_neq _ _)) by done.
      rewrite (bind_run _ _ _ _ _ (load_ok _ _ _ Hit)), key_match_spec by done.
      by destruct (bool_decide _). }
    rewrite Hrun. pose proof (key_of_lookup _ _ _ Hit) as Hkp. case_bool_decide as Hkey.
    + exists [], (p :: l). split_and!; [done|set_solver|right|done]. rewrite Hkey in Hkp. eauto.
    + destruct (hlink_Some _ _ _ Hl) as (it' & Hit' & Hn). simplify_eq.
      destruct (IH fuel (HNext p)) as (l1 & l2 & -> & Hno & Hl2 & Hloop);
        [done|by eapply keys_ok_cons|lia|simpl; rewrite (fld_ok _ _ _ _ Hit); congruence|].
      exists (p :: l1), l2. split_and!; [done| |done|].
      * intros q [->|Hq]%elem_of_cons; [congruence|by apply Hno].
      * rewrite Hloop. by destruct l1.
Qed.

Lemma set_table_id s L lc :
  assoc_ok s L → valid_loc (w_assoc s) lc →
  set_table (w_assoc s) lc (hdz 0 (L lc)) = w_assoc s.
Proof.
  intros Hok Hv. pose proof (ao_table _ _ Hok _ Hv) as Ht.
  destruct (w_assoc s), lc as [[] i]; simpl in *; unfold set_table; simpl;
    by rewrite list_insert_id.
Qed.

(** Removing [p] from the middle of a chain: the two assignments of
    [assoc_delete]. *)
Lemma assoc_unchain s L lc l1 p l2 it :
  assoc_ok s L → valid_loc (w_assoc s) lc → L lc = l1 ++ p :: l2 → w_heap s !! p = Some it →
  ∃ h',
    (wr p (λ x, x <| i_h_next := NULL |>) ;;
     pos_set (match l1 with [] => loc_pos lc | _ => HNext (lastz 0 l1) end) (hdz 0 l2)) s =
      Some (tt, with_heap_assoc s h' (set_table (w_assoc s) lc (hdz 0 (l1 ++ l2)))) ∧
    hsame (w_heap s) h' ∧ hseg h' (l1 ++ l2) 0 ∧ (∀ lc', lc' ≠ lc → hseg h' (L lc') 0).
Proof.
  intros Hok Hv HL Hp.
  pose proof (ao_chain _ _ Hok lc) as Hch. pose proof (ao_nodup _ _ Hok lc) as Hnd.
  rewrite HL in Hch, Hnd. apply hseg_app in Hch as [Hl1 (Hp0 & Hlp & Hl2)]. fold hseg in Hl2.
  apply NoDup_app in Hnd as (Hnd1 & Hx & [Hp2 Hnd2]%NoDup_cons).
  assert (Hp1 : p ∉ l1) by (intros H; apply (Hx p H); set_solver).
  assert (Hoth : ∀ lc' q, lc' ≠ lc → q ∈ L lc → q ∉ L lc').
  { intros lc' q Hne Hq Hq'. destruct (ao_place _ _ Hok _ _ Hq) as (i1 & Hi1 & _ & <-).
    destruct (ao_place _ _ Hok _ _ Hq') as (i2 & Hi2 & _ & <-). congruence. }
  set (h1 := <[p := it <| i_h_next := NULL |>]> (w_heap s)).
  assert (Hs1 : hsame (w_heap s) h1) by by apply hsame_insert.
  pose proof (valid_loc_bound _ _ _ Hok Hv) as Hb.
  rewrite (bind_run _ _ _ _ _ (wr_ok _ _ _ _ Hp)). fold h1.
  destruct (lastz_snoc l1) as [->|(l1' & q & ->)].
  - exists h1. split_and!; try done; simpl.
    + destruct lc as [[] i]; simpl in *; munfold; by rewrite arr_set_ok.
    + by apply hseg_insert_notin.
    + intros lc' Hne. apply hseg_insert_notin; [|apply (ao_chain _ _ Hok)].
      apply Hoth; [done|]. rewrite HL. set_solver.
  - assert (Hqp : q ≠ p) by set_solver.
    destruct (hseg_lookup _ _ _ q Hl1) as (itq & Hq & Hq0); [set_solver|].
    assert (Hq1 : h1 !! q = Some itq) by (unfold h1; by rewrite lookup_insert_ne).
    set (h2 := <[q := itq <| i_h_next := hdz 0 l2 |>]> h1).
    apply NoDup_app in Hnd1 as (? & Hx1 & ?).
    exists h2. split_and!.
    + assert (hdz 0 ((l1' ++ [q]) ++ l2) = hdz 0 (L lc)) as -> by (rewrite HL; by destruct l1').
      rewrite (set_table_id _ _ _ Hok Hv), lastz_app.
      pose proof (wr_ok (s <| w_heap := h1 |>) q (λ x, x <| i_h_next := hdz 0 l2 |>) itq Hq1) as Hw.
      destruct l1'; simpl; rewrite Hw; by destruct s.
    + etrans; [done|]. by apply hsame_insert.
    + apply hseg_app. split.
      * apply (hseg_set_last h1 l1' q p itq); [|set_solver|done].
        by apply hseg_insert_notin.
      * apply hseg_insert_notin; [|by apply hseg_insert_notin].
        intros Hq2. apply (Hx q); set_solver.
    + intros lc' Hne. do 2 (apply hseg_insert_notin; [apply Hoth; [done|]; rewrite HL; set_solver|]).
      apply (ao_chain _ _ Hok).
Qed.

Lemma assoc_abs_delete s s' L m k p l1 l2 lc :
  assoc_ok s L → assoc_abs s L m → hsame (w_heap s) (w_heap s') →
  L lc = l1 ++ p :: l2 → key_of (w_heap s) p = Some k →
  assoc_abs s' (fset L lc (l1 ++ l2)) (delete k m).
Proof.
  intros Hok Habs Hs HL Hkp k' q. rewrite <- (hsame_key_of _ _ _ Hs).
  pose proof (ao_nodup _ _ Hok lc) as Hnd. rewrite HL in Hnd.
  apply NoDup_app in Hnd as (_ & Hx & [Hp2 _]%NoDup_cons).
  assert (Hplc : p ∈ L lc) by (rewrite HL; set_solver).
  assert (Hin : key_of (w_heap s) q = Some k' →
     (∃ x, q ∈ fset L lc (l1 ++ l2) x) ↔ q ≠ p ∧ ∃ x, q ∈ L x).
  { intros Hkq. split.
    - intros [x Hq]. unfold fset in Hq. case_decide; subst.
      + split; [|exists lc; rewrite HL; set_solver]. intros ->.
        apply elem_of_app in Hq as [Hq|]; [|done]. apply (Hx p Hq). set_solver.
      + split; [|eauto]. intros ->.
        pose proof (key_place _ _ _ _ _ Hok Hq Hkp). pose proof (key_place _ _ _ _ _ Hok Hplc Hkp).
        congruence.
    - intros [Hne [x Hq]]. exists x. unfold fset. case_decide; subst; [|done].
      rewrite HL in Hq. set_solver. }
  destruct (decide (k' = k)) as [->|Hk].
  - rewrite lookup_delete_eq. split; [done|]. intros [Hq Hkq]. apply Hin in Hq as [Hne [x Hq]]; [|done].
    destruct Hne. pose proof (key_place _ _ _ _ _ Hok Hq Hkq) as ->.
    pose proof (key_place _ _ _ _ _ Hok Hplc Hkp) as ->.
    eapply (ao_uniq _ _ Hok); [done..|congruence].
  - rewrite lookup_delete_ne by done. split.
    + intros [Hq Hkq]%Habs. split; [|done]. apply Hin; [done|]. split; [|done]. intros ->. congruence.
    + intros [Hq Hkq]. apply Hin in Hq as [_ Hq]; [|done]. by apply Habs.
Qed.

Lemma before_pos_get s L lc l1 p l2 :
  assoc_ok s L → valid_loc (w_assoc s) lc → L lc = l1 ++ p :: l2 →
  pos_get (match l1 with [] => loc_pos lc | _ => HNext (lastz 0 l1) end) s = Some (p, s).
Proof.
  intros Hok Hv HL. pose proof (ao_chain _ _ Hok lc) as Hc. rewrite HL in Hc.
  destruct (lastz_snoc l1) as [->|(l1' & q & ->)].
  - by rewrite (loc_pos_get _ _ _ Hok Hv), HL.
  - rewrite lastz_app. simpl. apply hseg_app in Hc as [Hc _].
    apply hseg_app in Hc as [_ (? & Hq & _)].
    destruct (hlink_Some _ _ _ Hq) as (itq & Hitq & Hnq).
    destruct l1'; simpl; rewrite (fld_ok _ _ _ _ Hitq), Hnq; done.
Qed.

Lemma assoc_delete_abs s L m k p :
  assoc_ok s L → assoc_abs s L m → m !! k = Some p →
  ∃ h' a' L', assoc_delete k (Z.of_nat (length k)) (hash k) s = Some (tt, with_heap_assoc s h' a') ∧
    hsame (w_heap s) h' ∧ assoc_ok (with_heap_assoc s h' a') L' ∧
    assoc_abs (with_heap_assoc s h' a') L' (delete k m) ∧
    (assoc_live (w_assoc s) → assoc_live a').
Proof.
  intros Hok Habs Hm. pose proof (proj1 (Habs _ _) Hm) as [[lc Hp] Hkp].
  pose proof (key_place _ _ _ _ _ Hok Hp Hkp) as Hlc.
  assert (Hv : valid_loc (w_assoc s) lc) by (rewrite Hlc; apply cur_loc_valid, Hok).
  destruct (before_loop_spec (S (size (w_heap s))) s k (loc_pos lc) (L lc))
    as (l1 & l2 & HL & Hno & Hl2 & Hrun);
    [apply (ao_chain _ _ Hok)|by eapply place_keys_ok|by apply chain_length|by eapply loc_pos_get|].
  destruct Hl2 as [->|(p' & l2' & -> & Hkp')].
  { rewrite app_nil_r in HL. rewrite HL in Hp. by destruct (Hno p). }
  assert (Hp' : p' ∈ L lc) by (rewrite HL; set_solver).
  assert (p' = p) as -> by (eapply (ao_uniq _ _ Hok); [done..|congruence]).
  destruct (hseg_lookup _ _ _ p (ao_chain _ _ Hok lc) Hp) as (it & Hit & Hp0).
  destruct (assoc_unchain _ _ _ _ _ _ _ Hok Hv HL Hit) as (h' & Hset & Hs & Hseg & Hoth).
  exists h', (set_table (w_assoc s) lc (hdz 0 (l1 ++ l2'))), (fset L lc (l1 ++ l2')).
  assert (Hmid : hlink (w_heap s) p = Some (hdz 0 l2')).
  { pose proof (ao_chain _ _ Hok lc) as Hc. rewrite HL in Hc. apply hseg_app in Hc. simpl in Hc. tauto. }
  pose proof (before_pos_get _ _ _ _ _ _ Hok Hv HL) as Hpos.
  split_and!; [|done| |by eapply assoc_abs_delete|by apply set_table_live].
  - unfold assoc_delete, hashitem_before. rewrite (bind_run _ _ _ (match l1 with [] => loc_pos lc | _ => HNext (lastz 0 l1) end) s).
    + rewrite (bind_run _ _ _ _ _ Hpos), (proj2 (Z.eqb_neq _ _)) by done. simpl.
      rewrite (bind_run _ _ _ _ _ (fld_ok _ _ _ _ Hit)).
      destruct (hlink_Some _ _ _ Hmid) as (it' & Hit' & Hn).
      rewrite Hit in Hit'. injection Hit' as <-. rewrite Hn. apply Hset.
    + rewrite (bind_run _ _ _ _ _ eq_refl). cbv zeta. rewrite pos_cur, <- Hlc.
      rewrite (bind_run _ _ _ _ _ eq_refl). done.
  - apply assoc_ok_bucket; try done.
    + pose proof (ao_nodup _ _ Hok lc) as Hnd. rewrite HL in Hnd.
      by apply NoDup_remove_mid in Hnd.
    + intros q Hq. apply (ao_place _ _ Hok). rewrite HL. set_solver.
    + intros q r Hq Hr. apply (ao_uniq _ _ Hok lc); rewrite HL; set_solver.
Qed.

(** ** Expansion *)

Lemma assoc_ok_frame s s' L :
  w_heap s' = w_heap s → w_assoc s' = w_assoc s → assoc_ok s L → assoc_ok s' L.
Proof. intros Hh Ha [? ? ? ? ? ? ? ?]. constructor; rewrite ?Hh, ?Ha; done. Qed.

Lemma assoc_abs_frame s s' L m :
  w_heap s' = w_heap s → assoc_abs s L m → assoc_abs s' L m.
Proof. intros Hh H k p. rewrite Hh. apply H. Qed.

(** The chains after [assoc_expand]: what was the primary table is the old one. *)
Definition expanded_chains (L : loc → list Z) : loc → list Z :=
  λ lc, if lc.1 then L (false, lc.2) else [].

Definition expanded a : assoc_t :=
  a <| a_old_hashtable := a_primary_hashtable a |>
    <| a_primary_hashtable := replicate (Z.to_nat (hashsize (a_hashpower a + 1))) NULL |>
    <| a_hashpower := a_hashpower a + 1 |> <| a_expanding := true |> <| a_expand_bucket := 0 |>.

Lemma expanded_cur_loc a hv :
  1 ≤ a_hashpower a → a_expanding a = false → cur_loc a hv = (false, (cur_loc (expanded a) hv).2)
  ∧ (cur_loc (expanded a) hv).1 = true.
Proof.
  intros Hhp He. unfold cur_loc. rewrite He. simpl.
  replace (a_hashpower a + 1 - 1) with (a_hashpower a) by lia.
  rewrite !hashmask_mod by lia.
  rewrite (proj2 (Z.leb_le 0 _)) by (apply Z.mod_pos_bound, pow2_pos; lia). done.
Qed.

Lemma hashsize_pow n : hashsize n = 2 ^ n.
Proof. unfold hashsize. apply Z.shiftl_1_l. Qed.

Lemma assoc_expand_ok s L :
  assoc_ok s L → a_expanding (w_assoc s) = false →
  assoc_ok (s <| w_assoc := expanded (w_assoc s) |>) (expanded_chains L).
Proof.
  intros Hok He. pose proof (ao_hp _ _ Hok) as Hhp.
  pose proof (ao_primary _ _ Hok) as Hpr.
  assert (0 < 2 ^ a_hashpower (w_assoc s)) by (apply pow2_pos; lia).
  constructor; simpl.
  - lia.
  - rewrite length_replicate, hashsize_pow. pose proof (pow2_pos (a_hashpower (w_assoc s) + 1)). lia.
  - intros _. replace (a_hashpower (w_assoc s) + 1 - 1) with (a_hashpower (w_assoc s)) by lia. lia.
  - intros [[] i] Hv; unfold valid_loc in Hv; simpl in *.
    + apply (ao_table _ _ Hok (false, i)). unfold valid_loc. simpl.
      replace (a_hashpower (w_assoc s) + 1 - 1) with (a_hashpower (w_assoc s)) in Hv by lia. tauto.
    + apply lookup_replicate_2. rewrite hashsize_pow. lia.
  - intros [[] i]; simpl; [apply (ao_chain _ _ Hok)|done].
  - intros [[] i]; simpl; [apply (ao_nodup _ _ Hok)|constructor].
  - intros [[] i] p Hp; simpl in Hp; [|set_solver].
    destruct (ao_place _ _ Hok _ _ Hp) as (it & Hit & Hko & Hc). exists it.
    split_and!; [done..|]. destruct (expanded_cur_loc (w_assoc s) (hash (ITEM_key it)) Hhp He) as [Hc1 Hc2].
    rewrite Hc in Hc1. injection Hc1 as ->. by destruct (cur_loc _ _); simpl in *; subst.
  - intros [[] i] p q Hp Hq; simpl in *; [by apply (ao_uniq _ _ Hok (false, i))|set_solver].
Qed.

Lemma no_old_chains s L lc p :
  assoc_ok s L → a_expanding (w_assoc s) = false → p ∈ L lc → lc = (false, lc.2).
Proof.
  intros Hok He Hp. destruct (ao_place _ _ Hok _ _ Hp) as (it & _ & _ & <-).
  unfold cur_loc. by rewrite He.
Qed.

Lemma assoc_expand_abs s L m :
  assoc_ok s L → assoc_abs s L m → a_expanding (w_assoc s) = false →
  assoc_abs (s <| w_assoc := expanded (w_assoc s) |>) (expanded_chains L) m.
Proof.
  intros Hok Habs He k p. simpl. rewrite (Habs k p).
  assert ((∃ lc, p ∈ L lc) ↔ ∃ lc, p ∈ expanded_chains L lc) as ->; [|done]. split.
  - intros [lc Hp]. rewrite (no_old_chains _ _ _ _ Hok He Hp) in Hp.
    by exists (true, lc.2).
  - intros [[[] i] Hp]; [by exists (false, i)|by apply elem_of_nil in Hp].
Qed.

(** ** Moving one bucket *)

(** The tables once the chain of [expand_bucket] has been moved. *)
Definition bumped a : assoc_t :=
  a <| a_old_hashtable := <[Z.to_nat (a_expand_bucket a) := NULL]> (a_old_hashtable a) |>
    <| a_expand_bucket := a_expand_bucket a + 1 |>.

Lemma bumped_cur_loc a hv :
  a_expanding a = true → cur_loc a hv ≠ (true, a_expand_bucket a) →
  cur_loc (bumped a) hv = cur_loc a hv.
Proof.
  intros He Hne. unfold cur_loc in *. simpl. rewrite He in *. simpl in *.
  destruct (Z.leb_spec (a_expand_bucket a) (Z.land hv (hashmask (a_hashpower a - 1))));
    destruct (Z.leb_spec (a_expand_bucket a + 1) (Z.land hv (hashmask (a_hashpower a - 1))));
    try done; [|lia].
  destruct Hne. f_equal. lia.
Qed.

Lemma bumped_cur_loc_moved a hv :
  1 ≤ a_hashpower a → cur_loc a hv = (true, a_expand_bucket a) →
  cur_loc (bumped a) hv = (false, Z.land hv (hashmask (a_hashpower a))).
Proof.
  unfold cur_loc. simpl. intros Hhp. destruct (a_expanding a); simpl; [|done].
  destruct (Z.leb_spec (a_expand_bucket a) (Z.land hv (hashmask (a_hashpower a - 1)))); [|done].
  intros [= He]. rewrite (proj2 (Z.leb_gt _ _)) by lia. done.
Qed.

Lemma bumped_ok s L :
  assoc_ok s L → a_expanding (w_assoc s) = true → assoc_live (w_assoc s) →
  assoc_ok (s <| w_assoc := bumped (w_assoc s) |>) (fset L (true, a_expand_bucket (w_assoc s)) []).
Proof.
  intros Hok He Hlive. specialize (Hlive He). destruct (ao_old _ _ Hok He) as [Hlen Heb].
  set (eb := a_expand_bucket (w_assoc s)) in *.
  constructor; simpl.
  - apply Hok.
  - apply (ao_primary _ _ Hok).
  - intros _. rewrite length_insert. fold eb. lia.
  - intros lc Hv. unfold fset. case_decide as Hd.
    + subst lc. simpl. rewrite list_lookup_insert_eq by (fold eb; lia). done.
    + rewrite <- (ao_table _ _ Hok lc) by exact Hv. destruct lc as [[] i]; simpl; [|done].
      unfold valid_loc in Hv. simpl in Hv. apply list_lookup_insert_ne.
      fold eb. intros ?. apply Hd. f_equal. lia.
  - intros lc. unfold fset. case_decide; [done|apply (ao_chain _ _ Hok)].
  - intros lc. unfold fset. case_decide; [constructor|apply (ao_nodup _ _ Hok)].
  - intros lc p Hp. unfold fset in Hp. case_decide; [set_solver|].
    destruct (ao_place _ _ Hok _ _ Hp) as (it & Hit & Hko & Hc).
    exists it. split_and!; [done..|]. rewrite <- Hc. apply bumped_cur_loc; [done|].
    rewrite Hc. done.
  - intros lc p q Hp Hq. unfold fset in Hp, Hq. case_decide; [set_solver|].
    by apply (ao_uniq _ _ Hok lc).
Qed.

(** The state as it will be once the bucket being moved is done. *)
Definition after_move s : world := s <| w_assoc := bumped (w_assoc s) |>.

(** What remains to be moved: a chain of items of the bucket, none of which is
    in the map yet. *)
Record to_move s m (l : list Z) : Prop := {
  tm_chain : hseg (w_heap s) l 0;
  tm_nodup : NoDup l;
  tm_items : ∀ p, p ∈ l → ∃ it, w_heap s !! p = Some it ∧ key_ok it ∧ m !! ITEM_key it = None ∧
    cur_loc (w_assoc s) (hash (ITEM_key it)) = (true, a_expand_bucket (w_assoc s));
  tm_uniq : ∀ p q, p ∈ l → q ∈ l → key_of (w_heap s) p = key_of (w_heap s) q → p = q
}.

(** The effect of moving one item: [assoc_insert] into the table after the
    move. *)
Definition move_one s (L : loc → list Z) (p : Z) (it : item) : world :=
  let lc := (false, Z.land (hash (ITEM_key it)) (hashmask (a_hashpower (w_assoc s)))) in
  with_heap_assoc s (<[p := it <| i_h_next := hdz 0 (L lc) |>]> (w_heap s))
    (set_table (w_assoc s) lc p).

Lemma move_one_run fuel s L p it :
  1 ≤ a_hashpower (w_assoc s) → assoc_ok (after_move s) L → p ≠ 0 → w_heap s !! p = Some it →
  assoc_move_chain (S fuel) p s = assoc_move_chain fuel (i_h_next it) (move_one s L p it).
Proof.
  intros Hhp Hok Hp0 Hp. simpl.
  rewrite (proj2 (Z.eqb_neq _ _)) by done.
  rewrite (bind_run _ _ _ _ _ (load_ok _ _ _ Hp)), (bind_run _ _ _ _ _ eq_refl).
  set (b := Z.land _ _).
  assert (Hv : valid_loc (w_assoc (after_move s)) (false, b)).
  { unfold valid_loc, b. simpl. rewrite hashmask_mod by lia. apply Z.mod_pos_bound, pow2_pos. lia. }
  pose proof (valid_loc_bound _ _ _ Hok Hv) as Hb. simpl in Hb.
  rewrite (bind_run _ _ _ (hdz 0 (L (false, b))) s).
  2:{ apply arr_get_ok; [simpl; lia|]. apply (ao_table _ _ Hok _ Hv). }
  rewrite (bind_run _ _ _ _ _ (wr_ok _ _ _ _ Hp)).
  erewrite bind_run; [done|]. simpl. munfold. by rewrite arr_set_ok.
Qed.

Lemma move_one_after s L p it :
  let lc := (false, Z.land (hash (ITEM_key it)) (hashmask (a_hashpower (w_assoc s)))) in
  after_move (move_one s L p it) =
    with_heap_assoc (after_move s) (<[p := it <| i_h_next := hdz 0 (L lc) |>]> (w_heap s))
      (set_table (w_assoc (after_move s)) lc p).
Proof. destruct s as [? ? [] ? ? ? ? ? ? ? ? ? ? ? ? ?]. done. Qed.

Lemma move_one_ok s L m p it :
  let lc := (false, Z.land (hash (ITEM_key it)) (hashmask (a_hashpower (w_assoc s)))) in
  assoc_ok (after_move s) L → assoc_abs (after_move s) L m → p ≠ 0 →
  w_heap s !! p = Some it → key_ok it → m !! ITEM_key it = None →
  cur_loc (bumped (w_assoc s)) (hash (ITEM_key it)) = lc →
  assoc_ok (after_move (move_one s L p it)) (fset L lc (p :: L lc)) ∧
  assoc_abs (after_move (move_one s L p it)) (fset L lc (p :: L lc)) (<[ITEM_key it := p]> m).
Proof.
  intros lc Hok Habs Hp0 Hp Hko Hm Hc. rewrite move_one_after.
  pose proof (assoc_insert_abs (after_move s) L m p it Hok Habs Hp0 Hp Hko Hm) as H.
  assert (cur_loc (w_assoc (after_move s)) (hash (ITEM_key it)) = lc) as E by exact Hc.
  cbv zeta in H. rewrite E in H. exact H.
Qed.

Lemma move_chain_spec fuel s L m l :
  1 ≤ a_hashpower (w_assoc s) → assoc_ok (after_move s) L → assoc_abs (after_move s) L m →
  to_move s m l → (length l < fuel)%nat →
  ∃ h' t' (L' : loc → list Z) m',
    let s' := with_heap_assoc s h' ((w_assoc s) <| a_primary_hashtable := t' |>) in
    assoc_move_chain fuel (hdz 0 l) s = Some (tt, s') ∧ hsame (w_heap s) h' ∧
    assoc_ok (after_move s') L' ∧ assoc_abs (after_move s') L' m' ∧
    (∀ k p, m' !! k = Some p ↔ m !! k = Some p ∨ (p ∈ l ∧ key_of (w_heap s) p = Some k)).
Proof.
  revert fuel s L m. induction l as [|p l IH];
    intros [|fuel] s L m Hhp Hok Habs [Hch Hnd Hit Hun] Hf; simpl in Hf; try lia.
  { exists (w_heap s), (a_primary_hashtable (w_assoc s)), L, m.
    assert (with_heap_assoc s (w_heap s)
      ((w_assoc s) <| a_primary_hashtable := a_primary_hashtable (w_assoc s) |>) = s) as ->
      by by destruct s as [? ? [] ? ? ? ? ? ? ? ? ? ? ? ? ?].
    split_and!; [done..|]. set_solver. }
  destruct Hch as (Hp0 & Hlp & Hch). fold (hseg (w_heap s)) in Hch.
  destruct (Hit p) as (it & Hp & Hko & Hm & Hc); [set_solver|].
  apply NoDup_cons in Hnd as [Hpl Hnd].
  pose proof (bumped_cur_loc_moved _ _ Hhp Hc) as Hc'.
  destruct (move_one_ok _ _ _ _ _ Hok Habs Hp0 Hp Hko Hm Hc') as [Hok1 Habs1].
  simpl hdz. rewrite (move_one_run _ _ _ _ _ Hhp Hok Hp0 Hp).
  destruct (hlink_Some _ _ _ Hlp) as (it' & Hp' & Hn). rewrite Hp in Hp'. injection Hp' as <-. rewrite Hn.
  assert (Hs1 : hsame (w_heap s) (w_heap (move_one s L p it))) by by apply hsame_insert.
  destruct (IH fuel (move_one s L p it) _ _ Hhp Hok1 Habs1) as (h' & t' & L' & m' & Hrun & Hs & Hok2 & Habs2 & Hm');
    [|lia|].
  { constructor; [by apply hseg_insert_notin|done| |].
    - intros q Hq. destruct (Hit q) as (itq & Hq' & Hkq & Hmq & Hcq); [set_solver|].
      exists itq. split_and!; [simpl; rewrite lookup_insert_ne; [done|set_solver]|done| |done].
      rewrite lookup_insert_ne; [done|]. intros Heq. apply Hpl.
      rewrite (Hun p q); [done|set_solver..|]. unfold key_of. rewrite Hp, Hq'. simpl. congruence.
    - intros q r Hq Hr. rewrite <- !(hsame_key_of _ _ _ Hs1). apply Hun; set_solver. }
  exists h', t', L', m'. split_and!; [exact Hrun|by etrans|exact Hok2|exact Habs2|].
  intros k q. rewrite Hm', <- (hsame_key_of _ _ _ Hs1).
  pose proof (key_of_lookup _ _ _ Hp) as Hkp.
  destruct (decide (k = ITEM_key it)) as [->|Hk].
  - rewrite lookup_insert_eq, Hm. set_unfold. split; [naive_solver|].
    intros [?|[[->|?] ?]]; [done|by left|by right].
  - rewrite lookup_insert_ne by done. set_unfold. split; [naive_solver|].
    intros [?|[[->|?] ?]]; [by left|congruence|by right].
Qed.

(** Once every bucket has been moved the old table is not consulted. *)
Lemma assoc_ok_done s L :
  assoc_ok s L → a_expanding (w_assoc s) = true →
  a_expand_bucket (w_assoc s) = 2 ^ (a_hashpower (w_assoc s) - 1) →
  assoc_ok (s <| w_assoc := (w_assoc s) <| a_expanding := false |> |>) L.
Proof.
  intros Hok He Heb. pose proof (ao_hp _ _ Hok) as Hhp.
  assert (Hcur : ∀ hv, cur_loc ((w_assoc s) <| a_expanding := false |>) hv = cur_loc (w_assoc s) hv).
  { intros hv. unfold cur_loc. simpl. rewrite He, Heb, !hashmask_mod by lia. simpl.
    rewrite (proj2 (Z.leb_gt _ _)); [done|]. apply Z.mod_pos_bound, pow2_pos. lia. }
  destruct Hok as [? ? ? Ht ? ? Hp ?]. constructor; simpl; try done.
  - intros [[] i] Hv; [by destruct Hv|]. exact (Ht (false, i) Hv).
  - intros lc p Hin. destruct (Hp lc p Hin) as (it & ? & ? & Hc). exists it.
    by rewrite Hcur.
Qed.

(** The map without the items of the bucket about to be moved. *)
Lemma without_bucket_abs s L m :
  assoc_ok s L → assoc_abs s L m →
  let eb := a_expand_bucket (w_assoc s) in
  let m0 := filter (λ kp, kp.2 ∉ L (true, eb)) m in
  assoc_abs (after_move s) (fset L (true, eb) []) m0 ∧
  (∀ k p, m !! k = Some p ↔ m0 !! k = Some p ∨ (p ∈ L (true, eb) ∧ key_of (w_heap s) p = Some k)).
Proof.
  intros Hok Habs eb m0.
  assert (Hm0 : ∀ k p, m0 !! k = Some p ↔ m !! k = Some p ∧ p ∉ L (true, eb)).
  { intros k p. unfold m0. rewrite map_lookup_filter_Some. done. }
  split.
  - intros k p. rewrite Hm0. simpl. split.
    + intros [[[lc Hp] Hk]%Habs Hn]. split; [|done]. exists lc. unfold fset.
      case_decide; subst; [done|done].
    + intros [[lc Hp] Hk]. unfold fset in Hp. case_decide as Hd; [set_solver|].
      split; [apply Habs; eauto|]. intros Hin. apply Hd.
      rewrite (key_place _ _ _ _ _ Hok Hp Hk). symmetry. by eapply key_place.
  - intros k p. rewrite Hm0. split.
    + intros Hm. destruct (decide (p ∈ L (true, eb))); [right|by left].
      split; [done|]. by apply Habs in Hm as [_ ?].
    + intros [[? _]|[Hp Hk]]; [done|]. apply Habs; eauto.
Qed.

Lemma bucket_to_move s L m :
  assoc_ok s L → assoc_abs s L m →
  to_move s (filter (λ kp, kp.2 ∉ L (true, a_expand_bucket (w_assoc s))) m)
    (L (true, a_expand_bucket (w_assoc s))).
Proof.
  intros Hok Habs. constructor.
  - apply (ao_chain _ _ Hok).
  - apply (ao_nodup _ _ Hok).
  - intros p Hp. destruct (ao_place _ _ Hok _ _ Hp) as (it & Hit & Hko & Hc).
    exists it. split_and!; [done..| |done]. apply map_lookup_filter_None. right.
    intros q Hq Hn. apply Hn. simpl.
    assert (m !! ITEM_key it = Some p) by (apply Habs; split; [eauto|by apply key_of_lookup]).
    congruence.
  - apply (ao_uniq _ _ Hok).
Qed.

Lemma assoc_move_bucket_ok s L m :
  assoc_ok s L → assoc_abs s L m → a_expanding (w_assoc s) = true → assoc_live (w_assoc s) →
  item_lock_index s (a_expand_bucket (w_assoc s)) ∉ w_locks s →
  ∃ s' L', assoc_move_bucket s = Some (tt, s') ∧ assoc_ok s' L' ∧ assoc_abs s' L' m ∧
    hsame (w_heap s) (w_heap s') ∧ w_locks s' = w_locks s ∧
    w_item_lock_hashpower s' = w_item_lock_hashpower s ∧
    a_hashpower (w_assoc s') = a_hashpower (w_assoc s) ∧
    a_expand_bucket (w_assoc s') = a_expand_bucket (w_assoc s) + 1 ∧
    a_expanding (w_assoc s') =
      negb (a_expand_bucket (w_assoc s) + 1 =? 2 ^ (a_hashpower (w_assoc s) - 1)).
Proof.
  intros Hok Habs He Hlive Hlock. pose proof (ao_hp _ _ Hok) as Hhp.
  destruct (ao_old _ _ Hok He) as [Hlen Heb]. pose proof (Hlive He) as Hlt.
  set (lk := item_lock_index s (a_expand_bucket (w_assoc s))) in *.
  set (s1 := s <| w_locks := {[lk]} ∪ w_locks s |>).
  assert (Hok1 : assoc_ok s1 L) by by apply (assoc_ok_frame s).
  assert (Habs1 : assoc_abs s1 L m) by done.
  destruct (without_bucket_abs _ _ _ Hok1 Habs1) as [Habs0 Hm0].
  destruct (move_chain_spec (S (size (w_heap s))) s1 _ _ _ Hhp (bumped_ok _ _ Hok1 He Hlive) Habs0
    (bucket_to_move _ _ _ Hok1 Habs1)) as (h' & t' & L' & m' & Hrun & Hs & Hok2 & Habs2 & Hm');
    [by apply chain_length|].
  assert (m' = m) as -> by (apply map_eq; intros k; apply option_eq; intros p; by rewrite Hm', Hm0).
  set (s2 := with_heap_assoc s1 h' ((w_assoc s1) <| a_primary_hashtable := t' |>)) in *.
  assert (Hpre : assoc_move_bucket s = (
     when (a_expand_bucket (w_assoc s) + 1 =? hashsize (a_hashpower (w_assoc s) - 1))
       (on_assoc (λ a, a <| a_expanding := false |>) ;;
        on_stats (λ st, st <| st_hash_bytes :=
           u64 (st_hash_bytes st - hashsize (a_hashpower (w_assoc s) - 1) * sizeof_ptr) |>
           <| st_hash_is_expanding := false |>)) ;; item_trylock_unlock lk) (after_move s2)).
  { unfold assoc_move_bucket. rewrite (bind_run _ _ _ _ _ eq_refl).
    rewrite (bind_run _ _ _ (Some lk) s1) by (unfold item_trylock; fold lk; by rewrite decide_False).
    rewrite (bind_run _ _ _ (hdz 0 (L (true, a_expand_bucket (w_assoc s)))) s1).
    2:{ apply arr_get_ok; [lia|]. apply (ao_table _ _ Hok (true, a_expand_bucket (w_assoc s))). split; [done|simpl; lia]. }
    rewrite (bind_run _ _ _ _ _ eq_refl), (bind_run _ _ _ _ _ Hrun).
    erewrite bind_run; [|simpl; munfold; rewrite arr_set_ok by (simpl; lia); reflexivity].
    rewrite (bind_run _ _ _ _ _ eq_refl), (bind_run _ _ _ _ _ eq_refl). simpl. done. }
  rewrite Hpre, hashsize_pow.
  assert (Hunl : ({[lk]} ∪ w_locks s) ∖ {[lk]} = w_locks s) by set_solver.
  destruct (Z.eqb_spec (a_expand_bucket (w_assoc s) + 1) (2 ^ (a_hashpower (w_assoc s) - 1))) as [Hd|Hd].
  - eexists _, L'. split; [reflexivity|]. split_and!; simpl; try done.
    by apply (assoc_ok_frame ((after_move s2) <| w_assoc := (w_assoc (after_move s2)) <| a_expanding := false |> |>)); [..|apply (assoc_ok_done _ _ Hok2 He Hd)].
  - eexists _, L'. split; [reflexivity|]. split_and!; simpl; try done.
    by apply (assoc_ok_frame (after_move s2)).
Qed.

Lemma assoc_rep_move s m :
  assoc_rep s m → a_expanding (w_assoc s) = true → w_locks s = ∅ →
  ∃ s', assoc_move_bucket s = Some (tt, s') ∧ assoc_rep s' m ∧ w_locks s' = ∅ ∧
    hsame (w_heap s) (w_heap s') ∧
    a_hashpower (w_assoc s') = a_hashpower (w_assoc s) ∧
    a_expand_bucket (w_assoc s') = a_expand_bucket (w_assoc s) + 1 ∧
    a_expanding (w_assoc s') =
      negb (a_expand_bucket (w_assoc s) + 1 =? 2 ^ (a_hashpower (w_assoc s) - 1)).
Proof.
  intros (L & Hok & Habs & Hlive) He Hlk.
  destruct (assoc_move_bucket_ok s L m Hok Habs He Hlive) as
    (s' & L' & Hrun & Hok' & Habs' & Hs & Hlk' & _ & Hhp & Heb & He'); [set_solver|].
  exists s'. split_and!; try done; [|congruence]. exists L'. split_and!; try done.
  intros Hx. rewrite Hx in He'. symmetry in He'. bool_props. specialize (Hlive He).
  rewrite Heb, Hhp. lia.
Qed.

Lemma assoc_bulk_rep n s m :
  assoc_rep s m → w_locks s = ∅ → a_expanding (w_assoc s) = true →
  2 ^ (a_hashpower (w_assoc s) - 1) - a_expand_bucket (w_assoc s) ≤ Z.of_nat n →
  ∃ s', assoc_maintenance_bulk n s = Some (tt, s') ∧ assoc_rep s' m ∧ w_locks s' = ∅ ∧
    hsame (w_heap s) (w_heap s') ∧ a_hashpower (w_assoc s') = a_hashpower (w_assoc s) ∧
    a_expanding (w_assoc s') = false.
Proof.
  revert s. induction n as [|n IH]; intros s Hrep Hlk He Hn.
  { destruct Hrep as (L & _ & _ & Hlive). specialize (Hlive He). lia. }
  destruct (assoc_rep_move s m Hrep He Hlk) as (s1 & Hrun & Hrep1 & Hlk1 & Hs1 & Hhp & Heb & He1).
  simpl. rewrite (bind_run _ _ _ _ _ eq_refl), He. unfold when.
  rewrite (bind_run _ _ _ _ _ Hrun).
  destruct (Z.eqb_spec (a_expand_bucket (w_assoc s) + 1) (2 ^ (a_hashpower (w_assoc s) - 1))) as [Hd|Hd].
  - exists s1. split_and!; try done. destruct n; simpl; [done|].
    by rewrite (bind_run _ _ _ _ _ eq_refl), He1.
  - destruct (IH s1) as (s2 & Hrun2 & Hrep2 & Hlk2 & Hs2 & Hhp2 & He2); try done.
    { rewrite Hhp, Heb. lia. }
    exists s2. split_and!; try done; [by etrans|congruence].
Qed.

(** ** The iterator *)

Definition locked s b : world := s <| w_locks := {[item_lock_index s b]} ∪ w_locks s |>.

Lemma unlock_locked s b :
  item_lock_index s b ∉ w_locks s → item_unlock b (locked s b) = Some (tt, s).
Proof.
  intros Hn. unfold item_unlock. f_equal. f_equal.
  change (item_lock_index (locked s b) b) with (item_lock_index s b).
  destruct s as [? ? ? ? ? ? ? ? ? ? lk ? ? ? ? ?]. unfold locked. simpl in *.
  replace (({[_]} ∪ lk) ∖ {[_]}) with lk by set_solver. done.
Qed.

Definition prepend {A B} (l : list A) (r : option (list A * B)) : option (list A * B) :=
  (λ '(x, s), (l ++ x, s)) <$> r.

(** Shows the goal's iterator as the record [i]. *)
Ltac set_iter i :=
  match goal with |- context [assoc_iterate_all _ ?j _] => change j with i end.

Lemma iterate_all_S f iter s :
  assoc_iterate_all (S f) iter s =
  (r ← assoc_iterate iter;
   let '(more, it, iter) := r in
   if negb more then mret []
   else rest ← assoc_iterate_all f iter; mret (if it =? NULL then rest else it :: rest)) s.
Proof. done. Qed.

Lemma iterate_chain s b l x f :
  hseg (w_heap s) l 0 → item_lock_index s b ∉ w_locks s →
  assoc_iterate_all (length l + S f) (mkIter b x (hdz 0 l) true) (locked s b) =
  prepend l (assoc_iterate_all f (mkIter (b + 1) (lastz x l) 0 false) s).
Proof.
  intros Hseg Hn. revert x Hseg. induction l as [|p l IH]; intros x Hseg; simpl.
  - unfold assoc_iterate at 1. simpl. rewrite !bind_assoc, (bind_run _ _ _ _ _ (unlock_locked _ _ Hn)).
    rewrite (bind_run _ _ _ _ _ eq_refl). simpl. munfold.
    by destruct (assoc_iterate_all _ _ _) as [[]|].
  - destruct Hseg as (Hp & Hl & Hseg). destruct (hlink_Some _ _ _ Hl) as (it & Hit & Hh).
    unfold assoc_iterate at 1. simpl. rewrite (proj2 (Z.eqb_neq p _)) by done. simpl.
    rewrite bind_assoc, (bind_run _ _ _ _ _ (load_ok (locked s b) _ _ Hit)).
    rewrite (bind_run _ _ _ _ _ eq_refl). simpl.
    rewrite Hh. unfold mbind, M_bind. set_iter (mkIter b p (hdz 0 l) true). rewrite (IH p Hseg).
    destruct (assoc_iterate_all f _ s) as [[]|]; simpl; [|done].
    munfold. rewrite (proj2 (Z.eqb_neq p _)) by done. done.
Qed.

Lemma iterate_bucket s L b x y f :
  assoc_ok s L → a_expanding (w_assoc s) = false → item_lock_index s b ∉ w_locks s →
  0 ≤ b < 2 ^ a_hashpower (w_assoc s) →
  ∃ x' y', assoc_iterate_all (S (length (L (false, b)) + f)) (mkIter b x y false) s =
  prepend (L (false, b)) (assoc_iterate_all f (mkIter (b + 1) x' y' false) s).
Proof.
  intros Hok He Hn Hb. set (l := L (false, b)).
  assert (Hget : arr_get (a_primary_hashtable (w_assoc s)) b (locked s b) = Some (hdz 0 l, locked s b)).
  { apply arr_get_ok; [lia|]. exact (ao_table _ _ Hok (false, b) Hb). }
  assert (Hlk : item_lock b s = Some (tt, locked s b)).
  { unfold item_lock. by rewrite decide_False. }
  pose proof (ao_chain _ _ Hok (false, b)) as Hseg. fold l in Hseg.
  assert (Hne : negb (b =? hashsize (a_hashpower (w_assoc s))) = true).
  { unfold hashsize. rewrite Z.shiftl_1_l. apply negb_true_iff, Z.eqb_neq. lia. }
  destruct l as [|p l].
  - exists 0, y. simpl. unfold assoc_iterate at 1. simpl.
    rewrite bind_assoc, (bind_run _ _ _ _ _ eq_refl), Hne.
    rewrite bind_assoc, (bind_run _ _ _ _ _ Hlk), bind_assoc, (bind_run _ _ _ _ _ Hget).
    simpl. rewrite bind_assoc, (bind_run _ _ _ _ _ (unlock_locked _ _ Hn)).
    rewrite (bind_run _ _ _ _ _ eq_refl). simpl. munfold.
    by destruct (assoc_iterate_all _ _ _) as [[]|].
  - exists (lastz p l), 0. destruct Hseg as (Hp & Hl & Hseg). fold (hseg (w_heap s)) in Hseg.
    destruct (hlink_Some _ _ _ Hl) as (it & Hit & Hh).
    replace (length (p :: l) + f)%nat with (length l + S f)%nat by (simpl; lia).
    rewrite iterate_all_S. unfold assoc_iterate at 1. simpl it_bucket_locked. simpl it_bucket. cbv iota.
    rewrite bind_assoc, (bind_run _ _ _ _ _ eq_refl), Hne.
    rewrite bind_assoc, (bind_run _ _ _ _ _ Hlk), bind_assoc, (bind_run _ _ _ _ _ Hget).
    simpl hdz. rewrite (proj2 (Z.eqb_neq p _)) by done. simpl.
    rewrite bind_assoc, (bind_run _ _ _ _ _ (load_ok (locked s b) _ _ Hit)).
    rewrite (bind_run _ _ _ _ _ eq_refl). simpl. rewrite Hh.
    unfold mbind, M_bind. set_iter (mkIter b p (hdz 0 l) true).
    rewrite (iterate_chain s b l p f Hseg Hn).
    destruct (assoc_iterate_all f _ s) as [[]|]; simpl; [|done].
    munfold. by rewrite (proj2 (Z.eqb_neq p _)) by done.
Qed.

Definition bucket_chains (L : loc → list Z) (b : Z) (n : nat) : list Z :=
  mjoin ((λ i, L (false, i)) <$> seqZ b (Z.of_nat n)).

Lemma iterate_buckets n s L b x y fuel :
  assoc_ok s L → a_expanding (w_assoc s) = false → w_locks s = ∅ →
  0 ≤ b → b + Z.of_nat n = 2 ^ a_hashpower (w_assoc s) →
  (n * S (S (size (w_heap s))) < fuel)%nat →
  assoc_iterate_all fuel (mkIter b x y false) s = Some (bucket_chains L b n, s).
Proof.
  intros Hok He Hlk. revert b x y fuel. induction n as [|n IH]; intros b x y fuel Hb Hbn Hf.
  - destruct fuel as [|fuel]; [lia|]. simpl. unfold assoc_iterate. simpl.
    rewrite bind_assoc, (bind_run _ _ _ _ _ eq_refl).
    unfold hashsize. rewrite Z.shiftl_1_l, (proj2 (Z.eqb_eq b _)) by lia. simpl.
    by rewrite (bind_run _ _ _ _ _ eq_refl).
  - pose proof (chain_length _ _ (false, b) Hok) as Hlen.
    assert (∃ f, fuel = S (length (L (false, b)) + f) ∧ (n * S (S (size (w_heap s))) < f)%nat)
      as (f & -> & Hf').
    { exists (fuel - S (length (L (false, b))))%nat. lia. }
    destruct (iterate_bucket s L b x y f) as (x' & y' & ->); [done..|set_solver|lia|].
    rewrite IH by lia. unfold bucket_chains. simpl.
    rewrite (seqZ_cons b) by lia. simpl. by replace (Z.pred (Z.of_nat (S n))) with (Z.of_nat n) by lia.
Qed.

Lemma chains_disjoint s L lc lc' p : assoc_ok s L → p ∈ L lc → p ∈ L lc' → lc = lc'.
Proof.
  intros Hok H H'. destruct (ao_place _ _ Hok _ _ H) as (i1 & Hi1 & _ & <-).
  destruct (ao_place _ _ Hok _ _ H') as (i2 & Hi2 & _ & <-). congruence.
Qed.

Lemma bucket_chains_NoDup s L b n : assoc_ok s L → NoDup (bucket_chains L b n).
Proof.
  intros Hok. unfold bucket_chains. revert b. induction n as [|n IH]; intros b.
  - rewrite seqZ_nil by lia. constructor.
  - rewrite seqZ_cons by lia. simpl. replace (Z.pred (Z.of_nat (S n))) with (Z.of_nat n) by lia.
    apply NoDup_app. split_and!; [apply (ao_nodup _ _ Hok)| |apply IH].
    intros p Hp (l & Hpl & Hl)%list_elem_of_join. apply list_elem_of_fmap in Hl as (i & -> & Hi%elem_of_seqZ).
    assert ((false, b) = (false, i)) as [= ->] by by eapply chains_disjoint. lia.
Qed.

Lemma bucket_chains_elem L b n p :
  p ∈ bucket_chains L b n ↔ ∃ i, b ≤ i < b + Z.of_nat n ∧ p ∈ L (false, i).
Proof.
  unfold bucket_chains. rewrite list_elem_of_join. setoid_rewrite list_elem_of_fmap.
  setoid_rewrite elem_of_seqZ. naive_solver.
Qed.

End Rep.
