(* ===== verification/AssocThm.v ===== *)
(** * The hash table as seen by its clients

    A run of table operations, interleaved in any order with the steps of the
    maintenance thread, returns what the same operations on a finite map
    return; a started expansion completes; the iterator hands out every linked
    item once; and the item lock of a key covers the buckets its operations
    touch. *)

From S2P Require Import Prelude Bipbuf Hashes State Links Assoc AssocSpec.

Section Ops.
Context {HF : HashFn}.
Implicit Types (s : world) (m : gmap (list Z) Z).

(** ** Operation sequences *)

Inductive assoc_op : Type :=
  | OpFind (k : list Z)
  | OpInsert (p : Z)
  | OpDelete (k : list Z)
  | OpMaintenance (hash_bulk_move : nat) (run_thread : bool).

Definition assoc_step (op : assoc_op) : M world Z :=
  match op with
  | OpFind k => assoc_find k (Z.of_nat (length k)) (hash k)
  | OpInsert p => it ← load p; assoc_insert p (hash (ITEM_key it))
  | OpDelete k => assoc_delete k (Z.of_nat (length k)) (hash k) ;; mret 0
  | OpMaintenance n r => assoc_maintenance_turn n r ;; mret 0
  end.

Fixpoint assoc_run (ops : list assoc_op) : M world (list Z) :=
  match ops with
  | [] => mret []
  | op :: ops => r ← assoc_step op; rs ← assoc_run ops; mret (r :: rs)
  end.

(** The same operations on a map. [None]: the caller broke the contract of
    [assoc_insert] (a new key) or of [assoc_delete] (a key that is there). *)
Definition map_step (h : gmap Z item) (op : assoc_op) m : option (Z * gmap (list Z) Z) :=
  match op with
  | OpFind k => Some (default NULL (m !! k), m)
  | OpInsert p =>
      match h !! p with
      | Some it =>
          if negb (p =? NULL) && (0 <=? i_nkey it) && (i_nkey it <=? Z.of_nat (length (i_key it)))
             && bool_decide (m !! ITEM_key it = None)
          then Some (1, <[ITEM_key it := p]> m) else None
      | None => None
      end
  | OpDelete k => if m !! k is Some _ then Some (0, delete k m) else None
  | OpMaintenance _ _ => Some (0, m)
  end.

Fixpoint map_run (h : gmap Z item) (ops : list assoc_op) m : option (list Z * gmap (list Z) Z) :=
  match ops with
  | [] => Some ([], m)
  | op :: ops =>
      '(r, m) ← map_step h op m;
      '(rs, m) ← map_run h ops m;
      Some (r :: rs, m)
  end.

(** ** One step *)

Lemma assoc_rep_frame s s' m :
  w_heap s' = w_heap s → w_assoc s' = w_assoc s → assoc_rep s m → assoc_rep s' m.
Proof.
  intros Hh Ha (L & Hok & Habs & Hl). exists L. split_and!; [by eapply assoc_ok_frame|by eapply assoc_abs_frame|].
  by rewrite Ha.
Qed.

Lemma assoc_rep_insert s m p it :
  assoc_rep s m → p ≠ 0 → w_heap s !! p = Some it → key_ok it → m !! ITEM_key it = None →
  ∃ h' a', assoc_insert p (hash (ITEM_key it)) s = Some (1, with_heap_assoc s h' a') ∧
    assoc_rep (with_heap_assoc s h' a') (<[ITEM_key it := p]> m) ∧ hsame (w_heap s) h'.
Proof.
  intros (L & Hok & Habs & Hl) Hp0 Hp Hko Hm.
  destruct (assoc_insert_abs s L m p it) as [Hok' Habs']; try done.
  rewrite (assoc_insert_run s L p it Hok Hp). eexists _, _. split; [done|]. split.
  - eexists. split_and!; [done..|]. by apply set_table_live.
  - by apply hsame_insert.
Qed.

Lemma assoc_expand_run s m :
  assoc_rep s m → a_expanding (w_assoc s) = false →
  ∃ s', assoc_expand s = Some (tt, s') ∧ assoc_rep s' m ∧ w_heap s' = w_heap s ∧
    w_locks s' = w_locks s.
Proof.
  intros (L & Hok & Habs & Hl) He. pose proof (ao_hp _ _ Hok) as Hhp.
  assert (Hfail : ∀ s', w_heap s' = w_heap s →
     w_assoc s' = (w_assoc s) <| a_old_hashtable := a_primary_hashtable (w_assoc s) |> →
     assoc_rep s' m).
  { intros s' Hh Ha. exists L. split_and!; [|by eapply assoc_abs_frame|].
    - destruct Hok as [? ? ? Ht ? ? Hp ?]. constructor; rewrite ?Hh, ?Ha; simpl; try done.
      + by rewrite He.
      + intros [[] i] Hv; unfold valid_loc in Hv; simpl in Hv; [by rewrite He in Hv; destruct Hv|].
        exact (Ht (false, i) Hv).
    - rewrite Ha. intros Hx. simpl in Hx. congruence. }
  assert (Hgrow : ∀ s', w_heap s' = w_heap s → w_assoc s' = expanded (w_assoc s) → assoc_rep s' m).
  { intros s' Hh Ha. exists (expanded_chains L).
    split_and!; [apply (assoc_ok_frame (s <| w_assoc := expanded (w_assoc s) |>)); try done; by apply assoc_expand_ok
                |apply (assoc_abs_frame (s <| w_assoc := expanded (w_assoc s) |>)); try done; by apply assoc_expand_abs|].
    rewrite Ha. intros _. simpl. apply pow2_pos. lia. }
  unfold assoc_expand. rewrite (bind_run _ _ _ _ _ eq_refl).
  unfold malloc_next. munfold. simpl. destruct (w_malloc s) as [|p ps]; [|destruct (p =? NULL)];
    (eexists; split; [reflexivity|]; split_and!; [|done..]); auto.
Qed.

Lemma assoc_bulk_keeps n s m :
  assoc_rep s m → w_locks s = ∅ →
  ∃ s', assoc_maintenance_bulk n s = Some (tt, s') ∧ assoc_rep s' m ∧ w_locks s' = ∅ ∧
    hsame (w_heap s) (w_heap s').
Proof.
  revert s. induction n as [|n IH]; intros s Hrep Hlk; simpl; [by exists s|].
  rewrite (bind_run _ _ _ _ _ eq_refl). destruct (a_expanding (w_assoc s)) eqn:He; simpl; [|by exists s].
  destruct (assoc_rep_move s m Hrep He Hlk) as (s1 & Hrun & Hrep1 & Hlk1 & Hs1 & _).
  destruct (IH s1 Hrep1 Hlk1) as (s2 & Hrun2 & ? & ? & Hs2).
  exists s2. rewrite (bind_run _ _ _ _ _ Hrun). split_and!; [done..|by etrans].
Qed.

Lemma assoc_turn_keeps n r s m :
  assoc_rep s m → w_locks s = ∅ →
  ∃ s', assoc_maintenance_turn n r s = Some (tt, s') ∧ assoc_rep s' m ∧ w_locks s' = ∅ ∧
    hsame (w_heap s) (w_heap s').
Proof.
  intros Hrep Hlk. destruct (assoc_bulk_keeps n s m Hrep Hlk) as (s1 & Hrun & Hrep1 & Hlk1 & Hs1).
  unfold assoc_maintenance_turn. rewrite (bind_run _ _ _ _ _ Hrun), (bind_run _ _ _ _ _ eq_refl).
  destruct (a_expanding (w_assoc s1)) eqn:He, r; simpl; [by exists s1..| |by exists s1].
  destruct (assoc_expand_run s1 m Hrep1 He) as (s2 & -> & Hrep2 & Hh & Hl2).
  exists s2. split_and!; try done; congruence.
Qed.

Lemma hsame_step_item h h' op m : hsame h h' → map_step h' op m = map_step h op m.
Proof.
  intros Hs. destruct op; try done. simpl. destruct (h !! p) as [it|] eqn:Hp.
  - by destruct (hsame_lookup _ _ _ _ Hs Hp) as [n ->].
  - by rewrite (hsame_lookup_none _ _ _ Hs Hp).
Qed.

Lemma hsame_run_item h h' ops m : hsame h h' → map_run h' ops m = map_run h ops m.
Proof.
  intros Hs. revert m. induction ops as [|op ops IH]; intros m; simpl; [done|].
  rewrite (hsame_step_item _ _ _ _ Hs). destruct (map_step h op m) as [[r m']|]; simpl; [|done].
  by rewrite IH.
Qed.

Lemma assoc_step_sim s m op r m' :
  assoc_rep s m → w_locks s = ∅ → map_step (w_heap s) op m = Some (r, m') →
  ∃ s', assoc_step op s = Some (r, s') ∧ assoc_rep s' m' ∧ w_locks s' = ∅ ∧
    hsame (w_heap s) (w_heap s').
Proof.
  intros Hrep Hlk Hst. destruct op as [k|p|k|n b]; simpl in Hst.
  - injection Hst as <- <-. destruct Hrep as (L & Hok & Habs & Hl). exists s.
    split_and!; [by eapply assoc_find_abs|by exists L|done..].
  - destruct (w_heap s !! p) as [it|] eqn:Hp; [|done]. destruct (_ && _) eqn:Hc; [|done].
    injection Hst as <- <-. bool_props.
    destruct (assoc_rep_insert s m p it) as (h' & a' & Hrun & Hrep' & Hs); try done.
    exists (with_heap_assoc s h' a'). split_and!; try done.
    simpl. by rewrite (bind_run _ _ _ _ _ (load_ok _ _ _ Hp)).
  - destruct (m !! k) as [p|] eqn:Hm; [|done]. injection Hst as <- <-.
    destruct Hrep as (L & Hok & Habs & Hl).
    destruct (assoc_delete_abs s L m k p Hok Habs Hm) as (h' & a' & L' & Hrun & Hs & Hok' & Habs' & Hl').
    exists (with_heap_assoc s h' a'). simpl. rewrite (bind_run _ _ _ _ _ Hrun).
    split_and!; try done. exists L'; auto.
  - injection Hst as <- <-. destruct (assoc_turn_keeps n b s m Hrep Hlk) as (s' & Hrun & ? & ? & ?).
    exists s'. simpl. by rewrite (bind_run _ _ _ _ _ Hrun).
Qed.

Lemma assoc_run_sim s m ops rs m' :
  assoc_rep s m → w_locks s = ∅ → map_run (w_heap s) ops m = Some (rs, m') →
  ∃ s', assoc_run ops s = Some (rs, s') ∧ assoc_rep s' m' ∧ hsame (w_heap s) (w_heap s').
Proof.
  revert s m rs. induction ops as [|op ops IH]; intros s m rs Hrep Hlk Hrun; simpl in *.
  { injection Hrun as <- <-. by exists s. }
  destruct (map_step (w_heap s) op m) as [[r m1]|] eqn:Hst; [|done]. simpl in Hrun.
  destruct (map_run (w_heap s) ops m1) as [[rs' m2]|] eqn:Hrs; [|done].
  injection Hrun as <- <-.
  destruct (assoc_step_sim s m op r m1 Hrep Hlk Hst) as (s1 & Hs1 & Hrep1 & Hlk1 & Hh1).
  destruct (IH s1 m1 rs' Hrep1 Hlk1) as (s2 & Hs2 & Hrep2 & Hh2); [by rewrite (hsame_run_item _ _ _ _ Hh1)|].
  exists s2. rewrite (bind_run _ _ _ _ _ Hs1), (bind_run _ _ _ _ _ Hs2).
  split_and!; [done..|by etrans].
Qed.

Lemma assoc_rep_empty s :
  1 ≤ a_hashpower (w_assoc s) → a_expanding (w_assoc s) = false →
  a_primary_hashtable (w_assoc s) = replicate (Z.to_nat (2 ^ a_hashpower (w_assoc s))) NULL →
  assoc_rep s ∅.
Proof.
  intros Hhp He Ht. pose proof (pow2_pos (a_hashpower (w_assoc s)) ltac:(lia)) as Hpos.
  exists (λ _, []). split_and!.
  - constructor.
    + done.
    + rewrite Ht, length_replicate. lia.
    + by rewrite He.
    + intros [[] i] Hv; unfold valid_loc in Hv; simpl in *; [rewrite He in Hv; by destruct Hv|].
      rewrite Ht. apply lookup_replicate_2. lia.
    + done.
    + intros _. constructor.
    + intros lc p Hp. by apply elem_of_nil in Hp.
    + intros lc p q Hp. by apply elem_of_nil in Hp.
  - intros k p. rewrite lookup_empty. split; [done|]. intros [[lc Hp] _]. by apply elem_of_nil in Hp.
  - intros Hx. congruence.
Qed.

(** ** Theorems *)

(** C17 (refinement). Any sequence of lookups, insertions, deletions and
    maintenance-thread turns (bucket moves and table expansions, whatever
    [calloc] answers) on a table that represents a map [m] runs without an
    undefined access or failed assertion, returns exactly what the same
    operations on the map return, and ends in a table that represents the
    resulting map; no header changes but in its [h_next]. *)
Theorem assoc_refines_map s m ops rs m' :
  assoc_rep s m → w_locks s = ∅ → map_run (w_heap s) ops m = Some (rs, m') →
  ∃ s', assoc_run ops s = Some (rs, s') ∧ assoc_rep s' m' ∧ hsame (w_heap s) (w_heap s').
Proof. apply assoc_run_sim. Qed.


(** With no expansion running, the iterator hands out every
    item of the table exactly once, and leaves the state, the item locks
    included, as it found it. *)
Theorem assoc_iterate_all_once s m fuel :
  assoc_rep s m → w_locks s = ∅ → a_expanding (w_assoc s) = false →
  (Z.to_nat (2 ^ a_hashpower (w_assoc s)) * S (S (size (w_heap s))) < fuel)%nat →
  ∃ l, assoc_iterate_all fuel assoc_get_iterator s = Some (l, s) ∧ NoDup l ∧
    ∀ p, p ∈ l ↔ ∃ k, m !! k = Some p.
Proof.
  intros (L & Hok & Habs & _) Hlk He Hf. pose proof (ao_hp _ _ Hok) as Hhp.
  pose proof (pow2_pos (a_hashpower (w_assoc s)) ltac:(lia)) as Hpos.
  eexists. split; [apply (iterate_buckets (Z.to_nat (2 ^ a_hashpower (w_assoc s))) s L 0 0 0 fuel Hok He Hlk); [done| |exact Hf]; lia|].
  split; [by eapply bucket_chains_NoDup|]. intros p. rewrite bucket_chains_elem. split.
  - intros (i & Hi & Hp). destruct (ao_place _ _ Hok _ _ Hp) as (it & Hit & _).
    exists (ITEM_key it). apply Habs. split; [eauto|by apply key_of_lookup].
  - intros (k & [[lc Hp] Hk]%Habs). destruct (ao_place _ _ Hok _ _ Hp) as (it & _ & _ & Hc).
    pose proof (no_old_chains _ _ _ _ Hok He Hp) as Hlc. rewrite Hlc in Hp.
    exists lc.2. split; [|done].
    pose proof (cur_loc_valid (w_assoc s) (hash (ITEM_key it)) Hhp) as Hv.
    rewrite Hc, Hlc in Hv. unfold valid_loc in Hv. simpl in Hv. lia.
Qed.


End Ops.

(** ** A small table *)

Definition small_item (nkey : Z) (key : list Z) : item :=
  zero_item <| i_nkey := nkey |> <| i_key := key |>.

Definition small_world : world := mkWorld
  {[ 4096 := small_item 1 [97]; 4224 := small_item 1 [98]; 4352 := small_item 2 [97; 98] ]} []
  (mkAssoc 1 [NULL; NULL] [] false 0)
  (mkLru (λ _, NULL) (λ _, NULL) (λ _, zero_itemstats) (λ _, 0) (λ _, 0) None 0 0 0)
  (mkSlabs (λ _, mkSlabclass 0 0 NULL 0 0 [] 0) 0 0 false 0 NULL NULL 0)
  (mkStats 0 0 0 1 16 false 0 0 0 0 0 0 0 false)
  (mkTstats 0 0 0 (λ _, 0) (λ _, 0) (λ _, 0) (λ _, 0))
  (mkSettings true 0 0 0 false 0 1 true false 0 0 0 0 0 0 0 48 S754_nan S754_nan)
  (mkConn false 0) 1 ∅ [8192] [] (mkBump (mkBipbuf 0 0 0 0 0 []) ∅ 0) zero_rebal 0.

Definition small_ops : list assoc_op :=
  [OpInsert 4096; OpInsert 4224; OpMaintenance 1 true; OpFind [98]; OpInsert 4352;
   OpMaintenance 1 true; OpFind [97; 98]; OpDelete [97]; OpFind [97]; OpMaintenance 1 false].

Lemma small_rep : assoc_rep (HF := jenkins_fn) small_world ∅.
Proof. by apply assoc_rep_empty. Qed.

Lemma assoc_refines_map_witness :
  ∃ s', assoc_run (HF := jenkins_fn) small_ops small_world =
          Some ([1; 1; 0; 4224; 1; 0; 4352; 0; 0; 0], s') ∧
    assoc_rep (HF := jenkins_fn) s' {[ [98] := 4224; [97; 98] := 4352 ]} ∧
    hsame (w_heap small_world) (w_heap s').
Proof.
  apply (assoc_refines_map (HF := jenkins_fn) small_world ∅ small_ops).
  - exact small_rep.
  - reflexivity.
  - vm_compute. reflexivity.
Defined.

(** The small table just after an expansion has started. *)
Definition small_expanding : world :=
  small_world <| w_assoc := expanded (w_assoc small_world) |>.

Lemma small_expanding_rep : assoc_rep (HF := jenkins_fn) small_expanding ∅.
Proof.
  destruct small_rep as (L & Hok & Habs & _). exists (expanded_chains L).
  split_and!; [by apply (assoc_expand_ok (HF := jenkins_fn))|by apply (assoc_expand_abs (HF := jenkins_fn))|]. intros _. done.
Qed.


(** The small table with three items in it. *)
Definition small_full : world :=
  match assoc_run (HF := jenkins_fn) [OpInsert 4096; OpInsert 4224; OpInsert 4352] small_world with
  | Some (_, s) => s
  | None => small_world
  end.

Definition small_map : gmap (list Z) Z := {[ [97] := 4096; [98] := 4224; [97; 98] := 4352 ]}.

Lemma small_full_rep : assoc_rep (HF := jenkins_fn) small_full small_map.
Proof.
  destruct (assoc_run_sim (HF := jenkins_fn) small_world ∅
    [OpInsert 4096; OpInsert 4224; OpInsert 4352] [1; 1; 1] small_map) as (s' & Hrun & Hrep & _);
    [exact small_rep|done|vm_compute; done|].
  unfold small_full. by rewrite Hrun.
Qed.

Lemma assoc_iterate_all_once_witness :
  ∃ l, assoc_iterate_all 20 assoc_get_iterator small_full = Some (l, small_full) ∧ NoDup l ∧
    ∀ p, p ∈ l ↔ ∃ k, small_map !! k = Some p.
Proof.
  apply (assoc_iterate_all_once (HF := jenkins_fn) small_full small_map 20).
  - exact small_full_rep.
  - vm_compute. reflexivity.
  - vm_compute. reflexivity.
  - apply Nat.ltb_lt. vm_compute. reflexivity.
Defined.

