(* ===== verification/Slabs.v ===== *)
(** * The slab allocator ([slabs.c])

    Memory is handed out in chunks of a fixed set of sizes. A slab class keeps
    the pages it was given in [slab_list] and its free chunks on a doubly linked
    list threaded through the chunks' own headers, from [slots]. Pages no class
    uses wait in class 0, the global page pool. An [item_chunk] is an item
    header under other field names: [head] is [h_next], [size] is [time], [used]
    is [exptime] and [orig_clsid] is [nkey]. *)

From S2P Require Import Prelude Bipbuf Hashes State Links Queues Assoc.

(** ** Double precision numbers, for the growth factor *)

Definition dbl_of_int (x : Z) : spec_float := binary_normalize 53 1024 x 0 false.
Definition dbl_mul : spec_float → spec_float → spec_float := SFmul 53 1024.
Definition dbl_div : spec_float → spec_float → spec_float := SFdiv 53 1024.

(** The conversion of a double to [unsigned int], for values that fit. *)
Definition dbl_to_uint (x : spec_float) : Z :=
  match x with
  | S754_finite false m e => u32 (if 0 <=? e then Zpos m * 2 ^ e else Zpos m / 2 ^ (- e))
  | _ => 0
  end.

(** ** Size classes *)

(** [while (size > slabclass[res].size) if (res++ == power_largest) return power_largest] *)
Fixpoint slabs_clsid_loop (fuel : nat) (m : slabs_t) (size res : Z) : Z :=
  match fuel with
  | O => m_power_largest m
  | S fuel =>
      if p_size (m_slabclass m res) <? size then
        if res =? m_power_largest m then m_power_largest m
        else slabs_clsid_loop fuel m size (res + 1)
      else res
  end.

Definition slabs_clsid (size : Z) : M world Z :=
  s ← get_state;
  let m := w_slabs s in
  if (size =? 0) || (o_item_size_max (w_settings s) <? size) then mret 0
  else mret (slabs_clsid_loop (Z.to_nat (m_power_largest m)) m size POWER_SMALLEST).

Definition slabs_size (clsid : Z) : M world Z :=
  gets (λ s, p_size (m_slabclass (w_slabs s) clsid)).

(** ** Raw memory *)

Definition mapped_range (s : world) (p n : Z) : bool :=
  existsb (λ '(b, l), (b <=? p) && (p + n <=? b + l)) (w_regions s).

(** [memset(p, 0, n)]: no header is left in the range. *)
Definition memset0 (p n : Z) : M world unit := λ s,
  if mapped_range s p n
  then Some (tt, s <| w_heap := filter (λ '(k, _), ¬ (p ≤ k < p + n)) (w_heap s) |>)
  else None.

(** [malloc(n)], the block added to the memory the program may use. *)
Definition malloc_block (n : Z) : M world Z :=
  p ← malloc_next;
  when (negb (p =? NULL)) (modify (λ s, s <| w_regions := (p, n) :: w_regions s |>)) ;;
  mret p.

Definition memory_allocate (size : Z) : M world Z :=
  m ← gets w_slabs;
  if m_mem_base m =? NULL then
    ret ← malloc_block size;
    on_slabs (λ m, m <| m_mem_malloced := u64 (m_mem_malloced m + size) |>) ;;
    mret ret
  else if m_mem_avail m <? size then mret NULL
  else
    let ret := m_mem_current m in
    let size := if negb (size mod CHUNK_ALIGN_BYTES =? 0)
                then u64 (size + (CHUNK_ALIGN_BYTES - size mod CHUNK_ALIGN_BYTES)) else size in
    on_slabs (λ m, m <| m_mem_current := m_mem_current m + size |>
                     <| m_mem_avail := if size <? m_mem_avail m then m_mem_avail m - size else 0 |>) ;;
    on_slabs (λ m, m <| m_mem_malloced := u64 (m_mem_malloced m + size) |>) ;;
    mret ret.

(** ** Pages *)

Definition grow_slab_list (id : Z) : M world bool :=
  p ← gets (λ s, m_slabclass (w_slabs s) id);
  if p_slabs p =? p_list_size p then
    let new_size := if negb (p_list_size p =? 0) then u32 (p_list_size p * 2) else 16 in
    new_list ← malloc_next;
    if new_list =? NULL then mret false
    else
      on_slabclass id (λ p,
        p <| p_list_size := new_size |>
          <| p_slab_list := take (Z.to_nat new_size)
               (p_slab_list p ++ replicate (Z.to_nat new_size - length (p_slab_list p)) NULL) |>) ;;
      mret true
  else mret true.

(** [p->slab_list[p->slabs++] = ptr] *)
Definition slab_list_push (id ptr : Z) : M world unit :=
  p ← gets (λ s, m_slabclass (w_slabs s) id);
  l ← arr_set (p_slab_list p) (p_slabs p) ptr;
  on_slabclass id (λ p, p <| p_slab_list := l |> <| p_slabs := u32 (p_slabs p + 1) |>).

Definition get_page_from_global_pool : M world Z :=
  p ← gets (λ s, m_slabclass (w_slabs s) SLAB_GLOBAL_PAGE_POOL);
  if p_slabs p <? 1 then mret NULL
  else
    ret ← arr_get (p_slab_list p) (p_slabs p - 1);
    on_slabclass SLAB_GLOBAL_PAGE_POOL (λ p, p <| p_slabs := p_slabs p - 1 |>) ;;
    mret ret.

(** ** The free list *)

(** Stacking a chunk on the free list of a class: the block
    [it->prev = 0; it->next = p->slots; if (it->next) it->next->prev = it;
    p->slots = it; p->sl_curr++] of the free routines. *)
Definition slots_push (it id : Z) : M world unit :=
  p ← gets (λ s, m_slabclass (w_slabs s) id);
  q_push it (p_slots p) ;;
  on_slabclass id (λ p, p <| p_slots := it |> <| p_sl_curr := u32 (p_sl_curr p + 1) |>).

(** The chunk header inside a large item's data. *)
Definition ITEM_schunk (p : Z) (it : item) : Z :=
  p + sizeof_item + i_nkey it + 1
  + (if flag (i_it_flags it) ITEM_CFLAGS then sizeof_uint32 else 0)
  + (if flag (i_it_flags it) ITEM_CAS then sizeof_uint64 else 0).

(** The [while (chunk)] loop of [do_slabs_free_chunked]. *)
Fixpoint free_chunk_loop (fuel : nat) (chunk : Z) : M world unit :=
  match fuel with
  | O => undefined
  | S fuel =>
      if chunk =? NULL then mret tt
      else
        c ← load chunk;
        c_assert (i_it_flags c =? ITEM_CHUNK) ;;
        wr chunk (λ x, x <| i_it_flags := ITEM_SLABBED |>) ;;
        slots_push chunk (i_slabs_clsid c) ;;
        free_chunk_loop fuel (i_next c)
  end.

Definition do_slabs_free_chunked (it size : Z) : M world unit :=
  x ← load it;
  let chunk := ITEM_schunk it x in
  wr it (λ x, x <| i_it_flags := ITEM_SLABBED |> <| i_prev := NULL |>) ;;
  c ← load chunk;
  wr it (λ x, x <| i_slabs_clsid := i_nkey c |>) ;;
  when (negb (i_next c =? NULL)) (wr (i_next c) (λ x, x <| i_prev := NULL |>)) ;;
  slots_push it (i_nkey c) ;;
  fuel ← walk_fuel;
  free_chunk_loop fuel (i_next c).

Definition do_slabs_free (ptr size id : Z) : M world unit :=
  m ← gets w_slabs;
  c_assert ((POWER_SMALLEST <=? id) && (id <=? m_power_largest m)) ;;
  if (id <? POWER_SMALLEST) || (m_power_largest m <? id) then mret tt
  else
    it ← load ptr;
    if negb (flag (i_it_flags it) ITEM_CHUNKED) then
      wr ptr (λ x, x <| i_it_flags := ITEM_SLABBED |> <| i_slabs_clsid := u8 id |>) ;;
      slots_push ptr id
    else do_slabs_free_chunked ptr size.

Fixpoint split_loop (n : nat) (ptr size id : Z) : M world unit :=
  match n with
  | O => mret tt
  | S n => do_slabs_free ptr 0 id ;; split_loop n (ptr + size) size id
  end.

Definition split_slab_page_into_freelist (ptr id : Z) : M world unit :=
  p ← gets (λ s, m_slabclass (w_slabs s) id);
  split_loop (Z.to_nat (p_perslab p)) ptr (p_size p) id.

(** ** New pages *)

Definition slab_page_len (s : world) (id : Z) : Z :=
  let o := w_settings s in
  let p := m_slabclass (w_slabs s) id in
  if o_slab_reassign o || negb (o_slab_chunk_size_max o =? o_slab_page_size o)
  then o_slab_page_size o else p_size p * p_perslab p.

(** [((ptr = get_page_from_global_pool()) == NULL) && ((ptr = memory_allocate(len)) == 0)] *)
Definition get_slab_page (len : Z) : M world Z :=
  ptr ← get_page_from_global_pool;
  if ptr =? NULL then memory_allocate len else mret ptr.

Definition do_slabs_newslab (id : Z) : M world bool :=
  s ← get_state;
  let m := w_slabs s in
  let p := m_slabclass m id in
  let g := m_slabclass m SLAB_GLOBAL_PAGE_POOL in
  let len := slab_page_len s id in
  if negb (m_mem_limit m =? 0) && (m_mem_limit m <? u64 (m_mem_malloced m + len))
     && (0 <? p_slabs p) && (p_slabs g =? 0)
  then on_slabs (λ m, m <| m_mem_limit_reached := true |>) ;; mret false
  else
    grown ← grow_slab_list id;
    if negb grown then mret false
    else
      ptr ← get_slab_page len;
      if ptr =? NULL then mret false
      else
        memset0 ptr len ;;
        split_slab_page_into_freelist ptr id ;;
        slab_list_push id ptr ;;
        mret true.

(** ** Allocation *)

(** [if (p->sl_curr != 0) { /* return off our freelist */ ... }] *)
Definition slots_pop (id : Z) : M world Z :=
  p ← gets (λ s, m_slabclass (w_slabs s) id);
  if negb (p_sl_curr p =? 0) then
    let it := p_slots p in
    nxt ← fld it i_next;
    on_slabclass id (λ p, p <| p_slots := nxt |>) ;;
    when (negb (nxt =? NULL)) (wr nxt (λ x, x <| i_prev := NULL |>)) ;;
    wr it (λ x, x <| i_it_flags := clear (i_it_flags x) ITEM_SLABBED |> <| i_refcount := 1 |>) ;;
    on_slabclass id (λ p, p <| p_sl_curr := u32 (p_sl_curr p - 1) |>) ;;
    mret it
  else mret NULL.

Definition do_slabs_alloc (size id flags : Z) : M world Z :=
  m ← gets w_slabs;
  if (id <? POWER_SMALLEST) || (m_power_largest m <? id) then mret NULL
  else
    let p := m_slabclass m id in
    (if p_sl_curr p =? 0 then mret tt
     else f ← fld (p_slots p) i_it_flags; c_assert (flag f ITEM_SLABBED)) ;;
    c_assert (size <=? p_size p) ;;
    when ((p_sl_curr p =? 0) && negb (flags =? SLABS_ALLOC_NO_NEWPAGE))
      (do_slabs_newslab id ;; mret tt) ;;
    slots_pop id.

(** The public entries take [slabs_lock] around the [do_] routine. *)
Definition slabs_alloc : Z → Z → Z → M world Z := do_slabs_alloc.
Definition slabs_free : Z → Z → Z → M world unit := do_slabs_free.

Definition slabs_fixup (chunk border : Z) : M world Z :=
  it ← load chunk;
  let id := ITEM_clsid it in
  if id =? 0 then
    grow_slab_list 0 ;; slab_list_push 0 chunk ;; mret (u32 (-1))
  else
    when (border =? 0) (grow_slab_list id ;; slab_list_push id chunk) ;;
    when (i_it_flags it =? ITEM_SLABBED) (slots_push chunk id) ;;
    slabs_size id.

(** ** Limits and statistics *)

(** [while (mem_malloced > mem_limit && (p = get_page_from_global_pool()) != NULL)]:
    every turn takes a page of the pool. *)
Fixpoint memory_release_loop (fuel : nat) : M world unit :=
  match fuel with
  | O => mret tt
  | S fuel =>
      s ← get_state;
      if m_mem_limit (w_slabs s) <? m_mem_malloced (w_slabs s) then
        p ← get_page_from_global_pool;
        if p =? NULL then mret tt
        else
          modify (λ s, s <| w_regions := filter (λ '(b, _), b ≠ p) (w_regions s) |>) ;;
          on_slabs (λ m, m <| m_mem_malloced :=
            u64 (m_mem_malloced m - o_slab_page_size (w_settings s)) |>) ;;
          memory_release_loop fuel
      else mret tt
  end.

Definition memory_release : M world unit :=
  s ← get_state;
  if negb (m_mem_base (w_slabs s) =? NULL) then mret tt
  else if negb (o_slab_reassign (w_settings s)) then mret tt
  else memory_release_loop
    (S (Z.to_nat (p_slabs (m_slabclass (w_slabs s) SLAB_GLOBAL_PAGE_POOL)))).

Definition do_slabs_adjust_mem_limit (new_mem_limit : Z) : M world bool :=
  m ← gets w_slabs;
  if negb (m_mem_base m =? NULL) then mret false
  else
    modify (λ s, s <| w_settings := (w_settings s) <| o_maxbytes := new_mem_limit |> |>) ;;
    on_slabs (λ m, m <| m_mem_limit := new_mem_limit |> <| m_mem_limit_reached := false |>) ;;
    memory_release ;;
    mret true.

(** Free chunks of the class, whether memory is at its limit, chunks per page. *)
Definition slabs_available_chunks (id : Z) : M world (Z * bool * Z) :=
  m ← gets w_slabs;
  let p := m_slabclass m id in
  mret (p_sl_curr p, m_mem_limit m <=? m_mem_malloced m, p_perslab p).

Definition global_page_pool_size : M world (Z * bool) :=
  m ← gets w_slabs;
  mret (p_slabs (m_slabclass m SLAB_GLOBAL_PAGE_POOL), m_mem_limit m <=? m_mem_malloced m).

Record slab_stats_automove : Type := mkSsa {
  ss_chunks_per_page : Z;
  ss_chunk_size : Z;
  ss_free_chunks : Z;
  ss_total_pages : Z
}.

Definition fill_slab_stats_automove : M world (list slab_stats_automove) :=
  m ← gets w_slabs;
  mret ((λ n, let p := m_slabclass m n in
           mkSsa (p_perslab p) (p_size p) (p_sl_curr p) (p_slabs p))
        <$> seqZ 0 MAX_NUMBER_OF_SLAB_CLASSES).

(** ** Start-up *)

(** The [while (++i < MAX_NUMBER_OF_SLAB_CLASSES-1)] loop of [slabs_init]:
    the classes set so far, the size for class [i], and the class the loop
    stops at. [slab_sizes] is the caller's zero-terminated array. *)
Fixpoint slabs_init_loop (fuel : nat) (o : settings_t) (factor : spec_float)
    (slab_sizes : option (list Z)) (cls : Z → slabclass_t) (size i : Z)
    : option (Z * (Z → slabclass_t)) :=
  match fuel with
  | O => Some (i, cls)
  | S fuel =>
      let step (size : Z) :=
        let size := if negb (size mod CHUNK_ALIGN_BYTES =? 0)
                    then u32 (size + (CHUNK_ALIGN_BYTES - size mod CHUNK_ALIGN_BYTES)) else size in
        let cls := upd cls i ((cls i) <| p_size := size |>
                                      <| p_perslab := o_slab_page_size o / size |>) in
        let size := match slab_sizes with
                    | None => dbl_to_uint (dbl_mul (dbl_of_int size) factor)
                    | Some _ => size
                    end in
        slabs_init_loop fuel o factor slab_sizes cls size (i + 1) in
      match slab_sizes with
      | Some l =>
          match l !! Z.to_nat (i - 1) with
          | None => None
          | Some 0 => Some (i, cls)
          | Some size => step size
          end
      | None =>
          if SFleb (dbl_div (dbl_of_int (o_slab_chunk_size_max o)) factor) (dbl_of_int size)
          then Some (i, cls) else step size
      end
  end.

Fixpoint slabs_preallocate_loop (n : nat) (i : Z) : M world bool :=
  match n with
  | O => mret true
  | S n =>
      ok ← do_slabs_newslab i;
      if negb ok then mret false else slabs_preallocate_loop n (i + 1)
  end.

(** [false]: the process exits with a failure status. *)
Definition slabs_preallocate (maxslabs : Z) : M world bool :=
  slabs_preallocate_loop (Z.to_nat (Z.min maxslabs (MAX_NUMBER_OF_SLAB_CLASSES - 1))) POWER_SMALLEST.

(** [large_chunk] is the answer of [alloc_large_chunk], [initial_malloc] the
    value of [T_MEMD_INITIAL_MALLOC] if it is set. *)
Definition slabs_init (limit : Z) (factor : spec_float) (prealloc : bool)
    (slab_sizes : option (list Z)) (mem_base_external : Z) (reuse_mem : bool)
    (large_chunk : Z) (initial_malloc : option Z) : M world bool :=
  on_slabs (λ m, m <| m_mem_limit := limit |>) ;;
  do_slab_prealloc ←
    (if prealloc && (mem_base_external =? NULL) then
       on_slabs (λ m, m <| m_mem_base := large_chunk |>) ;;
       if negb (large_chunk =? NULL) then
         modify (λ s, s <| w_regions := (large_chunk, limit) :: w_regions s |>) ;;
         on_slabs (λ m, m <| m_mem_current := large_chunk |> <| m_mem_avail := limit |>) ;;
         mret true
       else mret false
     else if prealloc then
       on_slabs (λ m, m <| m_mem_base := mem_base_external |>
         <| m_mem_current := if reuse_mem then mem_base_external + limit else mem_base_external |>
         <| m_mem_avail := if reuse_mem then 0 else limit |>) ;;
       mret true
     else mret false);
  o ← gets w_settings;
  match slabs_init_loop (Z.to_nat (MAX_NUMBER_OF_SLAB_CLASSES - 2)) o factor slab_sizes
          (λ _, mkSlabclass 0 0 NULL 0 0 [] 0)
          (u32 (sizeof_item + o_chunk_size o)) POWER_SMALLEST with
  | None => undefined
  | Some (i, cls) =>
      let largest := (cls i) <| p_size := o_slab_chunk_size_max o |>
                             <| p_perslab := o_slab_page_size o / o_slab_chunk_size_max o |> in
      on_slabs (λ m, m <| m_slabclass := upd cls i largest |> <| m_power_largest := i |>) ;;
      on_slabs (λ m, m <| m_mem_malloced := match initial_malloc with
                          | Some v => u64 v | None => m_mem_malloced m end |>) ;;
      if do_slab_prealloc && negb reuse_mem then slabs_preallocate i else mret true
  end.

(** [while (mem_malloced < mem_limit && (ptr = memory_allocate(len)) != NULL)] *)
Fixpoint slabs_prefill_loop (fuel : nat) (len : Z) : M world unit :=
  match fuel with
  | O => undefined
  | S fuel =>
      m ← gets w_slabs;
      if m_mem_malloced m <? m_mem_limit m then
        ptr ← memory_allocate len;
        if ptr =? NULL then mret tt
        else
          grow_slab_list SLAB_GLOBAL_PAGE_POOL ;;
          memset0 ptr sizeof_item ;;
          slab_list_push SLAB_GLOBAL_PAGE_POOL ptr ;;
          slabs_prefill_loop fuel len
      else mret tt
  end.

Definition slabs_prefill_global (fuel : nat) : M world unit :=
  len ← gets (λ s, o_slab_page_size (w_settings s));
  slabs_prefill_loop fuel len ;;
  on_slabs (λ m, m <| m_mem_limit_reached := true |>).

(** ** Page moves requested ([slabs_reassign]) *)

Inductive reassign_result_type : Type :=
  | REASSIGN_OK | REASSIGN_RUNNING | REASSIGN_BADCLASS | REASSIGN_NOSPARE | REASSIGN_SRC_DST_SAME.

Fixpoint pick_any_loop (tries : nat) (dst : Z) : M world Z :=
  match tries with
  | O => mret (-1)
  | S tries =>
      on_rebal (λ r, r <| r_pick_cur := r_pick_cur r + 1 |>) ;;
      s ← get_state;
      when (m_power_largest (w_slabs s) <? r_pick_cur (w_rebal s))
        (on_rebal (λ r, r <| r_pick_cur := POWER_SMALLEST |>)) ;;
      cur ← gets (λ s, r_pick_cur (w_rebal s));
      if cur =? dst then pick_any_loop tries dst
      else
        p ← gets (λ s, m_slabclass (w_slabs s) cur);
        if 1 <? p_slabs p then mret cur else pick_any_loop tries dst
  end.

Definition slabs_reassign_pick_any (dst : Z) : M world Z :=
  m ← gets w_slabs;
  pick_any_loop (Z.to_nat (m_power_largest m - POWER_SMALLEST + 1)) dst.

Definition do_slabs_reassign (src dst : Z) : M world reassign_result_type :=
  s ← get_state;
  if negb (r_signal (w_rebal s) =? 0) then mret REASSIGN_RUNNING
  else if src =? dst then mret REASSIGN_SRC_DST_SAME
  else
    src ← (if src =? -1 then slabs_reassign_pick_any dst else mret src);
    let m := w_slabs s in
    if (src <? SLAB_GLOBAL_PAGE_POOL) || (m_power_largest m <? src) ||
       (dst <? SLAB_GLOBAL_PAGE_POOL) || (m_power_largest m <? dst)
    then mret REASSIGN_BADCLASS
    else if p_slabs (m_slabclass m src) <? 2 then mret REASSIGN_NOSPARE
    else
      on_rebal (λ r, r <| r_s_clsid := src |> <| r_d_clsid := dst |> <| r_signal := 1 |>) ;;
      mret REASSIGN_OK.

Definition slabs_reassign (src dst : Z) : M world reassign_result_type :=
  s ← get_state;
  if r_lock_held (w_rebal s) then mret REASSIGN_RUNNING
  else do_slabs_reassign src dst.
