(* ===== verification/SlabsSpec.v ===== *)
(** * Correctness of the slab allocator

    [slabs_ok s D]: the free list of every class is the doubly linked list
    [D (FreeQ id)], counted by [sl_curr], of chunks marked [ITEM_SLABBED] with
    their class, and every page array has room for the pages it counts. *)

From S2P Require Import Prelude Bipbuf Hashes State Links Queues Assoc Slabs.

Implicit Types (s : world) (D : queues) (h : gmap Z item).

Abbreviation slabcls s id := (m_slabclass (w_slabs s) id).

Record slabs_ok s D : Prop := {
  so_largest : 1 ≤ m_power_largest (w_slabs s) < MAX_NUMBER_OF_SLAB_CLASSES;
  so_queues : queues_ok (w_heap s) D;
  so_slots : ∀ id, p_slots (slabcls s id) = hdz 0 (D (FreeQ id)) ∧
    p_sl_curr (slabcls s id) = Z.of_nat (length (D (FreeQ id))) ∧
    p_sl_curr (slabcls s id) < 2 ^ 32;
  so_free : ∀ id p, p ∈ D (FreeQ id) → 1 ≤ id ≤ m_power_largest (w_slabs s) ∧
    ∃ it, w_heap s !! p = Some it ∧ i_it_flags it = ITEM_SLABBED ∧ i_slabs_clsid it = id;
  so_lists : ∀ id, 0 ≤ p_slabs (slabcls s id) ≤ p_list_size (slabcls s id) ∧
    Z.of_nat (length (p_slab_list (slabcls s id))) = p_list_size (slabcls s id) ∧
    p_list_size (slabcls s id) < 2 ^ 31
}.

#[global] Instance slabs_ok_proper s : Proper (queues_eq ==> iff) (slabs_ok s).
Proof.
  assert (∀ D D', queues_eq D D' → slabs_ok s D → slabs_ok s D') as H.
  { intros D D' He [? Hq Hsl Hfr ?]. constructor; try done.
    - by rewrite <- He.
    - intros id. rewrite <- He. apply Hsl.
    - intros id p. rewrite <- He. apply Hfr. }
  intros D D' He. split; apply H; [done|by symmetry].
Qed.

(** ** Heaps that differ in links outside a set of addresses *)

Definition lsame_out (P : Z → Prop) h h' : Prop :=
  ∀ x, ¬ P x → erase_l <$> h !! x = erase_l <$> h' !! x.

Lemma lsame_out_refl P h : lsame_out P h h.
Proof. done. Qed.
Lemma lsame_out_trans (P : Z → Prop) h1 h2 h3 :
  lsame_out P h1 h2 → lsame_out P h2 h3 → lsame_out P h1 h3.
Proof. intros H1 H2 x Hx. by rewrite H1, H2. Qed.
Lemma lsame_lsame_out P h h' : lsame h h' → lsame_out P h h'.
Proof. intros H x _. apply H. Qed.
Lemma lsame_out_insert (P : Z → Prop) h p it : P p → lsame_out P h (<[p := it]> h).
Proof. intros Hp x Hx. rewrite lookup_insert_ne; [done|]. by intros ->. Qed.
Lemma lsame_out_weaken (P Q : Z → Prop) h h' :
  (∀ x, P x → Q x) → lsame_out P h h' → lsame_out Q h h'.
Proof. intros HPQ H x Hx. apply H. auto. Qed.

(** ** Which class an object goes to *)

Definition classes_sorted (m : slabs_t) : Prop :=
  ∀ i j, 1 ≤ i < j → j ≤ m_power_largest m →
    p_size (m_slabclass m i) < p_size (m_slabclass m j).

Lemma clsid_loop_spec fuel m size res :
  1 ≤ res ≤ m_power_largest m → m_power_largest m - res < Z.of_nat fuel →
  let c := slabs_clsid_loop fuel m size res in
  res ≤ c ≤ m_power_largest m ∧
  (∀ j, res ≤ j < c → p_size (m_slabclass m j) < size) ∧
  (size ≤ p_size (m_slabclass m c) ∨
   c = m_power_largest m ∧ p_size (m_slabclass m c) < size).
Proof.
  revert res. induction fuel as [|fuel IH]; intros res Hres Hf; simpl; [lia|].
  destruct (Z.ltb_spec (p_size (m_slabclass m res)) size) as [Hlt|Hge].
  - destruct (Z.eqb_spec res (m_power_largest m)) as [->|Hne].
    + split_and!; [lia|lia|intros j Hj; lia|by right].
    + destruct (IH (res + 1)) as (H1 & H2 & H3); [lia..|].
      split_and!; [lia..| |done]. intros j Hj. destruct (decide (j = res)) as [->|]; [done|].
      apply H2. lia.
  - split_and!; [lia|lia|intros j Hj; lia|by left].
Qed.

Lemma slabs_clsid_spec s size :
  1 ≤ m_power_largest (w_slabs s) → classes_sorted (w_slabs s) → 0 ≤ size →
  ∃ c, slabs_clsid size s = Some (c, s) ∧
    (c = 0 ↔ size = 0 ∨ o_item_size_max (w_settings s) < size) ∧
    (c ≠ 0 → 1 ≤ c ≤ m_power_largest (w_slabs s) ∧
       (∀ j, 1 ≤ j ≤ m_power_largest (w_slabs s) → size ≤ p_size (slabcls s j) → c ≤ j) ∧
       (size ≤ p_size (slabcls s (m_power_largest (w_slabs s))) → size ≤ p_size (slabcls s c))).
Proof.
  intros Hpl Hsorted Hs. unfold slabs_clsid. rewrite (bind_run _ _ _ _ _ eq_refl).
  destruct (Z.eqb_spec size 0) as [->|Hn0]; simpl.
  { exists 0. split_and!; [done|split; auto|done]. }
  destruct (Z.ltb_spec (o_item_size_max (w_settings s)) size) as [Hbig|Hfit]; simpl.
  { exists 0. split_and!; [done|split; auto|done]. }
  destruct (clsid_loop_spec (Z.to_nat (m_power_largest (w_slabs s))) (w_slabs s) size POWER_SMALLEST)
    as (Hc & Hlow & Hfin); [unfold POWER_SMALLEST; lia..|].
  unfold POWER_SMALLEST in *. set (c := slabs_clsid_loop _ _ _ _) in *.
  exists c. split_and!; [done|split; lia|]. intros _. split_and!; [lia|lia| |].
  - intros j Hj Hsz. destruct (Z.lt_ge_cases j c) as [Hjc|]; [|lia].
    specialize (Hlow j ltac:(lia)). lia.
  - intros Hmax. destruct Hfin as [|[-> Hlt]]; [done|lia].
Qed.

(** ** Popping and pushing a free chunk *)

(** [m'] is [m] with the class [id] replaced by [p']. *)
Definition class_set (m : slabs_t) (id : Z) (p' : slabclass_t) (m' : slabs_t) : Prop :=
  m' <| m_slabclass := m_slabclass m |> = m ∧ ∀ x, m_slabclass m' x = upd (m_slabclass m) id p' x.

Lemma class_set_largest m id p' m' : class_set m id p' m' → m_power_largest m' = m_power_largest m.
Proof. intros [<- _]. done. Qed.

(** The counters of one class after its free list changes. *)
Lemma slabs_ok_class s D id h' l p' m' :
  class_set (w_slabs s) id p' m' →
  slabs_ok s D → queues_ok h' (qset D (FreeQ id) l) →
  p_slots p' = hdz 0 l → p_sl_curr p' = Z.of_nat (length l) → Z.of_nat (length l) < 2 ^ 32 →
  p_slabs p' = p_slabs (slabcls s id) → p_list_size p' = p_list_size (slabcls s id) →
  p_slab_list p' = p_slab_list (slabcls s id) →
  (∀ p, p ∈ l → 1 ≤ id ≤ m_power_largest (w_slabs s) ∧
    ∃ it, h' !! p = Some it ∧ i_it_flags it = ITEM_SLABBED ∧ i_slabs_clsid it = id) →
  (∀ id' p, id' ≠ id → p ∈ D (FreeQ id') → erase_l <$> h' !! p = erase_l <$> w_heap s !! p) →
  slabs_ok (s <| w_heap := h' |> <| w_slabs := m' |>) (qset D (FreeQ id) l).
Proof.
  intros Hcs [Hl Hq Hsl Hfr Hli] Hq' Hslots Hcurr Hlen H1 H2 H3 Hnew Hold.
  pose proof (class_set_largest _ _ _ _ Hcs) as Hpl. destruct Hcs as [_ Hcs].
  constructor; simpl; rewrite ?Hpl; try done.
  - intros x. rewrite Hcs. unfold upd. destruct (Z.eqb_spec x id) as [->|Hx].
    + rewrite qset_eq, Hcurr. done.
    + rewrite qset_ne by congruence. apply Hsl.
  - intros x p. destruct (decide (x = id)) as [->|Hx].
    + rewrite qset_eq. apply Hnew.
    + rewrite qset_ne by congruence. intros Hp. destruct (Hfr x p Hp) as (Hr & it & Hit & Hf & Hc).
      split; [done|]. specialize (Hold x p Hx Hp). rewrite Hit in Hold.
      destruct (h' !! p) as [it'|]; [|done]. simpl in Hold. apply (inj Some) in Hold.
      exists it'. split; [done|].
      change (i_it_flags it') with (i_it_flags (erase_l it')).
      change (i_slabs_clsid it') with (i_slabs_clsid (erase_l it')). rewrite Hold. done.
  - intros x. rewrite Hcs. unfold upd. destruct (Z.eqb_spec x id) as [->|Hx]; [|apply Hli].
    rewrite H1, H2, H3. apply Hli.
Qed.

Lemma class_set_1 m id p' : class_set m id p' (m <| m_slabclass := upd (m_slabclass m) id p' |>).
Proof. by destruct m. Qed.

Lemma class_set_2 m id p1 p2 :
  class_set m id p2
    ((m <| m_slabclass := upd (m_slabclass m) id p1 |>)
       <| m_slabclass := upd (upd (m_slabclass m) id p1) id p2 |>).
Proof. split; [by destruct m|]. intros x. simpl. unfold upd. by destruct (x =? id). Qed.

(** The chunk as [do_slabs_alloc] hands it out. *)
Definition allocated (it : item) : item :=
  it <| i_it_flags := clear (i_it_flags it) ITEM_SLABBED |> <| i_refcount := 1 |>.

(** The head of the class's free list is taken off. *)
Lemma slots_pop_ok s D id p l :
  slabs_ok s D → D (FreeQ id) = p :: l →
  ∃ h' m' it, slots_pop id s = Some (p, s <| w_heap := h' |> <| w_slabs := m' |>) ∧
    slabs_ok (s <| w_heap := h' |> <| w_slabs := m' |>) (qset D (FreeQ id) l) ∧
    (∀ q, p ∉ qset D (FreeQ id) l q) ∧
    w_heap s !! p = Some it ∧ h' !! p = Some (allocated it) ∧
    lsame_out (λ x, x = p) (w_heap s) h' ∧
    class_set (w_slabs s) id ((slabcls s id) <| p_slots := hdz 0 l |>
                                 <| p_sl_curr := Z.of_nat (length l) |>) m'.
Proof.
  intros Hok HD. pose proof (so_queues _ _ Hok) as Hq.
  destruct (so_free _ _ Hok id p) as (Hid & it & Hp & Hfl & Hcl); [rewrite HD; set_solver|].
  destruct (so_slots _ _ Hok id) as (Hslots & Hcurr & Hc32). rewrite HD in Hslots, Hcurr. simpl in Hslots, Hcurr.
  pose proof (qo_seg _ _ Hq (FreeQ id)) as Hseg. pose proof (qo_nodup _ _ Hq (FreeQ id)) as Hnd.
  rewrite HD in Hseg, Hnd. simpl in Hseg. destruct Hseg as (Hp0 & Hlk & Hl).
  apply links_Some in Hlk as (it' & Hp' & Hnx & _). rewrite Hp in Hp'. injection Hp' as <-.
  apply NoDup_cons in Hnd as [Hpl Hnd].
  set (m1 := (w_slabs s) <| m_slabclass := upd (m_slabclass (w_slabs s)) id
                ((slabcls s id) <| p_slots := hdz 0 l |>) |>).
  destruct (when_first_prev (s <| w_slabs := m1 |>) (w_heap s) p l 0 NULL Hl Hnd)
    as (h1 & Hr1 & Hd1 & Hs1 & Hf1).
  assert (Hp1 : h1 !! p = Some it) by (rewrite Hf1; done).
  set (h2 := <[p := allocated it]> h1).
  destruct (qset_remove_ok (w_heap s) h2 D (FreeQ id) p [] l Hq HD) as [Hq2 Hnin].
  { intros x Hx. apply dlseg_insert_notin.
    - intros Hin. apply Hx. apply (qo_disj _ _ Hq _ _ p Hin). rewrite HD. set_solver.
    - apply (dlseg_ext (w_heap s)); [|apply (qo_seg _ _ Hq)]. intros z Hz. unfold links. rewrite Hf1; [done|].
      intros Hzl. apply Hx. apply (qo_disj _ _ Hq _ _ z Hz). rewrite HD. set_solver. }
  { simpl. by apply dlseg_insert_notin. }
  simpl in Hq2, Hnin.
  assert (Hdec : u32 (p_sl_curr (slabcls s id) - 1) = Z.of_nat (length l)).
  { rewrite Hcurr in Hc32 |- *. rewrite u32_small; simpl in *; lia. }
  set (m2 := m1 <| m_slabclass := upd (m_slabclass m1) id
                ((m_slabclass m1 id) <| p_sl_curr := u32 (p_sl_curr (m_slabclass m1 id) - 1) |>) |>).
  assert (Hcs : class_set (w_slabs s) id ((slabcls s id) <| p_slots := hdz 0 l |>
                  <| p_sl_curr := Z.of_nat (length l) |>) m2).
  { split; [by destruct (w_slabs s)|]. intros x. unfold m2, m1. simpl. unfold upd.
    destruct (Z.eqb_spec x id) as [->|]; [|done]. rewrite Z.eqb_refl. simpl. by rewrite Hdec. }
  exists h2, m2, it. split_and!; try done.
  - unfold slots_pop. rewrite (bind_run _ _ _ _ _ eq_refl), (proj2 (Z.eqb_neq (p_sl_curr _) 0)) by lia. simpl.
    rewrite Hslots, (bind_run _ _ _ _ _ (fld_ok _ _ _ _ Hp)), Hnx.
    rewrite (bind_run _ _ _ tt (s <| w_slabs := m1 |>)) by reflexivity.
    rewrite (bind_run _ _ _ tt (s <| w_slabs := m1 |> <| w_heap := h1 |>)).
    2:{ rewrite <- Hr1. by destruct s. }
    erewrite bind_run; [|by apply wr_heap].
    rewrite (bind_run _ _ _ tt (s <| w_heap := h2 |> <| w_slabs := m2 |>)) by (destruct s; reflexivity).
    reflexivity.
  - apply (slabs_ok_class _ _ _ _ _ _ _ Hcs); try done; simpl.
    + lia.
    + intros x Hx. split; [done|].
      destruct (so_free _ _ Hok id x) as (_ & itx & Hitx & Hfx & Hcx); [rewrite HD; set_solver|].
      assert (x ≠ p) by (intros ->; done). unfold h2. rewrite lookup_insert_ne by done.
      destruct (lsame_lookup _ _ _ _ Hs1 Hitx) as (n & v & ->). eauto.
    + intros id' x Hne Hx. unfold h2. rewrite lookup_insert_ne; [symmetry; apply Hs1|].
      intros <-. assert (FreeQ id' = FreeQ id); [|congruence].
      apply (qo_disj _ _ Hq _ _ p Hx). rewrite HD. set_solver.
  - unfold h2. apply lookup_insert_eq.
  - apply (lsame_out_trans _ _ h1); [by apply lsame_lsame_out|by apply lsame_out_insert].
Qed.

Lemma slots_push_ok s D id p it :
  slabs_ok s D → (∀ q, p ∉ D q) → p ≠ 0 → 1 ≤ id ≤ m_power_largest (w_slabs s) →
  Z.of_nat (length (D (FreeQ id))) + 1 < 2 ^ 32 →
  w_heap s !! p = Some it → i_it_flags it = ITEM_SLABBED → i_slabs_clsid it = id →
  ∃ h' m', slots_push p id s = Some (tt, s <| w_heap := h' |> <| w_slabs := m' |>) ∧
    slabs_ok (s <| w_heap := h' |> <| w_slabs := m' |>) (qset D (FreeQ id) (p :: D (FreeQ id))) ∧
    lsame (w_heap s) h' ∧
    class_set (w_slabs s) id ((slabcls s id) <| p_slots := p |>
                                 <| p_sl_curr := p_sl_curr (slabcls s id) + 1 |>) m' ∧
    (∀ x, x ≠ p → x ∉ D (FreeQ id) → h' !! x = w_heap s !! x).
Proof.
  intros Hok Hnin Hp0 Hid Hlen Hp Hfl Hcl. pose proof (so_queues _ _ Hok) as Hq.
  destruct (so_slots _ _ Hok id) as (Hslots & Hcurr & Hc32).
  destruct (q_push_ok s D (FreeQ id) p it Hq Hnin Hp0 Hp) as (h' & Hrun & Hq' & Hs & Hkeep).
  set (m' := (w_slabs s) <| m_slabclass := upd (m_slabclass (w_slabs s)) id
                ((slabcls s id) <| p_slots := p |> <| p_sl_curr := u32 (p_sl_curr (slabcls s id) + 1) |>) |>).
  assert (Hcs : class_set (w_slabs s) id ((slabcls s id) <| p_slots := p |>
                  <| p_sl_curr := p_sl_curr (slabcls s id) + 1 |>) m').
  { unfold m'. rewrite u32_small by lia. apply class_set_1. }
  exists h', m'. split_and!; try done.
  - unfold slots_push. rewrite (bind_run _ _ _ _ _ eq_refl), Hslots, (bind_run _ _ _ _ _ Hrun). done.
  - apply (slabs_ok_class _ _ _ _ _ _ _ Hcs); try done; simpl.
    + lia.
    + lia.
    + intros x Hx. split; [done|]. apply elem_of_cons in Hx as [->|Hx].
      * destruct (lsame_lookup _ _ _ _ Hs Hp) as (n & v & ->). eauto.
      * destruct (so_free _ _ Hok id x Hx) as (_ & itx & Hitx & Hfx & Hcx).
        destruct (lsame_lookup _ _ _ _ Hs Hitx) as (n & v & ->). eauto.
Qed.

Lemma slabs_ok_heap s D p it :
  slabs_ok s D → (∀ q, p ∉ D q) → slabs_ok (s <| w_heap := <[p := it]> (w_heap s) |>) D.
Proof.
  intros [Hl Hq Hsl Hfr Hli] Hn. constructor; simpl; try done.
  - by apply queues_ok_insert_notin.
  - intros id x Hx. destruct (Hfr id x Hx) as (? & itx & ? & ? & ?). split; [done|]. exists itx.
    rewrite lookup_insert_ne; [done|]. intros ->. by apply (Hn (FreeQ id)).
Qed.

(** The chunk as it lies on the free list. *)
Definition freed (it : item) (id : Z) : item :=
  it <| i_it_flags := ITEM_SLABBED |> <| i_slabs_clsid := u8 id |>.

(** A chunk that is not the header of a large item goes on top of the free list
    of its class. *)
Lemma do_slabs_free_push s D id p it size :
  slabs_ok s D → (∀ q, p ∉ D q) → p ≠ 0 → 1 ≤ id ≤ m_power_largest (w_slabs s) →
  Z.of_nat (length (D (FreeQ id))) + 1 < 2 ^ 32 →
  load p s = Some (it, s) → flag (i_it_flags it) ITEM_CHUNKED = false →
  ∃ h' m', do_slabs_free p size id s = Some (tt, s <| w_heap := h' |> <| w_slabs := m' |>) ∧
    slabs_ok (s <| w_heap := h' |> <| w_slabs := m' |>) (qset D (FreeQ id) (p :: D (FreeQ id))) ∧
    lsame_out (λ x, x = p) (w_heap s) h' ∧
    (∃ n v, h' !! p = Some ((freed it id) <| i_next := n |> <| i_prev := v |>)) ∧
    class_set (w_slabs s) id ((slabcls s id) <| p_slots := p |>
                                 <| p_sl_curr := p_sl_curr (slabcls s id) + 1 |>) m'.
Proof.
  intros Hok Hnin Hp0 Hid Hlen Hp Hch. pose proof (so_largest _ _ Hok) as Hpl.
  unfold MAX_NUMBER_OF_SLAB_CLASSES in Hpl.
  set (s1 := s <| w_heap := <[p := freed it id]> (w_heap s) |>).
  assert (Hok1 : slabs_ok s1 D) by by apply slabs_ok_heap.
  destruct (slots_push_ok s1 D id p (freed it id)) as (h' & m' & Hrun & Hok' & Hs & Hcs & _); try done.
  { apply lookup_insert_eq. }
  { simpl. apply u8_small. lia. }
  exists h', m'. split_and!; try done.
  - unfold do_slabs_free. rewrite (bind_run _ _ _ _ _ eq_refl).
    rewrite (proj2 (Z.leb_le POWER_SMALLEST id)), (proj2 (Z.leb_le id _)) by (unfold POWER_SMALLEST; lia).
    rewrite (bind_run _ _ _ _ _ eq_refl).
    rewrite (proj2 (Z.ltb_ge _ _)), (proj2 (Z.ltb_ge _ _)) by (unfold POWER_SMALLEST; lia). simpl.
    rewrite (bind_run _ _ _ _ _ Hp), Hch. simpl.
    rewrite (bind_run _ _ _ _ _ (wr_load _ _ _ _ Hp)). fold (freed it id). fold s1.
    rewrite Hrun. by destruct s.
  - apply (lsame_out_trans _ _ (w_heap s1)); [by apply lsame_out_insert|by apply lsame_lsame_out].
  - apply (lsame_lookup (w_heap s1)); [done|]. apply lookup_insert_eq.
Qed.

(** ** Carving a page into chunks *)

(** The addresses of the first [n] chunks of a page. *)
Fixpoint chunks (ptr size : Z) (n : nat) : list Z :=
  match n with
  | O => []
  | S n => ptr :: chunks (ptr + size) size n
  end.

Lemma elem_of_chunks x ptr size n :
  x ∈ chunks ptr size n ↔ ∃ k, 0 ≤ k < Z.of_nat n ∧ x = ptr + size * k.
Proof.
  revert ptr. induction n as [|n IH]; intros ptr; simpl.
  - rewrite elem_of_nil. split; [done|]. intros (k & ? & _). lia.
  - rewrite elem_of_cons, IH. split.
    + intros [->|(k & Hk & ->)]; [exists 0|exists (k + 1)]; split; lia.
    + intros (k & Hk & ->). destruct (decide (k = 0)) as [->|]; [left; lia|right].
      exists (k - 1). split; lia.
Qed.

Lemma length_chunks ptr size n : length (chunks ptr size n) = n.
Proof. revert ptr. induction n; intros ptr; simpl; auto. Qed.

(** The state after [n] chunks from [ptr] on have been freed into class [id]:
    the chunks are on the free list, the last one on top. *)
Lemma split_loop_ok n s D id ptr size :
  slabs_ok s D → 1 ≤ id ≤ m_power_largest (w_slabs s) → 0 < size → 0 < ptr →
  Z.of_nat (length (D (FreeQ id))) + Z.of_nat n < 2 ^ 32 →
  (∀ x, x ∈ chunks ptr size n →
     (∀ q, x ∉ D q) ∧ w_heap s !! x = None ∧ mapped s x = true) →
  ∃ h' m', split_loop n ptr size id s = Some (tt, s <| w_heap := h' |> <| w_slabs := m' |>) ∧
    slabs_ok (s <| w_heap := h' |> <| w_slabs := m' |>)
      (qset D (FreeQ id) (rev (chunks ptr size n) ++ D (FreeQ id))) ∧
    lsame_out (λ x, x ∈ chunks ptr size n) (w_heap s) h' ∧
    m' <| m_slabclass := m_slabclass (w_slabs s) |> = w_slabs s ∧
    (∀ x, p_slabs (m_slabclass m' x) = p_slabs (slabcls s x) ∧
       p_list_size (m_slabclass m' x) = p_list_size (slabcls s x) ∧
       p_slab_list (m_slabclass m' x) = p_slab_list (slabcls s x) ∧
       p_size (m_slabclass m' x) = p_size (slabcls s x) ∧
       p_perslab (m_slabclass m' x) = p_perslab (slabcls s x)).
Proof.
  revert s D ptr. induction n as [|n IH]; intros s D ptr Hok Hid Hsz Hptr Hlen Hfresh.
  { exists (w_heap s), (w_slabs s).
    assert (s <| w_heap := w_heap s |> <| w_slabs := w_slabs s |> = s) as -> by by destruct s.
    split_and!; [done|simpl; by rewrite qset_id|done|by destruct (w_slabs s)|done]. }
  destruct (Hfresh ptr) as (Hnin & Hnone & Hmap); [simpl; set_solver|].
  assert (Hload : load ptr s = Some (zero_item, s)) by (unfold load; by rewrite Hnone, Hmap).
  destruct (do_slabs_free_push s D id ptr zero_item 0) as (h1 & m1 & Hrun1 & Hok1 & Hs1 & _ & Hcs1);
    [done..|lia|done|lia|done|done|].
  set (s1 := s <| w_heap := h1 |> <| w_slabs := m1 |>) in *.
  assert (Hnext : ∀ x, x ∈ chunks (ptr + size) size n → x ≠ ptr).
  { intros x (k & Hk & ->)%elem_of_chunks. nia. }
  pose proof (class_set_largest _ _ _ _ Hcs1) as Hpl1.
  destruct (IH s1 (qset D (FreeQ id) (ptr :: D (FreeQ id))) (ptr + size))
    as (h2 & m2 & Hrun2 & Hok2 & Hs2 & Hm2 & Hc2); [done|simpl; lia|done|lia| | |].
  { rewrite qset_eq. simpl. lia. }
  { intros x Hx. pose proof (Hnext x Hx) as Hne. destruct (Hfresh x) as (Hn & He & Hm); [simpl; set_solver|].
    split_and!; [|simpl|done].
    - intros q. unfold qset. case_decide; [set_solver|done].
    - specialize (Hs1 x Hne). rewrite He in Hs1. by destruct (h1 !! x). }
  exists h2, m2. split_and!.
  - simpl. rewrite (bind_run _ _ _ _ _ Hrun1), Hrun2. by destruct s.
  - rewrite qset_qset, qset_eq in Hok2. simpl. by rewrite <- app_assoc.
  - eapply lsame_out_trans; (eapply lsame_out_weaken; [|done]); simpl; set_solver.
  - destruct Hcs1 as [E _]. simpl in Hm2. rewrite <- E, <- Hm2. by destruct m2, m1, (w_slabs s).
  - intros x. destruct (Hc2 x) as (-> & -> & -> & -> & ->). simpl. destruct Hcs1 as [_ ->].
    unfold upd. by destruct (Z.eqb_spec x id) as [->|].
Qed.

(** ** A new page for a class *)

(** What an allocator step may change besides the free lists: memory headers,
    the allocator's own variables, the blocks obtained from [malloc]. *)
Definition slab_frame s s' : Prop :=
  s' = s <| w_heap := w_heap s' |> <| w_slabs := w_slabs s' |>
         <| w_regions := w_regions s' |> <| w_malloc := w_malloc s' |>.

Lemma slab_frame_refl s : slab_frame s s.
Proof. by destruct s. Qed.
Lemma slab_frame_trans s1 s2 s3 : slab_frame s1 s2 → slab_frame s2 s3 → slab_frame s1 s3.
Proof. unfold slab_frame. intros E1 E2. rewrite E2, E1. by destruct s1. Qed.

(** The parts of the allocator that [slabs_ok] talks about. *)
Lemma slabs_ok_mem s s' D :
  slabs_ok s D → w_heap s' = w_heap s →
  m_power_largest (w_slabs s') = m_power_largest (w_slabs s) →
  (∀ x, p_slots (slabcls s' x) = p_slots (slabcls s x) ∧
        p_sl_curr (slabcls s' x) = p_sl_curr (slabcls s x)) →
  (∀ x, 0 ≤ p_slabs (slabcls s' x) ≤ p_list_size (slabcls s' x) ∧
        Z.of_nat (length (p_slab_list (slabcls s' x))) = p_list_size (slabcls s' x) ∧
        p_list_size (slabcls s' x) < 2 ^ 31) →
  slabs_ok s' D.
Proof.
  intros [? ? Hsl ? ?] Hh Hpl Hc Hli. constructor; rewrite ?Hh, ?Hpl; try done.
  intros id. destruct (Hc id) as [-> ->]. apply Hsl.
Qed.

(** The classes keep their geometry and their free lists. *)
Definition same_geometry (m m' : slabs_t) : Prop :=
  m_power_largest m' = m_power_largest m ∧
  ∀ x, p_size (m_slabclass m' x) = p_size (m_slabclass m x) ∧
       p_perslab (m_slabclass m' x) = p_perslab (m_slabclass m x) ∧
       p_slots (m_slabclass m' x) = p_slots (m_slabclass m x) ∧
       p_sl_curr (m_slabclass m' x) = p_sl_curr (m_slabclass m x).

Lemma grow_slab_list_ok s D id :
  slabs_ok s D → p_list_size (slabcls s id) < 2 ^ 30 →
  ∃ b s', grow_slab_list id s = Some (b, s') ∧ slabs_ok s' D ∧ slab_frame s s' ∧
    w_heap s' = w_heap s ∧ same_geometry (w_slabs s) (w_slabs s') ∧
    (b = true → p_slabs (slabcls s' id) < p_list_size (slabcls s' id)) ∧
    (∀ x, p_slabs (slabcls s' x) = p_slabs (slabcls s x)).
Proof.
  intros Hok Hbig. destruct (so_lists _ _ Hok id) as (Hsl & Hlen & H31).
  unfold grow_slab_list. rewrite (bind_run _ _ _ _ _ eq_refl).
  destruct (Z.eqb_spec (p_slabs (slabcls s id)) (p_list_size (slabcls s id))) as [He|Hne].
  2:{ exists true, s. split_and!; try done; [by destruct s|]. intros _. lia. }
  set (ns := if negb (p_list_size (slabcls s id) =? 0) then u32 (p_list_size (slabcls s id) * 2) else 16).
  assert (Hns : p_list_size (slabcls s id) < ns < 2 ^ 31).
  { unfold ns. destruct (Z.eqb_spec (p_list_size (slabcls s id)) 0); simpl; [lia|].
    rewrite u32_small; lia. }
  assert (Hnull : ∀ mm, let s1 := s <| w_malloc := mm |> in
    ∃ b s', Some (false, s1) = Some (b, s') ∧ slabs_ok s' D ∧ slab_frame s s' ∧
      w_heap s' = w_heap s ∧ same_geometry (w_slabs s) (w_slabs s') ∧
      (b = true → p_slabs (slabcls s' id) < p_list_size (slabcls s' id)) ∧
      (∀ x, p_slabs (slabcls s' x) = p_slabs (slabcls s x))).
  { intros mm s1. exists false, s1. split_and!; try done.
    apply (slabs_ok_mem s); try done. apply Hok. }
  unfold malloc_next. munfold. destruct (w_malloc s) as [|a mm] eqn:Hmm.
  { simpl. specialize (Hnull []). rewrite <- Hmm in Hnull.
    assert (s <| w_malloc := w_malloc s |> = s) as E by by destruct s. by rewrite E in Hnull. }
  destruct (Z.eqb_spec a NULL) as [->|Ha]; [apply Hnull|].
  eexists true, _. split; [reflexivity|]. split_and!; try done.
  - apply (slabs_ok_mem s); try done; simpl.
    + intros x. unfold upd. by destruct (Z.eqb_spec x id) as [->|].
    + intros x. unfold upd. destruct (Z.eqb_spec x id) as [->|]; [|apply Hok].
      simpl. rewrite length_take, length_app, length_replicate. lia.
  - split; [done|]. intros x. simpl. unfold upd. by destruct (Z.eqb_spec x id) as [->|].
  - simpl. intros _. rewrite upd_eq. simpl. lia.
  - intros x. simpl. unfold upd. by destruct (Z.eqb_spec x id) as [->|].
Qed.

Lemma global_pool_ok s D :
  slabs_ok s D →
  ∃ p s', get_page_from_global_pool s = Some (p, s') ∧ slabs_ok s' D ∧ slab_frame s s' ∧
    w_heap s' = w_heap s ∧ w_regions s' = w_regions s ∧ same_geometry (w_slabs s) (w_slabs s') ∧
    (∀ x, x ≠ 0 → slabcls s' x = slabcls s x) ∧
    (if 0 <? p_slabs (slabcls s 0)
     then p_slab_list (slabcls s 0) !! Z.to_nat (p_slabs (slabcls s 0) - 1) = Some p
     else p = NULL ∧ s' = s).
Proof.
  intros Hok. destruct (so_lists _ _ Hok 0) as (Hsl & Hlen & H31).
  unfold get_page_from_global_pool, SLAB_GLOBAL_PAGE_POOL. rewrite (bind_run _ _ _ _ _ eq_refl).
  destruct (Z.ltb_spec 0 (p_slabs (slabcls s 0))) as [Hpos|Hz].
  2:{ rewrite (proj2 (Z.ltb_lt _ 1)) by lia. exists NULL, s. split_and!; try done. by destruct s. }
  rewrite (proj2 (Z.ltb_ge _ 1)) by lia.
  destruct (lookup_lt_is_Some_2 (p_slab_list (slabcls s 0)) (Z.to_nat (p_slabs (slabcls s 0) - 1)))
    as [p Hp]; [lia|].
  rewrite (bind_run _ _ _ p s) by (apply arr_get_ok; [lia|done]).
  eexists p, _. split; [reflexivity|]. split_and!; try done.
  - apply (slabs_ok_mem s); try done; simpl.
    + intros x. unfold upd. by destruct (Z.eqb_spec x 0) as [->|].
    + intros x. unfold upd. destruct (Z.eqb_spec x 0) as [->|]; [|apply Hok]. simpl. lia.
  - split; [done|]. intros x. simpl. unfold upd. by destruct (Z.eqb_spec x 0) as [->|].
  - intros x Hx. simpl. by rewrite upd_ne.
Qed.

Lemma memory_allocate_ok s D size :
  slabs_ok s D →
  ∃ p s', memory_allocate size s = Some (p, s') ∧ slabs_ok s' D ∧ slab_frame s s' ∧
    w_heap s' = w_heap s ∧ m_slabclass (w_slabs s') = m_slabclass (w_slabs s) ∧
    same_geometry (w_slabs s) (w_slabs s').
Proof.
  intros Hok. unfold memory_allocate. rewrite (bind_run _ _ _ _ _ eq_refl).
  assert (Hgo : ∀ s', w_heap s' = w_heap s → m_slabclass (w_slabs s') = m_slabclass (w_slabs s) →
    m_power_largest (w_slabs s') = m_power_largest (w_slabs s) →
    slabs_ok s' D ∧ same_geometry (w_slabs s) (w_slabs s')).
  { intros s' Hh Hc Hp. split; [|split; [done|]; by rewrite Hc].
    apply (slabs_ok_mem s); rewrite ?Hc; try done. apply Hok. }
  destruct (_ =? NULL).
  - unfold malloc_block, malloc_next. munfold.
    destruct (w_malloc s) as [|a mm]; [|destruct (Z.eqb_spec a NULL)]; simpl;
      (eexists _, _; split; [reflexivity|]);
      (split_and!; [apply Hgo; by destruct s|by destruct s|by destruct s|by destruct s|apply Hgo; by destruct s]).
  - destruct (_ <? size).
    + exists NULL, s. split_and!; try done. by destruct s.
    + eexists _, _. split; [reflexivity|].
      split_and!; [apply Hgo; by destruct s|by destruct s|by destruct s|by destruct s|apply Hgo; by destruct s].
Qed.

Definition in_page (ptr len x : Z) : Prop := ptr ≤ x < ptr + len.

(** A page no list of the family has a chunk in. *)
Definition page_fresh s D (ptr len : Z) : Prop :=
  0 < ptr ∧ mapped_range s ptr len = true ∧ ∀ q x, x ∈ D q → ¬ in_page ptr len x.

Lemma mapped_range_mapped s ptr len x :
  mapped_range s ptr len = true → in_page ptr len x → mapped s x = true.
Proof.
  unfold mapped_range, mapped, in_page. rewrite !existsb_exists.
  intros ([b n] & Hin & H) Hx. exists (b, n). split; [done|]. bool_props.
  apply andb_true_iff. split; [apply Z.leb_le|apply Z.ltb_lt]; lia.
Qed.

Lemma memset0_ok s D ptr len :
  slabs_ok s D → page_fresh s D ptr len →
  ∃ h', memset0 ptr len s = Some (tt, s <| w_heap := h' |>) ∧ slabs_ok (s <| w_heap := h' |>) D ∧
    (∀ x, in_page ptr len x → h' !! x = None) ∧ (∀ x, ¬ in_page ptr len x → h' !! x = w_heap s !! x).
Proof.
  intros Hok (Hpos & Hmap & Hfr). unfold memset0. rewrite Hmap. eexists. split; [done|].
  set (h' := filter _ _).
  assert (Hout : ∀ x, ¬ in_page ptr len x → h' !! x = w_heap s !! x).
  { intros x Hx. unfold h'. destruct (w_heap s !! x) as [it|] eqn:E.
    - by apply map_lookup_filter_Some.
    - apply map_lookup_filter_None. by left. }
  split_and!; [|intros x Hx; apply map_lookup_filter_None; right; simpl; naive_solver|done].
  destruct Hok as [? Hq ? Hfree ?]. constructor; simpl; try done.
  - apply (queues_ok_ext (w_heap s)); [|done]. intros q x Hx. unfold links. by rewrite Hout by by eapply Hfr.
  - intros id x Hx. rewrite Hout by by eapply Hfr. by apply Hfree.
Qed.

Lemma slab_list_push_ok s D id ptr :
  slabs_ok s D → p_slabs (slabcls s id) < p_list_size (slabcls s id) →
  ∃ s', slab_list_push id ptr s = Some (tt, s') ∧ slabs_ok s' D ∧ slab_frame s s' ∧
    w_heap s' = w_heap s ∧ same_geometry (w_slabs s) (w_slabs s') ∧
    p_slab_list (slabcls s' id) !! Z.to_nat (p_slabs (slabcls s id)) = Some ptr ∧
    p_slabs (slabcls s' id) = p_slabs (slabcls s id) + 1.
Proof.
  intros Hok Hlt. destruct (so_lists _ _ Hok id) as (Hsl & Hlen & H31).
  unfold slab_list_push. rewrite (bind_run _ _ _ _ _ eq_refl).
  erewrite bind_run; [|apply arr_set_ok; lia].
  eexists. split; [reflexivity|].
  assert (Hu : u32 (p_slabs (slabcls s id) + 1) = p_slabs (slabcls s id) + 1) by (apply u32_small; lia).
  split_and!; try done.
  - apply (slabs_ok_mem s); try done; simpl.
    + intros x. unfold upd. by destruct (Z.eqb_spec x id) as [->|].
    + intros x. unfold upd. destruct (Z.eqb_spec x id) as [->|]; [|apply Hok]. simpl.
      rewrite length_insert. lia.
  - split; [done|]. intros x. simpl. unfold upd. by destruct (Z.eqb_spec x id) as [->|].
  - simpl. rewrite upd_eq. simpl. apply list_lookup_insert_eq. lia.
  - simpl. by rewrite upd_eq.
Qed.

Lemma get_slab_page_ok s D id len :
  slabs_ok s D → 1 ≤ id →
  ∃ p s', get_slab_page len s = Some (p, s') ∧ slabs_ok s' D ∧ slab_frame s s' ∧
    w_heap s' = w_heap s ∧ same_geometry (w_slabs s) (w_slabs s') ∧ slabcls s' id = slabcls s id.
Proof.
  intros Hok Hid. unfold get_slab_page.
  destruct (global_pool_ok s D Hok) as (p & s1 & Hrun & Hok1 & Hf1 & Hh1 & _ & Hg1 & Hc1 & _).
  rewrite (bind_run _ _ _ _ _ Hrun). destruct (p =? NULL).
  - destruct (memory_allocate_ok s1 D len Hok1) as (p2 & s2 & Hrun2 & Hok2 & Hf2 & Hh2 & Hcc & Hg2).
    exists p2, s2. split_and!; try done.
    + by eapply slab_frame_trans.
    + congruence.
    + destruct Hg1 as [E1 G1], Hg2 as [E2 G2]. split; [congruence|]. intros x.
      destruct (G1 x) as (? & ? & ? & ?), (G2 x) as (? & ? & ? & ?). split_and!; congruence.
    + rewrite Hcc. apply Hc1. lia.
  - exists p, s1. split_and!; try done. apply Hc1. lia.
Qed.

(** The pages [do_slabs_newslab] can be given are fresh. *)
Definition pages_fresh s D (id : Z) : Prop :=
  ∀ s1 s2 ptr, grow_slab_list id s = Some (true, s1) →
    get_slab_page (slab_page_len s id) s1 = Some (ptr, s2) → ptr ≠ 0 →
    page_fresh s2 D ptr (slab_page_len s id).

(** The class's chunks fit its pages. *)
Definition class_geometry s (id : Z) : Prop :=
  0 < p_size (slabcls s id) ∧ 0 ≤ p_perslab (slabcls s id) ∧
  p_size (slabcls s id) * p_perslab (slabcls s id) ≤ slab_page_len s id.

Lemma do_slabs_newslab_ok s D id :
  slabs_ok s D → 1 ≤ id ≤ m_power_largest (w_slabs s) → class_geometry s id →
  p_list_size (slabcls s id) < 2 ^ 30 →
  Z.of_nat (length (D (FreeQ id))) + p_perslab (slabcls s id) < 2 ^ 32 →
  pages_fresh s D id →
  ∃ b s', do_slabs_newslab id s = Some (b, s') ∧ slab_frame s s' ∧
    if b then ∃ ptr,
      let l := chunks ptr (p_size (slabcls s id)) (Z.to_nat (p_perslab (slabcls s id))) in
      slabs_ok s' (qset D (FreeQ id) (rev l ++ D (FreeQ id))) ∧
      (∀ q x, x ∈ D q → ¬ in_page ptr (slab_page_len s id) x) ∧
      (∀ x, x ∈ l → ptr ≤ x ∧ x + p_size (slabcls s id) ≤ ptr + slab_page_len s id) ∧
      lsame_out (in_page ptr (slab_page_len s id)) (w_heap s) (w_heap s') ∧
      p_size (slabcls s' id) = p_size (slabcls s id) ∧
      m_power_largest (w_slabs s') = m_power_largest (w_slabs s) ∧
      p_slab_list (slabcls s' id) !! Z.to_nat (p_slabs (slabcls s id)) = Some ptr ∧
      p_slabs (slabcls s' id) = p_slabs (slabcls s id) + 1 ∧
      (∃ s1 s2, grow_slab_list id s = Some (true, s1) ∧ get_slab_page (slab_page_len s id) s1 = Some (ptr, s2) ∧ ptr ≠ NULL) ∧
      dom (w_heap s') ⊆ dom (w_heap s) ∪ list_to_set l
    else slabs_ok s' D ∧ w_heap s' = w_heap s ∧ same_geometry (w_slabs s) (w_slabs s').
Proof.
  intros Hok Hid (Hsz & Hper & Hfit) Hbig Hcount Hfresh. unfold do_slabs_newslab.
  rewrite (bind_run _ _ _ _ _ eq_refl).
  match goal with |- context [if ?g then on_slabs _ ≫= _ else _] => destruct g eqn:Hlim end.
  { eexists false, _. split; [reflexivity|]. split_and!; try done.
    apply (slabs_ok_mem s); try done. apply Hok. }
  destruct (grow_slab_list_ok s D id Hok Hbig) as (b & s1 & Hg & Hok1 & Hf1 & Hh1 & Hgeo1 & Hroom & Hsl1).
  rewrite (bind_run _ _ _ _ _ Hg). destruct b; simpl; [|exists false, s1; by split_and!].
  destruct (get_slab_page_ok s1 D id (slab_page_len s id) Hok1) as (ptr & s2 & Hp & Hok2 & Hf2 & Hh2 & Hgeo2 & Hcl2);
    [lia|].
  rewrite (bind_run _ _ _ _ _ Hp).
  destruct Hgeo1 as [Epl1 G1], Hgeo2 as [Epl2 G2].
  destruct (Z.eqb_spec ptr NULL) as [->|Hptr].
  { exists false, s2. split_and!; try done; [by eapply slab_frame_trans|congruence|].
    split; [congruence|]. intros x. destruct (G1 x) as (? & ? & ? & ?), (G2 x) as (? & ? & ? & ?).
    split_and!; congruence. }
  pose proof (Hfresh _ _ _ Hg Hp Hptr) as Hfr.
  destruct (memset0_ok s2 D ptr _ Hok2 Hfr) as (h3 & Hms & Hok3 & Hwiped & Hkept).
  rewrite (bind_run _ _ _ _ _ Hms).
  set (s3 := s2 <| w_heap := h3 |>) in *.
  assert (Hsize : p_size (slabcls s3 id) = p_size (slabcls s id)).
  { simpl. destruct (G1 id) as (<- & _), (G2 id) as (<- & _). done. }
  assert (Hpers : p_perslab (slabcls s3 id) = p_perslab (slabcls s id)).
  { simpl. destruct (G1 id) as (_ & <- & _), (G2 id) as (_ & <- & _). done. }
  assert (Hin : ∀ x, x ∈ chunks ptr (p_size (slabcls s id)) (Z.to_nat (p_perslab (slabcls s id))) →
     ptr ≤ x ∧ x + p_size (slabcls s id) ≤ ptr + slab_page_len s id).
  { intros x (k & Hk & ->)%elem_of_chunks. nia. }
  destruct Hfr as (Hpos & Hmap & Hdisj).
  destruct (split_loop_ok (Z.to_nat (p_perslab (slabcls s id))) s3 D id ptr (p_size (slabcls s id)))
    as (h4 & m4 & Hsp & Hok4 & Hs4 & Hm4 & Hc4); [done|simpl; lia|done|done|lia| |].
  { intros x Hx. destruct (Hin x Hx). assert (in_page ptr (slab_page_len s id) x) by (unfold in_page; lia).
    split_and!.
    - intros q Hq. by eapply Hdisj.
    - by apply Hwiped.
    - by apply (mapped_range_mapped s2 ptr (slab_page_len s id)). }
  unfold split_slab_page_into_freelist.
  rewrite (bind_run _ _ _ tt (s3 <| w_heap := h4 |> <| w_slabs := m4 |>)).
  2:{ rewrite (bind_run _ _ _ _ _ eq_refl). change (m_slabclass (w_slabs s3) id) with (slabcls s3 id).
      rewrite Hsize, Hpers. exact Hsp. }
  set (s4 := s3 <| w_heap := h4 |> <| w_slabs := m4 |>) in *.
  destruct (Hc4 id) as (Hsl4 & Hls4 & Hll4 & Hsz4 & _).
  assert (Hslab2 : p_slabs (slabcls s4 id) = p_slabs (slabcls s id)).
  { simpl. rewrite Hsl4. simpl. rewrite Hcl2. apply Hsl1. }
  destruct (slab_list_push_ok s4 _ id ptr Hok4) as (s5 & Hpush & Hok5 & Hf5 & Hh5 & Hgeo5 & Hlast & Hcnt).
  { simpl. rewrite Hsl4, Hls4. simpl. rewrite Hcl2. by apply Hroom. }
  rewrite (bind_run _ _ _ _ _ Hpush). exists true, s5. split; [done|]. split.
  { eapply slab_frame_trans; [exact Hf1|]. eapply slab_frame_trans; [exact Hf2|].
    eapply slab_frame_trans; [|exact Hf5]. by unfold slab_frame. }
  exists ptr. destruct Hgeo5 as [Epl5 G5]. destruct (G5 id) as (Hsz5 & _).
  split_and!; try done.
  - intros x Hx. rewrite Hh5. simpl.
    rewrite <- (Hs4 x). 2:{ intros Hc. apply Hx. destruct (Hin x Hc). unfold in_page. lia. }
    simpl. rewrite Hkept by done. congruence.
  - rewrite Hsz5. simpl. rewrite Hsz4. exact Hsize.
  - rewrite Epl5. simpl. replace (m_power_largest m4) with (m_power_largest (w_slabs s3))
      by (rewrite <- Hm4; done). simpl. congruence.
  - rewrite <- Hslab2. exact Hlast.
  - rewrite Hcnt. f_equal. exact Hslab2.
  - eauto.
  - rewrite Hh5. simpl. intros x. rewrite elem_of_union, elem_of_list_to_set, !elem_of_dom. intros Hx.
    destruct (decide (x ∈ chunks ptr (p_size (slabcls s id)) (Z.to_nat (p_perslab (slabcls s id))))) as [|Hn]; [by right|left].
    specialize (Hs4 x Hn). simpl in Hs4. destruct (h3 !! x) as [i3|] eqn:E3; [|by destruct (h4 !! x), Hx].
    destruct (decide (in_page ptr (slab_page_len s id) x)) as [Hi|Hi]; [by rewrite Hwiped in E3|].
    rewrite Hkept in E3 by done. rewrite <- Hh1, <- Hh2. by eexists.
Qed.

(** ** Allocation *)

Lemma slots_pop_empty s D id :
  slabs_ok s D → D (FreeQ id) = [] → slots_pop id s = Some (NULL, s).
Proof.
  intros Hok HD. destruct (so_slots _ _ Hok id) as (_ & Hc & _). rewrite HD in Hc.
  unfold slots_pop. rewrite (bind_run _ _ _ _ _ eq_refl), Hc. done.
Qed.

(** The entry checks of [do_slabs_alloc] pass. *)
Lemma do_slabs_alloc_entry s D size id flags :
  slabs_ok s D → 1 ≤ id ≤ m_power_largest (w_slabs s) → size ≤ p_size (slabcls s id) →
  do_slabs_alloc size id flags s =
    (when ((p_sl_curr (slabcls s id) =? 0) && negb (flags =? SLABS_ALLOC_NO_NEWPAGE))
       (do_slabs_newslab id ;; mret tt) ;; slots_pop id) s.
Proof.
  intros Hok Hid Hsize. unfold do_slabs_alloc. rewrite (bind_run _ _ _ _ _ eq_refl).
  rewrite (proj2 (Z.ltb_ge _ _)), (proj2 (Z.ltb_ge _ _)) by (unfold POWER_SMALLEST; lia). simpl.
  destruct (so_slots _ _ Hok id) as (Hsl & Hc & _).
  rewrite (bind_run _ _ _ tt s).
  - rewrite (proj2 (Z.leb_le _ _)) by done. by rewrite (bind_run _ _ _ _ _ eq_refl).
  - destruct (Z.eqb_spec (p_sl_curr (slabcls s id)) 0) as [|Hn]; [done|].
    destruct (D (FreeQ id)) as [|p l] eqn:HD; [simpl in Hc; lia|].
    destruct (so_free _ _ Hok id p) as (_ & it & Hp & Hfl & _); [rewrite HD; set_solver|].
    rewrite Hsl. simpl. by rewrite (bind_run _ _ _ _ _ (fld_ok _ _ _ _ Hp)), Hfl.
Qed.

(** What [do_slabs_alloc] promises: [NULL] and unchanged free lists, or a chunk
    of the class that no list of the family holds any more, unslabbed and with
    one reference; every other list is as before, and no header outside the
    chunk and a fresh page changed but in its links. *)
Definition alloc_post s D (id : Z) (r : Z) s' : Prop :=
  ∃ D', slabs_ok s' D' ∧ slab_frame s s' ∧ (∀ q, q ≠ FreeQ id → D' q = D q) ∧
    (∃ P, lsame_out P (w_heap s) (w_heap s') ∧ ∀ q x, x ∈ D q → x ≠ r → ¬ P x) ∧
    (r = NULL ∧ queues_eq D' D ∨
     r ≠ NULL ∧ (∀ q, r ∉ D' q) ∧ (∀ q, r ∈ D q → q = FreeQ id) ∧
       ∃ it, w_heap s' !! r = Some it ∧ i_it_flags it = 0 ∧ i_refcount it = 1).

Lemma clear_slabbed it : i_it_flags it = ITEM_SLABBED → i_it_flags (allocated it) = 0.
Proof. intros H. simpl. by rewrite H. Qed.

Lemma slots_pop_post s D id :
  slabs_ok s D → ∃ r s', slots_pop id s = Some (r, s') ∧ (r = NULL → D (FreeQ id) = []) ∧
    alloc_post s D id r s'.
Proof.
  intros Hok. destruct (D (FreeQ id)) as [|p l] eqn:HD.
  - exists NULL, s. split; [by eapply slots_pop_empty|]. split; [done|]. exists D.
    split_and!; try done; [by destruct s|exists (λ _, False); split; [done|tauto]|by left].
  - destruct (slots_pop_ok s D id p l Hok HD) as (h' & m' & it & Hrun & Hok' & Hnin & Hp & Hp' & Hs & _).
    assert (Hin : p ∈ D (FreeQ id)) by (rewrite HD; set_solver).
    destruct (queue_mem _ _ _ _ (so_queues _ _ Hok) Hin) as (_ & _ & Hp0).
    exists p, (s <| w_heap := h' |> <| w_slabs := m' |>). split; [done|]. split; [done|].
    exists (qset D (FreeQ id) l).
    destruct (so_free _ _ Hok id p Hin) as (_ & it' & Hit' & Hfl & _). simplify_eq.
    split_and!; try done.
    + intros q Hq. by apply qset_ne.
    + exists (λ x, x = p). split; [done|]. intros; done.
    + right. split_and!; try done.
      * intros q Hq. by eapply (qo_disj _ _ (so_queues _ _ Hok)).
      * exists (allocated it). split_and!; [done|by apply clear_slabbed|done].
Qed.

Lemma do_slabs_alloc_post s D size id flags :
  slabs_ok s D → 1 ≤ id ≤ m_power_largest (w_slabs s) → size ≤ p_size (slabcls s id) →
  class_geometry s id → p_list_size (slabcls s id) < 2 ^ 30 →
  Z.of_nat (length (D (FreeQ id))) + p_perslab (slabcls s id) < 2 ^ 32 → pages_fresh s D id →
  ∃ r s', do_slabs_alloc size id flags s = Some (r, s') ∧ alloc_post s D id r s'.
Proof.
  intros Hok Hid Hsize Hgeo Hbig Hcount Hfresh.
  rewrite (do_slabs_alloc_entry _ _ _ _ _ Hok Hid Hsize).
  destruct (_ && negb _) eqn:Hnew; simpl; [|rewrite (bind_run _ _ _ _ _ eq_refl);
    destruct (slots_pop_post s D id Hok) as (r & s' & ? & _ & ?); eauto].
  destruct (do_slabs_newslab_ok s D id Hok Hid Hgeo Hbig Hcount Hfresh) as (b & s1 & Hrun & Hf1 & Hres).
  rewrite (bind_run _ _ _ tt s1) by (by rewrite (bind_run _ _ _ _ _ Hrun)).
  destruct b.
  - destruct Hres as (ptr & Hok1 & Hdisj & Hin & Hs1 & _).
    destruct (slots_pop_post s1 _ id Hok1) as (r & s2 & Hrun2 & Hnull & D2 & Hok2 & Hf2 & Hoth & (P & HsP & HP) & Hr).
    exists r, s2. split; [done|]. exists D2. split_and!; try done.
    + by eapply slab_frame_trans.
    + intros q Hq. rewrite Hoth by done. by apply qset_ne.
    + exists (λ x, P x ∨ in_page ptr (slab_page_len s id) x). split.
      * eapply lsame_out_trans; (eapply lsame_out_weaken; [|done]); simpl; tauto.
      * intros q x Hx Hne [HPx|Hpg]; [|by eapply Hdisj]. apply (HP q x); [|done|done].
        unfold qset. case_decide; [|done]. subst. set_solver.
    + destruct Hr as [[-> He]|(Hr0 & Hn2 & Hq2 & Hit)].
      * left. split; [done|]. intros q. rewrite He. unfold qset. case_decide; [|done]. subst.
        specialize (Hnull eq_refl). rewrite qset_eq in Hnull. rewrite Hnull.
        by apply app_eq_nil in Hnull as [_ ->].
      * right. split_and!; try done. intros q Hq. apply Hq2. unfold qset. case_decide; [subst; set_solver|done].
  - destruct Hres as (Hok1 & Hh1 & Hg1).
    destruct (slots_pop_post s1 D id Hok1) as (r & s2 & Hrun2 & Hnull & D2 & Hok2 & Hf2 & Hoth & (P & HsP & HP) & Hr).
    exists r, s2. split; [done|]. exists D2. rewrite Hh1 in HsP. split_and!; try done.
    + by eapply slab_frame_trans.
    + by exists P.
Qed.

(** ** Freeing a large item *)

(** [chain h c l]: from [c] the chunks of a large item are linked by [next], in
    the order [l]; each is marked as a chunk and names its class. *)
Fixpoint chunk_chain h (pl : Z) (c : Z) (l : list (Z * Z)) : Prop :=
  match l with
  | [] => c = NULL
  | (p, id) :: l => c = p ∧ p ≠ NULL ∧ 1 ≤ id ≤ pl ∧
      ∃ it, h !! p = Some it ∧ i_it_flags it = ITEM_CHUNK ∧ i_slabs_clsid it = id ∧
        chunk_chain h pl (i_next it) l
  end.

Lemma chunk_chain_ext h h' pl c l :
  (∀ p, p ∈ l.*1 → h' !! p = h !! p) → chunk_chain h pl c l → chunk_chain h' pl c l.
Proof.
  revert c. induction l as [|[p id] l IH]; intros c He; simpl; [done|].
  intros (-> & ? & ? & it & Hp & ? & ? & Hl). split; [done|]. split; [done|]. split; [done|].
  exists it. rewrite He by (simpl; set_solver). split_and!; try done. apply IH; [|done].
  intros q Hq. apply He. simpl. set_solver.
Qed.

(** The free lists after the chunks have been stacked in order. *)
Definition push_chunks (D : queues) (l : list (Z * Z)) : queues :=
  foldl (λ D '(p, id), qset D (FreeQ id) (p :: D (FreeQ id))) D l.

Lemma push_chunks_length l D id :
  (length (push_chunks D l (FreeQ id)) ≤ length (D (FreeQ id)) + length l)%nat.
Proof.
  revert D. induction l as [|[p i] l IH]; intros D; simpl; [lia|]. etrans; [apply IH|].
  unfold qset. case_decide as E; [injection E as ->; simpl; lia|lia].
Qed.

Lemma qset_cons_notin D q p r x : x ∉ D r → x ≠ p → x ∉ qset D q (p :: D q) r.
Proof. intros Hx Hne. unfold qset. case_decide; [subst; set_solver|done]. Qed.

Lemma free_chunk_loop_ok fuel s D c l :
  slabs_ok s D → chunk_chain (w_heap s) (m_power_largest (w_slabs s)) c l → NoDup l.*1 →
  (∀ q p, p ∈ l.*1 → p ∉ D q) → (length l < fuel)%nat →
  (∀ id, Z.of_nat (length (D (FreeQ id))) + Z.of_nat (length l) < 2 ^ 32) →
  ∃ h' m', free_chunk_loop fuel c s = Some (tt, s <| w_heap := h' |> <| w_slabs := m' |>) ∧
    slabs_ok (s <| w_heap := h' |> <| w_slabs := m' |>) (push_chunks D l) ∧
    lsame_out (λ x, x ∈ l.*1) (w_heap s) h'.
Proof.
  revert fuel s D c. induction l as [|[p id] l IH]; intros [|fuel] s D c Hok Hch Hnd Hnin Hf Hcount;
    simpl in Hf; try lia.
  { simpl in Hch. subst c. exists (w_heap s), (w_slabs s).
    assert (s <| w_heap := w_heap s |> <| w_slabs := w_slabs s |> = s) as -> by by destruct s. done. }
  destruct Hch as (-> & Hp0 & Hid & it & Hp & Hfl & Hcl & Hch). fold (chunk_chain (w_heap s)) in Hch.
  simpl in Hnd. apply NoDup_cons in Hnd as [Hpl Hnd].
  set (it1 := it <| i_it_flags := ITEM_SLABBED |>).
  set (s1 := s <| w_heap := <[p := it1]> (w_heap s) |>).
  assert (Hpn : ∀ q, p ∉ D q) by (intros q; apply Hnin; simpl; set_solver).
  assert (Hok1 : slabs_ok s1 D) by by apply slabs_ok_heap.
  pose proof (Hcount id) as Hcid. simpl in Hcid.
  destruct (slots_push_ok s1 D id p it1) as (h2 & m2 & Hrun2 & Hok2 & Hs2 & Hcs2 & Hkeep2);
    [done|done|done|done|lia|apply lookup_insert_eq|done|done|].
  set (s2 := s1 <| w_heap := h2 |> <| w_slabs := m2 |>) in *.
  pose proof (class_set_largest _ _ _ _ Hcs2) as Hpl2.
  destruct (IH fuel s2 (qset D (FreeQ id) (p :: D (FreeQ id))) (i_next it))
    as (h3 & m3 & Hrun3 & Hok3 & Hs3); [done| |done| |lia| |].
  { simpl. rewrite Hpl2. simpl. apply (chunk_chain_ext (w_heap s)); [|done]. intros x Hx.
    assert (x ≠ p) by set_solver.
    rewrite Hkeep2; [simpl; by apply lookup_insert_ne|done|]. apply Hnin. simpl. set_solver. }
  { intros q x Hx. apply qset_cons_notin; [apply Hnin; simpl; set_solver|set_solver]. }
  { intros id'. unfold qset. pose proof (Hcount id') as Hc'. simpl in Hc'. case_decide; simpl; [|lia].
    lia. }
  exists h3, m3. split_and!.
  - simpl. rewrite (proj2 (Z.eqb_neq _ _)) by done.
    rewrite (bind_run _ _ _ _ _ (load_ok _ _ _ Hp)), Hfl, (bind_run _ _ _ _ _ eq_refl).
    rewrite (bind_run _ _ _ _ _ (wr_ok _ _ _ _ Hp)), Hcl. fold it1 s1.
    rewrite (bind_run _ _ _ _ _ Hrun2), Hrun3. by destruct s.
  - exact Hok3.
  - apply (lsame_out_trans _ _ h2).
    + apply (lsame_out_trans _ _ (w_heap s1)); [apply lsame_out_insert; simpl; set_solver|by apply lsame_lsame_out].
    + eapply lsame_out_weaken; [|exact Hs3]. simpl. set_solver.
Qed.

Lemma chunk_chain_cons h pl c l :
  chunk_chain h pl c l → c ≠ NULL →
  ∃ id l' it, l = (c, id) :: l' ∧ h !! c = Some it.
Proof. destruct l as [|[p id] l]; simpl; [done|]. intros (-> & _ & _ & it & ? & _) _. eauto 10. Qed.

(** A write that keeps the flags, the class and [next] of a header. *)
Lemma chunk_chain_insert h pl c l p it it' :
  h !! p = Some it → i_it_flags it' = i_it_flags it → i_slabs_clsid it' = i_slabs_clsid it →
  i_next it' = i_next it → chunk_chain h pl c l → chunk_chain (<[p := it']> h) pl c l.
Proof.
  intros Hp Hf Hc Hn. revert c. induction l as [|[q id] l IH]; intros c; simpl; [done|].
  intros (-> & ? & ? & iq & Hq & ? & ? & Hl). split; [done|]. split; [done|]. split; [done|].
  destruct (decide (p = q)) as [->|Hpq].
  - simplify_eq. exists it'. rewrite lookup_insert_eq. split_and!; [done|congruence|done|]. rewrite Hn. auto.
  - exists iq. rewrite lookup_insert_ne by done. auto.
Qed.

Lemma chunk_chain_length h pl c l :
  chunk_chain h pl c l → NoDup l.*1 → (length l ≤ size h)%nat.
Proof.
  intros Hch Hnd. rewrite <- (length_fmap fst).
  rewrite <- (size_list_to_set (C := gset Z)) by done.
  rewrite <- (size_dom (D := gset Z)). apply subseteq_size.
  intros p Hp%elem_of_list_to_set. apply elem_of_dom. revert c Hch Hp.
  clear Hnd. induction l as [|[q id] l IH]; intros c; simpl; [set_solver|].
  intros (-> & _ & _ & it & Hq & _ & _ & Hl) [->|Hp]%elem_of_cons; [by rewrite Hq|by eapply IH].
Qed.

(** The large item [p], its inner chunk header and the chunks [l] behind it. *)
Record large_item s D (p hid : Z) (l : list (Z * Z)) (it ch : item) : Prop := {
  li_hdr : w_heap s !! p = Some it;
  li_schunk : w_heap s !! ITEM_schunk p it = Some ch;
  li_ne : ITEM_schunk p it ≠ p ∧ p ≠ NULL;
  li_class : i_nkey ch = hid ∧ 1 ≤ hid ≤ m_power_largest (w_slabs s);
  li_chain : chunk_chain (w_heap s) (m_power_largest (w_slabs s)) (i_next ch) l;
  li_nodup : NoDup (p :: ITEM_schunk p it :: l.*1);
  li_notin : ∀ q x, x ∈ p :: l.*1 → x ∉ D q
}.

(** The inner chunk's successor loses its [prev]; nothing the free lists or the
    chain depend on changes. *)
Lemma unhook_first_chunk s D l c pl :
  slabs_ok s D → chunk_chain (w_heap s) pl c l → (∀ q x, x ∈ l.*1 → x ∉ D q) →
  ∃ h', when (negb (c =? NULL)) (wr c (λ x, x <| i_prev := NULL |>)) s =
          Some (tt, s <| w_heap := h' |>) ∧
    slabs_ok (s <| w_heap := h' |>) D ∧ chunk_chain h' pl c l ∧
    (∀ x, x ∉ l.*1 → h' !! x = w_heap s !! x) ∧ lsame_out (λ x, x ∈ l.*1) (w_heap s) h' ∧
    dom h' = dom (w_heap s).
Proof.
  intros Hok Hch Hnin. destruct (Z.eqb_spec c NULL) as [->|Hc]; simpl.
  { exists (w_heap s). assert (s <| w_heap := w_heap s |> = s) as -> by by destruct s. done. }
  destruct (chunk_chain_cons _ _ _ _ Hch Hc) as (id & l' & it & -> & Hit).
  exists (<[c := it <| i_prev := NULL |>]> (w_heap s)). split_and!.
  - by apply wr_ok.
  - apply slabs_ok_heap; [done|]. intros q. apply Hnin. simpl. set_solver.
  - by apply (chunk_chain_insert _ _ _ _ c it).
  - intros x Hx. apply lookup_insert_ne. simpl in Hx. set_solver.
  - apply lsame_out_insert. simpl. set_solver.
  - apply dom_insert_lookup_L. by eexists.
Qed.

(** Freeing a large item returns the header to the class it was taken from and
    every chunk to its own class. *)
Lemma do_slabs_free_chunked_ok s D p hid l it ch n :
  slabs_ok s D → large_item s D p hid l it ch → hid < 256 →
  (∀ id, Z.of_nat (length (D (FreeQ id))) + Z.of_nat (length l) + 1 < 2 ^ 32) →
  ∃ h' m', do_slabs_free_chunked p n s = Some (tt, s <| w_heap := h' |> <| w_slabs := m' |>) ∧
    slabs_ok (s <| w_heap := h' |> <| w_slabs := m' |>)
      (push_chunks (qset D (FreeQ hid) (p :: D (FreeQ hid))) l) ∧
    lsame_out (λ x, x ∈ p :: l.*1) (w_heap s) h'.
Proof.
  intros Hok [Hp Hc [Hne Hp0] [Hnk Hid] Hch Hnd Hnin] H256 Hcount.
  apply NoDup_cons in Hnd as [Hpn Hnd]. apply NoDup_cons in Hnd as [Hcn Hnd].
  assert (Hpl : p ∉ l.*1) by set_solver. set (c := ITEM_schunk p it) in *.
  assert (Hpq : ∀ q, p ∉ D q) by (intros q; apply Hnin; set_solver).
  set (it1 := it <| i_it_flags := ITEM_SLABBED |> <| i_prev := NULL |>).
  set (it2 := it1 <| i_slabs_clsid := hid |>).
  set (s2 := s <| w_heap := <[p := it2]> (w_heap s) |>).
  assert (Hok2 : slabs_ok s2 D) by by apply slabs_ok_heap.
  assert (Hch2 : chunk_chain (w_heap s2) (m_power_largest (w_slabs s)) (i_next ch) l).
  { apply (chunk_chain_ext (w_heap s)); [|done]. intros x Hx. apply lookup_insert_ne. set_solver. }
  destruct (unhook_first_chunk s2 D l (i_next ch) _ Hok2 Hch2) as (h3 & Hr3 & Hok3 & Hch3 & Hk3 & Hs3 & Hd3);
    [intros q x Hx; apply Hnin; set_solver|].
  set (s3 := s2 <| w_heap := h3 |>) in *.
  assert (Hp3 : w_heap s3 !! p = Some it2) by (simpl; rewrite Hk3; [apply lookup_insert_eq|done]).
  pose proof (Hcount hid) as Hch'.
  destruct (slots_push_ok s3 D hid p it2) as (h4 & m4 & Hr4 & Hok4 & Hs4 & Hcs4 & Hk4);
    [done|done|done|done|lia|done|done|done|].
  set (s4 := s3 <| w_heap := h4 |> <| w_slabs := m4 |>) in *.
  pose proof (class_set_largest _ _ _ _ Hcs4) as Hpl4.
  assert (Hch4 : chunk_chain h4 (m_power_largest m4) (i_next ch) l).
  { rewrite Hpl4. apply (chunk_chain_ext h3); [|done]. intros x Hx. simpl in Hk4.
    apply Hk4; [set_solver|]. apply Hnin. set_solver. }
  destruct (free_chunk_loop_ok (S (size (w_heap s4))) s4 _ (i_next ch) l Hok4 Hch4 Hnd)
    as (h5 & m5 & Hr5 & Hok5 & Hs5).
  { intros q x Hx. apply qset_cons_notin; [apply Hnin; set_solver|set_solver]. }
  { apply Nat.lt_succ_r. by eapply chunk_chain_length. }
  { intros id. specialize (Hcount id). unfold qset. case_decide as E; [injection E as ->; simpl; lia|lia]. }
  exists h5, m5. split_and!.
  - unfold do_slabs_free_chunked. rewrite (bind_run _ _ _ _ _ (load_ok _ _ _ Hp)). fold c.
    rewrite (bind_run _ _ _ _ _ (wr_ok _ _ _ _ Hp)). fold it1.
    erewrite bind_run; [|apply load_ok; simpl; rewrite lookup_insert_ne by done; exact Hc].
    erewrite bind_run; [|apply wr_heap; apply lookup_insert_eq].
    rewrite insert_insert_eq, Hnk. fold it2. fold s2.
    rewrite (bind_run _ _ _ _ _ Hr3), (bind_run _ _ _ _ _ Hr4), (bind_run _ _ _ _ _ eq_refl), Hr5.
    by destruct s.
  - exact Hok5.
  - apply (lsame_out_trans _ _ (w_heap s2)); [apply lsame_out_insert; set_solver|].
    apply (lsame_out_trans _ _ h3); [eapply lsame_out_weaken; [|done]; set_solver|].
    apply (lsame_out_trans _ _ h4); [by apply lsame_lsame_out|].
    eapply lsame_out_weaken; [|done]. set_solver.
Qed.
