(* ===== verification/SlabsThm.v ===== *)
(** * The slab allocator as seen by its clients

    The allocator's theorems, each with a concrete run on a small pool of
    1024-byte pages. *)

From S2P Require Import Prelude Bipbuf Hashes State Links Queues Assoc Slabs SlabsSpec.

Implicit Types (s : world) (D : queues).

(** ** A small allocator *)

Definition slab_settings : settings_t :=
  mkSettings true 1024 512 1024 true 0 1 true false 61 20 40 0 0 0 65536 48 (S754_finite false 7205759403792794 (-55)) (S754_finite false 4503599627370496 (-51)).

(** The server before [slabs_init], with the addresses the coming calls of
    [malloc] return. *)
Definition boot_world : world := mkWorld ∅ []
  (mkAssoc 4 (replicate 16 NULL) [] false 0)
  (mkLru (λ _, NULL) (λ _, NULL) (λ _, zero_itemstats) (λ _, 0) (λ _, 0) None 0 0 0)
  (mkSlabs (λ _, mkSlabclass 0 0 NULL 0 0 [] 0) 0 0 false 0 NULL NULL 0)
  (mkStats 0 0 0 4 128 false 0 0 0 0 0 0 0 false)
  (mkTstats 0 0 0 (λ _, 0) (λ _, 0) (λ _, 0) (λ _, 0))
  slab_settings (mkConn false 0) 100 ∅ [4096; 8192; 12288; 16384; 20480; 24576; 28672; 32768] []
  (mkBump (mkBipbuf 0 0 0 0 0 []) ∅ 0) zero_rebal 2.

(** 1.25 *)
Definition default_factor : spec_float := S754_finite false 5629499534213120 (-52).

Definition init_world : world :=
  match slabs_init 65536 default_factor false None NULL false NULL None boot_world with
  | Some (_, s) => s
  | None => boot_world
  end.

Definition no_queues : queues := λ _, [].

Lemma no_queues_ok h : queues_ok h no_queues.
Proof. constructor; [done|constructor|]. intros q q' p H. by apply elem_of_nil in H. Qed.

Example init_largest : m_power_largest (w_slabs init_world) = 8.
Proof. vm_compute. reflexivity. Qed.

Example init_sizes :
  (λ i, p_size (slabcls init_world i)) <$> seqZ 1 8 = [96; 120; 152; 192; 240; 304; 384; 512].
Proof. vm_compute. reflexivity. Qed.

(** ** Size classes *)

Definition aligned8 (size : Z) : Z :=
  if negb (size mod CHUNK_ALIGN_BYTES =? 0)
  then u32 (size + (CHUNK_ALIGN_BYTES - size mod CHUNK_ALIGN_BYTES)) else size.

Lemma aligned8_mod size : aligned8 size mod 8 = 0.
Proof.
  unfold aligned8, CHUNK_ALIGN_BYTES. destruct (Z.eqb_spec (size mod 8) 0) as [|Hn]; simpl; [done|].
  unfold u32. change 8 with (2 ^ 3) at 3. rewrite mod_pow2_mod by lia. change (2 ^ 3) with 8.
  replace (size + (8 - size mod 8)) with ((size / 8 + 1) * 8)
    by (pose proof (Z.div_mod size 8 ltac:(lia)); lia).
  apply Z.mod_mul. lia.
Qed.

(** The classes [slabs_init_loop] sets are aligned, cut the page evenly, and
    the others are left alone. *)
Lemma init_loop_classes fuel o factor sizes cls size i j cls' :
  slabs_init_loop fuel o factor sizes cls size i = Some (j, cls') →
  i ≤ j ≤ i + Z.of_nat fuel ∧
  (∀ x, i ≤ x < j → p_size (cls' x) mod 8 = 0 ∧
     p_perslab (cls' x) = o_slab_page_size o / p_size (cls' x)) ∧
  (∀ x, x < i → cls' x = cls x).
Proof.
  revert cls size i. induction fuel as [|fuel IH]; intros cls size i; simpl.
  { intros [= <- <-]. split_and!; [lia..| |done]. intros; lia. }
  assert (Hstep : ∀ sz nsz,
    slabs_init_loop fuel o factor sizes
      (upd cls i ((cls i) <| p_size := aligned8 sz |>
         <| p_perslab := o_slab_page_size o / aligned8 sz |>)) nsz (i + 1) = Some (j, cls') →
    i ≤ j ≤ i + Z.of_nat (S fuel) ∧
    (∀ x, i ≤ x < j → p_size (cls' x) mod 8 = 0 ∧
       p_perslab (cls' x) = o_slab_page_size o / p_size (cls' x)) ∧
    (∀ x, x < i → cls' x = cls x)).
  { intros sz nsz H. destruct (IH _ _ _ H) as (Hj & Hc & Ho). split_and!; [lia..| |].
    - intros x Hx. destruct (decide (x = i)) as [->|]; [|apply Hc; lia].
      rewrite Ho by lia. rewrite upd_eq. simpl. split; [apply aligned8_mod|done].
    - intros x Hx. rewrite Ho by lia. apply upd_ne. lia. }
  destruct sizes as [l|].
  - destruct (l !! Z.to_nat (i - 1)) as [sz|]; [|done].
    destruct sz as [|sz|sz]; [|by apply Hstep..].
    intros [= <- <-]. split_and!; [lia..| |done]. intros; lia.
  - destruct (SFleb _ _); [|by apply Hstep].
    intros [= <- <-]. split_and!; [lia..| |done]. intros; lia.
Qed.

(** The loop sets sizes only. *)
Definition no_memory (p : slabclass_t) : Prop :=
  p_slots p = NULL ∧ p_sl_curr p = 0 ∧ p_slabs p = 0 ∧ p_slab_list p = [] ∧ p_list_size p = 0.

Lemma init_loop_memory fuel o factor sizes cls size i j cls' :
  slabs_init_loop fuel o factor sizes cls size i = Some (j, cls') →
  (∀ x, no_memory (cls x)) → ∀ x, no_memory (cls' x).
Proof.
  revert cls size i. induction fuel as [|fuel IH]; intros cls size i; simpl.
  { by intros [= <- <-]. }
  assert (Hu : ∀ a b, (∀ x, no_memory (cls x)) →
    ∀ x, no_memory (upd cls i ((cls i) <| p_size := a |> <| p_perslab := b |>) x)).
  { intros a b H x. unfold upd. destruct (x =? i); apply H. }
  destruct sizes as [l|].
  - destruct (l !! Z.to_nat (i - 1)) as [[|sz|sz]|]; [by intros [= <- <-]| | |done];
      intros Hl H; (eapply IH; [exact Hl|]); by apply Hu.
  - destruct (SFleb _ _); [by intros [= <- <-]|]. intros Hl H. eapply IH; [exact Hl|]. by apply Hu.
Qed.

(** The state [slabs_init] leaves without preallocation. *)
Lemma slabs_init_run limit factor sizes s b s' :
  slabs_init limit factor false sizes NULL false NULL None s = Some (b, s') →
  ∃ i cls, slabs_init_loop (Z.to_nat (MAX_NUMBER_OF_SLAB_CLASSES - 2)) (w_settings s) factor sizes
      (λ _, mkSlabclass 0 0 NULL 0 0 [] 0)
      (u32 (sizeof_item + o_chunk_size (w_settings s))) POWER_SMALLEST = Some (i, cls) ∧ b = true ∧
    s' = s <| w_slabs := (w_slabs s) <| m_mem_limit := limit |>
      <| m_slabclass := upd cls i ((cls i) <| p_size := o_slab_chunk_size_max (w_settings s) |>
           <| p_perslab := o_slab_page_size (w_settings s) / o_slab_chunk_size_max (w_settings s) |>) |>
      <| m_power_largest := i |> |>.
Proof.
  unfold slabs_init. rewrite (bind_run _ _ _ _ _ eq_refl), (bind_run _ _ _ _ _ eq_refl), (bind_run _ _ _ _ _ eq_refl).
  destruct (slabs_init_loop _ _ _ _ _ _ _) as [[i cls]|] eqn:Hl; [|done].
  rewrite (bind_run _ _ _ _ _ eq_refl), (bind_run _ _ _ _ _ eq_refl). simpl. intros [= <- <-].
  exists i, cls. split_and!; [done|done|]. by destruct s.
Qed.

Lemma slabs_init_empty limit factor sizes s b s' :
  slabs_init limit factor false sizes NULL false NULL None s = Some (b, s') → slabs_ok s' no_queues.
Proof.
  intros (i & cls & Hl & _ & ->)%slabs_init_run.
  pose proof (init_loop_classes _ _ _ _ _ _ _ _ _ Hl) as (Hi & _).
  pose proof (init_loop_memory _ _ _ _ _ _ _ _ _ Hl) as Hm.
  unfold POWER_SMALLEST, MAX_NUMBER_OF_SLAB_CLASSES in *.
  assert (∀ x, no_memory (upd cls i ((cls i) <| p_size := o_slab_chunk_size_max (w_settings s) |>
           <| p_perslab := o_slab_page_size (w_settings s) / o_slab_chunk_size_max (w_settings s) |>) x)) as Hx.
  { intros x. unfold upd. destruct (x =? i); by apply Hm. }
  constructor; simpl.
  - unfold MAX_NUMBER_OF_SLAB_CLASSES. lia.
  - apply no_queues_ok.
  - intros id. destruct (Hx id) as (-> & -> & _). done.
  - intros id p H. by apply elem_of_nil in H.
  - intros id. destruct (Hx id) as (_ & _ & -> & -> & ->). simpl. lia.
Qed.

(** Whatever the growth factor or the list of sizes, [slabs_init]
    sets up between 1 and 63 classes; each class below the largest has a chunk
    size that is a multiple of 8 and as many chunks as fit a page, the largest
    class has chunks of [slab_chunk_size_max], and the allocator starts out
    consistent, with no page and no free chunk. *)
Theorem slabs_init_classes limit factor sizes s b s' :
  slabs_init limit factor false sizes NULL false NULL None s = Some (b, s') →
  b = true ∧ 1 ≤ m_power_largest (w_slabs s') ≤ 63 ∧
  (∀ i, 1 ≤ i < m_power_largest (w_slabs s') →
     p_size (slabcls s' i) mod 8 = 0 ∧
     p_perslab (slabcls s' i) = o_slab_page_size (w_settings s) / p_size (slabcls s' i)) ∧
  p_size (slabcls s' (m_power_largest (w_slabs s'))) = o_slab_chunk_size_max (w_settings s) ∧
  m_mem_limit (w_slabs s') = limit ∧ slabs_ok s' no_queues.
Proof.
  intros H. pose proof (slabs_init_empty _ _ _ _ _ _ H) as Hok.
  apply slabs_init_run in H as (i & cls & Hl & -> & ->).
  apply init_loop_classes in Hl as (Hi & Hc & _). simpl.
  unfold POWER_SMALLEST, MAX_NUMBER_OF_SLAB_CLASSES in *.
  split_and!; try done; try lia.
  - intros x Hx. rewrite upd_ne by lia. apply Hc. lia.
  - by rewrite upd_eq.
Qed.

Lemma slabs_init_classes_witness :
  true = true ∧ 1 ≤ m_power_largest (w_slabs init_world) ≤ 63 ∧
  (∀ i, 1 ≤ i < m_power_largest (w_slabs init_world) →
     p_size (slabcls init_world i) mod 8 = 0 ∧
     p_perslab (slabcls init_world i) =
       o_slab_page_size (w_settings boot_world) / p_size (slabcls init_world i)) ∧
  p_size (slabcls init_world (m_power_largest (w_slabs init_world))) =
    o_slab_chunk_size_max (w_settings boot_world) ∧
  m_mem_limit (w_slabs init_world) = 65536 ∧ slabs_ok init_world no_queues.
Proof.
  apply (slabs_init_classes 65536 default_factor None boot_world true init_world).
  reflexivity.
Defined.

(** The class [slabs_clsid] chooses: for an object within
    [item_size_max] the smallest class whose chunks hold it, or the largest
    class when no single chunk does (the item is then stored in several
    chunks); 0 for an empty or too large object. *)
Theorem slabs_clsid_least s size :
  1 ≤ m_power_largest (w_slabs s) → classes_sorted (w_slabs s) → 0 ≤ size →
  ∃ c, slabs_clsid size s = Some (c, s) ∧
    (c = 0 ↔ size = 0 ∨ o_item_size_max (w_settings s) < size) ∧
    (c ≠ 0 → 1 ≤ c ≤ m_power_largest (w_slabs s) ∧
       (∀ j, 1 ≤ j ≤ m_power_largest (w_slabs s) → size ≤ p_size (slabcls s j) → c ≤ j) ∧
       (size ≤ p_size (slabcls s (m_power_largest (w_slabs s))) → size ≤ p_size (slabcls s c))).
Proof. apply slabs_clsid_spec. Qed.

Lemma init_sorted : classes_sorted (w_slabs init_world).
Proof.
  intros i j Hi Hj. rewrite init_largest in Hj.
  assert (∀ x y, In x (seqZ 1 8) → In y (seqZ 1 8) → x < y →
            p_size (m_slabclass (w_slabs init_world) x) < p_size (m_slabclass (w_slabs init_world) y)) as H.
  { cut (forallb (λ x, forallb (λ y, (y <=? x) || (p_size (m_slabclass (w_slabs init_world) x) <?
            p_size (m_slabclass (w_slabs init_world) y))) (seqZ 1 8)) (seqZ 1 8) = true).
    - rewrite forallb_forall. intros Hall x y Hx Hy Hxy. specialize (Hall x Hx).
      rewrite forallb_forall in Hall. specialize (Hall y Hy).
      apply orb_true_iff in Hall as [H|H]; bool_props; lia.
    - vm_compute. reflexivity. }
  apply H; [apply list_elem_of_In, elem_of_seqZ; lia..|lia].
Qed.

Lemma slabs_clsid_least_witness :
  ∃ c, slabs_clsid 150 init_world = Some (c, init_world) ∧
    (c = 0 ↔ 150 = 0 ∨ o_item_size_max (w_settings init_world) < 150) ∧
    (c ≠ 0 → 1 ≤ c ≤ m_power_largest (w_slabs init_world) ∧
       (∀ j, 1 ≤ j ≤ m_power_largest (w_slabs init_world) →
          150 ≤ p_size (slabcls init_world j) → c ≤ j) ∧
       (150 ≤ p_size (slabcls init_world (m_power_largest (w_slabs init_world))) →
          150 ≤ p_size (slabcls init_world c))).
Proof.
  apply (slabs_clsid_least init_world 150).
  - rewrite init_largest. lia.
  - exact init_sorted.
  - lia.
Defined.

(** ** Allocation and release *)


Lemma init_ok : slabs_ok init_world no_queues.
Proof. apply (slabs_init_empty 65536 default_factor None boot_world true). reflexivity. Qed.

(** The page [do_slabs_newslab] would get for a class is above 0 and mapped. *)
Definition page_check s (id : Z) : bool :=
  match grow_slab_list id s with
  | Some (true, s1) =>
      match get_slab_page (slab_page_len s id) s1 with
      | Some (ptr, s2) => (0 <? ptr) && mapped_range s2 ptr (slab_page_len s id)
      | None => false
      end
  | _ => false
  end.

Lemma pages_fresh_empty s id : page_check s id = true → pages_fresh s no_queues id.
Proof.
  unfold page_check. intros Hc s1 s2 ptr Hg Hp _. rewrite Hg, Hp in Hc. bool_props.
  split_and!; try done. intros q x Hx. by apply elem_of_nil in Hx.
Qed.


Example alloc_runs : (do_slabs_alloc 90 1 0 init_world ≫= λ '(r, _), Some r) = Some 9056.
Proof. vm_compute. reflexivity. Qed.

(** A page given to a class is cut into [perslab] chunks that
    lie inside the page, next to each other, and all of them go on the class's
    free list, the page on its page list; no chunk already in use or free is in
    the page. When no page can be had the free lists are unchanged. *)
Theorem do_slabs_newslab_carves s D id :
  slabs_ok s D → 1 ≤ id ≤ m_power_largest (w_slabs s) → class_geometry s id →
  p_list_size (slabcls s id) < 2 ^ 30 →
  Z.of_nat (length (D (FreeQ id))) + p_perslab (slabcls s id) < 2 ^ 32 → pages_fresh s D id →
  ∃ b s', do_slabs_newslab id s = Some (b, s') ∧
    if b then ∃ ptr,
      let l := chunks ptr (p_size (slabcls s id)) (Z.to_nat (p_perslab (slabcls s id))) in
      slabs_ok s' (qset D (FreeQ id) (rev l ++ D (FreeQ id))) ∧
      (∀ x, x ∈ l → ptr ≤ x ∧ x + p_size (slabcls s id) ≤ ptr + slab_page_len s id) ∧
      (∀ q x, x ∈ D q → ¬ in_page ptr (slab_page_len s id) x) ∧
      p_slab_list (slabcls s' id) !! Z.to_nat (p_slabs (slabcls s id)) = Some ptr ∧
      p_slabs (slabcls s' id) = p_slabs (slabcls s id) + 1
    else slabs_ok s' D ∧ w_heap s' = w_heap s.
Proof.
  intros H1 H2 H3 H4 H5 H6. destruct (do_slabs_newslab_ok s D id H1 H2 H3 H4 H5 H6) as (b & s' & Hrun & _ & Hres).
  exists b, s'. split; [done|]. destruct b; [|tauto]. destruct Hres as (ptr & ? & ? & ? & _ & _ & _ & ? & ? & _).
  exists ptr. by split_and!.
Qed.

Lemma do_slabs_newslab_carves_witness :
  ∃ b s', do_slabs_newslab 2 init_world = Some (b, s') ∧
    if b then ∃ ptr,
      let l := chunks ptr (p_size (slabcls init_world 2)) (Z.to_nat (p_perslab (slabcls init_world 2))) in
      slabs_ok s' (qset no_queues (FreeQ 2) (rev l ++ no_queues (FreeQ 2))) ∧
      (∀ x, x ∈ l → ptr ≤ x ∧
         x + p_size (slabcls init_world 2) ≤ ptr + slab_page_len init_world 2) ∧
      (∀ q x, x ∈ no_queues q → ¬ in_page ptr (slab_page_len init_world 2) x) ∧
      p_slab_list (slabcls s' 2) !! Z.to_nat (p_slabs (slabcls init_world 2)) = Some ptr ∧
      p_slabs (slabcls s' 2) = p_slabs (slabcls init_world 2) + 1
    else slabs_ok s' no_queues ∧ w_heap s' = w_heap init_world.
Proof.
  apply (do_slabs_newslab_carves init_world no_queues 2).
  - exact init_ok.
  - rewrite init_largest. lia.
  - vm_compute. split_and!; try done; discriminate.
  - vm_compute. reflexivity.
  - vm_compute. reflexivity.
  - apply pages_fresh_empty. vm_compute. reflexivity.
Defined.

(** Freeing a chunk and allocating from its class again hands
    out the same chunk and restores every free list. *)
Theorem slabs_free_alloc s D id p it n size flags :
  slabs_ok s D → (∀ q, p ∉ D q) → p ≠ 0 → 1 ≤ id ≤ m_power_largest (w_slabs s) →
  Z.of_nat (length (D (FreeQ id))) + 1 < 2 ^ 32 → size ≤ p_size (slabcls s id) →
  load p s = Some (it, s) → flag (i_it_flags it) ITEM_CHUNKED = false →
  ∃ s1 s2, slabs_free p n id s = Some (tt, s1) ∧ slabs_ok s1 (qset D (FreeQ id) (p :: D (FreeQ id))) ∧
    slabs_alloc size id flags s1 = Some (p, s2) ∧ slabs_ok s2 D.
Proof.
  intros Hok Hnin Hp0 Hid Hlen Hsize Hp Hch.
  destruct (do_slabs_free_push s D id p it n Hok Hnin Hp0 Hid Hlen Hp Hch)
    as (h1 & m1 & Hrun1 & Hok1 & _ & _ & Hcs).
  set (s1 := s <| w_heap := h1 |> <| w_slabs := m1 |>) in *.
  destruct (slots_pop_ok s1 _ id p (D (FreeQ id)) Hok1) as (h2 & m2 & it2 & Hrun2 & Hok2 & _); [apply qset_eq|].
  exists s1, (s1 <| w_heap := h2 |> <| w_slabs := m2 |>). split_and!; try done.
  - pose proof (class_set_largest _ _ _ _ Hcs) as Hpl. destruct Hcs as [_ Hcs].
    unfold slabs_alloc. rewrite (do_slabs_alloc_entry _ _ _ _ _ Hok1).
    + simpl. rewrite Hcs, upd_eq. simpl. destruct (so_slots _ _ Hok id) as (_ & Hc & _).
      rewrite (proj2 (Z.eqb_neq _ 0)) by lia. simpl.
      by rewrite (bind_run _ _ _ _ _ eq_refl).
    + simpl. lia.
    + simpl. rewrite Hcs, upd_eq. done.
  - rewrite qset_qset, qset_id in Hok2 by done. exact Hok2.
Qed.

Lemma slabs_ok_regions s D r : slabs_ok s D → slabs_ok (s <| w_regions := r |>) D.
Proof. intros [? ? ? ? ?]. by constructor. Qed.

Lemma slabs_ok_no_queues s h : slabs_ok s no_queues → slabs_ok (s <| w_heap := h |>) no_queues.
Proof.
  intros [? ? ? ? ?]. constructor; try done; [apply no_queues_ok|].
  intros id p H. by apply elem_of_nil in H.
Qed.

Lemma slabs_free_alloc_witness :
  let s := init_world <| w_regions := [(65536, 1024)] |> in
  ∃ s1 s2, slabs_free 65632 0 1 s = Some (tt, s1) ∧
    slabs_ok s1 (qset no_queues (FreeQ 1) (65632 :: no_queues (FreeQ 1))) ∧
    slabs_alloc 96 1 0 s1 = Some (65632, s2) ∧ slabs_ok s2 no_queues.
Proof.
  intros s. apply (slabs_free_alloc s no_queues 1 65632 zero_item 0 96 0).
  - apply slabs_ok_regions. exact init_ok.
  - intros q H. by apply elem_of_nil in H.
  - done.
  - change (w_slabs s) with (w_slabs init_world). rewrite init_largest. lia.
  - simpl. lia.
  - vm_compute. discriminate.
  - vm_compute. reflexivity.
  - reflexivity.
Defined.

(** Freeing a large item, whose value is spread over a chain
    of chunks, returns the header to the class it was allocated from and every
    chunk to its own class: all of them are on free lists afterwards, and
    nothing else changed. *)
Theorem slabs_free_large s D p hid l it ch n id :
  slabs_ok s D → large_item s D p hid l it ch → flag (i_it_flags it) ITEM_CHUNKED = true →
  1 ≤ id ≤ m_power_largest (w_slabs s) →
  (∀ id, Z.of_nat (length (D (FreeQ id))) + Z.of_nat (length l) + 1 < 2 ^ 32) →
  ∃ s', slabs_free p n id s = Some (tt, s') ∧
    slabs_ok s' (push_chunks (qset D (FreeQ hid) (p :: D (FreeQ hid))) l) ∧
    lsame_out (λ x, x ∈ p :: l.*1) (w_heap s) (w_heap s').
Proof.
  intros Hok Hli Hfl Hid Hcount. pose proof (so_largest _ _ Hok) as Hpl.
  unfold MAX_NUMBER_OF_SLAB_CLASSES in Hpl. pose proof (li_class _ _ _ _ _ _ _ Hli) as Hcl.
  destruct (do_slabs_free_chunked_ok s D p hid l it ch n Hok Hli) as (h' & m' & Hrun & Hok' & Hs); [lia|done|].
  eexists. split; [|split; [exact Hok'|exact Hs]].
  unfold slabs_free, do_slabs_free. rewrite (bind_run _ _ _ _ _ eq_refl).
  rewrite (proj2 (Z.leb_le POWER_SMALLEST id)), (proj2 (Z.leb_le id _)) by (unfold POWER_SMALLEST; lia).
  rewrite (bind_run _ _ _ _ _ eq_refl).
  rewrite (proj2 (Z.ltb_ge _ _)), (proj2 (Z.ltb_ge _ _)) by (unfold POWER_SMALLEST; lia). simpl.
  by rewrite (bind_run _ _ _ _ _ (load_ok _ _ _ (li_hdr _ _ _ _ _ _ _ Hli))), Hfl.
Qed.

(** A large item with two chunks, of classes 8 and 3. *)
Definition large_hdr : item :=
  zero_item <| i_it_flags := ITEM_CHUNKED |> <| i_nkey := 3 |> <| i_key := [1; 2; 3] |>.
Definition large_schunk : item := zero_item <| i_next := 49152 |> <| i_nkey := 2 |>.
Definition large_heap : gmap Z item := {[
  40960 := large_hdr;
  ITEM_schunk 40960 large_hdr := large_schunk;
  49152 := zero_item <| i_it_flags := ITEM_CHUNK |> <| i_slabs_clsid := 8 |> <| i_next := 57344 |>;
  57344 := zero_item <| i_it_flags := ITEM_CHUNK |> <| i_slabs_clsid := 3 |> <| i_prev := 49152 |> ]}.

Lemma large_item_in s :
  m_power_largest (w_slabs s) = 8 →
  large_item (s <| w_heap := large_heap |>) no_queues 40960 2 [(49152, 8); (57344, 3)]
    large_hdr large_schunk.
Proof.
  intros Hpl. constructor; simpl; rewrite ?Hpl.
  - vm_compute. reflexivity.
  - vm_compute. reflexivity.
  - vm_compute. split; discriminate.
  - split; [done|lia].
  - do 2 (split; [done|]; split; [done|]; split; [lia|]; eexists;
          split; [vm_compute; reflexivity|]; split; [done|]; split; [done|]; simpl). done.
  - apply (bool_decide_unpack _). vm_compute. done.
  - intros q x _ Hx. by apply elem_of_nil in Hx.
Qed.

Definition large_world : world := init_world <| w_heap := large_heap |>.

Lemma slabs_free_large_witness :
  ∃ s', slabs_free 40960 0 8 large_world = Some (tt, s') ∧
    slabs_ok s' (push_chunks (qset no_queues (FreeQ 2) [40960]) [(49152, 8); (57344, 3)]) ∧
    lsame_out (λ x, x ∈ [40960; 49152; 57344]) (w_heap large_world) (w_heap s').
Proof.
  apply (slabs_free_large large_world no_queues 40960 2 [(49152, 8); (57344, 3)]
    large_hdr large_schunk).
  - apply slabs_ok_no_queues. exact init_ok.
  - apply large_item_in. exact init_largest.
  - reflexivity.
  - change (w_slabs large_world) with (w_slabs init_world). rewrite init_largest. lia.
  - intros id. simpl. lia.
Defined.

(** ** The memory limit *)

(** The page pool shrinks until the limit is respected or it is empty. *)
Lemma memory_release_loop_ok fuel s D :
  slabs_ok s D → (∀ i, 0 ≤ i < p_slabs (slabcls s 0) → ∀ p, p_slab_list (slabcls s 0) !! Z.to_nat i = Some p → p ≠ 0) →
  p_slabs (slabcls s 0) < Z.of_nat fuel →
  ∃ s', memory_release_loop fuel s = Some (tt, s') ∧ slabs_ok s' D ∧
    m_mem_limit (w_slabs s') = m_mem_limit (w_slabs s) ∧
    0 ≤ p_slabs (slabcls s' 0) ≤ p_slabs (slabcls s 0) ∧
    (m_mem_malloced (w_slabs s') ≤ m_mem_limit (w_slabs s) ∨ p_slabs (slabcls s' 0) = 0) ∧
    slab_frame s s' ∧ w_heap s' = w_heap s ∧ m_power_largest (w_slabs s') = m_power_largest (w_slabs s) ∧
    (∀ x, x ≠ 0 → slabcls s' x = slabcls s x).
Proof.
  revert s. induction fuel as [|fuel IH]; intros s Hok Hpages Hf.
  { destruct (so_lists _ _ Hok 0). lia. }
  destruct (so_lists _ _ Hok 0) as (Hsl & Hlen & H31).
  simpl. rewrite (bind_run _ _ _ _ _ eq_refl).
  destruct (Z.ltb_spec (m_mem_limit (w_slabs s)) (m_mem_malloced (w_slabs s))) as [Hover|Hin].
  2:{ exists s. split_and!; try done; [lia|by left|apply slab_frame_refl]. }
  unfold get_page_from_global_pool, SLAB_GLOBAL_PAGE_POOL. rewrite bind_assoc, (bind_run _ _ _ _ _ eq_refl).
  destruct (Z.ltb_spec (p_slabs (slabcls s 0)) 1) as [Hz|Hpos].
  { rewrite (bind_run _ _ _ _ _ eq_refl). simpl. exists s. split_and!; try done; [lia|right; lia|apply slab_frame_refl]. }
  destruct (lookup_lt_is_Some_2 (p_slab_list (slabcls s 0)) (Z.to_nat (p_slabs (slabcls s 0) - 1)))
    as [p Hp]; [lia|].
  assert (Hp0 : p ≠ 0) by (eapply Hpages; [|done]; lia).
  rewrite bind_assoc, (bind_run _ _ _ p s) by (apply arr_get_ok; [lia|done]).
  rewrite bind_assoc, (bind_run _ _ _ _ _ eq_refl), (bind_run _ _ _ _ _ eq_refl).
  rewrite (proj2 (Z.eqb_neq p _)) by done.
  rewrite (bind_run _ _ _ _ _ eq_refl), (bind_run _ _ _ _ _ eq_refl).
  match goal with |- context [memory_release_loop fuel ?x] => set (s1 := x) end.
  assert (Hc1 : ∀ x, slabcls s1 x = upd (m_slabclass (w_slabs s)) 0
    ((slabcls s 0) <| p_slabs := p_slabs (slabcls s 0) - 1 |>) x) by done.
  assert (Hok1 : slabs_ok s1 D).
  { apply (slabs_ok_mem s); try done; intros x; rewrite Hc1; unfold upd;
      destruct (Z.eqb_spec x 0) as [->|]; try done; [|apply Hok]. simpl. lia. }
  destruct (IH s1 Hok1) as (s2 & Hr & Hok2 & Hlim & Hle & Hfin & Hfr & Hh & Hpl & Hcl).
  { rewrite !Hc1, !upd_eq. simpl. intros i Hi. apply Hpages. lia. }
  { rewrite Hc1, upd_eq. simpl. lia. }
  rewrite Hc1, upd_eq in Hle. simpl in Hle.
  exists s2. split_and!; try done; try lia.
  intros x Hx. rewrite Hcl, Hc1, upd_ne by done. done.
Qed.

(** Lowering the memory limit at run time takes effect at
    once: pages of the global pool are released until the memory accounted for
    is within the new limit or the pool is empty, and the free lists are
    untouched. A preallocated pool cannot be adjusted. *)
Theorem slabs_adjust_mem_limit_releases s D new_limit :
  slabs_ok s D → o_slab_reassign (w_settings s) = true →
  (∀ i, 0 ≤ i < p_slabs (slabcls s 0) →
     ∀ p, p_slab_list (slabcls s 0) !! Z.to_nat i = Some p → p ≠ 0) →
  ∃ b s', do_slabs_adjust_mem_limit new_limit s = Some (b, s') ∧ slabs_ok s' D ∧
    b = (m_mem_base (w_slabs s) =? NULL) ∧
    if b then m_mem_limit (w_slabs s') = new_limit ∧
      (m_mem_malloced (w_slabs s') ≤ new_limit ∨ p_slabs (slabcls s' 0) = 0)
    else s' = s.
Proof.
  intros Hok Hre Hpages. unfold do_slabs_adjust_mem_limit. rewrite (bind_run _ _ _ _ _ eq_refl).
  destruct (m_mem_base (w_slabs s) =? NULL) eqn:Hb; simpl; [|by exists false, s].
  rewrite (bind_run _ _ _ _ _ eq_refl), (bind_run _ _ _ _ _ eq_refl).
  match goal with |- context [(memory_release ≫= _) ?x] => set (s1 := x) end.
  assert (Hok1 : slabs_ok s1 D) by (apply (slabs_ok_mem s); try done; apply Hok).
  destruct (so_lists _ _ Hok 0) as (Hsl & _).
  destruct (memory_release_loop_ok (S (Z.to_nat (p_slabs (slabcls s1 0)))) s1 D Hok1 Hpages)
    as (s2 & Hr & Hok2 & Hlim & _ & Hfin & _); [simpl; lia|].
  exists true, s2. split_and!; try done.
  erewrite bind_run; [reflexivity|]. unfold memory_release. rewrite (bind_run _ _ _ _ _ eq_refl).
  simpl. rewrite Hb, Hre. simpl. exact Hr.
Qed.

(** [init_world] with two pages in the global pool. *)
Definition with_pool s : world :=
  s <| w_slabs := (w_slabs s)
    <| m_slabclass := upd (m_slabclass (w_slabs s)) 0
         ((slabcls s 0) <| p_slabs := 2 |> <| p_slab_list := [4096; 8192] |> <| p_list_size := 2 |>) |>
    <| m_mem_malloced := 2048 |> |>.

Lemma with_pool_ok s : slabs_ok s no_queues → slabs_ok (with_pool s) no_queues.
Proof.
  intros Hok. apply (slabs_ok_mem s); try done; intros x; simpl; unfold upd;
    destruct (Z.eqb_spec x 0) as [->|]; try done; apply Hok.
Qed.

Lemma with_pool_list s :
  p_slabs (slabcls (with_pool s) 0) = 2 ∧ p_slab_list (slabcls (with_pool s) 0) = [4096; 8192].
Proof. done. Qed.

Lemma slabs_adjust_mem_limit_releases_witness :
  ∃ b s', do_slabs_adjust_mem_limit 1500 (with_pool init_world) = Some (b, s') ∧
    slabs_ok s' no_queues ∧ b = (m_mem_base (w_slabs (with_pool init_world)) =? NULL) ∧
    if b then m_mem_limit (w_slabs s') = 1500 ∧
      (m_mem_malloced (w_slabs s') ≤ 1500 ∨ p_slabs (slabcls s' 0) = 0)
    else s' = with_pool init_world.
Proof.
  apply (slabs_adjust_mem_limit_releases (with_pool init_world) no_queues 1500).
  - apply with_pool_ok. exact init_ok.
  - vm_compute. reflexivity.
  - destruct (with_pool_list init_world) as [-> ->]. intros i Hi p.
    assert (i = 0 ∨ i = 1) as [->| ->] by lia; intros [= <-]; done.
Defined.

(** A failed [malloc] is still added to the memory accounted for. *)
Lemma memory_allocate_failed_counts s size :
  m_mem_base (w_slabs s) = NULL → w_malloc s = [] →
  memory_allocate size s =
    Some (NULL, s <| w_slabs := (w_slabs s)
                       <| m_mem_malloced := u64 (m_mem_malloced (w_slabs s) + size) |> |>).
Proof.
  intros Hb Hm. unfold memory_allocate. rewrite (bind_run _ _ _ _ _ eq_refl), Hb. simpl.
  unfold malloc_block, malloc_next. munfold. rewrite Hm. done.
Qed.
