(* ===== verification/Items.v ===== *)
(** * Items and the LRU queues ([items.c])

    Allocation of items, linking them into the hash table and one of the LRU
    queues of their class, reference counting, lazy expiration, and the
    maintainer that moves items between the HOT, WARM and COLD queues and
    evicts from their tails. *)

From S2P Require Import Prelude Bipbuf Hashes State Links Queues Assoc Slabs.

Section Items.
Context {HF : HashFn}.

(** ** CAS ids and expiry *)

Definition get_cas_id : M world Z :=
  on_lru (λ l, l <| l_cas_id := u64 (l_cas_id l + 1) |>) ;;
  gets (λ s, l_cas_id (w_lru s)).

Definition set_cas_id (new_cas : Z) : M world unit := on_lru (λ l, l <| l_cas_id := new_cas |>).

Definition item_is_flushed (it : item) : M world bool :=
  s ← get_state;
  let oldest_live := o_oldest_live (w_settings s) in
  let cas := ITEM_get_cas it in
  let oldest_cas := o_oldest_cas (w_settings s) in
  if (oldest_live =? 0) || (w_current_time s <? oldest_live) then mret false
  else mret ((i_time it <=? oldest_live)
             || (negb (oldest_cas =? 0) && negb (cas =? 0) && (cas <? oldest_cas))).

Definition do_get_lru_size (id : Z) : M world Z := gets (λ s, l_sizes (w_lru s) id).

Definition item_stats_reset : M world unit :=
  on_lru (λ l, l <| l_itemstats := λ _, zero_itemstats |>).

Definition do_item_stats_add_crawl (i reclaimed unfetched checked : Z) : M world unit :=
  on_itemstats i (λ x, x <| s_crawler_reclaimed := u64 (s_crawler_reclaimed x + reclaimed) |>
                         <| s_expired_unfetched := u64 (s_expired_unfetched x + unfetched) |>
                         <| s_crawler_items_checked := u64 (s_crawler_items_checked x + checked) |>).

(** ** Item sizes *)

(** The header size and [nsuffix]. *)
Definition item_make_header (nkey flags nbytes : Z) : Z * Z :=
  let nsuffix := if flags =? 0 then 0 else sizeof_uint32 in
  (u64 (sizeof_item + u8 nkey + nsuffix + nbytes), nsuffix).

Definition item_ntotal (use_cas : bool) (nkey flags nbytes : Z) : Z * Z :=
  let '(ntotal, nsuffix) := item_make_header (nkey + 1) flags nbytes in
  (if use_cas then u64 (ntotal + sizeof_uint64) else ntotal, nsuffix).

Definition item_size_ok (nkey flags nbytes : Z) : M world bool :=
  if nbytes <? 2 then mret false
  else
    o ← gets w_settings;
    c ← slabs_clsid (item_ntotal (o_use_cas o) nkey flags nbytes).1;
    mret (negb (c =? 0)).

(** ** The histogram of item sizes *)

Definition size_bucket (it : item) : Z :=
  let ntotal := ITEM_ntotal it in
  let bucket := ntotal / 32 in
  if negb (ntotal mod 32 =? 0) then bucket + 1 else bucket.

Definition item_stats_sizes_status : M world bool :=
  gets (λ s, match l_stats_sizes_hist (w_lru s) with Some _ => true | None => false end).

Definition item_stats_sizes_init : M world unit :=
  s ← get_state;
  match l_stats_sizes_hist (w_lru s) with
  | Some _ => mret tt
  | None =>
      let buckets := o_item_size_max (w_settings s) / 32 + 1 in
      on_lru (λ l, l <| l_stats_sizes_buckets := buckets |>) ;;
      p ← malloc_next;
      on_lru (λ l, l <| l_stats_sizes_hist :=
        if p =? NULL then None else Some (replicate (Z.to_nat buckets) 0) |>) ;;
      id ← (if o_use_cas (w_settings s) then get_cas_id else mret 0);
      on_lru (λ l, l <| l_stats_sizes_cas_min := id |>)
  end.

Definition item_stats_sizes_disable : M world unit :=
  on_lru (λ l, l <| l_stats_sizes_hist := None |>).

Definition item_stats_sizes_upd (d : Z) (it : item) : M world unit :=
  l ← gets w_lru;
  match l_stats_sizes_hist l with
  | None => mret tt
  | Some hist =>
      if ITEM_get_cas it <? l_stats_sizes_cas_min l then mret tt
      else
        let b := size_bucket it in
        if b <? l_stats_sizes_buckets l then
          v ← arr_get hist b;
          hist ← arr_set hist b (u32 (v + d));
          on_lru (λ l, l <| l_stats_sizes_hist := Some hist |>)
        else mret tt
  end.

Definition item_stats_sizes_add : item → M world unit := item_stats_sizes_upd 1.
Definition item_stats_sizes_remove : item → M world unit := item_stats_sizes_upd (-1).

(** ** External storage *)

Definition rd16 (b : list Z) (o : nat) : Z := nth o b 0 + 256 * nth (o + 1) b 0.
Definition rd32 (b : list Z) (o : nat) : Z := rd16 b o + 65536 * rd16 b (o + 2).

(** [storage_delete]: the accounting of a value kept in external storage; the
    [item_hdr] at the start of the data is (page_version, offset, page_id). *)
Definition storage_delete (p : Z) : M world unit :=
  it ← load p;
  when (flag (i_it_flags it) ITEM_HDR)
    (modify (λ s, s <| w_ext := w_ext s ++
       [(rd16 (i_data it) 8, rd32 (i_data it) 0, ITEM_ntotal it)] |>)).

(** ** The LRU queues *)

(** The bytes an item counts for in its queue. *)
Definition lru_bytes (it : item) : Z :=
  if flag (i_it_flags it) ITEM_HDR
  then ITEM_ntotal it - i_nbytes it + sizeof_item_hdr else ITEM_ntotal it.

Definition on_lru_id (id : Z) (heads tails sizes sizes_bytes : Z) (l : lru_t) : lru_t :=
  l <| l_heads := upd (l_heads l) id heads |> <| l_tails := upd (l_tails l) id tails |>
    <| l_sizes := upd (l_sizes l) id sizes |> <| l_sizes_bytes := upd (l_sizes_bytes l) id sizes_bytes |>.

(** The item becomes the head of the queue [it->slabs_clsid]. *)
Definition do_item_link_q (it : Z) : M world unit :=
  x ← load it;
  c_assert (negb (flag (i_it_flags x) ITEM_SLABBED)) ;;
  l ← gets w_lru;
  let id := i_slabs_clsid x in
  let head := l_heads l id in
  let tail := l_tails l id in
  c_assert (negb (it =? head)) ;;
  c_assert ((negb (head =? NULL) && negb (tail =? NULL)) || ((head =? NULL) && (tail =? NULL))) ;;
  q_push it head ;;
  on_lru (on_lru_id id it (if tail =? NULL then it else tail)
            (u32 (l_sizes l id + 1)) (u64 (l_sizes_bytes l id + lru_bytes x))).

Definition item_link_q : Z → M world unit := do_item_link_q.

Definition item_link_q_warm (it : Z) : M world unit :=
  do_item_link_q it ;;
  id ← fld it i_slabs_clsid;
  on_itemstats id (λ x, x <| s_moves_to_warm := u64 (s_moves_to_warm x + 1) |>).

(** The head, tail and neighbour updates shared by [do_item_unlink_q] and
    [do_item_unlinktail_q]. *)
Definition lru_take_out (it : Z) : M world unit :=
  x ← load it;
  l ← gets w_lru;
  let id := i_slabs_clsid x in
  (if l_heads l id =? it then
     c_assert (i_prev x =? NULL) ;;
     on_lru (λ l, l <| l_heads := upd (l_heads l) id (i_next x) |>)
   else mret tt) ;;
  (if l_tails l id =? it then
     c_assert (i_next x =? NULL) ;;
     on_lru (λ l, l <| l_tails := upd (l_tails l) id (i_prev x) |>)
   else mret tt) ;;
  c_assert (negb (i_next x =? it)) ;;
  c_assert (negb (i_prev x =? it)) ;;
  q_unlink it.

Definition do_item_unlink_q (it : Z) : M world unit :=
  lru_take_out it ;;
  x ← load it;
  let id := i_slabs_clsid x in
  on_lru (λ l, l <| l_sizes := upd (l_sizes l) id (u32 (l_sizes l id - 1)) |>
                 <| l_sizes_bytes := upd (l_sizes_bytes l) id (u64 (l_sizes_bytes l id - lru_bytes x)) |>).

Definition item_unlink_q : Z → M world unit := do_item_unlink_q.

(** ** Release *)

Definition item_free (it : Z) : M world unit :=
  x ← load it;
  l ← gets w_lru;
  c_assert (negb (flag (i_it_flags x) ITEM_LINKED)) ;;
  c_assert (negb (it =? l_heads l (i_slabs_clsid x))) ;;
  c_assert (negb (it =? l_tails l (i_slabs_clsid x))) ;;
  c_assert (i_refcount x =? 0) ;;
  slabs_free it (ITEM_ntotal x) (ITEM_clsid x).

Definition do_item_remove (it : Z) : M world unit :=
  x ← load it;
  c_assert (negb (flag (i_it_flags x) ITEM_SLABBED)) ;;
  c_assert (0 <? i_refcount x) ;;
  r ← refcount_decr it;
  when (r =? 0) (item_free it).

(** ** Linking and unlinking *)

Definition stats_link (it : item) : M world unit :=
  on_stats (λ st, st <| st_curr_bytes := u64 (st_curr_bytes st + ITEM_ntotal it) |>
                     <| st_curr_items := u64 (st_curr_items st + 1) |>
                     <| st_total_items := u64 (st_total_items st + 1) |>).

Definition stats_unlink (it : item) : M world unit :=
  on_stats (λ st, st <| st_curr_bytes := u64 (st_curr_bytes st - ITEM_ntotal it) |>
                     <| st_curr_items := u64 (st_curr_items st - 1) |>).

Definition do_item_link (it hv : Z) : M world Z :=
  x ← load it;
  c_assert (negb (flag (i_it_flags x) (Z.lor ITEM_LINKED ITEM_SLABBED))) ;;
  now ← gets w_current_time;
  wr it (λ x, x <| i_it_flags := Z.lor (i_it_flags x) ITEM_LINKED |> <| i_time := now |>) ;;
  x ← load it;
  stats_link x ;;
  o ← gets w_settings;
  cas ← (if o_use_cas o then get_cas_id else mret 0);
  wr it (ITEM_set_cas cas) ;;
  assoc_insert it hv ;;
  item_link_q it ;;
  refcount_incr it ;;
  x ← load it;
  item_stats_sizes_add x ;;
  mret 1.

Definition do_item_unlink (it hv : Z) : M world unit :=
  x ← load it;
  when (flag (i_it_flags x) ITEM_LINKED) (
    wr it (λ x, x <| i_it_flags := clear (i_it_flags x) ITEM_LINKED |>) ;;
    x ← load it;
    stats_unlink x ;;
    item_stats_sizes_remove x ;;
    assoc_delete (ITEM_key x) (i_nkey x) hv ;;
    item_unlink_q it ;;
    do_item_remove it).

(** Called with the LRU lock held; otherwise the same. *)
Definition do_item_unlink_nolock (it hv : Z) : M world unit :=
  x ← load it;
  when (flag (i_it_flags x) ITEM_LINKED) (
    wr it (λ x, x <| i_it_flags := clear (i_it_flags x) ITEM_LINKED |>) ;;
    x ← load it;
    stats_unlink x ;;
    item_stats_sizes_remove x ;;
    assoc_delete (ITEM_key x) (i_nkey x) hv ;;
    do_item_unlink_q it ;;
    do_item_remove it).

Definition do_item_replace (it new_it hv : Z) : M world Z :=
  x ← load it;
  c_assert (negb (flag (i_it_flags x) ITEM_SLABBED)) ;;
  do_item_unlink it hv ;;
  do_item_link new_it hv.

(** Rebuilding the queues after a warm restart. *)
Definition do_item_link_fixup (it : Z) : M world unit :=
  x ← load it;
  let ntotal := ITEM_ntotal x in
  assoc_insert it (hash (ITEM_key x)) ;;
  let id := i_slabs_clsid x in
  on_lru (λ l, if (i_prev x =? NULL) && (l_heads l id =? NULL)
               then l <| l_heads := upd (l_heads l) id it |> else l) ;;
  on_lru (λ l, if (i_next x =? NULL) && (l_tails l id =? NULL)
               then l <| l_tails := upd (l_tails l) id it |> else l) ;;
  on_lru (λ l, l <| l_sizes := upd (l_sizes l) id (u32 (l_sizes l id + 1)) |>
                 <| l_sizes_bytes := upd (l_sizes_bytes l) id (u64 (l_sizes_bytes l id + ntotal)) |>) ;;
  on_stats (λ st, st <| st_curr_bytes := u64 (st_curr_bytes st + ntotal) |>
                     <| st_curr_items := u64 (st_curr_items st + 1) |>
                     <| st_total_items := u64 (st_total_items st + 1) |>) ;;
  x ← load it;
  item_stats_sizes_add x.

(** ** Access *)

Definition do_item_update (it : Z) : M world unit :=
  x ← load it;
  s ← get_state;
  let now := w_current_time s in
  if o_lru_segmented (w_settings s) then
    c_assert (negb (flag (i_it_flags x) ITEM_SLABBED)) ;;
    when (flag (i_it_flags x) ITEM_LINKED)
      (if (ITEM_lruid x =? COLD_LRU) && flag (i_it_flags x) ITEM_ACTIVE then
         wr it (λ x, x <| i_time := now |>) ;;
         item_unlink_q it ;;
         wr it (λ x, x <| i_slabs_clsid := Z.lor (ITEM_clsid x) WARM_LRU |>
                       <| i_it_flags := clear (i_it_flags x) ITEM_ACTIVE |>) ;;
         item_link_q_warm it
       else wr it (λ x, x <| i_time := now |>))
  else if i_time x <? u32 (now - ITEM_UPDATE_INTERVAL) then
    c_assert (negb (flag (i_it_flags x) ITEM_SLABBED)) ;;
    when (flag (i_it_flags x) ITEM_LINKED)
      (wr it (λ x, x <| i_time := now |>) ;; item_unlink_q it ;; item_link_q it)
  else mret tt.

Definition sizeof_lru_bump_entry : Z := 16.

(** The entry is queued in the thread's bump buffer; the maintainer thread
    does the move later. *)
Definition lru_bump_async (it hv : Z) : M world bool :=
  refcount_incr it ;;
  b ← gets w_bump;
  match bipbuf_request (b_buf b) sizeof_lru_bump_entry with
  | Some be =>
      modify (λ s, s <| w_bump := (w_bump s) <| b_mem := <[be := (it, hv)]> (b_mem (w_bump s)) |> |>) ;;
      let '(n, buf) := bipbuf_push (b_buf b) sizeof_lru_bump_entry in
      modify (λ s, s <| w_bump := (w_bump s) <| b_buf := buf |> |>) ;;
      if n =? 0 then
        modify (λ s, s <| w_bump := (w_bump s) <| b_dropped := u64 (b_dropped (w_bump s) + 1) |> |>) ;;
        refcount_decr it ;; mret false
      else mret true
  | None =>
      modify (λ s, s <| w_bump := (w_bump s) <| b_dropped := u64 (b_dropped (w_bump s) + 1) |> |>) ;;
      refcount_decr it ;; mret false
  end.

Definition do_item_bump (it hv : Z) : M world unit :=
  x ← load it;
  s ← get_state;
  if o_lru_segmented (w_settings s) then
    when (negb (flag (i_it_flags x) ITEM_ACTIVE))
      (if negb (flag (i_it_flags x) ITEM_FETCHED) then
         wr it (λ x, x <| i_it_flags := Z.lor (i_it_flags x) ITEM_FETCHED |>)
       else
         wr it (λ x, x <| i_it_flags := Z.lor (i_it_flags x) ITEM_ACTIVE |>) ;;
         if negb (ITEM_lruid x =? COLD_LRU) then wr it (λ x, x <| i_time := w_current_time s |>)
         else
           ok ← lru_bump_async it hv;
           when (negb ok) (wr it (λ x, x <| i_it_flags := clear (i_it_flags x) ITEM_ACTIVE |>)))
  else
    wr it (λ x, x <| i_it_flags := Z.lor (i_it_flags x) ITEM_FETCHED |>) ;;
    do_item_update it.

Definition do_item_get (key : list Z) (nkey hv : Z) (do_update : bool) : M world Z :=
  it ← assoc_find key nkey hv;
  if it =? NULL then mret NULL
  else
    refcount_incr it ;;
    x ← load it;
    flushed ← item_is_flushed x;
    now ← gets w_current_time;
    if (flushed : bool) then
      do_item_unlink it hv ;; storage_delete it ;; do_item_remove it ;;
      on_tstats (λ t, t <| t_get_flushed := u64 (t_get_flushed t + 1) |>) ;;
      mret NULL
    else if negb (i_exptime x =? 0) && (i_exptime x <=? now) then
      do_item_unlink it hv ;; storage_delete it ;; do_item_remove it ;;
      on_tstats (λ t, t <| t_get_expired := u64 (t_get_expired t + 1) |>) ;;
      mret NULL
    else
      when do_update (do_item_bump it hv) ;;
      mret it.

Definition do_item_touch (key : list Z) (nkey exptime hv : Z) : M world Z :=
  it ← do_item_get key nkey hv true;
  when (negb (it =? NULL)) (wr it (λ x, x <| i_exptime := exptime |>)) ;;
  mret it.

(** ** Pulling from the tail of a queue *)

(** How the walk up the queue ended. *)
Inductive pull_end : Type :=
  | PullBlocked  (* a crawler is in the way: return 0 *)
  | PullEnd (removed it hold_lock move_to_lru : Z) (ret : option (Z * Z)).

Definition is_crawler (x : item) : bool :=
  (i_nbytes x =? 0) && (i_nkey x =? 0) && (i_it_flags x =? 1).

Definition bump_stat (id : Z) (f : itemstats_t → itemstats_t) : M world unit := on_itemstats id f.

(** The [tail_repair_time] workaround for a leaked reference; [true] if the item
    was repaired away. *)
Definition tail_repair (search hv id hold : Z) : M world bool :=
  bump_stat id (λ i, i <| s_lrutail_reflocked := u64 (s_lrutail_reflocked i + 1) |>) ;;
  s ← get_state;
  x ← load search;
  let t := o_tail_repair_time (w_settings s) in
  if negb (t =? 0) && (u32 (i_time x + t) <? w_current_time s) then
    bump_stat id (λ i, i <| s_tailrepairs := u64 (s_tailrepairs i + 1) |>) ;;
    wr search (λ x, x <| i_refcount := 1 |>) ;;
    storage_delete search ;;
    do_item_unlink_nolock search hv ;;
    item_trylock_unlock hold ;;
    mret true
  else mret false.

(** The [case HOT_LRU: case WARM_LRU:] branch. [None]: the item was handled,
    continue with the next one. *)
Definition pull_hot_warm (search cur_lru id limit max_age hold removed : Z)
    : M world (option pull_end * Z) :=
  x ← load search;
  s ← get_state;
  if flag (i_it_flags x) ITEM_ACTIVE then
    wr search (λ x, x <| i_it_flags := clear (i_it_flags x) ITEM_ACTIVE |>) ;;
    if cur_lru =? WARM_LRU then
      bump_stat id (λ i, i <| s_moves_within_lru := u64 (s_moves_within_lru i + 1) |>) ;;
      do_item_unlink_q search ;;
      do_item_link_q search ;;
      do_item_remove search ;;
      item_trylock_unlock hold ;;
      mret (None, removed + 1)
    else
      bump_stat id (λ i, i <| s_moves_to_warm := u64 (s_moves_to_warm i + 1) |>) ;;
      do_item_unlink_q search ;;
      mret (Some (PullEnd (removed + 1) search hold WARM_LRU None), removed + 1)
  else if (limit <? l_sizes_bytes (w_lru s) id) || (max_age <? u32 (w_current_time s - i_time x)) then
    bump_stat id (λ i, i <| s_moves_to_cold := u64 (s_moves_to_cold i + 1) |>) ;;
    do_item_unlink_q search ;;
    mret (Some (PullEnd (removed + 1) search hold COLD_LRU None), removed + 1)
  else mret (Some (PullEnd removed search hold 0 None), removed).

(** The [case COLD_LRU:] branch. *)
Definition pull_cold (search hv orig_id id flags hold removed : Z) : M world pull_end :=
  x ← load search;
  s ← get_state;
  if flag flags LRU_PULL_EVICT then
    if o_evict_to_free (w_settings s) =? 0 then mret (PullEnd removed search hold 0 None)
    else
      bump_stat id (λ i,
        let i := i <| s_evicted := u64 (s_evicted i + 1) |>
                   <| s_evicted_time := u32 (w_current_time s - i_time x) |> in
        let i := if negb (i_exptime x =? 0)
                 then i <| s_evicted_nonzero := u64 (s_evicted_nonzero i + 1) |> else i in
        let i := if negb (flag (i_it_flags x) ITEM_FETCHED)
                 then i <| s_evicted_unfetched := u64 (s_evicted_unfetched i + 1) |> else i in
        if flag (i_it_flags x) ITEM_ACTIVE
        then i <| s_evicted_active := u64 (s_evicted_active i + 1) |> else i) ;;
      storage_delete search ;;
      do_item_unlink_nolock search hv ;;
      (if o_slab_automove (w_settings s) =? 2 then slabs_reassign (-1) orig_id ;; mret tt
       else mret tt) ;;
      mret (PullEnd (removed + 1) search hold 0 None)
  else if flag flags LRU_PULL_RETURN_ITEM then
    mret (PullEnd removed search hold 0 (Some (search, hv)))
  else if flag (i_it_flags x) ITEM_ACTIVE && o_lru_segmented (w_settings s) then
    bump_stat id (λ i, i <| s_moves_to_warm := u64 (s_moves_to_warm i + 1) |>) ;;
    wr search (λ x, x <| i_it_flags := clear (i_it_flags x) ITEM_ACTIVE |>) ;;
    do_item_unlink_q search ;;
    mret (PullEnd (removed + 1) search hold WARM_LRU None)
  else mret (PullEnd removed search hold 0 None).

(** [for (; tries > 0 && search != NULL; tries--, search=next_it)] *)
Fixpoint lru_pull_loop (fuel : nat) (orig_id cur_lru id total_bytes flags max_age : Z)
    (tries search removed limit : Z) : M world pull_end :=
  match fuel with
  | O => undefined
  | S fuel =>
      let loop := lru_pull_loop fuel orig_id cur_lru id total_bytes flags max_age in
      if (tries <=? 0) || (search =? NULL) then mret (PullEnd removed NULL NULL 0 None)
      else
        x ← load search;
        let next_it := i_prev x in
        if is_crawler x then
          if flag flags LRU_PULL_CRAWL_BLOCKS then mret PullBlocked
          else loop tries next_it removed limit
        else
          let hv := hash (ITEM_key x) in
          lock ← item_trylock hv;
          match lock with
          | None => loop (tries - 1) next_it removed limit
          | Some hold =>
              r ← refcount_incr search;
              repaired ← (if negb (r =? 2) then tail_repair search hv id hold else mret false);
              if (repaired : bool) then loop (tries - 1) next_it removed limit
              else
                x ← load search;
                now ← gets w_current_time;
                flushed ← item_is_flushed x;
                if (negb (i_exptime x =? 0) && (i_exptime x <? now)) || flushed then
                  bump_stat id (λ i, i <| s_reclaimed := u64 (s_reclaimed i + 1) |>) ;;
                  when (negb (flag (i_it_flags x) ITEM_FETCHED))
                    (bump_stat id (λ i, i <| s_expired_unfetched := u64 (s_expired_unfetched i + 1) |>)) ;;
                  do_item_unlink_nolock search hv ;;
                  storage_delete search ;;
                  do_item_remove search ;;
                  item_trylock_unlock hold ;;
                  loop (tries - 1) next_it (removed + 1) limit
                else
                  o ← gets w_settings;
                  let limit := if cur_lru =? HOT_LRU
                               then u64 (total_bytes * o_hot_lru_pct o) / 100 else limit in
                  if (cur_lru =? HOT_LRU) || (cur_lru =? WARM_LRU) then
                    let limit := if limit =? 0
                                 then u64 (total_bytes * o_warm_lru_pct o) / 100 else limit in
                    res ← pull_hot_warm search cur_lru id limit max_age hold removed;
                    match res with
                    | (Some e, _) => mret e
                    | (None, removed) => loop (tries - 1) next_it removed limit
                    end
                  else if cur_lru =? COLD_LRU then
                    pull_cold search hv orig_id id flags hold removed
                  else mret (PullEnd removed search hold 0 None)
          end
  end.

(** The number of items removed, and the item kept for the caller when
    [LRU_PULL_RETURN_ITEM] asks for it. *)
Definition lru_pull_tail (orig_id cur_lru total_bytes flags max_age : Z)
    : M world (Z * option (Z * Z)) :=
  if orig_id =? 0 then mret (0, None)
  else
    let id := Z.lor orig_id cur_lru in
    search ← gets (λ s, l_tails (w_lru s) id);
    fuel ← walk_fuel;
    e ← lru_pull_loop (5 + fuel) orig_id cur_lru id total_bytes flags max_age 5 search 0 0;
    match e with
    | PullBlocked => mret (0, None)
    | PullEnd removed it hold move_to_lru ret =>
        when (negb (it =? NULL)) (
          when (negb (move_to_lru =? 0))
            (wr it (λ x, x <| i_slabs_clsid := Z.lor (ITEM_clsid x) move_to_lru |>) ;;
             item_link_q it) ;;
          when (negb (flag flags LRU_PULL_RETURN_ITEM))
            (do_item_remove it ;; item_trylock_unlock hold)) ;;
        mret (removed, ret)
    end.

(** ** Allocation *)

(** [for (i = 0; i < 10; i++)]: the chunk found, if any, and the [i] the loop
    stopped at. *)
Fixpoint alloc_pull_loop (n : nat) (i ntotal id : Z) : M world (Z * Z) :=
  match n with
  | O => mret (NULL, i)
  | S n =>
      o ← gets w_settings;
      (if negb (o_lru_segmented o) then lru_pull_tail id COLD_LRU 0 0 0 ;; mret tt else mret tt) ;;
      it ← slabs_alloc ntotal id 0;
      if negb (it =? NULL) then mret (it, i)
      else
        r ← lru_pull_tail id COLD_LRU 0 LRU_PULL_EVICT 0;
        if r.1 <=? 0 then
          if o_lru_segmented o then
            lru_pull_tail id HOT_LRU 0 0 0 ;; alloc_pull_loop n (i + 1) ntotal id
          else mret (NULL, i)
        else alloc_pull_loop n (i + 1) ntotal id
  end.

Definition do_item_alloc_pull (ntotal id : Z) : M world Z :=
  r ← alloc_pull_loop 10 0 ntotal id;
  let '(it, i) := r in
  when (0 <? i) (on_itemstats id (λ x, x <| s_direct_reclaims := u64 (s_direct_reclaims x + i) |>)) ;;
  mret it.

(** The fields of an [item_chunk] under their own names. *)
Definition ch_head : item → Z := i_h_next.
Definition ch_size : item → Z := i_time.
Definition ch_used : item → Z := i_exptime.
Definition ch_orig_clsid : item → Z := i_nkey.

Definition do_item_alloc_chunk (ch bytes_remain : Z) : M world Z :=
  o ← gets w_settings;
  let size := u64 (bytes_remain + sizeof_item_chunk) in
  let size := if o_slab_chunk_size_max o <? size then o_slab_chunk_size_max o else size in
  id ← slabs_clsid size;
  nch ← do_item_alloc_pull size id;
  r ← (if negb (nch =? NULL) then mret (nch, size, id)
       else if size =? o_slab_chunk_size_max o then mret (NULL, size, id)
       else
         let size := o_slab_chunk_size_max o in
         id ← slabs_clsid size;
         nch ← do_item_alloc_pull size id;
         mret (nch, size, id));
  let '(nch, size, id) := r in
  if nch =? NULL then mret NULL
  else
    c ← load ch;
    wr nch (λ x, x <| i_h_next := ch_head c |>) ;;
    wr ch (λ x, x <| i_next := nch |>) ;;
    wr nch (λ x, x <| i_prev := ch |> <| i_next := NULL |> <| i_exptime := 0 |>
                   <| i_slabs_clsid := u8 id |> <| i_time := size - sizeof_item_chunk |>
                   <| i_it_flags := Z.lor (i_it_flags x) ITEM_CHUNK |>) ;;
    mret nch.

(** The LRU an item starts in. *)
Definition initial_lru (o : settings_t) (exptime now : Z) : Z :=
  if o_temp_lru o && (u32 (exptime - now) <=? o_temporary_ttl o) then TEMP_LRU
  else if o_lru_segmented o then HOT_LRU else COLD_LRU.

Definition do_item_alloc (key : list Z) (nkey flags exptime nbytes : Z) : M world Z :=
  if nbytes <? 2 then mret NULL
  else
    s ← get_state;
    let o := w_settings s in
    let '(ntotal, nsuffix) := item_ntotal (o_use_cas o) nkey flags nbytes in
    id ← slabs_clsid ntotal;
    if id =? 0 then mret NULL
    else
      r ← (if o_slab_chunk_size_max o <? ntotal then
             let htotal := nkey + 1 + nsuffix + sizeof_item + sizeof_item_chunk in
             let htotal := if o_use_cas o then htotal + sizeof_uint64 else htotal in
             hdr_id ← slabs_clsid htotal;
             it ← do_item_alloc_pull htotal hdr_id;
             when (negb (it =? NULL))
               (wr it (λ x, x <| i_it_flags := Z.lor (i_it_flags x) ITEM_CHUNKED |>)) ;;
             mret (it, hdr_id)
           else it ← do_item_alloc_pull ntotal id; mret (it, 0));
      let '(it, hdr_id) := r in
      if it =? NULL then
        on_itemstats id (λ x, x <| s_outofmemory := u64 (s_outofmemory x + 1) |>) ;;
        mret NULL
      else
        x ← load it;
        c_assert ((i_it_flags x =? 0) || (i_it_flags x =? ITEM_CHUNKED)) ;;
        wr it (λ x, x <| i_next := NULL |> <| i_prev := NULL |>
          <| i_slabs_clsid := u8 (Z.lor id (initial_lru o exptime (w_current_time s))) |>
          <| i_it_flags := Z.lor (Z.lor (i_it_flags x) (if o_use_cas o then ITEM_CAS else 0))
                             (if negb (nsuffix =? 0) then ITEM_CFLAGS else 0) |>
          <| i_nkey := u8 nkey |> <| i_nbytes := nbytes |>
          <| i_key := take (Z.to_nat nkey) key |>
          <| i_exptime := exptime |>) ;;
        when (0 <? nsuffix) (wr it (λ x, x <| i_cflags := flags |>)) ;;
        x ← load it;
        when (flag (i_it_flags x) ITEM_CHUNKED)
          (wr (ITEM_schunk it x) (λ c, c <| i_next := NULL |> <| i_prev := NULL |>
             <| i_exptime := 0 |> <| i_time := 0 |> <| i_h_next := it |> <| i_nkey := u8 hdr_id |>)) ;;
        wr it (λ x, x <| i_h_next := NULL |>) ;;
        mret it.

(** ** The maintainer thread *)

(** [while (todo)] over the entries of the bump buffer. *)
Fixpoint bumps_loop (fuel : nat) (be todo : Z) : M world unit :=
  match fuel with
  | O => undefined
  | S fuel =>
      if todo =? 0 then mret tt
      else
        b ← gets w_bump;
        match b_mem b !! be with
        | None => undefined
        | Some (it, hv) =>
            item_lock hv ;;
            do_item_update it ;;
            do_item_remove it ;;
            item_unlock hv ;;
            bumps_loop fuel (be + sizeof_lru_bump_entry) (u32 (todo - sizeof_lru_bump_entry))
        end
  end.

Definition lru_maintainer_bumps : M world bool :=
  b ← gets w_bump;
  match bipbuf_peek_all (b_buf b) with
  | None => mret false
  | Some (be, size) =>
      bumps_loop (S (Z.to_nat size)) be size ;;
      modify (λ s, s <| w_bump := (w_bump s) <| b_buf := (bipbuf_poll (b_buf (w_bump s)) size).2 |> |>) ;;
      mret true
  end.

Definition lru_total_bumps_dropped : M world Z := gets (λ s, b_dropped (w_bump s)).

Fixpoint juggle_temp (n : nat) (clsid did_moves : Z) : M world Z :=
  match n with
  | O => mret did_moves
  | S n =>
      r ← lru_pull_tail clsid TEMP_LRU 0 0 0;
      if r.1 <=? 0 then mret did_moves else juggle_temp n clsid (did_moves + 1)
  end.

Fixpoint juggle_loop (n : nat) (clsid total_bytes hot_age warm_age did_moves : Z) : M world Z :=
  match n with
  | O => mret did_moves
  | S n =>
      hot ← lru_pull_tail clsid HOT_LRU total_bytes LRU_PULL_CRAWL_BLOCKS hot_age;
      do_more ← (if negb (hot.1 =? 0) then mret 1
                 else
                   warm ← lru_pull_tail clsid WARM_LRU total_bytes LRU_PULL_CRAWL_BLOCKS warm_age;
                   mret (if negb (warm.1 =? 0) then 1 else 0));
      o ← gets w_settings;
      do_more ← (if o_lru_segmented o then
                   cold ← lru_pull_tail clsid COLD_LRU total_bytes LRU_PULL_CRAWL_BLOCKS 0;
                   mret (do_more + cold.1)
                 else mret do_more);
      if do_more =? 0 then mret did_moves
      else juggle_loop n clsid total_bytes hot_age warm_age (did_moves + 1)
  end.

Definition lru_maintainer_juggle (slabs_clsid : Z) : M world Z :=
  slabs_available_chunks slabs_clsid ;;
  o ← gets w_settings;
  did_moves ← (if o_temp_lru o then juggle_temp 500 slabs_clsid 0 else mret 0);
  s ← get_state;
  let l := w_lru s in
  ages ← (if o_lru_segmented o then
            let tail := l_tails l (Z.lor slabs_clsid COLD_LRU) in
            cold_age ← (if negb (tail =? NULL)
                        then t ← fld tail i_time; mret (u32 (w_current_time s - t)) else mret 0);
            mret (dbl_to_uint (dbl_mul (dbl_of_int cold_age) (o_hot_max_factor o)),
                  dbl_to_uint (dbl_mul (dbl_of_int cold_age) (o_warm_max_factor o)),
                  u64 (l_sizes_bytes l (Z.lor slabs_clsid COLD_LRU)
                       + l_sizes_bytes l (Z.lor slabs_clsid HOT_LRU)
                       + l_sizes_bytes l (Z.lor slabs_clsid WARM_LRU)))
          else mret (0, 0, 0));
  let '(hot_age, warm_age, total_bytes) := ages in
  juggle_loop 500 slabs_clsid total_bytes hot_age warm_age did_moves.

Record item_stats_automove : Type := mkIsa {
  is_evicted : Z;
  is_outofmemory : Z;
  is_age : Z
}.

Fixpoint fill_automove_loop (ns : list Z) : M world (list item_stats_automove) :=
  match ns with
  | [] => mret []
  | n :: ns =>
      s ← get_state;
      let i := Z.lor n HOT_LRU in
      let j := Z.lor n COLD_LRU in
      let oom := s_outofmemory (l_itemstats (w_lru s) i) in
      let tail := l_tails (w_lru s) j in
      age ← (if tail =? NULL then mret 0
             else
               t ← load tail;
               if is_crawler t then
                 if negb (i_prev t =? NULL)
                 then q ← fld (i_prev t) i_time; mret (u32 (w_current_time s - q))
                 else mret 0
               else mret (u32 (w_current_time s - i_time t)));
      rest ← fill_automove_loop ns;
      mret (mkIsa (s_evicted (l_itemstats (w_lru s) j)) oom age :: rest)
  end.

Definition fill_item_stats_automove : M world (list item_stats_automove) :=
  fill_automove_loop (seqZ 0 MAX_NUMBER_OF_SLAB_CLASSES).

(** ** The crawler's place in a queue

    A crawler is a marker item ([it_flags == 1], no bytes) that walks a queue
    from the tail to the head. *)

Definition do_item_linktail_q (it : Z) : M world unit :=
  x ← load it;
  c_assert (i_it_flags x =? 1) ;;
  c_assert (i_nbytes x =? 0) ;;
  l ← gets w_lru;
  let id := i_slabs_clsid x in
  let head := l_heads l id in
  let tail := l_tails l id in
  c_assert (negb (it =? tail)) ;;
  c_assert ((negb (head =? NULL) && negb (tail =? NULL)) || ((head =? NULL) && (tail =? NULL))) ;;
  wr it (λ x, x <| i_prev := tail |> <| i_next := NULL |>) ;;
  (if negb (tail =? NULL) then
     n ← fld tail i_next;
     c_assert (n =? NULL) ;;
     wr tail (λ x, x <| i_next := it |>)
   else mret tt) ;;
  on_lru (λ l, l <| l_tails := upd (l_tails l) id it |>
                 <| l_heads := upd (l_heads l) id (if head =? NULL then it else head) |>).

Definition do_item_unlinktail_q (it : Z) : M world unit := lru_take_out it.

Definition do_item_crawl_q (it : Z) : M world Z :=
  x ← load it;
  c_assert (i_it_flags x =? 1) ;;
  c_assert (i_nbytes x =? 0) ;;
  l ← gets w_lru;
  let id := i_slabs_clsid x in
  if i_prev x =? NULL then
    c_assert (l_heads l id =? it) ;;
    (if negb (i_next x =? NULL) then
       on_lru (λ l, l <| l_heads := upd (l_heads l) id (i_next x) |>) ;;
       np ← fld (i_next x) i_prev;
       c_assert (np =? it) ;;
       wr (i_next x) (λ y, y <| i_prev := NULL |>)
     else mret tt) ;;
    mret NULL
  else
    c_assert (negb (i_prev x =? it)) ;;
    when (l_heads l id =? i_prev x) (on_lru (λ l, l <| l_heads := upd (l_heads l) id it |>)) ;;
    when (l_tails l id =? it) (on_lru (λ l, l <| l_tails := upd (l_tails l) id (i_prev x) |>)) ;;
    c_assert (negb (i_next x =? it)) ;;
    (if negb (i_next x =? NULL) then
       pn ← fld (i_prev x) i_next;
       c_assert (pn =? it) ;;
       wr (i_prev x) (λ y, y <| i_next := i_next x |>) ;;
       wr (i_next x) (λ y, y <| i_prev := i_prev x |>)
     else wr (i_prev x) (λ y, y <| i_next := NULL |>)) ;;
    pp ← fld (i_prev x) i_prev;
    wr it (λ y, y <| i_next := i_prev x |> <| i_prev := pp |>) ;;
    wr (i_prev x) (λ y, y <| i_prev := it |>) ;;
    when (negb (pp =? NULL)) (wr pp (λ y, y <| i_next := it |>)) ;;
    y ← load it;
    c_assert (negb (i_next y =? it)) ;;
    c_assert (negb (i_prev y =? it)) ;;
    mret (i_next y).

End Items.
