(* ===== verification/ItemsSpec.v ===== *)
(** * The LRU queues and the hash table kept together

    [cache_ok s m R D]: the state [s] is a cache whose linked items are the map
    [m] from keys to addresses; [D] are its LRU queues and free lists and [R p]
    counts the references to [p] held by the callers of this module. The
    operations of [items.c] are proved to keep it and to change the map as
    their names say. *)

From S2P Require Import Prelude Bipbuf Hashes State Links Queues Assoc AssocSpec Slabs SlabsSpec Items.

Implicit Types (s : world) (D : queues) (h : gmap Z item) (p : Z).

(** ** Flags *)

Lemma flag_lor f a b : flag (Z.lor f a) b = flag f b || flag a b.
Proof.
  unfold flag. rewrite Z.land_lor_distr_l.
  destruct (Z.eqb_spec (Z.land f b) 0) as [->|H1]; simpl.
  - by rewrite Z.lor_0_l.
  - destruct (Z.eqb_spec (Z.lor (Z.land f b) (Z.land a b)) 0) as [H|]; [|done].
    by apply Z.lor_eq_0_iff in H as [? _].
Qed.

Lemma flag_clear_ne f a b : Z.land a b = 0 → flag (clear f a) b = flag f b.
Proof.
  intros H. unfold flag, clear. do 2 f_equal. apply Z.bits_inj'. intros i Hi.
  rewrite !Z.land_spec, Z.ldiff_spec.
  apply (f_equal (λ x, Z.testbit x i)) in H. rewrite Z.land_spec, Z.bits_0 in H.
  destruct (Z.testbit f i), (Z.testbit a i), (Z.testbit b i); simpl in *; done.
Qed.

Lemma flag_clear_eq f a : flag (clear f a) a = false.
Proof.
  unfold flag, clear. apply negb_false_iff, Z.eqb_eq. apply Z.bits_inj'. intros i Hi.
  rewrite Z.land_spec, Z.ldiff_spec, Z.bits_0. by destruct (Z.testbit f i), (Z.testbit a i).
Qed.

#[export] Hint Rewrite flag_lor : mc.
#[export] Hint Rewrite flag_clear_ne using reflexivity : mc.
#[export] Hint Rewrite flag_clear_eq : mc.

(** ** What the structures read of a header *)

(** The hash table reads [hcore], a queue its links and [lru_bytes], the item
    code [ITEM_ntotal]. *)
Definition hcore (it : item) : Z * Z * list Z := (i_h_next it, i_nkey it, i_key it).

Definition bytes_at h p : Z := match h !! p with Some it => lru_bytes it | None => 0 end.
Definition sum_bytes h (l : list Z) : Z := foldr (λ p acc, bytes_at h p + acc) 0 l.

Lemma sum_bytes_app h l1 l2 : sum_bytes h (l1 ++ l2) = sum_bytes h l1 + sum_bytes h l2.
Proof. induction l1 as [|p l1 IH]; simpl; [done|]. rewrite IH. lia. Qed.

Lemma sum_bytes_ext h h' l :
  (∀ p, p ∈ l → lru_bytes <$> h' !! p = lru_bytes <$> h !! p) → sum_bytes h' l = sum_bytes h l.
Proof.
  induction l as [|p l IH]; simpl; intros H; [done|]. rewrite IH by set_solver.
  f_equal. unfold bytes_at. specialize (H p ltac:(set_solver)).
  destruct (h' !! p), (h !! p); simpl in *; congruence.
Qed.

Section Spec.
Context {HF : HashFn}.
Implicit Types (m : gmap (list Z) Z) (L : loc → list Z).

Lemma assoc_ok_ext s s' L :
  w_assoc s' = w_assoc s →
  (∀ lc p, p ∈ L lc → hcore <$> w_heap s' !! p = hcore <$> w_heap s !! p) →
  assoc_ok s L → assoc_ok s' L.
Proof.
  intros Ha Hh [H1 H2 H3 H4 H5 H6 H7 H8]. constructor; rewrite ?Ha; try done.
  - intros lc. apply (hseg_ext (w_heap s)); [|done]. intros p Hp. specialize (Hh lc p Hp).
    unfold hlink, hcore in *. destruct (w_heap s' !! p), (w_heap s !! p); simpl in *; congruence.
  - intros lc p Hp. destruct (H7 lc p Hp) as (it & Hit & Hko & Hc). specialize (Hh lc p Hp).
    rewrite Hit in Hh. destruct (w_heap s' !! p) as [it'|]; [|done]. simpl in Hh.
    injection Hh as E1 E2 E3. exists it'. unfold key_ok, ITEM_key in *. by rewrite E2, E3.
  - intros lc p q Hp Hq Hk. apply (H8 lc p q Hp Hq). revert Hk. unfold key_of, ITEM_key.
    pose proof (Hh lc p Hp) as Ep. pose proof (Hh lc q Hq) as Eq.
    destruct (w_heap s' !! p) as [ip|], (w_heap s !! p) as [ip'|]; try done;
      destruct (w_heap s' !! q) as [iq|], (w_heap s !! q) as [iq'|]; try done; simpl in *;
      try injection Ep as E1 E2 E3; try injection Eq as F1 F2 F3; congruence.
Qed.

Lemma assoc_abs_ext s s' L m :
  (∀ lc p, p ∈ L lc → hcore <$> w_heap s' !! p = hcore <$> w_heap s !! p) →
  assoc_abs s L m → assoc_abs s' L m.
Proof.
  intros Hh Habs k p. rewrite (Habs k p). split; intros [[lc Hp] Hk]; (split; [by exists lc|]);
    specialize (Hh lc p Hp); revert Hk; unfold key_of, ITEM_key, hcore in *;
    destruct (w_heap s' !! p), (w_heap s !! p); simpl in *; congruence.
Qed.

(** ** The queues of the LRU *)

Definition lru_ok s D : Prop := ∀ id,
  l_heads (w_lru s) id = hdz 0 (D (LruQ id)) ∧ l_tails (w_lru s) id = lastz 0 (D (LruQ id)) ∧
  l_sizes (w_lru s) id = u32 (Z.of_nat (length (D (LruQ id)))) ∧
  l_sizes_bytes (w_lru s) id = u64 (sum_bytes (w_heap s) (D (LruQ id))).

(** [w_lru] changed in its queues only. *)
Definition lru_frame (l l' : lru_t) : Prop :=
  l' <| l_heads := l_heads l |> <| l_tails := l_tails l |> <| l_sizes := l_sizes l |>
     <| l_sizes_bytes := l_sizes_bytes l |> = l.

Lemma lru_frame_refl (l : lru_t) : lru_frame l l.
Proof. by destruct l. Qed.
Lemma lru_frame_trans (l1 l2 l3 : lru_t) : lru_frame l1 l2 → lru_frame l2 l3 → lru_frame l1 l3.
Proof. unfold lru_frame. intros E1 E2. rewrite <- E2 in E1. rewrite <- E1. by destruct l3. Qed.

Lemma lru_ok_ext s s' D :
  lru_ok s D →
  l_heads (w_lru s') = l_heads (w_lru s) → l_tails (w_lru s') = l_tails (w_lru s) →
  l_sizes (w_lru s') = l_sizes (w_lru s) → l_sizes_bytes (w_lru s') = l_sizes_bytes (w_lru s) →
  (∀ id p, p ∈ D (LruQ id) → lru_bytes <$> w_heap s' !! p = lru_bytes <$> w_heap s !! p) →
  lru_ok s' D.
Proof.
  intros H Eh Et Es Eb Hb id. destruct (H id) as (? & ? & ? & ?). rewrite Eh, Et, Es, Eb.
  rewrite (sum_bytes_ext (w_heap s)); [done|apply Hb].
Qed.

#[global] Instance lru_ok_proper s : Proper (queues_eq ==> iff) (lru_ok s).
Proof. intros D D' He. split; intros H id; specialize (H id); revert H; by rewrite (He (LruQ id)). Qed.

Lemma u32_add_u32 x y : u32 (u32 x + y) = u32 (x + y).
Proof. apply Zplus_mod_idemp_l. Qed.
Lemma u64_add_u64 x y : u64 (u64 x + y) = u64 (x + y).
Proof. apply Zplus_mod_idemp_l. Qed.

Lemma lru_bytes_links it n v : lru_bytes (it <| i_next := n |> <| i_prev := v |>) = lru_bytes it.
Proof. done. Qed.

Lemma lsame_bytes h h' p : lsame h h' → lru_bytes <$> h' !! p = lru_bytes <$> h !! p.
Proof. apply lsame_fmap. done. Qed.

Lemma dlseg_ends h prv l nxt : dlseg h prv l nxt → l = [] ∨ (hdz 0 l ≠ 0 ∧ lastz 0 l ≠ 0).
Proof.
  intros Hl. destruct l as [|p l]; [by left|right].
  assert (∀ q, q ∈ p :: l → q ≠ 0) as Hnz.
  { intros q Hq. by destruct (dlseg_lookup _ _ _ _ q Hl Hq) as (_ & _ & ?). }
  split; [apply Hnz; set_solver|]. destruct (lastz_in 0 (p :: l)) as [E|Hin]; [|by apply Hnz].
  simpl in E. destruct (lastz_in p l) as [E'|Hin]; simpl; [rewrite E'; apply Hnz; set_solver|].
  apply Hnz. set_solver.
Qed.

Lemma ends_assert h prv l nxt :
  dlseg h prv l nxt →
  (negb (hdz 0 l =? NULL) && negb (lastz 0 l =? NULL))
    || ((hdz 0 l =? NULL) && (lastz 0 l =? NULL)) = true.
Proof.
  intros [->|[Hh Hl]]%dlseg_ends; [done|]. by rewrite !(proj2 (Z.eqb_neq _ _)) by done.
Qed.

Lemma do_item_link_q_ok s D p it :
  queues_ok (w_heap s) D → lru_ok s D → (∀ q, p ∉ D q) → p ≠ 0 → w_heap s !! p = Some it →
  flag (i_it_flags it) ITEM_SLABBED = false →
  let q := LruQ (i_slabs_clsid it) in
  ∃ h' l', do_item_link_q p s = Some (tt, s <| w_heap := h' |> <| w_lru := l' |>) ∧
    queues_ok h' (qset D q (p :: D q)) ∧
    lru_ok (s <| w_heap := h' |> <| w_lru := l' |>) (qset D q (p :: D q)) ∧
    lsame (w_heap s) h' ∧ lru_frame (w_lru s) l'.
Proof.
  intros Hq Hlru Hnin Hp0 Hp Hsl q. set (id := i_slabs_clsid it) in *.
  destruct (Hlru id) as (Hh & Ht & Hsz & Hby). fold q in Hh, Ht, Hsz, Hby.
  destruct (q_push_ok s D q p it Hq Hnin Hp0 Hp) as (h' & Hpush & Hq' & Hs & _).
  set (l' := on_lru_id id p (if lastz 0 (D q) =? NULL then p else lastz 0 (D q))
    (u32 (l_sizes (w_lru s) id + 1)) (u64 (l_sizes_bytes (w_lru s) id + lru_bytes it)) (w_lru s)).
  exists h', l'. split_and!; try done.
  - unfold do_item_link_q. rewrite (bind_run _ _ _ _ _ (load_ok _ _ _ Hp)), Hsl.
    rewrite (bind_run _ _ _ _ _ eq_refl), (bind_run _ _ _ _ _ eq_refl). fold id. cbv zeta. rewrite Hh, Ht.
    rewrite (bind_run _ _ _ tt s).
    2:{ unfold c_assert. rewrite (proj2 (Z.eqb_neq p _)); [done|].
        intros E. destruct (hdz_in 0 (D q)) as [E'|Hin]; [congruence|]. rewrite <- E in Hin. by apply (Hnin q). }
    rewrite (bind_run _ _ _ tt s) by (unfold c_assert; by rewrite (ends_assert _ _ _ _ (qo_seg _ _ Hq q))).
    rewrite (bind_run _ _ _ _ _ Hpush). by destruct s.
  - intros x. unfold l', on_lru_id. simpl. unfold upd. destruct (Z.eqb_spec x id) as [->|Hx].
    + fold q. rewrite qset_eq. simpl. split_and!.
      * done.
      * destruct (dlseg_ends _ _ _ _ (qo_seg _ _ Hq q)) as [E|[_ E]]; [by rewrite E|].
        rewrite (proj2 (Z.eqb_neq _ _)) by done. destruct (D q) as [|a t]; [done|]. simpl. done.
      * rewrite Hsz, u32_add_u32. f_equal. lia.
      * rewrite Hby, u64_add_u64. f_equal.
        rewrite (sum_bytes_ext (w_heap s) h') by (intros; by apply lsame_bytes).
        unfold bytes_at. pose proof (lsame_bytes _ _ p Hs) as Hb. rewrite Hp in Hb.
        destruct (h' !! p); [|done]. simpl in Hb. injection Hb as ->. lia.
    + destruct (Hlru x) as (? & ? & ? & ?). rewrite qset_ne by (unfold q; congruence).
      rewrite (sum_bytes_ext (w_heap s) h'); [done|]. intros; by apply lsame_bytes.
  - unfold lru_frame, l', on_lru_id. by destruct (w_lru s).
Qed.

Lemma hdz_remove l1 p l2 :
  NoDup (l1 ++ p :: l2) → hdz 0 (l1 ++ l2) = if hdz 0 (l1 ++ p :: l2) =? p then hdz 0 l2 else hdz 0 (l1 ++ p :: l2).
Proof.
  intros Hn. destruct l1 as [|a l1]; simpl; [by rewrite Z.eqb_refl|].
  rewrite (proj2 (Z.eqb_neq a p)); [done|]. intros ->. apply NoDup_mid_notin in Hn as [Hn _]. set_solver.
Qed.

Lemma lastz_remove l1 p l2 :
  NoDup (l1 ++ p :: l2) →
  lastz 0 (l1 ++ l2) = if lastz 0 (l1 ++ p :: l2) =? p then lastz 0 l1 else lastz 0 (l1 ++ p :: l2).
Proof.
  intros Hn. rewrite !lastz_app. simpl.
  destruct (lastz_snoc l2) as [->|(l2' & b & ->)]; simpl; [by rewrite Z.eqb_refl|].
  rewrite !lastz_app. simpl. rewrite (proj2 (Z.eqb_neq b p)); [done|].
  intros ->. apply NoDup_mid_notin in Hn as [_ Hn]. set_solver.
Qed.

Lemma hd_is_first l1 p l2 : NoDup (l1 ++ p :: l2) → hdz 0 (l1 ++ p :: l2) = p → l1 = [].
Proof.
  intros Hn. destruct l1 as [|a l1]; simpl; [done|]. intros ->.
  apply NoDup_mid_notin in Hn as [Hn _]. set_solver.
Qed.

Lemma last_is_last l1 p l2 : NoDup (l1 ++ p :: l2) → lastz 0 (l1 ++ p :: l2) = p → l2 = [].
Proof.
  intros Hn. destruct (lastz_snoc l2) as [->|(l2' & b & ->)]; [done|].
  rewrite lastz_app. simpl. rewrite lastz_app. simpl. intros ->.
  apply NoDup_mid_notin in Hn as [_ Hn]. set_solver.
Qed.

(** The arrays after the head and tail have been moved off [p]. *)
Definition take_out_lru (l : lru_t) (id p nxt prv : Z) : lru_t :=
  let l := if l_heads l id =? p then l <| l_heads := upd (l_heads l) id nxt |> else l in
  if l_tails l id =? p then l <| l_tails := upd (l_tails l) id prv |> else l.

Lemma lru_take_out_run s D p it l1 l2 :
  queues_ok (w_heap s) D → w_heap s !! p = Some it →
  let id := i_slabs_clsid it in let q := LruQ id in
  l_heads (w_lru s) id = hdz 0 (D q) → l_tails (w_lru s) id = lastz 0 (D q) → D q = l1 ++ p :: l2 →
  ∃ h', lru_take_out p s =
      Some (tt, s <| w_heap := h' |>
                  <| w_lru := take_out_lru (w_lru s) id p (hdz 0 l2) (lastz 0 l1) |>) ∧
    queues_ok h' (qset D q (l1 ++ l2)) ∧ (∀ x, p ∉ qset D q (l1 ++ l2) x) ∧
    lsame (w_heap s) h' ∧ h' !! p = w_heap s !! p.
Proof.
  intros Hq Hp id q Hh Ht HD. pose proof (qo_seg _ _ Hq q) as Hseg. pose proof (qo_nodup _ _ Hq q) as Hnd.
  rewrite HD in Hseg, Hnd, Hh, Ht. destruct (dlseg_mid _ _ _ _ _ _ Hseg) as [Hp0 Hlk].
  apply links_Some in Hlk as (it' & Hp' & Hnx & Hpv). rewrite Hp in Hp'. injection Hp' as <-.
  destruct (NoDup_mid_notin _ _ _ Hnd) as [Hp1 Hp2].
  set (l' := take_out_lru (w_lru s) id p (hdz 0 l2) (lastz 0 l1)).
  set (s1 := s <| w_lru := l' |>).
  destruct (q_unlink_ok s1 D q p l1 l2 Hq HD) as (h' & Hrun & Hq' & Hnin & Hs & Hsame).
  exists h'. split_and!; try done.
  unfold lru_take_out. rewrite (bind_run _ _ _ _ _ (load_ok _ _ _ Hp)), (bind_run _ _ _ _ _ eq_refl).
  fold id. rewrite Hnx, Hpv. cbv zeta.
  set (lm := if l_heads (w_lru s) id =? p then (w_lru s) <| l_heads := upd (l_heads (w_lru s)) id (hdz 0 l2) |>
             else w_lru s).
  rewrite (bind_run _ _ _ tt (s <| w_lru := lm |>)).
  2:{ unfold lm. destruct (Z.eqb_spec (l_heads (w_lru s) id) p) as [E|_]; [|by destruct s].
      rewrite Hh in E. rewrite (hd_is_first _ _ _ Hnd E). reflexivity. }
  assert (Etail : l_tails lm id = l_tails (w_lru s) id) by (unfold lm; by destruct (_ =? p)).
  rewrite (bind_run _ _ _ tt s1).
  2:{ unfold s1, l', take_out_lru. fold lm. rewrite Etail.
      destruct (Z.eqb_spec (l_tails (w_lru s) id) p) as [E|_]; [|by destruct s].
      rewrite Ht in E. rewrite (last_is_last _ _ _ Hnd E). by destruct s. }
  assert (Hne : ∀ a (l : list Z), (a = 0 ∨ a ∈ l) → p ∉ l → negb (a =? p) = true).
  { intros a l Ha Hl. apply negb_true_iff, Z.eqb_neq. intros ->. destruct Ha; [congruence|done]. }
  rewrite (bind_run _ _ _ tt s1)
    by (unfold c_assert; rewrite (Hne _ l2); [done| |done]; by destruct (hdz_in 0 l2); auto).
  rewrite (bind_run _ _ _ tt s1)
    by (unfold c_assert; rewrite (Hne _ l1); [done| |done]; by destruct (lastz_in 0 l1); auto).
  rewrite Hrun. by destruct s.
Qed.

Lemma do_item_unlink_q_ok s D p it l1 l2 :
  queues_ok (w_heap s) D → lru_ok s D → w_heap s !! p = Some it →
  let q := LruQ (i_slabs_clsid it) in D q = l1 ++ p :: l2 →
  ∃ h' l', do_item_unlink_q p s = Some (tt, s <| w_heap := h' |> <| w_lru := l' |>) ∧
    queues_ok h' (qset D q (l1 ++ l2)) ∧ (∀ x, p ∉ qset D q (l1 ++ l2) x) ∧
    lru_ok (s <| w_heap := h' |> <| w_lru := l' |>) (qset D q (l1 ++ l2)) ∧
    lsame (w_heap s) h' ∧ h' !! p = w_heap s !! p ∧ lru_frame (w_lru s) l'.
Proof.
  intros Hq Hlru Hp q HD. set (id := i_slabs_clsid it) in *.
  destruct (Hlru id) as (Hh & Ht & Hsz & Hby). fold q in Hh, Ht, Hsz, Hby.
  destruct (lru_take_out_run s D p it l1 l2 Hq Hp Hh Ht HD) as (h' & Hrun & Hq' & Hnin & Hs & Hsame).
  fold id q in Hrun, Hq', Hnin. set (lm := take_out_lru _ _ _ _ _) in Hrun.
  pose proof (qo_nodup _ _ Hq q) as Hnd. rewrite HD in Hnd.
  set (l' := lm <| l_sizes := upd (l_sizes lm) id (u32 (l_sizes lm id - 1)) |>
                <| l_sizes_bytes := upd (l_sizes_bytes lm) id (u64 (l_sizes_bytes lm id - lru_bytes it)) |>).
  assert (Hlm : l_sizes lm = l_sizes (w_lru s) ∧ l_sizes_bytes lm = l_sizes_bytes (w_lru s) ∧
    l_heads lm id = (if hdz 0 (D q) =? p then hdz 0 l2 else hdz 0 (D q)) ∧
    l_tails lm id = (if lastz 0 (D q) =? p then lastz 0 l1 else lastz 0 (D q)) ∧
    (∀ x, x ≠ id → l_heads lm x = l_heads (w_lru s) x ∧ l_tails lm x = l_tails (w_lru s) x)).
  { unfold lm, take_out_lru. rewrite <- Hh, <- Ht.
    destruct (l_heads (w_lru s) id =? p); simpl; destruct (l_tails (w_lru s) id =? p); simpl;
      rewrite ?upd_eq; split_and!; try done; intros x Hx; rewrite ?upd_ne by done; done. }
  destruct Hlm as (Hms & Hmb & Hmh & Hmt & Hmo).
  rewrite HD in Hmh, Hmt. rewrite <- hdz_remove in Hmh by done. rewrite <- lastz_remove in Hmt by done.
  exists h', l'. split_and!; try done.
  - unfold do_item_unlink_q. rewrite (bind_run _ _ _ _ _ Hrun).
    erewrite bind_run; [|apply load_ok; simpl; rewrite Hsame; exact Hp]. fold id. by destruct s.
  - intros x. simpl. rewrite Hms, Hmb. destruct (decide (x = id)) as [->|Hx].
    + fold q. rewrite qset_eq, !upd_eq, Hmh, Hmt. split_and!; [done..| |].
      * rewrite Hsz. unfold u32. rewrite Zminus_mod_idemp_l. f_equal.
        rewrite HD, !length_app. simpl. lia.
      * rewrite Hby. unfold u64. rewrite Zminus_mod_idemp_l. f_equal.
        rewrite (sum_bytes_ext (w_heap s) h') by (intros; by apply lsame_bytes).
        rewrite HD, !sum_bytes_app. simpl.
        assert (bytes_at (w_heap s) p = lru_bytes it) as -> by (unfold bytes_at; by rewrite Hp). lia.
    + destruct (Hmo x Hx) as [-> ->]. destruct (Hlru x) as (? & ? & ? & ?).
      rewrite qset_ne by (unfold q; congruence). rewrite !upd_ne by done.
      rewrite (sum_bytes_ext (w_heap s) h'); [done|]. intros; by apply lsame_bytes.
  - unfold lru_frame, l', lm, take_out_lru.
    destruct (l_heads (w_lru s) id =? p), (_ =? p); by destruct (w_lru s).
Qed.

(** ** Headers up to their links *)

Definition ctl (it : item) : item := erase_l (erase_h it).

Lemma ctl_fields it it' :
  ctl it' = ctl it →
  i_it_flags it' = i_it_flags it ∧ i_refcount it' = i_refcount it ∧
  i_slabs_clsid it' = i_slabs_clsid it ∧ i_nkey it' = i_nkey it ∧ i_key it' = i_key it ∧
  i_nbytes it' = i_nbytes it ∧ i_exptime it' = i_exptime it ∧ i_time it' = i_time it ∧
  i_cas it' = i_cas it ∧ i_cflags it' = i_cflags it ∧ i_data it' = i_data it.
Proof. destruct it, it'. unfold ctl, erase_l, erase_h. simpl. intros [=]. by split_and!. Qed.

(** Heaps that differ in links only, outside a set of addresses. *)
Definition csame_out (P : Z → Prop) h h' : Prop :=
  ∀ x, ¬ P x → ctl <$> h' !! x = ctl <$> h !! x.

Definition csame : gmap Z item → gmap Z item → Prop := csame_out (λ _, False).

Lemma csame_out_refl P h : csame_out P h h.
Proof. done. Qed.
Lemma csame_out_trans P h1 h2 h3 : csame_out P h1 h2 → csame_out P h2 h3 → csame_out P h1 h3.
Proof. intros H1 H2 x Hx. by rewrite H2, H1. Qed.
Lemma csame_out_weaken (P Q : Z → Prop) h h' :
  (∀ x, P x → Q x) → csame_out P h h' → csame_out Q h h'.
Proof. intros HPQ H x Hx. apply H. auto. Qed.
Lemma csame_out_insert (P : Z → Prop) h p it : P p → csame_out P h (<[p := it]> h).
Proof. intros Hp x Hx. rewrite lookup_insert_ne; [done|]. by intros ->. Qed.

Lemma fmap_ctl_erase_l h x : ctl <$> h !! x = (λ it, it <| i_h_next := 0 |>) <$> (erase_l <$> h !! x).
Proof. by destruct (h !! x) as [[]|]. Qed.

Lemma lsame_out_csame P h h' : lsame_out P h h' → csame_out P h h'.
Proof. intros H x Hx. by rewrite !fmap_ctl_erase_l, (H x Hx). Qed.
Lemma lsame_csame P h h' : lsame h h' → csame_out P h h'.
Proof. intros H. by apply lsame_out_csame, lsame_lsame_out. Qed.
Lemma hsame_csame P h h' : hsame h h' → csame_out P h h'.
Proof.
  intros H x Hx. specialize (H x). unfold ctl.
  destruct (h !! x) as [a|], (h' !! x) as [b|]; simpl in *; try done.
  apply (inj Some) in H. by rewrite H.
Qed.

Lemma csame_lookup (P : Z → Prop) h h' x it :
  csame_out P h h' → ¬ P x → h !! x = Some it → ∃ it', h' !! x = Some it' ∧ ctl it' = ctl it.
Proof.
  intros H Hx E. specialize (H x Hx). rewrite E in H. destruct (h' !! x) as [it'|]; [|done].
  exists it'. split; [done|]. by apply (inj Some) in H.
Qed.

(** ** Frame lemmas of the three structures *)

Lemma lsame_out_hcore (P : Z → Prop) h h' x :
  lsame_out P h h' → ¬ P x → hcore <$> h' !! x = hcore <$> h !! x.
Proof.
  intros H Hx. specialize (H x Hx).
  destruct (h !! x) as [a|], (h' !! x) as [b|]; simpl in *; try done.
  apply (inj Some) in H. change (hcore b) with (hcore (erase_l b)). by rewrite <- H.
Qed.

Lemma assoc_rep_ext s s' m :
  w_assoc s' = w_assoc s →
  (∀ k p, m !! k = Some p → hcore <$> w_heap s' !! p = hcore <$> w_heap s !! p) →
  assoc_rep s m → assoc_rep s' m.
Proof.
  intros Ha Hh (L & Hok & Habs & Hl).
  assert (Hh' : ∀ lc p, p ∈ L lc → hcore <$> w_heap s' !! p = hcore <$> w_heap s !! p).
  { intros lc p Hp. destruct (ao_place _ _ Hok _ _ Hp) as (it & Hit & _ & _).
    apply (Hh (ITEM_key it)), Habs. split; [eauto|by apply key_of_lookup]. }
  exists L. split_and!; [by eapply assoc_ok_ext|by eapply assoc_abs_ext|by rewrite Ha].
Qed.

Lemma slabs_ok_ext s s' D D' :
  slabs_ok s D → w_slabs s' = w_slabs s → queues_ok (w_heap s') D' →
  (∀ id, D' (FreeQ id) = D (FreeQ id)) →
  (∀ id p, p ∈ D (FreeQ id) → ctl <$> w_heap s' !! p = ctl <$> w_heap s !! p) →
  slabs_ok s' D'.
Proof.
  intros [? ? Hsl Hfr ?] Hm Hq' Hf Hc. constructor; rewrite ?Hm; try done.
  - intros id. rewrite Hf. apply Hsl.
  - intros id p. rewrite Hf. intros Hp. destruct (Hfr id p Hp) as (? & it & Hit & Hfl & Hcl).
    split; [done|]. specialize (Hc id p Hp). rewrite Hit in Hc.
    destruct (w_heap s' !! p) as [it'|]; [|done]. apply (inj Some), ctl_fields in Hc.
    exists it'. intuition congruence.
Qed.

Lemma lru_bytes_ctl it it' : ctl it' = ctl it → lru_bytes it' = lru_bytes it.
Proof.
  intros (Hf & _ & _ & Hk & _ & Hn & _)%ctl_fields. unfold lru_bytes, ITEM_ntotal.
  by rewrite Hf, Hk, Hn.
Qed.

Lemma ctl_bytes h h' x :
  ctl <$> h' !! x = ctl <$> h !! x → lru_bytes <$> h' !! x = lru_bytes <$> h !! x.
Proof.
  destruct (h !! x), (h' !! x); simpl; try done. intros H%(inj Some). f_equal. by apply lru_bytes_ctl.
Qed.

(** ** The cache *)

(** A header in use: neither free nor the header of a chunked item. *)
Definition item_ok (pl : Z) (it : item) : Prop :=
  flag (i_it_flags it) ITEM_SLABBED = false ∧ flag (i_it_flags it) ITEM_CHUNKED = false ∧
  key_ok it ∧ 1 ≤ ITEM_clsid it ≤ pl ∧ 0 ≤ i_nbytes it.

Lemma item_ok_ctl pl it it' : ctl it' = ctl it → item_ok pl it → item_ok pl it'.
Proof.
  intros (Hf & _ & Hc & Hk & Hkk & Hn & _)%ctl_fields. unfold item_ok, key_ok, ITEM_clsid.
  by rewrite Hf, Hc, Hk, Hkk, Hn.
Qed.

Definition queued_ok s m (R : Z → Z) (id p : Z) (it : item) : Prop :=
  item_ok (m_power_largest (w_slabs s)) it ∧ i_slabs_clsid it = id ∧
  flag (i_it_flags it) ITEM_LINKED = true ∧ i_refcount it = 1 + R p ∧ m !! ITEM_key it = Some p.

Definition held_ok s (R : Z → Z) (p : Z) (it : item) : Prop :=
  item_ok (m_power_largest (w_slabs s)) it ∧
  flag (i_it_flags it) ITEM_LINKED = false ∧ i_refcount it = R p.

Record cache_ok s m (R : Z → Z) D : Prop := {
  co_assoc : assoc_rep s m;
  co_slabs : slabs_ok s D;
  co_lru : lru_ok s D;
  co_queued : ∀ id p, p ∈ D (LruQ id) → ∃ it, w_heap s !! p = Some it ∧ queued_ok s m R id p it;
  co_mapped : ∀ k p, m !! k = Some p → ∃ id, p ∈ D (LruQ id);
  co_held : ∀ p, 0 < R p → (∃ id, p ∈ D (LruQ id)) ∨
    (p ≠ 0 ∧ (∀ q, p ∉ D q) ∧ ∃ it, w_heap s !! p = Some it ∧ held_ok s R p it);
  co_refs : ∀ p, 0 ≤ R p < 2 ^ 15;
  co_items : st_curr_items (w_stats s) = u64 (Z.of_nat (size m));
  co_hist : ∀ hist, l_stats_sizes_hist (w_lru s) = Some hist →
    Z.of_nat (length hist) = l_stats_sizes_buckets (w_lru s);
  co_heap : Z.of_nat (size (w_heap s)) < 2 ^ 31
}.

Lemma queue_length s D q : queues_ok (w_heap s) D → (length (D q) ≤ size (w_heap s))%nat.
Proof.
  intros Hq. rewrite <- (size_list_to_set (C := gset Z)) by apply (qo_nodup _ _ Hq).
  rewrite <- (size_dom (D := gset Z)). apply subseteq_size.
  intros p Hp%elem_of_list_to_set. apply elem_of_dom.
  destruct (queue_mem _ _ _ _ Hq Hp) as (it & -> & _). eauto.
Qed.

Lemma ITEM_key_ctl it it' : ctl it' = ctl it → ITEM_key it' = ITEM_key it.
Proof. intros (_ & _ & _ & Hk & Hkk & _)%ctl_fields. unfold ITEM_key. by rewrite Hk, Hkk. Qed.

(** An address the callers may write to: in an LRU queue, or in no list at all
    and unlinked. *)
Definition usable s D p (it : item) : Prop :=
  w_heap s !! p = Some it ∧ p ≠ 0 ∧
  ((∃ id, p ∈ D (LruQ id)) ∨ ((∀ q, p ∉ D q) ∧ flag (i_it_flags it) ITEM_LINKED = false)).

Lemma usable_not_free s D p it id : queues_ok (w_heap s) D → usable s D p it → p ∉ D (FreeQ id).
Proof.
  intros Hq (_ & _ & [[i Hi]|[Hn _]]); [|by apply Hn].
  intros Hf. by pose proof (qo_disj _ _ Hq _ _ _ Hi Hf).
Qed.

(** A write to a header in use that keeps what the structures read. *)
Record same_place (it it' : item) : Prop := {
  sp_hcore : hcore it' = hcore it;
  sp_next : i_next it' = i_next it;
  sp_prev : i_prev it' = i_prev it;
  sp_bytes : lru_bytes it' = lru_bytes it;
  sp_clsid : i_slabs_clsid it' = i_slabs_clsid it;
  sp_linked : flag (i_it_flags it') ITEM_LINKED = flag (i_it_flags it) ITEM_LINKED
}.

Lemma same_place_key it it' : same_place it it' → ITEM_key it' = ITEM_key it.
Proof. intros [H _ _ _ _ _]. unfold hcore in H. injection H as _ Hk Hkk. unfold ITEM_key. by rewrite Hk, Hkk. Qed.

Lemma cache_ok_wr s m R D p it it' r :
  cache_ok s m R D → usable s D p it → same_place it it' →
  item_ok (m_power_largest (w_slabs s)) it' → 0 ≤ r < 2 ^ 15 →
  i_refcount it' = (if flag (i_it_flags it) ITEM_LINKED then 1 + r else r) →
  cache_ok (s <| w_heap := <[p := it']> (w_heap s) |>) m (upd R p r) D.
Proof.
  intros [Ha Hs Hl Hqd Hm Hh Hr Hi Hhi Hsz] Hus Hsp Hio Hr' Href.
  pose proof (so_queues _ _ Hs) as Hq. pose proof (λ id, usable_not_free s D p it id Hq Hus) as Hnf.
  destruct Hus as (Hp & Hp0 & Hwhere). pose proof Hsp as [S1 S2 S3 S4 S5 S6].
  constructor; simpl; try done.
  - apply (assoc_rep_ext s); [done| |done]. intros k x _. simpl.
    destruct (decide (x = p)) as [->|]; [by rewrite lookup_insert_eq, Hp; simpl; f_equal|by rewrite lookup_insert_ne].
  - apply (slabs_ok_ext s _ D); try done.
    + by apply (queues_ok_insert_same _ _ _ it).
    + intros id x Hx. simpl. rewrite lookup_insert_ne; [done|]. intros ->. by apply (Hnf id).
  - apply (lru_ok_ext s); try done. intros id x _. simpl.
    destruct (decide (x = p)) as [->|]; [by rewrite lookup_insert_eq, Hp; simpl; f_equal|by rewrite lookup_insert_ne].
  - intros id x Hx. destruct (Hqd id x Hx) as (ix & Hix & H1 & H2 & H3 & H4 & H5).
    destruct (decide (x = p)) as [->|Hne].
    + simplify_eq. exists it'. rewrite lookup_insert_eq. split; [done|]. unfold queued_ok. simpl.
      rewrite upd_eq, S5, S6, Href, H3, (same_place_key it it') by done. done.
    + exists ix. rewrite lookup_insert_ne by done. split; [done|]. unfold queued_ok. simpl. by rewrite upd_ne.
  - intros x Hx. destruct (decide (x = p)) as [->|Hne]; [clear Hx|rewrite upd_ne in Hx by done].
    + destruct Hwhere as [?|[Hn Hfl]]; [by left|right]. split_and!; [done..|].
      exists it'. rewrite lookup_insert_eq. split; [done|]. unfold held_ok. simpl.
      rewrite upd_eq, S6, Hfl, Href, Hfl. done.
    + destruct (Hh x Hx) as [?|(? & ? & ix & ? & ?)]; [by left|right]. split_and!; [done..|].
      exists ix. rewrite lookup_insert_ne by done. split; [done|]. unfold held_ok. simpl. by rewrite upd_ne.
  - intros x. unfold upd. destruct (x =? p); [done|apply Hr].
  - rewrite map_size_insert_Some; [done|by eexists].
Qed.

(** An address with a reference, or in a queue, is usable. *)
Lemma cache_usable s m R D p :
  cache_ok s m R D → (0 < R p ∨ ∃ id, p ∈ D (LruQ id)) →
  ∃ it, usable s D p it ∧ item_ok (m_power_largest (w_slabs s)) it ∧
    i_refcount it = (if flag (i_it_flags it) ITEM_LINKED then 1 + R p else R p) ∧
    (flag (i_it_flags it) ITEM_LINKED = true ↔ ∃ id, p ∈ D (LruQ id)).
Proof.
  intros Hok Hp. pose proof (so_queues _ _ (co_slabs _ _ _ _ Hok)) as Hq.
  assert ((∃ id, p ∈ D (LruQ id)) ∨
    (p ≠ 0 ∧ (∀ q, p ∉ D q) ∧ ∃ it, w_heap s !! p = Some it ∧ held_ok s R p it)) as [[id Hid]|(H0 & Hn & it & Hit & H1 & H2 & H3)].
  { destruct Hp as [Hp|Hp]; [by apply (co_held _ _ _ _ Hok)|by left]. }
  - destruct (co_queued _ _ _ _ Hok id p Hid) as (it & Hit & H1 & H2 & H3 & H4 & H5).
    destruct (queue_mem _ _ _ _ Hq Hid) as (_ & _ & Hp0).
    exists it. split_and!; try done; [by split_and!; eauto|by rewrite H3|]. split; [eauto|done].
  - exists it. split_and!; try done; [by split_and!; eauto|by rewrite H2|].
    split; [congruence|]. intros [id Hid]. by destruct (Hn (LruQ id)).
Qed.

(** Changing the reference count only. *)
Lemma set_refcount_ok s m R D p it r rc :
  cache_ok s m R D → usable s D p it → item_ok (m_power_largest (w_slabs s)) it → 0 ≤ r < 2 ^ 15 →
  rc = (if flag (i_it_flags it) ITEM_LINKED then 1 + r else r) →
  cache_ok (s <| w_heap := <[p := it <| i_refcount := rc |>]> (w_heap s) |>) m (upd R p r) D.
Proof. intros Hok Hus Hio Hr ->. by apply (cache_ok_wr s m R D p it). Qed.

Lemma refcount_incr_ok s m R D p :
  cache_ok s m R D → (0 < R p ∨ ∃ id, p ∈ D (LruQ id)) → R p + 1 < 2 ^ 15 →
  ∃ it rc, w_heap s !! p = Some it ∧
    refcount_incr p s = Some (rc, s <| w_heap := <[p := it <| i_refcount := rc |>]> (w_heap s) |>) ∧
    rc = i_refcount it + 1 ∧
    cache_ok (s <| w_heap := <[p := it <| i_refcount := rc |>]> (w_heap s) |>) m (upd R p (R p + 1)) D.
Proof.
  intros Hok Hp Hmax. destruct (cache_usable _ _ _ _ _ Hok Hp) as (it & Hus & Hio & Href & _).
  pose proof Hus as (Hit & _ & _). exists it, (i_refcount it + 1).
  pose proof (co_refs _ _ _ _ Hok p) as Hr.
  split_and!; [done| |done|].
  - unfold refcount_incr. rewrite (bind_run _ _ _ _ _ (load_ok _ _ _ Hit)), u16_small; [done|].
    rewrite Href. destruct (flag _ _); lia.
  - apply (set_refcount_ok s m R); try done; [lia|]. rewrite Href. destruct (flag _ _); lia.
Qed.

(** ** Dropping a reference *)

(** Only memory and the allocator changed. *)
Definition mem_frame s s' : Prop := s' = s <| w_heap := w_heap s' |> <| w_slabs := w_slabs s' |>.

Lemma mem_frame_heap s h : mem_frame s (s <| w_heap := h |>).
Proof. by unfold mem_frame. Qed.
Lemma mem_frame_trans s1 s2 s3 : mem_frame s1 s2 → mem_frame s2 s3 → mem_frame s1 s3.
Proof. unfold mem_frame. intros E1 E2. rewrite E2, E1. by destruct s1. Qed.

Lemma upd_self {A} (R : Z → A) p r x : r = R p → upd R p r x = R x.
Proof. intros ->. unfold upd. by destruct (Z.eqb_spec x p) as [->|]. Qed.

Lemma cache_ok_R s m R R' D : (∀ p, R' p = R p) → cache_ok s m R D → cache_ok s m R' D.
Proof.
  intros HR [? ? ? Hq ? Hh Hr ? ? ?]. constructor; try done.
  - intros id p Hp. destruct (Hq id p Hp) as (it & ? & ? & ? & ? & ? & ?). exists it.
    split; [done|]. unfold queued_ok. by rewrite HR.
  - intros p Hp. rewrite HR in Hp. destruct (Hh p Hp) as [?|(? & ? & it & ? & ? & ? & ?)]; [by left|right].
    split_and!; try done. exists it. split; [done|]. unfold held_ok. by rewrite HR.
  - intros p. rewrite HR. apply Hr.
Qed.

(** The allocator changed in its free lists only. *)
Definition same_pages (m m' : slabs_t) : Prop :=
  m' <| m_slabclass := m_slabclass m |> = m ∧
  ∀ x, (m_slabclass m' x) <| p_slots := p_slots (m_slabclass m x) |>
         <| p_sl_curr := p_sl_curr (m_slabclass m x) |> = m_slabclass m x.

Lemma same_pages_refl (a : slabs_t) : same_pages a a.
Proof. split; [by destruct a|intros x; by destruct (m_slabclass a x)]. Qed.

Lemma same_pages_trans (m1 m2 m3 : slabs_t) : same_pages m1 m2 → same_pages m2 m3 → same_pages m1 m3.
Proof.
  intros [E1 F1] [E2 F2]. split.
  - rewrite <- E2 in E1. rewrite <- E1 at 2. by destruct m3.
  - intros x. rewrite <- (F1 x) at 3. rewrite <- (F2 x). by destruct (m_slabclass m3 x).
Qed.

Lemma class_set_pages (m m' : slabs_t) id n c :
  class_set m id ((m_slabclass m id) <| p_slots := n |> <| p_sl_curr := c |>) m' → same_pages m m'.
Proof.
  intros [E F]. split; [done|]. intros x. rewrite F. unfold upd.
  destruct (Z.eqb_spec x id) as [->|]; [by destruct (m_slabclass m id)|by destruct (m_slabclass m x)].
Qed.

(** Pages and their chunks stay where they are: the lists hold no address they
    did not hold before, but for [p]. *)
Record kept s D s' D' p : Prop := {
  kp_pages : same_pages (w_slabs s) (w_slabs s');
  kp_members : ∀ q x, x ∈ D' q → x = p ∨ ∃ q', x ∈ D q';
  kp_free : ∀ id x, x ≠ p → (x ∈ D' (FreeQ id) ↔ x ∈ D (FreeQ id))
}.

(** The last reference to an unlinked item is gone: it goes back to its class. *)
Lemma item_free_ok s m R D p it :
  cache_ok s m R D → usable s D p it → (∀ q, p ∉ D q) → R p = 0 →
  item_ok (m_power_largest (w_slabs s)) it → flag (i_it_flags it) ITEM_LINKED = false →
  i_refcount it = 0 →
  ∃ s' D', item_free p s = Some (tt, s') ∧ cache_ok s' m R D' ∧ mem_frame s s' ∧
    (∀ id, D' (LruQ id) = D (LruQ id)) ∧ csame_out (λ x, x = p) (w_heap s) (w_heap s') ∧
    p ∈ D' (FreeQ (ITEM_clsid it)) ∧ kept s D s' D' p.
Proof.
  intros Hok (Hp & Hp0 & _) Hn HR Hio Hfl Href.
  pose proof (co_slabs _ _ _ _ Hok) as Hs. pose proof (so_queues _ _ Hs) as Hq.
  destruct Hio as (_ & Hch & _ & Hcl & _).
  pose proof (queue_length s D (FreeQ (ITEM_clsid it)) Hq) as Hlen.
  pose proof (co_heap _ _ _ _ Hok) as Hheap.
  destruct (do_slabs_free_push s D (ITEM_clsid it) p it (ITEM_ntotal it) Hs Hn Hp0 Hcl) as
    (h' & m' & Hrun & Hs' & Hsame & (n & v & Hp') & Hcs); [lia|by apply load_ok|done|].
  set (s' := s <| w_heap := h' |> <| w_slabs := m' |>) in *.
  set (D' := qset D (FreeQ (ITEM_clsid it)) (p :: D (FreeQ (ITEM_clsid it)))) in *.
  pose proof (lsame_out_csame _ _ _ Hsame) as Hcsame.
  pose proof (class_set_largest _ _ _ _ Hcs) as Hpl.
  exists s', D'. split_and!; try done.
  - unfold item_free. rewrite (bind_run _ _ _ _ _ (load_ok _ _ _ Hp)), (bind_run _ _ _ _ _ eq_refl).
    rewrite Hfl, (bind_run _ _ _ _ _ eq_refl).
    destruct (co_lru _ _ _ _ Hok (i_slabs_clsid it)) as (Eh & Et & _). rewrite Eh, Et.
    rewrite (bind_run _ _ _ tt s).
    2:{ unfold c_assert. rewrite (proj2 (Z.eqb_neq p _)); [done|]. intros E.
        destruct (hdz_in 0 (D (LruQ (i_slabs_clsid it)))) as [E'|Hin]; [congruence|].
        rewrite <- E in Hin. by apply (Hn (LruQ (i_slabs_clsid it))). }
    rewrite (bind_run _ _ _ tt s).
    2:{ unfold c_assert. rewrite (proj2 (Z.eqb_neq p _)); [done|]. intros E.
        destruct (lastz_in 0 (D (LruQ (i_slabs_clsid it)))) as [E'|Hin]; [congruence|].
        rewrite <- E in Hin. by apply (Hn (LruQ (i_slabs_clsid it))). }
    rewrite Href, (bind_run _ _ _ _ _ eq_refl). exact Hrun.
  - destruct Hok as [Ha _ Hl Hqd Hm Hh Hr Hi Hhi Hsz].
    assert (Hlru : ∀ id x, x ∈ D (LruQ id) → x ≠ p) by (intros id x Hx ->; by apply (Hn (LruQ id))).
    constructor; try done.
    + apply (assoc_rep_ext s); [done| |done]. intros k x Hx. destruct (Hm k x Hx) as [id Hid].
      apply (lsame_out_hcore _ _ _ _ Hsame). exact (Hlru _ _ Hid).
    + apply (lru_ok_ext s); try done. intros id x Hx. apply ctl_bytes, Hcsame. exact (Hlru _ _ Hx).
    + intros id x Hx. destruct (Hqd id x Hx) as (ix & Hix & H1 & H2 & H3 & H4 & H5).
      destruct (csame_lookup _ _ _ x ix Hcsame (Hlru _ _ Hx) Hix) as (ix' & Hix' & Hc).
      exists ix'. split; [done|]. unfold queued_ok. simpl. rewrite Hpl.
      rewrite (ITEM_key_ctl _ _ Hc). pose proof (ctl_fields _ _ Hc) as (-> & -> & -> & _).
      split_and!; try done. by apply (item_ok_ctl _ ix).
    + intros x Hx. assert (x ≠ p) as Hxp by (intros ->; lia).
      destruct (Hh x Hx) as [?|(? & Hnx & ix & Hix & H1 & H2 & H3)]; [by left|right].
      destruct (csame_lookup _ _ _ x ix Hcsame Hxp Hix) as (ix' & Hix' & Hc).
      split_and!; [done|intros q; by apply qset_cons_notin|].
      exists ix'. split; [done|]. unfold held_ok. simpl. rewrite Hpl.
      pose proof (ctl_fields _ _ Hc) as (-> & -> & _). split_and!; try done. by apply (item_ok_ctl _ ix).
    + simpl. rewrite <- (size_dom (D := gset Z)) in Hsz |- *. replace (dom h') with (dom (w_heap s)); [done|].
      apply set_eq. intros x. rewrite !elem_of_dom. destruct (decide (x = p)) as [->|Hx].
      * rewrite Hp, Hp'. split; eauto.
      * specialize (Hcsame x Hx). destruct (h' !! x), (w_heap s !! x); simpl in *; split; intros [? ?]; eauto; done.
  - unfold D'. rewrite qset_eq. set_solver.
  - constructor; [exact (class_set_pages _ _ _ _ _ Hcs)| |].
    + intros q x. unfold D', qset. destruct (decide (q = _)) as [->|]; [rewrite elem_of_cons|]; intros; naive_solver.
    + intros id x Hx. unfold D', qset. destruct (decide (FreeQ id = _)) as [E|]; [|done]. rewrite elem_of_cons, <- E. naive_solver.
Qed.

Lemma do_item_remove_ok s m R D p :
  cache_ok s m R D → 0 < R p →
  ∃ s' D', do_item_remove p s = Some (tt, s') ∧ cache_ok s' m (upd R p (R p - 1)) D' ∧
    mem_frame s s' ∧ (∀ id, D' (LruQ id) = D (LruQ id)) ∧
    csame_out (λ x, x = p) (w_heap s) (w_heap s') ∧
    (R p = 1 → (∀ id, p ∉ D (LruQ id)) → ∃ id, p ∈ D' (FreeQ id)) ∧ kept s D s' D' p ∧
    (∀ it, 1 < R p ∨ (∃ id, p ∈ D (LruQ id)) → w_heap s !! p = Some it →
       w_heap s' !! p = Some (it <| i_refcount := i_refcount it - 1 |>)).
Proof.
  intros Hok HR. destruct (cache_usable _ _ _ _ p Hok) as (it & Hus & Hio & Href & Hiff); [by left|].
  pose proof Hus as (Hp & Hp0 & Hwhere). pose proof (co_refs _ _ _ _ Hok p) as Hr.
  set (rc := i_refcount it - 1). set (it1 := it <| i_refcount := rc |>).
  set (s1 := s <| w_heap := <[p := it1]> (w_heap s) |>).
  assert (Hok1 : cache_ok s1 m (upd R p (R p - 1)) D).
  { apply (set_refcount_ok s m R); try done; [lia|]. unfold rc. rewrite Href. destruct (flag _ _); lia. }
  assert (Hrc : 0 ≤ rc < 2 ^ 16) by (unfold rc; rewrite Href; destruct (flag _ _); lia).
  assert (Hrun : do_item_remove p s = when (rc =? 0) (item_free p) s1).
  { unfold do_item_remove. rewrite (bind_run _ _ _ _ _ (load_ok _ _ _ Hp)).
    destruct Hio as (Hsl & _). rewrite Hsl, (bind_run _ _ _ _ _ eq_refl).
    rewrite (proj2 (Z.ltb_lt 0 (i_refcount it))) by (rewrite Href; destruct (flag _ _); lia).
    rewrite (bind_run _ _ _ _ _ eq_refl). unfold refcount_decr.
    rewrite bind_assoc, (bind_run _ _ _ _ _ (load_ok _ _ _ Hp)), bind_assoc.
    rewrite u16_small by exact Hrc. done. }
  rewrite Hrun. destruct (Z.eqb_spec rc 0) as [Hz|Hnz]; simpl.
  - assert (Hfl : flag (i_it_flags it) ITEM_LINKED = false).
    { destruct (flag _ _) eqn:E; [|done]. unfold rc in Hz. lia. }
    rewrite Hfl in Href. destruct Hwhere as [Hin|[Hn _]]; [apply Hiff in Hin; congruence|].
    destruct (item_free_ok s1 m (upd R p (R p - 1)) D p it1) as
      (s2 & D2 & Hf & Hok2 & Hfr & Hlru & Hcs & Hin & Hkp); try done.
    { split_and!; [apply lookup_insert_eq|done|right; done]. }
    { rewrite upd_eq. unfold rc in Hz. lia. }
    exists s2, D2. split_and!; try done.
    + eapply csame_out_trans; [|done]. by apply csame_out_insert.
    + intros _ _. eauto.
    + by destruct Hkp as [K1 K2 K3]; constructor.
    + intros it0 [?|[id Hid]] _; [unfold rc in Hz; lia|by destruct (Hn (LruQ id))].
  - exists s1, D. split_and!; try done.
    + by apply csame_out_insert.
    + intros HR1 Hnl. exfalso. apply Hnz. unfold rc. rewrite Href.
      destruct (flag _ _) eqn:E; [|lia]. destruct (proj1 Hiff eq_refl) as [id Hid]. by destruct (Hnl id).
    + constructor; [apply same_pages_refl|by eauto|done].
    + intros it0 _ E. rewrite Hp in E. apply (inj Some) in E. subst it0. apply lookup_insert_eq.
Qed.

(** ** Unlinking *)

(** The state outside memory, the allocator, the hash table, the queues and the
    global counters is unchanged. *)
Definition item_frame s s' : Prop :=
  s' = s <| w_heap := w_heap s' |> <| w_slabs := w_slabs s' |> <| w_assoc := w_assoc s' |>
         <| w_lru := w_lru s' |> <| w_stats := w_stats s' |>.

Lemma item_frame_refl s : item_frame s s.
Proof. by destruct s. Qed.
Lemma item_frame_trans s1 s2 s3 : item_frame s1 s2 → item_frame s2 s3 → item_frame s1 s3.
Proof. unfold item_frame. intros E1 E2. rewrite E2, E1. by destruct s1. Qed.
Lemma mem_item_frame s s' : mem_frame s s' → item_frame s s'.
Proof. unfold mem_frame, item_frame. intros ->. by destruct s. Qed.

(** The histogram update touches one counter of the array. *)
Lemma item_stats_sizes_upd_ok s d it :
  (∀ hist, l_stats_sizes_hist (w_lru s) = Some hist →
     Z.of_nat (length hist) = l_stats_sizes_buckets (w_lru s)) →
  0 ≤ ITEM_ntotal it →
  ∃ o, item_stats_sizes_upd d it s =
      Some (tt, s <| w_lru := (w_lru s) <| l_stats_sizes_hist := o |> |>) ∧
    (∀ hist, o = Some hist → Z.of_nat (length hist) = l_stats_sizes_buckets (w_lru s)).
Proof.
  intros Hlen Hnt. unfold item_stats_sizes_upd. rewrite (bind_run _ _ _ _ _ eq_refl).
  assert (Hid : ∀ o, l_stats_sizes_hist (w_lru s) = o →
    s <| w_lru := (w_lru s) <| l_stats_sizes_hist := o |> |> = s).
  { intros o <-. by destruct s as [? ? ? [] ? ? ? ? ? ? ? ? ? ? ? ?]. }
  destruct (l_stats_sizes_hist (w_lru s)) as [hist|] eqn:Eh; [|by exists None; rewrite Hid].
  destruct (_ <? l_stats_sizes_cas_min _); [exists (Some hist); rewrite Hid by done; auto|].
  destruct (Z.ltb_spec (size_bucket it) (l_stats_sizes_buckets (w_lru s))) as [Hb|];
    [|exists (Some hist); rewrite Hid by done; auto].
  assert (0 ≤ size_bucket it).
  { unfold size_bucket. pose proof (Z.div_pos (ITEM_ntotal it) 32). destruct (negb _); lia. }
  specialize (Hlen hist eq_refl).
  destruct (lookup_lt_is_Some_2 hist (Z.to_nat (size_bucket it))) as [v Hv]; [lia|].
  rewrite (bind_run _ _ _ _ _ (arr_get_ok _ _ _ _ ltac:(done) Hv)).
  erewrite bind_run; [|apply arr_set_ok; lia]. eexists. split; [reflexivity|].
  intros h' [= <-]. by rewrite length_insert.
Qed.

Lemma ITEM_ntotal_nonneg pl it : item_ok pl it → 0 ≤ ITEM_ntotal it.
Proof.
  intros (_ & _ & [Hk _] & _ & Hn). unfold ITEM_ntotal, sizeof_item, sizeof_uint32, sizeof_uint64.
  destruct (flag _ _), (flag _ _); lia.
Qed.

Lemma hsame_queues h h' D : hsame h h' → queues_ok h D → queues_ok h' D.
Proof. intros Hs. apply queues_ok_ext. intros q p _. symmetry. by apply hsame_links. Qed.

Lemma hsame_hcore_key h h' x : hsame h h' →
  (λ it, (i_nkey it, i_key it)) <$> h' !! x = (λ it, (i_nkey it, i_key it)) <$> h !! x.
Proof. intros Hs. symmetry. by apply hsame_fmap. Qed.

(** The steps of [do_item_unlink] before the reference is dropped. *)
Definition unlink_steps (p hv : Z) : M world unit :=
  wr p (λ x, x <| i_it_flags := clear (i_it_flags x) ITEM_LINKED |>) ;;
  x ← load p;
  stats_unlink x ;;
  item_stats_sizes_remove x ;;
  assoc_delete (ITEM_key x) (i_nkey x) hv ;;
  do_item_unlink_q p.

Lemma do_item_unlink_steps s p hv it :
  w_heap s !! p = Some it → flag (i_it_flags it) ITEM_LINKED = true →
  do_item_unlink p hv s = (unlink_steps p hv ;; do_item_remove p) s.
Proof.
  intros Hp Hf. unfold do_item_unlink, unlink_steps. rewrite (bind_run _ _ _ _ _ (load_ok _ _ _ Hp)), Hf.
  simpl. rewrite bind_assoc. rewrite (bind_run _ _ _ _ _ (wr_ok _ _ _ _ Hp)).
  rewrite (bind_run _ _ _ _ _ (wr_ok _ _ _ _ Hp)).
  munfold. unfold mbind, M_bind.
  repeat (match goal with |- context [match ?e with Some _ => _ | None => _ end] =>
    destruct e as [[? ?]|]; [|done] end). done.
Qed.

Lemma assoc_rep_key s m k p : assoc_rep s m → m !! k = Some p → key_of (w_heap s) p = Some k.
Proof. intros (L & _ & Habs & _) Hm. by apply Habs in Hm as [_ ?]. Qed.

Definition unlinked_hdr (it : item) : item :=
  it <| i_it_flags := clear (i_it_flags it) ITEM_LINKED |>.

Lemma unlinked_hdr_ok pl it : item_ok pl it → item_ok pl (unlinked_hdr it).
Proof.
  unfold item_ok, unlinked_hdr, key_ok, ITEM_clsid. simpl. by rewrite !flag_clear_ne by reflexivity.
Qed.

Lemma unlinked_hdr_bytes it : lru_bytes (unlinked_hdr it) = lru_bytes it.
Proof. unfold lru_bytes, ITEM_ntotal, unlinked_hdr. simpl. by rewrite !flag_clear_ne by reflexivity. Qed.

(** Putting the pieces together once the item is out of the table and its
    queue. *)
Lemma cache_unlinked s s' m R D k p it it' id l1 l2 :
  cache_ok s m R D → m !! k = Some p → R p + 1 < 2 ^ 15 →
  w_heap s !! p = Some it → D (LruQ id) = l1 ++ p :: l2 →
  w_slabs s' = w_slabs s → assoc_rep s' (delete k m) →
  let D' := qset D (LruQ id) (l1 ++ l2) in
  queues_ok (w_heap s') D' → (∀ q, p ∉ D' q) → lru_ok s' D' →
  csame_out (λ x, x = p) (w_heap s) (w_heap s') → dom (w_heap s') = dom (w_heap s) →
  w_heap s' !! p = Some it' → ctl it' = ctl (unlinked_hdr it) →
  st_curr_items (w_stats s') = u64 (st_curr_items (w_stats s) - 1) →
  (∀ hist, l_stats_sizes_hist (w_lru s') = Some hist →
     Z.of_nat (length hist) = l_stats_sizes_buckets (w_lru s')) →
  cache_ok s' (delete k m) (upd R p (R p + 1)) D'.
Proof.
  intros Hok Hm HR Hp HD Hsl Ha D' Hq' Hnin Hl' Hcs Hdom Hp' Hctl Hci Hhist.
  pose proof (co_slabs _ _ _ _ Hok) as Hs. pose proof (so_queues _ _ Hs) as Hq.
  assert (Hin : p ∈ D (LruQ id)) by (rewrite HD; set_solver).
  destruct (co_queued _ _ _ _ Hok id p Hin) as (it0 & Hit0 & H1 & H2 & H3 & H4 & H5).
  rewrite Hp in Hit0. apply (inj Some) in Hit0. subst it0.
  assert (Hsub : ∀ q x, x ∈ D' q → x ∈ D q ∧ x ≠ p).
  { intros q x Hx. split; [|intros ->; by apply (Hnin q)]. unfold D', qset in Hx.
    case_decide; [|done]. subst. rewrite HD. set_solver. }
  assert (Hsup : ∀ q x, x ∈ D q → x ≠ p → x ∈ D' q).
  { intros q x Hx Hne. unfold D', qset. case_decide; [|done]. subst. rewrite HD in Hx. set_solver. }
  assert (Hkey : ∀ k', m !! k' = Some p → k' = k).
  { intros k' Hk'. apply (assoc_rep_key _ _ _ _ (co_assoc _ _ _ _ Hok)) in Hk', Hm. congruence. }
  constructor; try done.
  - apply (slabs_ok_ext s _ D); try done. intros x y Hy. apply Hcs. intros ->.
    by pose proof (qo_disj _ _ Hq _ _ _ Hin Hy).
  - intros x y [Hy Hne]%Hsub. destruct (co_queued _ _ _ _ Hok x y Hy) as (iy & Hiy & G1 & G2 & G3 & G4 & G5).
    destruct (csame_lookup _ _ _ y iy Hcs Hne Hiy) as (iy' & Hiy' & Hc).
    exists iy'. split; [done|]. unfold queued_ok. rewrite Hsl, upd_ne by done.
    rewrite (ITEM_key_ctl _ _ Hc). pose proof (ctl_fields _ _ Hc) as (-> & -> & -> & _).
    split_and!; try done; [by apply (item_ok_ctl _ iy)|].
    rewrite lookup_delete_ne; [done|]. intros E. congruence.
  - intros k' y [Hne Hy]%lookup_delete_Some. destruct (co_mapped _ _ _ _ Hok k' y Hy) as [i Hi].
    exists i. apply Hsup; [done|]. intros ->. by specialize (Hkey k' Hy).
  - intros y Hy. destruct (decide (y = p)) as [->|Hne].
    + right. destruct (queue_mem _ _ _ _ Hq Hin) as (_ & _ & Hp0). split_and!; [done..|].
      exists it'. split; [done|]. unfold held_ok. rewrite Hsl, upd_eq.
      pose proof (ctl_fields _ _ Hctl) as (-> & -> & _). simpl. rewrite flag_clear_eq.
      split_and!; [by apply (item_ok_ctl _ (unlinked_hdr it)), unlinked_hdr_ok|done|lia].
    + rewrite upd_ne in Hy by done.
      destruct (co_held _ _ _ _ Hok y Hy) as [[i Hi]|(? & Hny & iy & Hiy & G1 & G2 & G3)].
      * left. exists i. by apply Hsup.
      * right. destruct (csame_lookup _ _ _ y iy Hcs Hne Hiy) as (iy' & Hiy' & Hc).
        split_and!; [done|intros q Hq''; apply Hsub in Hq'' as [? _]; by apply (Hny q)|].
        exists iy'. split; [done|]. unfold held_ok. rewrite Hsl, upd_ne by done.
        pose proof (ctl_fields _ _ Hc) as (-> & -> & _). split_and!; try done. by apply (item_ok_ctl _ iy).
  - intros y. pose proof (co_refs _ _ _ _ Hok y). pose proof (co_refs _ _ _ _ Hok p).
    unfold upd. destruct (y =? p); lia.
  - rewrite Hci, (co_items _ _ _ _ Hok), map_size_delete_Some by by eexists.
    unfold u64. rewrite Zminus_mod_idemp_l. f_equal.
    assert (size m ≠ 0)%nat; [|lia]. intros E%map_size_empty_inv. subst. by rewrite lookup_empty in Hm.
  - rewrite <- (size_dom (D := gset Z)), Hdom, size_dom. apply Hok.
Qed.

Lemma item_key_length it : key_ok it → i_nkey it = Z.of_nat (length (ITEM_key it)).
Proof. intros [? ?]. unfold ITEM_key. rewrite length_take. lia. Qed.

Lemma unlink_steps_ok s m R D k p :
  cache_ok s m R D → m !! k = Some p → R p + 1 < 2 ^ 15 →
  ∃ s' D', unlink_steps p (hash k) s = Some (tt, s') ∧
    cache_ok s' (delete k m) (upd R p (R p + 1)) D' ∧ item_frame s s' ∧
    l_cas_id (w_lru s') = l_cas_id (w_lru s) ∧
    csame_out (λ x, x = p) (w_heap s) (w_heap s') ∧ (∀ q, p ∉ D' q) ∧
    (∃ it it', w_heap s !! p = Some it ∧ w_heap s' !! p = Some it' ∧ ctl it' = ctl (unlinked_hdr it)) ∧
    w_slabs s' = w_slabs s ∧ (∀ q x, x ∈ D' q → x ∈ D q) ∧ (∀ id, D' (FreeQ id) = D (FreeQ id)).
Proof.
  intros Hok Hm HR. pose proof (so_queues _ _ (co_slabs _ _ _ _ Hok)) as Hq.
  destruct (co_mapped _ _ _ _ Hok k p Hm) as [id Hin].
  destruct (co_queued _ _ _ _ Hok id p Hin) as (it & Hp & Hio & Hcl & Hfl & Href & Hmk).
  assert (ITEM_key it = k) as Hk.
  { apply (assoc_rep_key _ _ _ _ (co_assoc _ _ _ _ Hok)) in Hm. unfold key_of in Hm.
    rewrite Hp in Hm. simpl in Hm. congruence. }
  destruct (list_elem_of_split _ _ Hin) as (l1 & l2 & HD).
  set (it1 := unlinked_hdr it).
  set (h1 := <[p := it1]> (w_heap s)).
  set (st := (w_stats s) <| st_curr_bytes := u64 (st_curr_bytes (w_stats s) - ITEM_ntotal it1) |>
               <| st_curr_items := u64 (st_curr_items (w_stats s) - 1) |>).
  set (s2 := s <| w_heap := h1 |> <| w_stats := st |>).
  assert (Hp1 : h1 !! p = Some it1) by apply lookup_insert_eq.
  destruct (item_stats_sizes_upd_ok s2 (-1) it1 (co_hist _ _ _ _ Hok)) as (o & Hst & Ho).
  { apply (ITEM_ntotal_nonneg (m_power_largest (w_slabs s))). by apply unlinked_hdr_ok. }
  set (s3 := s2 <| w_lru := (w_lru s2) <| l_stats_sizes_hist := o |> |>) in *.
  assert (Ha3 : assoc_rep s3 m).
  { apply (assoc_rep_ext s); [done| |apply Hok]. intros k' x _. simpl. unfold h1.
    destruct (decide (x = p)) as [->|]; [by rewrite lookup_insert_eq, Hp|by rewrite lookup_insert_ne]. }
  destruct Ha3 as (L & Hao & Hab & Hlv).
  destruct (assoc_delete_abs s3 L m k p Hao Hab Hm) as (h4 & a4 & L4 & Hdel & Hs4 & Hao4 & Hab4 & Hlv4).
  set (s4 := with_heap_assoc s3 h4 a4) in *.
  destruct (hsame_lookup _ _ _ _ Hs4 Hp1) as [n Hp4]. set (it4 := it1 <| i_h_next := n |>) in Hp4.
  assert (Hq1 : queues_ok h1 D) by by apply (queues_ok_insert_same _ _ _ it).
  assert (Hq4 : queues_ok (w_heap s4) D) by by apply (hsame_queues h1).
  assert (Hcs1 : csame_out (λ x, x = p) (w_heap s) h1) by by apply csame_out_insert.
  assert (Hcs4 : csame_out (λ x, x = p) (w_heap s) h4) by (eapply csame_out_trans; [done|by apply hsame_csame]).
  assert (Hl4 : lru_ok s4 D).
  { apply (lru_ok_ext s); try done; [apply Hok|]. intros i x Hx. simpl.
    destruct (decide (x = p)) as [->|Hne]; [|apply ctl_bytes; by apply Hcs4].
    rewrite Hp4, Hp. simpl. f_equal. etrans; [|apply (unlinked_hdr_bytes it)]. done. }
  destruct (do_item_unlink_q_ok s4 D p it4 l1 l2 Hq4 Hl4 Hp4) as
    (h5 & l5 & Huq & Hq5 & Hn5 & Hl5 & Hs5 & Hp5 & Hfr5).
  { change (i_slabs_clsid it4) with (i_slabs_clsid it). by rewrite Hcl. }
  change (i_slabs_clsid it4) with (i_slabs_clsid it) in *. rewrite Hcl in *.
  set (s5 := s4 <| w_heap := h5 |> <| w_lru := l5 |>) in *.
  assert (Hcs5 : csame_out (λ x, x = p) (w_heap s) h5) by (eapply csame_out_trans; [done|by apply lsame_csame]).
  assert (Hl5h : l_stats_sizes_hist l5 = o ∧ l_stats_sizes_buckets l5 = l_stats_sizes_buckets (w_lru s) ∧
                 l_cas_id l5 = l_cas_id (w_lru s)).
  { unfold lru_frame in Hfr5. destruct l5. injection Hfr5. intros. subst. done. }
  destruct Hl5h as (E1 & E2 & E3).
  exists s5, (qset D (LruQ id) (l1 ++ l2)). split_and!; try done.
  - unfold unlink_steps. rewrite (bind_run _ _ _ _ _ (wr_ok _ _ _ _ Hp)). fold it1.
    change (it <| i_it_flags := clear (i_it_flags it) ITEM_LINKED |>) with it1.
    erewrite bind_run; [|apply load_ok; exact Hp1].
    rewrite (bind_run _ _ _ tt s2) by (by destruct s).
    unfold item_stats_sizes_remove. rewrite (bind_run _ _ _ _ _ Hst).
    change (ITEM_key it1) with (ITEM_key it). change (i_nkey it1) with (i_nkey it).
    rewrite (item_key_length it), Hk by apply Hio. rewrite (bind_run _ _ _ _ _ Hdel). exact Huq.
  - apply (cache_unlinked s s5 m R D k p it it4 id l1 l2); try done.
    + apply (assoc_rep_ext s4); [done| |by exists L4; split_and!; auto].
      intros k' x _. apply (lsame_out_hcore (λ _, False)); [by apply lsame_lsame_out|tauto].
    + simpl. rewrite <- (lsame_dom _ _ Hs5). change (w_heap s4) with h4.
      rewrite <- (hsame_dom _ _ Hs4). simpl. unfold h1.
      apply dom_insert_lookup_L. by eexists.
    + simpl. by rewrite Hp5.
    + simpl. rewrite E1, E2. exact Ho.
  - exists it, it4. split_and!; [done|simpl; by rewrite Hp5|done].
  - intros q x. unfold qset. destruct (decide (q = _)) as [->|]; [|done]. rewrite HD. set_solver.
Qed.

Lemma do_item_unlink_ok s m R D k p :
  cache_ok s m R D → m !! k = Some p → R p + 1 < 2 ^ 15 →
  ∃ s' D', do_item_unlink p (hash k) s = Some (tt, s') ∧ cache_ok s' (delete k m) R D' ∧
    item_frame s s' ∧ l_cas_id (w_lru s') = l_cas_id (w_lru s) ∧
    csame_out (λ x, x = p) (w_heap s) (w_heap s') ∧
    (R p = 0 → ∃ id, p ∈ D' (FreeQ id)) ∧ kept s D s' D' p.
Proof.
  intros Hok Hm HR. destruct (unlink_steps_ok s m R D k p Hok Hm HR) as
    (s1 & D1 & Hrun & Hok1 & Hfr1 & Hcas1 & Hcs1 & Hn1 & _ & Esl & Hmem & Hfq).
  pose proof (co_refs _ _ _ _ Hok p) as Hr.
  destruct (do_item_remove_ok s1 (delete k m) _ D1 p Hok1) as
    (s2 & D2 & Hrem & Hok2 & Hfr2 & Hlru2 & Hcs2 & Hfree & [Kp Km Kf] & _); [rewrite upd_eq; lia|].
  destruct (co_mapped _ _ _ _ Hok k p Hm) as [id Hin].
  destruct (co_queued _ _ _ _ Hok id p Hin) as (it & Hp & _ & _ & Hfl & _).
  exists s2, D2. split_and!.
  - rewrite (do_item_unlink_steps _ _ _ it) by done. by rewrite (bind_run _ _ _ _ _ Hrun).
  - apply (cache_ok_R _ _ _ R) in Hok2; [done|]. intros x. rewrite upd_eq. unfold upd.
    destruct (Z.eqb_spec x p) as [->|]; [lia|done].
  - eapply item_frame_trans; [done|]. by apply mem_item_frame.
  - rewrite <- Hcas1, Hfr2. done.
  - by eapply csame_out_trans.
  - intros HR0. apply Hfree; [rewrite upd_eq; lia|]. intros i. apply Hn1.
  - split; [by rewrite <- Esl| |].
    + intros q x Hx. destruct (Km q x Hx) as [?|[q' ?]]; eauto.
    + intros i x Hx. rewrite (Kf i x Hx), Hfq. done.
Qed.

(** ** Linking *)

Definition linked_hdr (it : item) (now cas : Z) : item :=
  ITEM_set_cas cas (it <| i_it_flags := Z.lor (i_it_flags it) ITEM_LINKED |> <| i_time := now |>).

Lemma ITEM_set_cas_other v it :
  i_it_flags (ITEM_set_cas v it) = i_it_flags it ∧ i_refcount (ITEM_set_cas v it) = i_refcount it ∧
  i_slabs_clsid (ITEM_set_cas v it) = i_slabs_clsid it ∧ hcore (ITEM_set_cas v it) = hcore it ∧
  i_next (ITEM_set_cas v it) = i_next it ∧ i_prev (ITEM_set_cas v it) = i_prev it ∧
  i_nbytes (ITEM_set_cas v it) = i_nbytes it ∧ i_exptime (ITEM_set_cas v it) = i_exptime it ∧
  i_time (ITEM_set_cas v it) = i_time it ∧ i_data (ITEM_set_cas v it) = i_data it ∧
  i_nkey (ITEM_set_cas v it) = i_nkey it ∧ i_key (ITEM_set_cas v it) = i_key it.
Proof. unfold ITEM_set_cas. by destruct (flag _ _). Qed.

Lemma linked_hdr_facts pl it now cas :
  item_ok pl it → item_ok pl (linked_hdr it now cas) ∧
  flag (i_it_flags (linked_hdr it now cas)) ITEM_LINKED = true ∧
  i_refcount (linked_hdr it now cas) = i_refcount it ∧
  i_slabs_clsid (linked_hdr it now cas) = i_slabs_clsid it ∧
  ITEM_key (linked_hdr it now cas) = ITEM_key it ∧
  i_next (linked_hdr it now cas) = i_next it ∧ i_prev (linked_hdr it now cas) = i_prev it.
Proof.
  unfold linked_hdr. set (x := it <| i_it_flags := _ |> <| i_time := now |>).
  destruct (ITEM_set_cas_other cas x) as (E1 & E2 & E3 & _ & E5 & E6 & E7 & _ & _ & _ & E8 & E9).
  unfold item_ok, key_ok, ITEM_clsid, ITEM_key. rewrite E1, E2, E3, E5, E6, E7, E8, E9.
  unfold x. simpl. rewrite !flag_lor, orb_true_r.
  intros (H1 & H2 & ?). rewrite H1, H2. done.
Qed.

Lemma cache_linked s s' m R D k p it it' :
  cache_ok s m R D → (∀ q, p ∉ D q) → p ≠ 0 → w_heap s !! p = Some it →
  held_ok s R p it → ITEM_key it = k → m !! k = None →
  let id := i_slabs_clsid it in let D' := qset D (LruQ id) (p :: D (LruQ id)) in
  w_slabs s' = w_slabs s → assoc_rep s' (<[k := p]> m) →
  queues_ok (w_heap s') D' → lru_ok s' D' →
  csame_out (λ x, x = p) (w_heap s) (w_heap s') → dom (w_heap s') = dom (w_heap s) →
  w_heap s' !! p = Some it' → queued_ok s (<[k := p]> m) R id p it' →
  st_curr_items (w_stats s') = u64 (st_curr_items (w_stats s) + 1) →
  (∀ hist, l_stats_sizes_hist (w_lru s') = Some hist →
     Z.of_nat (length hist) = l_stats_sizes_buckets (w_lru s')) →
  cache_ok s' (<[k := p]> m) R D'.
Proof.
  intros Hok Hnin Hp0 Hp Hheld Hk Hm id D' Hsl Ha Hq' Hl' Hcs Hdom Hp' Hqd' Hci Hhist.
  pose proof (co_slabs _ _ _ _ Hok) as Hs.
  assert (Hold : ∀ i x, x ∈ D' (LruQ i) → x = p ∧ i = id ∨ x ≠ p ∧ x ∈ D (LruQ i)).
  { intros i x Hx. unfold D', qset in Hx. case_decide as E.
    - injection E as ->. apply elem_of_cons in Hx as [->|Hx]; [by left|right]. split; [|done].
      intros ->. by apply (Hnin (LruQ id)).
    - right. split; [|done]. intros ->. by apply (Hnin (LruQ i)). }
  assert (Hnew : ∀ i x, x ∈ D (LruQ i) → x ∈ D' (LruQ i)).
  { intros i x Hx. unfold D', qset. case_decide as E; [injection E as ->; set_solver|done]. }
  constructor; try done.
  - apply (slabs_ok_ext s _ D); try done. intros x y Hy. apply Hcs. intros ->. by apply (Hnin (FreeQ x)).
  - intros i x [[-> ->]|[Hne Hx]]%Hold.
    + exists it'. split; [done|]. unfold queued_ok in *. by rewrite Hsl.
    + destruct (co_queued _ _ _ _ Hok i x Hx) as (ix & Hix & G1 & G2 & G3 & G4 & G5).
      destruct (csame_lookup _ _ _ x ix Hcs Hne Hix) as (ix' & Hix' & Hc).
      exists ix'. split; [done|]. unfold queued_ok. rewrite Hsl, (ITEM_key_ctl _ _ Hc).
      pose proof (ctl_fields _ _ Hc) as (-> & -> & -> & _).
      split_and!; try done; [by apply (item_ok_ctl _ ix)|]. rewrite lookup_insert_ne; [done|]. congruence.
  - intros k' x. destruct (decide (k' = k)) as [->|Hne].
    + rewrite lookup_insert_eq. intros [= <-]. exists id. unfold D'. rewrite qset_eq. set_solver.
    + rewrite lookup_insert_ne by done. intros Hx. destruct (co_mapped _ _ _ _ Hok k' x Hx) as [i Hi]. eauto.
  - intros x Hx. destruct (decide (x = p)) as [->|Hne].
    + left. exists id. unfold D'. rewrite qset_eq. set_solver.
    + destruct (co_held _ _ _ _ Hok x Hx) as [[i Hi]|(? & Hnx & ix & Hix & G1 & G2 & G3)]; [left; eauto|right].
      destruct (csame_lookup _ _ _ x ix Hcs Hne Hix) as (ix' & Hix' & Hc).
      split_and!; [done|intros q; by apply qset_cons_notin|].
      exists ix'. split; [done|]. unfold held_ok. rewrite Hsl.
      pose proof (ctl_fields _ _ Hc) as (-> & -> & _). split_and!; try done. by apply (item_ok_ctl _ ix).
  - apply Hok.
  - rewrite Hci, (co_items _ _ _ _ Hok), map_size_insert_None by done. rewrite u64_add_u64. f_equal. lia.
  - rewrite <- (size_dom (D := gset Z)), Hdom, size_dom. apply Hok.
Qed.

(** The CAS value [do_item_link] gives the item, and the counter after it. *)
Definition next_cas s : Z := if o_use_cas (w_settings s) then u64 (l_cas_id (w_lru s) + 1) else 0.
Definition cas_after s : Z := if o_use_cas (w_settings s) then u64 (l_cas_id (w_lru s) + 1) else l_cas_id (w_lru s).

Lemma do_item_link_ok s m R D p it :
  cache_ok s m R D → (∀ q, p ∉ D q) → p ≠ 0 → w_heap s !! p = Some it → held_ok s R p it →
  m !! ITEM_key it = None →
  ∃ s' D' it', do_item_link p (hash (ITEM_key it)) s = Some (1, s') ∧
    cache_ok s' (<[ITEM_key it := p]> m) R D' ∧ item_frame s s' ∧
    l_cas_id (w_lru s') = cas_after s ∧
    csame_out (λ x, x = p) (w_heap s) (w_heap s') ∧ w_heap s' !! p = Some it' ∧
    ctl it' = ctl ((linked_hdr it (w_current_time s) (next_cas s)) <| i_refcount := i_refcount it + 1 |>) ∧
    w_slabs s' = w_slabs s ∧ D' = qset D (LruQ (i_slabs_clsid it)) (p :: D (LruQ (i_slabs_clsid it))).
Proof.
  intros Hok Hnin Hp0 Hp Hheld Hm. pose proof (so_queues _ _ (co_slabs _ _ _ _ Hok)) as Hq.
  pose proof Hheld as (Hio & Hfl & Href). pose proof (co_refs _ _ _ _ Hok p) as Hr.
  set (now := w_current_time s).
  set (it1 := it <| i_it_flags := Z.lor (i_it_flags it) ITEM_LINKED |> <| i_time := now |>).
  set (it2 := linked_hdr it now (next_cas s)).
  destruct (linked_hdr_facts _ it now (next_cas s) Hio) as (Hio2 & Hfl2 & Href2 & Hcl2 & Hk2 & Hnx2 & Hpv2).
  fold it2 in Hio2, Hfl2, Href2, Hcl2, Hk2, Hnx2, Hpv2.
  set (st := (w_stats s) <| st_curr_bytes := u64 (st_curr_bytes (w_stats s) + ITEM_ntotal it1) |>
               <| st_curr_items := u64 (st_curr_items (w_stats s) + 1) |>
               <| st_total_items := u64 (st_total_items (w_stats s) + 1) |>).
  set (lc := (w_lru s) <| l_cas_id := cas_after s |>).
  set (h2 := <[p := it2]> (w_heap s)).
  set (s2 := s <| w_heap := h2 |> <| w_stats := st |> <| w_lru := lc |>).
  assert (Hp2 : w_heap s2 !! p = Some it2) by apply lookup_insert_eq.
  assert (Ha2 : assoc_rep s2 m).
  { apply (assoc_rep_ext s); [done| |apply Hok]. intros k x Hx. simpl. unfold h2.
    rewrite lookup_insert_ne; [done|]. intros ->. destruct (co_mapped _ _ _ _ Hok k x Hx) as [i Hi].
    by apply (Hnin (LruQ i)). }
  destruct Ha2 as (L & Hao & Hab & Hlv).
  assert (Hm2 : m !! ITEM_key it2 = None) by by rewrite Hk2.
  destruct (assoc_insert_abs s2 L m p it2 Hao Hab Hp0 Hp2) as [Hao3 Hab3]; [apply Hio2|done|].
  pose proof (assoc_insert_run s2 L p it2 Hao Hp2) as Hins. cbv zeta in Hao3, Hab3, Hins.
  set (lcn := cur_loc (w_assoc s2) (hash (ITEM_key it2))) in *.
  set (s3 := with_heap_assoc s2 _ _) in Hins, Hao3, Hab3.
  assert (Hs3 : hsame (w_heap s2) (w_heap s3)) by by apply hsame_insert.
  set (it3 := it2 <| i_h_next := hdz 0 (L lcn) |>).
  assert (Hp3 : w_heap s3 !! p = Some it3) by (simpl; apply lookup_insert_eq).
  assert (Hq2 : queues_ok (w_heap s2) D) by by apply queues_ok_insert_notin.
  assert (Hq3 : queues_ok (w_heap s3) D) by by apply (hsame_queues (w_heap s2)).
  assert (Hcs3 : csame_out (λ x, x = p) (w_heap s) (w_heap s3)).
  { eapply csame_out_trans; [by apply (csame_out_insert _ _ p it2)|by apply hsame_csame]. }
  assert (Hl3 : lru_ok s3 D).
  { apply (lru_ok_ext s); try done; [apply Hok|]. intros i x Hx. apply ctl_bytes, Hcs3.
    intros ->. by apply (Hnin (LruQ i)). }
  destruct (do_item_link_q_ok s3 D p it3 Hq3 Hl3 Hnin Hp0 Hp3) as (h4 & l4 & Hlq & Hq4 & Hl4 & Hs4 & Hfr4);
    [apply Hio2|].
  change (i_slabs_clsid it3) with (i_slabs_clsid it2) in *. rewrite Hcl2 in *.
  set (D4 := qset D (LruQ (i_slabs_clsid it)) (p :: D (LruQ (i_slabs_clsid it)))) in *.
  set (s4 := s3 <| w_heap := h4 |> <| w_lru := l4 |>) in *.
  destruct (lsame_lookup _ _ _ _ Hs4 Hp3) as (n4 & v4 & Hp4).
  set (it4 := it3 <| i_next := n4 |> <| i_prev := v4 |>) in Hp4.
  set (it5 := it4 <| i_refcount := i_refcount it + 1 |>).
  set (s5 := s4 <| w_heap := <[p := it5]> h4 |>).
  assert (Hinc : refcount_incr p s4 = Some (i_refcount it + 1, s5)).
  { unfold refcount_incr. rewrite (bind_run _ _ _ _ _ (load_ok s4 p it4 Hp4)).
    change (i_refcount it4) with (i_refcount it2). rewrite Href2, u16_small; [done|]. lia. }
  assert (Hl4h : l_stats_sizes_hist l4 = l_stats_sizes_hist (w_lru s) ∧
     l_stats_sizes_buckets l4 = l_stats_sizes_buckets (w_lru s) ∧ l_cas_id l4 = cas_after s).
  { unfold lru_frame in Hfr4. destruct l4. injection Hfr4. intros. subst. done. }
  destruct Hl4h as (E1 & E2 & E3).
  assert (Hp5 : w_heap s5 !! p = Some it5) by apply lookup_insert_eq.
  destruct (item_stats_sizes_upd_ok s5 1 it5) as (o & Hst & Ho).
  { simpl. rewrite E1, E2. apply Hok. }
  { apply (ITEM_ntotal_nonneg (m_power_largest (w_slabs s))). exact Hio2. }
  set (s6 := s5 <| w_lru := (w_lru s5) <| l_stats_sizes_hist := o |> |>) in *.
  exists s6, D4, it5.
  assert (Hcs5 : csame_out (λ x, x = p) (w_heap s) (w_heap s6)).
  { eapply csame_out_trans; [exact Hcs3|]. eapply csame_out_trans; [by apply lsame_csame|].
    by apply csame_out_insert. }
  split_and!; try done.
  - unfold do_item_link. rewrite (bind_run _ _ _ _ _ (load_ok _ _ _ Hp)).
    assert (Hns : flag (i_it_flags it) (Z.lor ITEM_LINKED ITEM_SLABBED) = false).
    { unfold flag in *. destruct Hio as (Hsl & _). unfold flag in Hsl.
      rewrite Z.land_lor_distr_r. bool_props. apply negb_false_iff, Z.eqb_eq. by rewrite Hfl, Hsl. }
    rewrite Hns, (bind_run _ _ _ _ _ eq_refl), (bind_run _ _ _ _ _ eq_refl).
    rewrite (bind_run _ _ _ _ _ (wr_ok _ _ _ _ Hp)). fold now it1.
    erewrite bind_run; [|apply load_ok, lookup_insert_eq].
    rewrite (bind_run _ _ _ tt (s <| w_heap := <[p := it1]> (w_heap s) |> <| w_stats := st |>)) by (by destruct s).
    rewrite (bind_run _ _ _ _ _ eq_refl).
    rewrite (bind_run _ _ _ (next_cas s) (s <| w_heap := <[p := it1]> (w_heap s) |> <| w_stats := st |> <| w_lru := lc |>)).
    2:{ unfold next_cas, lc, cas_after. simpl. destruct (o_use_cas (w_settings s)); [by destruct s|].
        by destruct s as [? ? ? [] ? ? ? ? ? ? ? ? ? ? ? ?]. }
    rewrite (bind_run _ _ _ tt s2).
    2:{ erewrite wr_ok; [|simpl; apply lookup_insert_eq]. simpl. rewrite insert_insert_eq. by destruct s. }
    rewrite <- Hk2. rewrite (bind_run _ _ _ _ _ Hins). unfold item_link_q.
    rewrite (bind_run _ _ _ _ _ Hlq), (bind_run _ _ _ _ _ Hinc).
    rewrite (bind_run _ _ _ _ _ (load_ok _ _ _ Hp5)).
    unfold item_stats_sizes_add. by rewrite (bind_run _ _ _ _ _ Hst).
  - apply (cache_linked s s6 m R D _ p it it5); try done.
    + apply (assoc_rep_ext s3); [done| |].
      * intros k x _. simpl. destruct (decide (x = p)) as [->|Hx].
        -- by rewrite !lookup_insert_eq.
        -- rewrite lookup_insert_ne by done.
           apply (lsame_out_hcore (λ _, False)); [by apply lsame_lsame_out|tauto].
      * rewrite <- Hk2. exists (fset L lcn (p :: L lcn)). split_and!; [done..|]. by apply set_table_live.
    + simpl. by apply (queues_ok_insert_same _ _ _ it4).
    + apply (lru_ok_ext s4); try done. intros i x _. simpl.
      destruct (decide (x = p)) as [->|Hx]; [by rewrite lookup_insert_eq, Hp4|by rewrite lookup_insert_ne].
    + simpl. rewrite dom_insert_lookup_L by by eexists. rewrite <- (lsame_dom _ _ Hs4).
      simpl. rewrite dom_insert_lookup_L by (eexists; apply lookup_insert_eq).
      apply dom_insert_lookup_L. by eexists.
    + split; [exact Hio2|]. split; [exact Hcl2|]. split; [exact Hfl2|].
      split; [change (i_refcount it + 1 = 1 + R p); lia|].
      change (ITEM_key it5) with (ITEM_key it2). rewrite Hk2. apply lookup_insert_eq.
Qed.
End Spec.
