(* ===== verification/ItemsAccess.v ===== *)
(** * Access to a linked item

    [do_item_get], [do_item_update], [do_item_bump] and [do_item_touch] against
    the abstract cache: a lookup finds what the map holds, removes the entry
    when it is stale, and moves of an item between queues leave the map alone. *)

From S2P Require Import Prelude Bipbuf Hashes State Links Queues Assoc AssocSpec AssocThm Slabs SlabsSpec Items ItemsSpec.

Section Access.
Context {HF : HashFn}.
Implicit Types (s : world) (m : gmap (list Z) Z) (R : Z → Z) (D : queues) (p : Z).

(** Only memory and the LRU bookkeeping changed. *)
Definition lru_only s s' : Prop := s' = s <| w_heap := w_heap s' |> <| w_lru := w_lru s' |>.

(** What stays the same in a header whose item moves to another queue. *)
Record moved (it it' : item) : Prop := {
  mv_hcore : hcore it' = hcore it;
  mv_refcount : i_refcount it' = i_refcount it;
  mv_linked : flag (i_it_flags it') ITEM_LINKED = true
}.

Lemma elem_of_qset D q l y (x : Z) : x ∈ qset D q l y ↔ (y = q ∧ x ∈ l) ∨ (y ≠ q ∧ x ∈ D y).
Proof. unfold qset. case_decide; naive_solver. Qed.

(** The members of the queues after such a move. *)
Lemma requeued_members D q q' p l1 l2 y x :
  D q = l1 ++ p :: l2 → (∀ y, p ∉ qset D q (l1 ++ l2) y) →
  x ∈ qset (qset D q (l1 ++ l2)) q' (p :: qset D q (l1 ++ l2) q') y ↔
  (x = p ∧ y = q') ∨ (x ≠ p ∧ x ∈ D y).
Proof.
  intros HD Hn.
  assert (Hout : x ≠ p → x ∈ qset D q (l1 ++ l2) y ↔ x ∈ D y).
  { intros Hne. rewrite elem_of_qset. destruct (decide (y = q)) as [->|]; [rewrite HD; set_solver|naive_solver]. }
  rewrite elem_of_qset, elem_of_cons. pose proof (Hn y). pose proof (Hn q').
  destruct (decide (x = p)) as [->|Hne]; [naive_solver|].
  rewrite <- Hout by done. destruct (decide (y = q')) as [->|]; naive_solver.
Qed.

(** Out of the queue [id], into the queue [i_slabs_clsid it2] of the header
    written in between. *)
Lemma requeue_ok s m R D p it :
  cache_ok s m R D → p ∈ D (LruQ (i_slabs_clsid it)) → w_heap s !! p = Some it →
  ∃ h1 l1, do_item_unlink_q p s = Some (tt, s <| w_heap := h1 |> <| w_lru := l1 |>) ∧
    h1 !! p = Some it ∧
    ∀ it2, moved it it2 → item_ok (m_power_largest (w_slabs s)) it2 →
    ∃ s3 D' it3,
      do_item_link_q p (s <| w_heap := <[p := it2]> h1 |> <| w_lru := l1 |>) = Some (tt, s3) ∧
      cache_ok s3 m R D' ∧ lru_only s s3 ∧ lru_frame (w_lru s) (w_lru s3) ∧
      csame_out (λ x, x = p) (w_heap s) (w_heap s3) ∧
      w_heap s3 !! p = Some it3 ∧ ctl it3 = ctl it2 ∧
      p ∈ D' (LruQ (i_slabs_clsid it2)) ∧ (∀ q x, x ∈ D' q → ∃ q', x ∈ D q').
Proof.
  intros Hok Hin Hp. pose proof (co_slabs _ _ _ _ Hok) as Hs. pose proof (so_queues _ _ Hs) as Hq.
  destruct (list_elem_of_split _ _ Hin) as (l1 & l2 & HD). set (id := i_slabs_clsid it) in *.
  destruct (queue_mem _ _ _ _ Hq Hin) as (_ & _ & Hp0).
  destruct (do_item_unlink_q_ok s D p it l1 l2 Hq (co_lru _ _ _ _ Hok) Hp HD) as
    (h1 & lr1 & Hun & Hq1 & Hn1 & Hl1 & Hs1 & Hp1 & Hfr1).
  fold id in Hq1, Hn1, Hl1. set (D1 := qset D (LruQ id) (l1 ++ l2)) in *.
  exists h1, lr1. split_and!; [done|by rewrite Hp1|]. intros it2 [Mh Mr Mf] Hio2.
  set (s2 := s <| w_heap := <[p := it2]> h1 |> <| w_lru := lr1 |>).
  assert (Hq2 : queues_ok (w_heap s2) D1) by (by apply queues_ok_insert_notin).
  assert (Hp2 : w_heap s2 !! p = Some it2) by apply lookup_insert_eq.
  assert (Hl2 : lru_ok s2 D1).
  { apply (lru_ok_ext (s <| w_heap := h1 |> <| w_lru := lr1 |>)); try done. intros i x Hx. simpl.
    rewrite lookup_insert_ne; [done|]. intros ->. by apply (Hn1 (LruQ i)). }
  destruct (do_item_link_q_ok s2 D1 p it2 Hq2 Hl2 Hn1 Hp0 Hp2) as
    (h3 & lr3 & Hli & Hq3 & Hl3 & Hs3 & Hfr3); [apply Hio2|].
  set (id2 := i_slabs_clsid it2) in *. set (D3 := qset D1 (LruQ id2) (p :: D1 (LruQ id2))) in *.
  set (s3 := s2 <| w_heap := h3 |> <| w_lru := lr3 |>) in *.
  destruct (lsame_lookup _ _ _ _ Hs3 Hp2) as (n & v & Hp3).
  set (it3 := it2 <| i_next := n |> <| i_prev := v |>) in Hp3.
  exists s3, D3, it3.
  assert (Hcs : csame_out (λ x, x = p) (w_heap s) (w_heap s3)).
  { eapply csame_out_trans; [by apply (lsame_csame _ _ _ Hs1)|].
    eapply csame_out_trans; [by apply (csame_out_insert _ _ p it2)|by apply lsame_csame]. }
  assert (Hfr : lru_frame (w_lru s) (w_lru s3)) by (by eapply lru_frame_trans).
  pose proof (λ y x, requeued_members D (LruQ id) (LruQ id2) p l1 l2 y x HD Hn1) as Hmem3.
  fold D1 D3 in Hmem3.
  assert (Hmem : ∀ i x, x ∈ D3 (LruQ i) → x = p ∧ i = id2 ∨ x ≠ p ∧ x ∈ D (LruQ i)).
  { intros i x [[-> E]|?]%Hmem3; [left|by right]. by injection E. }
  assert (Hmem' : ∀ i x, x ∈ D (LruQ i) → x ≠ p → x ∈ D3 (LruQ i)) by (intros; apply Hmem3; auto).
  assert (Hpin : p ∈ D3 (LruQ id2)) by (unfold D3; rewrite qset_eq; set_solver).
  assert (Hdom : dom (w_heap s3) = dom (w_heap s)).
  { simpl. rewrite <- (lsame_dom _ _ Hs3). simpl.
    rewrite dom_insert_lookup_L by (by rewrite Hp1; eexists). by rewrite <- (lsame_dom _ _ Hs1). }
  assert (Hhc : ∀ x, hcore <$> w_heap s3 !! x = hcore <$> w_heap s !! x).
  { intros x. etrans; [apply (lsame_out_hcore (λ _, False)); [by apply lsame_lsame_out|tauto]|].
    etrans; [|apply (lsame_out_hcore (λ _, False) (w_heap s) h1); [by apply lsame_lsame_out|tauto]].
    simpl. destruct (decide (x = p)) as [->|]; [|by rewrite lookup_insert_ne].
    rewrite lookup_insert_eq, Hp1, Hp. simpl. by rewrite Mh. }
  assert (Hsub : ∀ q x, x ∈ D3 q → ∃ q', x ∈ D q').
  { intros q x [[-> _]|[_ ?]]%Hmem3; eauto. }
  split_and!; try done.
  destruct (co_queued _ _ _ _ Hok id p Hin) as (it0 & Hit0 & H1 & H2 & H3 & H4 & H5).
  rewrite Hp in Hit0. apply (inj Some) in Hit0. subst it0.
  constructor; try apply Hok; try done.
  - apply (assoc_rep_ext s); [done|by intros|apply Hok].
  - apply (slabs_ok_ext s _ D); try done. intros i x Hx. apply Hcs. intros ->.
    by pose proof (qo_disj _ _ Hq _ _ _ Hin Hx).
  - intros i x [[-> ->]|[Hne Hx]]%Hmem.
    + exists it3. split; [done|]. split; [exact Hio2|]. split; [done|]. split; [exact Mf|].
      split; [change (i_refcount it2 = 1 + R p); by rewrite Mr|].
      change (ITEM_key it3) with (ITEM_key it2). unfold hcore in Mh. injection Mh as _ E1 E2.
      unfold ITEM_key. by rewrite E1, E2.
    + destruct (co_queued _ _ _ _ Hok i x Hx) as (ix & Hix & G1 & G2 & G3 & G4 & G5).
      destruct (csame_lookup _ _ _ x ix Hcs Hne Hix) as (ix' & Hix' & Hc).
      exists ix'. split; [done|]. unfold queued_ok. rewrite (ITEM_key_ctl _ _ Hc).
      pose proof (ctl_fields _ _ Hc) as (-> & -> & -> & _).
      split_and!; try done. by apply (item_ok_ctl _ ix).
  - intros k x Hx. destruct (decide (x = p)) as [->|Hne]; [by exists id2|].
    destruct (co_mapped _ _ _ _ Hok k x Hx) as [i Hi]. exists i. by apply Hmem'.
  - intros x Hx. destruct (decide (x = p)) as [->|Hne]; [left; by exists id2|].
    destruct (co_held _ _ _ _ Hok x Hx) as [[i Hi]|(? & Hnx & ix & Hix & G1 & G2 & G3)].
    + left. exists i. by apply Hmem'.
    + right. destruct (csame_lookup _ _ _ x ix Hcs Hne Hix) as (ix' & Hix' & Hc). split_and!; [done| |].
      * intros q [[? _]|[_ Hxq]]%Hmem3; [done|]. by apply (Hnx q).
      * exists ix'. split; [done|]. unfold held_ok.
        pose proof (ctl_fields _ _ Hc) as (-> & -> & _). split_and!; try done. by apply (item_ok_ctl _ ix).
  - intros hist. simpl. unfold lru_frame in Hfr. simpl in Hfr.
    pose proof (co_hist _ _ _ _ Hok hist) as Hh. revert Hh. rewrite <- Hfr. by destruct lr3.
  - rewrite <- (size_dom (D := gset Z)), Hdom, size_dom. apply Hok.
Qed.

(** ** What a client sees of an item *)

(** Everything but the links, the access time, the reference count, the queue
    and the two access flags. *)
Definition content (it : item) : Z * list Z * Z * Z * Z * Z * list Z * Z * Z :=
  (i_nkey it, i_key it, i_nbytes it, i_exptime it, i_cas it, i_cflags it, i_data it,
   ITEM_clsid it, clear (i_it_flags it) (Z.lor ITEM_ACTIVE ITEM_FETCHED)).

Lemma content_ctl it it' : ctl it' = ctl it → content it' = content it.
Proof.
  intros (E1 & E2 & E3 & E4 & E5 & E6 & E7 & E8 & E9 & E10 & E11)%ctl_fields.
  unfold content, ITEM_clsid. by rewrite E1, E3, E4, E5, E6, E7, E9, E10, E11.
Qed.

(** Setting or clearing bits of [b] does not show once [b] is masked. *)
Lemma clear_lor_sub f a b : Z.ldiff a b = 0 → clear (Z.lor f a) b = clear f b.
Proof.
  intros H. unfold clear. apply Z.bits_inj'. intros i Hi. rewrite !Z.ldiff_spec, Z.lor_spec.
  apply (f_equal (λ x, Z.testbit x i)) in H. rewrite Z.ldiff_spec, Z.bits_0 in H.
  destruct (Z.testbit f i), (Z.testbit a i), (Z.testbit b i); simpl in *; done.
Qed.
Lemma clear_clear_sub f a b : Z.ldiff a b = 0 → clear (clear f a) b = clear f b.
Proof.
  intros H. unfold clear. apply Z.bits_inj'. intros i Hi. rewrite !Z.ldiff_spec.
  apply (f_equal (λ x, Z.testbit x i)) in H. rewrite Z.ldiff_spec, Z.bits_0 in H.
  destruct (Z.testbit f i), (Z.testbit a i), (Z.testbit b i); simpl in *; done.
Qed.

Lemma ITEM_clsid_lor it q : Z.ldiff q (Z.shiftl 3 6) = 0 →
  Z.ldiff (Z.lor (ITEM_clsid it) q) (Z.shiftl 3 6) = ITEM_clsid it.
Proof.
  intros H. unfold ITEM_clsid. etrans; [by apply (clear_lor_sub _ q)|].
  unfold clear. by rewrite Z.ldiff_ldiff_l, Z.lor_diag.
Qed.

(** ** Frames *)

(** Memory, the LRU state and the bump buffer may change, the CAS counter does
    not. *)
Definition acc_frame s s' : Prop :=
  s' = s <| w_heap := w_heap s' |> <| w_lru := w_lru s' |> <| w_bump := w_bump s' |> ∧
  l_cas_id (w_lru s') = l_cas_id (w_lru s).

Lemma acc_frame_refl s : acc_frame s s.
Proof. by destruct s. Qed.
Lemma acc_frame_trans s1 s2 s3 : acc_frame s1 s2 → acc_frame s2 s3 → acc_frame s1 s3.
Proof. intros [E1 C1] [E2 C2]. split; [|congruence]. rewrite E2, E1. by destruct s1. Qed.
Lemma acc_frame_heap s h : acc_frame s (s <| w_heap := h |>).
Proof. done. Qed.

Lemma lru_only_acc s s' : lru_only s s' → lru_frame (w_lru s) (w_lru s') → acc_frame s s'.
Proof.
  intros E F. split; [rewrite E; by destruct s|]. unfold lru_frame in F. rewrite <- F. by destruct (w_lru s').
Qed.

(** Nothing the cache invariant reads has changed. *)
Lemma cache_ok_same s s' m R D :
  cache_ok s m R D → w_heap s' = w_heap s → w_assoc s' = w_assoc s → w_slabs s' = w_slabs s →
  l_heads (w_lru s') = l_heads (w_lru s) → l_tails (w_lru s') = l_tails (w_lru s) →
  l_sizes (w_lru s') = l_sizes (w_lru s) → l_sizes_bytes (w_lru s') = l_sizes_bytes (w_lru s) →
  l_stats_sizes_hist (w_lru s') = l_stats_sizes_hist (w_lru s) →
  l_stats_sizes_buckets (w_lru s') = l_stats_sizes_buckets (w_lru s) →
  st_curr_items (w_stats s') = st_curr_items (w_stats s) →
  cache_ok s' m R D.
Proof.
  intros [Ha Hs Hl Hqd Hm Hh Hr Hi Hhi Hsz] E1 E2 E3 E4 E5 E6 E7 E8 E9 E10.
  constructor; unfold queued_ok, held_ok in *; rewrite ?E1, ?E3, ?E8, ?E9, ?E10; try done.
  - apply (assoc_rep_ext s); [done| |done]. intros. by rewrite E1.
  - apply (slabs_ok_ext s _ D); rewrite ?E1; try done. apply Hs.
  - apply (lru_ok_ext s); try done. intros. by rewrite E1.
Qed.

(** ** Writes to the access fields *)

Lemma flag_masked f g a b : clear f b = clear g b → Z.land b a = 0 → flag f a = flag g a.
Proof. intros H Hb. by rewrite <- (flag_clear_ne f b a), H, flag_clear_ne. Qed.

(** The times and the two access flags may differ. *)
Definition mild (it it' : item) : Prop :=
  ∃ t e fl, it' = it <| i_time := t |> <| i_exptime := e |> <| i_it_flags := fl |> ∧
    clear fl (Z.lor ITEM_ACTIVE ITEM_FETCHED) = clear (i_it_flags it) (Z.lor ITEM_ACTIVE ITEM_FETCHED).

Lemma mild_flag it it' a : mild it it' → Z.land (Z.lor ITEM_ACTIVE ITEM_FETCHED) a = 0 →
  flag (i_it_flags it') a = flag (i_it_flags it) a.
Proof. intros (t & e & fl & -> & Hf) Ha. by apply (flag_masked _ _ _ (Z.lor ITEM_ACTIVE ITEM_FETCHED)). Qed.

Lemma mild_ok it it' pl : mild it it' → item_ok pl it → same_place it it' ∧ item_ok pl it'.
Proof.
  intros Hm. pose proof (λ a, mild_flag it it' a Hm) as Hf. destruct Hm as (t & e & fl & -> & _).
  unfold item_ok, key_ok, ITEM_clsid. simpl in *. rewrite !Hf by reflexivity. intros (? & ? & ? & ? & ?).
  split; [|done]. constructor; simpl; try done; [|by rewrite Hf].
  unfold lru_bytes, ITEM_ntotal. simpl. by rewrite !Hf.
Qed.

Definition in_use R D p : Prop := 0 < R p ∨ ∃ id, p ∈ D (LruQ id).

Lemma wr_mild_ok s m R D p f :
  cache_ok s m R D → in_use R D p → (∀ it, mild it (f it)) →
  ∃ it, w_heap s !! p = Some it ∧ wr p f s = Some (tt, s <| w_heap := <[p := f it]> (w_heap s) |>) ∧
    cache_ok (s <| w_heap := <[p := f it]> (w_heap s) |>) m R D.
Proof.
  intros Hok Hp Hf. destruct (cache_usable _ _ _ _ _ Hok Hp) as (it & Hus & Hio & Href & _).
  destruct (mild_ok _ _ _ (Hf it) Hio) as [Hsp Hio']. pose proof Hus as [Hit _].
  exists it. split_and!; [done|by apply wr_ok|].
  apply (cache_ok_R _ _ (upd R p (R p))); [intros; symmetry; by apply upd_self|].
  apply (cache_ok_wr s m R D p it); try done; [apply (co_refs _ _ _ _ Hok)|].
  destruct (Hf it) as (t & e & fl & -> & _). exact Href.
Qed.

Lemma mild_time t it : mild it (it <| i_time := t |>).
Proof. exists t, (i_exptime it), (i_it_flags it). by destruct it. Qed.
Lemma mild_exptime e it : mild it (it <| i_exptime := e |>).
Proof. exists (i_time it), e, (i_it_flags it). by destruct it. Qed.
Lemma mild_set a it : Z.ldiff a (Z.lor ITEM_ACTIVE ITEM_FETCHED) = 0 →
  mild it (it <| i_it_flags := Z.lor (i_it_flags it) a |>).
Proof.
  intros Ha. exists (i_time it), (i_exptime it), (Z.lor (i_it_flags it) a).
  split; [by destruct it|by apply clear_lor_sub].
Qed.
Lemma mild_clear a it : Z.ldiff a (Z.lor ITEM_ACTIVE ITEM_FETCHED) = 0 →
  mild it (it <| i_it_flags := clear (i_it_flags it) a |>).
Proof.
  intros Ha. exists (i_time it), (i_exptime it), (clear (i_it_flags it) a).
  split; [by destruct it|by apply clear_clear_sub].
Qed.

(** The header at [p] after an access: the client sees the same item. *)
Definition same_content s s' p : Prop := ∃ it it', w_heap s !! p = Some it ∧ w_heap s' !! p = Some it' ∧
  content it' = content it ∧ flag (i_it_flags it') ITEM_LINKED = flag (i_it_flags it) ITEM_LINKED.

Lemma same_content_refl s p it : w_heap s !! p = Some it → same_content s s p.
Proof. intros. by exists it, it. Qed.
Lemma same_content_trans s1 s2 s3 p : same_content s1 s2 p → same_content s2 s3 p → same_content s1 s3 p.
Proof.
  intros (a & b & Ha & Hb & E & F) (b' & c & Hb' & Hc & E' & F').
  rewrite Hb in Hb'. apply (inj Some) in Hb'. subst b'.
  exists a, c. split_and!; [done..|congruence|congruence].
Qed.

(** The result of an operation that only touches how an item is queued. *)
Record access_ok s s' m R D' p : Prop := {
  ac_cache : cache_ok s' m R D';
  ac_frame : acc_frame s s';
  ac_others : csame_out (λ x, x = p) (w_heap s) (w_heap s');
  ac_content : same_content s s' p
}.

Lemma access_ok_trans s1 s2 s3 m R R' D' D'' p :
  access_ok s1 s2 m R D' p → access_ok s2 s3 m R' D'' p → access_ok s1 s3 m R' D'' p.
Proof.
  intros [C1 F1 O1 P1] [C2 F2 O2 P2]. constructor; [done|by eapply acc_frame_trans|
    by eapply csame_out_trans|by eapply same_content_trans].
Qed.

(** A write to the access flags and the access time. *)
Lemma wr_access_ok s m R D p f :
  cache_ok s m R D → in_use R D p → (∀ it, mild it (f it)) → (∀ it, i_exptime (f it) = i_exptime it) →
  ∃ it s', w_heap s !! p = Some it ∧ wr p f s = Some (tt, s') ∧ w_heap s' !! p = Some (f it) ∧
    w_bump s' = w_bump s ∧ access_ok s s' m R D p.
Proof.
  intros Hok Hp Hf He. destruct (wr_mild_ok s m R D p f Hok Hp Hf) as (it & Hit & Hrun & Hok').
  eexists it, _. split; [done|]. split; [exact Hrun|]. split; [apply lookup_insert_eq|]. split; [done|].
  constructor; try done; [by apply csame_out_insert|].
  exists it, (f it). split_and!; [done|apply lookup_insert_eq| |by apply mild_flag].
  specialize (He it). destruct (Hf it) as (t & e & fl & E & Hfl). rewrite E in He |- *. simpl in He. subst e.
  unfold content, ITEM_clsid. simpl. by rewrite Hfl.
Qed.

(** ** Moves to the head of a queue *)

Lemma moved_mild it it' : mild it it' → flag (i_it_flags it) ITEM_LINKED = true → moved it it'.
Proof.
  intros Hm Hl. constructor; [| |by rewrite (mild_flag _ _ _ Hm)];
    destruct Hm as (t & e & fl & -> & _); done.
Qed.

Lemma item_link_q_warm_run s s' p it :
  do_item_link_q p s = Some (tt, s') → w_heap s' !! p = Some it →
  ∃ l', item_link_q_warm p s = Some (tt, s' <| w_lru := l' |>) ∧
    l' = (w_lru s') <| l_itemstats := l_itemstats l' |>.
Proof.
  intros Hl Hp. unfold item_link_q_warm. rewrite (bind_run _ _ _ _ _ Hl). unfold fld.
  rewrite bind_assoc, (bind_run _ _ _ _ _ (load_ok _ _ _ Hp)). eexists. split; [reflexivity|done].
Qed.

(** The queue part of [do_item_update] on an item in a queue. *)
Lemma requeue_access s m R D p it :
  cache_ok s m R D → p ∈ D (LruQ (i_slabs_clsid it)) → w_heap s !! p = Some it →
  ∃ s1, do_item_unlink_q p s = Some (tt, s1) ∧ w_heap s1 !! p = Some it ∧
    ∀ it2, moved it it2 → item_ok (m_power_largest (w_slabs s)) it2 → content it2 = content it →
    ∃ s3 D', do_item_link_q p (s1 <| w_heap := <[p := it2]> (w_heap s1) |>) = Some (tt, s3) ∧
      access_ok s s3 m R D' p ∧ p ∈ D' (LruQ (i_slabs_clsid it2)).
Proof.
  intros Hok Hin Hp. destruct (requeue_ok s m R D p it Hok Hin Hp) as (h1 & l1 & Hun & Hp1 & Hre).
  eexists. split; [exact Hun|]. split; [done|]. intros it2 Hmv Hio Hc.
  destruct (Hre it2 Hmv Hio) as (s3 & D' & it3 & Hli & Hok3 & Hlo & Hlf & Hcs & Hp3 & Hct & Hin3 & _).
  exists s3, D'. split; [exact Hli|]. split; [|done].
  constructor; [done|by apply lru_only_acc|done|].
  exists it, it3. split_and!; [done..|by rewrite (content_ctl _ _ Hct)|].
  apply ctl_fields in Hct as (-> & _). rewrite (mv_linked _ _ Hmv).
  destruct (co_queued _ _ _ _ Hok _ p Hin) as (it0 & Hit0 & _ & _ & Hl & _). congruence.
Qed.

(** The header written when an active COLD item goes to WARM. *)
Definition warmed (it : item) : item :=
  it <| i_slabs_clsid := Z.lor (ITEM_clsid it) WARM_LRU |>
     <| i_it_flags := clear (i_it_flags it) ITEM_ACTIVE |>.

Lemma warmed_facts pl it :
  item_ok pl it → flag (i_it_flags it) ITEM_LINKED = true →
  moved it (warmed it) ∧ item_ok pl (warmed it) ∧ content (warmed it) = content it.
Proof.
  intros Hio Hl. assert (Hcl : ITEM_clsid (warmed it) = ITEM_clsid it) by by apply ITEM_clsid_lor.
  split_and!.
  - constructor; simpl; [done|done|]. by rewrite flag_clear_ne.
  - unfold item_ok. rewrite Hcl. unfold warmed, key_ok. simpl. by rewrite !flag_clear_ne.
  - unfold content. rewrite Hcl. unfold warmed. simpl. by rewrite clear_clear_sub.
Qed.

Lemma access_ok_itemstats s s' m R D p l' :
  access_ok s s' m R D p → l' = (w_lru s') <| l_itemstats := l_itemstats l' |> →
  access_ok s (s' <| w_lru := l' |>) m R D p.
Proof.
  intros [C [F1 F2] O P] El. constructor.
  - apply (cache_ok_same s'); try done; rewrite El; done.
  - split; [simpl; rewrite F1 at 1; by destruct s|]. simpl. rewrite El. exact F2.
  - done.
  - exact P.
Qed.

Lemma linked_in_queue s m R D p it :
  cache_ok s m R D → in_use R D p → w_heap s !! p = Some it → flag (i_it_flags it) ITEM_LINKED = true →
  p ∈ D (LruQ (i_slabs_clsid it)) ∧ item_ok (m_power_largest (w_slabs s)) it.
Proof.
  intros Hok Hu Hp Hl. destruct (cache_usable _ _ _ _ _ Hok Hu) as (it0 & [Hp' _] & Hio & _ & Hiff).
  rewrite Hp in Hp'. apply (inj Some) in Hp'. subst it0. apply Hiff in Hl as [id Hid].
  destruct (co_queued _ _ _ _ Hok id p Hid) as (it1 & Hp1 & _ & Hcl & _).
  rewrite Hp in Hp1. apply (inj Some) in Hp1. subst it1. by rewrite Hcl.
Qed.

Lemma do_item_update_ok s m R D p :
  cache_ok s m R D → in_use R D p →
  ∃ s' D', do_item_update p s = Some (tt, s') ∧ access_ok s s' m R D' p.
Proof.
  intros Hok Hu. destruct (cache_usable _ _ _ _ _ Hok Hu) as (it & [Hp _] & Hio & _).
  assert (Hself : access_ok s s m R D p).
  { constructor; [done|apply acc_frame_refl|done|by eapply same_content_refl]. }
  unfold do_item_update. rewrite (bind_run _ _ _ _ _ (load_ok _ _ _ Hp)), (bind_run _ _ _ _ _ eq_refl).
  cbv zeta. pose proof (proj1 Hio) as Hsl. rewrite Hsl. cbn [negb].
  set (now := w_current_time s).
  destruct (wr_access_ok s m R D p (λ x, x <| i_time := now |>) Hok Hu) as
    (it' & s1 & Hp' & Hwr & Hp1 & _ & Hac1); [intros; apply mild_time|done|].
  rewrite Hp in Hp'. apply (inj Some) in Hp'. subst it'.
  set (it1 := it <| i_time := now |>) in Hp1. pose proof (ac_cache _ _ _ _ _ _ Hac1) as Hok1.
  destruct (o_lru_segmented (w_settings s)).
  - rewrite (bind_run _ _ _ _ _ eq_refl).
    destruct (flag (i_it_flags it) ITEM_LINKED) eqn:Hl; simpl; [|by exists s, D].
    destruct (_ && _); [|by exists s1, D; rewrite Hwr].
    rewrite (bind_run _ _ _ _ _ Hwr).
    destruct (linked_in_queue s1 m R D p it1 Hok1 Hu Hp1 Hl) as [Hin Hio1].
    destruct (requeue_access s1 m R D p it1 Hok1 Hin Hp1) as (s2 & Hun & Hp2 & Hre).
    destruct (warmed_facts _ it1 Hio1 Hl) as (Hmv & Hiow & Hcw).
    destruct (Hre (warmed it1) Hmv Hiow Hcw) as (s3 & D3 & Hli & Hac3 & _).
    destruct (ac_content _ _ _ _ _ _ Hac3) as (_ & it3 & _ & Hp3 & _).
    destruct (item_link_q_warm_run _ _ _ _ Hli Hp3) as (l' & Hrun & El).
    exists (s3 <| w_lru := l' |>), D3. split.
    + unfold item_unlink_q. rewrite (bind_run _ _ _ _ _ Hun), (bind_run _ _ _ _ _ (wr_ok _ _ _ _ Hp2)).
      exact Hrun.
    + eapply access_ok_trans; [exact Hac1|]. by apply access_ok_itemstats.
  - destruct (_ <? _); [|by exists s, D]. rewrite (bind_run _ _ _ _ _ eq_refl).
    destruct (flag (i_it_flags it) ITEM_LINKED) eqn:Hl; simpl; [|by exists s, D].
    rewrite (bind_run _ _ _ _ _ Hwr).
    destruct (linked_in_queue s1 m R D p it1 Hok1 Hu Hp1 Hl) as [Hin Hio1].
    destruct (requeue_access s1 m R D p it1 Hok1 Hin Hp1) as (s2 & Hun & Hp2 & Hre).
    destruct (Hre it1) as (s3 & D3 & Hli & Hac3 & _); [by constructor|done..|].
    exists s3, D3. split; [|by eapply access_ok_trans].
    unfold item_unlink_q, item_link_q. rewrite (bind_run _ _ _ _ _ Hun), <- Hli. f_equal.
    rewrite insert_id by done. by destruct s2.
Qed.

(** ** The bump buffer *)

Lemma access_ok_bump s s' m R D p b :
  access_ok s s' m R D p → access_ok s (s' <| w_bump := b |>) m R D p.
Proof.
  intros [C [F1 F2] O P]. constructor; [by apply (cache_ok_same s')| |done|exact P].
  split; [simpl; rewrite F1 at 1; by destruct s|done].
Qed.

Lemma refcount_access s m R D p :
  cache_ok s m R D → in_use R D p → R p + 1 < 2 ^ 15 →
  ∃ rc s', refcount_incr p s = Some (rc, s') ∧ access_ok s s' m (upd R p (R p + 1)) D p.
Proof.
  intros Hok Hu HR. destruct (refcount_incr_ok s m R D p Hok Hu HR) as (it & rc & Hp & Hrun & _ & Hok').
  eexists rc, _. split; [exact Hrun|]. constructor; [done|done|by apply csame_out_insert|].
  exists it, (it <| i_refcount := rc |>). split_and!; [done|apply lookup_insert_eq|done..].
Qed.

Lemma refcount_decr_access s m R D p :
  cache_ok s m R D → 1 < R p →
  ∃ rc s', refcount_decr p s = Some (rc, s') ∧ access_ok s s' m (upd R p (R p - 1)) D p.
Proof.
  intros Hok HR. destruct (cache_usable _ _ _ _ p Hok) as (it & Hus & Hio & Href & _); [left; lia|].
  pose proof Hus as [Hp _]. pose proof (co_refs _ _ _ _ Hok p) as Hr.
  eexists _, _. split.
  { unfold refcount_decr. rewrite (bind_run _ _ _ _ _ (load_ok _ _ _ Hp)).
    rewrite u16_small; [reflexivity|]. rewrite Href. destruct (flag _ _); lia. }
  constructor; [|done|by apply csame_out_insert|].
  - apply (set_refcount_ok s m R); try done; [lia|]. rewrite Href. destruct (flag _ _); lia.
  - eexists it, _. split_and!; [done|apply lookup_insert_eq|done..].
Qed.

(** A full buffer gives the reference back. *)
Lemma lru_bump_async_ok s m R D p hv :
  cache_ok s m R D → 0 < R p → R p + 1 < 2 ^ 15 →
  ∃ (b : bool) s', lru_bump_async p hv s = Some (b, s') ∧
    access_ok s s' m (if b then upd R p (R p + 1) else R) D p.
Proof.
  intros Hok HR Hmax. destruct (refcount_access s m R D p Hok) as (rc & s1 & Hinc & Hac1); [by left|done|].
  assert (Hback : ∀ b, ∃ rc' s2, refcount_decr p (s1 <| w_bump := b |>) = Some (rc', s2) ∧
    access_ok s s2 m R D p).
  { intros b. pose proof (access_ok_bump _ _ _ _ _ _ b Hac1) as Hac2. set (sb := s1 <| w_bump := b |>) in *.
    destruct (refcount_decr_access sb m (upd R p (R p + 1)) D p) as (rc' & s2 & Hdec & Hac3);
      [apply Hac2|rewrite upd_eq; lia|].
    exists rc', s2. split; [exact Hdec|]. pose proof (access_ok_trans _ _ _ _ _ _ _ _ _ Hac2 Hac3) as [C F O P].
    constructor; [|done..]. apply (cache_ok_R _ _ _ R) in C; [done|].
    intros x. rewrite upd_eq. unfold upd. destruct (Z.eqb_spec x p) as [->|]; [lia|done]. }
  unfold lru_bump_async. rewrite (bind_run _ _ _ _ _ Hinc), (bind_run _ _ _ _ _ eq_refl).
  destruct (bipbuf_request _ _) as [be|].
  - rewrite (bind_run _ _ _ _ _ eq_refl). destruct (bipbuf_push _ _) as [n buf].
    rewrite (bind_run _ _ _ _ _ eq_refl). destruct (n =? 0).
    + rewrite (bind_run _ _ _ _ _ eq_refl).
      match goal with |- ∃ _ _, _ ?S = _ ∧ _ =>
        destruct (Hback (w_bump S)) as (rc' & s2 & Hdec & Hac2) end.
      exists false, s2. split; [|exact Hac2]. erewrite bind_run; [reflexivity|exact Hdec].
    + eexists true, _. split; [reflexivity|].
      match goal with |- access_ok _ ?S _ _ _ _ =>
        exact (access_ok_bump _ _ _ _ _ _ (w_bump S) Hac1) end.
  - rewrite (bind_run _ _ _ _ _ eq_refl).
    match goal with |- ∃ _ _, _ ?S = _ ∧ _ =>
      destruct (Hback (w_bump S)) as (rc' & s2 & Hdec & Hac2) end.
    exists false, s2. split; [|exact Hac2]. erewrite bind_run; [reflexivity|exact Hdec].
Qed.

(** Giving back a reference to a linked item frees nothing. *)
Lemma do_item_remove_linked s m R D p it :
  cache_ok s m R D → 0 < R p → (∃ id, p ∈ D (LruQ id)) → w_heap s !! p = Some it →
  ∃ s', do_item_remove p s = Some (tt, s') ∧ cache_ok s' m (upd R p (R p - 1)) D ∧
    w_heap s' !! p = Some (it <| i_refcount := i_refcount it - 1 |>).
Proof.
  intros Hok HR Hin Hp. destruct (cache_usable _ _ _ _ p Hok) as (it0 & Hus & Hio & Href & Hiff); [by left|].
  pose proof Hus as [Hp' _]. rewrite Hp in Hp'. apply (inj Some) in Hp'. subst it0.
  apply Hiff in Hin as Hl. rewrite Hl in Href. pose proof (co_refs _ _ _ _ Hok p) as Hr.
  exists (s <| w_heap := <[p := it <| i_refcount := i_refcount it - 1 |>]> (w_heap s) |>).
  split; [|split; [|apply lookup_insert_eq]].
  - unfold do_item_remove. rewrite (bind_run _ _ _ _ _ (load_ok _ _ _ Hp)), (proj1 Hio), (bind_run _ _ _ _ _ eq_refl).
    rewrite (proj2 (Z.ltb_lt _ _)) by lia. rewrite (bind_run _ _ _ _ _ eq_refl). unfold refcount_decr.
    rewrite bind_assoc, (bind_run _ _ _ _ _ (load_ok _ _ _ Hp)), u16_small by lia.
    rewrite bind_assoc, (bind_run _ _ _ _ _ eq_refl), (bind_run _ _ _ _ _ eq_refl).
    rewrite (proj2 (Z.eqb_neq _ 0)) by lia. reflexivity.
  - apply (set_refcount_ok s m R); try done; [lia|]. rewrite Hl. lia.
Qed.

(** The references after a bump: the buffer may hold one more. *)
Definition bump_refs R p R' : Prop := (∀ x, R' x = R x) ∨ (∀ x, R' x = upd R p (R p + 1) x).

Lemma do_item_bump_ok s m R D p hv :
  cache_ok s m R D → 0 < R p → R p + 1 < 2 ^ 15 →
  ∃ s' D' R', do_item_bump p hv s = Some (tt, s') ∧ access_ok s s' m R' D' p ∧ bump_refs R p R'.
Proof.
  intros Hok HR Hmax. assert (Hu : in_use R D p) by by left.
  destruct (cache_usable _ _ _ _ _ Hok Hu) as (it & [Hp _] & Hio & _).
  assert (Hself : access_ok s s m R D p).
  { constructor; [done|apply acc_frame_refl|done|by eapply same_content_refl]. }
  unfold do_item_bump. rewrite (bind_run _ _ _ _ _ (load_ok _ _ _ Hp)), (bind_run _ _ _ _ _ eq_refl).
  assert (Hset : ∀ a, Z.ldiff a (Z.lor ITEM_ACTIVE ITEM_FETCHED) = 0 → ∃ s1,
    wr p (λ x, x <| i_it_flags := Z.lor (i_it_flags x) a |>) s = Some (tt, s1) ∧ access_ok s s1 m R D p).
  { intros a Ha. destruct (wr_access_ok s m R D p (λ x, x <| i_it_flags := Z.lor (i_it_flags x) a |>) Hok Hu)
      as (x & s1 & _ & Hwr & _ & _ & Hac1); [intros; by apply mild_set|done|]. by exists s1. }
  assert (Hwr : ∀ s1 R1 D1 f, access_ok s s1 m R1 D1 p → 0 < R1 p → (∀ x, mild x (f x)) →
    (∀ x, i_exptime (f x) = i_exptime x) → ∃ s2, wr p f s1 = Some (tt, s2) ∧ access_ok s s2 m R1 D1 p).
  { intros s1 R1 D1 f Hac1 HR1 Hf He.
    destruct (wr_access_ok s1 m R1 D1 p f (ac_cache _ _ _ _ _ _ Hac1)) as (x & s2 & _ & Hrun & _ & _ & Hac2);
      [by left|done|done|]. exists s2. split; [done|]. by eapply access_ok_trans. }
  destruct (o_lru_segmented (w_settings s)).
  - destruct (flag (i_it_flags it) ITEM_ACTIVE); simpl; [by exists s, D, R; split_and!; [| |left]|].
    destruct (flag (i_it_flags it) ITEM_FETCHED); simpl.
    + destruct (Hset ITEM_ACTIVE) as (s1 & Hrun1 & Hac1); [done|]. rewrite (bind_run _ _ _ _ _ Hrun1).
      destruct (ITEM_lruid it =? COLD_LRU); simpl.
      * destruct (lru_bump_async_ok s1 m R D p hv) as (b & s2 & Hb & Hac2); [apply Hac1|done|done|].
        rewrite (bind_run _ _ _ _ _ Hb).
        pose proof (access_ok_trans _ _ _ _ _ _ _ _ _ Hac1 Hac2) as Hac12. destruct b; simpl.
        -- exists s2, D, (upd R p (R p + 1)). split_and!; [done|done|by right].
        -- destruct (Hwr s2 R D (λ x, x <| i_it_flags := clear (i_it_flags x) ITEM_ACTIVE |>) Hac12 HR)
             as (s3 & Hrun3 & Hac3); [intros; by apply mild_clear|done|].
           exists s3, D, R. split_and!; [done|done|by left].
      * destruct (Hwr s1 R D (λ x, x <| i_time := w_current_time s |>) Hac1 HR) as (s2 & Hrun2 & Hac2);
          [intros; apply mild_time|done|]. exists s2, D, R. split_and!; [done|done|by left].
    + destruct (Hset ITEM_FETCHED) as (s1 & Hrun1 & Hac1); [done|].
      exists s1, D, R. split_and!; [done|done|by left].
  - destruct (Hset ITEM_FETCHED) as (s1 & Hrun1 & Hac1); [done|]. rewrite (bind_run _ _ _ _ _ Hrun1).
    destruct (do_item_update_ok s1 m R D p) as (s2 & D2 & Hrun2 & Hac2); [apply Hac1|done|].
    exists s2, D2, R. split_and!; [done|by eapply access_ok_trans|by left].
Qed.

(** ** Lookup *)

(** [item_is_flushed] as a predicate of the clock and the flush settings. *)
Definition flushed s (it : item) : bool :=
  let o := w_settings s in
  if (o_oldest_live o =? 0) || (w_current_time s <? o_oldest_live o) then false
  else (i_time it <=? o_oldest_live o)
       || (negb (o_oldest_cas o =? 0) && negb (ITEM_get_cas it =? 0) && (ITEM_get_cas it <? o_oldest_cas o)).

Definition expired s (it : item) : bool := negb (i_exptime it =? 0) && (i_exptime it <=? w_current_time s).

Lemma item_is_flushed_run s it : item_is_flushed it s = Some (flushed s it, s).
Proof.
  unfold item_is_flushed, flushed. rewrite (bind_run _ _ _ _ _ eq_refl). cbv zeta. by destruct (_ || _).
Qed.

Lemma storage_delete_run s p it :
  w_heap s !! p = Some it → ∃ e, storage_delete p s = Some (tt, s <| w_ext := e |>) ∧
    e = w_ext s ++ (if flag (i_it_flags it) ITEM_HDR
                    then [(rd16 (i_data it) 8, rd32 (i_data it) 0, ITEM_ntotal it)] else []).
Proof.
  intros Hp. unfold storage_delete. rewrite (bind_run _ _ _ _ _ (load_ok _ _ _ Hp)).
  destruct (flag _ _); eexists; (split; [|reflexivity]); [done|].
  simpl. rewrite app_nil_r. by destruct s.
Qed.

(** The state outside the cache structures and the external storage is
    unchanged. *)
Definition drop_frame s s' : Prop :=
  s' = s <| w_heap := w_heap s' |> <| w_slabs := w_slabs s' |> <| w_assoc := w_assoc s' |>
         <| w_lru := w_lru s' |> <| w_stats := w_stats s' |> <| w_ext := w_ext s' |>.

(** Removing a stale item the caller holds one reference to. *)
Lemma drop_item_ok s m R D k p :
  cache_ok s m R D → m !! k = Some p → 0 < R p → R p + 1 < 2 ^ 15 →
  ∃ s' D', (do_item_unlink p (hash k) ;; storage_delete p ;; do_item_remove p) s = Some (tt, s') ∧
    cache_ok s' (delete k m) (upd R p (R p - 1)) D' ∧ drop_frame s s' ∧
    l_cas_id (w_lru s') = l_cas_id (w_lru s) ∧
    csame_out (λ x, x = p) (w_heap s) (w_heap s') ∧ (R p = 1 → ∃ id, p ∈ D' (FreeQ id)).
Proof.
  intros Hok Hm HR Hmax.
  destruct (do_item_unlink_ok s m R D k p Hok Hm Hmax) as (s1 & D1 & Hun & Hok1 & Hfr1 & Hcas1 & Hcs1 & _).
  destruct (cache_usable _ _ _ _ p Hok1) as (it1 & [Hp1 _] & _); [by left|].
  destruct (storage_delete_run s1 p it1 Hp1) as (e & Hst & _). set (s2 := s1 <| w_ext := e |>) in *.
  assert (Hok2 : cache_ok s2 (delete k m) R D1) by by apply (cache_ok_same s1).
  destruct (do_item_remove_ok s2 (delete k m) R D1 p Hok2 HR) as
    (s3 & D3 & Hrem & Hok3 & Hfr3 & Hlru3 & Hcs3 & Hfree & _).
  exists s3, D3. split_and!.
  - by rewrite (bind_run _ _ _ _ _ Hun), (bind_run _ _ _ _ _ Hst).
  - done.
  - unfold drop_frame. rewrite Hfr3. unfold item_frame in Hfr1. unfold s2. rewrite Hfr1. by destruct s.
  - rewrite Hfr3. simpl. exact Hcas1.
  - by eapply csame_out_trans.
  - intros HR1. apply Hfree; [done|]. intros id Hid.
    destruct (co_queued _ _ _ _ Hok1 id p Hid) as (it2 & _ & _ & _ & _ & _ & Hk).
    apply lookup_delete_Some in Hk as [Hne Hk].
    apply (assoc_rep_key _ _ _ _ (co_assoc _ _ _ _ Hok)) in Hk, Hm. congruence.
Qed.

Lemma drop_item_bind {A} s p hv (s' : world) (k : M world A) :
  (do_item_unlink p hv ;; storage_delete p ;; do_item_remove p) s = Some (tt, s') →
  (do_item_unlink p hv ;; storage_delete p ;; do_item_remove p ;; k) s = k s'.
Proof.
  unfold mbind, M_bind. intros H.
  repeat (match goal with |- context [match ?e with Some _ => _ | None => _ end] =>
    destruct e as [[[] ?]|]; [|done] end). by injection H as ->.
Qed.

(** What [do_item_get] returns and leaves behind, for the entry [p]. *)
Record got s s' m R D' k p (it : item) (do_update : bool) (res : Z) : Prop := {
  g_stale : flushed s it || expired s it = true →
    res = 0 ∧ cache_ok s' (delete k m) R D' ∧ (R p = 0 → ∃ id, p ∈ D' (FreeQ id)) ∧
    drop_frame s (s' <| w_tstats := w_tstats s |>) ∧
    w_tstats s' = (if flushed s it then (w_tstats s) <| t_get_flushed := u64 (t_get_flushed (w_tstats s) + 1) |>
                   else (w_tstats s) <| t_get_expired := u64 (t_get_expired (w_tstats s) + 1) |>);
  g_fresh : flushed s it || expired s it = false →
    res = p ∧ acc_frame s s' ∧ same_content s s' p ∧
    ∃ R', cache_ok s' m R' D' ∧ bump_refs (upd R p (R p + 1)) p R' ∧
      (do_update = false → ∀ x, R' x = upd R p (R p + 1) x);
  g_others : csame_out (λ x, x = p) (w_heap s) (w_heap s');
  g_cas : l_cas_id (w_lru s') = l_cas_id (w_lru s)
}.

Lemma assoc_find_rep s m k :
  assoc_rep s m → assoc_find k (Z.of_nat (length k)) (hash k) s = Some (default 0 (m !! k), s).
Proof. intros (L & ? & ? & ?). by eapply assoc_find_abs. Qed.

Lemma do_item_get_miss s m R D k do_update :
  cache_ok s m R D → m !! k = None →
  do_item_get k (Z.of_nat (length k)) (hash k) do_update s = Some (0, s).
Proof.
  intros Hok Hm. unfold do_item_get. rewrite (bind_run _ _ _ _ _ (assoc_find_rep _ _ k (co_assoc _ _ _ _ Hok))).
  by rewrite Hm.
Qed.

Lemma do_item_get_hit s m R D k p do_update :
  cache_ok s m R D → m !! k = Some p → R p + 2 < 2 ^ 15 →
  ∃ it s' D' res, w_heap s !! p = Some it ∧ ITEM_key it = k ∧ p ≠ 0 ∧
    do_item_get k (Z.of_nat (length k)) (hash k) do_update s = Some (res, s') ∧
    got s s' m R D' k p it do_update res.
Proof.
  intros Hok Hm Hmax. pose proof (so_queues _ _ (co_slabs _ _ _ _ Hok)) as Hq.
  destruct (co_mapped _ _ _ _ Hok k p Hm) as [id Hin]. destruct (queue_mem _ _ _ _ Hq Hin) as (_ & _ & Hp0).
  pose proof (co_refs _ _ _ _ Hok p) as Hr.
  destruct (refcount_incr_ok s m R D p Hok) as (it & rc & Hp & Hinc & Hrc & Hok1); [by right; exists id|lia|].
  set (it1 := it <| i_refcount := rc |>) in *. set (s1 := s <| w_heap := <[p := it1]> (w_heap s) |>) in *.
  set (R1 := upd R p (R p + 1)) in *. assert (HR1 : R1 p = R p + 1) by apply upd_eq.
  assert (Hp1 : w_heap s1 !! p = Some it1) by apply lookup_insert_eq.
  assert (Hk : ITEM_key it = k).
  { apply (assoc_rep_key _ _ _ _ (co_assoc _ _ _ _ Hok)) in Hm. unfold key_of in Hm.
    rewrite Hp in Hm. simpl in Hm. congruence. }
  assert (Hcs1 : csame_out (λ x, x = p) (w_heap s) (w_heap s1)) by by apply csame_out_insert.
  destruct (drop_item_ok s1 m R1 D k p Hok1 Hm) as (s2 & D2 & Hdrop & Hok2 & Hfr2 & Hcas2 & Hcs2 & Hfree2); [lia..|].
  assert (Hok2' : cache_ok s2 (delete k m) R D2).
  { apply (cache_ok_R _ _ _ R) in Hok2; [done|]. intros x. unfold R1, upd. destruct (Z.eqb_spec x p) as [->|]; [|done].
    destruct (Z.eqb_spec p p); lia. }
  destruct (do_item_bump_ok s1 m R1 D p (hash k)) as (s3 & D3 & R3 & Hbump & Hac3 & Hb3); [done|lia..|].
  unfold do_item_get. rewrite (bind_run _ _ _ _ _ (assoc_find_rep _ _ k (co_assoc _ _ _ _ Hok))), Hm.
  change (default 0 (Some p)) with p.
  rewrite (proj2 (Z.eqb_neq p NULL)) by done. rewrite (bind_run _ _ _ _ _ Hinc).
  rewrite (bind_run _ _ _ _ _ (load_ok _ _ _ Hp1)), (bind_run _ _ _ _ _ (item_is_flushed_run s1 it1)).
  rewrite (bind_run _ _ _ _ _ eq_refl).
  change (flushed s1 it1) with (flushed s it). change (negb (i_exptime it1 =? 0) && _) with (expired s it).
  destruct (flushed s it) eqn:Ef; [|destruct (expired s it) eqn:Ee].
  - rewrite (drop_item_bind _ _ _ _ _ Hdrop). eexists it, _, D2, 0. split_and!; [done..|reflexivity|].
    constructor; [|by rewrite Ef|by eapply csame_out_trans|exact Hcas2]. intros _.
    split_and!; [done| |intros; apply Hfree2; lia| |rewrite Ef; simpl; by rewrite Hfr2].
    + by apply (cache_ok_same s2).
    + unfold drop_frame in *. rewrite Hfr2. by destruct s.
  - rewrite (drop_item_bind _ _ _ _ _ Hdrop). eexists it, _, D2, 0. split_and!; [done..|reflexivity|].
    constructor; [|by rewrite Ef, Ee|by eapply csame_out_trans|exact Hcas2]. intros _.
    split_and!; [done| |intros; apply Hfree2; lia| |rewrite Ef; simpl; by rewrite Hfr2].
    + by apply (cache_ok_same s2).
    + unfold drop_frame in *. rewrite Hfr2. by destruct s.
  - assert (Hac1 : access_ok s s1 m R1 D p).
    { constructor; [done|done|done|]. exists it, it1. done. }
    destruct do_update; simpl.
    + rewrite (bind_run _ _ _ _ _ Hbump). pose proof (access_ok_trans _ _ _ _ _ _ _ _ _ Hac1 Hac3) as [C F O P].
      exists it, s3, D3, p. split_and!; [done..|]. constructor; [by rewrite Ef, Ee| |done|apply F].
      intros _. split_and!; [done..|]. by exists R3; split_and!.
    + exists it, s1, D, p. split_and!; [done..|]. constructor; [by rewrite Ef, Ee| |done|done].
      intros _. destruct Hac1 as [C F O P]. split_and!; [done..|]. exists R1. split_and!; [done|by left|done].
Qed.
End Access.
