(* ===== verification/ItemsThm.v ===== *)
(** * The cache as a map

    The item operations against the abstract cache: a map from keys to item
    addresses and a count of the references outside the cache. Each theorem
    comes with a run on a small server. *)

From S2P Require Import Prelude Bipbuf Hashes State Links Queues Assoc AssocSpec AssocThm Slabs SlabsSpec SlabsThm Items ItemsSpec ItemsAccess.

Section Cache.
Context {HF : HashFn}.
Implicit Types (s : world) (m : gmap (list Z) Z) (R : Z → Z) (D : queues) (p : Z).

(** An unlinked item a caller holds a reference to. *)
Definition held s R p (it : item) : Prop :=
  0 < R p ∧ w_heap s !! p = Some it ∧ flag (i_it_flags it) ITEM_LINKED = false.

Lemma held_out s m R D p it :
  cache_ok s m R D → held s R p it → (∀ q, p ∉ D q) ∧ p ≠ 0 ∧ held_ok s R p it.
Proof.
  intros Hok (HR & Hp & Hl). destruct (co_held _ _ _ _ Hok p HR) as [[id Hid]|(H0 & Hn & it' & Hp' & Hh)].
  - destruct (co_queued _ _ _ _ Hok id p Hid) as (it' & Hp' & _ & _ & Hl' & _). congruence.
  - rewrite Hp in Hp'. apply (inj Some) in Hp'. by subst it'.
Qed.

Lemma linked_hdr_values it now cas :
  i_time (linked_hdr it now cas) = now ∧ i_data (linked_hdr it now cas) = i_data it ∧
  i_exptime (linked_hdr it now cas) = i_exptime it.
Proof. unfold linked_hdr, ITEM_set_cas. by destruct (flag _ _). Qed.

Lemma linked_hdr_key it now cas : ITEM_key (linked_hdr it now cas) = ITEM_key it.
Proof. unfold ITEM_key, linked_hdr, ITEM_set_cas. by destruct (flag _ _). Qed.



(** C28 (safety). [do_item_remove] drops one reference of its caller, leaves the
    map alone, and puts the chunk on a free list exactly when that was the last
    reference to an item the cache does not hold: an item that is linked or still
    referenced is never freed. *)
Theorem do_item_remove_correct s m R D p :
  cache_ok s m R D → 0 < R p →
  ∃ s' D', do_item_remove p s = Some (tt, s') ∧ cache_ok s' m (upd R p (R p - 1)) D' ∧
    (∀ id, D' (LruQ id) = D (LruQ id)) ∧ csame_out (λ x, x = p) (w_heap s) (w_heap s') ∧
    ((∃ id, p ∈ D' (FreeQ id)) ↔ R p = 1 ∧ ∀ id, p ∉ D (LruQ id)).
Proof.
  intros Hok HR. destruct (do_item_remove_ok s m R D p Hok HR) as (s' & D' & Hrun & Hok' & _ & Hl & Hcs & Hf & _).
  exists s', D'. split_and!; try done. split; [|intros [? ?]; auto]. intros [id Hid].
  pose proof (so_queues _ _ (co_slabs _ _ _ _ Hok')) as Hq'.
  assert (Hnl : ∀ i, p ∉ D (LruQ i)).
  { intros i Hi. rewrite <- Hl in Hi. by pose proof (qo_disj _ _ Hq' _ _ _ Hi Hid). }
  split; [|done]. pose proof (co_refs _ _ _ _ Hok p).
  destruct (decide (R p = 1)); [done|exfalso].
  destruct (co_held _ _ _ _ Hok' p) as [[i Hi]|(_ & Hn & _)]; [rewrite upd_eq; lia| |].
  - rewrite Hl in Hi. by apply (Hnl i).
  - by apply (Hn (FreeQ id)).
Qed.

(** The links of the header play no role. *)
Lemma linked_hdr_ctl it it' now cas :
  ctl it' = ctl it →
  ctl ((linked_hdr it' now cas) <| i_refcount := i_refcount it' + 1 |>) =
  ctl ((linked_hdr it now cas) <| i_refcount := i_refcount it + 1 |>).
Proof.
  intros Hc. pose proof (ctl_fields _ _ Hc) as (Ef & Er & _). unfold linked_hdr, ITEM_set_cas. simpl.
  rewrite Ef, Er. destruct it, it'. unfold ctl, erase_l, erase_h in *. simpl in *.
  injection Hc as. subst. by destruct (flag _ _).
Qed.

Lemma do_item_replace_gen s m R D k p p2 it2 :
  cache_ok s m R D → m !! k = Some p → R p + 1 < 2 ^ 15 → (∀ q, p2 ∉ D q) → p2 ≠ 0 →
  w_heap s !! p2 = Some it2 → held_ok s R p2 it2 → ITEM_key it2 = k →
  ∃ s' D' it', do_item_replace p p2 (hash k) s = Some (1, s') ∧
    cache_ok s' (<[k := p2]> m) R D' ∧ item_frame s s' ∧ l_cas_id (w_lru s') = cas_after s ∧
    csame_out (λ x, x = p ∨ x = p2) (w_heap s) (w_heap s') ∧ w_heap s' !! p2 = Some it' ∧
    ctl it' = ctl ((linked_hdr it2 (w_current_time s) (next_cas s)) <| i_refcount := i_refcount it2 + 1 |>) ∧
    same_pages (w_slabs s) (w_slabs s') ∧ (∀ q x, x ∈ D' q → x = p ∨ x = p2 ∨ ∃ q', x ∈ D q') ∧
    (∀ id x, x ≠ p → (x ∈ D' (FreeQ id) ↔ x ∈ D (FreeQ id))).
Proof.
  intros Hok Hm HR Hn Hp0 Hp2 Hho Hk. destruct (co_mapped _ _ _ _ Hok k p Hm) as [id Hin].
  destruct (co_queued _ _ _ _ Hok id p Hin) as (it & Hp & Hio & _ & Hl & _).
  destruct (do_item_unlink_ok s m R D k p Hok Hm HR) as (s1 & D1 & Hun & Hok1 & Hfr1 & Hcas1 & Hcs1 & _ & [Kp Km Kf]).
  assert (Hne : p2 ≠ p) by (intros ->; by apply (Hn (LruQ id))).
  destruct (csame_lookup _ _ _ p2 it2 Hcs1 Hne Hp2) as (it1 & Hp1 & Hc1).
  assert (Hn1 : ∀ q, p2 ∉ D1 q) by (intros q Hx; destruct (Km q p2 Hx) as [?|[q' ?]]; [done|by apply (Hn q')]).
  assert (Hho1 : held_ok s1 R p2 it1).
  { destruct Hho as (H1 & H2 & H3). pose proof (ctl_fields _ _ Hc1) as (Ef & Er & _).
    unfold held_ok. rewrite Ef, Er, (f_equal m_power_largest (proj1 Kp) : m_power_largest (w_slabs s1) = _).
    split_and!; try done. by apply (item_ok_ctl _ it2). }
  pose proof (ITEM_key_ctl _ _ Hc1) as Hk1. rewrite Hk in Hk1.
  destruct (do_item_link_ok s1 (delete k m) R D1 p2 it1 Hok1 Hn1 Hp0 Hp1 Hho1) as
    (s2 & D2 & it' & Hrun & Hok2 & Hfr2 & Hcas2 & Hcs2 & Hp2' & Hct & Esl & ED); [by rewrite Hk1, lookup_delete_eq|].
  assert (Hset : w_settings s1 = w_settings s) by (unfold item_frame in Hfr1; by rewrite Hfr1).
  assert (Hcs' : cas_after s1 = cas_after s ∧ next_cas s1 = next_cas s).
  { unfold cas_after, next_cas. by rewrite Hset, Hcas1. }
  destruct Hcs' as [E1 E2]. rewrite Hk1 in Hrun, Hok2.
  assert (Htime : w_current_time s1 = w_current_time s) by (unfold item_frame in Hfr1; by rewrite Hfr1).
  exists s2, D2, it'. split_and!; try done.
  - unfold do_item_replace. rewrite (bind_run _ _ _ _ _ (load_ok _ _ _ Hp)), (proj1 Hio).
    by rewrite (bind_run _ _ _ _ _ eq_refl), (bind_run _ _ _ _ _ Hun).
  - by rewrite insert_delete_eq in Hok2.
  - by eapply item_frame_trans.
  - by rewrite Hcas2.
  - eapply csame_out_trans; (eapply csame_out_weaken; [|done]); simpl; auto.
  - rewrite Hct, E2, Htime. by apply linked_hdr_ctl.
  - by rewrite Esl.
  - intros q x Hx. rewrite ED in Hx. unfold qset in Hx. case_decide.
    + apply elem_of_cons in Hx as [?|Hx]; [auto|]. destruct (Km _ x Hx) as [?|?]; auto.
    + destruct (Km _ x Hx) as [?|?]; auto.
  - intros i x Hx. rewrite ED, qset_ne by done. by apply Kf.
Qed.

Lemma do_item_replace_ok s m R D k p p2 it2 :
  cache_ok s m R D → m !! k = Some p → R p + 1 < 2 ^ 15 → held s R p2 it2 → ITEM_key it2 = k →
  ∃ s' D' it', do_item_replace p p2 (hash k) s = Some (1, s') ∧
    cache_ok s' (<[k := p2]> m) R D' ∧ item_frame s s' ∧ l_cas_id (w_lru s') = cas_after s ∧
    csame_out (λ x, x = p ∨ x = p2) (w_heap s) (w_heap s') ∧ w_heap s' !! p2 = Some it' ∧
    ctl it' = ctl ((linked_hdr it2 (w_current_time s) (next_cas s)) <| i_refcount := i_refcount it2 + 1 |>).
Proof.
  intros Hok Hm HR Hh Hk. destruct (held_out _ _ _ _ _ _ Hok Hh) as (Hn & Hp0 & Hho). destruct Hh as (_ & Hp2 & _).
  destruct (do_item_replace_gen s m R D k p p2 it2 Hok Hm HR Hn Hp0 Hp2 Hho Hk) as (s' & D' & it' & ? & ? & ? & ? & ? & ? & ? & _).
  by exists s', D', it'.
Qed.

(** C29 (refinement). [do_item_replace] swaps the item of a key: the old item
    leaves the cache, the new one, which the caller holds, takes its place under
    the next CAS value. *)
Theorem do_item_replace_correct s m R D k p p2 it2 :
  cache_ok s m R D → m !! k = Some p → R p + 1 < 2 ^ 15 → held s R p2 it2 → ITEM_key it2 = k →
  ∃ s' D' it', do_item_replace p p2 (hash k) s = Some (1, s') ∧
    cache_ok s' (<[k := p2]> m) R D' ∧ l_cas_id (w_lru s') = cas_after s ∧
    csame_out (λ x, x = p ∨ x = p2) (w_heap s) (w_heap s') ∧
    w_heap s' !! p2 = Some it' ∧ i_data it' = i_data it2 ∧
    (flag (i_it_flags it2) ITEM_CAS = true → i_cas it' = next_cas s).
Proof.
  intros Hok Hm HR Hh Hk.
  destruct (do_item_replace_ok s m R D k p p2 it2 Hok Hm HR Hh Hk) as
    (s' & D' & it' & Hrun & Hok' & _ & Hcas & Hcs & Hp & Hct).
  pose proof (linked_hdr_values it2 (w_current_time s) (next_cas s)) as (_ & V2 & _).
  exists s', D', it'. split_and!; try done.
  - apply ctl_fields in Hct as (_ & _ & _ & _ & _ & _ & _ & _ & _ & _ & ->). exact V2.
  - intros Hfc. apply ctl_fields in Hct as (_ & _ & _ & _ & _ & _ & _ & _ & -> & _). simpl.
    unfold linked_hdr, ITEM_set_cas. simpl. by rewrite flag_lor, Hfc.
Qed.

(** C13 (functional). A lookup: with no entry the answer is NULL and nothing
    changes; an entry that was flushed or has expired is removed from the cache
    and counted, and the answer is NULL; any other entry is returned with one more
    reference (two if its move is pending in the bump buffer), its content and the
    map unchanged. *)
Theorem do_item_get_correct s m R D k do_update :
  cache_ok s m R D → (∀ p, m !! k = Some p → R p + 2 < 2 ^ 15) →
  ∃ res s' D', do_item_get k (Z.of_nat (length k)) (hash k) do_update s = Some (res, s') ∧
    match m !! k with
    | None => res = 0 ∧ s' = s
    | Some p => ∃ it, w_heap s !! p = Some it ∧ ITEM_key it = k ∧ p ≠ 0 ∧ got s s' m R D' k p it do_update res
    end.
Proof.
  intros Hok HR. destruct (m !! k) as [p|] eqn:Hm.
  - destruct (do_item_get_hit s m R D k p do_update Hok Hm (HR p eq_refl)) as
      (it & s' & D' & res & Hp & Hk & Hp0 & Hrun & Hg). exists res, s', D'. split; [done|]. by exists it.
  - exists 0, s, D. split; [by apply (do_item_get_miss s m R D)|done].
Qed.

(** C33 (invariant). Moving an item to the head of its queue, or from COLD to
    WARM, keeps the cache: the same map, references and item contents, every item
    in exactly one queue. *)
Theorem do_item_update_correct s m R D p :
  cache_ok s m R D → 0 < R p ∨ (∃ id, p ∈ D (LruQ id)) →
  ∃ s' D', do_item_update p s = Some (tt, s') ∧ cache_ok s' m R D' ∧ acc_frame s s' ∧
    csame_out (λ x, x = p) (w_heap s) (w_heap s') ∧ same_content s s' p.
Proof.
  intros Hok Hu. destruct (do_item_update_ok s m R D p Hok Hu) as (s' & D' & Hrun & [C F O P]).
  by exists s', D'.
Qed.
End Cache.

(** ** A small cache *)

#[local] Existing Instance jenkins_fn.

(** A server that holds nothing yet but items its callers are filling. *)
Lemma cache_start s R :
  slabs_ok s no_queues → assoc_rep s ∅ → lru_ok s no_queues →
  (∀ p, 0 ≤ R p < 2 ^ 15) →
  (∀ p, 0 < R p → p ≠ 0 ∧ ∃ it, w_heap s !! p = Some it ∧ held_ok s R p it) →
  st_curr_items (w_stats s) = 0 → l_stats_sizes_hist (w_lru s) = None →
  Z.of_nat (size (w_heap s)) < 2 ^ 31 →
  cache_ok s ∅ R no_queues.
Proof.
  intros Hs Ha Hl Hr Hh Hi Hhi Hsz. constructor; [done..| | | |done|done| |done].
  - intros id p Hp. by apply elem_of_nil in Hp.
  - intros k p Hp. by rewrite lookup_empty in Hp.
  - intros p Hp. right. destruct (Hh p Hp) as (? & ?). split_and!; [done| |done].
    intros q Hq. by apply elem_of_nil in Hq.
  - intros hist. by rewrite Hhi.
Qed.

(** Two values for the key "a", 96-byte items of class 1 with a CAS value. *)
Definition shop_item (data : list Z) : item :=
  zero_item <| i_nkey := 1 |> <| i_key := [97] |> <| i_it_flags := ITEM_CAS |> <| i_refcount := 1 |>
    <| i_slabs_clsid := 1 |> <| i_nbytes := Z.of_nat (length data) |> <| i_data := data |>.

Definition shop_world : world :=
  init_world <| w_heap := {[ 4096 := shop_item [49; 13; 10]; 4192 := shop_item [50; 13; 10] ]} |>.

Definition shop_refs : Z → Z := λ p, if (p =? 4096) || (p =? 4192) then 1 else 0.

Lemma slabs_ok_no_queues_heap s h : slabs_ok s no_queues → slabs_ok (s <| w_heap := h |>) no_queues.
Proof.
  intros [? ? ? ? ?]. constructor; try done; [apply no_queues_ok|]. intros id p Hp. by apply elem_of_nil in Hp.
Qed.

Lemma shop_item_held R p data : R p = 1 → held_ok shop_world R p (shop_item data).
Proof.
  intros HR. unfold held_ok, item_ok, key_ok.
  change (m_power_largest (w_slabs shop_world)) with (m_power_largest (w_slabs init_world)).
  rewrite init_largest, HR. cbn. split_and!; try done; lia.
Qed.

Lemma shop_lru : w_lru shop_world = w_lru boot_world.
Proof. vm_compute. reflexivity. Qed.

Lemma shop_ok : cache_ok shop_world ∅ shop_refs no_queues.
Proof.
  apply cache_start.
  - apply slabs_ok_no_queues_heap, init_ok.
  - apply assoc_rep_empty; vm_compute; [discriminate|reflexivity|reflexivity].
  - intros id. rewrite shop_lru. by split_and!.
  - intros p. unfold shop_refs. destruct (_ || _); lia.
  - intros p Hp. unfold shop_refs in Hp. destruct (decide (p = 4096)) as [E|E].
    + subst p. split; [lia|]. exists (shop_item [49; 13; 10]). split; [reflexivity|by apply shop_item_held].
    + apply Z.eqb_neq in E. rewrite E in Hp. destruct (decide (p = 4192)) as [E'|E'].
      2:{ apply Z.eqb_neq in E'. rewrite E' in Hp. simpl in Hp. lia. }
      subst p. split; [lia|]. exists (shop_item [50; 13; 10]). split; [reflexivity|by apply shop_item_held].
  - vm_compute. reflexivity.
  - by rewrite shop_lru.
  - vm_compute. reflexivity.
Qed.

Lemma shop_held : held shop_world shop_refs 4096 (shop_item [49; 13; 10]).
Proof. split_and!; vm_compute; reflexivity. Qed.

(** The first value linked. *)
Definition shop_linked : world :=
  match do_item_link 4096 (hash [97]) shop_world with Some (_, s) => s | None => shop_world end.

Lemma shop_linked_ok :
  ∃ D, cache_ok shop_linked {[ [97] := 4096 ]} shop_refs D ∧
    csame_out (λ x, x = 4096) (w_heap shop_world) (w_heap shop_linked).
Proof.
  destruct (held_out _ _ _ _ _ _ shop_ok shop_held) as (Hn & Hp0 & Hho).
  destruct (do_item_link_ok shop_world ∅ shop_refs no_queues 4096 (shop_item [49; 13; 10])
    shop_ok Hn Hp0 (proj1 (proj2 shop_held)) Hho (lookup_empty _)) as
    (s' & D' & it' & Hrun & Hok & _ & _ & Hcs & _).
  change (ITEM_key (shop_item [49; 13; 10])) with [97] in Hrun, Hok.
  assert (E : shop_linked = s') by (unfold shop_linked; rewrite Hrun; reflexivity).
  rewrite E. exists D'. split; [exact Hok|exact Hcs].
Qed.

Lemma shop_held2 : held shop_linked shop_refs 4192 (default zero_item (w_heap shop_linked !! 4192)).
Proof. split_and!; vm_compute; reflexivity. Qed.



Lemma do_item_remove_correct_witness :
  ∃ s' D', do_item_remove 4096 shop_world = Some (tt, s') ∧
    cache_ok s' ∅ (upd shop_refs 4096 (shop_refs 4096 - 1)) D' ∧
    (∀ id, D' (LruQ id) = no_queues (LruQ id)) ∧ csame_out (λ x, x = 4096) (w_heap shop_world) (w_heap s') ∧
    ((∃ id, 4096 ∈ D' (FreeQ id)) ↔ shop_refs 4096 = 1 ∧ ∀ id, 4096 ∉ no_queues (LruQ id)).
Proof. apply (do_item_remove_correct shop_world ∅ shop_refs no_queues 4096); [exact shop_ok|reflexivity]. Defined.

Lemma do_item_replace_correct_witness :
  ∃ s' D' it', do_item_replace 4096 4192 (hash [97]) shop_linked = Some (1, s') ∧
    cache_ok s' (<[[97] := 4192]> {[ [97] := 4096 ]}) shop_refs D' ∧ l_cas_id (w_lru s') = cas_after shop_linked ∧
    csame_out (λ x, x = 4096 ∨ x = 4192) (w_heap shop_linked) (w_heap s') ∧
    w_heap s' !! 4192 = Some it' ∧ i_data it' = i_data (default zero_item (w_heap shop_linked !! 4192)) ∧
    (flag (i_it_flags (default zero_item (w_heap shop_linked !! 4192))) ITEM_CAS = true →
       i_cas it' = next_cas shop_linked).
Proof.
  destruct shop_linked_ok as (D & Hok & _).
  apply (do_item_replace_correct shop_linked {[ [97] := 4096 ]} shop_refs D [97] 4096 4192
    (default zero_item (w_heap shop_linked !! 4192))).
  - exact Hok.
  - reflexivity.
  - reflexivity.
  - exact shop_held2.
  - vm_compute. reflexivity.
Defined.

Lemma do_item_get_correct_witness :
  ∃ D res s' D', do_item_get [97] 1 (hash [97]) true shop_linked = Some (res, s') ∧
    ∃ it, w_heap shop_linked !! 4096 = Some it ∧ ITEM_key it = [97] ∧ 4096 ≠ 0 ∧
      got shop_linked s' {[ [97] := 4096 ]} shop_refs D' [97] 4096 it true res ∧
      cache_ok shop_linked {[ [97] := 4096 ]} shop_refs D.
Proof.
  destruct shop_linked_ok as (D & Hok & _).
  destruct (do_item_get_correct shop_linked {[ [97] := 4096 ]} shop_refs D [97] true) as
    (res & s' & D' & Hrun & it & Hp & Hk & H0 & Hg).
  - exact Hok.
  - intros p H. rewrite lookup_singleton_eq in H. injection H as <-. reflexivity.
  - exists D, res, s', D'. split; [exact Hrun|]. exists it. by split_and!.
Defined.

Lemma do_item_update_correct_witness :
  ∃ s' D', do_item_update 4096 shop_linked = Some (tt, s') ∧
    cache_ok s' {[ [97] := 4096 ]} shop_refs D' ∧ acc_frame shop_linked s' ∧
    csame_out (λ x, x = 4096) (w_heap shop_linked) (w_heap s') ∧ same_content shop_linked s' 4096.
Proof.
  destruct shop_linked_ok as (D & Hok & _).
  apply (do_item_update_correct shop_linked {[ [97] := 4096 ]} shop_refs D 4096 Hok). left. reflexivity.
Defined.
