(* ===== verification/ItemsPull.v ===== *)
(** * Pulling from the tails of the LRU queues

    [lru_pull_tail] against the abstract cache: what it may remove, what it must
    keep, and that it always comes to an end. *)

From S2P Require Import Prelude Bipbuf Hashes State Links Queues Assoc AssocSpec AssocThm Slabs SlabsSpec Items ItemsSpec ItemsAccess.

Section Pull.
Context {HF : HashFn}.
Implicit Types (s : world) (m : gmap (list Z) Z) (R : Z → Z) (D : queues) (p : Z) (ev : list (list Z)).

(** ** What happens to an item that is not removed *)

(** Everything but the links, the reference count, the queue and the flags for
    linking and access. *)
Definition val (it : item) : Z * list Z * Z * Z * Z * Z * Z * list Z * Z * Z :=
  (i_nkey it, i_key it, i_nbytes it, i_time it, i_exptime it, i_cas it, i_cflags it, i_data it, ITEM_clsid it,
   clear (i_it_flags it) (Z.lor ITEM_LINKED (Z.lor ITEM_ACTIVE ITEM_FETCHED))).

(** Everything but the links and the reference count. *)
Definition hctl (it : item) : item := ctl (it <| i_refcount := 0 |>).

Lemma hctl_ctl it it' : ctl it' = ctl it → hctl it' = hctl it.
Proof.
  intros H. unfold hctl. change (ctl (it' <| i_refcount := 0 |>)) with ((ctl it') <| i_refcount := 0 |>).
  by rewrite H.
Qed.

Lemma fmap_hctl (a b : option item) : ctl <$> a = ctl <$> b → hctl <$> a = hctl <$> b.
Proof.
  destruct a, b; simpl; intros H; try done. apply (inj Some) in H. f_equal. by apply hctl_ctl.
Qed.

Lemma val_hctl it it' : hctl it' = hctl it → val it' = val it.
Proof.
  unfold hctl. intros (E1 & _ & E3 & E4 & E5 & E6 & E7 & E8 & E9 & E10 & E11)%ctl_fields. simpl in *.
  unfold val, ITEM_clsid. by rewrite E1, E3, E4, E5, E6, E7, E8, E9, E10, E11.
Qed.

Lemma val_ctl it it' : ctl it' = ctl it → val it' = val it.
Proof. intros H. by apply val_hctl, hctl_ctl. Qed.

(** The item is dead: flushed, or past its expiration time. *)
Definition stale s (it : item) : bool :=
  (negb (i_exptime it =? 0) && (i_exptime it <? w_current_time s)) || flushed s it.

Lemma stale_val s s' it it' :
  w_settings s' = w_settings s → w_current_time s' = w_current_time s → val it' = val it →
  stale s' it' = stale s it.
Proof.
  intros E1 E2 E. unfold val in E. injection E as _ _ _ E3 E4 E5 _ _ _ E6.
  unfold stale, flushed, ITEM_get_cas. rewrite E1, E2, E3, E4, E5.
  assert (flag (i_it_flags it') ITEM_CAS = flag (i_it_flags it) ITEM_CAS) as ->; [|done].
  eapply flag_masked; [exact E6|done].
Qed.

(** ** One step *)

(** The parts of the state no step touches. *)
Record pull_frame s s' : Prop := {
  pf_settings : w_settings s' = w_settings s;
  pf_time : w_current_time s' = w_current_time s;
  pf_hp : w_item_lock_hashpower s' = w_item_lock_hashpower s;
  pf_conn : w_conn s' = w_conn s;
  pf_tstats : w_tstats s' = w_tstats s;
  pf_bump : w_bump s' = w_bump s;
  pf_cas : l_cas_id (w_lru s') = l_cas_id (w_lru s)
}.

Lemma pull_frame_refl s : pull_frame s s.
Proof. by constructor. Qed.
Lemma pull_frame_trans s1 s2 s3 : pull_frame s1 s2 → pull_frame s2 s3 → pull_frame s1 s3.
Proof. intros [] []. constructor; congruence. Qed.

(** An address the allocator may take its next page from. *)
Definition spare s (x : Z) : Prop :=
  x ∈ p_slab_list (slabcls s SLAB_GLOBAL_PAGE_POOL) ∨ x ∈ w_malloc s ∨
  m_mem_base (w_slabs s) ≠ NULL ∧ x = m_mem_current (w_slabs s).

(** The page lists have room to grow. *)
Definition room s (id : Z) : Prop := p_slabs (slabcls s id) < 2 ^ 29 ∧ p_list_size (slabcls s id) < 2 ^ 30.

(** The memory for new pages is what it was: no page came in use. *)
Record pages_keep s s' : Prop := {
  pk_spare : ∀ x, spare s' x → spare s x;
  pk_pool : ∀ x, x ∈ p_slab_list (slabcls s' SLAB_GLOBAL_PAGE_POOL) → x ∈ p_slab_list (slabcls s SLAB_GLOBAL_PAGE_POOL);
  pk_map : ∀ x n, mapped_range s x n = true → mapped_range s' x n = true;
  pk_base : m_mem_base (w_slabs s') = m_mem_base (w_slabs s);
  pk_current : m_mem_current (w_slabs s') = m_mem_current (w_slabs s);
  pk_avail : m_mem_avail (w_slabs s') = m_mem_avail (w_slabs s);
  pk_largest : m_power_largest (w_slabs s') = m_power_largest (w_slabs s);
  pk_geom : ∀ x, p_size (slabcls s' x) = p_size (slabcls s x) ∧ p_perslab (slabcls s' x) = p_perslab (slabcls s x);
  pk_room : ∀ x, room s x → room s' x;
  pk_dom : dom (w_heap s') = dom (w_heap s)
}.

Lemma pages_keep_trans s1 s2 s3 : pages_keep s1 s2 → pages_keep s2 s3 → pages_keep s1 s3.
Proof.
  intros [] []. constructor; eauto; try congruence. intros x. destruct (pk_geom0 x), (pk_geom1 x). split; congruence.
Qed.

Lemma same_pages_keep s s' :
  same_pages (w_slabs s) (w_slabs s') → w_regions s' = w_regions s → w_malloc s' = w_malloc s →
  dom (w_heap s') = dom (w_heap s) → pages_keep s s'.
Proof.
  intros [E F] Er Em Ed.
  assert (G : ∀ x, p_size (slabcls s' x) = p_size (slabcls s x) ∧ p_perslab (slabcls s' x) = p_perslab (slabcls s x) ∧
    p_slabs (slabcls s' x) = p_slabs (slabcls s x) ∧ p_list_size (slabcls s' x) = p_list_size (slabcls s x) ∧
    p_slab_list (slabcls s' x) = p_slab_list (slabcls s x)).
  { intros x. pose proof (F x) as Fx. destruct (slabcls s' x), (slabcls s x). simpl in *. by injection Fx. }
  constructor; try (rewrite <- E; done).
  - intros x. unfold spare. destruct (G SLAB_GLOBAL_PAGE_POOL) as (_ & _ & _ & _ & ->). rewrite Em. rewrite <- E. done.
  - intros x. by destruct (G SLAB_GLOBAL_PAGE_POOL) as (_ & _ & _ & _ & ->).
  - intros x n. unfold mapped_range. by rewrite Er.
  - intros x. destruct (G x) as (? & ? & _). done.
  - intros x. unfold room. by destruct (G x) as (_ & _ & -> & -> & _).
  - done.
Qed.

Lemma pages_keep_refl s : pages_keep s s.
Proof. by apply same_pages_keep; [apply same_pages_refl|..]. Qed.

Lemma csame_dom p (h h' : gmap Z item) :
  csame_out (λ x, x = p) h h' → is_Some (h !! p) → is_Some (h' !! p) → dom h' = dom h.
Proof.
  intros Hc H1 H2. apply set_eq. intros x. rewrite !elem_of_dom. destruct (decide (x = p)) as [->|Hne]; [tauto|].
  specialize (Hc x Hne). destruct (h' !! x), (h !! x); simpl in Hc; try done; split; intros [? ?]; eauto; done.
Qed.

(** From the cache [m], [R], [D] to [m'], [R'], [D']: entries are only lost when
    they are stale or listed in [ev]; what stays is unchanged. *)
Record pulled s m R D s' m' R' D' ev : Prop := {
  pu_ok : cache_ok s' m' R' D';
  pu_frame : pull_frame s s';
  pu_sub : m' ⊆ m;
  pu_lost : ∀ k p it, m !! k = Some p → m' !! k = None → w_heap s !! p = Some it → stale s it = true ∨ k ∈ ev;
  pu_vals : ∀ p it, w_heap s !! p = Some it → (0 < R' p ∨ ∃ k, m' !! k = Some p) →
    ∃ it', w_heap s' !! p = Some it' ∧ val it' = val it;
  pu_held : ∀ p, 0 < R' p → (∀ k, m !! k ≠ Some p) → hctl <$> w_heap s' !! p = hctl <$> w_heap s !! p;
  pu_refs : ∀ p, 0 < R' p → 0 < R p ∨ ∃ k, m !! k = Some p;
  pu_pages : pages_keep s s';
  pu_members : ∀ q x, x ∈ D' q → (∃ q', x ∈ D q') ∨ 0 < R x
}.

Lemma cache_entry s m R D k p : cache_ok s m R D → m !! k = Some p →
  ∃ it id, w_heap s !! p = Some it ∧ ITEM_key it = k ∧ p ∈ D (LruQ id) ∧ queued_ok s m R id p it.
Proof.
  intros Hok Hm. destruct (co_mapped _ _ _ _ Hok k p Hm) as [id Hin].
  destruct (co_queued _ _ _ _ Hok id p Hin) as (it & Hp & Hq). exists it, id. split_and!; try done.
  apply (assoc_rep_key _ _ _ _ (co_assoc _ _ _ _ Hok)) in Hm. unfold key_of in Hm. rewrite Hp in Hm.
  simpl in Hm. congruence.
Qed.

Lemma pulled_refl s m R D : cache_ok s m R D → pulled s m R D s m R D [].
Proof. intros Hok. constructor; eauto using pull_frame_refl, pages_keep_refl. congruence. Qed.

Lemma pulled_trans s1 m1 R1 D1 s2 m2 R2 D2 s3 m3 R3 D3 ev ev' :
  cache_ok s1 m1 R1 D1 →
  pulled s1 m1 R1 D1 s2 m2 R2 D2 ev → pulled s2 m2 R2 D2 s3 m3 R3 D3 ev' → pulled s1 m1 R1 D1 s3 m3 R3 D3 (ev ++ ev').
Proof.
  intros Hok [A1 A2 A3 A4 A5 A6 A7 A8 A9] [B1 B2 B3 B4 B5 B6 B7 B8 B9].
  assert (Hprev : ∀ p, 0 < R3 p ∨ (∃ k, m3 !! k = Some p) → 0 < R2 p ∨ ∃ k, m2 !! k = Some p).
  { intros p [H|[k H]]; [by apply B7|right]. exists k. by eapply lookup_weaken. }
  constructor.
  - done.
  - by eapply pull_frame_trans.
  - by etrans.
  - intros k p it Hk Hn Hp. destruct (m2 !! k) as [p2|] eqn:E2.
    + assert (p2 = p) as -> by (eapply lookup_weaken in A3; [|exact E2]; congruence).
      destruct (A5 p it Hp) as (it2 & Hp2 & Hv); [right; by exists k|].
      destruct (B4 k p it2 E2 Hn Hp2) as [Hst|?]; [left|right; set_solver].
      by rewrite <- Hst; symmetry; apply stale_val; [apply A2|apply A2|].
    + destruct (A4 k p it Hk E2 Hp) as [?|?]; [by left|right; set_solver].
  - intros p it Hp H. destruct (A5 p it Hp (Hprev p H)) as (it2 & Hp2 & E2).
    destruct (B5 p it2 Hp2 H) as (it3 & Hp3 & E3). exists it3. by rewrite E3.
  - intros p H Hn. assert (Hn2 : ∀ k, m2 !! k ≠ Some p) by (intros k Hk; by apply (Hn k), (lookup_weaken m2)).
    rewrite B6 by done. apply A6; [|done]. by destruct (B7 p H) as [?|[k Hk]]; [|destruct (Hn2 k)].
  - intros p H. destruct (B7 p H) as [?|[k Hk]]; [by apply A7|right; exists k; by eapply lookup_weaken].
  - by eapply pages_keep_trans.
  - intros q x Hx. destruct (B9 q x Hx) as [[q' Hq']|H2]; [by apply (A9 q')|].
    destruct (A7 x H2) as [?|[k Hk]]; [by right|left]. destruct (co_mapped _ _ _ _ Hok k x Hk) as [id ?]. eauto.
Qed.

(** A step that works on the item [p]: no other entry is touched. *)
Record pull_step p s m R D s' m' R' D' ev : Prop := {
  ps_pulled : pulled s m R D s' m' R' D' ev;
  ps_others : csame_out (λ x, x = p) (w_heap s) (w_heap s');
  ps_keep : ∀ k x, x ≠ p → m !! k = Some x → m' !! k = Some x
}.

Lemma pull_step_trans p s1 m1 R1 D1 s2 m2 R2 D2 s3 m3 R3 D3 ev ev' :
  cache_ok s1 m1 R1 D1 →
  pull_step p s1 m1 R1 D1 s2 m2 R2 D2 ev → pull_step p s2 m2 R2 D2 s3 m3 R3 D3 ev' →
  pull_step p s1 m1 R1 D1 s3 m3 R3 D3 (ev ++ ev').
Proof.
  intros Hok [A1 A2 A3] [B1 B2 B3]. constructor; [by eapply pulled_trans|by eapply csame_out_trans|auto].
Qed.

Lemma pull_step_ok p s m R D s' m' R' D' ev : pull_step p s m R D s' m' R' D' ev → cache_ok s' m' R' D'.
Proof. intros H. apply H. Qed.

(** ** The steps *)

(** Counters, locks and the records of other modules. *)
Lemma same_step p s s' m R D :
  cache_ok s m R D → pull_frame s s' → w_heap s' = w_heap s → w_assoc s' = w_assoc s → w_slabs s' = w_slabs s →
  w_stats s' = w_stats s → w_regions s' = w_regions s → w_malloc s' = w_malloc s →
  (∃ i, w_lru s' = (w_lru s) <| l_itemstats := i |>) →
  pull_step p s m R D s' m R D [].
Proof.
  intros Hok Hf E1 E2 E3 E4 E6 E7 [i E5]. constructor; [|by rewrite E1|done].
  assert (cache_ok s' m R D).
  { apply (cache_ok_same s); rewrite ?E4, ?E5; try done. }
  constructor; rewrite ?E1; eauto; [congruence|]. apply same_pages_keep; rewrite ?E1, ?E3; auto using same_pages_refl.
Qed.

Lemma stat_step p s m R D id f :
  cache_ok s m R D →
  ∃ s', bump_stat id f s = Some (tt, s') ∧ w_heap s' = w_heap s ∧ w_locks s' = w_locks s ∧
    pull_step p s m R D s' m R D [].
Proof.
  intros Hok. eexists. split; [reflexivity|]. split; [done|]. split; [done|].
  apply same_step; try done. by eexists.
Qed.

Lemma incr_step s m R D p :
  cache_ok s m R D → in_use R D p → R p + 1 < 2 ^ 15 →
  ∃ it rc s', w_heap s !! p = Some it ∧ refcount_incr p s = Some (rc, s') ∧ rc = i_refcount it + 1 ∧
    w_heap s' !! p = Some (it <| i_refcount := rc |>) ∧ w_locks s' = w_locks s ∧
    pull_step p s m R D s' m (upd R p (R p + 1)) D [].
Proof.
  intros Hok Hu HR. destruct (refcount_incr_ok s m R D p Hok Hu HR) as (it & rc & Hp & Hrun & Erc & Hok').
  eexists it, rc, _. split; [done|]. split; [exact Hrun|]. split; [done|]. split; [apply lookup_insert_eq|].
  split; [done|].
  constructor; [|by apply csame_out_insert|done].
  assert (Hpk : pages_keep s (s <| w_heap := <[p := it <| i_refcount := rc |>]> (w_heap s) |>)).
  { apply same_pages_keep; try done; [apply same_pages_refl|]. apply dom_insert_lookup_L. by eexists. }
  constructor; simpl; eauto.
  - by constructor.
  - congruence.
  - intros x ix Hx _. destruct (decide (x = p)) as [->|Hne]; [|rewrite lookup_insert_ne; eauto].
    rewrite lookup_insert_eq. rewrite Hp in Hx. apply (inj Some) in Hx. subst ix. by eexists.
  - intros x _ _. destruct (decide (x = p)) as [->|Hne]; [|by rewrite lookup_insert_ne].
    rewrite lookup_insert_eq, Hp. done.
  - intros x Hx. destruct (decide (x = p)) as [->|Hne]; [|left; by rewrite upd_ne in Hx].
    destruct Hu as [?|[id Hid]]; [by left|right].
    destruct (co_queued _ _ _ _ Hok id p Hid) as (ix & _ & _ & _ & _ & _ & Hm). eauto.
Qed.

(** The flags for access of a linked item. *)
Lemma flags_step s m R D p f k :
  cache_ok s m R D → m !! k = Some p → (∀ it, mild it (f it)) →
  (∀ it, i_exptime (f it) = i_exptime it ∧ i_time (f it) = i_time it) →
  ∃ it s', w_heap s !! p = Some it ∧ wr p f s = Some (tt, s') ∧ w_heap s' !! p = Some (f it) ∧
    w_locks s' = w_locks s ∧ pull_step p s m R D s' m R D [].
Proof.
  intros Hok Hm Hf Ht. destruct (co_mapped _ _ _ _ Hok k p Hm) as [id Hid].
  destruct (wr_mild_ok s m R D p f Hok) as (it & Hp & Hwr & Hok'); [right; eauto|done|].
  eexists it, _. split; [done|]. split; [exact Hwr|]. split; [apply lookup_insert_eq|]. split; [done|].
  constructor; [|by apply csame_out_insert|done].
  assert (Hpk : pages_keep s (s <| w_heap := <[p := f it]> (w_heap s) |>)).
  { apply same_pages_keep; try done; [apply same_pages_refl|]. apply dom_insert_lookup_L. by eexists. }
  constructor; simpl; eauto.
  - by constructor.
  - congruence.
  - intros x ix Hx _. destruct (decide (x = p)) as [->|Hne]; [|rewrite lookup_insert_ne; eauto].
    rewrite lookup_insert_eq. rewrite Hp in Hx. apply (inj Some) in Hx. subst ix.
    exists (f it). split; [done|]. destruct (Hf it) as (t & e & fl & E & Hfl).
    destruct (Ht it) as [He Hti]. rewrite E in He, Hti |- *. simpl in He, Hti. unfold val, ITEM_clsid. simpl.
    rewrite He, Hti. f_equal. unfold clear in *.
    rewrite (Z.lor_comm ITEM_LINKED), <- !(Z.ldiff_ldiff_l _ (Z.lor ITEM_ACTIVE ITEM_FETCHED)). by rewrite Hfl.
  - intros x _ Hn. destruct (decide (x = p)) as [->|Hne]; [by destruct (Hn k)|by rewrite lookup_insert_ne].
Qed.

(** Out of one queue and to the head of another. *)
Lemma requeue_step s m R D p k it :
  cache_ok s m R D → m !! k = Some p → w_heap s !! p = Some it →
  ∃ s1, do_item_unlink_q p s = Some (tt, s1) ∧ w_heap s1 !! p = Some it ∧
    (∃ h1 l1, s1 = s <| w_heap := h1 |> <| w_lru := l1 |>) ∧
    ∀ it2, moved it it2 → item_ok (m_power_largest (w_slabs s)) it2 → val it2 = val it →
    ∃ s3 D', do_item_link_q p (s1 <| w_heap := <[p := it2]> (w_heap s1) |>) = Some (tt, s3) ∧
      w_locks s3 = w_locks s ∧ pull_step p s m R D s3 m R D' [].
Proof.
  intros Hok Hm Hp. destruct (cache_entry _ _ _ _ _ _ Hok Hm) as (it0 & id & Hp' & _ & Hin & _ & Hcl & _).
  rewrite Hp in Hp'. apply (inj Some) in Hp'. subst it0. rewrite <- Hcl in Hin.
  destruct (requeue_ok s m R D p it Hok Hin Hp) as (h1 & l1 & Hun & Hp1 & Hre).
  eexists. split; [exact Hun|]. split; [done|]. split; [by eexists _, _|]. intros it2 Hmv Hio Hv.
  destruct (Hre it2 Hmv Hio) as (s3 & D' & it3 & Hli & Hok3 & Hlo & Hlf & Hcs & Hp3 & Hct & _ & Hmem).
  exists s3, D'. split; [exact Hli|]. unfold lru_only in Hlo. split; [by rewrite Hlo|].
  constructor; [|done|done].
  constructor; eauto.
  - constructor; try (by rewrite Hlo). exact (proj2 (lru_only_acc _ _ Hlo Hlf)).
  - congruence.
  - intros x ix Hx _. destruct (decide (x = p)) as [->|Hne].
    + exists it3. split; [done|]. rewrite Hp in Hx. apply (inj Some) in Hx. subst ix.
      by rewrite (val_ctl _ _ Hct).
    + destruct (csame_lookup _ _ _ x ix Hcs Hne Hx) as (ix' & Hix' & Hc). exists ix'. by rewrite (val_ctl _ _ Hc).
  - intros x _ Hn. assert (x ≠ p) as Hne by (intros ->; by destruct (Hn k)).
    by apply fmap_hctl, Hcs.
  - apply same_pages_keep; [rewrite Hlo; apply same_pages_refl|by rewrite Hlo..|].
    eapply csame_dom; [exact Hcs|by eexists..].
Qed.

(** Unlinking an item the walk holds a reference to. *)
Lemma unlink_step s m R D k p it :
  cache_ok s m R D → m !! k = Some p → w_heap s !! p = Some it → 0 < R p → R p + 1 < 2 ^ 15 →
  ∃ s' D' it' ev, do_item_unlink p (hash k) s = Some (tt, s') ∧ w_locks s' = w_locks s ∧
    ev = (if stale s it then [] else [k]) ∧ w_heap s' !! p = Some it' ∧ val it' = val it ∧
    (∀ q, p ∉ D' q) ∧ kept s D s' D' p ∧ pull_step p s m R D s' (delete k m) R D' ev.
Proof.
  intros Hok Hm Hp HR Hmax.
  destruct (unlink_steps_ok s m R D k p Hok Hm Hmax) as
    (s1 & D1 & Hrun & Hok1 & Hfr1 & Hcas1 & Hcs1 & Hn1 & (it0 & it1 & Hp' & Hp1 & Hct) & Hsl1 & Hsub1 & Hfq1).
  rewrite Hp in Hp'. apply (inj Some) in Hp'. subst it0.
  destruct (do_item_remove_ok s1 (delete k m) _ D1 p Hok1) as
    (s2 & D2 & Hrem & Hok2 & Hfr2 & Hlru2 & Hcs2 & _ & Hkp & Hhd); [rewrite upd_eq; lia|].
  specialize (Hhd it1 ltac:(left; rewrite upd_eq; lia) Hp1).
  destruct (cache_entry _ _ _ _ _ _ Hok Hm) as (it0 & id & Hp' & Hk & Hin & _ & _ & Hfl & _).
  rewrite Hp in Hp'. apply (inj Some) in Hp'. subst it0.
  apply (cache_ok_R _ _ _ R) in Hok2.
  2:{ intros x. rewrite upd_eq. unfold upd. destruct (Z.eqb_spec x p) as [->|]; [lia|done]. }
  assert (Hv : val (it1 <| i_refcount := i_refcount it1 - 1 |>) = val it).
  { change (val it1 = val it). rewrite (val_ctl _ _ Hct). unfold val. simpl. f_equal. by apply clear_clear_sub. }
  assert (Hcs : csame_out (λ x, x = p) (w_heap s) (w_heap s2)) by by eapply csame_out_trans.
  assert (Hout : ∀ q, p ∉ D2 q).
  { intros q Hq. destruct (co_held _ _ _ _ Hok2 p HR) as [[i Hi]|(_ & Hno & _)]; [|by apply (Hno q)].
    rewrite Hlru2 in Hi. by apply (Hn1 (LruQ i)). }
  exists s2, D2, (it1 <| i_refcount := i_refcount it1 - 1 |>), (if stale s it then [] else [k]).
  split. { rewrite (do_item_unlink_steps _ _ _ it) by done. by rewrite (bind_run _ _ _ _ _ Hrun). }
  split. { rewrite Hfr2. simpl. by rewrite Hfr1. }
  do 4 (split; [done|]).
  split. { destruct Hkp as [Kp Km Kf]. split; [by rewrite <- Hsl1| |].
    - intros q x Hx. destruct (Km q x Hx) as [?|[q' ?]]; eauto.
    - intros i x Hx. rewrite (Kf i x Hx), Hfq1. done. }
  constructor; [|done|].
  2:{ intros k' x Hne Hk'. rewrite lookup_delete_ne; [done|]. intros ->. congruence. }
  constructor; try done.
  - unfold item_frame in Hfr1. constructor; rewrite Hfr2; simpl; by rewrite Hfr1.
  - apply delete_subseteq.
  - intros k' x ix Hk' Hn Hx. destruct (decide (k' = k)) as [->|]; [|by rewrite lookup_delete_ne in Hn; congruence].
    assert (ix = it) as -> by congruence. destruct (stale s it); [by left|right; set_solver].
  - intros x ix Hx _. destruct (decide (x = p)) as [->|Hne].
    + rewrite Hp in Hx. apply (inj Some) in Hx. subst ix. eauto.
    + destruct (csame_lookup _ _ _ x ix Hcs Hne Hx) as (ix' & Hix' & Hc). exists ix'. by rewrite (val_ctl _ _ Hc).
  - intros x _ Hn. assert (x ≠ p) as Hne by (intros ->; by destruct (Hn k)). by apply fmap_hctl, Hcs.
  - auto.
  - unfold item_frame in Hfr1. apply same_pages_keep; [rewrite <- Hsl1; apply Hkp|rewrite Hfr2; simpl; by rewrite Hfr1..|].
    eapply csame_dom; [exact Hcs|by eexists..].
  - intros q x Hx. destruct (kp_members _ _ _ _ _ Hkp q x Hx) as [->|[q' Hq']]; [by left; exists (LruQ id)|left; eauto].
Qed.

(** Dropping the reference of the walk. *)
Lemma remove_step s m R D p it :
  cache_ok s m R D → 0 < R p → w_heap s !! p = Some it →
  ∃ s' D', do_item_remove p s = Some (tt, s') ∧ w_locks s' = w_locks s ∧
    pull_step p s m R D s' m (upd R p (R p - 1)) D' [].
Proof.
  intros Hok HR Hp. destruct (do_item_remove_ok s m R D p Hok HR) as
    (s' & D' & Hrun & Hok' & Hfr & Hlru & Hcs & Hfree & Hkp & Hhd).
  assert (Hdom : dom (w_heap s') = dom (w_heap s)).
  { apply (csame_dom p); [done|by eexists|]. destruct (decide (R p = 1)) as [E|E].
    - destruct (flag (i_it_flags it) ITEM_LINKED) eqn:Hl.
      + destruct (linked_in_queue _ _ _ _ _ _ Hok (or_introl HR) Hp Hl) as [Hin _]. rewrite (Hhd it); eauto.
      + destruct (Hfree E) as [id Hid].
        { intros id Hid. destruct (co_queued _ _ _ _ Hok id p Hid) as (? & ? & _ & _ & ? & _). congruence. }
        destruct (so_free _ _ (co_slabs _ _ _ _ Hok') id p Hid) as (_ & ? & -> & _). eauto.
    - rewrite (Hhd it); [eauto|left; lia|done]. }
  exists s', D'. split; [done|]. unfold mem_frame in Hfr. split; [by rewrite Hfr|].
  constructor; [|done|done].
  assert (Hv : ∀ x ix, w_heap s !! x = Some ix → 0 < upd R p (R p - 1) x ∨ (∃ k, m !! k = Some x) →
    ∃ ix', w_heap s' !! x = Some ix' ∧ hctl ix' = hctl ix).
  { intros x ix Hx H. destruct (decide (x = p)) as [->|Hne].
    - rewrite Hp in Hx. apply (inj Some) in Hx. subst ix. eexists. split; [apply (Hhd it); [|done]|done].
      rewrite upd_eq in H. destruct H as [?|[k Hk]]; [left; lia|right]. by apply (co_mapped _ _ _ _ Hok k).
    - destruct (csame_lookup _ _ _ x ix Hcs Hne Hx) as (ix' & Hix' & Hc). exists ix'. by rewrite (hctl_ctl _ _ Hc). }
  constructor; try done.
  - constructor; by rewrite Hfr.
  - congruence.
  - intros x ix Hx H. destruct (Hv x ix Hx H) as (ix' & ? & ?). exists ix'. split; [done|]. by apply val_hctl.
  - intros x H Hn. assert (Hx : 0 < R x) by (destruct (decide (x = p)) as [->|]; [done|by rewrite upd_ne in H]).
    destruct (cache_usable _ _ _ _ x Hok) as (ix & [Hix _] & _); [by left|].
    destruct (Hv x ix Hix) as (ix' & E1 & E2); [by left|]. rewrite E1, Hix. simpl. by rewrite E2.
  - intros x H. left. destruct (decide (x = p)) as [->|]; [done|by rewrite upd_ne in H].
  - apply same_pages_keep; [apply Hkp|by rewrite Hfr..|done].
  - intros q x Hx. destruct (kp_members _ _ _ _ _ Hkp q x Hx) as [->|?]; [by right|by left].
Qed.

Lemma nolock_eq p hv : do_item_unlink_nolock p hv = do_item_unlink p hv.
Proof. reflexivity. Qed.

Lemma storage_step p s m R D it :
  cache_ok s m R D → w_heap s !! p = Some it →
  ∃ s', storage_delete p s = Some (tt, s') ∧ w_heap s' = w_heap s ∧ w_locks s' = w_locks s ∧
    w_settings s' = w_settings s ∧ pull_step p s m R D s' m R D [].
Proof.
  intros Hok Hp. destruct (storage_delete_run s p it Hp) as (e & Hst & _).
  eexists. split; [exact Hst|]. do 3 (split; [done|]). apply same_step; try done. exists (l_itemstats (w_lru s)). simpl. by destruct (w_lru s).
Qed.

Lemma unlock_step p s m R D hold :
  cache_ok s m R D → pull_step p s m R D (s <| w_locks := w_locks s ∖ {[hold]} |>) m R D [].
Proof. intros Hok. apply same_step; try done. exists (l_itemstats (w_lru s)). simpl. by destruct (w_lru s). Qed.

(** ** The branches of the walk *)

(** The move to another queue after the walk. *)
Definition relink p mv : M world unit :=
  when (negb (mv =? 0)) (wr p (λ x, x <| i_slabs_clsid := Z.lor (ITEM_clsid x) mv |>) ;; item_link_q p).

Definition lru_bits (mv : Z) : Prop := Z.ldiff mv (Z.shiftl 3 6) = 0.

Lemma relink_facts pl it mv :
  item_ok pl it → flag (i_it_flags it) ITEM_LINKED = true → lru_bits mv →
  let it2 := it <| i_slabs_clsid := Z.lor (ITEM_clsid it) mv |> in
  moved it it2 ∧ item_ok pl it2 ∧ val it2 = val it.
Proof.
  intros Hio Hl Hmv it2. assert (ITEM_clsid it2 = ITEM_clsid it) as Hc by by apply ITEM_clsid_lor.
  split; [by constructor|]. split.
  - unfold item_ok in *. by rewrite Hc.
  - unfold val. by rewrite Hc.
Qed.

(** A queued item taken off its queue and, after the walk, put on another. *)
Lemma relink_step s m R D p k it mv :
  cache_ok s m R D → m !! k = Some p → w_heap s !! p = Some it → lru_bits mv → mv ≠ 0 →
  ∃ s1 s2 D', do_item_unlink_q p s = Some (tt, s1) ∧ relink p mv s1 = Some (tt, s2) ∧ w_locks s2 = w_locks s ∧
    pull_step p s m R D s2 m R D' [].
Proof.
  intros Hok Hm Hp Hmv Hnz. destruct (cache_entry _ _ _ _ _ _ Hok Hm) as (it0 & id & Hp' & _ & _ & Hio & _ & Hl & _).
  rewrite Hp in Hp'. apply (inj Some) in Hp'. subst it0.
  destruct (relink_facts _ it mv Hio Hl Hmv) as (H1 & H2 & H3).
  destruct (requeue_step s m R D p k it Hok Hm Hp) as (s1 & Hun & Hp1 & _ & Hre).
  destruct (Hre _ H1 H2 H3) as (s2 & D' & Hli & Hlk & Hst). exists s1, s2, D'. split_and!; try done.
  unfold relink. rewrite (proj2 (Z.eqb_neq mv 0)) by done. simpl. rewrite (bind_run _ _ _ _ _ (wr_ok _ _ _ _ Hp1)).
  exact Hli.
Qed.

(** [chain Hok H1 H2 as H Hk]: the step [H] made of [H1] and [H2], and the cache
    after it. *)
Local Ltac chain Hok H1 H2 H Hk :=
  pose proof (pull_step_trans _ _ _ _ _ _ _ _ _ _ _ _ _ _ _ Hok H1 H2) as H;
  pose proof (pull_step_ok _ _ _ _ _ _ _ _ _ _ H) as Hk.

(** The expired or flushed item is removed. *)
Lemma drop_run {A} s m R D k p it id hold (K : M world A) f g :
  cache_ok s m R D → m !! k = Some p → w_heap s !! p = Some it → stale s it = true → 0 < R p → R p + 1 < 2 ^ 15 →
  ∃ s' D', (bump_stat id f ;; when (negb (flag (i_it_flags it) ITEM_FETCHED)) (bump_stat id g) ;;
            do_item_unlink_nolock p (hash k) ;; storage_delete p ;; do_item_remove p ;;
            item_trylock_unlock hold ;; K) s = K s' ∧
    w_locks s' = w_locks s ∖ {[hold]} ∧
    pull_step p s m R D s' (delete k m) (upd R p (R p - 1)) D' [].
Proof.
  intros Hok Hm Hp Hstale HR Hmax.
  destruct (stat_step p s m R D id f Hok) as (s1 & Hr1 & Hh1 & Hl1 & Hs1).
  assert (∃ s2, when (negb (flag (i_it_flags it) ITEM_FETCHED)) (bump_stat id g) s1 = Some (tt, s2) ∧
    w_heap s2 = w_heap s1 ∧ w_locks s2 = w_locks s1 ∧ pull_step p s1 m R D s2 m R D []) as (s2 & Hr2 & Hh2 & Hl2 & Hs2).
  { pose proof (pull_step_ok _ _ _ _ _ _ _ _ _ _ Hs1) as Hok1. destruct (negb _); simpl.
    - destruct (stat_step p s1 m R D id g Hok1) as (s2 & ? & ? & ? & ?). eauto 10.
    - exists s1. split_and!; try done. constructor; [by apply pulled_refl|apply csame_out_refl|done]. }
  chain Hok Hs1 Hs2 H02 Hok2.
  assert (Hp2 : w_heap s2 !! p = Some it) by (by rewrite Hh2, Hh1).
  destruct (unlink_step s2 m R D k p it Hok2 Hm Hp2 HR Hmax) as (s3 & D3 & it3 & ev & Hr3 & Hl3 & Eev & Hp3 & _ & _ & _ & Hs3).
  assert (ev = []) as ->.
  { rewrite Eev, (stale_val s s2 it it); [by rewrite Hstale|apply H02|apply H02|done]. }
  chain Hok H02 Hs3 H03 Hok3.
  destruct (storage_step p s3 _ R D3 it3 Hok3 Hp3) as (s4 & Hr4 & Hh4 & Hl4 & _ & Hs4).
  chain Hok H03 Hs4 H04 Hok4.
  destruct (remove_step s4 _ R D3 p it3 Hok4 HR) as (s5 & D5 & Hr5 & Hl5 & Hs5); [by rewrite Hh4|].
  chain Hok H04 Hs5 H05 Hok5.
  chain Hok H05 (unlock_step p s5 _ _ _ hold Hok5) H06 Hok6.
  eexists _, D5. split; [|split; [|exact H06]].
  - rewrite nolock_eq, (bind_run _ _ _ _ _ Hr1), (bind_run _ _ _ _ _ Hr2), (bind_run _ _ _ _ _ Hr3),
      (bind_run _ _ _ _ _ Hr4), (bind_run _ _ _ _ _ Hr5). reflexivity.
  - simpl. congruence.
Qed.

Lemma step_refl p s m R D : cache_ok s m R D → pull_step p s m R D s m R D [].
Proof. intros Hok. constructor; [by apply pulled_refl|apply csame_out_refl|done]. Qed.

(** The walk stops at [p] and holds it, perhaps off its queue until [relink]. *)
Definition stopped p mv s m R D s' m' ev : Prop :=
  ∃ s1 D', relink p mv s' = Some (tt, s1) ∧ w_locks s1 = w_locks s ∧ pull_step p s m R D s1 m' R D' ev.

Lemma stopped_here p s m R D s' m' D' ev :
  pull_step p s m R D s' m' R D' ev → w_locks s' = w_locks s → stopped p 0 s m R D s' m' ev.
Proof. intros H E. by exists s', D'. Qed.

(** The item of an entry, after a step that did not change its header. *)
Lemma hot_warm_active s m R D p k it cur_lru id limit max_age hold removed :
  cache_ok s m R D → m !! k = Some p → w_heap s !! p = Some it → 0 < R p →
  flag (i_it_flags it) ITEM_ACTIVE = true →
  ∃ res s', pull_hot_warm p cur_lru id limit max_age hold removed s = Some (res, s') ∧
    ((res = (None, removed + 1) ∧ w_locks s' = w_locks s ∖ {[hold]} ∧
      ∃ D', pull_step p s m R D s' m (upd R p (R p - 1)) D' []) ∨
     (res = (Some (PullEnd (removed + 1) p hold WARM_LRU None), removed + 1) ∧ stopped p WARM_LRU s m R D s' m [])).
Proof.
  intros Hok Hm Hp HR Ha. unfold pull_hot_warm. rewrite (bind_run _ _ _ _ _ (load_ok _ _ _ Hp)), (bind_run _ _ _ _ _ eq_refl), Ha.
  destruct (flags_step s m R D p (λ x, x <| i_it_flags := clear (i_it_flags x) ITEM_ACTIVE |>) k Hok Hm) as
    (it0 & s1 & Hp' & Hr1 & Hp1 & Hl1 & Hs1); [intros; by apply mild_clear|done|].
  rewrite Hp in Hp'. apply (inj Some) in Hp'. subst it0. rewrite (bind_run _ _ _ _ _ Hr1).
  pose proof (pull_step_ok _ _ _ _ _ _ _ _ _ _ Hs1) as Hok1.
  destruct (cur_lru =? WARM_LRU).
  - destruct (stat_step p s1 m R D id (λ i, i <| s_moves_within_lru := u64 (s_moves_within_lru i + 1) |>) Hok1) as
      (s2 & Hr2 & Hh2 & Hl2 & Hs2). rewrite (bind_run _ _ _ _ _ Hr2). chain Hok Hs1 Hs2 H02 Hok2.
    set (it1 := it <| i_it_flags := clear (i_it_flags it) ITEM_ACTIVE |>) in *.
    assert (Hp2 : w_heap s2 !! p = Some it1) by by rewrite Hh2.
    destruct (requeue_step s2 m R D p k it1 Hok2 Hm Hp2) as (s3 & Hun & Hp3 & _ & Hre).
    destruct (cache_entry _ _ _ _ _ _ Hok2 Hm) as (it0 & i & Hp' & _ & _ & Hio & _ & Hl & _).
    rewrite Hp2 in Hp'. apply (inj Some) in Hp'. subst it0.
    destruct (Hre it1) as (s4 & D4 & Hli & Hl4 & Hs4); [by constructor|done|done|].
    rewrite insert_id in Hli by done. replace (s3 <| w_heap := w_heap s3 |>) with s3 in Hli by by destruct s3.
    chain Hok H02 Hs4 H04 Hok4.
    destruct (cache_usable _ _ _ _ p Hok4) as (it4 & [Hp4 _] & _); [by left|].
    destruct (remove_step s4 m R D4 p it4 Hok4 HR Hp4) as (s5 & D5 & Hr5 & Hl5 & Hs5).
    chain Hok H04 Hs5 H05 Hok5. chain Hok H05 (unlock_step p s5 _ _ _ hold Hok5) H06 Hok6.
    eexists _, _. split.
    { rewrite (bind_run _ _ _ _ _ Hun), (bind_run _ _ _ _ _ Hli), (bind_run _ _ _ _ _ Hr5). reflexivity. }
    left. split; [done|]. split; [simpl; congruence|]. eexists. exact H06.
  - destruct (stat_step p s1 m R D id (λ i, i <| s_moves_to_warm := u64 (s_moves_to_warm i + 1) |>) Hok1) as
      (s2 & Hr2 & Hh2 & Hl2 & Hs2). rewrite (bind_run _ _ _ _ _ Hr2). chain Hok Hs1 Hs2 H02 Hok2.
    destruct (relink_step s2 m R D p k _ WARM_LRU Hok2 Hm ltac:(rewrite Hh2; exact Hp1)) as
      (s3 & s4 & D4 & Hun & Hre & Hl4 & Hs4); [done|done|]. chain Hok H02 Hs4 H04 Hok4.
    eexists _, s3. split; [rewrite (bind_run _ _ _ _ _ Hun); reflexivity|]. right. split; [done|].
    exists s4, D4. split; [done|]. split; [congruence|exact H04].
Qed.

Lemma pull_hot_warm_ok s m R D p k it cur_lru id limit max_age hold removed :
  cache_ok s m R D → m !! k = Some p → w_heap s !! p = Some it → 0 < R p →
  ∃ res s', pull_hot_warm p cur_lru id limit max_age hold removed s = Some (res, s') ∧
    ((res = (None, removed + 1) ∧ w_locks s' = w_locks s ∖ {[hold]} ∧
      ∃ D', pull_step p s m R D s' m (upd R p (R p - 1)) D' []) ∨
     (∃ removed' mv, res = (Some (PullEnd removed' p hold mv None), removed') ∧ removed ≤ removed' ∧
        stopped p mv s m R D s' m [])).
Proof.
  intros Hok Hm Hp HR. destruct (flag (i_it_flags it) ITEM_ACTIVE) eqn:Ha.
  { destruct (hot_warm_active s m R D p k it cur_lru id limit max_age hold removed Hok Hm Hp HR Ha) as
      (res & s' & Hrun & [H|[-> H]]); exists res, s' || eexists _, s'; (split; [exact Hrun|]); [by left|right].
    eexists _, _. split; [done|]. split; [lia|done]. }
  unfold pull_hot_warm. rewrite (bind_run _ _ _ _ _ (load_ok _ _ _ Hp)), (bind_run _ _ _ _ _ eq_refl), Ha.
  destruct (_ || _).
  - destruct (stat_step p s m R D id (λ i, i <| s_moves_to_cold := u64 (s_moves_to_cold i + 1) |>) Hok) as
      (s2 & Hr2 & Hh2 & Hl2 & Hs2). rewrite (bind_run _ _ _ _ _ Hr2).
    pose proof (pull_step_ok _ _ _ _ _ _ _ _ _ _ Hs2) as Hok2.
    destruct (relink_step s2 m R D p k it COLD_LRU Hok2 Hm ltac:(rewrite Hh2; exact Hp)) as
      (s3 & s4 & D4 & Hun & Hre & Hl4 & Hs4); [done|done|]. chain Hok Hs2 Hs4 H04 Hok4.
    eexists _, s3. split; [rewrite (bind_run _ _ _ _ _ Hun); reflexivity|]. right. eexists _, _. split; [done|].
    split; [lia|]. exists s4, D4. split; [done|]. split; [congruence|exact H04].
  - eexists _, s. split; [reflexivity|]. right. eexists _, _. split; [done|]. split; [lia|].
    by apply (stopped_here _ _ _ _ _ _ _ D); [apply step_refl|].
Qed.

(** A request for a page only writes to the mover's mailbox. *)
Lemma pick_any_run n dst s : ∃ r b, pick_any_loop n dst s = Some (r, s <| w_rebal := b |>).
Proof.
  revert s. induction n as [|n IH]; intros s; cbn [pick_any_loop].
  - exists (-1), (w_rebal s). by destruct s.
  - rewrite (bind_run _ _ _ _ _ eq_refl), (bind_run _ _ _ _ _ eq_refl).
    destruct (_ <? _); rewrite (bind_run _ _ _ _ _ eq_refl), (bind_run _ _ _ _ _ eq_refl); (destruct (_ =? dst);
      [|rewrite (bind_run _ _ _ _ _ eq_refl); destruct (1 <? _); [by eexists _, _|]]);
      match goal with |- context [pick_any_loop n dst ?s1] => destruct (IH s1) as (r & b & ->) end; by exists r, b.
Qed.

Lemma slabs_reassign_run src dst s : ∃ r b, slabs_reassign src dst s = Some (r, s <| w_rebal := b |>).
Proof.
  assert (s = s <| w_rebal := w_rebal s |>) as Hs by by destruct s.
  unfold slabs_reassign. rewrite (bind_run _ _ _ _ _ eq_refl).
  destruct (r_lock_held _); [eexists _, (w_rebal s); by rewrite <- Hs|]. unfold do_slabs_reassign. rewrite (bind_run _ _ _ _ _ eq_refl).
  destruct (negb _); [eexists _, (w_rebal s); by rewrite <- Hs|]. destruct (src =? dst); [eexists _, (w_rebal s); by rewrite <- Hs|].
  assert (∃ c b, (if src =? -1 then slabs_reassign_pick_any dst else mret src) s = Some (c, s <| w_rebal := b |>))
    as (c & b & Hc).
  { destruct (src =? -1); [|by exists src, (w_rebal s); rewrite <- Hs].
    unfold slabs_reassign_pick_any. rewrite (bind_run _ _ _ _ _ eq_refl). apply pick_any_run. }
  rewrite (bind_run _ _ _ _ _ Hc). cbv zeta. destruct (_ || _); [by eexists _, _|].
  destruct (_ <? 2); [by eexists _, _|]. eexists _, _. reflexivity.
Qed.

Lemma reassign_step p s m R D (b : bool) src dst :
  cache_ok s m R D →
  ∃ s', (if b then slabs_reassign src dst ;; mret tt else mret tt) s = Some (tt, s') ∧ w_heap s' = w_heap s ∧
    w_locks s' = w_locks s ∧ pull_step p s m R D s' m R D [].
Proof.
  intros Hok. destruct b; [|by exists s; auto using step_refl].
  destruct (slabs_reassign_run src dst s) as (r & b & Hr). eexists. rewrite (bind_run _ _ _ _ _ Hr).
  split; [reflexivity|]. do 2 (split; [done|]). apply same_step; try done.
  exists (l_itemstats (w_lru s)). simpl. by destruct (w_lru s).
Qed.

(** The COLD queue: eviction, a second chance for an active item, or the item
    for the caller. *)
Lemma pull_cold_ok s m R D p k it orig_id id flags hold removed :
  cache_ok s m R D → m !! k = Some p → w_heap s !! p = Some it → 0 < R p → R p + 1 < 2 ^ 15 → stale s it = false →
  ∃ removed' mv ret s', pull_cold p (hash k) orig_id id flags hold removed s = Some (PullEnd removed' p hold mv ret, s') ∧
    removed ≤ removed' ∧
    ((flag flags LRU_PULL_EVICT = true ∧ mv = 0 ∧ ret = None ∧ removed' = removed + 1 ∧
        stopped p mv s m R D s' (delete k m) [k]) ∨
     (stopped p mv s m R D s' m [] ∧
      ret = if negb (flag flags LRU_PULL_EVICT) && flag flags LRU_PULL_RETURN_ITEM then Some (p, hash k) else None)).
Proof.
  intros Hok Hm Hp HR Hmax Hst. unfold pull_cold.
  rewrite (bind_run _ _ _ _ _ (load_ok _ _ _ Hp)), (bind_run _ _ _ _ _ eq_refl).
  assert (Hhere : stopped p 0 s m R D s m []) by (by apply (stopped_here _ _ _ _ _ _ _ D); [apply step_refl|]).
  destruct (flag flags LRU_PULL_EVICT); simpl.
  - destruct (_ =? 0).
    { eexists _, _, _, s. split; [reflexivity|]. split; [lia|]. right. by split. }
    match goal with |- context [bump_stat id ?f] => destruct (stat_step p s m R D id f Hok) as (s1 & Hr1 & Hh1 & Hl1 & Hs1) end.
    pose proof (pull_step_ok _ _ _ _ _ _ _ _ _ _ Hs1) as Hok1. rewrite (bind_run _ _ _ _ _ Hr1).
    destruct (storage_step p s1 m R D it Hok1) as (s2 & Hr2 & Hh2 & Hl2 & Hset2 & Hs2); [by rewrite Hh1|].
    rewrite (bind_run _ _ _ _ _ Hr2). chain Hok Hs1 Hs2 H02 Hok2.
    assert (Hp2 : w_heap s2 !! p = Some it) by (by rewrite Hh2, Hh1).
    destruct (unlink_step s2 m R D k p it Hok2 Hm Hp2 HR Hmax) as (s3 & D3 & it3 & ev & Hr3 & Hl3 & Eev & Hp3 & _ & _ & _ & Hs3).
    assert (ev = [k]) as ->.
    { rewrite Eev, (stale_val s s2 it it); [by rewrite Hst|apply H02|apply H02|done]. }
    rewrite nolock_eq, (bind_run _ _ _ _ _ Hr3). chain Hok H02 Hs3 H03 Hok3.
    destruct (reassign_step p s3 _ R D3 (o_slab_automove (w_settings s) =? 2) (-1) orig_id Hok3) as (s4 & Hr4 & Hh4 & Hl4 & Hs4).
    rewrite (bind_run _ _ _ _ _ Hr4). chain Hok H03 Hs4 H04 Hok4.
    eexists _, _, _, s4. split; [reflexivity|]. split; [lia|]. left. do 4 (split; [done|]).
    apply (stopped_here _ _ _ _ _ _ _ D3); [exact H04|congruence].
  - destruct (flag flags LRU_PULL_RETURN_ITEM).
    { eexists _, _, _, s. split; [reflexivity|]. split; [lia|]. right. by split. }
    destruct (_ && _).
    2:{ eexists _, _, _, s. split; [reflexivity|]. split; [lia|]. right. by split. }
    match goal with |- context [bump_stat id ?f] => destruct (stat_step p s m R D id f Hok) as (s1 & Hr1 & Hh1 & Hl1 & Hs1) end.
    pose proof (pull_step_ok _ _ _ _ _ _ _ _ _ _ Hs1) as Hok1. rewrite (bind_run _ _ _ _ _ Hr1).
    destruct (flags_step s1 m R D p (λ x, x <| i_it_flags := clear (i_it_flags x) ITEM_ACTIVE |>) k Hok1 Hm) as
      (it2 & s2 & _ & Hr2 & Hp2 & Hl2 & Hs2); [intros; by apply mild_clear|done|].
    rewrite (bind_run _ _ _ _ _ Hr2). chain Hok Hs1 Hs2 H02 Hok2.
    destruct (relink_step s2 m R D p k _ WARM_LRU Hok2 Hm Hp2) as
      (s3 & s4 & D4 & Hun & Hre & Hl4 & Hs4); [done|done|]. chain Hok H02 Hs4 H04 Hok4.
    eexists _, _, _, s3. split; [rewrite (bind_run _ _ _ _ _ Hun); reflexivity|]. split; [lia|]. right. split; [|done].
    exists s4, D4. split; [done|]. split; [congruence|exact H04].
Qed.

(** ** The walk *)

Lemma pulled_R s m R D s' m' R' R'' D' ev :
  (∀ p, R'' p = R' p) → pulled s m R D s' m' R' D' ev → pulled s m R D s' m' R'' D' ev.
Proof.
  intros E [A1 A2 A3 A4 A5 A6 A7 A8 A9]. constructor; eauto.
  - by eapply cache_ok_R.
  - intros p it Hp. rewrite E. by apply A5.
  - intros p. rewrite E. apply A6.
  - intros p. rewrite E. apply A7.
Qed.

(** The other members of a queue stay in it. *)
Lemma step_stay p s m R D s' m' R' D' ev id x :
  cache_ok s m R D → pull_step p s m R D s' m' R' D' ev → x ≠ p → x ∈ D (LruQ id) → x ∈ D' (LruQ id).
Proof.
  intros Hok [A1 A2 A3] Hne Hx. destruct (co_queued _ _ _ _ Hok id x Hx) as (it & Hit & _ & Hcl & _ & _ & Hm).
  destruct (cache_entry _ _ _ _ _ _ (pu_ok _ _ _ _ _ _ _ _ _ A1) (A3 _ _ Hne Hm)) as (it' & id' & Hit' & _ & Hin & _ & Hcl' & _).
  destruct (csame_lookup _ _ _ x it A2 Hne Hit) as (it'' & E & Hc). assert (it'' = it') as -> by congruence.
  apply ctl_fields in Hc as (_ & _ & Hc & _). by rewrite <- Hcl, <- Hc, Hcl'.
Qed.

(** What the walk needs: no entry looks like a crawler's marker, reference counts
    are far from their limit and the repair of leaked references is off. *)
Record pull_pre s m R : Prop := {
  pp_keys : m !! [] = None;
  pp_refs : ∀ p, R p + 2 < 2 ^ 15;
  pp_repair : o_tail_repair_time (w_settings s) = 0
}.

Lemma pull_pre_step s m R D s' m' R' D' ev : pulled s m R D s' m' R' D' ev → pull_pre s m R → pull_pre s' m' R.
Proof.
  intros Hp [A B C]. constructor; [|done|by rewrite (pf_settings _ _ (pu_frame _ _ _ _ _ _ _ _ _ Hp))].
  destruct (m' !! []) eqn:E; [|done]. eapply lookup_weaken in E; [|apply Hp]. congruence.
Qed.

Definition returns (cur_lru flags : Z) : bool :=
  (cur_lru =? COLD_LRU) && (negb (flag flags LRU_PULL_EVICT) && flag flags LRU_PULL_RETURN_ITEM).

Definition pull_post cur_lru flags removed s m R D (e : pull_end) s' : Prop :=
  match e with
  | PullBlocked => False
  | PullEnd removed' it hold mv ret =>
      removed ≤ removed' ∧ ∃ m' D' ev, (removed' = removed → m' = m) ∧
      (ev ≠ [] → flag flags LRU_PULL_EVICT = true) ∧ (length ev ≤ 1)%nat ∧
      ((it = NULL ∧ ret = None ∧ pulled s m R D s' m' R D' ev ∧ w_locks s' = w_locks s) ∨
       (it ≠ NULL ∧ (∃ s1, relink it mv s' = Some (tt, s1) ∧ hold ∉ w_locks s ∧ w_locks s1 = {[hold]} ∪ w_locks s ∧
          pulled s m R D s1 m' (upd R it (R it + 1)) D' ev) ∧
        ∃ k, m !! k = Some it ∧ hold = item_lock_index s (hash k) ∧
          (ret = if returns cur_lru flags then Some (it, hash k) else None) ∧
          (returns cur_lru flags = true → m' !! k = Some it)))
  end.

Lemma pull_post_trans cur_lru flags removed removed1 s m R D s1 m1 D1 e s' :
  cache_ok s m R D → pulled s m R D s1 m1 R D1 [] → w_locks s1 = w_locks s →
  removed ≤ removed1 → (removed1 = removed → m1 = m) →
  pull_post cur_lru flags removed1 s1 m1 R D1 e s' → pull_post cur_lru flags removed s m R D e s'.
Proof.
  intros Hok Hp Hl Hle Hm. destruct e as [|removed' it hold mv ret]; simpl.
  - done.
  - intros (Hle' & m' & D' & ev & Hm' & Hev & Hlen & H). split; [lia|]. exists m', D', ev. split.
    { intros E. rewrite Hm' by lia. apply Hm. lia. }
    do 2 (split; [done|]). destruct H as [(-> & -> & H & E)|(Hit & (s2 & H1 & H2 & H3 & H4) & k & K1 & K2 & K3)]; [left|right].
    + do 2 (split; [done|]). split; [exact (pulled_trans _ _ _ _ _ _ _ _ _ _ _ _ _ _ Hok Hp H)|congruence].
    + split; [done|]. split.
      * exists s2. rewrite <- Hl. do 3 (split; [done|]). exact (pulled_trans _ _ _ _ _ _ _ _ _ _ _ _ _ _ Hok Hp H4).
      * exists k. split; [eapply lookup_weaken; [done|apply Hp]|]. split; [|done]. rewrite K2. unfold item_lock_index.
        by rewrite (pf_hp _ _ (pu_frame _ _ _ _ _ _ _ _ _ Hp)).
Qed.

(** A stop at the item [p], seen from before it was locked. *)
Lemma pull_post_stop cur_lru flags removed removed' s m R D s0 D0 p k hold mv ret s' m' ev :
  cache_ok s m R D → m !! k = Some p → p ≠ NULL → hold ∉ w_locks s → hold = item_lock_index s (hash k) →
  w_locks s0 = {[hold]} ∪ w_locks s →
  pull_step p s m R D s0 m (upd R p (R p + 1)) D0 [] →
  stopped p mv s0 m (upd R p (R p + 1)) D0 s' m' ev →
  removed ≤ removed' → (removed' = removed → m' = m) →
  (ev ≠ [] → flag flags LRU_PULL_EVICT = true) → (length ev ≤ 1)%nat →
  ret = (if returns cur_lru flags then Some (p, hash k) else None) → (returns cur_lru flags = true → m' !! k = Some p) →
  pull_post cur_lru flags removed s m R D (PullEnd removed' p hold mv ret) s'.
Proof.
  intros Hok Hm Hp Hh Eh Hl H0 (s1 & D1 & Hr & Hl1 & H1) Hle Hm' Hev Hlen Hret Hret'. split; [done|].
  exists m', D1, ev. do 3 (split; [done|]). right. split; [done|]. split; [|by exists k].
  exists s1. split; [done|]. split; [done|]. split; [congruence|].
  exact (pulled_trans _ _ _ _ _ _ _ _ _ _ _ _ _ _ Hok (ps_pulled _ _ _ _ _ _ _ _ _ _ H0) (ps_pulled _ _ _ _ _ _ _ _ _ _ H1)).
Qed.

(** The item is locked and referenced; a reference someone else holds is only
    counted. *)
Lemma lock_prefix s m R D p k it id :
  cache_ok s m R D → pull_pre s m R → m !! k = Some p → w_heap s !! p = Some it →
  let hold := item_lock_index s (hash k) in
  ∃ s3 it3, w_heap s3 !! p = Some it3 ∧ val it3 = val it ∧ w_locks s3 = {[hold]} ∪ w_locks s ∧
    pull_step p s m R D s3 m (upd R p (R p + 1)) D [] ∧
    ∀ A (K : bool → M world A),
      (r ← refcount_incr p; repaired ← (if negb (r =? 2) then tail_repair p (hash k) id hold else mret false); K repaired)
        (s <| w_locks := {[hold]} ∪ w_locks s |>) = K false s3.
Proof.
  intros Hok [Hk HR Hrep] Hm Hp hold. set (s1 := s <| w_locks := {[hold]} ∪ w_locks s |>).
  assert (H1 : pull_step p s m R D s1 m R D []).
  { apply same_step; try done. exists (l_itemstats (w_lru s)). simpl. by destruct (w_lru s). }
  pose proof (pull_step_ok _ _ _ _ _ _ _ _ _ _ H1) as Hok1. specialize (HR p).
  destruct (co_mapped _ _ _ _ Hok k p Hm) as [id0 Hid].
  destruct (incr_step s1 m R D p Hok1) as (it0 & rc & s2 & Hp' & Hr & _ & Hp2 & Hl2 & Hs2); [right; eauto|lia|].
  assert (it0 = it) as -> by (simpl in Hp'; congruence). chain Hok H1 Hs2 H02 Hok2.
  set (it3 := it <| i_refcount := rc |>) in *.
  destruct (rc =? 2) eqn:Erc; simpl.
  - exists s2, it3. split_and!; try done. intros A K. rewrite (bind_run _ _ _ _ _ Hr), Erc. reflexivity.
  - destruct (stat_step p s2 m _ D id (λ i, i <| s_lrutail_reflocked := u64 (s_lrutail_reflocked i + 1) |>) Hok2) as
      (s3 & Hr3 & Hh3 & Hl3 & Hs3). chain Hok H02 Hs3 H03 Hok3.
    assert (Hp3 : w_heap s3 !! p = Some it3) by by rewrite Hh3.
    exists s3, it3. split; [done|]. split; [done|]. split; [by rewrite Hl3, Hl2|]. split; [exact H03|].
    intros A K. rewrite (bind_run _ _ _ _ _ Hr), Erc. simpl. unfold tail_repair.
    rewrite (bind_run _ _ _ false s3); [done|]. rewrite (bind_run _ _ _ _ _ Hr3), (bind_run _ _ _ _ _ eq_refl).
    rewrite (bind_run _ _ _ _ _ (load_ok _ _ _ Hp3)).
    rewrite (pf_settings _ _ (pu_frame _ _ _ _ _ _ _ _ _ (ps_pulled _ _ _ _ _ _ _ _ _ _ H03))), Hrep. reflexivity.
Qed.

Lemma item_trylock_run s hv :
  let hold := item_lock_index s hv in
  item_trylock hv s = if decide (hold ∈ w_locks s) then Some (None, s)
    else Some (Some hold, s <| w_locks := {[hold]} ∪ w_locks s |>).
Proof. reflexivity. Qed.

(** The references after the walk gave back the one it took. *)
Lemma step_back p s m R D s' m' D' ev :
  pull_step p s m R D s' m' (upd (upd R p (R p + 1)) p (upd R p (R p + 1) p - 1)) D' ev →
  pull_step p s m R D s' m' R D' ev.
Proof.
  intros [A B C]. constructor; [|done|done]. eapply pulled_R; [|exact A]. intros x. rewrite !upd_eq. unfold upd.
  destruct (Z.eqb_spec x p) as [->|]; [lia|done].
Qed.

Lemma locks_back (L : gset Z) hold : hold ∉ L → ({[hold]} ∪ L) ∖ {[hold]} = L.
Proof. set_solver. Qed.

Lemma not_crawler s m R D k p it : cache_ok s m R D → m !! [] = None → m !! k = Some p → w_heap s !! p = Some it → is_crawler it = false.
Proof.
  intros Hok Hn Hm Hp. destruct (cache_entry _ _ _ _ _ _ Hok Hm) as (it0 & id & Hp' & Hk & _ & (_ & _ & Hko & _) & _).
  assert (it0 = it) as -> by congruence. unfold is_crawler. rewrite (proj2 (Z.eqb_neq (i_nkey it) 0)); [by rewrite andb_false_r|].
  intros E. rewrite (item_key_length it Hko), Hk in E. destruct k; [congruence|simpl in E; lia].
Qed.

Lemma lru_pull_loop_ok orig_id cur_lru id total_bytes flags max_age fuel : ∀ s m R D tries search removed limit,
  cache_ok s m R D → pull_pre s m R → search = NULL ∨ search ∈ D (LruQ id) → 0 ≤ tries < Z.of_nat fuel →
  ∃ e s', lru_pull_loop fuel orig_id cur_lru id total_bytes flags max_age tries search removed limit s = Some (e, s') ∧
    pull_post cur_lru flags removed s m R D e s'.
Proof.
  induction fuel as [|fuel IH]; intros s m R D tries p removed limit Hok Hpre Hs Ht; [lia|]. cbn [lru_pull_loop].
  destruct ((tries <=? 0) || (p =? NULL)) eqn:E0.
  { eexists _, s. split; [reflexivity|]. split; [lia|]. exists m, D, []. split_and!; [done|done|simpl; lia|].
    left. split_and!; [done|done|by apply pulled_refl|done]. }
  bool_props. destruct Hs as [?|Hin]; [done|].
  destruct (co_queued _ _ _ _ Hok id p Hin) as (it & Hp & Hio & Hcl & Hfl & Href & Hm). set (k := ITEM_key it) in *.
  pose proof (so_queues _ _ (co_slabs _ _ _ _ Hok)) as Hq.
  assert (Hnext : ∀ s1 m1 R1 D1, pull_step p s m R D s1 m1 R1 D1 [] → i_prev it = NULL ∨ i_prev it ∈ D1 (LruQ id)).
  { intros s1 m1 R1 D1 Hst. destruct (decide (i_prev it = NULL)) as [?|Hn]; [by left|right].
    eapply (step_stay p s m R D); eauto using queue_prev, queue_prev_ne. }
  rewrite (bind_run _ _ _ _ _ (load_ok _ _ _ Hp)). cbv zeta. fold k.
  rewrite (not_crawler s m R D k p it) by (try done; apply Hpre).
  pose proof (item_trylock_run s (hash k)) as Htl. simpl in Htl. set (hold := item_lock_index s (hash k)) in *.
  destruct (decide (hold ∈ w_locks s)) as [Hheld|Hheld]; rewrite (bind_run _ _ _ _ _ Htl).
  { apply IH; [done|done|exact (Hnext _ _ _ _ (step_refl p s m R D Hok))|lia]. }
  destruct (lock_prefix s m R D p k it id Hok Hpre Hm Hp) as (s3 & it3 & Hp3 & Hv3 & Hl3 & H3 & HK).
  fold hold in Hl3, HK. rewrite HK. clear HK. pose proof (pull_step_ok _ _ _ _ _ _ _ _ _ _ H3) as Hok3.
  set (R1 := upd R p (R p + 1)) in *. assert (HR1 : R1 p = R p + 1) by apply upd_eq.
  pose proof (pp_refs _ _ _ Hpre p) as HRp. pose proof (co_refs _ _ _ _ Hok p) as HRp'.
  rewrite (bind_run _ _ _ _ _ (load_ok _ _ _ Hp3)), (bind_run _ _ _ _ _ eq_refl), (bind_run _ _ _ _ _ (item_is_flushed_run _ _)).
  change (_ || flushed s3 it3) with (stale s3 it3). destruct (stale s3 it3) eqn:Hst.
  { match goal with |- context [lru_pull_loop fuel orig_id cur_lru id total_bytes flags max_age ?t ?n ?r ?l] =>
      set (K := lru_pull_loop fuel orig_id cur_lru id total_bytes flags max_age t n r l) end.
    destruct (drop_run s3 m R1 D k p it3 id hold K
      (λ i, i <| s_reclaimed := u64 (s_reclaimed i + 1) |>)
      (λ i, i <| s_expired_unfetched := u64 (s_expired_unfetched i + 1) |>) Hok3 Hm Hp3 Hst) as
      (s4 & D4 & Hrun & Hl4 & H4); [lia|lia|].
    rewrite Hrun. unfold K. chain Hok H3 H4 H04 Hok4. apply step_back in H04.
    destruct (IH s4 (delete k m) R D4 (tries - 1) (i_prev it) (removed + 1) limit) as (e & s' & Hr & Hpost).
    { apply H04. } { eapply pull_pre_step; [apply H04|done]. } { exact (Hnext _ _ _ _ H04). } { lia. }
    exists e, s'. split; [exact Hr|]. eapply (pull_post_trans _ _ removed (removed + 1)); [done|apply H04| |lia|lia|exact Hpost].
    rewrite Hl4, Hl3. by apply locks_back. }
  rewrite (bind_run _ _ _ _ _ eq_refl). cbv zeta.
  assert (Hstop : ∀ s' removed' mv ret m' ev, stopped p mv s3 m R1 D s' m' ev → removed ≤ removed' →
    (removed' = removed → m' = m) → (ev ≠ [] → flag flags LRU_PULL_EVICT = true) → (length ev ≤ 1)%nat →
    ret = (if returns cur_lru flags then Some (p, hash k) else None) → (returns cur_lru flags = true → m' !! k = Some p) →
    pull_post cur_lru flags removed s m R D (PullEnd removed' p hold mv ret) s').
  { intros. by eapply (pull_post_stop cur_lru flags removed _ s m R D s3 D p k). }
  destruct ((cur_lru =? HOT_LRU) || (cur_lru =? WARM_LRU)) eqn:Ecur.
  - assert (Hret : returns cur_lru flags = false).
    { unfold returns. apply orb_true_iff in Ecur as [E|E]; apply Z.eqb_eq in E as ->; done. }
    match goal with |- context [pull_hot_warm p cur_lru id ?l max_age hold removed] =>
      destruct (pull_hot_warm_ok s3 m R1 D p k it3 cur_lru id l max_age hold removed Hok3 Hm Hp3) as (res & s4 & Hrun & Hres) end; [lia|].
    rewrite (bind_run _ _ _ _ _ Hrun). destruct Hres as [(-> & Hl4 & D4 & H4)|(removed' & mv & -> & Hle & Hsto)].
    + chain Hok H3 H4 H04 Hok4. apply step_back in H04.
      match goal with |- context [lru_pull_loop fuel orig_id cur_lru id total_bytes flags max_age ?t ?n ?r ?l] =>
        destruct (IH s4 m R D4 t n r l) as (e & s' & Hr & Hpost) end.
      { apply H04. } { eapply pull_pre_step; [apply H04|done]. } { exact (Hnext _ _ _ _ H04). } { lia. }
      exists e, s'. split; [exact Hr|]. eapply (pull_post_trans _ _ removed (removed + 1)); [done|apply H04| |lia|lia|exact Hpost].
      rewrite Hl4, Hl3. by apply locks_back.
    + eexists _, s4. split; [reflexivity|]. apply (Hstop _ _ _ _ m []); try done; try (simpl; lia); by rewrite Hret.
  - apply orb_false_iff in Ecur as [E1 E2]. destruct (cur_lru =? COLD_LRU) eqn:Ecold.
    + destruct (pull_cold_ok s3 m R1 D p k it3 orig_id id flags hold removed Hok3 Hm Hp3) as
        (removed' & mv & ret & s4 & Hrun & Hle & Hres); [lia|lia|done|].
      eexists _, s4. split; [exact Hrun|]. destruct Hres as [(He & -> & -> & -> & Hsto)|[Hsto ->]].
      * apply (Hstop _ _ _ _ (delete k m) [k]); try done; try (intros; lia); unfold returns; by rewrite He, andb_false_r.
      * apply (Hstop _ _ _ _ m []); try done; try (simpl; lia); []. unfold returns. by rewrite Ecold.
    + eexists _, s3. split; [reflexivity|]. apply (Hstop _ _ _ _ m []); try done; try (simpl; lia).
      * by apply (stopped_here _ _ _ _ _ _ _ D); [apply step_refl|].
      * unfold returns. by rewrite Ecold.
Qed.

(** What a pull leaves behind: at most one live entry is gone, and only when
    asked to evict; the locks and references are as before, but for those of the
    item handed to the caller. *)
Record tail_post flags s m R D (removed : Z) (ret : option (Z * Z)) s' m' R' D' ev : Prop := {
  tp_pulled : pulled s m R D s' m' R' D' ev;
  tp_removed : 0 ≤ removed;
  tp_none : removed = 0 → m' = m;
  tp_evict : ev ≠ [] → flag flags LRU_PULL_EVICT = true;
  tp_one : (length ev ≤ 1)%nat;
  tp_ret : match ret with
    | None => (∀ p, R' p = R p) ∧ w_locks s' = w_locks s
    | Some (p, hv) => (∀ x, R' x = upd R p (R p + 1) x) ∧ (∃ k, m' !! k = Some p ∧ hv = hash k) ∧
        item_lock_index s hv ∉ w_locks s ∧ w_locks s' = {[item_lock_index s hv]} ∪ w_locks s
    end
}.

Lemma lru_pull_tail_ok s m R D orig_id cur_lru total_bytes flags max_age :
  cache_ok s m R D → pull_pre s m R →
  (flag flags LRU_PULL_RETURN_ITEM = true → cur_lru = COLD_LRU ∧ flag flags LRU_PULL_EVICT = false) →
  ∃ removed ret s' m' R' D' ev,
    lru_pull_tail orig_id cur_lru total_bytes flags max_age s = Some ((removed, ret), s') ∧
    tail_post flags s m R D removed ret s' m' R' D' ev ∧ (flag flags LRU_PULL_RETURN_ITEM = false → ret = None).
Proof.
  intros Hok Hpre Hfl. unfold lru_pull_tail. destruct (orig_id =? 0).
  { exists 0, None, s, m, R, D, []. split; [done|]. split; [|done]. constructor; try done; [by apply pulled_refl|simpl; lia]. }
  cbv zeta. set (id := Z.lor orig_id cur_lru).
  rewrite (bind_run _ _ _ _ _ eq_refl), (bind_run _ _ _ _ _ eq_refl).
  destruct (co_lru _ _ _ _ Hok id) as (_ & Ht & _). rewrite Ht.
  destruct (lru_pull_loop_ok orig_id cur_lru id total_bytes flags max_age (5 + S (size (w_heap s))) s m R D 5
    (lastz 0 (D (LruQ id))) 0 0 Hok Hpre) as (e & s1 & Hrun & Hpost); [apply lastz_in|lia|].
  rewrite (bind_run _ _ _ _ _ Hrun). destruct e as [|removed it hold mv ret]; [done|].
  destruct Hpost as (Hle & m' & D' & ev & Hm' & Hev & Hlen & [(-> & -> & Hp & Hl)|(Hit & (s2 & Hre & Hh & Hl & Hp) & k & Hk & Eh & Hret & Hret')]).
  { exists removed, None, s1, m', R, D', ev. split; [done|]. split; [|done]. by constructor. }
  rewrite (proj2 (Z.eqb_neq it NULL)) by done. simpl.
  destruct (flag flags LRU_PULL_RETURN_ITEM) eqn:Er.
  - destruct (Hfl eq_refl) as [-> He]. assert (Hr1 : returns COLD_LRU flags = true) by (unfold returns; by rewrite He, Er).
    rewrite Hr1 in *. exists removed, ret, s2, m', (upd R it (R it + 1)), D', ev. split; [|split; [|done]].
    { rewrite bind_assoc. unfold relink in Hre. rewrite (bind_run _ _ _ _ _ Hre). reflexivity. }
    constructor; try done. rewrite Hret. split; [done|]. split; [exists k; auto|]. by rewrite <- Eh.
  - assert (Hr1 : returns cur_lru flags = false) by (unfold returns; by rewrite Er, !andb_false_r). rewrite Hr1 in Hret. subst ret.
    pose proof (pu_ok _ _ _ _ _ _ _ _ _ Hp) as Hok2. pose proof (co_refs _ _ _ _ Hok it) as HR.
    destruct (cache_usable _ _ _ _ it Hok2) as (ix & [Hix _] & _); [left; rewrite upd_eq; lia|].
    destruct (remove_step s2 m' _ D' it ix Hok2) as (s3 & D3 & Hr3 & Hl3 & Hs3); [rewrite upd_eq; lia|done|].
    pose proof (unlock_step it s3 _ _ _ hold (pull_step_ok _ _ _ _ _ _ _ _ _ _ Hs3)) as Hs4.
    pose proof (pulled_trans _ _ _ _ _ _ _ _ _ _ _ _ _ _ Hok Hp (ps_pulled _ _ _ _ _ _ _ _ _ _ Hs3)) as H3.
    pose proof (pulled_trans _ _ _ _ _ _ _ _ _ _ _ _ _ _ Hok H3 (ps_pulled _ _ _ _ _ _ _ _ _ _ Hs4)) as H4.
    rewrite !app_nil_r in H4. eexists removed, None, _, m', R, D3, ev. split; [|split; [|done]].
    { rewrite bind_assoc. unfold relink in Hre. rewrite (bind_run _ _ _ _ _ Hre).
      rewrite (bind_run _ _ _ tt (s3 <| w_locks := w_locks s3 ∖ {[hold]} |>)); [reflexivity|].
      cbn [negb when]. by rewrite (bind_run _ _ _ _ _ Hr3). }
    constructor; try done.
    + eapply pulled_R; [|exact H4]. intros x. rewrite !upd_eq. unfold upd. destruct (Z.eqb_spec x it) as [->|]; [lia|done].
    + split; [done|]. simpl. rewrite Hl3, Hl. by apply locks_back.
Qed.
End Pull.
