(* ===== verification/ItemsAlloc.v ===== *)
(** * Allocating items

    [do_item_alloc_pull] and [do_item_alloc]: a chunk from the allocator, if need
    be after making room at the tails of the queues of the class. *)

From S2P Require Import Prelude Bipbuf Hashes State Links Queues Assoc AssocSpec AssocThm Slabs SlabsSpec SlabsThm Items ItemsSpec ItemsAccess ItemsThm ItemsPull.

Section Alloc.
Context {HF : HashFn}.
Implicit Types (s : world) (m : gmap (list Z) Z) (R : Z → Z) (D : queues) (p : Z) (ev : list (list Z)).

(** ** Where pages come from *)

(** The class [id] can be given pages: they are mapped, and apart from every
    chunk and every item in use. *)
Record supply s D R (id : Z) : Prop := {
  su_class : 1 ≤ id ≤ m_power_largest (w_slabs s);
  su_geom : class_geometry s id;
  su_room : room s id;
  su_heap : 0 < p_perslab (slabcls s id) ∧ Z.of_nat (size (w_heap s)) + p_perslab (slabcls s id) < 2 ^ 31;
  su_pos : ∀ x, spare s x → x ≠ NULL → 0 < x;
  su_pool : ∀ x, x ∈ p_slab_list (slabcls s SLAB_GLOBAL_PAGE_POOL) → x ≠ NULL →
    mapped_range s x (slab_page_len s id) = true;
  su_current : m_mem_base (w_slabs s) ≠ NULL → m_mem_current (w_slabs s) ≠ NULL ∧
    (slab_page_len s id ≤ m_mem_avail (w_slabs s) → mapped_range s (m_mem_current (w_slabs s)) (slab_page_len s id) = true);
  su_lists : ∀ x q y, spare s x → x ≠ NULL → y ∈ D q → ¬ in_page x (slab_page_len s id) y;
  su_held : ∀ x y, spare s x → x ≠ NULL → 0 < R y → ¬ in_page x (slab_page_len s id) y
}.

Lemma supply_keep s s' D D' R R' id :
  pages_keep s s' → w_settings s' = w_settings s →
  (∀ q x, x ∈ D' q → (∃ q', x ∈ D q') ∨ 0 < R x) → (∀ x, 0 < R' x → 0 < R x ∨ ∃ q, x ∈ D q) →
  supply s D R id → supply s' D' R' id.
Proof.
  intros [K1 K2 K3 K4 K5 K6 K7 K8 K9 K10] Es Hm HR [A1 A2 A3 A4 A5 A6 A7 A8 A9]. destruct (K8 id) as [G1 G2].
  assert (El : slab_page_len s' id = slab_page_len s id) by (unfold slab_page_len; by rewrite Es, G1, G2).
  constructor; rewrite ?El.
  - by rewrite K7.
  - unfold class_geometry in *. by rewrite El, G1, G2.
  - auto.
  - rewrite G2, <- (size_dom (D := gset Z)), K10, size_dom. done.
  - auto.
  - auto.
  - rewrite K4, K5, K6. intros H. destruct (A7 H). auto.
  - intros x q y Hx Hx0 Hy. destruct (Hm q y Hy) as [[q' ?]|?]; [by apply (A8 x q'); auto|by apply A9; auto].
  - intros x y Hx Hx0 Hy. destruct (HR y Hy) as [?|[q ?]]; [by apply A9; auto|by apply (A8 x q); auto].
Qed.

(** ** Runs of the page allocator *)

Lemma in_take {A} n (l : list A) x : x ∈ take n l → x ∈ l.
Proof. intros H. rewrite <- (take_drop n l). set_solver. Qed.

Lemma grow_keep s s' id b : grow_slab_list id s = Some (b, s') → id ≠ SLAB_GLOBAL_PAGE_POOL → 0 ≤ p_list_size (slabcls s id) →
  pages_keep s s' ∧ w_heap s' = w_heap s ∧ (∀ x, x ∈ w_malloc s' → x ∈ w_malloc s).
Proof.
  intros H Hid H0. unfold grow_slab_list in H. rewrite (bind_run _ _ _ _ _ eq_refl) in H.
  destruct (Z.eqb_spec (p_slabs (slabcls s id)) (p_list_size (slabcls s id))) as [E|E].
  2:{ injection H as _ <-. auto using pages_keep_refl. }
  apply bind_inv in H as (np & s1 & Hm & H).
  assert (Hs1 : ∃ l, s1 = s <| w_malloc := l |> ∧ ∀ x, x ∈ l → x ∈ w_malloc s).
  { unfold malloc_next in Hm. destruct (w_malloc s) as [|q l] eqn:El; injection Hm as <- <-; [exists []|exists l].
    - split; [rewrite <- El; by destruct s|set_solver].
    - split; [done|set_solver]. }
  destruct Hs1 as (l & -> & Hl). assert (Hk1 : pages_keep s (s <| w_malloc := l |>)).
  { constructor; try done. intros x [?|[?|?]]; [by left|right; left; auto|by right; right]. }
  destruct (np =? NULL); [by injection H as _ <-|]. injection H as _ <-. split; [|done].
  eapply pages_keep_trans; [exact Hk1|]. constructor; simpl; try done.
  - intros x. unfold spare. simpl. by rewrite upd_ne.
  - intros x. by rewrite upd_ne.
  - intros x. unfold upd. by destruct (Z.eqb_spec x id) as [->|].
  - intros x. unfold room. simpl. unfold upd. destruct (Z.eqb_spec x id) as [->|]; [|done]. simpl. intros [R1 R2].
    split; [done|]. destruct (negb _); [|lia]. rewrite u32_small; lia.
Qed.

Lemma malloc_block_run n s : ∃ p s', malloc_block n s = Some (p, s') ∧
  w_slabs s' = w_slabs s ∧ w_heap s' = w_heap s ∧ w_settings s' = w_settings s ∧
  (∀ x, x ∈ w_malloc s' → x ∈ w_malloc s) ∧
  (p = NULL ∧ w_regions s' = w_regions s ∨ p ∈ w_malloc s ∧ p ≠ NULL ∧ w_regions s' = (p, n) :: w_regions s).
Proof.
  unfold malloc_block, malloc_next. destruct (w_malloc s) as [|q l] eqn:El.
  - eexists NULL, _. split; [unfold mbind, M_bind; simpl; rewrite El; reflexivity|]. rewrite El. by split_and!; try done; left.
  - destruct (Z.eqb_spec q NULL) as [->|Hq].
    + eexists NULL, _. split; [unfold mbind, M_bind; simpl; rewrite El; reflexivity|]. simpl.
      split_and!; try done; [set_solver|by left].
    + eexists q, _. split; [unfold mbind, M_bind; simpl; rewrite El, (proj2 (Z.eqb_neq q NULL)) by done; reflexivity|]. simpl.
      split_and!; try done; [set_solver|right; set_solver].
Qed.

(** Where a page was found. *)
Definition page_source s s' len ptr : Prop :=
  ptr ∈ p_slab_list (slabcls s SLAB_GLOBAL_PAGE_POOL) ∧ w_regions s' = w_regions s ∨
  ptr ∈ w_malloc s ∧ mapped_range s' ptr len = true ∨
  m_mem_base (w_slabs s) ≠ NULL ∧ ptr = m_mem_current (w_slabs s) ∧ len ≤ m_mem_avail (w_slabs s) ∧ w_regions s' = w_regions s.

Lemma memory_allocate_run s len :
  (m_mem_base (w_slabs s) ≠ NULL → m_mem_current (w_slabs s) ≠ NULL) →
  ∃ ptr s', memory_allocate len s = Some (ptr, s') ∧ w_settings s' = w_settings s ∧
    (ptr = NULL → pages_keep s s') ∧ (ptr ≠ NULL → page_source s s' len ptr).
Proof.
  intros Hcur. unfold memory_allocate. rewrite (bind_run _ _ _ _ _ eq_refl).
  destruct (Z.eqb_spec (m_mem_base (w_slabs s)) NULL) as [Eb|Eb].
  - destruct (malloc_block_run len s) as (p & s1 & Hr & Hsl & Hh & Hse & Hm & Hp). rewrite (bind_run _ _ _ _ _ Hr).
    eexists p, _. split; [reflexivity|]. split; [done|]. split.
    + intros ->. destruct Hp as [[_ Er]|(_ & ? & _)]; [|done]. constructor; simpl; rewrite ?Hsl, ?Hh; try done.
      * intros x. unfold spare. simpl. rewrite ?Hsl. intros [?|[?|?]]; [by left|right; left; auto|by right; right].
      * intros x n. unfold mapped_range. simpl. by rewrite Er.
    + intros Hp0. destruct Hp as [[? _]|(Hin & _ & Er)]; [done|]. right. left. split; [done|].
      unfold mapped_range. simpl. rewrite Er. simpl. rewrite !(proj2 (Z.leb_le _ _)) by lia. done.
  - destruct (Z.ltb_spec (m_mem_avail (w_slabs s)) len) as [Ha|Ha].
    + exists NULL, s. split; [done|]. split; [done|]. split; [by intros; apply pages_keep_refl|done].
    + eexists (m_mem_current (w_slabs s)), _. split; [reflexivity|]. split; [done|]. split; [by intros ?%Hcur|].
      intros _. right. right. done.
Qed.

Lemma get_slab_page_run s len :
  (m_mem_base (w_slabs s) ≠ NULL → m_mem_current (w_slabs s) ≠ NULL) →
  ∀ ptr s', get_slab_page len s = Some (ptr, s') →
    w_settings s' = w_settings s ∧ (ptr = NULL → pages_keep s s') ∧ (ptr ≠ NULL → page_source s s' len ptr).
Proof.
  intros Hcur ptr s' H. unfold get_slab_page, get_page_from_global_pool in H.
  rewrite bind_assoc, (bind_run _ _ _ _ _ eq_refl) in H.
  destruct (p_slabs (slabcls s SLAB_GLOBAL_PAGE_POOL) <? 1).
  { destruct (memory_allocate_run s len Hcur) as (p & s1 & Hr & ? & ? & ?). rewrite (bind_run _ _ _ _ _ eq_refl) in H.
    simpl in H. rewrite Hr in H. by injection H as <- <-. }
  rewrite bind_assoc in H. apply bind_inv in H as (q & s1 & Hg & H). unfold arr_get in Hg.
  destruct (0 <=? _); [|done]. destruct (_ !! _) eqn:El; [|done]. injection Hg as <- <-.
  apply list_elem_of_lookup_2 in El. rewrite bind_assoc, (bind_run _ _ _ _ _ eq_refl), (bind_run _ _ _ _ _ eq_refl) in H.
  match type of H with _ ?w = _ => set (s2 := w) in H end.
  assert (Hk : pages_keep s s2).
  { unfold s2. constructor; simpl; try done.
    - intros x. unfold upd. by destruct (Z.eqb_spec x SLAB_GLOBAL_PAGE_POOL) as [->|].
    - intros x. unfold room. simpl. unfold upd. destruct (Z.eqb_spec x SLAB_GLOBAL_PAGE_POOL) as [->|]; [|done].
      simpl. lia. }
  destruct (Z.eqb_spec z NULL) as [->|Hz].
  - destruct (memory_allocate_run s2 len Hcur) as (p & s3 & Hr & ? & Hn & Hp). rewrite Hr in H. injection H as <- <-.
    split; [done|]. split; [intros; by eapply pages_keep_trans; [|apply Hn]|].
    intros Hp0. destruct (Hp Hp0) as [[Hin ?]|?]; [left|by right]. split; [by apply (pk_pool _ _ Hk)|done].
  - injection H as <- <-. split; [done|]. split; [done|]. intros _. by left.
Qed.

(** The page a class is given is free and mapped. *)
Lemma supply_fresh s D R id s1 s2 ptr :
  slabs_ok s D → supply s D R id → grow_slab_list id s = Some (true, s1) → get_slab_page (slab_page_len s id) s1 = Some (ptr, s2) →
  ptr ≠ NULL → page_fresh s2 D ptr (slab_page_len s id) ∧ ∀ y, 0 < R y → ¬ in_page ptr (slab_page_len s id) y.
Proof.
  intros Hok [A1 A2 A3 A4 A5 A6 A7 A8 A9] Hg Hp Hn.
  assert (Hid : id ≠ SLAB_GLOBAL_PAGE_POOL) by (unfold SLAB_GLOBAL_PAGE_POOL; lia).
  destruct (so_lists _ _ Hok id) as (Hl & _).
  destruct (grow_keep s s1 id true Hg Hid) as (Hk & _ & Hma); [lia|].
  destruct (get_slab_page_run s1 (slab_page_len s id)) with (ptr := ptr) (s' := s2) as (_ & _ & Hsrc); [|done|].
  { rewrite (pk_base _ _ Hk), (pk_current _ _ Hk). intros H. by apply A7. }
  specialize (Hsrc Hn).
  assert (Hspare : spare s ptr ∧ mapped_range s2 ptr (slab_page_len s id) = true).
  { destruct Hsrc as [[Hin Er]|[[Hin Hmap]|(Hb & -> & Ha & Er)]].
    - apply (pk_pool _ _ Hk) in Hin. split; [by left|]. unfold mapped_range. rewrite Er. apply (pk_map _ _ Hk). by apply A6.
    - split; [right; left; auto|done].
    - rewrite (pk_base _ _ Hk) in Hb. rewrite (pk_current _ _ Hk). split; [by right; right|].
      unfold mapped_range. rewrite Er. apply (pk_map _ _ Hk). apply A7; [done|]. by rewrite <- (pk_avail _ _ Hk). }
  destruct Hspare as [Hspare Hmap]. split; [|intros y Hy; by apply A9]. split; [by apply A5|]. split; [done|].
  intros q x Hx. by apply (A8 ptr q).
Qed.

(** A class that gets no page. *)
Lemma newslab_keep s D R id s' :
  slabs_ok s D → supply s D R id → do_slabs_newslab id s = Some (false, s') → pages_keep s s' ∧ w_settings s' = w_settings s.
Proof.
  intros Hok Hsu H. unfold do_slabs_newslab in H. rewrite (bind_run _ _ _ _ _ eq_refl) in H. cbv zeta in H.
  destruct (_ && _ && _ && _).
  { injection H as <-. split; [|done]. constructor; done. }
  apply bind_inv in H as (b & s1 & Hg & H). destruct (so_lists _ _ Hok id) as (Hl & _).
  destruct Hsu as [A1 A2 A3 A4 A5 A6 A7 A8 A9].
  destruct (grow_keep s s1 id b Hg) as (Hk & _ & Hma); [unfold SLAB_GLOBAL_PAGE_POOL; lia|lia|].
  assert (Es1 : w_settings s1 = w_settings s).
  { unfold grow_slab_list in Hg. rewrite (bind_run _ _ _ _ _ eq_refl) in Hg. destruct (_ =? _); [|by injection Hg as _ <-].
    apply bind_inv in Hg as (q & s0 & Hm & Hg). assert (w_settings s0 = w_settings s) as <-.
    { unfold malloc_next in Hm. destruct (w_malloc s); by injection Hm as _ <-. }
    destruct (q =? NULL); by injection Hg as _ <-. }
  destruct b; simpl in H; [|by injection H as <-].
  apply bind_inv in H as (ptr & s2 & Hp & H).
  destruct (get_slab_page_run s1 (slab_page_len s id)) with (ptr := ptr) (s' := s2) as (Es2 & Hk2 & _); [|done|].
  { rewrite (pk_base _ _ Hk), (pk_current _ _ Hk). intros Hb. by apply A7. }
  destruct (Z.eqb_spec ptr NULL) as [->|Hn].
  - injection H as <-. split; [by eapply pages_keep_trans; [|apply Hk2]|congruence].
  - apply bind_inv in H as (? & s3 & _ & H). apply bind_inv in H as (? & s4 & _ & H). apply bind_inv in H as (? & s5 & _ & H).
    by injection H.
Qed.

(** ** A chunk for an item *)

(** A step of the allocator that leaves the headers in use alone. *)
Lemma cache_ok_slab s s' m R D D' (P : Z → Prop) :
  cache_ok s m R D → slabs_ok s' D' → slab_frame s s' → m_power_largest (w_slabs s') = m_power_largest (w_slabs s) →
  (∀ id, D' (LruQ id) = D (LruQ id)) → lsame_out P (w_heap s) (w_heap s') →
  (∀ id x, x ∈ D (LruQ id) → ¬ P x) → (∀ x, 0 < R x → ¬ P x ∧ ((∀ q, x ∉ D q) → ∀ q, x ∉ D' q)) →
  Z.of_nat (size (w_heap s')) < 2 ^ 31 → cache_ok s' m R D'.
Proof.
  intros [Ha Hs Hl Hqd Hm Hh Hr Hi Hhi Hsz] Hs' Hf Hpl Hlru Hsame HP HR Hsz'.
  pose proof (lsame_out_csame _ _ _ Hsame) as Hcs. unfold slab_frame in Hf.
  assert (Ew : w_lru s' = w_lru s ∧ w_assoc s' = w_assoc s ∧ w_stats s' = w_stats s) by by rewrite Hf.
  destruct Ew as (El & Ea & Est).
  constructor; rewrite ?El, ?Est; try done.
  - apply (assoc_rep_ext s); [done| |done]. intros k x Hx. destruct (Hm k x Hx) as [id Hid].
    apply (lsame_out_hcore _ _ _ _ Hsame). by eapply HP.
  - intros id. rewrite El, Hlru. destruct (Hl id) as (? & ? & ? & ?). split_and!; try done.
    rewrite (sum_bytes_ext (w_heap s)); [done|]. intros x Hx. apply ctl_bytes, Hcs. by eapply HP.
  - intros id x Hx. rewrite Hlru in Hx. destruct (Hqd id x Hx) as (ix & Hix & H1 & H2 & H3 & H4 & H5).
    destruct (csame_lookup _ _ _ x ix Hcs (HP _ _ Hx) Hix) as (ix' & Hix' & Hc).
    exists ix'. split; [done|]. unfold queued_ok. rewrite Hpl, (ITEM_key_ctl _ _ Hc).
    pose proof (ctl_fields _ _ Hc) as (-> & -> & -> & _). split_and!; try done. by apply (item_ok_ctl _ ix).
  - intros k x Hx. destruct (Hm k x Hx) as [id Hid]. exists id. by rewrite Hlru.
  - intros x Hx. destruct (HR x Hx) as [HnP Hn'].
    destruct (Hh x Hx) as [[id Hid]|(? & Hnx & ix & Hix & H1 & H2 & H3)]; [left; exists id; by rewrite Hlru|right].
    destruct (csame_lookup _ _ _ x ix Hcs HnP Hix) as (ix' & Hix' & Hc).
    split_and!; [done|by apply Hn'|]. exists ix'. split; [done|]. unfold held_ok. rewrite Hpl.
    pose proof (ctl_fields _ _ Hc) as (-> & -> & _). split_and!; try done. by apply (item_ok_ctl _ ix).
Qed.

Lemma slab_pull_frame s s' : slab_frame s s' → pull_frame s s'.
Proof. intros H. unfold slab_frame in H. constructor; by rewrite H. Qed.

(** An item in use is on no free list. *)
Lemma in_use_not_free s m R D x id :
  cache_ok s m R D → 0 < R x ∨ (∃ k, m !! k = Some x) → x ∉ D (FreeQ id).
Proof.
  intros Hok Hx Hin. pose proof (so_queues _ _ (co_slabs _ _ _ _ Hok)) as Hq.
  assert ((∃ i, x ∈ D (LruQ i)) ∨ ∀ q, x ∉ D q) as [[i Hi]|Hn].
  { destruct Hx as [HR|[k Hk]]; [|left; by eapply co_mapped].
    destruct (co_held _ _ _ _ Hok x HR) as [?|(_ & ? & _)]; auto. }
  - by pose proof (qo_disj _ _ Hq _ _ _ Hi Hin).
  - by apply (Hn (FreeQ id)).
Qed.

(** The chunk [r] has been handed out. *)
Record chunk_out s m R s' D' r : Prop := {
  ck_ok : cache_ok s' m R D';
  ck_null : r ≠ NULL;
  ck_out : ∀ q, r ∉ D' q;
  ck_unused : R r = 0;
  ck_frame : pull_frame s s';
  ck_locks : w_locks s' = w_locks s;
  ck_same : ∀ x, 0 < R x ∨ (∃ k, m !! k = Some x) → ctl <$> w_heap s' !! x = ctl <$> w_heap s !! x;
  ck_hdr : ∃ it, w_heap s' !! r = Some it ∧ i_it_flags it = 0 ∧ i_refcount it = 1;
  ck_geom : m_power_largest (w_slabs s') = m_power_largest (w_slabs s)
}.

Lemma pop_step s m R D id p l :
  cache_ok s m R D → D (FreeQ id) = p :: l →
  ∃ s' D', slots_pop id s = Some (p, s') ∧ chunk_out s m R s' D' p ∧
    D' = qset D (FreeQ id) l ∧ mem_frame s s' ∧ same_pages (w_slabs s) (w_slabs s') ∧
    csame_out (λ x, x = p) (w_heap s) (w_heap s') ∧ dom (w_heap s') = dom (w_heap s).
Proof.
  intros Hok HD. pose proof (co_slabs _ _ _ _ Hok) as Hs.
  destruct (slots_pop_ok s D id p l Hs HD) as (h' & m' & it & Hrun & Hs' & Hnin & Hp & Hp' & Hsame & Hcs).
  assert (Hin : p ∈ D (FreeQ id)) by (rewrite HD; set_solver).
  assert (Hne : ∀ x, 0 < R x ∨ (∃ k, m !! k = Some x) → x ≠ p).
  { intros x Hx ->. by apply (in_use_not_free _ _ _ _ _ id Hok) in Hx. }
  destruct (queue_mem _ _ _ _ (so_queues _ _ Hs) Hin) as (_ & _ & Hp0).
  pose proof (lsame_out_csame _ _ _ Hsame) as Hc.
  assert (Hdom : dom h' = dom (w_heap s)) by (apply (csame_dom p); [done|by eexists..]).
  eexists _, _. split; [exact Hrun|]. split; [|split_and!; try done; exact (class_set_pages _ _ _ _ _ Hcs)].
  constructor; try done.
  - apply (cache_ok_slab s _ m R D _ (λ x, x = p)); try done.
    + by apply (class_set_largest _ _ _ _ Hcs).
    + intros i x Hx. apply Hne. right. destruct (co_queued _ _ _ _ Hok i x Hx) as (ix & _ & _ & _ & _ & _ & ?). eauto.
    + intros x Hx. split; [apply Hne; by left|]. intros Hn q. unfold qset. case_decide; [|by apply Hn].
      intros Hx'. apply (Hn (FreeQ id)). rewrite HD. set_solver.
    + simpl. rewrite <- (size_dom (D := gset Z)), Hdom, size_dom. apply Hok.
  - destruct (decide (R p = 0)) as [|HR]; [done|]. pose proof (co_refs _ _ _ _ Hok p). by destruct (Hne p); [left; lia|].
  - intros x Hx. apply Hc. by apply Hne.
  - destruct (so_free _ _ Hs id p Hin) as (_ & it' & Hit' & Hfl & _). assert (it' = it) as -> by congruence.
    exists (allocated it). split_and!; [done|by apply clear_slabbed|done].
  - by apply (class_set_largest _ _ _ _ Hcs).
Qed.

Lemma supply_pages s D R id : slabs_ok s D → supply s D R id → pages_fresh s D id.
Proof. intros Hok Hsu s1 s2 ptr Hg Hp Hn. by destruct (supply_fresh s D R id s1 s2 ptr). Qed.

Lemma elem_of_rev {A} (l : list A) x : x ∈ rev l → x ∈ l.
Proof. induction l as [|y l IH]; simpl; [done|]. rewrite elem_of_app, list_elem_of_singleton. set_solver. Qed.

Lemma size_list_to_set_le (l : list Z) : (size (list_to_set (C := gset Z) l) ≤ length l)%nat.
Proof.
  induction l as [|y l IH]; [done|]. rewrite list_to_set_cons, size_union_alt, size_singleton. simpl.
  pose proof (subseteq_size (list_to_set (C := gset Z) l ∖ {[y]}) (list_to_set l) ltac:(set_solver)). lia.
Qed.

(** The class is given a page. *)
Lemma newslab_step s m R D id :
  cache_ok s m R D → supply s D R id → D (FreeQ id) = [] →
  ∃ b s1, do_slabs_newslab id s = Some (b, s1) ∧
    if (b : bool) then ∃ D1 p l, D1 (FreeQ id) = p :: l ∧ cache_ok s1 m R D1 ∧ pull_frame s s1 ∧ w_locks s1 = w_locks s ∧
      (∀ x, 0 < R x ∨ (∃ k, m !! k = Some x) → ctl <$> w_heap s1 !! x = ctl <$> w_heap s !! x) ∧
      m_power_largest (w_slabs s1) = m_power_largest (w_slabs s)
    else cache_ok s1 m R D ∧ slab_frame s s1 ∧ w_heap s1 = w_heap s ∧ pages_keep s s1.
Proof.
  intros Hok Hsu HD. pose proof (co_slabs _ _ _ _ Hok) as Hs. pose proof (su_room _ _ _ _ Hsu) as [_ Hroom].
  destruct (su_heap _ _ _ _ Hsu) as [Hper Hheap].
  destruct (do_slabs_newslab_ok s D id Hs (su_class _ _ _ _ Hsu) (su_geom _ _ _ _ Hsu) Hroom) as (b & s1 & Hrun & Hf & Hres);
    [rewrite HD; simpl; lia|by eapply supply_pages|].
  exists b, s1. split; [done|]. destruct b.
  - destruct Hres as (ptr & Hs1 & Hdisj & Hin & Hsame & _ & Hpl & _ & _ & (s2 & s3 & Hg & Hp & Hn) & Hdom).
    set (l := chunks _ _ _) in *.
    destruct (supply_fresh s D R id s2 s3 ptr Hs Hsu Hg Hp Hn) as [_ Hheld].
    assert (Hmem : ∀ x, x ∈ l → in_page ptr (slab_page_len s id) x).
    { intros x Hx. destruct (Hin x Hx). destruct (su_geom _ _ _ _ Hsu). unfold in_page. lia. }
    assert (Hlen : length (rev l) = Z.to_nat (p_perslab (slabcls s id))) by (unfold l; by rewrite length_rev, length_chunks).
    destruct (rev l) as [|p l'] eqn:Erev; [simpl in Hlen; lia|].
    assert (HnP : ∀ x, 0 < R x ∨ (∃ k, m !! k = Some x) → ¬ in_page ptr (slab_page_len s id) x).
    { intros x [HR|[k Hk]]; [by apply Hheld|]. destruct (co_mapped _ _ _ _ Hok k x Hk) as [i Hi]. by eapply Hdisj. }
    exists (qset D (FreeQ id) ((p :: l') ++ D (FreeQ id))), p, (l' ++ D (FreeQ id)).
    split; [by rewrite qset_eq|]. split_and!.
    + apply (cache_ok_slab s _ m R D _ (in_page ptr (slab_page_len s id))); try done.
      * intros i x Hx. by eapply Hdisj.
      * intros x Hx. split; [apply HnP; by left|]. intros Hnx q. unfold qset. case_decide; [|by apply Hnx].
        rewrite elem_of_app. intros [Hx'|Hx']; [|by apply (Hnx (FreeQ id))].
        apply (HnP x); [by left|]. apply Hmem, elem_of_rev. by rewrite Erev.
      * apply subseteq_size in Hdom. rewrite size_dom, size_union_alt, size_dom in Hdom.
        pose proof (size_list_to_set_le l). pose proof (subseteq_size (list_to_set l ∖ dom (w_heap s)) (list_to_set l) ltac:(set_solver)).
        rewrite <- (length_rev l), Erev in *. simpl in *. lia.
    + by apply slab_pull_frame.
    + unfold slab_frame in Hf. by rewrite Hf.
    + intros x Hx. apply (lsame_out_csame _ _ _ Hsame). by apply HnP.
    + done.
  - destruct Hres as (Hs1 & Hh & Hpl & _). split; [|split; [done|split; [done|by eapply newslab_keep]]].
    apply (cache_ok_slab s _ m R D _ (λ _, False)); try done; [by rewrite Hh|tauto|tauto|rewrite Hh; apply Hok].
Qed.

Lemma slabs_alloc_step s m R D size id :
  cache_ok s m R D → supply s D R id → size ≤ p_size (slabcls s id) →
  ∃ r s' D', slabs_alloc size id 0 s = Some (r, s') ∧
    (r = NULL ∧ pulled s m R D s' m R D' [] ∧ w_locks s' = w_locks s ∨ chunk_out s m R s' D' r).
Proof.
  intros Hok Hsu Hsz. pose proof (co_slabs _ _ _ _ Hok) as Hs. destruct (so_slots _ _ Hs id) as (_ & Hc & _).
  unfold slabs_alloc. rewrite (do_slabs_alloc_entry _ _ _ _ _ Hs (su_class _ _ _ _ Hsu) Hsz), Hc.
  destruct (D (FreeQ id)) as [|p l] eqn:HD; simpl.
  - destruct (newslab_step s m R D id Hok Hsu HD) as (b & s1 & Hrun & Hres).
    rewrite (bind_run _ _ _ tt s1) by (by rewrite (bind_run _ _ _ _ _ Hrun)). destruct b.
    + destruct Hres as (D1 & p & l & HD1 & Hok1 & Hf1 & Hl1 & Hsame1 & Hpl1).
      destruct (pop_step s1 m R D1 id p l Hok1 HD1) as (s2 & D2 & Hr2 & [E1 E2 E3 E4 E5 E6 E7 E8 E9] & _).
      exists p, s2, D2. split; [done|]. right. constructor; try done.
      * by eapply pull_frame_trans.
      * congruence.
      * intros x Hx. by rewrite E7, Hsame1.
      * congruence.
    + destruct Hres as (Hok1 & Hf1 & Hh1 & Hk1). exists NULL, s1, D.
      split; [by eapply slots_pop_empty; [apply Hok1|]|]. left. split; [done|]. split; [|unfold slab_frame in Hf1; by rewrite Hf1].
      constructor; rewrite ?Hh1; eauto; [by apply slab_pull_frame|congruence].
  - rewrite (bind_run _ _ _ _ _ eq_refl).
    destruct (pop_step s m R D id p l Hok HD) as (s2 & D2 & Hr2 & Hout & _). exists p, s2, D2. auto.
Qed.

(** ** Making room *)

(** A pull that hands no item out. *)
Lemma pull_plain s m R D orig_id cur_lru total_bytes flags max_age :
  cache_ok s m R D → pull_pre s m R → flag flags LRU_PULL_RETURN_ITEM = false →
  ∃ r s' m' D' ev, lru_pull_tail orig_id cur_lru total_bytes flags max_age s = Some (r, s') ∧
    pulled s m R D s' m' R D' ev ∧ w_locks s' = w_locks s ∧ (length ev ≤ 1)%nat ∧
    (flag flags LRU_PULL_EVICT = false → ev = []).
Proof.
  intros Hok Hpre Hfl.
  destruct (lru_pull_tail_ok s m R D orig_id cur_lru total_bytes flags max_age Hok Hpre) as
    (removed & ret & s' & m' & R' & D' & ev & Hrun & [A1 A2 A3 A4 A5 A6] & Hnone); [congruence|].
  rewrite (Hnone Hfl) in *. destruct A6 as [HR Hl]. eexists _, s', m', D', ev. split; [exact Hrun|].
  split_and!; try done; [eapply pulled_R; [|exact A1]; done|].
  intros He. destruct ev; [done|]. by rewrite A4 in He.
Qed.

Lemma supply_pulled s m R D s' m' D' ev id :
  cache_ok s m R D → pulled s m R D s' m' R D' ev → supply s D R id → supply s' D' R id.
Proof.
  intros Hok H. apply supply_keep; [apply H|apply H|apply H|]. intros x Hx. by left.
Qed.

(** The result of looking for a chunk: what was pulled on the way, and the chunk. *)
Definition alloc_result (n : nat) s m R D it s' : Prop :=
  ∃ s1 m' D1 D' ev, pulled s m R D s1 m' R D1 ev ∧ w_locks s1 = w_locks s ∧ (length ev ≤ n)%nat ∧
    (it = NULL ∧ s' = s1 ∨ chunk_out s1 m' R s' D' it).

Lemma alloc_result_trans n1 n2 s m R D s1 m1 D1 ev it s' :
  cache_ok s m R D → pulled s m R D s1 m1 R D1 ev → w_locks s1 = w_locks s → (length ev ≤ n1)%nat →
  alloc_result n2 s1 m1 R D1 it s' → alloc_result (n1 + n2) s m R D it s'.
Proof.
  intros Hok H1 Hl Hn (s2 & m' & D2 & D' & ev' & H2 & Hl2 & Hn2 & Hres).
  exists s2, m', D2, D', (ev ++ ev'). split; [by eapply pulled_trans|]. split; [congruence|]. split; [rewrite length_app; lia|done].
Qed.

Lemma alloc_pull_loop_ok n : ∀ s m R D i ntotal id,
  cache_ok s m R D → pull_pre s m R → supply s D R id → ntotal ≤ p_size (slabcls s id) →
  ∃ it j s', alloc_pull_loop n i ntotal id s = Some ((it, j), s') ∧ alloc_result n s m R D it s'.
Proof.
  induction n as [|n IH]; intros s m R D i ntotal id Hok Hpre Hsu Hsz; cbn [alloc_pull_loop].
  { eexists _, _, s. split; [reflexivity|]. exists s, m, D, D, []. split_and!; try done; [by apply pulled_refl|by left]. }
  rewrite (bind_run _ _ _ _ _ eq_refl).
  assert (∃ s1 m1 D1, (if negb (o_lru_segmented (w_settings s)) then lru_pull_tail id COLD_LRU 0 0 0 ;; mret tt else mret tt) s
      = Some (tt, s1) ∧ pulled s m R D s1 m1 R D1 [] ∧ w_locks s1 = w_locks s) as (s1 & m1 & D1 & Hr1 & H1 & Hl1).
  { destruct (negb _).
    - destruct (pull_plain s m R D id COLD_LRU 0 0 0 Hok Hpre eq_refl) as (r & s1 & m1 & D1 & ev & Hr & Hp & Hl & _ & Hev).
      rewrite (Hev eq_refl) in Hp. exists s1, m1, D1. rewrite (bind_run _ _ _ _ _ Hr). done.
    - exists s, m, D. split_and!; try done. by apply pulled_refl. }
  rewrite (bind_run _ _ _ _ _ Hr1). pose proof (pu_ok _ _ _ _ _ _ _ _ _ H1) as Hok1.
  pose proof (pull_pre_step _ _ _ _ _ _ _ _ _ H1 Hpre) as Hpre1. pose proof (supply_pulled _ _ _ _ _ _ _ _ _ Hok H1 Hsu) as Hsu1.
  assert (Hsz1 : ntotal ≤ p_size (slabcls s1 id)) by (by rewrite (proj1 (pk_geom _ _ (pu_pages _ _ _ _ _ _ _ _ _ H1) id))).
  destruct (slabs_alloc_step s1 m1 R D1 ntotal id Hok1 Hsu1 Hsz1) as (r & s2 & D2 & Hr2 & [(-> & H2 & Hl2)|Hout]).
  2:{ rewrite (bind_run _ _ _ _ _ Hr2), (proj2 (Z.eqb_neq r NULL)) by apply Hout. eexists _, _, s2. split; [reflexivity|].
      exists s1, m1, D1, D2, []. split_and!; try done; [simpl; lia|by right]. }
  rewrite (bind_run _ _ _ _ _ Hr2). simpl.
  pose proof (pulled_trans _ _ _ _ _ _ _ _ _ _ _ _ _ _ Hok H1 H2) as H02. pose proof (pu_ok _ _ _ _ _ _ _ _ _ H02) as Hok2.
  pose proof (pull_pre_step _ _ _ _ _ _ _ _ _ H02 Hpre) as Hpre2.
  destruct (pull_plain s2 m1 R D2 id COLD_LRU 0 LRU_PULL_EVICT 0 Hok2 Hpre2 eq_refl) as
    (r & s3 & m3 & D3 & ev & Hr3 & H3 & Hl3 & Hone & _).
  rewrite (bind_run _ _ _ _ _ Hr3).
  pose proof (pulled_trans _ _ _ _ _ _ _ _ _ _ _ _ _ _ Hok H02 H3) as H03. simpl in H03.
  assert (Hnext : ∀ s4 m4 D4 j, pulled s m R D s4 m4 R D4 ev → w_locks s4 = w_locks s →
    ∃ it j' s', alloc_pull_loop n j ntotal id s4 = Some ((it, j'), s') ∧ alloc_result (S n) s m R D it s').
  { intros s4 m4 D4 j H4 Hl4. destruct (IH s4 m4 R D4 j ntotal id) as (it & j' & s' & Hr & Hres).
    - apply H4.
    - by eapply pull_pre_step.
    - exact (supply_pulled _ _ _ _ _ _ _ _ _ Hok H4 Hsu).
    - by rewrite (proj1 (pk_geom _ _ (pu_pages _ _ _ _ _ _ _ _ _ H4) id)).
    - exists it, j', s'. split; [done|]. by apply (alloc_result_trans 1 n s m R D s4 m4 D4 ev). }
  destruct (r.1 <=? 0).
  - destruct (o_lru_segmented (w_settings s)).
    + pose proof (pull_pre_step _ _ _ _ _ _ _ _ _ H03 Hpre) as Hpre3.
      destruct (pull_plain s3 m3 R D3 id HOT_LRU 0 0 0 (pu_ok _ _ _ _ _ _ _ _ _ H03) Hpre3 eq_refl) as
        (r4 & s4 & m4 & D4 & ev4 & Hr4 & H4 & Hl4 & _ & Hev4). rewrite (Hev4 eq_refl) in H4.
      rewrite (bind_run _ _ _ _ _ Hr4). apply (Hnext _ m4 D4); [|congruence].
      pose proof (pulled_trans _ _ _ _ _ _ _ _ _ _ _ _ _ _ Hok H03 H4) as H04. by rewrite app_nil_r in H04.
    + eexists _, _, s3. split; [reflexivity|]. exists s3, m3, D3, D3, ev. split_and!; try done; [congruence|lia|by left].
  - apply (Hnext _ m3 D3); [done|congruence].
Qed.

Lemma chunk_out_same s m R s' D' it s'' :
  chunk_out s m R s' D' it → pull_frame s' s'' → w_heap s'' = w_heap s' → w_assoc s'' = w_assoc s' → w_slabs s'' = w_slabs s' →
  w_stats s'' = w_stats s' → w_locks s'' = w_locks s' → (∃ i, w_lru s'' = (w_lru s') <| l_itemstats := i |>) →
  chunk_out s m R s'' D' it.
Proof.
  intros [A1 A2 A3 A4 A5 A6 A7 A8 A9] Hf E1 E2 E3 E4 E5 [i E6]. constructor; rewrite ?E1, ?E3; try done.
  - apply (cache_ok_same s'); rewrite ?E4, ?E6; done.
  - by eapply pull_frame_trans.
  - congruence.
Qed.

Lemma do_item_alloc_pull_ok s m R D ntotal id :
  cache_ok s m R D → pull_pre s m R → supply s D R id → ntotal ≤ p_size (slabcls s id) →
  ∃ it s', do_item_alloc_pull ntotal id s = Some (it, s') ∧ alloc_result 10 s m R D it s'.
Proof.
  intros Hok Hpre Hsu Hsz. destruct (alloc_pull_loop_ok 10 s m R D 0 ntotal id Hok Hpre Hsu Hsz) as (it & j & s1 & Hr & Hres).
  unfold do_item_alloc_pull. rewrite (bind_run _ _ _ _ _ Hr). destruct (0 <? j); simpl; [|by exists it, s1].
  eexists it, _. split; [reflexivity|]. destruct Hres as (s2 & m' & D1 & D' & ev & H1 & Hl & Hn & [[-> ->]|Hout]).
  - eexists _, m', D1, D1, (ev ++ []). split; [|split; [|split; [|by left]]].
    + eapply pulled_trans; [done|exact H1|]. apply (ps_pulled NULL), same_step; try done; [apply H1|by eexists].
    + done.
    + by rewrite app_nil_r.
  - exists s2, m', D1, D', ev. split_and!; try done. right. eapply chunk_out_same; try done. by eexists.
Qed.

(** ** The new item *)

(** A chunk no list holds becomes an item of its caller. *)
Lemma cache_ok_new s m R D r it it' :
  cache_ok s m R D → r ≠ NULL → (∀ q, r ∉ D q) → R r = 0 → w_heap s !! r = Some it →
  item_ok (m_power_largest (w_slabs s)) it' → flag (i_it_flags it') ITEM_LINKED = false → i_refcount it' = 1 →
  cache_ok (s <| w_heap := <[r := it']> (w_heap s) |>) m (upd R r 1) D.
Proof.
  intros Hok Hr Hn HR Hit Hio Hl Href.
  assert (Hlru : ∀ id x, x ∈ D (LruQ id) → x ≠ r) by (intros id x Hx ->; by apply (Hn (LruQ id))).
  destruct Hok as [Ha Hs Hlr Hqd Hm Hh Hrf Hi Hhi Hsz]. constructor; simpl; try done.
  - apply (assoc_rep_ext s); [done| |done]. intros k x Hx. destruct (Hm k x Hx) as [id Hid].
    simpl. by rewrite lookup_insert_ne by (intros ->; by destruct (Hlru id x)).
  - by apply slabs_ok_heap.
  - apply (lru_ok_ext s); try done. intros id x Hx. simpl. by rewrite lookup_insert_ne by (intros ->; by destruct (Hlru id x)).
  - intros id x Hx. destruct (Hqd id x Hx) as (ix & Hix & H1 & H2 & H3 & H4 & H5). pose proof (Hlru id x Hx) as Hne.
    exists ix. rewrite lookup_insert_ne by done. unfold queued_ok. by rewrite upd_ne.
  - intros x Hx. destruct (decide (x = r)) as [->|Hne].
    + right. split_and!; [done|done|]. exists it'. rewrite lookup_insert_eq. split; [done|]. by split_and!; rewrite ?upd_eq.
    + rewrite upd_ne in Hx by done. destruct (Hh x Hx) as [?|(? & ? & ix & ? & ?)]; [by left|right].
      split_and!; [done|done|]. exists ix. rewrite lookup_insert_ne by done. unfold held_ok. by rewrite upd_ne.
  - intros x. destruct (decide (x = r)) as [->|Hne]; [rewrite upd_eq; lia|by rewrite upd_ne].
  - rewrite <- (size_dom (D := gset Z)), dom_insert_lookup_L, size_dom by by eexists. done.
Qed.

(** What the cache may have lost while the item was allocated. *)
Record outcome s m R s' m' ev : Prop := {
  oc_frame : pull_frame s s';
  oc_sub : m' ⊆ m;
  oc_lost : ∀ k p it, m !! k = Some p → m' !! k = None → w_heap s !! p = Some it → stale s it = true ∨ k ∈ ev;
  oc_vals : ∀ p it, w_heap s !! p = Some it → (0 < R p ∨ ∃ k, m' !! k = Some p) →
    ∃ it', w_heap s' !! p = Some it' ∧ val it' = val it;
  oc_held : ∀ p, 0 < R p → (∀ k, m !! k ≠ Some p) → hctl <$> w_heap s' !! p = hctl <$> w_heap s !! p
}.

Lemma pulled_outcome s m R D s1 m' D1 ev s' :
  pulled s m R D s1 m' R D1 ev → pull_frame s1 s' →
  (∀ x, 0 < R x ∨ (∃ k, m' !! k = Some x) → ctl <$> w_heap s' !! x = ctl <$> w_heap s1 !! x) →
  outcome s m R s' m' ev.
Proof.
  intros [A1 A2 A3 A4 A5 A6 A7 A8 A9] Hf Hc. constructor; try done.
  - by eapply pull_frame_trans.
  - intros p it Hp H. destruct (A5 p it Hp H) as (it1 & Hp1 & E1). pose proof (Hc p H) as Hcp. rewrite Hp1 in Hcp.
    destruct (w_heap s' !! p) as [it'|] eqn:E'; [|done]. simpl in Hcp. apply (inj Some) in Hcp.
    exists it'. split; [done|]. by rewrite (val_ctl _ _ Hcp).
  - intros p H Hn. rewrite <- A6 by done. apply fmap_hctl, Hc. by left.
Qed.

(** The header [do_item_alloc] writes into a chunk. *)
Definition new_hdr s (id : Z) (key : list Z) (flags exptime nbytes : Z) (x : item) : item :=
  x <| i_next := NULL |> <| i_prev := NULL |> <| i_h_next := NULL |>
    <| i_slabs_clsid := Z.lor id (initial_lru (w_settings s) exptime (w_current_time s)) |>
    <| i_it_flags := Z.lor (if o_use_cas (w_settings s) then ITEM_CAS else 0) (if flags =? 0 then 0 else ITEM_CFLAGS) |>
    <| i_nkey := Z.of_nat (length key) |> <| i_nbytes := nbytes |> <| i_key := key |> <| i_exptime := exptime |>
    <| i_cflags := if flags =? 0 then i_cflags x else flags |>.

Lemma lor_lru id q : 0 ≤ id < 64 → q ∈ [HOT_LRU; WARM_LRU; COLD_LRU; TEMP_LRU] →
  u8 (Z.lor id q) = Z.lor id q ∧ Z.ldiff (Z.lor id q) (Z.shiftl 3 6) = id.
Proof.
  intros Hid Hq. assert (Hall : ∀ i, (i < 64)%nat → ∀ q, q ∈ [HOT_LRU; WARM_LRU; COLD_LRU; TEMP_LRU] →
    u8 (Z.lor (Z.of_nat i) q) = Z.lor (Z.of_nat i) q ∧ Z.ldiff (Z.lor (Z.of_nat i) q) (Z.shiftl 3 6) = Z.of_nat i).
  { clear. intros i Hi q Hq. rewrite !elem_of_cons, elem_of_nil in Hq.
    do 64 (destruct i as [|i]; [destruct Hq as [->|[->|[->|[->|[]]]]]; done|]). lia. }
  rewrite <- (Z2Nat.id id) by lia. apply Hall; [lia|done].
Qed.

Lemma new_hdr_ok s id key flags exptime nbytes x :
  1 ≤ id ≤ m_power_largest (w_slabs s) → m_power_largest (w_slabs s) < 64 → 0 ≤ nbytes → i_refcount x = 1 →
  let it := new_hdr s id key flags exptime nbytes x in
  item_ok (m_power_largest (w_slabs s)) it ∧ flag (i_it_flags it) ITEM_LINKED = false ∧ i_refcount it = 1 ∧
  ITEM_key it = key ∧ ITEM_clsid it = id ∧ FLAGS_CONV it = flags.
Proof.
  intros Hid Hlt Hnb Href it.
  assert (Hcl : ITEM_clsid it = id).
  { unfold ITEM_clsid, it, new_hdr, initial_lru. simpl. apply lor_lru; [lia|].
    destruct (_ && _); [set_solver|]. destruct (o_lru_segmented _); set_solver. }
  assert (Hkey : ITEM_key it = key) by (unfold ITEM_key; simpl; rewrite Nat2Z.id; apply firstn_all).
  split_and!; try done.
  - unfold item_ok. rewrite Hcl. unfold it. simpl. split_and!; try lia; try done; [destruct (o_use_cas _), (flags =? 0); done..|].
    unfold key_ok. simpl. lia.
  - simpl. destruct (o_use_cas _), (flags =? 0); done.
  - unfold FLAGS_CONV. simpl. destruct (Z.eqb_spec flags 0) as [->|]; destruct (o_use_cas _); done.
Qed.

(** The size of an item as its header will report it. *)
Lemma item_ntotal_small use_cas nkey flags nbytes :
  0 ≤ nkey < 255 → 0 ≤ nbytes < 2 ^ 31 →
  item_ntotal use_cas nkey flags nbytes =
    (sizeof_item + nkey + 1 + nbytes + (if flags =? 0 then 0 else sizeof_uint32) + (if use_cas then sizeof_uint64 else 0),
     if flags =? 0 then 0 else sizeof_uint32).
Proof.
  intros Hk Hb. unfold item_ntotal, item_make_header, sizeof_item, sizeof_uint32, sizeof_uint64. rewrite (u8_small (nkey + 1)) by lia.
  destruct (flags =? 0), use_cas; rewrite ?u64_small by (rewrite ?u64_small; lia); f_equal; lia.
Qed.

(** The writes of [do_item_alloc] to a chunk it was given. *)
Definition fill_item (o : settings_t) (now id hdr_id it : Z) (key : list Z) (nkey flags exptime nbytes nsuffix : Z) : M world Z :=
  x ← load it;
  c_assert ((i_it_flags x =? 0) || (i_it_flags x =? ITEM_CHUNKED)) ;;
  wr it (λ x, x <| i_next := NULL |> <| i_prev := NULL |>
    <| i_slabs_clsid := u8 (Z.lor id (initial_lru o exptime now)) |>
    <| i_it_flags := Z.lor (Z.lor (i_it_flags x) (if o_use_cas o then ITEM_CAS else 0))
                       (if negb (nsuffix =? 0) then ITEM_CFLAGS else 0) |>
    <| i_nkey := u8 nkey |> <| i_nbytes := nbytes |>
    <| i_key := take (Z.to_nat nkey) key |>
    <| i_exptime := exptime |>) ;;
  when (0 <? nsuffix) (wr it (λ x, x <| i_cflags := flags |>)) ;;
  x ← load it;
  when (flag (i_it_flags x) ITEM_CHUNKED)
    (wr (ITEM_schunk it x) (λ c, c <| i_next := NULL |> <| i_prev := NULL |>
       <| i_exptime := 0 |> <| i_time := 0 |> <| i_h_next := it |> <| i_nkey := u8 hdr_id |>)) ;;
  wr it (λ x, x <| i_h_next := NULL |>) ;;
  mret it.

Lemma fill_item_run s o now id hdr_id it x key flags exptime nbytes :
  w_heap s !! it = Some x → i_it_flags x = 0 → 1 ≤ id < 64 → (length key ≤ 250)%nat →
  ∃ q, q ∈ [HOT_LRU; WARM_LRU; COLD_LRU; TEMP_LRU] ∧ q = initial_lru o exptime now ∧
  fill_item o now id hdr_id it key (Z.of_nat (length key)) flags exptime nbytes (if flags =? 0 then 0 else sizeof_uint32) s =
    Some (it, s <| w_heap := <[it := x <| i_next := NULL |> <| i_prev := NULL |> <| i_h_next := NULL |>
      <| i_slabs_clsid := Z.lor id q |>
      <| i_it_flags := Z.lor (if o_use_cas o then ITEM_CAS else 0) (if flags =? 0 then 0 else ITEM_CFLAGS) |>
      <| i_nkey := Z.of_nat (length key) |> <| i_nbytes := nbytes |> <| i_key := key |> <| i_exptime := exptime |>
      <| i_cflags := if flags =? 0 then i_cflags x else flags |>]> (w_heap s) |>).
Proof.
  intros Hit Hfl Hid Hk. exists (initial_lru o exptime now).
  assert (Hq : initial_lru o exptime now ∈ [HOT_LRU; WARM_LRU; COLD_LRU; TEMP_LRU]).
  { unfold initial_lru. destruct (_ && _); [set_solver|]. destruct (o_lru_segmented _); set_solver. }
  split; [done|]. split; [done|]. set (q := initial_lru o exptime now) in *.
  destruct (lor_lru id q) as [Hu8 _]; [lia|done|].
  unfold fill_item. rewrite (bind_run _ _ _ _ _ (load_ok _ _ _ Hit)), Hfl, (bind_run _ _ _ _ _ eq_refl).
  fold q. rewrite Hu8, (u8_small (Z.of_nat (length key))), Nat2Z.id, firstn_all by lia.
  rewrite (bind_run _ _ _ _ _ (wr_ok _ _ _ _ Hit)), Hfl.
  destruct (flags =? 0); simpl.
  - rewrite (bind_run _ _ _ _ _ eq_refl).
    erewrite bind_run; [|apply load_ok, lookup_insert_eq]. simpl.
    replace (flag _ ITEM_CHUNKED) with false by (by destruct (o_use_cas o)). rewrite (bind_run _ _ _ _ _ eq_refl).
    erewrite bind_run; [|apply wr_heap, lookup_insert_eq]. rewrite insert_insert_eq. by destruct (o_use_cas o).
  - erewrite bind_run; [|apply wr_heap, lookup_insert_eq]. rewrite insert_insert_eq.
    erewrite bind_run; [|apply load_ok, lookup_insert_eq]. simpl.
    replace (flag _ ITEM_CHUNKED) with false by (by destruct (o_use_cas o)). rewrite (bind_run _ _ _ _ _ eq_refl).
    erewrite bind_run; [|apply wr_heap, lookup_insert_eq]. rewrite insert_insert_eq. by destruct (o_use_cas o).
Qed.

(** ** The maintainer *)

Lemma juggle_pull s m R D clsid cur_lru total_bytes flags max_age :
  cache_ok s m R D → pull_pre s m R → flag flags LRU_PULL_RETURN_ITEM = false → flag flags LRU_PULL_EVICT = false →
  ∃ r s' m' D', lru_pull_tail clsid cur_lru total_bytes flags max_age s = Some (r, s') ∧
    pulled s m R D s' m' R D' [] ∧ w_locks s' = w_locks s.
Proof.
  intros Hok Hpre H1 H2. destruct (pull_plain s m R D clsid cur_lru total_bytes flags max_age Hok Hpre H1) as
    (r & s' & m' & D' & ev & Hr & Hp & Hl & _ & Hev). rewrite (Hev H2) in Hp. eauto 10.
Qed.

(** A maintainer step: no live entry is lost. *)
Definition tended s m R D s' : Prop := ∃ m' D', pulled s m R D s' m' R D' [] ∧ w_locks s' = w_locks s.

Lemma tended_refl s m R D : cache_ok s m R D → tended s m R D s.
Proof. intros Hok. exists m, D. split; [by apply pulled_refl|done]. Qed.

Lemma juggle_temp_ok n : ∀ s m R D clsid did,
  cache_ok s m R D → pull_pre s m R → ∃ r s', juggle_temp n clsid did s = Some (r, s') ∧ tended s m R D s'.
Proof.
  induction n as [|n IH]; intros s m R D clsid did Hok Hpre; cbn [juggle_temp].
  { eexists _, s. split; [reflexivity|by apply tended_refl]. }
  destruct (juggle_pull s m R D clsid TEMP_LRU 0 0 0 Hok Hpre eq_refl eq_refl) as (r & s1 & m1 & D1 & Hr & Hp & Hl).
  rewrite (bind_run _ _ _ _ _ Hr). destruct (_ <=? 0); [eexists _, s1; split; [reflexivity|by exists m1, D1]|].
  destruct (IH s1 m1 R D1 clsid (did + 1)) as (r2 & s2 & Hr2 & m2 & D2 & H2 & L2);
    [apply Hp|by eapply pull_pre_step|].
  exists r2, s2. split; [done|]. exists m2, D2. split; [exact (pulled_trans _ _ _ _ _ _ _ _ _ _ _ _ _ _ Hok Hp H2)|congruence].
Qed.

Lemma juggle_loop_ok n : ∀ s m R D clsid total hot_age warm_age did,
  cache_ok s m R D → pull_pre s m R →
  ∃ r s', juggle_loop n clsid total hot_age warm_age did s = Some (r, s') ∧ tended s m R D s'.
Proof.
  induction n as [|n IH]; intros s m R D clsid total hot_age warm_age did Hok Hpre; cbn [juggle_loop].
  { eexists _, s. split; [reflexivity|by apply tended_refl]. }
  destruct (juggle_pull s m R D clsid HOT_LRU total LRU_PULL_CRAWL_BLOCKS hot_age Hok Hpre eq_refl eq_refl) as
    (r & s1 & m1 & D1 & Hr & Hp & Hl). rewrite (bind_run _ _ _ _ _ Hr).
  pose proof (pull_pre_step _ _ _ _ _ _ _ _ _ Hp Hpre) as Hpre1. pose proof (pu_ok _ _ _ _ _ _ _ _ _ Hp) as Hok1.
  assert (∃ c s2 m2 D2, (if negb (r.1 =? 0) then mret 1
     else warm ← lru_pull_tail clsid WARM_LRU total LRU_PULL_CRAWL_BLOCKS warm_age; mret (if negb (warm.1 =? 0) then 1 else 0)) s1
     = Some (c, s2) ∧ pulled s m R D s2 m2 R D2 [] ∧ w_locks s2 = w_locks s) as (c & s2 & m2 & D2 & Hr2 & H2 & L2).
  { destruct (negb _); [by exists 1, s1, m1, D1|].
    destruct (juggle_pull s1 m1 R D1 clsid WARM_LRU total LRU_PULL_CRAWL_BLOCKS warm_age Hok1 Hpre1 eq_refl eq_refl) as
      (r2 & s2 & m2 & D2 & Hr2 & Hp2 & Hl2). eexists _, s2, m2, D2. rewrite (bind_run _ _ _ _ _ Hr2). split; [reflexivity|].
    split; [exact (pulled_trans _ _ _ _ _ _ _ _ _ _ _ _ _ _ Hok Hp Hp2)|congruence]. }
  rewrite (bind_run _ _ _ _ _ Hr2), (bind_run _ _ _ _ _ eq_refl).
  pose proof (pull_pre_step _ _ _ _ _ _ _ _ _ H2 Hpre) as Hpre2. pose proof (pu_ok _ _ _ _ _ _ _ _ _ H2) as Hok2.
  assert (∃ d s3 m3 D3, (if o_lru_segmented (w_settings s2) then
       cold ← lru_pull_tail clsid COLD_LRU total LRU_PULL_CRAWL_BLOCKS 0; mret (c + cold.1) else mret c) s2
     = Some (d, s3) ∧ pulled s m R D s3 m3 R D3 [] ∧ w_locks s3 = w_locks s) as (d & s3 & m3 & D3 & Hr3 & H3 & L3).
  { destruct (o_lru_segmented _); [|by exists c, s2, m2, D2].
    destruct (juggle_pull s2 m2 R D2 clsid COLD_LRU total LRU_PULL_CRAWL_BLOCKS 0 Hok2 Hpre2 eq_refl eq_refl) as
      (r3 & s3 & m3 & D3 & Hr3 & Hp3 & Hl3). eexists _, s3, m3, D3. rewrite (bind_run _ _ _ _ _ Hr3). split; [reflexivity|].
    split; [exact (pulled_trans _ _ _ _ _ _ _ _ _ _ _ _ _ _ Hok H2 Hp3)|congruence]. }
  rewrite (bind_run _ _ _ _ _ Hr3). destruct (d =? 0); [eexists _, s3; split; [reflexivity|by exists m3, D3]|].
  destruct (IH s3 m3 R D3 clsid total hot_age warm_age (did + 1)) as (r4 & s4 & Hr4 & m4 & D4 & H4 & L4);
    [apply H3|by eapply pull_pre_step|].
  exists r4, s4. split; [done|]. exists m4, D4. split; [exact (pulled_trans _ _ _ _ _ _ _ _ _ _ _ _ _ _ Hok H3 H4)|congruence].
Qed.



(** An item that fits one chunk of its class. *)
Definition fits s (key : list Z) (flags nbytes : Z) : Prop :=
  (1 ≤ length key ≤ 250)%nat ∧ 2 ≤ nbytes < 2 ^ 31 ∧
  (item_ntotal (o_use_cas (w_settings s)) (Z.of_nat (length key)) flags nbytes).1 ≤ o_slab_chunk_size_max (w_settings s).

Lemma do_item_alloc_one s key flags exptime nbytes id :
  fits s key flags nbytes →
  slabs_clsid (item_ntotal (o_use_cas (w_settings s)) (Z.of_nat (length key)) flags nbytes).1 s = Some (id, s) →
  do_item_alloc key (Z.of_nat (length key)) flags exptime nbytes s =
    if id =? 0 then Some (NULL, s)
    else (it ← do_item_alloc_pull (item_ntotal (o_use_cas (w_settings s)) (Z.of_nat (length key)) flags nbytes).1 id;
          if it =? NULL then
            on_itemstats id (λ x, x <| s_outofmemory := u64 (s_outofmemory x + 1) |>) ;; mret NULL
          else fill_item (w_settings s) (w_current_time s) id 0 it key (Z.of_nat (length key)) flags exptime nbytes
                 (if flags =? 0 then 0 else sizeof_uint32)) s.
Proof.
  intros (Hk & Hb & Hmax) Hcls. unfold do_item_alloc. rewrite (proj2 (Z.ltb_ge nbytes 2)) by lia.
  rewrite (bind_run _ _ _ _ _ eq_refl). cbv zeta. rewrite item_ntotal_small in * by lia. simpl in Hcls, Hmax |- *.
  rewrite (bind_run _ _ _ _ _ Hcls). destruct (id =? 0); [done|]. rewrite (proj2 (Z.ltb_ge (o_slab_chunk_size_max (w_settings s)) _)) by exact Hmax.
  rewrite bind_assoc. reflexivity.
Qed.

(** What a caller gets. *)
Definition new_item s R (r : Z) s' m' D' (key : list Z) (flags exptime nbytes : Z) : Prop :=
  cache_ok s' m' (upd R r 1) D' ∧ R r = 0 ∧
  ∃ it, held s' (upd R r 1) r it ∧ ITEM_key it = key ∧ i_nbytes it = nbytes ∧ i_exptime it = exptime ∧
    FLAGS_CONV it = flags ∧ flag (i_it_flags it) ITEM_CAS = o_use_cas (w_settings s) ∧
    flag (i_it_flags it) ITEM_CHUNKED = false ∧ i_nkey it = Z.of_nat (length key).

(** [do_item_alloc] for an item that fits one chunk. *)
Lemma do_item_alloc_ok s m R D key flags exptime nbytes :
  cache_ok s m R D → pull_pre s m R → classes_sorted (w_slabs s) →
  o_slab_chunk_size_max (w_settings s) ≤ p_size (slabcls s (m_power_largest (w_slabs s))) →
  (∀ id, 1 ≤ id ≤ m_power_largest (w_slabs s) → supply s D R id) → fits s key flags nbytes →
  ∃ r s' m' D' ev,
    do_item_alloc key (Z.of_nat (length key)) flags exptime nbytes s = Some (r, s') ∧
    outcome s m R s' m' ev ∧ (length ev ≤ 10)%nat ∧ w_locks s' = w_locks s ∧
    (r = NULL ∧ cache_ok s' m' R D' ∨ r ≠ NULL ∧ new_item s R r s' m' D' key flags exptime nbytes).
Proof.
  intros Hok Hpre Hsort Hmaxsz Hsupply Hfits. pose proof Hfits as (Hk & Hb & Hmax).
  pose proof (co_slabs _ _ _ _ Hok) as Hs. pose proof (so_largest _ _ Hs) as Hlg. unfold MAX_NUMBER_OF_SLAB_CLASSES in Hlg.
  destruct (slabs_clsid_spec s (item_ntotal (o_use_cas (w_settings s)) (Z.of_nat (length key)) flags nbytes).1) as
    (id & Hcls & _ & Hid); [lia|done|rewrite item_ntotal_small by lia; unfold sizeof_item, sizeof_uint32, sizeof_uint64; simpl;
      destruct (flags =? 0), (o_use_cas _); lia|].
  rewrite (do_item_alloc_one _ _ _ _ _ id Hfits Hcls). destruct (Z.eqb_spec id 0) as [->|Hid0].
  { exists NULL, s, m, D, []. split; [done|]. split; [|split; [simpl; lia|split; [done|by left]]].
    by apply (pulled_outcome s m R D s m D); [apply pulled_refl|apply pull_frame_refl|]. }
  destruct (Hid Hid0) as (Hrange & _ & Hsz).
  destruct (do_item_alloc_pull_ok s m R D _ id Hok Hpre (Hsupply id Hrange) (Hsz ltac:(lia))) as (r & s1 & Hrun & Hres).
  rewrite (bind_run _ _ _ _ _ Hrun). destruct Hres as (s0 & m' & D0 & D' & ev & Hp & Hl & Hn & [[-> ->]|Hout]).
  - eexists NULL, _, m', D0, ev. split; [reflexivity|].
    split; [|split; [done|split; [done|left; split; [done|]]]].
    + by apply (pulled_outcome s m R D s0 m' D0); [|by constructor|].
    + apply (cache_ok_same s0); try done. apply Hp.
  - pose proof Hout as [A1 A2 A3 A4 A5 A6 A7 (x & Hx & Hxf & Hxr) A9]. rewrite (proj2 (Z.eqb_neq r NULL)) by done.
    assert (El : m_power_largest (w_slabs s1) = m_power_largest (w_slabs s))
      by (rewrite A9; apply (pk_largest _ _ (pu_pages _ _ _ _ _ _ _ _ _ Hp))).
    destruct (fill_item_run s1 (w_settings s) (w_current_time s) id 0 r x key flags exptime nbytes Hx Hxf) as (q & _ & -> & Hfill); [lia|lia|].
    rewrite Hfill. set (it := new_hdr s id key flags exptime nbytes x).
    change (x <| i_next := NULL |> <| i_prev := NULL |> <| i_h_next := NULL |>
      <| i_slabs_clsid := Z.lor id (initial_lru (w_settings s) exptime (w_current_time s)) |>
      <| i_it_flags := Z.lor (if o_use_cas (w_settings s) then ITEM_CAS else 0) (if flags =? 0 then 0 else ITEM_CFLAGS) |>
      <| i_nkey := Z.of_nat (length key) |> <| i_nbytes := nbytes |> <| i_key := key |> <| i_exptime := exptime |>
      <| i_cflags := if flags =? 0 then i_cflags x else flags |>) with it.
    destruct (new_hdr_ok s id key flags exptime nbytes x) as (B1 & B2 & B3 & B4 & B5 & B6); [done|lia|lia|done|].
    eexists r, _, m', D', ev. split; [reflexivity|]. split; [|split; [done|split; [simpl; congruence|right; split; [done|]]]].
    + apply (pulled_outcome s m R D s0 m' D0); [done| |].
      * eapply pull_frame_trans; [exact A5|by constructor].
      * intros y Hy. simpl. rewrite lookup_insert_ne; [by apply A7|]. intros <-.
        destruct Hy as [?|[k Hkm]]; [lia|]. destruct (co_mapped _ _ _ _ A1 k r Hkm) as [i Hi]. by apply (A3 (LruQ i)).
    + split; [|split; [done|]].
      * apply (cache_ok_new s1 m' R D' r x it); try done. by rewrite El.
      * exists it. split; [split; [rewrite upd_eq; lia|split; [apply lookup_insert_eq|exact B2]]|]. split_and!; try done;
          simpl; destruct (flags =? 0), (o_use_cas _); done.
Qed.

End Alloc.

(** ** Witnesses

    The cache with one linked item of ItemsThm, its free memory away from the
    items in use. *)
#[local] Existing Instance jenkins_fn.

Definition shop_spare : world := shop_linked <| w_malloc := [8192; 12288] |>.

Lemma cache_ok_malloc s m R D l : cache_ok s m R D → cache_ok (s <| w_malloc := l |>) m R D.
Proof. intros H. by apply (cache_ok_same s). Qed.

Lemma shop_spare_ok : ∃ D, cache_ok shop_spare {[ [97] := 4096 ]} shop_refs D.
Proof. destruct shop_linked_ok as (D & Hok & _). exists D. apply cache_ok_malloc, Hok. Qed.

Lemma shop_pull_pre s : o_tail_repair_time (w_settings s) = 0 → pull_pre s {[ [97] := 4096 ]} shop_refs.
Proof. split; [done| |done]. intros p. unfold shop_refs. destruct (_ || _); lia. Qed.

Lemma shop_members D q x : cache_ok shop_spare {[ [97] := 4096 ]} shop_refs D → x ∈ D q → x = 4096 ∨ x = 4192.
Proof.
  intros Hok Hx. destruct (queue_mem _ _ _ _ (so_queues _ _ (co_slabs _ _ _ _ Hok)) Hx) as (it & Hit & _).
  apply elem_of_map_to_list in Hit. apply (list_elem_of_fmap_2 fst) in Hit. change (x ∈ (fst <$> map_to_list (w_heap shop_spare))) in Hit.
  assert (E : (fst <$> map_to_list (w_heap shop_spare)) = [4192; 4096]) by (vm_compute; reflexivity).
  rewrite E in Hit. clear -Hit. set_solver.
Qed.

Lemma shop_spare_at x : spare shop_spare x → x ≠ NULL → x = 8192 ∨ x = 12288.
Proof.
  intros [H|[H|[H _]]] Hn.
  - change (p_slab_list (slabcls shop_spare SLAB_GLOBAL_PAGE_POOL)) with (@nil Z) in H. by apply elem_of_nil in H.
  - change (w_malloc shop_spare) with [8192; 12288] in H. clear -H. set_solver.
  - by destruct H.
Qed.

Lemma shop_classes (P : Z → Prop) : Forall P (Z.of_nat <$> seq 1 8) → ∀ id, 1 ≤ id ≤ 8 → P id.
Proof.
  intros HF id Hid. rewrite Forall_forall in HF. apply HF. apply list_elem_of_fmap. exists (Z.to_nat id).
  split; [lia|]. apply elem_of_seq. lia.
Qed.

Lemma shop_page_len id : slab_page_len shop_spare id = 1024.
Proof. reflexivity. Qed.

Lemma shop_supply D id : cache_ok shop_spare {[ [97] := 4096 ]} shop_refs D → 1 ≤ id ≤ 8 → supply shop_spare D shop_refs id.
Proof.
  intros Hok. revert id.
  assert (Hnum : ∀ id, 1 ≤ id ≤ 8 → class_geometry shop_spare id ∧ room shop_spare id ∧ 0 < p_perslab (slabcls shop_spare id) < 2 ^ 20).
  { apply shop_classes. repeat constructor; vm_compute; try done. }
  intros id Hid. destruct (Hnum id Hid) as (Hg & Hr & Hp). constructor; try done.
  - split; [apply Hp|]. change (size (w_heap shop_spare)) with 2%nat. lia.
  - intros x Hx Hn. destruct (shop_spare_at x Hx Hn); lia.
  - intros x Hx. change (p_slab_list (slabcls shop_spare SLAB_GLOBAL_PAGE_POOL)) with (@nil Z) in Hx. apply elem_of_nil in Hx. destruct Hx.
  - intros x q y Hx Hn Hy. rewrite shop_page_len. unfold in_page.
    destruct (shop_spare_at x Hx Hn), (shop_members D q y Hok Hy); lia.
  - intros x y Hx Hn Hy. rewrite shop_page_len. unfold in_page, shop_refs in *.
    destruct (Z.eqb_spec y 4096), (Z.eqb_spec y 4192); simpl in Hy; try lia; destruct (shop_spare_at x Hx Hn); lia.
Qed.



