(* ===== verification/Rebalance.v ===== *)
(** * The page mover ([slabs.c])

    A thread that takes a page from one slab class and gives it to another. The
    page is emptied chunk by chunk: free chunks are cut out of the free list,
    items are copied to other chunks of the class or evicted, busy ones are
    visited again later. A chunk that is out of use carries the flags
    [ITEM_SLABBED|ITEM_FETCHED]. Each step holds the item lock of the item it
    moves; it is one atomic action here. *)

From S2P Require Import Prelude Bipbuf Hashes State Links Queues Assoc Slabs Items.

Section Rebalance.
Context {HF : HashFn}.

Definition SLAB_MOVE_MAX_LOOPS : Z := 1000.

Inductive move_status : Type := MOVE_PASS | MOVE_FROM_SLAB | MOVE_FROM_LRU | MOVE_BUSY | MOVE_LOCKED.

(** The flags of a chunk cleared for the move. *)
Definition CLEARED : Z := Z.lor ITEM_SLABBED ITEM_FETCHED.

(** [&slabclass[id]], read. *)
Definition slabclass_at (id : Z) : M world slabclass_t :=
  if (0 <=? id) && (id <? MAX_NUMBER_OF_SLAB_CLASSES) then gets (λ s, m_slabclass (w_slabs s) id)
  else undefined.

Definition slab_rebalance_start : M world Z :=
  s ← get_state;
  let rb := w_rebal s in
  let pl := m_power_largest (w_slabs s) in
  let no_go := if (r_s_clsid rb <? SLAB_GLOBAL_PAGE_POOL) || (pl <? r_s_clsid rb)
                  || (r_d_clsid rb <? SLAB_GLOBAL_PAGE_POOL) || (pl <? r_d_clsid rb)
                  || (r_s_clsid rb =? r_d_clsid rb) then -2 else 0 in
  slabclass_at (r_d_clsid rb) ;;
  grown ← grow_slab_list (r_d_clsid rb);
  let no_go := if negb grown then -1 else no_go in
  s_cls ← slabclass_at (r_s_clsid rb);
  let no_go := if p_slabs s_cls <? 2 then -3 else no_go in
  if negb (no_go =? 0) then mret no_go
  else
    start ← arr_get (p_slab_list s_cls) 0;
    on_rebal (λ r, r <| r_slab_start := start |>
                     <| r_slab_end := start + u32 (p_size s_cls * p_perslab s_cls) |>
                     <| r_slab_pos := start |> <| r_done := 0 |>) ;;
    when (r_s_clsid rb =? SLAB_GLOBAL_PAGE_POOL) (on_rebal (λ r, r <| r_done := 1 |>)) ;;
    completed ← malloc_next;
    on_rebal (λ r, r <| r_completed := if completed =? NULL then []
                                       else replicate (Z.to_nat (p_perslab s_cls)) 0 |>) ;;
    on_rebal (λ r, r <| r_signal := 2 |>) ;;
    on_stats (λ st, st <| st_slab_reassign_running := true |>) ;;
    mret 0.

(** The [for (x = 0; x < s_cls->perslab; x++)] loop. *)
Fixpoint rebalance_alloc_loop (n : nat) (size id : Z) : M world Z :=
  match n with
  | O => mret NULL
  | S n =>
      new_it ← do_slabs_alloc size id SLABS_ALLOC_NO_NEWPAGE;
      if new_it =? NULL then mret NULL
      else
        rb ← gets w_rebal;
        if (r_slab_start rb <=? new_it) && (new_it <? r_slab_end rb) then
          wr new_it (λ x, x <| i_refcount := 0 |> <| i_it_flags := CLEARED |>) ;;
          on_rebal (λ r, r <| r_inline_reclaim := u32 (r_inline_reclaim r + 1) |>) ;;
          rebalance_alloc_loop n size id
        else mret new_it
  end.

Definition slab_rebalance_alloc (size id : Z) : M world Z :=
  rb ← gets w_rebal;
  s_cls ← slabclass_at (r_s_clsid rb);
  rebalance_alloc_loop (Z.to_nat (p_perslab s_cls)) size id.

Definition slab_rebalance_cut_free (cls it : Z) : M world unit :=
  x ← load it;
  c_assert (i_it_flags x =? ITEM_SLABBED) ;;
  p ← gets (λ s, m_slabclass (w_slabs s) cls);
  when (p_slots p =? it) (on_slabclass cls (λ p, p <| p_slots := i_next x |>)) ;;
  q_unlink it ;;
  on_slabclass cls (λ p, p <| p_sl_curr := u32 (p_sl_curr p - 1) |>).

(** [memcpy(dst, src, n)] on slab memory: the headers that lie in the source
    range replace those of the destination range. *)
Definition shift_addr (dst src k : Z) : Z := dst + (k - src).

Definition memcpy_block (dst src n : Z) : M world unit :=
  modify (λ s, s <| w_heap :=
    kmap (shift_addr dst src) (filter (λ '(k, _), src ≤ k < src + n) (w_heap s))
    ∪ filter (λ '(k, _), ¬ (dst ≤ k < dst + n)) (w_heap s) |>).

(** [while (fch) { fch->head = new_it; fch = fch->next; }] *)
Fixpoint repoint_loop (fuel : nat) (fch new_it : Z) : M world unit :=
  match fuel with
  | O => undefined
  | S fuel =>
      if fch =? NULL then mret tt
      else
        wr fch (λ c, c <| i_h_next := new_it |>) ;;
        c ← load fch;
        repoint_loop fuel (i_next c) new_it
  end.

(** [slab_rebal.completed[offset] = 1] *)
Definition set_completed (offset : Z) : M world unit :=
  rb ← gets w_rebal;
  l ← arr_set (r_completed rb) offset 1;
  on_rebal (λ r, r <| r_completed := l |>).

(** What to do with the object at [it]: the status, and for an item whose lock
    was taken its hash and the lock. *)
Definition move_examine (cls it : Z) (is_chunk : bool) : M world (move_status * Z * Z) :=
  x ← load it;
  if i_it_flags x =? CLEARED then mret (MOVE_PASS, 0, 0)
  else if flag (i_it_flags x) ITEM_SLABBED then
    c_assert (negb is_chunk) ;;
    slab_rebalance_cut_free cls it ;;
    mret (MOVE_FROM_SLAB, 0, 0)
  else if flag (i_it_flags x) ITEM_LINKED then
    let hv := hash (ITEM_key x) in
    lk ← item_trylock hv;
    match lk with
    | None => mret (MOVE_LOCKED, hv, 0)
    | Some hold =>
        f ← fld it i_it_flags;
        let is_linked := flag f ITEM_LINKED in
        refcount ← refcount_incr it;
        status ←
          (if refcount =? 2 then mret (if is_linked then MOVE_FROM_LRU else MOVE_BUSY)
           else if (2 <? refcount) && is_linked then
             rb ← gets w_rebal;
             when (SLAB_MOVE_MAX_LOOPS <? r_busy_loops rb)
               (on_rebal (λ r, r <| r_busy_deletes := u32 (r_busy_deletes r + 1) |>) ;;
                storage_delete it ;; do_item_unlink it hv) ;;
             mret MOVE_BUSY
           else mret MOVE_BUSY);
        match status with
        | MOVE_BUSY => refcount_decr it ;; item_trylock_unlock hold ;; mret (MOVE_BUSY, hv, hold)
        | _ => mret (status, hv, hold)
        end
    end
  else mret (MOVE_BUSY, 0, 0).

(** [MOVE_FROM_LRU], the memory to copy to: none for an item that is stale, or
    when the class has no free chunk outside the page. *)
Definition move_target (cls it : Z) (is_chunk : bool) : M world Z :=
  s ← get_state;
  let s_cls := m_slabclass (w_slabs s) cls in
  x ← load it;
  let ntotal := ITEM_ntotal x in
  let ntotal := if flag (i_it_flags x) ITEM_HDR then ntotal - i_nbytes x + sizeof_item_hdr else ntotal in
  let ntotal := if negb is_chunk && flag (i_it_flags x) ITEM_CHUNKED then p_size s_cls else ntotal in
  stale ← (if negb (i_exptime x =? 0) && (i_exptime x <? w_current_time s) then mret true
           else item_is_flushed x);
  if (stale : bool) then mret NULL
  else
    new_it ← slab_rebalance_alloc (if is_chunk then p_size s_cls else ntotal) cls;
    when (new_it =? NULL)
      (on_rebal (λ r, r <| r_evictions_nomem := u32 (r_evictions_nomem r + 1) |>)) ;;
    mret new_it.

(** The same [ntotal], for the copy. *)
Definition move_bytes (s_cls : slabclass_t) (x : item) : Z :=
  if flag (i_it_flags x) ITEM_CHUNKED then p_size s_cls
  else if flag (i_it_flags x) ITEM_HDR then ITEM_ntotal x - i_nbytes x + sizeof_item_hdr
  else ITEM_ntotal x.

(** Saving a whole item, or the header chunk of a large one. *)
Definition rescue_item (cls it new_it hv : Z) : M world unit :=
  s_cls ← gets (λ s, m_slabclass (w_slabs s) cls);
  x ← load it;
  n ← fld new_it i_it_flags;
  c_assert (negb (flag n ITEM_CHUNKED)) ;;
  memcpy_block new_it it (move_bytes s_cls x) ;;
  wr new_it (λ x, x <| i_prev := NULL |> <| i_next := NULL |> <| i_h_next := NULL |>
                    <| i_it_flags := clear (i_it_flags x) ITEM_LINKED |> <| i_refcount := 0 |>) ;;
  do_item_replace it new_it hv ;;
  y ← load new_it;
  (if flag (i_it_flags y) ITEM_CHUNKED then
     let fch := ITEM_schunk new_it y in
     n ← fld fch i_next;
     wr n (λ c, c <| i_prev := fch |>) ;;
     fuel ← walk_fuel;
     repoint_loop fuel fch new_it
   else mret tt) ;;
  wr it (λ x, x <| i_refcount := 0 |> <| i_it_flags := CLEARED |>) ;;
  on_rebal (λ r, r <| r_rescues := u32 (r_rescues r + 1) |>).

(** Saving a chunk of a large item. *)
Definition rescue_chunk (it ch nch : Z) : M world unit :=
  c ← load ch;
  wr (i_prev c) (λ y, y <| i_next := nch |>) ;;
  when (negb (i_next c =? NULL)) (wr (i_next c) (λ y, y <| i_prev := nch |>)) ;;
  c ← load ch;
  memcpy_block nch ch (ch_used c + sizeof_item_chunk) ;;
  wr ch (λ x, x <| i_refcount := 0 |> <| i_it_flags := CLEARED |>) ;;
  on_rebal (λ r, r <| r_chunk_rescues := u32 (r_chunk_rescues r + 1) |>) ;;
  refcount_decr it ;;
  mret tt.

(** [slab_rebal.busy_items++; was_busy++] *)
Definition count_busy : M world Z :=
  on_rebal (λ r, r <| r_busy_items := u32 (r_busy_items r + 1) |>) ;; mret 1.

(** [MOVE_FROM_LRU]: the item is linked, locked, and only the cache and the
    mover refer to it. The result is [was_busy]. *)
Definition move_from_lru (cls it : Z) (ch : option Z) (hv hold offset : Z) : M world Z :=
  new_it ← move_target cls it (bool_decide (is_Some ch));
  was_busy ←
    (if negb (new_it =? NULL) then
       match ch with
       | None => rescue_item cls it new_it hv
       | Some ch => rescue_chunk it ch new_it
       end ;;
       set_completed offset ;; mret 0
     else
       storage_delete it ;;
       x ← load it;
       if bool_decide (ch = None) && negb (flag (i_it_flags x) ITEM_CHUNKED) then
         do_item_unlink it hv ;;
         wr it (λ x, x <| i_it_flags := CLEARED |> <| i_refcount := 0 |>) ;;
         set_completed offset ;; mret 0
       else
         do_item_unlink it hv ;;
         slabs_free it (ITEM_ntotal x) cls ;;
         count_busy);
  item_trylock_unlock hold ;;
  mret was_busy.

(** One chunk of the page that is not completed yet. *)
Definition move_chunk (cls pos offset : Z) : M world Z :=
  x ← load pos;
  tgt ← (if flag (i_it_flags x) ITEM_CHUNK then
           f ← fld (i_h_next x) i_it_flags;
           c_assert (flag f ITEM_CHUNKED) ;;
           mret (i_h_next x, Some pos)
         else mret (pos, None));
  let '(it, ch) := tgt in
  r ← move_examine cls it (bool_decide (is_Some ch));
  let '(status, hv, hold) := r in
  match status with
  | MOVE_FROM_LRU => move_from_lru cls it ch hv hold offset
  | MOVE_FROM_SLAB =>
      set_completed offset ;;
      wr it (λ x, x <| i_refcount := 0 |> <| i_it_flags := CLEARED |>) ;;
      mret 0
  | MOVE_BUSY | MOVE_LOCKED => count_busy
  | MOVE_PASS => mret 0
  end.

(** The cursor after a chunk: round again when some were busy, else done. *)
Definition move_advance (size : Z) : M world unit :=
  on_rebal (λ r, r <| r_slab_pos := r_slab_pos r + size |>) ;;
  rb ← gets w_rebal;
  when (r_slab_end rb <=? r_slab_pos rb)
    (if negb (r_busy_items rb =? 0) then
       on_rebal (λ r, r <| r_slab_pos := r_slab_start r |>) ;;
       on_stats (λ st, st <| st_slab_reassign_busy_items :=
                              u64 (st_slab_reassign_busy_items st + r_busy_items rb) |>) ;;
       on_rebal (λ r, r <| r_busy_items := 0 |> <| r_busy_loops := u32 (r_busy_loops r + 1) |>)
     else on_rebal (λ r, r <| r_done := u8 (r_done r + 1) |>)).

Definition slab_rebalance_move : M world Z :=
  rb ← gets w_rebal;
  s_cls ← slabclass_at (r_s_clsid rb);
  if p_size s_cls =? 0 then undefined
  else
    let offset := (r_slab_pos rb - r_slab_start rb) / p_size s_cls in
    c ← arr_get (r_completed rb) offset;
    was_busy ← (if c =? 0 then move_chunk (r_s_clsid rb) (r_slab_pos rb) offset else mret 0);
    move_advance (p_size s_cls) ;;
    mret was_busy.

(** [for (x = 0; x < s_cls->slabs; x++) slab_list[x] = slab_list[x+1]] *)
Fixpoint shift_pages (n : nat) (x : Z) (l : list Z) : M world (list Z) :=
  match n with
  | O => mret l
  | S n =>
      v ← arr_get l (x + 1);
      l ← arr_set l x v;
      shift_pages n (x + 1) l
  end.

(** The page leaves the front of one list for the end of another. *)
Definition hand_over_page (sid did start : Z) : M world unit :=
  on_slabclass sid (λ p, p <| p_slabs := u32 (p_slabs p - 1) |>) ;;
  s_cls ← gets (λ s, m_slabclass (w_slabs s) sid);
  l ← shift_pages (Z.to_nat (p_slabs s_cls)) 0 (p_slab_list s_cls);
  on_slabclass sid (λ p, p <| p_slab_list := l |>) ;;
  slab_list_push did start.

Definition slab_rebalance_finish : M world unit :=
  s ← get_state;
  let rb := w_rebal s in
  let sid := r_s_clsid rb in
  let did := r_d_clsid rb in
  hand_over_page sid did (r_slab_start rb) ;;
  (if SLAB_GLOBAL_PAGE_POOL <? did then
     memset0 (r_slab_start rb) (o_slab_page_size (w_settings s)) ;;
     split_slab_page_into_freelist (r_slab_start rb) did
   else if did =? SLAB_GLOBAL_PAGE_POOL then
     memset0 (r_slab_start rb) sizeof_item ;;
     on_slabs (λ m, m <| m_mem_limit_reached := false |>) ;;
     memory_release
   else mret tt) ;;
  on_rebal (λ r, r <| r_busy_loops := 0 |> <| r_done := 0 |> <| r_s_clsid := 0 |> <| r_d_clsid := 0 |>
                   <| r_slab_start := NULL |> <| r_slab_end := NULL |> <| r_slab_pos := NULL |>
                   <| r_evictions_nomem := 0 |> <| r_inline_reclaim := 0 |> <| r_rescues := 0 |>
                   <| r_chunk_rescues := 0 |> <| r_busy_deletes := 0 |> <| r_signal := 0 |>
                   <| r_completed := [] |>) ;;
  on_stats (λ st, st
    <| st_slabs_moved := u64 (st_slabs_moved st + 1) |>
    <| st_slab_reassign_rescues := u64 (st_slab_reassign_rescues st + r_rescues rb) |>
    <| st_slab_reassign_evictions_nomem := u64 (st_slab_reassign_evictions_nomem st + r_evictions_nomem rb) |>
    <| st_slab_reassign_inline_reclaim := u64 (st_slab_reassign_inline_reclaim st + r_inline_reclaim rb) |>
    <| st_slab_reassign_chunk_rescues := u64 (st_slab_reassign_chunk_rescues st + r_chunk_rescues rb) |>
    <| st_slab_reassign_busy_deletes := u64 (st_slab_reassign_busy_deletes st + r_busy_deletes rb) |>
    <| st_slab_reassign_running := false |>).

(** One turn of the loop of [slab_rebalance_thread], without its sleeping; the
    result is [was_busy]. *)
Definition slab_rebalance_turn (was_busy : Z) : M world Z :=
  rb ← gets w_rebal;
  was_busy ←
    (if r_signal rb =? 1 then
       r ← slab_rebalance_start;
       when (r <? 0) (on_rebal (λ r, r <| r_signal := 0 |>)) ;;
       mret 0
     else if negb (r_signal rb =? 0) && negb (r_slab_start rb =? NULL) then slab_rebalance_move
     else mret was_busy);
  rb ← gets w_rebal;
  when (negb (r_done rb =? 0)) slab_rebalance_finish ;;
  mret was_busy.

(** [n] turns of the loop. *)
Fixpoint slab_rebalance_turns (n : nat) (was_busy : Z) : M world Z :=
  match n with
  | O => mret was_busy
  | S n => was_busy ← slab_rebalance_turn was_busy; slab_rebalance_turns n was_busy
  end.

End Rebalance.
