(* ===== verification/RebalanceThm.v ===== *)
(** * The page mover is safe and finishes

    [page_ok s R D]: every chunk of the page being moved is free, in use, or
    cleared. A step of the mover keeps it and the cache around it; with no busy
    item left the page ends up empty, and [slab_rebalance_finish] gives it to the
    other class. The items are those that fit one chunk. *)

From S2P Require Import Prelude Bipbuf Hashes State Links Queues Assoc AssocSpec AssocThm Slabs SlabsSpec SlabsThm Items ItemsSpec ItemsAccess ItemsThm ItemsPull ItemsAlloc Rebalance.

Section Mover.
Context {HF : HashFn}.
Implicit Types (s : world) (m : gmap (list Z) Z) (R : Z → Z) (D : queues) (p : Z) (ev : list (list Z)).

(** ** Taking a chunk out of a free list *)

Lemma slab_rebalance_cut_free_ok s D cls p l1 l2 :
  slabs_ok s D → D (FreeQ cls) = l1 ++ p :: l2 →
  ∃ h' sl', slab_rebalance_cut_free cls p s = Some (tt, s <| w_heap := h' |> <| w_slabs := sl' |>) ∧
    slabs_ok (s <| w_heap := h' |> <| w_slabs := sl' |>) (qset D (FreeQ cls) (l1 ++ l2)) ∧
    (∀ q, p ∉ qset D (FreeQ cls) (l1 ++ l2) q) ∧ lsame (w_heap s) h' ∧ same_pages (w_slabs s) sl'.
Proof.
  intros Hok HD. pose proof (so_queues _ _ Hok) as Hq.
  assert (Hin : p ∈ D (FreeQ cls)) by (rewrite HD; set_solver).
  destruct (so_free _ _ Hok cls p Hin) as (Hid & it & Hp & Hfl & Hcl).
  pose proof (qo_seg _ _ Hq (FreeQ cls)) as Hseg. pose proof (qo_nodup _ _ Hq (FreeQ cls)) as Hnd. rewrite HD in Hseg, Hnd.
  destruct (dlseg_mid _ _ _ _ _ _ Hseg) as [Hp0 Hlk]. apply links_Some in Hlk as (it' & Hp' & Hnx & _).
  rewrite Hp in Hp'. apply (inj Some) in Hp'. subst it'.
  destruct (so_slots _ _ Hok cls) as (Hsl & Hc & Hmax). rewrite HD in Hsl, Hc.
  set (p1 := if p_slots (slabcls s cls) =? p then (slabcls s cls) <| p_slots := i_next it |> else slabcls s cls).
  set (m1 := if p_slots (slabcls s cls) =? p then (w_slabs s) <| m_slabclass := upd (m_slabclass (w_slabs s)) cls p1 |> else w_slabs s).
  set (s1 := s <| w_slabs := m1 |>).
  destruct (q_unlink_ok s1 D (FreeQ cls) p l1 l2 Hq HD) as (h' & Hrun & Hq' & Hnin & Hs & Hsame).
  set (p2 := (slabcls s cls) <| p_slots := hdz 0 (l1 ++ l2) |> <| p_sl_curr := Z.of_nat (length (l1 ++ l2)) |>).
  set (m2 := m1 <| m_slabclass := upd (m_slabclass m1) cls (((m_slabclass m1 cls)) <| p_sl_curr := u32 (p_sl_curr (m_slabclass m1 cls) - 1) |>) |>).
  assert (Hlen : Z.of_nat (length (l1 ++ p :: l2)) = Z.of_nat (length (l1 ++ l2)) + 1) by (rewrite !length_app; simpl; lia).
  assert (Hset : class_set (w_slabs s) cls p2 m2).
  { assert (E2 : u32 (p_sl_curr (slabcls s cls) - 1) = Z.of_nat (length (l1 ++ l2))) by (rewrite Hc, Hlen, u32_small; lia).
    pose proof (hdz_remove l1 p l2 Hnd) as Hrm. rewrite <- Hsl, <- Hnx in Hrm.
    unfold m2, m1, p1, p2. destruct (Z.eqb_spec (p_slots (slabcls s cls)) p) as [E|E].
    - split; [by destruct (w_slabs s)|]. intros x. simpl. unfold upd. destruct (Z.eqb_spec x cls) as [->|]; [|done].
      rewrite Z.eqb_refl. simpl. by rewrite E2, Hrm.
    - split; [by destruct (w_slabs s)|]. intros x. simpl. unfold upd. destruct (Z.eqb_spec x cls) as [->|]; [|done].
      rewrite E2, Hrm. by destruct (slabcls s cls). }
  exists h', m2. split_and!; try done.
  - unfold slab_rebalance_cut_free. rewrite (bind_run _ _ _ _ _ (load_ok _ _ _ Hp)), Hfl, (bind_run _ _ _ _ _ eq_refl).
    rewrite (bind_run _ _ _ _ _ eq_refl), (bind_run _ _ _ tt s1).
    2:{ unfold s1, m1, p1. destruct (_ =? p); [done|]. by destruct s. }
    erewrite bind_run by exact Hrun. unfold m2. by destruct s.
  - apply (slabs_ok_class s D cls h' (l1 ++ l2) p2 m2); try done; [lia|].
    intros x Hx. assert (Hx' : x ∈ D (FreeQ cls)) by (rewrite HD; set_solver).
    destruct (so_free _ _ Hok cls x Hx') as (_ & ix & Hix & Hf & Hcx). split; [done|].
    destruct (lsame_lookup _ _ _ _ Hs Hix) as (n & v & Hix'). eexists. split; [exact Hix'|]. done.
  - exact (class_set_pages _ _ _ _ _ Hset).
Qed.

(** ** A chunk outside the page *)

(** Only the memory and the mover's counters change. *)
Definition mover_frame s s' : Prop :=
  ∃ n, s' = s <| w_heap := w_heap s' |> <| w_slabs := w_slabs s' |>
              <| w_rebal := (w_rebal s) <| r_inline_reclaim := n |> |>.

Lemma mover_frame_refl s : mover_frame s s.
Proof. exists (r_inline_reclaim (w_rebal s)). by destruct s as [? ? ? ? ? ? ? ? ? ? ? ? ? ? []]. Qed.

Lemma mover_frame_trans s1 s2 s3 : mover_frame s1 s2 → mover_frame s2 s3 → mover_frame s1 s3.
Proof. intros [n1 E1] [n2 E2]. exists n2. rewrite E2. simpl. rewrite E1. done. Qed.

Definition in_moved s x : Prop := r_slab_start (w_rebal s) ≤ x < r_slab_end (w_rebal s).

(** A write to memory nobody uses. *)
Lemma cache_ok_unused s m R D r it it' :
  cache_ok s m R D → (∀ q, r ∉ D q) → R r = 0 → w_heap s !! r = Some it →
  cache_ok (s <| w_heap := <[r := it']> (w_heap s) |>) m R D.
Proof.
  intros Hok Hn HR Hit. apply (cache_ok_slab s _ m R D D (λ x, x = r)); try done.
  - apply slabs_ok_heap; [apply Hok|done].
  - by apply lsame_out_insert.
  - intros id x Hx ->. by apply (Hn (LruQ id)).
  - intros x Hx. split; [|done]. intros ->. lia.
  - simpl. rewrite <- (size_dom (D := gset Z)), dom_insert_lookup_L, size_dom by by eexists. apply Hok.
Qed.

(** What looking for a chunk did: the free chunks of the page it met are
    cleared, the rest of the free list is as it was. *)
Record took s D s' D' (id r : Z) (cl : list Z) : Prop := {
  tk_frame : mover_frame s s';
  tk_pages : same_pages (w_slabs s) (w_slabs s');
  tk_others : ∀ q, q ≠ FreeQ id → D' q = D q;
  tk_list : D (FreeQ id) = cl ++ (if r =? NULL then [] else [r]) ++ D' (FreeQ id);
  tk_same : csame_out (λ x, x ∈ cl ∨ r ≠ NULL ∧ x = r) (w_heap s) (w_heap s');
  tk_dom : dom (w_heap s') = dom (w_heap s);
  tk_cl : ∀ x, x ∈ cl → in_moved s x ∧ (∀ q, x ∉ D' q) ∧ ∃ it, w_heap s' !! x = Some it ∧ i_it_flags it = CLEARED;
  tk_r : r ≠ NULL → ¬ in_moved s r ∧ (∀ q, r ∉ D' q) ∧ ∃ it, w_heap s' !! r = Some it ∧ i_it_flags it = 0
}.

Lemma took_trans s D s1 D1 s2 D2 id p r cl :
  took s D s1 D1 id NULL [p] → took s1 D1 s2 D2 id r cl → took s D s2 D2 id r (p :: cl).
Proof.
  intros [A1 A2 A3 A4 A5 A6 A7 _] [B1 B2 B3 B4 B5 B6 B7 B8].
  change (NULL =? NULL) with true in A4. simpl in A4.
  assert (Hin : ∀ x, in_moved s1 x ↔ in_moved s x) by (destruct A1 as [n E]; intros x; unfold in_moved; by rewrite E).
  assert (Hp2 : ∀ q, p ∉ D2 q).
  { intros q Hq. destruct (A7 p) as (_ & Hn & _); [set_solver|]. destruct (decide (q = FreeQ id)) as [->|Hne].
    - apply (Hn (FreeQ id)). rewrite B4. set_solver.
    - rewrite B3 in Hq by done. by apply (Hn q). }
  assert (Hpn : p ∉ cl ∧ (r ≠ NULL → p ≠ r)).
  { destruct (A7 p) as (_ & Hn & _); [set_solver|]. specialize (Hn (FreeQ id)). rewrite B4 in Hn.
    destruct (Z.eqb_spec r NULL) as [->|]; set_solver. }
  constructor.
  - by eapply mover_frame_trans.
  - by eapply same_pages_trans.
  - intros q Hq. rewrite B3, A3; done.
  - rewrite A4, B4. done.
  - eapply csame_out_trans; (eapply csame_out_weaken; [|done]); simpl; intros x Hx; [|set_solver]; set_solver.
  - congruence.
  - intros x Hx. apply elem_of_cons in Hx as [->|Hx].
    + destruct (A7 p) as (? & Hn & it & Hit & Hf); [set_solver|]. split; [done|]. split; [done|].
      destruct (csame_lookup _ _ _ p it B5) as (it' & Hit' & Hc); [naive_solver|done|].
      exists it'. split; [done|]. by rewrite (proj1 (ctl_fields _ _ Hc)).
    + destruct (B7 x Hx) as (? & ? & ?). split; [by apply Hin|done].
  - intros Hr. destruct (B8 Hr) as (? & ? & ?). split; [by rewrite <- Hin|done].
Qed.

Definition cleared_hdr (it : item) : item := it <| i_refcount := 0 |> <| i_it_flags := CLEARED |>.

Lemma same_pages_cls (a a' : slabs_t) x : same_pages a a' →
  p_size (m_slabclass a' x) = p_size (m_slabclass a x) ∧ p_perslab (m_slabclass a' x) = p_perslab (m_slabclass a x) ∧
  p_slabs (m_slabclass a' x) = p_slabs (m_slabclass a x) ∧ p_slab_list (m_slabclass a' x) = p_slab_list (m_slabclass a x) ∧
  p_list_size (m_slabclass a' x) = p_list_size (m_slabclass a x).
Proof. intros [_ H]. rewrite <- (H x). done. Qed.

Lemma same_pages_largest (a a' : slabs_t) : same_pages a a' → m_power_largest a' = m_power_largest a.
Proof. intros [H _]. by rewrite <- H. Qed.

Definition reclaimed s p it : world :=
  s <| w_heap := <[p := cleared_hdr it]> (w_heap s) |>
    <| w_rebal := (w_rebal s) <| r_inline_reclaim := u32 (r_inline_reclaim (w_rebal s) + 1) |> |>.

Lemma pop_took s m R D id p l :
  cache_ok s m R D → D (FreeQ id) = p :: l → in_moved s p →
  ∃ s1 it, slots_pop id s = Some (p, s1) ∧ w_heap s1 !! p = Some it ∧ w_rebal s1 = w_rebal s ∧
    cache_ok (reclaimed s1 p it) m R (qset D (FreeQ id) l) ∧
    took s D (reclaimed s1 p it) (qset D (FreeQ id) l) id NULL [p].
Proof.
  intros Hok HD Hpg. destruct (pop_step s m R D id p l Hok HD) as (s1 & D1 & Hr & Hout & -> & Hf & Hpg1 & Hcs & Hdom).
  destruct Hout as [A1 A2 A3 A4 A5 A6 A7 (it & Hit & _) A9].
  assert (Hrb : w_rebal s1 = w_rebal s) by (unfold mem_frame in Hf; by rewrite Hf).
  exists s1, it. split; [done|]. split; [done|]. split; [done|]. split.
  - eapply cache_ok_same; [exact (cache_ok_unused s1 m R _ p it (cleared_hdr it) A1 A3 A4 Hit)|done..].
  - constructor; try done.
    + exists (u32 (r_inline_reclaim (w_rebal s) + 1)). unfold reclaimed. rewrite Hrb. unfold mem_frame in Hf. by rewrite Hf.
    + intros q Hq. by apply qset_ne.
    + by rewrite qset_eq, HD.
    + eapply csame_out_trans; [eapply csame_out_weaken; [|exact Hcs]; set_solver|]. apply csame_out_insert. set_solver.
    + simpl. rewrite dom_insert_lookup_L by by eexists. done.
    + intros x Hx. apply list_elem_of_singleton in Hx as ->. split; [done|]. split; [done|].
      eexists. split; [apply lookup_insert_eq|done].
Qed.

Lemma rebalance_alloc_loop_ok n : ∀ s m R D size id,
  cache_ok s m R D → 1 ≤ id ≤ m_power_largest (w_slabs s) → size ≤ p_size (slabcls s id) →
  ∃ r s' D' cl, rebalance_alloc_loop n size id s = Some (r, s') ∧ cache_ok s' m R D' ∧ took s D s' D' id r cl ∧
    (r = NULL → D' (FreeQ id) = [] ∨ length cl = n).
Proof.
  assert (Hnone : ∀ s m R D id, cache_ok s m R D → took s D s D id NULL []).
  { intros. constructor; try done; [apply mover_frame_refl|apply same_pages_refl|set_solver]. }
  induction n as [|n IH]; intros s m R D size id Hok Hid Hsz; cbn [rebalance_alloc_loop].
  { exists NULL, s, D, []. eauto 10. }
  assert (Halloc : do_slabs_alloc size id SLABS_ALLOC_NO_NEWPAGE s = slots_pop id s).
  { rewrite (do_slabs_alloc_entry _ D) by (try done; apply Hok). change (negb (SLABS_ALLOC_NO_NEWPAGE =? SLABS_ALLOC_NO_NEWPAGE)) with false.
    by rewrite andb_false_r, (bind_run _ _ _ _ _ eq_refl). }
  destruct (D (FreeQ id)) as [|p l] eqn:HD.
  { rewrite (bind_run _ _ _ NULL s); [exists NULL, s, D, []; eauto 10|].
    rewrite Halloc. exact (slots_pop_empty s D id (co_slabs _ _ _ _ Hok) HD). }
  destruct (queue_mem (w_heap s) D (FreeQ id) p) as (_ & _ & Hp0); [apply Hok|rewrite HD; set_solver|].
  destruct (decide (in_moved s p)) as [Hpg|Hpg].
  - destruct (pop_took s m R D id p l Hok HD Hpg) as (s1 & it & Hpop & Hit & Hrb & Hok2 & Htk).
    rewrite (bind_run _ _ _ p s1) by congruence. rewrite (proj2 (Z.eqb_neq p NULL) Hp0), (bind_run _ _ _ _ _ eq_refl), Hrb.
    destruct Hpg. rewrite (proj2 (Z.leb_le _ _)), (proj2 (Z.ltb_lt _ _)) by done. simpl.
    rewrite (bind_run _ _ _ _ _ (wr_ok _ _ _ _ Hit)), (bind_run _ _ _ tt (reclaimed s1 p it) eq_refl).
    pose proof (tk_pages _ _ _ _ _ _ _ Htk) as Hpages. destruct (same_pages_cls _ _ id Hpages) as (Esz & _).
    destruct (IH (reclaimed s1 p it) m R _ size id Hok2) as (r & s' & D' & cl & Hr & Hok' & Htk' & Hnull);
      [by rewrite (same_pages_largest _ _ Hpages)|by rewrite Esz|].
    exists r, s', D', (p :: cl). split; [exact Hr|]. split; [done|]. split; [by eapply took_trans|].
    intros E. destruct (Hnull E); [by left|right; simpl; lia].
  - destruct (pop_step s m R D id p l Hok HD) as (s1 & D1 & Hr & Hout & -> & Hf & Hpg1 & Hcs & Hdom).
    assert (Hrb : w_rebal s1 = w_rebal s) by (unfold mem_frame in Hf; by rewrite Hf).
    rewrite (bind_run _ _ _ p s1) by congruence. rewrite (proj2 (Z.eqb_neq p NULL) Hp0), (bind_run _ _ _ _ _ eq_refl), Hrb.
    replace ((r_slab_start (w_rebal s) <=? p) && (p <? r_slab_end (w_rebal s))) with false.
    2:{ symmetry. destruct (_ && _) eqn:E; [|done]. bool_props. by destruct Hpg. }
    exists p, s1, (qset D (FreeQ id) l), []. split; [done|]. destruct Hout as [A1 A2 A3 A4 A5 A6 A7 (it & Hit & Hfl & _) A9].
    split; [done|]. split; [|done]. constructor; try done.
    + exists (r_inline_reclaim (w_rebal s)). unfold mem_frame in Hf. rewrite Hf. by destruct s as [? ? ? ? ? ? ? ? ? ? ? ? ? ? []].
    + intros q Hq. by apply qset_ne.
    + by rewrite qset_eq, HD, (proj2 (Z.eqb_neq p NULL) Hp0).
    + eapply csame_out_weaken; [|exact Hcs]. naive_solver.
    + set_solver.
    + intros _. split; [done|]. split; [done|]. eauto.
Qed.

Lemma slab_rebalance_alloc_ok s m R D size id :
  cache_ok s m R D → 1 ≤ id ≤ m_power_largest (w_slabs s) → size ≤ p_size (slabcls s id) →
  0 ≤ r_s_clsid (w_rebal s) < MAX_NUMBER_OF_SLAB_CLASSES →
  ∃ r s' D' cl, slab_rebalance_alloc size id s = Some (r, s') ∧ cache_ok s' m R D' ∧ took s D s' D' id r cl ∧
    (r = NULL → D' (FreeQ id) = [] ∨ length cl = Z.to_nat (p_perslab (slabcls s (r_s_clsid (w_rebal s))))).
Proof.
  intros Hok Hid Hsz Hs. unfold slab_rebalance_alloc, slabclass_at. rewrite (bind_run _ _ _ _ _ eq_refl).
  rewrite (proj2 (Z.leb_le _ _)), (proj2 (Z.ltb_lt _ _)) by lia. rewrite (bind_run _ _ _ _ _ eq_refl).
  by apply rebalance_alloc_loop_ok.
Qed.

(** ** Copying *)

Lemma memcpy_block_one s dst src n it :
  0 < n → w_heap s !! src = Some it → (∀ x, src < x < src + n → w_heap s !! x = None) →
  (∀ x, dst < x < dst + n → w_heap s !! x = None) →
  memcpy_block dst src n s = Some (tt, s <| w_heap := <[dst := it]> (w_heap s) |>).
Proof.
  intros Hn Hsrc Hs Hd. unfold memcpy_block, modify. do 2 f_equal.
  match goal with |- s <| w_heap := ?h |> = _ => replace h with (<[dst := it]> (w_heap s)); [done|] end.
  assert (Hinj : Inj (=) (=) (shift_addr dst src)) by (intros x y; unfold shift_addr; lia).
  apply map_eq. intros k. symmetry. destruct (decide (k = dst)) as [->|Hk].
  - rewrite lookup_insert_eq. apply lookup_union_Some_l. replace dst with (shift_addr dst src src) at 1 by (unfold shift_addr; lia).
    rewrite lookup_kmap by apply _. rewrite map_lookup_filter_Some. split; [done|lia].
  - rewrite lookup_insert_ne by done. rewrite lookup_union_r.
    2:{ apply lookup_kmap_None; [apply _|]. intros i ->. rewrite map_lookup_filter_None.
        destruct (decide (src < i < src + n)); [left; auto|right]. intros x _ ?. assert (i = src) by lia. subst i.
        apply Hk. unfold shift_addr. lia. }
    destruct (w_heap s !! k) as [x|] eqn:E.
    + rewrite map_lookup_filter_Some. split; [done|]. intros ?. rewrite (Hd k) in E by lia. done.
    + rewrite map_lookup_filter_None. by left.
Qed.

(** ** The page *)

Abbreviation sid s := (r_s_clsid (w_rebal s)).
Abbreviation scls s := (slabcls s (sid s)).

Definition chunk_at s (i : Z) : Z := r_slab_start (w_rebal s) + p_size (scls s) * i.

(** Memory the cache no longer uses. *)
Definition cleared s R D p : Prop :=
  (∀ q, p ∉ D q) ∧ R p = 0 ∧ ∃ it, w_heap s !! p = Some it ∧ i_it_flags it = CLEARED.

(** An item, linked or in the hands of a caller, that fits its chunk. *)
Definition resident (sz : Z) s R D p : Prop :=
  in_use R D p ∧ ∃ it, w_heap s !! p = Some it ∧ flag (i_it_flags it) ITEM_CHUNK = false ∧ lru_bytes it ≤ sz.

Definition chunk_state s R D p : Prop :=
  p ∈ D (FreeQ (sid s)) ∨ cleared s R D p ∨ resident (p_size (scls s)) s R D p.

Record page_ok s R D : Prop := {
  pg_class : 1 ≤ sid s ≤ m_power_largest (w_slabs s);
  pg_size : 0 < p_size (scls s) ∧ 0 < p_perslab (scls s) < 2 ^ 32;
  pg_range : 0 < r_slab_start (w_rebal s) ∧
    r_slab_end (w_rebal s) = r_slab_start (w_rebal s) + p_size (scls s) * p_perslab (scls s);
  pg_solid : ∀ p x, p ∈ D (FreeQ (sid s)) ∨ (∃ i, 0 ≤ i < p_perslab (scls s) ∧ p = chunk_at s i) →
    p < x < p + p_size (scls s) → w_heap s !! x = None;
  pg_chunk : ∀ i, 0 ≤ i < p_perslab (scls s) → chunk_state s R D (chunk_at s i)
}.

(** Chunks marked as completed are cleared. *)
Definition marks_ok s R D : Prop :=
  Z.of_nat (length (r_completed (w_rebal s))) = p_perslab (scls s) ∧
  ∀ (i : nat) v, r_completed (w_rebal s) !! i = Some v → v ≠ 0 → cleared s R D (chunk_at s (Z.of_nat i)).

(** Where the mover stands. *)
Definition cursor (r : rebal_t) :=
  (r_slab_start r, r_slab_end r, r_slab_pos r, r_s_clsid r, r_d_clsid r, r_busy_loops r, r_done r, r_signal r).

(** A step that leaves the mover where it is. *)
Record page_step s R D s' R' D' : Prop := {
  st_dom : dom (w_heap s') = dom (w_heap s);
  st_pages : same_pages (w_slabs s) (w_slabs s');
  st_cursor : cursor (w_rebal s') = cursor (w_rebal s);
  st_free : ∀ x, x ∈ D' (FreeQ (sid s)) → x ∈ D (FreeQ (sid s));
  st_state : ∀ y, in_moved s y → chunk_state s R D y → chunk_state s' R' D' y;
  st_cleared : ∀ y, in_moved s y → cleared s R D y → cleared s' R' D' y
}.

Lemma cursor_fields (r r' : rebal_t) : cursor r' = cursor r →
  r_slab_start r' = r_slab_start r ∧ r_slab_end r' = r_slab_end r ∧ r_slab_pos r' = r_slab_pos r ∧
  r_s_clsid r' = r_s_clsid r ∧ r_d_clsid r' = r_d_clsid r ∧
  r_busy_loops r' = r_busy_loops r ∧ r_done r' = r_done r ∧ r_signal r' = r_signal r.
Proof. unfold cursor. by intros [= -> -> -> -> -> -> -> ->]. Qed.

Lemma step_geometry s R D s' R' D' : page_step s R D s' R' D' →
  sid s' = sid s ∧ p_size (scls s') = p_size (scls s) ∧ p_perslab (scls s') = p_perslab (scls s) ∧
  (∀ x, in_moved s' x ↔ in_moved s x) ∧ (∀ i, chunk_at s' i = chunk_at s i).
Proof.
  intros [_ Hp Hc _ _ _]. apply cursor_fields in Hc as (E1 & E2 & _ & E4 & _).
  destruct (same_pages_cls _ _ (sid s) Hp) as (G1 & G2 & _).
  unfold chunk_at, in_moved. rewrite E4, E1, E2, G1, G2. done.
Qed.

Lemma page_step_refl s R D : page_step s R D s R D.
Proof. constructor; try done. apply same_pages_refl. Qed.

Lemma page_step_trans s1 R1 D1 s2 R2 D2 s3 R3 D3 :
  page_step s1 R1 D1 s2 R2 D2 → page_step s2 R2 D2 s3 R3 D3 → page_step s1 R1 D1 s3 R3 D3.
Proof.
  intros H1 H2. destruct (step_geometry _ _ _ _ _ _ H1) as (E & _ & _ & Hm & _).
  destruct H1 as [A1 A2 A3 A4 A5 A6], H2 as [B1 B2 B3 B4 B5 B6]. constructor.
  - congruence.
  - by eapply same_pages_trans.
  - congruence.
  - rewrite E in B4. auto.
  - intros y Hy Hc. apply B5; [by apply Hm|auto].
  - intros y Hy Hc. apply B6; [by apply Hm|auto].
Qed.

Lemma chunk_in_page s R D i : page_ok s R D → 0 ≤ i < p_perslab (scls s) → in_moved s (chunk_at s i).
Proof. intros [_ ? [_ He] _ _] Hi. unfold in_moved, chunk_at. rewrite He. nia. Qed.

Lemma page_ok_step s R D s' R' D' : page_ok s R D → page_step s R D s' R' D' → page_ok s' R' D'.
Proof.
  intros Hpg Hst. destruct (step_geometry _ _ _ _ _ _ Hst) as (E1 & E2 & E3 & Em & Ec).
  pose proof Hpg as [A1 A2 A3 A4 A5]. destruct Hst as [B1 B2 B3 B4 B5 B6].
  apply cursor_fields in B3 as (F1 & F2 & _ & F4 & _).
  constructor; rewrite ?E2, ?E3, ?F1, ?F2; try done.
  - by rewrite E1, (same_pages_largest _ _ B2).
  - intros p x Hp Hx. apply not_elem_of_dom. rewrite B1. apply not_elem_of_dom. apply (A4 p x); [|done].
    destruct Hp as [Hp|(i & Hi & ->)]; [left; rewrite E1 in Hp; auto|right; exists i; by rewrite Ec].
  - intros i Hi. rewrite Ec. apply B5; [by eapply chunk_in_page|auto].
Qed.

Lemma marks_ok_step s R D s' R' D' : page_ok s R D → marks_ok s R D → page_step s R D s' R' D' →
  r_completed (w_rebal s') = r_completed (w_rebal s) ∨
  (∃ o : nat, r_completed (w_rebal s') = <[o := 1]> (r_completed (w_rebal s)) ∧ cleared s' R' D' (chunk_at s (Z.of_nat o))) →
  marks_ok s' R' D'.
Proof.
  intros Hpg [Hl Hm] Hst Hc. destruct (step_geometry _ _ _ _ _ _ Hst) as (_ & _ & E3 & _ & Ec).
  assert (Hold : ∀ (i : nat) v, r_completed (w_rebal s) !! i = Some v → v ≠ 0 → cleared s' R' D' (chunk_at s (Z.of_nat i))).
  { intros i v Hi Hv. apply (st_cleared _ _ _ _ _ _ Hst); [|by eapply Hm].
    eapply chunk_in_page; [done|]. apply lookup_lt_Some in Hi. lia. }
  unfold marks_ok. rewrite E3. destruct Hc as [->|(o & -> & Ho)].
  - split; [done|]. intros i v. rewrite Ec. apply Hold.
  - rewrite length_insert. split; [done|]. intros i v Hi Hv. rewrite Ec.
    apply list_lookup_insert_Some in Hi as [(-> & _)|[_ Hi]]; [done|by eapply Hold].
Qed.

(** Headers of the page are chunk starts. *)
Lemma page_aligned s R D x : page_ok s R D → in_moved s x → is_Some (w_heap s !! x) →
  ∃ i, 0 ≤ i < p_perslab (scls s) ∧ x = chunk_at s i.
Proof.
  intros [_ [A2 A2'] [A3 A3'] A4 _] [H1 H2] [it Hit]. rewrite A3' in H2.
  set (o := x - r_slab_start (w_rebal s)). pose proof (Z.div_mod o (p_size (scls s)) ltac:(lia)) as Hd.
  pose proof (Z.mod_pos_bound o (p_size (scls s)) A2) as Hm.
  assert (Hi : 0 ≤ o / p_size (scls s) < p_perslab (scls s)).
  { split; [apply Z.div_pos; lia|]. apply Z.div_lt_upper_bound; lia. }
  destruct (decide (o mod p_size (scls s) = 0)) as [Hz|Hz].
  - exists (o / p_size (scls s)). split; [done|]. unfold chunk_at. lia.
  - rewrite (A4 (chunk_at s (o / p_size (scls s))) x) in Hit; [done|right; eauto|unfold chunk_at; lia].
Qed.

(** ** Steps on one item *)

Lemma page_step_at (P : Z → Prop) s m R D s' m' R' D' p :
  (∀ x, P x → x = p ∨ ¬ in_moved s x) → in_use R D p →
  cache_ok s m R D → cache_ok s' m' R' D' → same_pages (w_slabs s) (w_slabs s') → dom (w_heap s') = dom (w_heap s) →
  cursor (w_rebal s') = cursor (w_rebal s) → csame_out P (w_heap s) (w_heap s') →
  (∀ x, ¬ P x → R' x = R x) → (∀ k x, ¬ P x → m !! k = Some x → m' !! k = Some x) →
  (∀ q x, x ∈ D' q → P x ∨ ∃ q', x ∈ D q') → (∀ x, ¬ P x → (x ∈ D' (FreeQ (sid s)) ↔ x ∈ D (FreeQ (sid s)))) →
  (∀ x, P x → x ∉ D' (FreeQ (sid s))) → chunk_state s' R' D' p → page_step s R D s' R' D'.
Proof.
  intros HP Hu Hok Hok' Hpg Hdom Hcu Hcs HR Hm Hmem Hfr HnP Hp.
  pose proof (cursor_fields _ _ Hcu) as (_ & _ & _ & Esid & _).
  destruct (same_pages_cls _ _ (sid s) Hpg) as (Esz & _).
  assert (Hcl : ∀ y, y ≠ p → in_moved s y → cleared s R D y → cleared s' R' D' y).
  { intros y Hne Hy (C1 & C2 & it & C3 & C4). assert (¬ P y) as HnPy by (intros [?|?]%HP; done).
    split; [intros q Hq; destruct (Hmem q y Hq) as [?|[q' ?]]; [done|by apply (C1 q')]|].
    split; [by rewrite HR|]. destruct (csame_lookup _ _ _ y it Hcs HnPy C3) as (it' & ? & Hc).
    exists it'. split; [done|]. by rewrite (proj1 (ctl_fields _ _ Hc)). }
  constructor; try done.
  - intros x Hx. destruct (decide (x ∈ D (FreeQ (sid s)))) as [|Hn]; [done|].
    destruct (Hmem _ x Hx) as [HPx|_]; [by apply HnP in HPx|].
    exfalso. apply Hn. apply Hfr; [|done]. intros HPx. by apply HnP in HPx.
  - intros y Hy Hst. destruct (decide (y = p)) as [->|Hne]; [done|].
    assert (¬ P y) as HnPy by (intros [?|?]%HP; done).
    destruct Hst as [Hst|[Hst|(Hin & it & Hit & Hch & Hsz)]].
    + left. rewrite Esid. by apply Hfr.
    + right. left. auto.
    + right. right. destruct (csame_lookup _ _ _ y it Hcs HnPy Hit) as (it' & Hit' & Hc). split.
      * destruct Hin as [?|[id Hid]]; [left; by rewrite HR|right].
        destruct (co_queued _ _ _ _ Hok id y Hid) as (iy & _ & _ & _ & _ & _ & Hk).
        by eapply co_mapped; [|apply Hm].
      * exists it'. split; [done|]. rewrite (proj1 (ctl_fields _ _ Hc)), (lru_bytes_ctl _ _ Hc), Esid, Esz. done.
  - intros y Hy Hc. destruct (decide (y = p)) as [->|Hne]; [|auto]. exfalso. destruct Hc as (C1 & C2 & _).
    destruct Hu as [?|[id Hid]]; [lia|by apply (C1 (LruQ id))].
Qed.

Lemma page_step_took s m R D s' D' r cl :
  cache_ok s m R D → took s D s' D' (sid s) r cl → page_step s R D s' R D'.
Proof.
  intros Hok [A1 A2 A3 A4 A5 A6 A7 A8]. destruct A1 as [n A1].
  assert (Hcu : cursor (w_rebal s') = cursor (w_rebal s)) by (rewrite A1; done).
  pose proof (cursor_fields _ _ Hcu) as (_ & _ & _ & Esid & _).
  destruct (same_pages_cls _ _ (sid s) A2) as (Esz & _).
  assert (Hout : ∀ y, y ∉ D (FreeQ (sid s)) → ¬ (y ∈ cl ∨ r ≠ NULL ∧ y = r)).
  { intros y Hy Hc. apply Hy. rewrite A4. destruct Hc as [?|[Hr ->]]; [set_solver|].
    rewrite (proj2 (Z.eqb_neq r NULL) Hr). set_solver. }
  assert (Hsub : ∀ q x, x ∈ D' q → x ∈ D q).
  { intros q x. destruct (decide (q = FreeQ (sid s))) as [->|Hq]; [rewrite A4; set_solver|by rewrite A3]. }
  assert (Hcl : ∀ y, cleared s R D y → cleared s' R D' y).
  { intros y (C1 & C2 & it & C3 & C4). split; [intros q Hq; by apply (C1 q), Hsub|]. split; [done|].
    destruct (csame_lookup _ _ _ y it A5 (Hout y (C1 _)) C3) as (it' & ? & Hc).
    exists it'. split; [done|]. by rewrite (proj1 (ctl_fields _ _ Hc)). }
  constructor; try done.
  - intros x. apply Hsub.
  - intros y Hy [Hst|[Hst|(Hin & it & Hit & Hch & Hsz)]].
    + destruct (decide (y ∈ cl)) as [Hyc|Hyc].
      * destruct (A7 y Hyc) as (_ & ? & it & ? & ?). right. left. split; [done|]. split; [|eauto].
        destruct (decide (R y = 0)); [done|]. pose proof (co_refs _ _ _ _ Hok y).
        destruct (in_use_not_free s m R D y (sid s) Hok); [left; lia|done].
      * left. rewrite Esid. rewrite A4 in Hst. apply elem_of_app in Hst as [?|Hst]; [done|].
        destruct (Z.eqb_spec r NULL) as [|Hr]; [done|]. apply elem_of_cons in Hst as [->|?]; [|done].
        by destruct (A8 Hr) as (? & _).
    + right. left. auto.
    + right. right.
      assert (Hny : y ∉ D (FreeQ (sid s))).
      { apply (in_use_not_free s m R); [done|]. destruct Hin as [?|[id Hid]]; [by left|right].
        destruct (co_queued _ _ _ _ Hok id y Hid) as (? & _ & _ & _ & _ & _ & ?). eauto. }
      destruct (csame_lookup _ _ _ y it A5 (Hout y Hny) Hit) as (it' & Hit' & Hc). split.
      * destruct Hin as [?|[id Hid]]; [by left|right]. exists id. by rewrite A3.
      * exists it'. split; [done|]. rewrite (proj1 (ctl_fields _ _ Hc)), (lru_bytes_ctl _ _ Hc), Esid, Esz. done.
  - auto.
Qed.

(** No chunk was found: the free chunks all lie in the page. *)
Definition no_spare s D : Prop := ∀ x, x ∈ D (FreeQ (sid s)) → in_moved s x.

Lemma took_none s m R D s' D' cl p :
  cache_ok s m R D → page_ok s R D → took s D s' D' (sid s) NULL cl → in_moved s p → in_use R D p →
  D' (FreeQ (sid s)) = [] ∨ length cl = Z.to_nat (p_perslab (scls s)) → no_spare s D.
Proof.
  intros Hok Hpg Htk Hp Hu Hend. pose proof (so_queues _ _ (co_slabs _ _ _ _ Hok)) as Hq.
  pose proof (tk_list _ _ _ _ _ _ _ Htk) as Hl. change (NULL =? NULL) with true in Hl. simpl in Hl.
  destruct Hend as [Hn|Hlen].
  { intros x Hx. rewrite Hl, Hn, app_nil_r in Hx. by destruct (tk_cl _ _ _ _ _ _ _ Htk x Hx). }
  exfalso. assert (Hpc : p ∉ cl).
  { intros Hc. assert (p ∈ D (FreeQ (sid s))) as Hf by (rewrite Hl; set_solver). revert Hf.
    apply (in_use_not_free s m R); [done|]. destruct Hu as [?|[id Hid]]; [by left|right].
    destruct (co_queued _ _ _ _ Hok id p Hid) as (? & _ & _ & _ & _ & _ & ?). eauto. }
  assert (Hnd : NoDup (p :: cl)).
  { apply NoDup_cons. split; [done|]. pose proof (qo_nodup _ _ Hq (FreeQ (sid s))) as Hnd. rewrite Hl in Hnd.
    by apply NoDup_app in Hnd as (? & _). }
  assert (Hsub : p :: cl ⊆ chunk_at s <$> seqZ 0 (p_perslab (scls s))).
  { intros x Hx. apply list_elem_of_fmap. assert (in_moved s x ∧ is_Some (w_heap s !! x)) as [Hx1 Hx2].
    { apply elem_of_cons in Hx as [->|Hx].
      - split; [done|]. destruct (cache_usable _ _ _ _ p Hok Hu) as (it & [? _] & _). by eexists.
      - split; [by apply (tk_cl _ _ _ _ _ _ _ Htk)|].
        destruct (queue_mem (w_heap s) D (FreeQ (sid s)) x Hq) as (it & ? & _); [rewrite Hl; set_solver|by eexists]. }
    destruct (page_aligned s R D x Hpg Hx1 Hx2) as (i & Hi & ->). exists i. split; [done|]. by apply elem_of_seqZ. }
  apply NoDup_submseteq in Hsub; [|done]. apply submseteq_length in Hsub.
  rewrite length_fmap, length_seqZ in Hsub. simpl in Hsub. lia.
Qed.

(** ** What happens to the items *)

(** What a reader of the item sees, apart from its CAS value and access time. *)
Definition payload (it : item) : Z * list Z * Z * Z * Z * list Z * Z * Z :=
  (i_nkey it, i_key it, i_nbytes it, i_exptime it, i_cflags it, i_data it, ITEM_clsid it,
   clear (i_it_flags it) (Z.lor ITEM_LINKED (Z.lor ITEM_ACTIVE ITEM_FETCHED))).

Lemma payload_val it it' : val it' = val it → payload it' = payload it.
Proof. unfold val, payload. congruence. Qed.

Record calm s s' : Prop := {
  cm_settings : w_settings s' = w_settings s;
  cm_time : w_current_time s' = w_current_time s;
  cm_hp : w_item_lock_hashpower s' = w_item_lock_hashpower s;
  cm_conn : w_conn s' = w_conn s;
  cm_tstats : w_tstats s' = w_tstats s;
  cm_bump : w_bump s' = w_bump s;
  cm_regions : w_regions s' = w_regions s
}.

Lemma calm_refl s : calm s s.
Proof. done. Qed.
Lemma calm_trans s1 s2 s3 : calm s1 s2 → calm s2 s3 → calm s1 s3.
Proof. intros [] []. constructor; congruence. Qed.
Lemma calm_item s s' : item_frame s s' → calm s s'.
Proof. unfold item_frame. intros E. constructor; by rewrite E. Qed.
Lemma calm_mover s s' : mover_frame s s' → calm s s'.
Proof. intros [n E]. constructor; by rewrite E. Qed.

(** No entry appears, the entries that stay keep their payload, and what
    callers hold stays as it is. *)
Record carried s m R s' m' : Prop := {
  ca_calm : calm s s';
  ca_keys : ∀ k, is_Some (m' !! k) → is_Some (m !! k);
  ca_vals : ∀ k p p' it, m !! k = Some p → w_heap s !! p = Some it → m' !! k = Some p' →
    ∃ it', w_heap s' !! p' = Some it' ∧ payload it' = payload it;
  ca_held : ∀ x it, 0 < R x → w_heap s !! x = Some it → ∃ it', w_heap s' !! x = Some it' ∧ val it' = val it
}.

Lemma carried_trans s1 m1 R s2 m2 s3 m3 :
  carried s1 m1 R s2 m2 → carried s2 m2 R s3 m3 → carried s1 m1 R s3 m3.
Proof.
  intros [A1 A2 A3 A4] [B1 B2 B3 B4]. constructor.
  - by eapply calm_trans.
  - auto.
  - intros k p p' it Hp Hit Hp'. destruct (B2 k ltac:(eauto)) as [p2 Hp2].
    destruct (A3 k p p2 it Hp Hit Hp2) as (it2 & Hit2 & E2). destruct (B3 k p2 p' it2 Hp2 Hit2 Hp') as (it3 & ? & ?).
    exists it3. split; [done|congruence].
  - intros x it Hx Hit. destruct (A4 x it Hx Hit) as (it2 & Hit2 & E2). destruct (B4 x it2 Hx Hit2) as (it3 & ? & ?).
    exists it3. split; [done|congruence].
Qed.

Lemma carried_at s m R s' m' p it it' :
  calm s s' → m' ⊆ m → csame_out (λ x, x = p) (w_heap s) (w_heap s') →
  w_heap s !! p = Some it → w_heap s' !! p = Some it' → val it' = val it → carried s m R s' m'.
Proof.
  intros Hc Hm Hcs Hp Hp' Hv.
  assert (Hall : ∀ x ix, w_heap s !! x = Some ix → ∃ ix', w_heap s' !! x = Some ix' ∧ val ix' = val ix).
  { intros x ix Hx. destruct (decide (x = p)) as [->|Hne].
    - exists it'. split; [done|]. congruence.
    - destruct (csame_lookup _ _ _ x ix Hcs Hne Hx) as (ix' & ? & ?%val_ctl). eauto. }
  constructor; [done| | |eauto].
  - intros k [x Hx]. eapply lookup_weaken in Hx; [|exact Hm]. eauto.
  - intros k x x' ix Hx Hix Hx'. eapply lookup_weaken in Hx'; [|exact Hm]. assert (x' = x) as -> by congruence.
    destruct (Hall x ix Hix) as (ix' & ? & ?%payload_val). eauto.
Qed.

Lemma carried_same s m R s' : calm s s' → w_heap s' = w_heap s → carried s m R s' m.
Proof.
  intros Hc Hh. constructor; rewrite ?Hh; eauto.
  intros k p p' it Hp Hit Hp'. assert (p' = p) as -> by congruence. eauto.
Qed.

Lemma carried_refl s m R : carried s m R s m.
Proof. by apply carried_same. Qed.

(** ** Page steps of the simple operations *)

Lemma page_step_same s R D s' :
  w_heap s' = w_heap s → w_slabs s' = w_slabs s → cursor (w_rebal s') = cursor (w_rebal s) → page_step s R D s' R D.
Proof.
  intros Hh Hs Hc. pose proof (cursor_fields _ _ Hc) as (_ & _ & _ & E & _).
  constructor; rewrite ?Hh, ?Hs; try done; [apply same_pages_refl| |].
  - intros y _. unfold chunk_state, cleared, resident. by rewrite E, Hs, Hh.
  - intros y _. unfold cleared. by rewrite Hh.
Qed.

Lemma resident_in_use s m R D p :
  cache_ok s m R D → in_use R D p → chunk_state s R D p → resident (p_size (scls s)) s R D p.
Proof.
  intros Hok Hu [Hf|[(C1 & C2 & _)|?]]; [| |done]; exfalso.
  - revert Hf. apply (in_use_not_free s m R); [done|]. destruct Hu as [?|[id Hid]]; [by left|right].
    destruct (co_queued _ _ _ _ Hok id p Hid) as (? & _ & _ & _ & _ & _ & ?). eauto.
  - destruct Hu as [?|[id Hid]]; [lia|by apply (C1 (LruQ id))].
Qed.

Lemma page_step_touch s m R D s' R' p it it' :
  cache_ok s m R D → cache_ok s' m R' D → w_slabs s' = w_slabs s → cursor (w_rebal s') = cursor (w_rebal s) →
  in_use R D p → in_use R' D p → (∀ x, x ≠ p → R' x = R x) → w_heap s !! p = Some it →
  w_heap s' = <[p := it']> (w_heap s) → i_it_flags it' = i_it_flags it → lru_bytes it' = lru_bytes it →
  chunk_state s R D p → page_step s R D s' R' D.
Proof.
  intros Hok Hok' Hs Hc Hu Hu' HR Hp Hh Hf Hb Hst. pose proof (cursor_fields _ _ Hc) as (_ & _ & _ & E & _).
  assert (Hnf : ∀ id, p ∉ D (FreeQ id)).
  { intros id. apply (in_use_not_free s m R); [done|]. destruct Hu as [?|[i Hi]]; [by left|right].
    destruct (co_queued _ _ _ _ Hok i p Hi) as (? & _ & _ & _ & _ & _ & ?). eauto. }
  apply (page_step_at (λ x, x = p) s m R D s' m R' D p); try done.
  - auto.
  - rewrite Hs. apply same_pages_refl.
  - rewrite Hh. apply dom_insert_lookup_L. by eexists.
  - rewrite Hh. by apply csame_out_insert.
  - eauto.
  - by intros x ->.
  - right. right. split; [done|]. exists it'. rewrite Hh, lookup_insert_eq. split; [done|].
    destruct (resident_in_use s m R D p Hok Hu Hst) as (_ & it0 & Hp0 & Hch & Hsz). assert (it0 = it) as -> by congruence.
    rewrite Hf, Hb, E, Hs. done.
Qed.

(** ** Looking at a chunk *)

(** The fate of the entry whose item lies in the chunk [p]. *)
Inductive fate s m R D p s' m' : Prop :=
  | fate_stays : m' = m → fate s m R D p s' m'
  | fate_rescued k it new it' :
      m !! k = Some p → R p = 0 → w_heap s !! p = Some it → stale s it = false → ¬ in_moved s new →
      m' = <[k := new]> m → w_heap s' !! new = Some it' → payload it' = payload it → fate s m R D p s' m'
  | fate_dropped k it :
      m !! k = Some p → R p = 0 → w_heap s !! p = Some it → stale s it = true ∨ no_spare s D →
      m' = delete k m → fate s m R D p s' m'
  | fate_busy k :
      m !! k = Some p → 0 < R p → SLAB_MOVE_MAX_LOOPS < r_busy_loops (w_rebal s) →
      m' = delete k m → fate s m R D p s' m'.

(** A step on the chunk [p] is over. *)
Record chunk_done s m R D p s' m' D' : Prop := {
  cd_ok : cache_ok s' m' R D';
  cd_page : page_step s R D s' R D';
  cd_carried : carried s m R s' m';
  cd_fate : fate s m R D p s' m';
  cd_locks : w_locks s' = w_locks s
}.

(** The counters of the mover stay. *)
Definition same_marks s s' : Prop :=
  r_completed (w_rebal s') = r_completed (w_rebal s) ∧ r_busy_items (w_rebal s') = r_busy_items (w_rebal s).

Lemma chunk_done_refl s m R D p : cache_ok s m R D → chunk_done s m R D p s m D.
Proof. intros Hok. constructor; [done|apply page_step_refl|apply carried_refl|by apply fate_stays|done]. Qed.

Lemma refcount_decr_run s p it :
  w_heap s !! p = Some it → 0 < i_refcount it < 2 ^ 16 →
  refcount_decr p s = Some (i_refcount it - 1, s <| w_heap := <[p := it <| i_refcount := i_refcount it - 1 |>]> (w_heap s) |>).
Proof.
  intros Hp Hr. unfold refcount_decr. rewrite (bind_run _ _ _ _ _ (load_ok _ _ _ Hp)), u16_small by lia. done.
Qed.

(** Giving back the reference taken by the mover. *)
Lemma decr_back s m R D p it :
  cache_ok s m (upd R p (R p + 1)) D → 0 < R p ∨ (∃ id, p ∈ D (LruQ id)) → 0 ≤ R p → w_heap s !! p = Some it →
  chunk_state s (upd R p (R p + 1)) D p →
  ∃ rc s', refcount_decr p s = Some (rc, s') ∧ cache_ok s' m R D ∧
    page_step s (upd R p (R p + 1)) D s' R D ∧ carried s m R s' m ∧
    s' = s <| w_heap := <[p := it <| i_refcount := i_refcount it - 1 |>]> (w_heap s) |>.
Proof.
  intros Hok Hu HR0 Hp Hst.
  destruct (cache_usable _ _ _ _ p Hok) as (it0 & Hus & Hio & Href & _); [left; rewrite upd_eq; lia|].
  pose proof Hus as [Hp' _]. assert (it0 = it) as -> by congruence.
  pose proof (co_refs _ _ _ _ Hok p) as Hr. rewrite upd_eq in Hr, Href.
  eexists _, _. split; [apply (refcount_decr_run _ _ _ Hp); rewrite Href; destruct (flag _ _); lia|].
  set (s' := s <| w_heap := _ |>).
  assert (Hok' : cache_ok s' m R D).
  { apply (cache_ok_R _ _ (upd (upd R p (R p + 1)) p (R p))).
    { intros x. unfold upd. by destruct (Z.eqb_spec x p) as [->|]. }
    apply (set_refcount_ok s m); try done; [lia|]. rewrite Href. destruct (flag _ _); lia. }
  split; [done|]. split; [|split; [|done]].
  - apply (page_step_touch s m _ D s' R p it (it <| i_refcount := i_refcount it - 1 |>)); try done.
    + left. rewrite upd_eq. lia.
    + intros x Hx. by rewrite upd_ne.
  - apply (carried_at s m R s' m p it (it <| i_refcount := i_refcount it - 1 |>)); try done; [by apply csame_out_insert|apply lookup_insert_eq].
Qed.

(** After a thousand rounds an item still in use is unlinked. *)
Lemma busy_delete s m R D p k it :
  cache_ok s m (upd R p (R p + 1)) D → m !! k = Some p → w_heap s !! p = Some it → 0 < R p → R p + 2 < 2 ^ 15 →
  chunk_state s (upd R p (R p + 1)) D p →
  ∃ s' D' it', (storage_delete p ;; do_item_unlink p (hash k)) s = Some (tt, s') ∧ w_locks s' = w_locks s ∧
    cache_ok s' (delete k m) (upd R p (R p + 1)) D' ∧ page_step s (upd R p (R p + 1)) D s' (upd R p (R p + 1)) D' ∧
    carried s m R s' (delete k m) ∧ w_rebal s' = w_rebal s ∧ w_heap s' !! p = Some it' ∧ chunk_state s' (upd R p (R p + 1)) D' p.
Proof.
  intros Hok Hm Hp HR Hmax Hst. destruct (storage_delete_run s p it Hp) as (e & Hsd & _).
  set (s1 := s <| w_ext := e |>) in *. assert (Hok1 : cache_ok s1 m (upd R p (R p + 1)) D) by by apply (cache_ok_same s).
  destruct (unlink_step s1 m _ D k p it Hok1 Hm Hp) as (s2 & D2 & it2 & ev & Hun & Hl & _ & Hp2 & Hv2 & Hn2 & [Kp Km Kf] & Hs2);
    [rewrite upd_eq; lia..|].
  assert (Hok2 := pull_step_ok _ _ _ _ _ _ _ _ _ _ Hs2).
  destruct (do_item_unlink_ok s1 m _ D k p Hok1 Hm) as (s2' & D2' & Hun' & _ & Hfr & _ & Hcs & _); [rewrite upd_eq; lia|].
  assert (s2' = s2) as -> by congruence.
  assert (Hrb : w_rebal s2 = w_rebal s) by (unfold item_frame in Hfr; by rewrite Hfr).
  assert (Hst2 : chunk_state s2 (upd R p (R p + 1)) D2 p).
  { right. right. assert (in_use (upd R p (R p + 1)) D p) as Hu by (left; rewrite upd_eq; lia).
    destruct (resident_in_use s m _ D p Hok Hu Hst) as (_ & it0 & Hp0 & Hch & Hsz). assert (it0 = it) as -> by congruence.
    split; [left; rewrite upd_eq; lia|]. exists it2. split; [done|].
    rewrite Hrb. destruct (same_pages_cls _ _ (sid s) Kp) as (-> & _). change (w_slabs s1) with (w_slabs s).
    unfold val in Hv2. injection Hv2 as V1 V2 V3 V4 V5 V6 V7 V8 V9 V10.
    assert (Hfl : ∀ a, Z.land (Z.lor ITEM_LINKED (Z.lor ITEM_ACTIVE ITEM_FETCHED)) a = 0 →
      flag (i_it_flags it2) a = flag (i_it_flags it) a) by (intros a Ha; by eapply flag_masked).
    split; [by rewrite Hfl|]. unfold lru_bytes, ITEM_ntotal in *. by rewrite !Hfl, V1, V3. }
  exists s2, D2, it2. split; [by rewrite (bind_run _ _ _ _ _ Hsd)|]. split; [done|]. split; [done|]. split; [|split; [|done]].
  - apply (page_step_at (λ x, x = p) s m _ D s2 (delete k m) _ D2 p); try done.
    + auto.
    + left. rewrite upd_eq. lia.
    + exact (pk_dom _ _ (pu_pages _ _ _ _ _ _ _ _ _ (ps_pulled _ _ _ _ _ _ _ _ _ _ Hs2))).
    + by rewrite Hrb.
    + intros k' x Hx Hk'. rewrite lookup_delete_ne; [done|]. intros ->. congruence.
    + intros x Hx. by apply Kf.
    + intros x ->. apply Hn2.
  - apply (carried_at s m R s2 (delete k m) p it it2); try done; [|apply delete_subseteq].
    apply calm_item in Hfr. destruct Hfr. by constructor.
Qed.

Lemma not_cleared_flags f : flag f ITEM_SLABBED = false → (f =? CLEARED) = false.
Proof. intros H. apply Z.eqb_neq. intros ->. discriminate H. Qed.

(** The mover's reference on a linked item. *)
Lemma take_ref s m R D p k it :
  cache_ok s m R D → m !! k = Some p → w_heap s !! p = Some it → R p + 2 < 2 ^ 15 → chunk_state s R D p →
  let hold := item_lock_index s (hash k) in
  ∃ s', refcount_incr p (s <| w_locks := {[hold]} ∪ w_locks s |>) = Some (2 + R p, s') ∧
    w_heap s' !! p = Some (it <| i_refcount := 2 + R p |>) ∧ w_locks s' = {[hold]} ∪ w_locks s ∧
    w_rebal s' = w_rebal s ∧ w_slabs s' = w_slabs s ∧ cache_ok s' m (upd R p (R p + 1)) D ∧
    page_step s R D s' (upd R p (R p + 1)) D ∧ carried s m R s' m.
Proof.
  intros Hok Hm Hp HR Hst hold. destruct (cache_entry _ _ _ _ _ _ Hok Hm) as (it0 & id & Hp' & Hk & Hin & _ & _ & Hfl & Href & _).
  assert (it0 = it) as -> by congruence.
  set (sl := s <| w_locks := {[hold]} ∪ w_locks s |>).
  assert (Hokl : cache_ok sl m R D) by by apply (cache_ok_same s).
  destruct (refcount_incr_ok sl m R D p Hokl) as (it0 & rc & Hp0 & Hrun & Erc & Hok'); [by right; exists id|lia|].
  change (w_heap sl) with (w_heap s) in Hp0. assert (it0 = it) as -> by congruence. assert (rc = 2 + R p) as -> by lia.
  set (s' := sl <| w_heap := <[p := it <| i_refcount := 2 + R p |>]> (w_heap sl) |>) in *.
  pose proof (co_refs _ _ _ _ Hok p) as Hr.
  exists s'. split_and!; try done; [apply lookup_insert_eq| |].
  - apply (page_step_touch s m R D s' _ p it (it <| i_refcount := 2 + R p |>)); try done; [by right; exists id..|].
    intros x Hx. by rewrite upd_ne.
  - apply (carried_at s m R s' m p it (it <| i_refcount := 2 + R p |>)); try done; [by apply csame_out_insert|apply lookup_insert_eq].
Qed.

(** The end of the visit of a busy item. *)
Lemma leave_busy {A} s0 m0 R D0 p s m D it hold (K : M world A) :
  let R1 := upd R p (R p + 1) in
  cache_ok s0 m0 R D0 → hold ∉ w_locks s0 → w_locks s = {[hold]} ∪ w_locks s0 → same_marks s0 s →
  cache_ok s m R1 D → page_step s0 R D0 s R1 D → carried s0 m0 R s m →
  m = m0 ∨ (∃ k, m0 !! k = Some p ∧ SLAB_MOVE_MAX_LOOPS < r_busy_loops (w_rebal s0) ∧ m = delete k m0) →
  0 < R p → w_heap s !! p = Some it → chunk_state s R1 D p →
  ∃ s', (refcount_decr p ;; item_trylock_unlock hold ;; K) s = K s' ∧ same_marks s0 s' ∧ chunk_done s0 m0 R D0 p s' m D.
Proof.
  intros R1 Hok0 Hnl Hl Hmk Hok Hst Hca Hfa HR Hp Hcs.
  destruct (decr_back s m R D p it Hok) as (rc & s1 & Hrun & Hok1 & Hst1 & Hca1 & Es1); [by left|lia|done|done|].
  set (s2 := s1 <| w_locks := w_locks s1 ∖ {[hold]} |>).
  exists s2. split; [by rewrite (bind_run _ _ _ _ _ Hrun)|]. split; [unfold same_marks, s2; rewrite Es1; exact Hmk|].
  constructor.
  - by apply (cache_ok_same s1).
  - eapply page_step_trans; [exact Hst|]. eapply page_step_trans; [exact Hst1|]. by apply page_step_same.
  - eapply carried_trans; [exact Hca|]. eapply carried_trans; [exact Hca1|]. by apply carried_same.
  - destruct Hfa as [->|(k & ? & ? & ->)]; [by apply fate_stays|by eapply fate_busy].
  - simpl. rewrite Es1. simpl. rewrite Hl. by apply locks_back.
Qed.

Lemma examine_linked s m R D p k it cls :
  cache_ok s m R D → m !! k = Some p → w_heap s !! p = Some it → R p + 2 < 2 ^ 15 → chunk_state s R D p →
  let hold := item_lock_index s (hash k) in
  (∃ hv, hold ∈ w_locks s ∧ move_examine cls p false s = Some ((MOVE_LOCKED, hv, 0), s)) ∨
  (∃ hv l s' m' D', 0 < R p ∧ move_examine cls p false s = Some ((MOVE_BUSY, hv, l), s') ∧
     same_marks s s' ∧ chunk_done s m R D p s' m' D') ∨
  (∃ s', move_examine cls p false s = Some ((MOVE_FROM_LRU, hash k, hold), s') ∧ R p = 0 ∧ hold ∉ w_locks s ∧
     w_locks s' = {[hold]} ∪ w_locks s ∧ cache_ok s' m (upd R p (R p + 1)) D ∧
     page_step s R D s' (upd R p (R p + 1)) D ∧ carried s m R s' m ∧
     w_heap s' !! p = Some (it <| i_refcount := 2 + R p |>) ∧ w_rebal s' = w_rebal s ∧ w_slabs s' = w_slabs s).
Proof.
  intros Hok Hm Hp HR Hst hold. destruct (cache_entry _ _ _ _ _ _ Hok Hm) as (it0 & id & Hp' & Hk & Hin & Hio & _ & Hfl & Href & _).
  assert (it0 = it) as -> by congruence. pose proof (co_refs _ _ _ _ Hok p) as Hr.
  pose proof (item_trylock_run s (hash k)) as Htl. cbv zeta in Htl. fold hold in Htl.
  unfold move_examine. rewrite (bind_run _ _ _ _ _ (load_ok _ _ _ Hp)).
  rewrite (not_cleared_flags _ (proj1 Hio)), (proj1 Hio), Hfl, Hk. cbv zeta.
  case_decide as Hlk.
  { left. exists (hash k). split; [done|]. by rewrite (bind_run _ _ _ _ _ Htl). }
  right. rewrite (bind_run _ _ _ _ _ Htl). set (sl := s <| w_locks := {[hold]} ∪ w_locks s |>).
  rewrite (bind_run _ _ _ (i_it_flags it) sl) by (apply (fld_ok sl p i_it_flags it); exact Hp). rewrite Hfl.
  destruct (take_ref s m R D p k it Hok Hm Hp HR Hst) as (s1 & Hinc & Hp1 & Hl1 & Hrb1 & Hsl1 & Hok1 & Hst1 & Hca1).
  fold hold sl in Hinc, Hl1. rewrite (bind_run _ _ _ _ _ Hinc).
  assert (Hcs1 : chunk_state s1 (upd R p (R p + 1)) D p).
  { assert (in_use R D p) as Hu by (right; by exists id).
    destruct (resident_in_use s m R D p Hok Hu Hst) as (_ & it0 & Hp0 & Hch & Hsz). assert (it0 = it) as -> by congruence.
    right. right. split; [right; by exists id|]. eexists. split; [exact Hp1|]. by rewrite Hrb1, Hsl1. }
  assert (Hmk1 : same_marks s s1) by (unfold same_marks; by rewrite Hrb1).
  destruct (Z.eqb_spec (2 + R p) 2) as [E|E].
  { right. exists s1. rewrite (bind_run _ _ _ _ _ eq_refl). split_and!; try done. lia. }
  left. assert (0 < R p) as HR0 by lia. rewrite (proj2 (Z.ltb_lt 2 (2 + R p))) by lia. simpl.
  rewrite bind_assoc, (bind_run _ _ _ _ _ eq_refl), bind_assoc, Hrb1.
  destruct (Z.ltb_spec SLAB_MOVE_MAX_LOOPS (r_busy_loops (w_rebal s))) as [Hloops|_]; simpl.
  - set (s2 := s1 <| w_rebal := (w_rebal s1) <| r_busy_deletes := u32 (r_busy_deletes (w_rebal s1) + 1) |> |>).
    assert (Hok2 : cache_ok s2 m (upd R p (R p + 1)) D) by by apply (cache_ok_same s1).
    destruct (busy_delete s2 m R D p k _ Hok2 Hm Hp1 HR0 HR) as (s3 & D3 & it3 & Hrun & Hl3 & Hok3 & Hst3 & Hca3 & Hrb3 & Hp3 & Hcs3).
    { unfold chunk_state, cleared, resident in *. exact Hcs1. }
    destruct (leave_busy s m R D p s3 (delete k m) D3 it3 hold (mret (MOVE_BUSY, hash k, hold))) as (s4 & Hrun4 & Hmk4 & Hcd4); try done.
    + by rewrite Hl3.
    + unfold same_marks. rewrite Hrb3. exact Hmk1.
    + eapply page_step_trans; [exact Hst1|]. eapply page_step_trans; [|exact Hst3]. by apply page_step_same.
    + eapply carried_trans; [exact Hca1|]. eapply carried_trans; [|exact Hca3]. by apply carried_same.
    + right. eauto.
    + exists (hash k), hold, s4, (delete k m), D3. split; [done|]. split; [|done].
      rewrite (bind_run _ _ _ tt s3). 2:{ rewrite (bind_run _ _ _ tt s2) by done. exact Hrun. }
      rewrite (bind_run _ _ _ _ _ eq_refl). rewrite Hrun4. reflexivity.
  - destruct (leave_busy s m R D p s1 m D (it <| i_refcount := 2 + R p |>) hold (mret (MOVE_BUSY, hash k, hold)) Hok Hlk Hl1 Hmk1 Hok1 Hst1 Hca1) as
      (s4 & Hrun4 & Hmk4 & Hcd4); try done; [by left|].
    exists (hash k), hold, s4, m, D. split; [done|]. split; [|done].
    rewrite (bind_run _ _ _ _ _ eq_refl), (bind_run _ _ _ _ _ eq_refl). rewrite Hrun4. reflexivity.
Qed.

(** ** Moving an item that is not busy *)

Lemma carried_ctl s m R s' :
  calm s s' → (∀ x, 0 < R x ∨ (∃ k, m !! k = Some x) → ctl <$> w_heap s' !! x = ctl <$> w_heap s !! x) → carried s m R s' m.
Proof.
  intros Hc Hs.
  assert (Hall : ∀ x it, 0 < R x ∨ (∃ k, m !! k = Some x) → w_heap s !! x = Some it →
    ∃ it', w_heap s' !! x = Some it' ∧ val it' = val it).
  { intros x it Hx Hit. specialize (Hs x Hx). rewrite Hit in Hs. destruct (w_heap s' !! x) as [it'|]; [|done].
    exists it'. split; [done|]. by apply val_ctl, (inj Some). }
  constructor; [done|done| |by eauto].
  intros k p p' it Hp Hit Hp'. assert (p' = p) as -> by congruence.
  destruct (Hall p it) as (it' & ? & ?%payload_val); eauto.
Qed.

Lemma took_same s m R D s' D' id r cl x :
  cache_ok s m R D → took s D s' D' id r cl → 0 < R x ∨ (∃ k, m !! k = Some x) →
  ctl <$> w_heap s' !! x = ctl <$> w_heap s !! x.
Proof.
  intros Hok [_ _ _ A4 A5 _ _ _] Hx. apply A5. intros Hc.
  apply (in_use_not_free s m R D x id Hok Hx). rewrite A4.
  destruct Hc as [?|[Hr ->]]; [set_solver|]. rewrite (proj2 (Z.eqb_neq r NULL) Hr). set_solver.
Qed.

(** The chunk a rescued item goes to. *)
Record target s R1 s' D' (r : Z) : Prop := {
  tg_null : r ≠ NULL;
  tg_out : ¬ in_moved s r;
  tg_lists : ∀ q, r ∉ D' q;
  tg_unused : R1 r = 0;
  tg_hdr : ∃ y, w_heap s' !! r = Some y ∧ i_it_flags y = 0;
  tg_solid : ∀ x, r < x < r + p_size (scls s) → w_heap s' !! x = None
}.

Lemma target_bytes x sz : flag (i_it_flags x) ITEM_CHUNKED = false →
  (if negb false && flag (i_it_flags x) ITEM_CHUNKED then sz
   else if flag (i_it_flags x) ITEM_HDR then ITEM_ntotal x - i_nbytes x + sizeof_item_hdr else ITEM_ntotal x) = lru_bytes x.
Proof. intros ->. done. Qed.

Lemma move_target_ok s m R1 D p k x :
  cache_ok s m R1 D → page_ok s R1 D → in_moved s p → m !! k = Some p → w_heap s !! p = Some x →
  lru_bytes x ≤ p_size (scls s) →
  ∃ r s' D', move_target (sid s) p false s = Some (r, s') ∧ cache_ok s' m R1 D' ∧ page_step s R1 D s' R1 D' ∧
    calm s s' ∧ (∀ y, 0 < R1 y ∨ (∃ k, m !! k = Some y) → ctl <$> w_heap s' !! y = ctl <$> w_heap s !! y) ∧
    same_marks s s' ∧ w_locks s' = w_locks s ∧
    (r = NULL ∧ (stale s x = true ∨ no_spare s D) ∨ stale s x = false ∧ target s R1 s' D' r).
Proof.
  intros Hok Hpg Hin Hm Hp Hsz.
  destruct (cache_entry _ _ _ _ _ _ Hok Hm) as (x0 & id & Hp' & Hk & Hq & Hio & _). assert (x0 = x) as -> by congruence.
  assert (Hu : in_use R1 D p) by (right; by exists id).
  unfold move_target. rewrite (bind_run _ _ _ _ _ eq_refl), (bind_run _ _ _ _ _ (load_ok _ _ _ Hp)). cbv zeta.
  rewrite target_bytes by apply Hio.
  rewrite (bind_run _ _ _ (stale s x) s).
  2:{ unfold stale. destruct (_ && _); [done|]. simpl. apply item_is_flushed_run. }
  destruct (stale s x) eqn:Est.
  { exists NULL, s, D. split_and!; try done; [apply page_step_refl|auto]. }
  pose proof (so_largest _ _ (co_slabs _ _ _ _ Hok)) as Hlg. pose proof (pg_class _ _ _ Hpg) as Hcl.
  destruct (slab_rebalance_alloc_ok s m R1 D (lru_bytes x) (sid s) Hok Hcl Hsz) as (r & s1 & D1 & cl & Hrun & Hok1 & Htk & Hnull); [lia|].
  pose proof (page_step_took s m R1 D s1 D1 r cl Hok Htk) as Hst1.
  pose proof (calm_mover _ _ (tk_frame _ _ _ _ _ _ _ Htk)) as Hcalm.
  assert (Hmk : same_marks s s1 ∧ w_locks s1 = w_locks s).
  { destruct (tk_frame _ _ _ _ _ _ _ Htk) as [n E]. unfold same_marks. by rewrite E. }
  destruct Hmk as [Hmk Hlk]. rewrite (bind_run _ _ _ _ _ Hrun).
  destruct (Z.eqb_spec r NULL) as [->|Hr]; simpl.
  - set (s2 := s1 <| w_rebal := (w_rebal s1) <| r_evictions_nomem := u32 (r_evictions_nomem (w_rebal s1) + 1) |> |>).
    exists NULL, s2, D1. split; [done|]. split; [by apply (cache_ok_same s1)|].
    split; [eapply page_step_trans; [exact Hst1|by apply page_step_same]|]. split; [by destruct Hcalm|].
    split; [intros y Hy; exact (took_same _ _ _ _ _ _ _ _ _ _ Hok Htk Hy)|]. split; [done|]. split; [done|].
    left. split; [done|]. right. by apply (took_none s m R1 D s1 D1 cl p Hok Hpg Htk Hin Hu), Hnull.
  - exists r, s1, D1. split; [done|]. split; [done|]. split; [done|]. split; [done|].
    split; [intros y Hy; exact (took_same _ _ _ _ _ _ _ _ _ _ Hok Htk Hy)|]. split; [done|]. split; [done|]. right. split; [done|].
    destruct (tk_r _ _ _ _ _ _ _ Htk Hr) as (T1 & T2 & T3).
    assert (HrF : r ∈ D (FreeQ (sid s))).
    { rewrite (tk_list _ _ _ _ _ _ _ Htk), (proj2 (Z.eqb_neq r NULL) Hr). set_solver. }
    constructor; try done.
    + destruct (decide (R1 r = 0)); [done|]. pose proof (co_refs _ _ _ _ Hok r).
      destruct (in_use_not_free s m R1 D r (sid s) Hok); [left; lia|done].
    + intros y Hy. apply not_elem_of_dom. rewrite (tk_dom _ _ _ _ _ _ _ Htk). apply not_elem_of_dom.
      apply (pg_solid _ _ _ Hpg r y); [by left|done].
Qed.

(** The caller with the last reference wipes the item. *)
Lemma cache_ok_release s m R D p it it' :
  cache_ok s m R D → R p = 1 → (∀ q, p ∉ D q) → w_heap s !! p = Some it →
  cache_ok (s <| w_heap := <[p := it']> (w_heap s) |>) m (upd R p 0) D.
Proof.
  intros [Ha Hs Hl Hqd Hm Hh Hr Hi Hhi Hsz] HR Hn Hp.
  assert (Hok : cache_ok s m (upd R p 0) D).
  { constructor; try done.
    - intros id x Hx. destruct (Hqd id x Hx) as (ix & ? & ?). exists ix. unfold queued_ok. rewrite upd_ne; [done|].
      intros ->. by apply (Hn (LruQ id)).
    - intros x Hx. destruct (decide (x = p)) as [->|Hne]; [rewrite upd_eq in Hx; lia|]. rewrite upd_ne in Hx by done.
      destruct (Hh x Hx) as [?|(? & ? & ix & ? & ?)]; [by left|right]. split_and!; [done|done|]. exists ix.
      unfold held_ok. by rewrite upd_ne.
    - intros x. destruct (decide (x = p)) as [->|Hne]; [rewrite upd_eq; lia|by rewrite upd_ne]. }
  apply (cache_ok_unused s m (upd R p 0) D p it it'); [done|done|apply upd_eq|done].
Qed.

Lemma csame_dom2 p r (h h' : gmap Z item) :
  csame_out (λ x, x = p ∨ x = r) h h' → is_Some (h !! p) → is_Some (h' !! p) → is_Some (h !! r) → is_Some (h' !! r) →
  dom h' = dom h.
Proof.
  intros Hc H1 H2 H3 H4. apply set_eq. intros x. rewrite !elem_of_dom.
  destruct (decide (x = p)) as [->|Hp]; [done|]. destruct (decide (x = r)) as [->|Hr]; [done|].
  specialize (Hc x ltac:(naive_solver)). destruct (h' !! x), (h !! x); simpl in *; split; intros [? ?]; eauto; done.
Qed.

(** The copy that replaces an item. *)
Definition copied_hdr (x : item) : item :=
  x <| i_prev := NULL |> <| i_next := NULL |> <| i_h_next := NULL |>
    <| i_it_flags := clear (i_it_flags x) ITEM_LINKED |> <| i_refcount := 0 |>.

Lemma copied_hdr_ok pl x : item_ok pl x → item_ok pl (copied_hdr x).
Proof. exact (unlinked_hdr_ok pl x). Qed.

Lemma copied_payload x it' now cas : ctl it' = ctl ((linked_hdr (copied_hdr x) now cas) <| i_refcount := 1 |>) →
  payload it' = payload x.
Proof.
  intros (E1 & _ & E3 & E4 & E5 & E6 & E7 & _ & _ & E10 & E11)%ctl_fields.
  assert (i_it_flags (linked_hdr (copied_hdr x) now cas) = Z.lor (clear (i_it_flags x) ITEM_LINKED) ITEM_LINKED) as Ef.
  { unfold linked_hdr. by rewrite (proj1 (ITEM_set_cas_other _ _)). }
  unfold payload, ITEM_clsid. rewrite E1, E3, E4, E5, E6, E7, E10, E11. simpl.
  rewrite Ef, (clear_lor_sub _ ITEM_LINKED), (clear_clear_sub _ ITEM_LINKED) by reflexivity.
  unfold linked_hdr, ITEM_set_cas. destruct (flag _ _); reflexivity.
Qed.

(** An address unlinked from the cache but still referenced is on no list. *)
Lemma unlinked_out s m R D p it :
  cache_ok s m R D → 0 < R p → (∀ k, m !! k ≠ Some p) → w_heap s !! p = Some it → ∀ q, p ∉ D q.
Proof.
  intros Hok HR Hm Hp. destruct (co_held _ _ _ _ Hok p HR) as [[id Hid]|(_ & ? & _)]; [|done].
  destruct (co_queued _ _ _ _ Hok id p Hid) as (ix & _ & _ & _ & _ & _ & Hk). by destruct (Hm (ITEM_key ix)).
Qed.

Lemma one_key s m R D k k' p : cache_ok s m R D → m !! k = Some p → m !! k' = Some p → k' = k.
Proof.
  intros Hok H1 H2. destruct (cache_entry _ _ _ _ _ _ Hok H1) as (i1 & _ & E1 & <- & _).
  destruct (cache_entry _ _ _ _ _ _ Hok H2) as (i2 & _ & E2 & <- & _). congruence.
Qed.

(** The chunk [p] after its item was copied or dropped. *)
Lemma clear_out s m R D p z :
  cache_ok s m (upd R p 1) D → R p = 0 → (∀ q, p ∉ D q) → w_heap s !! p = Some z →
  let s' := s <| w_heap := <[p := cleared_hdr z]> (w_heap s) |> in
  cache_ok s' m R D ∧ cleared s' R D p.
Proof.
  intros Hok HR Hn Hp s'. split.
  - apply (cache_ok_R _ _ (upd (upd R p 1) p 0)).
    { intros x. unfold upd. by destruct (Z.eqb_spec x p) as [->|]. }
    apply (cache_ok_release s m _ D p z); [done|apply upd_eq|done|done].
  - split; [done|]. split; [done|]. eexists. split; [apply lookup_insert_eq|done].
Qed.

Lemma rescue_item_ok s0 s m R D p r k x :
  cache_ok s m (upd R p 1) D → R p = 0 → m !! k = Some p → w_heap s !! p = Some x → i_refcount x = 2 →
  sid s = sid s0 → p_size (scls s) = p_size (scls s0) → (∀ y, in_moved s y ↔ in_moved s0 y) → p ≠ r →
  target s0 (upd R p 1) s D r → 0 < lru_bytes x ≤ p_size (scls s0) → (∀ y, p < y < p + p_size (scls s0) → w_heap s !! y = None) →
  ∃ s' D' it', rescue_item (sid s0) p r (hash k) s = Some (tt, s') ∧ cache_ok s' (<[k := r]> m) R D' ∧
    page_step s (upd R p 1) D s' R D' ∧ cleared s' R D' p ∧ carried s m R s' (<[k := r]> m) ∧
    w_heap s' !! r = Some it' ∧ payload it' = payload x ∧ same_marks s s' ∧ w_locks s' = w_locks s.
Proof.
  intros Hok HR Hm Hp Hrc Esid Esz Emv Hpr [T1 T2 T3 T4 (y & Hy & Hyf) T6] Hn Hsolid.
  destruct (cache_entry _ _ _ _ _ _ Hok Hm) as (x0 & id & Hp' & Hk & Hq & Hio & _ & Hfl & _). assert (x0 = x) as -> by congruence.
  assert (Hu : in_use (upd R p 1) D p) by (right; by exists id).
  unfold rescue_item. rewrite (bind_run _ _ _ _ _ eq_refl), (bind_run _ _ _ _ _ (load_ok _ _ _ Hp)).
  rewrite (bind_run _ _ _ _ _ (fld_ok _ _ i_it_flags _ Hy)), Hyf, (bind_run _ _ _ _ _ eq_refl).
  assert (Eb : move_bytes (slabcls s (sid s0)) x = lru_bytes x) by (unfold move_bytes; by rewrite (proj1 (proj2 Hio))).
  rewrite Eb, (bind_run _ _ _ _ _ (memcpy_block_one s r p _ x (proj1 Hn) Hp ltac:(intros; apply Hsolid; lia) ltac:(intros; apply T6; lia))).
  erewrite bind_run by (apply wr_ok; apply lookup_insert_eq). simpl. rewrite insert_insert_eq.
  fold (copied_hdr x). set (s1 := s <| w_heap := <[r := copied_hdr x]> (w_heap s) |>).
  change (s <| w_heap := <[r := x]> (w_heap s) |> <| w_heap := <[r := copied_hdr x]> (w_heap s) |>) with s1.
  assert (Hok1 : cache_ok s1 m (upd R p 1) D) by exact (cache_ok_unused s m _ D r y (copied_hdr x) Hok T3 T4 Hy).
  assert (Hheld : held_ok s1 (upd R p 1) r (copied_hdr x)).
  { split; [by apply copied_hdr_ok|]. split; [apply flag_clear_eq|by rewrite T4]. }
  destruct (do_item_replace_gen s1 m (upd R p 1) D k p r (copied_hdr x) Hok1 Hm) as
    (s2 & D2 & it2 & Hrun & Hok2 & Hfr & _ & Hcs & Hr2 & Hct & Hpages & Hmem & Hfree); try done;
    [rewrite upd_eq; lia|apply lookup_insert_eq|].
  rewrite (bind_run _ _ _ _ _ Hrun), (bind_run _ _ _ _ _ (load_ok _ _ _ Hr2)).
  assert (Hch : flag (i_it_flags it2) ITEM_CHUNKED = false).
  { rewrite (proj1 (ctl_fields _ _ Hct)). unfold linked_hdr. simpl. rewrite (proj1 (ITEM_set_cas_other _ _)). simpl.
    rewrite flag_lor, flag_clear_ne by done. rewrite (proj1 (proj2 Hio)). done. }
  rewrite Hch, (bind_run _ _ _ _ _ eq_refl).
  assert (Hm2 : ∀ k', <[k := r]> m !! k' ≠ Some p).
  { intros k' Hk'. destruct (decide (k' = k)) as [->|Hne]; [rewrite lookup_insert_eq in Hk'; congruence|].
    rewrite lookup_insert_ne in Hk' by done. by apply Hne, (one_key _ _ _ _ _ _ _ Hok Hm). }
  destruct (cache_usable _ _ _ _ p Hok2) as (z & [Hz _] & _); [left; rewrite upd_eq; lia|].
  pose proof (unlinked_out s2 _ _ D2 p z Hok2 ltac:(rewrite upd_eq; lia) Hm2 Hz) as Hout.
  destruct (clear_out s2 _ R D2 p z Hok2 HR Hout Hz) as [Hok3 Hcl].
  rewrite (bind_run _ _ _ _ _ (wr_ok _ _ _ _ Hz)). fold (cleared_hdr z).
  set (s3 := s2 <| w_heap := <[p := cleared_hdr z]> (w_heap s2) |>) in *.
  set (s4 := s3 <| w_rebal := (w_rebal s3) <| r_rescues := u32 (r_rescues (w_rebal s3) + 1) |> |>).
  assert (Hrb : w_rebal s3 = w_rebal s) by (unfold item_frame in Hfr; simpl; by rewrite Hfr).
  assert (Hr4 : w_heap s4 !! r = Some it2) by (simpl; by rewrite lookup_insert_ne).
  assert (Hcs4 : csame_out (λ x, x = p ∨ x = r) (w_heap s) (w_heap s4)).
  { apply (csame_out_trans _ _ (w_heap s1)); [apply csame_out_insert; by right|].
    apply (csame_out_trans _ _ (w_heap s2)); [done|]. apply csame_out_insert. by left. }
  assert (Hpl : payload it2 = payload x) by exact (copied_payload x it2 _ _ Hct).
  exists s4, D2, it2. split; [done|]. split; [by apply (cache_ok_same s3)|].
  assert (Hstep : page_step s (upd R p 1) D s4 R D2).
  { apply (page_step_at (λ x, x = p ∨ x = r) s m (upd R p 1) D s4 (<[k := r]> m) R D2 p); try done.
    - intros w [->| ->]; [by left|right]. by rewrite Emv.
    - by apply (cache_ok_same s3).
    - apply (csame_dom2 p r); try done; simpl; rewrite lookup_insert_eq; by eexists.
    - change (cursor (w_rebal s4)) with (cursor (w_rebal s3)). by rewrite Hrb.
    - intros w Hw. rewrite upd_ne by naive_solver. done.
    - intros k' w Hw Hk'. rewrite lookup_insert_ne; [done|]. intros <-. naive_solver.
    - intros q w Hw. destruct (Hmem q w Hw) as [?|[?|?]]; auto.
    - intros w Hw. apply Hfree. naive_solver.
    - intros w [->| ->]; [apply Hout|]. intros Hf.
      destruct (co_mapped _ _ _ _ Hok2 k r) as [i Hi]; [apply lookup_insert_eq|].
      by pose proof (qo_disj _ _ (so_queues _ _ (co_slabs _ _ _ _ Hok2)) _ _ _ Hi Hf).
    - right. left. exact Hcl. }
  split; [exact Hstep|]. split; [exact Hcl|]. split; [|split; [done|split; [done|split]]].
  - constructor.
    + apply calm_item in Hfr. destruct Hfr. by constructor.
    + intros k' [w Hw]. destruct (decide (k' = k)) as [->|Hne]; [by eexists|]. rewrite lookup_insert_ne in Hw by done. by eexists.
    + intros k' w w' iw Hw Hiw Hw'. destruct (decide (k' = k)) as [->|Hne].
      * rewrite lookup_insert_eq in Hw'. injection Hw' as <-. assert (w = p) as -> by congruence.
        assert (iw = x) as -> by congruence. eauto.
      * rewrite lookup_insert_ne in Hw' by done. assert (w' = w) as -> by congruence.
        destruct (csame_lookup _ _ _ w iw Hcs4) as (iw' & ? & Hc); [|done|].
        { intros [->| ->]; [by apply Hne, (one_key _ _ _ _ _ _ _ Hok Hm)|].
          destruct (co_mapped _ _ _ _ Hok k' r Hw) as [i Hi]. by apply (T3 (LruQ i)). }
        exists iw'. split; [done|]. by apply payload_val, val_ctl.
    + intros w iw Hw Hiw. destruct (csame_lookup _ _ _ w iw Hcs4) as (iw' & ? & Hc); [|done|].
      { intros [->| ->]; [lia|]. rewrite upd_ne in T4 by done. lia. }
      exists iw'. split; [done|]. by apply val_ctl.
  - change (same_marks s s4) with (same_marks s s3). unfold same_marks. by rewrite Hrb.
  - simpl. unfold item_frame in Hfr. by rewrite Hfr.
Qed.

Lemma drop_chunk_ok s m R D p k x :
  cache_ok s m (upd R p 1) D → R p = 0 → m !! k = Some p → w_heap s !! p = Some x →
  ∃ s1 s2 s3 D', storage_delete p s = Some (tt, s1) ∧ w_heap s1 !! p = Some x ∧
    do_item_unlink p (hash k) s1 = Some (tt, s2) ∧
    wr p (λ x, x <| i_it_flags := CLEARED |> <| i_refcount := 0 |>) s2 = Some (tt, s3) ∧
    cache_ok s3 (delete k m) R D' ∧ page_step s (upd R p 1) D s3 R D' ∧ cleared s3 R D' p ∧
    carried s m R s3 (delete k m) ∧ same_marks s s3 ∧ w_locks s3 = w_locks s.
Proof.
  intros Hok HR Hm Hp. destruct (storage_delete_run s p x Hp) as (e & Hsd & _).
  set (s1 := s <| w_ext := e |>) in *. assert (Hok1 : cache_ok s1 m (upd R p 1) D) by by apply (cache_ok_same s).
  destruct (unlink_step s1 m _ D k p x Hok1 Hm Hp) as (s2 & D2 & z & ev & Hun & Hl & _ & Hz & Hv & Hn & [Kp Km Kf] & Hs2);
    [rewrite upd_eq; lia..|].
  assert (Hok2 := pull_step_ok _ _ _ _ _ _ _ _ _ _ Hs2).
  destruct (do_item_unlink_ok s1 m _ D k p Hok1 Hm) as (s2' & D2' & Hun' & _ & Hfr & _ & Hcs & _); [rewrite upd_eq; lia|].
  assert (s2' = s2) as -> by congruence.
  assert (Hrb : w_rebal s2 = w_rebal s) by (unfold item_frame in Hfr; by rewrite Hfr).
  destruct (clear_out s2 _ R D2 p z Hok2 HR Hn Hz) as [Hok3 Hcl].
  set (s3 := s2 <| w_heap := <[p := cleared_hdr z]> (w_heap s2) |>) in *.
  destruct (cache_entry _ _ _ _ _ _ Hok Hm) as (x0 & id & Hp' & Hk & Hq & _).
  assert (Hcs3 : csame_out (λ x, x = p) (w_heap s) (w_heap s3)).
  { apply (csame_out_trans _ _ (w_heap s2)); [done|]. by apply csame_out_insert. }
  exists s1, s2, s3, D2. split; [done|]. split; [done|]. split; [done|]. split; [exact (wr_ok _ _ _ _ Hz)|]. split; [done|].
  split; [|split; [done|split; [|split]]].
  - apply (page_step_at (λ x, x = p) s m (upd R p 1) D s3 (delete k m) R D2 p); try done.
    + auto.
    + right. by exists id.
    + simpl. rewrite dom_insert_lookup_L by by eexists.
      exact (pk_dom _ _ (pu_pages _ _ _ _ _ _ _ _ _ (ps_pulled _ _ _ _ _ _ _ _ _ _ Hs2))).
    + simpl. by rewrite Hrb.
    + intros w Hw. by rewrite upd_ne.
    + intros k' w Hw Hk'. rewrite lookup_delete_ne; [done|]. intros ->. congruence.
    + intros w Hw. by apply Kf.
    + intros w ->. apply Hn.
    + right. by left.
  - constructor.
    + apply calm_item in Hfr. destruct Hfr. by constructor.
    + intros k' [w Hw]. apply lookup_delete_Some in Hw as [_ Hw]. by eexists.
    + intros k' w w' iw Hw Hiw Hw'. apply lookup_delete_Some in Hw' as [Hne Hw']. assert (w' = w) as -> by congruence.
      destruct (csame_lookup _ _ _ w iw Hcs3) as (iw' & ? & Hc); [|done|].
      { intros ->. by apply Hne, eq_sym, (one_key _ _ _ _ _ _ _ Hok Hm). }
      exists iw'. split; [done|]. by apply payload_val, val_ctl.
    + intros w iw Hw Hiw. destruct (csame_lookup _ _ _ w iw Hcs3) as (iw' & ? & Hc); [intros ->; lia|done|].
      exists iw'. split; [done|]. by apply val_ctl.
  - unfold same_marks. simpl. by rewrite Hrb.
  - done.
Qed.

Definition completed s (i : nat) : world :=
  s <| w_rebal := (w_rebal s) <| r_completed := <[i := 1]> (r_completed (w_rebal s)) |> |>.

Lemma set_completed_run s i : 0 ≤ i < Z.of_nat (length (r_completed (w_rebal s))) →
  set_completed i s = Some (tt, completed s (Z.to_nat i)).
Proof.
  intros Hi. unfold set_completed. rewrite (bind_run _ _ _ _ _ eq_refl). by rewrite (bind_run _ _ _ _ _ (arr_set_ok _ _ _ _ Hi)).
Qed.

(** The chunk with index [i] is done with: it was busy, or it is cleared now. *)
Record visited s m R D (i busy : Z) s' m' D' : Prop := {
  vs_done : chunk_done s m R D (chunk_at s i) s' m' D';
  vs_busy : busy = 0 ∨ busy = 1;
  vs_count : r_busy_items (w_rebal s') = u32 (r_busy_items (w_rebal s) + busy);
  vs_marks : r_completed (w_rebal s') = r_completed (w_rebal s) ∨
    r_completed (w_rebal s') = <[Z.to_nat i := 1]> (r_completed (w_rebal s));
  vs_cleared : r_completed (w_rebal s') ≠ r_completed (w_rebal s) ∨ busy = 0 → cleared s' R D' (chunk_at s i);
  vs_why : busy = 1 → 0 < R (chunk_at s i) ∨ ∃ k, m !! k = Some (chunk_at s i) ∧ item_lock_index s (hash k) ∈ w_locks s
}.

(** The last steps of a move: mark the chunk, release the lock. *)
Lemma finish_chunk s0 m0 R D0 p s m D i hold :
  cache_ok s0 m0 R D0 → page_step s0 R D0 s R D → cache_ok s m R D → carried s0 m0 R s m →
  same_marks s0 s → hold ∉ w_locks s0 → w_locks s = {[hold]} ∪ w_locks s0 → cleared s R D p →
  0 ≤ i < Z.of_nat (length (r_completed (w_rebal s0))) → p = chunk_at s0 i → 0 ≤ r_busy_items (w_rebal s0) < 2 ^ 32 →
  (∀ s', w_heap s' = w_heap s → fate s0 m0 R D0 p s' m) →
  let s' := (completed s (Z.to_nat i)) <| w_locks := w_locks s ∖ {[hold]} |> in
  visited s0 m0 R D0 i 0 s' m D.
Proof.
  intros Hok0 Hst Hok Hca [M1 M2] Hnl Hl Hcl Hi -> Hb Hfa s'. constructor.
  - constructor.
    + by apply (cache_ok_same s).
    + eapply page_step_trans; [exact Hst|]. by apply page_step_same.
    + eapply carried_trans; [exact Hca|]. by apply carried_same.
    + by apply Hfa.
    + simpl. rewrite Hl. by apply locks_back.
  - by left.
  - simpl. rewrite M2, Z.add_0_r, u32_small; done.
  - right. simpl. by rewrite M1.
  - intros _. exact Hcl.
  - done.
Qed.

Lemma move_from_lru_ok s m R D i k x :
  let p := chunk_at s i in let hold := item_lock_index s (hash k) in
  cache_ok s m R D → page_ok s R D → Z.of_nat (length (r_completed (w_rebal s))) = p_perslab (scls s) →
  0 ≤ i < p_perslab (scls s) → 0 ≤ r_busy_items (w_rebal s) < 2 ^ 32 → m !! k = Some p → w_heap s !! p = Some x →
  R p = 0 → hold ∉ w_locks s →
  ∀ s1, w_locks s1 = {[hold]} ∪ w_locks s → cache_ok s1 m (upd R p (R p + 1)) D →
    page_step s R D s1 (upd R p (R p + 1)) D → carried s m R s1 m →
    w_heap s1 !! p = Some (x <| i_refcount := 2 + R p |>) → w_rebal s1 = w_rebal s → w_slabs s1 = w_slabs s →
    calm s s1 →
  ∃ s' m' D', move_from_lru (sid s) p None (hash k) hold i s1 = Some (0, s') ∧ visited s m R D i 0 s' m' D'.
Proof.
  intros p hold Hok Hpg Hlen Hi Hb Hm Hp HR Hnl s1 Hl1 Hok1 Hst1 Hca1 Hp1 Hrb1 Hsl1 Hcalm1.
  rewrite HR in Hok1, Hst1, Hp1. change (0 + 1) with 1 in Hok1, Hst1. change (2 + 0) with 2 in Hp1.
  pose proof (page_ok_step _ _ _ _ _ _ Hpg Hst1) as Hpg1.
  destruct (step_geometry _ _ _ _ _ _ Hst1) as (Es1 & Ez1 & Ep1 & Em1 & Ec1).
  destruct (cache_entry _ _ _ _ _ _ Hok Hm) as (x0 & id & Hp' & Hk & Hq & Hio & _ & Hfl & _). assert (x0 = x) as -> by congruence.
  set (x1 := x <| i_refcount := 2 |>) in *.
  assert (Hin : in_moved s1 p) by (apply Em1; by eapply chunk_in_page).
  assert (Hsz : lru_bytes x ≤ p_size (scls s)).
  { destruct (resident_in_use s m R D p Hok) as (_ & x0 & Hp0 & _ & Hsz); [right; by exists id|by apply Hpg|].
    by assert (x0 = x) as -> by congruence. }
  destruct (move_target_ok s1 m (upd R p 1) D p k x1 Hok1 Hpg1 Hin Hm Hp1) as
    (r & s2 & D2 & Hrun2 & Hok2 & Hst2 & Hcalm2 & Hsame2 & Hmk2 & Hl2 & Hres); [by rewrite Ez1|].
  rewrite Es1 in Hrun2. unfold move_from_lru. change (bool_decide (is_Some None)) with false. rewrite (bind_run _ _ _ _ _ Hrun2).
  assert (Hmk02 : same_marks s s2) by (destruct Hmk2 as [E1 E2]; rewrite Hrb1 in E1, E2; done).
  assert (Hl02 : w_locks s2 = {[hold]} ∪ w_locks s) by congruence.
  assert (Hst02 : page_step s R D s2 (upd R p 1) D2) by (eapply page_step_trans; [exact Hst1|exact Hst2]).
  assert (Hca02 : carried s m R s2 m).
  { eapply carried_trans; [exact Hca1|]. apply carried_ctl; [done|]. intros y Hy. apply Hsame2.
    destruct Hy as [Hy|?]; [left|by right]. unfold upd. by destruct (Z.eqb_spec y p) as [->|]; [lia|]. }
  assert (∃ x2, w_heap s2 !! p = Some x2 ∧ ctl x2 = ctl x1) as (x2 & Hp2 & Hc2).
  { pose proof (Hsame2 p ltac:(eauto)) as H. rewrite Hp1 in H. destruct (w_heap s2 !! p) as [x2|]; [|done].
    exists x2. split; [done|]. by apply (inj Some) in H. }
  assert (Hstale : stale s1 x1 = stale s x) by (apply stale_val; [apply Hcalm1|apply Hcalm1|done]).
  destruct (step_geometry _ _ _ _ _ _ Hst02) as (Es2 & Ez2 & _ & Em2 & _).
  destruct Hres as [[-> Hwhy]|[Hns Htg]].
  - change (negb (NULL =? NULL)) with false. cbv iota.
    destruct (drop_chunk_ok s2 m R D2 p k x2 Hok2 HR Hm Hp2) as
      (s3 & s4 & s5 & D5 & Hr3 & Hp3 & Hr4 & Hr5 & Hok5 & Hst5 & Hcl5 & Hca5 & Hmk5 & Hl5).
    assert (Hch : flag (i_it_flags x2) ITEM_CHUNKED = false) by (rewrite (proj1 (ctl_fields _ _ Hc2)); apply Hio).
    rewrite bind_assoc, (bind_run _ _ _ _ _ Hr3), bind_assoc, (bind_run _ _ _ _ _ (load_ok _ _ _ Hp3)), Hch.
    change (bool_decide (None = None) && negb false) with true. cbv iota.
    rewrite bind_assoc, (bind_run _ _ _ _ _ Hr4), bind_assoc, (bind_run _ _ _ _ _ Hr5), bind_assoc.
    assert (Hmk05 : same_marks s s5) by (destruct Hmk02, Hmk5; split; congruence).
    rewrite (bind_run _ _ _ _ _ (set_completed_run s5 i ltac:(rewrite (proj1 Hmk05); lia))), (bind_run _ _ _ _ _ eq_refl).
    rewrite (bind_run _ _ _ _ _ eq_refl). eexists _, (delete k m), D5. split; [reflexivity|].
    apply (finish_chunk s m R D p s5 (delete k m) D5 i hold); try done.
    + eapply page_step_trans; [exact Hst02|exact Hst5].
    + eapply carried_trans; [exact Hca02|exact Hca5].
    + congruence.
    + lia.
    + intros s' _. apply (fate_dropped _ _ _ _ _ _ _ k x); try done.
      destruct Hwhy as [?|Hwhy]; [left; congruence|right]. intros y Hy. apply Em1. apply Hwhy. by rewrite Es1.
  - rewrite (proj2 (Z.eqb_neq r NULL)) by apply Htg. simpl.
    destruct (rescue_item_ok s1 s2 m R D2 p r k x2) as (s3 & D3 & it3 & Hr3 & Hok3 & Hst3 & Hcl3 & Hca3 & Hi3 & Hpl3 & Hmk3 & Hl3); try done.
    + by rewrite (proj1 (proj2 (ctl_fields _ _ Hc2))).
    + congruence.
    + congruence.
    + intros y. by rewrite Em2, Em1.
    + intros E. apply (tg_out _ _ _ _ _ Htg). by rewrite <- E.
    + rewrite (lru_bytes_ctl _ _ Hc2), Ez1. change (lru_bytes x1) with (lru_bytes x). split; [|done].
      destruct Hio as (_ & _ & Hko & _ & Hnb). destruct Hko. unfold lru_bytes, ITEM_ntotal, sizeof_item, sizeof_uint32, sizeof_uint64, sizeof_item_hdr.
      destruct (flag _ ITEM_HDR), (flag _ ITEM_CFLAGS), (flag _ ITEM_CAS); lia.
    + intros y Hy. apply not_elem_of_dom. rewrite (st_dom _ _ _ _ _ _ Hst02). apply not_elem_of_dom.
      rewrite Ez1 in Hy. apply (pg_solid _ _ _ Hpg p y); [right; eauto|done].
    + rewrite Es1 in Hr3. rewrite bind_assoc, (bind_run _ _ _ _ _ Hr3), bind_assoc.
      assert (Hmk03 : same_marks s s3) by (destruct Hmk02, Hmk3; split; congruence).
      rewrite (bind_run _ _ _ _ _ (set_completed_run s3 i ltac:(rewrite (proj1 Hmk03); lia))), (bind_run _ _ _ _ _ eq_refl).
      rewrite (bind_run _ _ _ _ _ eq_refl). eexists _, (<[k := r]> m), D3. split; [reflexivity|].
      apply (finish_chunk s m R D p s3 (<[k := r]> m) D3 i hold); try done.
      * eapply page_step_trans; [exact Hst02|exact Hst3].
      * eapply carried_trans; [exact Hca02|exact Hca3].
      * congruence.
      * lia.
      * intros s' Hh'. apply (fate_rescued _ _ _ _ _ _ _ k x r it3); try done.
        -- congruence.
        -- intros Hrm. apply (tg_out _ _ _ _ _ Htg). by apply Em1.
        -- by rewrite Hh'.
        -- rewrite Hpl3. change (payload x) with (payload x1). by apply payload_val, val_ctl.
Qed.

(** A free chunk of the page leaves its list. *)
Lemma cut_chunk_ok s m R D p :
  cache_ok s m R D → page_ok s R D → p ∈ D (FreeQ (sid s)) →
  ∃ s1 s2 D', slab_rebalance_cut_free (sid s) p s = Some (tt, s1) ∧ w_rebal s1 = w_rebal s ∧
    (∀ r, wr p (λ x, x <| i_refcount := 0 |> <| i_it_flags := CLEARED |>) (s1 <| w_rebal := r |>) = Some (tt, s2 <| w_rebal := r |>)) ∧
    w_rebal s2 = w_rebal s ∧ chunk_done s m R D p s2 m D' ∧ cleared s2 R D' p.
Proof.
  intros Hok Hpg Hin. pose proof (co_slabs _ _ _ _ Hok) as Hs. destruct (list_elem_of_split _ _ Hin) as (l1 & l2 & HD).
  destruct (slab_rebalance_cut_free_ok s D (sid s) p l1 l2 Hs HD) as (h1 & sl1 & Hrun & Hs1 & Hn & Hsame & Hpages).
  set (D' := qset D (FreeQ (sid s)) (l1 ++ l2)) in *. set (s1 := s <| w_heap := h1 |> <| w_slabs := sl1 |>) in *.
  assert (HR : R p = 0).
  { destruct (decide (R p = 0)); [done|]. pose proof (co_refs _ _ _ _ Hok p).
    destruct (in_use_not_free s m R D p (sid s) Hok); [left; lia|done]. }
  assert (Hsub : ∀ q x, x ∈ D' q → x ∈ D q).
  { intros q x. unfold D', qset. case_decide as E; [|done]. rewrite E, HD. set_solver. }
  assert (Hok1 : cache_ok s1 m R D').
  { apply (cache_ok_slab s _ m R D D' (λ _, False)); try done.
    - by apply same_pages_largest.
    - by apply lsame_lsame_out.
    - intros; tauto.
    - intros x Hx. split; [tauto|]. intros Hnx q Hq. by apply (Hnx q), Hsub.
    - simpl. rewrite <- (size_dom (D := gset Z)), <- (lsame_dom _ _ Hsame), size_dom. apply Hok. }
  destruct (so_free _ _ Hs (sid s) p Hin) as (_ & it & Hit & _). destruct (lsame_lookup _ _ _ _ Hsame Hit) as (n & v & Hit1).
  set (z := it <| i_next := n |> <| i_prev := v |>) in *. set (s2 := s1 <| w_heap := <[p := cleared_hdr z]> h1 |>).
  assert (Hok2 : cache_ok s2 m R D') by exact (cache_ok_unused s1 m R D' p z (cleared_hdr z) Hok1 Hn HR Hit1).
  assert (Hcl : cleared s2 R D' p) by (split; [done|split; [done|]]; eexists; split; [apply lookup_insert_eq|done]).
  assert (Hcs : csame_out (λ x, x = p) (w_heap s) (w_heap s2)).
  { apply (csame_out_trans _ _ h1); [by apply lsame_csame|by apply csame_out_insert]. }
  exists s1, s2, D'. split; [done|]. split; [done|]. split; [intros r; exact (wr_ok (s1 <| w_rebal := r |>) p _ z Hit1)|]. split; [done|]. split; [|done].
  destruct (same_pages_cls _ _ (sid s) Hpages) as (Esz & _).
  assert (Hother : ∀ y it, y ≠ p → w_heap s !! y = Some it → ∃ it', w_heap s2 !! y = Some it' ∧ ctl it' = ctl it)
    by (intros y iy Hy; by apply (csame_lookup _ _ _ y iy Hcs)).
  assert (Hcl' : ∀ y, cleared s R D y → cleared s2 R D' y).
  { intros y (C1 & C2 & iy & C3 & C4). destruct (Hother y iy) as (iy' & ? & Hc); [intros ->; by apply (C1 (FreeQ (sid s)))|done|].
    split; [intros q Hq; by apply (C1 q), Hsub|]. split; [done|]. exists iy'. split; [done|]. by rewrite (proj1 (ctl_fields _ _ Hc)). }
  constructor; [done| |apply carried_ctl; [done|]|by apply fate_stays|done].
  - constructor; try done.
    + simpl. rewrite dom_insert_lookup_L by by eexists. by rewrite (lsame_dom _ _ Hsame).
    + intros x. apply Hsub.
    + intros y _ Hy. destruct (decide (y = p)) as [->|Hne]; [right; by left|].
      destruct Hy as [Hf|[?|(Hu & iy & Hiy & Hch & Hb)]].
      * left. change (sid s2) with (sid s). unfold D'. rewrite qset_eq. rewrite HD in Hf. set_solver.
      * right. left. auto.
      * right. right. destruct (Hother y iy Hne Hiy) as (iy' & Hiy' & Hc). split.
        -- destruct Hu as [?|[id Hid]]; [by left|right; by exists id].
        -- exists iy'. split; [done|]. rewrite (proj1 (ctl_fields _ _ Hc)), (lru_bytes_ctl _ _ Hc). change (sid s2) with (sid s).
           simpl. rewrite Esz. done.
    + auto.
  - intros x Hx. apply Hcs. intros ->. by apply (in_use_not_free s m R D p (sid s) Hok Hx).
Qed.

Lemma move_chunk_ok s m R D i :
  cache_ok s m R D → page_ok s R D → Z.of_nat (length (r_completed (w_rebal s))) = p_perslab (scls s) →
  0 ≤ i < p_perslab (scls s) → 0 ≤ r_busy_items (w_rebal s) < 2 ^ 32 → R (chunk_at s i) + 2 < 2 ^ 15 →
  ∃ busy s' m' D', move_chunk (sid s) (chunk_at s i) i s = Some (busy, s') ∧ visited s m R D i busy s' m' D'.
Proof.
  intros Hok Hpg Hlen Hi Hb HR. set (p := chunk_at s i). pose proof (pg_chunk _ _ _ Hpg i Hi) as Hst. fold p in Hst.
  assert (Hcount : ∀ s1 m1 D1, same_marks s s1 → chunk_done s m R D p s1 m1 D1 →
    0 < R p ∨ (∃ k, m !! k = Some p ∧ item_lock_index s (hash k) ∈ w_locks s) →
    ∃ busy s' m' D', count_busy s1 = Some (busy, s') ∧ visited s m R D i busy s' m' D').
  { intros s1 m1 D1 [M1 M2] [C1 C2 C3 C4 C5] Hwhy. eexists 1, _, m1, D1. split; [reflexivity|]. constructor.
    - constructor; [by apply (cache_ok_same s1)|eapply page_step_trans; [exact C2|by apply page_step_same]| | |done].
      + eapply carried_trans; [exact C3|]. by apply carried_same.
      + destruct C4 as [->|k it new it' F1 F2 F3 F4 F5 F6 F7 F8|k it F1 F2 F3 F4 F5|k F1 F2 F3 F4];
          [by apply fate_stays|by eapply fate_rescued|by eapply fate_dropped|by eapply fate_busy].
    - by right.
    - simpl. by rewrite M2.
    - left. exact M1.
    - intros [H|H]; [by destruct H|done].
    - done. }
  unfold move_chunk. destruct Hst as [Hf|[Hcl|Hres]].
  - destruct (so_free _ _ (co_slabs _ _ _ _ Hok) _ _ Hf) as (_ & it & Hit & Hfl & _).
    rewrite (bind_run _ _ _ _ _ (load_ok _ _ _ Hit)), Hfl. change (flag ITEM_SLABBED ITEM_CHUNK) with false. cbv iota.
    rewrite (bind_run _ _ _ _ _ eq_refl). change (bool_decide (is_Some None)) with false.
    destruct (cut_chunk_ok s m R D p Hok Hpg Hf) as (s1 & s2 & D' & Hcut & Hrb1 & Hwr & Hrb2 & [C1 C2 C3 C4 C5] & Hcl).
    rewrite (bind_run _ _ _ (MOVE_FROM_SLAB, 0, 0) s1).
    2:{ unfold move_examine. rewrite (bind_run _ _ _ _ _ (load_ok _ _ _ Hit)), Hfl.
        change (ITEM_SLABBED =? CLEARED) with false. change (flag ITEM_SLABBED ITEM_SLABBED) with true. cbv iota.
        by rewrite (bind_run _ _ _ _ _ eq_refl), (bind_run _ _ _ _ _ Hcut). }
    rewrite (bind_run _ _ _ _ _ (set_completed_run s1 i ltac:(rewrite Hrb1; lia))).
    unfold completed. rewrite Hrb1, (bind_run _ _ _ _ _ (Hwr _)). eexists 0, _, m, D'. split; [reflexivity|].
    constructor; [|by left|simpl; rewrite Z.add_0_r, u32_small; done|by right|intros _; exact Hcl|done].
    constructor; [by apply (cache_ok_same s2)|eapply page_step_trans; [exact C2|by apply page_step_same; simpl; rewrite ?Hrb2]| |by apply fate_stays|done].
    eapply carried_trans; [exact C3|by apply carried_same].
  - pose proof Hcl as (_ & _ & it & Hit & Hfl). rewrite (bind_run _ _ _ _ _ (load_ok _ _ _ Hit)), Hfl.
    change (flag CLEARED ITEM_CHUNK) with false. cbv iota. rewrite (bind_run _ _ _ _ _ eq_refl).
    rewrite (bind_run _ _ _ (MOVE_PASS, 0, 0) s).
    2:{ unfold move_examine. rewrite (bind_run _ _ _ _ _ (load_ok _ _ _ Hit)), Hfl. done. }
    exists 0, s, m, D. split; [done|]. constructor; [by apply chunk_done_refl|by left|by rewrite Z.add_0_r, u32_small|by left|done|done].
  - destruct Hres as (Hu & it & Hit & Hch & Hsz). rewrite (bind_run _ _ _ _ _ (load_ok _ _ _ Hit)), Hch, (bind_run _ _ _ _ _ eq_refl).
    change (bool_decide (is_Some None)) with false.
    destruct (cache_usable _ _ _ _ p Hok Hu) as (it0 & [Hit0 _] & Hio & _ & Hiff). assert (it0 = it) as -> by congruence.
    destruct (flag (i_it_flags it) ITEM_LINKED) eqn:Hl.
    + destruct (proj1 Hiff eq_refl) as [id Hid].
      destruct (co_queued _ _ _ _ Hok id p Hid) as (it0 & Hit1 & _ & _ & _ & _ & Hm). assert (it0 = it) as -> by congruence.
      destruct (examine_linked s m R D p (ITEM_key it) it (sid s) Hok Hm Hit HR) as
        [(hv & Hlk & Hrun)|[(hv & l & s1 & m1 & D1 & HR0 & Hrun & Hmk & Hcd)|(s1 & Hrun & HR0 & Hnl & Hl1 & Hok1 & Hst1 & Hca1 & Hp1 & Hrb1 & Hsl1)]].
      * right. right. split; [done|]. eauto.
      * rewrite (bind_run _ _ _ _ _ Hrun). apply (Hcount s m D); [done|by apply chunk_done_refl|right; eauto].
      * rewrite (bind_run _ _ _ _ _ Hrun). by apply (Hcount s1 m1 D1); [..|left].
      * rewrite (bind_run _ _ _ _ _ Hrun).
        destruct (move_from_lru_ok s m R D i (ITEM_key it) it Hok Hpg Hlen Hi Hb Hm Hit HR0 Hnl s1) as (s' & m' & D' & Hr & Hv); try done.
        { apply Hca1. }
        by exists 0, s', m', D'.
    + rewrite (bind_run _ _ _ (MOVE_BUSY, 0, 0) s).
      2:{ unfold move_examine. rewrite (bind_run _ _ _ _ _ (load_ok _ _ _ Hit)).
          by rewrite (not_cleared_flags _ (proj1 Hio)), (proj1 Hio), Hl. }
      apply (Hcount s m D); [done|by apply chunk_done_refl|]. left. destruct Hu as [?|Hu]; [done|]. by apply Hiff in Hu.
Qed.

(** ** One step of the mover *)

Record moving s R D : Prop := {
  mo_page : page_ok s R D;
  mo_marks : marks_ok s R D;
  mo_pos : r_done (w_rebal s) = 0 → ∃ i, 0 ≤ i < p_perslab (scls s) ∧ r_slab_pos (w_rebal s) = chunk_at s i ∧
    0 ≤ r_busy_items (w_rebal s) ≤ i ∧ (r_busy_items (w_rebal s) = 0 → ∀ j, 0 ≤ j < i → cleared s R D (chunk_at s j));
  mo_done : r_done (w_rebal s) ≠ 0 → ∀ j, 0 ≤ j < p_perslab (scls s) → cleared s R D (chunk_at s j)
}.

Lemma fate_heap s m R D p s1 s2 m' : w_heap s2 = w_heap s1 → fate s m R D p s1 m' → fate s m R D p s2 m'.
Proof.
  intros Hh [->|k it new it' F1 F2 F3 F4 F5 F6 F7 F8|k it F1 F2 F3 F4 F5|k F1 F2 F3 F4];
    [by apply fate_stays|eapply fate_rescued; by rewrite ?Hh|by eapply fate_dropped|by eapply fate_busy].
Qed.

(** Only the mover's own fields and the statistics changed. *)
Lemma page_ok_same s R D s' :
  w_heap s' = w_heap s → w_slabs s' = w_slabs s → r_slab_start (w_rebal s') = r_slab_start (w_rebal s) →
  r_slab_end (w_rebal s') = r_slab_end (w_rebal s) → sid s' = sid s →
  page_ok s R D → page_ok s' R D ∧ (∀ i, chunk_at s' i = chunk_at s i) ∧ (∀ p, cleared s' R D p ↔ cleared s R D p).
Proof.
  intros E1 E2 E3 E4 E5 [A1 A2 A3 A4 A5].
  assert (Ec : ∀ i, chunk_at s' i = chunk_at s i) by (intros i; unfold chunk_at; by rewrite E2, E3, E5).
  assert (Ecl : ∀ p, cleared s' R D p ↔ cleared s R D p) by (intros p; unfold cleared; by rewrite E1).
  split; [|done]. constructor; rewrite ?E1, ?E2, ?E3, ?E4, ?E5; try done.
  - intros p x Hp. apply A4. destruct Hp as [?|(i & ? & ->)]; [by left|right]. exists i. by rewrite Ec.
  - intros i Hi. rewrite Ec. destruct (A5 i Hi) as [?|[?|?]].
    + left. by rewrite E5.
    + right. left. by apply Ecl.
    + right. right. unfold resident. by rewrite E1, E5, E2.
Qed.

Lemma move_advance_ok s m R D i :
  cache_ok s m R D → page_ok s R D → marks_ok s R D → r_done (w_rebal s) = 0 → 0 ≤ i < p_perslab (scls s) →
  r_slab_pos (w_rebal s) = chunk_at s i → 0 ≤ r_busy_items (w_rebal s) ≤ i + 1 →
  (r_busy_items (w_rebal s) = 0 → ∀ j, 0 ≤ j ≤ i → cleared s R D (chunk_at s j)) →
  ∃ s', move_advance (p_size (scls s)) s = Some (tt, s') ∧ cache_ok s' m R D ∧ moving s' R D ∧
    w_heap s' = w_heap s ∧ w_slabs s' = w_slabs s ∧ calm s s' ∧ w_locks s' = w_locks s ∧
    (if decide (i + 1 < p_perslab (scls s)) then
       r_done (w_rebal s') = 0 ∧ r_slab_pos (w_rebal s') = chunk_at s (i + 1) ∧ r_busy_items (w_rebal s') = r_busy_items (w_rebal s)
     else (r_done (w_rebal s') = 0 ↔ r_busy_items (w_rebal s) ≠ 0)) ∧
    (∀ j, chunk_at s' j = chunk_at s j) ∧ r_d_clsid (w_rebal s') = r_d_clsid (w_rebal s) ∧ sid s' = sid s ∧
    r_signal (w_rebal s') = r_signal (w_rebal s).
Proof.
  intros Hok Hpg [Hlen Hmk] Hd Hi Hpos Hb Hcl. pose proof Hpg as [_ [Hz _] [_ He] _ _].
  assert (Hpos' : r_slab_pos (w_rebal s) + p_size (scls s) = chunk_at s (i + 1)) by (rewrite Hpos; unfold chunk_at; lia).
  unfold move_advance. rewrite (bind_run _ _ _ _ _ eq_refl), (bind_run _ _ _ _ _ eq_refl). simpl. rewrite Hpos', He.
  assert (Hend : (r_slab_start (w_rebal s) + p_size (scls s) * p_perslab (scls s) <=? chunk_at s (i + 1)) =
    negb (bool_decide (i + 1 < p_perslab (scls s)))).
  { unfold chunk_at. case_bool_decide; simpl; [apply Z.leb_gt; nia|apply Z.leb_le; nia]. }
  rewrite Hend.
  assert (Hmov : ∀ s', w_heap s' = w_heap s → w_slabs s' = w_slabs s → r_slab_start (w_rebal s') = r_slab_start (w_rebal s) →
    r_slab_end (w_rebal s') = r_slab_end (w_rebal s) → sid s' = sid s → r_completed (w_rebal s') = r_completed (w_rebal s) →
    (r_done (w_rebal s') = 0 → ∃ j, 0 ≤ j < p_perslab (scls s) ∧ r_slab_pos (w_rebal s') = chunk_at s j ∧
       0 ≤ r_busy_items (w_rebal s') ≤ j ∧ (r_busy_items (w_rebal s') = 0 → ∀ n, 0 ≤ n < j → cleared s R D (chunk_at s n))) →
    (r_done (w_rebal s') ≠ 0 → ∀ j, 0 ≤ j < p_perslab (scls s) → cleared s R D (chunk_at s j)) →
    moving s' R D ∧ ∀ j, chunk_at s' j = chunk_at s j).
  { intros s' E1 E2 E3 E4 E5 E6 H1 H2. destruct (page_ok_same s R D s' E1 E2 E3 E4 E5 Hpg) as (Hpg' & Ec & Ecl). split; [|done].
    constructor; [done| | |]; rewrite ?E5, ?E2.
    - unfold marks_ok. rewrite E5, E2, E6. split; [done|]. intros n v Hn Hv. rewrite Ec, Ecl. by eapply Hmk.
    - intros Hd'. destruct (H1 Hd') as (j & Hj & Ej & Hbj & Hc). exists j. rewrite Ec. split_and!; try done; [lia..|].
      intros Hz' n Hn. rewrite Ec, Ecl. by apply Hc.
    - intros Hd' j Hj. rewrite Ec, Ecl. by apply H2. }
  case_bool_decide as Hlt; simpl.
  - eexists. split; [reflexivity|]. split; [by apply (cache_ok_same s)|].
    destruct (Hmov (s <| w_rebal := (w_rebal s) <| r_slab_pos := chunk_at s (i + 1) |> |>)) as [Hm1 Hc1]; try done.
    { intros _. exists (i + 1). split_and!; simpl; try lia. intros Hb0 n Hn. apply Hcl; [done|lia]. }
    split; [done|]. case_decide; [|done]. by split_and!.
  - assert (Hi1 : i = p_perslab (scls s) - 1) by lia.
    destruct (Z.eqb_spec (r_busy_items (w_rebal s)) 0) as [E0|E0]; simpl.
    + set (s' := s <| w_rebal := (w_rebal s) <| r_slab_pos := chunk_at s (i + 1) |> <| r_done := u8 (r_done (w_rebal s) + 1) |> |>).
      assert (r_done (w_rebal s') = 1) as Hd1 by (simpl; by rewrite Hd).
      exists s'. split; [done|]. split; [by apply (cache_ok_same s)|].
      destruct (Hmov s') as [Hm1 Hc1]; try done.
      { rewrite Hd1. done. } { intros _ j Hj. apply Hcl; [done|lia]. }
      split; [done|]. case_decide; [done|]. split_and!; try done. by rewrite Hd1.
    + set (s' := s <| w_rebal := (w_rebal s) <| r_slab_pos := r_slab_start (w_rebal s) |> <| r_busy_items := 0 |>
                        <| r_busy_loops := u32 (r_busy_loops (w_rebal s) + 1) |> |>
                   <| w_stats := (w_stats s) <| st_slab_reassign_busy_items :=
                        u64 (st_slab_reassign_busy_items (w_stats s) + r_busy_items (w_rebal s)) |> |>).
      exists s'. split; [reflexivity|]. split; [by apply (cache_ok_same s)|].
      destruct (Hmov s') as [Hm1 Hc1]; try done.
      { intros _. exists 0. unfold chunk_at. simpl. split_and!; lia. }
      split; [done|]. case_decide; [done|]. by split_and!.
Qed.

Lemma slab_rebalance_move_ok s m R D i :
  cache_ok s m R D → moving s R D → r_done (w_rebal s) = 0 → R (chunk_at s i) + 2 < 2 ^ 15 →
  0 ≤ i < p_perslab (scls s) → r_slab_pos (w_rebal s) = chunk_at s i →
  ∃ busy s' m' D', slab_rebalance_move s = Some (busy, s') ∧
    cache_ok s' m' R D' ∧ moving s' R D' ∧ carried s m R s' m' ∧ fate s m R D (chunk_at s i) s' m' ∧
    w_locks s' = w_locks s ∧ (busy = 0 ∧ cleared s' R D' (chunk_at s i) ∨
      busy = 1 ∧ (0 < R (chunk_at s i) ∨ ∃ k, m !! k = Some (chunk_at s i) ∧ item_lock_index s (hash k) ∈ w_locks s)) ∧
    same_pages (w_slabs s) (w_slabs s') ∧ dom (w_heap s') = dom (w_heap s) ∧ (∀ j, chunk_at s' j = chunk_at s j) ∧
    r_d_clsid (w_rebal s') = r_d_clsid (w_rebal s) ∧ sid s' = sid s ∧ r_signal (w_rebal s') = r_signal (w_rebal s) ∧
    (busy = 0 → r_busy_items (w_rebal s) = 0 →
       if decide (i + 1 < p_perslab (scls s)) then
         r_done (w_rebal s') = 0 ∧ r_slab_pos (w_rebal s') = chunk_at s (i + 1) ∧ r_busy_items (w_rebal s') = 0
       else r_done (w_rebal s') ≠ 0).
Proof.
  intros Hok Hmv Hd HR Hi Hpos. pose proof Hmv as [Hpg Hmk Hp _]. destruct (Hp Hd) as (i' & Hi' & Hpos' & Hb & Hbc).
  pose proof (pg_size _ _ _ Hpg) as [Hz Hps]. assert (i' = i) as -> by (rewrite Hpos' in Hpos; unfold chunk_at in Hpos; nia).
  pose proof (so_largest _ _ (co_slabs _ _ _ _ Hok)) as Hlg. pose proof (pg_class _ _ _ Hpg) as Hcls.
  assert (∃ busy s1 m1 D1, (c ← arr_get (r_completed (w_rebal s)) i;
      (if c =? 0 then move_chunk (sid s) (chunk_at s i) i else mret 0)) s = Some (busy, s1) ∧ visited s m R D i busy s1 m1 D1)
    as (busy & s1 & m1 & D1 & Hrun1 & Hv).
  { destruct Hmk as [Hlen Hmk]. destruct (lookup_lt_is_Some_2 (r_completed (w_rebal s)) (Z.to_nat i)) as [c Hc]; [lia|].
    rewrite (bind_run _ _ _ _ _ (arr_get_ok _ _ _ _ (proj1 Hi) Hc)).
    destruct (Z.eqb_spec c 0) as [->|Hc0]; [by apply move_chunk_ok; try done; lia|].
    exists 0, s, m, D. split; [done|]. pose proof (Hmk _ _ Hc Hc0) as Hcl. rewrite Z2Nat.id in Hcl by lia.
    constructor; [by apply chunk_done_refl|by left|rewrite Z.add_0_r, u32_small; lia|by left|done|done]. }
  destruct Hv as [[C1 C2 C3 C4 C5] Hbusy Hcnt Hmarks Hclr Hwhy].
  destruct (step_geometry _ _ _ _ _ _ C2) as (E1 & E2 & E3 & _ & E5).
  pose proof (cursor_fields _ _ (st_cursor _ _ _ _ _ _ C2)) as (_ & _ & F3 & _ & F5 & _ & F8 & F9).
  assert (Hcnt' : r_busy_items (w_rebal s1) = r_busy_items (w_rebal s) + busy) by (rewrite Hcnt, u32_small; lia).
  destruct (move_advance_ok s1 m1 R D1 i C1) as (s2 & Hrun2 & Hok2 & Hmv2 & Hh2 & Hs2 & Hcalm2 & Hl2 & Hnext & Hc2 & Hd2 & Hsid2 & Hsig2).
  - by eapply page_ok_step.
  - apply (marks_ok_step s R D s1 R D1 Hpg Hmk C2). destruct Hmarks as [?|Hmarks]; [by left|].
    destruct (decide (r_completed (w_rebal s1) = r_completed (w_rebal s))); [by left|right].
    exists (Z.to_nat i). split; [done|]. rewrite Z2Nat.id by lia. apply Hclr. by left.
  - congruence.
  - by rewrite E3.
  - by rewrite F3, E5.
  - lia.
  - intros Hb0 j Hj. rewrite E5. assert (busy = 0) as -> by lia. destruct (decide (j = i)) as [->|Hne]; [apply Hclr; by right|].
    apply (st_cleared _ _ _ _ _ _ C2); [eapply chunk_in_page; [done|lia]|]. apply Hbc; lia.
  - exists busy, s2, m1, D1. split.
    { unfold slab_rebalance_move, slabclass_at. rewrite (bind_run _ _ _ _ _ eq_refl).
      rewrite (proj2 (Z.leb_le 0 (sid s))), (proj2 (Z.ltb_lt (sid s) MAX_NUMBER_OF_SLAB_CLASSES)) by lia.
      rewrite (bind_run _ _ _ _ _ eq_refl), (proj2 (Z.eqb_neq (p_size (scls s)) 0)) by lia. cbv zeta.
      replace ((r_slab_pos (w_rebal s) - r_slab_start (w_rebal s)) / p_size (scls s)) with i.
      2:{ rewrite Hpos. unfold chunk_at. apply Z.div_unique_exact; lia. }
      rewrite Hpos, <- bind_assoc, (bind_run _ _ _ _ _ Hrun1), <- E2. by rewrite (bind_run _ _ _ _ _ Hrun2). }
    split; [done|]. split; [done|]. split; [eapply carried_trans; [exact C3|by apply carried_same]|].
    split; [by eapply fate_heap|]. split; [congruence|]. split.
    { destruct Hbusy as [->| ->]; [left|right; auto]. split; [done|]. unfold cleared. rewrite Hh2. apply Hclr. by right. }
    rewrite Hs2, Hh2. split; [apply C2|]. split; [apply C2|]. split; [intros j; by rewrite Hc2|].
    split; [congruence|]. split; [congruence|]. split; [congruence|].
    intros -> Hb0. rewrite E3, E5 in Hnext. rewrite Hcnt', Hb0 in Hnext. case_decide; [by rewrite Z.add_0_l in Hnext|].
    intros Hd0. by apply Hnext in Hd0.
Qed.

End Mover.
