(* ===== verification/RebalanceFin.v ===== *)
(** * A page move from request to end

    [slab_rebalance_finish] gives the emptied page to its new class; a whole move
    run by [slab_rebalance_turn] comes to its end when nothing is busy. *)

From S2P Require Import Prelude Bipbuf Hashes State Links Queues Assoc AssocSpec AssocThm Slabs SlabsSpec SlabsThm Items ItemsSpec ItemsAccess ItemsThm ItemsPull ItemsAlloc Rebalance RebalanceThm.

Section Finish.
Context {HF : HashFn}.
Implicit Types (s : world) (m : gmap (list Z) Z) (R : Z → Z) (D : queues) (p : Z).

Abbreviation sid s := (r_s_clsid (w_rebal s)).
Abbreviation did s := (r_d_clsid (w_rebal s)).
Abbreviation scls s := (slabcls s (sid s)).

(** ** The page arrays *)

Lemma shift_pages_ok n : ∀ x l s, 0 ≤ x → x + Z.of_nat n < Z.of_nat (length l) →
  ∃ l', shift_pages n x l s = Some (l', s) ∧ length l' = length l ∧
    (∀ j, x ≤ Z.of_nat j < x + Z.of_nat n → l' !! j = l !! S j) ∧
    (∀ j, ¬ (x ≤ Z.of_nat j < x + Z.of_nat n) → l' !! j = l !! j).
Proof.
  induction n as [|n IH]; intros x l s Hx Hl; cbn [shift_pages].
  { exists l. split_and!; try done. intros; lia. }
  destruct (lookup_lt_is_Some_2 l (Z.to_nat (x + 1))) as [v Hv]; [lia|].
  rewrite (bind_run _ _ _ _ _ (arr_get_ok l (x + 1) v s ltac:(lia) Hv)).
  rewrite (bind_run _ _ _ _ _ (arr_set_ok l x v s ltac:(lia))).
  destruct (IH (x + 1) (<[Z.to_nat x := v]> l) s) as (l' & Hr & Hlen & Hin & Hout); [lia|rewrite length_insert; lia|].
  rewrite length_insert in Hlen. exists l'. split_and!; try done.
  - intros j Hj. destruct (decide (Z.of_nat j = x)) as [E|E].
    + rewrite Hout, <- E, Nat2Z.id, list_lookup_insert_eq by lia. rewrite <- Hv. f_equal. lia.
    + rewrite Hin by lia. apply list_lookup_insert_ne. lia.
  - intros j Hj. rewrite Hout by lia. apply list_lookup_insert_ne. lia.
Qed.

(** The page changes hands. *)
Lemma hand_over_ok s D src dst start :
  slabs_ok s D → src ≠ dst → 1 ≤ p_slabs (slabcls s src) → p_slabs (slabcls s dst) < p_list_size (slabcls s dst) →
  ∃ s', hand_over_page src dst start s = Some (tt, s') ∧
    slabs_ok s' D ∧ slab_frame s s' ∧ w_heap s' = w_heap s ∧ w_regions s' = w_regions s ∧ same_geometry (w_slabs s) (w_slabs s') ∧
    p_slabs (slabcls s' src) = p_slabs (slabcls s src) - 1 ∧
    (∀ j, Z.of_nat j < p_slabs (slabcls s src) - 1 → p_slab_list (slabcls s' src) !! j = p_slab_list (slabcls s src) !! S j) ∧
    p_slab_list (slabcls s' dst) !! Z.to_nat (p_slabs (slabcls s dst)) = Some start ∧
    p_slabs (slabcls s' dst) = p_slabs (slabcls s dst) + 1 ∧
    (∀ j, Z.of_nat j < p_slabs (slabcls s dst) → p_slab_list (slabcls s' dst) !! j = p_slab_list (slabcls s dst) !! j) ∧
    (∀ x, x ≠ src → x ≠ dst → slabcls s' x = slabcls s x) ∧
    (w_slabs s') <| m_slabclass := m_slabclass (w_slabs s) |> = w_slabs s.
Proof.
  intros Hok Hne Hs Hd. destruct (so_lists _ _ Hok src) as (Hl & Hlen & H31). destruct (so_lists _ _ Hok dst) as (Hl2 & Hlen2 & H312).
  unfold hand_over_page.
  rewrite (bind_run _ _ _ _ _ eq_refl), (bind_run _ _ _ _ _ eq_refl). simpl. rewrite upd_eq. simpl.
  rewrite u32_small by lia.
  match goal with |- ∃ s', (_ ≫= _) ?w = _ ∧ _ => set (s1 := w) end.
  destruct (shift_pages_ok (Z.to_nat (p_slabs (slabcls s src) - 1)) 0 (p_slab_list (slabcls s src)) s1) as
    (l' & Hr & Hlen' & Hin & _); [lia|lia|].
  rewrite (bind_run _ _ _ _ _ Hr), (bind_run _ _ _ _ _ eq_refl).
  match goal with |- ∃ s', _ ?w = _ ∧ _ => set (s2 := w) end.
  assert (Hc : ∀ x, slabcls s2 x = upd (m_slabclass (w_slabs s)) src
    ((slabcls s src) <| p_slabs := p_slabs (slabcls s src) - 1 |> <| p_slab_list := l' |>) x).
  { intros x. unfold s2, s1. simpl. unfold upd. destruct (Z.eqb_spec x src) as [->|]; [|done]. rewrite Z.eqb_refl. done. }
  assert (Hok2 : slabs_ok s2 D).
  { apply (slabs_ok_mem s); try done; intros x; rewrite Hc; unfold upd; destruct (Z.eqb_spec x src) as [->|]; try done; [|apply Hok].
    simpl. rewrite Hlen'. lia. }
  assert (Ed : slabcls s2 dst = slabcls s dst) by (rewrite Hc; by apply upd_ne).
  assert (Hf2 : slab_frame s s2) by (unfold s2, s1, slab_frame; by destruct s).
  assert (Hh2 : w_heap s2 = w_heap s ∧ w_regions s2 = w_regions s ∧ (w_slabs s2) <| m_slabclass := m_slabclass (w_slabs s) |> = w_slabs s) by (split_and!; try done; unfold s2, s1; simpl; by destruct (w_slabs s)).
  clearbody s2. clear Hr s1. destruct Hh2 as (Hh2 & Hr2 & Hp2).
  unfold slab_list_push. rewrite (bind_run _ _ _ _ _ eq_refl), Ed.
  rewrite (bind_run _ _ _ _ _ (arr_set_ok (p_slab_list (slabcls s dst)) (p_slabs (slabcls s dst)) start s2 ltac:(lia))).
  set (l2 := <[_ := start]> _).
  set (s3 := s2 <| w_slabs := (w_slabs s2) <| m_slabclass := upd (m_slabclass (w_slabs s2)) dst
     ((slabcls s2 dst) <| p_slab_list := l2 |> <| p_slabs := u32 (p_slabs (slabcls s2 dst) + 1) |>) |> |>).
  assert (Hu : u32 (p_slabs (slabcls s dst) + 1) = p_slabs (slabcls s dst) + 1) by (apply u32_small; lia).
  assert (Hc3 : ∀ x, slabcls s3 x = upd (m_slabclass (w_slabs s2)) dst
    ((slabcls s dst) <| p_slab_list := l2 |> <| p_slabs := p_slabs (slabcls s dst) + 1 |>) x).
  { intros x. unfold s3. simpl. by rewrite Ed, Hu. }
  exists s3. split; [done|]. split; [|split; [by apply (slab_frame_trans s s2 s3)|]].
  { apply (slabs_ok_mem s2); try done; intros x; rewrite Hc3; unfold upd; destruct (Z.eqb_spec x dst) as [->|]; try done.
    - by rewrite Ed.
    - simpl. unfold l2. rewrite length_insert. lia.
    - apply Hok2. }
  split; [done|]. split; [done|]. rewrite !Hc3, !(upd_eq _ dst), !(upd_ne _ dst), !Hc, !upd_eq by done. split_and!; try done.
  - split; [by rewrite <- Hp2|]. intros x. rewrite Hc3. unfold upd at 1 2 3 4. destruct (Z.eqb_spec x dst) as [->|]; [done|]. rewrite Hc. unfold upd.
    by destruct (Z.eqb_spec x src) as [->|].
  - intros j Hj. simpl. apply Hin. lia.
  - simpl. apply list_lookup_insert_eq. lia.
  - intros j Hj. simpl. apply list_lookup_insert_ne. lia.
  - intros x Hx1 Hx2. by rewrite Hc3, upd_ne, Hc, upd_ne.
Qed.

(** ** The page in its new place *)

(** No list and no caller has a header in the page. *)
Definition page_free R D (ptr len : Z) : Prop :=
  ∀ x, in_page ptr len x → (∀ q, x ∉ D q) ∧ R x = 0.

(** An empty page is cut into chunks for a class. *)
Lemma page_into_class s m R D id ptr len :
  cache_ok s m R D → 1 ≤ id ≤ m_power_largest (w_slabs s) → 0 < ptr → mapped_range s ptr len = true → page_free R D ptr len →
  0 < p_size (slabcls s id) → 0 ≤ p_perslab (slabcls s id) → p_size (slabcls s id) * p_perslab (slabcls s id) ≤ len →
  Z.of_nat (size (w_heap s)) + p_perslab (slabcls s id) < 2 ^ 31 →
  ∃ s', (memset0 ptr len ;; split_slab_page_into_freelist ptr id) s = Some (tt, s') ∧
    let l := chunks ptr (p_size (slabcls s id)) (Z.to_nat (p_perslab (slabcls s id))) in
    cache_ok s' m R (qset D (FreeQ id) (rev l ++ D (FreeQ id))) ∧ slab_frame s s' ∧
    csame_out (in_page ptr len) (w_heap s) (w_heap s') ∧
    (∀ x, p_slabs (slabcls s' x) = p_slabs (slabcls s x) ∧ p_slab_list (slabcls s' x) = p_slab_list (slabcls s x)).
Proof.
  intros Hok Hid Hptr Hmap Hfree Hsz Hper Hfit Hheap. pose proof (co_slabs _ _ _ _ Hok) as Hs.
  assert (Hfr : page_fresh s D ptr len) by (split_and!; try done; intros q x Hx Hp; by apply (proj1 (Hfree x Hp) q)).
  destruct (memset0_ok s D ptr len Hs Hfr) as (h1 & Hrun1 & Hok1 & Hin1 & Hout1).
  rewrite (bind_run _ _ _ _ _ Hrun1). set (l := chunks _ _ _).
  assert (Hl : ∀ x, x ∈ l → in_page ptr len x) by (intros x (k & Hk & ->)%elem_of_chunks; unfold in_page; nia).
  set (s1 := s <| w_heap := h1 |>) in *.
  destruct (split_loop_ok (Z.to_nat (p_perslab (slabcls s id))) s1 D id ptr (p_size (slabcls s id)))
    as (h2 & m2 & Hrun2 & Hok2 & Hs2 & Hm2 & Hc2); [done|done|done|done| | |].
  { pose proof (queue_length s D (FreeQ id) (so_queues _ _ Hs)). pose proof (co_heap _ _ _ _ Hok). lia. }
  { intros x Hx%Hl. split_and!; [apply Hfree, Hx|by apply Hin1|by apply (mapped_range_mapped s ptr len)]. }
  fold l in Hok2, Hs2. exists (s1 <| w_heap := h2 |> <| w_slabs := m2 |>). split; [exact Hrun2|].
  assert (Hsame : lsame_out (in_page ptr len) (w_heap s) h2).
  { apply (lsame_out_trans _ _ h1).
    - intros x Hx. by rewrite Hout1.
    - eapply lsame_out_weaken; [|exact Hs2]. exact Hl. }
  split; [|split; [done|split; [by apply lsame_out_csame|intros x; by destruct (Hc2 x) as (? & _ & ? & _)]]].
  apply (cache_ok_slab s _ m R D _ (in_page ptr len)); try done.
  - simpl. transitivity (m_power_largest (m2 <| m_slabclass := m_slabclass (w_slabs s1) |>)); [done|]. by rewrite Hm2.
  - intros i x Hx Hp. by apply (proj1 (Hfree x Hp) (LruQ i)).
  - intros x Hx. assert (Hnp : ¬ in_page ptr len x) by (intros Hp; destruct (Hfree x Hp); lia). split; [done|].
    intros Hn q. unfold qset. case_decide; [|by apply Hn]. rewrite elem_of_app. intros [Hx'%elem_of_rev%Hl|Hx']; [done|by apply (Hn (FreeQ id))].
  - simpl. assert (Hd : dom h2 ⊆ dom (w_heap s) ∪ list_to_set l).
    { intros x. rewrite elem_of_union, elem_of_list_to_set, !elem_of_dom. intros Hx.
      destruct (decide (x ∈ l)) as [|Hn]; [by right|left]. specialize (Hs2 x Hn). simpl in Hs2.
      destruct (decide (in_page ptr len x)) as [Hp|Hp]; [rewrite Hin1 in Hs2 by done; by destruct (h2 !! x), Hx|].
      rewrite <- Hout1 by done. destruct (h1 !! x); [done|]. by destruct (h2 !! x), Hx. }
    apply subseteq_size in Hd. rewrite size_dom, size_union_alt, size_dom in Hd. pose proof (size_list_to_set_le l).
    pose proof (subseteq_size (list_to_set l ∖ dom (w_heap s)) (list_to_set l) ltac:(set_solver)).
    unfold l in *. rewrite length_chunks in *. lia.
Qed.

(** The start of an empty page is wiped. *)
Lemma page_into_pool s m R D ptr len :
  cache_ok s m R D → 0 < ptr → mapped_range s ptr len = true → page_free R D ptr len →
  ∃ h', memset0 ptr len s = Some (tt, s <| w_heap := h' |>) ∧ cache_ok (s <| w_heap := h' |>) m R D ∧
    csame_out (in_page ptr len) (w_heap s) h'.
Proof.
  intros Hok Hptr Hmap Hfree. pose proof (co_slabs _ _ _ _ Hok) as Hs.
  assert (Hfr : page_fresh s D ptr len) by (split_and!; try done; intros q x Hx Hp; by apply (proj1 (Hfree x Hp) q)).
  destruct (memset0_ok s D ptr len Hs Hfr) as (h1 & Hrun1 & Hok1 & Hin1 & Hout1).
  exists h1. assert (Hl : lsame_out (in_page ptr len) (w_heap s) h1) by (intros x Hx; by rewrite Hout1).
  split; [done|]. split; [|by apply lsame_out_csame].
  apply (cache_ok_slab s _ m R D _ (in_page ptr len)); try done.
  - intros i x Hx Hp. by apply (proj1 (Hfree x Hp) (LruQ i)).
  - intros x Hx. split; [|done]. intros Hp. destruct (Hfree x Hp). lia.
  - simpl. assert (Hd : dom h1 ⊆ dom (w_heap s)).
    { intros x. rewrite !elem_of_dom. destruct (decide (in_page ptr len x)); [rewrite Hin1 by done; by intros []|by rewrite Hout1]. }
    apply subseteq_size in Hd. rewrite !size_dom in Hd. pose proof (co_heap _ _ _ _ Hok). lia.
Qed.

(** The pool may shrink; the classes stay. *)
Lemma memory_release_ok s m R D :
  cache_ok s m R D → (∀ i, 0 ≤ i < p_slabs (slabcls s 0) → ∀ p, p_slab_list (slabcls s 0) !! Z.to_nat i = Some p → p ≠ 0) →
  ∃ s', memory_release s = Some (tt, s') ∧ cache_ok s' m R D ∧ slab_frame s s' ∧ w_heap s' = w_heap s ∧
    (∀ x, x ≠ 0 → slabcls s' x = slabcls s x) ∧
    (m_mem_base (w_slabs s) = NULL → o_slab_reassign (w_settings s) = true →
       m_mem_malloced (w_slabs s') ≤ m_mem_limit (w_slabs s) ∨ p_slabs (slabcls s' 0) = 0).
Proof.
  intros Hok Hp. unfold memory_release. rewrite (bind_run _ _ _ _ _ eq_refl).
  destruct (Z.eqb_spec (m_mem_base (w_slabs s)) NULL) as [Eb|Eb]; simpl; [|exists s; split_and!; try done; apply slab_frame_refl].
  destruct (o_slab_reassign (w_settings s)) eqn:Er; simpl; [|exists s; split_and!; try done; apply slab_frame_refl].
  pose proof (co_slabs _ _ _ _ Hok) as Hs. destruct (so_lists _ _ Hs 0) as (? & _).
  destruct (memory_release_loop_ok (S (Z.to_nat (p_slabs (slabcls s 0)))) s D Hs Hp) as
    (s' & Hr & Hs' & _ & _ & Hlim & Hf & Hh & Hpl & Hc); [lia|].
  exists s'. split_and!; try done.
  apply (cache_ok_slab s _ m R D _ (λ _, False)); try done; [by rewrite Hh|tauto|tauto|rewrite Hh; apply Hok].
Qed.

(** ** The end of a move *)

(** What the end of a move relies on. *)
Record finish_ready s : Prop := {
  fr_dst : 0 ≤ did s ≤ m_power_largest (w_slabs s) ∧ did s ≠ sid s;
  fr_src : 1 ≤ p_slabs (scls s);
  fr_room : p_slabs (slabcls s (did s)) < p_list_size (slabcls s (did s));
  fr_map : mapped_range s (r_slab_start (w_rebal s)) (o_slab_page_size (w_settings s)) = true;
  fr_small : sizeof_item ≤ o_slab_page_size (w_settings s);
  fr_tail : ∀ x, r_slab_end (w_rebal s) ≤ x < r_slab_start (w_rebal s) + o_slab_page_size (w_settings s) → w_heap s !! x = None;
  fr_class : 0 < did s →
    let c := slabcls s (did s) in
    0 < p_size c ∧ 0 ≤ p_perslab c ∧ p_size c * p_perslab c ≤ o_slab_page_size (w_settings s) ∧
    Z.of_nat (size (w_heap s)) + p_perslab c < 2 ^ 31;
  fr_pool : ∀ i, 0 ≤ i < p_slabs (slabcls s 0) → ∀ p, p_slab_list (slabcls s 0) !! Z.to_nat i = Some p → p ≠ 0
}.

Lemma emptied s m R D :
  cache_ok s m R D → moving s R D → r_done (w_rebal s) ≠ 0 → finish_ready s →
  page_free R D (r_slab_start (w_rebal s)) (o_slab_page_size (w_settings s)).
Proof.
  intros Hok Hmv Hd Hfr x [H1 H2]. pose proof (mo_page _ _ _ Hmv) as Hpg.
  assert (Hcase : (∃ i, 0 ≤ i < p_perslab (scls s) ∧ x = chunk_at s i) ∨ w_heap s !! x = None).
  { destruct (w_heap s !! x) as [it|] eqn:E; [left|by right].
    destruct (decide (r_slab_end (w_rebal s) ≤ x)) as [Hge|Hlt]; [rewrite (fr_tail _ Hfr) in E by lia; done|].
    apply (page_aligned s R D); [done|split; lia|by rewrite E]. }
  destruct Hcase as [(i & Hi & ->)|Hn].
  - destruct (mo_done _ _ _ Hmv Hd i Hi) as (? & ? & _). done.
  - split.
    + intros q Hq. destruct (queue_mem _ _ _ _ (so_queues _ _ (co_slabs _ _ _ _ Hok)) Hq) as (? & ? & _). congruence.
    + destruct (co_refs _ _ _ _ Hok x) as [H _]. destruct (decide (R x = 0)) as [|HR]; [done|].
      destruct (co_held _ _ _ _ Hok x ltac:(lia)) as [[id Hid]|(_ & _ & it & ? & _)]; [|congruence].
      destruct (co_queued _ _ _ _ Hok id x Hid) as (? & ? & _). congruence.
Qed.

Lemma mapped_range_le s p n n' : mapped_range s p n = true → n' ≤ n → mapped_range s p n' = true.
Proof.
  unfold mapped_range. rewrite !existsb_exists. intros ([b l] & Hin & Hb) Hle. exists (b, l). split; [done|].
  bool_props. apply andb_true_iff. split; apply Z.leb_le; lia.
Qed.

(** Headers in use keep their fields. *)
Definition in_use_same R m s s' : Prop :=
  ∀ x, 0 < R x ∨ (∃ k, m !! k = Some x) → ctl <$> w_heap s' !! x = ctl <$> w_heap s !! x.

(** The page goes to its new owner. *)
Lemma deliver_ok s m R D d start len :
  cache_ok s m R D → 0 ≤ d ≤ m_power_largest (w_slabs s) → 0 < start → sizeof_item ≤ len →
  mapped_range s start len = true → page_free R D start len → o_slab_page_size (w_settings s) = len →
  (0 < d → let c := slabcls s d in 0 < p_size c ∧ 0 ≤ p_perslab c ∧ p_size c * p_perslab c ≤ len ∧
    Z.of_nat (size (w_heap s)) + p_perslab c < 2 ^ 31) →
  (∀ i, 0 ≤ i < p_slabs (slabcls s 0) → ∀ p, p_slab_list (slabcls s 0) !! Z.to_nat i = Some p → p ≠ 0) →
  ∃ s', (if SLAB_GLOBAL_PAGE_POOL <? d then memset0 start len ;; split_slab_page_into_freelist start d
     else if d =? SLAB_GLOBAL_PAGE_POOL then
       memset0 start sizeof_item ;; on_slabs (λ a, a <| m_mem_limit_reached := false |>) ;; memory_release
     else mret tt) s = Some (tt, s') ∧
    cache_ok s' m R (if decide (0 < d) then qset D (FreeQ d)
      (rev (chunks start (p_size (slabcls s d)) (Z.to_nat (p_perslab (slabcls s d)))) ++ D (FreeQ d)) else D) ∧
    slab_frame s s' ∧ csame_out (in_page start len) (w_heap s) (w_heap s') ∧
    (∀ x, x ≠ 0 ∨ 0 < d → p_slabs (slabcls s' x) = p_slabs (slabcls s x) ∧ p_slab_list (slabcls s' x) = p_slab_list (slabcls s x)) ∧
    (d = 0 → m_mem_base (w_slabs s) = NULL → o_slab_reassign (w_settings s) = true →
       m_mem_malloced (w_slabs s') ≤ m_mem_limit (w_slabs s) ∨ p_slabs (slabcls s' 0) = 0).
Proof.
  intros Hok Hd Hst Hsi Hmap Hfree Hlen Hcls Hpool. unfold SLAB_GLOBAL_PAGE_POOL. case_decide as Hpos.
  - rewrite (proj2 (Z.ltb_lt _ _)) by lia. destruct (Hcls Hpos) as (C1 & C2 & C3 & C4).
    destruct (page_into_class s m R D d start len) as (s' & Hr & Hok' & Hf & Hc & Hp); try done; [lia|].
    exists s'. split_and!; try done. lia.
  - assert (d = 0) as -> by lia. rewrite Z.ltb_irrefl, Z.eqb_refl.
    destruct (page_into_pool s m R D start sizeof_item) as (h1 & Hr & Hok1 & Hc1); try done.
    { by eapply mapped_range_le. } { intros x [? ?]. apply Hfree. split; lia. }
    rewrite (bind_run _ _ _ _ _ Hr), (bind_run _ _ _ _ _ eq_refl). set (s1 := s <| w_heap := h1 |>) in *.
    match goal with |- ∃ s', memory_release ?w = _ ∧ _ => set (s2 := w) end.
    assert (Hok2 : cache_ok s2 m R D).
    { apply (cache_ok_slab s1 _ m R D _ (λ _, False)); try done; [|tauto|tauto|apply Hok1].
      apply (slabs_ok_mem s1); try done; apply Hok1. }
    destruct (memory_release_ok s2 m R D Hok2) as (s' & Hr' & Hok' & Hf & Hh & Hcl & Hlim); [exact Hpool|].
    exists s'. split_and!; try done.
    + rewrite Hh. eapply csame_out_weaken; [|exact Hc1]. intros x [? ?]. split; lia.
    + intros x [Hx|]; [by rewrite Hcl|lia].
Qed.

(** The mover at rest. *)
Definition idle (r : rebal_t) : Prop :=
  r_signal r = 0 ∧ r_done r = 0 ∧ r_slab_start r = NULL ∧ r_slab_end r = NULL ∧ r_slab_pos r = NULL ∧
  r_s_clsid r = 0 ∧ r_d_clsid r = 0 ∧ r_busy_loops r = 0 ∧ r_completed r = [].

(** What a move leaves behind: the page left the front of the source's list and
    is the last of the destination's, where all its chunks are free; a page for
    the pool may be given back to the system at once. *)
Record moved_over s D s' D' : Prop := {
  mv_src : p_slabs (slabcls s' (sid s)) = p_slabs (scls s) - 1;
  mv_shift : ∀ j, Z.of_nat j < p_slabs (scls s) - 1 → p_slab_list (slabcls s' (sid s)) !! j = p_slab_list (scls s) !! S j;
  mv_dst : 0 < did s → p_slabs (slabcls s' (did s)) = p_slabs (slabcls s (did s)) + 1 ∧
    p_slab_list (slabcls s' (did s)) !! Z.to_nat (p_slabs (slabcls s (did s))) = Some (r_slab_start (w_rebal s)) ∧
    ∀ j, Z.of_nat j < p_slabs (slabcls s (did s)) → p_slab_list (slabcls s' (did s)) !! j = p_slab_list (slabcls s (did s)) !! j;
  mv_free : D' = if decide (0 < did s) then qset D (FreeQ (did s))
    (rev (chunks (r_slab_start (w_rebal s)) (p_size (slabcls s (did s))) (Z.to_nat (p_perslab (slabcls s (did s))))) ++ D (FreeQ (did s))) else D;
  mv_pool : did s = 0 → m_mem_base (w_slabs s) = NULL → o_slab_reassign (w_settings s) = true →
    m_mem_malloced (w_slabs s') ≤ m_mem_limit (w_slabs s) ∨ p_slabs (slabcls s' 0) = 0
}.

Lemma slab_rebalance_finish_ok s m R D :
  cache_ok s m R D → moving s R D → r_done (w_rebal s) ≠ 0 → finish_ready s →
  ∃ s' D', slab_rebalance_finish s = Some (tt, s') ∧ cache_ok s' m R D' ∧ in_use_same R m s s' ∧
    moved_over s D s' D' ∧ idle (w_rebal s') ∧ w_settings s' = w_settings s ∧ w_locks s' = w_locks s ∧
    st_slabs_moved (w_stats s') = u64 (st_slabs_moved (w_stats s) + 1) ∧ st_slab_reassign_running (w_stats s') = false.
Proof.
  intros Hok Hmv Hd Hfr. pose proof (emptied s m R D Hok Hmv Hd Hfr) as Hfree.
  pose proof (pg_range _ _ _ (mo_page _ _ _ Hmv)) as [Hst _]. pose proof (pg_class _ _ _ (mo_page _ _ _ Hmv)) as Hsc.
  destruct Hfr as [[F1 F2] F3 F4 F5 F6 _ F8 F9].
  destruct (hand_over_ok s D (sid s) (did s) (r_slab_start (w_rebal s)) (co_slabs _ _ _ _ Hok)) as
    (s1 & Hr1 & Hs1 & Hf1 & Hh1 & Hreg1 & [Hpl1 Hg1] & Hsrc & Hshift & Hlast & Hdst & Hkeep & Hoth & Hmem); try done.
  assert (Hok1 : cache_ok s1 m R D).
  { apply (cache_ok_slab s _ m R D _ (λ _, False)); try done; [by rewrite Hh1|tauto|tauto|rewrite Hh1; apply Hok]. }
  assert (Eset : w_settings s1 = w_settings s) by (unfold slab_frame in Hf1; by rewrite Hf1).
  destruct (Hg1 (did s)) as (Gs & Gp & _).
  destruct (deliver_ok s1 m R D (did s) (r_slab_start (w_rebal s)) (o_slab_page_size (w_settings s)) Hok1) as
    (s2 & Hr2 & Hok2 & Hf2 & Hc2 & Hp2 & Hlim2); try done.
  { by rewrite Hpl1. } { unfold mapped_range. by rewrite Hreg1. } { by rewrite Eset. } { cbv zeta. by rewrite Gs, Gp, Hh1. }
  { intros i Hi p Hp. destruct (decide (did s = 0)) as [E0|E0].
    - rewrite E0 in *. destruct (decide (i = p_slabs (slabcls s 0))) as [->|]; [assert (p = r_slab_start (w_rebal s)) by congruence; lia|].
      rewrite Hkeep in Hp by lia. apply (F9 i); [lia|done].
    - assert (slabcls s1 0 = slabcls s 0) as E by (apply Hoth; lia). rewrite E in *. by apply (F9 i). }

  unfold slab_rebalance_finish. rewrite (bind_run _ _ _ _ _ eq_refl). cbv zeta.
  rewrite (bind_run _ _ _ _ _ Hr1), (bind_run _ _ _ _ _ Hr2).
  eexists _, _. split; [reflexivity|]. split; [by apply (cache_ok_same s2)|].
  pose proof (slab_frame_trans _ _ _ Hf1 Hf2) as Hf. unfold slab_frame in Hf.
  split_and!; try done; try (simpl; by rewrite Hf).
  - intros x Hx. simpl. rewrite <- Hh1. apply Hc2. intros Hp. destruct (Hfree x Hp) as [Hn HR].
    destruct Hx as [?|[k Hk]]; [lia|]. destruct (co_mapped _ _ _ _ Hok k x Hk) as [i Hi]. by apply (Hn (LruQ i)).
  - assert (Hne0 : sid s ≠ 0) by lia. destruct (Hp2 (sid s)) as [E1 E2]; [by left|]. constructor; simpl; try done.
    + congruence.
    + intros j Hj. rewrite E2. by apply Hshift.
    + intros Hpos. destruct (Hp2 (did s)) as [-> ->]; [by right|]. done.
    + case_decide; [|done]. by rewrite Gs, Gp.
    + intros E0. rewrite <- Hmem, <- Eset. by apply Hlim2.
Qed.

(** ** One step and a whole move *)


(** No entry appears, the entries that stay keep their payload, what callers
    hold stays. *)
Record contents s m R s' m' : Prop := {
  cn_keys : ∀ k, is_Some (m' !! k) → is_Some (m !! k);
  cn_vals : ∀ k p p' it, m !! k = Some p → w_heap s !! p = Some it → m' !! k = Some p' →
    ∃ it', w_heap s' !! p' = Some it' ∧ payload it' = payload it;
  cn_held : ∀ x it, 0 < R x → w_heap s !! x = Some it → ∃ it', w_heap s' !! x = Some it' ∧ val it' = val it
}.

Lemma contents_trans s1 m1 R s2 m2 s3 m3 :
  contents s1 m1 R s2 m2 → contents s2 m2 R s3 m3 → contents s1 m1 R s3 m3.
Proof.
  intros [A2 A3 A4] [B2 B3 B4]. constructor.
  - auto.
  - intros k p p' it Hp Hit Hp'. destruct (B2 k ltac:(eauto)) as [p2 Hp2].
    destruct (A3 k p p2 it Hp Hit Hp2) as (it2 & Hit2 & E2). destruct (B3 k p2 p' it2 Hp2 Hit2 Hp') as (it3 & ? & ?).
    exists it3. split; [done|congruence].
  - intros x it Hx Hit. destruct (A4 x it Hx Hit) as (it2 & Hit2 & E2). destruct (B4 x it2 Hx Hit2) as (it3 & ? & ?).
    exists it3. split; [done|congruence].
Qed.

Lemma contents_carried s m R s' m' : carried s m R s' m' → contents s m R s' m'.
Proof. intros []. by constructor. Qed.

Lemma contents_same s m R s' : in_use_same R m s s' → contents s m R s' m.
Proof.
  intros H. assert (Hv : ∀ x it, 0 < R x ∨ (∃ k, m !! k = Some x) → w_heap s !! x = Some it →
    ∃ it', w_heap s' !! x = Some it' ∧ val it' = val it).
  { intros x it Hx Hit. specialize (H x Hx). rewrite Hit in H. destruct (w_heap s' !! x) as [it'|]; [|done].
    exists it'. split; [done|]. apply val_ctl. by apply (inj Some) in H. }
  constructor; [done| |by eauto].
  intros k p p' it Hp Hit Hp'. assert (p' = p) as -> by congruence.
  destruct (Hv p it ltac:(eauto) Hit) as (it' & ? & ?%payload_val). by exists it'.
Qed.

Lemma finish_ready_step s s' :
  finish_ready s → same_pages (w_slabs s) (w_slabs s') → dom (w_heap s') = dom (w_heap s) → w_settings s' = w_settings s →
  w_regions s' = w_regions s → r_slab_start (w_rebal s') = r_slab_start (w_rebal s) →
  r_slab_end (w_rebal s') = r_slab_end (w_rebal s) → sid s' = sid s → did s' = did s → finish_ready s'.
Proof.
  intros [F1 F2 F3 F4 F5 F6 F7 F8] [Hp Hpc] Hd E1 E2 E3 E4 E5 E6.
  assert (G : ∀ x, p_size (slabcls s' x) = p_size (slabcls s x) ∧ p_perslab (slabcls s' x) = p_perslab (slabcls s x) ∧
    p_slabs (slabcls s' x) = p_slabs (slabcls s x) ∧ p_list_size (slabcls s' x) = p_list_size (slabcls s x) ∧
    p_slab_list (slabcls s' x) = p_slab_list (slabcls s x)).
  { intros x. pose proof (Hpc x) as Fx. destruct (slabcls s' x), (slabcls s x). simpl in *. by injection Fx. }
  assert (Epl : m_power_largest (w_slabs s') = m_power_largest (w_slabs s)) by by rewrite <- Hp.
  assert (Esz : size (w_heap s') = size (w_heap s)) by (by rewrite <- !(size_dom (D := gset Z)), Hd).
  destruct (G (did s)) as (G1 & G2 & G3 & G4 & G5), (G (sid s)) as (_ & _ & H3 & _ & _), (G 0) as (_ & _ & K3 & _ & K5).
  constructor; unfold mapped_range; rewrite ?E1, ?E2, ?E3, ?E4, ?E5, ?E6, ?Epl, ?Esz, ?G1, ?G2, ?G3, ?G4, ?H3, ?K3, ?K5; try done.
  intros x Hx. apply not_elem_of_dom. rewrite Hd. apply not_elem_of_dom. by apply F6.
Qed.

(** The mover is at chunk [i] and nothing has kept it waiting in this round. *)
Record sweeping s R (i : Z) : Prop := {
  sw_done : r_done (w_rebal s) = 0;
  sw_signal : r_signal (w_rebal s) = 2;
  sw_chunk : 0 ≤ i < p_perslab (scls s);
  sw_pos : r_slab_pos (w_rebal s) = chunk_at s i;
  sw_busy : r_busy_items (w_rebal s) = 0;
  sw_refs : ∀ j, 0 ≤ j < p_perslab (scls s) → R (chunk_at s j) = 0;
  sw_locks : w_locks s = ∅
}.

(** The move is the same one, on the same pages. *)
Record same_move s s' : Prop := {
  sm_sid : sid s' = sid s;
  sm_did : did s' = did s;
  sm_start : r_slab_start (w_rebal s') = r_slab_start (w_rebal s);
  sm_pages : same_pages (w_slabs s) (w_slabs s');
  sm_settings : w_settings s' = w_settings s
}.

Lemma same_move_trans s1 s2 s3 : same_move s1 s2 → same_move s2 s3 → same_move s1 s3.
Proof. intros [] []. constructor; try congruence. by eapply same_pages_trans. Qed.

(** A step that finds nothing busy. *)
Lemma quiet_move_ok s m R D i :
  cache_ok s m R D → moving s R D → sweeping s R i → finish_ready s →
  ∃ s' m' D', slab_rebalance_move s = Some (0, s') ∧ cache_ok s' m' R D' ∧ moving s' R D' ∧ contents s m R s' m' ∧
    finish_ready s' ∧ same_move s s' ∧ w_locks s' = ∅ ∧
    (if decide (i + 1 < p_perslab (scls s)) then sweeping s' R (i + 1) else r_done (w_rebal s') ≠ 0).
Proof.
  intros Hok Hmv [S1 S2 S3 S4 S5 S6 S7] Hfr.
  destruct (slab_rebalance_move_ok s m R D i Hok Hmv S1) as
    (b & s' & m' & D' & Hr & Hok' & Hmv' & Hca & _ & Hlk & Hb & Hpg & Hdom & Hch & Hd & Hs & Hsig & Hnext); [rewrite S6 by done; lia|done|done|].
  assert (b = 0) as ->.
  { destruct Hb as [[? _]|(_ & [?|(k & _ & Hin)])]; [done|rewrite S6 in *; lia|]. rewrite S7 in Hin. set_solver. }
  specialize (Hnext eq_refl S5). destruct (same_pages_cls _ _ (sid s) Hpg) as (Gs & Gp & _).
  assert (Hst : r_slab_start (w_rebal s') = r_slab_start (w_rebal s)) by (pose proof (Hch 0) as H0; unfold chunk_at in H0; lia).
  pose proof (pg_range _ _ _ (mo_page _ _ _ Hmv)) as [_ He]. pose proof (pg_range _ _ _ (mo_page _ _ _ Hmv')) as [_ He'].
  rewrite Hs, Gs, Gp, Hst, <- He in He'. destruct Hca as [Hcalm Hc1 Hc2 Hc3].
  exists s', m', D'. split_and!; try done.
  - by apply (finish_ready_step s); try done; apply Hcalm.
  - by constructor; try done; apply Hcalm.
  - by rewrite Hlk.
  - case_decide; [|done]. destruct Hnext as (N1 & N2 & N3). constructor; rewrite ?Hs, ?Gp, ?Hch, ?Hlk, ?Hsig; try done; [lia|].
    intros j Hj. rewrite Hch. by apply S6.
Qed.

(** A turn of the thread during a move. *)
Lemma turn_run s s1 b v :
  r_signal (w_rebal s) = 2 → 0 < r_slab_start (w_rebal s) → slab_rebalance_move s = Some (v, s1) →
  slab_rebalance_turn b s = (when (negb (r_done (w_rebal s1) =? 0)) slab_rebalance_finish ;; mret v) s1.
Proof.
  intros Hs Hp Hr. unfold slab_rebalance_turn. rewrite (bind_run _ _ _ _ _ eq_refl), Hs. simpl.
  rewrite (proj2 (Z.eqb_neq _ NULL)) by (unfold NULL; lia). by rewrite (bind_run _ _ _ _ _ Hr).
Qed.

(** A header with these flags is on no list. *)
Lemma cleared_flags s m R D p it :
  cache_ok s m R D → w_heap s !! p = Some it → i_it_flags it = CLEARED → R p = 0 → cleared s R D p.
Proof.
  intros Hok Hit Hf HR. split_and!; [|done|by exists it]. intros q Hin. destruct q as [id|id].
  - destruct (co_queued _ _ _ _ Hok id p Hin) as (it' & Hit' & _ & _ & Hf' & _). assert (it' = it) as -> by congruence.
    rewrite Hf in Hf'. discriminate Hf'.
  - destruct (so_free _ _ (co_slabs _ _ _ _ Hok) id p Hin) as (_ & it' & Hit' & Hf' & _). assert (it' = it) as -> by congruence.
    rewrite Hf in Hf'. discriminate Hf'.
Qed.

(** What [n] more turns bring about. *)
Lemma turns_ok n : ∀ s m R D i b,
  cache_ok s m R D → moving s R D → sweeping s R i → finish_ready s → i + Z.of_nat n = p_perslab (scls s) →
  ∃ s1 s' m' D1 D', slab_rebalance_turns n b s = Some (0, s') ∧ contents s m R s1 m' ∧ same_move s s1 ∧
    cache_ok s' m' R D' ∧ in_use_same R m' s1 s' ∧ moved_over s1 D1 s' D' ∧ idle (w_rebal s') ∧
    w_locks s' = ∅ ∧ st_slab_reassign_running (w_stats s') = false.
Proof.
  induction n as [|n IH]; intros s m R D i b Hok Hmv Hsw Hfr Hn; [destruct (sw_chunk _ _ _ Hsw); lia|].
  destruct (quiet_move_ok s m R D i Hok Hmv Hsw Hfr) as (s1 & m1 & D1 & Hr & Hok1 & Hmv1 & Hc1 & Hfr1 & Hsm1 & Hl1 & Hnext).
  pose proof (pg_range _ _ _ (mo_page _ _ _ Hmv)) as [Hst _].
  cbn [slab_rebalance_turns].
  pose proof (turn_run s s1 b 0 (sw_signal _ _ _ Hsw) Hst Hr) as Hrun. case_decide as Hlt.
  - rewrite (sw_done _ _ _ Hnext) in Hrun. rewrite (bind_run _ _ _ 0 s1) by exact Hrun.
    destruct (same_pages_cls _ _ (sid s) (sm_pages _ _ Hsm1)) as (_ & Gp & _).
    destruct (IH s1 m1 R D1 (i + 1) 0 Hok1 Hmv1 Hnext Hfr1) as (s2 & s' & m' & D2 & D' & Hr' & Hc' & Hsm' & H').
    { rewrite (sm_sid _ _ Hsm1), Gp. lia. }
    exists s2, s', m', D2, D'. split; [done|]. split; [by eapply contents_trans|]. split; [by eapply same_move_trans|done].
  - destruct (slab_rebalance_finish_ok s1 m1 R D1 Hok1 Hmv1 Hnext Hfr1) as (s' & D' & Hfin & Hok' & Hsame & Hmo & Hid & _ & Hl' & _ & Hrun').
    assert (n = 0%nat) as -> by (destruct (sw_chunk _ _ _ Hsw); lia).
    rewrite (proj2 (Z.eqb_neq _ 0) Hnext) in Hrun. simpl in Hrun. rewrite (bind_run _ _ _ _ _ Hfin) in Hrun.
    rewrite (bind_run _ _ _ 0 s') by exact Hrun. exists s1, s', m1, D1, D'. split_and!; try done. by rewrite Hl'.
Qed.


(** ** The start of a move *)

Definition class_index (id : Z) : Prop := 0 ≤ id < MAX_NUMBER_OF_SLAB_CLASSES.

Lemma slabclass_at_run id s : class_index id → slabclass_at id s = Some (slabcls s id, s).
Proof. intros [H1 H2]. unfold slabclass_at. by rewrite (proj2 (Z.leb_le _ _) H1), (proj2 (Z.ltb_lt _ _) H2). Qed.

(** The reasons to refuse a move, in the order of precedence. *)
Definition refusal s (grown : bool) : Z :=
  if p_slabs (scls s) <? 2 then -3
  else if negb grown then -1
  else if bool_decide (1 ≤ sid s ≤ m_power_largest (w_slabs s) ∨ sid s = 0) &&
          bool_decide (0 ≤ did s ≤ m_power_largest (w_slabs s)) && negb (sid s =? did s) then 0 else -2.

(** The mover set up for the first page of the source. *)
Record started s s' : Prop := {
  sd_first : p_slab_list (scls s') !! 0%nat = Some (r_slab_start (w_rebal s'));
  sd_end : r_slab_end (w_rebal s') = r_slab_start (w_rebal s') + u32 (p_size (scls s) * p_perslab (scls s));
  sd_pos : r_slab_pos (w_rebal s') = r_slab_start (w_rebal s');
  sd_done : r_done (w_rebal s') = if sid s =? SLAB_GLOBAL_PAGE_POOL then 1 else 0;
  sd_signal : r_signal (w_rebal s') = 2;
  sd_busy : r_busy_items (w_rebal s') = r_busy_items (w_rebal s);
  sd_sid : sid s' = sid s;
  sd_did : did s' = did s;
  sd_room : p_slabs (slabcls s' (did s)) < p_list_size (slabcls s' (did s));
  sd_marks : r_completed (w_rebal s') = [] ∨ r_completed (w_rebal s') = replicate (Z.to_nat (p_perslab (scls s))) 0
}.

Lemma slab_rebalance_start_ok s m R D :
  cache_ok s m R D → class_index (sid s) → class_index (did s) → p_list_size (slabcls s (did s)) < 2 ^ 30 →
  ∃ grown r s', slab_rebalance_start s = Some (r, s') ∧ r = refusal s grown ∧ cache_ok s' m R D ∧
    w_heap s' = w_heap s ∧ same_geometry (w_slabs s) (w_slabs s') ∧ w_locks s' = w_locks s ∧
    (if decide (r = 0) then started s s' else w_rebal s' = w_rebal s).
Proof.
  intros Hok Hs Hd Hbig. pose proof (co_slabs _ _ _ _ Hok) as Hsl. unfold slab_rebalance_start.
  rewrite (bind_run _ _ _ _ _ eq_refl). cbv zeta. rewrite (bind_run _ _ _ _ _ (slabclass_at_run _ _ Hd)).
  destruct (grow_slab_list_ok s D (did s) Hsl Hbig) as (b & s1 & Hg & Hok1 & Hf & Hh & [Hpl Hgeo] & Hroom & Hcnt).
  rewrite (bind_run _ _ _ _ _ Hg), (bind_run _ _ _ _ _ (slabclass_at_run _ _ Hs)), Hcnt.
  assert (Hc1 : cache_ok s1 m R D).
  { apply (cache_ok_slab s _ m R D _ (λ _, False)); try done; [by rewrite Hh|tauto|tauto|rewrite Hh; apply Hok]. }
  assert (Hw : w_rebal s1 = w_rebal s ∧ w_locks s1 = w_locks s) by (unfold slab_frame in Hf; rewrite Hf; done). destruct Hw as [Hrb Hlk].
  set (ng := if _ || _ then -2 else 0).
  assert (Href : (if p_slabs (scls s) <? 2 then -3 else if negb b then -1 else ng) = refusal s b).
  { unfold refusal, ng, SLAB_GLOBAL_PAGE_POOL. destruct (p_slabs (scls s) <? 2), b; try done. simpl.
    destruct Hs as [Hs1 _], Hd as [Hd1 _]. rewrite (proj2 (Z.ltb_ge (sid s) 0)), (proj2 (Z.ltb_ge (did s) 0)) by lia. simpl.
    destruct (Z.ltb_spec (m_power_largest (w_slabs s)) (sid s)), (Z.ltb_spec (m_power_largest (w_slabs s)) (did s)), (sid s =? did s); simpl;
      repeat case_bool_decide; simpl; try done; lia. }
  rewrite Href. destruct (Z.eqb_spec (refusal s b) 0) as [E|E]; simpl.
  2:{ exists b, (refusal s b), s1. split; [done|]. split_and!; try done. by case_decide. }
  assert (Hr2 : 2 ≤ p_slabs (scls s) ∧ b = true).
  { unfold refusal in E. destruct (Z.ltb_spec (p_slabs (scls s)) 2); [done|]. by destruct b. }
  destruct Hr2 as [Hr2 ->]. destruct (so_lists _ _ Hok1 (sid s)) as (L1 & L2 & _). rewrite Hcnt in L1.
  destruct (lookup_lt_is_Some_2 (p_slab_list (slabcls s1 (sid s))) 0) as [p Hp]; [lia|].
  rewrite (bind_run _ _ _ _ _ (arr_get_ok _ 0 p s1 ltac:(lia) Hp)).
  destruct (Hgeo (sid s)) as (G1 & G2 & _). rewrite G1, G2.
  rewrite (bind_run _ _ _ _ _ eq_refl).
  set (s2 := s1 <| w_rebal := _ |>).
  assert (∃ s3, when (sid s =? SLAB_GLOBAL_PAGE_POOL) (on_rebal (λ a, a <| r_done := 1 |>)) s2 = Some (tt, s3) ∧
    s3 = s2 <| w_rebal := (w_rebal s2) <| r_done := if sid s =? SLAB_GLOBAL_PAGE_POOL then 1 else 0 |> |>) as (s3 & Hr3 & E3).
  { destruct (sid s =? SLAB_GLOBAL_PAGE_POOL); eexists; split; reflexivity. }
  rewrite (bind_run _ _ _ _ _ Hr3).
  destruct (malloc_next s3) as [[c s4]|] eqn:Hm; [|unfold malloc_next in Hm; by destruct (w_malloc s3)].
  rewrite (bind_run _ _ _ _ _ Hm).
  assert (E4 : s4 = s3 <| w_malloc := w_malloc s4 |>).
  { unfold malloc_next in Hm. destruct (w_malloc s3); injection Hm as <- <-; by destruct s3. }
  eexists true, 0, _. split; [reflexivity|]. split; [done|]. split.
  { apply (cache_ok_same s1); try done; by rewrite E4, E3. }
  rewrite E4, E3. split; [done|]. split; [done|]. split; [done|]. case_decide; [|done].
  constructor; simpl; rewrite ?Hrb; try done; [by apply Hroom|]. destruct (c =? NULL); auto.
Qed.


End Finish.

(** ** Witnesses

    A page of class 1 at 4096 on its way to class 2: nine of its ten chunks are
    cleared, the first holds a linked item. The class has another page, at 8192,
    whose chunks are free. *)
#[local] Existing Instance jenkins_fn.

Definition depot_heap : gmap Z item :=
  <[4096 := shop_item [49; 13; 10]]>
    (list_to_map ((λ i, (4096 + 96 * i, zero_item <| i_it_flags := CLEARED |>)) <$> seqZ 1 9)).

Definition depot_pages (c : Z → slabclass_t) : Z → slabclass_t :=
  upd (upd c 1 ((c 1) <| p_slabs := 2 |> <| p_slab_list := [4096; 8192] |> <| p_list_size := 2 |>))
    2 ((c 2) <| p_slabs := 0 |> <| p_slab_list := replicate 16 0 |> <| p_list_size := 16 |>).

(** The item in the hands of a caller, one page still whole. *)
Definition with_depot (s : world) : world :=
  s <| w_heap := depot_heap |> <| w_regions := [(4096, 8192)] |>
    <| w_slabs := (w_slabs s) <| m_slabclass := depot_pages (m_slabclass (w_slabs s)) |> |>
    <| w_rebal := zero_rebal <| r_slab_start := 4096 |> <| r_slab_end := 5056 |> <| r_slab_pos := 4096 |>
         <| r_s_clsid := 1 |> <| r_d_clsid := 2 |> <| r_signal := 2 |> <| r_completed := 0 :: replicate 9 1 |> |>.

Definition depot_world : world := with_depot init_world.

Definition depot_refs : Z → Z := λ p, if p =? 4096 then 1 else 0.

Definition depot_steps : M world unit :=
  memset0 8192 1024 ;; split_slab_page_into_freelist 8192 1 ;;
  do_item_link 4096 (hash [97]) ;; do_item_remove 4096.

Definition depot : world :=
  match depot_steps depot_world with Some (_, s) => s | None => depot_world end.

Definition depot_map : gmap (list Z) Z := {[ [97] := 4096 ]}.

Lemma with_depot_ok s : slabs_ok s no_queues → slabs_ok (with_depot s) no_queues.
Proof.
  intros Hok. pose proof (slabs_ok_no_queues_heap s depot_heap Hok) as H. set (s0 := s <| w_heap := depot_heap |>) in H.
  apply (slabs_ok_mem s0); [exact H|reflexivity|reflexivity| |]; intros x; simpl; unfold depot_pages, upd;
    (destruct (Z.eqb_spec x 2) as [->|]; [done|]); (destruct (Z.eqb_spec x 1) as [->|]; [done|]); try done; apply Hok.
Qed.

Lemma depot_start : cache_ok depot_world ∅ depot_refs no_queues.
Proof.
  apply cache_start.
  - apply with_depot_ok, init_ok.
  - apply assoc_rep_empty; vm_compute; [discriminate|reflexivity|reflexivity].
  - intros id. change (w_lru depot_world) with (w_lru shop_world). rewrite shop_lru. by split_and!.
  - intros p. unfold depot_refs. destruct (_ =? _); lia.
  - intros p Hp. unfold depot_refs in Hp. destruct (Z.eqb_spec p 4096) as [E|E]; [|lia]. subst p. split; [lia|].
    exists (shop_item [49; 13; 10]). split; [reflexivity|].
    destruct (shop_item_held depot_refs 4096 [49; 13; 10] eq_refl) as (H1 & H2 & H3). split_and!; [exact H1|exact H2|exact H3].
  - vm_compute. reflexivity.
  - change (w_lru depot_world) with (w_lru shop_world). by rewrite shop_lru.
  - vm_compute. reflexivity.
Qed.

Lemma depot_held : held depot_world depot_refs 4096 (shop_item [49; 13; 10]).
Proof. split_and!; vm_compute; reflexivity. Qed.

Lemma depot_page_free : page_free depot_refs no_queues 8192 1024.
Proof.
  intros x [H1 H2]. split; [intros q Hq; by apply elem_of_nil in Hq|]. unfold depot_refs. by rewrite (proj2 (Z.eqb_neq x 4096)) by lia.
Qed.

Lemma depot_refs_ext m s D : cache_ok s m (upd depot_refs 4096 (depot_refs 4096 - 1)) D → cache_ok s m (λ _, 0) D.
Proof. apply cache_ok_R. intros p. unfold upd, depot_refs. by destruct (p =? 4096). Qed.

(** The steps lead to a consistent cache. *)
Lemma depot_ok : ∃ D, cache_ok depot depot_map (λ _, 0) D.
Proof.
  destruct (page_into_class depot_world ∅ depot_refs no_queues 1 8192 1024 depot_start) as (s1 & Hr1 & Hok1 & Hf1 & Hc1 & _);
    [vm_compute; done|lia|reflexivity|exact depot_page_free|vm_compute; done..|].
  pose proof (Hc1 4096) as Hc. rewrite (proj1 (proj2 depot_held)) in Hc.
  destruct (w_heap s1 !! 4096) as [it|] eqn:Hit; [|discriminate Hc]; [|intros [H _]; by apply H].
  set (D1 := qset _ _ _) in Hok1. apply (inj Some) in Hc; [|intros [H _]; by apply H].
  assert (Hkey : ITEM_key it = [97]) by (by rewrite (ITEM_key_ctl _ _ Hc)).
  assert (Hheld : held s1 depot_refs 4096 it).
  { split_and!; [done|done|]. pose proof (ctl_fields _ _ Hc) as (-> & _). reflexivity. }
  destruct (held_out _ _ _ _ _ _ Hok1 Hheld) as (Hn & Hp0 & Hho).
  destruct (do_item_link_ok s1 ∅ depot_refs D1 4096 it Hok1 Hn Hp0 Hit Hho (lookup_empty _)) as (s2 & D2 & it2 & Hr2 & Hok2 & _).
  destruct (do_item_remove_ok s2 _ depot_refs D2 4096 Hok2) as (s3 & D3 & Hr3 & Hok3 & _); [done|].
  exists D3. rewrite Hkey in *. apply depot_refs_ext in Hok3.
  assert (E : depot = s3); [|rewrite E; exact Hok3]. unfold depot, depot_steps.
  assert (Hrun : ∀ (k : M world unit) a, (memset0 8192 1024 ;; split_slab_page_into_freelist 8192 1) depot_world = Some (tt, s1) → k s1 = a →
    (memset0 8192 1024 ;; split_slab_page_into_freelist 8192 1 ;; k) depot_world = a).
  { intros k a H <-. rewrite <- bind_assoc. by rewrite (bind_run _ _ _ _ _ H). }
  rewrite (Hrun _ (Some (tt, s3)) Hr1); [done|]. rewrite (bind_run _ _ _ _ _ Hr2). exact Hr3.
Qed.

(** Checking all headers of a heap. *)
Lemma heap_check (f : Z → bool) (h : gmap Z item) x :
  forallb f (map_to_list h).*1 = true → is_Some (h !! x) → f x = true.
Proof.
  rewrite forallb_forall. intros Hall [it Hit]. apply Hall, list_elem_of_In, list_elem_of_fmap.
  exists (x, it). split; [done|]. by apply elem_of_map_to_list.
Qed.

Definition chunk_apart (h : gmap Z item) : bool :=
  forallb (λ a, forallb (λ b, negb ((a <? b) && (b <? a + 96))) (map_to_list h).*1) (map_to_list h).*1.

Lemma chunk_apart_solid h p x : chunk_apart h = true → is_Some (h !! p) → p < x < p + 96 → h !! x = None.
Proof.
  intros Hc Hp Hx. destruct (h !! x) as [it|] eqn:E; [|done].
  pose proof (heap_check _ _ _ (heap_check _ _ _ Hc Hp) (mk_is_Some _ _ E)) as H. simpl in H.
  rewrite (proj2 (Z.ltb_lt _ _)), (proj2 (Z.ltb_lt _ _)) in H by lia. done.
Qed.

Lemma empty_range h a b x : forallb (λ k, negb ((a <=? k) && (k <? b))) (map_to_list h).*1 = true → a ≤ x < b → (h : gmap Z item) !! x = None.
Proof.
  intros Hc Hx. destruct (h !! x) as [it|] eqn:E; [|done].
  pose proof (heap_check _ _ _ Hc (mk_is_Some _ _ E)) as H. simpl in H.
  rewrite (proj2 (Z.leb_le _ _)), (proj2 (Z.ltb_lt _ _)) in H by lia. done.
Qed.

Definition flags_at (h : gmap Z item) (f x : Z) : bool := match h !! x with Some it => i_it_flags it =? f | None => false end.

Lemma flags_at_ok h f x : flags_at h f x = true → ∃ it, h !! x = Some it ∧ i_it_flags it = f.
Proof. unfold flags_at. destruct (h !! x) as [it|]; [|done]. intros H%Z.eqb_eq. eauto. Qed.

Lemma depot_apart : chunk_apart (w_heap depot) = true.
Proof. vm_compute. reflexivity. Qed.

Lemma depot_rest i : 1 ≤ i < 10 → ∃ it, w_heap depot !! (4096 + 96 * i) = Some it ∧ i_it_flags it = CLEARED.
Proof.
  assert (Hall : forallb (λ i, flags_at (w_heap depot) CLEARED (4096 + 96 * i)) (seqZ 1 9) = true) by (vm_compute; reflexivity).
  rewrite forallb_forall in Hall. generalize dependent (w_heap depot). intros h Hall Hi.
  apply flags_at_ok, Hall, list_elem_of_In, elem_of_seqZ. lia.
Qed.

(** The numbers of the state. *)
Lemma depot_rebal : r_slab_start (w_rebal depot) = 4096 ∧ r_slab_end (w_rebal depot) = 5056 ∧ r_slab_pos (w_rebal depot) = 4096 ∧
  r_s_clsid (w_rebal depot) = 1 ∧ r_d_clsid (w_rebal depot) = 2 ∧ r_done (w_rebal depot) = 0 ∧ r_signal (w_rebal depot) = 2 ∧
  r_busy_items (w_rebal depot) = 0 ∧ r_completed (w_rebal depot) = 0 :: replicate 9 1.
Proof. vm_compute. split_and!; reflexivity. Qed.

Lemma depot_class : p_size (slabcls depot 1) = 96 ∧ p_perslab (slabcls depot 1) = 10 ∧ p_slabs (slabcls depot 1) = 2 ∧
  m_power_largest (w_slabs depot) = 8 ∧ o_slab_page_size (w_settings depot) = 1024 ∧ w_locks depot = ∅ ∧
  p_size (slabcls depot 2) = 120 ∧ p_perslab (slabcls depot 2) = 8 ∧ p_slabs (slabcls depot 2) = 0 ∧
  p_list_size (slabcls depot 2) = 16 ∧ p_slabs (slabcls depot 0) = 0 ∧ size (w_heap depot) = 20%nat ∧
  mapped_range depot 4096 1024 = true.
Proof. vm_compute. split_and!; reflexivity. Qed.

Lemma depot_item : ∃ it, w_heap depot !! 4096 = Some it ∧ flag (i_it_flags it) ITEM_CHUNK = false ∧ lru_bytes it ≤ 96 ∧ depot_map !! [97] = Some 4096.
Proof. eexists. split; [vm_compute; reflexivity|]. split_and!; vm_compute; try reflexivity. discriminate. Qed.

#[local] Opaque depot depot_map.

Lemma depot_chunk i : chunk_at depot i = 4096 + 96 * i.
Proof. unfold chunk_at. destruct depot_rebal as (-> & _ & _ & -> & _). by rewrite (proj1 depot_class). Qed.

Lemma depot_cleared D i : cache_ok depot depot_map (λ _, 0) D → 1 ≤ i < 10 → cleared depot (λ _, 0) D (4096 + 96 * i).
Proof. intros Hok Hi. destruct (depot_rest i Hi) as (it & Hit & Hf). by eapply cleared_flags. Qed.

Lemma depot_page D : cache_ok depot depot_map (λ _, 0) D → page_ok depot (λ _, 0) D.
Proof.
  intros Hok. destruct depot_rebal as (E1 & E2 & _ & E4 & _), depot_class as (C1 & C2 & _ & C4 & _).
  constructor; rewrite ?E1, ?E2, ?E4, ?C1, ?C2, ?C4; try lia.
  - intros p x Hp Hx. apply (chunk_apart_solid _ p); [exact depot_apart| |done]. destruct Hp as [Hp|(i & Hi & ->)].
    + destruct (so_free _ _ (co_slabs _ _ _ _ Hok) _ _ Hp) as (_ & it & Hit & _). by exists it.
    + rewrite depot_chunk. destruct (decide (i = 0)) as [->|]; [destruct depot_item as (it & Hit & _); change (4096 + 96 * 0) with 4096; rewrite Hit; by exists it|].
      destruct (depot_rest i) as (it & Hit & _); [lia|]. by exists it.
  - intros i Hi. unfold chunk_state. rewrite depot_chunk, E4, C1.
    destruct (decide (i = 0)) as [->|]; [|right; left; apply depot_cleared; [exact Hok|lia]].
    destruct depot_item as (it & Hit & Hf & Hb & Hm). right. right. change (4096 + 96 * 0) with 4096.
    split; [right; by apply (co_mapped _ _ _ _ Hok _ _ Hm)|exists it; by split_and!].
Qed.

Lemma depot_moving D : cache_ok depot depot_map (λ _, 0) D → moving depot (λ _, 0) D.
Proof.
  intros Hok. destruct depot_rebal as (E1 & E2 & E3 & E4 & E5 & E6 & E7 & E8 & E9), depot_class as (C1 & C2 & _).
  constructor; [exact (depot_page D Hok)| | |congruence].
  - split; rewrite E9; [by rewrite E4, C2|]. intros i v Hi Hv. destruct i as [|i]; [injection Hi as <-; destruct (Hv eq_refl)|].
    apply lookup_lt_Some in Hi; simpl in Hi. rewrite depot_chunk. apply depot_cleared; [exact Hok|lia].
  - intros _. exists 0. rewrite depot_chunk, E3, E4, E8, C2. split_and!; try lia.
Qed.

Lemma depot_sweeping : sweeping depot (λ _, 0) 0.
Proof.
  destruct depot_rebal as (E1 & E2 & E3 & E4 & E5 & E6 & E7 & E8 & E9), depot_class as (C1 & C2 & _ & _ & _ & C6 & _).
  constructor; [exact E6|exact E7|rewrite E4, C2; lia|rewrite depot_chunk, E3; lia|exact E8|intros j _; reflexivity|exact C6].
Qed.

Lemma depot_ready : finish_ready depot.
Proof.
  destruct depot_rebal as (E1 & E2 & E3 & E4 & E5 & _), depot_class as (C1 & C2 & C3 & C4 & C5 & _ & C7 & C8 & C9 & C10 & C11 & C12 & C13).
  constructor; rewrite ?E1, ?E2, ?E4, ?E5, ?C3, ?C4, ?C5, ?C7, ?C8, ?C9, ?C10, ?C11, ?C12; try lia.
  - exact C13.
  - unfold sizeof_item. lia.
  - intros x Hx. apply (empty_range _ 5056 5120); [|lia]. vm_compute. reflexivity.
  - intros _. cbv zeta. rewrite C7, C8. lia.
Qed.




(** ** An array that fills up during a move

    [slab_rebalance_start] makes room for one page in the destination's array and
    drops the lock. If the destination gets a page of its own before the move
    ends, [slab_rebalance_finish] writes behind the array. *)
Definition tight : world :=
  depot <| w_slabs := (w_slabs depot) <| m_slabclass := upd (m_slabclass (w_slabs depot)) 2
      ((slabcls depot 2) <| p_slab_list := [0] |> <| p_list_size := 1 |>) |> |>
    <| w_rebal := (w_rebal depot) <| r_signal := 1 |> <| r_slab_start := NULL |> |>
    <| w_malloc := [20480; 24576] |>.

Example undisturbed_move_ends :
  is_Some ((slab_rebalance_turn 0 ;; slab_rebalance_turns 10 0) tight).
Proof. vm_compute. eexists. reflexivity. Qed.

Example page_array_overrun :
  (slab_rebalance_turn 0 ;; do_slabs_newslab 2 ;; slab_rebalance_turns 9 0) tight ≠ None ∧
  (slab_rebalance_turn 0 ;; do_slabs_newslab 2 ;; slab_rebalance_turns 10 0) tight = None.
Proof. split; vm_compute; [discriminate|reflexivity]. Qed.
