(* ===== verification/Store.v ===== *)
(** * Storing values ([memcached.c], item access of [thread.c])

    The semantics of the storage commands: set, add, replace, append, prepend
    and cas in [do_store_item], incr and decr in [do_add_delta], with the
    wrappers of [thread.c] that hold the item lock around them. *)

From S2P Require Import Prelude Itoa Util Bipbuf Hashes State Links Queues Assoc Slabs Items.

Section Store.
Context {HF : HashFn}.

(** ** Expiration times *)

Definition REALTIME_MAXDELTA : Z := 60 * 60 * 24 * 30.

(** [process_started] and [current_time] are globals. *)
Definition realtime (process_started current_time exptime : Z) : Z :=
  if exptime =? 0 then 0
  else if REALTIME_MAXDELTA <? exptime then
    if exptime <=? process_started then 1 else u32 (exptime - process_started)
  else u32 (exptime + current_time).

Definition EXPTIME_TO_POSITIVE_TIME (exptime : Z) : Z :=
  if exptime <? 0 then REALTIME_MAXDELTA + 1 else exptime.

(** ** The value of an item *)

(** [n] bytes from [ITEM_data(p) + o]. *)
Definition data_read (p o n : Z) : M world (list Z) :=
  x ← load p;
  if (0 <=? o) && (0 <=? n) && (o + n <=? Z.of_nat (length (i_data x)))
  then mret (slice o n (i_data x)) else undefined.

(** A [memcpy] to [ITEM_data(p) + o], inside the value. *)
Definition data_write (p o : Z) (b : list Z) : M world unit :=
  x ← load p;
  if (0 <=? o) && (o + Z.of_nat (length b) <=? i_nbytes x)
  then wr p (λ x, x <| i_data := blit o b (resize (Z.to_nat (i_nbytes x)) 0 (i_data x)) |>)
  else undefined.

(** Bytes of a chunk. *)
Definition chunk_read (ch o n : Z) : M world (list Z) := data_read ch o n.
Definition chunk_append (ch : Z) (b : list Z) : M world unit :=
  wr ch (λ c, c <| i_data := blit (ch_used c) b (resize (Z.to_nat (ch_size c)) 0 (i_data c)) |>
                <| i_exptime := ch_used c + Z.of_nat (length b) |>).

(** ** Append and prepend *)

Inductive nread : Type := NREAD_ADD | NREAD_SET | NREAD_REPLACE | NREAD_APPEND | NREAD_PREPEND | NREAD_CAS.

(** Advance to the first chunk with free space. *)
Fixpoint chunk_free_space (fuel : nat) (dch : Z) : M world Z :=
  match fuel with
  | O => undefined
  | S fuel =>
      d ← load dch;
      if (ch_size d =? ch_used d) && negb (i_next d =? NULL) then chunk_free_space fuel (i_next d)
      else mret dch
  end.

(** The next chunk when the current one is full: [Some 0] for the failure. *)
Definition next_if_full (dch remain : Z) : M world Z :=
  d ← load dch;
  c_assert (ch_used d <=? ch_size d) ;;
  if ch_size d =? ch_used d then do_item_alloc_chunk dch remain else mret dch.

(** From the chunks of the source; [true] on success. *)
Fixpoint copy_from_chunks (fuel : nat) (dch sch copied remain : Z) : M world bool :=
  match fuel with
  | O => undefined
  | S fuel =>
      if (sch =? NULL) || (dch =? NULL) || (remain =? 0) then c_assert (remain =? 0) ;; mret true
      else
        d ← load dch;
        c ← load sch;
        c_assert (ch_used d <=? ch_size d) ;;
        let todo := Z.min (ch_size d - ch_used d) (ch_used c - copied) in
        let todo := if remain <? todo then remain else todo in
        b ← chunk_read sch copied todo;
        chunk_append dch b ;;
        let copied := copied + todo in
        let remain := remain - todo in
        dch ← next_if_full dch remain;
        if dch =? NULL then mret false
        else
          c_assert (copied <=? ch_used c) ;;
          if copied =? ch_used c then copy_from_chunks fuel dch (i_next c) 0 remain
          else copy_from_chunks fuel dch sch copied remain
  end.

(** From the value of an item that is not chunked. *)
Fixpoint copy_from_value (fuel : nat) (dch s_it done len : Z) : M world bool :=
  match fuel with
  | O => undefined
  | S fuel =>
      if (len <=? done) || (dch =? NULL) then c_assert (len =? done) ;; mret true
      else
        d ← load dch;
        let todo := Z.min (ch_size d - ch_used d) (len - done) in
        b ← data_read s_it done todo;
        chunk_append dch b ;;
        let done := done + todo in
        dch ← next_if_full dch (len - done);
        if dch =? NULL then mret false else copy_from_value fuel dch s_it done len
  end.

(** [0] or [-1]. The loops copy a byte or change a chunk in each round. *)
Definition _store_item_copy_chunks (d_it s_it len : Z) : M world Z :=
  d ← load d_it;
  n ← gets (λ s, size (w_heap s));
  dch ← chunk_free_space (S n) (ITEM_schunk d_it d);
  x ← load s_it;
  ok ← (if flag (i_it_flags x) ITEM_CHUNKED
        then copy_from_chunks (2 * Z.to_nat len + n + 2) dch (ITEM_schunk s_it x) 0 len
        else copy_from_value (2 * Z.to_nat len + n + 2) dch s_it 0 len);
  mret (if (ok : bool) then 0 else -1).

(** The first value, its CRLF dropped, then the second one. *)
Definition copy_both (new_it fst snd : Z) : M world Z :=
  x ← load new_it;
  a ← load fst;
  b ← load snd;
  if flag (i_it_flags x) ITEM_CHUNKED then
    r ← _store_item_copy_chunks new_it fst (i_nbytes a - 2);
    if r =? -1 then mret (-1)
    else r ← _store_item_copy_chunks new_it snd (i_nbytes b); mret (if r =? -1 then -1 else 0)
  else
    d1 ← data_read fst 0 (i_nbytes a);
    data_write new_it 0 d1 ;;
    d2 ← data_read snd 0 (i_nbytes b);
    data_write new_it (i_nbytes a - 2) d2 ;;
    mret 0.

Definition _store_item_copy_data (comm : nread) (old_it new_it add_it : Z) : M world Z :=
  match comm with
  | NREAD_APPEND => copy_both new_it old_it add_it
  | _ => copy_both new_it add_it old_it
  end.

(** ** The storage commands *)

Inductive store_item_type : Type := NOT_STORED | STORED | EXISTS | NOT_FOUND | TOO_LARGE | NO_MEMORY.
Inductive cas_result : Type := CAS_NONE | CAS_MATCH | CAS_BADVAL | CAS_STALE | CAS_MISS.

Definition cas_test (it_cas old_cas : Z) (set_stale : bool) : cas_result :=
  if it_cas =? 0 then CAS_NONE
  else if it_cas =? old_cas then CAS_MATCH
  else if set_stale && (it_cas <? old_cas) then CAS_STALE
  else CAS_BADVAL.

Definition item_replace : Z → Z → Z → M world Z := do_item_replace.

(** What the [switch] on an existing item decides: whether to store, the answer
    so far, the item to store and [new_it]. *)
Definition store_over (it old_it : Z) (comm : nread) : M world (bool * store_item_type * Z * Z) :=
  x ← load it;
  o ← load old_it;
  c ← gets w_conn;
  let cas_res := cas_test (ITEM_get_cas x) (ITEM_get_cas o) (c_set_stale c) in
  match comm with
  | NREAD_ADD => do_item_update old_it ;; mret (false, NOT_STORED, it, NULL)
  | NREAD_CAS =>
      match cas_res with
      | CAS_MATCH =>
          on_tstats (λ t, t <| t_cas_hits := upd (t_cas_hits t) (ITEM_clsid o) (u64 (t_cas_hits t (ITEM_clsid o) + 1)) |>) ;;
          mret (true, NOT_STORED, it, NULL)
      | CAS_STALE =>
          wr it (λ x, x <| i_exptime := i_exptime o |>
            <| i_it_flags := if flag (i_it_flags o) ITEM_TOKEN_SENT
                             then Z.lor (Z.lor (i_it_flags x) ITEM_STALE) ITEM_TOKEN_SENT
                             else Z.lor (i_it_flags x) ITEM_STALE |>) ;;
          on_tstats (λ t, t <| t_cas_hits := upd (t_cas_hits t) (ITEM_clsid o) (u64 (t_cas_hits t (ITEM_clsid o) + 1)) |>) ;;
          mret (true, NOT_STORED, it, NULL)
      | _ =>
          on_tstats (λ t, t <| t_cas_badval := upd (t_cas_badval t) (ITEM_clsid o) (u64 (t_cas_badval t (ITEM_clsid o) + 1)) |>) ;;
          mret (false, EXISTS, it, NULL)
      end
  | NREAD_APPEND | NREAD_PREPEND =>
      match cas_res with
      | CAS_NONE | CAS_MATCH =>
          if flag (i_it_flags o) ITEM_HDR then mret (false, NOT_STORED, it, NULL)
          else
            new_it ← do_item_alloc (ITEM_key x) (i_nkey x) (FLAGS_CONV o) (i_exptime o)
                       (s32 (i_nbytes x + i_nbytes o - 2));
            if new_it =? NULL then mret (false, NOT_STORED, it, NULL)
            else
              r ← _store_item_copy_data comm old_it new_it it;
              if r =? -1 then mret (false, NOT_STORED, it, new_it)
              else mret (true, NOT_STORED, new_it, new_it)
      | _ => mret (false, EXISTS, it, NULL)
      end
  | NREAD_REPLACE | NREAD_SET => mret (true, NOT_STORED, it, NULL)
  end.

(** The part of [do_store_item] after the lookup. *)
Definition store_with (it old_it : Z) (comm : nread) (hv : Z) : M world store_item_type :=
  r ← (if negb (old_it =? NULL) then
         r ← store_over it old_it comm;
         let '(do_store, stored, it, new_it) := r in
         stored ← (if (do_store : bool)
                   then storage_delete old_it ;; item_replace old_it it hv ;; mret STORED
                   else mret stored);
         do_item_remove old_it ;;
         when (negb (new_it =? NULL)) (do_item_remove new_it) ;;
         mret (stored, it)
       else
         match comm with
         | NREAD_ADD | NREAD_SET => do_item_link it hv ;; mret (STORED, it)
         | NREAD_CAS =>
             on_tstats (λ t, t <| t_cas_misses := u64 (t_cas_misses t + 1) |>) ;;
             mret (NOT_FOUND, it)
         | _ => mret (NOT_STORED, it)
         end);
  let '(stored, it) := r in
  match stored with
  | STORED =>
      x ← load it;
      modify (λ s, s <| w_conn := (w_conn s) <| c_cas := ITEM_get_cas x |> |>) ;;
      mret stored
  | _ => mret stored
  end.

Definition do_store_item (it : Z) (comm : nread) (hv : Z) : M world store_item_type :=
  x ← load it;
  old_it ← do_item_get (ITEM_key x) (i_nkey x) hv false;
  store_with it old_it comm hv.

(** ** Incr and decr *)

Inductive delta_result_type : Type := OK | NON_NUMERIC | EOM | DELTA_ITEM_NOT_FOUND | DELTA_ITEM_CAS_MISMATCH.

(** The new value: [delta] is an [int64_t] used as a [uint64_t]. *)
Definition delta_value (incr : bool) (value delta : Z) : Z :=
  if incr then u64 (value + delta)
  else if value <? u64 delta then 0 else u64 (value - delta).

(** What [do_add_delta] hands back: the result, the text left in [buf], the CAS
    value stored through [cas] and the item stored through [it_ret]. *)
Record delta_answer : Type := mkDelta {
  da_result : delta_result_type;
  da_buf : list Z;
  da_cas : option Z;
  da_it : Z
}.

Definition delta_error (r : delta_result_type) (cas : option Z) : delta_answer := mkDelta r [] cas NULL.

(** The number at the start of the value. [past] stands for the bytes in memory
    after the value, which the parser may look at. *)
Definition item_number (x : item) (past : list Z) : option Z := safe_strtoull (i_data x ++ past).

(** The update of an item nobody else refers to. *)
Definition delta_in_place (it : Z) (buf : list Z) : M world unit :=
  let res := Z.of_nat (length buf) in
  x ← load it;
  item_stats_sizes_remove x ;;
  o ← gets w_settings;
  cas ← (if o_use_cas o then get_cas_id else mret 0);
  wr it (ITEM_set_cas cas) ;;
  x ← load it;
  item_stats_sizes_add x ;;
  data_write it 0 buf ;;
  data_write it res (replicate (Z.to_nat (i_nbytes x - res - 2)) 32) ;;
  do_item_update it.

(** The update by a new item. *)
Definition delta_new_item (it : Z) (buf : list Z) (hv : Z) : M world bool :=
  let res := Z.of_nat (length buf) in
  x ← load it;
  new_it ← do_item_alloc (ITEM_key x) (i_nkey x) (FLAGS_CONV x) (i_exptime x) (res + 2);
  if new_it =? NULL then mret false
  else
    data_write new_it 0 buf ;;
    data_write new_it res [13; 10] ;;
    item_replace it new_it hv ;;
    o ← gets w_settings;
    n ← load new_it;
    wr it (ITEM_set_cas (if o_use_cas o then ITEM_get_cas n else 0)) ;;
    do_item_remove new_it ;;
    mret true.

Definition do_add_delta (key : list Z) (nkey : Z) (incr : bool) (delta : Z) (cas : option Z) (hv : Z)
    (want_it : bool) (past : list Z) : M world delta_answer :=
  it ← do_item_get key nkey hv false;
  if it =? NULL then mret (delta_error DELTA_ITEM_NOT_FOUND cas)
  else
    x ← load it;
    if (i_nbytes x <=? 2) || flag (i_it_flags x) (Z.lor ITEM_CHUNKED ITEM_HDR) then
      do_item_remove it ;; mret (delta_error NON_NUMERIC cas)
    else if match cas with Some c => negb (c =? 0) && negb (ITEM_get_cas x =? c) | None => false end then
      do_item_remove it ;; mret (delta_error DELTA_ITEM_CAS_MISMATCH cas)
    else
      match item_number x past with
      | None => do_item_remove it ;; mret (delta_error NON_NUMERIC cas)
      | Some v =>
          let value := delta_value incr v delta in
          (if incr
           then on_tstats (λ t, t <| t_incr_hits := upd (t_incr_hits t) (ITEM_clsid x) (u64 (t_incr_hits t (ITEM_clsid x) + 1)) |>)
           else on_tstats (λ t, t <| t_decr_hits := upd (t_decr_hits t) (ITEM_clsid x) (u64 (t_decr_hits t (ITEM_clsid x) + 1)) |>)) ;;
          match itoa_u64 value [] with
          | None => undefined
          | Some buf =>
              let res := Z.of_nat (length buf) in
              let finish :=
                x ← load it;
                (if want_it then mret tt else do_item_remove it) ;;
                mret (mkDelta OK buf (match cas with Some _ => Some (ITEM_get_cas x) | None => None end)
                        (if want_it then it else NULL)) in
              if (res + 2 <=? i_nbytes x) && (i_refcount x =? 2) then
                delta_in_place it buf ;; finish
              else if 1 <? i_refcount x then
                ok ← delta_new_item it buf hv;
                if (ok : bool) then finish
                else do_item_remove it ;; mret (mkDelta EOM buf cas NULL)
              else
                when (i_refcount x =? 1) (do_item_remove it) ;;
                mret (mkDelta DELTA_ITEM_NOT_FOUND buf cas NULL)
          end
      end.

(** ** Item access with the item lock ([thread.c]) *)

Definition item_alloc : list Z → Z → Z → Z → Z → M world Z := do_item_alloc.

Definition with_item_lock {A} (hv : Z) (f : M world A) : M world A :=
  item_lock hv ;; r ← f; item_unlock hv ;; mret r.

Definition hash_of (it : Z) : M world Z := x ← load it; mret (hash (ITEM_key x)).

Definition item_get (key : list Z) (nkey : Z) (do_update : bool) : M world Z :=
  let hv := hash key in with_item_lock hv (do_item_get key nkey hv do_update).

(** Returns with the lock held, and the hash value. *)
Definition item_get_locked (key : list Z) (nkey : Z) (do_update : bool) : M world (Z * Z) :=
  let hv := hash key in item_lock hv ;; it ← do_item_get key nkey hv do_update; mret (it, hv).

Definition item_touch (key : list Z) (nkey exptime : Z) : M world Z :=
  let hv := hash key in with_item_lock hv (do_item_touch key nkey exptime hv).

Definition item_link (it : Z) : M world Z := hv ← hash_of it; with_item_lock hv (do_item_link it hv).
Definition item_remove (it : Z) : M world unit := hv ← hash_of it; with_item_lock hv (do_item_remove it).
Definition item_unlink (it : Z) : M world unit := hv ← hash_of it; with_item_lock hv (do_item_unlink it hv).

Definition add_delta (key : list Z) (nkey : Z) (incr : bool) (delta : Z) (cas : option Z) (past : list Z) :
    M world delta_answer :=
  let hv := hash key in with_item_lock hv (do_add_delta key nkey incr delta cas hv false past).

Definition store_item (it : Z) (comm : nread) : M world store_item_type :=
  hv ← hash_of it; with_item_lock hv (do_store_item it comm hv).

(** ** The guard against reference overflow *)

Definition IT_REFCOUNT_LIMIT : Z := 60000.

(** The item and [*overflow]. *)
Definition limited_get (key : list Z) (nkey exptime : Z) (should_touch do_update : bool) : M world (Z * bool) :=
  it ← (if should_touch then item_touch key nkey exptime else item_get key nkey do_update);
  if it =? NULL then mret (NULL, false)
  else
    x ← load it;
    if IT_REFCOUNT_LIMIT <? i_refcount x then item_remove it ;; mret (NULL, true)
    else mret (it, false).

Definition limited_get_locked (key : list Z) (nkey : Z) (do_update : bool) : M world (Z * Z * bool) :=
  r ← item_get_locked key nkey do_update;
  let '(it, hv) := r in
  if it =? NULL then mret (NULL, hv, false)
  else
    x ← load it;
    if IT_REFCOUNT_LIMIT <? i_refcount x
    then do_item_remove it ;; item_unlock hv ;; mret (NULL, hv, true)
    else mret (it, hv, false).
End Store.
