(* ===== verification/StoreThm.v ===== *)
(** * The storage commands against the abstract cache

    [do_store_item] and [do_add_delta] decide and change exactly what the
    protocol promises: which commands store over which state of the key, what
    the CAS comparison allows, and what incr and decr compute. *)

From S2P Require Import Prelude Itoa Util Bipbuf Hashes State Links Queues Assoc AssocSpec AssocThm Slabs SlabsSpec SlabsThm Items ItemsSpec ItemsAccess ItemsThm Store.

Section StoreSpec.
Context {HF : HashFn}.
Implicit Types (s : world) (m : gmap (list Z) Z) (R : Z → Z) (D : queues) (p q : Z) (k : list Z).

(** ** The live entry of a key *)

Definition live s m (k : list Z) : option (Z * item) :=
  match m !! k with
  | Some q => match w_heap s !! q with
              | Some o => if flushed s o || expired s o then None else Some (q, o)
              | None => None
              end
  | None => None
  end.

(** The map once a stale entry is dropped. *)
Definition live_map s m k : gmap (list Z) Z :=
  match live s m k with Some _ => m | None => delete k m end.

(** What the decisions depend on besides the cache. *)
Definition ctx s : settings_t * Z * conn_t * Z :=
  (w_settings s, w_current_time s, w_conn s, l_cas_id (w_lru s)).

Lemma acc_ctx s s' : acc_frame s s' → ctx s' = ctx s.
Proof. intros [E C]. unfold ctx. rewrite C. by rewrite E. Qed.

Lemma content_cas it it' : content it' = content it → ITEM_get_cas it' = ITEM_get_cas it ∧ ITEM_clsid it' = ITEM_clsid it ∧
  i_exptime it' = i_exptime it ∧ flag (i_it_flags it') ITEM_TOKEN_SENT = flag (i_it_flags it) ITEM_TOKEN_SENT.
Proof.
  unfold content. intros E. injection E as _ _ _ Ee Ec _ _ Ecl Ef.
  assert (Hf : ∀ a, Z.land (Z.lor ITEM_ACTIVE ITEM_FETCHED) a = 0 → flag (i_it_flags it') a = flag (i_it_flags it) a).
  { intros a Ha. by apply (flag_masked _ _ _ (Z.lor ITEM_ACTIVE ITEM_FETCHED)). }
  split_and!; [|done|done|by apply Hf]. unfold ITEM_get_cas. rewrite Ec, Hf by reflexivity. done.
Qed.

(** The lookup at the start of both operations. *)
Lemma get_for_store s m R D k :
  cache_ok s m R D → (∀ q, m !! k = Some q → R q + 2 < 2 ^ 15) →
  ∃ s1 D1, do_item_get k (Z.of_nat (length k)) (hash k) false s =
      Some (match live s m k with Some (q, _) => q | None => 0 end, s1) ∧
    ctx s1 = ctx s ∧ csame_out (λ x, m !! k = Some x) (w_heap s) (w_heap s1) ∧
    match live s m k with
    | Some (q, o) => m !! k = Some q ∧ q ≠ 0 ∧ cache_ok s1 m (upd R q (R q + 1)) D1 ∧
        w_heap s !! q = Some o ∧ (∃ o1, w_heap s1 !! q = Some o1 ∧ content o1 = content o)
    | None => cache_ok s1 (delete k m) R D1
    end.
Proof.
  intros Hok HR. unfold live. destruct (m !! k) as [q|] eqn:Hm.
  - destruct (do_item_get_hit s m R D k q false Hok Hm (HR q eq_refl)) as
      (o & s1 & D1 & res & Hq & Hk & Hq0 & Hrun & [Hst Hfr Hcs Hcas]). rewrite Hq.
    exists s1, D1. destruct (flushed s o || expired s o) eqn:E.
    + destruct (Hst eq_refl) as (-> & Hok1 & _ & Hdf & Hts). split_and!; try done.
      * unfold ctx. rewrite Hcas. unfold drop_frame in Hdf.
        apply (f_equal (λ w, (w_settings w, w_current_time w, w_conn w))) in Hdf. simpl in Hdf. congruence.
      * eapply csame_out_weaken; [|exact Hcs]. intros x ->. done.
    + destruct (Hfr eq_refl) as (-> & Hac & (o0 & o1 & Hq' & Hq1 & Hc & _) & R' & Hok1 & _ & HR').
      rewrite Hq in Hq'. apply (inj Some) in Hq'. subst o0. split_and!; try done.
      * by apply acc_ctx.
      * eapply csame_out_weaken; [|exact Hcs]. intros x ->. done.
      * by apply (cache_ok_R _ _ R'); [intros; rewrite HR'|].
      * by exists o1.
  - exists s, D. split_and!; try done; [by apply (do_item_get_miss s m R D)|]. by rewrite delete_id.
Qed.

(** A held item stays held while others change. *)
Lemma held_csame s s' R R' p it (P : Z → Prop) :
  held s R p it → csame_out P (w_heap s) (w_heap s') → ¬ P p → R' p = R p →
  ∃ it', held s' R' p it' ∧ ctl it' = ctl it.
Proof.
  intros (HR & Hp & Hl) Hcs Hn HR'. destruct (csame_lookup _ _ _ p it Hcs Hn Hp) as (it' & Hp' & Hc).
  exists it'. split; [|done]. split_and!; [by rewrite HR'|done|]. by apply ctl_fields in Hc as (-> & _).
Qed.

Lemma held_ne s m R D p it q k : cache_ok s m R D → held s R p it → m !! k = Some q → p ≠ q.
Proof.
  intros Hok (_ & Hp & Hl) Hm ->. destruct (co_mapped _ _ _ _ Hok k q Hm) as [id Hid].
  destruct (co_queued _ _ _ _ Hok id q Hid) as (o & Ho & _ & _ & Hlo & _). congruence.
Qed.

(** ** The write of a stale CAS *)

Definition stale_hdr (e : Z) (token : bool) (it : item) : item :=
  it <| i_exptime := e |>
     <| i_it_flags := if token then Z.lor (Z.lor (i_it_flags it) ITEM_STALE) ITEM_TOKEN_SENT
                      else Z.lor (i_it_flags it) ITEM_STALE |>.

Lemma stale_hdr_flag e token it a :
  flag ITEM_STALE a = false → flag ITEM_TOKEN_SENT a = false →
  flag (i_it_flags (stale_hdr e token it)) a = flag (i_it_flags it) a.
Proof. intros H1 H2. unfold stale_hdr. simpl. destruct token; by rewrite !flag_lor, ?H1, ?H2, !orb_false_r. Qed.

Lemma stale_wr_ok s m R D p it e token :
  cache_ok s m R D → held s R p it →
  cache_ok (s <| w_heap := <[p := stale_hdr e token it]> (w_heap s) |>) m R D ∧
  held (s <| w_heap := <[p := stale_hdr e token it]> (w_heap s) |>) R p (stale_hdr e token it).
Proof.
  intros Hok Hh. destruct (held_out _ _ _ _ _ _ Hok Hh) as (Hn & Hp0 & Hio & Hl & Href). destruct Hh as (HR & Hp & _).
  pose proof (λ a, stale_hdr_flag e token it a) as Hf. split.
  - apply (cache_ok_R _ _ (upd R p (R p))); [intros; symmetry; by apply upd_self|].
    apply (cache_ok_wr s m R D p it); try done.
    + split_and!; [done|done|right; done].
    + constructor; try done; [|by apply Hf]. unfold lru_bytes, ITEM_ntotal. by rewrite !Hf.
    + destruct Hio as (H1 & H2 & H3 & H4 & H5). unfold item_ok. rewrite !Hf by reflexivity. done.
    + apply (co_refs _ _ _ _ Hok).
    + by rewrite Hl.
  - split_and!; [done|apply lookup_insert_eq|]. by rewrite Hf.
Qed.

(** ** Storing over an old item *)

Lemma replace_release s m R D k q p it :
  cache_ok s m R D → m !! k = Some q → 0 < R q → R q + 1 < 2 ^ 15 → held s R p it → ITEM_key it = k →
  ∃ s1 s2 s3 D3 it', storage_delete q s = Some (tt, s1) ∧ item_replace q p (hash k) s1 = Some (1, s2) ∧
    do_item_remove q s2 = Some (tt, s3) ∧ cache_ok s3 (<[k := p]> m) (upd R q (R q - 1)) D3 ∧
    w_heap s3 !! p = Some it' ∧
    ctl it' = ctl ((linked_hdr it (w_current_time s) (next_cas s)) <| i_refcount := i_refcount it + 1 |>).
Proof.
  intros Hok Hm HR Hmax Hh Hk. pose proof (held_ne _ _ _ _ _ _ _ _ Hok Hh Hm) as Hne.
  destruct (cache_usable _ _ _ _ q Hok) as (o & [Hq _] & _); [by left|].
  destruct (storage_delete_run s q o Hq) as (e & Hst & _). set (s1 := s <| w_ext := e |>) in *.
  assert (Hok1 : cache_ok s1 m R D) by by apply (cache_ok_same s).
  destruct (do_item_replace_ok s1 m R D k q p it Hok1 Hm Hmax Hh Hk) as
    (s2 & D2 & it2 & Hrep & Hok2 & _ & _ & _ & Hp2 & Hct).
  destruct (do_item_remove_ok s2 _ R D2 q Hok2 HR) as (s3 & D3 & Hrem & Hok3 & _ & _ & Hcs3 & _).
  destruct (csame_lookup _ _ _ p it2 Hcs3 Hne Hp2) as (it3 & Hp3 & Hc3).
  exists s1, s2, s3, D3, it3. split_and!; try done. by rewrite Hc3.
Qed.

(** ** The answer *)

Definition store_answer (comm : nread) (old : option (Z * item)) (it : item) (set_stale : bool) : store_item_type :=
  match comm, old with
  | NREAD_SET, _ | NREAD_ADD, None | NREAD_REPLACE, Some _ => STORED
  | NREAD_CAS, None => NOT_FOUND
  | NREAD_CAS, Some (_, o) =>
      match cas_test (ITEM_get_cas it) (ITEM_get_cas o) set_stale with
      | CAS_MATCH | CAS_STALE => STORED
      | _ => EXISTS
      end
  | _, _ => NOT_STORED
  end.

Definition no_append (comm : nread) : Prop := comm ≠ NREAD_APPEND ∧ comm ≠ NREAD_PREPEND.

(** The header of a stored item. *)
Definition stored_item s s' p (it : item) : Prop := ∃ it', w_heap s' !! p = Some it' ∧
  i_data it' = i_data it ∧ ITEM_key it' = ITEM_key it ∧ i_refcount it' = i_refcount it + 1 ∧
  i_time it' = w_current_time s ∧ c_cas (w_conn s') = ITEM_get_cas it' ∧
  (flag (i_it_flags it) ITEM_CAS = true → ITEM_get_cas it' = next_cas s).

Lemma ctx_fields s s' : ctx s' = ctx s → w_settings s' = w_settings s ∧ w_current_time s' = w_current_time s ∧
  w_conn s' = w_conn s ∧ next_cas s' = next_cas s.
Proof. unfold ctx, next_cas. intros [= -> -> -> ->]. done. Qed.

(** From the header left by the link to what the caller sees, after the CAS
    value is copied to the connection. *)
Lemma stored_item_final s s1 s2 p it it1 it' :
  ctx s1 = ctx s →
  i_data it1 = i_data it → ITEM_key it1 = ITEM_key it → i_refcount it1 = i_refcount it →
  flag (i_it_flags it1) ITEM_CAS = flag (i_it_flags it) ITEM_CAS →
  w_heap s2 !! p = Some it' →
  ctl it' = ctl ((linked_hdr it1 (w_current_time s1) (next_cas s1)) <| i_refcount := i_refcount it1 + 1 |>) →
  stored_item s (s2 <| w_conn := (w_conn s2) <| c_cas := ITEM_get_cas it' |> |>) p it.
Proof.
  intros (_ & Et & _ & Ec)%ctx_fields Ed Ek Er Ef Hp Hct. rewrite Et, Ec in Hct. exists it'.
  pose proof (ctl_fields _ _ Hct) as (F1 & F2 & _ & F4 & F5 & _ & _ & F8 & F9 & _ & F11).
  pose proof (linked_hdr_values it1 (w_current_time s) (next_cas s)) as (V1 & V2 & _).
  split_and!; [done|rewrite F11, <- Ed; exact V2|rewrite (ITEM_key_ctl _ _ Hct)|rewrite F2, <- Er; done
    |rewrite F8; exact V1|done|].
  - rewrite <- Ek. exact (linked_hdr_key it1 (w_current_time s) (next_cas s)).
  - intros Hfc. rewrite <- Ef in Hfc. unfold ITEM_get_cas. rewrite F1, F9. unfold linked_hdr, ITEM_set_cas. simpl.
    rewrite flag_lor, Hfc. simpl. by rewrite flag_lor, Hfc.
Qed.

(** What the [switch] leaves behind when there is an old item. *)
Lemma store_over_ok s m R D k q o p it comm :
  cache_ok s m R D → m !! k = Some q → 0 < R q → w_heap s !! q = Some o → held s R p it → no_append comm →
  let st := store_answer comm (Some (q, o)) it (c_set_stale (w_conn s)) in
  ∃ s1 D1 it1, store_over p q comm s =
      Some ((match st with STORED => true | _ => false end, match st with STORED => NOT_STORED | _ => st end, p, 0), s1) ∧
    cache_ok s1 m R D1 ∧ ctx s1 = ctx s ∧ held s1 R p it1 ∧ i_data it1 = i_data it ∧ ITEM_key it1 = ITEM_key it ∧
    i_refcount it1 = i_refcount it ∧ flag (i_it_flags it1) ITEM_CAS = flag (i_it_flags it) ITEM_CAS.
Proof.
  intros Hok Hm HR Hq Hh [Hna Hnp] st. pose proof (held_ne _ _ _ _ _ _ _ _ Hok Hh Hm) as Hne.
  pose proof Hh as (_ & Hp & _).
  unfold store_over. rewrite (bind_run _ _ _ _ _ (load_ok _ _ _ Hp)), (bind_run _ _ _ _ _ (load_ok _ _ _ Hq)).
  rewrite (bind_run _ _ _ _ _ eq_refl). cbv zeta. unfold st, store_answer. clear st.
  destruct comm; try done.
  - destruct (do_item_update_ok s m R D q Hok) as (s1 & D1 & Hrun & [C F O P]); [by left|].
    destruct (held_csame s s1 R R p it _ Hh O Hne eq_refl) as (it1 & Hh1 & Hc).
    exists s1, D1, it1. rewrite (bind_run _ _ _ _ _ Hrun). pose proof (ctl_fields _ _ Hc) as (E1 & E2 & _ & _ & _ & _ & _ & _ & _ & _ & E11).
    split_and!; try done; [by apply acc_ctx|by apply ITEM_key_ctl|by rewrite E1].
  - by exists s, D, it.
  - by exists s, D, it.
  - destruct (cas_test _ _ _).
    1,3,5: eexists _, D, it; split; [reflexivity|]; split_and!; try done; by apply (cache_ok_same s).
    + eexists _, D, it. split; [reflexivity|]. split_and!; try done. by apply (cache_ok_same s).
    + destruct (stale_wr_ok s m R D p it (i_exptime o) (flag (i_it_flags o) ITEM_TOKEN_SENT) Hok Hh) as [Hok1 Hh1].
      eexists _, D, (stale_hdr (i_exptime o) (flag (i_it_flags o) ITEM_TOKEN_SENT) it).
      rewrite (bind_run _ _ _ _ _ (wr_ok _ _ _ _ Hp)). split; [reflexivity|]. split_and!; try done.
      * eapply cache_ok_same; [exact Hok1|done..].
      * by apply stale_hdr_flag.
Qed.

Definition is_stored (st : store_item_type) : bool := match st with STORED => true | _ => false end.

Lemma finish_store s p it' (st : store_item_type) :
  w_heap s !! p = Some it' →
  (match st with
   | STORED => x ← load p; modify (λ s, s <| w_conn := (w_conn s) <| c_cas := ITEM_get_cas x |> |>) ;; mret st
   | _ => mret st
   end) s = Some (st, if is_stored st then s <| w_conn := (w_conn s) <| c_cas := ITEM_get_cas it' |> |> else s).
Proof. intros Hp. destruct st; try done. by rewrite (bind_run _ _ _ _ _ (load_ok _ _ _ Hp)). Qed.

Lemma cache_ok_conn s c m R D : cache_ok s m R D → cache_ok (s <| w_conn := c |>) m R D.
Proof. intros. by apply (cache_ok_same s). Qed.

(** With a live entry [q]; [s1] is the state after the lookup. *)
Lemma store_with_entry s s1 m R D1 p it comm q o o1 :
  let k := ITEM_key it in
  cache_ok s1 m (upd R q (R q + 1)) D1 → held s R p it → no_append comm → 0 ≤ R q → R q + 2 < 2 ^ 15 →
  p ≠ q → m !! k = Some q → q ≠ 0 → ctx s1 = ctx s → csame_out (λ x, m !! k = Some x) (w_heap s) (w_heap s1) →
  w_heap s1 !! q = Some o1 → content o1 = content o →
  let st := store_answer comm (Some (q, o)) it (c_set_stale (w_conn s)) in
  ∃ s' D', store_with p q comm (hash k) s1 = Some (st, s') ∧
    cache_ok s' (if is_stored st then <[k := p]> m else m) R D' ∧ (st = STORED → stored_item s s' p it) ∧
    (is_stored st = false → w_conn s' = w_conn s).
Proof.
  intros k Hok1 Hh Hna Hrq HR Hne Hm Hq0 Hctx Hcs Hq1 Hc1 st.
  pose proof (ctx_fields _ _ Hctx) as (_ & _ & Econn & _). unfold store_with.
  set (R1 := upd R q (R q + 1)) in *. assert (HR1 : R1 q = R q + 1) by apply upd_eq.
  assert (Hback : ∀ x, R x = upd R1 q (R1 q - 1) x).
  { intros x. rewrite HR1. unfold R1, upd. destruct (Z.eqb_spec x q) as [->|]; [lia|done]. }
  destruct (held_csame s s1 R R1 p it _ Hh Hcs) as (it1 & Hh1 & Hct1); [congruence|by apply upd_ne|].
  pose proof (ctl_fields _ _ Hct1) as (F1 & F2 & _ & _ & _ & _ & _ & _ & F9 & _ & F11).
  assert (Est : store_answer comm (Some (q, o1)) it1 (c_set_stale (w_conn s1)) =
                store_answer comm (Some (q, o)) it (c_set_stale (w_conn s))).
  { unfold store_answer. rewrite Econn, (proj1 (content_cas _ _ Hc1)). unfold ITEM_get_cas. by rewrite F1, F9. }
  destruct (store_over_ok s1 m R1 D1 k q o1 p it1 comm Hok1 Hm) as
    (s2 & D2 & it2 & Hover & Hok2 & Hctx2 & Hh2 & Ed & Ek & Er & Ef); [lia|done..|].
  rewrite Est in Hover. fold st in Hover. clear Est. rename st into st0.
  rewrite (proj2 (Z.eqb_neq q NULL)) by done. cbn [negb]. rewrite !bind_assoc, (bind_run _ _ _ _ _ Hover).
  assert (Hk2 : ITEM_key it2 = k) by (rewrite Ek; by apply ITEM_key_ctl).
  assert (Hctx12 : ctx s2 = ctx s) by by rewrite Hctx2.
  destruct (is_stored st0) eqn:Es.
  + assert (st0 = STORED) as E0 by by destruct st0. rewrite E0.
    destruct (replace_release s2 m R1 D2 k q p it2) as (s3 & s4 & s5 & D5 & it5 & H3 & H4 & H5 & Hok5 & Hp5 & Hct5);
      [done|done|lia|lia|done|done|].
    eexists _, D5. cbn [negb when]. split; [|split; [|split]].
    * rewrite !bind_assoc, (bind_run _ _ _ _ _ H3), !bind_assoc, (bind_run _ _ _ _ _ H4).
      rewrite (bind_run _ _ _ _ _ eq_refl), bind_assoc, (bind_run _ _ _ _ _ H5), (bind_run _ _ _ _ _ eq_refl).
      exact (finish_store s5 p it5 STORED Hp5).
    * apply cache_ok_conn. by apply (cache_ok_R _ _ (upd R1 q (R1 q - 1))).
    * intros _. apply (stored_item_final s s2 s5 p it it2 it5); try done; congruence.
    * done.
  + destruct (do_item_remove_ok s2 m R1 D2 q Hok2) as (s3 & D3 & Hrem & Hok3 & Hfr3 & _ & Hcs3 & _); [lia|].
    destruct (held_csame s2 s3 R1 R1 p it2 _ Hh2 Hcs3 Hne eq_refl) as (it3 & (_ & Hp3 & _) & _).
    unfold mem_frame in Hfr3. apply (f_equal w_conn) in Hfr3. simpl in Hfr3. apply ctx_fields in Hctx12 as (_ & _ & Econn2 & _).
    exists s3, D3. split; [|split; [by apply (cache_ok_R _ _ (upd R1 q (R1 q - 1)))|split; [intros E; by rewrite E in Es|congruence]]].
    transitivity ((match st0 with
       | STORED => x ← load p; modify (λ s, s <| w_conn := (w_conn s) <| c_cas := ITEM_get_cas x |> |>) ;; mret st0
       | _ => mret st0 end) s3).
    * unfold mbind, M_bind, mret, M_ret. destruct st0; try done; cbn [negb when]; rewrite Hrem; reflexivity.
    * rewrite (finish_store s3 p it3 st0 Hp3), Es. done.
Qed.

(** Without a live entry. *)
Lemma store_with_none s s1 m R D1 p it comm :
  let k := ITEM_key it in
  cache_ok s1 (delete k m) R D1 → held s R p it → no_append comm → m !! k ≠ Some p → ctx s1 = ctx s →
  csame_out (λ x, m !! k = Some x) (w_heap s) (w_heap s1) →
  let st := store_answer comm None it (c_set_stale (w_conn s)) in
  ∃ s' D', store_with p 0 comm (hash k) s1 = Some (st, s') ∧
    cache_ok s' (if is_stored st then <[k := p]> m else delete k m) R D' ∧ (st = STORED → stored_item s s' p it) ∧
    (is_stored st = false → w_conn s' = w_conn s).
Proof.
  intros k Hlive Hh Hna Hpm Hctx Hcs st. unfold store_with, st. pose proof Hh as (HRp & _).
  assert (Hnk1 : ∃ it1, held s1 R p it1 ∧ ctl it1 = ctl it).
  { by apply (held_csame s s1 R R p it _ Hh Hcs). }
  destruct Hnk1 as (it1 & Hh1 & Hct1). pose proof (ctl_fields _ _ Hct1) as (F1 & F2 & _ & _ & _ & _ & _ & _ & F9 & _ & F11).
  assert (Hk1 : ITEM_key it1 = k) by by apply ITEM_key_ctl.
  destruct (held_out _ _ _ _ _ _ Hlive Hh1) as (Hn & Hp0 & Hho). pose proof Hh1 as (_ & Hp1 & _).
  change (negb (0 =? NULL)) with false. cbv iota.
  destruct (do_item_link_ok s1 (delete k m) R D1 p it1 Hlive Hn Hp0 Hp1 Hho) as
    (s2 & D2 & it2 & Hlink & Hok2 & _ & _ & _ & Hp2 & Hct2 & _); [by rewrite Hk1, lookup_delete_eq|].
  rewrite Hk1, insert_delete_eq in Hok2. rewrite Hk1 in Hlink.
  destruct comm; cbn [store_answer is_stored]; try (by destruct Hna).
  1,2: eexists _, D2; split; [|split; [|split]];
    [rewrite bind_assoc, (bind_run _ _ _ _ _ Hlink); exact (finish_store s2 p it2 STORED Hp2)
    |by apply cache_ok_conn|intros _; apply (stored_item_final s s1 s2 p it it1 it2); try done; congruence|done].
  + apply ctx_fields in Hctx as (_ & _ & Econn & _). by exists s1, D1.
  + apply ctx_fields in Hctx as (_ & _ & Econn & _). eexists _, D1. split; [reflexivity|]. split; [|done]. by apply (cache_ok_same s1).
Qed.

(** [do_store_item], for the wrappers as well. *)
Lemma do_store_item_ok s m R D p it comm :
  cache_ok s m R D → held s R p it → no_append comm → i_nkey it = Z.of_nat (length (ITEM_key it)) →
  (∀ q, m !! ITEM_key it = Some q → R q + 2 < 2 ^ 15) →
  let k := ITEM_key it in
  let st := store_answer comm (live s m k) it (c_set_stale (w_conn s)) in
  ∃ s' D', do_store_item p comm (hash k) s = Some (st, s') ∧
    cache_ok s' (if is_stored st then <[k := p]> m else live_map s m k) R D' ∧
    (st = STORED → stored_item s s' p it) ∧ (is_stored st = false → w_conn s' = w_conn s).
Proof.
  intros Hok Hh Hna Hnk HR k st. pose proof Hh as (HRp & Hp & _).
  destruct (get_for_store s m R D k Hok HR) as (s1 & D1 & Hget & Hctx & Hcs & Hlive).
  unfold do_store_item. rewrite (bind_run _ _ _ _ _ (load_ok _ _ _ Hp)), Hnk. fold k.
  rewrite (bind_run _ _ _ _ _ Hget). unfold st, live_map. destruct (live s m k) as [[q o]|] eqn:Hl.
  - destruct Hlive as (Hm & Hq0 & Hok1 & Hq & o1 & Hq1 & Hc1).
    apply (store_with_entry s s1 m R D1 p it comm q o o1); try done; [apply (co_refs _ _ _ _ Hok)|by apply HR|].
    by apply (held_ne _ _ _ _ _ _ _ _ Hok Hh Hm).
  - apply (store_with_none s s1 m R D1 p it comm); try done. intros Hm.
    by apply (held_ne _ _ _ _ _ _ _ _ Hok Hh) in Hm.
Qed.


(** ** Incr and decr in place *)

(** Writes to the CAS value and the data of an item in use. *)
Lemma wr_value_ok s m R D p it cas data :
  cache_ok s m R D → in_use R D p → w_heap s !! p = Some it →
  cache_ok (s <| w_heap := <[p := it <| i_cas := cas |> <| i_data := data |>]> (w_heap s) |>) m R D.
Proof.
  intros Hok Hu Hp. destruct (cache_usable _ _ _ _ _ Hok Hu) as (it0 & Hus & Hio & Href & _).
  pose proof Hus as [Hp' _]. rewrite Hp in Hp'. apply (inj Some) in Hp'. subst it0.
  apply (cache_ok_R _ _ (upd R p (R p))); [intros; symmetry; by apply upd_self|].
  apply (cache_ok_wr s m R D p it); try done. apply (co_refs _ _ _ _ Hok).
Qed.

Lemma cache_ok_hist s m R D o :
  cache_ok s m R D → (∀ hist, o = Some hist → Z.of_nat (length hist) = l_stats_sizes_buckets (w_lru s)) →
  cache_ok (s <| w_lru := (w_lru s) <| l_stats_sizes_hist := o |> |>) m R D.
Proof.
  intros [Ha Hs Hl Hqd Hm Hh Hr Hi Hhi Hsz] Ho. constructor; try done.
  - by apply (assoc_rep_ext s).
  - apply (slabs_ok_ext s _ D); try done. apply Hs.
Qed.

Lemma sizes_upd_ok s m R D d p it :
  cache_ok s m R D → in_use R D p → w_heap s !! p = Some it →
  ∃ o, item_stats_sizes_upd d it s = Some (tt, s <| w_lru := (w_lru s) <| l_stats_sizes_hist := o |> |>) ∧
    cache_ok (s <| w_lru := (w_lru s) <| l_stats_sizes_hist := o |> |>) m R D.
Proof.
  intros Hok Hu Hp. destruct (cache_usable _ _ _ _ _ Hok Hu) as (it0 & [Hp' _] & Hio & _).
  rewrite Hp in Hp'. apply (inj Some) in Hp'. subst it0.
  destruct (item_stats_sizes_upd_ok s d it (co_hist _ _ _ _ Hok)) as (o & Hrun & Ho);
    [by apply (ITEM_ntotal_nonneg (m_power_largest (w_slabs s)))|].
  exists o. split; [done|]. by apply cache_ok_hist.
Qed.

(** Filling the front of a value of [n] bytes with a text and spaces, up to its
    line end. *)
Lemma data_fill (buf data : list Z) n :
  Z.of_nat (length data) = n → Z.of_nat (length buf) + 2 ≤ n →
  blit (Z.of_nat (length buf)) (replicate (Z.to_nat (n - Z.of_nat (length buf) - 2)) 32)
    (resize (Z.to_nat n) 0 (blit 0 buf (resize (Z.to_nat n) 0 data))) =
  buf ++ replicate (Z.to_nat (n - Z.of_nat (length buf) - 2)) 32 ++ drop (Z.to_nat (n - 2)) data.
Proof.
  intros Hn Hb. rewrite (resize_all_alt data) by lia.
  assert (E : blit 0 buf data = buf ++ drop (length buf) data).
  { reflexivity. }
  rewrite E, resize_all_alt by (rewrite length_app, length_drop; lia).
  unfold blit. rewrite length_replicate. f_equal; [|f_equal].
  - rewrite Nat2Z.id. rewrite take_app_le, take_ge by lia. done.
  - rewrite drop_app_ge by lia. rewrite drop_drop. f_equal. lia.
Qed.

(** The value after [delta_in_place]. *)
Definition delta_data (buf data : list Z) : list Z :=
  buf ++ replicate (length data - length buf - 2) 32 ++ drop (length data - 2) data.

Lemma delta_in_place_ok s m R D p it buf :
  cache_ok s m R D → in_use R D p → w_heap s !! p = Some it →
  Z.of_nat (length (i_data it)) = i_nbytes it → Z.of_nat (length buf) + 2 ≤ i_nbytes it →
  ∃ s' D' it', delta_in_place p buf s = Some (tt, s') ∧ cache_ok s' m R D' ∧
    csame_out (λ x, x = p) (w_heap s) (w_heap s') ∧ w_heap s' !! p = Some it' ∧
    i_data it' = delta_data buf (i_data it) ∧ i_nbytes it' = i_nbytes it ∧ ITEM_key it' = ITEM_key it ∧
    (flag (i_it_flags it) ITEM_CAS = true → ITEM_get_cas it' = next_cas s).
Proof.
  intros Hok Hu Hp Hlen Hbuf. pose proof Hu as Hu0.
  destruct (sizes_upd_ok s m R D (-1) p it Hok Hu Hp) as (o1 & H1 & Hok1). set (s1 := s <| w_lru := _ |>) in *.
  set (s2 := s1 <| w_lru := (w_lru s1) <| l_cas_id := cas_after s |> |>).
  assert (Hok2 : cache_ok s2 m R D) by by apply (cache_ok_same s1).
  set (it3 := ITEM_set_cas (next_cas s) it). set (s3 := s2 <| w_heap := <[p := it3]> (w_heap s) |>).
  assert (E3 : it3 = it <| i_cas := i_cas it3 |> <| i_data := i_data it |>).
  { unfold it3, ITEM_set_cas. destruct (flag _ _); by destruct it. }
  assert (Hok3 : cache_ok s3 m R D).
  { unfold s3. rewrite E3. by apply (wr_value_ok s2). }
  assert (Hp3 : w_heap s3 !! p = Some it3) by apply lookup_insert_eq.
  destruct (sizes_upd_ok s3 m R D 1 p it3 Hok3 Hu Hp3) as (o4 & H4 & Hok4). set (s4 := s3 <| w_lru := _ |>) in *.
  set (it5 := it3 <| i_data := blit 0 buf (resize (Z.to_nat (i_nbytes it)) 0 (i_data it)) |>).
  set (it6 := it3 <| i_data := delta_data buf (i_data it) |>).
  set (s5 := s4 <| w_heap := <[p := it5]> (w_heap s4) |>). set (s6 := s4 <| w_heap := <[p := it6]> (w_heap s4) |>).
  assert (En : i_nbytes it3 = i_nbytes it) by (by rewrite E3). assert (Ed : i_data it3 = i_data it) by (by rewrite E3).
  assert (Hok6 : cache_ok s6 m R D).
  { pose proof (wr_value_ok s4 m R D p it3 (i_cas it3) (delta_data buf (i_data it)) Hok4 Hu Hp3) as H6.
    unfold s6, it6. by replace (it3 <| i_cas := i_cas it3 |>) with it3 in H6 by (by destruct it3). }
  destruct (do_item_update_ok s6 m R D p Hok6 Hu) as (s7 & D7 & H7 & [C F O (a & it7 & Ha & Hp7 & Hc7 & _)]).
  assert (Ea : a = it6) by (apply (inj Some); rewrite <- Ha; apply lookup_insert_eq). subst a.
  pose proof (content_cas _ _ Hc7) as (Ecas & _). pose proof Hc7 as Hc7'. unfold content in Hc7'.
  injection Hc7' as Ek1 Ek2 Enb _ _ _ Edt _ _.
  exists s7, D7, it7. split; [|split_and!; try done].
  - unfold delta_in_place, item_stats_sizes_remove, item_stats_sizes_add.
    rewrite (bind_run _ _ _ _ _ (load_ok _ _ _ Hp)), (bind_run _ _ _ _ _ H1), (bind_run _ _ _ _ _ eq_refl).
    rewrite (bind_run _ _ _ (next_cas s) s2).
    2:{ unfold s2, s1, next_cas, cas_after. simpl. destruct (o_use_cas (w_settings s)); [done|].
        by destruct s as [? ? ? [] ? ? ? ? ? ? ? ? ? ? ? ?]. }
    rewrite (bind_run _ _ _ tt s3) by (exact (wr_ok s2 p _ it Hp)).
    rewrite (bind_run _ _ _ _ _ (load_ok s3 p it3 Hp3)), (bind_run _ _ _ _ _ H4).
    rewrite (bind_run _ _ _ tt s5).
    2:{ unfold data_write. rewrite (bind_run _ _ _ _ _ (load_ok s4 p it3 Hp3)), En.
        rewrite (proj2 (Z.leb_le _ _)) by lia. cbn [andb]. rewrite (proj2 (Z.leb_le _ _)) by lia.
        rewrite (wr_ok s4 p _ it3 Hp3), En, Ed. done. }
    assert (Hp5 : w_heap s5 !! p = Some it5) by apply lookup_insert_eq.
    rewrite (bind_run _ _ _ tt s6); [exact H7|].
    unfold data_write. rewrite (bind_run _ _ _ _ _ (load_ok s5 p it5 Hp5)).
    change (i_nbytes it5) with (i_nbytes it3). rewrite En, length_replicate.
    rewrite (proj2 (Z.leb_le _ _)) by lia. cbn [andb]. rewrite (proj2 (Z.leb_le _ _)) by lia.
    rewrite (wr_ok s5 p _ it5 Hp5). unfold s6, s5. simpl. rewrite insert_insert_eq.
    assert (Ef : blit (Z.of_nat (length buf)) (replicate (Z.to_nat (i_nbytes it - Z.of_nat (length buf) - 2)) 32)
        (resize (Z.to_nat (i_nbytes it)) 0 (blit 0 buf (resize (Z.to_nat (i_nbytes it)) 0 (i_data it)))) =
      delta_data buf (i_data it)).
    { rewrite data_fill by done. unfold delta_data.
      replace (Z.to_nat (i_nbytes it - Z.of_nat (length buf) - 2)) with (length (i_data it) - length buf - 2)%nat by lia.
      by replace (Z.to_nat (i_nbytes it - 2)) with (length (i_data it) - 2)%nat by lia. }
    unfold it6, it5. simpl. rewrite En, Ef. done.
  - apply (csame_out_trans _ _ (w_heap s6)); [|done]. intros x Hx. simpl. by rewrite !lookup_insert_ne by done.
  - by rewrite Enb.
  - unfold ITEM_key. rewrite Ek1, Ek2. simpl. by rewrite E3.
  - intros Hfc. rewrite Ecas. unfold it6, it3, ITEM_get_cas, ITEM_set_cas. rewrite Hfc. simpl. by rewrite Hfc.
Qed.

Lemma delta_value_range incr v d : 0 ≤ delta_value incr v d < 2 ^ 64.
Proof. unfold delta_value. destruct incr; [apply u64_range|]. destruct (_ <? _); [lia|apply u64_range]. Qed.

(** An item incr and decr accept: a short value, with its data in one piece, that
    passes the CAS check and parses as [v]. *)
Record delta_ready (o : item) (cas : option Z) (past : list Z) (v : Z) : Prop := {
  dr_nbytes : 2 < i_nbytes o;
  dr_whole : flag (i_it_flags o) (Z.lor ITEM_CHUNKED ITEM_HDR) = false;
  dr_cas : match cas with Some c => c = 0 ∨ ITEM_get_cas o = c | None => True end;
  dr_number : item_number o past = Some v
}.

Lemma delta_ready_content o o' cas past v : content o' = content o → delta_ready o cas past v → delta_ready o' cas past v.
Proof.
  intros Hc [H1 H2 H3 H4]. pose proof (content_cas _ _ Hc) as (Ec & _). unfold content in Hc.
  injection Hc as _ _ En _ _ _ Ed _ Ef. constructor; [by rewrite En| |by rewrite Ec|unfold item_number; by rewrite Ed].
  rewrite <- H2. by apply (flag_masked _ _ _ (Z.lor ITEM_ACTIVE ITEM_FETCHED)).
Qed.

Lemma cache_ok_tstats s t m R D : cache_ok s m R D → cache_ok (s <| w_tstats := t |>) m R D.
Proof. intros. by apply (cache_ok_same s). Qed.

End StoreSpec.

(** ** Expiration times *)

(** The expiration time a client sends, seen on the server's clock
    (seconds since [process_started]): 0 stays 0, the mark of an item that never
    expires; a negative time becomes 1, already past; an offset of up to 30 days
    counts from now; a later number is an absolute date, at or before the start of
    the server again 1. Nothing but 0 is ever turned into "never". *)
Theorem realtime_expiry started now e :
  REALTIME_MAXDELTA < started → 0 ≤ now < 2 ^ 32 - REALTIME_MAXDELTA → e < started + 2 ^ 32 →
  let t := realtime started now (EXPTIME_TO_POSITIVE_TIME e) in
  (e = 0 → t = 0) ∧ (e ≠ 0 → 0 < t < 2 ^ 32) ∧ (e < 0 → t = 1) ∧
  (0 < e ≤ REALTIME_MAXDELTA → t = now + e) ∧
  (REALTIME_MAXDELTA < e → t = Z.max 1 (e - started)).
Proof.
  unfold realtime, EXPTIME_TO_POSITIVE_TIME, REALTIME_MAXDELTA. change (60 * 60 * 24 * 30) with 2592000.
  intros Hs Hn He. cbv zeta. destruct (Z.ltb_spec e 0) as [Hneg|Hpos].
  - change (2592000 + 1 =? 0) with false. change (2592000 <? 2592000 + 1) with true. cbv iota.
    rewrite (proj2 (Z.leb_le _ _)) by lia. lia.
  - destruct (Z.eqb_spec e 0) as [->|]; [lia|]. destruct (Z.ltb_spec 2592000 e).
    + destruct (Z.leb_spec e started); [lia|]. rewrite u32_small by lia. lia.
    + rewrite u32_small by lia. lia.
Qed.

Lemma realtime_expiry_witness :
  let t := realtime 1700000000 500 (EXPTIME_TO_POSITIVE_TIME 1700000600) in
  (1700000600 = 0 → t = 0) ∧ (1700000600 ≠ 0 → 0 < t < 2 ^ 32) ∧ (1700000600 < 0 → t = 1) ∧
  (0 < 1700000600 ≤ REALTIME_MAXDELTA → t = 500 + 1700000600) ∧
  (REALTIME_MAXDELTA < 1700000600 → t = Z.max 1 (1700000600 - 1700000000)).
Proof. apply (realtime_expiry 1700000000 500 1700000600); unfold REALTIME_MAXDELTA; lia. Defined.

(** ** Runs on the small cache *)

#[local] Existing Instance jenkins_fn.

Definition shop_second : item := default zero_item (w_heap shop_linked !! 4192).


(** The first value after its writer has let go of it. *)
Definition shop_served : world :=
  match do_item_remove 4096 shop_linked with Some (_, s) => s | None => shop_linked end.

Definition served_refs : Z → Z := upd shop_refs 4096 (shop_refs 4096 - 1).

Lemma shop_served_ok : ∃ D, cache_ok shop_served {[ [97] := 4096 ]} served_refs D.
Proof.
  destruct shop_linked_ok as (D & Hok & _).
  destruct (do_item_remove_ok shop_linked _ shop_refs D 4096 Hok) as (s' & D' & Hrun & Hok' & _); [reflexivity|].
  assert (E : shop_served = s') by (unfold shop_served; rewrite Hrun; reflexivity).
  rewrite E. by exists D'.
Qed.

Definition shop_first : item := default zero_item (w_heap shop_served !! 4096).

