(* ===== verification/SlabAutomove.v ===== *)
(** * Moving memory between slab classes ([slab_automove.c], [slab_automove_extstore.c])

    The two policies that watch evictions, free memory and the age of items per
    class over a window of samples, and pick a class to take a page from and a
    class (or the global pool, class 0) to give it to. *)

From S2P Require Import Prelude Bipbuf Hashes State Links Queues Assoc Slabs Items.

(** Single precision numbers. *)
Definition flt_of_int (x : Z) : spec_float := binary_normalize 24 128 x 0 false.
Definition flt_div : spec_float → spec_float → spec_float := SFdiv 24 128.
Definition flt_add : spec_float → spec_float → spec_float := SFadd 24 128.
Definition flt_zero : spec_float := S754_zero false.
(** 0.25 *)
Definition flt_quarter : spec_float := S754_finite false 8388608 (-25).

Definition MIN_PAGES_FOR_SOURCE : Z := 2.

(** [free_chunks > chunks_per_page * 2.5]: exact in double precision. *)
Definition enough_for_reclaim (sam : slab_stats_automove) : bool :=
  5 * ss_chunks_per_page sam <? 2 * ss_free_chunks sam.

(** The classes the loops visit. *)
Definition classes : list Z := seqZ POWER_SMALLEST (MAX_NUMBER_OF_SLAB_CLASSES - POWER_SMALLEST).

(** Entry [n] of the arrays of samples. *)
Definition isa_at (l : list item_stats_automove) (n : Z) : item_stats_automove :=
  nth (Z.to_nat n) l (mkIsa 0 0 0).
Definition ssa_at (l : list slab_stats_automove) (n : Z) : slab_stats_automove :=
  nth (Z.to_nat n) l (mkSsa 0 0 0 0).

(** [window_size] slots for each class, in one array. *)
Definition window_slot (size cur n : Z) : Z := n * size + cur mod size.
Definition class_window {A} (size n : Z) (l : list A) : list A :=
  take (Z.to_nat size) (drop (Z.to_nat (n * size)) l).

Module Automove.

Record window_data : Type := mkWindow {
  w_age : Z;
  w_dirty : Z;
  w_evicted_ratio : spec_float;
  w_evicted_seen : Z
}.

Definition zero_window : window_data := mkWindow 0 0 flt_zero 0.

Record slab_automove : Type := mkAutomove {
  a_window_data : list window_data;
  a_window_size : Z;
  a_window_cur : Z;
  a_max_age_ratio : spec_float;
  a_iam_before : list item_stats_automove;
  a_sam_before : list slab_stats_automove
}.
#[global] Instance automove_eta : Eta slab_automove := λ r,
  mkAutomove (a_window_data r) (a_window_size r) (a_window_cur r) (a_max_age_ratio r) (a_iam_before r)
    (a_sam_before r).

(** [mem1], [mem2]: the two allocations. *)
Definition slab_automove_init (window_size : Z) (max_age_ratio : spec_float) (mem1 mem2 : bool) :
    M world (option slab_automove) :=
  if negb mem1 || negb mem2 then mret None
  else
    iam ← fill_item_stats_automove;
    sam ← fill_slab_stats_automove;
    mret (Some (mkAutomove (replicate (Z.to_nat (u32 (window_size * MAX_NUMBER_OF_SLAB_CLASSES))) zero_window)
                  window_size 0 max_age_ratio iam sam)).

Definition window_sum (wd : list window_data) : window_data :=
  foldl (λ w d, mkWindow (u64 (w_age w + w_age d)) (u64 (w_dirty w + w_dirty d))
                  (flt_add (w_evicted_ratio w) (w_evicted_ratio d)) (u64 (w_evicted_seen w + w_evicted_seen d)))
        zero_window wd.

(** The evictions of all classes since the last run. *)
Definition evicted_total (before after : list item_stats_automove) : Z :=
  foldl (λ t n, u64 (t + (is_evicted (isa_at after n) - is_evicted (isa_at before n)))) 0 classes.

(** The sample of class [n]. *)
Definition sample (a : slab_automove) (iam : list item_stats_automove) (sam : list slab_stats_automove) (total n : Z) :
    window_data :=
  let delta := u64 (is_evicted (isa_at iam n) - is_evicted (isa_at (a_iam_before a) n)) in
  let wd := if 0 <? delta then mkWindow 0 1 (flt_div (flt_of_int delta) (flt_of_int total)) 1 else zero_window in
  let dirty := (0 <? is_outofmemory (isa_at iam n) - is_outofmemory (isa_at (a_iam_before a) n))
               || (0 <? ss_total_pages (ssa_at sam n) - ss_total_pages (ssa_at (a_sam_before a) n)) in
  mkWindow (is_age (isa_at iam n)) (if dirty then 1 else w_dirty wd) (w_evicted_ratio wd) (w_evicted_seen wd).

(** The local variables of the loop. *)
Record choice : Type := mkChoice {
  c_src : Z;
  c_dst : Z;
  c_oldest : Z;
  c_oldest_age : Z;
  c_youngest : Z;
  c_youngest_age : Z;
  c_youngest_evicting : bool
}.
#[global] Instance choice_eta : Eta choice := λ r,
  mkChoice (c_src r) (c_dst r) (c_oldest r) (c_oldest_age r) (c_youngest r) (c_youngest_age r) (c_youngest_evicting r).

Definition no_choice : choice := mkChoice (-1) (-1) (-1) 0 (-1) (2 ^ 64 - 1) false.

(** The oldest class with pages to spare so far. *)
Definition note_oldest (sam : slab_stats_automove) (age n : Z) (c : choice) : choice :=
  if (c_oldest_age c <? age) && (MIN_PAGES_FOR_SOURCE <? ss_total_pages sam)
  then c <| c_oldest := n |> <| c_oldest_age := age |> else c.

(** The youngest class that evicts. *)
Definition note_youngest (size : Z) (wd w_sum : window_data) (age n : Z) (c : choice) : choice :=
  if (age <? c_youngest_age c) &&
     ((size / 2 <? w_evicted_seen w_sum) ||
      SFltb flt_quarter (flt_div (w_evicted_ratio w_sum) (flt_of_int size)))
  then c <| c_youngest := n |> <| c_youngest_age := age |>
         <| c_youngest_evicting := negb (w_evicted_seen wd =? 0) |> else c.

(** One class; [true] for the [break]. *)
Definition consider (size : Z) (sam : slab_stats_automove) (wd w_sum : window_data) (n : Z) (c : choice) : choice * bool :=
  let age := w_age w_sum / size in
  if enough_for_reclaim sam && (w_dirty w_sum =? 0) then
    (c <| c_src := n |> <| c_dst := 0 |> <| c_youngest := -1 |> <| c_oldest := -1 |>, true)
  else (note_youngest size wd w_sum age n (note_oldest sam age n c), false).

Fixpoint run_loop (a : slab_automove) (iam : list item_stats_automove) (sam : list slab_stats_automove) (total : Z)
    (ns : list Z) (windows : list window_data) (c : choice) : list window_data * choice :=
  match ns with
  | [] => (windows, c)
  | n :: ns =>
      let size := a_window_size a in
      let wd := sample a iam sam total n in
      let windows := <[Z.to_nat (window_slot size (a_window_cur a) n) := wd]> windows in
      let '(c, stop) := consider size (ssa_at sam n) wd (window_sum (class_window size n windows)) n c in
      if (stop : bool) then (windows, c) else run_loop a iam sam total ns windows c
  end.

(** The decision after the loop. *)
Definition decide_move (a : slab_automove) (c : choice) : Z * Z :=
  if negb (c_youngest c =? -1) && negb (c_oldest c =? -1) && (a_window_size a <? a_window_cur a) then
    if SFltb (dbl_of_int (c_youngest_age c)) (dbl_mul (dbl_of_int (c_oldest_age c)) (a_max_age_ratio a))
       && c_youngest_evicting c
    then (c_oldest c, c_youngest c) else (c_src c, c_dst c)
  else (c_src c, c_dst c).

(** [*src], [*dst] and the new state; [%] by an empty window is undefined. *)
Definition slab_automove_run (a : slab_automove) : M world (Z * Z * slab_automove) :=
  iam ← fill_item_stats_automove;
  sam ← fill_slab_stats_automove;
  let total := evicted_total (a_iam_before a) iam in
  let a := a <| a_window_cur := u32 (a_window_cur a + 1) |> in
  if a_window_size a =? 0 then undefined
  else
    let '(windows, c) := run_loop a iam sam total classes (a_window_data a) no_choice in
    let a := a <| a_window_data := windows |> <| a_iam_before := iam |> <| a_sam_before := sam |> in
    mret (decide_move a c, a).
End Automove.

Module AutomoveExt.

Record window_data : Type := mkWindow {
  w_age : Z;
  w_dirty : Z;
  w_evicted : Z;
  w_excess_free : Z;
  w_relaxed : Z
}.

Definition zero_window : window_data := mkWindow 0 0 0 0 0.

Record slab_automove : Type := mkAutomove {
  a_window_data : list window_data;
  a_window_size : Z;
  a_window_cur : Z;
  a_item_size : Z;
  a_max_age_ratio : spec_float;
  a_free_ratio : spec_float;
  a_pool_filled_once : bool;
  a_global_pool_watermark : Z;  (* also stored in [settings.ext_global_pool_min] *)
  a_iam_before : list item_stats_automove;
  a_sam_before : list slab_stats_automove
}.
#[global] Instance automove_eta : Eta slab_automove := λ r,
  mkAutomove (a_window_data r) (a_window_size r) (a_window_cur r) (a_item_size r) (a_max_age_ratio r)
    (a_free_ratio r) (a_pool_filled_once r) (a_global_pool_watermark r) (a_iam_before r) (a_sam_before r).

Definition slab_automove_extstore_init (window_size item_size : Z) (max_age_ratio free_ratio : spec_float)
    (mem1 mem2 : bool) : M world (option slab_automove) :=
  if negb mem1 || negb mem2 then mret None
  else
    iam ← fill_item_stats_automove;
    sam ← fill_slab_stats_automove;
    mret (Some (mkAutomove (replicate (Z.to_nat (u32 (window_size * MAX_NUMBER_OF_SLAB_CLASSES))) zero_window)
                  window_size 0 item_size max_age_ratio free_ratio false 0 iam sam)).

Definition window_sum (wd : list window_data) : window_data :=
  foldl (λ w d, mkWindow (u64 (w_age w + w_age d)) (u64 (w_dirty w + w_dirty d)) (u64 (w_evicted w + w_evicted d))
                  (u32 (w_excess_free w + w_excess_free d)) (u32 (w_relaxed w + w_relaxed d)))
        zero_window wd.

(** The result and the new state. *)
Definition global_pool_check (a : slab_automove) : M world (bool * slab_automove) :=
  r ← global_page_pool_size;
  let '(count, mem_limit_reached) := r in
  if negb mem_limit_reached then mret (false, a)
  else mret (count <? a_global_pool_watermark a, a <| a_pool_filled_once := true |>).

(** [total_pages] is an [unsigned int]. *)
Definition memcheck (a : slab_automove) (sam : list slab_stats_automove) : slab_automove :=
  let total := foldl (λ t n, u32 (t + ss_total_pages (ssa_at sam n))) 0 classes in
  let total := u32 (total + ss_total_pages (ssa_at sam 0)) in
  let mark := dbl_to_uint (dbl_mul (dbl_of_int total) (a_free_ratio a)) in
  a <| a_global_pool_watermark := if mark <? 2 then 2 else mark |>.

Definition sample (a : slab_automove) (iam : list item_stats_automove) (sam : list slab_stats_automove) (n : Z) :
    window_data :=
  let before := isa_at (a_iam_before a) n in
  let after := isa_at iam n in
  let lost := (0 <? is_evicted after - is_evicted before) || (0 <? is_outofmemory after - is_outofmemory before) in
  let grown := 0 <? ss_total_pages (ssa_at sam n) - ss_total_pages (ssa_at (a_sam_before a) n) in
  let free_target := ss_chunks_per_page (ssa_at sam n) * 3 / 2 in
  mkWindow (is_age after) (if lost || grown then 1 else 0) (if lost then 1 else 0)
    (if u32 (free_target * 2) <? ss_free_chunks (ssa_at sam n) then 1 else 0) 0.

Record choice : Type := mkChoice {
  c_src : Z;
  c_dst : Z;
  c_oldest : Z;
  c_oldest_age : Z;
  c_too_free : bool
}.
#[global] Instance choice_eta : Eta choice := λ r,
  mkChoice (c_src r) (c_dst r) (c_oldest r) (c_oldest_age r) (c_too_free r).

Definition no_choice : choice := mkChoice (-1) (-1) (-1) 0 false.

Definition consider (size : Z) (small_slab : bool) (sam : slab_stats_automove) (w_sum : window_data) (n : Z) (c : choice) :
    choice :=
  let age := w_age w_sum / size in
  let c := if enough_for_reclaim sam && (w_dirty w_sum =? 0) && (small_slab || (size <=? w_excess_free w_sum))
           then c <| c_src := n |> <| c_dst := 0 |> <| c_too_free := true |> else c in
  if negb small_slab && (c_oldest_age c <? age) && (MIN_PAGES_FOR_SOURCE <? ss_total_pages sam)
  then c <| c_oldest := n |> <| c_oldest_age := age |> else c.

Fixpoint run_loop (a : slab_automove) (iam : list item_stats_automove) (sam : list slab_stats_automove)
    (ns : list Z) (windows : list window_data) (c : choice) : list window_data * choice :=
  match ns with
  | [] => (windows, c)
  | n :: ns =>
      let size := a_window_size a in
      let small_slab := ss_chunk_size (ssa_at (a_sam_before a) n) <? a_item_size a in
      let windows := <[Z.to_nat (window_slot size (a_window_cur a) n) := sample a iam sam n]> windows in
      let c := consider size small_slab (ssa_at sam n) (window_sum (class_window size n windows)) n c in
      run_loop a iam sam ns windows c
  end.

Definition decide_move (a : slab_automove) (global_low : bool) (c : choice) : Z * Z :=
  if a_window_cur a <? a_window_size a then (c_src c, c_dst c)
  else if negb (c_too_free c) && global_low && negb (c_oldest c =? -1) then (c_oldest c, 0)
  else (c_src c, c_dst c).

Definition slab_automove_extstore_run (a : slab_automove) : M world (Z * Z * slab_automove) :=
  r ← global_pool_check a;
  let '(global_low, a) := r in
  iam ← fill_item_stats_automove;
  sam ← fill_slab_stats_automove;
  let a := a <| a_window_cur := u32 (a_window_cur a + 1) |> in
  let a := memcheck a sam in
  if a_window_size a =? 0 then undefined
  else
    let '(windows, c) := run_loop a iam sam classes (a_window_data a) no_choice in
    let a := a <| a_window_data := windows |> <| a_iam_before := iam |> <| a_sam_before := sam |> in
    mret (decide_move a global_low c, a).
End AutomoveExt.
