(* ===== verification/SlabAutomoveThm.v ===== *)
(** * What the page mover may decide

    Both policies on any consistent cache: they always reach a decision, and a
    page is only ever taken from a class that can spare it. *)

From S2P Require Import Prelude Bipbuf Hashes State Links Queues Assoc AssocSpec AssocThm Slabs SlabsSpec SlabsThm Items ItemsSpec ItemsAccess ItemsThm SlabAutomove.

Section Automove.
Context {HF : HashFn}.
Implicit Types (s : world) (D : queues).

(** ** The samples *)

Lemma classes_range n : n ∈ classes → 1 ≤ n < 64.
Proof.
  intros Hn. unfold classes in Hn. apply elem_of_seqZ in Hn.
  unfold POWER_SMALLEST, MAX_NUMBER_OF_SLAB_CLASSES in Hn. lia.
Qed.

Lemma fill_automove_total s D ns :
  queues_ok (w_heap s) D → lru_ok s D → ∃ l, fill_automove_loop ns s = Some (l, s).
Proof.
  intros Hq Hl. induction ns as [|n ns [l IH]]; [by exists []|]. cbn [fill_automove_loop].
  rewrite (bind_run _ _ _ _ _ eq_refl). destruct (Hl (Z.lor n COLD_LRU)) as (_ & Ht & _). rewrite Ht.
  set (t := lastz 0 (D (LruQ (Z.lor n COLD_LRU)))).
  assert (Hage : ∃ age, (if t =? NULL then mret 0
     else x ← load t;
          if is_crawler x then if negb (i_prev x =? NULL)
            then q ← fld (i_prev x) i_time; mret (u32 (w_current_time s - q)) else mret 0
          else mret (u32 (w_current_time s - i_time x))) s = Some (age, s)).
  { destruct (Z.eqb_spec t NULL) as [|Ht0]; [by eexists|].
    assert (Hin : t ∈ D (LruQ (Z.lor n COLD_LRU))) by (destruct (lastz_in 0 (D (LruQ (Z.lor n COLD_LRU)))); [done|done]).
    destruct (queue_mem _ _ _ _ Hq Hin) as (x & Hx & _). rewrite (bind_run _ _ _ _ _ (load_ok _ _ _ Hx)).
    destruct (is_crawler x); [|by eexists]. destruct (Z.eqb_spec (i_prev x) NULL) as [|Hp]; [by eexists|].
    destruct (queue_mem _ _ _ _ Hq (queue_prev _ _ _ _ _ Hq Hin Hx Hp)) as (y & Hy & _).
    cbn [negb]. rewrite (bind_run _ _ _ _ _ (fld_ok _ _ i_time _ Hy)). by eexists. }
  destruct Hage as [age Hage]. rewrite (bind_run _ _ _ _ _ Hage), (bind_run _ _ _ _ _ IH). by eexists.
Qed.

(** Class [n] as sampled. *)
Definition sam_of s (n : Z) : slab_stats_automove :=
  mkSsa (p_perslab (slabcls s n)) (p_size (slabcls s n)) (p_sl_curr (slabcls s n)) (p_slabs (slabcls s n)).

Lemma fill_slab_run s : ∃ l, fill_slab_stats_automove s = Some (l, s) ∧ ∀ n, n ∈ classes → ssa_at l n = sam_of s n.
Proof.
  eexists. split; [reflexivity|]. intros n Hn. unfold classes in Hn. apply elem_of_seqZ in Hn.
  unfold POWER_SMALLEST, MAX_NUMBER_OF_SLAB_CLASSES in *.
  unfold ssa_at. apply nth_lookup_Some. rewrite list_lookup_fmap.
  rewrite lookup_seqZ_lt by lia. simpl. rewrite Z2Nat.id by lia. done.
Qed.

(** ** The first policy *)

Import Automove.

(** What holds of the variables of the loop. *)
Record choice_ok s (c : choice) : Prop := {
  ch_oldest : c_oldest c = -1 ∨ c_oldest c ∈ classes ∧ MIN_PAGES_FOR_SOURCE < p_slabs (slabcls s (c_oldest c));
  ch_youngest : c_youngest c = -1 ∨ c_youngest c ∈ classes;
  ch_src : c_src c = -1 ∧ c_dst c = -1 ∨
    c_src c ∈ classes ∧ c_dst c = 0 ∧ enough_for_reclaim (sam_of s (c_src c)) = true
}.

Lemma note_oldest_ok s age n c : n ∈ classes → choice_ok s c → choice_ok s (note_oldest (sam_of s n) age n c).
Proof.
  intros Hn [Ho Hy Hs]. unfold note_oldest. destruct (_ && _) eqn:E; [|by constructor].
  apply andb_true_iff in E as [_ E]. apply Z.ltb_lt in E. constructor; simpl; auto.
Qed.

Lemma note_youngest_ok s size wd w_sum age n c :
  n ∈ classes → choice_ok s c → choice_ok s (note_youngest size wd w_sum age n c).
Proof. intros Hn [Ho Hy Hs]. unfold note_youngest. destruct (_ && _); constructor; simpl; auto. Qed.

Lemma consider_ok s size wd w_sum n c c' stop :
  n ∈ classes → choice_ok s c → consider size (sam_of s n) wd w_sum n c = (c', stop) → choice_ok s c'.
Proof.
  intros Hn [Ho Hy Hs] H. unfold consider in H.
  destruct (enough_for_reclaim (sam_of s n) && (w_dirty w_sum =? 0)) eqn:E.
  - apply andb_true_iff in E as [E _]. injection H as <- <-. constructor; simpl; auto.
  - injection H as <- <-. apply note_youngest_ok, note_oldest_ok; [done|done|by constructor].
Qed.

Lemma run_loop_ok s a iam sam total ns windows c windows' c' :
  (∀ n, n ∈ classes → ssa_at sam n = sam_of s n) → (∀ n, n ∈ ns → n ∈ classes) → choice_ok s c →
  run_loop a iam sam total ns windows c = (windows', c') → choice_ok s c' ∧ length windows' = length windows.
Proof.
  intros Hsam. revert windows c. induction ns as [|n ns IH]; intros windows c Hns Hc H; cbn [run_loop] in H.
  - by injection H as <- <-.
  - rewrite Hsam in H by (apply Hns; set_solver).
    destruct (consider _ _ _ _ _ _) as [c1 stop] eqn:E. apply consider_ok in E; [|apply Hns; set_solver|done].
    destruct stop; [injection H as <- <-; by rewrite length_insert|].
    apply IH in H; [|intros; apply Hns; set_solver|done]. by rewrite length_insert in H.
Qed.

(** On a consistent cache and with a window of at least one sample the
    first policy always decides, without changing the cache: to move nothing; to
    give a page back to the global pool from a class whose free chunks exceed two
    and a half pages; or, once the window is full, to move a page between two
    classes, taking it from one that has more than two. *)
Theorem slab_automove_run_safe s m R D a :
  cache_ok s m R D → 0 < a_window_size a →
  ∃ src dst a', slab_automove_run a s = Some ((src, dst, a'), s) ∧
    length (a_window_data a') = length (a_window_data a) ∧
    ((src = -1 ∧ dst = -1) ∨
     (1 ≤ src < 64 ∧ dst = 0 ∧ 5 * p_perslab (slabcls s src) < 2 * p_sl_curr (slabcls s src)) ∨
     (1 ≤ src < 64 ∧ 1 ≤ dst < 64 ∧ 2 < p_slabs (slabcls s src) ∧ a_window_size a < a_window_cur a')).
Proof.
  intros Hok Hw. pose proof (so_queues _ _ (co_slabs _ _ _ _ Hok)) as Hq.
  destruct (fill_automove_total s D (seqZ 0 MAX_NUMBER_OF_SLAB_CLASSES) Hq (co_lru _ _ _ _ Hok)) as [iam Hiam].
  destruct (fill_slab_run s) as (sam & Hsam & Hat).
  unfold slab_automove_run, fill_item_stats_automove. rewrite (bind_run _ _ _ _ _ Hiam), (bind_run _ _ _ _ _ Hsam).
  cbv zeta. set (a1 := a <| a_window_cur := _ |>). change (a_window_size a1) with (a_window_size a).
  rewrite (proj2 (Z.eqb_neq (a_window_size a) 0)) by lia.
  destruct (run_loop a1 iam sam _ classes (a_window_data a1) no_choice) as [windows c] eqn:E.
  apply (run_loop_ok s) in E as [[Ho Hy Hs] Hlen]; [|done|done|constructor; simpl; auto].
  set (a2 := a1 <| a_window_data := _ |> <| a_iam_before := _ |> <| a_sam_before := _ |>).
  exists (decide_move a2 c).1, (decide_move a2 c).2, a2. split; [by destruct (decide_move a2 c)|]. split; [done|].
  assert (Hkeep : (c_src c = -1 ∧ c_dst c = -1) ∨
     (1 ≤ c_src c < 64 ∧ c_dst c = 0 ∧ 5 * p_perslab (slabcls s (c_src c)) < 2 * p_sl_curr (slabcls s (c_src c)))).
  { destruct Hs as [?|(? & ? & Hr)]; [by left|right]. split_and!; [by apply classes_range..|done|]. by apply Z.ltb_lt in Hr. }
  unfold decide_move. destruct (_ && _ && _) eqn:Ec; [|simpl; tauto].
  destruct (_ && c_youngest_evicting c); [|simpl; tauto]. simpl. right. right.
  apply andb_true_iff in Ec as [Ec Hfull]. apply andb_true_iff in Ec as [E1 E2]. bool_props.
  destruct Ho as [?|[Ho Hp]]; [lia|]. destruct Hy as [?|Hy]; [lia|]. apply classes_range in Ho, Hy. unfold MIN_PAGES_FOR_SOURCE in Hp. done.
Qed.

(** ** The policy with external storage *)

Record ext_choice_ok s (c : AutomoveExt.choice) : Prop := {
  xc_oldest : AutomoveExt.c_oldest c = -1 ∨ AutomoveExt.c_oldest c ∈ classes ∧
    MIN_PAGES_FOR_SOURCE < p_slabs (slabcls s (AutomoveExt.c_oldest c));
  xc_src : AutomoveExt.c_src c = -1 ∧ AutomoveExt.c_dst c = -1 ∨
    AutomoveExt.c_src c ∈ classes ∧ AutomoveExt.c_dst c = 0 ∧
    enough_for_reclaim (sam_of s (AutomoveExt.c_src c)) = true
}.

Lemma ext_consider_ok s size small w_sum n c :
  n ∈ classes → ext_choice_ok s c → ext_choice_ok s (AutomoveExt.consider size small (sam_of s n) w_sum n c).
Proof.
  intros Hn [Ho Hs]. unfold AutomoveExt.consider.
  destruct (enough_for_reclaim (sam_of s n) && _ && _) eqn:E; simpl.
  - apply andb_true_iff in E as [E _]. apply andb_true_iff in E as [E _].
    destruct (negb small && _ && _) eqn:Eo; constructor; simpl; auto.
    apply andb_true_iff in Eo as [_ Eo]. apply Z.ltb_lt in Eo. auto.
  - destruct (negb small && _ && _) eqn:Eo; constructor; simpl; auto.
    apply andb_true_iff in Eo as [_ Eo]. apply Z.ltb_lt in Eo. auto.
Qed.

Lemma ext_run_loop_ok s a iam sam ns windows c windows' c' :
  (∀ n, n ∈ classes → ssa_at sam n = sam_of s n) → (∀ n, n ∈ ns → n ∈ classes) → ext_choice_ok s c →
  AutomoveExt.run_loop a iam sam ns windows c = (windows', c') → ext_choice_ok s c' ∧ length windows' = length windows.
Proof.
  intros Hsam. revert windows c. induction ns as [|n ns IH]; intros windows c Hns Hc H; cbn [AutomoveExt.run_loop] in H.
  - by injection H as <- <-.
  - rewrite Hsam in H by (apply Hns; set_solver).
    apply IH in H; [by rewrite length_insert in H|intros; apply Hns; set_solver|].
    apply ext_consider_ok; [apply Hns; set_solver|done].
Qed.

Lemma memcheck_mark a sam : 2 ≤ AutomoveExt.a_global_pool_watermark (AutomoveExt.memcheck a sam).
Proof.
  unfold AutomoveExt.memcheck. cbv zeta. set (mark := dbl_to_uint _). clearbody mark.
  cbn [AutomoveExt.a_global_pool_watermark]. simpl. destruct (Z.ltb_spec mark 2); lia.
Qed.

Definition pool_low s (a : AutomoveExt.slab_automove) : Prop :=
  m_mem_limit (w_slabs s) ≤ m_mem_malloced (w_slabs s) ∧
  p_slabs (slabcls s SLAB_GLOBAL_PAGE_POOL) < AutomoveExt.a_global_pool_watermark a.

Lemma global_pool_check_run s a : ∃ (low : bool) a0, AutomoveExt.global_pool_check a s = Some ((low, a0), s) ∧
  AutomoveExt.a_window_size a0 = AutomoveExt.a_window_size a ∧ (low = true → pool_low s a).
Proof.
  unfold AutomoveExt.global_pool_check, global_page_pool_size.
  rewrite bind_assoc, (bind_run _ _ _ _ _ eq_refl), (bind_run _ _ _ _ _ eq_refl).
  destruct (Z.leb_spec (m_mem_limit (w_slabs s)) (m_mem_malloced (w_slabs s))) as [Hl|Hl]; simpl.
  - eexists _, _. split; [reflexivity|]. split; [done|]. intros Hlow. apply Z.ltb_lt in Hlow. by split.
  - by eexists false, a.
Qed.

Lemma memcheck_size a sam : AutomoveExt.a_window_size (AutomoveExt.memcheck a sam) = AutomoveExt.a_window_size a.
Proof. reflexivity. Qed.

(** The part of the policy after the samples. *)
Definition ext_decide (a1 : AutomoveExt.slab_automove) (low : bool) iam sam :
    M world (Z * Z * AutomoveExt.slab_automove) :=
  if AutomoveExt.a_window_size a1 =? 0 then undefined
  else
    let '(windows, c) := AutomoveExt.run_loop a1 iam sam classes (AutomoveExt.a_window_data a1) AutomoveExt.no_choice in
    let a := a1 <| AutomoveExt.a_window_data := windows |> <| AutomoveExt.a_iam_before := iam |>
               <| AutomoveExt.a_sam_before := sam |> in
    mret (AutomoveExt.decide_move a low c, a).

Lemma ext_run_decide s a low a0 iam sam :
  AutomoveExt.global_pool_check a s = Some ((low, a0), s) →
  fill_item_stats_automove s = Some (iam, s) → fill_slab_stats_automove s = Some (sam, s) →
  AutomoveExt.slab_automove_extstore_run a s =
    ext_decide (AutomoveExt.memcheck (a0 <| AutomoveExt.a_window_cur := u32 (AutomoveExt.a_window_cur a0 + 1) |>) sam)
      low iam sam s.
Proof.
  intros H1 H2 H3. unfold AutomoveExt.slab_automove_extstore_run.
  rewrite (bind_run _ _ _ _ _ H1), (bind_run _ _ _ _ _ H2), (bind_run _ _ _ _ _ H3). reflexivity.
Qed.

Lemma ext_decide_run s a1 low iam sam :
  (∀ n, n ∈ classes → ssa_at sam n = sam_of s n) → AutomoveExt.a_window_size a1 ≠ 0 →
  ∃ a2 c, ext_decide a1 low iam sam s = Some ((AutomoveExt.decide_move a2 low c, a2), s) ∧
    ext_choice_ok s c ∧ AutomoveExt.a_global_pool_watermark a2 = AutomoveExt.a_global_pool_watermark a1.
Proof.
  intros Hat Hw. unfold ext_decide. rewrite (proj2 (Z.eqb_neq _ 0)) by done.
  destruct (AutomoveExt.run_loop _ _ _ _ _ _) as [windows c] eqn:E.
  apply (ext_run_loop_ok s) in E as [Hc _]; [|done|done|constructor; simpl; auto].
  cbv zeta. eexists _, c. split; [reflexivity|]. by split.
Qed.

Lemma ext_decide_move_ok s a2 low c src dst :
  ext_choice_ok s c → AutomoveExt.decide_move a2 low c = (src, dst) →
  (src = -1 ∧ dst = -1) ∨
  (1 ≤ src < 64 ∧ dst = 0 ∧ 5 * p_perslab (slabcls s src) < 2 * p_sl_curr (slabcls s src)) ∨
  (1 ≤ src < 64 ∧ dst = 0 ∧ 2 < p_slabs (slabcls s src) ∧ low = true).
Proof.
  intros [Ho Hs] Ed.
  assert (Hkeep : (AutomoveExt.c_src c = -1 ∧ AutomoveExt.c_dst c = -1) ∨
     (1 ≤ AutomoveExt.c_src c < 64 ∧ AutomoveExt.c_dst c = 0 ∧
      5 * p_perslab (slabcls s (AutomoveExt.c_src c)) < 2 * p_sl_curr (slabcls s (AutomoveExt.c_src c)))).
  { destruct Hs as [?|(? & ? & Hr)]; [by left|right]. split_and!; [by apply classes_range..|done|]. by apply Z.ltb_lt in Hr. }
  unfold AutomoveExt.decide_move in Ed. destruct (_ <? _); [injection Ed as <- <-; tauto|].
  destruct (negb (AutomoveExt.c_too_free c) && low && _) eqn:Ec; injection Ed as <- <-; [|tauto].
  apply andb_true_iff in Ec as [Ec Hold]. apply andb_true_iff in Ec as [_ Hl]. apply negb_true_iff, Z.eqb_neq in Hold.
  destruct Ho as [?|[Ho Hp]]; [done|]. apply classes_range in Ho. by right; right.
Qed.

(** The policy with external storage only ever moves pages to the
    global pool: from a class whose free chunks exceed two and a half pages, or,
    when memory is used up and the pool is below its watermark, from a class that
    has more than two pages. It keeps at least two pages as the watermark. *)
Theorem slab_automove_extstore_run_safe s m R D a :
  cache_ok s m R D → 0 < AutomoveExt.a_window_size a →
  ∃ src dst a', AutomoveExt.slab_automove_extstore_run a s = Some ((src, dst, a'), s) ∧
    2 ≤ AutomoveExt.a_global_pool_watermark a' ∧
    ((src = -1 ∧ dst = -1) ∨
     (1 ≤ src < 64 ∧ dst = 0 ∧ 5 * p_perslab (slabcls s src) < 2 * p_sl_curr (slabcls s src)) ∨
     (1 ≤ src < 64 ∧ dst = 0 ∧ 2 < p_slabs (slabcls s src) ∧ pool_low s a)).
Proof.
  intros Hok Hw. pose proof (so_queues _ _ (co_slabs _ _ _ _ Hok)) as Hq.
  destruct (fill_automove_total s D (seqZ 0 MAX_NUMBER_OF_SLAB_CLASSES) Hq (co_lru _ _ _ _ Hok)) as [iam Hiam].
  destruct (fill_slab_run s) as (sam & Hsam & Hat).
  destruct (global_pool_check_run s a) as (low & a0 & Hpc & Hw0 & Hlow).
  rewrite (ext_run_decide s a low a0 iam sam Hpc Hiam Hsam).
  edestruct (ext_decide_run s) as (a2 & c & Hrun & Hc & Hmark); [exact Hat| |rewrite Hrun].
  { rewrite memcheck_size. change (AutomoveExt.a_window_size a0 ≠ 0). lia. }
  destruct (AutomoveExt.decide_move a2 low c) as [src dst] eqn:Ed.
  exists src, dst, a2. split; [reflexivity|]. split; [rewrite Hmark; apply memcheck_mark|].
  destruct (ext_decide_move_ok _ _ _ _ _ _ Hc Ed) as [?|[?|(? & ? & ? & ?)]]; [tauto..|]. right. right. by auto.
Qed.
End Automove.

(** ** Runs *)

#[local] Existing Instance jenkins_fn.

Definition mover : Automove.slab_automove :=
  Automove.mkAutomove (replicate 640 Automove.zero_window) 10 0 (S754_finite false 7205759403792794 (-53)) [] [].

Lemma slab_automove_run_safe_witness :
  ∃ src dst a', Automove.slab_automove_run mover shop_linked = Some ((src, dst, a'), shop_linked) ∧
    length (Automove.a_window_data a') = length (Automove.a_window_data mover) ∧
    ((src = -1 ∧ dst = -1) ∨
     (1 ≤ src < 64 ∧ dst = 0 ∧ 5 * p_perslab (slabcls shop_linked src) < 2 * p_sl_curr (slabcls shop_linked src)) ∨
     (1 ≤ src < 64 ∧ 1 ≤ dst < 64 ∧ 2 < p_slabs (slabcls shop_linked src) ∧
      Automove.a_window_size mover < Automove.a_window_cur a')).
Proof.
  destruct shop_linked_ok as (D & Hok & _).
  apply (slab_automove_run_safe shop_linked {[ [97] := 4096 ]} shop_refs D mover Hok). reflexivity.
Defined.

Definition ext_mover : AutomoveExt.slab_automove :=
  AutomoveExt.mkAutomove (replicate 640 AutomoveExt.zero_window) 10 0 512 (S754_finite false 7205759403792794 (-53))
    (S754_finite false 5764607523034235 (-59)) false 0 [] [].

Lemma slab_automove_extstore_run_safe_witness :
  ∃ src dst a', AutomoveExt.slab_automove_extstore_run ext_mover shop_linked = Some ((src, dst, a'), shop_linked) ∧
    2 ≤ AutomoveExt.a_global_pool_watermark a' ∧
    ((src = -1 ∧ dst = -1) ∨
     (1 ≤ src < 64 ∧ dst = 0 ∧ 5 * p_perslab (slabcls shop_linked src) < 2 * p_sl_curr (slabcls shop_linked src)) ∨
     (1 ≤ src < 64 ∧ dst = 0 ∧ 2 < p_slabs (slabcls shop_linked src) ∧ pool_low shop_linked ext_mover)).
Proof.
  destruct shop_linked_ok as (D & Hok & _).
  apply (slab_automove_extstore_run_safe shop_linked {[ [97] := 4096 ]} shop_refs D ext_mover Hok). reflexivity.
Defined.
