(* ===== verification/Locks.v ===== *)
(** * Item locks around the operations of the store

    The operations called with the item lock of a key held return with the same
    locks held. *)

From S2P Require Import Prelude Keeps Hashes State Links Queues Assoc AssocSpec Slabs SlabsSpec Items ItemsSpec ItemsAccess ItemsThm Store StoreThm.

Section Locks.
Context {HF : HashFn}.

Lemma locks_get_cas_id : keeps same_locks get_cas_id.
Proof. unfold get_cas_id. keeps_tac. Qed.
Lemma locks_item_is_flushed x : keeps same_locks (item_is_flushed x).
Proof. unfold item_is_flushed. keeps_tac. Qed.
Lemma locks_sizes_upd d x : keeps same_locks (item_stats_sizes_upd d x).
Proof. unfold item_stats_sizes_upd. keeps_tac. Qed.
Lemma locks_storage_delete p : keeps same_locks (storage_delete p).
Proof. unfold storage_delete. keeps_tac. Qed.
Lemma locks_q_push p h : keeps same_locks (q_push p h).
Proof. unfold q_push. keeps_tac. Qed.
Lemma locks_q_unlink p : keeps same_locks (q_unlink p).
Proof. unfold q_unlink. keeps_tac. Qed.
#[local] Hint Resolve locks_q_push locks_q_unlink : keeps.
Lemma locks_do_item_link_q p : keeps same_locks (do_item_link_q p).
Proof. unfold do_item_link_q. keeps_tac. Qed.
Lemma locks_lru_take_out p : keeps same_locks (lru_take_out p).
Proof. unfold lru_take_out. keeps_tac. Qed.
#[local] Hint Resolve locks_get_cas_id locks_item_is_flushed locks_sizes_upd locks_storage_delete locks_do_item_link_q locks_lru_take_out : keeps.
Lemma locks_do_item_unlink_q p : keeps same_locks (do_item_unlink_q p).
Proof. unfold do_item_unlink_q. keeps_tac. Qed.

Lemma locks_assoc_walk n k nk p : keeps same_locks (assoc_walk n k nk p).
Proof. revert p. induction n; intros p; cbn [assoc_walk]; keeps_tac. Qed.
Lemma locks_pos_get p : keeps same_locks (pos_get p).
Proof. unfold pos_get. keeps_tac. Qed.
Lemma locks_pos_set p v : keeps same_locks (pos_set p v).
Proof. unfold pos_set. keeps_tac. Qed.
#[local] Hint Resolve locks_do_item_unlink_q locks_assoc_walk locks_pos_get locks_pos_set : keeps.
Lemma locks_before_loop n k nk p : keeps same_locks (hashitem_before_loop n k nk p).
Proof. revert p. induction n; intros p; cbn [hashitem_before_loop]; keeps_tac. Qed.
#[local] Hint Resolve locks_before_loop : keeps.
Lemma locks_walk_fuel : keeps same_locks walk_fuel.
Proof. unfold walk_fuel. keeps_tac. Qed.
#[local] Hint Resolve locks_walk_fuel : keeps.
Lemma locks_assoc_find k nk hv : keeps same_locks (assoc_find k nk hv).
Proof. unfold assoc_find. keeps_tac. Qed.
Lemma locks_assoc_insert p hv : keeps same_locks (assoc_insert p hv).
Proof. unfold assoc_insert. keeps_tac. Qed.
Lemma locks_assoc_delete k nk hv : keeps same_locks (assoc_delete k nk hv).
Proof. unfold assoc_delete, hashitem_before. keeps_tac. Qed.
#[local] Hint Resolve locks_assoc_find locks_assoc_insert locks_assoc_delete : keeps.

Lemma locks_slots_push p id : keeps same_locks (slots_push p id).
Proof. unfold slots_push. keeps_tac. Qed.
#[local] Hint Resolve locks_slots_push : keeps.
Lemma locks_free_chunk_loop n c : keeps same_locks (free_chunk_loop n c).
Proof. revert c. induction n; intros c; cbn [free_chunk_loop]; keeps_tac. Qed.
#[local] Hint Resolve locks_free_chunk_loop : keeps.
Lemma locks_do_slabs_free p n id : keeps same_locks (do_slabs_free p n id).
Proof. unfold do_slabs_free, do_slabs_free_chunked. keeps_tac. Qed.
#[local] Hint Resolve locks_do_slabs_free : keeps.
Lemma locks_item_free p : keeps same_locks (item_free p).
Proof. unfold item_free, slabs_free. keeps_tac. Qed.
#[local] Hint Resolve locks_item_free : keeps.
Lemma locks_do_item_remove p : keeps same_locks (do_item_remove p).
Proof. unfold do_item_remove. keeps_tac. Qed.
#[local] Hint Resolve locks_do_item_remove : keeps.
Lemma locks_do_item_link p hv : keeps same_locks (do_item_link p hv).
Proof. unfold do_item_link, item_link_q, item_stats_sizes_add, stats_link. keeps_tac. Qed.
Lemma locks_do_item_unlink p hv : keeps same_locks (do_item_unlink p hv).
Proof. unfold do_item_unlink, item_unlink_q, item_stats_sizes_remove, stats_unlink. keeps_tac. Qed.
#[local] Hint Resolve locks_do_item_link locks_do_item_unlink : keeps.
Lemma locks_do_item_update p : keeps same_locks (do_item_update p).
Proof. unfold do_item_update, item_link_q, item_unlink_q, item_link_q_warm. keeps_tac. Qed.
#[local] Hint Resolve locks_do_item_update : keeps.
Lemma locks_do_item_bump p hv : keeps same_locks (do_item_bump p hv).
Proof. unfold do_item_bump, lru_bump_async. keeps_tac. Qed.
#[local] Hint Resolve locks_do_item_bump : keeps.
Lemma locks_do_item_get k nk hv b : keeps same_locks (do_item_get k nk hv b).
Proof. unfold do_item_get. keeps_tac. Qed.
#[local] Hint Resolve locks_do_item_get : keeps.
Lemma locks_do_item_touch k nk e hv : keeps same_locks (do_item_touch k nk e hv).
Proof. unfold do_item_touch. keeps_tac. Qed.
#[local] Hint Resolve locks_do_item_touch : keeps.

Lemma locks_do_item_replace p q hv : keeps same_locks (do_item_replace p q hv).
Proof. unfold do_item_replace. keeps_tac. Qed.
#[local] Hint Resolve locks_do_item_replace : keeps.
Lemma locks_store_over p q comm : no_append comm → keeps same_locks (store_over p q comm).
Proof. intros [? ?]. unfold store_over. destruct comm; try done; keeps_tac. Qed.
Lemma locks_do_store_item p comm hv : no_append comm → keeps same_locks (do_store_item p comm hv).
Proof.
  intros H. pose proof (λ p q, locks_store_over p q comm H). unfold do_store_item, store_with, item_replace. keeps_tac.
Qed.

End Locks.
