(* ===== verification/Tokens.v ===== *)
(** * Command lines ([proto_text.c]): words and meta flags

    [tokenize_command] cuts a command line into words in place: it writes a NUL
    behind each word and notes where the words start. [_meta_flag_preparse] reads
    the flags of a meta command. *)

From Stdlib Require Import Ascii String.
From stdpp Require Import strings.
From S2P Require Import Prelude Itoa Util Base64 State Store.

(** ** Text *)

Definition chr (a : ascii) : Z := Z.of_N (N_of_ascii a).

(** The bytes of a string literal. *)
Definition txt (s : string) : list Z := chr <$> String.list_ascii_of_string s.

(** [strcmp(a, b) == 0] *)
Definition streq (a b : list Z) : bool := bool_decide (c_str a = c_str b).

(** [strncmp(a, b, n) == 0] where [n] is the length of [b]. *)
Definition starts_with (a b : list Z) : bool := bool_decide (take (length b) (c_str a) = b).

(** ** Words *)

Definition MAX_TOKENS : Z := 24.
Definition KEY_TOKEN : nat := 1.

(** [value] is [None] for [NULL], else the bytes from the pointer on. *)
Record token_t : Type := mkToken { tk_value : option (list Z); tk_length : Z }.

(** The loop over the line. [s] is the start of the current word, [e] the place
    of the scan, [toks] the start and length of the words found. *)
Fixpoint tokenize_loop (n : nat) (buf : list Z) (s e : nat) (toks : list (nat * nat)) (max_tokens : Z) :
    list Z * nat * nat * list (nat * nat) :=
  match n with
  | O => (buf, s, e, toks)
  | S n =>
      if at_ buf e =? 32 then
        if negb (s =? e)%nat then
          let toks := toks ++ [(s, (e - s)%nat)] in
          let buf := <[e := 0]> buf in
          if Z.of_nat (length toks) =? max_tokens - 1 then (buf, S e, S e, toks)
          else tokenize_loop n buf (S e) (S e) toks max_tokens
        else tokenize_loop n buf (S e) (S e) toks max_tokens
      else tokenize_loop n buf s (S e) toks max_tokens
  end.

(** The tokens, the last of them the terminal one. *)
Definition tokenize_command (command : list Z) (max_tokens : Z) : list token_t :=
  let '(buf, s, e, toks) := tokenize_loop (length (c_str command)) command 0 0 [] max_tokens in
  let toks := if negb (s =? e)%nat then toks ++ [(s, (e - s)%nat)] else toks in
  ((λ '(s, n), mkToken (Some (drop s buf)) (Z.of_nat n)) <$> toks) ++
  [mkToken (if at_ buf e =? 0 then None else Some (drop e buf)) 0].

(** The bytes of a token. *)
Definition token_bytes (t : token_t) : list Z := take (Z.to_nat (tk_length t)) (default [] (tk_value t)).

(** [tokens[i]]; an entry that was not written is not read by the callers. *)
Definition token (tokens : list token_t) (i : nat) : option token_t := tokens !! i.

(** [tokens[i].value] where it is used as a string. *)
Definition tvalue (tokens : list token_t) (i : nat) : option (list Z) := t ← tokens !! i; tk_value t.
Definition tlength (tokens : list token_t) (i : nat) : option Z := tk_length <$> tokens !! i.

(** ** Meta flags *)

Definition MFLAG_MAX_OPT_LENGTH : Z := 20.
Definition MFLAG_MAX_OPAQUE_LENGTH : Z := 32.

Record meta_flags : Type := mkFlags {
  f_has_error : bool; f_no_update : bool; f_locked : bool; f_vivify : bool; f_la : bool; f_value : bool;
  f_set_stale : bool; f_no_reply : bool; f_has_cas : bool; f_new_ttl : bool; f_key_binary : bool;
  f_mode : Z; f_exptime : Z; f_autoviv_exptime : Z; f_recache_time : Z; f_client_flags : Z;
  f_req_cas_id : Z; f_delta : Z; f_initial : Z
}.
#[global] Instance meta_flags_eta : Eta meta_flags := λ r,
  mkFlags (f_has_error r) (f_no_update r) (f_locked r) (f_vivify r) (f_la r) (f_value r) (f_set_stale r) (f_no_reply r)
    (f_has_cas r) (f_new_ttl r) (f_key_binary r) (f_mode r) (f_exptime r) (f_autoviv_exptime r) (f_recache_time r)
    (f_client_flags r) (f_req_cas_id r) (f_delta r) (f_initial r).

(** [= {0}] *)
Definition no_flags : meta_flags :=
  mkFlags false false false false false false false false false false false 0 0 0 0 0 0 0 0.

Definition bad_token : list Z := txt "CLIENT_ERROR bad token in command line format".

(** What one flag changes: the key token, the flags and the error message.
    [value] is the string from the flag character on; [pt] is [process_started]
    and [now] is [current_time]. [None] for an unknown flag. *)
Definition meta_flag (pt now : Z) (o : Z) (value : list Z) (length : Z) (key : token_t) (fl : meta_flags) (errstr : list Z) :
    option (token_t * meta_flags * list Z) :=
  let arg := drop 1 value in
  let failed (e : list Z) (fl : meta_flags) := Some (key, fl <| f_has_error := true |>, e) in
  let set_time (fl : meta_flags) (f : Z → meta_flags) :=
    match safe_strtol arg with
    | None => failed bad_token fl
    | Some x => Some (key, f (realtime pt now (EXPTIME_TO_POSITIVE_TIME x)), errstr)
    end in
  let keep (fl : meta_flags) := Some (key, fl, errstr) in
  if o =? chr "b" then
    let '(ret, out) := base64_decode (token_bytes key) (tk_length key) in
    let key' := mkToken (Some (blit 0 out (default [] (tk_value key)))) ret in
    if ret =? 0 then Some (key', fl <| f_has_error := true |> <| f_key_binary := true |>, txt "CLIENT_ERROR error decoding key")
    else Some (key', fl <| f_key_binary := true |>, errstr)
  else if o =? chr "N" then
    let fl := fl <| f_locked := true |> <| f_vivify := true |> in
    set_time fl (λ t, fl <| f_autoviv_exptime := t |>)
  else if o =? chr "T" then
    let fl := fl <| f_locked := true |> in
    set_time fl (λ t, fl <| f_exptime := t |> <| f_new_ttl := true |>)
  else if o =? chr "R" then
    let fl := fl <| f_locked := true |> in
    set_time fl (λ t, fl <| f_recache_time := t |>)
  else if o =? chr "l" then keep (fl <| f_la := true |> <| f_locked := true |>)
  else if (o =? chr "O") || (o =? chr "P") || (o =? chr "L") then keep fl
  else if (o =? chr "k") || (o =? chr "s") || (o =? chr "t") || (o =? chr "c") || (o =? chr "f") then keep fl
  else if o =? chr "v" then keep (fl <| f_value := true |>)
  else if o =? chr "h" then keep (fl <| f_locked := true |>)
  else if o =? chr "u" then keep (fl <| f_no_update := true |>)
  else if o =? chr "q" then keep (fl <| f_no_reply := true |>)
  else if o =? chr "F" then
    match safe_strtoul arg with
    | None => failed errstr fl
    | Some x => keep (fl <| f_client_flags := x |>)
    end
  else if o =? chr "C" then
    match safe_strtoull arg with
    | None => failed bad_token fl
    | Some x => keep (fl <| f_req_cas_id := x |> <| f_has_cas := true |>)
    end
  else if o =? chr "M" then
    if negb (length =? 2) then failed (txt "CLIENT_ERROR incorrect length for M token") fl
    else keep (fl <| f_mode := at_ value 1 |>)
  else if o =? chr "J" then
    match safe_strtoull arg with
    | None => failed (txt "CLIENT_ERROR invalid numeric initial value") fl
    | Some x => keep (fl <| f_initial := x |>)
    end
  else if o =? chr "D" then
    match safe_strtoull arg with
    | None => failed (txt "CLIENT_ERROR invalid numeric delta value") fl
    | Some x => keep (fl <| f_delta := x |>)
    end
  else if o =? chr "I" then keep (fl <| f_set_stale := true |>)
  else None.

(** The loop from [tokens[i]] on; [seen] are the flag characters met. The result
    is the return value, the key token, the flags and the message. *)
Fixpoint preparse_loop (pt now : Z) (tokens : list token_t) (seen : list Z) (key : token_t) (fl : meta_flags) (errstr : list Z) :
    Z * token_t * meta_flags * list Z :=
  match tokens with
  | [] => (if f_has_error fl then -1 else 0, key, fl, errstr)
  | t :: tokens =>
      if tk_length t =? 0 then (if f_has_error fl then -1 else 0, key, fl, errstr)
      else
        let value := default [] (tk_value t) in
        let o := u8 (at_ value 0) in
        if (127 <=? o) || bool_decide (o ∈ seen) then (-1, key, fl, txt "CLIENT_ERROR duplicate flag")
        else
          match meta_flag pt now o value (tk_length t) key fl errstr with
          | None => (-1, key, fl, txt "CLIENT_ERROR invalid flag")
          | Some (key, fl, errstr) => preparse_loop pt now tokens (o :: seen) key fl errstr
          end
  end.

(** The key token is rewritten in place when the key is base64. *)
Definition _meta_flag_preparse (pt now : Z) (tokens : list token_t) (start : nat) (fl : meta_flags) (errstr : list Z) :
    Z * list token_t * meta_flags * list Z :=
  let '(ret, key, fl, errstr) :=
    preparse_loop pt now (drop start tokens) [] (default (mkToken None 0) (tokens !! KEY_TOKEN)) fl errstr in
  (ret, <[KEY_TOKEN := key]> tokens, fl, errstr).

Example tokens_ex :
  token_bytes <$> tokenize_command (txt "mg  foo b v t") 24 = [txt "mg"; txt "foo"; txt "b"; txt "v"; txt "t"; []].
Proof. reflexivity. Qed.
