(* ===== verification/TokensThm.v ===== *)
(** * Command lines: what the words and the flags are *)

From Stdlib Require Import Ascii String.
From stdpp Require Import strings.
From S2P Require Import Prelude Itoa Util Base64 State Store Tokens.

(** ** The words of a line *)

(** The reference: cut at every space and drop the empty pieces. *)
Fixpoint split_on (c : Z) (l : list Z) : list (list Z) :=
  match l with
  | [] => [[]]
  | x :: l =>
      if x =? c then [] :: split_on c l
      else match split_on c l with w :: ws => (x :: w) :: ws | [] => [[x]] end
  end.

Definition words (l : list Z) : list (list Z) := filter (λ w, w ≠ []) (split_on 32 l).

Definition solid (w : list Z) : Prop := 32 ∉ w.

Lemma split_on_word w l : solid w → split_on 32 (w ++ 32 :: l) = w :: split_on 32 l.
Proof.
  induction w as [|x w IH]; [done|]. intros Hs. cbn [split_on app].
  rewrite (proj2 (Z.eqb_neq x 32)) by (intros ->; apply Hs; set_solver). rewrite IH; [done|]. intros Hin. apply Hs. set_solver.
Qed.

Lemma split_on_last w : solid w → split_on 32 w = [w].
Proof.
  induction w as [|x w IH]; [done|]. intros Hs. cbn [split_on].
  rewrite (proj2 (Z.eqb_neq x 32)) by (intros ->; apply Hs; set_solver). rewrite IH; [done|]. intros Hin. apply Hs. set_solver.
Qed.

Definition word_of (w : list Z) : list (list Z) := if decide (w = []) then [] else [w].

Lemma words_cut w l : solid w → words (w ++ 32 :: l) = word_of w ++ words l.
Proof.
  intros Hs. unfold words, word_of. rewrite split_on_word by done. rewrite filter_cons. by repeat case_decide.
Qed.

Lemma words_last w : solid w → words w = word_of w.
Proof. intros Hs. unfold words, word_of. rewrite split_on_last, filter_cons by done. by repeat case_decide. Qed.

(** Words have no spaces and are not empty. *)
Lemma words_solid l : Forall (λ w, w ≠ [] ∧ solid w) (words l).
Proof.
  apply Forall_forall. intros w [Hne Hin]%list_elem_of_filter. split; [done|]. revert w Hin Hne.
  induction l as [|x l IH]; intros w; cbn [split_on].
  - rewrite list_elem_of_singleton. intros ->. done.
  - destruct (Z.eqb_spec x 32) as [->|Hx].
    + rewrite elem_of_cons. intros [->|Hin]; [done|]. by apply IH.
    + destruct (split_on 32 l) as [|v vs] eqn:E; [rewrite list_elem_of_singleton; intros -> _; unfold solid; set_solver|].
      rewrite elem_of_cons. intros [->|Hin] Hne; [|apply IH; [set_solver|done]].
      destruct (decide (v = [])) as [->|Hv]; [unfold solid; set_solver|].
      pose proof (IH v ltac:(set_solver) Hv). unfold solid in *. set_solver.
Qed.

(** ** The tokenizer *)

(** In the buffer [D] the word [w] stands at [t], with a NUL behind it. *)
Definition token_in (D : list Z) (t : nat * nat) (w : list Z) : Prop :=
  ∃ pre post, D = pre ++ w ++ 0 :: post ∧ t = (length pre, length w) ∧ 0 ∉ w.

Lemma token_in_app D E t w : token_in D t w → token_in (D ++ E) t w.
Proof. intros (pre & post & -> & -> & H0). exists pre, (post ++ E). split_and!; [by rewrite <- !app_assoc|done|done]. Qed.

Lemma c_str_stop w r : 0 ∉ w → c_str (w ++ 0 :: r) = w.
Proof.
  induction w as [|x w IH]; [done|]. intros H0. cbn [c_str app]. rewrite (proj2 (Z.eqb_neq x 0)) by (intros ->; apply H0; set_solver).
  rewrite IH; [done|]. set_solver.
Qed.

Lemma at_app_length (D : list Z) x r : at_ (D ++ x :: r) (length D) = x.
Proof. unfold at_. rewrite app_nth2 by lia. by rewrite Nat.sub_diag. Qed.

Lemma tokenize_loop_ok rest : ∀ D cur toks ws tail max,
  0 ∉ cur → 0 ∉ rest → solid cur → Forall2 (token_in D) toks ws →
  Z.of_nat (length toks) < max - 1 →
  ∃ D' cur' rest' toks' ws',
    tokenize_loop (length rest) (D ++ cur ++ rest ++ 0 :: tail) (length D) (length D + length cur) toks max =
      (D' ++ cur' ++ rest' ++ 0 :: tail, length D', (length D' + length cur')%nat, toks') ∧
    0 ∉ cur' ∧ 0 ∉ rest' ∧ solid cur' ∧ Forall2 (token_in D') toks' ws' ∧
    ws ++ words (cur ++ rest) = ws' ++ words (cur' ++ rest') ∧
    (rest' = [] ∧ Z.of_nat (length toks') < max - 1 ∨ cur' = [] ∧ Z.of_nat (length toks') = max - 1).
Proof.
  induction rest as [|x rest IH]; intros D cur toks ws tail max Hc Hr Hs Ht Hl.
  { exists D, cur, [], toks, ws. split; [done|]. split_and!; try done. by left. }
  assert (Hr' : 0 ∉ rest) by set_solver.
  cbn [length tokenize_loop].
  assert (Hat : at_ (D ++ cur ++ (x :: rest) ++ 0 :: tail) (length D + length cur) = x).
  { rewrite app_assoc, <- length_app. apply at_app_length. }
  rewrite Hat. destruct (Z.eqb_spec x 32) as [->|Hx].
  - destruct (Nat.eqb_spec (length D) (length D + length cur)) as [E|E]; simpl negb; cbv iota.
    + assert (cur = []) as -> by (destruct cur; [done|simpl in E; lia]).
      destruct (IH (D ++ [32]) [] toks ws tail max) as (D' & cur' & rest' & toks' & ws' & Hrun & H1 & H2 & H3 & H4 & H5 & H6); try done.
      { eapply Forall2_impl; [exact Ht|]. intros. by apply token_in_app. }
      exists D', cur', rest', toks', ws'. split_and!; try done.
      rewrite <- Hrun, length_app, <- !app_assoc. simpl. f_equal; lia.
    + assert (Hne : cur ≠ []) by (intros ->; simpl in E; lia).
      assert (Hw : token_in (D ++ cur ++ [0]) (length D, length cur) cur) by (exists D, []; by split_and!).
      replace (length D + length cur - length D)%nat with (length cur) by lia.
      assert (Hbuf : <[(length D + length cur)%nat := 0]> (D ++ cur ++ (32 :: rest) ++ 0 :: tail) = (D ++ cur ++ [0]) ++ [] ++ rest ++ 0 :: tail).
      { rewrite <- length_app, (app_assoc D cur), <- (Nat.add_0_r (length (D ++ cur))), insert_app_r. simpl. by rewrite <- !app_assoc. }
      rewrite Hbuf. assert (Ht' : Forall2 (token_in (D ++ cur ++ [0])) (toks ++ [(length D, length cur)]) (ws ++ [cur])).
      { apply Forall2_app; [|by constructor]. eapply Forall2_impl; [exact Ht|]. intros. by apply token_in_app. }
      assert (Hws : ws ++ words (cur ++ 32 :: rest) = (ws ++ [cur]) ++ words rest).
      { rewrite words_cut by done. unfold word_of. case_decide; [done|]. by rewrite <- app_assoc. }
      assert (Hlen : S (length D + length cur) = (length (D ++ cur ++ [0%Z]) + 0)%nat) by (rewrite !length_app; simpl; lia).
      destruct (Z.eqb_spec (Z.of_nat (length (toks ++ [(length D, length cur)]))) (max - 1)) as [Em|Em].
      * exists (D ++ cur ++ [0]), [], rest, (toks ++ [(length D, length cur)]), (ws ++ [cur]). rewrite Hlen, Nat.add_0_r. simpl length at 4. split; [by rewrite Nat.add_0_r|]. split_and!; [apply not_elem_of_nil|done|apply not_elem_of_nil|done|done|by right].
      * destruct (IH (D ++ cur ++ [0]) [] (toks ++ [(length D, length cur)]) (ws ++ [cur]) tail max) as
          (D' & cur' & rest' & toks' & ws' & Hrun & H1 & H2 & H3 & H4 & H5 & H6); try apply not_elem_of_nil; try done; [rewrite length_app in *; simpl in *; lia|].
        exists D', cur', rest', toks', ws'. split_and!; try done.
        -- rewrite Hlen. rewrite <- Hrun. simpl. by rewrite Nat.add_0_r.
        -- by rewrite Hws, <- H5.
  - destruct (IH D (cur ++ [x]) toks ws tail max) as (D' & cur' & rest' & toks' & ws' & Hrun & H); try done; [set_solver|unfold solid in *; set_solver|].
    exists D', cur', rest', toks', ws'. rewrite <- !app_assoc in Hrun, H. split; [|done].
    rewrite <- Hrun, length_app. simpl. f_equal. lia.
Qed.

(** A token whose string is exactly its bytes. *)
Definition terminated (t : token_t) : Prop :=
  c_str (default [] (tk_value t)) = token_bytes t ∧ tk_length t = Z.of_nat (length (token_bytes t)).

Definition make_token (buf : list Z) (t : nat * nat) : token_t := mkToken (Some (drop t.1 buf)) (Z.of_nat t.2).

Lemma make_token_ok D E t w : token_in D t w → terminated (make_token (D ++ E) t) ∧ token_bytes (make_token (D ++ E) t) = w.
Proof.
  intros (pre & post & -> & -> & H0). unfold terminated, token_bytes, make_token. simpl. rewrite Nat2Z.id, <- !app_assoc. simpl.
  rewrite drop_app_length, c_str_stop by done. rewrite take_app_length. done.
Qed.

Lemma make_tokens_ok D E toks ws :
  Forall2 (token_in D) toks ws →
  Forall terminated (make_token (D ++ E) <$> toks) ∧ token_bytes <$> (make_token (D ++ E) <$> toks) = ws.
Proof.
  induction 1 as [|t w toks ws Ht _ [IH1 IH2]]; [by split; constructor|]. destruct (make_token_ok D E t w Ht) as [H1 H2].
  cbn [fmap list_fmap] in *. split; [by constructor|]. f_equal; done.
Qed.

Lemma tokenize_command_eq command max :
  tokenize_command command max =
  let '(buf, s, e, toks) := tokenize_loop (length (c_str command)) command 0 0 [] max in
  (make_token buf <$> (if negb (s =? e)%nat then toks ++ [(s, (e - s)%nat)] else toks)) ++
  [mkToken (if at_ buf e =? 0 then None else Some (drop e buf)) 0].
Proof.
  unfold tokenize_command. destruct (tokenize_loop _ _ _ _ _ _) as [[[buf s] e] toks]. f_equal. apply list_fmap_ext. by intros i [a b].
Qed.

(** C23 (equivalence). The tokenizer against its reference, the words of the line
    (cut at every space, empty pieces dropped): the tokens are the first
    [max_tokens - 1] words, each one ends with a NUL in the buffer, and the
    terminal token is [NULL] exactly when there are no more words to come or
    points to a text whose words are the remaining ones. The token array is never
    overrun. *)
Theorem tokenize_command_words line tail max :
  0 ∉ line → 2 ≤ max →
  ∃ ts last, tokenize_command (line ++ 0 :: tail) max = ts ++ [last] ∧
    token_bytes <$> ts = take (Z.to_nat (max - 1)) (words line) ∧ Forall terminated ts ∧
    tk_length last = 0 ∧ Z.of_nat (length ts) + 1 ≤ max ∧
    match tk_value last with
    | None => drop (Z.to_nat (max - 1)) (words line) = []
    | Some r => words (c_str r) = drop (Z.to_nat (max - 1)) (words line)
    end.
Proof.
  intros H0 Hm. rewrite tokenize_command_eq, c_str_stop by done.
  destruct (tokenize_loop_ok line [] [] [] [] tail max) as (D & cur & rest & toks & ws & Hrun & Hc & Hr & Hs & Ht & Hw & Hend);
    try apply not_elem_of_nil; try done; [simpl; lia|].
  simpl in Hrun, Hw. rewrite Hrun. simpl. pose proof (Forall2_length _ _ _ Ht) as Hlen. rewrite Hw.
  destruct Hend as [[-> Hl]|[-> Hl]].
  - rewrite app_nil_r in *. simpl. rewrite words_last by done.
    assert (Hat : at_ (D ++ cur ++ 0 :: tail) (length D + length cur) = 0) by (rewrite app_assoc, <- length_app; apply at_app_length).
    rewrite Hat. simpl. eexists _, _. split; [done|]. simpl.
    set (toks1 := if negb (length D =? length D + length cur)%nat then toks ++ [(length D, (length D + length cur - length D)%nat)] else toks).
    assert (Ht1 : Forall2 (token_in (D ++ cur ++ [0])) toks1 (ws ++ word_of cur)).
    { assert (Ht' : Forall2 (token_in (D ++ cur ++ [0])) toks ws) by (eapply Forall2_impl; [exact Ht|]; intros; by apply token_in_app).
      unfold toks1, word_of. case_decide as Hcur; [subst cur; rewrite Nat.add_0_r, Nat.eqb_refl; simpl; by rewrite app_nil_r|].
      rewrite (proj2 (Nat.eqb_neq _ _)) by (destruct cur; [done|simpl; lia]). apply Forall2_app; [done|]. constructor; [|done].
      exists D, []. split_and!; [done|f_equal; lia|done]. }
    destruct (make_tokens_ok _ tail _ _ Ht1) as [A1 A2]. rewrite <- !app_assoc in A1, A2. simpl in A1, A2.
    pose proof (Forall2_length _ _ _ Ht1) as Hl1. rewrite length_fmap.
    assert (Hle : (length (ws ++ word_of cur) ≤ Z.to_nat (max - 1))%nat).
    { rewrite length_app. unfold word_of. case_decide; simpl; lia. }
    rewrite take_ge, drop_ge by done. split_and!; try done. lia.
  - rewrite Nat.add_0_r, Nat.eqb_refl. simpl. eexists _, _. split; [done|].
    destruct (make_tokens_ok _ (rest ++ 0 :: tail) _ _ Ht) as [A1 A2]. simpl. rewrite length_fmap, A2.
    assert (Hle : length ws = Z.to_nat (max - 1)) by lia.
    rewrite <- Hle, take_app_length, drop_app_length. split_and!; try done; [lia|].
    destruct rest as [|x rest]; simpl.
    + rewrite at_app_length. simpl. by rewrite drop_app_length.
    + rewrite at_app_length, (proj2 (Z.eqb_neq x 0)) by (intros ->; set_solver). simpl.
      change (words (c_str ((x :: rest) ++ 0 :: tail)) = drop (length ws) (ws ++ words (x :: rest))).
      by rewrite (c_str_stop (x :: rest) tail Hr), drop_app_length.
Qed.

Lemma tokenize_command_words_witness :
  ∃ ts last, tokenize_command (txt "get a  b " ++ 0 :: txt "xyz") 3 = ts ++ [last] ∧
    token_bytes <$> ts = take 2 (words (txt "get a  b ")) ∧ Forall terminated ts ∧
    tk_length last = 0 ∧ Z.of_nat (length ts) + 1 ≤ 3 ∧
    match tk_value last with
    | None => drop 2 (words (txt "get a  b ")) = []
    | Some r => words (c_str r) = drop 2 (words (txt "get a  b "))
    end.
Proof.
  apply (tokenize_command_words (txt "get a  b ") (txt "xyz") 3).
  - vm_compute. intros H. repeat (apply elem_of_cons in H as [H|H]; [discriminate H|]). by apply elem_of_nil in H.
  - lia.
Defined.

(** ** The flags of a meta command *)

Definition has {A} (x : option A) : bool := if x then true else false.

Definition known_flags : list Z := txt "bNTRlOPLkstcfvhuqFCMJDI".

(** The argument of a flag is what the flag needs. *)
Definition arg_ok (key : token_t) (o : Z) (value : list Z) (length : Z) : bool :=
  let arg := drop 1 value in
  if o =? chr "b" then negb ((base64_decode (token_bytes key) (tk_length key)).1 =? 0)
  else if (o =? chr "N") || (o =? chr "T") || (o =? chr "R") then has (safe_strtol arg)
  else if o =? chr "F" then has (safe_strtoul arg)
  else if (o =? chr "C") || (o =? chr "J") || (o =? chr "D") then has (safe_strtoull arg)
  else if o =? chr "M" then length =? 2 else true.

(** The switches [fl] holds after the flag [o] if it held [fl0] before. *)
Record switched (o : Z) (fl0 fl : meta_flags) : Prop := {
  sw_no_reply : f_no_reply fl = f_no_reply fl0 || (o =? chr "q");
  sw_no_update : f_no_update fl = f_no_update fl0 || (o =? chr "u");
  sw_value : f_value fl = f_value fl0 || (o =? chr "v");
  sw_set_stale : f_set_stale fl = f_set_stale fl0 || (o =? chr "I");
  sw_vivify : f_vivify fl = f_vivify fl0 || (o =? chr "N");
  sw_key_binary : f_key_binary fl = f_key_binary fl0 || (o =? chr "b");
  sw_locked : f_locked fl = f_locked fl0 || existsb (Z.eqb o) (txt "NTRlh")
}.

Lemma meta_flag_ok pt now o value len key fl e :
  match meta_flag pt now o value len key fl e with
  | None => existsb (Z.eqb o) known_flags = false
  | Some (key', fl', e') =>
      existsb (Z.eqb o) known_flags = true ∧ switched o fl fl' ∧
      f_has_error fl' = f_has_error fl || negb (arg_ok key o value len) ∧
      (f_has_cas fl' = f_has_cas fl || (o =? chr "C") && arg_ok key o value len) ∧
      (f_new_ttl fl' = f_new_ttl fl || (o =? chr "T") && arg_ok key o value len) ∧
      (o ≠ chr "b" → key' = key)
  end.
Proof.
  unfold meta_flag, arg_ok.
  repeat match goal with |- context [o =? ?c] => destruct (Z.eqb_spec o c) as [->|?]; cbv iota; cbn [orb andb] end.
  all: try (destruct (base64_decode _ _) as [n out]; simpl; destruct (n =? 0)).
  all: try (match goal with |- context [safe_strtol ?a] => destruct (safe_strtol a) end).
  all: try (match goal with |- context [safe_strtoul ?a] => destruct (safe_strtoul a) end).
  all: try (match goal with |- context [safe_strtoull ?a] => destruct (safe_strtoull a) end).
  all: try (match goal with |- context [?n =? 2] => destruct (n =? 2) end).
  all: try (split_and!; [reflexivity|constructor; simpl; rewrite ?orb_false_r, ?orb_true_r; reflexivity|..];
    simpl; rewrite ?orb_false_r, ?orb_true_r; done).
  unfold known_flags. apply not_true_iff_false. intros H%existsb_exists. destruct H as (c & Hc & E%Z.eqb_eq). subst c.
  simpl in Hc. intuition congruence.
Qed.

Definition flag_char (t : token_t) : Z := u8 (at_ (default [] (tk_value t)) 0).
Definition flag_arg_ok (key t : token_t) : bool := arg_ok key (flag_char t) (default [] (tk_value t)) (tk_length t).

(** Flags that pass: known characters, none twice, with the arguments they need. *)
Definition flags_pass (key : token_t) (seen : list Z) (ts : list token_t) : Prop :=
  Forall (λ o, o < 127 ∧ o ∉ seen ∧ o ∈ known_flags) (flag_char <$> ts) ∧ NoDup (flag_char <$> ts) ∧
  Forall (λ t, flag_arg_ok key t = true) ts.

Definition given (c : Z) (ts : list token_t) : bool := existsb (Z.eqb c) (flag_char <$> ts).

Lemma existsb_elem (l : list Z) x : existsb (Z.eqb x) l = true ↔ x ∈ l.
Proof.
  rewrite existsb_exists, list_elem_of_In. split; [intros (y & H & E%Z.eqb_eq); by subst|]. intros H. exists x. by rewrite Z.eqb_refl.
Qed.

Lemma arg_ok_key key key' o v n : o ≠ chr "b" → arg_ok key o v n = arg_ok key' o v n.
Proof. intros H. unfold arg_ok. by rewrite (proj2 (Z.eqb_neq _ _) H). Qed.

Lemma flags_pass_key_imp key key' seen ts :
  (key' = key ∨ chr "b" ∈ seen) → flags_pass key' seen ts → flags_pass key seen ts.
Proof.
  intros [->|Hb] (H1 & H2 & H3); [done|]. split_and!; try done. rewrite Forall_fmap in H1.
  apply Forall_forall. intros t Ht. rewrite Forall_forall in H1, H3. destruct (H1 t Ht) as (_ & Hn & _).
  rewrite <- (H3 t Ht). apply arg_ok_key. intros E. apply Hn. simpl. by rewrite E.
Qed.

Lemma flags_pass_cons key seen t ts :
  flags_pass key seen (t :: ts) ↔ flag_char t < 127 ∧ flag_char t ∉ seen ∧ flag_char t ∈ known_flags ∧
    flag_arg_ok key t = true ∧ flags_pass key (flag_char t :: seen) ts.
Proof.
  unfold flags_pass. cbn [fmap list_fmap]. rewrite !Forall_cons, NoDup_cons. split.
  - intros (((A1 & A2 & A3) & A4) & (A5 & A6) & A7 & A8). split_and!; try done.
    apply Forall_forall. intros o Ho. rewrite Forall_forall in A4. destruct (A4 o Ho) as (B1 & B2 & B3).
    split_and!; try done. rewrite elem_of_cons. intros [->|?]; done.
  - intros (A1 & A2 & A3 & A4 & A5 & A6 & A7). split_and!; try done.
    + eapply Forall_impl; [exact A5|]. intros o (B1 & B2 & B3). rewrite elem_of_cons in B2. tauto.
    + intros Hin. rewrite Forall_forall in A5. destruct (A5 _ Hin) as (_ & B & _). set_solver.
Qed.

(** Whether the switches after the flags [ts] are those of [fl] and the flags. *)
Record all_switched (ts : list token_t) (fl0 fl : meta_flags) : Prop := {
  as_no_reply : f_no_reply fl = f_no_reply fl0 || given (chr "q") ts;
  as_no_update : f_no_update fl = f_no_update fl0 || given (chr "u") ts;
  as_value : f_value fl = f_value fl0 || given (chr "v") ts;
  as_set_stale : f_set_stale fl = f_set_stale fl0 || given (chr "I") ts;
  as_vivify : f_vivify fl = f_vivify fl0 || given (chr "N") ts;
  as_key_binary : f_key_binary fl = f_key_binary fl0 || given (chr "b") ts;
  as_locked : f_locked fl = f_locked fl0 || existsb (λ t, existsb (Z.eqb (flag_char t)) (txt "NTRlh")) ts
}.

Lemma given_cons c t ts : given c (t :: ts) = (flag_char t =? c) || given c ts.
Proof. unfold given. cbn [fmap list_fmap existsb]. by rewrite Z.eqb_sym. Qed.

Lemma all_switched_cons t ts fl0 fl1 fl :
  switched (flag_char t) fl0 fl1 → all_switched ts fl1 fl → all_switched (t :: ts) fl0 fl.
Proof.
  intros [] []. constructor; rewrite ?given_cons, ?orb_assoc; try congruence.
  cbn [existsb]. rewrite orb_assoc. congruence.
Qed.

Lemma preparse_loop_ok pt now last ts : ∀ seen key fl e ret key' fl' e',
  Forall (λ t, tk_length t ≠ 0) ts → tk_length last = 0 →
  preparse_loop pt now (ts ++ [last]) seen key fl e = (ret, key', fl', e') →
  (ret = 0 ∨ ret = -1) ∧ (ret = 0 ↔ f_has_error fl = false ∧ flags_pass key seen ts) ∧ (ret = 0 → all_switched ts fl fl').
Proof.
  induction ts as [|t ts IH]; intros seen key fl e ret key' fl' e' Hne Hlast; cbn [app preparse_loop].
  - rewrite Hlast. simpl. intros [= <- <- <- <-]. split; [destruct (f_has_error fl); auto|]. split.
    + destruct (f_has_error fl); split; [done|by intros []|intros _; split; [done|split_and!; constructor]|done].
    + intros _. constructor; by rewrite orb_false_r.
  - apply Forall_cons in Hne as [Ht Hne]. rewrite (proj2 (Z.eqb_neq _ _) Ht). cbv zeta. fold (flag_char t).
    rewrite flags_pass_cons. destruct (Z.leb_spec 127 (flag_char t)) as [H127|H127]; simpl.
    { intros [= <- <- <- <-]. split; [by right|]. split; [|done]. split; [done|]. intros (_ & ? & _). lia. }
    case_bool_decide as Hseen.
    { intros [= <- <- <- <-]. split; [by right|]. split; [|done]. split; [done|]. intros (_ & _ & ? & _). done. }
    pose proof (meta_flag_ok pt now (flag_char t) (default [] (tk_value t)) (tk_length t) key fl e) as Hm.
    destruct (meta_flag _ _ _ _ _ _ _ _) as [[[key1 fl1] e1]|].
    2:{ intros [= <- <- <- <-]. split; [by right|]. split; [|done]. split; [done|]. intros (_ & _ & _ & Hk & _).
        apply existsb_elem in Hk. congruence. }
    destruct Hm as (Hk & Hsw & Herr & _ & _ & Hkey). intros Hrun.
    destruct (IH _ _ _ _ _ _ _ _ Hne Hlast Hrun) as (H1 & H2 & H3). split; [done|]. split; [|intros H0; by apply (all_switched_cons t ts fl fl1), H3].
    fold (flag_arg_ok key t) in Herr. rewrite H2, Herr, orb_false_iff, negb_false_iff.
    assert (Hb : key1 = key ∨ chr "b" ∈ flag_char t :: seen).
    { destruct (decide (flag_char t = chr "b")) as [<-|]; [right; set_solver|left; auto]. }
    apply existsb_elem in Hk. split.
    + intros ((A1 & A2) & A3). split_and!; try done. by apply (flags_pass_key_imp key key1).
    + intros (A1 & _ & _ & _ & A2 & A3). split_and!; try done. apply (flags_pass_key_imp key1 key); [|done].
      destruct Hb as [->|?]; auto.
Qed.


