(* ===== verification/Conn.v ===== *)
(** * Connections and responses ([memcached.c])

    A connection reads commands from its buffer and keeps the responses that wait
    to be sent. A response has a write buffer and a few [iovec] entries that point
    into it, to a literal, or into an item the response holds a reference to. *)

From Stdlib Require Import Ascii String SpecFloat.
From stdpp Require Import strings.
From S2P Require Import Prelude Itoa Util Base64 Hashes StatsPrefix State Slabs Items Store Tokens.

Definition WRITE_BUFFER_SIZE : Z := 1024.
Definition MC_RESP_IOVCOUNT : nat := 4.

(** What an [iovec] points to: the write buffer of its response, a literal (from
    the base on), the value of an item from an offset on, or a large item, whose
    [chunked_total] tells how much there was to send at first. *)
Inductive iov_base : Type :=
  | InWbuf (off : Z)
  | InText (b : list Z)
  | InItem (it off : Z)
  | InChunks (it chunked_total : Z).

Record iov : Type := mkIov { v_base : iov_base; v_len : Z }.
#[global] Instance iov_eta : Eta iov := λ r, mkIov (v_base r) (v_len r).

(** [chunked_data_iov] is the index of the entry that stands for a large item,
    0 if there is none: such an item is never the first entry. *)
Record mc_resp : Type := mkResp {
  rs_wbuf : list Z;
  rs_wbytes : Z;
  rs_tosend : Z;
  rs_iov : list iov;
  rs_chunked_data_iov : nat;
  rs_item : Z;
  rs_skip : bool
}.
#[global] Instance mc_resp_eta : Eta mc_resp := λ r,
  mkResp (rs_wbuf r) (rs_wbytes r) (rs_tosend r) (rs_iov r) (rs_chunked_data_iov r) (rs_item r) (rs_skip r).

Inductive conn_states : Type :=
  | conn_new_cmd | conn_waiting | conn_read | conn_parse_cmd | conn_nread | conn_swallow | conn_closing | conn_mwrite
  | conn_closed | conn_watch.

(** [k_resps] is the chain from [resp_head] to [resp]; [k_rbuf] are the [rbytes]
    unparsed bytes at [rcurr], [k_rcurr] is [rcurr - rbuf], and there is no buffer
    when [k_rsize] is 0; [k_ritem] is an address with an offset into the value
    there. [k_ev_write] tells for which event the connection is registered. The
    fields [set_stale] and [cas] are in [w_conn]. *)
Record conn : Type := mkConnection {
  k_state : conn_states;
  k_noreply : bool;
  k_resps : list mc_resp;
  k_item : Z;
  k_ritem : Z * Z;
  k_rlbytes : Z;
  k_sbytes : Z;
  k_cmd : option nread;
  k_mset_res : bool;
  k_rbuf : list Z;
  k_rcurr : Z;
  k_rsize : Z;
  k_rbuf_malloced : bool;
  k_ev_write : bool;
  k_last_cmd_time : Z;
  k_close_after_write : bool
}.
#[global] Instance connection_eta : Eta conn := λ r,
  mkConnection (k_state r) (k_noreply r) (k_resps r) (k_item r) (k_ritem r) (k_rlbytes r) (k_sbytes r) (k_cmd r) (k_mset_res r)
    (k_rbuf r) (k_rcurr r) (k_rsize r) (k_rbuf_malloced r) (k_ev_write r)
    (k_last_cmd_time r) (k_close_after_write r).

(** The counters of [struct thread_stats] that the commands touch, and two of the
    global statistics. *)
Record cmd_stats : Type := mkCmdStats {
  n_get_cmds : Z; n_get_misses : Z; n_touch_cmds : Z; n_touch_misses : Z; n_delete_misses : Z;
  n_incr_misses : Z; n_decr_misses : Z; n_flush_cmds : Z; n_meta_cmds : Z; n_store_too_large : Z; n_store_no_memory : Z;
  n_get_oom_extstore : Z; n_response_obj_oom : Z; n_response_obj_count : Z; n_conn_yields : Z;
  n_read_buf_oom : Z; n_malloc_fails : Z; n_curr_conns : Z;
  n_set_cmds : Z → Z; n_touch_hits : Z → Z; n_delete_hits : Z → Z; n_lru_hits : Z → Z
}.
#[global] Instance cmd_stats_eta : Eta cmd_stats := λ r,
  mkCmdStats (n_get_cmds r) (n_get_misses r) (n_touch_cmds r) (n_touch_misses r) (n_delete_misses r) (n_incr_misses r)
    (n_decr_misses r) (n_flush_cmds r) (n_meta_cmds r) (n_store_too_large r) (n_store_no_memory r) (n_get_oom_extstore r)
    (n_response_obj_oom r) (n_response_obj_count r) (n_conn_yields r) (n_read_buf_oom r) (n_malloc_fails r) (n_curr_conns r)
    (n_set_cmds r) (n_touch_hits r) (n_delete_hits r) (n_lru_hits r).

(** Settings of the protocol, and [process_started]. *)
Record proto_settings : Type := mkProto {
  g_process_started : Z;
  g_meta_response_old : bool;
  g_detail_enabled : bool;
  g_flush_enabled : bool;
  g_verbose : Z;
  g_lru_maintainer_thread : bool;
  g_slab_automove_ratio : spec_float
}.
#[global] Instance proto_settings_eta : Eta proto_settings := λ r,
  mkProto (g_process_started r) (g_meta_response_old r) (g_detail_enabled r) (g_flush_enabled r) (g_verbose r)
    (g_lru_maintainer_thread r) (g_slab_automove_ratio r).

(** A worker's view. [z_mem] tells which of the coming small allocations
    (responses, prefix entries) succeed; all do when it runs out. *)
Record session : Type := mkSession {
  z_world : world;
  z_conn : conn;
  z_stats : cmd_stats;
  z_settings : proto_settings;
  z_prefixes : prefixes;
  z_mem : list bool
}.
#[global] Instance session_eta : Eta session := λ r,
  mkSession (z_world r) (z_conn r) (z_stats r) (z_settings r) (z_prefixes r) (z_mem r).

(** An operation on the cache. *)
Definition W {A} (m : M world A) : M session A := λ z,
  match m (z_world z) with
  | Some (a, s) => Some (a, z <| z_world := s |>)
  | None => None
  end.

Definition on_conn (f : conn → conn) : M session unit := modify (λ z, z <| z_conn := f (z_conn z) |>).
Definition on_cmd_stats (f : cmd_stats → cmd_stats) : M session unit := modify (λ z, z <| z_stats := f (z_stats z) |>).
Definition conn_set_state (st : conn_states) : M session unit := on_conn (λ c, c <| k_state := st |>).

Definition mem_next : M session bool := λ z,
  match z_mem z with
  | [] => Some (true, z)
  | b :: r => Some (b, z <| z_mem := r |>)
  end.

(** [c->resp], the last of the chain; undefined if there is none. *)
Definition cur_resp : M session mc_resp := λ z,
  match last (k_resps (z_conn z)) with Some r => Some (r, z) | None => None end.

Definition set_last {A} (l : list A) (x : A) : list A := take (pred (length l)) l ++ [x].

Definition on_resp (f : mc_resp → mc_resp) : M session unit :=
  r ← cur_resp;
  on_conn (λ c, c <| k_resps := set_last (k_resps c) (f r) |>).

Section Conn.
Context {HF : HashFn}.

(** ** Response objects *)

Definition fresh_resp : mc_resp := mkResp (replicate (Z.to_nat WRITE_BUFFER_SIZE) 0) 0 0 [] 0 NULL false.

Definition resp_start : M session bool :=
  ok ← mem_next;
  if negb (ok : bool) then
    on_cmd_stats (λ n, n <| n_response_obj_oom := u64 (n_response_obj_oom n + 1) |>) ;; mret false
  else
    on_cmd_stats (λ n, n <| n_response_obj_count := u64 (n_response_obj_count n + 1) |>) ;;
    on_conn (λ c, c <| k_resps := k_resps c ++ [fresh_resp] |>) ;;
    mret true.

(** The first response of the chain goes. *)
Definition resp_finish : M session unit :=
  l ← gets (λ z, k_resps (z_conn z));
  match l with
  | [] => undefined
  | r :: rest =>
      (if rs_item r =? NULL then mret tt else W (item_remove (rs_item r))) ;;
      on_conn (λ c, c <| k_resps := rest |>) ;;
      on_cmd_stats (λ n, n <| n_response_obj_count := u64 (n_response_obj_count n - 1) |>)
  end.

Definition resp_reset : M session unit :=
  r ← cur_resp;
  (if rs_item r =? NULL then mret tt else W (item_remove (rs_item r))) ;;
  on_resp (λ r, r <| rs_item := NULL |> <| rs_wbytes := 0 |> <| rs_tosend := 0 |> <| rs_iov := [] |>
                  <| rs_chunked_data_iov := 0%nat |> <| rs_skip := false |>).

Definition resp_add_iov (b : iov_base) (len : Z) : M session unit :=
  r ← cur_resp;
  c_assert (length (rs_iov r) <? MC_RESP_IOVCOUNT)%nat ;;
  on_resp (λ r, r <| rs_iov := rs_iov r ++ [mkIov b len] |> <| rs_tosend := s32 (rs_tosend r + len) |>).

Definition resp_add_chunked_iov (it len : Z) : M session unit :=
  on_resp (λ r, r <| rs_chunked_data_iov := length (rs_iov r) |>) ;;
  resp_add_iov (InChunks it len) len.

(** [memcpy(resp->wbuf + p, b, n)], which must stay inside the buffer; the result
    is the place behind it. *)
Definition put (p : Z) (b : list Z) : M session Z :=
  if (0 <=? p) && (p + Z.of_nat (length b) <=? WRITE_BUFFER_SIZE)
  then on_resp (λ r, r <| rs_wbuf := blit p b (rs_wbuf r) |>) ;; mret (p + Z.of_nat (length b))
  else undefined.

(** [itoa_u32(v, p)] and [itoa_u64(v, p)] into the write buffer. *)
Definition put_u32 (p v : Z) : M session Z := put p (itoa_u32 v []).
Definition put_u64 (p v : Z) : M session Z :=
  match itoa_u64 v [] with Some b => put p b | None => undefined end.

Definition out_string (str : list Z) : M session unit :=
  resp_reset ;;
  c ← gets z_conn;
  if k_noreply c then
    on_resp (λ r, r <| rs_skip := true |>) ;;
    conn_set_state conn_new_cmd
  else
    let str := if WRITE_BUFFER_SIZE <? Z.of_nat (length str) + 2 then txt "SERVER_ERROR output line too long" else str in
    put 0 str ;;
    put (Z.of_nat (length str)) [13; 10] ;;
    resp_add_iov (InWbuf 0) (Z.of_nat (length str) + 2) ;;
    conn_set_state conn_new_cmd.

Definition out_errstring (str : list Z) : M session unit :=
  on_conn (λ c, c <| k_noreply := false |>) ;; out_string str.

(** For text connections. *)
Definition out_of_memory (ascii_error : list Z) : M session unit := out_string ascii_error.

(** Every response of the chain goes, and the item being uploaded. *)
Fixpoint finish_all (n : nat) : M session unit :=
  match n with
  | O => mret tt
  | S n => resp_finish ;; finish_all n
  end.

Definition conn_release_items : M session unit :=
  c ← gets z_conn;
  (if k_item c =? NULL then mret tt
   else W (item_remove (k_item c)) ;; on_conn (λ c, c <| k_item := NULL |>)) ;;
  finish_all (length (k_resps c)).

(** ** What a response sends *)

(** The bytes of a large item from the chunk [ch] on. *)
Fixpoint chunk_bytes (fuel : nat) (h : gmap Z item) (ch : Z) : list Z :=
  match fuel with
  | O => []
  | S fuel =>
      match h !! ch with
      | Some c => take (Z.to_nat (ch_used c)) (i_data c) ++ chunk_bytes fuel h (i_next c)
      | None => []
      end
  end.

(** A chain is at most as long as there are objects. *)
Definition item_chunks (h : gmap Z item) (it : Z) : list Z :=
  match h !! it with
  | Some x => chunk_bytes (size h) h (ITEM_schunk it x)
  | None => []
  end.

Definition iov_bytes (h : gmap Z item) (r : mc_resp) (v : iov) : list Z :=
  match v_base v with
  | InWbuf off => slice off (v_len v) (rs_wbuf r)
  | InText b => take (Z.to_nat (v_len v)) b
  | InItem it off => match h !! it with Some x => slice off (v_len v) (i_data x) | None => [] end
  | InChunks it total => slice (total - v_len v) (v_len v) (item_chunks h it)
  end.

Definition resp_bytes (h : gmap Z item) (r : mc_resp) : list Z :=
  if rs_skip r then [] else concat (iov_bytes h r <$> rs_iov r).

(** Everything that waits to be sent. *)
Definition chain_bytes (h : gmap Z item) (l : list mc_resp) : list Z := concat (resp_bytes h <$> l).

End Conn.
