(* ===== verification/ProtoText.v ===== *)
(** * The text protocol ([proto_text.c])

    The classic commands and the meta commands, as operations on a session. What
    is read from the external store for an item that lives there is a parameter:
    [storage_get_item it] prepares the response and returns 0, or fails. *)

From Stdlib Require Import Ascii String.
From stdpp Require Import strings.
From S2P Require Import Prelude Itoa Util Base64 Hashes StatsPrefix State Assoc Slabs Items Store Tokens Conn.

#[global] Instance nread_eq_dec : EqDecision nread.
Proof. solve_decision. Defined.

Section ProtoText.
Context {HF : HashFn}.
Variable storage_get_item : Z → M session Z.

(** The bytes in memory after a stored number, which its parser may look at. *)
Variable past : list Z.

Definition bad_format : list Z := txt "CLIENT_ERROR bad command line format".

(** [tokens[i].value] used as a string: a read through [NULL] is undefined. *)
Definition tok (tokens : list token_t) (i : nat) : M session (list Z) :=
  match tvalue tokens i with Some v => mret v | None => undefined end.
Definition tok_length (tokens : list token_t) (i : nat) : M session Z :=
  match tlength tokens i with Some n => mret n | None => undefined end.

(** The key, of the length its token has. *)
Definition tok_key (tokens : list token_t) : M session (list Z) :=
  match tokens !! KEY_TOKEN with Some t => mret (token_bytes t) | None => undefined end.

Definition ntok (tokens : list token_t) : Z := Z.of_nat (length tokens).

Definition incr_stat (f : cmd_stats → Z) (set : Z → cmd_stats → cmd_stats) : M session unit :=
  on_cmd_stats (λ n, set (u64 (f n + 1)) n).

Definition set_noreply_maybe (tokens : list token_t) : M session bool :=
  when (match tvalue tokens (length tokens - 2) with Some v => streq v (txt "noreply") | None => false end)
    (on_conn (λ c, c <| k_noreply := true |>)) ;;
  gets (λ z, k_noreply (z_conn z)).

(** [realtime(EXPTIME_TO_POSITIVE_TIME(x))] *)
Definition exptime_of (x : Z) : M session Z :=
  gets (λ z, realtime (g_process_started (z_settings z)) (w_current_time (z_world z)) (EXPTIME_TO_POSITIVE_TIME x)).

Definition record_prefix (f : bool → bool → prefixes → prefixes) : M session unit :=
  z ← get_state;
  when (g_detail_enabled (z_settings z))
    (m1 ← mem_next; m2 ← mem_next; modify (λ z, z <| z_prefixes := f m1 m2 (z_prefixes z) |>)).

(** ** get, gets, gat, gats *)

(** From [suffix] on; the result is the place behind it. *)
Definition make_ascii_get_suffix (p : Z) (x : item) (return_cas : bool) (nbytes : Z) : M session Z :=
  p ← put p [32];
  p ← (if flag (i_it_flags x) ITEM_CFLAGS then put_u32 p (i_cflags x) else put p [48]);
  p ← put p [32];
  p ← put_u32 p (u32 (nbytes - 2));
  p ← (if return_cas then q ← put p [32]; put_u64 q (ITEM_get_cas x) else mret p);
  q ← put p [13; 10; 0];
  mret (p + 2).

(** The value of an item joins the response; [false] if it could not be fetched. *)
Definition add_value (it : Z) (x : item) : M session bool :=
  if flag (i_it_flags x) ITEM_HDR then
    r ← storage_get_item it; mret (r =? 0)
  else if negb (flag (i_it_flags x) ITEM_CHUNKED) then resp_add_iov (InItem it 0) (i_nbytes x) ;; mret true
  else resp_add_chunked_iov it (i_nbytes x) ;; mret true.

Definition count_hit (x : item) (touch : bool) : M session unit :=
  if touch then
    on_cmd_stats (λ n, n <| n_touch_cmds := u64 (n_touch_cmds n + 1) |>
      <| n_touch_hits := upd (n_touch_hits n) (ITEM_clsid x) (u64 (n_touch_hits n (ITEM_clsid x) + 1)) |>)
  else
    on_cmd_stats (λ n, n <| n_lru_hits := upd (n_lru_hits n) (i_slabs_clsid x) (u64 (n_lru_hits n (i_slabs_clsid x) + 1)) |>
      <| n_get_cmds := u64 (n_get_cmds n + 1) |>).

Definition count_miss (touch : bool) : M session unit :=
  if touch then
    on_cmd_stats (λ n, n <| n_touch_cmds := u64 (n_touch_cmds n + 1) |> <| n_touch_misses := u64 (n_touch_misses n + 1) |>)
  else
    on_cmd_stats (λ n, n <| n_get_misses := u64 (n_get_misses n + 1) |> <| n_get_cmds := u64 (n_get_cmds n + 1) |>).

(** One key; [false] to stop. *)
Definition get_one (key : list Z) (exptime : Z) (return_cas should_touch : bool) : M session bool :=
  let nkey := Z.of_nat (length key) in
  r ← W (limited_get key nkey exptime should_touch true);
  let it := r.1 in
  record_prefix (stats_prefix_record_get key (negb (it =? NULL))) ;;
  if negb (it =? NULL) then
    x ← W (load it);
    p ← put 0 (txt "VALUE ");
    p ← put p (ITEM_key x);
    p ← make_ascii_get_suffix p x return_cas (i_nbytes x);
    resp_add_iov (InWbuf 0) p ;;
    ok ← add_value it x;
    if negb (ok : bool) then
      incr_stat n_get_oom_extstore (λ v n, n <| n_get_oom_extstore := v |>) ;;
      W (item_remove it) ;;
      mret false
    else
      x ← W (load it);
      count_hit x should_touch ;;
      when (negb (flag (i_it_flags x) ITEM_HDR)) (on_resp (λ r, r <| rs_item := it |>)) ;;
      mret true
  else count_miss should_touch ;; mret true.

(** How the loop over the tokens ended: at the terminal token, or at [stop]. *)
Inductive get_end : Type := GetTerminal (t : token_t) | GetStop (fail_length : bool).

Fixpoint get_keys (ts : list token_t) (exptime : Z) (return_cas should_touch : bool) : M session get_end :=
  match ts with
  | [] => undefined
  | t :: ts =>
      if tk_length t =? 0 then mret (GetTerminal t)
      else if KEY_MAX_LENGTH <? tk_length t then mret (GetStop true)
      else
        ok ← get_one (token_bytes t) exptime return_cas should_touch;
        if negb (ok : bool) then mret (GetStop false)
        else if negb (match ts with t' :: _ => tk_length t' =? 0 | [] => true end) then
          started ← resp_start;
          if (started : bool) then get_keys ts exptime return_cas should_touch else mret (GetStop false)
        else get_keys ts exptime return_cas should_touch
  end.

(** The [do ... while]: the rest of a long line is cut into tokens again. The
    result tells whether [stop] was reached with a token at hand. *)
Fixpoint get_lines (fuel : nat) (ts : list token_t) (exptime : Z) (return_cas should_touch : bool) : M session (option bool) :=
  match fuel with
  | O => undefined
  | S fuel =>
      e ← get_keys ts exptime return_cas should_touch;
      match e with
      | GetStop fl => mret (Some fl)
      | GetTerminal t =>
          match tk_value t with
          | None => mret None
          | Some rest =>
              let ts := tokenize_command rest MAX_TOKENS in
              let more := match ts with t :: _ => bool_decide (is_Some (tk_value t)) | [] => false end in
              started ← resp_start;
              if negb (started : bool) then mret (if more then Some false else None)
              else if more then get_lines fuel ts exptime return_cas should_touch else mret None
          end
      end
  end.

Definition process_get_command (tokens : list token_t) (return_cas should_touch : bool) : M session unit :=
  r ← (if should_touch then v ← tok tokens 1; mret (safe_strtol v) else mret (Some 0));
  match r with
  | None => out_string (txt "CLIENT_ERROR invalid exptime argument")
  | Some exptime_int =>
      exptime ← (if should_touch then exptime_of exptime_int else mret 0);
      let ts := drop (if should_touch then 2 else KEY_TOKEN) tokens in
      let fuel := S (match list.last tokens with Some t => length (default [] (tk_value t)) | None => 0 end) in
      stop ← get_lines fuel ts exptime return_cas should_touch;
      match stop with
      | Some fail_length =>
          conn_release_items ;;
          started ← resp_start;
          if negb (started : bool) then conn_set_state conn_closing
          else if (fail_length : bool) then out_string bad_format
          else out_of_memory (txt "SERVER_ERROR out of memory writing get response")
      | None =>
          resp_add_iov (InText (txt "END" ++ [13; 10])) 5 ;;
          conn_set_state conn_mwrite
      end
  end.

(** ** touch, delete, incr and decr *)

(** [tokens[KEY_TOKEN].length > KEY_MAX_LENGTH] *)
Definition key_too_long (tokens : list token_t) : M session bool :=
  n ← tok_length tokens KEY_TOKEN; mret (KEY_MAX_LENGTH <? n).

Definition process_touch_command (tokens : list token_t) : M session unit :=
  set_noreply_maybe tokens ;;
  long ← key_too_long tokens;
  if (long : bool) then out_string bad_format
  else
    key ← tok_key tokens;
    v ← tok tokens 2;
    match safe_strtol v with
    | None => out_string (txt "CLIENT_ERROR invalid exptime argument")
    | Some exptime_int =>
        exptime ← exptime_of exptime_int;
        it ← W (item_touch key (Z.of_nat (length key)) exptime);
        if negb (it =? NULL) then
          x ← W (load it);
          count_hit x true ;;
          out_string (txt "TOUCHED") ;;
          W (item_remove it)
        else
          count_miss true ;;
          out_string (txt "NOT_FOUND")
    end.

Definition process_delete_command (tokens : list token_t) : M session unit :=
  valid ←
    (if 3 <? ntok tokens then
       v ← tok tokens (S KEY_TOKEN);
       let hold_is_zero := streq v (txt "0") in
       sets_noreply ← set_noreply_maybe tokens;
       mret ((ntok tokens =? 4) && (hold_is_zero || sets_noreply) || (ntok tokens =? 5) && hold_is_zero && sets_noreply)
     else mret true);
  if negb (valid : bool) then out_string (txt "CLIENT_ERROR bad command line format.  Usage: delete <key> [noreply]")
  else
    long ← key_too_long tokens;
    if (long : bool) then out_string bad_format
    else
      key ← tok_key tokens;
      record_prefix (stats_prefix_record_delete key) ;;
      r ← W (item_get_locked key (Z.of_nat (length key)) false);
      let '(it, hv) := r in
      (if negb (it =? NULL) then
         x ← W (load it);
         on_cmd_stats (λ n, n <| n_delete_hits := upd (n_delete_hits n) (ITEM_clsid x) (u64 (n_delete_hits n (ITEM_clsid x) + 1)) |>) ;;
         W (do_item_unlink it hv ;; storage_delete it ;; do_item_remove it) ;;
         out_string (txt "DELETED")
       else
         incr_stat n_delete_misses (λ v n, n <| n_delete_misses := v |>) ;;
         out_string (txt "NOT_FOUND")) ;;
      W (item_unlock hv).

Definition count_delta_miss (incr : bool) : M session unit :=
  if incr then incr_stat n_incr_misses (λ v n, n <| n_incr_misses := v |>)
  else incr_stat n_decr_misses (λ v n, n <| n_decr_misses := v |>).

Definition process_arithmetic_command (tokens : list token_t) (incr : bool) : M session unit :=
  set_noreply_maybe tokens ;;
  long ← key_too_long tokens;
  if (long : bool) then out_string bad_format
  else
    key ← tok_key tokens;
    v ← tok tokens 2;
    match safe_strtoull v with
    | None => out_string (txt "CLIENT_ERROR invalid numeric delta argument")
    | Some delta =>
        a ← W (add_delta key (Z.of_nat (length key)) incr delta None past);
        match da_result a with
        | OK => out_string (da_buf a)
        | NON_NUMERIC => out_string (txt "CLIENT_ERROR cannot increment or decrement non-numeric value")
        | EOM => out_of_memory (txt "SERVER_ERROR out of memory")
        | DELTA_ITEM_NOT_FOUND => count_delta_miss incr ;; out_string (txt "NOT_FOUND")
        | DELTA_ITEM_CAS_MISMATCH => mret tt
        end
    end.

(** ** set, add, replace, append, prepend, cas *)

Definition INT_MAX : Z := 2 ^ 31 - 1.

(** The item could not be allocated: what to answer. *)
Definition alloc_failed (nkey flags vlen : Z) (answer : list Z → M session unit) : M session unit :=
  ok ← W (item_size_ok nkey flags vlen);
  if negb (ok : bool) then
    answer (txt "SERVER_ERROR object too large for cache") ;;
    incr_stat n_store_too_large (λ v n, n <| n_store_too_large := v |>)
  else
    answer (txt "SERVER_ERROR out of memory storing object") ;;
    incr_stat n_store_no_memory (λ v n, n <| n_store_no_memory := v |>).

(** The connection goes on to read the value into the item: [ITEM_data(it)] is
    also the place of the first chunk of a large item. *)
Definition expect_value (it : Z) (comm : nread) : M session unit :=
  x ← W (load it);
  on_conn (λ c, c <| k_item := it |> <| k_ritem := (if flag (i_it_flags x) ITEM_CHUNKED then (ITEM_schunk it x, 0) else (it, 0)) |> <| k_rlbytes := i_nbytes x |> <| k_cmd := Some comm |>).

Definition process_update_command (tokens : list token_t) (comm : nread) (handle_cas : bool) : M session unit :=
  set_noreply_maybe tokens ;;
  long ← key_too_long tokens;
  if (long : bool) then out_string bad_format
  else
    key ← tok_key tokens;
    let nkey := Z.of_nat (length key) in
    v2 ← tok tokens 2;
    v3 ← tok tokens 3;
    v4 ← tok tokens 4;
    match safe_strtoul v2, safe_strtol v3, safe_strtol v4 with
    | Some flags, Some exptime_int, Some vlen =>
        exptime ← exptime_of exptime_int;
        cas ← (if handle_cas then v5 ← tok tokens 5; mret (safe_strtoull v5) else mret (Some 0));
        match cas with
        | None => out_string bad_format
        | Some req_cas_id =>
            if (vlen <? 0) || (INT_MAX - 2 <? vlen) then out_string bad_format
            else
              let vlen := vlen + 2 in
              record_prefix (stats_prefix_record_set key) ;;
              it ← W (item_alloc key nkey flags exptime vlen);
              if it =? NULL then
                alloc_failed nkey flags vlen out_string ;;
                conn_set_state conn_swallow ;;
                on_conn (λ c, c <| k_sbytes := vlen |>) ;;
                match comm with
                | NREAD_SET =>
                    old ← W (item_get key nkey false);
                    if negb (old =? NULL) then W (item_unlink old ;; storage_delete old ;; item_remove old) else mret tt
                | _ => mret tt
                end
              else
                W (wr it (ITEM_set_cas req_cas_id)) ;;
                expect_value it comm ;;
                conn_set_state conn_nread
        end
    | _, _, _ => out_string bad_format
    end.

(** ** Parts of meta responses *)

Definition META_SPACE (p : Z) : M session Z := put p [32].
Definition META_CHAR (p : Z) (c : ascii) : M session Z := put p [32; chr c].

(** The key, as it is or in base64 with the flag [b] behind it. *)
Definition META_KEY (p : Z) (key : list Z) (bin : bool) : M session Z :=
  p ← META_CHAR p "k";
  if negb bin then put p key
  else
    let '(n, out) := base64_encode key (WRITE_BUFFER_SIZE / 2) in
    put p out ;; put (p + n) [32; chr "b"].

(** The opaque token, copied; [None] when it is too long. *)
Definition put_opaque (p : Z) (t : token_t) : M session (option Z) :=
  if MFLAG_MAX_OPAQUE_LENGTH <? tk_length t then mret None
  else p ← META_SPACE p; q ← put p (token_bytes t); mret (Some q).

Definition opaque_too_long : list Z := txt "CLIENT_ERROR opaque token too long".

(** "OK" in the old style, "HD" else. *)
Definition ok_code : M session (list Z) :=
  o ← gets z_settings; mret (if g_meta_response_old o then txt "OK" else txt "HD").

(** The time to live: [-1] for none. *)
Definition put_ttl (p : Z) (x : item) : M session Z :=
  now ← gets (λ z, w_current_time (z_world z));
  if i_exptime x =? 0 then put p (txt "-1") else put_u32 p (u32 (i_exptime x - now)).

(** The character a flag token starts with. *)
Definition flag_of (t : token_t) : Z := at_ (default [] (tk_value t)) 0.

(** The flags: [tokens[KEY_TOKEN+1]] up to [tokens[ntokens-2]]. *)
Definition flag_tokens (tokens : list token_t) : list token_t := drop (S KEY_TOKEN) (take (length tokens - 1) tokens).

Definition too_many_flags (tokens : list token_t) : bool := MFLAG_MAX_OPT_LENGTH <? ntok tokens.

(** [_meta_flag_preparse] with the globals it reads. *)
Definition preparse (tokens : list token_t) (start : nat) (fl : meta_flags) : M session (Z * list token_t * meta_flags * list Z) :=
  gets (λ z, _meta_flag_preparse (g_process_started (z_settings z)) (w_current_time (z_world z)) tokens start fl bad_format).

Definition set_noreply (b : bool) : M session unit := on_conn (λ c, c <| k_noreply := b |>).

(** The response is not sent when the client asked for quiet. *)
Definition skip_if_noreply : M session unit :=
  c ← gets z_conn; when (k_noreply c) (on_resp (λ r, r <| rs_skip := true |>)).

(** ** mg *)

(** One flag of an item that was found. [None]: the opaque token is too long. *)
Definition mget_flag (it : Z) (fl : meta_flags) (item_created : bool) (t : token_t) (st : Z * bool * bool) :
    M session (option (Z * bool * bool)) :=
  let '(p, ttl_set, won_token) := st in
  x ← W (load it);
  now ← gets (λ z, w_current_time (z_world z));
  let o := flag_of t in
  let next (m : M session Z) : M session (option (Z * bool * bool)) := q ← m; mret (Some (q, ttl_set, won_token)) in
  if o =? chr "T" then W (wr it (λ x, x <| i_exptime := f_exptime fl |>)) ;; mret (Some (p, true, won_token))
  else if o =? chr "N" then
    if item_created then
      W (wr it (λ x, x <| i_exptime := f_autoviv_exptime fl |>)) ;; mret (Some (p, ttl_set, true))
    else mret (Some st)
  else if o =? chr "R" then
    if negb (flag (i_it_flags x) ITEM_TOKEN_SENT) && negb item_created && negb (i_exptime x =? 0) && (i_exptime x <? f_recache_time fl)
    then mret (Some (p, ttl_set, true)) else mret (Some st)
  else if o =? chr "s" then next (q ← META_CHAR p "s"; put_u32 q (u32 (i_nbytes x - 2)))
  else if o =? chr "t" then next (q ← META_CHAR p "t"; put_ttl q x)
  else if o =? chr "c" then next (q ← META_CHAR p "c"; put_u64 q (ITEM_get_cas x))
  else if o =? chr "f" then
    next (q ← META_CHAR p "f"; if flag (i_it_flags x) ITEM_CFLAGS then put_u32 q (i_cflags x) else put q [48])
  else if o =? chr "l" then next (q ← META_CHAR p "l"; put_u32 q (u32 (now - i_time x)))
  else if o =? chr "h" then next (q ← META_CHAR p "h"; put q [if flag (i_it_flags x) ITEM_FETCHED then 49 else 48])
  else if o =? chr "O" then
    r ← put_opaque p t;
    match r with None => mret None | Some q => mret (Some (q, ttl_set, won_token)) end
  else if o =? chr "k" then next (META_KEY p (ITEM_key x) (flag (i_it_flags x) ITEM_KEY_BINARY))
  else mret (Some st).

Fixpoint mget_flags (it : Z) (fl : meta_flags) (item_created : bool) (ts : list token_t) (st : Z * bool * bool) :
    M session (option (Z * bool * bool)) :=
  match ts with
  | [] => mret (Some st)
  | t :: ts =>
      r ← mget_flag it fl item_created t st;
      match r with None => mret None | Some st => mget_flags it fl item_created ts st end
  end.

(** The [Z], [X] and [W] marks and the end of the line. *)
Definition mget_marks (it p : Z) (won_token : bool) : M session Z :=
  x ← W (load it);
  p ← (if flag (i_it_flags x) ITEM_TOKEN_SENT then META_CHAR p "Z" else mret p);
  p ← (if flag (i_it_flags x) ITEM_STALE then META_CHAR p "X" else mret p);
  let won_token := won_token || flag (i_it_flags x) ITEM_STALE && negb (flag (i_it_flags x) ITEM_TOKEN_SENT) in
  p ← (if won_token then
         q ← META_CHAR p "W";
         W (wr it (λ x, x <| i_it_flags := Z.lor (i_it_flags x) ITEM_TOKEN_SENT |>)) ;; mret q
       else mret p);
  put p [13; 10; 0] ;;
  mret (p + 2).

(** The response for an item: [None] for the error exit, else whether the value
    could be added and whether the time to live was set. *)
Definition mget_found (it : Z) (fl : meta_flags) (item_created : bool) (tokens : list token_t) : M session (option (bool * bool)) :=
  x ← W (load it);
  p ← (if f_value fl then q ← put 0 (txt "VA "); put_u32 q (u32 (i_nbytes x - 2)) else code ← ok_code; put 0 code);
  r ← mget_flags it fl item_created (flag_tokens tokens) (p, false, false);
  match r with
  | None => mret None
  | Some (p, ttl_set, won_token) =>
      p ← mget_marks it p won_token;
      resp_add_iov (InWbuf 0) p ;;
      x ← W (load it);
      failed ← (if f_value fl then
                  ok ← add_value it x;
                  if negb (ok : bool) then
                    incr_stat n_get_oom_extstore (λ v n, n <| n_get_oom_extstore := v |>) ;; mret true
                  else mret false
                else mret false);
      (if negb (failed : bool) then
         if flag (i_it_flags x) ITEM_HDR && f_value fl then on_resp (λ r, r <| rs_item := NULL |>)
         else on_resp (λ r, r <| rs_item := it |>)
       else if f_locked fl then W (do_item_remove it) else W (item_remove it)) ;;
      mret (Some (failed, ttl_set))
  end.

(** A missing item is created, empty. *)
Definition mget_vivify (key : list Z) (hv : Z) : M session Z :=
  exptime ← gets (λ z, realtime (g_process_started (z_settings z)) (w_current_time (z_world z)) 0);
  it ← W (item_alloc key (Z.of_nat (length key)) 0 exptime 2);
  (if negb (it =? NULL) then W (data_write it 0 [13; 10] ;; do_item_link it hv ;; mret tt) else mret tt) ;;
  mret it.

Definition process_mget_command (tokens : list token_t) : M session unit :=
  if ntok tokens <? 3 then out_string (txt "ERROR")
  else
    long ← key_too_long tokens;
    if (long : bool) then out_errstring bad_format
    else if ntok tokens =? 3 then out_errstring bad_format
    else if too_many_flags tokens then out_errstring (txt "CLIENT_ERROR options flags are too long")
    else
      r ← preparse tokens 2 no_flags;
      let '(ret, tokens, fl, errstr) := r in
      if negb (ret =? 0) then out_errstring errstr
      else
        set_noreply (f_no_reply fl) ;;
        key ← tok_key tokens;
        let nkey := Z.of_nat (length key) in
        g ← (if negb (f_locked fl) then
               g ← W (limited_get key nkey 0 false (negb (f_no_update fl))); mret (g.1, 0, g.2)
             else W (limited_get_locked key nkey false));
        let '(it, hv, overflow) := g in
        if (overflow : bool) then out_errstring (txt "SERVER_ERROR refcount overflow during fetch")
        else
          v ← (if (it =? NULL) && f_vivify fl then it ← mget_vivify key hv; mret (it, negb (it =? NULL)) else mret (it, false));
          let '(it, item_created) := v in
          f ← (if negb (it =? NULL) then mget_found it fl item_created tokens else mret (Some (true, false)));
          match f with
          | None =>
              (if negb (it =? NULL) then W (do_item_remove it) ;; when (f_locked fl) (W (item_unlock hv)) else mret tt) ;;
              out_errstring opaque_too_long
          | Some (failed, ttl_set) =>
              when (f_locked fl)
                (when (negb (f_no_update fl) && negb (it =? NULL)) (W (do_item_bump it hv)) ;;
                 W (item_unlock hv)) ;;
              if negb (failed : bool) then
                x ← W (load it);
                count_hit x ttl_set ;;
                conn_set_state conn_new_cmd
              else
                count_miss ttl_set ;;
                out_string (txt "EN")
          end.

(** ** ms *)

(** The flags to answer later are noted in the write buffer. [None] if the opaque
    token is too long; the loop goes on after it. *)
Fixpoint mset_flags (ts : list token_t) (p : Z) (has_error : bool) : M session (Z * bool) :=
  match ts with
  | [] => mret (p, has_error)
  | t :: ts =>
      let o := flag_of t in
      if o =? chr "O" then
        r ← put_opaque p t;
        match r with None => mset_flags ts p true | Some q => mset_flags ts q has_error end
      else if o =? chr "k" then q ← META_CHAR p "k"; mset_flags ts q has_error
      else if o =? chr "c" then q ← META_CHAR p "c"; mset_flags ts q has_error
      else mset_flags ts p has_error
  end.

(** The mode character; [None] if there is no such mode. *)
Definition mset_mode (mode : Z) : option nread :=
  if mode =? 0 then Some NREAD_SET
  else if mode =? chr "E" then Some NREAD_ADD
  else if mode =? chr "A" then Some NREAD_APPEND
  else if mode =? chr "P" then Some NREAD_PREPEND
  else if mode =? chr "R" then Some NREAD_REPLACE
  else if mode =? chr "S" then Some NREAD_SET else None.

Definition mset_comm (fl : meta_flags) (comm : nread) : nread :=
  match comm with
  | NREAD_SET | NREAD_REPLACE => if f_has_cas fl then NREAD_CAS else comm
  | _ => comm
  end.

(** The [error] exit. *)
Definition mset_error (vlen : Z) (errstr : list Z) : M session unit :=
  on_conn (λ c, c <| k_sbytes := vlen |>) ;;
  out_errstring errstr ;;
  conn_set_state conn_swallow.

(** An item that could not be replaced is removed. *)
Definition mset_drop_old (key : list Z) : M session unit :=
  r ← W (item_get_locked key (Z.of_nat (length key)) false);
  let '(it, hv) := r in
  (if negb (it =? NULL) then W (do_item_unlink it hv ;; storage_delete it ;; do_item_remove it) else mret tt) ;;
  W (item_unlock hv).

Definition process_mset_command (tokens : list token_t) : M session unit :=
  if ntok tokens <? 3 then out_string (txt "ERROR")
  else
    long ← key_too_long tokens;
    if (long : bool) then out_errstring bad_format
    else if ntok tokens =? 3 then out_errstring bad_format
    else if too_many_flags tokens then out_errstring (txt "CLIENT_ERROR options flags too long")
    else
      v ← tok tokens (S KEY_TOKEN);
      match safe_strtol v with
      | None => out_errstring bad_format
      | Some vlen =>
          if (vlen <? 0) || (INT_MAX - 2 <? vlen) then out_errstring bad_format
          else
            let vlen := vlen + 2 in
            r ← preparse tokens 3 no_flags;
            let '(ret, tokens, fl, errstr) := r in
            if negb (ret =? 0) then mset_error vlen errstr
            else
              key ← tok_key tokens;
              set_noreply (f_no_reply fl) ;;
              W (modify (λ s, s <| w_conn := (w_conn s) <| c_cas := 0 |> |>)) ;;
              r ← mset_flags (flag_tokens tokens) 0 false;
              let '(p, has_error) := r in
              match mset_mode (f_mode fl) with
              | None => mset_error vlen (txt "CLIENT_ERROR invalid mode for ms M token")
              | Some comm =>
                  let comm := mset_comm fl comm in
                  if (has_error : bool) then mset_error vlen opaque_too_long
                  else
                    it ← W (item_alloc key (Z.of_nat (length key)) (f_client_flags fl) (f_exptime fl) vlen);
                    if it =? NULL then
                      ok ← W (item_size_ok (Z.of_nat (length key)) (f_client_flags fl) vlen);
                      (if negb (ok : bool) then incr_stat n_store_too_large (λ v n, n <| n_store_too_large := v |>)
                       else incr_stat n_store_no_memory (λ v n, n <| n_store_no_memory := v |>)) ;;
                      mset_drop_old key ;;
                      mset_error vlen (if negb ok then txt "SERVER_ERROR object too large for cache"
                                       else txt "SERVER_ERROR out of memory storing object")
                    else
                      W (wr it (ITEM_set_cas (f_req_cas_id fl))) ;;
                      expect_value it comm ;;
                      when (f_key_binary fl) (W (wr it (λ x, x <| i_it_flags := Z.lor (i_it_flags x) ITEM_KEY_BINARY |>))) ;;
                      when (f_set_stale fl && bool_decide (comm = NREAD_CAS))
                        (W (modify (λ s, s <| w_conn := (w_conn s) <| c_set_stale := true |> |>))) ;;
                      on_resp (λ r, r <| rs_wbytes := p |>) ;;
                      on_conn (λ c, c <| k_mset_res := true |>) ;;
                      conn_set_state conn_nread
              end
      end.

(** ** md *)

(** The opaque token and the key; [None] if the opaque token is too long. *)
Fixpoint key_flags (ts : list token_t) (key : list Z) (bin : bool) (p : Z) : M session (option Z) :=
  match ts with
  | [] => mret (Some p)
  | t :: ts =>
      let o := flag_of t in
      if o =? chr "O" then
        r ← put_opaque p t;
        match r with None => mret None | Some q => key_flags ts key bin q end
      else if o =? chr "k" then q ← META_KEY p key bin; key_flags ts key bin q
      else key_flags ts key bin p
  end.

(** The line is complete: [p] bytes and the line end. *)
Definition end_line (p : Z) : M session unit :=
  q ← put p [13; 10];
  on_resp (λ r, r <| rs_wbytes := q |>) ;;
  resp_add_iov (InWbuf 0) q ;;
  conn_set_state conn_new_cmd.

(** Mark as stale, or delete. *)
Definition mdelete_found (it hv : Z) (fl : meta_flags) : M session unit :=
  (if f_set_stale fl then
     when (f_new_ttl fl) (W (wr it (λ x, x <| i_exptime := f_exptime fl |>))) ;;
     W (wr it (λ x, x <| i_it_flags := clear (Z.lor (i_it_flags x) ITEM_STALE) ITEM_TOKEN_SENT |>)) ;;
     W (o ← gets w_settings; cas ← (if o_use_cas o then get_cas_id else mret 0); wr it (ITEM_set_cas cas))
   else
     x ← W (load it);
     on_cmd_stats (λ n, n <| n_delete_hits := upd (n_delete_hits n) (ITEM_clsid x) (u64 (n_delete_hits n (ITEM_clsid x) + 1)) |>) ;;
     W (do_item_unlink it hv ;; storage_delete it)) ;;
  skip_if_noreply ;;
  code ← ok_code;
  put 0 (code ++ [32]) ;;
  mret tt.

Definition process_mdelete_command (tokens : list token_t) : M session unit :=
  if ntok tokens <? 3 then out_string (txt "ERROR")
  else
    long ← key_too_long tokens;
    if (long : bool) then out_string bad_format
    else if too_many_flags tokens then out_string (txt "CLIENT_ERROR options flags too long")
    else
      r ← preparse tokens 2 no_flags;
      let '(ret, tokens, fl, _) := r in
      if negb (ret =? 0) then out_errstring (txt "CLIENT_ERROR invalid or duplicate flag")
      else
        set_noreply (f_no_reply fl) ;;
        key ← tok_key tokens;
        r ← key_flags (flag_tokens tokens) key (f_key_binary fl) 3;
        match r with
        | None => out_errstring opaque_too_long
        | Some p =>
            g ← W (item_get_locked key (Z.of_nat (length key)) false);
            let '(it, hv) := g in
            (if negb (it =? NULL) then
               x ← W (load it);
               (if f_has_cas fl && negb (ITEM_get_cas x =? f_req_cas_id fl) then
                  incr_stat n_delete_misses (λ v n, n <| n_delete_misses := v |>) ;;
                  put 0 (txt "EX ") ;; mret tt
                else mdelete_found it hv fl) ;;
               W (do_item_remove it)
             else
               incr_stat n_delete_misses (λ v n, n <| n_delete_misses := v |>) ;;
               put 0 (txt "NF ") ;; mret tt) ;;
            W (item_unlock hv) ;;
            end_line p
        end.

(** ** ma *)

Definition marith_mode (mode : Z) : option bool :=
  if mode =? 0 then Some true
  else if (mode =? chr "I") || (mode =? chr "+") then Some true
  else if (mode =? chr "D") || (mode =? chr "-") then Some false else None.

(** A missing counter is created: the item, the text of its value and whether it
    was stored. *)
Definition marith_vivify (key : list Z) (initial hv : Z) : M session (option (Z * list Z * bool)) :=
  match itoa_u64 initial [] with
  | None => undefined
  | Some buf =>
      let vlen := Z.of_nat (length buf) in
      it ← W (item_alloc key (Z.of_nat (length key)) 0 0 (vlen + 2));
      if it =? NULL then mret None
      else
        W (data_write it 0 buf ;; data_write it vlen [13; 10]) ;;
        r ← W (do_store_item it NREAD_ADD hv);
        match r with
        | NOT_STORED => put 0 (txt "NS ") ;; mret (Some (it, buf, false))
        | _ => mret (Some (it, buf, true))
        end
  end.

(** One flag of the counter. *)
Definition marith_flag (it : Z) (fl : meta_flags) (item_created : bool) (key : list Z) (t : token_t) (p : Z) : M session (option Z) :=
  x ← W (load it);
  let o := flag_of t in
  if o =? chr "c" then q ← META_CHAR p "c"; q ← put_u64 q (ITEM_get_cas x); mret (Some q)
  else if o =? chr "t" then q ← META_CHAR p "t"; q ← put_ttl q x; mret (Some q)
  else if o =? chr "T" then W (wr it (λ x, x <| i_exptime := f_exptime fl |>)) ;; mret (Some p)
  else if o =? chr "N" then
    when item_created (W (wr it (λ x, x <| i_exptime := f_autoviv_exptime fl |>))) ;; mret (Some p)
  else if o =? chr "O" then put_opaque p t
  else if o =? chr "k" then q ← META_KEY p key (f_key_binary fl); mret (Some q)
  else mret (Some p).

Fixpoint marith_flags (it : Z) (fl : meta_flags) (item_created : bool) (key : list Z) (ts : list token_t) (p : Z) : M session (option Z) :=
  match ts with
  | [] => mret (Some p)
  | t :: ts =>
      r ← marith_flag it fl item_created key t p;
      match r with None => mret None | Some q => marith_flags it fl item_created key ts q end
  end.

(** The [error] exit: the reference and the lock are given back. *)
Definition marith_error (it hv : Z) (errstr : list Z) : M session unit :=
  (if negb (it =? NULL) then W (do_item_remove it) else mret tt) ;;
  W (item_unlock hv) ;;
  out_errstring errstr.

(** The rest of the response for the counter [it] with the value [buf]. *)
Definition marith_found (it hv : Z) (fl : meta_flags) (item_created : bool) (key buf : list Z) (tokens : list token_t) (p : Z) :
    M session unit :=
  p ← (if f_value fl then q ← put p (txt "VA "); put_u32 q (Z.of_nat (length buf)) else code ← ok_code; put p code);
  r ← marith_flags it fl item_created key (flag_tokens tokens) p;
  match r with
  | None => marith_error it hv opaque_too_long
  | Some p =>
      p ← (if f_value fl then q ← put p [13; 10]; put q buf else mret p);
      W (do_item_remove it) ;;
      W (item_unlock hv) ;;
      end_line p
  end.

(** Nothing found: only the opaque token and the key come back. *)
Definition marith_missing (hv : Z) (fl : meta_flags) (key : list Z) (tokens : list token_t) (p : Z) : M session unit :=
  r ← key_flags (flag_tokens tokens) key (f_key_binary fl) p;
  match r with
  | None => marith_error NULL hv opaque_too_long
  | Some p => W (item_unlock hv) ;; end_line p
  end.

Definition process_marithmetic_command (tokens : list token_t) : M session unit :=
  if ntok tokens <? 3 then out_string (txt "ERROR")
  else
    long ← key_too_long tokens;
    if (long : bool) then out_string bad_format
    else if too_many_flags tokens then out_string (txt "CLIENT_ERROR options flags too long")
    else
      r ← preparse tokens 2 (no_flags <| f_delta := 1 |>);
      let '(ret, tokens, fl, _) := r in
      if negb (ret =? 0) then out_errstring (txt "CLIENT_ERROR invalid or duplicate flag")
      else
        set_noreply (f_no_reply fl) ;;
        key ← tok_key tokens;
        match marith_mode (f_mode fl) with
        | None => out_errstring (txt "CLIENT_ERROR invalid mode for ma M token")
        | Some incr =>
            let hv := hash key in
            W (item_lock hv) ;;
            a ← W (do_add_delta key (Z.of_nat (length key)) incr (f_delta fl) (Some (f_req_cas_id fl)) hv true past);
            match da_result a with
            | OK =>
                skip_if_noreply ;;
                code ← ok_code;
                put 0 (code ++ [32]) ;;
                marith_found (da_it a) hv fl false key (da_buf a) tokens 0
            | NON_NUMERIC => marith_error NULL hv (txt "CLIENT_ERROR cannot increment or decrement non-numeric value")
            | EOM => marith_error NULL hv (txt "SERVER_ERROR out of memory")
            | DELTA_ITEM_NOT_FOUND =>
                if f_vivify fl then
                  v ← marith_vivify key (f_initial fl) hv;
                  match v with
                  | None => marith_error NULL hv (txt "SERVER_ERROR Out of memory allocating new item")
                  | Some (it, buf, created) => marith_found it hv fl created key buf tokens 0
                  end
                else
                  count_delta_miss incr ;;
                  p ← put 0 (txt "NF ");
                  marith_missing hv fl key tokens p
            | DELTA_ITEM_CAS_MISMATCH =>
                p ← put 0 (txt "EX ");
                marith_missing hv fl key tokens p
            end
        end.

End ProtoText.
