(* ===== verification/ProtoCmd.v ===== *)
(** * From command lines to commands ([proto_text.c])

    The end of a storage command, the administrative commands, and the dispatch
    on the command word. *)

From Stdlib Require Import Ascii String SpecFloat.
From stdpp Require Import strings.
From S2P Require Import Prelude Itoa Util Base64 Hashes StatsPrefix State Assoc Slabs Items Store Tokens Conn ProtoText.

Section ProtoCmd.
Context {HF : HashFn}.

(** The external store, the memory behind a stored number, the C library's
    [strtod], and the commands that only report (stats, watch, the crawler's and
    the external store's commands, shutdown). *)
Variable storage_get_item : Z → M session Z.
Variable past : list Z.
Variable safe_strtod : list Z → option spec_float.
Variable report_command : list token_t → M session unit.

(** ** The value has been read *)

(** The noted flags, answered: the loop over [resp->wbuf] up to [end]. *)
Fixpoint finalize_flags (noted : list Z) (copying : bool) (key : list Z) (bin : bool) (cas : Z) (p : Z) : M session Z :=
  match noted with
  | [] => mret p
  | b :: noted =>
      if copying then
        if b =? 32 then finalize_flags noted false key bin cas p
        else q ← put p [b]; finalize_flags noted true key bin cas q
      else if b =? chr "O" then
        q ← META_SPACE p; q ← put q [b]; finalize_flags noted true key bin cas q
      else if b =? chr "k" then q ← META_KEY p key bin; finalize_flags noted false key bin cas q
      else if b =? chr "c" then q ← META_CHAR p "c"; q ← put_u64 q cas; finalize_flags noted false key bin cas q
      else finalize_flags noted false key bin cas p
  end.

Definition _finalize_mset (ret : store_item_type) : M session unit :=
  c ← gets z_conn;
  r ← cur_resp;
  x ← W (load (k_item c));
  cas ← gets (λ z, c_cas (w_conn (z_world z)));
  conn_set_state conn_new_cmd ;;
  let e := rs_wbytes r in
  code ← (match ret with
          | STORED => skip_if_noreply ;; code ← ok_code; mret (Some code)
          | EXISTS => mret (Some (txt "EX"))
          | NOT_FOUND => mret (Some (txt "NF"))
          | NOT_STORED => mret (Some (txt "NS"))
          | _ => mret None
          end);
  match code with
  | None => set_noreply false ;; out_string (txt "SERVER_ERROR Unhandled storage type.")
  | Some code =>
      p ← put e code;
      p ← finalize_flags (take (Z.to_nat e) (rs_wbuf r)) false (ITEM_key x) (flag (i_it_flags x) ITEM_KEY_BINARY) cas p;
      p ← put p [13; 10];
      on_resp (λ r, r <| rs_wbytes := p |>) ;;
      resp_add_iov (InWbuf e) (p - e)
  end.

(** The last two bytes of a large item, which may lie in two chunks. *)
Definition chunked_tail (ch : Z) : M session (list Z) :=
  c ← W (load ch);
  c_assert (negb (ch_used c =? 0)) ;;
  if 1 <? ch_used c then W (chunk_read ch (ch_used c - 2) 2)
  else
    c_assert (negb (i_prev c =? NULL)) ;;
    c_assert (ch_used c =? 1) ;;
    q ← W (load (i_prev c));
    a ← W (chunk_read (i_prev c) (ch_used q - 1) 1);
    b ← W (chunk_read ch (ch_used c - 1) 1);
    mret (a ++ b).

Definition stored_text (ret : store_item_type) : list Z :=
  match ret with
  | STORED => txt "STORED"
  | EXISTS => txt "EXISTS"
  | NOT_FOUND => txt "NOT_FOUND"
  | NOT_STORED => txt "NOT_STORED"
  | _ => txt "SERVER_ERROR Unhandled storage type."
  end.

(** The two bytes [c->ritem] leads to: end of the value. *)
Definition value_valid (it : Z) (x : item) (ritem : Z) : M session bool :=
  if negb (flag (i_it_flags x) ITEM_CHUNKED) then
    b ← W (data_read it (i_nbytes x - 2) 2); mret (bool_decide (b = [13; 10]))
  else
    b ← chunked_tail ritem;
    c_assert (bool_decide (b = [13; 10])) ;; mret true.

Definition complete_nread_ascii : M session unit :=
  c ← gets z_conn;
  let it := k_item c in
  x ← W (load it);
  on_cmd_stats (λ n, n <| n_set_cmds := upd (n_set_cmds n) (ITEM_clsid x) (u64 (n_set_cmds n (ITEM_clsid x) + 1)) |>) ;;
  is_valid ← value_valid it x (k_ritem c).1;
  (if negb (is_valid : bool) then
     when (k_mset_res c) (set_noreply false) ;;
     out_string (txt "CLIENT_ERROR bad data chunk")
   else
     match k_cmd c with
     | None => undefined
     | Some comm =>
         ret ← W (store_item it comm);
         if k_mset_res c then _finalize_mset ret else out_string (stored_text ret)
     end) ;;
  W (modify (λ s, s <| w_conn := (w_conn s) <| c_set_stale := false |> |>)) ;;
  on_conn (λ c, c <| k_mset_res := false |>) ;;
  W (item_remove it) ;;
  on_conn (λ c, c <| k_item := NULL |>).

(** ** flush_all and the settings *)

Definition on_settings (f : settings_t → settings_t) : M session unit :=
  W (modify (λ s, s <| w_settings := f (w_settings s) |>)).
Definition on_proto (f : proto_settings → proto_settings) : M session unit :=
  modify (λ z, z <| z_settings := f (z_settings z) |>).

Definition process_flush_all_command (tokens : list token_t) : M session unit :=
  set_noreply_maybe tokens ;;
  incr_stat n_flush_cmds (λ v n, n <| n_flush_cmds := v |>) ;;
  z ← get_state;
  if negb (g_flush_enabled (z_settings z)) then out_string (txt "CLIENT_ERROR flush_all not allowed")
  else
    e ← (if negb (ntok tokens =? (if k_noreply (z_conn z) then 3 else 2)) then v ← tok tokens 1; mret (safe_strtol v)
         else mret (Some 0));
    match e with
    | None => out_string (txt "CLIENT_ERROR invalid exptime argument")
    | Some exptime =>
        let now := w_current_time (z_world z) in
        let new_oldest := if 0 <? exptime then realtime (g_process_started (z_settings z)) now exptime else now in
        (if o_use_cas (w_settings (z_world z)) then
           let live := u32 (new_oldest - 1) in
           on_settings (λ o, o <| o_oldest_live := live |>) ;;
           if live <=? now then cas ← W get_cas_id; on_settings (λ o, o <| o_oldest_cas := cas |>) else mret tt
         else on_settings (λ o, o <| o_oldest_live := new_oldest |>)) ;;
        out_string (txt "OK")
    end.

Definition VERSION : list Z := txt "UNKNOWN".
Definition process_version_command : M session unit := out_string (txt "VERSION " ++ VERSION).

Definition process_quit_command : M session unit :=
  conn_set_state conn_mwrite ;; on_conn (λ c, c <| k_close_after_write := true |>).

Definition MAX_VERBOSITY_LEVEL : Z := 2.

Definition process_verbosity_command (tokens : list token_t) : M session unit :=
  set_noreply_maybe tokens ;;
  v ← tok tokens 1;
  match safe_strtoul v with
  | None => out_string bad_format
  | Some level =>
      on_proto (λ o, o <| g_verbose := if MAX_VERBOSITY_LEVEL <? level then MAX_VERBOSITY_LEVEL else level |>) ;;
      out_string (txt "OK")
  end.

Definition process_memlimit_command (tokens : list token_t) : M session unit :=
  set_noreply_maybe tokens ;;
  v ← tok tokens 1;
  match safe_strtoul v with
  | None => out_string (txt "ERROR")
  | Some memlimit =>
      if memlimit <? 8 then out_string (txt "MEMLIMIT_TOO_SMALL cannot set maxbytes to less than 8m")
      else if 1000000000 <? memlimit then out_string (txt "MEMLIMIT_ADJUST_FAILED input value is megabytes not bytes")
      else
        ok ← W (do_slabs_adjust_mem_limit (memlimit * 1024 * 1024));
        if (ok : bool) then out_string (txt "OK")
        else out_string (txt "MEMLIMIT_ADJUST_FAILED out of bounds or unable to adjust")
  end.

Definition process_slabs_automove_command (tokens : list token_t) : M session unit :=
  set_noreply_maybe tokens ;;
  v ← tok tokens 2;
  if streq v (txt "ratio") then
    r ← (if ntok tokens <? 5 then mret None else v ← tok tokens 3; mret (safe_strtod v));
    match r with
    | None => out_string (txt "ERROR")
    | Some ratio => on_proto (λ o, o <| g_slab_automove_ratio := ratio |>) ;; out_string (txt "OK")
    end
  else
    match safe_strtoul v with
    | None => out_string bad_format
    | Some level =>
        if (level =? 0) || (level =? 1) || (level =? 2)
        then on_settings (λ o, o <| o_slab_automove := level |>) ;; out_string (txt "OK")
        else out_string (txt "ERROR")
    end.

Definition process_slabs_command (tokens : list token_t) : M session unit :=
  w ← (if 3 <=? ntok tokens then tok tokens 1 else mret []);
  if (ntok tokens =? 5) && streq w (txt "reassign") then
    s ← gets z_world;
    if negb (o_slab_reassign (w_settings s)) then out_string (txt "CLIENT_ERROR slab reassignment disabled")
    else
      v2 ← tok tokens 2;
      v3 ← tok tokens 3;
      match safe_strtol v2, safe_strtol v3 with
      | Some src, Some dst =>
          rv ← W (slabs_reassign src dst);
          out_string (match rv with
                      | REASSIGN_OK => txt "OK"
                      | REASSIGN_RUNNING => txt "BUSY currently processing reassign request"
                      | REASSIGN_BADCLASS => txt "BADCLASS invalid src or dst class id"
                      | REASSIGN_NOSPARE => txt "NOSPARE source class has no spare pages"
                      | REASSIGN_SRC_DST_SAME => txt "SAME src and dst class are identical"
                      end)
      | _, _ => out_string bad_format
      end
  else if (4 <=? ntok tokens) && streq w (txt "automove") then process_slabs_automove_command tokens
  else out_string (txt "ERROR").

(** [f <= 0] on a double. *)
Definition not_positive (f : spec_float) : bool := SFleb f (S754_zero false).

Definition process_lru_command (tokens : list token_t) : M session unit :=
  set_noreply_maybe tokens ;;
  w ← tok tokens 1;
  maintained ← gets (λ z, g_lru_maintainer_thread (z_settings z));
  if streq w (txt "tune") && (7 <=? ntok tokens) then
    v2 ← tok tokens 2;
    v3 ← tok tokens 3;
    v4 ← tok tokens 4;
    v5 ← tok tokens 5;
    match safe_strtoul v2, safe_strtoul v3, safe_strtod v4, safe_strtod v5 with
    | Some pct_hot, Some pct_warm, Some hot_factor, Some factor =>
        if 80 <? u32 (pct_hot + pct_warm) then out_string (txt "ERROR hot and warm pcts must not exceed 80")
        else if not_positive factor || not_positive hot_factor then
          out_string (txt "ERROR hot/warm age factors must be greater than 0")
        else
          on_settings (λ o, o <| o_hot_lru_pct := s32 pct_hot |> <| o_warm_lru_pct := s32 pct_warm |>
                              <| o_hot_max_factor := hot_factor |> <| o_warm_max_factor := factor |>) ;;
          out_string (txt "OK")
    | _, _, _, _ => out_string (txt "ERROR")
    end
  else if streq w (txt "mode") && (4 <=? ntok tokens) && maintained then
    v ← tok tokens 2;
    if streq v (txt "flat") then on_settings (λ o, o <| o_lru_segmented := false |>) ;; out_string (txt "OK")
    else if streq v (txt "segmented") then on_settings (λ o, o <| o_lru_segmented := true |>) ;; out_string (txt "OK")
    else out_string (txt "ERROR")
  else if streq w (txt "temp_ttl") && (4 <=? ntok tokens) && maintained then
    v ← tok tokens 2;
    match safe_strtol v with
    | None => out_string (txt "ERROR")
    | Some ttl =>
        (if ttl <? 0 then on_settings (λ o, o <| o_temp_lru := false |>)
         else on_settings (λ o, o <| o_temp_lru := true |> <| o_temporary_ttl := ttl |>)) ;;
        out_string (txt "OK")
    end
  else out_string (txt "ERROR").


(** ** me *)

(** The text of [snprintf]; [%llu], [%u] and [%lu] print in decimal, [%d] with a
    sign. *)
Definition me_text (x : item) (now : Z) : list Z :=
  let exp := s32 (if i_exptime x =? 0 then -1 else u32 (now - i_exptime x)) in
  txt "exp=" ++ (if exp <? 0 then txt "-" ++ decimal (- exp) else decimal exp) ++
  txt " la=" ++ decimal (u32 (now - i_time x)) ++
  txt " cas=" ++ decimal (ITEM_get_cas x) ++
  txt " fetch=" ++ txt (if flag (i_it_flags x) ITEM_FETCHED then "yes" else "no") ++
  txt " cls=" ++ decimal (ITEM_clsid x) ++
  txt " size=" ++ decimal (ITEM_ntotal x) ++ [13; 10].

(** [snprintf(wbuf + p, size, text)]: what is too long is cut. *)
Definition put_snprintf (p size : Z) (text : list Z) : M session Z :=
  put p (take (Z.to_nat (size - 1)) text ++ [0]) ;; mret (Z.of_nat (length text)).

(** The key, decoded in place if it is in base64. *)
Definition meta_key (tokens : list token_t) (key : list Z) : option (list Z) :=
  if (4 <=? ntok tokens) && bool_decide (tlength tokens 2 = Some 1) &&
     bool_decide ((λ v, at_ v 0) <$> tvalue tokens 2 = Some (chr "b"))
  then
    let '(ret, out) := base64_decode key (Z.of_nat (length key)) in
    if ret =? 0 then None else Some (take (Z.to_nat ret) (blit 0 out key))
  else Some key.

Definition process_meta_command (tokens : list token_t) : M session unit :=
  if ntok tokens <? 3 then out_string bad_format
  else
    long ← key_too_long tokens;
    if (long : bool) then out_string bad_format
    else
      key ← tok_key tokens;
      match meta_key tokens key with
      | None => out_string bad_format
      | Some key =>
          g ← W (limited_get key (Z.of_nat (length key)) 0 false false);
          let it := g.1 in
          (if negb (it =? NULL) then
             x ← W (load it);
             now ← gets (λ z, w_current_time (z_world z));
             total ← put 0 (txt "ME ");
             total ← put total (if flag (i_it_flags x) ITEM_KEY_BINARY
                                then (base64_encode (ITEM_key x) (WRITE_BUFFER_SIZE - total)).2 else ITEM_key x);
             total ← put total [32];
             ret ← put_snprintf total (WRITE_BUFFER_SIZE - (i_nkey x + 12)) (me_text x now);
             W (item_remove it) ;;
             on_resp (λ r, r <| rs_wbytes := total + ret |>) ;;
             resp_add_iov (InWbuf 0) (total + ret) ;;
             conn_set_state conn_new_cmd
           else out_string (txt "EN")) ;;
          incr_stat n_meta_cmds (λ v n, n <| n_meta_cmds := v |>)
      end.

(** ** The dispatch *)

(** Commands with a certain number of tokens only. *)
Definition WANT_TOKENS (tokens : list token_t) (lo hi : Z) (cmd : M session unit) : M session unit :=
  if (ntok tokens <? lo) || (hi <? ntok tokens) then out_string (txt "ERROR") else cmd.
Definition WANT_TOKENS_OR (tokens : list token_t) (a b : Z) (cmd : M session unit) : M session unit :=
  if negb (ntok tokens =? a) && negb (ntok tokens =? b) then out_string (txt "ERROR") else cmd.
Definition WANT_TOKENS_MIN (tokens : list token_t) (lo : Z) (cmd : M session unit) : M session unit :=
  if ntok tokens <? lo then out_string (txt "ERROR") else cmd.

Definition meta_dispatch (tokens : list token_t) (c : Z) : M session unit :=
  if c =? chr "g" then process_mget_command storage_get_item tokens
  else if c =? chr "s" then process_mset_command tokens
  else if c =? chr "d" then process_mdelete_command tokens
  else if c =? chr "n" then out_string (txt "MN") ;; conn_set_state conn_mwrite
  else if c =? chr "a" then process_marithmetic_command past tokens
  else if c =? chr "e" then process_meta_command tokens
  else out_string (txt "ERROR").

Definition update_dispatch (tokens : list token_t) (comm : nread) : M session unit :=
  WANT_TOKENS_OR tokens 6 7 (process_update_command tokens comm false).
Definition get_dispatch (tokens : list token_t) (return_cas should_touch : bool) : M session unit :=
  process_get_command storage_get_item tokens return_cas should_touch.
Definition arithmetic_dispatch (tokens : list token_t) (incr : bool) : M session unit :=
  WANT_TOKENS_OR tokens 4 5 (process_arithmetic_command past tokens incr).

(** [command] is the line, ended by a NUL. *)
Definition process_command_ascii (command : list Z) : M session unit :=
  started ← resp_start;
  if negb (started : bool) then conn_set_state conn_closing
  else
    let tokens := tokenize_command command MAX_TOKENS in
    n0 ← tok_length tokens 0;
    if (ntok tokens <? 2) || (n0 <? 2) then out_string (txt "ERROR")
    else
      word ← tok tokens 0;
      let cmd (s : string) := streq word (txt s) in
      let first := at_ word 0 in
      let error := out_string (txt "ERROR") in
      if (first =? chr "m") && (n0 =? 2) then meta_dispatch tokens (at_ word 1)
      else if first =? chr "g" then
        WANT_TOKENS_MIN tokens 3
          (if cmd "get" then get_dispatch tokens false false
           else if cmd "gets" then get_dispatch tokens true false
           else if cmd "gat" then get_dispatch tokens false true
           else if cmd "gats" then get_dispatch tokens true true
           else error)
      else if first =? chr "s" then
        if cmd "set" then update_dispatch tokens NREAD_SET
        else if cmd "stats" || cmd "shutdown" then report_command tokens
        else if cmd "slabs" then process_slabs_command tokens
        else error
      else if first =? chr "a" then
        if cmd "add" then update_dispatch tokens NREAD_ADD
        else if cmd "append" then update_dispatch tokens NREAD_APPEND
        else error
      else if first =? chr "c" then
        if cmd "cas" then WANT_TOKENS_OR tokens 7 8 (process_update_command tokens NREAD_CAS true)
        else if cmd "cache_memlimit" then WANT_TOKENS_OR tokens 3 4 (process_memlimit_command tokens)
        else error
      else if first =? chr "i" then
        if cmd "incr" then arithmetic_dispatch tokens true else error
      else if first =? chr "d" then
        if cmd "delete" then WANT_TOKENS tokens 3 5 (process_delete_command tokens)
        else if cmd "decr" then arithmetic_dispatch tokens false
        else error
      else if first =? chr "t" then
        if cmd "touch" then WANT_TOKENS_OR tokens 4 5 (process_touch_command tokens) else error
      else if cmd "replace" then update_dispatch tokens NREAD_REPLACE
      else if cmd "prepend" then update_dispatch tokens NREAD_PREPEND
      else if cmd "bget" then WANT_TOKENS_MIN tokens 3 (get_dispatch tokens false false)
      else if cmd "flush_all" then WANT_TOKENS tokens 2 4 (process_flush_all_command tokens)
      else if cmd "version" then process_version_command
      else if cmd "quit" then process_quit_command
      else if cmd "lru_crawler" || cmd "watch" then report_command tokens
      else if cmd "verbosity" then WANT_TOKENS_OR tokens 3 4 (process_verbosity_command tokens)
      else if cmd "lru" then WANT_TOKENS_MIN tokens 3 (process_lru_command tokens)
      else if cmd "extstore" then WANT_TOKENS_MIN tokens 3 (report_command tokens)
      else
        v ← tok tokens (length tokens - 2);
        if starts_with v (txt "HTTP/") then conn_set_state conn_closing else error.

(** ** Finding a command line *)

(** The place of the first newline. *)
Definition memchr_nl (b : list Z) : option nat := fst <$> list_find (λ c, c = 10) b.

Fixpoint leading_spaces (b : list Z) : nat :=
  match b with c :: b => if c =? 32 then S (leading_spaces b) else O | [] => O end.

(** Buffers of a connection: twice the size, from the heap. *)
Definition rbuf_switch_to_malloc : M session bool :=
  ok ← mem_next;
  if negb (ok : bool) then mret false
  else on_conn (λ c, c <| k_rcurr := 0 |> <| k_rsize := k_rsize c * 2 |> <| k_rbuf_malloced := true |>) ;; mret true.

(** [true] unless more has to be read. The scan over the spaces must stop at a byte
    that was received. *)
Definition try_read_command_ascii : M session bool :=
  c ← gets z_conn;
  let b := k_rbuf c in
  if (length b =? 0)%nat then mret false
  else
    match memchr_nl b with
    | None =>
        if 2048 <? Z.of_nat (length b) then
          let n := leading_spaces b in
          c_assert (n <? length b)%nat ;;
          if (100 <? Z.of_nat n) || negb (starts_with (drop n b) (txt "get ") || starts_with (drop n b) (txt "gets "))
          then conn_set_state conn_closing ;; mret true
          else if negb (k_rbuf_malloced c) then
            ok ← rbuf_switch_to_malloc;
            if negb (ok : bool) then conn_set_state conn_closing ;; mret true else mret false
          else mret false
        else mret false
    | Some el =>
        let cont := S el in
        let el := if (1 <? el)%nat && (at_ b (el - 1) =? 13) then (el - 1)%nat else el in
        now ← gets (λ z, w_current_time (z_world z));
        on_conn (λ c, c <| k_last_cmd_time := now |>) ;;
        process_command_ascii (<[el := 0]> b) ;;
        on_conn (λ c, c <| k_rbuf := drop cont (k_rbuf c) |> <| k_rcurr := k_rcurr c + Z.of_nat cont |>) ;;
        mret true
    end.

End ProtoCmd.
