(* ===== verification/ProtoBin.v ===== *)
(** * The binary protocol ([proto_bin.c])

    A request is a header of 24 bytes with the lengths of what follows: extras,
    key and value. The commands are those of the text protocol; a quiet command
    answers only when it has something to say. The statistics command is a
    parameter, as is what is read from the external store. SASL is off in this
    build, so its commands are refused. *)

From Stdlib Require Import Ascii String.
From stdpp Require Import strings.
From S2P Require Import Prelude Itoa Util Hashes StatsPrefix State Assoc Slabs Items Store Tokens Conn ProtoText ProtoCmd.

(** ** Data *)

Definition PROTOCOL_BINARY_REQ : Z := 128.
Definition PROTOCOL_BINARY_RES : Z := 129.
Definition BIN_MAX_EXTLEN : Z := 20.

(** The request header, after the conversion of its byte order; the opaque bytes
    are not converted. *)
Record bin_header : Type := mkHeader {
  h_magic : Z; h_opcode : Z; h_keylen : Z; h_extlen : Z; h_bodylen : Z; h_opaque : list Z; h_cas : Z
}.

Inductive bin_status : Type :=
  | SUCCESS | KEY_ENOENT | KEY_EEXISTS | E2BIG | EINVAL | E_NOT_STORED | DELTA_BADVAL | AUTH_ERROR | AUTH_CONTINUE
  | UNKNOWN_COMMAND | ENOMEM.

Definition status_code (e : bin_status) : Z :=
  match e with
  | SUCCESS => 0 | KEY_ENOENT => 1 | KEY_EEXISTS => 2 | E2BIG => 3 | EINVAL => 4 | E_NOT_STORED => 5 | DELTA_BADVAL => 6
  | AUTH_ERROR => 32 | AUTH_CONTINUE => 33 | UNKNOWN_COMMAND => 129 | ENOMEM => 130
  end.
Definition CMD_GET : Z := 0.
Definition CMD_SET : Z := 1.
Definition CMD_ADD : Z := 2.
Definition CMD_REPLACE : Z := 3.
Definition CMD_DELETE : Z := 4.
Definition CMD_INCREMENT : Z := 5.
Definition CMD_DECREMENT : Z := 6.
Definition CMD_QUIT : Z := 7.
Definition CMD_FLUSH : Z := 8.
Definition CMD_GETQ : Z := 9.
Definition CMD_NOOP : Z := 10.
Definition CMD_VERSION : Z := 11.
Definition CMD_GETK : Z := 12.
Definition CMD_GETKQ : Z := 13.
Definition CMD_APPEND : Z := 14.
Definition CMD_PREPEND : Z := 15.
Definition CMD_STAT : Z := 16.
Definition CMD_SETQ : Z := 17.
Definition CMD_ADDQ : Z := 18.
Definition CMD_REPLACEQ : Z := 19.
Definition CMD_DELETEQ : Z := 20.
Definition CMD_INCREMENTQ : Z := 21.
Definition CMD_DECREMENTQ : Z := 22.
Definition CMD_QUITQ : Z := 23.
Definition CMD_FLUSHQ : Z := 24.
Definition CMD_APPENDQ : Z := 25.
Definition CMD_PREPENDQ : Z := 26.
Definition CMD_TOUCH : Z := 28.
Definition CMD_GAT : Z := 29.
Definition CMD_GATQ : Z := 30.
Definition CMD_SASL_LIST_MECHS : Z := 32.
Definition CMD_SASL_AUTH : Z := 33.
Definition CMD_SASL_STEP : Z := 34.
Definition CMD_GATK : Z := 35.
Definition CMD_GATKQ : Z := 36.

(** A connection that speaks the binary protocol: [c->cmd] is an opcode until an
    upload begins; then the storage command is in [k_cmd] of the session. *)
Record bsession : Type := mkBin { b_session : session; b_header : bin_header; b_cmd : Z }.
#[global] Instance bsession_eta : Eta bsession := λ r, mkBin (b_session r) (b_header r) (b_cmd r).

Definition S_ {A} (m : M session A) : M bsession A := λ b,
  match m (b_session b) with
  | Some (a, z) => Some (a, b <| b_session := z |>)
  | None => None
  end.
Definition Wb {A} (m : M world A) : M bsession A := S_ (W m).

(** Numbers in network byte order. *)
Definition be (l : list Z) : Z := foldl (λ a x, a * 256 + x) 0 l.
Fixpoint be_bytes (n : nat) (x : Z) : list Z :=
  match n with O => [] | S n => be_bytes n (x / 256) ++ [x mod 256] end.

Definition parse_header (b : list Z) : bin_header :=
  mkHeader (at_ b 0) (at_ b 1) (be (slice 2 2 b)) (at_ b 4) (be (slice 8 4 b)) (slice 12 4 b) (be (slice 16 8 b)).

Section ProtoBin.
Context {HF : HashFn}.
Variable storage_get_item : Z → M session Z.
Variable past : list Z.
Variable process_bin_stat : list Z → M bsession unit.

(** ** Responses *)

Definition response_header (h : bin_header) (err hdr_len key_len body_len cas : Z) : list Z :=
  [PROTOCOL_BINARY_RES; h_opcode h] ++ be_bytes 2 key_len ++ [u8 hdr_len; 0] ++ be_bytes 2 err ++ be_bytes 4 body_len ++
  h_opaque h ++ be_bytes 8 cas.

Definition add_bin_header (err : bin_status) (hdr_len key_len body_len : Z) : M bsession unit :=
  S_ resp_reset ;;
  b ← get_state;
  cas ← Wb (gets (λ s, c_cas (w_conn s)));
  S_ (put 0 (response_header (b_header b) (status_code err) hdr_len key_len body_len cas)) ;;
  S_ (on_resp (λ r, r <| rs_wbytes := 24 |>)) ;;
  S_ (resp_add_iov (InWbuf 0) 24).

Definition error_text (err : bin_status) : option (list Z) :=
  match err with
  | ENOMEM => Some (txt "Out of memory")
  | UNKNOWN_COMMAND => Some (txt "Unknown command")
  | KEY_ENOENT => Some (txt "Not found")
  | EINVAL => Some (txt "Invalid arguments")
  | KEY_EEXISTS => Some (txt "Data exists for key.")
  | E2BIG => Some (txt "Too large.")
  | DELTA_BADVAL => Some (txt "Non-numeric server-side value for incr or decr")
  | E_NOT_STORED => Some (txt "Not stored.")
  | AUTH_ERROR => Some (txt "Auth failure.")
  | SUCCESS | AUTH_CONTINUE => None
  end.

Definition write_bin_error (err : bin_status) (errstr : option (list Z)) (swallow : Z) : M bsession unit :=
  match (match errstr with Some t => Some t | None => error_text err end) with
  | None => undefined
  | Some t =>
      let len := Z.of_nat (length t) in
      add_bin_header err 0 0 len ;;
      (if 0 <? len then S_ (resp_add_iov (InText t) len) else mret tt) ;;
      if 0 <? swallow then S_ (on_conn (λ c, c <| k_sbytes := swallow |>) ;; conn_set_state conn_swallow)
      else S_ (conn_set_state conn_mwrite)
  end.

Definition close_after_write : M bsession unit := S_ (on_conn (λ c, c <| k_close_after_write := true |>)).

Definition handle_binary_protocol_error : M bsession unit := write_bin_error EINVAL None 0 ;; close_after_write.

(** [out_of_memory], without the prefix of the text protocol. *)
Definition bin_out_of_memory (text : list Z) : M bsession unit := write_bin_error ENOMEM (Some text) 0.

(** [d]: where the [dlen] bytes of the body are. *)
Definition write_bin_response (d : iov_base) (hlen keylen dlen : Z) : M bsession unit :=
  b ← get_state;
  (if negb (k_noreply (z_conn (b_session b))) || (b_cmd b =? CMD_GET) || (b_cmd b =? CMD_GETK) then
     add_bin_header SUCCESS hlen keylen dlen ;;
     when (0 <? dlen) (S_ (resp_add_iov d dlen))
   else mret tt) ;;
  S_ (conn_set_state conn_new_cmd).

Definition no_body : iov_base := InText [].

Definition write_bin_miss_response (key : list Z) : M bsession unit :=
  let nkey := Z.of_nat (length key) in
  if negb (nkey =? 0) then
    add_bin_header KEY_ENOENT 0 nkey nkey ;;
    S_ (put 24 key) ;;
    S_ (resp_add_iov (InWbuf 24) nkey) ;;
    S_ (conn_set_state conn_new_cmd)
  else write_bin_error KEY_ENOENT None 0.

(** ** incr and decr *)

Definition set_conn_cas (cas : Z) : M bsession unit :=
  Wb (modify (λ s, s <| w_conn := (w_conn s) <| c_cas := cas |> |>)).

(** [realtime(x)] *)
Definition bin_exptime (x : Z) : M bsession Z :=
  S_ (gets (λ z, realtime (g_process_started (z_settings z)) (w_current_time (z_world z)) x)).

(** An absent counter is created with its initial value. *)
Definition incr_create (key : list Z) (initial expiration : Z) : M bsession unit :=
  S_ (put 24 (be_bytes 8 initial)) ;;
  let text := decimal initial in
  let res := Z.of_nat (length text) in
  exptime ← bin_exptime expiration;
  it ← Wb (item_alloc key (Z.of_nat (length key)) 0 exptime (res + 2));
  if negb (it =? NULL) then
    Wb (data_write it 0 text ;; data_write it res [13; 10]) ;;
    ret ← Wb (store_item it NREAD_ADD);
    (match ret with
     | NOT_STORED => write_bin_error E_NOT_STORED None 0
     | _ =>
         x ← Wb (load it);
         set_conn_cas (ITEM_get_cas x) ;;
         write_bin_response (InWbuf 24) 0 0 8
     end) ;;
    Wb (item_remove it)
  else bin_out_of_memory (txt "Out of memory allocating new item").

Definition complete_incr_bin (key extbuf : list Z) : M bsession unit :=
  b ← get_state;
  let delta := be (slice 0 8 extbuf) in
  let initial := be (slice 8 8 extbuf) in
  let expiration := be (slice 16 4 extbuf) in
  let incr := b_cmd b =? CMD_INCREMENT in
  a ← Wb (add_delta key (Z.of_nat (length key)) incr (s64 delta) (Some (h_cas (b_header b))) past);
  match da_result a with
  | OK =>
      match safe_strtoull (da_buf a) with
      | None => undefined
      | Some v =>
          S_ (put 24 (be_bytes 8 v)) ;;
          (match da_cas a with Some cas => when (negb (cas =? 0)) (set_conn_cas cas) | None => mret tt end) ;;
          write_bin_response (InWbuf 24) 0 0 8
      end
  | NON_NUMERIC => write_bin_error DELTA_BADVAL None 0
  | EOM => bin_out_of_memory (txt "Out of memory incrementing value")
  | DELTA_ITEM_NOT_FOUND =>
      if negb (expiration =? 2 ^ 32 - 1) then incr_create key initial expiration
      else S_ (count_delta_miss incr) ;; write_bin_error KEY_ENOENT None 0
  | DELTA_ITEM_CAS_MISMATCH => write_bin_error KEY_EEXISTS None 0
  end.

(** ** get and touch *)

Definition process_bin_get_or_touch (key extbuf : list Z) : M bsession unit :=
  b ← get_state;
  let cmd := b_cmd b in
  let nkey := Z.of_nat (length key) in
  let should_touch := (cmd =? CMD_TOUCH) || (cmd =? CMD_GAT) || (cmd =? CMD_GATK) in
  let should_return_key := (cmd =? CMD_GETK) || (cmd =? CMD_GATK) in
  let should_return_value := negb (cmd =? CMD_TOUCH) in
  it ← (if should_touch then
          exptime ← bin_exptime (be (slice 0 4 extbuf));
          Wb (item_touch key nkey exptime)
        else Wb (item_get key nkey true));
  failed ←
    (if negb (it =? NULL) then
       x ← Wb (load it);
       S_ (count_hit x should_touch) ;;
       let bodylen := u32 (4 + (i_nbytes x - 2)) in
       let '(keylen, bodylen) :=
         if cmd =? CMD_TOUCH then (0, u32 (bodylen - (i_nbytes x - 2)))
         else if should_return_key then (nkey, u32 (bodylen + nkey)) else (0, bodylen) in
       add_bin_header SUCCESS 4 keylen bodylen ;;
       S_ (put 16 (be_bytes 8 (ITEM_get_cas x))) ;;
       S_ (put 24 (be_bytes 4 (FLAGS_CONV x))) ;;
       S_ (resp_add_iov (InWbuf 24) 4) ;;
       (if should_return_key then S_ (resp_add_iov (InText (ITEM_key x)) nkey) else mret tt) ;;
       failed ←
         (if should_return_value then
            if flag (i_it_flags x) ITEM_HDR then
              r ← S_ (storage_get_item it);
              if negb (r =? 0) then
                S_ (incr_stat n_get_oom_extstore (λ v n, n <| n_get_oom_extstore := v |>)) ;; mret true
              else mret false
            else if negb (flag (i_it_flags x) ITEM_CHUNKED) then S_ (resp_add_iov (InItem it 0) (i_nbytes x - 2)) ;; mret false
            else S_ (resp_add_chunked_iov it (i_nbytes x - 2)) ;; mret false
          else mret false);
       (if negb (failed : bool) then
          S_ (conn_set_state conn_new_cmd) ;;
          S_ (on_resp (λ r, r <| rs_item := if flag (i_it_flags x) ITEM_HDR && should_return_value then NULL else it |>))
        else Wb (item_remove it)) ;;
       mret failed
     else mret true);
  when failed
    (S_ (count_miss should_touch) ;;
     if k_noreply (z_conn (b_session b)) then S_ (conn_set_state conn_new_cmd)
     else write_bin_miss_response (if should_return_key then key else [])) ;;
  S_ (record_prefix (stats_prefix_record_get key (negb (it =? NULL)))).

(** ** Storage commands *)

(** The value follows. *)
Definition bin_expect_value (it vlen : Z) (comm : nread) : M bsession unit :=
  x ← Wb (load it);
  S_ (on_conn (λ c, c <| k_item := it |> <| k_ritem := (if flag (i_it_flags x) ITEM_CHUNKED then (ITEM_schunk it x, 0) else (it, 0)) |>
                      <| k_rlbytes := vlen |> <| k_cmd := Some comm |>) ;;
      conn_set_state conn_nread).

(** The item could not be allocated; the value is skipped. *)
Definition bin_alloc_failed (nkey flags vlen : Z) : M bsession unit :=
  ok ← Wb (item_size_ok nkey flags (vlen + 2));
  if negb (ok : bool) then write_bin_error E2BIG None vlen
  else
    bin_out_of_memory (txt "Out of memory allocating item") ;;
    S_ (on_conn (λ c, c <| k_sbytes := vlen |>)).

Definition process_bin_update (key extbuf : list Z) : M bsession unit :=
  b ← get_state;
  let nkey := Z.of_nat (length key) in
  let flags := be (slice 0 4 extbuf) in
  let expiration := be (slice 4 4 extbuf) in
  let h := b_header b in
  let vlen := s32 (h_bodylen h - (nkey + h_extlen h)) in
  S_ (record_prefix (stats_prefix_record_set key)) ;;
  exptime ← bin_exptime expiration;
  (if vlen + 2 <? 2 ^ 31 then mret tt else undefined) ;;
  it ← Wb (item_alloc key nkey flags exptime (vlen + 2));
  if it =? NULL then
    bin_alloc_failed nkey flags vlen ;;
    (if b_cmd b =? CMD_SET then
       old ← Wb (item_get key nkey false);
       if negb (old =? NULL) then Wb (item_unlink old ;; storage_delete old ;; item_remove old) else mret tt
     else mret tt) ;;
    S_ (conn_set_state conn_swallow)
  else
    Wb (wr it (ITEM_set_cas (h_cas h))) ;;
    comm ← (if b_cmd b =? CMD_ADD then mret NREAD_ADD else if b_cmd b =? CMD_SET then mret NREAD_SET
            else if b_cmd b =? CMD_REPLACE then mret NREAD_REPLACE else undefined);
    x ← Wb (load it);
    bin_expect_value it vlen (if negb (ITEM_get_cas x =? 0) then NREAD_CAS else comm).

Definition process_bin_append_prepend (key : list Z) : M bsession unit :=
  b ← get_state;
  let nkey := Z.of_nat (length key) in
  let h := b_header b in
  let vlen := s32 (h_bodylen h - nkey) in
  S_ (record_prefix (stats_prefix_record_set key)) ;;
  (if vlen + 2 <? 2 ^ 31 then mret tt else undefined) ;;
  it ← Wb (item_alloc key nkey 0 0 (vlen + 2));
  if it =? NULL then bin_alloc_failed nkey 0 vlen ;; S_ (conn_set_state conn_swallow)
  else
    Wb (wr it (ITEM_set_cas (h_cas h))) ;;
    comm ← (if b_cmd b =? CMD_APPEND then mret NREAD_APPEND else if b_cmd b =? CMD_PREPEND then mret NREAD_PREPEND else undefined);
    bin_expect_value it vlen comm.

(** The line end of the value is not sent; it is written here. *)
Definition bin_line_end (it : Z) (x : item) (ritem : Z) : M bsession unit :=
  if negb (flag (i_it_flags x) ITEM_CHUNKED) then Wb (data_write it (i_nbytes x - 2) [13; 10])
  else
    c_assert (negb (ritem =? NULL)) ;;
    ch ← Wb (load ritem);
    let at_end := ch_size ch =? ch_used ch in
    let p := if at_end then i_next ch else ritem in
    ch ← (if at_end then Wb (load p) else mret ch);
    c_assert (2 <=? ch_size ch - ch_used ch) ;;
    Wb (chunk_append p [13; 10]).

Definition not_stored_status (comm : nread) : bin_status :=
  match comm with NREAD_ADD => KEY_EEXISTS | NREAD_REPLACE => KEY_ENOENT | _ => E_NOT_STORED end.

Definition complete_update_bin : M bsession unit :=
  c ← S_ (gets z_conn);
  let it := k_item c in
  x ← Wb (load it);
  S_ (on_cmd_stats (λ n, n <| n_set_cmds := upd (n_set_cmds n) (ITEM_clsid x) (u64 (n_set_cmds n (ITEM_clsid x) + 1)) |>)) ;;
  bin_line_end it x (k_ritem c).1 ;;
  match k_cmd c with
  | None => undefined
  | Some comm =>
      ret ← Wb (store_item it comm);
      (match ret with
       | STORED => write_bin_response no_body 0 0 0
       | EXISTS => write_bin_error KEY_EEXISTS None 0
       | NOT_FOUND => write_bin_error KEY_ENOENT None 0
       | _ => write_bin_error (not_stored_status comm) None 0
       end) ;;
      Wb (item_remove it) ;;
      S_ (on_conn (λ c, c <| k_item := NULL |>))
  end.

(** Without SASL the only upload is that of a value. *)
Definition complete_nread_binary : M bsession unit := complete_update_bin.

(** ** flush and delete *)

Definition process_bin_flush (extbuf : list Z) : M bsession unit :=
  b ← get_state;
  let z := b_session b in
  if negb (g_flush_enabled (z_settings z)) then write_bin_error AUTH_ERROR None 0
  else
    let exptime := if h_extlen (b_header b) =? 4 then be (slice 0 4 extbuf) else 0 in
    let now := w_current_time (z_world z) in
    let new_oldest := if 0 <? exptime then realtime (g_process_started (z_settings z)) now exptime else now in
    (if o_use_cas (w_settings (z_world z)) then
       let live := u32 (new_oldest - 1) in
       S_ (on_settings (λ o, o <| o_oldest_live := live |>)) ;;
       if live <=? now then cas ← Wb get_cas_id; S_ (on_settings (λ o, o <| o_oldest_cas := cas |>)) else mret tt
     else S_ (on_settings (λ o, o <| o_oldest_live := new_oldest |>))) ;;
    S_ (incr_stat n_flush_cmds (λ v n, n <| n_flush_cmds := v |>)) ;;
    write_bin_response no_body 0 0 0.

Definition process_bin_delete (key : list Z) : M bsession unit :=
  b ← get_state;
  S_ (record_prefix (stats_prefix_record_delete key)) ;;
  r ← Wb (item_get_locked key (Z.of_nat (length key)) false);
  let '(it, hv) := r in
  (if negb (it =? NULL) then
     x ← Wb (load it);
     let cas := h_cas (b_header b) in
     (if (cas =? 0) || (cas =? ITEM_get_cas x) then
        S_ (on_cmd_stats (λ n, n <| n_delete_hits := upd (n_delete_hits n) (ITEM_clsid x) (u64 (n_delete_hits n (ITEM_clsid x) + 1)) |>)) ;;
        Wb (do_item_unlink it hv ;; storage_delete it) ;;
        write_bin_response no_body 0 0 0
      else write_bin_error KEY_EEXISTS None 0) ;;
     Wb (do_item_remove it)
   else
     write_bin_error KEY_ENOENT None 0 ;;
     S_ (incr_stat n_delete_misses (λ v n, n <| n_delete_misses := v |>))) ;;
  Wb (item_unlock hv).

(** ** SASL is off *)

Definition bin_sasl_off : M bsession unit :=
  b ← get_state;
  write_bin_error UNKNOWN_COMMAND None (s32 (h_bodylen (b_header b) - h_keylen (b_header b))).

(** ** Dispatch *)

(** The loud command of a quiet one. *)
Definition loud (cmd : Z) : option Z :=
  if cmd =? CMD_SETQ then Some CMD_SET else if cmd =? CMD_ADDQ then Some CMD_ADD else if cmd =? CMD_REPLACEQ then Some CMD_REPLACE
  else if cmd =? CMD_DELETEQ then Some CMD_DELETE else if cmd =? CMD_INCREMENTQ then Some CMD_INCREMENT
  else if cmd =? CMD_DECREMENTQ then Some CMD_DECREMENT else if cmd =? CMD_QUITQ then Some CMD_QUIT
  else if cmd =? CMD_FLUSHQ then Some CMD_FLUSH else if cmd =? CMD_APPENDQ then Some CMD_APPEND
  else if cmd =? CMD_PREPENDQ then Some CMD_PREPEND else if cmd =? CMD_GETQ then Some CMD_GET else if cmd =? CMD_GETKQ then Some CMD_GETK
  else if cmd =? CMD_GATQ then Some CMD_GAT else if cmd =? CMD_GATKQ then Some CMD_GATK else None.

Definition or_protocol_error (ok : bool) (m : M bsession unit) : M bsession unit :=
  if ok then m else handle_binary_protocol_error.

Definition bin_command (cmd extlen keylen bodylen : Z) (key extbuf : list Z) : M bsession unit :=
  let empty := (extlen =? 0) && (keylen =? 0) && (bodylen =? 0) in
  if cmd =? CMD_VERSION then or_protocol_error empty (write_bin_response (InText VERSION) 0 0 (Z.of_nat (length VERSION)))
  else if cmd =? CMD_FLUSH then
    or_protocol_error ((keylen =? 0) && (bodylen =? extlen) && ((extlen =? 0) || (extlen =? 4))) (process_bin_flush extbuf)
  else if cmd =? CMD_NOOP then or_protocol_error empty (write_bin_response no_body 0 0 0 ;; S_ (conn_set_state conn_mwrite))
  else if (cmd =? CMD_SET) || (cmd =? CMD_ADD) || (cmd =? CMD_REPLACE) then
    or_protocol_error ((extlen =? 8) && negb (keylen =? 0) && (keylen + 8 <=? bodylen)) (process_bin_update key extbuf)
  else if (cmd =? CMD_GET) || (cmd =? CMD_GETK) then
    or_protocol_error ((extlen =? 0) && (bodylen =? keylen) && (0 <? keylen)) (process_bin_get_or_touch key extbuf)
  else if cmd =? CMD_DELETE then or_protocol_error ((0 <? keylen) && (extlen =? 0) && (bodylen =? keylen)) (process_bin_delete key)
  else if (cmd =? CMD_INCREMENT) || (cmd =? CMD_DECREMENT) then
    or_protocol_error ((0 <? keylen) && (extlen =? 20) && (bodylen =? keylen + extlen)) (complete_incr_bin key extbuf)
  else if (cmd =? CMD_APPEND) || (cmd =? CMD_PREPEND) then
    or_protocol_error ((0 <? keylen) && (extlen =? 0)) (process_bin_append_prepend key)
  else if cmd =? CMD_STAT then or_protocol_error (extlen =? 0) (process_bin_stat key)
  else if cmd =? CMD_QUIT then
    or_protocol_error empty (write_bin_response no_body 0 0 0 ;; S_ (conn_set_state conn_mwrite) ;; close_after_write)
  else if cmd =? CMD_SASL_LIST_MECHS then or_protocol_error empty bin_sasl_off
  else if (cmd =? CMD_SASL_AUTH) || (cmd =? CMD_SASL_STEP) then or_protocol_error ((extlen =? 0) && negb (keylen =? 0)) bin_sasl_off
  else if (cmd =? CMD_TOUCH) || (cmd =? CMD_GAT) || (cmd =? CMD_GATK) then
    or_protocol_error ((extlen =? 4) && negb (keylen =? 0)) (process_bin_get_or_touch key extbuf)
  else write_bin_error UNKNOWN_COMMAND None (s32 bodylen).

Definition dispatch_bin_command (key extbuf : list Z) : M bsession unit :=
  b ← get_state;
  let h := b_header b in
  let extlen := h_extlen h in
  let keylen := h_keylen h in
  let bodylen := h_bodylen h in
  if (bodylen <? keylen) || (bodylen <? keylen + extlen) then write_bin_error UNKNOWN_COMMAND None 0 ;; close_after_write
  else
    S_ (on_conn (λ c, c <| k_noreply := true |>)) ;;
    if KEY_MAX_LENGTH <? keylen then handle_binary_protocol_error
    else
      (match loud (b_cmd b) with
       | Some cmd => modify (λ b, b <| b_cmd := cmd |>)
       | None => S_ (on_conn (λ c, c <| k_noreply := false |>))
       end) ;;
      cmd ← gets b_cmd;
      bin_command cmd extlen keylen bodylen key extbuf.

(** 0: more has to be read; -1: the connection is to be closed; 1: a request was
    carried out, or its value is awaited. *)
Definition try_read_command_binary : M bsession Z :=
  c ← S_ (gets z_conn);
  let buf := k_rbuf c in
  if Z.of_nat (length buf) <? 24 then mret 0
  else
    let h := parse_header buf in
    modify (λ b, b <| b_header := h |>) ;;
    if negb (h_magic h =? PROTOCOL_BINARY_REQ) then S_ (conn_set_state conn_closing) ;; mret (-1)
    else
      let extlen := h_extlen h in
      let keylen := h_keylen h in
      if Z.of_nat (length buf) <? keylen + extlen + 24 then mret 0
      else
        started ← S_ resp_start;
        if negb (started : bool) then S_ (conn_set_state conn_closing) ;; mret (-1)
        else
          modify (λ b, b <| b_cmd := h_opcode h |>) ;;
          set_conn_cas 0 ;;
          now ← Wb (gets w_current_time);
          let n := keylen + extlen + 24 in
          let extbuf := slice 24 (Z.min extlen BIN_MAX_EXTLEN) buf in
          let key := slice (24 + extlen) keylen buf in
          S_ (on_conn (λ c, c <| k_last_cmd_time := now |> <| k_rbuf := drop (Z.to_nat n) (k_rbuf c) |> <| k_rcurr := k_rcurr c + n |>)) ;;
          dispatch_bin_command key extbuf ;;
          mret 1.
End ProtoBin.
