(* ===== verification/Machine.v ===== *)
(** * The connection machine ([memcached.c])

    [drive_machine] reads from the socket, has the commands carried out and sends
    the responses. What the socket does is input: the results of the coming reads,
    writes and event registrations. *)

From Stdlib Require Import Ascii String.
From stdpp Require Import strings.
From S2P Require Import Prelude Itoa Util Base64 Hashes StatsPrefix State Assoc Slabs Items Store Tokens Conn.

(** The result of a [read]: the bytes, none at the end of the stream, or [-1] with
    or without [EAGAIN]. *)
Inductive read_result : Type := Got (b : list Z) | ReadAgain | ReadFailed.
Inductive send_result : Type := Sent (n : Z) | SendAgain | SendFailed.

(** When they run out, reads and writes would block and registrations succeed. *)
Record net : Type := mkNet {
  nt_reads : list read_result;
  nt_sends : list send_result;
  nt_events : list bool;
  nt_sent : list Z;
  nt_bytes_read : Z;
  nt_bytes_written : Z
}.
#[global] Instance net_eta : Eta net := λ r,
  mkNet (nt_reads r) (nt_sends r) (nt_events r) (nt_sent r) (nt_bytes_read r) (nt_bytes_written r).

Record machine : Type := mkMachine { mc_session : session; mc_net : net }.
#[global] Instance machine_eta : Eta machine := λ r, mkMachine (mc_session r) (mc_net r).

(** An operation on the session. *)
Definition Z_ {A} (m : M session A) : M machine A := λ s,
  match m (mc_session s) with
  | Some (a, z) => Some (a, s <| mc_session := z |>)
  | None => None
  end.
Definition on_net (f : net → net) : M machine unit := modify (λ s, s <| mc_net := f (mc_net s) |>).

(** [read(fd, buf, count)]: at most [count] bytes, the rest comes with the next
    read. *)
Definition c_read (count : Z) : M machine read_result := λ s,
  if count <=? 0 then Some (Got [], s)
  else
    match nt_reads (mc_net s) with
    | [] => Some (ReadAgain, s)
    | Got b :: rest =>
        let b1 := take (Z.to_nat count) b in
        let b2 := drop (Z.to_nat count) b in
        let rest := match b2 with [] => rest | _ => Got b2 :: rest end in
        Some (Got b1, s <| mc_net := (mc_net s) <| nt_reads := rest |>
                                       <| nt_bytes_read := u64 (nt_bytes_read (mc_net s) + Z.of_nat (length b1)) |> |>)
    | r :: rest => Some (r, s <| mc_net := (mc_net s) <| nt_reads := rest |> |>)
    end.

(** [sendmsg] with these bytes. *)
Definition c_sendmsg (b : list Z) : M machine send_result := λ s,
  match nt_sends (mc_net s) with
  | [] => Some (SendAgain, s)
  | Sent n :: rest =>
      let n := Z.max 0 (Z.min n (Z.of_nat (length b))) in
      Some (Sent n, s <| mc_net := (mc_net s) <| nt_sends := rest |>
                                     <| nt_sent := nt_sent (mc_net s) ++ take (Z.to_nat n) b |>
                                     <| nt_bytes_written := u64 (nt_bytes_written (mc_net s) + n) |> |>)
  | r :: rest => Some (r, s <| mc_net := (mc_net s) <| nt_sends := rest |> |>)
  end.

Definition update_event (write : bool) : M machine bool := λ s,
  if eqb (k_ev_write (z_conn (mc_session s))) write then Some (true, s)
  else
    match nt_events (mc_net s) with
    | [] => (Z_ (on_conn (λ c, c <| k_ev_write := write |>)) ;; mret true) s
    | ok :: rest =>
        (on_net (λ n, n <| nt_events := rest |>) ;;
         when ok (Z_ (on_conn (λ c, c <| k_ev_write := write |>))) ;; mret ok) s
    end.

Section Machine.
Context {HF : HashFn}.

(** ** Sending ([_transmit_pre], [_transmit_post], [transmit]) *)

Definition IOV_MAX : Z := 1024.

(** The chunks of a large item: [done] bytes of the value are skipped, [todo] are
    left. *)
Fixpoint pre_chunks (fuel : nat) (h : gmap Z item) (ch done todo : Z) (iovs : list (list Z)) : list (list Z) :=
  match fuel with
  | O => iovs
  | S fuel =>
      match h !! ch with
      | None => iovs
      | Some c =>
          if (0 <? todo) && (Z.of_nat (length iovs) <? IOV_MAX - 1) then
            if ch_used c =? 0 then pre_chunks fuel h (i_next c) done todo iovs
            else if ch_used c <=? done then pre_chunks fuel h (i_next c) (done - ch_used c) todo iovs
            else
              let skip := done in
              let len := if todo <? ch_used c - skip then todo else ch_used c - skip in
              pre_chunks fuel h (i_next c) 0 (todo - (ch_used c - skip)) (iovs ++ [slice skip len (i_data c)])
          else iovs
      end
  end.

(** The entries of a response with a large item, from index [x] on. *)
Fixpoint pre_iovs (h : gmap Z item) (r : mc_resp) (x : nat) (l : list iov) (iovs : list (list Z)) : list (list Z) :=
  match l with
  | [] => iovs
  | v :: l =>
      let iovs :=
        match v_base v with
        | InChunks it total =>
            if (x =? rs_chunked_data_iov r)%nat then
              match h !! it with
              | Some i => pre_chunks (size h) h (ITEM_schunk it i) (total - v_len v) (v_len v) iovs
              | None => iovs
              end
            else iovs
        | _ => iovs ++ [iov_bytes h r v]
        end in
      if IOV_MAX - 1 <=? Z.of_nat (length iovs) then iovs else pre_iovs h r (S x) l iovs
  end.

(** The segments handed to [sendmsg]. *)
Fixpoint _transmit_pre (h : gmap Z item) (resps : list mc_resp) (iovs : list (list Z)) (one_resp : bool) : list (list Z) :=
  match resps with
  | [] => iovs
  | r :: resps =>
      if Z.of_nat (length iovs) + Z.of_nat (length (rs_iov r)) <? IOV_MAX - 1 then
        if rs_skip r then _transmit_pre h resps iovs one_resp
        else
          let iovs := if negb (rs_chunked_data_iov r =? 0)%nat then pre_iovs h r 0 (rs_iov r) iovs
                      else iovs ++ (iov_bytes h r <$> rs_iov r) in
          if one_resp then iovs else _transmit_pre h resps iovs one_resp
      else iovs
  end.

(** [iov->iov_base + res]. *)
Definition iov_advance (n : Z) (b : iov_base) : iov_base :=
  match b with
  | InWbuf off => InWbuf (off + n)
  | InText b => InText (drop (Z.to_nat n) b)
  | InItem it off => InItem it (off + n)
  | InChunks it total => InChunks it total
  end.

(** The loop over the entries of a response that was not sent completely: the
    entries, [tosend] and what is left of [res]. *)
Fixpoint post_iovs (x chunked_data_iov : nat) (l : list iov) (tosend res : Z) : list iov * Z * Z :=
  match l with
  | [] => ([], tosend, res)
  | v :: l =>
      if v_len v <=? res then
        let '(l, tosend, res) := post_iovs (S x) chunked_data_iov l (tosend - v_len v) (res - v_len v) in
        (v <| v_len := 0 |> :: l, tosend, res)
      else
        let base := if (chunked_data_iov =? 0)%nat || negb (x =? chunked_data_iov)%nat
                    then iov_advance res (v_base v) else v_base v in
        (mkIov base (v_len v - res) :: l, tosend - res, 0)
  end.

(** [n] bounds the number of responses. *)
Fixpoint transmit_post_loop (n : nat) (res : Z) : M session unit :=
  match n with
  | O => mret tt
  | S n =>
      l ← gets (λ z, k_resps (z_conn z));
      match l with
      | [] => mret tt
      | r :: rest =>
          if rs_skip r then resp_finish ;; transmit_post_loop n res
          else if rs_tosend r <=? res then resp_finish ;; transmit_post_loop n (res - rs_tosend r)
          else
            let '(iovs, tosend, res) := post_iovs 0 (rs_chunked_data_iov r) (rs_iov r) (rs_tosend r) res in
            on_conn (λ c, c <| k_resps := r <| rs_iov := iovs |> <| rs_tosend := tosend |> :: rest |>) ;;
            if tosend =? 0 then resp_finish ;; transmit_post_loop n res else mret tt
      end
  end.

Definition _transmit_post (res : Z) : M session unit :=
  l ← gets (λ z, k_resps (z_conn z)); transmit_post_loop (length l) res.

Inductive transmit_result : Type := TRANSMIT_COMPLETE | TRANSMIT_INCOMPLETE | TRANSMIT_SOFT_ERROR | TRANSMIT_HARD_ERROR.

Definition transmit : M machine transmit_result :=
  z ← gets mc_session;
  let iovs := _transmit_pre (w_heap (z_world z)) (k_resps (z_conn z)) [] false in
  match iovs with
  | [] => Z_ (_transmit_post 0) ;; mret TRANSMIT_COMPLETE
  | _ =>
      res ← c_sendmsg (concat iovs);
      match res with
      | Sent n =>
          Z_ (_transmit_post n) ;;
          l ← gets (λ s, k_resps (z_conn (mc_session s)));
          mret (match l with [] => TRANSMIT_COMPLETE | _ => TRANSMIT_INCOMPLETE end)
      | SendAgain =>
          ok ← update_event true;
          if negb (ok : bool) then Z_ (conn_set_state conn_closing) ;; mret TRANSMIT_HARD_ERROR
          else mret TRANSMIT_SOFT_ERROR
      | SendFailed => Z_ (conn_set_state conn_closing) ;; mret TRANSMIT_HARD_ERROR
      end
  end.

End Machine.
