(* ===== verification/Drive.v ===== *)
(** * The connection machine: states ([memcached.c])

    Reading from the socket, reading the value of an item, dropping bytes, and the
    loop over the states of a TCP connection. *)

From Stdlib Require Import Ascii String SpecFloat.
From stdpp Require Import strings.
From S2P Require Import Prelude Hashes State Slabs Items Store Tokens Conn ProtoText ProtoCmd Machine.

(** The protocol of a connection: [c->try_read_command], [true] unless more has to
    be read, and what [complete_nread] calls. *)
Class Protocol : Type := {
  try_read_command : M session bool;
  complete_nread : M session unit
}.

Definition ascii_prot `{HF : HashFn} (storage_get_item : Z → M session Z) (past : list Z)
    (safe_strtod : list Z → option spec_float) (report_command : list token_t → M session unit) : Protocol :=
  {| try_read_command := try_read_command_ascii storage_get_item past safe_strtod report_command;
     complete_nread := complete_nread_ascii |}.

Definition READ_BUFFER_SIZE : Z := 16384.

Section Drive.
Context {HF : HashFn} {PR : Protocol}.

(** ** The read buffer *)

Definition rbuf_release : M session unit :=
  c ← gets z_conn;
  when (negb (k_rsize c =? 0) && (length (k_rbuf c) =? 0)%nat)
    (on_conn (λ c, c <| k_rbuf_malloced := false |> <| k_rsize := 0 |> <| k_rcurr := 0 |>)).

Definition rbuf_alloc : M session bool :=
  c ← gets z_conn;
  if k_rsize c =? 0 then
    ok ← mem_next;
    if negb (ok : bool) then on_cmd_stats (λ n, n <| n_read_buf_oom := u64 (n_read_buf_oom n + 1) |>) ;; mret false
    else on_conn (λ c, c <| k_rsize := READ_BUFFER_SIZE |> <| k_rcurr := 0 |>) ;; mret true
  else mret true.

Inductive try_read_result : Type := READ_DATA_RECEIVED | READ_NO_DATA_RECEIVED | READ_ERROR | READ_MEMORY_ERROR.

(** [rbytes], as an integer. *)
Definition rbytes (c : conn) : Z := Z.of_nat (length (k_rbuf c)).

(** Five rounds at most: a sixth finds [num_allocs] to be 4. *)
Fixpoint read_loop (fuel : nat) (num_allocs : Z) (gotdata : try_read_result) : M machine try_read_result :=
  match fuel with
  | O => undefined
  | S fuel =>
      c ← gets (λ s, z_conn (mc_session s));
      let full := (k_rsize c <=? rbytes c) && k_rbuf_malloced c in
      if full && (num_allocs =? 4) then mret gotdata
      else
        ok ← (if full then Z_ mem_next else mret true);
        if negb (ok : bool) then
          Z_ (on_cmd_stats (λ n, n <| n_malloc_fails := u64 (n_malloc_fails n + 1) |>) ;;
              on_conn (λ c, c <| k_rbuf := [] |>) ;;
              out_of_memory (txt "SERVER_ERROR out of memory reading request") ;;
              on_conn (λ c, c <| k_close_after_write := true |>)) ;;
          mret READ_MEMORY_ERROR
        else
          when full (Z_ (on_conn (λ c, c <| k_rcurr := 0 |> <| k_rsize := k_rsize c * 2 |>))) ;;
          let num_allocs := if full then num_allocs + 1 else num_allocs in
          c ← gets (λ s, z_conn (mc_session s));
          let avail := k_rsize c - rbytes c in
          res ← c_read avail;
          match res with
          | Got [] => mret READ_ERROR
          | Got b =>
              Z_ (on_conn (λ c, c <| k_rbuf := k_rbuf c ++ b |>)) ;;
              if (Z.of_nat (length b) =? avail) && k_rbuf_malloced c then read_loop fuel num_allocs READ_DATA_RECEIVED
              else mret READ_DATA_RECEIVED
          | ReadAgain => mret gotdata
          | ReadFailed => mret READ_ERROR
          end
  end.

Definition try_read_network : M machine try_read_result :=
  Z_ (on_conn (λ c, c <| k_rcurr := 0 |>)) ;;
  read_loop 6 0 READ_NO_DATA_RECEIVED.

(** ** The value of an item *)

(** [n] bytes leave the read buffer. *)
Definition rbuf_take (n : Z) : M session (list Z) :=
  c ← gets z_conn;
  on_conn (λ c, c <| k_rbuf := drop (Z.to_nat n) (k_rbuf c) |> <| k_rcurr := k_rcurr c + n |>) ;;
  mret (take (Z.to_nat n) (k_rbuf c)).

(** What a read gave: the value of [res], and whether [errno] is [EAGAIN]. *)
Definition read_value (r : read_result) : Z * bool :=
  match r with Got b => (Z.of_nat (length b), false) | ReadAgain => (-1, true) | ReadFailed => (-1, false) end.

(** A round of [read_into_chunked_item] with the chunk [ch] at [a]: fill it from the
    buffer, else from the socket. The result is [total], [errno] and whether to go
    on. *)
Definition fill_chunk (a : Z) (ch : item) (total : Z) : M machine (Z * bool * bool) :=
  c ← gets (λ s, z_conn (mc_session s));
  let unused := ch_size ch - ch_used ch in
  if 0 <? rbytes c then
    let tocopy := if k_rlbytes c <? rbytes c then k_rlbytes c else rbytes c in
    let tocopy := if unused <? tocopy then unused else tocopy in
    b ← Z_ (rbuf_take tocopy);
    Z_ (W (chunk_append a b) ;; on_conn (λ c, c <| k_rlbytes := k_rlbytes c - tocopy |>)) ;;
    mret (tocopy, false, true)
  else
    res ← c_read (if k_rlbytes c <? unused then k_rlbytes c else unused);
    match res with
    | Got ((_ :: _) as b) =>
        let n := Z.of_nat (length b) in
        Z_ (W (chunk_append a b) ;; on_conn (λ c, c <| k_rlbytes := k_rlbytes c - n |>)) ;;
        mret (total + n, false, true)
    | _ => mret ((read_value res).1, (read_value res).2, false)
    end.

(** For text connections. When there is a next chunk already, the round goes on
    with the full one. *)
Fixpoint chunked_loop (fuel : nat) (total : Z) : M machine (Z * bool) :=
  match fuel with
  | O => undefined
  | S fuel =>
      c ← gets (λ s, z_conn (mc_session s));
      if negb (0 <? k_rlbytes c) then mret (total, false)
      else
        let a := (k_ritem c).1 in
        ch ← Z_ (W (load a));
        if (ch_size ch =? ch_used ch) && (i_next ch =? NULL) then
          next ← Z_ (W (do_item_alloc_chunk a (k_rlbytes c)));
          Z_ (on_conn (λ c, c <| k_ritem := (next, 0) |>)) ;;
          if next =? NULL then mret (-2, false) else chunked_loop fuel total
        else
          when (ch_size ch =? ch_used ch) (Z_ (on_conn (λ c, c <| k_ritem := (i_next ch, 0) |>))) ;;
          r ← fill_chunk a ch total;
          let '(total, again, go) := r in
          if (go : bool) then chunked_loop fuel total else mret (total, again)
  end.

(** A round takes a byte, or gets a chunk with room, or steps to the next chunk. *)
Definition read_into_chunked_item : M machine (Z * bool) :=
  c ← gets (λ s, z_conn (mc_session s));
  n ← gets (λ s, size (w_heap (z_world (mc_session s))));
  chunked_loop (2 * Z.to_nat (k_rlbytes c) + n + 2) 0.

(** ** The states

    Each of them tells whether [drive_machine] stops. *)

Definition stay : M machine bool := mret false.
Definition go_to (st : conn_states) : M machine bool := Z_ (conn_set_state st) ;; mret false.

(** Wait for the socket to become readable, or writable. *)
Definition wait_event (write : bool) : M machine bool :=
  ok ← update_event write;
  if negb (ok : bool) then go_to conn_closing else mret true.

Definition state_waiting : M machine bool :=
  Z_ rbuf_release ;;
  ok ← update_event false;
  if negb (ok : bool) then go_to conn_closing
  else Z_ (conn_set_state conn_read) ;; mret true.

Definition state_read : M machine bool :=
  ok ← Z_ rbuf_alloc;
  if negb (ok : bool) then go_to conn_closing
  else
    res ← try_read_network;
    match res with
    | READ_NO_DATA_RECEIVED => go_to conn_waiting
    | READ_DATA_RECEIVED => go_to conn_parse_cmd
    | READ_ERROR => go_to conn_closing
    | READ_MEMORY_ERROR => stay
    end.

Definition state_parse_cmd : M machine bool :=
  Z_ (set_noreply false) ;;
  done ← Z_ try_read_command;
  if negb (done : bool) then
    c ← gets (λ s, z_conn (mc_session s));
    match k_resps c with [] => go_to conn_waiting | _ => go_to conn_mwrite end
  else stay.

Definition reset_cmd_handler : M session unit :=
  c ← gets z_conn;
  on_conn (λ c, c <| k_cmd := None |>) ;;
  (if k_item c =? NULL then mret tt else W (item_remove (k_item c)) ;; on_conn (λ c, c <| k_item := NULL |>)) ;;
  c ← gets z_conn;
  conn_set_state (if 0 <? rbytes c then conn_parse_cmd else match k_resps c with [] => conn_waiting | _ => conn_mwrite end).

(** [nreqs], already counted down. *)
Definition state_new_cmd (nreqs : Z) : M machine bool :=
  c ← gets (λ s, z_conn (mc_session s));
  if 0 <=? nreqs then Z_ reset_cmd_handler ;; stay
  else
    match k_resps c with
    | _ :: _ => go_to conn_mwrite
    | [] =>
        Z_ (on_cmd_stats (λ n, n <| n_conn_yields := u64 (n_conn_yields n + 1) |>)) ;;
        if 0 <? rbytes c then wait_event true else mret true
    end.

(** The end of a read that gave nothing: [res] and [errno]. *)
Definition read_stopped (res : Z) (again : bool) : M machine bool :=
  if res =? 0 then go_to conn_closing
  else if (res =? -1) && again then wait_event false
  else if res =? -2 then
    Z_ (out_of_memory (txt "SERVER_ERROR Out of memory during read") ;;
        on_conn (λ c, c <| k_sbytes := k_rlbytes c |>) ;;
        conn_set_state conn_swallow ;;
        W (modify (λ s, s <| w_conn := (w_conn s) <| c_set_stale := false |> |>)) ;;
        on_conn (λ c, c <| k_mset_res := false |>)) ;;
    stay
  else go_to conn_closing.

(** Bytes of the value, to [c->ritem]. *)
Definition store_value (b : list Z) : M session unit :=
  c ← gets z_conn;
  let '(it, off) := k_ritem c in
  let n := Z.of_nat (length b) in
  W (data_write it off b) ;;
  on_conn (λ c, c <| k_ritem := (it, off + n) |> <| k_rlbytes := k_rlbytes c - n |>).

(** Unless the value is complete: from the socket. *)
Definition nread_socket : M machine bool :=
  c ← gets (λ s, z_conn (mc_session s));
  if k_rlbytes c =? 0 then stay
  else
    res ← c_read (k_rlbytes c);
    match res with
    | Got ((_ :: _) as b) => Z_ (store_value b) ;; stay
    | _ => read_stopped (read_value res).1 (read_value res).2
    end.

Definition state_nread : M machine bool :=
  c ← gets (λ s, z_conn (mc_session s));
  if k_rlbytes c =? 0 then Z_ complete_nread ;; stay
  else if k_rlbytes c <? 0 then go_to conn_closing
  else
    x ← Z_ (W (load (k_item c)));
    if negb (flag (i_it_flags x) ITEM_CHUNKED) then
      (if 0 <? rbytes c then Z_ (b ← rbuf_take (if k_rlbytes c <? rbytes c then k_rlbytes c else rbytes c); store_value b)
       else mret tt) ;;
      nread_socket
    else
      r ← read_into_chunked_item;
      if 0 <? r.1 then stay else read_stopped r.1 r.2.

Definition state_swallow : M machine bool :=
  c ← gets (λ s, z_conn (mc_session s));
  if k_sbytes c <=? 0 then go_to conn_new_cmd
  else if 0 <? rbytes c then
    let tocopy := if k_sbytes c <? rbytes c then k_sbytes c else rbytes c in
    Z_ (rbuf_take tocopy) ;;
    Z_ (on_conn (λ c, c <| k_sbytes := k_sbytes c - tocopy |>)) ;;
    stay
  else
    res ← c_read (if k_sbytes c <? k_rsize c then k_sbytes c else k_rsize c);
    match res with
    | Got ((_ :: _) as b) => Z_ (on_conn (λ c, c <| k_sbytes := k_sbytes c - Z.of_nat (length b) |>)) ;; stay
    | Got [] => go_to conn_closing
    | ReadAgain => wait_event false
    | ReadFailed => go_to conn_closing
    end.

(** Without requests to the external store. *)
Definition state_mwrite : M machine bool :=
  r ← transmit;
  match r with
  | TRANSMIT_COMPLETE =>
      c ← gets (λ s, z_conn (mc_session s));
      match k_state c with
      | conn_mwrite =>
          Z_ conn_release_items ;;
          go_to (if k_close_after_write c then conn_closing else conn_new_cmd)
      | _ => go_to conn_closing
      end
  | TRANSMIT_INCOMPLETE | TRANSMIT_HARD_ERROR => stay
  | TRANSMIT_SOFT_ERROR => mret true
  end.

Definition conn_close : M session unit :=
  conn_release_items ;;
  on_conn (λ c, c <| k_rbuf := [] |>) ;;
  rbuf_release ;;
  conn_set_state conn_closed ;;
  on_cmd_stats (λ n, n <| n_curr_conns := u64 (n_curr_conns n - 1) |>).

(** One round of the loop of [drive_machine]: whether it stops, and [nreqs]. *)
Definition drive_step (nreqs : Z) : M machine (bool * Z) :=
  c ← gets (λ s, z_conn (mc_session s));
  let run (m : M machine bool) : M machine (bool * Z) := stop ← m; mret (stop, nreqs) in
  match k_state c with
  | conn_waiting => run state_waiting
  | conn_read => run state_read
  | conn_parse_cmd => run state_parse_cmd
  | conn_new_cmd => stop ← state_new_cmd (nreqs - 1); mret (stop, nreqs - 1)
  | conn_nread => run state_nread
  | conn_swallow => run state_swallow
  | conn_mwrite => run state_mwrite
  | conn_closing => run (Z_ conn_close ;; mret true)
  | conn_closed => undefined
  | conn_watch => run (mret true)
  end.

(** [drive_machine] with a bound on the rounds; [nreqs] starts as
    [settings.reqs_per_event]. *)
Fixpoint drive_machine (fuel : nat) (nreqs : Z) : M machine unit :=
  match fuel with
  | O => undefined
  | S fuel =>
      r ← drive_step nreqs;
      let '(stop, nreqs) := r in
      if (stop : bool) then mret tt else drive_machine fuel nreqs
  end.

End Drive.
