(* ===== verification/Wire.v ===== *)
(** * What the commands leave alone

    No command touches the read buffer of its connection or its registration for
    events. *)

From Stdlib Require Import Ascii String SpecFloat.
From stdpp Require Import strings.
From S2P Require Import Prelude Keeps Itoa Util Base64 Hashes StatsPrefix State Assoc Slabs Items Store Tokens Conn ProtoText ProtoCmd.

Lemma keeps_W (P : session → session → Prop) {A} (m : M world A) : (∀ z s, P z (z <| z_world := s |>)) → keeps P (W m).
Proof. intros Hw z a z' H. unfold W in H. destruct (m (z_world z)) as [[? s]|]; simplify_eq. apply Hw. Qed.

(** ** The read side of the connection *)

Definition wire (z : session) : list Z * Z * Z * bool * bool :=
  let c := z_conn z in (k_rbuf c, k_rcurr c, k_rsize c, k_rbuf_malloced c, k_ev_write c).

Definition same_wire (z z' : session) : Prop := wire z' = wire z.

#[global] Instance same_wire_preorder : PreOrder same_wire.
Proof. split; [done|]. intros z1 z2 z3 H1 H2. unfold same_wire in *. congruence. Qed.

Lemma wire_W {A} (m : M world A) : keeps same_wire (W m).
Proof. by apply (keeps_W same_wire). Qed.
Lemma wire_on_cmd_stats f : keeps same_wire (on_cmd_stats f).
Proof. by apply keeps_modify. Qed.
Lemma wire_on_conn f :
  (∀ c, (k_rbuf (f c), k_rcurr (f c), k_rsize (f c), k_rbuf_malloced (f c), k_ev_write (f c)) =
        (k_rbuf c, k_rcurr c, k_rsize c, k_rbuf_malloced c, k_ev_write c)) → keeps same_wire (on_conn f).
Proof. intros Hf. apply keeps_modify. intros z. apply Hf. Qed.
Lemma wire_mem_next : keeps same_wire mem_next.
Proof. intros z a z' H. unfold mem_next in H. destruct (z_mem z); by simplify_eq. Qed.
Lemma wire_cur_resp : keeps same_wire cur_resp.
Proof. intros z a z' H. unfold cur_resp in H. destruct (last _); by simplify_eq. Qed.
#[export] Hint Resolve wire_W wire_on_cmd_stats wire_mem_next wire_cur_resp : keeps.
#[export] Hint Extern 1 (keeps same_wire (on_conn _)) => (by apply wire_on_conn) : keeps.
#[export] Hint Extern 1 (keeps same_wire (modify _)) => (by apply keeps_modify) : keeps.

Section Wire.
Context {HF : HashFn}.
Variable storage_get_item : Z → M session Z.
Variable past : list Z.
Variable safe_strtod : list Z → option spec_float.
Variable report_command : list token_t → M session unit.
Hypothesis storage_wire : ∀ it, keeps same_wire (storage_get_item it).
Hypothesis report_wire : ∀ tokens, keeps same_wire (report_command tokens).

Lemma wire_on_resp f : keeps same_wire (on_resp f).
Proof. unfold on_resp. keeps_tac. Qed.
Lemma wire_conn_set_state st : keeps same_wire (conn_set_state st).
Proof. unfold conn_set_state. keeps_tac. Qed.
#[local] Hint Resolve wire_on_resp wire_conn_set_state storage_wire report_wire : keeps.

Lemma wire_resp_start : keeps same_wire resp_start.
Proof. unfold resp_start. keeps_tac. Qed.
Lemma wire_resp_finish : keeps same_wire resp_finish.
Proof. unfold resp_finish. keeps_tac. Qed.
Lemma wire_resp_reset : keeps same_wire resp_reset.
Proof. unfold resp_reset. keeps_tac. Qed.
Lemma wire_resp_add_iov b n : keeps same_wire (resp_add_iov b n).
Proof. unfold resp_add_iov. keeps_tac. Qed.
Lemma wire_put p b : keeps same_wire (put p b).
Proof. unfold put. keeps_tac. Qed.
#[local] Hint Resolve wire_resp_start wire_resp_finish wire_resp_reset wire_resp_add_iov wire_put : keeps.
Lemma wire_out_string str : keeps same_wire (out_string str).
Proof. unfold out_string. keeps_tac. Qed.
#[local] Hint Resolve wire_out_string : keeps.
Lemma wire_finish_all n : keeps same_wire (finish_all n).
Proof. induction n; simpl; keeps_tac. Qed.
#[local] Hint Resolve wire_finish_all : keeps.

Lemma wire_conn_release_items : keeps same_wire (conn_release_items).
Proof. unfold conn_release_items. keeps_tac. Qed.
#[local] Hint Resolve wire_conn_release_items : keeps.
Lemma wire_incr_stat f g : keeps same_wire (incr_stat f g).
Proof. unfold incr_stat. keeps_tac. Qed.
Lemma wire_set_noreply_maybe ts : keeps same_wire (set_noreply_maybe ts).
Proof. unfold set_noreply_maybe. keeps_tac. Qed.
Lemma wire_tok ts i : keeps same_wire (tok ts i).
Proof. unfold tok. keeps_tac. Qed.
Lemma wire_tok_length ts i : keeps same_wire (tok_length ts i).
Proof. unfold tok_length. keeps_tac. Qed.
Lemma wire_tok_key ts : keeps same_wire (tok_key ts).
Proof. unfold tok_key. keeps_tac. Qed.
Lemma wire_exptime_of x : keeps same_wire (exptime_of x).
Proof. unfold exptime_of. keeps_tac. Qed.
Lemma wire_record_prefix f : keeps same_wire (record_prefix f).
Proof. unfold record_prefix. keeps_tac. Qed.
Lemma wire_set_noreply b : keeps same_wire (set_noreply b).
Proof. unfold set_noreply. keeps_tac. Qed.
Lemma wire_skip_if_noreply : keeps same_wire (skip_if_noreply).
Proof. unfold skip_if_noreply. keeps_tac. Qed.
Lemma wire_ok_code : keeps same_wire (ok_code).
Proof. unfold ok_code. keeps_tac. Qed.
Lemma wire_preparse ts i fl : keeps same_wire (preparse ts i fl).
Proof. unfold preparse. keeps_tac. Qed.
#[local] Hint Resolve wire_incr_stat wire_set_noreply_maybe wire_tok wire_tok_length wire_tok_key wire_exptime_of wire_record_prefix wire_set_noreply wire_skip_if_noreply wire_ok_code wire_preparse : keeps.
Lemma wire_key_too_long ts : keeps same_wire (key_too_long ts).
Proof. unfold key_too_long. keeps_tac. Qed.
Lemma wire_put_u32 p v : keeps same_wire (put_u32 p v).
Proof. unfold put_u32. keeps_tac. Qed.
Lemma wire_put_u64 p v : keeps same_wire (put_u64 p v).
Proof. unfold put_u64. keeps_tac. Qed.
Lemma wire_out_errstring s : keeps same_wire (out_errstring s).
Proof. unfold out_errstring. keeps_tac. Qed.
Lemma wire_out_of_memory s : keeps same_wire (out_of_memory s).
Proof. unfold out_of_memory. keeps_tac. Qed.
Lemma wire_count_hit x b : keeps same_wire (count_hit x b).
Proof. unfold count_hit. keeps_tac. Qed.
Lemma wire_count_miss b : keeps same_wire (count_miss b).
Proof. unfold count_miss. keeps_tac. Qed.
Lemma wire_resp_add_chunked_iov it n : keeps same_wire (resp_add_chunked_iov it n).
Proof. unfold resp_add_chunked_iov. keeps_tac. Qed.
#[local] Hint Resolve wire_key_too_long wire_put_u32 wire_put_u64 wire_out_errstring wire_out_of_memory wire_count_hit wire_count_miss wire_resp_add_chunked_iov : keeps.
Lemma wire_META_SPACE p : keeps same_wire (META_SPACE p).
Proof. unfold META_SPACE. keeps_tac. Qed.
Lemma wire_META_CHAR p c : keeps same_wire (META_CHAR p c).
Proof. unfold META_CHAR. keeps_tac. Qed.
Lemma wire_put_ttl p x : keeps same_wire (put_ttl p x).
Proof. unfold put_ttl. keeps_tac. Qed.
Lemma wire_make_ascii_get_suffix p x b n : keeps same_wire (make_ascii_get_suffix p x b n).
Proof. unfold make_ascii_get_suffix. keeps_tac. Qed.
Lemma wire_add_value it x : keeps same_wire (add_value storage_get_item it x).
Proof. unfold add_value. keeps_tac. Qed.
#[local] Hint Resolve wire_META_SPACE wire_META_CHAR wire_put_ttl wire_make_ascii_get_suffix wire_add_value : keeps.
Lemma wire_META_KEY p k b : keeps same_wire (META_KEY p k b).
Proof. unfold META_KEY. keeps_tac. Qed.
Lemma wire_put_opaque p t : keeps same_wire (put_opaque p t).
Proof. unfold put_opaque. keeps_tac. Qed.
Lemma wire_get_one k e b1 b2 : keeps same_wire (get_one storage_get_item k e b1 b2).
Proof. unfold get_one. keeps_tac. Qed.
#[local] Hint Resolve wire_META_KEY wire_put_opaque wire_get_one : keeps.


Lemma wire_get_keys ts e b1 b2 : keeps same_wire (get_keys storage_get_item ts e b1 b2).
Proof. induction ts as [|t ts IH]; simpl; keeps_tac. Qed.
#[local] Hint Resolve wire_get_keys : keeps.
Lemma wire_get_lines n ts e b1 b2 : keeps same_wire (get_lines storage_get_item n ts e b1 b2).
Proof. revert ts. induction n; intros ts; cbn [get_lines]; keeps_tac. Qed.
#[local] Hint Resolve wire_get_lines : keeps.

Lemma wire_process_get_command ts b1 b2 : keeps same_wire (process_get_command storage_get_item ts b1 b2).
Proof. unfold process_get_command. keeps_tac. Qed.
Lemma wire_process_touch_command ts : keeps same_wire (process_touch_command ts).
Proof. unfold process_touch_command. keeps_tac. Qed.
Lemma wire_process_delete_command ts : keeps same_wire (process_delete_command ts).
Proof. unfold process_delete_command. keeps_tac. Qed.
Lemma wire_count_delta_miss b : keeps same_wire (count_delta_miss b).
Proof. unfold count_delta_miss. keeps_tac. Qed.
#[local] Hint Resolve wire_process_get_command wire_process_touch_command wire_process_delete_command wire_count_delta_miss : keeps.
Lemma wire_process_arithmetic_command ts b : keeps same_wire (process_arithmetic_command past ts b).
Proof. unfold process_arithmetic_command. keeps_tac. Qed.
Lemma wire_alloc_failed nkey flags vlen answer :
  (∀ s, keeps same_wire (answer s)) → keeps same_wire (alloc_failed nkey flags vlen answer).
Proof. intros H. unfold alloc_failed. keeps_tac. Qed.
#[local] Hint Resolve wire_alloc_failed wire_process_arithmetic_command : keeps.
Lemma wire_expect_value it comm : keeps same_wire (expect_value it comm).
Proof. unfold expect_value. keeps_tac. Qed.
#[local] Hint Resolve wire_expect_value : keeps.
Lemma wire_process_update_command ts comm b : keeps same_wire (process_update_command ts comm b).
Proof. unfold process_update_command. keeps_tac. Qed.
#[local] Hint Resolve wire_process_update_command : keeps.

Lemma wire_mget_flag it fl b t st : keeps same_wire (mget_flag it fl b t st).
Proof. unfold mget_flag. keeps_tac. Qed.
#[local] Hint Resolve wire_mget_flag : keeps.
Lemma wire_mget_flags it fl b ts st : keeps same_wire (mget_flags it fl b ts st).
Proof. revert st. induction ts; intros st; cbn [mget_flags]; keeps_tac. Qed.
Lemma wire_mget_marks it p b : keeps same_wire (mget_marks it p b).
Proof. unfold mget_marks. keeps_tac. Qed.
#[local] Hint Resolve wire_mget_flags wire_mget_marks : keeps.
Lemma wire_mget_found it fl b ts : keeps same_wire (mget_found storage_get_item it fl b ts).
Proof. unfold mget_found. keeps_tac. Qed.
Lemma wire_mget_vivify key hv : keeps same_wire (mget_vivify key hv).
Proof. unfold mget_vivify. keeps_tac. Qed.
#[local] Hint Resolve wire_mget_found wire_mget_vivify : keeps.
Lemma wire_process_mget_command ts : keeps same_wire (process_mget_command storage_get_item ts).
Proof. unfold process_mget_command. keeps_tac. Qed.

Lemma wire_mset_flags ts p b : keeps same_wire (mset_flags ts p b).
Proof. revert p b. induction ts; intros p b; cbn [mset_flags]; keeps_tac. Qed.
Lemma wire_mset_error n s : keeps same_wire (mset_error n s).
Proof. unfold mset_error. keeps_tac. Qed.
Lemma wire_mset_drop_old key : keeps same_wire (mset_drop_old key).
Proof. unfold mset_drop_old. keeps_tac. Qed.
#[local] Hint Resolve wire_process_mget_command wire_mset_flags wire_mset_error wire_mset_drop_old : keeps.
Lemma wire_process_mset_command ts : keeps same_wire (process_mset_command ts).
Proof. unfold process_mset_command. keeps_tac. Qed.

Lemma wire_key_flags ts key b p : keeps same_wire (key_flags ts key b p).
Proof. revert p. induction ts; intros p; cbn [key_flags]; keeps_tac. Qed.
Lemma wire_end_line p : keeps same_wire (end_line p).
Proof. unfold end_line. keeps_tac. Qed.
Lemma wire_mdelete_found it hv fl : keeps same_wire (mdelete_found it hv fl).
Proof. unfold mdelete_found. keeps_tac. Qed.
#[local] Hint Resolve wire_process_mset_command wire_key_flags wire_end_line wire_mdelete_found : keeps.
Lemma wire_process_mdelete_command ts : keeps same_wire (process_mdelete_command ts).
Proof. unfold process_mdelete_command. keeps_tac. Qed.

Lemma wire_marith_vivify key i hv : keeps same_wire (marith_vivify key i hv).
Proof. unfold marith_vivify. keeps_tac. Qed.
Lemma wire_marith_flag it fl b key t p : keeps same_wire (marith_flag it fl b key t p).
Proof. unfold marith_flag. keeps_tac. Qed.
#[local] Hint Resolve wire_process_mdelete_command wire_marith_vivify wire_marith_flag : keeps.
Lemma wire_marith_flags it fl b key ts p : keeps same_wire (marith_flags it fl b key ts p).
Proof. revert p. induction ts; intros p; cbn [marith_flags]; keeps_tac. Qed.
Lemma wire_marith_error it hv s : keeps same_wire (marith_error it hv s).
Proof. unfold marith_error. keeps_tac. Qed.
#[local] Hint Resolve wire_marith_flags wire_marith_error : keeps.
Lemma wire_marith_found it hv fl b key buf ts p : keeps same_wire (marith_found it hv fl b key buf ts p).
Proof. unfold marith_found. keeps_tac. Qed.
Lemma wire_marith_missing hv fl key ts p : keeps same_wire (marith_missing hv fl key ts p).
Proof. unfold marith_missing. keeps_tac. Qed.
#[local] Hint Resolve wire_marith_found wire_marith_missing : keeps.
Lemma wire_process_marithmetic_command ts : keeps same_wire (process_marithmetic_command past ts).
Proof. unfold process_marithmetic_command. keeps_tac. Qed.
#[local] Hint Resolve wire_process_marithmetic_command : keeps.

(** The end of a storage command, the administrative commands and the dispatch. *)

Lemma wire_finalize_flags noted c key b cas p : keeps same_wire (finalize_flags noted c key b cas p).
Proof. revert c p. induction noted; intros c p; cbn [finalize_flags]; keeps_tac. Qed.
#[local] Hint Resolve wire_finalize_flags : keeps.
Lemma wire__finalize_mset ret : keeps same_wire (_finalize_mset ret).
Proof. unfold _finalize_mset. keeps_tac. Qed.
Lemma wire_chunked_tail ch : keeps same_wire (chunked_tail ch).
Proof. unfold chunked_tail. keeps_tac. Qed.
#[local] Hint Resolve wire__finalize_mset wire_chunked_tail : keeps.
Lemma wire_value_valid it x a : keeps same_wire (value_valid it x a).
Proof. unfold value_valid. keeps_tac. Qed.
#[local] Hint Resolve wire_value_valid : keeps.
Lemma wire_complete_nread_ascii : keeps same_wire complete_nread_ascii.
Proof. unfold complete_nread_ascii. keeps_tac. Qed.

Lemma wire_on_settings f : keeps same_wire (on_settings f).
Proof. unfold on_settings. keeps_tac. Qed.
Lemma wire_on_proto f : keeps same_wire (on_proto f).
Proof. unfold on_proto. keeps_tac. Qed.
#[local] Hint Resolve wire_on_settings wire_on_proto : keeps.
Lemma wire_process_flush_all_command ts : keeps same_wire (process_flush_all_command ts).
Proof. unfold process_flush_all_command. keeps_tac. Qed.
Lemma wire_process_quit_command : keeps same_wire process_quit_command.
Proof. unfold process_quit_command. keeps_tac. Qed.
Lemma wire_process_verbosity_command ts : keeps same_wire (process_verbosity_command ts).
Proof. unfold process_verbosity_command. keeps_tac. Qed.
Lemma wire_process_memlimit_command ts : keeps same_wire (process_memlimit_command ts).
Proof. unfold process_memlimit_command. keeps_tac. Qed.
Lemma wire_process_slabs_automove_command ts : keeps same_wire (process_slabs_automove_command safe_strtod ts).
Proof. unfold process_slabs_automove_command. keeps_tac. Qed.
#[local] Hint Resolve wire_process_slabs_automove_command wire_process_flush_all_command wire_process_quit_command
  wire_process_verbosity_command wire_process_memlimit_command : keeps.
Lemma wire_process_slabs_command ts : keeps same_wire (process_slabs_command safe_strtod ts).
Proof. unfold process_slabs_command. keeps_tac. Qed.
Lemma wire_process_lru_command ts : keeps same_wire (process_lru_command safe_strtod ts).
Proof. unfold process_lru_command. keeps_tac. Qed.
Lemma wire_put_snprintf p n s : keeps same_wire (put_snprintf p n s).
Proof. unfold put_snprintf. keeps_tac. Qed.
#[local] Hint Resolve wire_process_slabs_command wire_process_lru_command wire_put_snprintf : keeps.
Lemma wire_process_meta_command ts : keeps same_wire (process_meta_command ts).
Proof. unfold process_meta_command. keeps_tac. Qed.
#[local] Hint Resolve wire_process_meta_command : keeps.

Lemma wire_process_command_ascii command :
  keeps same_wire (process_command_ascii storage_get_item past safe_strtod report_command command).
Proof.
  unfold process_command_ascii, meta_dispatch, get_dispatch, update_dispatch, arithmetic_dispatch, process_version_command,
    WANT_TOKENS, WANT_TOKENS_OR, WANT_TOKENS_MIN. keeps_tac.
Qed.


(** ** Command lines *)

Lemma wire_rbuf z z' : same_wire z z' → k_rbuf (z_conn z') = k_rbuf (z_conn z).
Proof. unfold same_wire, wire. congruence. Qed.

(** A complete line leaves the buffer with its newline; without one, the buffer
    stays, and a connection that is not waiting for more is closed. *)
Lemma try_read_ascii_line z b z' :
  try_read_command_ascii storage_get_item past safe_strtod report_command z = Some (b, z') →
  match memchr_nl (k_rbuf (z_conn z)) with
  | Some el => b = true ∧ k_rbuf (z_conn z') = drop (S el) (k_rbuf (z_conn z))
  | None => k_rbuf (z_conn z') = k_rbuf (z_conn z) ∧ (b = true → k_state (z_conn z') = conn_closing)
  end.
Proof.
  unfold try_read_command_ascii. intros H. apply bind_inv in H as (c & z1 & [= <- <-] & H).
  destruct (length (k_rbuf (z_conn z)) =? 0)%nat eqn:E0.
  { injection H as <- <-. apply Nat.eqb_eq, nil_length_inv in E0. by rewrite E0. }
  destruct (memchr_nl (k_rbuf (z_conn z))) as [el|].
  - apply bind_inv in H as (now & z1 & [= <- <-] & H). apply bind_inv in H as ([] & z1 & [= <-] & H).
    apply bind_inv in H as ([] & z2 & Hcmd & H). apply bind_inv in H as ([] & z3 & [= <-] & [= <- <-]).
    split; [done|]. simpl. by rewrite (wire_rbuf _ _ (wire_process_command_ascii _ _ _ _ Hcmd)).
  - destruct (2048 <? _); [|by injection H as <- <-].
    apply bind_inv in H as ([] & z1 & Ha & H). unfold c_assert in Ha. destruct (_ <? _)%nat; [|done]. injection Ha as <-.
    destruct (_ || _); [apply bind_inv in H as ([] & z1 & [= <-] & [= <- <-]); done|].
    destruct (negb _); [|by injection H as <- <-].
    apply bind_inv in H as (ok & z1 & Hsw & H).
    assert (Hb : k_rbuf (z_conn z1) = k_rbuf (z_conn z)).
    { unfold rbuf_switch_to_malloc in Hsw. apply bind_inv in Hsw as (ok' & z2 & Hm & Hsw).
      pose proof (wire_rbuf _ _ (wire_mem_next _ _ _ Hm)) as E. rewrite <- E.
      destruct ok'; simpl in Hsw; [apply bind_inv in Hsw as ([] & z3 & [= <-] & [= <- <-])|injection Hsw as <- <-]; done. }
    destruct ok; simpl in H; [by injection H as <- <-|].
    apply bind_inv in H as ([] & z2 & [= <-] & [= <- <-]). done.
Qed.

End Wire.

#[export] Hint Resolve wire_on_resp wire_conn_set_state wire_resp_start wire_resp_finish wire_out_string wire_out_of_memory
  wire_conn_release_items wire_set_noreply : keeps.

(** ** The state after an operation *)

Definition ends {A} (st : conn_states) (m : M session A) : Prop :=
  ∀ z a z', m z = Some (a, z') → k_state (z_conn z') = st.

(** The state is as before, or [conn_new_cmd]. *)
Definition to_new (z z' : session) : Prop :=
  k_state (z_conn z') = conn_new_cmd ∨ k_state (z_conn z') = k_state (z_conn z).

#[global] Instance to_new_preorder : PreOrder to_new.
Proof. split; [by right|]. unfold to_new. intros z1 z2 z3 H1 [H2|H2]; [by left|by rewrite H2]. Qed.

Lemma ends_last {A B} st (m : M session A) (k : A → M session B) : (∀ a, ends st (k a)) → ends st (m ≫= k).
Proof. intros Hk z b z' H. apply bind_inv in H as (a & z1 & _ & H). by apply (Hk a z1 b). Qed.

Lemma ends_first {A B} (m : M session A) (k : A → M session B) :
  ends conn_new_cmd m → (∀ a, keeps to_new (k a)) → ends conn_new_cmd (m ≫= k).
Proof.
  intros Hm Hk z b z' H. apply bind_inv in H as (a & z1 & H1 & H2).
  destruct (Hk a z1 b z' H2) as [E|E]; [done|]. by rewrite E, (Hm z a z1 H1).
Qed.

Lemma keeps_ends {A} (m : M session A) : ends conn_new_cmd m → keeps to_new m.
Proof. intros Hm z a z' H. left. by apply (Hm z a). Qed.

Lemma state_W {A} (m : M world A) : keeps to_new (W m).
Proof. apply keeps_W. by right. Qed.
Lemma state_on_conn f : (∀ c, k_state (f c) = k_state c) → keeps to_new (on_conn f).
Proof. intros Hf. apply keeps_modify. intros z. right. apply Hf. Qed.
Lemma state_cur_resp : keeps to_new cur_resp.
Proof. intros z a z' H. unfold cur_resp in H. destruct (last _); simplify_eq. by right. Qed.
Lemma state_mem_next : keeps to_new mem_next.
Proof. intros z a z' H. unfold mem_next in H. destruct (z_mem z); simplify_eq; by right. Qed.
Lemma state_on_cmd_stats f : keeps to_new (on_cmd_stats f).
Proof. apply keeps_modify. by right. Qed.
#[export] Hint Resolve state_W state_cur_resp state_mem_next state_on_cmd_stats : keeps.
#[export] Hint Extern 1 (keeps to_new (on_conn _)) => (by apply state_on_conn) : keeps.

Lemma ends_set_state st : ends st (conn_set_state st).
Proof. by intros z a z' [= <- <-]. Qed.

Section States.
Context {HF : HashFn}.

Lemma state_on_resp f : keeps to_new (on_resp f).
Proof. unfold on_resp. keeps_tac. Qed.
#[local] Hint Resolve state_on_resp : keeps.
Lemma state_put p b : keeps to_new (put p b).
Proof. unfold put. keeps_tac. Qed.
Lemma state_resp_add_iov b n : keeps to_new (resp_add_iov b n).
Proof. unfold resp_add_iov. keeps_tac. Qed.
#[local] Hint Resolve state_put state_resp_add_iov : keeps.

Lemma ends_out_string str : ends conn_new_cmd (out_string str).
Proof.
  unfold out_string. do 2 (apply ends_last; intros ?). destruct (k_noreply _).
  - apply ends_last. intros ?. apply ends_set_state.
  - do 3 (apply ends_last; intros ?). apply ends_set_state.
Qed.

Lemma state_finalize_flags noted c key b cas p : keeps to_new (finalize_flags noted c key b cas p).
Proof.
  revert c p. induction noted; intros c p; cbn [finalize_flags]; unfold META_SPACE, META_KEY, META_CHAR, put_u64; keeps_tac.
Qed.
#[local] Hint Resolve state_finalize_flags : keeps.

Lemma ends__finalize_mset ret : ends conn_new_cmd (_finalize_mset ret).
Proof.
  unfold _finalize_mset. do 4 (apply ends_last; intros ?). apply ends_first; [apply ends_set_state|intros _].
  pose proof (λ str, keeps_ends _ (ends_out_string str)). unfold skip_if_noreply, ok_code, set_noreply. keeps_tac.
Qed.

Lemma ends_complete_nread_ascii : ends conn_new_cmd complete_nread_ascii.
Proof.
  unfold complete_nread_ascii. do 4 (apply ends_last; intros ?). apply ends_first; [|intros _; keeps_tac].
  case_match.
  - apply ends_last. intros _. apply ends_out_string.
  - destruct (k_cmd _) as [comm|]; [|by intros z ? z' ?]. apply ends_last. intros ret.
    case_match; [apply ends__finalize_mset|apply ends_out_string].
Qed.

End States.
