(* ===== verification/Desk.v ===== *)
(** * A small server for the examples

    The worlds of [ItemsThm.v] behind a connection; the theorems about sessions
    are applied here. *)

From Stdlib Require Import Ascii String SpecFloat.
From stdpp Require Import strings.
From S2P Require Import Prelude Hashes StatsPrefix State Items ItemsThm Store Tokens Conn ProtoText ProtoCmd Machine Drive.

#[local] Existing Instance jenkins_fn.

(** A connection that waits for its first command. *)
Definition idle : conn :=
  mkConnection conn_new_cmd false [] NULL (NULL, 0) 0 0 None false [] 0 0 false false 0 false.

Definition no_counts : cmd_stats :=
  mkCmdStats 0 0 0 0 0 0 0 0 0 0 0 0 0 0 0 0 0 0 (λ _, 0) (λ _, 0) (λ _, 0) (λ _, 0).

Definition defaults : proto_settings := mkProto 100 false false true 0 false (S754_zero false).

Definition desk (w : world) (c : conn) : session := mkSession w c no_counts defaults no_prefixes [].

(** No external store; the commands that report answer with an error. *)
Definition no_store (it : Z) : M session Z := mret (-1).
Definition no_report (tokens : list token_t) : M session unit := out_string (txt "ERROR").
Definition desk_prot : Protocol := ascii_prot no_store [0] (λ _, None) no_report.

Definition no_net : net := mkNet [] [] [] [] 0 0.
Definition desk_machine (w : world) (c : conn) (n : net) : machine := mkMachine (desk w c) n.

Definition crlf : list Z := [13; 10].

Fixpoint activations (n : nat) : M machine unit :=
  match n with
  | O => mret tt
  | S n => drive_machine (PR := desk_prot) 100 20 ;; activations n
  end.

(** What is on the wire after [n] activations with these reads and writes. *)
Definition talk (n : nat) (w : world) (reads : list read_result) (sends : list send_result) : option (list Z * conn_states) :=
  match activations n (desk_machine w idle (mkNet reads sends [] [] 0 0)) with
  | Some (_, s) => Some (nt_sent (mc_net s), k_state (z_conn (mc_session s)))
  | None => None
  end.

(** Two pipelined commands, cut into pieces on both sides. *)
Example talk_ex :
  talk 3 shop_linked [Got (txt "get a b" ++ crlf ++ txt "dele"); Got (txt "te a" ++ crlf ++ txt "mg a" ++ crlf)]
    [Sent 3; Sent 20; Sent 200; Sent 200] =
  Some (txt "VALUE a 0 1" ++ crlf ++ txt "1" ++ crlf ++ txt "END" ++ crlf ++ txt "DELETED" ++ crlf
        ++ txt "CLIENT_ERROR bad command line format" ++ crlf, conn_read).
Proof. vm_compute. reflexivity. Qed.
