(* ===== verification/Crawler.v ===== *)
(** * The LRU crawler ([crawler.c], [crawler.h])

    A background thread that walks the LRU queues with a marker in each of them
    and gives every item it passes to the active module: the one that removes
    expired items and counts the others, or the one that dumps the keys to a
    client. *)

From Stdlib Require Import Ascii String.
From stdpp Require Import strings.
From S2P Require Import Prelude Itoa Util Bipbuf Hashes State Assoc Items Tokens Machine.

(** ** Data *)

(** The fields of [crawler] behind those it shares with [item]; those lie in the
    heap. *)
Record crawler_t : Type := mkCrawler { cr_remaining : Z; cr_reclaimed : Z; cr_unfetched : Z; cr_checked : Z }.
#[global] Instance crawler_eta : Eta crawler_t := λ r,
  mkCrawler (cr_remaining r) (cr_reclaimed r) (cr_unfetched r) (cr_checked r).

Record crawlerstats_t : Type := mkCrawlerstats {
  cs_histo : list Z; cs_ttl_hourplus : Z; cs_noexp : Z; cs_reclaimed : Z; cs_seen : Z;
  cs_start_time : Z; cs_end_time : Z; cs_run_complete : bool
}.
#[global] Instance crawlerstats_eta : Eta crawlerstats_t := λ r,
  mkCrawlerstats (cs_histo r) (cs_ttl_hourplus r) (cs_noexp r) (cs_reclaimed r) (cs_seen r) (cs_start_time r) (cs_end_time r)
    (cs_run_complete r).

(** [struct crawler_expired_data]. *)
Record crawler_expired_data : Type := mkExpired {
  ed_crawlerstats : Z → crawlerstats_t; ed_start_time : Z; ed_end_time : Z; ed_crawl_complete : bool; ed_is_external : bool
}.
#[global] Instance crawler_expired_data_eta : Eta crawler_expired_data := λ r,
  mkExpired (ed_crawlerstats r) (ed_start_time r) (ed_end_time r) (ed_crawl_complete r) (ed_is_external r).

Inductive crawler_run_type : Type := CRAWLER_AUTOEXPIRE | CRAWLER_EXPIRED | CRAWLER_METADUMP.
#[global] Instance crawler_run_type_eq_dec : EqDecision crawler_run_type.
Proof. solve_decision. Defined.

(** [crawler_expired_mod] and [crawler_metadump_mod]. *)
Inductive crawler_mod : Type := EXPIRED_MOD | METADUMP_MOD.

Definition crawler_mod_regs (t : crawler_run_type) : crawler_mod :=
  match t with CRAWLER_METADUMP => METADUMP_MOD | _ => EXPIRED_MOD end.
Definition needs_lock (m : crawler_mod) : bool := match m with EXPIRED_MOD => true | METADUMP_MOD => false end.
Definition needs_client (m : crawler_mod) : bool := match m with EXPIRED_MOD => false | METADUMP_MOD => true end.

(** [crawler_client_t] with a connection; [cc_buf] is [None] for a null pointer,
    [cc_cbuf] an offset into the data of the buffer. *)
Record crawler_client : Type := mkClient { cc_buf : option bipbuf_t; cc_cbuf : option Z }.
#[global] Instance crawler_client_eta : Eta crawler_client := λ r, mkClient (cc_buf r) (cc_cbuf r).

(** What [poll] tells about the client: an error, nothing within a second, or the
    events with the results of the [read] and the [write] they lead to. *)
Inductive poll_result : Type :=
  | PollFailed
  | PollTimeout
  | PollEvents (pollin : option read_result) (hup : bool) (pollout : option send_result).

(** The thread's world: the globals of [crawler.c], the LRU locks it holds, what
    [poll] is going to say and the bytes the client got. *)
Record cworld : Type := mkCworld {
  c_world : world;
  c_crawlers : Z → crawler_t;
  c_count : Z;
  c_thread : bool;
  c_mod : option crawler_mod;
  c_type : crawler_run_type;
  c_data : option crawler_expired_data;
  c_client : option crawler_client;
  c_running : bool;
  c_starts : Z;
  c_block_ae_until : Z;
  c_process_started : Z;
  c_page_version : Z → Z;
  c_lru_locks : gset Z;
  c_polls : list poll_result;
  c_sent : list Z;
  c_closed : Z;
  c_released : Z
}.
#[global] Instance cworld_eta : Eta cworld := λ r,
  mkCworld (c_world r) (c_crawlers r) (c_count r) (c_thread r) (c_mod r) (c_type r) (c_data r) (c_client r) (c_running r)
    (c_starts r) (c_block_ae_until r) (c_process_started r) (c_page_version r) (c_lru_locks r) (c_polls r) (c_sent r)
    (c_closed r) (c_released r).

Definition POWER_SMALLEST : Z := 1.
Definition POWER_LARGEST : Z := 256.
Definition LARGEST_ID : Z := POWER_LARGEST.
Definition LRU_CRAWLER_WRITEBUF : Z := 8192.
Definition LRU_CRAWLER_CAP_REMAINING : Z := 2 ^ 32 - 1.
Definition KEY_MAX_URI_ENCODED_LENGTH : Z := 250 * 3 + 1.

(** An operation on the cache. *)
Definition Wc {A} (m : M world A) : M cworld A := λ s,
  match m (c_world s) with
  | Some (a, w) => Some (a, s <| c_world := w |>)
  | None => None
  end.

Section Crawler.
Context {HF : HashFn}.

(** The static array [crawlers]. *)
Variable crawlers : Z.
Definition sizeof_crawler : Z := 72.
Definition crawler_at (i : Z) : Z := crawlers + sizeof_crawler * i.

Definition on_crawler (i : Z) (f : crawler_t → crawler_t) : M cworld unit :=
  modify (λ s, s <| c_crawlers := upd (c_crawlers s) i (f (c_crawlers s i)) |>).

(** [lru_locks[i]]: locking a lock that is held blocks, unlocking one that is not
    held is undefined. *)
Definition lru_lock (i : Z) : M cworld unit := λ s,
  if decide (i ∈ c_lru_locks s) then None else Some (tt, s <| c_lru_locks := {[i]} ∪ c_lru_locks s |>).
Definition lru_unlock (i : Z) : M cworld unit := λ s,
  if decide (i ∈ c_lru_locks s) then Some (tt, s <| c_lru_locks := c_lru_locks s ∖ {[i]} |>) else None.

(** ** The client *)

Definition on_client (f : crawler_client → crawler_client) : M cworld unit :=
  modify (λ s, s <| c_client := f <$> c_client s |>).

Definition lru_crawler_close_client : M cworld unit :=
  modify (λ s, s <| c_client := None |> <| c_closed := c_closed s + 1 |>).
Definition lru_crawler_release_client : M cworld unit :=
  modify (λ s, s <| c_client := None |> <| c_released := c_released s + 1 |>).

(** The buffer of the client; a null pointer is dereferenced otherwise. *)
Definition client_buf : M cworld bipbuf_t := λ s,
  match c_client s ≫= cc_buf with Some b => Some (b, s) | None => None end.

(** [poll] with a timeout of a second; when nothing more is known it would go on
    waiting. *)
Definition c_poll : M cworld poll_result := λ s,
  match c_polls s with [] => None | r :: rest => Some (r, s <| c_polls := rest |>) end.

Definition lost (r : option read_result) : bool :=
  match r with Some (Got []) | Some ReadFailed => true | _ => false end.

Definition lru_crawler_poll : M cworld Z :=
  r ← c_poll;
  match r with
  | PollFailed => mret (-1)
  | PollTimeout => mret 0
  | PollEvents pollin hup pollout =>
      if lost pollin then lru_crawler_close_client ;; mret (-1)
      else
        b ← client_buf;
        match bipbuf_peek_all b with
        | None => mret 0
        | Some (off, data_size) =>
            if hup then lru_crawler_close_client ;; mret (-1)
            else
              match pollout with
              | None | Some SendAgain => mret 0
              | Some SendFailed => lru_crawler_close_client ;; mret (-1)
              | Some (Sent n) =>
                  let total := Z.max 0 (Z.min n data_size) in
                  if total =? 0 then lru_crawler_close_client ;; mret (-1)
                  else
                    modify (λ s, s <| c_sent := c_sent s ++ slice off total (bb_data b) |>) ;;
                    on_client (λ c, c <| cc_buf := Some (bipbuf_poll b total).2 |>) ;;
                    mret 0
              end
        end
  end.

(** The loop waits until the client has room or is gone. *)
Fixpoint getbuf_loop (fuel : nat) : M cworld Z :=
  match fuel with
  | O => undefined
  | S fuel =>
      b ← client_buf;
      match bipbuf_request b LRU_CRAWLER_WRITEBUF with
      | Some buf => on_client (λ c, c <| cc_cbuf := Some buf |>) ;; mret 0
      | None => ret ← lru_crawler_poll; if ret <? 0 then mret ret else getbuf_loop fuel
      end
  end.

Definition lru_crawler_client_getbuf : M cworld Z :=
  s ← get_state;
  match c_client s with
  | None => mret (-1)
  | Some _ => getbuf_loop (S (S (length (c_polls s))))
  end.

(** Bytes written at [cbuf]. *)
Definition client_write (bytes : list Z) : M cworld unit :=
  s ← get_state;
  b ← client_buf;
  match c_client s ≫= cc_cbuf with
  | Some o =>
      match memcpy (bb_data b) o bytes (Z.of_nat (length bytes)) with
      | Some d => on_client (λ c, c <| cc_buf := Some (b <| bb_data := d |>) |>)
      | None => undefined
      end
  | None => undefined
  end.

(** A push that fails changes nothing. *)
Definition client_push (n : Z) : M cworld unit :=
  b ← client_buf; on_client (λ c, c <| cc_buf := Some (bipbuf_push b n).2 |>).

(** ** The module that removes expired items *)

Definition zero_crawlerstats (now : Z) : crawlerstats_t := mkCrawlerstats (replicate 61 0) 0 0 0 0 now 0 false.

(** [alloc] tells whether [calloc] succeeds, where the module needs its own data. *)
Definition crawler_expired_init (alloc : bool) (data : option crawler_expired_data) : M cworld Z :=
  s ← get_state;
  let now := w_current_time (c_world s) in
  let stats (_ : Z) := zero_crawlerstats now in
  match data with
  | Some d => modify (λ s, s <| c_data := Some (d <| ed_is_external := true |> <| ed_crawlerstats := stats |>) |>) ;; mret 0
  | None =>
      if negb alloc then mret (-1)
      else modify (λ s, s <| c_data := Some (mkExpired stats now 0 false false) |>) ;; mret 0
  end.

Definition on_data (f : crawler_expired_data → crawler_expired_data) : M cworld unit := λ s,
  match c_data s with Some d => Some (tt, s <| c_data := Some (f d) |>) | None => None end.
Definition on_class_stats (i : Z) (f : crawlerstats_t → crawlerstats_t) : M cworld unit :=
  on_data (λ d, d <| ed_crawlerstats := upd (ed_crawlerstats d) i (f (ed_crawlerstats d i)) |>).

Definition crawler_expired_doneclass (slab_cls : Z) : M cworld unit :=
  now ← gets (λ s, w_current_time (c_world s));
  on_class_stats slab_cls (λ x, x <| cs_end_time := now |> <| cs_run_complete := true |>).

(** Data of the module's own is freed. *)
Definition crawler_expired_finalize : M cworld unit :=
  now ← gets (λ s, w_current_time (c_world s));
  on_data (λ d, d <| ed_end_time := now |> <| ed_crawl_complete := true |>) ;;
  d ← gets c_data;
  when (match d with Some d => negb (ed_is_external d) | None => false end) (modify (λ s, s <| c_data := None |>)).

(** The page the value is in still holds it ([storage.c], [extstore.c]). *)
Definition extstore_check (versions : Z → Z) (page_id page_version : Z) : Z :=
  if negb (versions page_id =? page_version) then -1 else 0.
Definition storage_validate_item (x : item) : M cworld bool :=
  s ← get_state;
  mret (negb (negb (extstore_check (c_page_version s) (rd16 (i_data x) 8) (rd32 (i_data x) 0) =? 0))).

(** One of the 61 minutes of [histo]. *)
Definition count_ttl (ttl : Z) (x : crawlerstats_t) : crawlerstats_t :=
  let bucket := ttl / 60 in
  if bucket <=? 60
  then x <| cs_histo := <[Z.to_nat bucket := u64 (nth (Z.to_nat bucket) (cs_histo x) 0 + 1)]> (cs_histo x) |>
  else x.

Definition crawler_expired_eval (search hv i : Z) : M cworld unit :=
  x ← Wc (load search);
  is_flushed ← Wc (item_is_flushed x);
  is_valid ← (if flag (i_it_flags x) ITEM_HDR then storage_validate_item x else mret true);
  now ← gets (λ s, w_current_time (c_world s));
  if (negb (i_exptime x =? 0) && (i_exptime x <? now)) || is_flushed || negb is_valid then
    on_crawler i (λ c, c <| cr_reclaimed := u64 (cr_reclaimed c + 1) |>) ;;
    on_class_stats i (λ c, c <| cs_reclaimed := u64 (cs_reclaimed c + 1) |>) ;;
    when (negb (flag (i_it_flags x) ITEM_FETCHED) && negb is_flushed)
      (on_crawler i (λ c, c <| cr_unfetched := u64 (cr_unfetched c + 1) |>)) ;;
    Wc (storage_delete search ;; do_item_unlink_nolock search hv ;; do_item_remove search)
  else
    on_class_stats i (λ c, c <| cs_seen := u64 (cs_seen c + 1) |>) ;;
    Wc (refcount_decr search) ;;
    if i_exptime x =? 0 then on_class_stats i (λ c, c <| cs_noexp := u64 (cs_noexp c + 1) |>)
    else if 3599 <? u32 (i_exptime x - now)
         then on_class_stats i (λ c, c <| cs_ttl_hourplus := u64 (cs_ttl_hourplus c + 1) |>)
    else on_class_stats i (count_ttl (u32 (i_exptime x - now))).

(** ** The module that dumps the keys *)

Definition metadump_line (key : list Z) (x : item) (process_started : Z) : list Z :=
  txt "key=" ++ key ++
  txt " exp=" ++ (if i_exptime x =? 0 then txt "-1" else decimal (i_exptime x + process_started)) ++
  txt " la=" ++ decimal (i_time x + process_started) ++
  txt " cas=" ++ decimal (ITEM_get_cas x) ++
  txt " fetch=" ++ (if flag (i_it_flags x) ITEM_FETCHED then txt "yes" else txt "no") ++
  txt " cls=" ++ decimal (ITEM_clsid x) ++
  txt " size=" ++ decimal (ITEM_ntotal x) ++ [10].

Definition crawler_metadump_eval (it hv i : Z) : M cworld unit :=
  x ← Wc (load it);
  is_flushed ← Wc (item_is_flushed x);
  now ← gets (λ s, w_current_time (c_world s));
  if (negb (i_exptime x =? 0) && (i_exptime x <? now)) || is_flushed then Wc (refcount_decr it) ;; mret tt
  else
    s ← get_state;
    keybuf ← (match uriencode (ITEM_key x) KEY_MAX_URI_ENCODED_LENGTH with Some b => mret (c_str b) | None => undefined end);
    let line := metadump_line keybuf x (c_process_started s) in
    client_write (take 4095 line ++ [0]) ;;
    let total := Z.of_nat (length line) in
    Wc (refcount_decr it) ;;
    if (LRU_CRAWLER_WRITEBUF - 1 <=? total) || (total <=? 0) then mret tt else client_push total.

Definition crawler_metadump_finalize : M cworld unit :=
  s ← get_state;
  match c_client s with
  | None => mret tt
  | Some _ => lru_crawler_client_getbuf ;; client_write (txt "END" ++ [13; 10]) ;; client_push 5
  end.

(** ** The modules *)

Definition mod_eval (m : crawler_mod) : Z → Z → Z → M cworld unit :=
  match m with EXPIRED_MOD => crawler_expired_eval | METADUMP_MOD => crawler_metadump_eval end.
Definition mod_init (m : crawler_mod) (alloc : bool) (data : option crawler_expired_data) : M cworld unit :=
  match m with EXPIRED_MOD => crawler_expired_init alloc data ;; mret tt | METADUMP_MOD => mret tt end.
Definition mod_doneclass (m : crawler_mod) (i : Z) : M cworld unit :=
  match m with EXPIRED_MOD => crawler_expired_doneclass i | METADUMP_MOD => mret tt end.
Definition mod_finalize (m : crawler_mod) : M cworld unit :=
  match m with EXPIRED_MOD => crawler_expired_finalize | METADUMP_MOD => crawler_metadump_finalize end.

(** [active_crawler_mod.mod], a null pointer between crawls. *)
Definition active_mod : M cworld crawler_mod := λ s,
  match c_mod s with Some m => Some (m, s) | None => None end.

(** ** Walking *)

Definition lru_crawler_class_done (i : Z) : M cworld unit :=
  Wc (wr (crawler_at i) (λ x, x <| i_it_flags := 0 |>)) ;;
  modify (λ s, s <| c_count := c_count s - 1 |>) ;;
  Wc (do_item_unlinktail_q (crawler_at i)) ;;
  c ← gets (λ s, c_crawlers s i);
  Wc (do_item_stats_add_crawl i (cr_reclaimed c) (cr_unfetched c) (cr_checked c)) ;;
  lru_unlock i ;;
  m ← active_mod;
  mod_doneclass m i.

(** Room in the client's buffer; [false] when the crawl has to end. *)
Definition client_room : M cworld bool :=
  s ← get_state;
  match c_client s with
  | Some _ => ret ← lru_crawler_client_getbuf; mret (ret =? 0)
  | None => m ← active_mod; mret (negb (needs_client m))
  end.

(** The loop over the hash table. *)
Fixpoint crawl_hash_loop (fuel : nat) (iter : assoc_iterator) : M cworld assoc_iterator :=
  match fuel with
  | O => undefined
  | S fuel =>
      r ← Wc (assoc_iterate iter);
      let '(more, it, iter) := r in
      if negb more then mret iter
      else if it =? NULL then crawl_hash_loop fuel iter
      else
        room ← client_room;
        if negb (room : bool) then mret iter
        else
          n ← Wc (refcount_incr it);
          if n <? 2 then Wc (refcount_decr it) ;; crawl_hash_loop fuel iter
          else
            m ← active_mod;
            mod_eval m it 0 0 ;;
            crawl_hash_loop fuel iter
  end.

(** Each round of the loop leaves a bucket or an item behind. *)
Definition item_crawl_hash : M cworld unit :=
  s ← get_state;
  let n := (2 * Z.to_nat (hashsize (a_hashpower (w_assoc (c_world s)))) + size (w_heap (c_world s)) + 2)%nat in
  iter ← crawl_hash_loop n assoc_get_iterator;
  Wc (assoc_iterate_final iter).

(** The item is taken if nobody else has a lock or a reference. *)
Definition crawl_item (i search : Z) : M cworld unit :=
  x ← Wc (load search);
  let hv := hash (ITEM_key x) in
  hold_lock ← Wc (item_trylock hv);
  match hold_lock with
  | None => lru_unlock i
  | Some hold_lock =>
      n ← Wc (refcount_incr search);
      if negb (n =? 2) then Wc (refcount_decr search) ;; Wc (item_trylock_unlock hold_lock) ;; lru_unlock i
      else
        on_crawler i (λ c, c <| cr_checked := u64 (cr_checked c + 1) |>) ;;
        m ← active_mod;
        when (negb (needs_lock m)) (lru_unlock i) ;;
        mod_eval m search hv i ;;
        Wc (item_trylock_unlock hold_lock) ;;
        when (needs_lock m) (lru_unlock i)
  end.

(** [remaining && --remaining < 1] *)
Definition crawl_limit (i : Z) : M cworld bool :=
  c ← gets (λ s, c_crawlers s i);
  if cr_remaining c =? 0 then mret false
  else
    on_crawler i (λ c, c <| cr_remaining := cr_remaining c - 1 |>) ;;
    mret (cr_remaining c - 1 <? 1).

(** One turn of the crawler of one queue. *)
Definition crawl_class (i : Z) : M cworld unit :=
  f ← Wc (fld (crawler_at i) i_it_flags);
  if negb (f =? 1) then mret tt
  else
    room ← client_room;
    if negb (room : bool) then lru_crawler_class_done i
    else
      lru_lock i ;;
      search ← Wc (do_item_crawl_q (crawler_at i));
      stop ← (if search =? NULL then mret true else crawl_limit i);
      if (stop : bool) then lru_crawler_class_done i else crawl_item i search.

Fixpoint crawl_classes (ids : list Z) : M cworld unit :=
  match ids with
  | [] => mret tt
  | i :: ids => crawl_class i ;; crawl_classes ids
  end.

(** [while (crawler_count)] *)
Fixpoint crawl_queues (fuel : nat) : M cworld unit :=
  n ← gets c_count;
  if n =? 0 then mret tt
  else match fuel with
       | O => undefined
       | S fuel => crawl_classes (seqZ POWER_SMALLEST (LARGEST_ID - POWER_SMALLEST)) ;; crawl_queues fuel
       end.

(** The client gets what is left in its buffer. *)
Fixpoint flush_client (fuel : nat) : M cworld unit :=
  s ← get_state;
  match c_client s with
  | None => mret tt
  | Some _ =>
      b ← client_buf;
      if bipbuf_used b =? 0 then mret tt
      else match fuel with
           | O => undefined
           | S fuel => lru_crawler_poll ;; flush_client fuel
           end
  end.

(** What the thread does between two waits for its condition. *)
Definition item_crawler_run (fuel : nat) : M cworld unit :=
  n ← gets c_count;
  (if n =? -1 then item_crawl_hash ;; modify (λ s, s <| c_count := 0 |>) else crawl_queues fuel) ;;
  m ← gets c_mod;
  match m with
  | None => mret tt
  | Some m =>
      mod_finalize m ;;
      s ← get_state;
      flush_client (S (length (c_polls s))) ;;
      s ← get_state;
      when (match c_client s with Some _ => true | None => false end) lru_crawler_release_client ;;
      modify (λ s, s <| c_mod := None |>)
  end ;;
  modify (λ s, s <| c_running := false |>).

(** ** Starting *)

Definition do_lru_crawler_start (sid remaining : Z) : M cworld Z :=
  lru_lock sid ;;
  f ← Wc (fld (crawler_at sid) i_it_flags);
  starts ←
    (if f =? 0 then
       Wc (wr (crawler_at sid) (λ x, x <| i_nbytes := 0 |> <| i_nkey := 0 |> <| i_it_flags := 1 |>
             <| i_next := NULL |> <| i_prev := NULL |> <| i_time := 0 |>)) ;;
       remaining ← (if remaining =? LRU_CRAWLER_CAP_REMAINING then Wc (do_get_lru_size sid) else mret remaining);
       let remaining := if negb (remaining =? 0) then u32 (remaining + 1) else remaining in
       Wc (wr (crawler_at sid) (λ x, x <| i_slabs_clsid := u8 sid |>)) ;;
       on_crawler sid (λ _, mkCrawler remaining 0 0 0) ;;
       Wc (do_item_linktail_q (crawler_at sid)) ;;
       modify (λ s, s <| c_count := c_count s + 1 |>) ;;
       mret 1
     else mret 0);
  lru_unlock sid ;;
  mret starts.

(** [buf] is what [bipbuf_new] returns. *)
Definition lru_crawler_set_client (buf : option bipbuf_t) : M cworld Z :=
  s ← get_state;
  match c_client s with
  | Some _ => mret (-1)
  | None =>
      modify (λ s, s <| c_client := Some (mkClient buf None) |>) ;;
      mret (match buf with None => -2 | Some _ => 0 end)
  end.

Fixpoint start_ids (ids : list Z) (remaining starts : Z) : M cworld Z :=
  match ids with
  | [] => mret starts
  | sid :: ids => n ← do_lru_crawler_start sid remaining; start_ids ids remaining (starts + n)
  end.

(** [ids]: [None] for a null pointer, otherwise the queues to crawl; [client] tells
    whether there is one; [alloc] and [buf] are the allocations. *)
Definition lru_crawler_start (ids : option (Z → bool)) (remaining : Z) (type : crawler_run_type)
    (data : option crawler_expired_data) (client : bool) (alloc : bool) (buf : option bipbuf_t) : M cworld Z :=
  s ← get_state;
  let now := w_current_time (c_world s) in
  if negb (c_thread s) then mret (-2)
  else if c_running s && negb (bool_decide (type = CRAWLER_AUTOEXPIRE) && bool_decide (c_type s = CRAWLER_AUTOEXPIRE)) then
    modify (λ s, s <| c_block_ae_until := u32 (now + 60) |>) ;; mret (-1)
  else if bool_decide (type = CRAWLER_AUTOEXPIRE) && (now <? c_block_ae_until s) then mret (-1)
  else if negb (bool_decide (type = CRAWLER_METADUMP)) && (match ids with None => true | Some _ => false end) then mret (-2)
  else
    let m := crawler_mod_regs type in
    ok ←
      (if c_running s then mret true
       else
         modify (λ s, s <| c_mod := Some m |> <| c_type := type |>) ;;
         mod_init m alloc data ;;
         if needs_client m then
           if negb client then mret false
           else r ← lru_crawler_set_client buf; mret (r =? 0)
         else mret true);
    if negb (ok : bool) then mret (-2)
    else
      starts ←
        (match ids with
         | None => modify (λ s, s <| c_count := -1 |>) ;; mret 1
         | Some ids =>
             start_ids (filter (λ sid, ids sid) (seqZ POWER_SMALLEST (POWER_LARGEST - POWER_SMALLEST))) remaining 0
         end);
      when (negb (starts =? 0)) (modify (λ s, s <| c_running := true |> <| c_starts := u64 (c_starts s + 1) |>)) ;;
      mret starts.

(** ** The command *)

Inductive crawler_result_type : Type := CRAWLER_OK | CRAWLER_RUNNING | CRAWLER_BADCLASS | CRAWLER_NOTSTARTED | CRAWLER_ERROR.

(** [strtok_r] with ",": the non-empty pieces. *)
Fixpoint comma_pieces (cur : list Z) (l : list Z) : list (list Z) :=
  match l with
  | [] => match cur with [] => [] | _ => [cur] end
  | c :: l => if c =? 44 then (match cur with [] => [] | _ => [cur] end) ++ comma_pieces [] l
              else comma_pieces (cur ++ [c]) l
  end.

(** The queues of the classes named; [None] for a bad class. *)
Fixpoint class_queues (ps : list (list Z)) (tocrawl : Z → bool) : option (Z → bool) :=
  match ps with
  | [] => Some tocrawl
  | p :: ps =>
      match safe_strtoul p with
      | Some sid =>
          if (sid <? POWER_SMALLEST) || (MAX_NUMBER_OF_SLAB_CLASSES <=? sid) then None
          else
            let t := upd (upd (upd (upd tocrawl (Z.lor sid TEMP_LRU) true) (Z.lor sid HOT_LRU) true)
                       (Z.lor sid WARM_LRU) true) (Z.lor sid COLD_LRU) true in
            class_queues ps t
      | None => None
      end
  end.

(** What the argument names: [None] for a bad class, [Some None] for a walk over the
    hash table. *)
Definition to_crawl (slabs : list Z) : option (option (Z → bool)) :=
  let slabs := c_str slabs in
  if bool_decide (slabs = txt "all") then Some (Some (λ _, true))
  else if bool_decide (slabs = txt "hash") then Some None
  else match class_queues (comma_pieces [] slabs) (λ _, false) with Some t => Some (Some t) | None => None end.

Definition lru_crawler_crawl (slabs : list Z) (type : crawler_run_type) (client : bool) (remaining : Z)
    (alloc : bool) (buf : option bipbuf_t) : M cworld crawler_result_type :=
  match to_crawl slabs with
  | None => mret CRAWLER_BADCLASS
  | Some ids =>
      starts ← lru_crawler_start ids remaining type None client alloc buf;
      mret (if starts =? -1 then CRAWLER_RUNNING else if starts =? -2 then CRAWLER_ERROR
            else if negb (starts =? 0) then CRAWLER_OK else CRAWLER_NOTSTARTED)
  end.

Definition init_lru_crawler (initialized : bool) : M cworld bool :=
  when (negb initialized) (modify (λ s, s <| c_client := None |> <| c_mod := None |> <| c_data := None |>)) ;;
  mret true.
End Crawler.
