(* ===== verification/CrawlerThm.v ===== *)
(** * What a crawl does

    The marker moves one item at a time towards the head of its queue; a crawl
    passes every item of the queue once, and leaves the queue as it was. *)

From Stdlib Require Import Ascii String.
From stdpp Require Import strings.
From S2P Require Import Prelude Itoa Util Bipbuf Hashes State Links Queues Assoc Slabs SlabsSpec Items ItemsSpec ItemsAccess Tokens TokensThm Machine Crawler.

(** ** The marker in its queue *)

(** The ends of queue [id]. *)
Definition lru_ends (l : lru_t) (id : Z) (q : list Z) : Prop := l_heads l id = hdz 0 q ∧ l_tails l id = lastz 0 q.

(** Only these ends differ. *)
Definition ends_frame (l l' : lru_t) (id : Z) : Prop :=
  l' = l <| l_heads := l_heads l' |> <| l_tails := l_tails l' |> ∧
  ∀ j, j ≠ id → l_heads l' j = l_heads l j ∧ l_tails l' j = l_tails l j.

Lemma ends_frame_refl l id : ends_frame l l id.
Proof. split; [by destruct l|done]. Qed.
Lemma ends_frame_trans l1 l2 l3 id : ends_frame l1 l2 id → ends_frame l2 l3 id → ends_frame l1 l3 id.
Proof.
  intros [E1 H1] [E2 H2]. split.
  - rewrite E2, E1. by destruct l1.
  - intros j Hj. destruct (H1 j Hj), (H2 j Hj). split; congruence.
Qed.

Definition is_marker (c id : Z) (mk : item) : Prop :=
  i_it_flags mk = 1 ∧ i_nbytes mk = 0 ∧ i_slabs_clsid mk = id ∧ c ≠ 0.

Lemma bind4_assoc {S A B} (f : M S A) (g h k : A → M S unit) (K : M S B) (x : S) :
  (a ← f; g a ;; h a ;; k a ;; K) x = ((a ← f; g a ;; h a ;; k a) ≫= (λ _, K)) x.
Proof.
  unfold mbind, M_bind. destruct (f x) as [[a s1]|]; [|done]. destruct (g a s1) as [[? s2]|]; [|done].
  by destruct (h a s2) as [[? s3]|].
Qed.

(** [c] goes between [lastz 0 l1] and [x]. *)
Lemma insert_before_ok s l1 x l2 c :
  dlseg (w_heap s) 0 (l1 ++ x :: l2) 0 → NoDup (l1 ++ c :: x :: l2) → c ≠ 0 → (∃ mk, w_heap s !! c = Some mk) →
  ∃ h', (pp ← fld x i_prev;
         wr c (λ y, y <| i_next := x |> <| i_prev := pp |>) ;;
         wr x (λ y, y <| i_prev := c |>) ;;
         when (negb (pp =? NULL)) (wr pp (λ y, y <| i_next := c |>))) s = Some (tt, s <| w_heap := h' |>) ∧
    dlseg h' 0 (l1 ++ c :: x :: l2) 0 ∧ lsame (w_heap s) h' ∧
    (∀ y, y ∉ l1 ++ c :: x :: l2 → h' !! y = w_heap s !! y) ∧ links h' c = Some (x, lastz 0 l1).
Proof.
  intros Hseg Hnd Hc0 (mk & Hc). pose proof (NoDup_mid_notin _ _ _ Hnd) as [Hc1 Hc2].
  pose proof (NoDup_remove_mid _ _ _ Hnd) as Hnd1. pose proof (NoDup_mid_notin _ _ _ Hnd1) as [Hx1 Hx2].
  pose proof (dlseg_mid _ _ _ _ _ _ Hseg) as [Hx0 Hlx]. apply links_Some in Hlx as (itx & Hx & Hnx & Hpx).
  apply dlseg_app in Hseg as [Hs1 Hs2]. simpl hdz in Hs1.
  assert (Hcx : c ≠ x) by (intros ->; apply Hc2; by left).
  set (h1 := <[c := mk <| i_next := x |> <| i_prev := lastz 0 l1 |>]> (w_heap s)).
  assert (Hx' : h1 !! x = Some itx) by (unfold h1; by rewrite lookup_insert_ne).
  set (h2 := <[x := itx <| i_prev := c |>]> h1).
  assert (Hl1 : dlseg h2 0 l1 x) by (unfold h2, h1; by apply dlseg_insert_notin, dlseg_insert_notin).
  apply NoDup_app in Hnd1 as (Hn1 & Hdis & _).
  destruct (when_last_next s h2 0 l1 x c Hl1 Hn1) as (h3 & Hrun & Hd & Hls & Hfr).
  exists h3. split_and!.
  - unfold fld. rewrite bind_assoc, (bind_run _ _ _ _ _ (load_ok _ _ _ Hx)), (bind_run (mret _) _ s _ s eq_refl), Hpx.
    rewrite (bind_run _ _ _ _ _ (wr_ok _ _ _ _ Hc)). fold h1.
    rewrite (bind_run _ _ _ _ _ (wr_heap _ _ _ _ _ Hx')). exact Hrun.
  - apply dlseg_app. split; [exact Hd|]. simpl. split_and!; [done| | | |].
    + unfold links. rewrite Hfr by done. unfold h2, h1. rewrite lookup_insert_ne, lookup_insert_eq by done. done.
    + done.
    + unfold links. rewrite Hfr by done. unfold h2. rewrite lookup_insert_eq. simpl. by rewrite Hnx.
    + apply (dlseg_ext h2); [intros y Hy; unfold links; rewrite Hfr; [done|intros Hy1; apply (Hdis y Hy1); by right]|].
      unfold h2, h1. apply dlseg_insert_notin; [done|]. apply dlseg_insert_notin; [intros ?; apply Hc2; by right|]. apply Hs2.
  - etrans; [exact (lsame_insert _ c mk x (lastz 0 l1) Hc)|]. fold h1. etrans; [exact (lsame_set_prev _ x itx c Hx')|]. exact Hls.
  - intros y Hy. rewrite Hfr by (intros ?; apply Hy, elem_of_app; by left).
    assert (y ≠ c ∧ y ≠ x) as [? ?] by (split; intros ->; apply Hy, elem_of_app; right; [by left|by right; left]).
    unfold h2, h1. by rewrite !lookup_insert_ne by done.
  - unfold links. rewrite Hfr by done. unfold h2, h1. by rewrite lookup_insert_ne, lookup_insert_eq by done.
Qed.

(** [c] comes out from between [x] and [l2]. *)
Lemma remove_behind_ok s l1 x c l2 :
  dlseg (w_heap s) 0 (l1 ++ x :: c :: l2) 0 → NoDup (l1 ++ x :: c :: l2) →
  ∃ h', (if negb (hdz 0 l2 =? NULL) then
           pn ← fld x i_next; c_assert (pn =? c) ;;
           wr x (λ y, y <| i_next := hdz 0 l2 |>) ;; wr (hdz 0 l2) (λ y, y <| i_prev := x |>)
         else wr x (λ y, y <| i_next := NULL |>)) s = Some (tt, s <| w_heap := h' |>) ∧
    dlseg h' 0 (l1 ++ x :: l2) 0 ∧ lsame (w_heap s) h' ∧ (∀ y, y ∉ x :: l2 → h' !! y = w_heap s !! y).
Proof.
  intros Hseg Hnd. pose proof (dlseg_mid _ _ _ _ _ _ Hseg) as [Hx0 Hlx]. apply links_Some in Hlx as (itx & Hx & Hnx & _).
  pose proof Hnd as Hnd0. apply NoDup_app in Hnd0 as (_ & Hdis & Hnd2). apply NoDup_cons in Hnd2 as [Hxc Hnd2].
  apply NoDup_cons in Hnd2 as [Hcl Hn2]. assert (Hx1 : x ∉ l1) by (intros H; apply (Hdis x H); by left).
  apply dlseg_app in Hseg as [Hs1 (_ & Hlx & _ & _ & Hs2)].
  set (h1 := <[x := itx <| i_next := hdz 0 l2 |>]> (w_heap s)).
  assert (Hs2' : dlseg h1 c l2 0) by (apply dlseg_insert_notin; [intros ?; apply Hxc; by right|done]).
  destruct (when_first_prev s h1 c l2 0 x Hs2' Hn2) as (h2 & Hrun & Hd & Hls & Hfr).
  exists h2. assert (Hx2 : x ∉ l2) by (intros ?; apply Hxc; by right). split_and!.
  - destruct (Z.eqb_spec (hdz 0 l2) NULL) as [E|E]; cbn [negb when] in Hrun |- *.
    + rewrite (wr_ok _ _ _ _ Hx), <- E. fold h1. injection Hrun as ->. done.
    + unfold fld. rewrite bind_assoc, (bind_run _ _ _ _ _ (load_ok _ _ _ Hx)), (bind_run (mret _) _ s _ s eq_refl), Hnx.
      simpl hdz. rewrite (bind_run (c_assert _) _ s tt s) by (unfold c_assert; by rewrite Z.eqb_refl).
      rewrite (bind_run _ _ _ _ _ (wr_ok _ _ _ _ Hx)). fold h1. exact Hrun.
  - apply dlseg_app. simpl. split_and!; [|done| |done].
    + apply (dlseg_ext (w_heap s)); [|exact Hs1]. intros y Hy. unfold links. rewrite Hfr.
      * unfold h1. rewrite lookup_insert_ne; [done|]. by intros ->.
      * intros ?. apply (Hdis y Hy). right. by right.
    + unfold links. rewrite Hfr by done. unfold h1. rewrite lookup_insert_eq. simpl. unfold links in Hlx. rewrite Hx in Hlx.
      simpl in Hlx. congruence.
  - etrans; [exact (lsame_set_next _ x itx (hdz 0 l2) Hx)|]. exact Hls.
  - intros y Hy. rewrite Hfr by (intros ?; apply Hy; by right). unfold h1. rewrite lookup_insert_ne; [done|]. intros ->. apply Hy. by left.
Qed.

Lemma qset_perm_ok h h' D q l' :
  queues_ok h D → D q ≡ₚ l' → (∀ y, y ∉ D q → h' !! y = h !! y) → dlseg h' 0 l' 0 → queues_ok h' (qset D q l').
Proof.
  intros [Hs Hn Hd] Hp Hfr Hseg. constructor.
  - intros x. unfold qset. case_decide as E; [done|]. apply (dlseg_ext h); [|done]. intros y Hy. unfold links. rewrite Hfr; [done|].
    intros Hq. apply E. by apply (Hd x q y).
  - intros x. unfold qset. case_decide as E; [by rewrite <- Hp|done].
  - intros x y z. unfold qset. do 2 case_decide; subst; rewrite <- ?Hp; eauto.
Qed.

Lemma swap_perm (l1 l2 : list Z) x c : l1 ++ x :: c :: l2 ≡ₚ l1 ++ c :: x :: l2.
Proof. apply Permutation_app_head. apply Permutation_swap. Qed.

(** The ends after the marker has passed [x]. *)
Definition swung (l : lru_t) (id x c : Z) : lru_t :=
  let l := if l_heads l id =? x then l <| l_heads := upd (l_heads l) id c |> else l in
  if l_tails l id =? c then l <| l_tails := upd (l_tails l) id x |> else l.

Lemma swung_ends l id l1 x c l2 :
  NoDup (l1 ++ x :: c :: l2) → lru_ends l id (l1 ++ x :: c :: l2) →
  lru_ends (swung l id x c) id (l1 ++ c :: x :: l2) ∧ ends_frame l (swung l id x c) id.
Proof.
  intros Hnd [Hh Ht]. pose proof (NoDup_mid_notin _ _ _ Hnd) as [Hx1 Hx2].
  assert (Hc : c ∉ l2).
  { apply NoDup_app in Hnd as (_ & _ & Hnd). by apply NoDup_cons in Hnd as [_ [? _]%NoDup_cons]. }
  split; [split|split].
  - unfold swung. rewrite hdz_app in Hh |- *. simpl in *. destruct (Z.eqb_spec (l_heads l id) x) as [E|E].
    + assert (l1 = []) as -> by (destruct l1; [done|]; simpl in Hh; exfalso; apply Hx1; rewrite <- E, Hh; by left).
      destruct (l_tails _ _ =? c); simpl; apply upd_eq.
    + destruct l1 as [|y l1]; [by destruct E|]. destruct (l_tails l id =? c); exact Hh.
  - unfold swung. rewrite lastz_app in Ht |- *. simpl in *.
    assert (Et : l_tails (if l_heads l id =? x then l <| l_heads := upd (l_heads l) id c |> else l) id = l_tails l id) by by destruct (_ =? x).
    rewrite Et. destruct (Z.eqb_spec (l_tails l id) c) as [E|E].
    + assert (l2 = []) as -> by (destruct l2 as [|y l2]; [done|]; simpl in Ht; destruct (lastz_in y l2) as [E2|E2]; exfalso; apply Hc; rewrite <- E, Ht, ?E2; [by left|by right]).
      simpl. apply upd_eq.
    + destruct l2 as [|y l2]; [by destruct E|]. rewrite Et. exact Ht.
  - unfold swung. destruct (l_heads l id =? x); simpl; destruct (_ =? c); by destruct l.
  - intros j Hj. unfold swung. destruct (l_heads l id =? x); simpl; destruct (_ =? c); simpl; rewrite ?upd_ne by done; done.
Qed.

Lemma do_item_crawl_q_step w D id l1 x c l2 mk :
  queues_ok (w_heap w) D → D (LruQ id) = l1 ++ x :: c :: l2 → w_heap w !! c = Some mk → is_marker c id mk →
  lru_ends (w_lru w) id (l1 ++ x :: c :: l2) →
  ∃ h', do_item_crawl_q c w = Some (x, w <| w_heap := h' |> <| w_lru := swung (w_lru w) id x c |>) ∧
    queues_ok h' (qset D (LruQ id) (l1 ++ c :: x :: l2)) ∧ lsame (w_heap w) h'.
Proof.
  intros Hq HD Hc (Hf & Hnb & Hid & Hc0) [Hh Ht]. pose proof (qo_seg _ _ Hq (LruQ id)) as Hseg. pose proof (qo_nodup _ _ Hq (LruQ id)) as Hnd.
  rewrite HD in Hseg, Hnd. assert (Hnd' : NoDup (l1 ++ c :: x :: l2)) by by rewrite <- swap_perm.
  assert (HDc : D (LruQ id) = (l1 ++ [x]) ++ c :: l2) by by rewrite <- app_assoc.
  pose proof (qo_seg _ _ Hq (LruQ id)) as Hsegc. rewrite HDc in Hsegc. apply dlseg_mid in Hsegc as [_ Hlc].
  apply links_Some in Hlc as (mk' & Hc' & Hnx & Hpv). rewrite Hc in Hc'. apply (inj Some) in Hc'. subst mk'.
  rewrite lastz_app in Hpv. simpl in Hpv.
  pose proof (dlseg_mid _ _ _ _ _ _ Hseg) as [Hx0 _]. pose proof (NoDup_mid_notin _ _ _ Hnd) as [Hx1 Hx2].
  pose proof (NoDup_mid_notin _ _ _ Hnd') as [Hc1 Hc2].
  set (s1 := w <| w_lru := swung (w_lru w) id x c |>).
  destruct (remove_behind_ok s1 l1 x c l2 Hseg Hnd) as (h1 & Hr1 & Hd1 & Hls1 & Hf1). set (s2 := s1 <| w_heap := h1 |>).
  destruct (lsame_lookup _ _ _ _ Hls1 Hc) as (n1 & v1 & Hc1').
  destruct (insert_before_ok s2 l1 x l2 c Hd1 Hnd' Hc0) as (h2 & Hr2 & Hd2 & Hls2 & Hf2 & Hlk2); [by eexists|].
  apply links_Some in Hlk2 as (mk2 & Hmk2 & Hn2 & Hp2).
  exists h2. split_and!; [|apply (qset_perm_ok (w_heap w)); [done|rewrite HD; apply swap_perm| |done]|by etrans].
  2:{ rewrite HD. intros y Hy. rewrite Hf2 by (by rewrite <- swap_perm). apply Hf1. intros Hy2. apply Hy, elem_of_app. right.
      apply elem_of_cons in Hy2 as [->|]; [by left|by right; right]. }
  unfold do_item_crawl_q. rewrite (bind_run _ _ _ _ _ (load_ok _ _ _ Hc)), Hf, Hnb.
  do 2 rewrite (bind_run (c_assert _) _ w tt w) by done. rewrite (bind_run (gets _) _ w _ w eq_refl). rewrite Hid, Hpv, Hnx.
  rewrite (proj2 (Z.eqb_neq x NULL)) by done. cbv zeta.
  assert (Hxc : x ≠ c) by (intros ->; apply Hc2; by left).
  assert (Has : ∀ a, a ≠ c → ∀ s : world, c_assert (negb (a =? c)) s = Some (tt, s)) by (intros a Ha s; unfold c_assert; by rewrite (proj2 (Z.eqb_neq a c))).
  rewrite (bind_run _ _ _ _ _ (Has x Hxc w)). set (lm := if l_heads (w_lru w) id =? x then (w_lru w) <| l_heads := upd (l_heads (w_lru w)) id c |> else w_lru w).
  rewrite (bind_run _ _ _ tt (w <| w_lru := lm |>)) by (unfold lm; destruct (_ =? x); [done|by destruct w]).
  rewrite (bind_run _ _ _ tt s1).
  2:{ unfold s1, swung. fold lm. assert (El : l_tails lm id = l_tails (w_lru w) id) by (unfold lm; by destruct (_ =? x)).
      rewrite El. destruct (_ =? c); [done|]. by destruct w. }
  assert (Hl2c : hdz 0 l2 ≠ c) by (intros E; destruct (hdz_in 0 l2) as [E0|E0]; [congruence|apply Hc2; right; by rewrite <- E]).
  rewrite (bind_run _ _ _ _ _ (Has _ Hl2c s1)), (bind_run _ _ _ _ _ Hr1). fold s2.
  rewrite bind4_assoc, (bind_run _ _ _ _ _ Hr2). set (s3 := s2 <| w_heap := h2 |>).
  rewrite (bind_run _ _ _ _ _ (load_ok s3 c mk2 Hmk2)), Hn2, Hp2, (bind_run _ _ _ _ _ (Has x Hxc s3)).
  assert (Hl1c : lastz 0 l1 ≠ c) by (intros E; destruct (lastz_in 0 l1) as [E0|E0]; [congruence|apply Hc1; by rewrite <- E]).
  by rewrite (bind_run _ _ _ _ _ (Has _ Hl1c s3)).
Qed.

(** The marker at the head of its queue leaves it: what [do_item_crawl_q] and then
    [lru_crawler_class_done] do. *)
Lemma pop_marker_ok w D id l2 c mk :
  queues_ok (w_heap w) (qset D (LruQ id) (c :: l2)) → w_heap w !! c = Some mk → is_marker c id mk →
  lru_ends (w_lru w) id (c :: l2) →
  ∃ w1 h2 lr2, do_item_crawl_q c w = Some (NULL, w1) ∧ w_heap w1 !! c = Some mk ∧
    do_item_unlinktail_q c (w1 <| w_heap := <[c := mk <| i_it_flags := 0 |>]> (w_heap w1) |>) =
      Some (tt, w <| w_heap := h2 |> <| w_lru := lr2 |>) ∧
    queues_ok h2 (qset D (LruQ id) l2) ∧ lru_ends lr2 id l2 ∧ ends_frame (w_lru w) lr2 id ∧
    lsame (<[c := mk <| i_it_flags := 0 |>]> (w_heap w)) h2.
Proof.
  intros Hq Hc (Hf & Hnb & Hid & Hc0) [Hh Ht]. pose proof (qo_seg _ _ Hq (LruQ id)) as Hseg. pose proof (qo_nodup _ _ Hq (LruQ id)) as Hnd.
  rewrite qset_eq in Hseg, Hnd. destruct Hseg as (_ & Hlc & Hs2). apply NoDup_cons in Hnd as [Hcl Hn2].
  apply links_Some in Hlc as (mk' & Hc' & Hnx & Hpv). rewrite Hc in Hc'. apply (inj Some) in Hc'. subst mk'. simpl in Hh, Ht.
  set (mk0 := mk <| i_it_flags := 0 |>).
  (* Other queues keep their links, whatever changes in [c] and in [l2]. *)
  assert (Hoth : ∀ h, (∀ y, y ≠ c → y ∉ l2 → h !! y = w_heap w !! y) → dlseg h 0 l2 0 → queues_ok h (qset D (LruQ id) l2)).
  { intros h Hfr Hd. destruct (qset_remove_ok (w_heap w) h _ (LruQ id) c [] l2 Hq (qset_eq _ _ _)) as [H _]; [|done|by rewrite qset_qset in H].
    intros x Hx. apply (dlseg_ext (w_heap w)); [|apply (qo_seg _ _ Hq)]. intros y Hy. unfold links. rewrite Hfr; [done|..].
    - intros ->. apply Hx. apply (qo_disj _ _ Hq x (LruQ id) c Hy). rewrite qset_eq. by left.
    - intros Hy2. apply Hx. apply (qo_disj _ _ Hq x (LruQ id) y Hy). rewrite qset_eq. by right. }
  assert (Hhead : do_item_crawl_q c w =
    ((if negb (hdz 0 l2 =? NULL) then
        on_lru (λ l, l <| l_heads := upd (l_heads l) id (hdz 0 l2) |>) ;;
        np ← fld (hdz 0 l2) i_prev; c_assert (np =? c) ;; wr (hdz 0 l2) (λ y, y <| i_prev := NULL |>)
      else mret tt) ;; mret NULL) w).
  { unfold do_item_crawl_q. rewrite (bind_run _ _ _ _ _ (load_ok _ _ _ Hc)), Hf, Hnb.
    do 2 rewrite (bind_run (c_assert _) _ w tt w) by done. rewrite (bind_run (gets _) _ w _ w eq_refl), Hid, Hpv, Hnx, Hh.
    change (0 =? NULL) with true. cbv iota zeta. by rewrite (bind_run (c_assert _) _ w tt w) by (unfold c_assert; by rewrite Z.eqb_refl). }
  rewrite Hhead. destruct l2 as [|n l2]; simpl hdz in *.
  - change (negb (0 =? NULL)) with false. cbv iota. set (h2 := <[c := mk0]> (w_heap w)).
    set (lr2 := (w_lru w) <| l_heads := upd (l_heads (w_lru w)) id 0 |> <| l_tails := upd (l_tails (w_lru w)) id 0 |>).
    exists w, h2, lr2. split_and!; [done|done| |apply Hoth; [intros; by apply lookup_insert_ne|done]|split; apply upd_eq| |done].
    + assert (Hc2 : w_heap (w <| w_heap := h2 |>) !! c = Some mk0) by apply lookup_insert_eq.
      unfold do_item_unlinktail_q, lru_take_out.
      rewrite (bind_run _ _ _ _ _ (load_ok _ _ _ Hc2)), (bind_run (gets _) _ (w <| w_heap := h2 |>) _ _ eq_refl).
      change (i_slabs_clsid mk0) with (i_slabs_clsid mk). change (i_prev mk0) with (i_prev mk). change (i_next mk0) with (i_next mk).
      rewrite Hid, Hpv, Hnx. cbv zeta. change (w_lru (w <| w_heap := h2 |>)) with (w_lru w). rewrite Hh, Ht. change (lastz c []) with c. rewrite !Z.eqb_refl.
      set (s1 := w <| w_heap := h2 |>) in *. set (s2 := s1 <| w_lru := (w_lru w) <| l_heads := upd (l_heads (w_lru w)) id 0 |> |>).
      rewrite bind_assoc, (bind_run (c_assert (0 =? NULL)) _ s1 tt s1 eq_refl), (bind_run (on_lru (λ l, l <| l_heads := upd (l_heads l) id 0 |>)) _ s1 tt s2 eq_refl).
      set (s3 := w <| w_heap := h2 |> <| w_lru := lr2 |>).
      rewrite bind_assoc, (bind_run (c_assert (0 =? NULL)) _ s2 tt s2 eq_refl), (bind_run (on_lru (λ l, l <| l_tails := upd (l_tails l) id 0 |>)) _ s2 tt s3 eq_refl).
      do 2 rewrite (bind_run (c_assert _) _ s3 tt s3) by (unfold c_assert; by rewrite (proj2 (Z.eqb_neq 0 c))).
      unfold q_unlink. rewrite (bind_run _ _ _ _ _ (load_ok s3 c mk0 Hc2)).
      change (i_prev mk0) with (i_prev mk). change (i_next mk0) with (i_next mk). by rewrite Hpv, Hnx.
    + split; [by destruct (w_lru w)|]. intros j Hj. unfold lr2. simpl. by rewrite !upd_ne.
  - destruct (dlseg_lookup _ _ _ _ n Hs2) as (itn & Hn & Hn0); [by left|]. rewrite (proj2 (Z.eqb_neq n NULL)) by done. cbn [negb].
    apply not_elem_of_cons in Hcl as [Hcn Hcl]. apply NoDup_cons in Hn2 as [Hnl Hn2].
    assert (Hpn : i_prev itn = c) by (destruct Hs2 as (_ & Hln & _); unfold links in Hln; rewrite Hn in Hln; simpl in Hln; congruence).
    set (itn0 := itn <| i_prev := NULL |>). set (h1 := <[n := itn0]> (w_heap w)).
    set (lr2 := (w_lru w) <| l_heads := upd (l_heads (w_lru w)) id n |>). set (w1 := w <| w_lru := lr2 |> <| w_heap := h1 |>).
    assert (Hc1 : h1 !! c = Some mk) by (unfold h1; by rewrite lookup_insert_ne by done).
    set (h2 := <[c := mk0]> h1). assert (Hn2' : h2 !! n = Some itn0) by (unfold h2, h1; by rewrite lookup_insert_ne, lookup_insert_eq).
    exists w1, h2, lr2. split_and!.
    + set (s0 := w <| w_lru := lr2 |>). assert (Hn' : w_heap s0 !! n = Some itn) by exact Hn.
      rewrite !bind_assoc, (bind_run (on_lru (λ l, l <| l_heads := upd (l_heads l) id n |>)) _ w tt s0 eq_refl). unfold fld.
      rewrite !bind_assoc, (bind_run _ _ _ _ _ (load_ok s0 n itn Hn')), (bind_run (mret _) _ s0 _ s0 eq_refl), Hpn.
      rewrite bind_assoc, (bind_run (c_assert _) _ s0 tt s0) by (unfold c_assert; by rewrite Z.eqb_refl).
      by rewrite (bind_run _ _ _ _ _ (wr_ok s0 n _ itn Hn')).
    + done.
    + set (s1 := w1 <| w_heap := h2 |>). assert (Hc2 : w_heap s1 !! c = Some mk0) by apply lookup_insert_eq.
      unfold do_item_unlinktail_q, lru_take_out.
      rewrite (bind_run _ _ _ _ _ (load_ok s1 c mk0 Hc2)), (bind_run (gets _) _ s1 _ _ eq_refl).
      change (i_slabs_clsid mk0) with (i_slabs_clsid mk). change (i_prev mk0) with (i_prev mk). change (i_next mk0) with (i_next mk).
      rewrite Hid, Hpv, Hnx. cbv zeta. change (w_lru s1) with lr2. unfold lr2 at 1 2. cbn [l_heads l_tails field_update]. rewrite upd_eq.
      assert (Htc : lastz n l2 ≠ c) by (destruct (lastz_in n l2) as [->|E]; [congruence|intros E2; apply Hcl; by rewrite <- E2]).
      rewrite (proj2 (Z.eqb_neq n c)), Ht by done. change (lastz c (n :: l2)) with (lastz n l2). rewrite (proj2 (Z.eqb_neq (lastz n l2) c)) by done.
      do 2 rewrite (bind_run (mret _) _ s1 tt s1 eq_refl).
      rewrite (bind_run (c_assert _) _ s1 tt s1) by done.
      rewrite (bind_run (c_assert _) _ s1 tt s1) by (unfold c_assert; by rewrite (proj2 (Z.eqb_neq 0 c))).
      unfold q_unlink. rewrite (bind_run _ _ _ _ _ (load_ok s1 c mk0 Hc2)).
      change (i_prev mk0) with (i_prev mk). change (i_next mk0) with (i_next mk). rewrite Hpv, Hnx.
      rewrite (proj2 (Z.eqb_neq n NULL)) by done. cbn [negb when].
      rewrite (bind_run _ _ _ _ _ (wr_ok s1 n _ itn0 Hn2')). change (0 =? NULL) with true. cbn [negb when].
      do 2 f_equal. unfold s1, w1. simpl. rewrite insert_id; [by destruct w|]. rewrite Hn2'. by destruct itn.
    + apply Hoth; [intros y Hy1 Hy2; unfold h2, h1; rewrite !lookup_insert_ne; try done; intros ->; apply Hy2; by left|].
      unfold h2. apply dlseg_insert_notin; [by apply not_elem_of_cons|]. by apply (dlseg_set_first_prev (w_heap w) c).
    + split; [apply upd_eq|exact Ht].
    + split; [by destruct (w_lru w)|]. intros j Hj. unfold lr2. simpl. by rewrite upd_ne.
    + unfold h2, h1. rewrite insert_insert_ne by done. apply lsame_set_prev. by rewrite lookup_insert_ne.
Qed.

(** ** Writing into the client's buffer *)

Lemma bipbuf_request_ok me size o :
  bipbuf_ok me → bipbuf_request me size = Some o →
  size ≤ bipbuf_unused me ∧ 0 ≤ o ∧ o + bipbuf_unused me ≤ bb_size me ∧
  (bb_b_inuse me = 0 ∧ o = bb_a_end me ∨ bb_b_inuse me = 1 ∧ o = bb_b_end me ∧ o + bipbuf_unused me = bb_a_start me).
Proof.
  intros Hok. pose proof (bipbuf_unused_ok _ Hok) as Hu. destruct Hok as [Hs Hd Ha Hb]. unfold bipbuf_request.
  destruct (bipbuf_unused me <? size) eqn:E; [done|]. bool_props. rewrite Hu in *.
  destruct (Z.eqb_spec 1 (bb_b_inuse me)) as [Eb|Eb]; intros [= <-]; destruct Hb as [[? ?]|[? ?]]; try lia; split_and!; lia.
Qed.

(** Region B is in use only behind a region A that holds bytes. *)
Definition bip_front (me : bipbuf_t) : Prop := bb_a_start me = bb_a_end me → bb_b_inuse me = 0.

(** Text written where the buffer has room, then the first [n] bytes pushed. *)
Lemma bipbuf_produce me size o data n :
  bipbuf_ok me → bipbuf_request me size = Some o → Z.of_nat (length data) ≤ size → 0 ≤ n ≤ Z.of_nat (length data) →
  ∃ d, memcpy (bb_data me) o data (Z.of_nat (length data)) = Some d ∧
    let me' := (bipbuf_push (me <| bb_data := d |>) n).2 in
    bipbuf_ok me' ∧ bipbuf_contents me' = bipbuf_contents me ++ take (Z.to_nat n) data ∧
    bipbuf_unused me - n ≤ bipbuf_unused me' ∧ (0 < n → bip_front me → bip_front me').
Proof.
  intros Hok Hreq Hl Hn. destruct (bipbuf_request_ok me size o Hok Hreq) as (Hsz & Ho & Hend & Hcase).
  pose proof Hok as [Hs Hd Ha Hb]. pose proof (bipbuf_unused_ok _ Hok) as Hu.
  rewrite memcpy_ok by lia. rewrite Nat2Z.id, firstn_all. eexists. split; [done|].
  set (d := blit o data (bb_data me)). assert (Hdl : Z.of_nat (length d) = bb_size me) by (unfold d; rewrite length_blit; lia).
  unfold bipbuf_push. change (bipbuf_unused (me <| bb_data := d |>)) with (bipbuf_unused me).
  rewrite (proj2 (Z.ltb_ge _ _)) by lia. simpl snd.
  assert (Hdata : slice o n d = take (Z.to_nat n) data).
  { unfold d, slice, blit. rewrite drop_app_length' by (rewrite length_take; lia). rewrite take_app_le by lia. done. }
  assert (Hunused : ∀ x, bipbuf_ok x → bipbuf_unused x ≤ bipbuf_unused (check_for_switch_to_b x)).
  { intros x Hx. rewrite (bipbuf_unused_ok _ Hx), (bipbuf_unused_ok _ (check_for_switch_ok _ Hx)). unfold check_for_switch_to_b.
    destruct Hx as [X1 X2 X3 X4]. destruct (_ <? _) eqn:E; simpl; [|lia]. bool_props.
    unfold u32, u64 in *. destruct X4 as [[Eb ?]|[Eb ?]]; rewrite Eb; simpl; [|lia].
    rewrite !Z.mod_small in E by lia. lia. }
  set (me1 := if 1 =? bb_b_inuse _ then _ else _).
  assert (H1 : bipbuf_ok me1 ∧ bipbuf_contents me1 = bipbuf_contents me ++ take (Z.to_nat n) data ∧ bipbuf_unused me1 = bipbuf_unused me - n).
  { rewrite Hu in *. destruct Hcase as [[Eb ->]|(Eb & -> & Hend2)]; subst me1; simpl; rewrite Eb in *; simpl in *.
    - assert (Hw : u32 (bb_a_end me + n) = bb_a_end me + n) by (apply u32_small; lia). rewrite Hw.
      assert (Hok1 : bipbuf_ok (me <| bb_data := d |> <| bb_a_end := bb_a_end me + n |>)) by (constructor; simpl; lia).
      split_and!; [done| |rewrite (bipbuf_unused_ok _ Hok1); simpl; rewrite Eb; simpl; lia].
      assert (Hb0 : bb_b_end me = 0) by lia. unfold bipbuf_contents. simpl. rewrite Hb0, !slice_nil, !app_nil_r.
      replace (bb_a_end me + n - bb_a_start me) with ((bb_a_end me - bb_a_start me) + n) by lia.
      rewrite slice_split by lia. unfold d at 1. rewrite slice_blit_before by lia. f_equal.
      replace (bb_a_start me + (bb_a_end me - bb_a_start me)) with (bb_a_end me) by lia. exact Hdata.
    - assert (Hw : u32 (bb_b_end me + n) = bb_b_end me + n) by (apply u32_small; lia). rewrite Hw.
      assert (Hok1 : bipbuf_ok (me <| bb_data := d |> <| bb_b_end := bb_b_end me + n |>)) by (constructor; simpl; lia).
      split_and!; [done| |rewrite (bipbuf_unused_ok _ Hok1); simpl; rewrite Eb; simpl; lia].
      unfold bipbuf_contents. simpl. unfold d at 1. rewrite slice_blit_after by lia. rewrite <- app_assoc. f_equal.
      rewrite slice_split by lia. unfold d at 1. rewrite slice_blit_before by lia. f_equal. exact Hdata. }
  destruct H1 as (K1 & K2 & K3). split_and!; [by apply check_for_switch_ok|by rewrite check_for_switch_contents|rewrite <- K3; by apply Hunused|].
  intros Hn0 Hf. assert (Hlt : bb_a_start me1 < bb_a_end me1).
  { unfold bip_front in Hf. subst me1. simpl. destruct Hcase as [[Eb _]|(Eb & _)]; rewrite Eb in *; simpl; [|lia].
    rewrite Hu in *. simpl in *. rewrite u32_small by lia. lia. }
  unfold bip_front, check_for_switch_to_b. destruct (_ <? _); simpl; lia.
Qed.

(** ** The line of an item *)

Definition gone (w : world) (it : item) : bool :=
  (negb (i_exptime it =? 0) && (i_exptime it <? w_current_time w)) || flushed w it.

Definition dump_line (ps : Z) (it : item) : list Z := metadump_line (concat (escape <$> ITEM_key it)) it ps.

(** What the client gets to see of an item: nothing when it is expired or flushed. *)
Definition dump_text (w : world) (ps : Z) (it : item) : list Z := if gone w it then [] else dump_line ps it.

Lemma escape_nonzero c : is_byte c → 0 ∉ escape c.
Proof.
  intros Hc Hin. assert (Hu : ∀ d, 0 ≤ d → hex_upper d ≠ 0) by (intros d Hd; unfold hex_upper; destruct (_ <? _); lia).
  unfold is_byte in Hc. unfold escape, uriencode_map in Hin. destruct (_ || _) eqn:E; simpl in Hin.
  - apply list_elem_of_singleton in Hin. subst c. by vm_compute in E.
  - apply elem_of_cons in Hin as [?|Hin]; [done|]. apply elem_of_cons in Hin as [Hin|Hin]; [apply (Hu (c / 16)); [apply Z.div_pos; lia|done]|].
    apply list_elem_of_singleton in Hin. apply (Hu (c mod 16)); [by apply Z.mod_pos_bound|done].
Qed.

Lemma keybuf_run key : Forall is_byte key → (length key ≤ 250)%nat →
  ∃ b, uriencode key KEY_MAX_URI_ENCODED_LENGTH = Some b ∧ c_str b = concat (escape <$> key).
Proof.
  intros Hb Hl. destruct (uriencode_loop_enough key [] KEY_MAX_URI_ENCODED_LENGTH) as [b Hr];
    [unfold KEY_MAX_URI_ENCODED_LENGTH; simpl length; lia|].
  exists b. split; [done|]. apply uriencode_loop_ok in Hr as [-> _]; [|unfold KEY_MAX_URI_ENCODED_LENGTH; simpl length; lia].
  simpl. apply c_str_stop. clear Hl. induction Hb as [|c key Hc Hb IH]; [apply not_elem_of_nil|]. simpl. rewrite elem_of_app.
  intros [?|?]; [by apply (escape_nonzero c)|done].
Qed.

Lemma length_decimal_aux n x : (length (decimal_aux n x) ≤ n)%nat.
Proof. revert x. induction n as [|n IH]; intros x; simpl; [lia|]. destruct (x <? 10); [simpl; lia|]. rewrite length_app. specialize (IH (x / 10)). simpl. lia. Qed.

Lemma escape_concat_length (key : list Z) : (length (concat (escape <$> key)) ≤ 3 * length key)%nat.
Proof.
  induction key as [|c key IH]; [done|]. change (concat (escape <$> c :: key)) with (escape c ++ concat (escape <$> key)).
  rewrite length_app. pose proof (escape_length c). simpl length. lia.
Qed.

Lemma dump_line_bounded ps it : (length (ITEM_key it) ≤ 250)%nat → (0 < length (dump_line ps it) ≤ 1000)%nat.
Proof.
  intros Hk. unfold dump_line, metadump_line. pose proof (escape_concat_length (ITEM_key it)).
  assert (Hd : ∀ x, (length (decimal x) ≤ 20)%nat) by (intros x; apply length_decimal_aux).
  rewrite !length_app. 
  change (length (txt "key=")) with 4%nat; change (length (txt " exp=")) with 5%nat; change (length (txt " la=")) with 4%nat;
  change (length (txt " cas=")) with 5%nat; change (length (txt " fetch=")) with 7%nat; change (length (txt " cls=")) with 5%nat;
  change (length (txt " size=")) with 6%nat. simpl (length [10]).
  assert (He : (length (if (i_exptime it =? 0)%Z then txt "-1" else decimal (i_exptime it + ps)) ≤ 20)%nat) by (destruct (_ =? _)%Z; [by apply Nat.leb_le|apply Hd]).
  assert (Hf : (length (if flag (i_it_flags it) ITEM_FETCHED then txt "yes" else txt "no") ≤ 20)%nat) by (destruct (flag _ _); by apply Nat.leb_le).
  pose proof (Hd (i_time it + ps)%Z). pose proof (Hd (ITEM_get_cas it)). pose proof (Hd (ITEM_clsid it)). pose proof (Hd (ITEM_ntotal it)). lia.
Qed.

Section Dump.
Context {HF : HashFn}.
Implicit Types (s : cworld) (w : world) (b : bipbuf_t).

Lemma cw_eta s : s <| c_world := c_world s |> = s.
Proof. by destruct s. Qed.

Lemma Wc_run {A} (op : M world A) s a w' : op (c_world s) = Some (a, w') → Wc op s = Some (a, s <| c_world := w' |>).
Proof. unfold Wc. by intros ->. Qed.

(** A reference count of 16 bits and a key that fits its line. *)
Definition crawlable (it : item) : Prop := 0 ≤ i_refcount it < 2 ^ 16 ∧ Forall is_byte (ITEM_key it) ∧ (length (ITEM_key it) ≤ 250)%nat.

Definition with_item s x (it : item) : cworld :=
  s <| c_world := (c_world s) <| w_heap := <[x := it]> (w_heap (c_world s)) |> |>.

Lemma decr_run w x it : w_heap w !! x = Some (it <| i_refcount := 2 |>) → i_refcount it = 1 →
  refcount_decr x w = Some (1, w <| w_heap := <[x := it]> (w_heap w) |>).
Proof.
  intros Hx Hr. unfold refcount_decr. rewrite (bind_run _ _ _ _ _ (load_ok _ _ _ Hx)). unfold store. munfold. simpl.
  do 3 f_equal. by destruct it; simpl in Hr; subst.
Qed.

Lemma client_write_ok s b o data d :
  c_client s = Some (mkClient (Some b) (Some o)) → memcpy (bb_data b) o data (Z.of_nat (length data)) = Some d →
  client_write data s = Some (tt, s <| c_client := Some (mkClient (Some (b <| bb_data := d |>)) (Some o)) |>).
Proof.
  intros Hc Hd. unfold client_write, client_buf. munfold. rewrite Hc. cbn [option_bind cc_buf cc_cbuf]. rewrite Hd. unfold on_client. munfold. by rewrite Hc.
Qed.

Lemma metadump_eval_ok s b o x it hv j :
  c_client s = Some (mkClient (Some b) (Some o)) → bipbuf_ok b → bipbuf_request b LRU_CRAWLER_WRITEBUF = Some o →
  w_heap (c_world s) !! x = Some (it <| i_refcount := 2 |>) → i_refcount it = 1 → crawlable it →
  let text := dump_text (c_world s) (c_process_started s) it in
  ∃ b', crawler_metadump_eval x hv j s = Some (tt, (with_item s x it) <| c_client := Some (mkClient (Some b') (Some o)) |>) ∧
    bipbuf_ok b' ∧ bipbuf_contents b' = bipbuf_contents b ++ text ∧
    bipbuf_unused b - Z.of_nat (length text) ≤ bipbuf_unused b' ∧ (bip_front b → bip_front b').
Proof.
  intros Hc Hb Hreq Hx Hr (_ & Hk & Hkl) text. unfold crawler_metadump_eval.
  rewrite (bind_run _ _ _ _ _ (Wc_run _ s _ _ (load_ok _ _ _ Hx))). replace (s <| c_world := c_world s |>) with s by (by destruct s).
  rewrite (bind_run _ _ _ _ _ (Wc_run _ s _ _ (item_is_flushed_run (c_world s) _))).
  replace (s <| c_world := c_world s |>) with s by (by destruct s). rewrite (bind_run (gets _) _ s _ s eq_refl).
  unfold text, dump_text. clear text.
  change ((negb (i_exptime (it <| i_refcount := 2 |>) =? 0) && (i_exptime (it <| i_refcount := 2 |>) <? w_current_time (c_world s)))
    || flushed (c_world s) (it <| i_refcount := 2 |>)) with (gone (c_world s) it).
  destruct (gone (c_world s) it).
  - rewrite (bind_run _ _ _ _ _ (Wc_run _ s _ _ (decr_run (c_world s) x it Hx Hr))). exists b. split_and!; [|done|by rewrite app_nil_r|simpl; lia|done].
    unfold with_item. rewrite <- Hc. by destruct s.
  - rewrite (bind_run get_state _ s s s eq_refl). destruct (keybuf_run (ITEM_key it) Hk Hkl) as (kb & Hkb & Hcs).
    change (ITEM_key (it <| i_refcount := 2 |>)) with (ITEM_key it). rewrite Hkb, (bind_run (mret _) _ s _ s eq_refl), Hcs.
    change (metadump_line (concat (escape <$> ITEM_key it)) (it <| i_refcount := 2 |>) (c_process_started s)) with (dump_line (c_process_started s) it).
    set (line := dump_line (c_process_started s) it). pose proof (dump_line_bounded (c_process_started s) it Hkl) as Hlen. fold line in Hlen.
    rewrite take_ge by lia. assert (Hl1 : length (line ++ [0]) = S (length line)) by (rewrite length_app; simpl; lia).
    destruct (bipbuf_produce b LRU_CRAWLER_WRITEBUF o (line ++ [0]) (Z.of_nat (length line)) Hb Hreq) as (d & Hd & Hb' & Hct & Hun & Hfr);
      [unfold LRU_CRAWLER_WRITEBUF; lia|lia|].
    set (s1 := s <| c_client := Some (mkClient (Some (b <| bb_data := d |>)) (Some o)) |>).
    rewrite (bind_run _ _ _ _ _ (client_write_ok s b o _ d Hc Hd)). fold s1.
    rewrite (bind_run _ _ _ _ _ (Wc_run _ s1 _ _ (decr_run (c_world s) x it Hx Hr))).
    unfold LRU_CRAWLER_WRITEBUF. rewrite (proj2 (Z.leb_gt _ _)), (proj2 (Z.leb_gt _ _)) by lia. cbn [orb].
    exists (bipbuf_push (b <| bb_data := d |>) (Z.of_nat (length line))).2. split_and!; [|done| |done|intros; apply Hfr; [lia|done]].
    + unfold client_push, client_buf. munfold. reflexivity.
    + rewrite Hct. f_equal. rewrite Nat2Z.id. apply take_app_length.
Qed.
(** ** One turn of the crawler of a queue *)

Variables crawlers i : Z.
#[local] Notation c := (crawler_at crawlers i).
#[local] Notation q := (LruQ i).

(** The text of the item at [x]: nothing when somebody holds the item. *)
Definition item_text w (ps : Z) (it : item) : list Z := if i_refcount it =? 1 then dump_text w ps it else [].
Definition text_at s x : list Z :=
  match w_heap (c_world s) !! x with Some it => item_text (c_world s) (c_process_started s) it | None => [] end.

(** The dump has come as far as [l2]; [l1] is before it. *)
Record walking s (D : queues) (l1 l2 : list Z) b : Prop := {
  wk_mod : c_mod s = Some METADUMP_MOD;
  wk_client : ∃ cb, c_client s = Some (mkClient (Some b) cb);
  wk_buf : bipbuf_ok b ∧ bip_front b;
  wk_locks : c_lru_locks s = ∅ ∧ w_locks (c_world s) = ∅;
  wk_limit : cr_remaining (c_crawlers s i) = 0 ∨ Z.of_nat (length l1) < cr_remaining (c_crawlers s i);
  wk_queue : queues_ok (w_heap (c_world s)) (qset D q (l1 ++ c :: l2));
  wk_ends : lru_ends (w_lru (c_world s)) i (l1 ++ c :: l2);
  wk_marker : ∃ mk, w_heap (c_world s) !! c = Some mk ∧ is_marker c i mk;
  wk_items : ∀ x, x ∈ l1 ++ l2 → ∃ it, w_heap (c_world s) !! x = Some it ∧ crawlable it
}.

(** Only links and the ends of the queue differ, and the state of the crawl. *)
Definition crept s s' : Prop :=
  c_world s' = (c_world s) <| w_heap := w_heap (c_world s') |> <| w_lru := w_lru (c_world s') |> ∧
  lsame (w_heap (c_world s)) (w_heap (c_world s')) ∧ ends_frame (w_lru (c_world s)) (w_lru (c_world s')) i ∧
  c_process_started s' = c_process_started s ∧ c_count s' = c_count s ∧ c_polls s' = c_polls s ∧ c_sent s' = c_sent s ∧
  c_released s' = c_released s ∧ (∀ j, j ≠ i → c_crawlers s' j = c_crawlers s j) ∧
  c_thread s' = c_thread s ∧ c_running s' = c_running s.

Lemma text_at_crept s s' x : crept s s' → text_at s' x = text_at s x.
Proof.
  intros (E & L & _ & Ep & _). unfold text_at. rewrite Ep.
  assert (Hg : ∀ it, item_text (c_world s') (c_process_started s) it = item_text (c_world s) (c_process_started s) it) by (intros it; by rewrite E).
  assert (Hf := lsame_fmap (λ it, item_text (c_world s) (c_process_started s) it) _ _ x ltac:(done) L).
  destruct (w_heap (c_world s') !! x), (w_heap (c_world s) !! x); simpl in Hf; try done. rewrite Hg. by injection Hf.
Qed.

Lemma client_buf_run s b cb : c_client s = Some (mkClient (Some b) cb) → client_buf s = Some (b, s).
Proof. unfold client_buf. by intros ->. Qed.

Lemma getbuf_ok s b cb o :
  c_client s = Some (mkClient (Some b) cb) → bipbuf_request b LRU_CRAWLER_WRITEBUF = Some o →
  lru_crawler_client_getbuf s = Some (0, s <| c_client := Some (mkClient (Some b) (Some o)) |>).
Proof.
  intros Hc Hreq. unfold lru_crawler_client_getbuf. rewrite (bind_run get_state _ s s s eq_refl), Hc. cbn [getbuf_loop].
  rewrite (bind_run _ _ _ _ _ (client_buf_run s b cb Hc)), Hreq. unfold on_client. munfold. by rewrite Hc.
Qed.

(** A look for room that finds it. *)
Lemma client_room_ok s b cb o :
  c_client s = Some (mkClient (Some b) cb) → bipbuf_request b LRU_CRAWLER_WRITEBUF = Some o →
  client_room s = Some (true, s <| c_client := Some (mkClient (Some b) (Some o)) |>).
Proof.
  intros Hc Hreq. unfold client_room. rewrite (bind_run get_state _ s s s eq_refl), Hc.
  by rewrite (bind_run _ _ _ _ _ (getbuf_ok s b cb o Hc Hreq)).
Qed.

Lemma request_room b : bipbuf_ok b → LRU_CRAWLER_WRITEBUF ≤ bipbuf_unused b → ∃ o, bipbuf_request b LRU_CRAWLER_WRITEBUF = Some o.
Proof. intros _ Hu. unfold bipbuf_request. rewrite (proj2 (Z.ltb_ge _ _)) by done. destruct (_ =? _); by eexists. Qed.

(** The item in hand is dumped; the locks are given back. *)
Lemma crawl_item_ok s b o x it :
  c_mod s = Some METADUMP_MOD → c_client s = Some (mkClient (Some b) (Some o)) → bipbuf_ok b →
  bipbuf_request b LRU_CRAWLER_WRITEBUF = Some o → c_lru_locks s = {[i]} → w_locks (c_world s) = ∅ →
  w_heap (c_world s) !! x = Some it → crawlable it →
  ∃ b' X, crawl_item i x s = Some (tt, s <| c_client := Some (mkClient (Some b') (Some o)) |> <| c_lru_locks := ∅ |> <| c_crawlers := X |>) ∧
    (∀ j, j ≠ i → X j = c_crawlers s j) ∧ cr_remaining (X i) = cr_remaining (c_crawlers s i) ∧
    bipbuf_ok b' ∧ bipbuf_contents b' = bipbuf_contents b ++ text_at s x ∧
    bipbuf_unused b - Z.of_nat (length (text_at s x)) ≤ bipbuf_unused b' ∧ (bip_front b → bip_front b').
Proof.
  intros Hm Hc Hb Hreq Hlk Hwl Hx Hid. pose proof Hid as (Hr & _). unfold crawl_item.
  rewrite (bind_run _ _ _ _ _ (Wc_run _ s _ _ (load_ok _ _ _ Hx))). replace (s <| c_world := c_world s |>) with s by (by destruct s).
  cbv zeta. set (hv := hash (ITEM_key it)). set (lk := item_lock_index (c_world s) hv).
  set (w1 := (c_world s) <| w_locks := {[lk]} |>).
  assert (Htry : item_trylock hv (c_world s) = Some (Some lk, w1)).
  { unfold item_trylock. fold lk. rewrite Hwl, decide_False by apply not_elem_of_empty. unfold w1. by rewrite (right_id_L ∅ (∪)). }
  rewrite (bind_run _ _ _ _ _ (Wc_run _ s _ _ Htry)). set (s1 := s <| c_world := w1 |>).
  assert (Ew1 : w1 <| w_locks := {[lk]} ∖ {[lk]} |> = c_world s).
  { replace ({[lk]} ∖ {[lk]} : gset Z) with (w_locks (c_world s)) by (rewrite Hwl; set_solver). unfold w1. by destruct (c_world s). }
  set (w2 := w1 <| w_heap := <[x := it <| i_refcount := u16 (i_refcount it + 1) |>]> (w_heap w1) |>).
  assert (Hinc : refcount_incr x w1 = Some (u16 (i_refcount it + 1), w2)).
  { unfold refcount_incr. by rewrite (bind_run _ _ w1 it w1 (load_ok w1 x it Hx)). }
  rewrite (bind_run _ _ _ _ _ (Wc_run _ s1 _ _ Hinc)). set (s1b := s1 <| c_world := w2 |>).
  assert (Et : text_at s x = if i_refcount it =? 1 then dump_text (c_world s) (c_process_started s) it else []) by (unfold text_at; by rewrite Hx).
  rewrite Et. clear Et. destruct (Z.eqb_spec (i_refcount it) 1) as [Hr1|Hr1].
  2:{ assert (Hne : u16 (i_refcount it + 1) ≠ 2) by (intros E; unfold u16 in E; apply Hr1; destruct (Z.eq_dec (i_refcount it) (2 ^ 16 - 1)) as [Em|Em]; [by rewrite Em in E|rewrite Z.mod_small in E by lia; lia]).
      rewrite (proj2 (Z.eqb_neq _ _)) by done. cbn [negb].
      assert (Hdec : ∃ r, refcount_decr x w2 = Some (r, w1)).
      { unfold refcount_decr. eexists. rewrite (bind_run _ _ w2 _ w2 (load_ok w2 x _ (lookup_insert_eq _ _ _))). unfold store. munfold.
        do 2 f_equal. simpl. rewrite insert_insert_eq. rewrite insert_id; [by destruct (c_world s)|]. rewrite Hx. f_equal.
        assert (Hu : u16 (u16 (i_refcount it + 1) - 1) = i_refcount it) by (unfold u16; rewrite Zminus_mod_idemp_l, Z.add_simpl_r; apply Z.mod_small; lia).
        rewrite Hu. by destruct it. }
      destruct Hdec as (r & Hdec). rewrite (bind_run _ _ _ _ _ (Wc_run _ s1b _ _ Hdec)).
      exists b, (c_crawlers s). split_and!; try done; [|by rewrite app_nil_r|simpl; lia].
      assert (Htu : item_trylock_unlock lk w1 = Some (tt, c_world s)) by (rewrite <- Ew1; reflexivity). set (s1c := s1b <| c_world := w1 |>).
      rewrite (bind_run _ _ _ _ _ (Wc_run _ s1c _ _ Htu)). replace (s1c <| c_world := c_world s |>) with s by (symmetry; exact (cw_eta s)).
      unfold lru_unlock. rewrite Hlk, decide_True by set_solver. rewrite <- Hc. replace ({[i]} ∖ {[i]} : gset Z) with (∅ : gset Z) by set_solver.
      by destruct s. }
  rewrite Hr1. change (negb (u16 (1 + 1) =? 2)) with false. cbv iota.
  rewrite (bind_run (on_crawler _ _) _ _ tt _ eq_refl). match goal with |- context [(active_mod ≫= _) ?z] => set (s2 := z) end.
  rewrite (bind_run active_mod _ s2 METADUMP_MOD s2) by (unfold active_mod; by change (c_mod s2) with (c_mod s); rewrite Hm).
  cbn [needs_lock negb when mod_eval].
  set (s3 := s2 <| c_lru_locks := ∅ |>).
  rewrite (bind_run (lru_unlock i) _ s2 tt s3).
  2:{ unfold lru_unlock. change (c_lru_locks s2) with (c_lru_locks s). rewrite Hlk, decide_True by set_solver. unfold s3. do 3 f_equal. set_solver. }
  destruct (metadump_eval_ok s3 b o x it hv i Hc Hb Hreq) as (b' & Hev & Hb' & Hct & Hun & Hfr);
    [rewrite <- (lookup_insert_eq (w_heap w1) x); unfold s3, s2, s1b, w2; simpl; by rewrite Hr1|done|done|].
  rewrite (bind_run _ _ _ _ _ Hev). exists b'. eexists. split; [|split_and!; [| |exact Hb'|exact Hct|exact Hun|exact Hfr]].
  - match goal with |- (Wc _ ≫= _) ?z = _ => set (s4 := z) end. assert (Htu : item_trylock_unlock lk (c_world s4) = Some (tt, c_world s)).
    { rewrite <- Ew1. unfold item_trylock_unlock. munfold. do 2 f_equal. unfold s4, with_item. simpl. rewrite insert_insert_eq, insert_id by done. done. }
    rewrite (bind_run _ _ _ _ _ (Wc_run _ s4 _ _ Htu)). reflexivity.
  - intros j Hj. simpl. by apply upd_ne.
  - simpl. by rewrite upd_eq.
Qed.
Lemma crawlable_lsame h h' x it : lsame h h' → h !! x = Some it → crawlable it → ∃ it', h' !! x = Some it' ∧ crawlable it'.
Proof. intros L Hx Hid. destruct (lsame_lookup _ _ _ _ L Hx) as (n & v & Hx'). eexists. split; [exact Hx'|exact Hid]. Qed.

Lemma marker_lsame h h' j mk : lsame h h' → h !! c = Some mk → is_marker c j mk → ∃ mk', h' !! c = Some mk' ∧ is_marker c j mk'.
Proof. intros L Hx Hid. destruct (lsame_lookup _ _ _ _ L Hx) as (n & v & Hx'). eexists. split; [exact Hx'|exact Hid]. Qed.

Lemma fld_run w p it {A} (f : item → A) : w_heap w !! p = Some it → fld p f w = Some (f it, w).
Proof. intros Hp. unfold fld. by rewrite (bind_run _ _ _ _ _ (load_ok _ _ _ Hp)). Qed.

Lemma Wc_same {A} (op : M world A) s a : op (c_world s) = Some (a, c_world s) → Wc op s = Some (a, s).
Proof. intros H. rewrite (Wc_run _ _ _ _ H). by destruct s. Qed.

(** The limit is not reached while more items are to come. *)
Lemma crawl_limit_ok s n :
  0 ≤ n → cr_remaining (c_crawlers s i) = 0 ∨ n + 1 < cr_remaining (c_crawlers s i) →
  ∃ X, crawl_limit i s = Some (false, s <| c_crawlers := X |>) ∧ (∀ j, j ≠ i → X j = c_crawlers s j) ∧
    (cr_remaining (X i) = 0 ∨ n < cr_remaining (X i)).
Proof.
  intros Hn Hlim. unfold crawl_limit. rewrite (bind_run (gets _) _ s _ s eq_refl).
  destruct (Z.eqb_spec (cr_remaining (c_crawlers s i)) 0) as [E|E]; [exists (c_crawlers s); split_and!; [by destruct s|done|by left]|].
  eexists. split_and!.
  - rewrite (bind_run (on_crawler i _) _ s tt _ eq_refl), (proj2 (Z.ltb_ge _ _)) by lia. reflexivity.
  - intros j Hj. by apply upd_ne.
  - right. rewrite upd_eq. simpl. lia.
Qed.

Lemma crawl_turn_ok s D l x l2 b :
  walking s D (l ++ [x]) l2 b → LRU_CRAWLER_WRITEBUF ≤ bipbuf_unused b →
  ∃ s' b', crawl_class crawlers i s = Some (tt, s') ∧ walking s' D l (x :: l2) b' ∧
    bipbuf_contents b' = bipbuf_contents b ++ text_at s x ∧
    bipbuf_unused b - Z.of_nat (length (text_at s x)) ≤ bipbuf_unused b' ∧ crept s s'.
Proof.
  intros [Hm (cb & Hc) [Hb Hfr] [Hlk Hwl] Hlim Hq Hends (mk & Hmk & Hmark) Hit] Hroom.
  destruct (request_room b Hb Hroom) as [o Hreq]. pose proof Hmark as (Hf & _ & _ & Hc0).
  unfold crawl_class. rewrite (bind_run _ _ _ _ _ (Wc_same _ _ _ (fld_run _ _ _ i_it_flags Hmk))), Hf. change (negb (1 =? 1)) with false. cbv iota.
  rewrite (bind_run _ _ _ _ _ (client_room_ok s b cb o Hc Hreq)). cbn [negb].
  set (s1 := s <| c_client := _ |>). set (s2 := s1 <| c_lru_locks := {[i]} |>).
  rewrite (bind_run (lru_lock i) _ s1 tt s2).
  2:{ unfold lru_lock. change (c_lru_locks s1) with (c_lru_locks s). rewrite Hlk, decide_False by apply not_elem_of_empty.
      unfold s2. by rewrite (right_id_L ∅ (∪)). }
  rewrite <- app_assoc in Hq, Hends. cbn [app] in Hq, Hends.
  destruct (do_item_crawl_q_step (c_world s) _ i l x c l2 mk Hq (qset_eq _ _ _) Hmk Hmark Hends) as (h' & Hrun & Hq' & Hls).
  rewrite qset_qset in Hq'. rewrite (bind_run _ _ _ _ _ (Wc_run _ s2 _ _ Hrun)). set (s3 := s2 <| c_world := _ |>).
  destruct (Hit x) as (it & Hx & Hid); [apply elem_of_app; left; apply elem_of_app; right; by left|].
  destruct (crawlable_lsame _ _ _ _ Hls Hx Hid) as (it' & Hx' & Hid').
  assert (Hx0 : x ≠ NULL).
  { pose proof (qo_seg _ _ Hq q) as Hseg. rewrite qset_eq in Hseg. by apply dlseg_mid in Hseg as [? _]. }
  rewrite (proj2 (Z.eqb_neq x NULL)) by done.
  destruct (crawl_limit_ok s3 (Z.of_nat (length l)) ltac:(lia)) as (X & Hlm & HX & HXi).
  { change (c_crawlers s3 i) with (c_crawlers s i). rewrite length_app in Hlim. simpl in Hlim. lia. }
  rewrite (bind_run _ _ _ _ _ Hlm). set (s4 := s3 <| c_crawlers := X |>).
  destruct (crawl_item_ok s4 b o x it' Hm eq_refl Hb Hreq eq_refl Hwl Hx' Hid') as (b' & Y & Hci & HY & HYi & Hb' & Hct & Hun & Hfr').
  rewrite Hci. pose proof (qo_nodup _ _ Hq q) as Hnd. rewrite qset_eq in Hnd.
  destruct (swung_ends (w_lru (c_world s)) i l x c l2 Hnd Hends) as [He' Hef].
  assert (Hcr : crept s s4) by (split_and!; try done; by destruct (c_world s)).
  rewrite (text_at_crept s s4 x Hcr) in Hct, Hun. eexists _, b'. split; [reflexivity|]. split; [|split_and!; try done].
  - constructor; try done; [by eexists|by split; [|apply Hfr']| |exact (marker_lsame _ _ _ _ Hls Hmk Hmark)|].
    + simpl. rewrite HYi. exact HXi.
    + intros y Hy. destruct (Hit y) as (ity & Hity & Hidy); [rewrite <- app_assoc; exact Hy|]. exact (crawlable_lsame _ _ _ _ Hls Hity Hidy).
  - destruct Hcr as (E & L & F & A & B & C & C2 & C3 & HX' & C4 & C5). split_and!; try done. intros j Hj. simpl. rewrite HY by done. by apply HX.
Qed.

(** ** The end of a queue *)

(** The dump is through: the marker has left the queue. *)
Record walked s (D : queues) (l : list Z) b : Prop := {
  wd_mod : c_mod s = Some METADUMP_MOD;
  wd_client : ∃ cb, c_client s = Some (mkClient (Some b) cb);
  wd_buf : bipbuf_ok b ∧ bip_front b;
  wd_locks : c_lru_locks s = ∅ ∧ w_locks (c_world s) = ∅;
  wd_queue : queues_ok (w_heap (c_world s)) (qset D q l);
  wd_ends : lru_ends (w_lru (c_world s)) i l;
  wd_marker : ∃ mk, w_heap (c_world s) !! c = Some mk ∧ i_it_flags mk = 0
}.

(** What a crawl keeps: the items up to their links, the other queues' ends, what
    the client got and the polls to come. *)
Definition kept s s' : Prop :=
  (∀ x, x ≠ c → erase_l <$> w_heap (c_world s) !! x = erase_l <$> w_heap (c_world s') !! x) ∧
  (∀ j, j ≠ i → l_heads (w_lru (c_world s')) j = l_heads (w_lru (c_world s)) j ∧
                l_tails (w_lru (c_world s')) j = l_tails (w_lru (c_world s)) j) ∧
  c_polls s' = c_polls s ∧ c_sent s' = c_sent s ∧ c_released s' = c_released s ∧ (∀ j, j ≠ i → c_crawlers s' j = c_crawlers s j) ∧
  (∀ it, gone (c_world s') it = gone (c_world s) it) ∧ c_process_started s' = c_process_started s ∧
  l_sizes (w_lru (c_world s')) = l_sizes (w_lru (c_world s)) ∧ c_thread s' = c_thread s ∧ c_running s' = c_running s.

Lemma crept_kept s s' : crept s s' → kept s s'.
Proof. intros (E & L & [E2 F] & P & _ & A & B & C & X & ? & ?). split_and!; try done; [intros it; by rewrite E|by rewrite E2]. Qed.

Lemma crawl_end_ok s D l b :
  walking s D [] l b → LRU_CRAWLER_WRITEBUF ≤ bipbuf_unused b →
  ∃ s', crawl_class crawlers i s = Some (tt, s') ∧ walked s' D l b ∧ kept s s' ∧ c_count s' = c_count s - 1.
Proof.
  intros [Hm (cb & Hc) [Hb Hfr] [Hlk Hwl] Hlim Hq Hends (mk & Hmk & Hmark) Hit] Hroom.
  destruct (request_room b Hb Hroom) as [o Hreq]. pose proof Hmark as (Hf & _).
  unfold crawl_class. rewrite (bind_run _ _ _ _ _ (Wc_same _ _ _ (fld_run _ _ _ i_it_flags Hmk))), Hf. change (negb (1 =? 1)) with false. cbv iota.
  rewrite (bind_run _ _ _ _ _ (client_room_ok s b cb o Hc Hreq)). cbn [negb].
  set (s1 := s <| c_client := _ |>). set (s2 := s1 <| c_lru_locks := {[i]} |>).
  rewrite (bind_run (lru_lock i) _ s1 tt s2).
  2:{ unfold lru_lock. change (c_lru_locks s1) with (c_lru_locks s). rewrite Hlk, decide_False by apply not_elem_of_empty.
      unfold s2. by rewrite (right_id_L ∅ (∪)). }
  destruct (pop_marker_ok (c_world s) D i l c mk Hq Hmk Hmark Hends) as (w1 & h2 & lr2 & Hcr & Hmk1 & Hul & Hq2 & He2 & Hef & Hls).
  rewrite (bind_run _ _ _ _ _ (Wc_run _ s2 _ _ Hcr)). set (s3 := s2 <| c_world := w1 |>).
  change (NULL =? NULL) with true. cbv iota. rewrite (bind_run (mret true) _ s3 true s3 eq_refl).
  unfold lru_crawler_class_done.
  set (wa := w1 <| w_heap := <[c := mk <| i_it_flags := 0 |>]> (w_heap w1) |>).
  set (wb := (c_world s) <| w_heap := h2 |> <| w_lru := lr2 |>).
  assert (Hwr : wr c (λ x, x <| i_it_flags := 0 |>) w1 = Some (tt, wa)) by (by rewrite (wr_ok w1 c _ mk Hmk1)).
  set (s3a := s3 <| c_world := wa |>). set (s4 := s3a <| c_count := c_count s3a - 1 |>).
  rewrite (bind_run _ _ _ _ _ (Wc_run _ s3 _ _ Hwr)), (bind_run (modify (λ s, s <| c_count := c_count s - 1 |>)) _ s3a tt s4 eq_refl).
  rewrite (bind_run _ _ _ _ _ (Wc_run _ s4 _ _ Hul)). fold wb. set (s5 := s4 <| c_world := wb |>).
  rewrite (bind_run (gets _) _ s5 _ s5 eq_refl). set (cr := c_crawlers s5 i).
  assert (∃ wc, do_item_stats_add_crawl i (cr_reclaimed cr) (cr_unfetched cr) (cr_checked cr) wb = Some (tt, wc) ∧
    w_heap wc = h2 ∧ (l_heads (w_lru wc) = l_heads lr2 ∧ l_tails (w_lru wc) = l_tails lr2) ∧ l_sizes (w_lru wc) = l_sizes lr2 ∧ w_locks wc = ∅ ∧ (∀ it, gone wc it = gone (c_world s) it)) as (wc & Est & Ewc).
  { unfold do_item_stats_add_crawl, on_itemstats. munfold. eexists. split_and!; [reflexivity..|exact Hwl|reflexivity]. }
  rewrite (bind_run _ _ _ _ _ (Wc_run _ s5 _ _ Est)). set (s6 := s5 <| c_world := wc |>). set (s7 := s6 <| c_lru_locks := ∅ |>).
  rewrite (bind_run (lru_unlock i) _ s6 tt s7).
  2:{ unfold lru_unlock. change (c_lru_locks s6) with ({[i]} : gset Z). rewrite decide_True by set_solver. unfold s7. do 3 f_equal. set_solver. }
  rewrite (bind_run active_mod _ s7 METADUMP_MOD s7) by (unfold active_mod; by change (c_mod s7) with (c_mod s); rewrite Hm).
  destruct Ewc as (Eh & [El1 El2] & Esz & Ek & Eg). eexists. split; [reflexivity|]. split; [|split; [|done]].
  - constructor; try done; [by eexists|by rewrite <- Eh in Hq2|unfold lru_ends; change (w_lru (c_world _)) with (w_lru wc); by rewrite El1, El2|].
    destruct (lsame_lookup _ _ _ _ Hls (lookup_insert_eq _ _ _)) as (n & v & Hx). rewrite <- Eh in Hx. eexists. split; [exact Hx|reflexivity].
  - split_and!; try done; [|intros j Hj; destruct Hef as [_ Hef]; rewrite <- El1, <- El2 in Hef; exact (Hef j Hj)|change (l_sizes (w_lru wc) = l_sizes (w_lru (c_world s))); destruct Hef as [Hef _]; by rewrite Esz, Hef]. intros x Hx. change (erase_l <$> w_heap (c_world s) !! x = erase_l <$> w_heap wc !! x).
    rewrite Eh, <- (Hls x). by rewrite lookup_insert_ne.
Qed.
End Dump.
