(* ===== verification/DumpThm.v ===== *)
(** * A dump of keys, from the command to the client's last byte

    The crawlers of several queues run side by side: each round of the thread's
    loop moves every marker by one item. What a client gets is the interleaving
    of the queues' items from their tails, one line for each. *)

From Stdlib Require Import Ascii String.
From stdpp Require Import strings.
From S2P Require Import Prelude Itoa Util Bipbuf Hashes State Links Queues Assoc Slabs SlabsSpec Items ItemsSpec ItemsAccess Tokens TokensThm Machine Crawler CrawlerThm.

Definition dump_end : list Z := txt "END" ++ [13; 10].

(** ** The order of a dump *)

(** The items to come, from the tail, of the queues whose crawler runs. *)
Definition todo : Type := Z → option (list Z).
Implicit Types T : todo.

Definition due T (i : Z) : list Z := match T i with Some (x :: _) => [x] | _ => [] end.
Definition next T (i : Z) : todo := match T i with None => T | Some [] => upd T i None | Some (_ :: l) => upd T i (Some l) end.

(** A round of the loop: one turn of each queue. *)
Fixpoint turns (qs : list Z) T : todo := match qs with [] => T | i :: qs => turns qs (next T i) end.
Fixpoint turn_order (qs : list Z) T : list Z := match qs with [] => [] | i :: qs => due T i ++ turn_order qs (next T i) end.

Definition lru_ids : list Z := seqZ POWER_SMALLEST (LARGEST_ID - POWER_SMALLEST).

(** [n] rounds. *)
Fixpoint crawl_order (n : nat) T : list Z :=
  match n with O => [] | S n => turn_order lru_ids T ++ crawl_order n (turns lru_ids T) end.

(** All that is to come. *)
Definition pending T : list Z := concat ((λ i, default [] (T i)) <$> lru_ids).
Definition running T (qs : list Z) : Z := Z.of_nat (sum_list_with (λ i, if T i then 1%nat else 0%nat) qs).

Lemma lru_ids_nodup : NoDup lru_ids.
Proof. apply NoDup_seqZ. Qed.

Lemma lru_ids_in i : i ∈ lru_ids ↔ POWER_SMALLEST ≤ i < LARGEST_ID.
Proof. unfold lru_ids. rewrite elem_of_seqZ. lia. Qed.

Lemma next_ne T i j : j ≠ i → next T i j = T j.
Proof. intros Hj. unfold next. destruct (T i) as [[|]|]; by rewrite ?upd_ne. Qed.

Lemma next_eq T i : next T i i = match T i with Some (_ :: l) => Some l | _ => None end.
Proof. unfold next. destruct (T i) as [[|]|] eqn:E; by rewrite ?upd_eq. Qed.

Lemma map_without {A} (f g : Z → A) (qs : list Z) i : (∀ j, j ≠ i → f j = g j) → i ∉ qs → f <$> qs = g <$> qs.
Proof. intros H Hi. apply list_fmap_ext. intros k j Hj%list_elem_of_lookup_2. apply H. by intros ->. Qed.

(** Nothing is lost and nothing comes twice. *)
Lemma pending_next T i : i ∈ lru_ids → pending T ≡ₚ due T i ++ pending (next T i).
Proof.
  intros Hi. pose proof lru_ids_nodup as Hnd. unfold pending. apply list_elem_of_split in Hi as (qs1 & qs2 & Heq). rewrite Heq in *.
  apply NoDup_app in Hnd as (_ & Hd & [Hi2 _]%NoDup_cons). assert (Hi1 : i ∉ qs1) by (intros H; apply (Hd i H); by left).
  rewrite !fmap_app, !fmap_cons, !concat_app. cbn [concat].
  assert (Hne : ∀ j, j ≠ i → default [] (T j) = default [] (next T i j)) by (intros j Hj; by rewrite next_ne).
  rewrite (map_without _ _ qs1 i Hne Hi1), (map_without _ _ qs2 i Hne Hi2), next_eq. unfold due.
  destruct (T i) as [[|x l]|]; simpl; try done. symmetry. apply Permutation_middle.
Qed.

Lemma pending_turns qs T : (∀ i, i ∈ qs → i ∈ lru_ids) → pending T ≡ₚ turn_order qs T ++ pending (turns qs T).
Proof.
  revert T. induction qs as [|i qs IH]; intros T Hin; [done|]. cbn [turn_order turns].
  rewrite (pending_next T i) by (apply Hin; by left). rewrite (IH (next T i)) by (intros j Hj; apply Hin; by right). by rewrite app_assoc.
Qed.

(** The turns that are left of a queue. *)
Definition left_of T (i : Z) : nat := match T i with None => 0 | Some l => S (length l) end.

Lemma next_left T i j : left_of (next T i) j = if decide (j = i) then (left_of T j - 1)%nat else left_of T j.
Proof.
  unfold left_of. case_decide as E; [subst j; rewrite next_eq|by rewrite next_ne].
  destruct (T i) as [[|x l]|]; simpl; lia.
Qed.

Lemma turns_left qs T j : (left_of (turns qs T) j ≤ left_of T j)%nat ∧ (j ∈ qs → (left_of (turns qs T) j ≤ left_of T j - 1)%nat).
Proof.
  revert T. induction qs as [|i qs IH]; intros T; [split; [done|by intros ?%elem_of_nil]|]. cbn [turns].
  destruct (IH (next T i)) as [H1 H2]. rewrite next_left in *. case_decide as E.
  - split; [lia|intros _; lia].
  - split; [lia|]. intros [->|Hj]%elem_of_cons; [done|by apply H2].
Qed.

Lemma left_none T i : left_of T i = 0%nat ↔ T i = None.
Proof. unfold left_of. destruct (T i); split; [lia|done|done|done]. Qed.

Lemma turn_order_none qs T : (∀ i, i ∈ qs → T i = None) → turn_order qs T = [] ∧ turns qs T = T.
Proof.
  induction qs as [|i qs IH]; intros H; [done|]. cbn [turn_order turns]. assert (E : T i = None) by (apply H; by left).
  assert (En : next T i = T) by (unfold next; by rewrite E). rewrite En. unfold due. rewrite E. apply IH. intros j Hj. apply H. by right.
Qed.

Lemma crawl_order_none n T : (∀ i, i ∈ lru_ids → T i = None) → crawl_order n T = [].
Proof.
  intros H. induction n as [|n IH]; [done|]. cbn [crawl_order]. destruct (turn_order_none lru_ids T H) as [E1 E2]. by rewrite E1, E2.
Qed.

Lemma pending_none T : (∀ i, i ∈ lru_ids → T i = None) → pending T = [].
Proof.
  intros H. unfold pending. assert (E : (λ i, default [] (T i)) <$> lru_ids = (λ _ : Z, []) <$> lru_ids) by (apply list_fmap_ext; intros k i Hi%list_elem_of_lookup_2; by rewrite H).
  rewrite E. clear. induction lru_ids; [done|]. done.
Qed.

(** Enough rounds bring every item once. *)
Lemma crawl_order_all n T : (∀ i, i ∈ lru_ids → (left_of T i ≤ n)%nat) → crawl_order n T ≡ₚ pending T.
Proof.
  revert T. induction n as [|n IH]; intros T Hn; cbn [crawl_order].
  - rewrite pending_none; [done|]. intros i Hi. apply left_none. specialize (Hn i Hi). lia.
  - rewrite (pending_turns lru_ids T) by done. rewrite IH; [done|]. intros i Hi. destruct (turns_left lru_ids T i) as [_ H]. specialize (H Hi). specialize (Hn i Hi). lia.
Qed.

Lemma running_zero T qs : running T qs = 0 → ∀ i, i ∈ qs → T i = None.
Proof.
  unfold running. intros H. induction qs as [|j qs IH]; intros i Hi; [by apply elem_of_nil in Hi|]. simpl in H.
  apply elem_of_cons in Hi as [->|Hi]; [destruct (T j); [lia|done]|apply IH; [lia|done]].
Qed.

Lemma running_none T qs : (∀ i, i ∈ qs → T i = None) → running T qs = 0.
Proof.
  unfold running. induction qs as [|j qs IH]; intros H; [done|]. simpl. rewrite (H j) by (by left). apply IH. intros i Hi. apply H. by right.
Qed.

Lemma running_upd T qs i v : NoDup qs → i ∈ qs →
  running (upd T i v) qs = running T qs + (if v then 1 else 0) - (if T i then 1 else 0).
Proof.
  unfold running. intros Hnd Hi. induction qs as [|j qs IH]; [by apply elem_of_nil in Hi|]. apply NoDup_cons in Hnd as [Hj Hnd].
  cbn [sum_list_with]. destruct (decide (j = i)) as [->|Hne].
  - rewrite upd_eq. assert (E : sum_list_with (λ k, if upd T i v k then 1%nat else 0%nat) qs = sum_list_with (λ k, if T k then 1%nat else 0%nat) qs).
    { clear -Hj. induction qs as [|k qs IH]; [done|]. apply not_elem_of_cons in Hj as [Hk Hj]. simpl. rewrite upd_ne by done. by rewrite IH. }
    rewrite E. destruct v, (T i); lia.
  - rewrite upd_ne by done. apply elem_of_cons in Hi as [->|Hi]; [done|]. specialize (IH Hnd Hi). lia.
Qed.

Section Flush.
Context {HF : HashFn}.
Implicit Types (s : cworld) (w : world) (b : bipbuf_t).

(** ** What the client gets *)

Lemma bipbuf_used_ok b : bipbuf_ok b → bipbuf_used b = Z.of_nat (length (bipbuf_contents b)).
Proof.
  intros [Hs Hd Ha Hb]. unfold bipbuf_used, bipbuf_contents. assert (0 ≤ bb_b_end b ≤ bb_a_start b) by lia.
  rewrite length_app, !length_slice by lia. rewrite !u32_small by (rewrite ?u32_small by lia; lia). unfold s32. rewrite Z.mod_small by lia. lia.
Qed.

Lemma front_empty b : bipbuf_ok b → bip_front b → bipbuf_is_empty b = true → bipbuf_contents b = [].
Proof.
  intros [Hs Hd Ha Hb] Hf He. unfold bipbuf_is_empty in He. bool_props. specialize (Hf He). unfold bipbuf_contents.
  assert (bb_b_end b = 0) as -> by lia. by rewrite He, Z.sub_diag, !slice_nil.
Qed.

Lemma poll_front b n : bipbuf_ok b → bip_front b → 0 < n ≤ bb_a_end b - bb_a_start b → bip_front (bipbuf_poll b n).2.
Proof.
  intros [Hs Hd Ha Hb] Hf Hn. unfold bipbuf_poll, bipbuf_is_empty. rewrite (proj2 (Z.eqb_neq _ _)) by lia.
  rewrite u32_small by lia. rewrite (proj2 (Z.ltb_ge _ _)) by lia. unfold bip_front, check_for_switch_to_b. simpl.
  destruct (_ =? bb_a_end b) eqn:E1; bool_props; [destruct (1 =? _) eqn:E2; bool_props|]; simpl.
  - destruct (_ <? _) eqn:E3; [|done]. unfold u32, u64 in E3. simpl in E3. bool_props. rewrite !Z.mod_small in E3 by lia. lia.
  - destruct (_ <? _) eqn:E3; simpl; [|lia]. unfold u32, u64 in E3. simpl in E3. bool_props. rewrite !Z.mod_small in E3 by lia. lia.
  - destruct (_ <? _); simpl; lia.
Qed.

(** A poll that finds the client there; it may take some bytes. *)
Definition answers (r : poll_result) : Prop :=
  match r with
  | PollFailed => False
  | PollTimeout => True
  | PollEvents pollin hup pollout =>
      lost pollin = false ∧ hup = false ∧ match pollout with None | Some SendAgain => True | Some SendFailed => False | Some (Sent n) => 0 < n end
  end.
Definition takes (r : poll_result) : nat := match r with PollEvents _ _ (Some (Sent _)) => 1 | _ => 0 end.
Definition takes_all (ps : list poll_result) : nat := sum_list (takes <$> ps).

(** The client after a poll: the bytes taken and those left. *)
Lemma poll_run s b cb r ps :
  c_client s = Some (mkClient (Some b) cb) → c_polls s = r :: ps → answers r → bipbuf_ok b → bip_front b → bipbuf_contents b ≠ [] →
  ∃ b' sent, lru_crawler_poll s = Some (0, s <| c_polls := ps |> <| c_client := Some (mkClient (Some b') cb) |> <| c_sent := c_sent s ++ sent |>) ∧
    bipbuf_ok b' ∧ bip_front b' ∧ bipbuf_contents b = sent ++ bipbuf_contents b' ∧ (takes r ≤ length sent)%nat.
Proof.
  intros Hc Hp Hr Hb Hf Hne. unfold lru_crawler_poll. set (s1 := s <| c_polls := ps |>).
  rewrite (bind_run c_poll _ s r s1) by (unfold c_poll; by rewrite Hp).
  assert (Hnone : s1 <| c_client := Some (mkClient (Some b) cb) |> <| c_sent := c_sent s ++ [] |> = s1).
  { rewrite app_nil_r, <- Hc. by destruct s. }
  destruct r as [| |pollin hup pollout]; [done|exists b, []; by rewrite Hnone|].
  destruct Hr as (Hl & -> & Ho). rewrite Hl. cbv iota. rewrite (bind_run _ _ s1 b s1 (client_buf_run s1 b cb Hc)).
  unfold bipbuf_peek_all. destruct (bipbuf_is_empty b) eqn:Hemp; [by destruct Hne; apply front_empty|].
  destruct pollout as [[n| |]|]; [|exists b, []; by rewrite Hnone|done|exists b, []; by rewrite Hnone].
  pose proof Hb as [Hs Hd Ha Hb2]. assert (Hlt : bb_a_start b < bb_a_end b) by (unfold bipbuf_is_empty in Hemp; bool_props; lia).
  rewrite u32_small by lia. set (total := Z.max 0 (Z.min n (bb_a_end b - bb_a_start b))).
  assert (Ht : 0 < total ≤ bb_a_end b - bb_a_start b) by lia. rewrite (proj2 (Z.eqb_neq total 0)) by lia.
  destruct (bipbuf_poll_some b total Hb Hemp) as (b' & Hpo & Hb' & Hsl & Hct); [lia|].
  pose proof (poll_front b total Hb Hf Ht) as Hf'. rewrite Hpo in Hf' |- *. cbn [snd] in *.
  exists b', (slice (bb_a_start b) total (bb_data b)). split_and!; try done.
  - unfold on_client. munfold. change (c_client (_ <| c_sent := _ |>)) with (c_client s). by rewrite Hc.
  - rewrite Hsl, Hct. by rewrite take_drop.
  - rewrite length_slice by lia. simpl. lia.
Qed.

Lemma flush_ok ps s b cb fuel :
  c_polls s = ps → Forall answers ps → c_client s = Some (mkClient (Some b) cb) → bipbuf_ok b → bip_front b →
  (length (bipbuf_contents b) ≤ takes_all ps)%nat → (length ps < fuel)%nat →
  ∃ b' ps', flush_client fuel s = Some (tt, s <| c_polls := ps' |> <| c_client := Some (mkClient (Some b') cb) |>
    <| c_sent := c_sent s ++ bipbuf_contents b |>).
Proof.
  revert s b fuel. induction ps as [|r ps IH]; intros s b fuel Hp Hr Hc Hb Hf Hlen Hfuel;
    (destruct fuel as [|fuel]; [simpl in Hfuel; lia|]); cbn [flush_client]; rewrite (bind_run get_state _ s s s eq_refl), Hc;
    rewrite (bind_run _ _ _ _ _ (client_buf_run s b cb Hc)), (bipbuf_used_ok b Hb);
    (destruct (bipbuf_contents b) as [|y ct] eqn:Ect;
       [exists b, (c_polls s); rewrite app_nil_r, <- Hc; by destruct s|]).
  - unfold takes_all in Hlen. simpl in Hlen. lia.
  - rewrite (proj2 (Z.eqb_neq _ _)) by (simpl; lia). apply Forall_cons in Hr as [Hr1 Hr].
    destruct (poll_run s b cb r ps Hc Hp Hr1 Hb Hf) as (b1 & sent & Hrun & Hb1 & Hf1 & Hct & Htk); [by rewrite Ect|].
    rewrite (bind_run _ _ _ _ _ Hrun). rewrite <- Ect, Hct in *. rewrite length_app in Hlen. change (takes_all (r :: ps)) with (takes r + takes_all ps)%nat in Hlen. simpl in Hfuel.
    match goal with |- context [flush_client fuel ?z] => set (s1 := z) end.
    destruct (IH s1 b1 fuel eq_refl Hr eq_refl Hb1 Hf1) as (b' & ps' & Hrun'); [lia|lia|].
    exists b', ps'. rewrite Hrun'. unfold s1. simpl. by rewrite <- app_assoc.
Qed.

Lemma finalize_ok s b cb :
  c_client s = Some (mkClient (Some b) cb) → bipbuf_ok b → bip_front b → LRU_CRAWLER_WRITEBUF ≤ bipbuf_unused b →
  ∃ b' o, crawler_metadump_finalize s = Some (tt, s <| c_client := Some (mkClient (Some b') (Some o)) |>) ∧
    bipbuf_ok b' ∧ bip_front b' ∧ bipbuf_contents b' = bipbuf_contents b ++ dump_end.
Proof.
  intros Hc Hb Hf Hroom. destruct (request_room b Hb Hroom) as [o Hreq].
  unfold crawler_metadump_finalize. rewrite (bind_run get_state _ s s s eq_refl), Hc.
  set (s1 := s <| c_client := Some (mkClient (Some b) (Some o)) |>).
  rewrite (bind_run _ _ _ _ _ (getbuf_ok s b cb o Hc Hreq)). fold s1. change (txt "END" ++ [13; 10]) with dump_end.
  destruct (bipbuf_produce b LRU_CRAWLER_WRITEBUF o dump_end 5 Hb Hreq) as (d & Hd & Hb' & Hct & _ & Hfr); [done|done|].
  rewrite (bind_run _ _ _ _ _ (client_write_ok s1 b o _ d eq_refl Hd)).
  exists (bipbuf_push (b <| bb_data := d |>) 5).2, o. split_and!; [|done|by apply Hfr|exact Hct].
  unfold client_push, client_buf. munfold. reflexivity.
Qed.
End Flush.
