(* ===== verification/CrawlRun.v ===== *)
(** * Crawlers side by side

    The state of a dump in the middle of a run: for each queue the items its
    crawler still has to pass. Each round of the thread's loop advances all of
    them; when the last has left its queue the queues are as they were. *)

From Stdlib Require Import Ascii String.
From stdpp Require Import strings.
From S2P Require Import Prelude Itoa Util Bipbuf Hashes State Links Queues Assoc Slabs SlabsSpec Items ItemsSpec ItemsAccess Tokens TokensThm Machine Crawler CrawlerThm DumpThm.

Section Run.
Context {HF : HashFn}.
Variable crawlers : Z.
#[local] Notation c := (crawler_at crawlers).
#[local] Notation heap s := (w_heap (c_world s)).
Implicit Types (s : cworld) (b : bipbuf_t) (B D : queues) (T : todo).

Lemma crawler_at_inj i j : i ≠ j → c i ≠ c j.
Proof. unfold crawler_at, sizeof_crawler. lia. Qed.

(** ** The invariant *)

(** Queue [i], [B] being the queues without the markers and [D] those with them. *)
Definition on_queue s B D T (i : Z) : Prop :=
  match T i with
  | None => D (LruQ i) = B (LruQ i) ∧ lru_ends (w_lru (c_world s)) i (B (LruQ i)) ∧ ∃ mk, heap s !! c i = Some mk ∧ i_it_flags mk = 0
  | Some l => ∃ l2, B (LruQ i) = reverse l ++ l2 ∧ D (LruQ i) = reverse l ++ c i :: l2 ∧
      lru_ends (w_lru (c_world s)) i (D (LruQ i)) ∧ (∃ mk, heap s !! c i = Some mk ∧ is_marker (c i) i mk) ∧
      (cr_remaining (c_crawlers s i) = 0 ∨ Z.of_nat (length l) < cr_remaining (c_crawlers s i)) ∧
      ∀ x, x ∈ B (LruQ i) → ∃ it, heap s !! x = Some it ∧ crawlable it
  end.

Record dumping s B T b : Prop := {
  dp_mod : c_mod s = Some METADUMP_MOD;
  dp_client : ∃ cb, c_client s = Some (mkClient (Some b) cb);
  dp_buf : bipbuf_ok b ∧ bip_front b;
  dp_locks : c_lru_locks s = ∅ ∧ w_locks (c_world s) = ∅;
  dp_count : c_count s = running T lru_ids;
  dp_queues : ∃ D, queues_ok (heap s) D ∧ (∀ q, (∀ i, i ∈ lru_ids → q ≠ LruQ i) → D q = B q) ∧ ∀ i, i ∈ lru_ids → on_queue s B D T i
}.

(** Not one of the markers that are on their way. *)
Definition bystander T (x : Z) : Prop := ∀ i, i ∈ lru_ids → T i ≠ None → x ≠ c i.

Definition spared T s s' : Prop :=
  (∀ x, bystander T x → erase_l <$> heap s !! x = erase_l <$> heap s' !! x) ∧
  c_polls s' = c_polls s ∧ c_sent s' = c_sent s ∧ c_released s' = c_released s ∧
  (∀ it, gone (c_world s') it = gone (c_world s) it) ∧ c_process_started s' = c_process_started s ∧
  l_sizes (w_lru (c_world s')) = l_sizes (w_lru (c_world s)) ∧ c_thread s' = c_thread s ∧ c_running s' = c_running s.

Lemma spared_refl T s : spared T s s.
Proof. by split_and!. Qed.

Lemma spared_trans T T' s1 s2 s3 : (∀ i, T' i ≠ None → T i ≠ None) → spared T s1 s2 → spared T' s2 s3 → spared T s1 s3.
Proof.
  intros HT (L1 & A1) (L2 & A2). split.
  - intros x Hx. rewrite L1 by done. apply L2. intros i Hi Hn. apply Hx; [done|by apply HT].
  - destruct A1 as (? & ? & ? & G1 & ? & ? & ? & ?), A2 as (? & ? & ? & G2 & ? & ? & ? & ?). split_and!; congruence.
Qed.

Lemma kept_spared T s s' i : i ∈ lru_ids → T i ≠ None → kept crawlers i s s' → spared T s s'.
Proof. intros Hi HT (L & _ & A & B & C & _ & G & P & Z & X & Y). split_and!; try done. intros x Hx. by apply L, Hx. Qed.

Lemma text_at_spared T s s' x : spared T s s' → bystander T x → text_at s' x = text_at s x.
Proof.
  intros (L & _ & _ & _ & G & P & _) Hx. specialize (L x Hx). unfold text_at.
  destruct (heap s !! x) as [it|], (heap s' !! x) as [it'|]; simpl in L; try done. apply (inj Some) in L.
  apply erase_l_inj in L. rewrite L. unfold item_text, dump_text. rewrite G, P. done.
Qed.

Definition texts s (l : list Z) : list Z := concat (text_at s <$> l).

Lemma texts_app s l1 l2 : texts s (l1 ++ l2) = texts s l1 ++ texts s l2.
Proof. unfold texts. by rewrite fmap_app, concat_app. Qed.

Lemma texts_spared T s s' l : spared T s s' → (∀ x, x ∈ l → bystander T x) → texts s' l = texts s l.
Proof.
  intros Hs Hl. unfold texts. f_equal. apply list_fmap_ext. intros k x Hx%list_elem_of_lookup_2. by apply (text_at_spared T), Hl.
Qed.

Lemma pending_in T x : x ∈ pending T → ∃ i l, i ∈ lru_ids ∧ T i = Some l ∧ x ∈ l.
Proof.
  unfold pending. intros Hx. apply list_elem_of_In, in_concat in Hx as (l & Hl & Hx). apply list_elem_of_In in Hl, Hx.
  apply list_elem_of_fmap in Hl as (i & -> & Hi). destruct (T i) as [l|] eqn:E; [by exists i, l|by apply elem_of_nil in Hx].
Qed.

Lemma next_some T i j : next T i j ≠ None → T j ≠ None.
Proof. destruct (decide (j = i)) as [->|Hne]; [|by rewrite next_ne]. rewrite next_eq. by destruct (T i). Qed.

Lemma turns_some qs T j : turns qs T j ≠ None → T j ≠ None.
Proof. revert T. induction qs as [|i qs IH]; intros T; [done|]. cbn [turns]. intros H%IH. by apply next_some in H. Qed.

(** An item to come is none of the markers. *)
Lemma pending_bystander s B T b x : dumping s B T b → x ∈ pending T → bystander T x.
Proof.
  intros [_ _ _ _ _ (D & Hq & _ & Hon)] (j & l & Hj & HT & Hx)%pending_in i Hi Hrun ->.
  pose proof (Hon j Hj) as Hoj. unfold on_queue in Hoj. rewrite HT in Hoj. destruct Hoj as (l2 & _ & HDj & _).
  pose proof (Hon i Hi) as Hoi. unfold on_queue in Hoi. destruct (T i) as [li|] eqn:Ei; [|done]. destruct Hoi as (l2' & _ & HDi & _).
  assert (H1 : c i ∈ D (LruQ j)) by (rewrite HDj; apply elem_of_app; left; by apply elem_of_reverse).
  assert (H2 : c i ∈ D (LruQ i)) by (rewrite HDi; apply elem_of_app; right; by left).
  assert (E : LruQ i = LruQ j) by (by apply (qo_disj _ _ Hq _ _ _ H2 H1)). injection E as <-.
  rewrite HT in Ei. injection Ei as <-. pose proof (qo_nodup _ _ Hq (LruQ i)) as Hnd. rewrite HDi in Hnd.
  apply NoDup_mid_notin in Hnd as [Hn _]. by apply Hn, elem_of_reverse.
Qed.

(** ** A turn *)

Lemma on_queue_kept s s' B D T T' i j l' :
  j ≠ i → T' j = T j → c i ∉ D (LruQ j) → kept crawlers i s s' →
  on_queue s B D T j → on_queue s' B (qset D (LruQ i) l') T' j.
Proof.
  intros Hj HT Hc (L & F & _ & _ & _ & X & _). unfold on_queue. rewrite HT.
  assert (HD : qset D (LruQ i) l' (LruQ j) = D (LruQ j)) by (apply qset_ne; congruence). rewrite HD.
  assert (Hends : ∀ l, lru_ends (w_lru (c_world s)) j l → lru_ends (w_lru (c_world s')) j l).
  { intros l [H1 H2]. destruct (F j Hj) as [F1 F2]. split; congruence. }
  assert (Hh : ∀ x it, x ≠ c i → heap s !! x = Some it → ∃ n v, heap s' !! x = Some (it <| i_next := n |> <| i_prev := v |>)).
  { intros x it Hx Hit. specialize (L x Hx). rewrite Hit in L. destruct (heap s' !! x) as [it'|]; [|done].
    simpl in L. apply (inj Some), erase_l_inj in L as ->. by eexists _, _. }
  assert (Hcj : c j ≠ c i) by (by apply crawler_at_inj).
  destruct (T j) as [l|].
  - intros (l2 & HB & HDj & He & (mk & Hmk & Hmark) & Hr & Hit). exists l2. split_and!; try done.
    + by apply Hends.
    + destruct (Hh _ _ Hcj Hmk) as (n & v & Hmk'). eexists. split; [exact Hmk'|exact Hmark].
    + by rewrite X.
    + intros x Hx. destruct (Hit x Hx) as (it & Hit1 & Hcr).
      assert (Hxc : x ≠ c i).
      { intros ->. apply Hc. rewrite HB in Hx. rewrite HDj. apply elem_of_app in Hx. apply elem_of_app. destruct Hx; [by left|right; by right]. }
      destruct (Hh _ _ Hxc Hit1) as (n & v & Hx'). eexists. split; [exact Hx'|exact Hcr].
  - intros (HDj & He & mk & Hmk & Hf). split_and!; [done|by apply Hends|].
    destruct (Hh _ _ Hcj Hmk) as (n & v & Hmk'). eexists. split; [exact Hmk'|exact Hf].
Qed.

Lemma crawl_class_off s j mk : heap s !! c j = Some mk → i_it_flags mk ≠ 1 → crawl_class crawlers j s = Some (tt, s).
Proof.
  intros Hmk Hf. unfold crawl_class. rewrite (bind_run _ _ _ _ _ (Wc_same _ _ _ (fld_run _ _ _ i_it_flags Hmk))).
  by rewrite (proj2 (Z.eqb_neq _ _)).
Qed.

Lemma turn_ok s B T b i :
  i ∈ lru_ids → dumping s B T b → LRU_CRAWLER_WRITEBUF ≤ bipbuf_unused b →
  ∃ s' b', crawl_class crawlers i s = Some (tt, s') ∧ dumping s' B (next T i) b' ∧
    bipbuf_contents b' = bipbuf_contents b ++ texts s (due T i) ∧
    bipbuf_unused b - Z.of_nat (length (texts s (due T i))) ≤ bipbuf_unused b' ∧ spared T s s'.
Proof.
  intros Hi Hd Hroom. pose proof Hd as [Hm Hcl Hb Hlk Hcnt (D & Hq & Hoth & Hon)].
  pose proof (Hon i Hi) as Hoi. unfold on_queue in Hoi. unfold due. destruct (T i) as [l|] eqn:ET.
  2:{ destruct Hoi as (_ & _ & mk & Hmk & Hf). exists s, b. assert (En : next T i = T) by (unfold next; by rewrite ET).
      rewrite En, (crawl_class_off s i mk Hmk) by lia. split_and!; try done; [by rewrite app_nil_r|simpl; lia]. }
  destruct Hoi as (l2 & HB & HD & He & Hmk & Hr & Hit).
  assert (Hw : ∀ l1, reverse l = l1 → walking crawlers i s D l1 l2 b).
  { intros l1 <-. constructor; try done; [by rewrite length_reverse|by rewrite qset_id|by rewrite <- HD|by rewrite <- HB]. }
  assert (Hci : c i ∈ D (LruQ i)) by (rewrite HD; apply elem_of_app; right; by left).
  assert (Hnj : ∀ j, j ≠ i → c i ∉ D (LruQ j)) by (intros j Hj H; apply Hj; pose proof (qo_disj _ _ Hq _ _ _ Hci H) as E; by injection E).
  assert (HTi : T i ≠ None) by (by rewrite ET).
  assert (Hoth' : ∀ l', (∀ q, (∀ j, j ∈ lru_ids → q ≠ LruQ j) → qset D (LruQ i) l' q = B q)).
  { intros l' q Hqn. rewrite qset_ne by (by apply Hqn). by apply Hoth. }
  destruct l as [|x l].
  - destruct (crawl_end_ok crawlers i s D l2 b (Hw [] eq_refl) Hroom) as (s' & Hrun & [Wm Wc Wb Wl Wq We Wk] & Hk & Hc').
    exists s', b. split_and!; [done| |by rewrite app_nil_r|simpl; lia|by apply (kept_spared T s s' i)].
    constructor; try done.
    + unfold next. rewrite ET, running_upd, ET by (apply lru_ids_nodup || done). lia.
    + exists (qset D (LruQ i) l2). split_and!; [done|apply Hoth'|]. intros j Hj. destruct (decide (j = i)) as [->|Hne].
      * unfold on_queue. rewrite next_eq, ET, qset_eq. by rewrite HB.
      * apply (on_queue_kept s _ _ _ T); [done|by apply next_ne|by apply Hnj|done|by apply Hon].
  - destruct (crawl_turn_ok crawlers i s D (reverse l) x l2 b) as (s' & b' & Hrun & [Wm Wc Wb Wl Wr Wq We Wk Wi] & Hct & Hun & Hcr);
      [apply Hw; by rewrite reverse_cons|done|].
    pose proof (crept_kept crawlers i s s' Hcr) as Hk. unfold texts. simpl. rewrite app_nil_r.
    exists s', b'. split_and!; [done| |done|done|by apply (kept_spared T s s' i)].
    constructor; try done.
    + unfold next. rewrite ET, running_upd, ET by (apply lru_ids_nodup || done). destruct Hcr as (_ & _ & _ & _ & -> & _). lia.
    + exists (qset D (LruQ i) (reverse l ++ c i :: x :: l2)). split_and!; [done|apply Hoth'|]. intros j Hj. destruct (decide (j = i)) as [->|Hne].
      * unfold on_queue. rewrite next_eq, ET, qset_eq. rewrite reverse_cons, <- app_assoc in HB. exists (x :: l2). split_and!; try done; [by rewrite length_reverse in Wr|by rewrite HB].
      * apply (on_queue_kept s _ _ _ T); [done|by apply next_ne|by apply Hnj|done|by apply Hon].
Qed.

(** ** Rounds *)

Lemma crawl_round_ok qs s B T b :
  (∀ i, i ∈ qs → i ∈ lru_ids) → dumping s B T b → LRU_CRAWLER_WRITEBUF + Z.of_nat (length (texts s (turn_order qs T))) ≤ bipbuf_unused b →
  ∃ s' b', crawl_classes crawlers qs s = Some (tt, s') ∧ dumping s' B (turns qs T) b' ∧
    bipbuf_contents b' = bipbuf_contents b ++ texts s (turn_order qs T) ∧
    bipbuf_unused b - Z.of_nat (length (texts s (turn_order qs T))) ≤ bipbuf_unused b' ∧ spared T s s'.
Proof.
  revert s T b. induction qs as [|i qs IH]; intros s T b Hin Hd Hroom; cbn [crawl_classes turns turn_order] in *.
  - exists s, b. split_and!; try done; [by rewrite app_nil_r|simpl; lia].
  - rewrite texts_app, length_app in *. assert (Hi : i ∈ lru_ids) by (apply Hin; by left).
    destruct (turn_ok s B T b i Hi Hd) as (s1 & b1 & Hrun & Hd1 & Hct & Hun & Hsp); [lia|].
    assert (Et : texts s1 (turn_order qs (next T i)) = texts s (turn_order qs (next T i))).
    { apply (texts_spared T); [done|]. intros x Hx. apply (pending_bystander s B T b); [done|].
      rewrite (pending_next T i Hi), (pending_turns qs) by (intros j Hj; apply Hin; by right). rewrite !elem_of_app. auto. }
    destruct (IH s1 (next T i) b1) as (s2 & b2 & Hrun2 & Hd2 & Hct2 & Hun2 & Hsp2); [intros j Hj; apply Hin; by right|done|rewrite Et; lia|].
    rewrite Et in Hct2, Hun2. exists s2, b2. rewrite (bind_run _ _ _ _ _ Hrun). split_and!; try done.
    + by rewrite Hct2, Hct, <- app_assoc.
    + lia.
    + apply (spared_trans T (next T i) s s1); [|done|done]. intros j. apply next_some.
Qed.

Lemma crawl_order_pending n T x : x ∈ crawl_order n T → x ∈ pending T.
Proof.
  revert T. induction n as [|n IH]; intros T; cbn [crawl_order]; [by intros ?%elem_of_nil|].
  rewrite (pending_turns lru_ids T) by done. rewrite !elem_of_app. intros [Hx|Hx]; [by left|right; by apply IH].
Qed.

(** The loop ends when every crawler has left its queue. *)
Lemma rounds_ok n s B T b fuel :
  dumping s B T b → (∀ i, i ∈ lru_ids → (left_of T i ≤ n)%nat) → (n ≤ fuel)%nat →
  LRU_CRAWLER_WRITEBUF + Z.of_nat (length (texts s (crawl_order n T))) ≤ bipbuf_unused b →
  ∃ s' T' b', crawl_queues crawlers fuel s = Some (tt, s') ∧ dumping s' B T' b' ∧ (∀ i, i ∈ lru_ids → T' i = None) ∧
    bipbuf_contents b' = bipbuf_contents b ++ texts s (crawl_order n T) ∧
    bipbuf_unused b - Z.of_nat (length (texts s (crawl_order n T))) ≤ bipbuf_unused b' ∧ spared T s s'.
Proof.
  revert s T b fuel. induction n as [|n IH]; intros s T b fuel Hd Hleft Hfuel Hroom.
  - assert (Hnone : ∀ i, i ∈ lru_ids → T i = None) by (intros i Hi; apply left_none; specialize (Hleft i Hi); lia).
    exists s, T, b. assert (E : c_count s = 0) by (rewrite (dp_count _ _ _ _ Hd); by apply running_none).
    split_and!; try done; [|by rewrite app_nil_r|simpl; lia]. destruct fuel; cbn [crawl_queues]; by rewrite (bind_run (gets _) _ s _ s eq_refl), E.
  - destruct (Z.eq_dec (c_count s) 0) as [E|E].
    + pose proof E as E0. rewrite (dp_count _ _ _ _ Hd) in E0. pose proof (running_zero _ _ E0) as Hnone. rewrite (crawl_order_none (S n) T Hnone).
      exists s, T, b. split_and!; try done; [|by rewrite app_nil_r|simpl; lia]. destruct fuel; cbn [crawl_queues]; by rewrite (bind_run (gets _) _ s _ s eq_refl), E.
    + destruct fuel as [|fuel]; [lia|]. cbn [crawl_queues crawl_order] in *. rewrite (bind_run (gets _) _ s _ s eq_refl), (proj2 (Z.eqb_neq _ _)) by done.
      rewrite texts_app, length_app in *.
      destruct (crawl_round_ok lru_ids s B T b) as (s1 & b1 & Hrun & Hd1 & Hct & Hun & Hsp); [done|done|lia|].
      change (seqZ POWER_SMALLEST (LARGEST_ID - POWER_SMALLEST)) with lru_ids. rewrite (bind_run _ _ _ _ _ Hrun).
      assert (Et : texts s1 (crawl_order n (turns lru_ids T)) = texts s (crawl_order n (turns lru_ids T))).
      { apply (texts_spared T); [done|]. intros x Hx%crawl_order_pending. apply (pending_bystander s B T b); [done|].
        rewrite (pending_turns lru_ids T) by done. apply elem_of_app. by right. }
      destruct (IH s1 (turns lru_ids T) b1 fuel Hd1) as (s2 & T2 & b2 & Hrun2 & Hd2 & Hn2 & Hct2 & Hun2 & Hsp2).
      * intros i Hi. destruct (turns_left lru_ids T i) as [_ H]. specialize (H Hi). specialize (Hleft i Hi). lia.
      * lia.
      * rewrite Et. lia.
      * rewrite Et in Hct2, Hun2. exists s2, T2, b2. split_and!; try done.
        -- by rewrite Hct2, Hct, <- app_assoc.
        -- lia.
        -- apply (spared_trans T (turns lru_ids T) s s1); [|done|done]. intros j. apply turns_some.
Qed.
End Run.
