(* ===== verification/CrawlStart.v ===== *)
(** * Starting a crawl, and the whole dump

    A marker is linked at the tail of each queue the command names; the thread
    then runs until the client has everything. *)

From Stdlib Require Import Ascii String.
From stdpp Require Import strings.
From S2P Require Import Prelude Itoa Util Bipbuf Hashes State Links Queues Assoc Slabs SlabsSpec Items ItemsSpec ItemsAccess Tokens TokensThm Machine Crawler CrawlerThm DumpThm CrawlRun.

(** ** A marker at the tail *)

Lemma qset_grow_ok h h' D q p l' :
  queues_ok h D → (∀ x, p ∉ D x) → l' ≡ₚ p :: D q →
  (∀ y, y ≠ p → y ∉ D q → h' !! y = h !! y) → dlseg h' 0 l' 0 → queues_ok h' (qset D q l').
Proof.
  intros [Hs Hn Hd] Hp Hl Hfr Hseg. constructor.
  - intros x. unfold qset. case_decide as E; [done|]. apply (dlseg_ext h); [|done]. intros y Hy. unfold links. rewrite Hfr; [done|..].
    + intros ->. by destruct (Hp x).
    + intros Hq. apply E. by apply (Hd x q y).
  - intros x. unfold qset. case_decide as E; [|done]. rewrite Hl. by apply NoDup_cons.
  - intros x y z. unfold qset. do 2 case_decide; subst; rewrite ?Hl, ?elem_of_cons; try done; [| |by eauto].
    + intros [->|?] ?; [by destruct (Hp y)|eauto].
    + intros ? [->|?]; [by destruct (Hp x)|eauto].
Qed.

Lemma linktail_ok w D id p mk :
  queues_ok (w_heap w) D → w_heap w !! p = Some mk → is_marker p id mk → (∀ q, p ∉ D q) → lru_ends (w_lru w) id (D (LruQ id)) →
  ∃ h' lr', do_item_linktail_q p w = Some (tt, w <| w_heap := h' |> <| w_lru := lr' |>) ∧
    queues_ok h' (qset D (LruQ id) (D (LruQ id) ++ [p])) ∧ lru_ends lr' id (D (LruQ id) ++ [p]) ∧
    ends_frame (w_lru w) lr' id ∧ lsame (w_heap w) h'.
Proof.
  intros Hq Hp (Hf & Hnb & Hid & Hp0) Hnin [Hh Ht]. pose proof (qo_seg _ _ Hq (LruQ id)) as Hseg. pose proof (qo_nodup _ _ Hq (LruQ id)) as Hnd.
  pose proof (Hnin (LruQ id)) as Hpl. set (l := D (LruQ id)) in *.
  set (h1 := <[p := mk <| i_prev := lastz 0 l |> <| i_next := NULL |>]> (w_heap w)).
  assert (Hs1 : lsame (w_heap w) h1) by (unfold h1; rewrite <- (lsame_insert _ p mk 0 (lastz 0 l) Hp); done).
  assert (Hd1 : dlseg h1 0 l 0) by (by apply dlseg_insert_notin).
  destruct (when_last_next w h1 0 l 0 p Hd1 Hnd) as (h2 & Hrun & Hd2 & Hs2 & Hfr).
  set (lr' := (w_lru w) <| l_tails := upd (l_tails (w_lru w)) id p |> <| l_heads := upd (l_heads (w_lru w)) id (if hdz 0 l =? NULL then p else hdz 0 l) |>).
  assert (Hne : lastz 0 l ≠ p) by (intros E; destruct (lastz_in 0 l) as [E0|E0]; [congruence|by rewrite E in E0]).
  assert (Hboth : (hdz 0 l = 0 ∧ lastz 0 l = 0) ∨ (hdz 0 l ≠ 0 ∧ lastz 0 l ≠ 0)).
  { destruct l as [|y l'] eqn:El; [by left|right]. split.
    - destruct (dlseg_lookup _ _ _ _ y Hseg) as (? & _ & ?); [by left|done].
    - destruct (lastz_in y l') as [E|E]; simpl; [rewrite E; destruct (dlseg_lookup _ _ _ _ y Hseg) as (? & _ & ?); [by left|done]|].
      destruct (dlseg_lookup _ _ _ _ (lastz y l') Hseg) as (? & _ & ?); [by right|done]. }
  exists h2, lr'. split_and!.
  - unfold do_item_linktail_q. rewrite (bind_run _ _ _ _ _ (load_ok _ _ _ Hp)), Hf, Hnb.
    do 2 rewrite (bind_run (c_assert _) _ w tt w) by done. rewrite (bind_run (gets _) _ w _ w eq_refl), Hid, Hh, Ht. cbv zeta.
    rewrite (bind_run (c_assert _) _ w tt w) by (unfold c_assert; by rewrite (proj2 (Z.eqb_neq p (lastz 0 l)))).
    rewrite (bind_run (c_assert _) _ w tt w).
    2:{ unfold c_assert. destruct Hboth as [[E1 E2]|[E1 E2]]; [by rewrite E1, E2|by rewrite !(proj2 (Z.eqb_neq _ NULL))]. }
    set (w1 := w <| w_heap := h1 |>). rewrite (bind_run (wr p _) _ w tt w1) by (by rewrite (wr_ok w p _ mk Hp)).
    set (w2 := w <| w_heap := h2 |>).
    rewrite (bind_run _ _ w1 tt w2); [reflexivity|].
    destruct (Z.eqb_spec (lastz 0 l) NULL) as [E|E]; cbn [negb] in Hrun |- *; [exact Hrun|].
    destruct (lastz_snoc l) as [El|(l' & y & El)]; [by rewrite El in E|]. assert (Ey : lastz 0 l = y) by (rewrite El, lastz_app; done).
    rewrite El in Hd1. apply dlseg_mid in Hd1 as [_ Hlk]. apply links_Some in Hlk as (ity & Hy & Hny & _). simpl in Hny.
    unfold fld. rewrite Ey in *. rewrite bind_assoc, (bind_run _ _ _ _ _ (load_ok w1 y ity Hy)), (bind_run (mret _) _ w1 _ w1 eq_refl), Hny.
    rewrite (bind_run (c_assert _) _ w1 tt w1) by done. exact Hrun.
  - apply (qset_grow_ok (w_heap w) h2 D (LruQ id) p); [done|done|symmetry; apply Permutation_cons_append| |].
    + intros y Hy1 Hy2. rewrite Hfr by done. unfold h1. by apply lookup_insert_ne.
    + apply dlseg_app. split; [exact Hd2|]. simpl. split_and!; [done| |done].
      unfold links. rewrite Hfr by done. unfold h1. by rewrite lookup_insert_eq.
  - split; simpl; rewrite upd_eq; [|by rewrite lastz_app]. rewrite hdz_app. simpl. destruct Hboth as [[E1 E2]|[E1 E2]].
    + rewrite E1. destruct l as [|y l']; [done|]. simpl in E1. exfalso. destruct (dlseg_lookup _ _ _ _ y Hseg) as (? & _ & ?); [by left|done].
    + rewrite (proj2 (Z.eqb_neq _ _)) by done. by destruct l.
  - split; [by destruct (w_lru w)|]. intros j Hj. simpl. by rewrite !upd_ne.
  - by etrans.
Qed.

Section Start.
Context {HF : HashFn}.
Variable crawlers : Z.
#[local] Notation c := (crawler_at crawlers).
#[local] Notation heap s := (w_heap (c_world s)).
Implicit Types (s : cworld) (b : bipbuf_t) (B D : queues) (T : todo).

(** The queues can be crawled: their sizes are counted, the markers lie outside of
    them, their items can be dumped. *)
Record startable s B : Prop := {
  st_size : ∀ i, i ∈ lru_ids → l_sizes (w_lru (c_world s)) i = Z.of_nat (length (B (LruQ i))) ∧ Z.of_nat (length (B (LruQ i))) < 2 ^ 32 - 1;
  st_marker : ∀ i, i ∈ lru_ids → c i ≠ 0 ∧ ∀ q, c i ∉ B q;
  st_items : ∀ i x, i ∈ lru_ids → x ∈ B (LruQ i) → ∃ it, heap s !! x = Some it ∧ crawlable it
}.

Lemma startable_spared s s' B T : spared crawlers T s s' → startable s B → startable s' B.
Proof.
  intros (L & _ & _ & _ & _ & _ & Z & _) [H1 H2 H3]. constructor; [by rewrite Z|done|]. intros i x Hi Hx.
  destruct (H3 i x Hi Hx) as (it & Hit & Hcr). assert (Hb : bystander crawlers T x) by (intros k Hk _ ->; by apply (proj2 (H2 k Hk) (LruQ i))).
  specialize (L x Hb). rewrite Hit in L. destruct (heap s' !! x) as [it'|]; [|done]. simpl in L. apply (inj Some), erase_l_inj in L as ->. by eexists.
Qed.

Lemma lsame_kept s h1 h2 i x : lsame h1 h2 → (∀ y, y ≠ c i → h1 !! y = heap s !! y) → x ≠ c i → erase_l <$> heap s !! x = erase_l <$> h2 !! x.
Proof. intros L H Hx. rewrite <- (L x), H; done. Qed.

(** A marker at rest is in no queue. *)
Lemma marker_outside s B D T i q :
  (∀ q, (∀ i, i ∈ lru_ids → q ≠ LruQ i) → D q = B q) → (∀ i, i ∈ lru_ids → on_queue crawlers s B D T i) → T i = None → (∀ q, c i ∉ B q) → c i ∉ D q.
Proof.
  intros Hoth Hon HT HcB Hin.
  assert (Hout : (∀ j, j ∈ lru_ids → q ≠ LruQ j) → False) by (intros Hn; apply (HcB q); by rewrite <- (Hoth q Hn)).
  destruct q as [j|j]; [|by apply Hout]. destruct (decide (j ∈ lru_ids)) as [Hj|Hj]; [|apply Hout; intros k Hk E; injection E as ->; done].
  pose proof (Hon j Hj) as Hoj. unfold on_queue in Hoj. destruct (T j) as [l|] eqn:ETj; [|destruct Hoj as (E & _); rewrite E in Hin; by apply (HcB (LruQ j))].
  destruct Hoj as (l2 & HB & HDj & _). rewrite HDj in Hin. assert (Hne : j ≠ i) by (intros ->; by rewrite HT in ETj).
  apply elem_of_app in Hin as [Hin|[Hin|Hin]%elem_of_cons].
  - apply (HcB (LruQ j)). rewrite HB. apply elem_of_app. by left.
  - symmetry in Hin. by apply (crawler_at_inj crawlers j i) in Hne.
  - apply (HcB (LruQ j)). rewrite HB. apply elem_of_app. by right.
Qed.

(** The crawler of queue [i] starts at the tail, with all of the queue to come. *)
Lemma start_ok s B T b i :
  i ∈ lru_ids → dumping crawlers s B T b → T i = None → startable s B →
  ∃ s', do_lru_crawler_start crawlers i LRU_CRAWLER_CAP_REMAINING s = Some (1, s') ∧
    dumping crawlers s' B (upd T i (Some (reverse (B (LruQ i))))) b ∧ kept crawlers i s s' .
Proof.
  intros Hi [Hm Hcl Hb [Hlk Hwl] Hcnt (D & Hq & Hoth & Hon)] HT [Hsz Hmk Hits].
  pose proof (Hon i Hi) as Hoi. unfold on_queue in Hoi. rewrite HT in Hoi. destruct Hoi as (HD & He & mk & Hc & Hf).
  destruct (Hmk i Hi) as [Hc0 HcB]. destruct (Hsz i Hi) as [Hs Hs32].
  assert (HcD : ∀ q, c i ∉ D q) by (intros q; by apply (marker_outside s B D T i)).
  set (mk1 := mk <| i_nbytes := 0 |> <| i_nkey := 0 |> <| i_it_flags := 1 |> <| i_next := NULL |> <| i_prev := NULL |> <| i_time := 0 |>).
  set (mk2 := mk1 <| i_slabs_clsid := u8 i |>).
  assert (Hu8 : u8 i = i) by (apply lru_ids_in in Hi; unfold u8, POWER_SMALLEST, LARGEST_ID, POWER_LARGEST in *; apply Z.mod_small; lia).
  set (h2 := <[c i := mk2]> (heap s)). set (w2 := (c_world s) <| w_heap := h2 |>).
  assert (Hq2 : queues_ok h2 D) by (by apply queues_ok_insert_notin).
  destruct (linktail_ok w2 D i (c i) mk2 Hq2) as (h3 & lr3 & Hrun & Hq3 & He3 & Hef & Hls);
    [apply lookup_insert_eq|by split_and!|done|by rewrite HD|].
  set (rem := if negb (l_sizes (w_lru (c_world s)) i =? 0) then u32 (l_sizes (w_lru (c_world s)) i + 1) else l_sizes (w_lru (c_world s)) i).
  set (s' := s <| c_world := w2 <| w_heap := h3 |> <| w_lru := lr3 |> |> <| c_crawlers := upd (c_crawlers s) i (mkCrawler rem 0 0 0) |> <| c_count := c_count s + 1 |>).
  exists s'.
  assert (Hk : kept crawlers i s s').
  { split_and!; try done.
    - intros x Hx. apply (lsame_kept s h2 h3 i); [done|intros y Hy; by apply lookup_insert_ne|done].
    - by destruct Hef.
    - intros j Hj. by apply upd_ne.
    - destruct Hef as [E _]. change (l_sizes lr3 = l_sizes (w_lru (c_world s))). by rewrite E. }
  split_and!; [| |exact Hk].
  - unfold do_lru_crawler_start. set (s1 := s <| c_lru_locks := {[i]} |>).
    rewrite (bind_run (lru_lock i) _ s tt s1).
    2:{ unfold lru_lock. rewrite Hlk, decide_False by apply not_elem_of_empty. unfold s1. by rewrite (right_id_L ∅ (∪)). }
    rewrite (bind_run _ _ _ _ _ (Wc_same _ s1 _ (fld_run _ _ _ i_it_flags Hc))), Hf. change (0 =? 0) with true. cbv iota.
    set (w1 := (c_world s) <| w_heap := <[c i := mk1]> (heap s) |>). set (s2 := s1 <| c_world := w1 |>).
    rewrite bind_assoc. rewrite (bind_run _ _ s1 tt s2) by (by rewrite (Wc_run _ s1 _ _ (wr_ok (c_world s) (c i) _ mk Hc))).
    rewrite bind_assoc. rewrite (bind_run _ _ s2 (l_sizes (w_lru (c_world s)) i) s2) by done. cbv zeta. fold rem.
    assert (Hw1 : w_heap (c_world s2) !! c i = Some mk1) by apply lookup_insert_eq.
    set (s3 := s2 <| c_world := w2 |>). rewrite bind_assoc.
    rewrite (bind_run _ _ s2 tt s3).
    2:{ rewrite (Wc_run _ s2 _ _ (wr_ok w1 (c i) _ mk1 Hw1)). unfold s3, w2, w1, h2, mk2. simpl. by rewrite insert_insert_eq. }
    set (s4 := s3 <| c_crawlers := upd (c_crawlers s3) i (mkCrawler rem 0 0 0) |>).
    rewrite bind_assoc, (bind_run (on_crawler i (λ _, mkCrawler rem 0 0 0)) _ s3 tt s4 eq_refl).
    set (w3 := w2 <| w_heap := h3 |> <| w_lru := lr3 |>). set (s5 := s4 <| c_world := w3 |>).
    assert (Hrun4 : Wc (do_item_linktail_q (c i)) s4 = Some (tt, s5)) by exact (Wc_run _ s4 _ _ Hrun).
    set (s6 := s5 <| c_count := c_count s5 + 1 |>).
    rewrite bind_assoc, (bind_run _ _ _ _ _ Hrun4), bind_assoc, (bind_run (modify (λ s, s <| c_count := c_count s + 1 |>)) _ s5 tt s6 eq_refl).
    rewrite (bind_run (mret 1) _ s6 1 s6 eq_refl).
    rewrite (bind_run (lru_unlock i) _ s6 tt s'); [done|]. unfold lru_unlock. change (c_lru_locks s6) with ({[i]} : gset Z).
    rewrite decide_True by (by apply elem_of_singleton). replace ({[i]} ∖ {[i]} : gset Z) with (c_lru_locks s) by (rewrite Hlk; set_solver).
    unfold s', s6, s5, s4, s3, s2, s1, w3. by destruct s.
  - constructor; try done.
    + change (c_count s + 1 = running (upd T i (Some (reverse (B (LruQ i))))) lru_ids). rewrite running_upd, HT by (apply lru_ids_nodup || done). lia.
    + exists (qset D (LruQ i) (D (LruQ i) ++ [c i])). split_and!; [done|intros q Hqn; rewrite qset_ne by (by apply Hqn); by apply Hoth|].
      intros j Hj. destruct (decide (j = i)) as [->|Hne].
      * unfold on_queue. rewrite upd_eq, qset_eq. exists []. rewrite reverse_involutive, HD, app_nil_r. rewrite HD in He3.
        split_and!; try done.
        -- destruct (lsame_lookup _ _ _ _ Hls (lookup_insert_eq _ _ _)) as (n & v & Hx). eexists. split; [exact Hx|]. by split_and!.
        -- simpl. rewrite upd_eq. simpl. unfold rem. rewrite Hs, length_reverse. destruct (Z.eqb_spec (Z.of_nat (length (B (LruQ i)))) 0) as [E|E]; simpl; [by left|right].
           unfold u32. rewrite Z.mod_small by lia. lia.
        -- intros x Hx. destruct (Hits i x Hi Hx) as (it & Hit & Hcr). destruct Hk as (L & _). assert (Hxc : x ≠ c i) by (intros ->; by apply (HcB (LruQ i))).
           specialize (L x Hxc). rewrite Hit in L. destruct (heap s' !! x) as [it'|]; [|done]. simpl in L. apply (inj Some), erase_l_inj in L as ->. by eexists.
      * apply (on_queue_kept crawlers s _ _ _ T); [done|by apply upd_ne|done|done|by apply Hon].
Qed.
End Start.
