(* ===== verification/Metadump.v ===== *)
(** * [lru_crawler metadump], from the command to the client's last byte *)

From Stdlib Require Import Ascii String.
From stdpp Require Import strings.
From S2P Require Import Prelude Itoa Util Bipbuf Hashes State Links Queues Assoc AssocThm Slabs SlabsSpec Items ItemsSpec ItemsAccess Tokens TokensThm Machine Crawler CrawlerThm DumpThm CrawlRun CrawlStart.

(** The crawlers of the queues [qs] start with the whole queue to come. *)
Fixpoint started (B : queues) (qs : list Z) (T : todo) : todo :=
  match qs with [] => T | i :: qs => started B qs (upd T i (Some (reverse (B (LruQ i))))) end.

Definition none_running : todo := λ _, None.

Lemma started_out B qs T i : i ∉ qs → started B qs T i = T i.
Proof.
  revert T. induction qs as [|j qs IH]; intros T Hi; [done|]. apply not_elem_of_cons in Hi as [Hne Hi]. cbn [started]. rewrite IH by done.
  by apply upd_ne.
Qed.

Lemma started_in B qs T i : i ∈ qs → started B qs T i = Some (reverse (B (LruQ i))).
Proof.
  revert T. induction qs as [|j qs IH]; intros T Hi; [by apply elem_of_nil in Hi|]. cbn [started].
  destruct (decide (i ∈ qs)) as [H|H]; [by apply IH|]. apply elem_of_cons in Hi as [->|Hi]; [|done]. rewrite started_out by done. apply upd_eq.
Qed.

(** The queues a predicate names. *)
Definition named (f : Z → bool) : list Z := filter (λ i, f i) lru_ids.

Lemma named_in f i : i ∈ named f ↔ Is_true (f i) ∧ i ∈ lru_ids.
Proof. unfold named; by rewrite list_elem_of_filter. Qed.

(** The items to come are those of the queues named. *)
Lemma pending_started B f :
  pending (started B (named f) none_running) ≡ₚ concat ((λ i, B (LruQ i)) <$> named f).
Proof.
  unfold pending. assert (H : ∀ qs, (∀ i, i ∈ qs → i ∈ lru_ids) →
    concat ((λ i, default [] (started B (named f) none_running i)) <$> qs) ≡ₚ concat ((λ i, B (LruQ i)) <$> filter (λ i, Is_true (f i)) qs)); [|by apply H].
  induction qs as [|i qs IH]; intros Hin; [done|]. rewrite fmap_cons. cbn [concat]. rewrite IH by (intros j Hj; apply Hin; by right).
  assert (Hi : i ∈ lru_ids) by (apply Hin; by left). destruct (decide (Is_true (f i))) as [Hf|Hf].
  - rewrite started_in by (by apply named_in). rewrite filter_cons_True by done. rewrite fmap_cons. cbn [concat default]. by rewrite reverse_Permutation.
  - rewrite started_out by (rewrite named_in; by intros [? _]). by rewrite filter_cons_False.
Qed.

Section Metadump.
Context {HF : HashFn}.
Variable crawlers : Z.
#[local] Notation c := (crawler_at crawlers).
#[local] Notation heap s := (w_heap (c_world s)).
Implicit Types (s : cworld) (b : bipbuf_t) (B D : queues) (T : todo).

Lemma start_ids_ok qs s B T b n :
  NoDup qs → (∀ i, i ∈ qs → i ∈ lru_ids ∧ T i = None) → dumping crawlers s B T b → startable crawlers s B →
  ∃ s', start_ids crawlers qs LRU_CRAWLER_CAP_REMAINING n s = Some (n + Z.of_nat (length qs), s') ∧
    dumping crawlers s' B (started B qs T) b ∧ spared crawlers (started B qs T) s s'.
Proof.
  revert s T n. induction qs as [|i qs IH]; intros s T n Hnd Hin Hd Hst; cbn [start_ids started].
  - exists s. split_and!; try done. simpl. by rewrite Z.add_0_r.
  - apply NoDup_cons in Hnd as [Hi Hnd]. destruct (Hin i) as [Hi1 HTi]; [by left|].
    destruct (start_ok crawlers s B T b i Hi1 Hd HTi Hst) as (s1 & Hrun & Hd1 & Hk). rewrite (bind_run _ _ _ _ _ Hrun).
    set (T1 := upd T i (Some (reverse (B (LruQ i))))) in *.
    assert (Hs1 : spared crawlers T1 s s1) by (apply (kept_spared crawlers T1 s s1 i); [done|unfold T1; by rewrite upd_eq|done]).
    destruct (IH s1 T1 (n + 1) Hnd) as (s2 & Hrun2 & Hd2 & Hs2); [|done|by apply (startable_spared crawlers s s1 B T1)|].
    { intros j Hj. destruct (Hin j) as [Hj1 HTj]; [by right|]. split; [done|]. unfold T1. rewrite upd_ne; [done|]. by intros ->. }
    exists s2. rewrite Hrun2. split_and!; [|done|].
    + do 2 f_equal. simpl length. lia.
    + apply (spared_trans crawlers (started B qs T1) (started B qs T1) s s1 s2); [done| |done].
      apply (spared_trans crawlers (started B qs T1) T1 s s s1); [|apply spared_refl|done].
      intros j Hj. destruct (decide (j ∈ qs)) as [Hq|Hq]; [by rewrite started_in|by rewrite started_out].
Qed.

(** ** Between crawls *)

(** The crawler thread waits: no crawl, no client, every marker out of its queue. *)
Record resting s B : Prop := {
  rs_thread : c_thread s = true;
  rs_running : c_running s = false;
  rs_client : c_client s = None;
  rs_count : c_count s = 0;
  rs_locks : c_lru_locks s = ∅ ∧ w_locks (c_world s) = ∅;
  rs_queues : queues_ok (heap s) B;
  rs_ends : ∀ i, i ∈ lru_ids → lru_ends (w_lru (c_world s)) i (B (LruQ i));
  rs_markers : ∀ i, i ∈ lru_ids → ∃ mk, heap s !! c i = Some mk ∧ i_it_flags mk = 0;
  rs_start : startable crawlers s B
}.

Lemma resting_dumping s B b :
  resting s B → bipbuf_ok b → bip_front b →
  dumping crawlers (s <| c_mod := Some METADUMP_MOD |> <| c_type := CRAWLER_METADUMP |> <| c_client := Some (mkClient (Some b) None) |>) B none_running b.
Proof.
  intros [Ht Hr Hc Hn Hl Hq He Hm Hs] Hb Hf. constructor; try done; [by eexists|].
  exists B. split_and!; [done|done|]. intros i Hi. unfold on_queue. simpl. split_and!; [done|by apply He|by apply Hm].
Qed.

(** All crawlers have left their queues. *)
Lemma done_resting s s' B T T' b :
  startable crawlers s B → dumping crawlers s' B T' b → (∀ i, i ∈ lru_ids → T' i = None) → spared crawlers T s s' →
  queues_ok (heap s') B ∧ (∀ i, i ∈ lru_ids → lru_ends (w_lru (c_world s')) i (B (LruQ i))) ∧
  (∀ i, i ∈ lru_ids → ∃ mk, heap s' !! c i = Some mk ∧ i_it_flags mk = 0) ∧ startable crawlers s' B.
Proof.
  intros Hst [_ _ _ _ _ (D & Hq & Hoth & Hon)] Hnone Hsp.
  assert (Hoff : ∀ i, i ∈ lru_ids → D (LruQ i) = B (LruQ i) ∧ lru_ends (w_lru (c_world s')) i (B (LruQ i)) ∧ ∃ mk, heap s' !! c i = Some mk ∧ i_it_flags mk = 0).
  { intros i Hi. specialize (Hon i Hi). unfold on_queue in Hon. by rewrite (Hnone i Hi) in Hon. }
  assert (HDB : queues_eq D B).
  { intros q. destruct q as [j|j]; [|by apply Hoth]. destruct (decide (j ∈ lru_ids)) as [Hj|Hj]; [by apply Hoff|].
    apply Hoth. intros k Hk E. by injection E as ->. }
  split_and!; [by rewrite <- HDB| | |by apply (startable_spared crawlers s s' B T)]; intros i Hi; by apply Hoff.
Qed.

Lemma metadump_starts s B b f alloc :
  resting s B → bipbuf_ok b → bip_front b → named f ≠ [] →
  ∃ s1, lru_crawler_start crawlers (Some f) LRU_CRAWLER_CAP_REMAINING CRAWLER_METADUMP None true alloc (Some b) s =
      Some (Z.of_nat (length (named f)), s1) ∧
    dumping crawlers s1 B (started B (named f) none_running) b ∧
    spared crawlers (started B (named f) none_running) (s <| c_running := true |>) s1.
Proof.
  intros Hrest Hb Hf Hne. pose proof (resting_dumping s B b Hrest Hb Hf) as Hd. destruct Hrest as [Ht Hr Hc Hn Hl Hq He Hm Hs].
  unfold lru_crawler_start. rewrite (bind_run get_state _ s s s eq_refl). cbv zeta. rewrite Ht, Hr. cbn [negb andb].
  change (bool_decide (CRAWLER_METADUMP = CRAWLER_AUTOEXPIRE)) with false. change (bool_decide (CRAWLER_METADUMP = CRAWLER_METADUMP)) with true. cbn [negb andb].
  set (s0 := s <| c_mod := Some METADUMP_MOD |> <| c_type := CRAWLER_METADUMP |> <| c_client := Some (mkClient (Some b) None) |>) in *.
  set (sm := s <| c_mod := Some METADUMP_MOD |> <| c_type := CRAWLER_METADUMP |>).
  rewrite (bind_run _ _ s true s0).
  2:{ cbn [crawler_mod_regs mod_init needs_client negb]. rewrite (bind_run (modify (λ s, s <| c_mod := Some METADUMP_MOD |> <| c_type := CRAWLER_METADUMP |>)) _ s tt sm eq_refl), (bind_run (mret tt) _ sm tt sm eq_refl).
      rewrite (bind_run (lru_crawler_set_client (Some b)) _ sm 0 s0); [done|].
      unfold lru_crawler_set_client. rewrite (bind_run get_state _ sm sm sm eq_refl). change (c_client sm) with (c_client s). by rewrite Hc. }
  cbn [negb]. change (seqZ POWER_SMALLEST (POWER_LARGEST - POWER_SMALLEST)) with lru_ids.
  destruct (start_ids_ok (named f) s0 B none_running b 0) as (s1 & Hrun & Hd1 & Hsp);
    [apply NoDup_filter, lru_ids_nodup|intros i [_ Hi]%named_in; done|done|by destruct Hs|].
  rewrite (bind_run _ _ _ _ _ Hrun), Z.add_0_l.
  assert (Hlen : Z.of_nat (length (named f)) ≠ 0) by (destruct (named f); [done|simpl; lia]).
  rewrite (proj2 (Z.eqb_neq _ _)) by done. cbn [negb when]. eexists. split; [reflexivity|]. split.
  - destruct Hd1 as [D1 D2 D3 D4 D5 D6]. by constructor.
  - destruct Hsp as (L & A1 & A2 & A3 & A4 & A5 & A6 & A7 & A8). by split_and!.
Qed.

(** The thread's run, from the state the command leaves. *)
Lemma metadump_runs s1 B T b n fuel :
  dumping crawlers s1 B T b → (∀ i, i ∈ lru_ids → (left_of T i ≤ n)%nat) → (n ≤ fuel)%nat → c_count s1 ≠ -1 → bipbuf_contents b = [] →
  LRU_CRAWLER_WRITEBUF + Z.of_nat (length (texts s1 (crawl_order n T))) ≤ bipbuf_unused b →
  Forall answers (c_polls s1) → (length (texts s1 (crawl_order n T) ++ dump_end) ≤ takes_all (c_polls s1))%nat →
  ∃ s2 s' T' b', item_crawler_run crawlers fuel s1 = Some (tt, s') ∧ dumping crawlers s2 B T' b' ∧ (∀ i, i ∈ lru_ids → T' i = None) ∧
    spared crawlers T s1 s2 ∧ c_sent s' = c_sent s1 ++ texts s1 (crawl_order n T) ++ dump_end ∧
    c_world s' = c_world s2 ∧ c_lru_locks s' = ∅ ∧ c_count s' = 0 ∧ c_thread s' = c_thread s1 ∧
    c_client s' = None ∧ c_mod s' = None ∧ c_running s' = false ∧ c_released s' = c_released s1 + 1.
Proof.
  intros Hd Hleft Hfuel Hcnt Hempty Hroom Hans Htk. unfold item_crawler_run.
  rewrite (bind_run (gets _) _ s1 _ s1 eq_refl), (proj2 (Z.eqb_neq _ _)) by done.
  destruct (rounds_ok crawlers n s1 B T b fuel Hd Hleft Hfuel Hroom) as (s2 & T' & b2 & Hrun & Hd2 & Hnone & Hct & Hun & Hsp).
  rewrite (bind_run _ _ _ _ _ Hrun). exists s2. rewrite Hempty in Hct. simpl in Hct.
  pose proof Hd2 as [Hm (cb & Hc) [Hb2 Hf2] [Hlk Hwl] Hc0 _]. rewrite running_none in Hc0 by done.
  destruct Hsp as (L & Hp & Hs & Hr & Hrest). destruct Hrest as (G & P & Z & Hth & Hru).
  rewrite (bind_run (gets _) _ s2 _ s2 eq_refl), Hm. cbn [mod_finalize].
  destruct (finalize_ok s2 b2 cb Hc Hb2 Hf2) as (b3 & o & Hfin & Hb3 & Hf3 & Hct3); [lia|].
  rewrite bind_assoc, (bind_run _ _ _ _ _ Hfin). set (s3 := s2 <| c_client := _ |>).
  rewrite bind_assoc, (bind_run get_state _ s3 s3 s3 eq_refl).
  destruct (flush_ok (c_polls s3) s3 b3 (Some o) (S (length (c_polls s3))) eq_refl) as (b4 & ps & Hfl);
    [by change (c_polls s3) with (c_polls s2); rewrite Hp|done|done|done| |lia|].
  { change (c_polls s3) with (c_polls s2). by rewrite Hp, Hct3, Hct. }
  rewrite bind_assoc, (bind_run _ _ _ _ _ Hfl).
  eexists _, T', b2. split; [reflexivity|]. simpl. rewrite Hs, Hct3, Hct, Hr. by split_and!.
Qed.
(** What ends the crawl of a queue comes to the unlock; whether that is defined is
    a matter of the locks held. *)
Lemma class_done_run s B T b i l locks :
  i ∈ lru_ids → dumping crawlers s B T b → T i = Some l →
  ∃ s' D', lru_crawler_class_done crawlers i (s <| c_client := None |> <| c_lru_locks := locks |>) =
      (lru_unlock i ;; m ← active_mod; mod_doneclass m i) s' ∧
    c_lru_locks s' = locks ∧ c_mod s' = Some METADUMP_MOD ∧ queues_ok (heap s') D' ∧ D' (LruQ i) = B (LruQ i).
Proof.
  intros Hi [Hm _ _ _ _ (D & Hq & _ & Hon)] HT. specialize (Hon i Hi). unfold on_queue in Hon. rewrite HT in Hon.
  destruct Hon as (l2 & HB & HD & [Hh Htl] & (mk & Hc & Hf & Hnb & Hid & Hc0) & _). rewrite HD in Hh, Htl.
  set (s0 := s <| c_client := None |> <| c_lru_locks := locks |>). set (mk0 := mk <| i_it_flags := 0 |>).
  set (w1 := (c_world s) <| w_heap := <[c i := mk0]> (heap s) |>). set (s1 := s0 <| c_world := w1 |>). set (s2 := s1 <| c_count := c_count s1 - 1 |>).
  assert (Hq1 : queues_ok (w_heap w1) D) by (by apply (queues_ok_insert_same _ _ _ mk)).
  assert (Hc1 : w_heap w1 !! c i = Some mk0) by apply lookup_insert_eq.
  destruct (lru_take_out_run w1 D (c i) mk0 (reverse l) l2 Hq1 Hc1) as (h2 & Hrun & Hq2 & _);
    [simpl; rewrite Hid, HD; exact Hh|simpl; rewrite Hid, HD; exact Htl|simpl; by rewrite Hid, HD|].
  match type of Hrun with _ = Some (tt, ?w) => set (w2 := w) in Hrun end. change (i_slabs_clsid mk0) with (i_slabs_clsid mk) in Hq2. rewrite Hid in Hq2.
  unfold lru_crawler_class_done. fold s0.
  rewrite (bind_run _ _ s0 tt s1) by exact (Wc_run _ s0 _ _ (wr_ok (c_world s) (c i) _ mk Hc)).
  rewrite (bind_run (modify (λ s, s <| c_count := c_count s - 1 |>)) _ s1 tt s2 eq_refl).
  set (s3 := s2 <| c_world := w2 |>). rewrite (bind_run _ _ s2 tt s3) by exact (Wc_run _ s2 _ _ Hrun).
  rewrite (bind_run (gets _) _ s3 _ s3 eq_refl). set (cr := c_crawlers s3 i).
  assert (∃ w3, do_item_stats_add_crawl i (cr_reclaimed cr) (cr_unfetched cr) (cr_checked cr) w2 = Some (tt, w3) ∧ w_heap w3 = w_heap w2) as (w3 & Hst & Hw3).
  { unfold do_item_stats_add_crawl, on_itemstats. munfold. eexists. split; reflexivity. }
  rewrite (bind_run _ _ _ _ _ (Wc_run _ s3 _ _ Hst)). eexists _, _. split; [reflexivity|].
  split_and!; [done|exact Hm|simpl; rewrite Hw3; exact Hq2|by rewrite qset_eq].
Qed.
End Metadump.

(** C2 (functional). A dump is complete. The crawler rests, the command names at
    least one queue, the client's buffer is new and has room for the lines, and
    the client takes what it is offered. Then [lru_crawler metadump] is accepted
    and the thread comes to rest again; the client has got one line for each item
    of the queues named that is neither expired nor flushed nor held by somebody
    else, then END. The order passes every item once: the queues advance side by
    side, each from its tail to its head. The queues are as before, their items
    unchanged but for their links, every marker is out, no lock is held, and the
    client is given back to its worker. *)
Theorem metadump_complete {HF : HashFn} crawlers slabs f alloc s B b n fuel :
  resting crawlers s B → bipbuf_ok b → bip_front b → bipbuf_contents b = [] →
  to_crawl slabs = Some (Some f) → named f ≠ [] → (∀ i, i ∈ named f → (length (B (LruQ i)) < n)%nat) → (n ≤ fuel)%nat →
  let order := crawl_order n (started B (named f) none_running) in
  LRU_CRAWLER_WRITEBUF + Z.of_nat (length (texts s order)) ≤ bipbuf_unused b →
  Forall answers (c_polls s) → (length (texts s order ++ dump_end) ≤ takes_all (c_polls s))%nat →
  ∃ s1 s', lru_crawler_crawl crawlers slabs CRAWLER_METADUMP true LRU_CRAWLER_CAP_REMAINING alloc (Some b) s = Some (CRAWLER_OK, s1) ∧
    item_crawler_run crawlers fuel s1 = Some (tt, s') ∧
    order ≡ₚ concat ((λ i, B (LruQ i)) <$> named f) ∧
    c_sent s' = c_sent s ++ texts s order ++ dump_end ∧
    resting crawlers s' B ∧ c_released s' = c_released s + 1 ∧
    (∀ i x, i ∈ lru_ids → x ∈ B (LruQ i) → erase_l <$> w_heap (c_world s) !! x = erase_l <$> w_heap (c_world s') !! x).
Proof.
  intros Hrest Hb Hf Hempty Hcr Hne Hlen Hfuel order Hroom Hans Htk. set (T := started B (named f) none_running) in *.
  destruct (metadump_starts crawlers s B b f alloc Hrest Hb Hf Hne) as (s1 & Hstart & Hd1 & Hsp1). fold T in Hd1, Hsp1.
  set (s0 := s <| c_running := true |>) in *.
  assert (Hby : ∀ i x, i ∈ lru_ids → x ∈ B (LruQ i) → bystander crawlers T x).
  { intros i x Hi Hx k Hk _ ->. destruct (rs_start _ _ _ Hrest) as [_ Hmk _]. by apply (proj2 (Hmk k Hk) (LruQ i)). }
  assert (Hleft : ∀ i, i ∈ lru_ids → (left_of T i ≤ n)%nat).
  { intros i Hi. unfold left_of, T. destruct (decide (i ∈ named f)) as [H|H]; [rewrite started_in, length_reverse by done; by apply Hlen|].
    rewrite started_out by done. simpl. lia. }
  assert (Hperm : order ≡ₚ concat ((λ i, B (LruQ i)) <$> named f)) by (unfold order; rewrite crawl_order_all by done; apply pending_started).
  assert (Et : texts s1 order = texts s order).
  { apply (texts_spared crawlers T s0 s1); [done|]. intros x Hx%crawl_order_pending. by apply (pending_bystander crawlers s1 B T b). }
  pose proof Hsp1 as (L1 & Hp1 & Hs1 & Hr1 & _ & _ & _ & Ht1 & _).
  destruct (metadump_runs crawlers s1 B T b n fuel Hd1 Hleft Hfuel) as (s2 & s' & T' & b' & Hrun & Hd2 & Hnone & Hsp2 & Hsent & Hw & Hlk & Hct & Hth & Hcl & _ & Hru & Hrel);
    [rewrite (dp_count _ _ _ _ _ Hd1); unfold running; lia|done|by fold order; rewrite Et|by rewrite Hp1|by fold order; rewrite Et, Hp1|].
  fold order in Hsent. rewrite Et, Hs1 in Hsent. rewrite Hr1 in Hrel. exists s1, s'.
  assert (Hsp : spared crawlers T s0 s2) by (by apply (spared_trans crawlers T T s0 s1 s2)).
  destruct (done_resting crawlers s0 s2 B T T' b') as (Hq & He & Hmk & Hst); try done; [by destruct (rs_start _ _ _ Hrest)|].
  split_and!; try done.
  - unfold lru_crawler_crawl. rewrite Hcr, (bind_run _ _ _ _ _ Hstart).
    assert (0 < Z.of_nat (length (named f))) by (destruct (named f); [done|simpl; lia]).
    rewrite !(proj2 (Z.eqb_neq _ _)) by lia. done.
  - constructor; rewrite ?Hw; try done; [rewrite Hth, Ht1; apply Hrest|split; [done|by apply (dp_locks _ _ _ _ _ Hd2)]|].
    destruct Hst as [S1 S2 S3]. constructor; rewrite ?Hw; done.
  - intros i x Hi Hx. rewrite Hw. destruct Hsp as (L & _). by apply L, (Hby i).
Qed.

(** C25 (error). A client that leaves during its dump. The turn of a queue whose
    crawler is still on its way is then undefined: the crawl of the queue is ended
    without its LRU lock, and the lock is unlocked all the same. With the lock the
    same steps are defined and take the marker out of the queue. *)
Theorem client_gone_unlocks_unheld {HF : HashFn} crawlers s B T b i l :
  i ∈ lru_ids → dumping crawlers s B T b → T i = Some l →
  let lost := s <| c_client := None |> in
  crawl_class crawlers i lost = None ∧
  ∃ s' D', (lru_lock i ;; lru_crawler_class_done crawlers i) lost = Some (tt, s') ∧
    queues_ok (w_heap (c_world s')) D' ∧ D' (LruQ i) = B (LruQ i).
Proof.
  intros Hi Hd HT lost. pose proof (dp_locks _ _ _ _ _ Hd) as [Hlk _]. split.
  - destruct (class_done_run crawlers s B T b i l ∅ Hi Hd HT) as (s' & D' & Hrun & Hl & _).
    pose proof Hd as [Hm _ _ _ _ (D & _ & _ & Hon)]. specialize (Hon i Hi). unfold on_queue in Hon. rewrite HT in Hon.
    destruct Hon as (l2 & _ & _ & _ & (mk & Hc & Hf & _) & _). unfold crawl_class.
    rewrite (bind_run _ _ _ _ _ (Wc_same _ lost _ (fld_run _ _ _ i_it_flags Hc))), Hf. change (negb (1 =? 1)) with false. cbv iota.
    rewrite (bind_run client_room _ lost false lost).
    2:{ unfold client_room. rewrite (bind_run get_state _ lost lost lost eq_refl). change (c_client lost) with (@None crawler_client). cbv iota.
        by rewrite (bind_run active_mod _ lost METADUMP_MOD lost) by (unfold active_mod; change (c_mod lost) with (c_mod s); by rewrite Hm). }
    cbn [negb]. replace lost with (s <| c_client := None |> <| c_lru_locks := ∅ |>) by (rewrite <- Hlk; by destruct s).
    rewrite Hrun. unfold mbind at 1, M_bind, lru_unlock. rewrite Hl, decide_False by apply not_elem_of_empty. done.
  - destruct (class_done_run crawlers s B T b i l {[i]} Hi Hd HT) as (s' & D' & Hrun & Hl & Hm & Hq & HB).
    rewrite (bind_run (lru_lock i) _ lost tt (s <| c_client := None |> <| c_lru_locks := {[i]} |>)).
    2:{ unfold lru_lock. change (c_lru_locks lost) with (c_lru_locks s). rewrite Hlk, decide_False by apply not_elem_of_empty. unfold lost. by rewrite (right_id_L ∅ (∪)). }
    rewrite Hrun. set (s2 := s' <| c_lru_locks := ∅ |>). exists s2, D'. split_and!; try done.
    rewrite (bind_run (lru_unlock i) _ s' tt s2).
    2:{ unfold lru_unlock. rewrite Hl, decide_True by (by apply elem_of_singleton). unfold s2. do 3 f_equal. set_solver. }
    by rewrite (bind_run active_mod _ s2 METADUMP_MOD s2) by (unfold active_mod; change (c_mod s2) with (c_mod s'); by rewrite Hm).
Qed.

(** ** A cold queue of three items, one of them held *)

Definition shelf_item (key refs next prev : Z) : item :=
  zero_item <| i_nkey := 1 |> <| i_key := [key] |> <| i_refcount := refs |> <| i_next := next |> <| i_prev := prev |>
            <| i_slabs_clsid := 129 |> <| i_it_flags := ITEM_LINKED |> <| i_nbytes := 2 |>.
Definition shelf_crawlers : Z := 2 ^ 20.
Definition shelf_heap : gmap Z item :=
  list_to_map ([(4096, shelf_item 97 1 4224 0); (4224, shelf_item 98 2 4352 4096); (4352, shelf_item 99 1 0 4224)] ++
    ((λ i, (crawler_at shelf_crawlers i, zero_item)) <$> lru_ids)).
Definition shelf_lru : lru_t :=
  mkLru (upd (λ _, NULL) 129 4096) (upd (λ _, NULL) 129 4352) (λ _, zero_itemstats) (upd (λ _, 0) 129 3) (λ _, 0) None 0 0 0.
Definition shelf_world : world := small_world <| w_heap := shelf_heap |> <| w_lru := shelf_lru |>.
Definition shelf_buf : bipbuf_t := mkBipbuf 9000 0 0 0 0 (replicate (Z.to_nat 9000) 0).
Definition shelf : cworld :=
  mkCworld shelf_world (λ _, mkCrawler 0 0 0 0) 0 true None CRAWLER_EXPIRED None None false 0 0 1000 (λ _, 0) ∅
    (replicate 200 (PollEvents None false (Some (Sent 64)))) [] 0 0.
Definition shelf_queues : queues := λ q, if decide (q = LruQ 129) then [4096; 4224; 4352] else [].

Lemma shelf_queues_ok : queues_ok shelf_heap shelf_queues.
Proof.
  constructor.
  - intros q. unfold shelf_queues. case_decide; [|done]. by vm_compute.
  - intros q. unfold shelf_queues. case_decide; [|constructor]. apply (bool_decide_unpack _). by vm_compute.
  - intros q q' p. unfold shelf_queues. repeat case_decide; subst; try done; by intros ?%elem_of_nil + by intros _ ?%elem_of_nil.
Qed.

Lemma shelf_markers i : i ∈ lru_ids → ∃ mk, shelf_heap !! crawler_at shelf_crawlers i = Some mk ∧ i_it_flags mk = 0.
Proof.
  assert (H : forallb (λ i, match shelf_heap !! crawler_at shelf_crawlers i with Some mk => i_it_flags mk =? 0 | None => false end) lru_ids = true) by by vm_compute.
  rewrite forallb_forall in H. intros Hi%list_elem_of_In. specialize (H i Hi). destruct (shelf_heap !! _) as [mk|]; [|done]. exists mk. by bool_props.
Qed.

Lemma shelf_startable : startable shelf_crawlers shelf shelf_queues.
Proof.
  constructor.
  - intros i _. unfold shelf_queues, shelf, shelf_world, shelf_lru. simpl. case_decide as E; [injection E as ->; by rewrite upd_eq|].
    rewrite upd_ne by congruence. done.
  - intros i Hi%lru_ids_in. unfold crawler_at, shelf_crawlers, sizeof_crawler, POWER_SMALLEST in *. split; [lia|].
    intros q. unfold shelf_queues. case_decide; [|by intros ?%elem_of_nil]. rewrite !elem_of_cons, elem_of_nil. lia.
  - intros i x _. unfold shelf_queues. case_decide; [|by intros ?%elem_of_nil].
    assert (Hk : ∀ key refs n p, is_byte key → 0 ≤ refs < 2 ^ 16 → crawlable (shelf_item key refs n p)).
    { intros key refs n p Hb Hr. split; [exact Hr|]. split; [by constructor|]. apply Nat.leb_le. by vm_compute. }
    rewrite !elem_of_cons, elem_of_nil. intros [->|[->|[->|[]]]]; eexists; (split; [by vm_compute|apply Hk; unfold is_byte; lia]).
Qed.

Lemma shelf_resting : resting shelf_crawlers shelf shelf_queues.
Proof.
  constructor; try done; [apply shelf_queues_ok| |apply shelf_markers|apply shelf_startable].
  intros i _. unfold shelf_queues, shelf, shelf_world, shelf_lru, lru_ends. simpl. case_decide as E; [injection E as ->; by rewrite !upd_eq|].
  by rewrite !upd_ne by congruence.
Qed.

Lemma shelf_buf_ok : bipbuf_ok shelf_buf.
Proof. constructor; cbn -[replicate Z.to_nat]; try lia. rewrite length_replicate. lia. Qed.

Definition shelf_dump : list Z :=
  txt "key=c exp=-1 la=1000 cas=0 fetch=no cls=1 size=52" ++ [10] ++ txt "key=a exp=-1 la=1000 cas=0 fetch=no cls=1 size=52" ++ [10] ++ txt "END" ++ [13; 10].

Lemma shelf_answers : Forall answers (c_polls shelf).
Proof. apply Forall_replicate. cbn. split_and!; [reflexivity|reflexivity|lia]. Qed.

Lemma metadump_complete_witness :
  ∃ f s1 s', to_crawl (txt "1") = Some (Some f) ∧
    lru_crawler_crawl shelf_crawlers (txt "1") CRAWLER_METADUMP true LRU_CRAWLER_CAP_REMAINING true (Some shelf_buf) shelf = Some (CRAWLER_OK, s1) ∧
    item_crawler_run (HF := jenkins_fn) shelf_crawlers 4 s1 = Some (tt, s') ∧ c_sent s' = shelf_dump ∧ resting shelf_crawlers s' shelf_queues.
Proof.
  assert (Hf : ∃ f, to_crawl (txt "1") = Some (Some f) ∧ named f = [1; 65; 129; 193]) by (eexists; split; [reflexivity|by vm_compute]).
  destruct Hf as (f & Hf & Hn).
  assert (Ho : crawl_order 4 (started shelf_queues (named f) none_running) = [4352; 4224; 4096]) by (rewrite Hn; by vm_compute).
  assert (Et : texts shelf [4352; 4224; 4096] ++ dump_end = shelf_dump) by by vm_compute.
  destruct (metadump_complete (HF := jenkins_fn) shelf_crawlers (txt "1") f true shelf shelf_queues shelf_buf 4 4)
    as (s1 & s' & H1 & H2 & _ & H3 & H4 & _);
    [apply shelf_resting|apply shelf_buf_ok|by intros _|by vm_compute|exact Hf|by rewrite Hn| |lia| |apply shelf_answers| |].
  - rewrite Hn. intros i _. unfold shelf_queues. case_decide; simpl; lia.
  - rewrite Ho. apply Z.leb_le. by vm_compute.
  - rewrite Ho, Et. apply Nat.leb_le. by vm_compute.
  - exists f, s1, s'. rewrite Ho in H3. rewrite Et in H3. split_and!; done.
Defined.

Lemma client_gone_unlocks_unheld_witness :
  ∃ s1, lru_crawler_start shelf_crawlers (Some (λ i, i =? 129)) LRU_CRAWLER_CAP_REMAINING CRAWLER_METADUMP None true true (Some shelf_buf) shelf = Some (1, s1) ∧
    crawl_class (HF := jenkins_fn) shelf_crawlers 129 (s1 <| c_client := None |>) = None.
Proof.
  assert (Hn : named (λ i, i =? 129) = [129]) by by vm_compute.
  destruct (metadump_starts shelf_crawlers shelf shelf_queues shelf_buf (λ i, i =? 129) true shelf_resting shelf_buf_ok) as (s1 & Hst & Hd & _);
    [by intros _|by rewrite Hn|]. rewrite Hn in Hst, Hd. exists s1. split; [exact Hst|].
  refine (proj1 (client_gone_unlocks_unheld (HF := jenkins_fn) shelf_crawlers s1 shelf_queues _ shelf_buf 129 _ _ Hd _)).
  - apply lru_ids_in. unfold POWER_SMALLEST, LARGEST_ID, POWER_LARGEST. lia.
  - apply started_in. by left.
Defined.
