(* ===== verification/DriveThm.v ===== *)
(** * The connection machine terminates

    Whatever the client sends and however the socket cuts it up, an activation of
    [drive_machine] makes finitely many rounds. *)

From Stdlib Require Import Ascii String SpecFloat.
From stdpp Require Import strings.
From S2P Require Import Prelude Keeps Hashes StatsPrefix State Slabs Items ItemsThm Store Tokens Conn ProtoText ProtoCmd Machine Wire Drive Desk.

(** What [drive_machine] needs to know about a protocol. *)
Class ProtocolOk `{PR : Protocol} : Prop := {
  try_read_shrinks : ∀ z b z', try_read_command z = Some (b, z') →
    (length (k_rbuf (z_conn z')) ≤ length (k_rbuf (z_conn z)))%nat ∧
    (b = true → (length (k_rbuf (z_conn z')) < length (k_rbuf (z_conn z)))%nat ∨ k_state (z_conn z') = conn_closing);
  complete_wire : keeps same_wire complete_nread;
  complete_ends : ends conn_new_cmd complete_nread
}.

(** The text protocol is one, when the parts left open leave the buffer alone. *)
Lemma ascii_prot_ok `{HF : HashFn} storage_get_item past safe_strtod report_command :
  (∀ it, keeps same_wire (storage_get_item it)) → (∀ tokens, keeps same_wire (report_command tokens)) →
  @ProtocolOk (ascii_prot storage_get_item past safe_strtod report_command).
Proof.
  intros Hs Hr. constructor; simpl.
  - intros z b z' H. apply try_read_ascii_line in H; [|done..]. destruct (memchr_nl _) as [el|] eqn:E.
    + destruct H as [-> ->]. unfold memchr_nl in E.
      destruct (list_find _ _) as [[i c]|] eqn:Ef; simplify_eq/=. apply list_find_Some in Ef as (Hi & _).
      apply lookup_lt_Some in Hi. rewrite length_drop. split; [lia|]. intros _. left. lia.
    + destruct H as [-> H]. split; [done|]. auto.
  - apply wire_complete_nread_ascii.
  - apply ends_complete_nread_ascii.
Qed.

Section Drive.
Context {HF : HashFn} {PR : Protocol} {POK : ProtocolOk}.
Implicit Types s : machine.

(** ** Inversion *)

Lemma Z_inv {A} (m : M session A) s a s' :
  Z_ m s = Some (a, s') → ∃ z, m (mc_session s) = Some (a, z) ∧ s' = s <| mc_session := z |>.
Proof. unfold Z_. destruct (m (mc_session s)) as [[b z]|]; [|done]. intros [= <- <-]. eauto. Qed.

(** [minv] takes a run of an operation apart. *)
Ltac minv H :=
  lazymatch type of H with
  | (_ ≫= _) _ = Some _ => let a := fresh "a" in let s := fresh "s" in let H1 := fresh "R" in
      apply bind_inv in H as (a & s & H1 & H); minv H1; minv H
  | gets _ _ = Some _ => inversion H; subst; clear H
  | modify _ _ = Some _ => inversion H; subst; clear H
  | mret _ _ = Some _ => inversion H; subst; clear H
  | stay _ = Some _ => inversion H; subst; clear H
  | conn_set_state _ _ = Some _ => inversion H; subst; clear H
  | on_conn _ _ = Some _ => inversion H; subst; clear H
  | on_cmd_stats _ _ = Some _ => inversion H; subst; clear H
  | on_net _ _ = Some _ => inversion H; subst; clear H
  | W (modify _) _ = Some _ => inversion H; subst; clear H
  | Z_ _ _ = Some _ => let z := fresh "z" in apply Z_inv in H as (z & H & ->); minv H
  | when ?b _ _ = Some _ => unfold when in H; minv H
  | (if ?b then _ else _) _ = Some _ => destruct b eqn:?; bool_props; minv H
  | _ => idtac
  end.

(** ** The budget: what may still be read or sent *)

Definition weight (r : read_result) : nat := S (match r with Got b => 2 * length b | _ => 0 end).

Definition budget s : nat :=
  (length (k_rbuf (z_conn (mc_session s))) + sum_list_with weight (nt_reads (mc_net s)) + length (nt_sends (mc_net s)))%nat.

Definition not_more s s' : Prop := (budget s' ≤ budget s)%nat.
#[local] Instance not_more_preorder : PreOrder not_more.
Proof. split; unfold not_more; [intros s|intros s1 s2 s3]; lia. Qed.

Lemma budget_session s z : 
  (budget (s <| mc_session := z |>) + length (k_rbuf (z_conn (mc_session s))) = budget s + length (k_rbuf (z_conn z)))%nat.
Proof. unfold budget. simpl. lia. Qed.

Lemma more_Z {A} (m : M session A) : keeps same_wire m → keeps not_more (Z_ m).
Proof.
  intros Hm s a s' H. apply Z_inv in H as (z & H & ->). pose proof (budget_session s z).
  unfold not_more. rewrite (wire_rbuf _ _ (Hm _ _ _ H)) in *. lia.
Qed.

Lemma c_read_budget count s r s' :
  c_read count s = Some (r, s') →
  mc_session s' = mc_session s ∧ (budget s' + 2 * match r with Got b => length b | _ => 0 end ≤ budget s)%nat.
Proof.
  unfold c_read. destruct (count <=? 0); [intros [= <- <-]; split; [done|simpl; lia]|].
  destruct (nt_reads (mc_net s)) as [|[b| |] rest] eqn:E; intros [= <- <-]; (split; [done|]); unfold budget; simpl; rewrite ?E;
    simpl; try lia.
  assert (length b = length (take (Z.to_nat count) b) + length (drop (Z.to_nat count) b))%nat
    by (by rewrite <- length_app, take_drop).
  destruct (drop (Z.to_nat count) b) as [|x l] eqn:Eb; simpl in *; lia.
Qed.

Lemma c_sendmsg_budget b s r s' :
  c_sendmsg b s = Some (r, s') →
  mc_session s' = mc_session s ∧ (budget s' ≤ budget s)%nat ∧ (r = SendAgain ∨ (budget s' < budget s)%nat).
Proof.
  unfold c_sendmsg. destruct (nt_sends (mc_net s)) as [|[n| |] rest] eqn:E; intros [= <- <-]; (split; [done|]);
    unfold budget; simpl; rewrite ?E; simpl; lia || (split; [lia|auto with lia]).
Qed.

(** Where a round without input or output leads. *)
Definition rank s : nat :=
  match k_state (z_conn (mc_session s)) with
  | conn_nread => 7
  | conn_swallow | conn_read => 6
  | conn_parse_cmd => 5
  | conn_new_cmd => match k_resps (z_conn (mc_session s)) with [] => 1 | _ => 5 end
  | conn_mwrite => 4
  | conn_waiting => 2
  | conn_closing | conn_closed | conn_watch => 0
  end.

Definition lowers s s' : Prop := (8 * budget s' + rank s' < 8 * budget s + rank s)%nat.

Lemma rank_le s : (rank s ≤ 7)%nat.
Proof. unfold rank. destruct (k_state _); try lia. destruct (k_resps _); lia. Qed.

Lemma lowers_budget s s' : (budget s' < budget s)%nat → lowers s s'.
Proof. unfold lowers. pose proof (rank_le s'). lia. Qed.

Lemma lowers_rank s s' : not_more s s' → (rank s' < rank s)%nat → lowers s s'.
Proof. unfold lowers, not_more. lia. Qed.

Lemma rank_new_cmd s : k_state (z_conn (mc_session s)) = conn_new_cmd → (rank s ≤ 5)%nat.
Proof. unfold rank. intros ->. destruct (k_resps _); lia. Qed.

(** ** Steps of the states *)

Lemma go_to_inv st s b s' : go_to st s = Some (b, s') →
  b = false ∧ budget s' = budget s ∧ k_state (z_conn (mc_session s')) = st.
Proof. unfold go_to. intros H. minv H. by split_and!. Qed.

(** Going to a state of a lower rank. *)
Lemma go_to_lowers st s0 s b s' : not_more s0 s → go_to st s = Some (b, s') →
  (match st with conn_closing | conn_closed | conn_watch => 0 | conn_waiting => 2 | conn_mwrite => 4 | conn_new_cmd => 5
   | conn_parse_cmd => 5 | conn_swallow | conn_read => 6 | conn_nread => 7 end < rank s0)%nat → lowers s0 s'.
Proof.
  intros Hb H Hr. apply go_to_inv in H as (_ & Eb & Est). unfold not_more in Hb.
  apply lowers_rank; [unfold not_more; lia|]. generalize dependent (rank s0). unfold rank. rewrite Est. intros r Hr.
  destruct st; try lia. destruct (k_resps _); lia.
Qed.

Lemma update_event_inv w s ok s' : update_event w s = Some (ok, s') → budget s' = budget s.
Proof.
  unfold update_event. destruct (eqb _ _); [by intros [= <- <-]|].
  destruct (nt_events _) as [|ok1 rest].
  - intros H. minv H. done.
  - intros H. minv H; done.
Qed.

Lemma wait_event_lowers w s0 s s' : not_more s0 s → wait_event w s = Some (false, s') → (0 < rank s0)%nat → lowers s0 s'.
Proof.
  unfold wait_event. intros Hb H Hr. minv H. apply update_event_inv in R. unfold not_more in Hb.
  refine (go_to_lowers conn_closing s0 _ _ _ _ H _); [unfold not_more; lia|done].
Qed.

Lemma rbuf_release_budget s b s' : Z_ rbuf_release s = Some (b, s') → not_more s s'.
Proof.
  intros H. apply Z_inv in H as (z & H & ->). unfold rbuf_release in H. minv H; pose proof (budget_session s (mc_session s));
    unfold not_more, budget; simpl; lia.
Qed.

Lemma waiting_lowers s s' : k_state (z_conn (mc_session s)) = conn_waiting → state_waiting s = Some (false, s') → lowers s s'.
Proof.
  unfold state_waiting. intros Hst H. apply bind_inv in H as ([] & s1 & R & H). apply rbuf_release_budget in R.
  minv H. apply update_event_inv in R0.
  refine (go_to_lowers conn_closing s _ _ _ _ H _); [unfold not_more in *; lia|unfold rank; rewrite Hst; lia].
Qed.

Lemma parse_cmd_lowers s s' : k_state (z_conn (mc_session s)) = conn_parse_cmd → state_parse_cmd s = Some (false, s') → lowers s s'.
Proof.
  unfold state_parse_cmd. intros Hst H. apply bind_inv in H as ([] & s1 & R & H). apply (more_Z _ (wire_set_noreply _)) in R.
  apply bind_inv in H as (done & s2 & Rt & H). apply Z_inv in Rt as (z & Rt & ->).
  pose proof (try_read_shrinks _ _ _ Rt) as [Hle Hlt]. pose proof (budget_session s1 z) as Hb.
  assert (H5 : rank s = 5%nat) by (unfold rank; by rewrite Hst).
  destruct done; simpl in H.
  - minv H. destruct (Hlt eq_refl) as [Hl|Hcl].
    + apply lowers_budget. unfold not_more in R. lia.
    + apply lowers_rank; [unfold not_more in *; lia|]. unfold rank at 1. simpl. rewrite Hcl. lia.
  - apply bind_inv in H as (c & s3 & [= <- <-] & H). assert (Hn : not_more s (s1 <| mc_session := z |>)) by (unfold not_more in *; lia).
    destruct (k_resps _) in H; [apply (go_to_lowers conn_waiting _ _ _ _ Hn H)|apply (go_to_lowers conn_mwrite _ _ _ _ Hn H)]; lia.
Qed.

Lemma wire_reset_cmd_handler : keeps same_wire reset_cmd_handler.
Proof. unfold reset_cmd_handler. pose proof wire_conn_set_state. keeps_tac. Qed.

(** [nreqs] is spent unless only responses are left. *)
Lemma new_cmd_lowers nreqs s s' : k_state (z_conn (mc_session s)) = conn_new_cmd → state_new_cmd (nreqs - 1) s = Some (false, s') →
  not_more s s' ∧ 0 < nreqs ∨ lowers s s'.
Proof.
  unfold state_new_cmd. intros Hst H. apply bind_inv in H as (c & s1 & [= <- <-] & H).
  destruct (0 <=? nreqs - 1) eqn:E; bool_props.
  - apply bind_inv in H as ([] & s1 & R & H). apply (more_Z _ wire_reset_cmd_handler) in R. minv H. left. split; [done|lia].
  - right. destruct (k_resps _) eqn:Er in H.
    + apply bind_inv in H as ([] & s1 & R & H). minv R.
      assert (H1 : (0 < rank s)%nat) by (unfold rank; rewrite Hst, Er; lia).
      destruct (0 <? _); [|by minv H].
      refine (wait_event_lowers true s _ _ _ H H1). apply Nat.le_refl.
    + refine (go_to_lowers conn_mwrite s _ _ _ _ H _); [done|]. unfold rank. rewrite Hst, Er. lia.
Qed.

Lemma rbuf_take_inv n z b z' : rbuf_take n z = Some (b, z') → k_rbuf (z_conn z') = drop (Z.to_nat n) (k_rbuf (z_conn z)).
Proof. unfold rbuf_take. intros H. minv H. done. Qed.

Lemma swallow_lowers s s' : k_state (z_conn (mc_session s)) = conn_swallow → state_swallow s = Some (false, s') → lowers s s'.
Proof.
  unfold state_swallow. intros Hst H. assert (H6 : rank s = 6%nat) by (unfold rank; by rewrite Hst).
  apply bind_inv in H as (c & s1 & [= <- <-] & H). destruct (k_sbytes _ <=? 0) eqn:E1; bool_props.
  { refine (go_to_lowers conn_new_cmd s _ _ _ _ H _); [done|lia]. }
  destruct (0 <? rbytes _) eqn:E2; bool_props; unfold rbytes in *.
  - apply bind_inv in H as (b & s1 & R & H). apply Z_inv in R as (z & R & ->). apply rbuf_take_inv in R. minv H.
    apply lowers_budget. unfold budget. simpl. rewrite R, length_drop. case_match; bool_props; lia.
  - apply bind_inv in H as (r & s1 & R & H). apply c_read_budget in R as [_ R]. destruct r as [[|x b]| |].
    + refine (go_to_lowers conn_closing s _ _ _ _ H _); [unfold not_more; lia|lia].
    + minv H. apply lowers_budget. unfold budget in *. simpl in *. lia.
    + refine (wait_event_lowers false s _ _ _ H _); [unfold not_more; lia|lia].
    + refine (go_to_lowers conn_closing s _ _ _ _ H _); [unfold not_more; lia|lia].
Qed.

Lemma read_stopped_lowers s0 s res again s' :
  not_more s0 s → (6 < rank s0)%nat → read_stopped res again s = Some (false, s') → lowers s0 s'.
Proof.
  unfold read_stopped. intros Hn Hr H. destruct (res =? 0); [refine (go_to_lowers conn_closing s0 _ _ _ _ H _); [done|lia]|].
  destruct (_ && again); [refine (wait_event_lowers false s0 _ _ _ H _); [done|lia]|].
  destruct (res =? -2); [|refine (go_to_lowers conn_closing s0 _ _ _ _ H _); [done|lia]].
  apply bind_inv in H as ([] & s1 & R & H). minv H.
  assert (Hk : not_more s s').
  { refine (more_Z _ _ _ _ _ R). keeps_tac. }
  apply lowers_rank; [unfold not_more in *; lia|].
  assert (Hst : k_state (z_conn (mc_session s')) = conn_swallow); [|unfold rank at 1; rewrite Hst; lia].
  apply Z_inv in R as (z & R & ->). simpl. apply bind_inv in R as ([] & z1 & _ & R). minv R. done.
Qed.

Lemma store_value_wire b : keeps same_wire (store_value b).
Proof. unfold store_value. keeps_tac. Qed.

(** ** Reading *)

Lemma more_store_value b : keeps not_more (Z_ (store_value b)).
Proof. apply more_Z, store_value_wire. Qed.

Lemma fill_chunk_budget a ch total s t again go s' :
  fill_chunk a ch total s = Some ((t, again, go), s') →
  not_more s s' ∧ (0 < t → 0 < total ∨ (budget s' < budget s)%nat).
Proof.
  unfold fill_chunk. intros H. apply bind_inv in H as (c & s1 & [= <- <-] & H). destruct (0 <? rbytes _) eqn:E; bool_props.
  - apply bind_inv in H as (b & s1 & R & H). apply Z_inv in R as (z & R & ->). apply rbuf_take_inv in R.
    match type of R with _ = drop (Z.to_nat ?e) _ => set (k := e) in * end. apply bind_inv in H as ([] & s2 & R2 & H). injection H as <- <- <- <-.
    apply more_Z in R2; [|keeps_tac]. unfold not_more, budget, rbytes in *. simpl in *. rewrite R, length_drop in R2.
    split; [lia|]. intros Hk. right.
    assert (k ≤ Z.of_nat (length (k_rbuf (z_conn (mc_session s))))) by (subst k; repeat case_match; bool_props; lia). lia.
  - apply bind_inv in H as (r & s1 & R & H). apply c_read_budget in R as [_ R]. destruct r as [[|x b]| |].
    1,3,4: injection H as <- <- <- <-; simpl; unfold not_more; lia.
    apply bind_inv in H as ([] & s2 & R2 & H). injection H as <- <- <- <-. apply more_Z in R2; [|keeps_tac].
    unfold not_more in *. simpl in R. lia.
Qed.

Lemma chunked_loop_budget fuel total s t again s' :
  chunked_loop fuel total s = Some ((t, again), s') → not_more s s' ∧ (0 < t → 0 < total ∨ (budget s' < budget s)%nat).
Proof.
  revert total s. induction fuel as [|fuel IH]; intros total s H; [done|]. cbn [chunked_loop] in H.
  apply bind_inv in H as (c & s1 & [= <- <-] & H). destruct (negb _); [injection H as <- <- <-; unfold not_more; lia|].
  apply bind_inv in H as (ch & s1 & R & H). apply more_Z in R; [|keeps_tac]. unfold not_more in *. destruct (_ && _).
  - apply bind_inv in H as (next & s2 & R2 & H). apply more_Z in R2; [|keeps_tac].
    apply bind_inv in H as ([] & s3 & R3 & H). apply more_Z in R3; [|keeps_tac]. unfold not_more in *.
    destruct (next =? NULL); [injection H as <- <- <-; lia|]. apply IH in H. lia.
  - apply bind_inv in H as ([] & s2 & R2 & H).
    assert (R2' : not_more s1 s2) by (refine (keeps_when not_more _ _ _ _ _ _ R2); apply more_Z; keeps_tac).
    apply bind_inv in H as ([[t1 a1] go] & s3 & R3 & H). apply fill_chunk_budget in R3 as [R3 R4]. unfold not_more in *.
    destruct go; [apply IH in H; lia|]. injection H as <- <- <-. lia.
Qed.

(** The value read so far was taken from the buffer. *)
Lemma take_store_budget n s s' :
  Z_ (b ← rbuf_take n; store_value b) s = Some (tt, s') → 0 < n → n ≤ rbytes (z_conn (mc_session s)) → (budget s' < budget s)%nat.
Proof.
  intros H Hn Hle. apply Z_inv in H as (z & H & ->). apply bind_inv in H as (b & z1 & R & H). apply rbuf_take_inv in R.
  apply store_value_wire, wire_rbuf in H. unfold budget, rbytes in *. simpl. rewrite H, R, length_drop. lia.
Qed.

Lemma load_conn p s x s' : Z_ (W (load p)) s = Some (x, s') → z_conn (mc_session s') = z_conn (mc_session s).
Proof.
  intros H. apply Z_inv in H as (z & H & ->). unfold W in H. destruct (load p _) as [[y w]|]; [|done]. by injection H as _ <-.
Qed.

Lemma nread_socket_lowers s s2 s' :
  (6 < rank s)%nat → not_more s s2 → (k_rlbytes (z_conn (mc_session s2)) = 0 → (budget s2 < budget s)%nat) →
  nread_socket s2 = Some (false, s') → lowers s s'.
Proof.
  unfold nread_socket. intros Hr Hn Hz H. apply bind_inv in H as (c & s3 & [= <- <-] & H). destruct (_ =? 0) eqn:E; bool_props.
  { minv H. apply lowers_budget. auto. }
  apply bind_inv in H as (r & s3 & R & H). apply c_read_budget in R as [_ R]. unfold not_more in *. destruct r as [[|x b]| |].
  1,3,4: apply (read_stopped_lowers s s3 _ _ _) in H; [done|unfold not_more; lia|done].
  apply bind_inv in H as ([] & s4 & R2 & H). minv H. apply more_store_value in R2. apply lowers_budget.
  unfold not_more in R2. simpl in R. lia.
Qed.

Lemma nread_lowers s s' : k_state (z_conn (mc_session s)) = conn_nread → state_nread s = Some (false, s') → lowers s s'.
Proof.
  unfold state_nread. intros Hst H. assert (H7 : rank s = 7%nat) by (unfold rank; by rewrite Hst).
  apply bind_inv in H as (c & s1 & [= <- <-] & H). destruct (_ =? 0) eqn:E1; bool_props.
  { apply bind_inv in H as ([] & s1 & R & H). minv H. pose proof (more_Z _ complete_wire _ _ _ R) as Hb.
    apply Z_inv in R as (z & R & ->). apply complete_ends in R. apply lowers_rank; [done|].
    pose proof (rank_new_cmd (s <| mc_session := z |>) R). lia. }
  destruct (_ <? 0) eqn:E2; bool_props; [refine (go_to_lowers conn_closing s _ _ _ _ H _); [apply Nat.le_refl|lia]|].
  apply bind_inv in H as (x & s1 & R0 & H). pose proof (more_Z _ (wire_W _) _ _ _ R0) as R. unfold not_more in R. destruct (negb _).
  - apply bind_inv in H as ([] & s2 & R2 & H).
    assert (Hs2 : (budget s2 < budget s1)%nat ∨ s2 = s1 ∧ k_rlbytes (z_conn (mc_session s)) ≠ 0).
    { destruct (0 <? rbytes _) eqn:E3; bool_props; [left|right; injection R2 as <-; split; [done|lia]].
      apply take_store_budget in R2; [done|case_match; bool_props; lia|].
      rewrite (load_conn _ _ _ _ R0). case_match; bool_props; lia. }
    refine (nread_socket_lowers s s2 s' ltac:(lia) _ _ H); unfold not_more; destruct Hs2 as [?|[-> ?]]; try lia.
    by rewrite (load_conn _ _ _ _ R0).
  - apply bind_inv in H as ([t again] & s2 & R2 & H). unfold read_into_chunked_item in R2.
    apply bind_inv in R2 as (c & s3 & [= <- <-] & R2). apply bind_inv in R2 as (n & s3 & [= <- <-] & R2).
    apply chunked_loop_budget in R2 as [R2 R3]. unfold not_more in *. simpl in H. destruct (0 <? t) eqn:Et; bool_props.
    + minv H. apply lowers_budget. lia.
    + apply (read_stopped_lowers _ s2 t again); [unfold not_more; lia|lia|done].
Qed.

(** Without memory for the buffer, what was read is dropped. *)
Lemma read_oom_inv f g str z z' :
  (on_cmd_stats f ;; on_conn (λ c, c <| k_rbuf := [] |>) ;; out_of_memory str ;; on_conn (λ c, c <| k_close_after_write := g c |>)) z
    = Some (tt, z') → length (k_rbuf (z_conn z')) = 0%nat ∧ k_state (z_conn z') = conn_new_cmd.
Proof.
  intros H. apply bind_inv in H as ([] & z1 & [= <-] & H). apply bind_inv in H as ([] & z2 & [= <-] & H).
  apply bind_inv in H as ([] & z3 & R & [= <-]). unfold out_of_memory in R.
  pose proof (ends_out_string _ _ _ _ R) as Hst. apply wire_out_string, wire_rbuf in R. simpl. by rewrite R.
Qed.

(** A result other than the one given means that bytes came in; without memory the
    answer waits. *)
Lemma read_loop_budget fuel n got s res s' :
  read_loop fuel n got s = Some (res, s') →
  not_more s s' ∧ (res = READ_DATA_RECEIVED → got = READ_DATA_RECEIVED ∨ (budget s' < budget s)%nat) ∧
  (res = READ_MEMORY_ERROR → got = READ_MEMORY_ERROR ∨ k_state (z_conn (mc_session s')) = conn_new_cmd).
Proof.
  revert n got s. induction fuel as [|fuel IH]; intros n got s H; [done|]. cbn [read_loop] in H.
  apply bind_inv in H as (c & s1 & [= <- <-] & H). destruct (_ && (n =? 4)); [injection H as <- <-; unfold not_more; auto|].
  set (full := _ && _) in H. clearbody full. apply bind_inv in H as (ok & s1 & R0 & H).
  assert (R : not_more s s1).
  { destruct full; [by apply (more_Z _ wire_mem_next) in R0|by injection R0 as _ <-]. }
  destruct ok; cbn [negb] in H; cycle 1.
  { apply bind_inv in H as ([] & s2 & R2 & H). injection H as <- <-. apply Z_inv in R2 as (z & R2 & ->).
    apply read_oom_inv in R2 as [Hz Hst]. pose proof (budget_session s1 z). unfold not_more in *. split_and!; [lia|done|by right]. }
  apply bind_inv in H as ([] & s2 & R2 & H).
  assert (R' : not_more s1 s2).
  { unfold when in R2. destruct full; [|by injection R2 as <-]. apply Z_inv in R2 as (z & R2 & ->).
    injection R2 as <-. unfold not_more, budget. simpl. lia. }
  apply bind_inv in H as (c & s3 & [= <- <-] & H). apply bind_inv in H as (r & s3 & R3 & H).
  apply c_read_budget in R3 as [_ R3]. unfold not_more in *. destruct r as [[|x b]| |].
  1,3,4: injection H as <- <-; (split_and!; [lia|intros ?|intros ?]; first [done|by left]).
  apply bind_inv in H as ([] & s4 & R4 & H). apply Z_inv in R4 as (z & R4 & ->). injection R4 as <-.
  pose proof (budget_session s3 ((mc_session s3) <| z_conn := (z_conn (mc_session s3)) <| k_rbuf := k_rbuf (z_conn (mc_session s3)) ++ (x :: b) |> |>)).
  simpl in *. rewrite length_app in *. simpl in *. match type of H with (if ?b then _ else _) _ = _ => destruct b end.
  - apply IH in H as (? & ? & ?). split_and!; [lia| |naive_solver]. intros _. right. lia.
  - injection H as <- <-. split_and!; [lia|intros _; right; lia|done].
Qed.

Lemma rbuf_alloc_budget s b s' : Z_ rbuf_alloc s = Some (b, s') → not_more s s'.
Proof.
  intros H. apply Z_inv in H as (z & H & ->). pose proof (budget_session s z). unfold not_more.
  assert (k_rbuf (z_conn z) = k_rbuf (z_conn (mc_session s))) as E; [|rewrite E in *; lia].
  unfold rbuf_alloc in H. apply bind_inv in H as (c & z1 & [= <- <-] & H). destruct (_ =? 0); [|by injection H as <- <-].
  apply bind_inv in H as (ok & z1 & R & H). apply wire_mem_next, wire_rbuf in R. destruct ok; cbn [negb] in H.
  all: apply bind_inv in H as ([] & z2 & R2 & H); injection R2 as <-; injection H as <- <-; exact R.
Qed.

Lemma read_lowers s s' : k_state (z_conn (mc_session s)) = conn_read → state_read s = Some (false, s') → lowers s s'.
Proof.
  unfold state_read. intros Hst H. assert (H6 : rank s = 6%nat) by (unfold rank; by rewrite Hst).
  apply bind_inv in H as (ok & s1 & R & H). apply rbuf_alloc_budget in R. destruct ok; cbn [negb] in H; cycle 1.
  { refine (go_to_lowers conn_closing s _ _ _ _ H _); [done|lia]. }
  apply bind_inv in H as (res & s2 & R2 & H). unfold try_read_network in R2. apply bind_inv in R2 as ([] & s3 & R3 & R2).
  assert (R3' : not_more s s3).
  { apply Z_inv in R3 as (z & R3 & ->). injection R3 as <-. unfold not_more, budget in *. simpl. lia. }
  apply read_loop_budget in R2 as (R4 & R5 & R6). unfold not_more in *. destruct res.
  - apply go_to_inv in H as (_ & Hb & _). apply lowers_budget. destruct (R5 eq_refl); [done|lia].
  - refine (go_to_lowers conn_waiting s _ _ _ _ H _); [unfold not_more; lia|lia].
  - refine (go_to_lowers conn_closing s _ _ _ _ H _); [unfold not_more; lia|lia].
  - minv H. apply lowers_rank; [unfold not_more; lia|]. destruct (R6 eq_refl) as [?|Hc]; [done|]. apply rank_new_cmd in Hc. lia.
Qed.

(** ** Sending *)

Lemma finish_all_chain n z z' : finish_all n z = Some (tt, z') → k_resps (z_conn z') = drop n (k_resps (z_conn z)).
Proof.
  revert z. induction n as [|n IH]; intros z H; [by injection H as <-|]. cbn [finish_all] in H.
  apply bind_inv in H as ([] & z1 & R & H). apply IH in H. rewrite H. unfold resp_finish in R.
  apply bind_inv in R as (l & z2 & [= <- <-] & R). destruct (k_resps (z_conn z)) as [|r rest] eqn:E; [done|].
  apply bind_inv in R as ([] & z2 & _ & R). apply bind_inv in R as ([] & z3 & [= <-] & [= <-]). done.
Qed.

Lemma conn_release_chain z z' : conn_release_items z = Some (tt, z') → k_resps (z_conn z') = [].
Proof.
  unfold conn_release_items. intros H. apply bind_inv in H as (c & z1 & [= <- <-] & H).
  apply bind_inv in H as ([] & z1 & R & H). apply finish_all_chain in H. rewrite H.
  assert (E : k_resps (z_conn z1) = k_resps (z_conn z)); [|rewrite E; by rewrite drop_all].
  destruct (_ =? NULL); [by injection R as <-|]. apply bind_inv in R as ([] & z2 & R & [= <-]).
  unfold W in R. destruct (item_remove _ _) as [[[] w]|]; [|done]. by injection R as <-.
Qed.

Lemma wire_transmit_post res : keeps same_wire (_transmit_post res).
Proof.
  unfold _transmit_post. keeps_step; [keeps_tac|].
  match goal with |- keeps _ (transmit_post_loop ?n _) => generalize n end. intros n. revert res.
  induction n as [|n IH]; intros res; cbn [transmit_post_loop]; keeps_tac.
Qed.

(** Nothing was sent only when the round is over, or when nothing was to be sent. *)
Lemma transmit_budget s res s' : transmit s = Some (res, s') →
  not_more s s' ∧ match res with
                  | TRANSMIT_INCOMPLETE => (budget s' < budget s)%nat
                  | TRANSMIT_HARD_ERROR => k_state (z_conn (mc_session s')) = conn_closing
                  | _ => True
                  end.
Proof.
  unfold transmit. intros H. apply bind_inv in H as (z & s1 & [= <- <-] & H).
  destruct (_transmit_pre _ _ _ _) as [|seg segs].
  { apply bind_inv in H as ([] & s1 & R & [= <- <-]). split; [|done]. by apply (more_Z _ (wire_transmit_post 0)) in R. }
  apply bind_inv in H as (r & s1 & R & H). apply c_sendmsg_budget in R as (_ & R1 & R2). unfold not_more. destruct r as [n| |].
  - apply bind_inv in H as ([] & s2 & R & H). apply (more_Z _ (wire_transmit_post n)) in R. unfold not_more in R.
    apply bind_inv in H as (l & s3 & [= <- <-] & [= <- <-]). destruct R2 as [?|?]; [done|]. destruct (k_resps _); split; lia || done.
  - apply bind_inv in H as (ok & s2 & R & H). apply update_event_inv in R. destruct ok; cbn [negb] in H.
    + injection H as <- <-. split; [lia|done].
    + apply bind_inv in H as ([] & s3 & R3 & [= <- <-]). apply Z_inv in R3 as (z & R3 & ->). injection R3 as <-.
      unfold budget in *. simpl. split; [lia|done].
  - apply bind_inv in H as ([] & s3 & R3 & [= <- <-]). apply Z_inv in R3 as (z & R3 & ->). injection R3 as <-.
    unfold budget in *. simpl. split; [lia|done].
Qed.

Lemma mwrite_lowers s s' : k_state (z_conn (mc_session s)) = conn_mwrite → state_mwrite s = Some (false, s') → lowers s s'.
Proof.
  unfold state_mwrite. intros Hst H. assert (H4 : rank s = 4%nat) by (unfold rank; by rewrite Hst).
  apply bind_inv in H as (res & s1 & R & H). apply transmit_budget in R as [R1 R2]. destruct res.
  - apply bind_inv in H as (c & s2 & [= <- <-] & H).
    destruct (k_state (z_conn (mc_session s1))); try (refine (go_to_lowers conn_closing s _ _ _ _ H _); [done|lia]).
    apply bind_inv in H as ([] & s2 & R & H). pose proof (more_Z _ wire_conn_release_items _ _ _ R) as R3.
    apply Z_inv in R as (z & R & ->). apply conn_release_chain in R.
    destruct (k_close_after_write _); [refine (go_to_lowers conn_closing s _ _ _ _ H _); [unfold not_more in *; lia|lia]|].
    unfold go_to in H. minv H. unfold not_more in *. apply lowers_rank; [unfold not_more, budget in *; simpl in *; lia|].
    unfold rank at 1. simpl. rewrite R. lia.
  - minv H. by apply lowers_budget.
  - done.
  - minv H. apply lowers_rank; [done|]. unfold rank at 1. rewrite R2. lia.
Qed.

(** ** Termination *)

(** [k] rounds of the loop, none of which stops it. *)
Inductive drives : nat → Z → machine → Z → machine → Prop :=
  | drives_refl nreqs s : drives 0 nreqs s nreqs s
  | drives_step k nreqs s nreqs1 s1 nreqs2 s2 :
      drive_step nreqs s = Some ((false, nreqs1), s1) → drives k nreqs1 s1 nreqs2 s2 → drives (S k) nreqs s nreqs2 s2.

(** The measure: eight for each request, each byte and each result of the socket. *)
Definition measure (nreqs : Z) s : nat := (8 * Z.to_nat nreqs + 8 * budget s + rank s)%nat.

Lemma drive_step_lowers nreqs s nreqs' s' :
  drive_step nreqs s = Some ((false, nreqs'), s') → (measure nreqs' s' < measure nreqs s)%nat.
Proof.
  unfold drive_step. intros H. apply bind_inv in H as (c & s1 & [= <- <-] & H).
  assert (Hrun : ∀ m, (∀ s', m s = Some (false, s') → lowers s s') →
    ((stop ← m; mret (stop, nreqs)) : M machine (bool * Z)) s = Some ((false, nreqs'), s') → (measure nreqs' s' < measure nreqs s)%nat).
  { intros m Hm Hrun. apply bind_inv in Hrun as (stop & s1 & R & [= -> <- <-]). apply Hm in R. unfold lowers, measure in *. lia. }
  destruct (k_state _) eqn:Hst; try (apply Hrun in H; [exact H|]).
  - apply bind_inv in H as (stop & s1 & R & [= -> <- <-]). apply new_cmd_lowers in R as [[R ?]|R]; [| |done].
    + pose proof (rank_le s1). unfold not_more, measure in *. lia.
    + unfold lowers, measure in *. lia.
  - intros ? ?. by apply waiting_lowers.
  - intros ? ?. by apply read_lowers.
  - intros ? ?. by apply parse_cmd_lowers.
  - intros ? ?. by apply nread_lowers.
  - intros ? ?. by apply swallow_lowers.
  - intros s2 R. apply bind_inv in R as ([] & s3 & _ & [=]).
  - intros ? ?. by apply mwrite_lowers.
  - done.
  - intros s2 [=].
Qed.

(** With more rounds than the measure, the loop stops, or some round is undefined. *)
Lemma drive_machine_enough fuel nreqs s :
  (measure nreqs s < fuel)%nat →
  (∃ s', drive_machine fuel nreqs s = Some (tt, s')) ∨
  (∃ k nreqs1 s1, drives k nreqs s nreqs1 s1 ∧ drive_step nreqs1 s1 = None).
Proof.
  revert nreqs s. induction fuel as [|fuel IH]; intros nreqs s Hm; [lia|]. cbn [drive_machine]. munfold.
  destruct (drive_step nreqs s) as [[[[] nreqs1] s1]|] eqn:E; [by left; eexists| |right; exists 0%nat, nreqs, s; by split; [constructor|]].
  pose proof (drive_step_lowers _ _ _ _ E). destruct (IH nreqs1 s1) as [[s' H']|(k & n2 & s2 & Hd & Hn)]; [lia|left; by eexists|].
  right. exists (S k), n2, s2. split; [by econstructor|done].
Qed.


End Drive.

#[local] Existing Instance jenkins_fn.

Lemma no_report_wire tokens : keeps same_wire (no_report tokens).
Proof. unfold no_report. eauto with keeps. Qed.

Lemma no_store_wire it : keeps same_wire (no_store it).
Proof. by apply (keeps_ret same_wire). Qed.

#[export] Instance desk_prot_ok : @ProtocolOk desk_prot.
Proof. apply ascii_prot_ok; [exact no_store_wire|exact no_report_wire]. Qed.

(** A server with a client that sends two commands. *)
Definition busy_machine : machine :=
  desk_machine shop_linked idle (mkNet [Got (txt "get a b" ++ crlf ++ txt "dele"); Got (txt "te a" ++ crlf)] [Sent 3] [] [] 0 0).

