(* ===== verification/StreamThm.v ===== *)
(** * The connection as a stream

    How the socket cuts the stream into reads does not matter: the value of an
    item is exactly the next bytes, the bytes of a refused value are skipped
    exactly, and reading loses nothing. *)

From Stdlib Require Import Ascii String SpecFloat.
From stdpp Require Import strings.
From S2P Require Import Prelude Hashes StatsPrefix State Slabs Items ItemsThm Store Tokens Conn ProtoText ProtoCmd Machine Wire Drive Desk DriveThm.

(** ** Writing a value piece by piece *)

Lemma blit_app o b1 b2 (l : list Z) :
  0 ≤ o → o + Z.of_nat (length b1) + Z.of_nat (length b2) ≤ Z.of_nat (length l) →
  blit (o + Z.of_nat (length b1)) b2 (blit o b1 l) = blit o (b1 ++ b2) l.
Proof.
  intros Ho Hl. unfold blit. set (n := Z.to_nat o). replace (Z.to_nat (o + Z.of_nat (length b1))) with (n + length b1)%nat by lia.
  assert (Hn : length (take n l) = n) by (rewrite length_take; lia).
  rewrite (app_assoc (take n l)). rewrite take_app_length' by (rewrite length_app; lia).
  rewrite drop_app_ge by (rewrite length_app; lia). rewrite drop_drop, <- !app_assoc, !length_app, Hn.
  do 3 f_equal. f_equal. lia.
Qed.

Lemma blit_whole b (l : list Z) : length b = length l → blit 0 b l = b.
Proof. intros Hl. unfold blit. simpl. rewrite drop_ge by lia. apply app_nil_r. Qed.

Section Stream.
Context {HF : HashFn} {PR : Protocol}.
Implicit Types s : machine.

Definition got (r : read_result) : list Z := match r with Got b => b | _ => [] end.

(** What the client has sent and the server has not used: the bytes in the read
    buffer and those the socket will deliver. *)
Definition input s : list Z := k_rbuf (z_conn (mc_session s)) ++ concat (got <$> nt_reads (mc_net s)).

(** The socket delivers bytes without a pause. *)
Definition live s : Prop := Forall (λ r, ∃ b, r = Got b ∧ b ≠ []) (nt_reads (mc_net s)).

Lemma c_read_live n s :
  live s → 0 < n → concat (got <$> nt_reads (mc_net s)) ≠ [] →
  ∃ b s', c_read n s = Some (Got b, s') ∧ b ≠ [] ∧ Z.of_nat (length b) ≤ n ∧ mc_session s' = mc_session s ∧
    concat (got <$> nt_reads (mc_net s)) = b ++ concat (got <$> nt_reads (mc_net s')) ∧ live s'.
Proof.
  unfold live, c_read. intros Hl Hn Hne. rewrite (proj2 (Z.leb_gt _ _)) by lia.
  destruct (nt_reads (mc_net s)) as [|r rest]; [done|]. apply Forall_cons in Hl as [(b & -> & Hb) Hrest].
  set (b1 := take (Z.to_nat n) b). set (b2 := drop (Z.to_nat n) b).
  assert (Hb12 : b = b1 ++ b2) by (symmetry; apply take_drop).
  eexists b1, _. split; [done|]. simpl. split_and!.
  - subst b1. destruct b as [|z b]; [done|]. by destruct (Z.to_nat n) eqn:E; [lia|].
  - subst b1. rewrite length_take. lia.
  - done.
  - rewrite Hb12 at 1. destruct b2 as [|z b2]; simpl; [by rewrite app_nil_r|by rewrite <- app_assoc].
  - destruct b2 as [|z b2]; [done|]. constructor; [by eexists|done].
Qed.

(** ** The bytes of a refused value *)

Definition swallowed s s' : Prop :=
  z_world (mc_session s') = z_world (mc_session s) ∧ k_resps (z_conn (mc_session s')) = k_resps (z_conn (mc_session s)) ∧
  live s'.

Lemma swallow_step s n :
  k_state (z_conn (mc_session s)) = conn_swallow → k_sbytes (z_conn (mc_session s)) = n → 0 < n ≤ Z.of_nat (length (input s)) →
  live s → 0 < k_rsize (z_conn (mc_session s)) →
  ∃ k s', state_swallow s = Some (false, s') ∧ swallowed s s' ∧ 0 < k ≤ n ∧
    k_state (z_conn (mc_session s')) = conn_swallow ∧ k_sbytes (z_conn (mc_session s')) = n - k ∧
    input s' = drop (Z.to_nat k) (input s) ∧ 0 < k_rsize (z_conn (mc_session s')).
Proof.
  intros Hst Hn Hle Hl Hr. unfold state_swallow, gets. munfold. rewrite Hn, (proj2 (Z.leb_gt n 0)) by lia.
  unfold rbytes. unfold input in Hle. rewrite length_app in Hle. destruct (0 <? Z.of_nat (length (k_rbuf (z_conn (mc_session s))))) eqn:E; bool_props.
  - set (k := if n <? _ then n else _). assert (Hk : 0 < k ≤ n ∧ k ≤ Z.of_nat (length (k_rbuf (z_conn (mc_session s))))).
    { subst k. case_match; bool_props; lia. }
    exists k. eexists. split; [done|]. unfold input, swallowed, live. simpl. split_and!; try done; try lia.
    by rewrite drop_app_le by lia.
  - destruct (c_read_live (if n <? k_rsize (z_conn (mc_session s)) then n else k_rsize (z_conn (mc_session s))) s Hl) as
      (b & s1 & Hrun & Hb & Hlen & Hsess & Hcat & Hl'); [case_match; lia| |].
    { intros E0. rewrite E0 in Hle. simpl in Hle. lia. }
    rewrite Hrun. destruct b as [|z b]; [done|]. set (k := Z.of_nat (length (z :: b))) in *. exists k. eexists. split; [done|].
    assert (E0 : k_rbuf (z_conn (mc_session s)) = []) by (apply nil_length_inv; lia).
    unfold swallowed, input, live. simpl. rewrite Hsess, E0, Hn, Hst, Hcat. simpl. split_and!; try done.
    all: try (repeat case_match; bool_props; subst k; simpl in *; lia).
    change (z :: b ++ ?r) with ((z :: b) ++ r). by rewrite drop_app_length' by lia.
Qed.

(** (helper for the run of a state that stays) *)
Lemma drive_swallow nreqs s b s' :
  k_state (z_conn (mc_session s)) = conn_swallow → state_swallow s = Some (b, s') →
  drive_step nreqs s = Some ((b, nreqs), s').
Proof. intros Hst H. unfold drive_step, gets. munfold. rewrite Hst. munfold. by rewrite H. Qed.

Lemma drive_nread nreqs s b s' :
  k_state (z_conn (mc_session s)) = conn_nread → state_nread s = Some (b, s') →
  drive_step nreqs s = Some ((b, nreqs), s').
Proof. intros Hst H. unfold drive_step, gets. munfold. rewrite Hst. munfold. by rewrite H. Qed.

(** C22 (safety). A refused value is skipped exactly: the machine drops the bytes
    that were announced and their line end, however the socket delivers them, and
    then reads commands again; the cache and the responses stay as they are. *)
Theorem swallow_exact nreqs s n :
  k_state (z_conn (mc_session s)) = conn_swallow → k_sbytes (z_conn (mc_session s)) = n →
  0 ≤ n ≤ Z.of_nat (length (input s)) → live s → 0 < k_rsize (z_conn (mc_session s)) →
  ∃ k s', drives k nreqs s nreqs s' ∧ k_state (z_conn (mc_session s')) = conn_new_cmd ∧
    input s' = drop (Z.to_nat n) (input s) ∧ swallowed s s'.
Proof.
  intros Hst Hn Hle Hl Hr. assert (Hfuel : (Z.to_nat n ≤ Z.to_nat n)%nat) by done. revert Hfuel.
  generalize (Z.to_nat n) at 2 as fuel. intros fuel. revert n s Hst Hn Hle Hl Hr.
  induction fuel as [fuel IH] using lt_wf_ind. intros n s Hst Hn Hle Hl Hr Hf.
  destruct (decide (n = 0)) as [->|Hne].
  { eexists 1%nat, _. split; [eapply drives_step; [apply drive_swallow; [done|]|constructor]|].
    - unfold state_swallow, gets. munfold. rewrite Hn. done.
    - unfold swallowed, live. by split_and!. }
  destruct (swallow_step s n) as (k & s1 & Hrun & (Hw & Hresp & Hl1) & Hk & Hst1 & Hn1 & Hin & Hr1); [done..|lia|done|done|].
  destruct (IH (Z.to_nat (n - k)) ltac:(lia) (n - k) s1) as (j & s2 & Hd & Hst2 & Hin2 & Hw2 & Hresp2 & Hl2); try done.
  { rewrite Hin, length_drop. lia. }
  exists (S j), s2. split; [eapply drives_step; [by apply drive_swallow|done]|]. split_and!; [done| |].
  - rewrite Hin2, Hin, drop_drop. f_equal. lia.
  - unfold swallowed. split_and!; [congruence|congruence|done].
Qed.

(** ** The value of an item *)

(** [n] more bytes go to the value of the item [x] at [it], from [off] on. *)
Record reading (z : session) (it : Z) (x : item) (off n : Z) : Prop := {
  rd_state : k_state (z_conn z) = conn_nread;
  rd_item : k_item (z_conn z) = it;
  rd_ritem : k_ritem (z_conn z) = (it, off);
  rd_left : k_rlbytes (z_conn z) = n;
  rd_heap : w_heap (z_world z) !! it = Some x;
  rd_plain : flag (i_it_flags x) ITEM_CHUNKED = false;
  rd_range : 0 ≤ off ∧ 0 ≤ n ∧ off + n ≤ i_nbytes x
}.

(** The value with the bytes [b] from [off] on. *)
Definition with_bytes (x : item) (off : Z) (b : list Z) : item :=
  match b with [] => x | _ => x <| i_data := blit off b (resize (Z.to_nat (i_nbytes x)) 0 (i_data x)) |> end.

Definition at_item (z : session) (it : Z) (x : item) : world :=
  (z_world z) <| w_heap := <[it := x]> (w_heap (z_world z)) |>.

Lemma with_bytes_ne x off b : b ≠ [] →
  with_bytes x off b = x <| i_data := blit off b (resize (Z.to_nat (i_nbytes x)) 0 (i_data x)) |>.
Proof. by destruct b. Qed.

Lemma with_bytes_app x off b1 b2 :
  0 ≤ off → off + Z.of_nat (length b1) + Z.of_nat (length b2) ≤ i_nbytes x →
  with_bytes (with_bytes x off b1) (off + Z.of_nat (length b1)) b2 = with_bytes x off (b1 ++ b2).
Proof.
  intros Ho Hl. destruct (decide (b1 = [])) as [->|H1]; [simpl; by rewrite Z.add_0_r|].
  destruct (decide (b2 = [])) as [->|H2]; [by rewrite app_nil_r|].
  rewrite !with_bytes_ne by (try done; by destruct b1). set (d := resize (Z.to_nat (i_nbytes x)) 0 (i_data x)).
  assert (Hd : length d = Z.to_nat (i_nbytes x)) by apply length_resize.
  assert (Hr : resize (Z.to_nat (i_nbytes x)) 0 (blit off b1 d) = blit off b1 d).
  { apply resize_all_alt. by rewrite length_blit by lia. }
  cbn [i_data i_nbytes field_update]. rewrite Hr, blit_app by lia. done.
Qed.

(** The item keeps what the states look at. *)
Lemma with_bytes_same x off b :
  i_nbytes (with_bytes x off b) = i_nbytes x ∧ i_it_flags (with_bytes x off b) = i_it_flags x.
Proof. by destruct b. Qed.

(** What the states that read leave alone. *)
Definition request (z : session) : list mc_resp * option nread * bool * bool :=
  (k_resps (z_conn z), k_cmd (z_conn z), k_mset_res (z_conn z), k_noreply (z_conn z)).

Lemma store_value_ok z it x off n b :
  reading z it x off n → Z.of_nat (length b) ≤ n → b ≠ [] →
  ∃ z', store_value b z = Some (tt, z') ∧ let k := Z.of_nat (length b) in
    reading z' it (with_bytes x off b) (off + k) (n - k) ∧ z_world z' = at_item z it (with_bytes x off b) ∧
    k_rbuf (z_conn z') = k_rbuf (z_conn z) ∧ request z' = request z.
Proof.
  intros [Hst Hit Hri Hn Hx Hp (Ho & Hn0 & Hr)] Hb Hne. unfold store_value, gets. munfold. rewrite Hri.
  unfold W, data_write. munfold. rewrite (load_ok _ _ _ Hx).
  rewrite (proj2 (Z.leb_le 0 off)), (proj2 (Z.leb_le _ (i_nbytes x))) by lia. cbn [andb].
  rewrite (wr_ok _ _ _ _ Hx). eexists. split; [done|]. cbn zeta. rewrite <- with_bytes_ne by done.
  split_and!; [|done..]. constructor; simpl.
  - done.
  - done.
  - done.
  - by rewrite Hn.
  - by rewrite lookup_insert_eq.
  - by rewrite (proj2 (with_bytes_same x off b)).
  - rewrite (proj1 (with_bytes_same x off b)). lia.
Qed.

(** What a step that stays in the state does. *)
Definition took s it x off n s' (b : list Z) : Prop :=
  b ≠ [] ∧ b `prefix_of` input s ∧ Z.of_nat (length b) ≤ n ∧
  input s' = drop (length b) (input s) ∧ live s' ∧
  reading (mc_session s') it (with_bytes x off b) (off + Z.of_nat (length b)) (n - Z.of_nat (length b)) ∧
  z_world (mc_session s') = at_item (mc_session s) it (with_bytes x off b) ∧
  request (mc_session s') = request (mc_session s).

Lemma nread_socket_ok s it x off n :
  reading (mc_session s) it x off n → 0 < n → live s → k_rbuf (z_conn (mc_session s)) = [] → input s ≠ [] →
  ∃ s' b, nread_socket s = Some (false, s') ∧ took s it x off n s' b.
Proof.
  intros Hrd Hn Hl Hb Hne. unfold nread_socket, gets. munfold. rewrite (rd_left _ _ _ _ _ Hrd), (proj2 (Z.eqb_neq n 0)) by lia.
  unfold input in Hne. rewrite Hb in Hne. destruct (c_read_live n s Hl Hn Hne) as (b & s1 & -> & Hbne & Hle & Hs & Hcat & Hl1).
  rewrite <- Hs in Hrd. destruct (store_value_ok _ _ _ _ _ b Hrd Hle Hbne) as (z & Hrun & Hrd' & Hw & Hrb & Hrs).
  destruct b as [|y b]; [done|]. unfold Z_. rewrite Hrun. eexists _, (y :: b). split; [done|]. unfold took, input. simpl mc_net. simpl mc_session.
  rewrite Hw, Hrb, Hrs, Hs, Hb, Hcat. split_and!; try done.
  - by eexists.
  - rewrite !app_nil_l. by rewrite drop_app_length.
Qed.

(** The bytes in the buffer go first. *)
Lemma nread_buffer_ok s it x off n :
  reading (mc_session s) it x off n → 0 < n → live s → k_rbuf (z_conn (mc_session s)) ≠ [] →
  let len := rbytes (z_conn (mc_session s)) in
  ∃ s' b, Z_ (b ← rbuf_take (if n <? len then n else len); store_value b) s = Some (tt, s') ∧ took s it x off n s' b ∧
    nt_reads (mc_net s') = nt_reads (mc_net s) ∧
    (Z.of_nat (length b) < n → k_rbuf (z_conn (mc_session s')) = []).
Proof.
  intros Hrd Hn Hl Hb len. set (k := if n <? len then n else len). set (rb := k_rbuf (z_conn (mc_session s))) in *.
  assert (Hlen : 0 < len) by (unfold len, rbytes; fold rb; destruct rb; [done|simpl; lia]).
  assert (Hk : 0 < k ≤ n ∧ k ≤ len ∧ (k < n → k = len)) by (subst k; case_match; bool_props; lia).
  assert (Hkl : length (take (Z.to_nat k) rb) = Z.to_nat k) by (rewrite length_take; unfold len, rbytes in *; fold rb in Hk; lia).
  unfold Z_, rbuf_take, gets, on_conn, modify. munfold. fold rb.
  set (z1 := (mc_session s) <| z_conn := _ |>).
  assert (Hrd1 : reading z1 it x off n) by (destruct Hrd; by constructor).
  destruct (store_value_ok z1 it x off n (take (Z.to_nat k) rb) Hrd1) as (z & Hrun & Hrd' & Hw & Hrb & Hrs);
    [lia|intros E; rewrite E in Hkl; simpl in Hkl; lia|].
  rewrite Hrun. eexists _, (take (Z.to_nat k) rb). split; [done|]. unfold took, input. simpl mc_net. simpl mc_session.
  fold rb. rewrite Hw, Hrb, Hrs. subst z1. simpl k_rbuf. fold rb. split_and!; try done.
  - intros E. rewrite E in Hkl. simpl in Hkl. lia.
  - exists (drop (Z.to_nat k) rb ++ concat (got <$> nt_reads (mc_net s))). by rewrite app_assoc, take_drop.
  - lia.
  - rewrite Hkl. rewrite drop_app_le by (unfold len, rbytes in *; fold rb in Hk; lia). done.
  - intros Hlt. apply drop_ge. unfold len, rbytes in *. fold rb in Hk. lia.
Qed.

Lemma taken_trans s s1 s2 it x off n b1 b2 :
  0 ≤ off → off + n ≤ i_nbytes x →
  took s it x off n s1 b1 → took s1 it (with_bytes x off b1) (off + Z.of_nat (length b1)) (n - Z.of_nat (length b1)) s2 b2 →
  took s it x off n s2 (b1 ++ b2).
Proof.
  intros Ho Hr (N1 & P1 & L1 & I1 & _ & R1 & W1 & S1) (N2 & P2 & L2 & I2 & V2 & R2 & W2 & S2).
  unfold took. rewrite length_app. split_and!.
  - by destruct b1.
  - destruct P1 as [t1 E1]. rewrite I1, E1, drop_app_length in P2. rewrite E1. by apply prefix_app.
  - lia.
  - by rewrite I2, I1, drop_drop.
  - done.
  - rewrite with_bytes_app in R2 by lia. replace (off + Z.of_nat (length b1 + length b2)) with
      (off + Z.of_nat (length b1) + Z.of_nat (length b2)) by lia.
    replace (n - Z.of_nat (length b1 + length b2)) with (n - Z.of_nat (length b1) - Z.of_nat (length b2)) by lia. done.
  - rewrite with_bytes_app in W2 by lia. rewrite W2. unfold at_item. rewrite W1. unfold at_item. simpl.
    by rewrite insert_insert_eq.
  - congruence.
Qed.

(** One round of the state. *)
Lemma nread_round s it x off n :
  reading (mc_session s) it x off n → 0 < n ≤ Z.of_nat (length (input s)) → live s →
  ∃ s' b, state_nread s = Some (false, s') ∧ took s it x off n s' b.
Proof.
  intros Hrd Hn Hl. pose proof Hrd as [Hst Hit Hri Hleft Hx Hp (Ho & _ & Hr)].
  assert (Hload : Z_ (W (load it)) s = Some (x, s)).
  { unfold Z_, W. rewrite (load_ok _ _ _ Hx). by destruct s as [[] ?]. }
  unfold state_nread. rewrite (bind_run (gets _) _ s _ s eq_refl), Hleft, Hit.
  rewrite (proj2 (Z.eqb_neq n 0)), (proj2 (Z.ltb_ge n 0)), (bind_run _ _ _ _ _ Hload), Hp by lia. cbn [negb].
  destruct (0 <? rbytes (z_conn (mc_session s))) eqn:E; bool_props.
  - destruct (nread_buffer_ok s it x off n Hrd) as (s1 & b1 & Hrun1 & Ht1 & Hnet & Hnil); [lia|done| |].
    { intros E0. unfold rbytes in E. rewrite E0 in E. simpl in E. lia. }
    rewrite (bind_run _ _ _ _ _ Hrun1). pose proof Ht1 as (N1 & P1 & L1 & I1 & V1 & R1 & W1 & S1).
    destruct (decide (Z.of_nat (length b1) = n)) as [En|Hne].
    { exists s1, b1. split; [|done]. unfold nread_socket, gets. munfold. by rewrite (rd_left _ _ _ _ _ R1), (proj2 (Z.eqb_eq _ 0)) by lia. }
    destruct (nread_socket_ok s1 it _ _ _ R1) as (s2 & b2 & Hrun2 & Ht2); [lia|done|apply Hnil; lia| |].
    { intros E0. rewrite I1 in E0. apply (f_equal length) in E0. rewrite length_drop in E0. simpl in E0. lia. }
    exists s2, (b1 ++ b2). split; [done|]. by apply (taken_trans s s1).
  - rewrite (bind_run _ _ _ _ _ eq_refl). apply nread_socket_ok; [done|lia|done| |].
    + apply nil_length_inv. unfold rbytes in E. lia.
    + intros E0. rewrite E0 in Hn. simpl in Hn. lia.
Qed.

(** The whole value. *)
Lemma nread_ok nreqs s it x n :
  reading (mc_session s) it x 0 n → n = i_nbytes x → 0 < n ≤ Z.of_nat (length (input s)) → live s →
  let value := take (Z.to_nat n) (input s) in
  ∃ k s', drives k nreqs s nreqs s' ∧ reading (mc_session s') it (x <| i_data := value |>) n 0 ∧
    input s' = drop (Z.to_nat n) (input s) ∧ live s' ∧
    z_world (mc_session s') = at_item (mc_session s) it (x <| i_data := value |>) ∧
    request (mc_session s') = request (mc_session s).
Proof.
  intros Hrd Hnx Hn Hl value.
  assert (Hgen : ∀ fuel s x off m, (Z.to_nat m < fuel)%nat → reading (mc_session s) it x off m → 0 < m ≤ Z.of_nat (length (input s)) → live s →
    ∃ k s' b, drives k nreqs s nreqs s' ∧ took s it x off m s' b ∧ Z.of_nat (length b) = m).
  { clear. induction fuel as [|fuel IH]; intros s x off m Hf Hrd Hm Hl; [lia|].
    destruct (nread_round s it x off m Hrd Hm Hl) as (s1 & b1 & Hrun & Ht1). pose proof Ht1 as (N1 & P1 & L1 & I1 & V1 & R1 & W1 & S1).
    apply (drive_nread nreqs) in Hrun; [|apply Hrd]. destruct (decide (Z.of_nat (length b1) = m)) as [Em|Hne].
    { exists 1%nat, s1, b1. split; [|done]. eapply drives_step; [done|constructor]. }
    assert (0 < Z.of_nat (length b1)) by (destruct b1; [done|simpl; lia]).
    destruct (IH s1 (with_bytes x off b1) (off + Z.of_nat (length b1)) (m - Z.of_nat (length b1))) as
      (k & s2 & b2 & Hd & Ht2 & L2); [lia|done|rewrite I1, length_drop; lia|done|].
    exists (S k), s2, (b1 ++ b2). split_and!; [by eapply drives_step| |rewrite length_app; lia].
    destruct Hrd as [_ _ _ _ _ _ (? & _ & ?)]. by apply (taken_trans s s1). }
  destruct (Hgen _ s x 0 n (Nat.lt_succ_diag_r _) Hrd Hn Hl) as (k & s' & b & Hd & (Nb & [tl Pb] & _ & Ib & Vb & Rb & Wb & Sb) & Lb).
  assert (Eb : value = b) by (unfold value; rewrite Pb, take_app_length' by lia; done).
  assert (Ex : with_bytes x 0 b = x <| i_data := value |>).
  { rewrite with_bytes_ne, blit_whole by (try done; rewrite length_resize; lia). by rewrite Eb. }
  rewrite Ex in *. exists k, s'. replace (0 + Z.of_nat (length b)) with n in Rb by lia. replace (n - Z.of_nat (length b)) with 0 in Rb by lia.
  split_and!; try done. rewrite Ib. f_equal. lia.
Qed.

(** The value of an item is exactly the next bytes of the stream:
    however the socket delivers them, when the machine has read a value of
    [n] bytes into a new item, these are the next [n] bytes, the bytes behind
    them are still to be read, and nothing else in memory has changed. *)
Theorem nread_exact nreqs s it x n :
  reading (mc_session s) it x 0 n → n = i_nbytes x → 0 < n ≤ Z.of_nat (length (input s)) → live s →
  let value := take (Z.to_nat n) (input s) in
  ∃ k s', drives k nreqs s nreqs s' ∧ reading (mc_session s') it (x <| i_data := value |>) n 0 ∧
    input s' = drop (Z.to_nat n) (input s) ∧ live s' ∧
    z_world (mc_session s') = at_item (mc_session s) it (x <| i_data := value |>) ∧
    k_resps (z_conn (mc_session s')) = k_resps (z_conn (mc_session s)).
Proof.
  intros Hrd Hnx Hn Hl value. destruct (nread_ok nreqs s it x n Hrd Hnx Hn Hl) as (k & s' & H1 & H2 & H3 & H4 & H5 & H6).
  exists k, s'. split_and!; try done. unfold request in H6. congruence.
Qed.

(** ** Reading from the socket *)

Lemma c_read_stream n s r s' : c_read n s = Some (r, s') →
  mc_session s' = mc_session s ∧ concat (got <$> nt_reads (mc_net s)) = got r ++ concat (got <$> nt_reads (mc_net s')) ∧
  Z.of_nat (length (got r)) ≤ Z.max 0 n.
Proof.
  unfold c_read. destruct (n <=? 0) eqn:E0; bool_props; [intros [= <- <-]; simpl; split_and!; [done|done|lia]|].
  destruct (nt_reads (mc_net s)) as [|[b| |] rest] eqn:E; intros [= <- <-]; simpl; rewrite ?E; split_and!; try done; try lia.
  - rewrite <- (take_drop (Z.to_nat n) b) at 1. destruct (drop (Z.to_nat n) b); simpl; by rewrite ?app_nil_r, <- ?app_assoc.
  - rewrite length_take. lia.
Qed.

(** The buffer holds what it says it holds. *)
Definition fits_buffer s : Prop := rbytes (z_conn (mc_session s)) ≤ k_rsize (z_conn (mc_session s)).

Definition rsize s : Z := k_rsize (z_conn (mc_session s)).

(** No byte is lost, none is made up, and the buffer at most doubled [k] times. *)
Definition lossless (k : Z) s s' : Prop :=
  input s' = input s ∧ fits_buffer s' ∧ rsize s ≤ rsize s' ≤ 2 ^ k * rsize s.

Lemma lossless_refl k s : 0 ≤ k → fits_buffer s → lossless k s s.
Proof.
  intros Hk Hf. split_and!; [done|done|done|]. assert (1 ≤ 2 ^ k) by (change 1 with (2 ^ 0); by apply Z.pow_le_mono_r).
  unfold fits_buffer, rbytes, rsize in *. nia.
Qed.

Lemma lossless_trans j k s1 s2 s3 : 0 ≤ j → 0 ≤ k → lossless j s1 s2 → lossless k s2 s3 → lossless (j + k) s1 s3.
Proof.
  intros Hj Hk (I1 & _ & L1 & H1) (I2 & F2 & L2 & H2). split_and!; [congruence|done|lia|]. rewrite Z.pow_add_r by lia.
  assert (0 < 2 ^ k) by by apply Z.pow_pos_nonneg. nia.
Qed.

(** The tail of the loop body: one read into a buffer that is as large as it gets. *)
Lemma read_lossless s r s1 b :
  c_read (rsize s - rbytes (z_conn (mc_session s))) s = Some (r, s1) → fits_buffer s → got r = b →
  lossless 0 s (s1 <| mc_session := (mc_session s1) <| z_conn := (z_conn (mc_session s1)) <| k_rbuf := k_rbuf (z_conn (mc_session s1)) ++ b |> |> |>).
Proof.
  intros H Hf <-. apply c_read_stream in H as (Hs & Hc & Hl). unfold lossless, input, fits_buffer, rsize, rbytes in *. simpl.
  rewrite Hs, Hc. split_and!; [by rewrite app_assoc|rewrite length_app; lia|lia|lia].
Qed.

Lemma lossless_session s s1 : mc_session s1 = mc_session s → input s1 = input s → fits_buffer s → lossless 0 s s1.
Proof. intros Hs Hi Hf. unfold lossless, fits_buffer, rsize in *. rewrite Hs. split_and!; [done|done|lia|lia]. Qed.

Lemma read_loop_lossless fuel a got0 s res s' :
  read_loop fuel a got0 s = Some (res, s') → fits_buffer s → 0 ≤ a ≤ 4 → res ≠ READ_MEMORY_ERROR → lossless (4 - a) s s'.
Proof.
  revert a got0 s. induction fuel as [|fuel IH]; intros a got0 s H Hfit Ha Hres; [done|]. cbn [read_loop] in H.
  apply bind_inv in H as (c & s1 & [= <- <-] & H).
  set (full := (k_rsize (z_conn (mc_session s)) <=? rbytes (z_conn (mc_session s))) && k_rbuf_malloced (z_conn (mc_session s))) in H.
  destruct (full && (a =? 4)) eqn:E4; [injection H as <- <-; by apply lossless_refl; [lia|]|].
  apply bind_inv in H as (ok & s1 & R & H); destruct ok; cbn [negb] in H;
    [|apply bind_inv in H as ([] & s2 & _ & [= <- <-]); done].
  apply bind_inv in H as ([] & s2 & R2 & H). set (a' := if full then a + 1 else a) in H.
  assert (Hs2 : a ≤ a' ≤ 4 ∧ lossless (a' - a) s s2).
  { subst a'. destruct full; cbn [when] in R2.
    - simpl in E4. bool_props. split; [lia|]. apply Z_inv in R as (z1 & R & ->). apply Z_inv in R2 as (z2 & R2 & ->). injection R2 as <-.
      apply wire_mem_next in R. unfold same_wire, wire in R. injection R as Er _ Es _ _.
      unfold lossless, input, fits_buffer, rsize, rbytes in *. simpl. rewrite Er, Es. replace (a + 1 - a) with 1 by lia. change (2 ^ 1) with 2.
      split_and!; [done|lia|lia|lia].
    - injection R as <-. injection R2 as <-. split; [lia|]. by apply lossless_refl; [lia|]. }
  clearbody a'. clear full E4 R R2. destruct Hs2 as [Ha' Hl2]. pose proof Hl2 as (_ & Hf2 & _).
  replace (4 - a) with ((a' - a) + (4 - a')) by lia.
  apply (lossless_trans _ _ s s2); [lia|lia|done|].
  apply bind_inv in H as (c & s3 & [= <- <-] & H). apply bind_inv in H as (r & s3 & R & H).
  pose proof (read_lossless _ _ _ _ R Hf2 eq_refl) as Hl3.
  assert (Hdone : got r = [] → lossless (4 - a') s2 s3).
  { intros E. apply c_read_stream in R as (Hs & Hc & _). replace (4 - a') with (0 + (4 - a')) by lia.
    apply (lossless_trans _ _ s2 s3); [done|lia| |]; [|apply lossless_refl; [lia|]].
    - apply lossless_session; [done| |done]. unfold input. by rewrite Hc, Hs, E.
    - unfold fits_buffer. by rewrite Hs. }
  destruct r as [[|x b]| |].
  1,3,4: injection H as <- <-; by apply Hdone.
  apply bind_inv in H as ([] & s4 & R4 & H). apply Z_inv in R4 as (z4 & R4 & ->). injection R4 as <-.
  replace (4 - a') with (0 + (4 - a')) by lia. refine (lossless_trans 0 (4 - a') s2 _ _ _ _ Hl3 _); [done|lia|].
  pose proof Hl3 as (_ & Hf3 & _).
  match type of H with (if ?b then _ else _) _ = _ => destruct b end.
  - apply (IH a' READ_DATA_RECEIVED); [done|done|lia|done].
  - injection H as <- <-. by apply lossless_refl; [lia|].
Qed.


Lemma out_string_no_resp `{HashFn} str z : k_resps (z_conn z) = [] → out_string str z = None.
Proof. intros H0. unfold out_string, resp_reset, cur_resp. munfold. by rewrite H0. Qed.

(** C27 (error). A finding: when the large buffer of a connection cannot grow, the
    answer "out of memory" is written to the connection's current response; while a
    connection reads there is none, and the server dereferences a null pointer. *)
Theorem try_read_network_oom_crashes s rest :
  k_rbuf_malloced (z_conn (mc_session s)) = true → rsize s ≤ rbytes (z_conn (mc_session s)) →
  z_mem (mc_session s) = false :: rest → k_resps (z_conn (mc_session s)) = [] →
  try_read_network s = None.
Proof.
  intros Hm Hfull Hmem Hr. destruct (try_read_network s) as [[res s']|] eqn:H; [exfalso|done].
  unfold try_read_network in H. apply bind_inv in H as ([] & s1 & R & H). apply Z_inv in R as (z & R & ->). injection R as <-.
  cbn [read_loop] in H. apply bind_inv in H as (c & s1 & [= <- <-] & H). unfold rsize, rbytes in *. simpl in H.
  rewrite Hm, (proj2 (Z.leb_le _ _) Hfull) in H. simpl in H. apply bind_inv in H as (ok & s1 & R & H).
  apply Z_inv in R as (z & R & ->). unfold mem_next in R. simpl in R. rewrite Hmem in R. injection R as <- <-. cbn [negb] in H.
  apply bind_inv in H as ([] & s2 & R & _). apply Z_inv in R as (z & R & _).
  apply bind_inv in R as ([] & z1 & [= <-] & R). apply bind_inv in R as ([] & z2 & [= <-] & R).
  apply bind_inv in R as ([] & z3 & R & _). unfold out_of_memory in R. by rewrite out_string_no_resp in R.
Qed.

End Stream.

#[local] Existing Instance jenkins_fn.
#[local] Existing Instance desk_prot.

(** The bytes "abcde" arrive in two reads. *)
Definition two_reads : net := mkNet [Got [97; 98]; Got [99; 100; 101]] [] [] [] 0 0.

Definition swallowing : machine :=
  desk_machine shop_linked (idle <| k_state := conn_swallow |> <| k_sbytes := 4 |> <| k_rsize := 16384 |>) two_reads.

Lemma two_reads_live z : live (mkMachine z two_reads).
Proof. repeat constructor; eexists; split; try reflexivity; discriminate. Qed.

Lemma swallow_exact_witness :
  ∃ k s', drives k 20 swallowing 20 s' ∧ k_state (z_conn (mc_session s')) = conn_new_cmd ∧
    input s' = [101] ∧ swallowed swallowing s'.
Proof.
  apply (swallow_exact 20 swallowing 4).
  - reflexivity.
  - reflexivity.
  - split; vm_compute; discriminate.
  - exact (two_reads_live _).
  - reflexivity.
Defined.

(** A value of four bytes for the item at 4192, which has room for three and is
    given a fourth. *)
Definition blank_item : item := (default zero_item (w_heap shop_linked !! 4192)) <| i_nbytes := 4 |>.

Definition reading_machine : machine :=
  desk_machine (shop_linked <| w_heap := <[4192 := blank_item]> (w_heap shop_linked) |>)
    (idle <| k_state := conn_nread |> <| k_item := 4192 |> <| k_ritem := (4192, 0) |> <| k_rlbytes := 4 |>) two_reads.

Lemma nread_exact_witness :
  ∃ k s', drives k 20 reading_machine 20 s' ∧
    reading (mc_session s') 4192 (blank_item <| i_data := [97; 98; 99; 100] |>) 4 0 ∧
    input s' = [101] ∧ live s' ∧
    z_world (mc_session s') = at_item (mc_session reading_machine) 4192 (blank_item <| i_data := [97; 98; 99; 100] |>) ∧
    k_resps (z_conn (mc_session s')) = [].
Proof.
  apply (nread_exact 20 reading_machine 4192 blank_item 4).
  - constructor; try reflexivity. split_and!; vm_compute; discriminate.
  - reflexivity.
  - split; vm_compute; [reflexivity|discriminate].
  - exact (two_reads_live _).
Defined.

Definition hungry : machine := desk_machine shop_linked (idle <| k_state := conn_read |> <| k_rsize := 16384 |>) two_reads.


(** A buffer from the heap, full, and no memory. *)
Definition full_machine : machine :=
  mkMachine ((desk shop_linked (idle <| k_state := conn_read |> <| k_rbuf := [97; 98] |> <| k_rsize := 2 |> <| k_rbuf_malloced := true |>))
    <| z_mem := [false] |>) two_reads.

Lemma try_read_network_oom_crashes_witness : try_read_network full_machine = None.
Proof. apply (try_read_network_oom_crashes full_machine []); [reflexivity|vm_compute; discriminate|reflexivity|reflexivity]. Defined.
