(* ===== verification/MachineThm.v ===== *)
(** * Sending responses

    What [transmit] hands to the socket, with what still waits, is the same
    sequence of bytes at all times. *)

From stdpp Require Import strings.
From S2P Require Import Prelude Hashes StatsPrefix State Links Queues Assoc AssocSpec Slabs SlabsSpec Items ItemsSpec ItemsAccess ItemsThm Store StoreThm Tokens Conn Machine Drive Desk DriveThm.

Section Transmit.
Context {HF : HashFn} {PR : Protocol}.
Implicit Types (h : gmap Z item) (r : mc_resp) (v : iov) (l : list mc_resp).

(** ** Well-formed responses *)

(** The chunks of a large item hold what they claim to hold. *)
Fixpoint chunks_ok (fuel : nat) h (ch : Z) : Prop :=
  match fuel with
  | O => True
  | S fuel =>
      match h !! ch with
      | Some c => 0 ≤ ch_used c ≤ Z.of_nat (length (i_data c)) ∧ chunks_ok fuel h (i_next c)
      | None => True
      end
  end.

Definition is_chunks (b : iov_base) : bool := match b with InChunks _ _ => true | _ => false end.

Definition base_ok h r (len : Z) (b : iov_base) : Prop :=
  match b with
  | InWbuf off => 0 ≤ off
  | InText _ => True
  | InItem it off => 0 ≤ off ∧ it = rs_item r
  | InChunks it total =>
      len ≤ total ∧ it = rs_item r ∧
      match h !! it with Some x => chunks_ok (size h) h (ITEM_schunk it x) | None => True end
  end.

(** An entry points to as many bytes as it has left to send. *)
Definition iov_ok h r v : Prop :=
  0 ≤ v_len v ∧ Z.of_nat (length (iov_bytes h r v)) = v_len v ∧ base_ok h r (v_len v) (v_base v).

Definition lens (vs : list iov) : Z := foldr (λ v n, v_len v + n) 0 vs.

(** The entry for a large item is where [c] says; [x] is the index of the first. *)
Definition chunk_at (c x : nat) (vs : list iov) : Prop :=
  ∀ i v, vs !! i = Some v → (is_chunks (v_base v) = true ↔ (x + i = c ∧ c ≠ 0)%nat).

Record resp_ok h r : Prop := {
  ro_count : (length (rs_iov r) ≤ MC_RESP_IOVCOUNT)%nat;
  ro_tosend : rs_tosend r = lens (rs_iov r);
  ro_iovs : Forall (iov_ok h r) (rs_iov r);
  ro_chunk : chunk_at (rs_chunked_data_iov r) 0 (rs_iov r)
}.

Definition chain_ok h l : Prop := Forall (resp_ok h) l.

Lemma chunk_at_cons c x v vs :
  chunk_at c x (v :: vs) ↔ (is_chunks (v_base v) = true ↔ (x = c ∧ c ≠ 0)%nat) ∧ chunk_at c (S x) vs.
Proof.
  unfold chunk_at. split.
  - intros H. split; [specialize (H 0%nat v eq_refl); by rewrite Nat.add_0_r in H|].
    intros i w Hi. specialize (H (S i) w Hi). by rewrite Nat.add_succ_r in H.
  - intros [H0 H] [|i] w Hi.
    + injection Hi as <-. by rewrite Nat.add_0_r.
    + rewrite Nat.add_succ_r. by apply (H i).
Qed.

Lemma lens_bytes h r vs : Forall (iov_ok h r) vs → Z.of_nat (length (concat (iov_bytes h r <$> vs))) = lens vs.
Proof.
  induction 1 as [|v vs (_ & Hv & _) _ IH]; [done|]. rewrite fmap_cons. simpl. rewrite length_app. lia.
Qed.

(** ** What is handed over

    [emits lim a b x]: segments with the content [x] were added, all of them or,
    when [lim] segments are there, some. *)

Definition emits (lim : Z) (a b : list (list Z)) (x : list Z) : Prop :=
  ∃ segs, b = a ++ segs ∧ (concat segs = x ∨ concat segs `prefix_of` x ∧ lim ≤ Z.of_nat (length b)).

Lemma emits_all lim a segs : emits lim a (a ++ segs) (concat segs).
Proof. exists segs. auto. Qed.

Lemma emits_none lim a x : x = [] ∨ lim ≤ Z.of_nat (length a) → emits lim a a x.
Proof.
  exists []. rewrite app_nil_r. split; [done|]. destruct H as [->|H]; [by left|right]. split; [apply prefix_nil|done].
Qed.

Lemma emits_weaken lim lim' a b x : lim' ≤ lim → emits lim a b x → emits lim' a b x.
Proof. intros Hl (segs & -> & [?|[? ?]]); exists segs; split; auto. right. split; [done|lia]. Qed.

Lemma emits_trans lim lim' a b c x y :
  lim' ≤ lim → emits lim a b x → emits lim' b c y → (lim ≤ Z.of_nat (length b) → c = b) → emits lim' a c (x ++ y).
Proof.
  intros Hlim (s1 & -> & Hx) (s2 & -> & Hy) Hstop. exists (s1 ++ s2). split; [by rewrite app_assoc|].
  rewrite concat_app. destruct Hx as [<-|[Hp Hl]].
  - destruct Hy as [<-|[Hp Hl]]; [by left|right]. split; [by apply prefix_app|done].
  - right. specialize (Hstop Hl).
    assert (s2 = []) as -> by (apply (app_inv_head (a ++ s1)); by rewrite app_nil_r).
    rewrite !app_nil_r. split; [by apply prefix_app_r|lia].
Qed.

Lemma emits_one lim a x b y :
  emits lim (a ++ [x]) b y → emits lim a b (x ++ y).
Proof.
  intros (segs & -> & H). exists (x :: segs). split; [by rewrite <- app_assoc|]. simpl.
  destruct H as [<-|[? ?]]; [by left|right]. split; [by apply prefix_app|done].
Qed.

Lemma slice_app_l o n (l1 l2 : list Z) : 0 ≤ o ≤ Z.of_nat (length l1) → o + n ≤ Z.of_nat (length l1) → slice o n (l1 ++ l2) = slice o n l1.
Proof. intros. unfold slice. rewrite drop_app_le by lia. apply take_app_le. rewrite length_drop. lia. Qed.

Lemma slice_app_r o n (l1 l2 : list Z) : Z.of_nat (length l1) ≤ o → slice o n (l1 ++ l2) = slice (o - Z.of_nat (length l1)) n l2.
Proof. intros. unfold slice. rewrite drop_app_ge by lia. do 2 f_equal. lia. Qed.

Lemma slice_app_over o n (l1 l2 : list Z) : 0 ≤ o ≤ Z.of_nat (length l1) → Z.of_nat (length l1) - o ≤ n →
  slice o n (l1 ++ l2) = slice o (Z.of_nat (length l1) - o) l1 ++ slice 0 (n - (Z.of_nat (length l1) - o)) l2.
Proof.
  intros. unfold slice. rewrite drop_app_le by lia. rewrite take_app. rewrite length_drop.
  f_equal; [rewrite !take_ge; [done| |]; rewrite length_drop; lia|]. change (Z.to_nat 0) with 0%nat.
  rewrite drop_0. f_equal. lia.
Qed.

Lemma slice_neg o n (l : list Z) : n ≤ 0 → slice o n l = [].
Proof. intros. unfold slice. by replace (Z.to_nat n) with 0%nat by lia. Qed.

Lemma pre_chunks_emits fuel h ch done todo iovs :
  chunks_ok fuel h ch → 0 ≤ done →
  emits (IOV_MAX - 1) iovs (pre_chunks fuel h ch done todo iovs) (slice done todo (chunk_bytes fuel h ch)).
Proof.
  revert ch done todo iovs. induction fuel as [|fuel IH]; intros ch done todo iovs; simpl.
  { intros _ _. apply emits_none. left. unfold slice. by rewrite drop_nil, take_nil. }
  destruct (h !! ch) as [c|]; [|intros _ _; apply emits_none; left; unfold slice; by rewrite drop_nil, take_nil].
  intros [[Hu Hl] Hok] Hd. set (d := take (Z.to_nat (ch_used c)) (i_data c)).
  assert (Hlen : Z.of_nat (length d) = ch_used c) by (unfold d; rewrite length_take; lia).
  destruct ((0 <? todo) && _) eqn:Hgo; bool_props.
  2:{ apply emits_none. apply andb_false_iff in Hgo as [?|?]; bool_props; [left; apply slice_neg; lia|by right]. }
  case_match; bool_props; [|case_match; bool_props].
  - replace d with (@nil Z); [by apply IH|]. symmetry. apply nil_length_inv. lia.
  - rewrite slice_app_r by lia. rewrite Hlen. apply IH; [done|lia].
  - destruct (todo <? ch_used c - done) eqn:?; bool_props.
    + rewrite slice_app_l by lia. unfold d.
      replace (slice done todo (take (Z.to_nat (ch_used c)) (i_data c))) with (slice done todo (i_data c) ++ []).
      2:{ rewrite app_nil_r. unfold slice. rewrite skipn_firstn_comm, firstn_firstn. f_equal. lia. }
      apply emits_one. rewrite <- (slice_neg 0 (todo - (ch_used c - done)) (chunk_bytes fuel h (i_next c))) by lia.
      apply IH; [done|lia].
    + rewrite slice_app_over by lia. rewrite Hlen.
      replace (slice done (ch_used c - done) d) with (slice done (ch_used c - done) (i_data c)).
      2:{ unfold d, slice. rewrite skipn_firstn_comm, firstn_firstn. f_equal. lia. }
      apply emits_one. apply IH; [done|lia].
Qed.

Lemma pre_iovs_emits h r x vs iovs :
  Forall (iov_ok h r) vs → chunk_at (rs_chunked_data_iov r) x vs →
  emits (IOV_MAX - 1) iovs (pre_iovs h r x vs iovs) (concat (iov_bytes h r <$> vs)).
Proof.
  intros Hok. revert x iovs. induction Hok as [|v vs Hv Hvs IH]; intros x iovs Hc.
  { apply emits_none. by left. }
  apply chunk_at_cons in Hc as [Hx Hc]. rewrite fmap_cons. cbn [concat pre_iovs].
  match goal with |- context [if _ then ?i else _] => set (iovs1 := i) end.
  assert (Hone : emits (IOV_MAX - 1) iovs iovs1 (iov_bytes h r v)).
  { subst iovs1. destruct Hv as (Hl & Hb & Hbase). destruct (v_base v) as [off|b|it off|it total] eqn:Ev.
    1-3: replace (iov_bytes h r v) with (concat [iov_bytes h r v]) at 2 by apply app_nil_r; apply emits_all.
    destruct (proj1 Hx eq_refl) as [-> _]. rewrite Nat.eqb_refl. simpl in Hbase. unfold iov_bytes, item_chunks. rewrite Ev.
    destruct Hbase as (Ht & _ & Hch). destruct (h !! it) as [i|].
    - apply pre_chunks_emits; [done|lia].
    - apply emits_none. left. unfold slice. by rewrite drop_nil, take_nil. }
  destruct (IOV_MAX - 1 <=? Z.of_nat (length iovs1)) eqn:E; bool_props.
  - apply (emits_trans (IOV_MAX - 1) _ _ iovs1); [done|done|by apply emits_none; right|done].
  - apply (emits_trans (IOV_MAX - 1) _ _ iovs1); [done|done|by apply IH|lia].
Qed.

(** Four entries fit below the limit when it stops. *)
Lemma transmit_pre_emits h l iovs :
  chain_ok h l → emits (IOV_MAX - 1 - Z.of_nat MC_RESP_IOVCOUNT) iovs (_transmit_pre h l iovs false) (chain_bytes h l).
Proof.
  intros Hok. revert iovs. induction Hok as [|r l [Hcnt _ Hiovs Hch] Hl IH]; intros iovs; [by apply emits_none; left|].
  unfold chain_bytes. rewrite fmap_cons. cbn [concat _transmit_pre].
  case_match; bool_props; [|apply emits_none; right; lia]. unfold resp_bytes at 1.
  destruct (rs_skip r); [apply IH|].
  match goal with |- emits _ _ (_transmit_pre _ _ ?i _) _ => set (iovs1 := i) end.
  apply (emits_trans (IOV_MAX - 1) _ _ iovs1); [lia| |apply IH|].
  - subst iovs1. destruct (negb _); [by apply pre_iovs_emits|apply emits_all].
  - intros Hfull. destruct l; [done|]. cbn [_transmit_pre]. case_match; bool_props; [lia|done].
Qed.

(** ** What is taken off the chain *)

Lemma slice_advance o n k (l : list Z) : 0 ≤ o → 0 ≤ k → slice (o + k) (n - k) l = drop (Z.to_nat k) (slice o n l).
Proof.
  intros. unfold slice. rewrite skipn_firstn_comm, drop_drop. f_equal; [lia|]. f_equal. lia.
Qed.

Lemma iov_done_ok h r v : iov_ok h r v → iov_bytes h r (v <| v_len := 0 |>) = [] ∧ iov_ok h r (v <| v_len := 0 |>).
Proof.
  intros (Hl & _ & Hb). assert (E : iov_bytes h r (v <| v_len := 0 |>) = []).
  { unfold iov_bytes. destruct v as [[] n]; simpl; try apply slice_neg; try done. by destruct (h !! it). }
  split; [done|]. unfold iov_ok. rewrite E. split_and!; [done|done|].
  destruct v as [[] n]; simpl in *; try done. split_and!; [lia|naive_solver|naive_solver].
Qed.

Lemma iov_advance_ok h r v res : iov_ok h r v → 0 ≤ res < v_len v →
  let v' := mkIov (iov_advance res (v_base v)) (v_len v - res) in
  iov_bytes h r v' = drop (Z.to_nat res) (iov_bytes h r v) ∧ iov_ok h r v'.
Proof.
  intros (Hl & Hlen & Hb) Hres v'.
  assert (E : iov_bytes h r v' = drop (Z.to_nat res) (iov_bytes h r v)).
  { unfold iov_bytes, v'. destruct v as [[] n]; simpl in *.
    - by apply slice_advance; lia.
    - rewrite skipn_firstn_comm. f_equal. lia.
    - destruct (h !! it); [by apply slice_advance; lia|by rewrite drop_nil].
    - rewrite <- slice_advance by lia. f_equal. lia. }
  split; [done|]. unfold iov_ok. rewrite E, length_drop. split_and!; [simpl; lia|simpl; lia|].
  destruct v as [[] n]; simpl in *; try done; [lia|naive_solver lia|naive_solver lia].
Qed.

Lemma post_iovs_ok h r c x vs tosend res :
  Forall (iov_ok h r) vs → chunk_at c x vs → 0 ≤ res < lens vs →
  ∃ vs', post_iovs x c vs tosend res = (vs', tosend - res, 0) ∧ length vs' = length vs ∧
    concat (iov_bytes h r <$> vs') = drop (Z.to_nat res) (concat (iov_bytes h r <$> vs)) ∧
    lens vs' = lens vs - res ∧ Forall (iov_ok h r) vs' ∧ chunk_at c x vs'.
Proof.
  intros Hok. revert x tosend res. induction Hok as [|v vs Hv Hvs IH]; intros x tosend res Hc Hres; [simpl in Hres; lia|].
  apply chunk_at_cons in Hc as [Hx Hc]. simpl in Hres. cbn [post_iovs].
  pose proof Hv as (Hl0 & Hlen & _). destruct (v_len v <=? res) eqn:E; bool_props.
  - destruct (IH (S x) (tosend - v_len v) (res - v_len v) Hc) as (vs' & -> & Hn & Hcat & Hle & Hf & Hca); [lia|].
    destruct (iov_done_ok _ _ _ Hv) as [Hnil Hok0].
    exists (v <| v_len := 0 |> :: vs'). split_and!.
    + f_equal. f_equal. lia.
    + simpl. by rewrite Hn.
    + rewrite !fmap_cons. simpl. rewrite Hnil, Hcat, drop_app_ge by lia. simpl. f_equal. lia.
    + simpl. lia.
    + by constructor.
    + by apply chunk_at_cons.
  - destruct (iov_advance_ok h r v res Hv) as [Hb Hok1]; [lia|].
    assert (Hbase : (if (c =? 0)%nat || negb (x =? c)%nat then iov_advance res (v_base v) else v_base v)
                    = iov_advance res (v_base v)).
    { destruct ((c =? 0)%nat || _) eqn:Ec; [done|]. apply orb_false_iff in Ec as [Ec1 Ec2].
      apply Nat.eqb_neq in Ec1. apply negb_false_iff, Nat.eqb_eq in Ec2. assert (is_chunks (v_base v) = true) by by apply Hx.
      by destruct (v_base v). }
    rewrite Hbase. eexists. split_and!; [done|done| | | |].
    + rewrite !fmap_cons. simpl. rewrite Hb. by rewrite drop_app_le by lia.
    + simpl. lia.
    + by constructor.
    + apply chunk_at_cons. split; [|done]. rewrite <- Hx. by destruct (v_base v).
Qed.

(** ** Releasing finished responses

    The session holds one reference for every response that names an item. *)

Definition chain_items l : list Z := rs_item <$> l.
Definition refs_in (ps : list Z) (p : Z) : Z := Z.of_nat (length (filter (λ q, q = p) ps)).

Record serves (z : session) (m : gmap (list Z) Z) (R : Z → Z) (D : queues) : Prop := {
  sv_cache : cache_ok (z_world z) m R D;
  sv_locks : w_locks (z_world z) = ∅;
  sv_refs : ∀ p, p ≠ NULL → refs_in (chain_items (k_resps (z_conn z))) p ≤ R p
}.

(** The values of these items are what they were. *)
Definition values_same h h' (P : Z → Prop) : Prop := ∀ p, P p → i_data <$> h' !! p = i_data <$> h !! p.

Lemma refs_in_cons q ps p : refs_in (q :: ps) p = (if decide (q = p) then 1 else 0) + refs_in ps p.
Proof. unfold refs_in. rewrite filter_cons. case_decide; simpl; lia. Qed.

Lemma refs_in_pos ps p : 0 < refs_in ps p ↔ p ∈ ps.
Proof.
  induction ps as [|q ps IH]; [by unfold refs_in; simpl; split; [lia|intros ?%elem_of_nil]|].
  rewrite refs_in_cons, elem_of_cons. assert (0 ≤ refs_in ps p) by (unfold refs_in; lia).
  case_decide; [subst; split; [auto|lia]|]. rewrite <- IH. split; [intros; right; lia|intros [->|]; [done|lia]].
Qed.

Lemma refs_in_suffix ps ps' p : ps' `suffix_of` ps → refs_in ps' p ≤ refs_in ps p.
Proof. intros [k ->]. unfold refs_in. rewrite filter_app, length_app. lia. Qed.

Lemma cache_ok_locks s L m R D : cache_ok s m R D → cache_ok (s <| w_locks := L |>) m R D.
Proof. intros. by apply (cache_ok_same s). Qed.

Lemma csame_values h h' (P : Z → Prop) : csame_out P h h' → values_same h h' (λ q, ¬ P q).
Proof.
  intros Hcs q Hq. specialize (Hcs q Hq). by destruct (h' !! q), (h !! q); simplify_eq/=; f_equal.
Qed.

(** Giving up one reference, with the item lock. *)
Lemma item_remove_ok s m R D p :
  cache_ok s m R D → w_locks s = ∅ → 0 < R p →
  ∃ s' D', item_remove p s = Some (tt, s') ∧ cache_ok s' m (upd R p (R p - 1)) D' ∧ mem_frame s s' ∧
    values_same (w_heap s) (w_heap s') (λ q, q ≠ p ∨ 1 < R p ∨ ∃ k, m !! k = Some p).
Proof.
  intros Hok Hlk HR. destruct (cache_usable _ _ _ _ p Hok) as (it & (Hp & _) & _); [by left|].
  set (hv := hash (ITEM_key it)). set (l := item_lock_index s hv).
  set (s1 := s <| w_locks := {[l]} |>).
  assert (Hlock : item_lock hv s = Some (tt, s1)).
  { unfold item_lock. fold l. rewrite Hlk, decide_False by apply not_elem_of_empty.
    by rewrite (right_id_L ∅ (∪)). }
  destruct (do_item_remove_ok s1 m R D p (cache_ok_locks _ _ _ _ _ Hok) HR) as
    (s2 & D2 & Hrun & Hok2 & Hfr & _ & Hcs & _ & _ & Hkeep).
  exists (s2 <| w_locks := ∅ |>), D2. split_and!.
  - unfold item_remove, hash_of, with_item_lock. munfold. rewrite (load_ok _ _ _ Hp). fold hv. rewrite Hlock, Hrun.
    unfold item_unlock. do 3 f_equal. rewrite Hfr. unfold item_lock_index. simpl. fold l.
    unfold l, item_lock_index. set_solver.
  - by apply cache_ok_locks.
  - unfold mem_frame in *. rewrite Hfr. unfold s1. rewrite <- Hlk at 1. by destruct s.
  - intros q Hq. destruct (decide (q = p)) as [->|Hne]; [|by apply (csame_values _ _ _ Hcs)].
    assert (Hk : 1 < R p ∨ ∃ id, p ∈ D (LruQ id)).
    { destruct Hq as [?|[?|[k Hk]]]; [done|by left|right; by apply (co_mapped _ _ _ _ Hok k)]. }
    simpl. by rewrite (Hkeep it Hk Hp), Hp.
Qed.

(** Only the world, the statistics and the chain change, to [l]. *)
Definition after_chain (z z' : session) l : Prop :=
  z' = z <| z_world := z_world z' |> <| z_conn := (z_conn z) <| k_resps := l |> |> <| z_stats := z_stats z' |> ∧
  mem_frame (z_world z) (z_world z').

Lemma after_chain_refl z : after_chain z z (k_resps (z_conn z)).
Proof. split; [by destruct z as [? [] ? ? ? ?]|by destruct (z_world z)]. Qed.

Lemma after_chain_trans z1 z2 z3 l2 l3 : after_chain z1 z2 l2 → after_chain z2 z3 l3 → after_chain z1 z3 l3.
Proof.
  intros [E1 F1] [E2 F2]. split; [|by apply (mem_frame_trans _ (z_world z2))].
  rewrite E2, E1. by destruct z1 as [? [] ? ? ? ?].
Qed.

Lemma after_chain_resps z z' l : after_chain z z' l → k_resps (z_conn z') = l.
Proof. by intros [-> _]. Qed.

Lemma values_same_trans h1 h2 h3 (P Q : Z → Prop) :
  (∀ p, Q p → P p) → values_same h1 h2 P → values_same h2 h3 Q → values_same h1 h3 Q.
Proof. intros HPQ H1 H2 p Hp. rewrite H2 by done. apply H1. auto. Qed.

Lemma resp_finish_ok z m R D r l :
  serves z m R D → k_resps (z_conn z) = r :: l →
  ∃ z' R' D', resp_finish z = Some (tt, z') ∧ serves z' m R' D' ∧ after_chain z z' l ∧
    values_same (w_heap (z_world z)) (w_heap (z_world z')) (λ p, p ∈ NULL :: chain_items l).
Proof.
  intros [Hok Hlk Href] Hl. unfold resp_finish. munfold. rewrite Hl. rewrite Hl in Href.
  assert (Hcons : ∀ p, p ≠ NULL → (if decide (rs_item r = p) then 1 else 0) + refs_in (chain_items l) p ≤ R p).
  { intros p Hp. specialize (Href p Hp). unfold chain_items in *. by rewrite fmap_cons, refs_in_cons in Href. }
  destruct (rs_item r =? NULL) eqn:E; bool_props.
  - eexists _, R, D. split; [done|]. split_and!; [|by destruct z as [[] [] ? ? ? ?]|done].
    constructor; [done|done|]. intros p Hp. specialize (Hcons p Hp). simpl. case_decide; lia.
  - set (p := rs_item r) in *. pose proof (Hcons p E) as Hp. rewrite decide_True in Hp by done.
    assert (0 ≤ refs_in (chain_items l) p) by (unfold refs_in; lia).
    destruct (item_remove_ok (z_world z) m R D p Hok Hlk) as (s' & D' & Hrun & Hok' & Hfr & Hval); [lia|].
    unfold W. rewrite Hrun. eexists _, _, D'. split; [done|]. split_and!; [|by destruct z as [? [] ? ? ? ?]|].
    + constructor; [exact Hok'|simpl; by rewrite Hfr|]. intros q Hq. simpl. specialize (Hcons q Hq).
      destruct (decide (q = p)) as [->|Hne]; [rewrite upd_eq; lia|rewrite upd_ne by done; case_decide; lia].
    + intros q [->|Hq]%elem_of_cons; apply Hval; [by left|].
      destruct (decide (q = p)) as [->|]; [right; left|by left]. apply refs_in_pos in Hq. lia.
Qed.

Lemma chain_bytes_cons h r l : chain_bytes h (r :: l) = resp_bytes h r ++ chain_bytes h l.
Proof. done. Qed.

Lemma resp_bytes_lens h r : resp_ok h r → rs_skip r = false → Z.of_nat (length (resp_bytes h r)) = rs_tosend r.
Proof. intros [_ -> Hi _] Hs. unfold resp_bytes. rewrite Hs. by apply lens_bytes. Qed.

(** No response carries a large item. *)
Definition plain l : Prop := Forall (λ r, rs_chunked_data_iov r = 0%nat) l.

(** The chain left after [res] bytes. *)
Record post_chain h l (res : Z) l' : Prop := {
  pc_ok : chain_ok h l';
  pc_bytes : chain_bytes h l' = drop (Z.to_nat res) (chain_bytes h l);
  pc_items : chain_items l' `suffix_of` chain_items l;
  pc_head : ∀ r l0, l = r :: l0 → Z.of_nat (length (resp_bytes h r)) ≤ res → chain_items l' `suffix_of` chain_items l0;
  pc_plain : plain l → plain l';
  pc_done : res = Z.of_nat (length (chain_bytes h l)) → l' = []
}.

Lemma post_chain_cons h r l res l' :
  resp_ok h r → let n := Z.of_nat (length (resp_bytes h r)) in n ≤ res →
  post_chain h l (res - n) l' → post_chain h (r :: l) res l'.
Proof.
  intros Hr n Hn [? Hb Hi _ Hpl Hd]. split.
  - done.
  - rewrite chain_bytes_cons, drop_app_ge by lia. rewrite Hb. f_equal. lia.
  - unfold chain_items in *. rewrite fmap_cons. by apply suffix_cons_r.
  - by intros ? ? [= <- <-] _.
  - intros [_ ?]%Forall_cons. auto.
  - rewrite chain_bytes_cons, length_app. intros. apply Hd. lia.
Qed.

Lemma post_chain_partial h r l res vs :
  resp_ok h r → rs_skip r = false → 0 ≤ res < rs_tosend r → chain_ok h l →
  length vs = length (rs_iov r) → concat (iov_bytes h r <$> vs) = drop (Z.to_nat res) (concat (iov_bytes h r <$> rs_iov r)) →
  lens vs = lens (rs_iov r) - res → Forall (iov_ok h r) vs → chunk_at (rs_chunked_data_iov r) 0 vs →
  post_chain h (r :: l) res (r <| rs_iov := vs |> <| rs_tosend := rs_tosend r - res |> :: l).
Proof.
  intros Hr Hs Hres Hl Hn Hcat Hlens Hvs Hc. pose proof (resp_bytes_lens _ _ Hr Hs) as Hlen.
  destruct Hr as [Hcnt Hto _ _]. split.
  - constructor; [|done]. constructor; simpl; [lia|lia|done|done].
  - rewrite !chain_bytes_cons, drop_app_le by lia. f_equal. unfold resp_bytes. simpl. by rewrite Hs.
  - done.
  - intros ? ? [= <- <-]. lia.
  - intros [? ?]%Forall_cons. by constructor.
  - rewrite chain_bytes_cons, length_app. lia.
Qed.

Lemma transmit_post_ok n l res z m R D h :
  serves z m R D → k_resps (z_conn z) = l → (length l ≤ n)%nat → chain_ok h l →
  0 ≤ res ≤ Z.of_nat (length (chain_bytes h l)) →
  ∃ z' R' D' l', transmit_post_loop n res z = Some (tt, z') ∧ serves z' m R' D' ∧ after_chain z z' l' ∧
    post_chain h l res l' ∧ values_same (w_heap (z_world z)) (w_heap (z_world z')) (λ p, p ∈ NULL :: chain_items l').
Proof.
  revert l res z R D. induction n as [|n IH]; intros l res z R D Hsv Hl Hn Hok Hres.
  all: destruct l as [|r l]; [|simpl in Hn; try lia].
  1,2: exists z, R, D, []; split; [simpl; munfold; by rewrite ?Hl|]; split_and!;
    [done|rewrite <- Hl; apply after_chain_refl| |done];
    split; [by constructor|simpl; by destruct (Z.to_nat res)|done|done|done|done].
  inversion_clear Hok as [|? ? Hr Hok']. cbn [transmit_post_loop]. munfold. rewrite Hl.
  assert (Hfin : Z.of_nat (length (resp_bytes h r)) ≤ res →
    ∃ z' R' D' l', match resp_finish z with Some (_, z') => transmit_post_loop n (res - Z.of_nat (length (resp_bytes h r))) z'
                   | None => None end = Some (tt, z') ∧ serves z' m R' D' ∧ after_chain z z' l' ∧
      post_chain h (r :: l) res l' ∧ values_same (w_heap (z_world z)) (w_heap (z_world z')) (λ p, p ∈ NULL :: chain_items l')).
  { intros Hle. destruct (resp_finish_ok z m R D r l Hsv Hl) as (z1 & R1 & D1 & Hrun1 & Hsv1 & Hac1 & Hv1).
    rewrite chain_bytes_cons, length_app in Hres.
    destruct (IH l (res - Z.of_nat (length (resp_bytes h r))) z1 R1 D1 Hsv1 (after_chain_resps _ _ _ Hac1)) as
      (z2 & R2 & D2 & l2 & Hrun2 & Hsv2 & Hac2 & Hpc & Hv2); [simpl in Hn; lia|done|lia|].
    exists z2, R2, D2, l2. rewrite Hrun1. split_and!; [done|done|by apply (after_chain_trans _ z1 _ l)|by apply post_chain_cons|].
    apply (values_same_trans _ _ _ _ _) with (2 := Hv1) (3 := Hv2). intros p Hp.
    apply elem_of_cons in Hp as [->|Hp]; [by left|right].
    destruct (pc_items _ _ _ _ Hpc) as [k ->]. apply elem_of_app. by right. }
  destruct (rs_skip r) eqn:Hs.
  { assert (E : resp_bytes h r = []) by (unfold resp_bytes; by rewrite Hs). rewrite E in Hfin. simpl in Hfin.
    rewrite Z.sub_0_r in Hfin. apply Hfin. lia. }
  pose proof (resp_bytes_lens _ _ Hr Hs) as Hlen. destruct (rs_tosend r <=? res) eqn:E; bool_props.
  { rewrite <- Hlen. apply Hfin. lia. }
  destruct (post_iovs_ok h r (rs_chunked_data_iov r) 0 (rs_iov r) (rs_tosend r) res) as
    (vs & Hpost & Hnv & Hcat & Hlens & Hvs & Hcv); [apply Hr|apply Hr|rewrite <- (ro_tosend _ _ Hr); lia|].
  rewrite Hpost. unfold on_conn, modify. rewrite (proj2 (Z.eqb_neq _ 0)) by lia.
  eexists _, R, D, _. split; [done|]. split_and!; [| |apply post_chain_partial; try done; lia|done].
  - destruct Hsv as [? ? Href]. constructor; [done|done|]. rewrite Hl in Href. exact Href.
  - split; [by destruct z as [? [] ? ? ? ?]|]. unfold mem_frame. simpl. by destruct (z_world z).
Qed.

(** ** One round of [transmit] *)

Definition chain s : list mc_resp := k_resps (z_conn (mc_session s)).
Definition heap s : gmap Z item := w_heap (z_world (mc_session s)).

(** [s'] is [s] with [res] more bytes off the chain. *)
Definition sent_some s m (res : Z) s' : Prop :=
  ∃ R' D', serves (mc_session s') m R' D' ∧ after_chain (mc_session s) (mc_session s') (chain s') ∧
    post_chain (heap s) (chain s) res (chain s') ∧
    values_same (heap s) (heap s') (λ p, p ∈ NULL :: chain_items (chain s')).

Lemma transmit_post_run s m R D res :
  serves (mc_session s) m R D → chain_ok (heap s) (chain s) →
  0 ≤ res ≤ Z.of_nat (length (chain_bytes (heap s) (chain s))) →
  ∃ z', _transmit_post res (mc_session s) = Some (tt, z') ∧ ∀ nt, sent_some s m res (mkMachine z' nt).
Proof.
  intros Hsv Hok Hres. destruct (transmit_post_ok (length (chain s)) (chain s) res (mc_session s) m R D (heap s) Hsv) as
    (z' & R' & D' & l' & Hrun & Hsv' & Hac & Hpc & Hv); [done..|].
  exists z'. split; [exact Hrun|]. intros nt. exists R', D'. unfold chain, heap in *. simpl.
  rewrite (after_chain_resps _ _ _ Hac). by split_and!.
Qed.

(** The socket takes [n] bytes: none of the bytes waiting is lost, repeated or
    changed. *)
Lemma transmit_ok s m R D n rest :
  serves (mc_session s) m R D → chain_ok (heap s) (chain s) → nt_sends (mc_net s) = Sent n :: rest →
  ∃ tr s' res, transmit s = Some (tr, s') ∧ sent_some s m res s' ∧
    nt_sent (mc_net s') = nt_sent (mc_net s) ++ take (Z.to_nat res) (chain_bytes (heap s) (chain s)) ∧
    nt_reads (mc_net s') = nt_reads (mc_net s) ∧ nt_events (mc_net s') = nt_events (mc_net s) ∧
    (tr = TRANSMIT_COMPLETE ∧ chain s' = [] ∨
     tr = TRANSMIT_INCOMPLETE ∧ chain s' ≠ [] ∧ nt_sends (mc_net s') = rest ∧
       res = Z.max 0 (Z.min n (Z.of_nat (length (concat (_transmit_pre (heap s) (chain s) [] false)))))).
Proof.
  intros Hsv Hok Hnt. unfold transmit. munfold. fold (heap s) (chain s).
  destruct (transmit_pre_emits (heap s) (chain s) [] Hok) as (segs & Epre & Hsegs). rewrite Epre in *. simpl in *.
  assert (Hle : concat segs `prefix_of` chain_bytes (heap s) (chain s)) by (destruct Hsegs as [->|[? _]]; done).
  destruct segs as [|seg segs].
  - destruct Hsegs as [Hnil|[_ ?]]; [|unfold IOV_MAX, MC_RESP_IOVCOUNT in *; simpl in *; lia]. simpl in Hnil.
    destruct (transmit_post_run s m R D 0 Hsv Hok) as (z' & Hrun & Hsome); [rewrite <- Hnil; simpl; lia|].
    unfold Z_. rewrite Hrun. specialize (Hsome (mc_net s)). eexists _, _, 0. split; [done|].
    split_and!; [exact Hsome|simpl; by rewrite app_nil_r|done|done|]. left. split; [done|].
    destruct Hsome as (? & ? & _ & _ & Hpc & _). apply (pc_done _ _ _ _ Hpc). by rewrite <- Hnil.
  - set (b := concat (seg :: segs)) in *. unfold c_sendmsg. rewrite Hnt. fold b.
    set (k := Z.max 0 (Z.min n (Z.of_nat (length b)))). assert (Hlen : (length b ≤ length (chain_bytes (heap s) (chain s)))%nat) by (destruct Hle as [? ->]; rewrite length_app; lia).
    set (s1 := s <| mc_net := _ |>). change (concat (seg :: segs)) with b.
    destruct (transmit_post_run s m R D k Hsv Hok) as (z' & Hrun & Hsome); [lia|].
    unfold Z_. change (mc_session s1) with (mc_session s). rewrite Hrun. eexists _, _, k. split; [done|].
    split_and!; [apply Hsome| |done|done|].
    + simpl. f_equal. destruct Hle as [tl ->]. rewrite take_app_le by lia. done.
    + unfold chain. simpl. destruct (k_resps (z_conn z')) as [|r l]; [by left|right]. done.
Qed.

(** ** Delivery *)

Lemma iov_same h h' r v : is_chunks (v_base v) = false → iov_ok h r v →
  values_same h h' (λ p, p = rs_item r) → iov_bytes h' r v = iov_bytes h r v ∧ iov_ok h' r v.
Proof.
  intros Hc (Hl & Hb & Hbase) Hv.
  assert (E : iov_bytes h' r v = iov_bytes h r v).
  { unfold iov_bytes. destruct (v_base v) as [| |it off|] eqn:Ev; try done. destruct Hbase as [_ ->].
    specialize (Hv _ eq_refl). by destruct (h' !! rs_item r), (h !! rs_item r); simplify_eq/=; f_equal. }
  split; [done|]. split_and!; [done|by rewrite E|]. by destruct (v_base v).
Qed.

Lemma plain_same h h' l : plain l → chain_ok h l → values_same h h' (λ p, p ∈ chain_items l) →
  chain_bytes h' l = chain_bytes h l ∧ chain_ok h' l.
Proof.
  intros Hp Hok Hv. induction Hok as [|r l [Hc Ht Hi Hch] Hok IH]; [by split; [|constructor]|].
  apply Forall_cons in Hp as [Hp0 Hp]. destruct IH as [IHb IHo]; [done|intros p ?; apply Hv; by right|].
  assert (Hall : Forall (λ v, iov_bytes h' r v = iov_bytes h r v ∧ iov_ok h' r v) (rs_iov r)).
  { apply Forall_lookup. intros i v Hiv. apply iov_same; [|by eapply Forall_lookup in Hi|intros p ->; apply Hv; by left].
    destruct (is_chunks (v_base v)) eqn:E; [|done]. by destruct (proj1 (Hch i v Hiv) E). }
  rewrite !chain_bytes_cons. split.
  - f_equal; [|done]. unfold resp_bytes. destruct (rs_skip r); [done|]. f_equal. apply Forall_fmap_ext.
    eapply Forall_impl; [exact Hall|]. by intros v [? _].
  - constructor; [|done]. constructor; [done|done| |done]. eapply Forall_impl; [exact Hall|]. by intros v [_ ?].
Qed.

Lemma pre_head h r l : resp_ok h r → chain_ok h l → rs_chunked_data_iov r = 0%nat →
  resp_bytes h r `prefix_of` concat (_transmit_pre h (r :: l) [] false).
Proof.
  intros [Hc _ _ _] Hok Hp. unfold resp_bytes. cbn [_transmit_pre]. rewrite Hp. simpl length.
  rewrite (proj2 (Z.ltb_lt _ _)) by (unfold MC_RESP_IOVCOUNT, IOV_MAX in *; lia). destruct (rs_skip r); [apply prefix_nil|].
  simpl. destruct (transmit_pre_emits h l (iov_bytes h r <$> rs_iov r) Hok) as (segs & -> & _). rewrite concat_app. by apply prefix_app_r.
Qed.

Definition waiting s : nat := (length (chain_bytes (heap s) (chain s)) + length (chain s))%nat.

(** Each successful write brings the end nearer. *)
Lemma sent_progress s m n s' :
  chain_ok (heap s) (chain s) → plain (chain s) → chain s ≠ [] → 0 < n →
  let res := Z.max 0 (Z.min n (Z.of_nat (length (concat (_transmit_pre (heap s) (chain s) [] false))))) in
  sent_some s m res s' → chain_bytes (heap s') (chain s') = chain_bytes (heap s) (chain s') → (waiting s' < waiting s)%nat.
Proof.
  intros Hok Hp Hne Hn res (R' & D' & _ & _ & [_ Hb Hi Hh _ _] & _) Heq. unfold waiting. rewrite Heq.
  destruct (chain s) as [|r l] eqn:El; [done|]. apply Forall_cons in Hok as [Hr Hok]. apply Forall_cons in Hp as [Hp0 _].
  assert (Hlen : (length (chain s') ≤ S (length l))%nat).
  { destruct Hi as [k Hk]. apply (f_equal length) in Hk. unfold chain_items in Hk.
    rewrite length_app, !length_fmap in Hk. simpl in Hk. lia. }
  destruct (pre_head _ r l Hr Hok Hp0) as [tl Hpre]. unfold res in *.
  rewrite Hb, length_drop. destruct (decide (resp_bytes (heap s) r = [])) as [E|E].
  - assert (Hi2 : chain_items (chain s') `suffix_of` chain_items l) by (apply (Hh r l eq_refl); rewrite E; simpl; lia).
    destruct Hi2 as [k Hk]. apply (f_equal length) in Hk. unfold chain_items in Hk. rewrite length_app, !length_fmap in Hk. simpl. lia.
  - rewrite Hpre, length_app. assert (0 < length (resp_bytes (heap s) r))%nat by (destruct (resp_bytes (heap s) r); [done|simpl; lia]).
    rewrite chain_bytes_cons, length_app. simpl. lia.
Qed.

(** A connection that only has responses to send. *)
Record flushing (s : machine) (m : gmap (list Z) Z) : Prop := {
  fl_state : k_state (z_conn (mc_session s)) = conn_mwrite;
  fl_serves : ∃ R D, serves (mc_session s) m R D;
  fl_chain : chain_ok (heap s) (chain s);
  fl_plain : plain (chain s);
  fl_item : k_item (z_conn (mc_session s)) = NULL;
  fl_open : k_close_after_write (z_conn (mc_session s)) = false
}.

Lemma conn_release_nothing z : k_item (z_conn z) = NULL → k_resps (z_conn z) = [] → conn_release_items z = Some (tt, z).
Proof. intros Hi Hr. unfold conn_release_items. munfold. rewrite Hi. simpl. by rewrite Hr. Qed.

Lemma mwrite_round s m n rest nreqs :
  flushing s m → nt_sends (mc_net s) = Sent n :: rest → 0 < n →
  ∃ s', drive_step nreqs s = Some ((false, nreqs), s') ∧
    nt_sent (mc_net s') ++ chain_bytes (heap s') (chain s') = nt_sent (mc_net s) ++ chain_bytes (heap s) (chain s) ∧
    (k_state (z_conn (mc_session s')) = conn_new_cmd ∧ chain s' = [] ∨
     flushing s' m ∧ nt_sends (mc_net s') = rest ∧ (waiting s' < waiting s)%nat).
Proof.
  intros [Hst (R & D & Hsv) Hok Hp Hit Hop] Hnt Hn.
  destruct (transmit_ok s m R D n rest Hsv Hok Hnt) as (tr & s1 & res & Hrun & Hsome & Hsent & _ & _ & Hcase).
  pose proof Hsome as (R1 & D1 & Hsv1 & Hac & Hpc & Hv). pose proof (pc_plain _ _ _ _ Hpc Hp) as Hp1.
  destruct (plain_same (heap s) (heap s1) (chain s1) Hp1 (pc_ok _ _ _ _ Hpc)) as [Hb1 Hok1].
  { intros p Hpi. apply Hv. by right. }
  assert (Hc1 : z_conn (mc_session s1) = (z_conn (mc_session s)) <| k_resps := chain s1 |>) by (by destruct Hac as [-> _]).
  assert (Htot : nt_sent (mc_net s1) ++ chain_bytes (heap s1) (chain s1) = nt_sent (mc_net s) ++ chain_bytes (heap s) (chain s)).
  { rewrite Hsent, Hb1, (pc_bytes _ _ _ _ Hpc), <- app_assoc. by rewrite take_drop. }
  unfold drive_step. rewrite (bind_run (gets _) _ s _ s eq_refl), Hst. unfold state_mwrite.
  destruct Hcase as [[-> Hnil]|(-> & Hne & Hrest & Hres)].
  - exists (s1 <| mc_session := (mc_session s1) <| z_conn := (z_conn (mc_session s1)) <| k_state := conn_new_cmd |> |> |>). split.
    + rewrite bind_assoc, (bind_run _ _ _ _ _ Hrun). cbn beta iota. rewrite bind_assoc, (bind_run (gets _) _ s1 _ s1 eq_refl).
      rewrite Hc1. simpl k_state. rewrite Hst. cbn iota.
      rewrite bind_assoc, (bind_run (Z_ conn_release_items) _ s1 tt s1). 
      2:{ unfold Z_. rewrite conn_release_nothing; [by destruct s1| |done]. by rewrite Hc1. }
      simpl k_close_after_write. rewrite Hop. unfold go_to, Z_, conn_set_state, on_conn, modify. munfold. by rewrite <- Hc1.
    + split; [exact Htot|left]. split; [done|exact Hnil].
  - exists s1. rewrite bind_assoc, (bind_run _ _ _ _ _ Hrun). split; [done|]. split; [done|right]. split_and!; [|done|].
    + constructor; [by rewrite Hc1|by exists R1, D1|done|done|by rewrite Hc1|by rewrite Hc1].
    + rewrite Hres in Hsome. apply (sent_progress s m n s1); try done.
      intros E. unfold chain in *. rewrite E in *. simpl in *. destruct Hpc as [_ _ Hi _ _ _]. apply suffix_nil_inv in Hi.
      by destruct (k_resps _).
Qed.



End Transmit.

#[local] Existing Instance jenkins_fn.
#[local] Existing Instance desk_prot.

(** The answer to "get a": a line from the write buffer, the value of the item at
    4096, and the end. *)
Definition get_line : list Z := txt "VALUE a 0 1" ++ crlf.
Definition get_resp : mc_resp :=
  mkResp (get_line ++ replicate (1024 - length get_line) 0) 0 21
    [mkIov (InWbuf 0) 13; mkIov (InItem 4096 0) 3; mkIov (InText (txt "END" ++ crlf)) 5] 0 4096 false.

Definition sending (sends : list send_result) : machine :=
  desk_machine shop_linked (idle <| k_state := conn_mwrite |> <| k_resps := [get_resp] |>) (mkNet [] sends [] [] 0 0).

Lemma get_resp_ok : resp_ok (w_heap shop_linked) get_resp.
Proof.
  constructor.
  - vm_compute. lia.
  - reflexivity.
  - repeat constructor; vm_compute; congruence.
  - intros [|[|[|i]]] v Hv; simpl in Hv; simplify_eq/=; split; [discriminate|lia|discriminate|lia|discriminate|lia].
Qed.

Lemma sending_serves sends : ∃ D, serves (mc_session (sending sends)) {[ [97] := 4096 ]} shop_refs D.
Proof.
  destruct shop_linked_ok as (D & Hok & _). exists D. constructor; [exact Hok|reflexivity|].
  intros p _. assert (E : chain_items (k_resps (z_conn (mc_session (sending sends)))) = [4096]) by reflexivity.
  rewrite E, refs_in_cons. change (refs_in [] p) with 0. unfold shop_refs. case_decide; [by subst p|].
  by destruct ((p =? 4096) || (p =? 4192)).
Qed.


