(* ===== verification/CommandThm.v ===== *)
(** * Commands, from the line to the answer

    What the commands of the text protocol do to the abstract cache and what they
    answer, for the command line as it was received. *)

From Stdlib Require Import Ascii String SpecFloat.
From stdpp Require Import strings.
From S2P Require Import Prelude StreamThm Keeps Itoa Util Hashes StatsPrefix State Links Queues Assoc AssocSpec Slabs SlabsSpec Items ItemsSpec ItemsAccess ItemsThm Store StoreThm Locks Tokens TokensThm Conn ProtoText ProtoCmd Machine Wire Drive Desk DriveThm MachineThm.

(** ** Command lines *)

(** A line that fits the token array, cut completely. *)
Lemma tokenize_line line tail max :
  0 ∉ line → Z.of_nat (length (words line)) < max - 1 →
  ∃ ts, tokenize_command (line ++ 0 :: tail) max = ts ++ [mkToken None 0] ∧
    token_bytes <$> ts = words line ∧ Forall terminated ts.
Proof.
  intros H0 Hm. rewrite tokenize_command_eq, c_str_stop by done.
  destruct (tokenize_loop_ok line [] [] [] [] tail max) as (D & cur & rest & toks & ws & Hrun & Hc & Hr & Hs & Ht & Hw & Hend);
    try apply not_elem_of_nil; try done; [simpl; lia|].
  simpl in Hrun, Hw. rewrite Hrun. simpl. pose proof (Forall2_length _ _ _ Ht) as Hlen. rewrite Hw in Hm |- *.
  destruct Hend as [[-> Hl]|[-> Hl]]; [|rewrite length_app in Hm; lia].
  rewrite app_nil_r in *. simpl. rewrite words_last by done.
  assert (Hat : at_ (D ++ cur ++ 0 :: tail) (length D + length cur) = 0) by (rewrite app_assoc, <- length_app; apply at_app_length).
  rewrite Hat. simpl. eexists. split; [done|].
  assert (Ht' : Forall2 (token_in (D ++ cur ++ [0])) toks ws) by (eapply Forall2_impl; [exact Ht|]; intros; by apply token_in_app).
  match goal with |- token_bytes <$> (make_token _ <$> ?l) = _ ∧ _ => set (toks1 := l) end.
  assert (Ht1 : Forall2 (token_in (D ++ cur ++ [0])) toks1 (ws ++ word_of cur)).
  { unfold toks1, word_of. case_decide as Hcur; [subst cur; rewrite Nat.add_0_r, Nat.eqb_refl; simpl; by rewrite app_nil_r|].
    rewrite (proj2 (Nat.eqb_neq _ _)) by (destruct cur; [done|simpl; lia]). apply Forall2_app; [done|]. constructor; [|done].
    exists D, []. split_and!; [done|f_equal; lia|done]. }
  destruct (make_tokens_ok _ tail _ _ Ht1) as [A1 A2]. by rewrite <- !app_assoc in A1, A2.
Qed.

(** The token array holds these words. *)
Definition spells (tokens : list token_t) (ws : list (list Z)) : Prop :=
  ∃ ts, tokens = ts ++ [mkToken None 0] ∧ token_bytes <$> ts = ws ∧ Forall terminated ts.

Lemma spells_length tokens ws : spells tokens ws → length tokens = S (length ws).
Proof. intros (ts & -> & <- & _). rewrite length_app, length_fmap. simpl. lia. Qed.

Lemma spells_ntok tokens ws : spells tokens ws → ntok tokens = Z.of_nat (length ws) + 1.
Proof. intros H%spells_length. unfold ntok. lia. Qed.

Lemma spells_lookup tokens ws i w :
  spells tokens ws → ws !! i = Some w → w ≠ [] →
  ∃ t v, tokens !! i = Some t ∧ token_bytes t = w ∧ tk_value t = Some v ∧ c_str v = w ∧ tk_length t = Z.of_nat (length w).
Proof.
  intros (ts & -> & <- & Hts) Hi Hw. rewrite list_lookup_fmap in Hi. destruct (ts !! i) as [t|] eqn:Et; [|done]. injection Hi as <-.
  pose proof (Forall_lookup_1 _ _ _ _ Hts Et) as [Hc Hl].
  destruct (tk_value t) as [v|] eqn:Ev; [|by simpl in Hc; rewrite <- Hc in Hw].
  exists t, v. split_and!; try done. rewrite lookup_app_l; [done|]. by eapply lookup_lt_Some.
Qed.

(** The accessors of the token array. *)
Lemma spells_tok tokens ws i w (z : session) :
  spells tokens ws → ws !! i = Some w → w ≠ [] → ∃ v, tok tokens i z = Some (v, z) ∧ c_str v = w.
Proof.
  intros Hs Hi Hw. destruct (spells_lookup _ _ _ _ Hs Hi Hw) as (t & v & Ht & _ & Hv & Hc & _).
  exists v. unfold tok, tvalue. rewrite Ht. simpl. by rewrite Hv.
Qed.

Lemma spells_tok_length tokens ws i w (z : session) :
  spells tokens ws → ws !! i = Some w → w ≠ [] → tok_length tokens i z = Some (Z.of_nat (length w), z).
Proof.
  intros Hs Hi Hw. destruct (spells_lookup _ _ _ _ Hs Hi Hw) as (t & v & Ht & _ & _ & _ & Hl).
  unfold tok_length, tlength. rewrite Ht. simpl. by rewrite Hl.
Qed.

Lemma spells_key tokens ws k (z : session) :
  spells tokens ws → ws !! 1%nat = Some k → k ≠ [] → tok_key tokens z = Some (k, z).
Proof.
  intros Hs Hi Hw. destruct (spells_lookup _ _ _ _ Hs Hi Hw) as (t & v & Ht & Hb & _). unfold tok_key, KEY_TOKEN. rewrite Ht. by rewrite Hb.
Qed.

Lemma spells_key_too_long tokens ws k (z : session) :
  spells tokens ws → ws !! 1%nat = Some k → k ≠ [] →
  key_too_long tokens z = Some (KEY_MAX_LENGTH <? Z.of_nat (length k), z).
Proof. intros Hs Hi Hw. unfold key_too_long, KEY_TOKEN. by rewrite (bind_run _ _ _ _ _ (spells_tok_length _ _ 1 k z Hs Hi Hw)). Qed.

Lemma streq_word v w str : c_str v = w → streq v str = bool_decide (w = c_str str).
Proof. unfold streq. by intros ->. Qed.

(** The last word, where [noreply] is looked for. *)
Lemma set_noreply_maybe_run tokens ws w (z : session) :
  spells tokens ws → last ws = Some w → w ≠ [] → k_noreply (z_conn z) = false →
  set_noreply_maybe tokens z =
    Some (bool_decide (w = txt "noreply"), z <| z_conn := (z_conn z) <| k_noreply := bool_decide (w = txt "noreply") |> |>).
Proof.
  intros Hs Hw Hne Hn. rewrite last_lookup in Hw.
  destruct (spells_lookup _ _ _ _ Hs Hw Hne) as (t & v & Ht & _ & Hv & Hc & _).
  unfold set_noreply_maybe, tvalue. rewrite (spells_length _ _ Hs).
  replace (S (length ws) - 2)%nat with (pred (length ws)) by lia. rewrite Ht.
  rewrite (eq_trans eq_refl Hv : (Some t ≫= tk_value) = Some v), (streq_word _ _ _ Hc).
  change (c_str (txt "noreply")) with (txt "noreply"). case_bool_decide; munfold.
  - done.
  - rewrite <- Hn. by destruct z as [? [] ? ? ? ?].
Qed.

(** ** The command word *)

Lemma c_str_first v w x : c_str v = x :: w → at_ v 0 = x.
Proof. destruct v as [|y v]; [done|]. simpl. destruct (y =? 0); [done|]. by intros [= ->]. Qed.

Lemma c_str_second v w x y : c_str v = x :: y :: w → at_ v 1 = y.
Proof.
  destruct v as [|a [|b v]]; simpl; [done|by destruct (a =? 0)|].
  destruct (a =? 0); [done|]. destruct (b =? 0); [done|]. by intros [= _ ->].
Qed.

Lemma c_str_id w v : c_str v = w → c_str w = w.
Proof.
  revert w. induction v as [|x v IH]; intros w; simpl; [by intros <-|]. destruct (x =? 0) eqn:E; [by intros <-|].
  intros <-. simpl. by rewrite E, IH.
Qed.

(** Conditions on a known command word, evaluated. *)
Ltac eval_if :=
  match goal with
  | |- context [if ?b then _ else _] =>
      let v := eval vm_compute in b in
      first [constr_eq v true | constr_eq v false]; replace b with v by (vm_compute; reflexivity)
  end; cbv iota.

(** The dispatch for a known word. *)
Ltac dispatch Hc Hv Hl Hst Ht Hs :=
  unfold process_command_ascii; rewrite (bind_run _ _ _ _ _ Hst); cbn [negb]; rewrite Ht; cbv zeta;
  rewrite (bind_run _ _ _ _ _ Hl), (spells_ntok _ _ Hs); try eval_if;
  rewrite (bind_run _ _ _ _ _ Hv);
  let H := fresh "Hword" in
  match type of Hc with c_str ?v = ?w =>
    assert (H : ∀ x, streq v x = streq w x) by (intros x; unfold streq; by rewrite Hc, (c_str_id w v Hc));
    rewrite ?H, ?(c_str_first v (tail w) (hd 0 w) Hc), ?(c_str_second v (drop 2 w) (hd 0 w) (hd 0 (tail w)) Hc);
    clear H
  end; repeat eval_if; unfold WANT_TOKENS, WANT_TOKENS_OR, WANT_TOKENS_MIN; rewrite ?(spells_ntok _ _ Hs); repeat eval_if.

(** ** Answers *)

Definition answers (r : mc_resp) (text : list Z) : Prop :=
  rs_item r = NULL ∧ length (rs_wbuf r) = Z.to_nat WRITE_BUFFER_SIZE ∧ rs_chunked_data_iov r = 0%nat ∧
  ∀ h, resp_bytes h r = text ∧ resp_ok h r.

Lemma last_snoc_set {A} (l : list A) x y : set_last (l ++ [x]) y = l ++ [y].
Proof. unfold set_last. rewrite length_app. simpl. rewrite Nat.add_1_r. simpl. by rewrite take_app_length. Qed.

Lemma on_resp_run (z : session) rs r f :
  k_resps (z_conn z) = rs ++ [r] →
  on_resp f z = Some (tt, z <| z_conn := (z_conn z) <| k_resps := rs ++ [f r] |> |>).
Proof.
  intros E. unfold on_resp, cur_resp, on_conn. munfold. rewrite E, last_snoc. simpl. by rewrite E, last_snoc_set.
Qed.

Lemma s32_small x : - 2 ^ 31 ≤ x < 2 ^ 31 → s32 x = x.
Proof. intros H. unfold s32. rewrite Z.mod_small; lia. Qed.

Definition CRLF : list Z := [13; 10].

Section Commands.
Context {HF : HashFn}.
Implicit Types (z : session) (m : gmap (list Z) Z) (R : Z → Z) (D : queues) (k : list Z) (rs : list mc_resp).

(** The first [n] bytes of the write buffer, as the only entry. *)
Lemma wbuf_answers b wbytes n :
  length b = Z.to_nat WRITE_BUFFER_SIZE → 0 ≤ n ≤ WRITE_BUFFER_SIZE →
  answers (mkResp b wbytes n [mkIov (InWbuf 0) n] 0 NULL false) (slice 0 n b).
Proof.
  intros Hb Hn. unfold answers, resp_bytes. simpl. split_and!; [done..|]. intros h. split; [apply app_nil_r|].
  constructor; simpl.
  - unfold MC_RESP_IOVCOUNT. lia.
  - lia.
  - constructor; [|done]. split_and!; simpl; [lia| |done]. unfold iov_bytes. simpl. unfold slice.
    rewrite length_take, length_drop, Hb. unfold WRITE_BUFFER_SIZE in *. lia.
  - intros [|i] v Hv; [|done]. injection Hv as <-. simpl. split; [done|lia].
Qed.

Lemma quiet_answers b : length b = Z.to_nat WRITE_BUFFER_SIZE → answers (mkResp b 0 0 [] 0 NULL true) [].
Proof.
  intros Hb. unfold answers, resp_bytes. simpl. split_and!; [done..|]. intros h. split; [done|].
  constructor; simpl; [lia|lia|done|by intros []].
Qed.

Lemma put_run z rs r p b :
  k_resps (z_conn z) = rs ++ [r] → 0 ≤ p → p + Z.of_nat (length b) ≤ WRITE_BUFFER_SIZE →
  put p b z = Some (p + Z.of_nat (length b),
    z <| z_conn := (z_conn z) <| k_resps := rs ++ [r <| rs_wbuf := blit p b (rs_wbuf r) |>] |> |>).
Proof.
  intros E Hp Hl. unfold put. rewrite (proj2 (Z.leb_le 0 p)) by lia. rewrite (proj2 (Z.leb_le _ _)) by lia. cbn [andb].
  by rewrite (bind_run _ _ _ _ _ (on_resp_run _ _ _ _ E)).
Qed.

Lemma add_iov_run z rs r b n :
  k_resps (z_conn z) = rs ++ [r] → (length (rs_iov r) < MC_RESP_IOVCOUNT)%nat →
  resp_add_iov b n z = Some (tt, z <| z_conn := (z_conn z)
    <| k_resps := rs ++ [r <| rs_iov := rs_iov r ++ [mkIov b n] |> <| rs_tosend := s32 (rs_tosend r + n) |>] |> |>).
Proof.
  intros E Hl. unfold resp_add_iov. rewrite (bind_run _ _ z r z).
  2:{ unfold cur_resp. by rewrite E, last_snoc. }
  rewrite (proj2 (Nat.ltb_lt _ _)) by done. munfold. by rewrite (on_resp_run _ _ _ _ E).
Qed.

Lemma cur_resp_run z rs r : k_resps (z_conn z) = rs ++ [r] → cur_resp z = Some (r, z).
Proof. intros E. unfold cur_resp. by rewrite E, last_snoc. Qed.

(** An empty response, as [resp_reset] leaves it. *)
Definition cleared (r : mc_resp) : mc_resp := mkResp (rs_wbuf r) 0 0 [] 0 NULL false.

Lemma resp_reset_run z rs r :
  k_resps (z_conn z) = rs ++ [r] → rs_item r = NULL →
  resp_reset z = Some (tt, z <| z_conn := (z_conn z) <| k_resps := rs ++ [cleared r] |> |>).
Proof.
  intros E Hit. unfold resp_reset. rewrite (bind_run _ _ _ _ _ (cur_resp_run _ _ _ E)), Hit.
  change (NULL =? NULL) with true. cbv iota. rewrite (bind_run (mret tt) _ z tt z eq_refl). by rewrite (on_resp_run _ _ _ _ E).
Qed.

(** A line of text in the write buffer. *)
Lemma line_answers b str :
  length b = Z.to_nat WRITE_BUFFER_SIZE → Z.of_nat (length str) + 2 ≤ WRITE_BUFFER_SIZE →
  let n := Z.of_nat (length str) in
  answers (mkResp (blit n [13; 10] (blit 0 str b)) 0 (s32 (0 + (n + 2))) [mkIov (InWbuf 0) (n + 2)] 0 NULL false) (str ++ CRLF).
Proof.
  intros Hb Hl n. assert (HbZ : Z.of_nat (length b) = WRITE_BUFFER_SIZE) by (rewrite Hb; reflexivity).
  assert (Hc : Z.of_nat (length [13; 10]) = 2) by reflexivity. unfold WRITE_BUFFER_SIZE in Hl, HbZ.
  assert (Hlen : n + 2 = Z.of_nat (length (str ++ CRLF))) by (unfold n; rewrite length_app; unfold CRLF; lia).
  assert (Hw : blit n [13; 10] (blit 0 str b) = blit 0 (str ++ CRLF) b) by (apply (blit_app 0 str [13; 10]); lia).
  rewrite Hw, Z.add_0_l, s32_small by lia. rewrite Hlen.
  rewrite <- (slice_blit_eq 0 (str ++ CRLF) b) at 4 by lia.
  apply wbuf_answers; [rewrite length_blit; [done|lia|lia]|unfold WRITE_BUFFER_SIZE; lia].
Qed.

(** A short text: the answer is the line, or nothing when the client wants none. *)
Lemma out_string_ok z rs r str :
  k_resps (z_conn z) = rs ++ [r] → rs_item r = NULL → length (rs_wbuf r) = Z.to_nat WRITE_BUFFER_SIZE →
  Z.of_nat (length str) + 2 ≤ WRITE_BUFFER_SIZE →
  ∃ r', out_string str z = Some (tt, z <| z_conn := (z_conn z) <| k_resps := rs ++ [r'] |> <| k_state := conn_new_cmd |> |>) ∧
    answers r' (if k_noreply (z_conn z) then [] else str ++ CRLF).
Proof.
  intros E Hit Hb Hl. unfold out_string. rewrite (bind_run _ _ _ _ _ (resp_reset_run _ _ _ E Hit)).
  set (z1 := z <| z_conn := _ |>). assert (E1 : k_resps (z_conn z1) = rs ++ [cleared r]) by done.
  rewrite (bind_run (gets _) _ z1 _ z1 eq_refl). change (k_noreply (z_conn z1)) with (k_noreply (z_conn z)).
  destruct (k_noreply (z_conn z)).
  - rewrite (bind_run _ _ _ _ _ (on_resp_run _ _ _ _ E1)). eexists. split; [reflexivity|]. by apply quiet_answers.
  - rewrite (proj2 (Z.ltb_ge _ _)) by lia. cbv zeta.
    rewrite (bind_run _ _ _ _ _ (put_run z1 rs (cleared r) 0 str E1 (Z.le_refl 0) ltac:(lia))).
    set (r2 := (cleared r) <| rs_wbuf := blit 0 str (rs_wbuf (cleared r)) |>). set (z2 := z1 <| z_conn := _ |>).
    rewrite (bind_run _ _ _ _ _ (put_run z2 rs r2 (Z.of_nat (length str)) [13; 10] eq_refl ltac:(lia) ltac:(simpl; lia))).
    set (r3 := r2 <| rs_wbuf := blit (Z.of_nat (length str)) [13; 10] (rs_wbuf r2) |>). set (z3 := z2 <| z_conn := _ |>).
    rewrite (bind_run _ _ _ _ _ (add_iov_run z3 rs r3 _ _ eq_refl ltac:(simpl; unfold MC_RESP_IOVCOUNT; lia))).
    eexists. split; [reflexivity|].
    apply (line_answers (rs_wbuf r) str); done.
Qed.

(** ** Sessions between commands *)

Record ready z m R D : Prop := {
  rd_serves : serves z m R D;
  rd_noreply : k_noreply (z_conn z) = false;
  rd_memory : z_mem z = []
}.

(** The answer of a command: one more response, with this text. *)
Definition replied z z' (text : list Z) (st : conn_states) : Prop :=
  ∃ r, k_resps (z_conn z') = k_resps (z_conn z) ++ [r] ∧ k_state (z_conn z') = st ∧
    resp_bytes (w_heap (z_world z')) r = text ∧ resp_ok (w_heap (z_world z')) r.

Definition quiet (nr : bool) (text : list Z) : list Z := if nr then [] else text ++ CRLF.

Definition started z : session := z
  <| z_stats := (z_stats z) <| n_response_obj_count := u64 (n_response_obj_count (z_stats z) + 1) |> |>
  <| z_conn := (z_conn z) <| k_resps := k_resps (z_conn z) ++ [fresh_resp] |> |>.

Lemma resp_start_run z : z_mem z = [] → resp_start z = Some (true, started z).
Proof. intros Hm. unfold resp_start, mem_next. munfold. by rewrite Hm. Qed.

Lemma length_fresh : length (rs_wbuf fresh_resp) = Z.to_nat WRITE_BUFFER_SIZE.
Proof. apply length_replicate. Qed.

Lemma chain_items_snoc rs r : chain_items (rs ++ [r]) = chain_items rs ++ [rs_item r].
Proof. unfold chain_items. by rewrite fmap_app. Qed.

Lemma refs_in_snoc ps q p : refs_in (ps ++ [q]) p = refs_in ps p + (if decide (q = p) then 1 else 0).
Proof. unfold refs_in. rewrite filter_app, length_app, filter_cons. case_decide; simpl; lia. Qed.

(** Sessions with the same cache whose responses hold the same items. *)
Lemma serves_null z s' m R D m' R' D' c rs r sts ps :
  serves z m R D → cache_ok s' m' R' D' → w_locks s' = ∅ → (∀ p, R p ≤ R' p) →
  k_resps (z_conn z) = rs → k_resps c = rs ++ [r] → rs_item r = NULL →
  serves (mkSession s' c sts (z_settings z) ps (z_mem z)) m' R' D'.
Proof.
  intros [_ _ Hr] Hok Hl Hle Ers Ec Hi. constructor; [done|done|]. simpl. intros p Hp. rewrite Ec, chain_items_snoc, refs_in_snoc, Hi.
  rewrite decide_False by done. rewrite <- Ers. specialize (Hr p Hp). specialize (Hle p). lia.
Qed.

(** ** Lookups with the item lock *)

Lemma item_lock_run s hv : w_locks s = ∅ → item_lock hv s = Some (tt, s <| w_locks := {[item_lock_index s hv]} |>).
Proof. intros Hl. unfold item_lock. rewrite Hl, decide_False by apply not_elem_of_empty. by rewrite (right_id_L ∅ (∪)). Qed.

(** Only the lock of [k] is held in [s1]; [s] held none. *)
Definition locked_for s s1 k : Prop :=
  w_locks s1 = {[item_lock_index s (hash k)]} ∧ w_item_lock_hashpower s1 = w_item_lock_hashpower s.

Lemma item_unlock_run s s1 k : locked_for s s1 k → item_unlock (hash k) s1 = Some (tt, s1 <| w_locks := ∅ |>).
Proof.
  intros [Hl Hp]. unfold item_unlock. do 3 f_equal. unfold item_lock_index. rewrite Hl, Hp. unfold item_lock_index. set_solver.
Qed.

Lemma locked_keeps s s1 s2 k {A} (op : M world A) a :
  locked_for s s1 k → keeps same_locks op → op s1 = Some (a, s2) → locked_for s s2 k.
Proof. intros [Hl Hp] Hop Hrun. destruct (Hop _ _ _ Hrun) as [E1 E2]. split; congruence. Qed.

Lemma get_locked_ok s m R D k :
  cache_ok s m R D → w_locks s = ∅ → (∀ q, m !! k = Some q → R q + 2 < 2 ^ 15) →
  ∃ s1 D1, item_get_locked k (Z.of_nat (length k)) false s =
      Some ((match live s m k with Some (q, _) => q | None => 0 end, hash k), s1) ∧
    ctx s1 = ctx s ∧ csame_out (λ x, m !! k = Some x) (w_heap s) (w_heap s1) ∧ locked_for s s1 k ∧
    match live s m k with
    | Some (q, o) => m !! k = Some q ∧ q ≠ 0 ∧ cache_ok s1 m (upd R q (R q + 1)) D1 ∧
        w_heap s !! q = Some o ∧ (∃ o1, w_heap s1 !! q = Some o1 ∧ content o1 = content o)
    | None => cache_ok s1 (delete k m) R D1
    end.
Proof.
  intros Hok Hlk HR. set (s0 := s <| w_locks := {[item_lock_index s (hash k)]} |>).
  destruct (get_for_store s0 m R D k (cache_ok_locks _ _ _ _ _ Hok) HR) as (s1 & D1 & Hget & Hctx & Hcs & Hlive).
  exists s1, D1. change (live s0 m k) with (live s m k) in *. split_and!; try done.
  - unfold item_get_locked. cbv zeta. rewrite (bind_run _ _ _ _ _ (item_lock_run s (hash k) Hlk)). fold s0.
    by rewrite (bind_run _ _ _ _ _ Hget).
  - by apply (locked_keeps s s0 s1 k _ _ (conj eq_refl eq_refl) (locks_do_item_get _ _ _ _) Hget).
Qed.

(** ** delete *)

Definition noreply_word (nr : bool) : list (list Z) := if nr then [txt "noreply"] else [].

Definition with_noreply (nr : bool) z : session := z <| z_conn := (z_conn z) <| k_noreply := nr |> |>.

Lemma with_noreply_id z : k_noreply (z_conn z) = false → with_noreply false z = z.
Proof. intros H. unfold with_noreply. rewrite <- H. by destruct z as [? [] ? ? ? ?]. Qed.

Lemma record_prefix_run f z : z_mem z = [] → ∃ p, record_prefix f z = Some (tt, z <| z_prefixes := p |>).
Proof.
  intros Hm. unfold record_prefix, mem_next. munfold. destruct (g_detail_enabled _).
  - rewrite Hm. simpl. rewrite Hm. by eexists.
  - exists (z_prefixes z). by destruct z.
Qed.

(** The arguments behind the key are in order. *)
Lemma delete_arguments z tokens w k nr :
  spells tokens (w :: k :: noreply_word nr) → k ≠ [] → k_noreply (z_conn z) = false →
  (if 3 <? ntok tokens then
     v ← tok tokens (S KEY_TOKEN);
     let hold_is_zero := streq v (txt "0") in
     sets_noreply ← set_noreply_maybe tokens;
     mret ((ntok tokens =? 4) && (hold_is_zero || sets_noreply) || (ntok tokens =? 5) && hold_is_zero && sets_noreply)
   else mret true) z = Some (true, with_noreply nr z).
Proof.
  intros Hs Hk Hn. rewrite (spells_ntok _ _ Hs). destruct nr.
  - replace (3 <? Z.of_nat (length (w :: k :: noreply_word true)) + 1) with true by reflexivity.
    destruct (spells_tok tokens _ 2 (txt "noreply") z Hs eq_refl) as (v & Hv & _); [done|]. unfold KEY_TOKEN.
    rewrite (bind_run _ _ _ _ _ Hv). cbv zeta.
    rewrite (bind_run _ _ _ _ _ (set_noreply_maybe_run tokens _ (txt "noreply") z Hs eq_refl ltac:(done) Hn)).
    rewrite bool_decide_true by done. rewrite orb_true_r. done.
  - by rewrite with_noreply_id.
Qed.

(** The end of a command that holds the lock of its key. *)
Lemma out_string_unlock z0 z m R D k rs r str :
  w_locks (z_world z0) = ∅ → locked_for (z_world z0) (z_world z) k → cache_ok (z_world z) m R D →
  (∀ p, p ≠ NULL → refs_in (chain_items rs) p ≤ R p) → z_mem z = [] →
  k_resps (z_conn z) = rs ++ [r] → rs_item r = NULL → length (rs_wbuf r) = Z.to_nat WRITE_BUFFER_SIZE →
  Z.of_nat (length str) + 2 ≤ WRITE_BUFFER_SIZE →
  ∃ z' r', (out_string str ;; W (item_unlock (hash k))) z = Some (tt, z') ∧ serves z' m R D ∧ z_mem z' = [] ∧
    k_resps (z_conn z') = rs ++ [r'] ∧ k_state (z_conn z') = conn_new_cmd ∧ answers r' (quiet (k_noreply (z_conn z)) str).
Proof.
  intros Hlk Hlo Hok Hr Hm Er Hi Hb Hl. destruct (out_string_ok z rs r str Er Hi Hb Hl) as (r' & Hrun & Ha).
  rewrite (bind_run _ _ _ _ _ Hrun). unfold W. set (z1 := z <| z_conn := _ |>). change (z_world z1) with (z_world z).
  rewrite (item_unlock_run _ _ _ Hlo). eexists _, r'. split; [reflexivity|]. split_and!; try done.
  constructor; simpl; [by apply cache_ok_locks|done|]. intros p Hp. rewrite chain_items_snoc, refs_in_snoc.
  destruct Ha as [-> _]. rewrite decide_False by done. specialize (Hr p Hp). lia.
Qed.

Lemma upd_back (R : Z → Z) q x : upd (upd R q (R q + 1)) q (upd R q (R q + 1) q - 1) x = R x.
Proof. unfold upd. rewrite Z.eqb_refl. destruct (Z.eqb_spec x q) as [->|]; lia. Qed.

Lemma W_run {A} (op : M world A) z a s' : op (z_world z) = Some (a, s') → W op z = Some (a, z <| z_world := s' |>).
Proof. unfold W. by intros ->. Qed.

Lemma process_delete_ok z m R D tokens w k nr rs r :
  spells tokens (w :: k :: noreply_word nr) → k ≠ [] → Z.of_nat (length k) ≤ KEY_MAX_LENGTH →
  ready z m R D → (∀ q, m !! k = Some q → R q + 2 < 2 ^ 15) →
  k_resps (z_conn z) = rs ++ [r] → rs_item r = NULL → length (rs_wbuf r) = Z.to_nat WRITE_BUFFER_SIZE →
  ∃ z' D' r', process_delete_command tokens z = Some (tt, z') ∧ serves z' (delete k m) R D' ∧ z_mem z' = [] ∧
    k_resps (z_conn z') = rs ++ [r'] ∧ k_state (z_conn z') = conn_new_cmd ∧
    answers r' (quiet nr (match live (z_world z) m k with Some _ => txt "DELETED" | None => txt "NOT_FOUND" end)).
Proof.
  intros Hs Hk Hlen [Hsv Hn Hm] HR Er Hi Hb. pose proof Hsv as [Hok Hlk Href]. unfold process_delete_command.
  rewrite (bind_run _ _ _ _ _ (delete_arguments _ _ _ _ _ Hs Hk Hn)). cbn [negb].
  rewrite (bind_run _ _ _ _ _ (spells_key_too_long tokens _ k _ Hs eq_refl Hk)), (proj2 (Z.ltb_ge _ _)) by done.
  rewrite (bind_run _ _ _ _ _ (spells_key tokens _ k _ Hs eq_refl Hk)).
  destruct (record_prefix_run (stats_prefix_record_delete k) (with_noreply nr z)) as [ps Hps]; [done|].
  rewrite (bind_run _ _ _ _ _ Hps). set (z1 := with_noreply nr z <| z_prefixes := ps |>).
  destruct (get_locked_ok (z_world z) m R D k Hok Hlk HR) as (s1 & D1 & Hget & _ & _ & Hlocked & Hlive).
  rewrite (bind_run _ _ _ _ _ (W_run _ z1 _ _ Hget)). set (z2 := z1 <| z_world := s1 |>).
  assert (Hrs : ∀ p, p ≠ NULL → refs_in (chain_items rs) p ≤ R p).
  { intros p Hp. specialize (Href p Hp). rewrite Er, chain_items_snoc, refs_in_snoc, Hi, decide_False in Href by done. lia. }
  destruct (live (z_world z) m k) as [[q o]|].
  - destruct Hlive as (Hmk & Hq0 & Hok1 & _ & o1 & Hq1 & _). rewrite (proj2 (Z.eqb_neq q NULL)) by done. cbn [negb].
    rewrite !bind_assoc, (bind_run _ _ _ _ _ (W_run _ z2 _ _ (load_ok _ _ _ Hq1))).
    specialize (HR q Hmk). pose proof (co_refs _ _ _ _ Hok q) as HR0.
    destruct (drop_item_ok s1 m _ D1 k q Hok1 Hmk) as (s3 & D3 & Hdrop & Hok3 & _); [rewrite upd_eq; lia..|].
    assert (Hlocked3 : locked_for (z_world z) s3 k).
    { refine (locked_keeps _ _ _ _ _ _ Hlocked _ Hdrop). repeat (apply keeps_bind; [apply _| |intros _]);
        [apply locks_do_item_unlink|apply locks_storage_delete|apply locks_do_item_remove]. }
    rewrite bind_assoc, (bind_run (on_cmd_stats _) _ _ _ _ eq_refl), bind_assoc.
    match goal with |- context [(W _ ≫= _) ?z] => set (z3 := z) end.
    rewrite (bind_run _ _ _ _ _ (W_run _ z3 _ _ Hdrop)).
    destruct (out_string_unlock z (z3 <| z_world := s3 |>) (delete k m) R D3 k rs r (txt "DELETED")) as
      (z' & r' & Hrun & Hz'); try done; [apply (cache_ok_R _ _ _ _ _ (λ x, eq_sym (upd_back R q x)) Hok3)|].
    by exists z', D3, r'.
  - change (negb (0 =? NULL)) with false. cbv iota. rewrite bind_assoc, (bind_run (incr_stat _ _) _ _ _ _ eq_refl).
    match goal with |- context [(out_string _ ≫= _) ?z] => set (z3 := z) end.
    destruct (out_string_unlock z z3 (delete k m) R D1 k rs r (txt "NOT_FOUND")) as (z' & r' & Hrun & Hz'); try done.
    by exists z', D1, r'.
Qed.

(** ** From the line to the command *)

Variable storage_get_item : Z → M session Z.
Variable past : list Z.
Variable safe_strtod : list Z → option spec_float.
Variable report_command : list token_t → M session unit.

Lemma ready_started z m R D : ready z m R D → ready (started z) m R D.
Proof.
  intros [[Hok Hlk Hr] Hn Hm]. constructor; [|done|done]. constructor; [done|done|]. intros p Hp. simpl.
  rewrite chain_items_snoc, refs_in_snoc, decide_False by done. specialize (Hr p Hp). lia.
Qed.

(** The tokens and the command word of a line. *)
Lemma command_line z m R D line tail w ws :
  ready z m R D → 0 ∉ line → words line = w :: ws → (length ws < 22)%nat → (2 ≤ length w)%nat →
  ∃ tokens v, spells tokens (w :: ws) ∧ c_str v = w ∧ tok tokens 0 (started z) = Some (v, started z) ∧
    tok_length tokens 0 (started z) = Some (Z.of_nat (length w), started z) ∧
    resp_start z = Some (true, started z) ∧ tokenize_command (line ++ 0 :: tail) MAX_TOKENS = tokens.
Proof.
  intros [_ _ Hm] H0 Hw Hn Hl. destruct (tokenize_line line tail MAX_TOKENS H0) as (ts & Ht & Hb & Hf).
  { rewrite Hw. simpl. unfold MAX_TOKENS. lia. }
  set (tokens := ts ++ _) in *. assert (Hs : spells tokens (w :: ws)) by (exists ts; by rewrite <- Hw).
  assert (Hne : w ≠ []) by (intros ->; simpl in Hl; lia).
  destruct (spells_tok tokens _ 0 w (started z) Hs eq_refl Hne) as (v & Hv & Hc). exists tokens, v.
  split_and!; [done|done|done|by apply (spells_tok_length _ _ _ _ _ Hs)|by apply resp_start_run|done].
Qed.

(** Once the command ran on the new response. *)
Lemma replied_started z z' r text st :
  k_resps (z_conn z') = k_resps (z_conn z) ++ [r] → k_state (z_conn z') = st → answers r text → replied z z' text st.
Proof. intros Hr Hst (_ & _ & _ & Ha). exists r. destruct (Ha (w_heap (z_world z'))). by split_and!. Qed.

(** C6 (functional). delete: the line [delete <key>], with or without [noreply],
    for any key and however the words are spaced. If the key has a live entry it
    goes and the answer is DELETED; otherwise (no entry, or one that was flushed or
    has expired, which is dropped too) the answer is NOT_FOUND. With [noreply]
    nothing is sent. The item lock is given back and every reference counted. *)
Theorem delete_correct z m R D line tail k nr :
  ready z m R D → 0 ∉ line → words line = txt "delete" :: k :: noreply_word nr → k ≠ [] →
  Z.of_nat (length k) ≤ KEY_MAX_LENGTH → (∀ q, m !! k = Some q → R q + 2 < 2 ^ 15) →
  ∃ z' D', process_command_ascii storage_get_item past safe_strtod report_command (line ++ 0 :: tail) z = Some (tt, z') ∧
    serves z' (delete k m) R D' ∧
    replied z z' (quiet nr (match live (z_world z) m k with Some _ => txt "DELETED" | None => txt "NOT_FOUND" end)) conn_new_cmd.
Proof.
  intros Hrd H0 Hw Hk Hlen HR.
  destruct (command_line z m R D line tail _ _ Hrd H0 Hw) as (tokens & v & Hs & Hc & Hv & Hl & Hst & Ht);
    [destruct nr; simpl; lia|by apply Nat.leb_le|].
  assert (Hgo : process_command_ascii storage_get_item past safe_strtod report_command (line ++ 0 :: tail) z =
    process_delete_command tokens (started z)) by (destruct nr; dispatch Hc Hv Hl Hst Ht Hs; reflexivity).
  rewrite Hgo. destruct (process_delete_ok (started z) m R D tokens _ k nr (k_resps (z_conn z)) fresh_resp Hs Hk Hlen) as
    (z' & D' & r' & Hrun & Hsv & _ & Hr' & Hstate & Ha); [by apply ready_started|done|done|done|apply length_fresh|].
  exists z', D'. split_and!; [done|done|]. by apply (replied_started z z' r').
Qed.
End Commands.

(** ** On the small server *)

#[local] Existing Instance jenkins_fn.

Lemma desk_ready : ∃ D, ready (desk shop_linked idle) {[ [97] := 4096 ]} shop_refs D.
Proof.
  destruct shop_linked_ok as (D & Hok & _). exists D. constructor; [|reflexivity|reflexivity].
  constructor; [exact Hok|reflexivity|]. intros p _. change (refs_in _ p) with 0. unfold shop_refs.
  by destruct ((p =? 4096) || (p =? 4192)).
Qed.

Definition shop_a : item := default zero_item (w_heap shop_linked !! 4096).

Lemma shop_live : live shop_linked {[ [97] := 4096 ]} [97] = Some (4096, shop_a).
Proof. vm_compute. reflexivity. Qed.

Lemma shop_bound : ∀ q, ({[ [97] := 4096 ]} : gmap (list Z) Z) !! [97] = Some q → shop_refs q + 2 < 2 ^ 15.
Proof. intros q Hq. rewrite lookup_singleton_eq in Hq. injection Hq as <-. reflexivity. Qed.

Lemma txt_no_nul s : forallb (λ c, negb (c =? 0)) (txt s) = true → 0 ∉ txt s.
Proof.
  intros H Hin. apply list_elem_of_In in Hin. rewrite forallb_forall in H. by specialize (H 0 Hin).
Qed.

Lemma delete_correct_witness :
  ∃ z' D', process_command_ascii no_store [0] (λ _, None) no_report (txt "delete a noreply" ++ 0 :: CRLF) (desk shop_linked idle) =
      Some (tt, z') ∧
    serves z' (delete [97] {[ [97] := 4096 ]}) shop_refs D' ∧ replied (desk shop_linked idle) z' [] conn_new_cmd.
Proof.
  destruct desk_ready as (D & Hrd).
  apply (delete_correct no_store [0] (λ _, None) no_report (desk shop_linked idle) {[ [97] := 4096 ]} shop_refs D
    (txt "delete a noreply") CRLF [97] true Hrd).
  - apply txt_no_nul. reflexivity.
  - reflexivity.
  - discriminate.
  - discriminate.
  - exact shop_bound.
Defined.
