(* ===== verification/GetThm.v ===== *)
(** * The retrieval commands, from the line to the answer *)

From Stdlib Require Import Ascii String SpecFloat.
From stdpp Require Import strings.
From S2P Require Import Prelude StreamThm Keeps Itoa Util Hashes StatsPrefix State Links Queues Assoc AssocSpec Slabs SlabsSpec Items ItemsSpec ItemsAccess ItemsThm Store StoreThm Locks Tokens TokensThm Conn ProtoText ProtoCmd Machine Wire Drive Desk DriveThm MachineThm CommandThm.

(** ** Text put together in the write buffer *)

(** The buffer starts with the text. *)
Definition begins (b text : list Z) : Prop :=
  length b = Z.to_nat WRITE_BUFFER_SIZE ∧ Z.of_nat (length text) ≤ WRITE_BUFFER_SIZE ∧ take (length text) b = text.

Lemma begins_nil b : length b = Z.to_nat WRITE_BUFFER_SIZE → begins b [].
Proof. intros Hb. split_and!; [done|by unfold WRITE_BUFFER_SIZE|done]. Qed.

Lemma begins_blit b t x :
  begins b t → Z.of_nat (length t) + Z.of_nat (length x) ≤ WRITE_BUFFER_SIZE →
  begins (blit (Z.of_nat (length t)) x b) (t ++ x).
Proof.
  intros (Hb & Ht & E) Hl. assert (HbZ : Z.of_nat (length b) = WRITE_BUFFER_SIZE) by (rewrite Hb; reflexivity). split_and!.
  - rewrite length_blit; [done|lia|lia].
  - rewrite length_app. lia.
  - unfold blit. rewrite Nat2Z.id, E, length_app, app_assoc. rewrite <- length_app. apply take_app_length.
Qed.

Section Get.
Context {HF : HashFn}.
Implicit Types (z : session) (m : gmap (list Z) Z) (R : Z → Z) (D : queues) (k : list Z) (rs : list mc_resp).

Definition with_last z rs r : session := z <| z_conn := (z_conn z) <| k_resps := rs ++ [r] |> |>.

(** [f p] writes [x] at the end [p] of the text, if the buffer has room for it and
    a NUL, and returns the new end. *)
Definition writes (f : Z → M session Z) (x : list Z) : Prop := ∀ z rs r t,
  begins (rs_wbuf r) t → Z.of_nat (length t) + Z.of_nat (length x) < WRITE_BUFFER_SIZE →
  ∃ b, f (Z.of_nat (length t)) (with_last z rs r) = Some (Z.of_nat (length (t ++ x)), with_last z rs (r <| rs_wbuf := b |>)) ∧
    begins b (t ++ x).

Lemma writes_put x : writes (λ p, put p x) x.
Proof.
  intros z rs r t Hb Hl. eexists. split; [|apply begins_blit; [exact Hb|lia]]. rewrite length_app, Nat2Z.inj_add.
  by rewrite (put_run (with_last z rs r) rs r _ _ eq_refl) by lia.
Qed.

Lemma writes_ret : writes mret [].
Proof.
  intros z rs r t Hb _. exists (rs_wbuf r). rewrite app_nil_r. split; [|done]. by replace (r <| rs_wbuf := rs_wbuf r |>) with r by (by destruct r).
Qed.

Lemma writes_bind f g x y : writes f x → writes g y → writes (λ p, q ← f p; g q) (x ++ y).
Proof.
  intros Hf Hg z rs r t Hb Hl. rewrite length_app in Hl. destruct (Hf z rs r t Hb) as (b & Hrun & Hb1); [lia|].
  set (r1 := r <| rs_wbuf := b |>). destruct (Hg z rs r1 (t ++ x) Hb1) as (b2 & Hrun2 & Hb2); [rewrite length_app; lia|].
  exists b2. rewrite (bind_run _ _ _ _ _ Hrun), app_assoc. by split.
Qed.

Lemma writes_if (c : bool) f g x y : writes f x → writes g y → writes (λ p, if c then f p else g p) (if c then x else y).
Proof. by destruct c. Qed.

Lemma writes_put_u32 v : 0 ≤ v < 2 ^ 32 → writes (λ p, put_u32 p v) (decimal v).
Proof. intros Hv. unfold put_u32. rewrite itoa_u32_decimal by done. apply writes_put. Qed.

Lemma writes_put_u64 v : 0 ≤ v < 2 ^ 64 → writes (λ p, put_u64 p v) (decimal v).
Proof. intros Hv. unfold put_u64. rewrite itoa_u64_decimal by done. apply writes_put. Qed.

(** The NUL behind a line is not part of it. *)
Lemma writes_line_end : writes (λ p, _ ← put p [13; 10; 0]; mret (p + 2)) CRLF.
Proof.
  intros z rs r t Hb Hl. change (length CRLF) with 2%nat in Hl. 
  assert (Hl3 : Z.of_nat (length t) + Z.of_nat (length [13; 10; 0]) ≤ WRITE_BUFFER_SIZE) by (change (length [13; 10; 0]) with 3%nat; lia).
  rewrite (bind_run _ _ _ _ _ (put_run (with_last z rs r) rs r (Z.of_nat (length t)) [13; 10; 0] eq_refl ltac:(lia) Hl3)).
  eexists. split; [rewrite length_app, Nat2Z.inj_add; reflexivity|].
  destruct (begins_blit _ _ [13; 10; 0] Hb Hl3) as (Hb1 & _ & Ht).
  split_and!; [done|rewrite length_app; change (length CRLF) with 2%nat; lia|]. apply (f_equal (take (length (t ++ CRLF)))) in Ht.
  rewrite take_take in Ht. replace (length (t ++ CRLF) `min` length (t ++ [13%Z; 10%Z; 0%Z]))%nat with (length (t ++ CRLF)) in Ht
    by (rewrite !length_app; simpl; lia).
  cbn [rs_wbuf]. etransitivity; [exact Ht|]. change [13; 10; 0] with (CRLF ++ [0]). rewrite app_assoc. apply take_app_length.
Qed.

(** An item a text response can carry in one piece. *)
Record sendable (o : item) : Prop := {
  sd_whole : flag (i_it_flags o) ITEM_CHUNKED = false ∧ flag (i_it_flags o) ITEM_HDR = false;
  sd_nbytes : 2 ≤ i_nbytes o < 2 ^ 30;
  sd_data : Z.of_nat (length (i_data o)) = i_nbytes o;
  sd_flags : 0 ≤ i_cflags o < 2 ^ 32;
  sd_cas : 0 ≤ ITEM_get_cas o < 2 ^ 64
}.

(** [ <flags> <bytes>[ <cas>]] and the line end. *)
Definition flags_text (o : item) : list Z := if flag (i_it_flags o) ITEM_CFLAGS then decimal (i_cflags o) else [48].
Definition cas_text (return_cas : bool) (o : item) : list Z := if return_cas then 32 :: decimal (ITEM_get_cas o) else [].
Definition suffix_text (return_cas : bool) (o : item) : list Z :=
  [32] ++ flags_text o ++ [32] ++ decimal (i_nbytes o - 2) ++ cas_text return_cas o ++ CRLF.

Lemma length_decimal v : 0 ≤ v < 2 ^ 64 → Z.of_nat (length (decimal v)) ≤ 20.
Proof. intros (_ & _ & Hl & _)%decimal_spec. lia. Qed.

Lemma flags_text_length o : sendable o → Z.of_nat (length (flags_text o)) ≤ 20.
Proof.
  intros [_ _ _ Hf _]. unfold flags_text. destruct (flag _ _); [apply length_decimal; pow2_consts; lia|]. simpl. lia.
Qed.

Lemma suffix_writes x return_cas :
  sendable x → writes (λ p, make_ascii_get_suffix p x return_cas (i_nbytes x)) (suffix_text return_cas x).
Proof.
  intros [_ Hn _ Hf Hc]. unfold make_ascii_get_suffix, suffix_text, flags_text, cas_text.
  apply writes_bind; [apply writes_put|].
  apply writes_bind; [apply writes_if; [by apply writes_put_u32|apply writes_put]|].
  apply writes_bind; [apply writes_put|].
  apply writes_bind; [rewrite u32_small by lia; apply writes_put_u32; pow2_consts; lia|].
  apply writes_bind; [|apply writes_line_end].
  apply (writes_if return_cas (λ p, q ← put p [32]; put_u64 q (ITEM_get_cas x)) mret); [|apply writes_ret].
  apply (writes_bind (λ p, put p [32]) (λ q, put_u64 q (ITEM_get_cas x)) [32]); [apply writes_put|by apply writes_put_u64].
Qed.

(** ** Looking up with a move to the head of the queue *)

Lemma locked_run {A} s k (op : M world A) a s1 :
  w_locks s = ∅ → keeps same_locks op → op (s <| w_locks := {[item_lock_index s (hash k)]} |>) = Some (a, s1) →
  with_item_lock (hash k) op s = Some (a, s1 <| w_locks := ∅ |>).
Proof.
  intros Hlk Hop Hrun. unfold with_item_lock. rewrite (bind_run _ _ _ _ _ (item_lock_run s (hash k) Hlk)).
  rewrite (bind_run _ _ _ _ _ Hrun).
  assert (Hl : locked_for s s1 k) by (apply (locked_keeps s (s <| w_locks := {[item_lock_index s (hash k)]} |>) s1 k op a); [by split|done..]).
  by rewrite (bind_run _ _ _ _ _ (item_unlock_run _ _ _ Hl)).
Qed.

Lemma item_get_ok s m R D k b :
  cache_ok s m R D → w_locks s = ∅ → (∀ q, m !! k = Some q → R q + 2 < 2 ^ 15) →
  ∃ s1 D1 R1, item_get k (Z.of_nat (length k)) b s = Some (match live s m k with Some (q, _) => q | None => 0 end, s1) ∧
    ctx s1 = ctx s ∧ w_locks s1 = ∅ ∧ cache_ok s1 (live_map s m k) R1 D1 ∧ (∀ x, R x ≤ R1 x) ∧
    match live s m k with
    | Some (q, o) => m !! k = Some q ∧ q ≠ 0 ∧ R q + 1 ≤ R1 q ∧ ITEM_key o = k ∧
        ∃ o1, w_heap s1 !! q = Some o1 ∧ content o1 = content o
    | None => True
    end.
Proof.
  intros Hok Hlk HR. set (s0 := s <| w_locks := {[item_lock_index s (hash k)]} |>).
  pose proof (cache_ok_locks s {[item_lock_index s (hash k)]} _ _ _ Hok) as Hok0. fold s0 in Hok0.
  unfold item_get, live_map, live. cbv zeta. destruct (m !! k) as [q|] eqn:Hm.
  - destruct (do_item_get_hit s0 m R D k q b Hok0 Hm (HR q eq_refl)) as
      (o & s1 & D1 & res & Hq & Hk & Hq0 & Hrun & [Hst Hfr _ Hcas]). change (w_heap s0) with (w_heap s) in Hq. rewrite Hq.
    change (flushed s0 o || expired s0 o) with (flushed s o || expired s o) in *.
    pose proof (locked_run s k _ _ _ Hlk (locks_do_item_get _ _ _ _) Hrun) as Hget.
    exists (s1 <| w_locks := ∅ |>), D1. destruct (flushed s o || expired s o).
    + destruct (Hst eq_refl) as (-> & Hok1 & _ & Hdf & _). exists R. split_and!; [done| |done|by apply cache_ok_locks|done|done].
      unfold drop_frame in Hdf. apply (f_equal (λ w, (w_settings w, w_current_time w, w_conn w))) in Hdf. simpl in Hdf, Hcas.
      unfold ctx. simpl. congruence.
    + destruct (Hfr eq_refl) as (-> & Hac & (o0 & o1 & Hq' & Hq1 & Hc & _) & R' & Hok1 & Hbump & _).
      change (w_heap s0) with (w_heap s) in Hq'. rewrite Hq in Hq'. apply (inj Some) in Hq'. subst o0.
      assert (HR' : ∀ x, upd R q (R q + 1) x ≤ R' x).
      { intros x. destruct Hbump as [E|E]; rewrite E; [done|]. unfold upd. destruct (x =? q) eqn:?, (q =? q) eqn:?; bool_props; lia. }
      exists R'. split_and!; try done; [exact (acc_ctx _ _ Hac)|by apply cache_ok_locks| | |by exists o1].
      * intros x. specialize (HR' x). unfold upd in HR'. destruct (x =? q) eqn:?; bool_props; subst; lia.
      * specialize (HR' q). by rewrite upd_eq in HR'.
  - pose proof (do_item_get_miss s0 m R D k b Hok0 Hm) as Hrun.
    pose proof (locked_run s k _ _ _ Hlk (locks_do_item_get _ _ _ _) Hrun) as Hget.
    exists (s0 <| w_locks := ∅ |>), D, R. split_and!; try done. rewrite delete_id by done. by apply cache_ok_locks.
Qed.

(** The reference count is far from its limit. *)
Lemma limited_get_ok s m R D k :
  cache_ok s m R D → w_locks s = ∅ → (∀ q, m !! k = Some q → R q + 2 < 2 ^ 15) →
  ∃ s1 D1 R1, limited_get k (Z.of_nat (length k)) 0 false true s =
      Some ((match live s m k with Some (q, _) => q | None => 0 end, false), s1) ∧
    w_locks s1 = ∅ ∧ cache_ok s1 (live_map s m k) R1 D1 ∧ (∀ x, R x ≤ R1 x) ∧
    match live s m k with
    | Some (q, o) => m !! k = Some q ∧ q ≠ 0 ∧ R q + 1 ≤ R1 q ∧ ITEM_key o = k ∧
        ∃ o1, w_heap s1 !! q = Some o1 ∧ content o1 = content o
    | None => True
    end.
Proof.
  intros Hok Hlk HR. destruct (item_get_ok s m R D k true Hok Hlk HR) as (s1 & D1 & R1 & Hrun & _ & Hlk1 & Hok1 & Hle & Hres).
  exists s1, D1, R1. split; [|by split_and!]. unfold limited_get. rewrite (bind_run _ _ _ _ _ Hrun). unfold live_map in Hok1.
  destruct (live s m k) as [[q o]|]; [|done]. destruct Hres as (Hm & Hq0 & _ & _ & o1 & Hq1 & _).
  rewrite (proj2 (Z.eqb_neq q NULL)) by done. rewrite (bind_run _ _ _ _ _ (load_ok _ _ _ Hq1)).
  destruct (co_mapped _ _ _ _ Hok1 k q Hm) as [id Hid].
  destruct (co_queued _ _ _ _ Hok1 id q Hid) as (o1' & Hq1' & _ & _ & _ & Href & _).
  rewrite Hq1 in Hq1'. apply (inj Some) in Hq1'. subst o1'. pose proof (co_refs _ _ _ _ Hok1 q).
  unfold IT_REFCOUNT_LIMIT. rewrite (proj2 (Z.ltb_ge _ _)) by lia. done.
Qed.

(** ** One key *)

Variable storage_get_item : Z → M session Z.

(** The line and the value of an item. *)
Definition value_line (return_cas : bool) k (o : item) : list Z := txt "VALUE " ++ k ++ suffix_text return_cas o.
Definition found_text (return_cas : bool) k (found : option (Z * item)) : list Z :=
  match found with Some (_, o) => value_line return_cas k o ++ i_data o | None => [] end.

Lemma value_line_writes x k return_cas :
  sendable x →
  writes (λ p, p ← put p (txt "VALUE "); p ← put p k; make_ascii_get_suffix p x return_cas (i_nbytes x)) (value_line return_cas k x).
Proof.
  intros Hx. apply writes_bind; [apply writes_put|]. apply writes_bind; [apply writes_put|]. by apply suffix_writes.
Qed.

Lemma bind3_assoc {S A B C E} (f : M S A) (g : A → M S B) (h : B → M S C) (K : C → M S E) (x : S) :
  (a ← f; b ← g a; c ← h b; K c) x = ((a ← f; b ← g a; h b) ≫= K) x.
Proof. munfold. destruct (f x) as [[a z1]|]; [|done]. by destruct (g a z1) as [[b z2]|]. Qed.

Lemma value_line_length return_cas k o :
  sendable o → Z.of_nat (length k) ≤ KEY_MAX_LENGTH → Z.of_nat (length (value_line return_cas k o)) ≤ 400.
Proof.
  intros Ho Hk. pose proof (flags_text_length o Ho). destruct Ho as [_ Hn _ _ Hc].
  pose proof (length_decimal (i_nbytes o - 2)). pose proof (length_decimal (ITEM_get_cas o)).
  unfold value_line, suffix_text, cas_text, KEY_MAX_LENGTH in *. rewrite !length_app. change (length (txt "VALUE ")) with 6%nat.
  change (length CRLF) with 2%nat. destruct return_cas; simpl length; lia.
Qed.

(** A text entry behind the others. *)
Lemma add_entry_ok h r v n :
  resp_ok h r → rs_chunked_data_iov r = 0%nat → rs_skip r = false → (length (rs_iov r) < MC_RESP_IOVCOUNT)%nat →
  is_chunks v = false → iov_ok h r (mkIov v n) → rs_tosend r + n < 2 ^ 31 →
  let r' := r <| rs_iov := rs_iov r ++ [mkIov v n] |> <| rs_tosend := s32 (rs_tosend r + n) |> in
  resp_ok h r' ∧ resp_bytes h r' = resp_bytes h r ++ iov_bytes h r (mkIov v n).
Proof.
  intros [Hc Hto Hi Hch] Hch0 Hs Hl Hv Hok Hlt r'.
  assert (Hsame : ∀ w, iov_bytes h r' w = iov_bytes h r w) by done.
  assert (Hok' : ∀ w, iov_ok h r w → iov_ok h r' w) by done.
  assert (Hlens : ∀ l w, lens (l ++ [w]) = lens l + v_len w).
  { intros l w. induction l as [|u l IH]; simpl in *; lia. }
  assert (0 ≤ lens (rs_iov r)).
  { clear -Hi. induction Hi as [|u l (Hu & _) _ IH]; simpl; lia. }
  destruct Hok as (Hn & Hok2). simpl in Hn. split.
  - constructor.
    + simpl. rewrite length_app. simpl. lia.
    + simpl. rewrite s32_small by lia. rewrite Hlens. simpl. lia.
    + apply Forall_app. split; [done|]. constructor; [|done]. by split.
    + intros i w Hw. simpl in Hw |- *. rewrite Hch0 in *. apply lookup_app_Some in Hw as [Hw|[_ Hw]]; [by apply Hch|].
      apply list_lookup_singleton_Some in Hw as [_ <-]. simpl. rewrite Hv. split; [done|lia].
  - unfold resp_bytes. simpl. rewrite Hs. rewrite fmap_app, concat_app. simpl. by rewrite app_nil_r.
Qed.

Lemma content_sendable o o' return_cas k : content o' = content o → sendable o →
  sendable o' ∧ value_line return_cas k o' = value_line return_cas k o ∧ i_data o' = i_data o ∧ ITEM_key o' = ITEM_key o ∧
  i_nbytes o' = i_nbytes o.
Proof.
  intros Hc [Hw Hn Hd Hf Hcas]. pose proof (content_cas _ _ Hc) as (Ecas & _). unfold content in Hc.
  injection Hc as Ek1 Ek2 En _ _ Ecf Ed _ Ef.
  assert (Hfl : ∀ a, Z.land (Z.lor ITEM_ACTIVE ITEM_FETCHED) a = 0 → flag (i_it_flags o') a = flag (i_it_flags o) a).
  { intros a Ha. by apply (flag_masked _ _ _ (Z.lor ITEM_ACTIVE ITEM_FETCHED)). }
  split_and!; [|unfold value_line, suffix_text, flags_text, cas_text|done|unfold ITEM_key; by rewrite Ek1, Ek2|done].
  - constructor; [|by rewrite En|by rewrite Ed, En|by rewrite Ecf|by rewrite Ecas]. by rewrite !Hfl.
  - by rewrite Ecas, En, Ecf, Hfl.
Qed.

Lemma add_value_plain z it x :
  sendable x → add_value storage_get_item it x z = (resp_add_iov (InItem it 0) (i_nbytes x) ;; mret true) z.
Proof. intros [[Hc Hh] _ _ _ _]. unfold add_value. by rewrite Hh, Hc. Qed.

(** The response to a key that was found: the line and the value. *)
Lemma hit_resp_ok h b it x text :
  begins b text → text ≠ [] → h !! it = Some x → sendable x → it ≠ NULL → Z.of_nat (length text) ≤ 400 →
  let r := mkResp b 0 (s32 (s32 (0 + Z.of_nat (length text)) + i_nbytes x))
             [mkIov (InWbuf 0) (Z.of_nat (length text)); mkIov (InItem it 0) (i_nbytes x)] 0 it false in
  resp_ok h r ∧ resp_bytes h r = text ++ i_data x ∧ rs_tosend r < 2 ^ 30 + 400.
Proof.
  intros (Hb & Ht & Htake) _ Hx [_ Hn Hd _ _] Hit Hlen r.
  assert (E : rs_tosend r = Z.of_nat (length text) + i_nbytes x) by (unfold r; cbn [rs_tosend]; rewrite (s32_small (0 + _)), s32_small; lia).
  assert (B1 : iov_bytes h r (mkIov (InWbuf 0) (Z.of_nat (length text))) = text).
  { unfold iov_bytes, slice. simpl. by rewrite Nat2Z.id. }
  assert (B2 : iov_bytes h r (mkIov (InItem it 0) (i_nbytes x)) = i_data x).
  { unfold iov_bytes, slice. simpl. rewrite Hx. apply take_ge. change (Z.to_nat 0) with 0%nat. simpl. lia. }
  split_and!; [constructor| |lia].
  - unfold r, MC_RESP_IOVCOUNT. simpl. lia.
  - rewrite E. unfold r. simpl. lia.
  - constructor; [|constructor; [|done]]; unfold iov_ok; rewrite ?B1, ?B2; unfold base_ok; simpl; split_and!; try done; lia.
  - intros [|[|i]] w Hw; simpl in Hw; simplify_eq/=; split; done || lia.
  - unfold resp_bytes. unfold r at 1 2. simpl rs_skip. cbv iota. simpl rs_iov. rewrite !fmap_cons. cbn [concat].
    fold r. rewrite B1, B2. simpl. by rewrite app_nil_r.
Qed.

Lemma get_one_ok z m R D k return_cas rs :
  ready z m R D → k_resps (z_conn z) = rs ++ [fresh_resp] → Z.of_nat (length k) ≤ KEY_MAX_LENGTH →
  (∀ q, m !! k = Some q → R q + 2 < 2 ^ 15) → (∀ q o, live (z_world z) m k = Some (q, o) → sendable o) →
  ∃ z1 D1 R1 r1, get_one storage_get_item k 0 return_cas false z = Some (true, z1) ∧
    serves z1 (live_map (z_world z) m k) R1 D1 ∧ z_mem z1 = [] ∧ k_resps (z_conn z1) = rs ++ [r1] ∧
    let h := w_heap (z_world z1) in
    resp_ok h r1 ∧ resp_bytes h r1 = found_text return_cas k (live (z_world z) m k) ∧
    (length (rs_iov r1) ≤ 2)%nat ∧ rs_chunked_data_iov r1 = 0%nat ∧ rs_skip r1 = false ∧ rs_tosend r1 < 2 ^ 30 + 400.
Proof.
  intros [[Hok Hlk Href] Hn Hm] Er Hlen HR Hsend. unfold get_one. cbv zeta.
  destruct (limited_get_ok (z_world z) m R D k Hok Hlk HR) as (s1 & D1 & R1 & Hget & Hlk1 & Hok1 & Hle & Hres).
  rewrite (bind_run _ _ _ _ _ (W_run _ z _ _ Hget)). set (z1 := z <| z_world := s1 |>). cbn [fst].
  destruct (record_prefix_run (stats_prefix_record_get k
    (negb (match live (z_world z) m k with Some (q, _) => q | None => 0 end =? NULL))) z1 Hm) as [ps Hps].
  rewrite (bind_run _ _ _ _ _ Hps). clear Hps Hget. set (z2 := z1 <| z_prefixes := ps |>).
  assert (Hrs : ∀ p, p ≠ NULL → refs_in (chain_items rs) p ≤ R p).
  { intros p Hp. specialize (Href p Hp). rewrite Er, chain_items_snoc, refs_in_snoc, decide_False in Href by done. lia. }
  destruct (live (z_world z) m k) as [[q o]|].
  - destruct Hres as (Hmk & Hq0 & HRq & Hko & o1 & Hq1 & Hco). specialize (Hsend q o eq_refl).
    destruct (content_sendable o o1 return_cas k Hco Hsend) as (Hs1 & Hline & Hdata & Hkey & Hnb).
    rewrite (proj2 (Z.eqb_neq q NULL)) by done. cbn [negb].
    assert (Hq2 : load q (z_world z2) = Some (o1, s1)) by by apply load_ok.
    rewrite (bind_run _ _ _ _ _ (W_run _ z2 _ _ Hq2)). set (z3 := z2 <| z_world := s1 |>).
    assert (E3 : z3 = with_last z3 rs fresh_resp) by (unfold with_last; rewrite <- Er; by destruct z as [? [] ? ? ? ?]).
    pose proof (value_line_length return_cas k o1 Hs1 Hlen) as Hll.
    set (text := value_line return_cas k o1) in *. rewrite Hkey, Hko.
    destruct (value_line_writes o1 k return_cas Hs1 z3 rs fresh_resp []) as (b & Hput & Hbeg).
    { apply begins_nil, length_fresh. }
    { change (Z.of_nat 0 + Z.of_nat (length text) < 1024). lia. }
    fold text in Hput, Hbeg. simpl app in Hput, Hbeg. rewrite E3, (bind3_assoc (put 0 (txt "VALUE "))), (bind_run _ _ _ _ _ Hput).
    set (r1 := fresh_resp <| rs_wbuf := b |>) in *. set (n := Z.of_nat (length text)) in *.
    assert (Hl1 : (length (rs_iov r1) < MC_RESP_IOVCOUNT)%nat) by (simpl; unfold MC_RESP_IOVCOUNT; lia).
    rewrite (bind_run _ _ _ _ _ (add_iov_run (with_last z3 rs r1) rs r1 (InWbuf 0) n eq_refl Hl1)).
    set (r2 := r1 <| rs_iov := rs_iov r1 ++ [mkIov (InWbuf 0) n] |> <| rs_tosend := s32 (rs_tosend r1 + n) |>).
    set (r3 := r2 <| rs_iov := rs_iov r2 ++ [mkIov (InItem q 0) (i_nbytes o1)] |> <| rs_tosend := s32 (rs_tosend r2 + i_nbytes o1) |>).
    assert (Hl2 : (length (rs_iov r2) < MC_RESP_IOVCOUNT)%nat) by (simpl; unfold MC_RESP_IOVCOUNT; lia).
    rewrite (bind_run (add_value _ _ _) _ (with_last z3 rs r2) true (with_last z3 rs r3)).
    2:{ rewrite add_value_plain by done.
        by rewrite (bind_run _ _ _ _ _ (add_iov_run (with_last z3 rs r2) rs r2 (InItem q 0) (i_nbytes o1) eq_refl Hl2)). }
    cbn [negb]. assert (Hq4 : load q (z_world (with_last z3 rs r3)) = Some (o1, s1)) by by apply load_ok.
    rewrite (bind_run _ _ _ _ _ (W_run _ (with_last z3 rs r3) _ _ Hq4)).
    rewrite (bind_run (count_hit o1 false) _ _ tt _ eq_refl). destruct (sd_whole _ Hs1) as [_ ->]. cbn [negb when].
    match goal with |- context [(on_resp _ ≫= _) ?z] => set (z5 := z) end.
    rewrite (bind_run _ _ _ _ _ (on_resp_run z5 rs r3 _ eq_refl)).
    destruct (hit_resp_ok (w_heap s1) b q o1 text Hbeg) as (Hr1 & Hr2 & Hr3); [done..|].
    eexists _, D1, R1, _. split; [reflexivity|]. split_and!; try done.
    + constructor; [done|done|]. intros p Hp. simpl. rewrite chain_items_snoc, refs_in_snoc. simpl.
      specialize (Hrs p Hp). specialize (Hle p). case_decide; [subst p; lia|lia].
    + unfold found_text. by rewrite <- Hline, <- Hdata.
  - change (negb (0 =? NULL)) with false. cbv iota. rewrite (bind_run (count_miss false) _ z2 tt _ eq_refl).
    eexists _, D1, R1, fresh_resp. split; [reflexivity|]. split_and!; try done.
    + constructor; [done|done|]. intros p Hp. simpl. rewrite Er, chain_items_snoc, refs_in_snoc, decide_False by done.
      specialize (Hrs p Hp). specialize (Hle p). lia.
    + constructor; simpl; [unfold MC_RESP_IOVCOUNT; lia|done|done|by intros []].
    + simpl. lia.
Qed.

(** ** The command *)

Definition END_text : list Z := txt "END" ++ CRLF.

Lemma get_keys_one tokens ws w k return_cas z z1 :
  spells tokens ws → ws = [w; k] → k ≠ [] → Z.of_nat (length k) ≤ KEY_MAX_LENGTH →
  get_one storage_get_item k 0 return_cas false z = Some (true, z1) →
  get_keys storage_get_item (drop KEY_TOKEN tokens) 0 return_cas false z = Some (GetTerminal (mkToken None 0), z1).
Proof.
  intros Hs -> Hk Hlen Hrun. pose proof (spells_length _ _ Hs) as Hn. simpl in Hn.
  destruct (spells_lookup _ _ 1 k Hs eq_refl Hk) as (t & v & Ht & Hb & _ & _ & Hl).
  destruct Hs as (ts & -> & Hts & _). rewrite length_app in Hn. simpl in Hn.
  destruct ts as [|t0 [|t1 [|t2 ts]]]; simpl in Hn; try lia. simpl in Ht. injection Ht as ->.
  unfold KEY_TOKEN. change (drop 1 ([t0; t] ++ [mkToken None 0])) with [t; mkToken None 0]. cbn [get_keys].
  rewrite Hl, Hb. rewrite (proj2 (Z.eqb_neq _ 0)) by (destruct k; [done|simpl; lia]).
  rewrite (proj2 (Z.ltb_ge _ _)) by done. by rewrite (bind_run _ _ _ _ _ Hrun).
Qed.

Lemma process_get_ok z m R D tokens w k return_cas rs :
  spells tokens [w; k] → k ≠ [] → Z.of_nat (length k) ≤ KEY_MAX_LENGTH → ready z m R D →
  k_resps (z_conn z) = rs ++ [fresh_resp] → (∀ q, m !! k = Some q → R q + 2 < 2 ^ 15) →
  (∀ q o, live (z_world z) m k = Some (q, o) → sendable o) →
  ∃ z' D' R' r, process_get_command storage_get_item tokens return_cas false z = Some (tt, z') ∧
    serves z' (live_map (z_world z) m k) R' D' ∧ k_resps (z_conn z') = rs ++ [r] ∧ k_state (z_conn z') = conn_mwrite ∧
    resp_ok (w_heap (z_world z')) r ∧
    resp_bytes (w_heap (z_world z')) r = found_text return_cas k (live (z_world z) m k) ++ END_text.
Proof.
  intros Hs Hk Hlen Hrd Er HR Hsend.
  destruct (get_one_ok z m R D k return_cas rs Hrd Er Hlen HR Hsend) as
    (z1 & D1 & R1 & r1 & Hrun & Hsv & _ & Er1 & Hr1 & Hb1 & Hn1 & Hc1 & Hs1 & Ht1).
  unfold process_get_command. rewrite (bind_run (mret _) _ z (Some 0) z eq_refl), (bind_run (mret 0) _ z 0 z eq_refl). cbv zeta.
  cbn [get_lines]. rewrite !bind_assoc, (bind_run _ _ _ _ _ (get_keys_one _ _ _ _ _ _ _ Hs eq_refl Hk Hlen Hrun)).
  simpl tk_value. cbv iota. rewrite (bind_run (mret None) _ z1 None z1 eq_refl).
  assert (Hl1 : (length (rs_iov r1) < MC_RESP_IOVCOUNT)%nat) by (unfold MC_RESP_IOVCOUNT; lia).
  rewrite (bind_run _ _ _ _ _ (add_iov_run z1 rs r1 (InText (txt "END" ++ [13; 10])) 5 Er1 Hl1)).
  destruct (add_entry_ok (w_heap (z_world z1)) r1 (InText (txt "END" ++ [13; 10])) 5 Hr1 Hc1 Hs1 Hl1 eq_refl) as (Hr2 & Hb2);
    [done|lia|].
  eexists _, D1, R1, _. split; [reflexivity|]. split_and!; [|reflexivity|done|exact Hr2|etransitivity; [exact Hb2|by rewrite Hb1]].
  destruct Hsv as [Hok Hlk Href]. constructor; [done|done|]. intros p Hp. specialize (Href p Hp). simpl.
  rewrite Er1, !chain_items_snoc in *. exact Href.
Qed.

(** ** From the line *)

Variable past : list Z.
Variable safe_strtod : list Z → option spec_float.
Variable report_command : list token_t → M session unit.

(** C5 (functional). get and gets of a key: the answer is the line [VALUE <key>
    <flags> <bytes>] (with the CAS value for gets), the value as it is in the cache
    and END; or END alone when the key has no live entry. The entry itself stays
    (a stale one is dropped), the response holds a reference to it until it is
    sent, and the item lock is given back. *)
Theorem get_correct z m R D line tail k (return_cas : bool) :
  ready z m R D → 0 ∉ line → words line = (if return_cas then txt "gets" else txt "get") :: [k] → k ≠ [] →
  Z.of_nat (length k) ≤ KEY_MAX_LENGTH → (∀ q, m !! k = Some q → R q + 2 < 2 ^ 15) →
  (∀ q o, live (z_world z) m k = Some (q, o) → sendable o) →
  ∃ z' D' R', process_command_ascii storage_get_item past safe_strtod report_command (line ++ 0 :: tail) z = Some (tt, z') ∧
    serves z' (live_map (z_world z) m k) R' D' ∧
    replied z z' (found_text return_cas k (live (z_world z) m k) ++ END_text) conn_mwrite.
Proof.
  intros Hrd H0 Hw Hk Hlen HR Hsend.
  destruct (command_line z m R D line tail _ _ Hrd H0 Hw) as (tokens & v & Hs & Hc & Hv & Hl & Hst & Ht);
    [simpl; lia|destruct return_cas; by apply Nat.leb_le|].
  assert (Hgo : process_command_ascii storage_get_item past safe_strtod report_command (line ++ 0 :: tail) z =
    process_get_command storage_get_item tokens return_cas false (started z)) by (destruct return_cas; dispatch Hc Hv Hl Hst Ht Hs; reflexivity).
  rewrite Hgo. destruct (process_get_ok (started z) m R D tokens _ k return_cas (k_resps (z_conn z)) Hs Hk Hlen) as
    (z' & D' & R' & r & Hrun & Hsv & Er & Hstate & Hr & Hb); [by apply ready_started|done..|].
  exists z', D', R'. split_and!; [done|done|]. exists r. by split_and!.
Qed.
End Get.

#[local] Existing Instance jenkins_fn.

Lemma shop_a_sendable : sendable shop_a.
Proof. constructor; vm_compute; split_and?; congruence. Qed.

Lemma live_sendable (l : option (Z * item)) (p : Z) (a : item) :
  l = Some (p, a) → sendable a → ∀ q o, l = Some (q, o) → sendable o.
Proof. intros -> Ha q o [= <- <-]. exact Ha. Qed.

Lemma get_correct_witness :
  ∃ z' D' R', process_command_ascii no_store [0] (λ _, None) no_report (txt "get  a" ++ 0 :: CRLF) (desk shop_linked idle) =
      Some (tt, z') ∧
    serves z' (live_map shop_linked {[ [97] := 4096 ]} [97]) R' D' ∧
    replied (desk shop_linked idle) z' (txt "VALUE a 0 1" ++ CRLF ++ txt "1" ++ CRLF ++ txt "END" ++ CRLF) conn_mwrite.
Proof.
  destruct desk_ready as (D & Hrd).
  assert (E : txt "VALUE a 0 1" ++ CRLF ++ txt "1" ++ CRLF ++ txt "END" ++ CRLF =
              found_text false [97] (live (z_world (desk shop_linked idle)) {[ [97] := 4096 ]} [97]) ++ END_text).
  { change (z_world (desk shop_linked idle)) with shop_linked. rewrite shop_live. vm_compute. reflexivity. }
  rewrite E. apply (get_correct no_store [0] (λ _, None) no_report (desk shop_linked idle) {[ [97] := 4096 ]} shop_refs D
    (txt "get  a") CRLF [97] false Hrd).
  - apply txt_no_nul. reflexivity.
  - reflexivity.
  - discriminate.
  - discriminate.
  - exact shop_bound.
  - exact (live_sendable _ _ _ shop_live shop_a_sendable).
Defined.
