(* ===== verification/ProtoBinThm.v ===== *)
(** * The binary protocol, from the packet to the answer

    Requests as a client encodes them, the responses it decodes, and what the
    commands do to the abstract cache. *)

From Stdlib Require Import Ascii String SpecFloat.
From stdpp Require Import strings.
From S2P Require Import Prelude StreamThm Keeps Itoa Util Hashes StatsPrefix State Links Queues Assoc AssocSpec Slabs SlabsSpec Items ItemsSpec ItemsAccess ItemsThm Store StoreThm Locks Tokens TokensThm Conn ProtoText ProtoCmd ProtoBin Machine Wire Drive Desk DriveThm MachineThm CommandThm GetThm.

(** ** Network byte order *)

Lemma length_be_bytes n x : length (be_bytes n x) = n.
Proof. revert x. induction n as [|n IH]; intros x; [done|]. cbn [be_bytes]. rewrite length_app, IH. simpl. lia. Qed.

Lemma be_snoc l x : be (l ++ [x]) = be l * 256 + x.
Proof. unfold be. by rewrite foldl_app. Qed.

(** What is written is read back. *)
Lemma be_be_bytes n x : be (be_bytes n x) = x mod 256 ^ Z.of_nat n.
Proof.
  revert x. induction n as [|n IH]; intros x; [simpl; by rewrite Z.mod_1_r|]. cbn [be_bytes]. rewrite be_snoc, IH.
  rewrite Nat2Z.inj_succ, Z.pow_succ_r by lia.
  rewrite (Z.rem_mul_r x 256) by lia. lia.
Qed.

Lemma be_bytes_small n x : 0 ≤ x < 256 ^ Z.of_nat n → be (be_bytes n x) = x.
Proof. intros H. by rewrite be_be_bytes, Z.mod_small. Qed.

(** ** Requests *)

(** A packet: the header, the extras and the key; the value follows. *)
Definition request (op : Z) (ext key : list Z) (bodylen : Z) (opaque : list Z) (cas : Z) : list Z :=
  [PROTOCOL_BINARY_REQ; op] ++ be_bytes 2 (Z.of_nat (length key)) ++ [Z.of_nat (length ext); 0; 0; 0] ++ be_bytes 4 bodylen ++
  opaque ++ be_bytes 8 cas ++ ext ++ key.

Definition request_header (op : Z) (ext key : list Z) (bodylen : Z) (opaque : list Z) (cas : Z) : bin_header :=
  mkHeader PROTOCOL_BINARY_REQ op (Z.of_nat (length key)) (Z.of_nat (length ext)) bodylen opaque cas.

(** Numbers that fit their fields. *)
Record fits (ext key : list Z) (bodylen : Z) (opaque : list Z) (cas : Z) : Prop := {
  fi_ext : Z.of_nat (length ext) < 256;
  fi_key : Z.of_nat (length key) < 2 ^ 16;
  fi_body : 0 ≤ bodylen < 2 ^ 32;
  fi_opaque : length opaque = 4%nat;
  fi_cas : 0 ≤ cas < 2 ^ 64
}.

(** The 24 bytes, for fields of these sizes. *)
Lemma header_fields a op kb el bb ob cb l :
  length kb = 2%nat → length bb = 4%nat → length ob = 4%nat → length cb = 8%nat →
  let b := [a; op] ++ kb ++ [el; 0; 0; 0] ++ bb ++ ob ++ cb ++ l in
  parse_header b = mkHeader a op (be kb) el (be bb) ob (be cb) ∧ drop 24 b = l ∧ length b = (24 + length l)%nat.
Proof.
  intros Hk Hb Ho Hc.
  destruct kb as [|? [|? [|]]]; try done. destruct bb as [|? [|? [|? [|? [|]]]]]; try done.
  destruct ob as [|? [|? [|? [|? [|]]]]]; try done.
  destruct cb as [|? [|? [|? [|? [|? [|? [|? [|? [|]]]]]]]]]; try done.
Qed.

Lemma request_parts op ext key bodylen opaque cas rest :
  fits ext key bodylen opaque cas →
  let b := request op ext key bodylen opaque cas ++ rest in
  parse_header b = request_header op ext key bodylen opaque cas ∧ drop 24 b = ext ++ key ++ rest ∧
  length b = (24 + (length ext + (length key + length rest)))%nat.
Proof.
  intros [He Hk Hb Ho Hc]. unfold request. rewrite <- !app_assoc.
  destruct (header_fields PROTOCOL_BINARY_REQ op (be_bytes 2 (Z.of_nat (length key))) (Z.of_nat (length ext))
    (be_bytes 4 bodylen) opaque (be_bytes 8 cas) (ext ++ key ++ rest)) as (H1 & H2 & H3);
    rewrite ?length_be_bytes; [done..|]. split_and!; [|exact H2|rewrite H3, !length_app; lia].
  rewrite H1. unfold request_header. rewrite !be_bytes_small; [done| | |];
    change (256 ^ Z.of_nat 8) with (2 ^ 64); change (256 ^ Z.of_nat 4) with (2 ^ 32); change (256 ^ Z.of_nat 2) with (2 ^ 16); lia.
Qed.

(** ** Responses *)

(** A response as the client reads it. *)
Definition reply (op : Z) (opaque : list Z) (e : bin_status) (ext key body : list Z) (cas : Z) : list Z :=
  response_header (mkHeader 0 op 0 0 0 opaque 0) (status_code e) (Z.of_nat (length ext)) (Z.of_nat (length key))
    (Z.of_nat (length ext + length key + length body)) cas ++ ext ++ key ++ body.

Definition error_reply (op : Z) (opaque : list Z) (e : bin_status) : list Z :=
  reply op opaque e [] [] (default [] (error_text e)) 0.

Lemma length_response_header h err a b c d : length (h_opaque h) = 4%nat → length (response_header h err a b c d) = 24%nat.
Proof. intros H. unfold response_header. rewrite !length_app, !length_be_bytes, H. done. Qed.

(** A plain entry of the I/O vector, with its bytes. *)
Definition part h r v t : Prop :=
  is_chunks (v_base v) = false ∧ iov_bytes h r v = t ∧ v_len v = Z.of_nat (length t) ∧ base_ok h r (v_len v) (v_base v).

Lemma parts_ok h r ts :
  Forall2 (part h r) (rs_iov r) ts → (length (rs_iov r) ≤ MC_RESP_IOVCOUNT)%nat → rs_chunked_data_iov r = 0%nat →
  rs_skip r = false → rs_tosend r = Z.of_nat (length (concat ts)) → resp_ok h r ∧ resp_bytes h r = concat ts.
Proof.
  intros Hp Hn Hc Hs Ht.
  assert (Hl : lens (rs_iov r) = Z.of_nat (length (concat ts))).
  { clear -Hp. induction Hp as [|v t vs ts (_ & _ & Hl & _) _ IH]; [done|]. simpl. rewrite Hl, IH, length_app. lia. }
  split; [constructor; [done|by rewrite Hl| |]|].
  - clear -Hp. induction Hp as [|v t vs ts (_ & Hb & Hl & Hk) _ IH]; constructor; [|done]. unfold iov_ok. rewrite Hb. split_and!; [lia|lia|done].
  - intros i v Hv. rewrite Hc. destruct (Forall2_lookup_l _ _ _ _ _ Hp Hv) as (t & _ & Hch & _). rewrite Hch. split; [done|lia].
  - unfold resp_bytes. rewrite Hs. f_equal. clear -Hp. induction Hp as [|v t vs ts (_ & Hb & _) _ IH]; [done|]. cbn. by rewrite Hb, IH.
Qed.

(** [take] of the beginning of a buffer that was written there. *)
Lemma slice_blit_head t b n :
  n = Z.of_nat (length t) → Z.of_nat (length t) ≤ Z.of_nat (length b) → slice 0 n (blit 0 t b) = t.
Proof. intros -> H. apply slice_blit_eq; lia. Qed.

Section Bin.
Context {HF : HashFn}.
Implicit Types (z : session) (m : gmap (list Z) Z) (R : Z → Z) (D : queues) (k : list Z) (rs : list mc_resp) (h : bin_header).

Lemma S_run {A} z h c (m : M session A) a z' : m z = Some (a, z') → S_ m (mkBin z h c) = Some (a, mkBin z' h c).
Proof. intros Hm. unfold S_. simpl. by rewrite Hm. Qed.

Lemma Wb_run {A} z h c (op : M world A) a s :
  op (z_world z) = Some (a, s) → Wb op (mkBin z h c) = Some (a, mkBin (z <| z_world := s |>) h c).
Proof. intros Hop. by apply S_run, W_run. Qed.

Lemma set_header_run z h h0 c : modify (λ b, b <| b_header := h |>) (mkBin z h0 c) = Some (tt, mkBin z h c).
Proof. done. Qed.

Lemma set_cmd_run z h c0 c : modify (λ b, b <| b_cmd := c |>) (mkBin z h c0) = Some (tt, mkBin z h c).
Proof. done. Qed.

Lemma record_prefix_bin z h c f : z_mem z = [] → ∃ p, S_ (record_prefix f) (mkBin z h c) = Some (tt, mkBin (z <| z_prefixes := p |>) h c).
Proof. intros Hm. destruct (record_prefix_run f z Hm) as [p Hp]. exists p. by apply S_run. Qed.

(** The response with its header only. *)
Definition header_resp (r : mc_resp) (hd : list Z) : mc_resp :=
  mkResp (blit 0 hd (rs_wbuf r)) 24 24 [mkIov (InWbuf 0) 24] 0 NULL false.

Lemma add_bin_header_run z h c rs r e a kl bl :
  k_resps (z_conn z) = rs ++ [r] → rs_item r = NULL → length (h_opaque h) = 4%nat →
  add_bin_header e a kl bl (mkBin z h c) =
    Some (tt, mkBin (with_last z rs (header_resp r (response_header h (status_code e) a kl bl (c_cas (w_conn (z_world z)))))) h c).
Proof.
  intros Er Hi Ho. unfold add_bin_header. rewrite (bind_run _ _ _ _ _ (S_run _ _ _ _ _ _ (resp_reset_run z rs r Er Hi))).
  rewrite (bind_run get_state _ _ _ _ eq_refl). rewrite (bind_run (Wb _) _ _ _ _ (Wb_run _ _ _ _ _ _ eq_refl)).
  set (hd := response_header _ _ _ _ _ _). assert (Hl : length hd = 24%nat) by by apply length_response_header.
  match goal with |- context [mkBin ?y h c] => set (z1 := y) end.
  assert (E1 : k_resps (z_conn z1) = rs ++ [cleared r]) by done.
  assert (Hfit : 0 + Z.of_nat (length hd) ≤ WRITE_BUFFER_SIZE) by (rewrite Hl; unfold WRITE_BUFFER_SIZE; lia).
  rewrite (bind_run _ _ _ _ _ (S_run _ _ _ _ _ _ (put_run z1 rs _ 0 hd E1 ltac:(lia) Hfit))).
  match goal with |- context [mkBin ?y h c] => set (z2 := y) end.
  rewrite (bind_run _ _ _ _ _ (S_run _ _ _ _ _ _ (on_resp_run z2 rs _ _ eq_refl))).
  match goal with |- context [mkBin ?y h c] => set (z3 := y) end.
  rewrite (S_run _ _ _ _ _ _ (add_iov_run z3 rs _ (InWbuf 0) 24 eq_refl ltac:(simpl; unfold MC_RESP_IOVCOUNT; lia))).
  reflexivity.
Qed.

Lemma header_part hh hd b n v ts i x s :
  length hd = 24%nat → length b = Z.to_nat WRITE_BUFFER_SIZE →
  part hh (mkResp (blit 0 hd b) n v ts i x s) (mkIov (InWbuf 0) 24) hd.
Proof.
  intros Hl Hb. split_and!; [done| |by rewrite Hl|by simpl]. unfold iov_bytes. simpl. apply slice_blit_head; rewrite Hl; [done|].
  rewrite Hb. unfold WRITE_BUFFER_SIZE. lia.
Qed.

Lemma length_header_resp r hd :
  length hd = 24%nat → length (rs_wbuf r) = Z.to_nat WRITE_BUFFER_SIZE → length (rs_wbuf (header_resp r hd)) = Z.to_nat WRITE_BUFFER_SIZE.
Proof. intros Hl Hb. simpl. rewrite length_blit; [done|lia|]. rewrite Hl, Hb. unfold WRITE_BUFFER_SIZE. lia. Qed.

(** A header and a text. *)
Definition text_resp (r : mc_resp) (hd t : list Z) : mc_resp :=
  (header_resp r hd) <| rs_iov := [mkIov (InWbuf 0) 24; mkIov (InText t) (Z.of_nat (length t))] |>
                   <| rs_tosend := s32 (24 + Z.of_nat (length t)) |>.

Lemma text_resp_ok r hd t :
  length hd = 24%nat → length (rs_wbuf r) = Z.to_nat WRITE_BUFFER_SIZE → Z.of_nat (length t) < 2 ^ 30 →
  answers (text_resp r hd t) (hd ++ t).
Proof.
  intros Hl Hb Ht. split_and!; [done|exact (length_header_resp r hd Hl Hb)|done|]. intros hh.
  rewrite <- (app_nil_r t) at 2. change (hd ++ t ++ []) with (concat [hd; t]). apply and_comm, parts_ok; [|simpl; unfold MC_RESP_IOVCOUNT; lia|done|done|].
  - constructor; [by apply header_part|]. constructor; [|constructor]. split_and!; try done. unfold iov_bytes. simpl. rewrite Nat2Z.id. apply firstn_all.
  - simpl. rewrite !length_app, Hl. simpl. rewrite s32_small; lia.
Qed.

Lemma header_resp_ok r hd :
  length hd = 24%nat → length (rs_wbuf r) = Z.to_nat WRITE_BUFFER_SIZE → answers (header_resp r hd) hd.
Proof.
  intros Hl Hb. split_and!; [done|exact (length_header_resp r hd Hl Hb)|done|]. intros hh.
  rewrite <- (app_nil_r hd) at 2. change (hd ++ []) with (concat [hd]). apply and_comm, parts_ok; [|simpl; unfold MC_RESP_IOVCOUNT; lia|done|done|].
  - constructor; [by apply header_part|constructor].
  - simpl. rewrite app_nil_r, Hl. done.
Qed.

Lemma fresh_answers : answers fresh_resp [].
Proof.
  split_and!; [done|apply length_fresh|done|]. intros hh. split; [done|].
  constructor; [simpl; unfold MC_RESP_IOVCOUNT; lia|done|constructor|by intros []].
Qed.

(** The body of a response: its header tells the lengths. *)
Lemma reply_header h e t cas :
  response_header h (status_code e) 0 0 (Z.of_nat (length t)) cas ++ t = reply (h_opcode h) (h_opaque h) e [] [] t cas.
Proof. done. Qed.

Lemma error_text_length e t : error_text e = Some t → 0 < Z.of_nat (length t) < 2 ^ 30.
Proof. by destruct e; intros [= <-]. Qed.

Definition after_error z rs r swallow : session :=
  z <| z_conn := (if 0 <? swallow then (z_conn z) <| k_resps := rs ++ [r] |> <| k_sbytes := swallow |> <| k_state := conn_swallow |>
                  else (z_conn z) <| k_resps := rs ++ [r] |> <| k_state := conn_mwrite |>) |>.

Lemma write_bin_error_ok z h c rs r e t swallow :
  k_resps (z_conn z) = rs ++ [r] → rs_item r = NULL → length (h_opaque h) = 4%nat → length (rs_wbuf r) = Z.to_nat WRITE_BUFFER_SIZE →
  c_cas (w_conn (z_world z)) = 0 → error_text e = Some t →
  ∃ r', write_bin_error e None swallow (mkBin z h c) = Some (tt, mkBin (after_error z rs r' swallow) h c) ∧
    answers r' (error_reply (h_opcode h) (h_opaque h) e).
Proof.
  intros Er Hi Ho Hb Hcas Ht. pose proof (error_text_length _ _ Ht) as Hl. unfold write_bin_error. rewrite Ht. cbv zeta.
  rewrite (bind_run _ _ _ _ _ (add_bin_header_run z h c rs r _ _ _ _ Er Hi Ho)), Hcas, (proj2 (Z.ltb_lt 0 (Z.of_nat (length t)))) by lia.
  set (hd := response_header _ _ _ _ _ _). assert (Hhd : length hd = 24%nat) by by apply length_response_header.
  set (z1 := with_last _ _ _).
  rewrite (bind_run _ _ _ _ _ (S_run _ _ _ _ _ _ (add_iov_run z1 rs _ (InText t) _ eq_refl ltac:(simpl; unfold MC_RESP_IOVCOUNT; lia)))).
  exists (text_resp r hd t). split; [unfold after_error; destruct (0 <? swallow); reflexivity|].
  unfold error_reply. rewrite Ht. change (default [] (Some t)) with t. rewrite <- (reply_header h e t 0). apply text_resp_ok; [done..|lia].
Qed.

(** A response without a body, or none for a quiet command. *)
Lemma write_bin_response_ok z h c rs r cas :
  k_resps (z_conn z) = rs ++ [r] → r = fresh_resp → length (h_opaque h) = 4%nat → c_cas (w_conn (z_world z)) = cas →
  c ≠ CMD_GET → c ≠ CMD_GETK →
  ∃ r', write_bin_response no_body 0 0 0 (mkBin z h c) =
      Some (tt, mkBin (z <| z_conn := (z_conn z) <| k_resps := rs ++ [r'] |> <| k_state := conn_new_cmd |> |>) h c) ∧
    answers r' (if k_noreply (z_conn z) then [] else reply (h_opcode h) (h_opaque h) SUCCESS [] [] [] cas).
Proof.
  intros Er Hr Ho Hcas Hg Hgk. unfold write_bin_response. rewrite (bind_run get_state _ _ _ _ eq_refl). cbn [b_session b_cmd].
  rewrite (proj2 (Z.eqb_neq c CMD_GET)), (proj2 (Z.eqb_neq c CMD_GETK)), !orb_false_r by done.
  destruct (k_noreply (z_conn z)); cbn [negb].
  - rewrite (bind_run (mret tt) _ _ _ _ eq_refl). exists fresh_resp. split; [|apply fresh_answers]. unfold conn_set_state.
    subst r. rewrite <- Er. by destruct z as [? [] ? ? ? ?].
  - assert (Hi : rs_item r = NULL) by by rewrite Hr. assert (Hb : length (rs_wbuf r) = Z.to_nat WRITE_BUFFER_SIZE) by (rewrite Hr; apply length_fresh).
    clear Hr. rewrite bind_assoc, (bind_run _ _ _ _ _ (add_bin_header_run z h c rs r _ _ _ _ Er Hi Ho)), Hcas.
    set (hd := response_header _ _ _ _ _ _). assert (Hhd : length hd = 24%nat) by by apply length_response_header.
    exists (header_resp r hd). split; [reflexivity|]. unfold reply. rewrite !app_nil_r. by apply header_resp_ok.
Qed.

(** ** From the packet to the command *)

Variable storage_get_item : Z → M session Z.
Variable past : list Z.
Variable process_bin_stat : list Z → M bsession unit.

(** The session once the packet is taken from the buffer. *)
Definition taken z (n : Z) (rest : list Z) : session :=
  let z1 := started z in
  z1 <| z_world := (z_world z) <| w_conn := (w_conn (z_world z)) <| c_cas := 0 |> |> |>
     <| z_conn := (z_conn z1) <| k_last_cmd_time := w_current_time (z_world z) |> <| k_rbuf := rest |>
                              <| k_rcurr := k_rcurr (z_conn z) + n |> |>.

Definition packet_length (ext key : list Z) : Z := Z.of_nat (length key) + Z.of_nat (length ext) + 24.

Lemma try_read_request z h0 c0 op ext key bodylen opaque cas rest :
  z_mem z = [] → fits ext key bodylen opaque cas → Z.of_nat (length ext) ≤ BIN_MAX_EXTLEN →
  k_rbuf (z_conn z) = request op ext key bodylen opaque cas ++ rest →
  try_read_command_binary storage_get_item past process_bin_stat (mkBin z h0 c0) =
    (dispatch_bin_command storage_get_item past process_bin_stat key ext ;; mret 1)
      (mkBin (taken z (packet_length ext key) rest) (request_header op ext key bodylen opaque cas) op).
Proof.
  intros Hm Hf He Eb. destruct (request_parts op ext key bodylen opaque cas rest Hf) as (Hp & Hd & Hl).
  unfold try_read_command_binary. rewrite (bind_run _ _ _ _ _ (S_run z h0 c0 (gets z_conn) _ _ eq_refl)). cbv zeta. rewrite Eb, Hp.
  set (buf := request _ _ _ _ _ _ ++ rest) in *. rewrite (proj2 (Z.ltb_ge _ 24)) by lia.
  rewrite (bind_run _ _ _ _ _ (set_header_run _ _ _ _)). unfold request_header at 1 2 3 4 5 6 7 8. cbn [h_magic h_opcode h_keylen h_extlen].
  rewrite Z.eqb_refl. cbn [negb]. rewrite (proj2 (Z.ltb_ge _ (Z.of_nat (length key) + _ + 24))) by lia.
  rewrite (bind_run (S_ resp_start) _ _ _ _ (S_run _ _ _ _ _ _ (resp_start_run z Hm))). cbn [negb].
  rewrite (bind_run _ _ _ _ _ (set_cmd_run _ _ _ _)). rewrite (bind_run (set_conn_cas 0) _ _ _ _ (Wb_run _ _ _ _ _ _ eq_refl)).
  rewrite (bind_run (Wb _) _ _ _ _ (Wb_run _ _ _ _ _ _ eq_refl)). rewrite (bind_run (S_ _) _ _ _ _ (S_run _ _ _ _ _ _ eq_refl)).
  assert (Ee : slice 24 (Z.min (Z.of_nat (length ext)) BIN_MAX_EXTLEN) buf = ext).
  { unfold slice. change (Z.to_nat 24) with 24%nat. rewrite Hd, Z.min_l, Nat2Z.id by done. apply take_app_length. }
  assert (Ek : slice (24 + Z.of_nat (length ext)) (Z.of_nat (length key)) buf = key).
  { unfold slice. rewrite Z2Nat.inj_add, <- drop_drop by lia. change (Z.to_nat 24) with 24%nat.
    rewrite Hd, !Nat2Z.id, drop_app_length. apply take_app_length. }
  assert (Er : drop (Z.to_nat (Z.of_nat (length key) + Z.of_nat (length ext) + 24)) buf = rest).
  { replace (Z.to_nat _) with (24 + (length ext + length key))%nat by lia. rewrite <- drop_drop, Hd, <- drop_drop, drop_app_length. apply drop_app_length. }
  rewrite Ee, Ek. unfold taken, packet_length. rewrite <- Er. rewrite <- Eb. reflexivity.
Qed.

(** A packet whose lengths are in order. *)
Definition quiet_op (op : Z) : bool := bool_decide (is_Some (loud op)).
Definition loud_op (op : Z) : Z := default op (loud op).

Lemma dispatch_run z h op key ext :
  h_keylen h + h_extlen h ≤ h_bodylen h → 0 ≤ h_extlen h → h_keylen h ≤ KEY_MAX_LENGTH →
  dispatch_bin_command storage_get_item past process_bin_stat key ext (mkBin z h op) =
    bin_command storage_get_item past process_bin_stat (loud_op op) (h_extlen h) (h_keylen h) (h_bodylen h) key ext
      (mkBin (with_noreply (quiet_op op) z) h (loud_op op)).
Proof.
  intros Hb He Hk. unfold dispatch_bin_command. rewrite (bind_run get_state _ _ _ _ eq_refl). cbn [b_header b_cmd]. cbv zeta.
  rewrite (proj2 (Z.ltb_ge _ (h_keylen h))), (proj2 (Z.ltb_ge _ (h_keylen h + h_extlen h))) by lia. cbn [orb].
  rewrite (bind_run (S_ _) _ _ _ _ (S_run _ _ _ _ _ _ eq_refl)). rewrite (proj2 (Z.ltb_ge _ _)) by done.
  unfold loud_op, quiet_op. destruct (loud op) as [cmd|].
  - rewrite bool_decide_true by done. by rewrite (bind_run _ _ _ _ _ (set_cmd_run _ _ _ _)).
  - rewrite bool_decide_false by (by intros [? ?]). by rewrite (bind_run (S_ _) _ _ _ _ (S_run _ _ _ _ _ _ eq_refl)).
Qed.

(** Both together. *)
Lemma request_run z h0 c0 op ext key bodylen opaque cas rest :
  z_mem z = [] → fits ext key bodylen opaque cas → Z.of_nat (length ext) ≤ BIN_MAX_EXTLEN →
  Z.of_nat (length key) ≤ KEY_MAX_LENGTH → Z.of_nat (length key) + Z.of_nat (length ext) ≤ bodylen →
  k_rbuf (z_conn z) = request op ext key bodylen opaque cas ++ rest →
  try_read_command_binary storage_get_item past process_bin_stat (mkBin z h0 c0) =
    (bin_command storage_get_item past process_bin_stat (loud_op op) (Z.of_nat (length ext)) (Z.of_nat (length key)) bodylen key ext ;; mret 1)
      (mkBin (with_noreply (quiet_op op) (taken z (packet_length ext key) rest)) (request_header op ext key bodylen opaque cas) (loud_op op)).
Proof.
  intros Hm Hf He Hk Hb Eb. rewrite (try_read_request z h0 c0 op ext key bodylen opaque cas rest Hm Hf He Eb).
  unfold mbind at 1 2, M_bind at 1 2. rewrite dispatch_run; [done|simpl; lia|simpl; lia|done].
Qed.

Lemma serves_taken z m R D n rest nr : serves z m R D → serves (with_noreply nr (taken z n rest)) m R D.
Proof.
  intros [Hok Hl Hr]. constructor; [by apply cache_ok_conn|done|]. intros p Hp. simpl. rewrite chain_items_snoc, refs_in_snoc, decide_False by done.
  specialize (Hr p Hp). lia.
Qed.

(** ** delete *)

Lemma unlink_and_delete_ok s m R D k q :
  cache_ok s m R D → m !! k = Some q → 0 < R q → R q + 1 < 2 ^ 15 →
  ∃ s' D', (do_item_unlink q (hash k) ;; storage_delete q) s = Some (tt, s') ∧ cache_ok s' (delete k m) R D' ∧ w_conn s' = w_conn s.
Proof.
  intros Hok Hm HR Hmax. destruct (do_item_unlink_ok s m R D k q Hok Hm Hmax) as (s1 & D1 & Hun & Hok1 & Hfr1 & _).
  destruct (cache_usable _ _ _ _ q Hok1) as (it1 & [Hp1 _] & _); [by left|].
  destruct (storage_delete_run s1 q it1 Hp1) as (e & Hst & _).
  exists (s1 <| w_ext := e |>), D1. split_and!; [by rewrite (bind_run _ _ _ _ _ Hun)|by apply (cache_ok_same s1)|].
  unfold item_frame in Hfr1. by apply (f_equal w_conn) in Hfr1.
Qed.

(** The lock is given back at the end. *)
Lemma unlock_serves z0 z m R D k rs r t h c :
  locked_for (z_world z0) (z_world z) k → cache_ok (z_world z) m R D →
  (∀ p, p ≠ NULL → refs_in (chain_items rs) p ≤ R p) → k_resps (z_conn z) = rs ++ [r] → answers r t →
  ∃ z', Wb (item_unlock (hash k)) (mkBin z h c) = Some (tt, mkBin z' h c) ∧ serves z' m R D ∧ z_conn z' = z_conn z.
Proof.
  intros Hlo Hok Hr Er [Hi _]. eexists. split; [by apply Wb_run, (item_unlock_run (z_world z0))|]. split; [|done].
  constructor; [by apply cache_ok_locks|done|]. intros p Hp. simpl. rewrite Er, chain_items_snoc, refs_in_snoc, Hi, decide_False by done.
  specialize (Hr p Hp). lia.
Qed.

(** The reference and the lock are given back at the end. *)
Lemma release_and_unlock z0 z m R D k q rs r t h c :
  locked_for (z_world z0) (z_world z) k → cache_ok (z_world z) m (upd R q (R q + 1)) D → 0 ≤ R q →
  (∀ p, p ≠ NULL → refs_in (chain_items rs) p ≤ R p) → k_resps (z_conn z) = rs ++ [r] → answers r t →
  ∃ z' D', (Wb (do_item_remove q) ;; Wb (item_unlock (hash k))) (mkBin z h c) = Some (tt, mkBin z' h c) ∧
    serves z' m R D' ∧ z_conn z' = z_conn z.
Proof.
  intros Hl Hok HR Hrs Er Ha. destruct (do_item_remove_ok (z_world z) m _ D q Hok) as (s & D' & Hrem & Hok' & _); [rewrite upd_eq; lia|].
  rewrite (bind_run _ _ _ _ _ (Wb_run z h c _ _ _ Hrem)). apply (cache_ok_R _ _ _ _ _ (λ x, eq_sym (upd_back R q x))) in Hok'.
  destruct (unlock_serves z0 (z <| z_world := s |>) m R D' k rs r t h c) as (z' & Hun & Hs & Ec); try done;
    [by apply (locked_keeps _ _ _ _ _ _ Hl (locks_do_item_remove q) Hrem)|]. by exists z', D'.
Qed.

Definition delete_outcome (found : option (Z * item)) (cas : Z) : bin_status :=
  match found with
  | Some (_, o) => if (cas =? 0) || (cas =? ITEM_get_cas o) then SUCCESS else KEY_EEXISTS
  | None => KEY_ENOENT
  end.

(** A quiet command is silent when it succeeds, and only then. *)
Definition status_reply (op : Z) (opaque : list Z) (nr : bool) (e : bin_status) : list Z :=
  match e with SUCCESS => if nr then [] else reply op opaque SUCCESS [] [] [] 0 | _ => error_reply op opaque e end.
Definition status_state (e : bin_status) : conn_states := match e with SUCCESS => conn_new_cmd | _ => conn_mwrite end.
Definition delete_map (e : bin_status) k m : gmap (list Z) Z := match e with KEY_EEXISTS => m | _ => delete k m end.

Lemma process_bin_delete_ok z m R D h k rs :
  serves z m R D → z_mem z = [] → c_cas (w_conn (z_world z)) = 0 → length (h_opaque h) = 4%nat →
  k_resps (z_conn z) = rs ++ [fresh_resp] → (∀ q, m !! k = Some q → R q + 2 < 2 ^ 15) →
  let e := delete_outcome (live (z_world z) m k) (h_cas h) in
  ∃ z' D' r', process_bin_delete k (mkBin z h CMD_DELETE) = Some (tt, mkBin z' h CMD_DELETE) ∧ serves z' (delete_map e k m) R D' ∧
    k_resps (z_conn z') = rs ++ [r'] ∧ k_state (z_conn z') = status_state e ∧ k_rbuf (z_conn z') = k_rbuf (z_conn z) ∧
    answers r' (status_reply (h_opcode h) (h_opaque h) (k_noreply (z_conn z)) e).
Proof.
  intros [Hok Hlk Href] Hm Hcas Ho Er HR e. unfold process_bin_delete. rewrite (bind_run get_state _ _ _ _ eq_refl).
  destruct (record_prefix_bin z h CMD_DELETE (stats_prefix_record_delete k) Hm) as [ps Hps]. rewrite (bind_run _ _ _ _ _ Hps).
  set (z1 := z <| z_prefixes := ps |>).
  destruct (get_locked_ok (z_world z) m R D k Hok Hlk HR) as (s1 & D1 & Hget & Hctx & _ & Hlocked & Hlive).
  rewrite (bind_run _ _ _ _ _ (Wb_run z1 h CMD_DELETE _ _ _ Hget)). set (z2 := z1 <| z_world := s1 |>).
  assert (Hrs : ∀ p, p ≠ NULL → refs_in (chain_items rs) p ≤ R p).
  { intros p Hp. specialize (Href p Hp). rewrite Er, chain_items_snoc, refs_in_snoc, decide_False in Href by done. lia. }
  assert (Hcas1 : c_cas (w_conn s1) = 0) by (unfold ctx in Hctx; congruence). clear Hctx Hget Hps Href.
  destruct (live (z_world z) m k) as [[q o]|]; unfold e; cbn [delete_outcome].
  - destruct Hlive as (Hmk & Hq0 & Hok1 & _ & o1 & Hq1 & Hco). apply content_cas in Hco as (Eo & _).
    rewrite (proj2 (Z.eqb_neq q NULL)) by done. cbn [negb b_header].
    rewrite !bind_assoc, (bind_run _ _ _ _ _ (Wb_run z2 h _ _ _ _ (load_ok _ _ _ Hq1))). cbv zeta. rewrite Eo.
    specialize (HR q Hmk). pose proof (co_refs _ _ _ _ Hok q) as HR0.
    destruct ((h_cas h =? 0) || (h_cas h =? ITEM_get_cas o)).
    + destruct (unlink_and_delete_ok s1 m _ D1 k q Hok1 Hmk) as (s3 & D3 & Hun & Hok3 & Econn); [rewrite upd_eq; lia..|].
      assert (Hlocked3 : locked_for (z_world z) s3 k).
      { refine (locked_keeps _ _ _ _ _ _ Hlocked _ Hun). apply keeps_bind; [apply _|apply locks_do_item_unlink|intros _; apply locks_storage_delete]. }
      rewrite !bind_assoc, (bind_run _ _ _ _ _ (S_run _ _ _ (on_cmd_stats _) _ _ eq_refl)), bind_assoc.
      match goal with |- context [mkBin ?y h CMD_DELETE] => set (z3 := y) end.
      rewrite (bind_run _ _ _ _ _ (Wb_run z3 h _ _ _ _ Hun)). set (z4 := z3 <| z_world := s3 |>).
      destruct (write_bin_response_ok z4 h CMD_DELETE rs fresh_resp 0 Er eq_refl Ho) as (r' & Hw & Ha);
        [change (c_cas (w_conn s3) = 0); congruence|done|done|]. rewrite (bind_run _ _ _ _ _ Hw).
      match goal with |- context [mkBin ?y h CMD_DELETE] => set (z6 := y) end.
      destruct (release_and_unlock z z6 (delete k m) R D3 k q rs r' _ h CMD_DELETE Hlocked3 Hok3 (proj1 HR0) Hrs eq_refl Ha) as (z5 & D5 & Hrun & Hs5 & Ec5).
      exists z5, D5, r'. rewrite Ec5. by split_and!.
    + destruct (write_bin_error_ok z2 h CMD_DELETE rs fresh_resp KEY_EEXISTS _ 0 Er eq_refl Ho length_fresh Hcas1 eq_refl) as (r' & Hw & Ha).
      rewrite bind_assoc, (bind_run _ _ _ _ _ Hw).
      match goal with |- context [mkBin ?y h CMD_DELETE] => set (z6 := y) end.
      destruct (release_and_unlock z z6 m R D1 k q rs r' _ h CMD_DELETE Hlocked Hok1 (proj1 HR0) Hrs eq_refl Ha) as (z5 & D5 & Hrun & Hs5 & Ec5).
      exists z5, D5, r'. rewrite Ec5. by split_and!.
  - change (negb (0 =? NULL)) with false. cbv iota.
    destruct (write_bin_error_ok z2 h CMD_DELETE rs fresh_resp KEY_ENOENT _ 0 Er eq_refl Ho length_fresh Hcas1 eq_refl) as (r' & Hw & Ha).
    rewrite !bind_assoc, (bind_run _ _ _ _ _ Hw), (bind_run _ _ _ _ _ (S_run _ _ _ (incr_stat _ _) _ _ eq_refl)).
    match goal with |- context [mkBin ?y h CMD_DELETE] => set (z3 := y) end.
    destruct (unlock_serves z z3 (delete k m) R D1 k rs r' _ h CMD_DELETE Hlocked Hlive Hrs eq_refl Ha) as (z5 & Hun & Hs5 & Ec5).
    exists z5, D1, r'. rewrite Ec5. by split_and!.
Qed.

(** ** get *)

Lemma content_flags o o1 : content o1 = content o → FLAGS_CONV o1 = FLAGS_CONV o.
Proof.
  unfold content. intros E. injection E as _ _ _ _ _ Ecf _ _ Ef. unfold FLAGS_CONV.
  by rewrite Ecf, (flag_masked _ (i_it_flags o) ITEM_CFLAGS (Z.lor ITEM_ACTIVE ITEM_FETCHED)).
Qed.

(** The CAS value is put into the header afterwards. *)
Lemma header_cas h e a kl bl cas cas' b :
  length (h_opaque h) = 4%nat → 24 ≤ Z.of_nat (length b) →
  blit 16 (be_bytes 8 cas) (blit 0 (response_header h e a kl bl cas') b) = blit 0 (response_header h e a kl bl cas) b.
Proof.
  intros Ho Hb. set (hd := [PROTOCOL_BINARY_RES; h_opcode h] ++ be_bytes 2 kl ++ [u8 a; 0] ++ be_bytes 2 e ++ be_bytes 4 bl ++ h_opaque h).
  assert (E : ∀ y, response_header h e a kl bl y = hd ++ be_bytes 8 y).
  { intros y. unfold response_header, hd. by rewrite <- !app_assoc. }
  assert (Hl : length hd = 16%nat) by (unfold hd; rewrite !length_app, !length_be_bytes, Ho; done).
  assert (Ht : ∀ y, take 16 (hd ++ y) = hd) by (intros y; rewrite <- Hl; apply take_app_length).
  assert (Hdr : ∀ y, drop (16 + 8) (hd ++ be_bytes 8 cas' ++ y) = y).
  { intros y. rewrite <- drop_drop, <- Hl, drop_app_length. rewrite <- (length_be_bytes 8 cas') at 1. apply drop_app_length. }
  rewrite !E. unfold blit. rewrite !length_app, !length_be_bytes, Hl. change (Z.to_nat 0) with 0%nat. change (Z.to_nat 16) with 16%nat.
  by rewrite !take_0, !app_nil_l, <- !app_assoc, Ht, Hdr.
Qed.

(** A hit: the header, the flags, perhaps the key, and the value. *)
Definition hit_iovs (q : Z) (ks : list (list Z)) (n : Z) : list iov :=
  [mkIov (InWbuf 0) 24; mkIov (InWbuf 24) 4] ++ ((λ t, mkIov (InText t) (Z.of_nat (length t))) <$> ks) ++ [mkIov (InItem q 0) n].

Lemma hit_bin_ok hh b q x hd fl ks n :
  length b = Z.to_nat WRITE_BUFFER_SIZE → length hd = 24%nat → length fl = 4%nat → (length ks ≤ 1)%nat →
  hh !! q = Some x → sendable x → n = 28 + Z.of_nat (length (concat ks)) + (i_nbytes x - 2) →
  let r := mkResp (blit 24 fl (blit 0 hd b)) 24 n (hit_iovs q ks (i_nbytes x - 2)) 0 q false in
  resp_ok hh r ∧ resp_bytes hh r = hd ++ fl ++ concat ks ++ take (Z.to_nat (i_nbytes x - 2)) (i_data x).
Proof.
  intros Hb Hh Hf Hk Hq [_ Hn Hd _ _] En r. set (body := take _ (i_data x)).
  assert (Hbody : Z.of_nat (length body) = i_nbytes x - 2) by (unfold body; rewrite length_take; lia).
  assert (HbZ : Z.of_nat (length b) = 1024) by (rewrite Hb; reflexivity).
  assert (Hb0 : Z.of_nat (length (blit 0 hd b)) = 1024) by (rewrite length_blit; lia).
  assert (Hp : Forall2 (part hh r) (hit_iovs q ks (i_nbytes x - 2)) ([hd; fl] ++ ks ++ [body])).
  { apply Forall2_app; [|apply Forall2_app].
    - constructor; [|constructor; [|constructor]]; (split_and!; [done| |simpl; lia|by simpl]); unfold iov_bytes; cbn [v_base v_len rs_wbuf r].
      + rewrite slice_blit_before by lia. apply slice_blit_head; lia.
      + replace 4 with (Z.of_nat (length fl)) by lia. apply slice_blit_eq; lia.
    - clear -HF. induction ks as [|t ks IH]; constructor; [|done]. split_and!; try done. unfold iov_bytes. simpl. rewrite Nat2Z.id. apply firstn_all.
    - constructor; [|constructor]. split_and!; [done| |done|by simpl]. unfold iov_bytes. simpl. by rewrite Hq. }
  assert (E : hd ++ fl ++ concat ks ++ body = concat ([hd; fl] ++ ks ++ [body])).
  { rewrite !concat_app. simpl. by rewrite !app_nil_r, <- app_assoc. }
  rewrite E.
  apply parts_ok; [done| |done|done|].
  - simpl. rewrite length_app, length_fmap. simpl. unfold MC_RESP_IOVCOUNT. lia.
  - simpl. rewrite concat_app. simpl. rewrite !length_app. simpl. lia.
Qed.

Lemma put_last z rs r p b h c :
  0 ≤ p → p + Z.of_nat (length b) ≤ WRITE_BUFFER_SIZE →
  S_ (put p b) (mkBin (with_last z rs r) h c) =
    Some (p + Z.of_nat (length b), mkBin (with_last z rs (r <| rs_wbuf := blit p b (rs_wbuf r) |>)) h c).
Proof. intros Hp Hl. apply S_run. by apply (put_run (with_last z rs r) rs r). Qed.

Definition add_iov r b n : mc_resp := r <| rs_iov := rs_iov r ++ [mkIov b n] |> <| rs_tosend := s32 (rs_tosend r + n) |>.

Lemma add_iov_last z rs r b n h c :
  (length (rs_iov r) < MC_RESP_IOVCOUNT)%nat →
  S_ (resp_add_iov b n) (mkBin (with_last z rs r) h c) = Some (tt, mkBin (with_last z rs (add_iov r b n)) h c).
Proof. intros Hl. apply S_run. by apply (add_iov_run (with_last z rs r) rs r). Qed.

Definition get_cmd (rk : bool) : Z := if rk then CMD_GETK else CMD_GET.

(** What a get answers, and the state of the connection after it. *)
Definition get_reply (op : Z) (opaque : list Z) (rk nr : bool) k (found : option (Z * item)) : list Z :=
  match found with
  | Some (_, o) => reply op opaque SUCCESS (be_bytes 4 (FLAGS_CONV o)) (if rk then k else [])
                     (take (Z.to_nat (i_nbytes o - 2)) (i_data o)) (ITEM_get_cas o)
  | None => if nr then [] else if rk then reply op opaque KEY_ENOENT [] k [] 0 else error_reply op opaque KEY_ENOENT
  end.
Definition get_state_after (rk nr : bool) (found : option (Z * item)) : conn_states :=
  match found with None => if nr || rk then conn_new_cmd else conn_mwrite | Some _ => conn_new_cmd end.

(** The header of a key that was not found has the key behind it. *)
Definition key_miss_reply h k : list Z :=
  response_header h (status_code KEY_ENOENT) 0 (Z.of_nat (length k)) (Z.of_nat (length k)) 0 ++ k.

Lemma key_miss_reply_eq h k : key_miss_reply h k = reply (h_opcode h) (h_opaque h) KEY_ENOENT [] k [] 0.
Proof. unfold key_miss_reply, reply. rewrite !app_nil_r, app_nil_l. cbn [length]. by rewrite Nat.add_0_r, Nat.add_0_l. Qed.

Lemma write_bin_miss_ok z h c rs r k :
  k_resps (z_conn z) = rs ++ [r] → r = fresh_resp → length (h_opaque h) = 4%nat → c_cas (w_conn (z_world z)) = 0 →
  k ≠ [] → Z.of_nat (length k) ≤ KEY_MAX_LENGTH →
  ∃ r', write_bin_miss_response k (mkBin z h c) =
      Some (tt, mkBin (z <| z_conn := (z_conn z) <| k_resps := rs ++ [r'] |> <| k_state := conn_new_cmd |> |>) h c) ∧
    answers r' (key_miss_reply h k).
Proof.
  intros Er Hr Ho Hcas Hk Hlen. unfold KEY_MAX_LENGTH in Hlen.
  assert (Hi : rs_item r = NULL) by by rewrite Hr. assert (Hb : length (rs_wbuf r) = Z.to_nat WRITE_BUFFER_SIZE) by (rewrite Hr; apply length_fresh).
  clear Hr. assert (HbZ : Z.of_nat (length (rs_wbuf r)) = 1024) by (rewrite Hb; reflexivity).
  unfold write_bin_miss_response. cbv zeta. rewrite (proj2 (Z.eqb_neq _ 0)) by (destruct k; [done|simpl; lia]). cbn [negb].
  rewrite (bind_run _ _ _ _ _ (add_bin_header_run z h c rs r _ _ _ _ Er Hi Ho)), Hcas. set (hd := response_header _ _ _ _ _ _).
  assert (Hhd : length hd = 24%nat) by by apply length_response_header.
  assert (Hroom : (length (rs_iov ((header_resp r hd) <| rs_wbuf := blit 24 k (rs_wbuf (header_resp r hd)) |>)) < MC_RESP_IOVCOUNT)%nat) by (simpl; unfold MC_RESP_IOVCOUNT; lia).
  rewrite (bind_run _ _ _ _ _ (put_last _ _ _ 24 k h c ltac:(lia) ltac:(unfold WRITE_BUFFER_SIZE; lia))).
  rewrite (bind_run _ _ _ _ _ (add_iov_last z rs _ (InWbuf 24) _ h c Hroom)).
  exists (mkResp (blit 24 k (blit 0 hd (rs_wbuf r))) 24 (s32 (24 + Z.of_nat (length k)))
    [mkIov (InWbuf 0) 24; mkIov (InWbuf 24) (Z.of_nat (length k))] 0 NULL false). split; [reflexivity|].
  assert (Hb0 : Z.of_nat (length (blit 0 hd (rs_wbuf r))) = 1024) by (rewrite length_blit; lia).
  split_and!; [done|cbn [rs_wbuf]; rewrite length_blit; [|lia|lia]; apply Nat2Z.inj; rewrite Hb0; reflexivity|done|]. intros hh.
  unfold key_miss_reply. fold hd. clearbody hd. replace (hd ++ k) with (concat [hd; k]) by (simpl; by rewrite app_nil_r).
  apply and_comm, parts_ok; [|simpl; unfold MC_RESP_IOVCOUNT; lia|done|done|].
  - constructor; [|constructor; [|constructor]]; (split_and!; [done| |simpl; lia|by simpl]); unfold iov_bytes; cbn [v_base v_len rs_wbuf].
    + rewrite slice_blit_before by lia. apply slice_blit_head; lia.
    + apply slice_blit_eq; lia.
  - simpl. rewrite !length_app, Hhd. simpl. rewrite s32_small; lia.
Qed.

(** The session after a hit. *)
Definition bin_hit z rs h (rk : bool) k (q : Z) (o : item) : session :=
  with_last z rs
    (mkResp (blit 24 (be_bytes 4 (FLAGS_CONV o)) (blit 0 (response_header h (status_code SUCCESS) 4 (if rk then Z.of_nat (length k) else 0)
       (4 + (i_nbytes o - 2) + (if rk then Z.of_nat (length k) else 0)) (ITEM_get_cas o)) (rs_wbuf fresh_resp)))
       24 (28 + (if rk then Z.of_nat (length k) else 0) + (i_nbytes o - 2))
       (hit_iovs q (if rk then [k] else []) (i_nbytes o - 2)) 0 q false).

Lemma bin_hit_ok z rs h (rk : bool) k q o :
  length (h_opaque h) = 4%nat → w_heap (z_world z) !! q = Some o → sendable o →
  ∃ r, k_resps (z_conn (bin_hit z rs h rk k q o)) = rs ++ [r] ∧ rs_item r = q ∧ resp_ok (w_heap (z_world z)) r ∧
    resp_bytes (w_heap (z_world z)) r = get_reply (h_opcode h) (h_opaque h) rk false k (Some (q, o)).
Proof.
  intros Ho Hq Hs. pose proof (sd_nbytes _ Hs) as Hn. pose proof (sd_data _ Hs) as Hd.
  eexists. split; [reflexivity|]. split; [done|].
  destruct (hit_bin_ok (w_heap (z_world z)) (rs_wbuf fresh_resp) q o
    (response_header h (status_code SUCCESS) 4 (if rk then Z.of_nat (length k) else 0)
       (4 + (i_nbytes o - 2) + (if rk then Z.of_nat (length k) else 0)) (ITEM_get_cas o)) (be_bytes 4 (FLAGS_CONV o))
    (if rk then [k] else []) (28 + (if rk then Z.of_nat (length k) else 0) + (i_nbytes o - 2))) as [Hr Hb];
    [apply length_fresh|by apply length_response_header|done|destruct rk; simpl; lia|done|done|
     destruct rk; simpl; rewrite ?app_nil_r; lia|].
  split; [exact Hr|]. etransitivity; [exact Hb|]. unfold get_reply, reply. rewrite length_be_bytes, length_take, Nat.min_l by lia.
  destruct rk; cbn [concat]; rewrite ?app_nil_r; f_equal; unfold response_header; cbn [h_opcode h_opaque length]; repeat f_equal; lia.
Qed.

Lemma get_flags rk :
  ((get_cmd rk =? CMD_TOUCH) || (get_cmd rk =? CMD_GAT) || (get_cmd rk =? CMD_GATK) = false) ∧
  ((get_cmd rk =? CMD_GETK) || (get_cmd rk =? CMD_GATK) = rk) ∧ ((get_cmd rk =? CMD_TOUCH) = false).
Proof. by destruct rk. Qed.

(** The entries behind the header. *)
Lemma hit_entries z rs h (rk : bool) k q o err_cas c :
  length (h_opaque h) = 4%nat → sendable o → Z.of_nat (length k) ≤ 250 →
  let n := Z.of_nat (length k) in
  let hd := response_header h (status_code SUCCESS) 4 (if rk then n else 0) (4 + (i_nbytes o - 2) + (if rk then n else 0)) err_cas in
  (S_ (put 16 (be_bytes 8 (ITEM_get_cas o))) ;;
   S_ (put 24 (be_bytes 4 (FLAGS_CONV o))) ;;
   S_ (resp_add_iov (InWbuf 24) 4) ;;
   (if rk then S_ (resp_add_iov (InText k) n) else mret tt) ;;
   S_ (resp_add_iov (InItem q 0) (i_nbytes o - 2)) ;;
   S_ (conn_set_state conn_new_cmd) ;;
   S_ (on_resp (λ r, r <| rs_item := q |>))) (mkBin (with_last z rs (header_resp fresh_resp hd)) h c) =
  Some (tt, mkBin ((bin_hit z rs h rk k q o) <| z_conn := (z_conn (bin_hit z rs h rk k q o)) <| k_state := conn_new_cmd |> |>) h c).
Proof.
  intros Ho Hs Hk n hd. pose proof (sd_nbytes _ Hs) as Hn.
  assert (Hhd : length hd = 24%nat) by by apply length_response_header.
  set (r0 := header_resp fresh_resp hd). set (x := ITEM_get_cas o). set (f := FLAGS_CONV o).
  rewrite (bind_run _ _ _ _ _ (put_last z rs r0 16 (be_bytes 8 x) h c ltac:(lia) ltac:(rewrite length_be_bytes; unfold WRITE_BUFFER_SIZE; lia))).
  set (r1 := r0 <| rs_wbuf := _ |>).
  rewrite (bind_run _ _ _ _ _ (put_last z rs r1 24 (be_bytes 4 f) h c ltac:(lia) ltac:(rewrite length_be_bytes; unfold WRITE_BUFFER_SIZE; lia))).
  set (r2 := r1 <| rs_wbuf := _ |>).
  assert (Hroom : (length (rs_iov r2) < MC_RESP_IOVCOUNT)%nat) by by apply Nat.ltb_lt.
  rewrite (bind_run _ _ _ _ _ (add_iov_last z rs r2 (InWbuf 24) 4 h c Hroom)). set (r3 := add_iov r2 _ _).
  set (r4 := if rk then add_iov r3 (InText k) n else r3).
  rewrite (bind_run (if rk then _ else _) _ _ tt (mkBin (with_last z rs r4) h c)).
  2:{ destruct rk; [|done]. apply add_iov_last. by apply Nat.ltb_lt. }
  assert (Hroom4 : (length (rs_iov r4) < MC_RESP_IOVCOUNT)%nat) by (destruct rk; by apply Nat.ltb_lt).
  rewrite (bind_run _ _ _ _ _ (add_iov_last z rs r4 (InItem q 0) _ h c Hroom4)). set (r5 := add_iov r4 _ _).
  rewrite (bind_run _ _ _ _ _ (S_run _ _ _ (conn_set_state conn_new_cmd) _ _ eq_refl)).
  match goal with |- context [mkBin ?y h c] => set (z5 := y) end.
  rewrite (S_run _ _ _ _ _ _ (on_resp_run z5 rs r5 _ eq_refl)).
  assert (T : rs_tosend r5 = 28 + (if rk then n else 0) + (i_nbytes o - 2)).
  { assert (0 ≤ n) by apply Nat2Z.is_nonneg. unfold r5, r4. destruct rk.
    - change (s32 (s32 (28 + n) + (i_nbytes o - 2)) = 28 + n + (i_nbytes o - 2)). rewrite (s32_small (28 + n)), s32_small; lia.
    - change (s32 (28 + (i_nbytes o - 2)) = 28 + 0 + (i_nbytes o - 2)). rewrite s32_small; lia. }
  assert (E : r5 <| rs_item := q |> = mkResp (blit 24 (be_bytes 4 f) (blit 16 (be_bytes 8 x) (blit 0 hd (rs_wbuf fresh_resp)))) 24
    (rs_tosend r5) (hit_iovs q (if rk then [k] else []) (i_nbytes o - 2)) 0 q false) by (unfold r5, r4; by destruct rk).
  rewrite T in E.
  rewrite E. unfold hd at 1. rewrite header_cas; [done|done|]. rewrite length_fresh. unfold WRITE_BUFFER_SIZE. lia.
Qed.

(** No step fails. *)
Lemma unfailed_run {S A B} (m1 : M S A) (m2 : M S B) (m3 m4 m5 m6 m7 g : M S unit) x x' :
  (m1 ;; m2 ;; m3 ;; m4 ;; m5 ;; m6 ;; m7) x = Some (tt, x') →
  (m1 ;; m2 ;; m3 ;; m4 ;; failed ← (m5 ;; mret false); (if negb failed then m6 ;; m7 else g) ;; mret (failed : bool)) x = Some (false, x').
Proof.
  intros H. apply bind_inv in H as (a1 & x1 & H1 & H). apply bind_inv in H as (a2 & x2 & H2 & H).
  apply bind_inv in H as (a3 & x3 & H3 & H). apply bind_inv in H as (a4 & x4 & H4 & H). apply bind_inv in H as (a5 & x5 & H5 & H).
  rewrite (bind_run _ _ _ _ _ H1), (bind_run _ _ _ _ _ H2), (bind_run _ _ _ _ _ H3), (bind_run _ _ _ _ _ H4).
  rewrite bind_assoc, (bind_run _ _ _ _ _ H5), (bind_run (mret false) _ _ _ _ eq_refl). cbn [negb]. by rewrite (bind_run _ _ _ _ _ H).
Qed.

Lemma process_bin_get_hit z m R D h (rk : bool) k rs q o ext :
  serves z m R D → z_mem z = [] → length (h_opaque h) = 4%nat →
  k_resps (z_conn z) = rs ++ [fresh_resp] → Z.of_nat (length k) ≤ KEY_MAX_LENGTH →
  (∀ q, m !! k = Some q → R q + 2 < 2 ^ 15) → live (z_world z) m k = Some (q, o) → sendable o →
  ∃ z' D' R' r, process_bin_get_or_touch storage_get_item k ext (mkBin z h (get_cmd rk)) = Some (tt, mkBin z' h (get_cmd rk)) ∧
    serves z' m R' D' ∧ k_resps (z_conn z') = rs ++ [r] ∧ k_state (z_conn z') = conn_new_cmd ∧ k_rbuf (z_conn z') = k_rbuf (z_conn z) ∧
    resp_ok (w_heap (z_world z')) r ∧
    resp_bytes (w_heap (z_world z')) r = get_reply (h_opcode h) (h_opaque h) rk false k (Some (q, o)).
Proof.
  intros [Hok Hlk Href] Hm Ho Er Hlen HR Hlive Hs.
  destruct (item_get_ok (z_world z) m R D k true Hok Hlk HR) as (s1 & D1 & R1 & Hget & _ & Hlk1 & Hok1 & Hle & Hres).
  unfold live_map in Hok1. rewrite Hlive in *. destruct Hres as (_ & Hq0 & HRq & Hko & o1 & Hq1 & Hco).
  destruct (content_sendable o o1 false k Hco Hs) as (Hs1 & _ & Hdata & Hkey & Hnb). pose proof (content_flags _ _ Hco) as Hfl.
  pose proof (content_cas _ _ Hco) as (Hcas & _). pose proof Hs1 as [[Hch Hhdr] Hn1 _ _ _].
  unfold process_bin_get_or_touch. rewrite (bind_run get_state _ _ _ _ eq_refl). cbn [b_cmd b_session]. cbv zeta.
  destruct (get_flags rk) as (-> & -> & ->). set (z1 := z <| z_world := s1 |>).
  rewrite (bind_run _ _ _ _ _ (Wb_run z h (get_cmd rk) _ _ _ Hget)), (proj2 (Z.eqb_neq q NULL)) by done. cbn [negb].
  rewrite !bind_assoc, (bind_run _ _ _ _ _ (Wb_run z1 h (get_cmd rk) _ _ _ (load_ok _ _ _ Hq1))).
  rewrite !bind_assoc, (bind_run _ _ _ _ _ (S_run _ _ _ (count_hit o1 false) _ _ eq_refl)).
  match goal with |- context [mkBin ?y h (get_cmd rk)] => set (z2 := y) end.
  set (n := Z.of_nat (length k)) in *. unfold KEY_MAX_LENGTH in Hlen.
  assert (Ebl : (if rk then (n, u32 (u32 (4 + (i_nbytes o1 - 2)) + n)) else (0, u32 (4 + (i_nbytes o1 - 2)))) =
                (if rk then n else 0, 4 + (i_nbytes o1 - 2) + (if rk then n else 0))).
  { assert (0 ≤ n) by apply Nat2Z.is_nonneg. rewrite (u32_small (4 + _)) by (pow2_consts; lia). destruct rk; [|f_equal; lia].
    by rewrite u32_small by (pow2_consts; lia). }
  rewrite Ebl. cbv iota beta. rewrite !bind_assoc, (bind_run _ _ _ _ _ (add_bin_header_run z2 h _ rs fresh_resp SUCCESS _ _ _ Er eq_refl Ho)).
  rewrite Hhdr, Hch, Hkey, Hko. cbn [negb andb].
  pose proof (hit_entries z2 rs h rk k q o1 (c_cas (w_conn (z_world z2))) (get_cmd rk) Ho Hs1 Hlen) as Hent. fold n in Hent.
  rewrite (bind_run _ _ _ _ _ (unfailed_run _ _ _ _ _ _ _ (Wb (item_remove q)) _ _ Hent)). clear Hent.
  rewrite (bind_run (when false _) _ _ _ _ eq_refl). match goal with |- context [mkBin ?y h (get_cmd rk)] => set (z3 := y) end.
  destruct (record_prefix_bin z3 h (get_cmd rk) (stats_prefix_record_get k true) Hm) as [ps Hps].
  destruct (bin_hit_ok z2 rs h rk k q o1 Ho Hq1 Hs1) as (r & Er2 & Hi & Hr & Hb).
  exists (z3 <| z_prefixes := ps |>), D1, R1, r. split_and!; [exact Hps| |exact Er2|done|done|exact Hr|].
  - constructor; [exact Hok1|exact Hlk1|]. intros p Hp. change (k_resps (z_conn (z3 <| z_prefixes := ps |>))) with (k_resps (z_conn (bin_hit z2 rs h rk k q o1))).
    rewrite Er2, chain_items_snoc, refs_in_snoc, Hi. specialize (Href p Hp). rewrite Er, chain_items_snoc, refs_in_snoc, decide_False in Href by done.
    specialize (Hle p). case_decide; [subst p|]; lia.
  - etransitivity; [exact Hb|]. unfold get_reply. by rewrite Hfl, Hnb, Hdata, Hcas.
Qed.

Lemma process_bin_get_miss z m R D h (rk : bool) k rs ext :
  serves z m R D → z_mem z = [] → c_cas (w_conn (z_world z)) = 0 → length (h_opaque h) = 4%nat →
  k_resps (z_conn z) = rs ++ [fresh_resp] → k ≠ [] → Z.of_nat (length k) ≤ KEY_MAX_LENGTH →
  (∀ q, m !! k = Some q → R q + 2 < 2 ^ 15) → live (z_world z) m k = None →
  ∃ z' D' R' r, process_bin_get_or_touch storage_get_item k ext (mkBin z h (get_cmd rk)) = Some (tt, mkBin z' h (get_cmd rk)) ∧
    serves z' (delete k m) R' D' ∧ k_resps (z_conn z') = rs ++ [r] ∧
    k_state (z_conn z') = get_state_after rk (k_noreply (z_conn z)) None ∧ k_rbuf (z_conn z') = k_rbuf (z_conn z) ∧
    answers r (get_reply (h_opcode h) (h_opaque h) rk (k_noreply (z_conn z)) k None).
Proof.
  intros [Hok Hlk Href] Hm Hcas Ho Er Hk Hlen HR Hlive.
  destruct (item_get_ok (z_world z) m R D k true Hok Hlk HR) as (s1 & D1 & R1 & Hget & Hctx & Hlk1 & Hok1 & Hle & _).
  unfold live_map in Hok1. rewrite Hlive in *. unfold process_bin_get_or_touch. rewrite (bind_run get_state _ _ _ _ eq_refl).
  cbn [b_cmd b_session]. cbv zeta. destruct (get_flags rk) as (-> & -> & ->). set (z1 := z <| z_world := s1 |>).
  rewrite (bind_run _ _ _ _ _ (Wb_run z h (get_cmd rk) _ _ _ Hget)). change (negb (0 =? NULL)) with false. cbv iota.
  rewrite (bind_run (mret true) _ _ _ _ eq_refl). unfold when at 1.
  rewrite bind_assoc, (bind_run _ _ _ _ _ (S_run _ _ _ (count_miss false) _ _ eq_refl)).
  match goal with |- context [mkBin ?y h (get_cmd rk)] => set (z2 := y) end.
  assert (Hcas2 : c_cas (w_conn (z_world z2)) = 0) by (change (c_cas (w_conn s1) = 0); unfold ctx in Hctx; congruence).
  assert (Hrest : ∃ z3 r, (if k_noreply (z_conn z) then S_ (conn_set_state conn_new_cmd) else write_bin_miss_response (if rk then k else []))
      (mkBin z2 h (get_cmd rk)) = Some (tt, mkBin z3 h (get_cmd rk)) ∧ z_world z3 = s1 ∧ z_mem z3 = [] ∧ k_resps (z_conn z3) = rs ++ [r] ∧
      k_state (z_conn z3) = get_state_after rk (k_noreply (z_conn z)) None ∧ k_rbuf (z_conn z3) = k_rbuf (z_conn z) ∧
      answers r (get_reply (h_opcode h) (h_opaque h) rk (k_noreply (z_conn z)) k None)).
  { unfold get_reply, get_state_after. destruct (k_noreply (z_conn z)); cbn [orb].
    - eexists _, fresh_resp. split; [by apply S_run|]. split_and!; try done. apply fresh_answers.
    - destruct rk.
      + destruct (write_bin_miss_ok z2 h (get_cmd true) rs fresh_resp k Er eq_refl Ho Hcas2 Hk Hlen) as (r & Hrun & Ha).
        eexists _, r. split; [exact Hrun|]. split_and!; try done. by rewrite <- key_miss_reply_eq.
      + destruct (write_bin_error_ok z2 h (get_cmd false) rs fresh_resp KEY_ENOENT _ 0 Er eq_refl Ho length_fresh Hcas2 eq_refl) as (r & Hrun & Ha).
        eexists _, r. split; [exact Hrun|]. by split_and!. }
  destruct Hrest as (z3 & r & Hrun & Hw & Hm3 & Er3 & Hst & Hbuf & Ha). rewrite (bind_run _ _ _ _ _ Hrun).
  destruct (record_prefix_bin z3 h (get_cmd rk) (stats_prefix_record_get k false) Hm3) as [ps Hps].
  exists (z3 <| z_prefixes := ps |>), D1, R1, r. split_and!; try done. constructor; simpl; rewrite ?Hw; [done|done|].
  intros p Hp. specialize (Href p Hp). specialize (Hle p). destruct Ha as [Hi _].
  rewrite Er, chain_items_snoc, refs_in_snoc, decide_False in Href by done. rewrite Er3, chain_items_snoc, refs_in_snoc, Hi, decide_False by done. lia.
Qed.

(** ** The claims *)

(** A session that serves, with this packet next in its buffer. *)
Record awaiting z m R D (packet rest : list Z) : Prop := {
  aw_ready : serves z m R D ∧ z_mem z = [];
  aw_packet : k_rbuf (z_conn z) = packet ++ rest
}.

Definition get_opcode (rk nr : bool) : Z :=
  match rk, nr with false, false => CMD_GET | false, true => CMD_GETQ | true, false => CMD_GETK | true, true => CMD_GETKQ end.

Lemma get_opcode_loud rk nr : loud_op (get_opcode rk nr) = get_cmd rk ∧ quiet_op (get_opcode rk nr) = nr.
Proof. by destruct rk, nr. Qed.

(** C7 (functional). The get requests of the binary protocol, from the packet to
    the answer: GET, GETK and their quiet forms, for any key, opaque and CAS field.
    A live entry is answered with a header that repeats opcode and opaque, gives
    the lengths and the CAS value of the entry, then its flags, the key if it was
    asked for, and the value without its line end. A quiet miss is not answered; a
    GETK miss repeats the key and a GET miss says Not found. The packet, and only
    it, is taken from the buffer, the entry stays (a stale one is dropped), the
    response holds a reference to it and the item lock is given back. *)
Theorem bin_get_correct z h0 c0 m R D k opaque cas rest (rk nr : bool) :
  let op := get_opcode rk nr in
  awaiting z m R D (request op [] k (Z.of_nat (length k)) opaque cas) rest → k ≠ [] → Z.of_nat (length k) ≤ KEY_MAX_LENGTH →
  length opaque = 4%nat → 0 ≤ cas < 2 ^ 64 → (∀ q, m !! k = Some q → R q + 2 < 2 ^ 15) →
  let found := live (z_world z) m k in
  (∀ q o, found = Some (q, o) → sendable o) →
  ∃ z' D' R' h', try_read_command_binary storage_get_item past process_bin_stat (mkBin z h0 c0) = Some (1, mkBin z' h' (get_cmd rk)) ∧
    serves z' (live_map (z_world z) m k) R' D' ∧ k_rbuf (z_conn z') = rest ∧
    replied z z' (get_reply op opaque rk nr k found) (get_state_after rk nr found).
Proof.
  intros op [[Hsv Hm] Ebuf] Hk Hlen Ho Hcas HR found Hs. unfold KEY_MAX_LENGTH in Hlen.
  assert (Hf : fits [] k (Z.of_nat (length k)) opaque cas) by (constructor; simpl; lia).
  rewrite (request_run z h0 c0 op [] k _ opaque cas rest Hm Hf ltac:(done) Hlen ltac:(simpl; lia) Ebuf).
  set (z1 := with_noreply (quiet_op op) _). set (h := request_header _ _ _ _ _ _). subst op. destruct (get_opcode_loud rk nr) as [Hl Hq]. rewrite Hl.
  assert (Hcmd : bin_command storage_get_item past process_bin_stat (get_cmd rk) 0 (Z.of_nat (length k)) (Z.of_nat (length k)) k [] =
    process_bin_get_or_touch storage_get_item k []).
  { assert (Hc : (0 =? 0) && (Z.of_nat (length k) =? Z.of_nat (length k)) && (0 <? Z.of_nat (length k)) = true)
      by (rewrite !Z.eqb_refl; cbn [andb]; apply Z.ltb_lt; destruct k; [done|simpl; lia]).
    unfold bin_command, or_protocol_error. destruct rk; cbn [get_cmd]; repeat eval_if; by rewrite Hc. }
  change (Z.of_nat (length [])) with 0. rewrite Hcmd.
  assert (Hsv1 : serves z1 m R D) by by apply serves_taken. change (live (z_world z) m k) with (live (z_world z1) m k) in found.
  change (live_map (z_world z) m k) with (live_map (z_world z1) m k). unfold live_map. fold found.
  destruct found as [[q o]|] eqn:Efound.
  - destruct (process_bin_get_hit z1 m R D h rk k (k_resps (z_conn z)) q o [] Hsv1 Hm Ho eq_refl Hlen HR Efound (Hs q o eq_refl)) as
      (z' & D' & R' & r & Hrun & Hsv' & Er & Hst & Hbuf & Hr & Hb).
    rewrite (bind_run _ _ _ _ _ Hrun). exists z', D', R', h. split_and!; try done. by exists r.
  - destruct (process_bin_get_miss z1 m R D h rk k (k_resps (z_conn z)) [] Hsv1 Hm eq_refl Ho eq_refl Hk Hlen HR Efound) as
      (z' & D' & R' & r & Hrun & Hsv' & Er & Hst & Hbuf & Ha).
    rewrite (bind_run _ _ _ _ _ Hrun). exists z', D', R', h. change (k_noreply (z_conn z1)) with (quiet_op (get_opcode rk nr)) in *.
    rewrite Hq in *. split_and!; try done. by apply (replied_started z z' r).
Qed.

Definition delete_opcode (nr : bool) : Z := if nr then CMD_DELETEQ else CMD_DELETE.

(** C9 (functional). DELETE and DELETEQ of the binary protocol, from the packet to
    the answer. A live entry goes if the CAS field of the request is zero or that
    of the entry; with another CAS value it stays and the answer is Data exists for
    key. Without a live entry (a stale one is dropped) the answer is Not found. The
    quiet form is silent when the entry was deleted, and only then. Every reference
    is counted and the item lock is given back. *)
Theorem bin_delete_correct z h0 c0 m R D k opaque cas rest (nr : bool) :
  let op := delete_opcode nr in
  awaiting z m R D (request op [] k (Z.of_nat (length k)) opaque cas) rest → k ≠ [] → Z.of_nat (length k) ≤ KEY_MAX_LENGTH →
  length opaque = 4%nat → 0 ≤ cas < 2 ^ 64 → (∀ q, m !! k = Some q → R q + 2 < 2 ^ 15) →
  let e := delete_outcome (live (z_world z) m k) cas in
  ∃ z' D' h', try_read_command_binary storage_get_item past process_bin_stat (mkBin z h0 c0) = Some (1, mkBin z' h' CMD_DELETE) ∧
    serves z' (delete_map e k m) R D' ∧ k_rbuf (z_conn z') = rest ∧
    replied z z' (status_reply op opaque nr e) (status_state e).
Proof.
  intros op [[Hsv Hm] Ebuf] Hk Hlen Ho Hcas HR e. unfold KEY_MAX_LENGTH in Hlen.
  assert (Hf : fits [] k (Z.of_nat (length k)) opaque cas) by (constructor; simpl; lia).
  rewrite (request_run z h0 c0 op [] k _ opaque cas rest Hm Hf ltac:(done) Hlen ltac:(simpl; lia) Ebuf).
  assert (Hq : loud_op op = CMD_DELETE ∧ quiet_op op = nr) by (unfold op; by destruct nr). destruct Hq as [-> ->].
  set (z1 := with_noreply nr _). set (h := request_header _ _ _ _ _ _).
  assert (Hcmd : bin_command storage_get_item past process_bin_stat CMD_DELETE 0 (Z.of_nat (length k)) (Z.of_nat (length k)) k [] = process_bin_delete k).
  { assert (Hc : (0 <? Z.of_nat (length k)) && (0 =? 0) && (Z.of_nat (length k) =? Z.of_nat (length k)) = true)
      by (rewrite !Z.eqb_refl, !andb_true_r; apply Z.ltb_lt; destruct k; [done|simpl; lia]).
    unfold bin_command, or_protocol_error. repeat eval_if. by rewrite Hc. }
  change (Z.of_nat (length [])) with 0. rewrite Hcmd.
  assert (Hsv1 : serves z1 m R D) by by apply serves_taken.
  destruct (process_bin_delete_ok z1 m R D h k (k_resps (z_conn z)) Hsv1 Hm eq_refl Ho eq_refl HR) as
    (z' & D' & r & Hrun & Hsv' & Er & Hst & Hbuf & Ha).
  rewrite (bind_run _ _ _ _ _ Hrun). exists z', D', h. split_and!; try done. by apply (replied_started z z' r).
Qed.

(** Opcodes the dispatch does not know. *)
Definition unknown_opcode (op : Z) : Prop := op = 27 ∨ op = 31 ∨ 37 ≤ op < 256.

Ltac not_this op :=
  repeat match goal with
  | |- context [op =? ?c] => let v := eval vm_compute in c in rewrite (proj2 (Z.eqb_neq op c)) by (change c with v; lia)
  end.

Lemma unknown_opcode_run op ext key extlen keylen bodylen :
  unknown_opcode op →
  loud_op op = op ∧ bin_command storage_get_item past process_bin_stat op extlen keylen bodylen key ext =
    write_bin_error UNKNOWN_COMMAND None (s32 bodylen).
Proof. unfold unknown_opcode, loud_op, loud, bin_command. intros H. cbv zeta. not_this op. cbn [orb]. done. Qed.

(** C26 (error). A request with an opcode the server does not know is answered with
    Unknown command and its body is to be skipped. But the extras and the key are
    taken from the buffer with the header, and the whole length of the body is
    skipped after them: only the value is left of it, so as many bytes of what the
    client sends next are lost as the extras and the key have. *)
Theorem bin_unknown_skips_too_much z h0 c0 m R D op ext key value opaque cas next :
  let lost := Z.of_nat (length ext + length key) in
  let bodylen := lost + Z.of_nat (length value) in
  awaiting z m R D (request op ext key bodylen opaque cas) (value ++ next) → unknown_opcode op →
  Z.of_nat (length ext) ≤ BIN_MAX_EXTLEN → Z.of_nat (length key) ≤ KEY_MAX_LENGTH → 0 < bodylen < 2 ^ 31 →
  length opaque = 4%nat → 0 ≤ cas < 2 ^ 64 →
  ∃ z' h' c', try_read_command_binary storage_get_item past process_bin_stat (mkBin z h0 c0) = Some (1, mkBin z' h' c') ∧
    serves z' m R D ∧ replied z z' (error_reply op opaque UNKNOWN_COMMAND) conn_swallow ∧
    k_rbuf (z_conn z') = value ++ next ∧ k_sbytes (z_conn z') = Z.of_nat (length value) + lost.
Proof.
  intros lost bodylen [[Hsv Hm] Ebuf] Hop Hext Hkey Hb Ho Hcas. unfold BIN_MAX_EXTLEN, KEY_MAX_LENGTH in *.
  assert (Hf : fits ext key bodylen opaque cas) by (constructor; lia).
  rewrite (request_run z h0 c0 op ext key bodylen opaque cas (value ++ next) Hm Hf Hext Hkey ltac:(lia) Ebuf).
  destruct (unknown_opcode_run (loud_op op) ext key (Z.of_nat (length ext)) (Z.of_nat (length key)) bodylen) as [_ ->].
  { by rewrite (proj1 (unknown_opcode_run op ext key 0 0 0 Hop)). }
  set (z1 := with_noreply (quiet_op op) _). set (h := request_header _ _ _ _ _ _). rewrite s32_small by lia.
  assert (Hsv1 : serves z1 m R D) by by apply serves_taken.
  destruct (write_bin_error_ok z1 h (loud_op op) (k_resps (z_conn z)) fresh_resp UNKNOWN_COMMAND _ bodylen eq_refl eq_refl Ho length_fresh eq_refl eq_refl)
    as (r & Hrun & Ha). rewrite (bind_run _ _ _ _ _ Hrun). unfold after_error. rewrite (proj2 (Z.ltb_lt 0 bodylen)) by lia.
  eexists _, h, _. split; [reflexivity|]. split_and!; [|by apply (replied_started z _ r)|done|simpl; lia].
  destruct Hsv1 as [Hok1 Hlk1 Href1]. constructor; [done|done|]. intros p Hp. specialize (Href1 p Hp).
  simpl in Href1 |- *. rewrite chain_items_snoc, refs_in_snoc in *. destruct Ha as [-> _]. exact Href1.
Qed.
End Bin.

(** ** On the small server *)

#[local] Existing Instance jenkins_fn.

Definition no_bin_stat (key : list Z) : M bsession unit := write_bin_error UNKNOWN_COMMAND None 0.

(** Any header and opcode of an earlier request. *)
Definition no_header : bin_header := mkHeader 0 0 0 0 0 [0; 0; 0; 0] 0.

Definition bin_desk (packet rest : list Z) : session := desk shop_linked (idle <| k_rbuf := packet ++ rest |>).

Lemma bin_desk_awaiting packet rest : ∃ D, awaiting (bin_desk packet rest) {[ [97] := 4096 ]} shop_refs D packet rest.
Proof.
  destruct shop_linked_ok as (D & Hok & _). exists D. constructor; [|reflexivity]. split; [|reflexivity].
  constructor; [exact Hok|reflexivity|]. intros p _. change (refs_in _ p) with 0. unfold shop_refs.
  by destruct ((p =? 4096) || (p =? 4192)).
Qed.

Definition noop_packet : list Z := request CMD_NOOP [] [] 0 [0; 0; 0; 9] 0.

Lemma bin_get_correct_witness :
  let packet := request CMD_GETKQ [] [97] 1 [1; 2; 3; 4] 7 in
  ∃ z' D' R' h', try_read_command_binary no_store [0] no_bin_stat (mkBin (bin_desk packet noop_packet) no_header 0) =
      Some (1, mkBin z' h' CMD_GETK) ∧
    serves z' (live_map shop_linked {[ [97] := 4096 ]} [97]) R' D' ∧ k_rbuf (z_conn z') = noop_packet ∧
    replied (bin_desk packet noop_packet) z'
      [129; 13; 0; 1; 4; 0; 0; 0; 0; 0; 0; 6; 1; 2; 3; 4; 0; 0; 0; 0; 0; 0; 0; 1; 0; 0; 0; 0; 97; 49] conn_new_cmd.
Proof.
  intros packet. destruct (bin_desk_awaiting packet noop_packet) as (D & Hrd).
  assert (E : [129; 13; 0; 1; 4; 0; 0; 0; 0; 0; 0; 6; 1; 2; 3; 4; 0; 0; 0; 0; 0; 0; 0; 1; 0; 0; 0; 0; 97; 49] =
    get_reply CMD_GETKQ [1; 2; 3; 4] true true [97] (live (z_world (bin_desk packet noop_packet)) {[ [97] := 4096 ]} [97])).
  { change (z_world (bin_desk packet noop_packet)) with shop_linked. rewrite shop_live. vm_compute. reflexivity. }
  rewrite E. assert (Es : conn_new_cmd = get_state_after true true (live (z_world (bin_desk packet noop_packet)) {[ [97] := 4096 ]} [97])).
  { change (z_world (bin_desk packet noop_packet)) with shop_linked. rewrite shop_live. reflexivity. }
  rewrite Es.
  apply (bin_get_correct no_store [0] no_bin_stat (bin_desk packet noop_packet) no_header 0 {[ [97] := 4096 ]} shop_refs D [97]
    [1; 2; 3; 4] 7 noop_packet true true Hrd).
  - discriminate.
  - discriminate.
  - reflexivity.
  - lia.
  - exact shop_bound.
  - exact (live_sendable _ _ _ shop_live shop_a_sendable).
Defined.

(** A CAS value that is not that of the entry. *)
Lemma bin_delete_correct_witness :
  let packet := request CMD_DELETEQ [] [97] 1 [1; 2; 3; 4] 99 in
  ∃ z' D' h', try_read_command_binary no_store [0] no_bin_stat (mkBin (bin_desk packet noop_packet) no_header 0) =
      Some (1, mkBin z' h' CMD_DELETE) ∧
    serves z' {[ [97] := 4096 ]} shop_refs D' ∧ k_rbuf (z_conn z') = noop_packet ∧
    replied (bin_desk packet noop_packet) z' (error_reply CMD_DELETEQ [1; 2; 3; 4] KEY_EEXISTS) conn_mwrite.
Proof.
  intros packet. destruct (bin_desk_awaiting packet noop_packet) as (D & Hrd).
  assert (E : delete_outcome (live (z_world (bin_desk packet noop_packet)) {[ [97] := 4096 ]} [97]) 99 = KEY_EEXISTS).
  { change (z_world (bin_desk packet noop_packet)) with shop_linked. rewrite shop_live. vm_compute. reflexivity. }
  pose proof (bin_delete_correct no_store [0] no_bin_stat (bin_desk packet noop_packet) no_header 0 {[ [97] := 4096 ]} shop_refs D [97]
    [1; 2; 3; 4] 99 noop_packet true Hrd ltac:(discriminate) ltac:(discriminate) eq_refl ltac:(lia) shop_bound) as H.
  cbv zeta in H. rewrite E in H. exact H.
Defined.

(** Opcode 200 with four bytes of extras, a key and a value of two bytes: five
    bytes of the packet behind it are skipped too. *)
Lemma bin_unknown_skips_too_much_witness :
  let packet := request 200 [0; 0; 0; 1] [97] 7 [1; 2; 3; 4] 0 in
  ∃ z' D h' c', try_read_command_binary no_store [0] no_bin_stat (mkBin (bin_desk packet ([120; 121] ++ noop_packet)) no_header 0) =
      Some (1, mkBin z' h' c') ∧
    serves z' {[ [97] := 4096 ]} shop_refs D ∧
    replied (bin_desk packet ([120; 121] ++ noop_packet)) z' (error_reply 200 [1; 2; 3; 4] UNKNOWN_COMMAND) conn_swallow ∧
    k_rbuf (z_conn z') = [120; 121] ++ noop_packet ∧ k_sbytes (z_conn z') = 7.
Proof.
  intros packet. destruct (bin_desk_awaiting packet ([120; 121] ++ noop_packet)) as (D & Hrd).
  destruct (bin_unknown_skips_too_much no_store [0] no_bin_stat (bin_desk packet ([120; 121] ++ noop_packet)) no_header 0
    {[ [97] := 4096 ]} shop_refs D 200 [0; 0; 0; 1] [97] [120; 121] [1; 2; 3; 4] 0 noop_packet Hrd) as (z' & h' & c' & H).
  - right. right. lia.
  - discriminate.
  - discriminate.
  - simpl. lia.
  - reflexivity.
  - lia.
  - exists z', D, h', c'. exact H.
Defined.
