(* ===== verification/StoreCmdThm.v ===== *)
(** * The end of a storage command

    What happens when the value of set, add, replace or cas has been read: the
    check of its line end, the store under the item lock, the answer, and the
    reference the connection gives back. *)

From Stdlib Require Import Ascii String SpecFloat.
From stdpp Require Import strings.
From S2P Require Import Prelude StreamThm Keeps Itoa Util Hashes StatsPrefix State Links Queues Assoc AssocSpec Slabs SlabsSpec Items ItemsSpec ItemsAccess ItemsThm Store StoreThm Locks Tokens TokensThm Conn ProtoText ProtoCmd Machine Wire Drive Desk DriveThm MachineThm CommandThm GetThm.

Section StoreCmd.
Context {HF : HashFn}.
Implicit Types (z : session) (m : gmap (list Z) Z) (R : Z → Z) (D : queues) (k : list Z) (rs : list mc_resp) (p q : Z).

(** ** Storing with the item lock *)

Lemma store_item_ok s m R D p it comm :
  cache_ok s m R D → w_locks s = ∅ → held s R p it → no_append comm → i_nkey it = Z.of_nat (length (ITEM_key it)) →
  (∀ q, m !! ITEM_key it = Some q → R q + 2 < 2 ^ 15) →
  let k := ITEM_key it in
  let st := store_answer comm (live s m k) it (c_set_stale (w_conn s)) in
  ∃ s' D', store_item p comm s = Some (st, s') ∧ w_locks s' = ∅ ∧
    cache_ok s' (if is_stored st then <[k := p]> m else live_map s m k) R D' ∧
    (st = STORED → ∃ it', w_heap s' !! p = Some it' ∧ i_data it' = i_data it ∧ c_cas (w_conn s') = ITEM_get_cas it' ∧
       (flag (i_it_flags it) ITEM_CAS = true → ITEM_get_cas it' = next_cas s)) ∧
    (is_stored st = false → w_conn s' = w_conn s).
Proof.
  intros Hok Hlk Hh Hna Hnk HR k st. set (s0 := s <| w_locks := {[item_lock_index s (hash k)]} |>).
  destruct (do_store_item_ok s0 m R D p it comm (cache_ok_locks _ _ _ _ _ Hok) Hh Hna Hnk HR) as (s1 & D1 & Hrun & Hok1 & Hst & Hun).
  exists (s1 <| w_locks := ∅ |>), D1. split_and!.
  - unfold store_item, hash_of. rewrite bind_assoc, (bind_run _ _ _ _ _ (load_ok _ _ _ (proj1 (proj2 Hh)))).
    exact (locked_run s k _ _ _ Hlk (locks_do_store_item _ _ _ Hna) Hrun).
  - done.
  - apply cache_ok_locks. exact Hok1.
  - intros E. destruct (Hst E) as (it' & Hp & Hd & _ & _ & _ & Hc & Hn). by exists it'.
  - exact Hun.
Qed.

(** ** A connection whose value is complete *)

Record loaded z m R D p (it : item) (comm : nread) : Prop := {
  ld_serves : serves z m R D;
  ld_conn : k_item (z_conn z) = p ∧ k_cmd (z_conn z) = Some comm ∧ k_mset_res (z_conn z) = false;
  ld_held : held (z_world z) R p it;
  ld_owned : refs_in (chain_items (k_resps (z_conn z))) p < R p;
  ld_whole : flag (i_it_flags it) ITEM_CHUNKED = false ∧ i_nkey it = Z.of_nat (length (ITEM_key it));
  ld_value : Z.of_nat (length (i_data it)) = i_nbytes it ∧ 2 ≤ i_nbytes it
}.

(** The answer of the check and the store. *)
Definition set_answer z m (it : item) (comm : nread) : store_item_type :=
  store_answer comm (live (z_world z) m (ITEM_key it)) it (c_set_stale (w_conn (z_world z))).
Definition ends_line (data : list Z) : Prop := drop (length data - 2) data = CRLF.
#[global] Instance ends_line_dec data : Decision (ends_line data) := decide (_ = _).

Definition set_text z m (it : item) (comm : nread) : list Z :=
  if decide (ends_line (i_data it)) then stored_text (set_answer z m it comm) else txt "CLIENT_ERROR bad data chunk".
Definition set_map z m (p : Z) (it : item) (comm : nread) : gmap (list Z) Z :=
  if decide (ends_line (i_data it)) then
    if is_stored (set_answer z m it comm) then <[ITEM_key it := p]> m else live_map (z_world z) m (ITEM_key it)
  else m.

Lemma value_valid_run z p it ritem :
  w_heap (z_world z) !! p = Some it → flag (i_it_flags it) ITEM_CHUNKED = false →
  Z.of_nat (length (i_data it)) = i_nbytes it → 2 ≤ i_nbytes it →
  value_valid p it ritem z = Some (bool_decide (ends_line (i_data it)), z).
Proof.
  intros Hp Hc Hl Hn. unfold value_valid. rewrite Hc. cbn [negb].
  assert (Hrd : data_read p (i_nbytes it - 2) 2 (z_world z) = Some (drop (length (i_data it) - 2) (i_data it), z_world z)).
  { unfold data_read. rewrite (bind_run _ _ _ _ _ (load_ok _ _ _ Hp)).
    rewrite (proj2 (Z.leb_le 0 (i_nbytes it - 2))), (proj2 (Z.leb_le (i_nbytes it - 2 + 2) _)) by lia. cbn [andb Z.leb]. unfold slice.
    replace (Z.to_nat (i_nbytes it - 2)) with (length (i_data it) - 2)%nat by lia.
    rewrite take_ge; [done|]. rewrite length_drop. lia. }
  rewrite (bind_run _ _ _ _ _ (W_run _ z _ _ Hrd)). by destruct z.
Qed.

(** The connection gives its item back. *)
Lemma put_back_ok z m R D p :
  serves z m R D → refs_in (chain_items (k_resps (z_conn z))) p < R p →
  ∃ z' D', (W (modify (λ s, s <| w_conn := (w_conn s) <| c_set_stale := false |> |>)) ;;
      on_conn (λ c, c <| k_mset_res := false |>) ;; W (item_remove p) ;; on_conn (λ c, c <| k_item := NULL |>)) z = Some (tt, z') ∧
    serves z' m (upd R p (R p - 1)) D' ∧ k_resps (z_conn z') = k_resps (z_conn z) ∧
    k_state (z_conn z') = k_state (z_conn z) ∧ k_item (z_conn z') = NULL ∧
    values_same (w_heap (z_world z)) (w_heap (z_world z')) (λ q, q ≠ p ∨ 1 < R p ∨ ∃ k, m !! k = Some p).
Proof.
  intros [Hok Hlk Hr] Hp. set (s1 := (z_world z) <| w_conn := (w_conn (z_world z)) <| c_set_stale := false |> |>).
  assert (Hok1 : cache_ok s1 m R D) by by apply cache_ok_conn.
  destruct (item_remove_ok s1 m R D p Hok1 Hlk) as (s2 & D2 & Hrun & Hok2 & Hfr & Hv); [unfold refs_in in Hp; lia|].
  rewrite (bind_run _ _ _ _ _ (W_run _ z _ _ eq_refl)). fold s1. rewrite (bind_run (on_conn _) _ _ _ _ eq_refl).
  match goal with |- context [(W _ ≫= _) ?z] => set (z1 := z) end.
  rewrite (bind_run _ _ _ _ _ (W_run _ z1 _ _ Hrun)). eexists _, D2. split; [reflexivity|]. split_and!; try done.
  constructor; simpl; [done|by rewrite Hfr|]. intros q Hq. specialize (Hr q Hq). unfold upd. destruct (Z.eqb_spec q p) as [->|]; lia.
Qed.

Lemma stored_text_length st : Z.of_nat (length (stored_text st)) + 2 ≤ WRITE_BUFFER_SIZE.
Proof. by destruct st. Qed.

Lemma refs_in_null rs r p : rs_item r = NULL → p ≠ NULL → refs_in (chain_items (rs ++ [r])) p = refs_in (chain_items rs) p.
Proof. intros Hi Hp. rewrite chain_items_snoc, refs_in_snoc, Hi, decide_False by done. lia. Qed.

(** The check of the line end, the store and the answer. *)
Lemma check_and_store_ok z m R D p it comm rs r ritem :
  loaded z m R D p it comm → no_append comm → (∀ q, m !! ITEM_key it = Some q → R q + 2 < 2 ^ 15) →
  k_resps (z_conn z) = rs ++ [r] → rs_item r = NULL → length (rs_wbuf r) = Z.to_nat WRITE_BUFFER_SIZE →
  ∃ z' D' r', (is_valid ← value_valid p it ritem;
      if negb (is_valid : bool) then when (k_mset_res (z_conn z)) (set_noreply false) ;; out_string (txt "CLIENT_ERROR bad data chunk")
      else match k_cmd (z_conn z) with
           | None => undefined
           | Some comm => ret ← W (store_item p comm); if k_mset_res (z_conn z) then _finalize_mset ret else out_string (stored_text ret)
           end) z = Some (tt, z') ∧
    serves z' (set_map z m p it comm) R D' ∧ k_resps (z_conn z') = rs ++ [r'] ∧ k_state (z_conn z') = conn_new_cmd ∧
    answers r' (quiet (k_noreply (z_conn z)) (set_text z m it comm)) ∧
    (is_stored (set_answer z m it comm) = true → ends_line (i_data it) → i_data <$> w_heap (z_world z') !! p = Some (i_data it)).
Proof.
  intros [Hsv (_ & Hcmd & Hms) Hh _ [Hc Hnk] [Hl Hn]] Hna HR Er Hi Hb. pose proof Hsv as [Hok Hlk Hr].
  rewrite (bind_run _ _ _ _ _ (value_valid_run z p it ritem (proj1 (proj2 Hh)) Hc Hl Hn)), Hms, Hcmd.
  assert (Hsnoc : ∀ r', rs_item r' = NULL → ∀ q, q ≠ NULL → refs_in (chain_items (rs ++ [r'])) q ≤ R q).
  { intros r' Hi' q Hq. specialize (Hr q Hq). rewrite Er in Hr. by rewrite refs_in_null in Hr |- *. }
  unfold set_map, set_text. case_bool_decide as Hv; [rewrite !decide_True by done|rewrite !decide_False by done]; cbn [negb when].
  - destruct (store_item_ok (z_world z) m R D p it comm Hok Hlk Hh Hna Hnk HR) as (s1 & D1 & Hrun & Hlk1 & Hok1 & Hst & _).
    rewrite (bind_run _ _ _ _ _ (W_run _ z _ _ Hrun)). set (z1 := z <| z_world := s1 |>). fold (set_answer z m it comm) in *.
    destruct (out_string_ok z1 rs r (stored_text (set_answer z m it comm)) Er Hi Hb (stored_text_length _)) as (r' & Hout & Ha).
    rewrite Hout. eexists _, D1, r'. split; [reflexivity|]. split_and!; try done.
    + constructor; [exact Hok1|done|]. apply Hsnoc, Ha.
    + intros E _. destruct Hst as (it' & Hp' & Hd & _); [by destruct (set_answer z m it comm)|]. simpl. rewrite Hp'. simpl. by f_equal.
  - rewrite (bind_run (mret tt) _ z tt z eq_refl).
    destruct (out_string_ok z rs r (txt "CLIENT_ERROR bad data chunk") Er Hi Hb) as (r' & Hout & Ha); [by vm_compute|].
    rewrite Hout. eexists _, D, r'. split; [reflexivity|]. split_and!; try done. constructor; [done|done|]. apply Hsnoc, Ha.
Qed.

(** The end of set, add, replace and cas: a value that does not end in CRLF is
    refused and changes nothing; otherwise the command decides, and after STORED
    the key is bound to the item with exactly the bytes read. Either way the
    connection gives up its item. *)
Lemma complete_nread_ok z m R D p it comm rs r :
  loaded z m R D p it comm → no_append comm → (∀ q, m !! ITEM_key it = Some q → R q + 2 < 2 ^ 15) →
  k_resps (z_conn z) = rs ++ [r] → rs_item r = NULL → length (rs_wbuf r) = Z.to_nat WRITE_BUFFER_SIZE →
  ∃ z' D' r', complete_nread_ascii z = Some (tt, z') ∧
    serves z' (set_map z m p it comm) (upd R p (R p - 1)) D' ∧
    k_resps (z_conn z') = rs ++ [r'] ∧ answers r' (quiet (k_noreply (z_conn z)) (set_text z m it comm)) ∧
    k_state (z_conn z') = conn_new_cmd ∧ k_item (z_conn z') = NULL ∧
    (is_stored (set_answer z m it comm) = true → ends_line (i_data it) →
     set_map z m p it comm = <[ITEM_key it := p]> m ∧ i_data <$> w_heap (z_world z') !! p = Some (i_data it)).
Proof.
  intros Hld Hna HR Er Hi Hb. pose proof Hld as [Hsv (Hp & Hcmd & Hms) Hh Hown _ _]. unfold complete_nread_ascii.
  rewrite (bind_run (gets z_conn) _ z _ z eq_refl). cbv zeta. rewrite Hp.
  rewrite (bind_run _ _ _ _ _ (W_run _ z _ _ (load_ok _ _ _ (proj1 (proj2 Hh))))), (bind_run (on_cmd_stats _) _ _ _ _ eq_refl).
  match goal with |- context [(value_valid _ _ _ ≫= _) ?z] => set (z1 := z) end.
  assert (Hld1 : loaded z1 m R D p it comm) by (destruct Hld as [[]]; by constructor).
  destruct (check_and_store_ok z1 m R D p it comm rs r (k_ritem (z_conn z)).1 Hld1 Hna HR Er Hi Hb) as
    (z2 & D2 & r2 & Hrun & Hsv2 & Er2 & Hst2 & Ha2 & Hval).
  change (z_conn z1) with (z_conn z) in Hrun. rewrite <- bind_assoc, (bind_run _ _ _ _ _ Hrun).
  assert (Hp0 : p ≠ NULL) by (by apply (held_out _ _ _ _ _ _ (sv_cache _ _ _ _ Hsv) Hh)).
  destruct (put_back_ok z2 _ R D2 p Hsv2) as (z3 & D3 & Hrun3 & Hsv3 & Er3 & Hst3 & Hit3 & Hv3).
  { rewrite Er in Hown. rewrite Er2, refs_in_null by (done || apply Ha2). by rewrite refs_in_null in Hown. }
  rewrite Hrun3. exists z3, D3, r2. split_and!; try done; [congruence|congruence|].
  intros Hs Hend. change (set_answer z m it comm) with (set_answer z1 m it comm) in Hs.
  assert (Em : set_map z m p it comm = <[ITEM_key it := p]> m).
  { unfold set_map. rewrite decide_True by done. change (set_answer z m it comm) with (set_answer z1 m it comm). by rewrite Hs. }
  split; [done|]. rewrite Hv3; [by apply Hval|]. right; right. exists (ITEM_key it).
  change (set_map z1 m p it comm) with (set_map z m p it comm). by rewrite Em, lookup_insert_eq.
Qed.
End StoreCmd.
