(* ===== verification/SetThm.v ===== *)
(** * The storage commands, from the line to the value

    set, add and replace: what the command line does, and what happens when the
    value has arrived. *)

From Stdlib Require Import Ascii String SpecFloat.
From stdpp Require Import strings.
From S2P Require Import Prelude StreamThm Keeps Itoa Util Hashes StatsPrefix State Links Queues Assoc AssocSpec Slabs SlabsSpec SlabsThm Items ItemsSpec ItemsAccess ItemsThm ItemsPull ItemsAlloc Store StoreThm Locks Tokens TokensThm Conn ProtoText ProtoCmd Machine Wire Drive Desk DriveThm MachineThm CommandThm GetThm StoreCmdThm.

(** ** Numbers end at the NUL of their token *)

Lemma skip_spaces_c_str v : skip_spaces (c_str v) = c_str (skip_spaces v).
Proof.
  induction v as [|c v IH]; [done|]. simpl. destruct (Z.eqb_spec c 0) as [->|Hc]; [done|]. simpl.
  destruct (isspace c); [done|]. simpl. by rewrite (proj2 (Z.eqb_neq c 0)).
Qed.

Lemma scan_digits_c_str v acc : scan_digits 10 (c_str v) acc = let '(n, r) := scan_digits 10 v acc in (n, c_str r).
Proof.
  revert acc. induction v as [|c v IH]; intros acc; [done|]. simpl. destruct (Z.eqb_spec c 0) as [->|Hc]; [done|]. simpl.
  destruct (digit_of 10 c); [apply IH|]. simpl. by rewrite (proj2 (Z.eqb_neq c 0)).
Qed.

Lemma has_digit_c_str v : has_digit 10 (c_str v) = has_digit 10 v.
Proof. destruct v as [|c v]; [done|]. simpl. by destruct (Z.eqb_spec c 0) as [->|]. Qed.

Lemma scan_number_c_str v :
  scan_number 10 (c_str v) = match scan_number 10 v with Some (neg, n, r) => Some (neg, n, c_str r) | None => None end.
Proof.
  assert (Hrest : ∀ (neg : bool) w, (if has_digit 10 (c_str w) then let '(n, r) := scan_digits 10 (c_str w) 0 in Some (neg, n, r) else None) =
    match (if has_digit 10 w then let '(n, r) := scan_digits 10 w 0 in Some (neg, n, r) else None) with
    | Some (neg, n, r) => Some (neg, n, c_str r) | None => None end).
  { intros neg w. rewrite has_digit_c_str, scan_digits_c_str. destruct (has_digit 10 w); [|done]. by destruct (scan_digits 10 w 0). }
  assert (Hno : ∀ l, match l with
           | z :: x :: t => if (10 =? 16) && (z =? 48) && ((x =? 120) || (x =? 88)) && has_digit 16 t then t else l
           | _ => l end = l) by (by intros [|? [|]]).
  unfold scan_number. rewrite skip_spaces_c_str. destruct (skip_spaces v) as [|c w]; [done|]. simpl c_str.
  destruct (Z.eqb_spec c 0) as [->|Hc]; [by destruct w|].
  destruct (Z.eqb_spec c 45) as [->|]; [rewrite !Hno; apply Hrest|].
  destruct (Z.eqb_spec c 43) as [->|]; [rewrite !Hno; apply Hrest|].
  rewrite (Hno (c :: c_str w)), (Hno (c :: w)). specialize (Hrest false (c :: w)). simpl c_str in Hrest. rewrite (proj2 (Z.eqb_neq c 0)) in Hrest by done. exact Hrest.
Qed.

Lemma at_end_c_str r : at_end (c_str r) = at_end r.
Proof. destruct r as [|c r]; [done|]. unfold at_end. simpl. by destruct (Z.eqb_spec c 0) as [->|]. Qed.

Lemma c_str_idem v : c_str (c_str v) = c_str v.
Proof. by apply (c_str_id _ v). Qed.

Lemma safe_strtoull_c_str v : safe_strtoull (c_str v) = safe_strtoull v.
Proof.
  unfold safe_strtoull, safe_strtoull_base. rewrite scan_number_c_str. destruct (scan_number 10 v) as [[[neg n] r]|]; [|done].
  rewrite at_end_c_str. unfold strchr. by rewrite c_str_idem.
Qed.

Lemma safe_strtoul_c_str v : safe_strtoul (c_str v) = safe_strtoul v.
Proof. unfold safe_strtoul. pose proof (safe_strtoull_c_str v) as E. unfold safe_strtoull in E. by rewrite E. Qed.

Lemma safe_strtol_c_str v : safe_strtol (c_str v) = safe_strtol v.
Proof.
  unfold safe_strtol, safe_strtoll. rewrite scan_number_c_str. destruct (scan_number 10 v) as [[[neg n] r]|]; [|done].
  by rewrite at_end_c_str.
Qed.

Section Set_.
Context {HF : HashFn}.
Implicit Types (z : session) (s : world) (m : gmap (list Z) Z) (R : Z → Z) (D : queues) (k : list Z) (rs : list mc_resp) (p q : Z).

(** ** Without memory for the new value *)

(** The allocation may run: the memory that the eviction works with. *)
Record allocates s m R D k (flags vlen : Z) : Prop := {
  al_pull : pull_pre s m R;
  al_sorted : classes_sorted (w_slabs s);
  al_largest : o_slab_chunk_size_max (w_settings s) ≤ p_size (slabcls s (m_power_largest (w_slabs s)));
  al_supply : ∀ id, 1 ≤ id ≤ m_power_largest (w_slabs s) → supply s D R id;
  al_fits : fits s k flags vlen
}.

Lemma item_unlink_ok s m R D k q o :
  cache_ok s m R D → w_locks s = ∅ → m !! k = Some q → R q + 1 < 2 ^ 15 → w_heap s !! q = Some o → ITEM_key o = k →
  ∃ s' D', item_unlink q s = Some (tt, s') ∧ w_locks s' = ∅ ∧ cache_ok s' (delete k m) R D'.
Proof.
  intros Hok Hlk Hm HR Hq Hk. set (s0 := s <| w_locks := {[item_lock_index s (hash k)]} |>).
  destruct (do_item_unlink_ok s0 m R D k q (cache_ok_locks _ _ _ _ _ Hok) Hm HR) as (s1 & D1 & Hrun & Hok1 & _).
  exists (s1 <| w_locks := ∅ |>), D1. split_and!; [|done|by apply cache_ok_locks].
  unfold item_unlink, hash_of. rewrite bind_assoc, (bind_run _ _ _ _ _ (load_ok _ _ _ Hq)), Hk.
  exact (locked_run s k _ _ _ Hlk (locks_do_item_unlink _ _) Hrun).
Qed.

(** A lookup that leaves the item where it is in its queue. *)
Lemma item_get_still_ok s m R D k :
  cache_ok s m R D → w_locks s = ∅ → (∀ q, m !! k = Some q → R q + 2 < 2 ^ 15) →
  ∃ s1 D1, item_get k (Z.of_nat (length k)) false s = Some (match live s m k with Some (q, _) => q | None => 0 end, s1) ∧
    w_locks s1 = ∅ ∧
    match live s m k with
    | Some (q, o) => m !! k = Some q ∧ q ≠ 0 ∧ cache_ok s1 m (upd R q (R q + 1)) D1 ∧ ITEM_key o = k ∧
        ∃ o1, w_heap s1 !! q = Some o1 ∧ content o1 = content o
    | None => cache_ok s1 (delete k m) R D1
    end.
Proof.
  intros Hok Hlk HR. set (s0 := s <| w_locks := {[item_lock_index s (hash k)]} |>).
  destruct (get_for_store s0 m R D k (cache_ok_locks _ _ _ _ _ Hok) HR) as (s1 & D1 & Hget & _ & _ & Hlive).
  exists (s1 <| w_locks := ∅ |>), D1. change (live s0 m k) with (live s m k) in *. split_and!; [|done|].
  - exact (locked_run s k _ _ _ Hlk (locks_do_item_get _ _ _ _) Hget).
  - destruct (live s m k) as [[q o]|]; [|by apply cache_ok_locks].
    destruct Hlive as (Hm & Hq0 & Hok1 & Hq & o1 & Hq1 & Hc). split_and!; [done|done|by apply cache_ok_locks| |by exists o1].
    pose proof (assoc_rep_key _ _ _ _ (co_assoc _ _ _ _ Hok) Hm) as Hk. unfold key_of in Hk.
    change (w_heap s0) with (w_heap s) in Hq. rewrite Hq in Hk. by injection Hk.
Qed.

(** The old value of a key whose new value cannot be stored. *)
Lemma purge_ok s m R D k :
  cache_ok s m R D → w_locks s = ∅ → (∀ q, m !! k = Some q → R q + 2 < 2 ^ 15) →
  ∃ s' D', (old ← item_get k (Z.of_nat (length k)) false;
      if negb (old =? NULL) then item_unlink old ;; storage_delete old ;; item_remove old else mret tt) s = Some (tt, s') ∧
    w_locks s' = ∅ ∧ cache_ok s' (delete k m) R D'.
Proof.
  intros Hok Hlk HR. destruct (item_get_still_ok s m R D k Hok Hlk HR) as (s1 & D1 & Hget & Hlk1 & Hres).
  rewrite (bind_run _ _ _ _ _ Hget). destruct (live s m k) as [[q o]|].
  2:{ change (negb (0 =? NULL)) with false. exists s1, D1. by split_and!. }
  destruct Hres as (Hm & Hq0 & Hok1 & Hk & o1 & Hq1 & Hc). rewrite (proj2 (Z.eqb_neq q NULL)) by done. cbn [negb].
  assert (Hk1 : ITEM_key o1 = k).
  { rewrite <- Hk. unfold content in Hc. injection Hc as E1 E2 _. unfold ITEM_key. by rewrite E1, E2. }
  specialize (HR q Hm). pose proof (co_refs _ _ _ _ Hok q) as HR0.
  destruct (item_unlink_ok s1 m _ D1 k q o1 Hok1 Hlk1 Hm) as (s2 & D2 & Hun & Hlk2 & Hok2); [rewrite upd_eq; lia|done|done|].
  rewrite (bind_run _ _ _ _ _ Hun). destruct (cache_usable _ _ _ _ q Hok2) as (o2 & [Hq2 _] & _); [left; rewrite upd_eq; lia|].
  destruct (storage_delete_run s2 q o2 Hq2) as (e & Hst & _). rewrite (bind_run _ _ _ _ _ Hst). set (s3 := s2 <| w_ext := e |>).
  assert (Hok3 : cache_ok s3 (delete k m) (upd R q (R q + 1)) D2) by by apply (cache_ok_same s2).
  destruct (item_remove_ok s3 _ _ D2 q Hok3 Hlk2) as (s4 & D4 & Hrem & Hok4 & Hfr & _); [rewrite upd_eq; lia|].
  rewrite Hrem. exists s4, D4. split_and!; [done|by rewrite Hfr|]. by apply (cache_ok_R _ _ _ _ _ (λ x, eq_sym (upd_back R q x)) Hok4).
Qed.

(** ** The command *)

(** Entries disappear only when they are flushed or expired, or by eviction. *)
Definition shrunk s m m' (ev : list (list Z)) : Prop :=
  m' ⊆ m ∧ (length ev ≤ 10)%nat ∧
  ∀ k q it, m !! k = Some q → m' !! k = None → w_heap s !! q = Some it → stale s it = true ∨ k ∈ ev.

(** The connection is to read [n] bytes into the new item [p]. *)
Record awaits z R p k (flags exptime n : Z) (comm : nread) (nr : bool) : Prop := {
  aw_conn : k_state (z_conn z) = conn_nread ∧ k_item (z_conn z) = p ∧ k_ritem (z_conn z) = (p, 0) ∧ k_rlbytes (z_conn z) = n;
  aw_cmd : k_cmd (z_conn z) = Some comm ∧ k_mset_res (z_conn z) = false ∧ k_noreply (z_conn z) = nr;
  aw_item : ∃ it, held (z_world z) R p it ∧ ITEM_key it = k ∧ i_nkey it = Z.of_nat (length k) ∧ i_nbytes it = n ∧
    i_exptime it = exptime ∧ FLAGS_CONV it = flags ∧ flag (i_it_flags it) ITEM_CHUNKED = false
}.

(** The command was refused: the value is skipped and, for set, the old one goes. *)
Definition refused_text (text : list Z) : Prop :=
  text = txt "SERVER_ERROR object too large for cache" ∨ text = txt "SERVER_ERROR out of memory storing object".
Definition refused_map (comm : nread) m k : gmap (list Z) Z := match comm with NREAD_SET => delete k m | _ => m end.

Lemma set_cas_zero it : ITEM_set_cas 0 it = it <| i_cas := i_cas (ITEM_set_cas 0 it) |> <| i_data := i_data it |>.
Proof. unfold ITEM_set_cas. destruct (flag _ _); by destruct it. Qed.

Lemma set_cas_header c it : let it' := ITEM_set_cas c it in
  ITEM_key it' = ITEM_key it ∧ i_nkey it' = i_nkey it ∧ i_nbytes it' = i_nbytes it ∧ i_exptime it' = i_exptime it ∧
  FLAGS_CONV it' = FLAGS_CONV it ∧ i_it_flags it' = i_it_flags it ∧ i_data it' = i_data it.
Proof. unfold ITEM_set_cas. by destruct (flag _ _). Qed.

(** The new item is given to the connection. *)
Lemma expect_ok z m R D p it comm :
  serves z m R D → held (z_world z) R p it → flag (i_it_flags it) ITEM_CHUNKED = false →
  let it' := ITEM_set_cas 0 it in
  ∃ z', (W (wr p (ITEM_set_cas 0)) ;; expect_value p comm ;; conn_set_state conn_nread) z = Some (tt, z') ∧
    serves z' m R D ∧ z_world z' = (z_world z) <| w_heap := <[p := it']> (w_heap (z_world z)) |> ∧ z_mem z' = z_mem z ∧
    z_conn z' = (z_conn z) <| k_item := p |> <| k_ritem := (p, 0) |> <| k_rlbytes := i_nbytes it |> <| k_cmd := Some comm |>
      <| k_state := conn_nread |>.
Proof.
  intros [Hok Hlk Hr] (HR & Hp & _) Hc it'. set (s1 := (z_world z) <| w_heap := <[p := it']> (w_heap (z_world z)) |>).
  assert (Hok1 : cache_ok s1 m R D) by (unfold s1, it'; rewrite set_cas_zero; apply (wr_value_ok (z_world z)); [done|by left|done]).
  rewrite (bind_run _ _ _ _ _ (W_run _ z tt s1 (wr_ok _ p (ITEM_set_cas 0) _ Hp))). set (z1 := z <| z_world := s1 |>).
  assert (Hp1 : w_heap (z_world z1) !! p = Some it') by apply lookup_insert_eq.
  destruct (set_cas_header 0 it) as (_ & _ & En & _ & _ & Ef & _). fold it' in En, Ef.
  unfold expect_value. rewrite bind_assoc, (bind_run _ _ _ _ _ (W_run _ z1 _ _ (load_ok _ _ _ Hp1))), Ef, Hc, En.
  rewrite (bind_run (on_conn _) _ _ _ _ eq_refl). eexists. split; [reflexivity|]. by split_and!.
Qed.

Lemma item_size_ok_run nkey flags vlen s : ∃ b, item_size_ok nkey flags vlen s = Some (b, s).
Proof.
  unfold item_size_ok. destruct (vlen <? 2); [by eexists|]. unfold slabs_clsid. munfold.
  destruct ((_ =? 0) || _); by eexists.
Qed.

Lemma alloc_failed_run z rs r (nkey flags vlen : Z) :
  k_resps (z_conn z) = rs ++ [r] → rs_item r = NULL → length (rs_wbuf r) = Z.to_nat WRITE_BUFFER_SIZE →
  ∃ z' r' text, alloc_failed nkey flags vlen out_string z = Some (tt, z') ∧ refused_text text ∧
    z_world z' = z_world z ∧ z_mem z' = z_mem z ∧ z_conn z' = (z_conn z) <| k_resps := rs ++ [r'] |> <| k_state := conn_new_cmd |> ∧
    answers r' (quiet (k_noreply (z_conn z)) text).
Proof.
  intros Er Hi Hb. unfold alloc_failed. destruct (item_size_ok_run nkey flags vlen (z_world z)) as [b Hrun].
  rewrite (bind_run _ _ _ _ _ (W_run _ z _ _ Hrun)). replace (z <| z_world := z_world z |>) with z by (by destruct z).
  destruct b; cbn [negb].
  - destruct (out_string_ok z rs r (txt "SERVER_ERROR out of memory storing object") Er Hi Hb) as (r' & Hout & Ha); [by vm_compute|].
    rewrite (bind_run _ _ _ _ _ Hout). eexists _, r', _. split; [reflexivity|]. split; [by right|]. by split_and!.
  - destruct (out_string_ok z rs r (txt "SERVER_ERROR object too large for cache") Er Hi Hb) as (r' & Hout & Ha); [by vm_compute|].
    rewrite (bind_run _ _ _ _ _ Hout). eexists _, r', _. split; [reflexivity|]. split; [by left|]. by split_and!.
Qed.

(** The value cannot be stored. *)
Lemma refuse_ok z m R D k rs r comm (flags vlen : Z) :
  serves z m R D → (∀ q, m !! k = Some q → R q + 2 < 2 ^ 15) →
  k_resps (z_conn z) = rs ++ [r] → rs_item r = NULL → length (rs_wbuf r) = Z.to_nat WRITE_BUFFER_SIZE →
  ∃ z' D' r' text, (alloc_failed (Z.of_nat (length k)) flags vlen out_string ;; conn_set_state conn_swallow ;;
      on_conn (λ c, c <| k_sbytes := vlen |>) ;;
      match comm with
      | NREAD_SET => old ← W (item_get k (Z.of_nat (length k)) false);
          if negb (old =? NULL) then W (item_unlink old ;; storage_delete old ;; item_remove old) else mret tt
      | _ => mret tt
      end) z = Some (tt, z') ∧ refused_text text ∧ serves z' (refused_map comm m k) R D' ∧
    k_state (z_conn z') = conn_swallow ∧ k_sbytes (z_conn z') = vlen ∧
    k_resps (z_conn z') = rs ++ [r'] ∧ answers r' (quiet (k_noreply (z_conn z)) text).
Proof.
  intros [Hok Hlk Hr] HR Er Hi Hb. destruct (alloc_failed_run z rs r (Z.of_nat (length k)) flags vlen Er Hi Hb) as
    (z1 & r1 & text & Hrun & Htext & Ew & _ & Ec & Ha).
  rewrite (bind_run _ _ _ _ _ Hrun), (bind_run (conn_set_state _) _ _ _ _ eq_refl), (bind_run (on_conn _) _ _ _ _ eq_refl).
  match goal with |- context [match comm with _ => _ end ?z] => set (z2 := z) end.
  assert (Hrefs : ∀ p, p ≠ NULL → refs_in (chain_items (rs ++ [r1])) p ≤ R p).
  { intros p Hp. specialize (Hr p Hp). rewrite Er in Hr. rewrite refs_in_null in Hr |- *; (done || apply Ha). }
  assert (Hsame : serves z2 m R D).
  { constructor; unfold z2; simpl; rewrite ?Ew, ?Ec; done. }
  destruct (purge_ok (z_world z2) m R D k) as (s3 & D3 & Hp & Hlk3 & Hok3); [apply Hsame|apply Hsame|done|].
  assert (E : (old ← W (item_get k (Z.of_nat (length k)) false);
      if negb (old =? NULL) then W (item_unlink old ;; storage_delete old ;; item_remove old) else mret tt) z2 = Some (tt, z2 <| z_world := s3 |>)).
  { destruct (item_get k (Z.of_nat (length k)) false (z_world z2)) as [[old s1]|] eqn:Eg.
    2:{ unfold mbind, M_bind in Hp. by rewrite Eg in Hp. }
    rewrite (bind_run _ _ _ _ _ Eg) in Hp. rewrite (bind_run _ _ _ _ _ (W_run _ z2 _ _ Eg)).
    destruct (negb _); [exact (W_run _ (z2 <| z_world := s1 |>) _ _ Hp)|]. by injection Hp as ->. }
  assert (Hsv3 : serves (z2 <| z_world := s3 |>) (delete k m) R D3).
  { constructor; [exact Hok3|exact Hlk3|]. unfold z2. simpl. by rewrite Ec. }
  destruct comm; cbv iota; rewrite ?E.
  all: eexists _, _, r1, text; split; [reflexivity|]; split; [done|]; split; [first [exact Hsv3|exact Hsame]|].
  all: split_and!; unfold z2; simpl; rewrite ?Ec; done.
Qed.
(** ** The arguments *)

(** The words of a storage command and the numbers they spell. *)
Record update_args (f e n : list Z) (flags exptime vlen : Z) : Prop := {
  ua_flags : safe_strtoul f = Some flags ∧ f ≠ [];
  ua_exptime : safe_strtol e = Some exptime ∧ e ≠ [];
  ua_length : safe_strtol n = Some vlen ∧ n ≠ [];
  ua_range : 0 ≤ vlen ≤ INT_MAX - 2
}.

(** The time of expiration of the item. *)
Definition expires z (exptime : Z) : Z :=
  realtime (g_process_started (z_settings z)) (w_current_time (z_world z)) (EXPTIME_TO_POSITIVE_TIME exptime).

Lemma spells_number {A} (f : list Z → option A) tokens ws i w (z : session) x :
  (∀ v, f (c_str v) = f v) → spells tokens ws → ws !! i = Some w → w ≠ [] → f w = Some x →
  ∃ v, tok tokens i z = Some (v, z) ∧ f v = Some x.
Proof. intros Hf Hs Hi Hw Hx. destruct (spells_tok tokens ws i w z Hs Hi Hw) as (v & Hv & Hc). exists v. by rewrite <- Hf, Hc. Qed.

Lemma update_noreply z tokens w k f e n nr x :
  spells tokens (w :: k :: f :: e :: n :: noreply_word nr) → safe_strtol n = Some x → n ≠ [] → k_noreply (z_conn z) = false →
  set_noreply_maybe tokens z = Some (nr, with_noreply nr z).
Proof.
  intros Hs Hn Hne Hnr. destruct nr.
  - by rewrite (set_noreply_maybe_run tokens _ (txt "noreply") z Hs eq_refl ltac:(done) Hnr), bool_decide_true by done.
  - rewrite (set_noreply_maybe_run tokens _ n z Hs eq_refl Hne Hnr), bool_decide_false; [done|].
    intros ->. by vm_compute in Hn.
Qed.

Lemma outcome_unused s m R s1 m' ev p it' :
  R p ≤ 0 → (∀ k, m' !! k ≠ Some p) → outcome s m R s1 m' ev →
  outcome s m R (s1 <| w_heap := <[p := it']> (w_heap s1) |>) m' ev.
Proof.
  intros HR Hn' [[A1 A2 A3 A4 A5 A6 A7] B C E F]. constructor; [by constructor|done|done| |].
  - intros q it Hq Hor. destruct (E q it Hq Hor) as (it1 & H1 & H2). exists it1. split; [|done]. simpl. rewrite lookup_insert_ne; [done|].
    intros <-. destruct Hor as [?|[k Hk]]; [lia|by apply (Hn' k)].
  - intros q Hq Hm. simpl. rewrite lookup_insert_ne; [by apply F|]. intros <-. lia.
Qed.
(** The command succeeded, or not. *)
Definition accepted z z' m R m' D' ev rs r k (flags exptime n : Z) (comm : nread) (nr : bool) : Prop :=
  ∃ p, R p = 0 ∧ serves z' m' (upd R p 1) D' ∧ awaits z' (upd R p 1) p k flags exptime n comm nr ∧
    k_resps (z_conn z') = rs ++ [r] ∧ outcome (z_world z) m R (z_world z') m' ev.
Definition refused z' m' R D' rs k (n : Z) (comm : nread) (nr : bool) : Prop :=
  ∃ r' text, refused_text text ∧ serves z' (refused_map comm m' k) R D' ∧
    k_state (z_conn z') = conn_swallow ∧ k_sbytes (z_conn z') = n ∧
    k_resps (z_conn z') = rs ++ [r'] ∧ answers r' (quiet nr text).

(** From the allocation on. *)
Lemma update_item_ok z m R D k comm rs r (flags exptime n : Z) :
  serves z m R D → allocates (z_world z) m R D k flags n → k_mset_res (z_conn z) = false →
  k_resps (z_conn z) = rs ++ [r] → rs_item r = NULL → length (rs_wbuf r) = Z.to_nat WRITE_BUFFER_SIZE →
  ∃ z' m' D' ev, (it ← W (item_alloc k (Z.of_nat (length k)) flags exptime n);
      if it =? NULL then
        alloc_failed (Z.of_nat (length k)) flags n out_string ;; conn_set_state conn_swallow ;;
        on_conn (λ c, c <| k_sbytes := n |>) ;;
        match comm with
        | NREAD_SET => old ← W (item_get k (Z.of_nat (length k)) false);
            if negb (old =? NULL) then W (item_unlink old ;; storage_delete old ;; item_remove old) else mret tt
        | _ => mret tt
        end
      else W (wr it (ITEM_set_cas 0)) ;; expect_value it comm ;; conn_set_state conn_nread) z = Some (tt, z') ∧
    shrunk (z_world z) m m' ev ∧
    (accepted z z' m R m' D' ev rs r k flags exptime n comm (k_noreply (z_conn z)) ∨
     refused z' m' R D' rs k n comm (k_noreply (z_conn z))).
Proof.
  intros Hsv [Hpull Hsort Hlarge Hsup Hfit] Hms Er Hi Hb. pose proof Hsv as [Hok Hlk Hr].
  destruct (do_item_alloc_ok (z_world z) m R D k flags exptime n Hok Hpull Hsort Hlarge Hsup Hfit) as
    (it & s1 & m' & D' & ev & Hrun & Hoc & Hev & Hlk1 & Hres).
  unfold item_alloc. rewrite (bind_run _ _ _ _ _ (W_run _ z _ _ Hrun)). set (z1 := z <| z_world := s1 |>).
  assert (Hsh : shrunk (z_world z) m m' ev).
  { split_and!; [apply Hoc|done|]. intros k' q x Hk' Hn Hq. by apply (oc_lost _ _ _ _ _ _ Hoc k' q x). }
  destruct Hres as [[-> Hok1]|(Hit & Hok1 & HR0 & x & Hh & Hk & Hn & He & Hf & _ & Hc & Hnk)].
  - change (NULL =? NULL) with true. cbv iota.
    destruct (refuse_ok z1 m' R D' k rs r comm flags n) as (z2 & D2 & r2 & text & Hrun2 & Htext & Hz2); try done.
    { constructor; [exact Hok1|simpl; by rewrite Hlk1|exact Hr]. }
    { intros q _. apply Hpull. }
    exists z2, m', D2, ev. split; [exact Hrun2|]. split; [done|right]. exists r2, text. split; [done|exact Hz2].
  - rewrite (proj2 (Z.eqb_neq it NULL)) by done.
    assert (Hsv1 : serves z1 m' (upd R it 1) D').
    { constructor; [done|simpl; by rewrite Hlk1|]. intros p Hp. simpl. specialize (Hr p Hp). unfold upd. destruct (Z.eqb_spec p it) as [->|]; lia. }
    destruct (expect_ok z1 m' (upd R it 1) D' it x comm Hsv1 Hh Hc) as (z2 & Hrun2 & Hsv2 & Ew & _ & Ec).
    destruct (set_cas_header 0 x) as (E1 & E2 & E3 & E4 & E5 & E6 & _). rewrite <- E3 in Hn.
    exists z2, m', D', ev. split; [exact Hrun2|]. split; [done|left]. exists it. split; [done|]. split; [done|]. split_and!.
    + constructor; rewrite ?Ec; [by rewrite E3 in Hn; split_and!|by split_and!|]. exists (ITEM_set_cas 0 x). rewrite E1, E2, E4, E5, E6. split_and!; try done.
      split_and!; [apply Hh|rewrite Ew; apply lookup_insert_eq|rewrite E6; apply Hh].
    + by rewrite Ec.
    + rewrite Ew. apply outcome_unused; [lia| |done]. intros k' Hk'.
      by apply (held_ne _ _ _ _ _ _ _ _ Hok1 Hh) in Hk'.
Qed.
Lemma process_update_ok z m R D tokens w k f e n nr comm rs r flags exptime vlen :
  spells tokens (w :: k :: f :: e :: n :: noreply_word nr) → k ≠ [] → Z.of_nat (length k) ≤ KEY_MAX_LENGTH →
  update_args f e n flags exptime vlen → ready z m R D → k_mset_res (z_conn z) = false →
  allocates (z_world z) m R D k flags (vlen + 2) →
  k_resps (z_conn z) = rs ++ [r] → rs_item r = NULL → length (rs_wbuf r) = Z.to_nat WRITE_BUFFER_SIZE →
  ∃ z' m' D' ev, process_update_command tokens comm false z = Some (tt, z') ∧ shrunk (z_world z) m m' ev ∧
    (accepted z z' m R m' D' ev rs r k flags (expires z exptime) (vlen + 2) comm nr ∨ refused z' m' R D' rs k (vlen + 2) comm nr).
Proof.
  intros Hs Hk Hlen [[Hf Hfn] [He Hen] [Hn Hnn] Hrange] [Hsv Hnr Hm] Hms Hal Er Hi Hb. unfold process_update_command.
  rewrite (bind_run _ _ _ _ _ (update_noreply z tokens w k f e n nr _ Hs Hn Hnn Hnr)). set (z1 := with_noreply nr z).
  rewrite (bind_run _ _ _ _ _ (spells_key_too_long tokens _ k z1 Hs eq_refl Hk)), (proj2 (Z.ltb_ge _ _)) by done.
  rewrite (bind_run _ _ _ _ _ (spells_key tokens _ k z1 Hs eq_refl Hk)). cbv zeta.
  destruct (spells_number safe_strtoul tokens _ 2 f z1 _ safe_strtoul_c_str Hs eq_refl Hfn Hf) as (v2 & T2 & N2).
  destruct (spells_number safe_strtol tokens _ 3 e z1 _ safe_strtol_c_str Hs eq_refl Hen He) as (v3 & T3 & N3).
  destruct (spells_number safe_strtol tokens _ 4 n z1 _ safe_strtol_c_str Hs eq_refl Hnn Hn) as (v4 & T4 & N4).
  rewrite (bind_run _ _ _ _ _ T2), (bind_run _ _ _ _ _ T3), (bind_run _ _ _ _ _ T4), N2, N3, N4.
  rewrite (bind_run (exptime_of _) _ z1 (expires z exptime) z1 eq_refl), (bind_run (mret _) _ z1 _ z1 eq_refl).
  rewrite (proj2 (Z.ltb_ge vlen 0)), (proj2 (Z.ltb_ge (INT_MAX - 2) vlen)) by lia. cbn [orb].
  destruct (record_prefix_run (stats_prefix_record_set k) z1) as [ps Hps]; [done|].
  rewrite (bind_run _ _ _ _ _ Hps). set (z2 := z1 <| z_prefixes := ps |>).
  assert (Hsv2 : serves z2 m R D) by (destruct Hsv; by constructor).
  destruct (update_item_ok z2 m R D k comm rs r flags (expires z exptime) (vlen + 2) Hsv2 Hal Hms Er Hi Hb) as
    (z' & m' & D' & ev & Hrun & Hsh & Hres).
  exists z', m', D', ev. split; [exact Hrun|]. split; [exact Hsh|exact Hres].
Qed.

(** ** From the line *)

Variable storage_get_item : Z → M session Z.
Variable past : list Z.
Variable safe_strtod : list Z → option spec_float.
Variable report_command : list token_t → M session unit.

Definition storage_word (comm : nread) : list Z :=
  match comm with
  | NREAD_SET => txt "set" | NREAD_ADD => txt "add" | NREAD_REPLACE => txt "replace"
  | NREAD_APPEND => txt "append" | NREAD_PREPEND => txt "prepend" | NREAD_CAS => txt "cas"
  end.

End Set_.

(** ** On the small server *)

#[local] Existing Instance jenkins_fn.

Lemma spare_ready : ∃ D, ready (desk shop_spare idle) {[ [97] := 4096 ]} shop_refs D ∧ cache_ok shop_spare {[ [97] := 4096 ]} shop_refs D.
Proof.
  destruct shop_spare_ok as (D & Hok). exists D. split; [|exact Hok]. constructor; [|reflexivity|reflexivity].
  constructor; [exact Hok|reflexivity|]. intros p _. change (refs_in _ p) with 0. unfold shop_refs.
  by destruct ((p =? 4096) || (p =? 4192)).
Qed.

Lemma spare_allocates D : cache_ok shop_spare {[ [97] := 4096 ]} shop_refs D →
  allocates shop_spare {[ [97] := 4096 ]} shop_refs D [98; 99] 7 5.
Proof.
  intros Hok. constructor.
  - by apply shop_pull_pre.
  - exact init_sorted.
  - vm_compute. discriminate.
  - intros id Hid. by apply shop_supply.
  - split_and!; vm_compute; try discriminate; try reflexivity; lia.
Qed.

