(* ===== verification/ValueThm.v ===== *)
(** * From the value to the cache

    The item that a storage command waits for, the bytes of the stream that become
    its value, and what is stored and answered when they have all arrived. *)

From Stdlib Require Import Ascii String SpecFloat.
From stdpp Require Import strings.
From S2P Require Import Prelude StreamThm Keeps Itoa Util Hashes StatsPrefix State Links Queues Assoc AssocSpec Slabs SlabsSpec Items ItemsSpec ItemsAccess ItemsThm ItemsPull ItemsAlloc Store StoreThm Locks Tokens TokensThm Conn ProtoText ProtoCmd Machine Wire Drive Desk DriveThm MachineThm CommandThm GetThm StoreCmdThm SetThm.

Section Value.
Context {HF : HashFn} {PR : Protocol}.
Implicit Types (z : session) (s : machine) (m : gmap (list Z) Z) (R : Z → Z) (D : queues) (k : list Z) (rs : list mc_resp) (p q : Z).

Lemma drives_snoc j n1 s1 n2 s2 n3 s3 :
  drives j n1 s1 n2 s2 → drive_step n2 s2 = Some ((false, n3), s3) → drives (S j) n1 s1 n3 s3.
Proof. induction 1; intros Hst; [eapply drives_step; [done|constructor]|]. eapply drives_step; eauto. Qed.

(** ** The abstract answer *)

(** Whether the command stores, given whether the key has a live entry. *)
Definition stores (comm : nread) (present : bool) : bool :=
  match comm with NREAD_SET => true | NREAD_ADD => negb present | NREAD_REPLACE => present | _ => false end.

Definition present z m k : bool := bool_decide (is_Some (live (z_world z) m k)).

Definition value_text z m k (comm : nread) (value : list Z) : list Z :=
  if decide (ends_line value) then (if stores comm (present z m k) then txt "STORED" else txt "NOT_STORED")
  else txt "CLIENT_ERROR bad data chunk".
Definition value_map z m k (p : Z) (comm : nread) (value : list Z) : gmap (list Z) Z :=
  if decide (ends_line value) then (if stores comm (present z m k) then <[k := p]> m else live_map (z_world z) m k) else m.

Lemma store_answer_stores comm (old : option (Z * item)) it stale :
  no_append comm → comm ≠ NREAD_CAS →
  store_answer comm old it stale = if stores comm (bool_decide (is_Some old)) then STORED else NOT_STORED.
Proof. intros [? ?] ?. destruct comm, old; done. Qed.

(** ** Filling the item *)

Lemma live_at_item (w : world) m k p it : m !! k ≠ Some p → live (w <| w_heap := <[p := it]> (w_heap w) |>) m k = live w m k.
Proof.
  intros Hne. unfold live. destruct (m !! k) as [q|]; [|done]. simpl. by rewrite lookup_insert_ne by congruence.
Qed.

Lemma filled_ok z z' m R D p it value :
  serves z m R D → held (z_world z) R p it → z_world z' = at_item z p (it <| i_data := value |>) → request z' = request z →
  serves z' m R D ∧ held (z_world z') R p (it <| i_data := value |>).
Proof.
  intros [Hok Hlk Hr] (HR & Hp & Hl) Hw Hreq. split.
  - constructor; rewrite ?Hw; [|done|unfold request in Hreq; by injection Hreq as -> _ _ _].
    unfold at_item. replace (it <| i_data := value |>) with (it <| i_cas := i_cas it |> <| i_data := value |>) by (by destruct it).
    apply wr_value_ok; [done|by left|done].
  - split_and!; [done|rewrite Hw; apply lookup_insert_eq|done].
Qed.

Lemma serves_R z m R R' D : (∀ x, R' x = R x) → serves z m R D → serves z m R' D.
Proof. intros E [Hok Hlk Hr]. constructor; [by apply (cache_ok_R _ _ R)|done|]. intros p Hp. rewrite E. by apply Hr. Qed.

(** The connection waits for a value of [n] bytes, in a machine whose socket
    delivers. *)
Record expects s m R D p k (flags exptime n : Z) (comm : nread) (nr : bool) rs r : Prop := {
  ex_serves : serves (mc_session s) m R D;
  ex_awaits : awaits (mc_session s) R p k flags exptime n comm nr;
  ex_owned : R p = 1 ∧ refs_in (chain_items (k_resps (z_conn (mc_session s)))) p = 0;
  ex_resp : k_resps (z_conn (mc_session s)) = rs ++ [r] ∧ rs_item r = NULL ∧ length (rs_wbuf r) = Z.to_nat WRITE_BUFFER_SIZE;
  ex_input : StreamThm.live s ∧ 2 ≤ n ≤ Z.of_nat (length (input s));
  ex_bound : ∀ q, m !! k = Some q → R q + 2 < 2 ^ 15
}.

Lemma value_read s m R D p k flags exptime n comm nr rs r nreqs :
  expects s m R D p k flags exptime n comm nr rs r →
  let value := take (Z.to_nat n) (input s) in
  ∃ j s1 it, drives j nreqs s nreqs s1 ∧ loaded (mc_session s1) m R D p it comm ∧ ITEM_key it = k ∧ i_data it = value ∧
    k_state (z_conn (mc_session s1)) = conn_nread ∧ k_rlbytes (z_conn (mc_session s1)) = 0 ∧
    input s1 = drop (Z.to_nat n) (input s) ∧ request (mc_session s1) = request (mc_session s) ∧
    live (z_world (mc_session s1)) m k = live (z_world (mc_session s)) m k.
Proof.
  intros [Hsv [(Hst & Hit & Hri & Hrl) (Hcmd & Hms & Hnr) (it & Hh & Hk & Hnk & Hn & _ & _ & Hc)] [HR1 Ho] _ [Hl Hlen] _] value.
  destruct (nread_ok nreqs s p it n) as (j & s1 & Hd & Hrd & Hin & _ & Hw & Hreq); [|done|lia|done|].
  { constructor; [done..|apply Hh|done|lia]. }
  fold value in Hrd, Hw. destruct (filled_ok _ _ _ _ _ _ _ _ Hsv Hh Hw Hreq) as [Hsv1 Hh1].
  pose proof Hreq as Hreq0. unfold request in Hreq0. injection Hreq0 as E1 E2 E3 _. destruct Hrd as [R1 R2 _ R4 _ _ _].
  exists j, s1, (it <| i_data := value |>). split_and!; try done.
  - constructor; [done|by rewrite R2, E2, E3|done|rewrite E1; lia|by rewrite <- Hk in Hnk|].
    unfold value. simpl. rewrite length_take. lia.
  - rewrite Hw. apply live_at_item. intros Hm. by apply (held_ne _ _ _ _ _ _ _ _ (sv_cache _ _ _ _ Hsv) Hh) in Hm.
Qed.
End Value.

(** ** The answer *)

Section Answer.
Context {HF : HashFn}.
Implicit Types (z : session) (s : machine) (m : gmap (list Z) Z) (R : Z → Z) (D : queues) (k : list Z) (rs : list mc_resp) (p q : Z).
Variable storage_get_item : Z → M session Z.
Variable past : list Z.
Variable safe_strtod : list Z → option spec_float.
Variable report_command : list token_t → M session unit.

#[local] Instance prot : Protocol := ascii_prot storage_get_item past safe_strtod report_command.

(** C3 (refinement). A storage command as a whole, from the item to the answer: when
    the command line of set, add or replace has left the connection with an item of
    [n] bytes, then, however the socket delivers the stream, the value stored is
    exactly its next [n] bytes and the bytes behind them are still to be read. If
    the value does not end in CRLF the client is told and nothing changes. If it
    does, set always stores, add only without a live entry and replace only with
    one; the key is then bound to the item with this value, and the answer is
    STORED or NOT_STORED, or none with [noreply]. All locks are free, every
    reference is counted, and the connection reads commands again. *)
Theorem value_stored s m R D p k flags exptime n comm nr rs r nreqs :
  expects s m R D p k flags exptime n comm nr rs r → no_append comm → comm ≠ NREAD_CAS →
  let value := take (Z.to_nat n) (input s) in
  ∃ j s' D' r', drives j nreqs s nreqs s' ∧
    serves (mc_session s') (value_map (mc_session s) m k p comm value) (upd R p 0) D' ∧
    input s' = drop (Z.to_nat n) (input s) ∧
    k_state (z_conn (mc_session s')) = conn_new_cmd ∧ k_item (z_conn (mc_session s')) = NULL ∧
    k_resps (z_conn (mc_session s')) = rs ++ [r'] ∧ answers r' (quiet nr (value_text (mc_session s) m k comm value)) ∧
    (ends_line value → stores comm (present (mc_session s) m k) = true →
     value_map (mc_session s) m k p comm value = <[k := p]> m ∧ i_data <$> w_heap (z_world (mc_session s')) !! p = Some value).
Proof.
  intros Hex Hna Hcas value. pose proof Hex as [_ [_ (_ & _ & Hnr) _] [HR1 _] (Er & Hi & Hb) _ HR].
  destruct (value_read s m R D p k flags exptime n comm nr rs r nreqs Hex) as
    (j & s1 & it & Hd & Hld & Hk & Hv & Hst & Hrl & Hin & Hreq & Hlive). fold value in Hv.
  unfold request in Hreq. injection Hreq as E1 _ _ E4. rewrite Er in E1. rewrite Hnr in E4. subst k.
  destruct (complete_nread_ok (mc_session s1) m R D p it comm rs r Hld Hna HR E1 Hi Hb) as
    (z2 & D2 & r2 & Hrun & Hsv2 & Er2 & Ha2 & Hst2 & Hit2 & Hval).
  pose proof (wire_complete_nread_ascii _ _ _ Hrun) as Hwire.
  assert (Hans : set_answer (mc_session s1) m it comm =
    if stores comm (present (mc_session s) m (ITEM_key it)) then STORED else NOT_STORED).
  { unfold set_answer, present. rewrite Hlive. by apply store_answer_stores. }
  assert (Hmap : set_map (mc_session s1) m p it comm = value_map (mc_session s) m (ITEM_key it) p comm value).
  { unfold set_map, value_map. rewrite Hv, Hans. unfold live_map. rewrite Hlive. by destruct (stores _ _). }
  assert (Htext : set_text (mc_session s1) m it comm = value_text (mc_session s) m (ITEM_key it) comm value).
  { unfold set_text, value_text. rewrite Hv, Hans. by destruct (stores _ _). }
  exists (S j), (s1 <| mc_session := z2 |>), D2, r2. split_and!.
  - eapply drives_snoc; [exact Hd|]. apply drive_nread; [exact Hst|]. unfold state_nread.
    rewrite (bind_run (gets _) _ s1 _ s1 eq_refl), Hrl. change (0 =? 0) with true. cbv iota.
    unfold Z_. munfold. change complete_nread with complete_nread_ascii. by rewrite Hrun.
  - rewrite <- Hmap. apply (serves_R _ _ (upd R p (R p - 1))); [|done]. intros x. unfold upd. destruct (x =? p); lia.
  - rewrite <- Hin. unfold input. simpl. f_equal. unfold same_wire, wire in Hwire. congruence.
  - done.
  - done.
  - done.
  - rewrite <- Htext, <- E4. exact Ha2.
  - intros Hend Hs. rewrite Hv in Hval. destruct Hval as [Hm Hd2]; [by rewrite Hans, Hs|done|]. by rewrite <- Hmap.
Qed.
End Answer.

(** ** On the small server *)

#[local] Existing Instance jenkins_fn.

(** A value for the second item of the key "a", in two reads. *)
Definition value_reads : net := mkNet [Got [50; 13]; Got [10; 103]] [] [] [] 0 0.
Definition value_machine : machine :=
  desk_machine shop_linked (idle <| k_state := conn_nread |> <| k_item := 4192 |> <| k_ritem := (4192, 0) |> <| k_rlbytes := 3 |>
    <| k_cmd := Some NREAD_SET |> <| k_resps := [fresh_resp] |>) value_reads.

Lemma value_machine_expects : ∃ D, expects value_machine {[ [97] := 4096 ]} shop_refs D 4192 [97]
  (FLAGS_CONV shop_second) (i_exptime shop_second) 3 NREAD_SET false [] fresh_resp.
Proof.
  destruct shop_linked_ok as (D & Hok & _). exists D. constructor.
  - constructor; [exact Hok|reflexivity|]. intros p Hp. assert (E : refs_in (chain_items (k_resps (z_conn (mc_session value_machine)))) p = 0).
    { change (refs_in (chain_items ([] ++ [fresh_resp])) p = 0). by rewrite refs_in_null. }
    rewrite E. unfold shop_refs. by destruct ((p =? 4096) || (p =? 4192)).
  - constructor; [by split_and!|by split_and!|]. exists shop_second. split_and!; try reflexivity. exact shop_held2.
  - split; reflexivity.
  - split_and!; [reflexivity|reflexivity|apply length_fresh].
  - split; [|vm_compute; split; discriminate]. unfold StreamThm.live. repeat constructor; eexists; (split; [reflexivity|discriminate]).
  - intros q Hq. rewrite lookup_singleton_eq in Hq. injection Hq as <-. reflexivity.
Qed.

Lemma value_stored_witness :
  ∃ j s' D' r', drives (PR := desk_prot) j 20 value_machine 20 s' ∧
    serves (mc_session s') {[ [97] := 4192 ]} (upd shop_refs 4192 0) D' ∧ input s' = [103] ∧
    k_resps (z_conn (mc_session s')) = [r'] ∧ answers r' (txt "STORED" ++ CRLF) ∧
    i_data <$> w_heap (z_world (mc_session s')) !! 4192 = Some [50; 13; 10].
Proof.
  destruct value_machine_expects as (D & Hex).
  destruct (value_stored no_store [0] (λ _, None) no_report value_machine {[ [97] := 4096 ]} shop_refs D 4192 [97] _ _ 3 NREAD_SET
    false [] fresh_resp 20 Hex) as (j & s' & D' & r' & H1 & H2 & H3 & H4 & H5 & H6 & H7 & H8); [split; discriminate|discriminate|].
  exists j, s', D', r'. destruct H8 as [Hm Hd]; [reflexivity|reflexivity|]. rewrite Hm, insert_singleton_eq in H2. by split_and!.
Defined.
