(* ===== verification/BinStoreThm.v ===== *)
(** * The binary storage commands

    The end of an upload: the line end that the protocol does not send is written
    behind the value, the item is stored, the client is told, and the connection
    gives its reference back. *)

From Stdlib Require Import Ascii String SpecFloat.
From stdpp Require Import strings.
From S2P Require Import Prelude StreamThm Keeps Itoa Util Hashes StatsPrefix State Links Queues Assoc AssocSpec Slabs SlabsSpec Items ItemsSpec ItemsAccess ItemsThm Store StoreThm Locks Tokens TokensThm Conn ProtoText ProtoCmd ProtoBin Machine Wire Drive Desk DriveThm MachineThm CommandThm GetThm ProtoBinThm StoreCmdThm SetThm ValueThm.

Section BinStore.
Context {HF : HashFn}.
Implicit Types (z : session) (m : gmap (list Z) Z) (R : Z → Z) (D : queues) (k : list Z) (rs : list mc_resp) (p q : Z) (h : bin_header).

(** The item with its line end. *)
Definition closed (it : item) : item := it <| i_data := take (length (i_data it) - 2) (i_data it) ++ CRLF |>.

Lemma length_closed it : (2 ≤ length (i_data it))%nat → length (i_data (closed it)) = length (i_data it).
Proof. intros H. unfold closed. simpl. rewrite length_app, length_take. simpl. lia. Qed.

Lemma bin_line_end_run z h c p it ritem :
  w_heap (z_world z) !! p = Some it → flag (i_it_flags it) ITEM_CHUNKED = false →
  Z.of_nat (length (i_data it)) = i_nbytes it → 2 ≤ i_nbytes it →
  bin_line_end p it ritem (mkBin z h c) = Some (tt, mkBin (z <| z_world := at_item z p (closed it) |>) h c).
Proof.
  intros Hp Hc Hl Hn. unfold bin_line_end. rewrite Hc. cbn [negb]. apply Wb_run. unfold data_write.
  rewrite (bind_run _ _ _ _ _ (load_ok _ _ _ Hp)), (proj2 (Z.leb_le 0 _)) by lia. change (Z.of_nat (length [13; 10])) with 2.
  rewrite (proj2 (Z.leb_le _ (i_nbytes it))) by lia. cbn [andb]. rewrite (wr_ok _ _ _ _ Hp). unfold at_item, closed. do 5 f_equal.
  rewrite resize_all_alt by lia. unfold blit, CRLF. replace (Z.to_nat (i_nbytes it - 2)) with (length (i_data it) - 2)%nat by lia.
  rewrite (drop_ge (i_data it)) by (simpl; lia). done.
Qed.

(** An entry of the map keeps its header when a reference to it is given back. *)
Lemma item_remove_kept s m R D p it k :
  cache_ok s m R D → w_locks s = ∅ → 0 < R p → m !! k = Some p → w_heap s !! p = Some it →
  ∃ s', item_remove p s = Some (tt, s') ∧ w_heap s' !! p = Some (it <| i_refcount := i_refcount it - 1 |>).
Proof.
  intros Hok Hlk HR Hm Hp. set (s1 := s <| w_locks := {[item_lock_index s (hash (ITEM_key it))]} |>).
  destruct (do_item_remove_ok s1 m R D p (cache_ok_locks _ _ _ _ _ Hok) HR) as (s2 & D2 & Hrun & _ & _ & _ & _ & _ & _ & Hkeep).
  exists (s2 <| w_locks := ∅ |>). split.
  - unfold item_remove, hash_of. rewrite bind_assoc, (bind_run _ _ _ _ _ (load_ok _ _ _ Hp)).
    exact (locked_run s (ITEM_key it) _ _ _ Hlk (locks_do_item_remove p) Hrun).
  - apply (Hkeep it); [right; by apply (co_mapped _ _ _ _ Hok k)|done].
Qed.

(** ** The status of a store *)

Definition store_status (comm : nread) (st : store_item_type) : bin_status :=
  match st with STORED => SUCCESS | EXISTS => KEY_EEXISTS | NOT_FOUND => KEY_ENOENT | _ => not_stored_status comm end.

Definition store_reply (op : Z) (opaque : list Z) (nr : bool) (e : bin_status) (cas : Z) : list Z :=
  match e with SUCCESS => if nr then [] else reply op opaque SUCCESS [] [] [] cas | _ => error_reply op opaque e end.

Lemma store_status_stored comm st : is_stored st = true → store_status comm st = SUCCESS ∧ st = STORED.
Proof. by destruct st. Qed.

(** The answer to a store. *)
Lemma store_response z h c rs comm st cas :
  k_resps (z_conn z) = rs ++ [fresh_resp] → length (h_opaque h) = 4%nat → c ≠ CMD_GET → c ≠ CMD_GETK →
  c_cas (w_conn (z_world z)) = cas → (is_stored st = false → cas = 0) →
  ∃ r', (match st with
       | STORED => write_bin_response no_body 0 0 0
       | EXISTS => write_bin_error KEY_EEXISTS None 0
       | NOT_FOUND => write_bin_error KEY_ENOENT None 0
       | _ => write_bin_error (not_stored_status comm) None 0
       end) (mkBin z h c) =
      Some (tt, mkBin (z <| z_conn := (z_conn z) <| k_resps := rs ++ [r'] |> <| k_state := status_state (store_status comm st) |> |>) h c) ∧
    answers r' (store_reply (h_opcode h) (h_opaque h) (k_noreply (z_conn z)) (store_status comm st) cas).
Proof.
  intros Er Ho Hg Hgk Hcas Hst.
  assert (Herr : is_stored st = false → ∀ e t, error_text e = Some t → ∃ r', write_bin_error e None 0 (mkBin z h c) =
      Some (tt, mkBin (z <| z_conn := (z_conn z) <| k_resps := rs ++ [r'] |> <| k_state := conn_mwrite |> |>) h c) ∧
    answers r' (error_reply (h_opcode h) (h_opaque h) e)).
  { intros Hn e t Ht. apply (write_bin_error_ok z h c rs fresh_resp e t 0 Er eq_refl Ho length_fresh); [rewrite Hcas; by apply Hst|done]. }
  destruct st; cbn [store_status].
  2: by apply (write_bin_response_ok z h c rs fresh_resp cas).
  all: try (destruct comm; by eapply Herr).
  all: by eapply Herr.
Qed.

(** ** The end of the upload *)

(** The connection has read a value: the last two bytes of the item are free. *)
Record uploaded z m R D p (it : item) (comm : nread) rs : Prop := {
  up_loaded : loaded z m R D p it comm;
  up_cas : c_cas (w_conn (z_world z)) = 0;
  up_resps : k_resps (z_conn z) = rs ++ [fresh_resp]
}.

Definition store_map z m (p : Z) (it : item) (comm : nread) : gmap (list Z) Z :=
  if is_stored (set_answer z m it comm) then <[ITEM_key it := p]> m else live_map (z_world z) m (ITEM_key it).

(** The line end is written and the item stored. *)
Lemma close_and_store z m R D p it comm rs h c ritem :
  uploaded z m R D p it comm rs → no_append comm → (∀ q, m !! ITEM_key it = Some q → R q + 2 < 2 ^ 15) →
  let st := set_answer z m it comm in
  ∃ z1 s' D', bin_line_end p it ritem (mkBin z h c) = Some (tt, mkBin z1 h c) ∧ z_conn z1 = z_conn z ∧
    Wb (store_item p comm) (mkBin z1 h c) = Some (st, mkBin (z1 <| z_world := s' |>) h c) ∧
    w_locks s' = ∅ ∧ cache_ok s' (store_map z m p it comm) R D' ∧
    (st = STORED → ∃ it', w_heap s' !! p = Some it' ∧ i_data it' = i_data (closed it) ∧ c_cas (w_conn s') = ITEM_get_cas it' ∧
       (flag (i_it_flags it) ITEM_CAS = true → ITEM_get_cas it' = next_cas (z_world z))) ∧
    (is_stored st = false → c_cas (w_conn s') = 0).
Proof.
  intros [[Hsv _ Hh _ [Hc Hnk] [Hl Hn]] Hcas _] Hna HR st. pose proof (proj1 (proj2 Hh)) as Hp.
  set (z1 := z <| z_world := at_item z p (closed it) |>).
  destruct (filled_ok z z1 m R D p it (take (length (i_data it) - 2) (i_data it) ++ CRLF) Hsv Hh eq_refl eq_refl) as [[Hok1 Hlk1 _] Hh1].
  fold (closed it) in Hh1. assert (Hne : m !! ITEM_key it ≠ Some p).
  { intros E. by apply (held_ne _ _ _ _ _ _ _ _ (sv_cache _ _ _ _ Hsv) Hh) in E. }
  pose proof (live_at_item (z_world z) m (ITEM_key it) p (closed it) Hne) as Elive.
  destruct (store_item_ok (z_world z1) m R D p (closed it) comm Hok1 Hlk1 Hh1 Hna Hnk HR) as (s' & D' & Hrun & Hlk' & Hok' & Hst & Hun).
  assert (Est : store_answer comm (live (z_world z1) m (ITEM_key (closed it))) (closed it) (c_set_stale (w_conn (z_world z1))) = st).
  { change (live (z_world z1) m (ITEM_key (closed it))) with (live (z_world z1) m (ITEM_key it)). unfold st, set_answer. rewrite <- Elive. by destruct comm. }
  rewrite Est in *. exists z1, s', D'. split_and!; [by apply bin_line_end_run|done|by apply Wb_run|done| |exact Hst|].
  - unfold store_map. fold st. unfold live_map in *. change (live (z_world z1) m (ITEM_key (closed it))) with (live (z_world z1) m (ITEM_key it)) in Hok'.
    by rewrite <- Elive.
  - intros E. rewrite (Hun E). exact Hcas.
Qed.

End BinStore.

(** ** On the small server *)

#[local] Existing Instance jenkins_fn.

(** The second item of the shop has been uploaded for a replace. *)
Definition upload : conn := idle <| k_resps := [fresh_resp] |> <| k_item := 4192 |> <| k_cmd := Some NREAD_REPLACE |>.
Definition upload_header : bin_header := mkHeader 128 CMD_REPLACE 1 8 10 [1; 2; 3; 4] 0.
Definition shop_b : item := default zero_item (w_heap shop_linked !! 4192).

Lemma shop_uploaded : ∃ D, uploaded (desk shop_linked upload) {[ [97] := 4096 ]} shop_refs D 4192 shop_b NREAD_REPLACE [].
Proof.
  destruct shop_linked_ok as (D & Hok & _). exists D. constructor; [|reflexivity|reflexivity]. constructor.
  - constructor; [exact Hok|reflexivity|]. intros p Hp. change (chain_items (k_resps (z_conn (desk shop_linked upload)))) with ([] ++ [NULL]).
    rewrite refs_in_snoc, decide_False by done. change (refs_in [] p) with 0. unfold shop_refs. by destruct ((p =? 4096) || (p =? 4192)).
  - by split_and!.
  - exact shop_held2.
  - vm_compute. reflexivity.
  - by vm_compute.
  - vm_compute. split; [reflexivity|discriminate].
Qed.

